(* ===== verification/_CoqProject ===== *)
-Q . S2P
Prelude.v
Checksum.v
Frames.v
Sticky.v
DynBuf.v
Fluxwan.v
Ipv4.v
CLib.v
Json.v
JsonText.v
ProxyUri.v
System.v
Floats.v
Samples.v
Netlink.v
Wifi.v
Firewall.v
NetApply.v
WebCore.v
ConfigLoad.v
ConfigSave.v
JsonBlocks.v
ConfigSpec.v
ConfigLan.v
ConfigWan.v
ConfigServices.v
ConfigRound.v
ConfigStore.v
WebApi.v
WebRoutes.v
ProxyManager.v
PppoeServer.v
WebImport.v
Maglev.v
Bpf.v
XdpRouter.v
XdpFrames.v
RouterSessions.v
HealthChecker.v
Dispatcher.v
BpfLoader.v
WanManager.v
ControlPlane.v
Prober.v
Nat46.v
Dns64.v
Base64.v
Sha2.v
Field25519.v
ModL.v
Ed25519.v
Ed25519Spec.v
X25519.v
License.v
VpnManager.v
PppoeClient.v
Dhcp.v
