(* ===== verification/Prelude.v ===== *)
(** * FluxWAN: a verification development

    FluxWAN is a multi-uplink router.  Its data plane is a set of XDP programs ([src/bpf]) that
    pick an uplink for each packet.  Its control plane is a daemon ([src/src]) that probes the
    uplinks, computes weights and hash rings, writes them into the maps of the XDP programs, sets up
    the kernel (routes, firewall, shaping), runs the services of the LAN (DHCP, DNS, PPPoE, VPN,
    proxies), and is configured by a file and by a web server.  Most of the daemon shares one
    configuration object, [fluxwan_config_t].

    The development follows a packet from end to end (probe results become uplink states, states
    become weights and rings, these are published to the kernel maps, and the XDP router reads them
    for each frame) and a setting from end to end (a request changes the shared configuration, which
    is written to the file and read back by a restart, and applied as commands).

    ** Shared files

    - [Prelude]: machine integers, byte buffers with faulting loads and stores, the [wp] layer, loops.
    - [Fluxwan], [Ipv4], [CLib], [Floats]: the types of [fluxwan.h], address text, the string
      functions of the C library, and binary floating point.
    - [System]: what the daemon does to the operating system as a trace of calls, what the system
      answers as a function of the calls so far, and the monad of programs over both.
    - [Checksum], [Frames]: Internet checksums, and stores into frames.
    - [Samples]: concrete configurations used by the witnesses.

    ** Data plane

    - [Bpf]: the structures and maps shared with the kernel; the LRU session maps are known only
      through the interface [BpfHash] and its laws.
    - [XdpRouter]: the router ([xdp_router.bpf.c], [xdp_control_map.h], [xdp_introspection.h],
      [xdp_flow_debug.h]).  [XdpFrames] and [RouterSessions] hold its theorems.
    - [Dispatcher], [HealthChecker], [Nat46]: [xdp_dispatcher.bpf.c], [xdp_healthchecker.bpf.c],
      [xdp_nat46.bpf.c].

    ** Control plane

    - [Maglev], [WanManager]: [wan_manager.c].  [BpfLoader]: [bpf_loader.c].  [Prober]: [prober.c].
      [ControlPlane] joins them to the router.
    - [Sticky], [DynBuf]: [sticky.c], [dyn_buf.c].
    - [Netlink], [Wifi], [Firewall], [NetApply]: [netlink_manager.c], [wifi_manager.c] and, in two
      files, [net_apply.c].  Rules of the firewall are data that is rendered to commands.
    - [PppoeClient]: [pppoe_manager.c]; its tick makes the events that [WanManager] takes.
    - [Dhcp], [Dns64], [PppoeServer], [VpnManager]: [dhcp_server.c], [dns64_daemon.c],
      [pppoe_server.c], [vpn_manager.c].
    - [ProxyUri], [ProxyManager]: [proxy_manager.c].
    - [Base64], [Sha2], [Field25519], [ModL], [Ed25519]: [crypto_ed25519.c]; [Ed25519Spec] and
      [X25519] relate it to the RFCs.  [License]: [license_manager.c].

    ** Configuration and web server

    - [Json], [JsonText], [JsonBlocks]: the text searches that stand for a JSON parser, and what they
      find in printed text.
    - [ConfigLoad], [ConfigSave]: [config.c].  [ConfigSpec], [ConfigLan], [ConfigWan],
      [ConfigServices], [ConfigRound], [ConfigStore]: the round trip of the file, block by block.
    - [WebCore], [WebApi], [WebRoutes], [WebImport]: [web_server.c]: requests, sessions and logins;
      the handlers that change the configuration; the choice of the handler, updates and captures;
      the import of subscribers.

    ** How code is modelled

    An unsigned integer of [w] bits is a [Z] with its wrap-around written out.  A C string is the list
    of its bytes; writing into an array of [n] bytes keeps [n - 1] of them.  A frame is a list of
    bytes; a load or a store outside it is [None], so that a result [Some] is a proof of memory
    safety.  Stateful code passes its state, or is a program of [System].  Answers of the kernel
    (clock, allocation, sockets, files, commands) are arguments.  Programs that are not part of the
    sources are known by what they print and return.  Log lines are kept only where a theorem is about
    them ([WanManager]).

    ** Fuel and bounds

    Loops over text and bytes take the length of what they read as fuel, and each turn consumes at
    least one byte of it: Base64, the SHA blocks, the JSON searches, the lines of a file, the CSV rows,
    the netlink attributes, the labels of a DNS name.  The rings take [ring_fuel] = 65537, the number
    of slots, and the completeness theorem of [Maglev] shows that it suffices.  The pool of [Dhcp]
    takes its number of addresses, and [allocation_terminates] shows that this is enough.  Checksum
    folding has fuel for the carries that a sum of 16-bit words can produce, the doubling of [DynBuf]
    64 turns, one for each bit of a [size_t].  Decimal and hexadecimal numbers have at most 20 and 16
    digits.

    ** What the theorems show

    - Traffic: with a licence, new flows go to working uplinks, unless an entry that an earlier configuration
      left in the table is picked; packets with the key of a stored session keep its uplink while it works and are rebound
      when it fails; the router never leaves the frame; the shares of the rings and of the firewall's
      marks follow the weights.
    - Health: a dead link is declared down; PPPoE sessions keep their shape and are redialled when
      their delay is over; for a proxy that counts as connected, the manager and the configuration
      record the same process number.
    - Frames: source NAT and address translation are well formed, and NAT46 is undone for the next
      packet of the way back; checksum updates equal recomputation; the dispatcher assigns new flows of TCP and of UDP
      other than QUIC the uplink that the router selects, on tables without policies and prefixes for them.
    - Configuration: what is saved is what a restart reads; what the web server applies is all or
      nothing; the uplinks and the tables that requests change stay within their arrays; with
      authentication on, only requests with the session token act; failed logins lock out.
    - Services: DHCP finds an address whenever one is free and its replies read back; the secrets of
      the PPPoE server follow its accounts, whose expiry is enforced, and its import reads the table that it
      exports, but for dates of creation and empty passwords and profiles; the file of a VPN device that is on is written
      without a deleted peer.
    - Cryptography: SHA-2 against FIPS 180-4, X25519 against RFC 7748, the signature check against a
      description on numbers; licences are signed.
    - Defects: some theorems state where the code departs from its intent, such as the failover
      callback that no probe result triggers, the VPN join that cannot succeed because children are
      reaped by the kernel, or the empty token that authorises every request.

    ** What is not modelled

    - [net_discovery.c], [diagnostics.c], [main.c]: the guess at the role of each interface, the speed
      and latency tests, the order of the start and the poll loop.  The components that the loop calls
      are modelled, and the theorems on them hold for any order of calls that their steps allow.
    - The branches of [web_server.c] that print the state of the other components, and its threads:
      the handlers are modelled one request at a time, though the source does not lock the
      configuration.
    - [tools/huawei_proxy.c], a stand-alone tool, and [ui_assets.h], which is generated.
    - The branches for other systems than Linux. *)

From stdpp Require Export base tactics numbers list gmap strings relations.
From Stdlib Require Export ZArith Lia.

#[global] Open Scope Z_scope.

(** ** Machine integers

    A C unsigned integer of width [w] is a [Z] in [0, 2^w); the functions below
    are the conversions the C language performs on assignment. *)

Definition u8 (x : Z) : Z := x mod 256.
Definition u16 (x : Z) : Z := x mod 65536.
Definition u32 (x : Z) : Z := x mod 4294967296.
Definition u64 (x : Z) : Z := x mod 18446744073709551616.

Definition is_u8 (x : Z) : Prop := 0 <= x < 256.
Definition is_u16 (x : Z) : Prop := 0 <= x < 65536.
Definition is_u32 (x : Z) : Prop := 0 <= x < 4294967296.
Definition is_u64 (x : Z) : Prop := 0 <= x < 18446744073709551616.

(** C spelling of the bitwise operators, with C's relative precedences. *)
Declare Scope c_scope.
Delimit Scope c_scope with C.
Infix ".<<" := Z.shiftl (at level 51, left associativity) : c_scope.
Infix ".>>" := Z.shiftr (at level 51, left associativity) : c_scope.
Infix ".&" := Z.land (at level 52, left associativity) : c_scope.
Infix ".^" := Z.lxor (at level 53, left associativity) : c_scope.
Infix ".|" := Z.lor (at level 54, left associativity) : c_scope.
#[global] Open Scope c_scope.

Ltac Zify.zify_post_hook ::= Z.div_mod_to_equations.

Lemma u8_range x : is_u8 (u8 x).
Proof. apply Z.mod_pos_bound; lia. Qed.
Lemma u16_range x : is_u16 (u16 x).
Proof. apply Z.mod_pos_bound; lia. Qed.
Lemma u32_range x : is_u32 (u32 x).
Proof. apply Z.mod_pos_bound; lia. Qed.
Lemma u64_range x : is_u64 (u64 x).
Proof. apply Z.mod_pos_bound; lia. Qed.

Lemma u8_small x : is_u8 x -> u8 x = x.
Proof. apply Z.mod_small. Qed.
Lemma u16_small x : is_u16 x -> u16 x = x.
Proof. apply Z.mod_small. Qed.
Lemma u32_small x : is_u32 x -> u32 x = x.
Proof. apply Z.mod_small. Qed.
Lemma u64_small x : is_u64 x -> u64 x = x.
Proof. apply Z.mod_small. Qed.

Create HintDb cint discriminated.
#[export] Hint Resolve u8_range u16_range u32_range u64_range : cint.

(** Disjoint bit fields add up. *)
Lemma lor_shiftl a b n : 0 <= n -> 0 <= b < 2 ^ n -> (a .<< n) .| b = a * 2 ^ n + b.
Proof.
  intros Hn Hb. rewrite <- Z.shiftl_mul_pow2 by done. rewrite <- Z.add_lor_land.
  assert (Z.land (Z.shiftl a n) b = 0) as ->; [|lia].
  apply Z.bits_inj'. intros m Hm. rewrite Z.land_spec, Z.bits_0. destruct (Z.lt_ge_cases m n).
  - by rewrite Z.shiftl_spec_low.
  - rewrite <- (Z.mod_small b (2 ^ n)) by done. by rewrite Z.mod_pow2_bits_high, andb_false_r by lia.
Qed.

(** Expose the ranges as inequalities and finish with linear arithmetic. *)
Ltac cint := unfold is_u8, is_u16, is_u32, is_u64, u8, u16, u32, u64 in *; lia.

(** Closed range and order side conditions, by evaluation. *)
Ltac by_eval := vm_compute; repeat split; (reflexivity || discriminate).

(** ** Byte order

    The supported targets (x86_64, AArch64, MIPS little endian) are little
    endian, so [htons]/[htonl] and their BPF counterparts are byte swaps. *)

Definition bswap16 (x : Z) : Z := (x mod 256) * 256 + x / 256.
Definition bswap32 (x : Z) : Z :=
  (x mod 256) * 16777216 + (x / 256 mod 256) * 65536
  + (x / 65536 mod 256) * 256 + x / 16777216.

Abbreviation htons := bswap16 (only parsing).
Abbreviation ntohs := bswap16 (only parsing).
Abbreviation htonl := bswap32 (only parsing).
Abbreviation ntohl := bswap32 (only parsing).

Lemma bswap16_range x : is_u16 x -> is_u16 (bswap16 x).
Proof. unfold bswap16. cint. Qed.
Lemma bswap16_invol x : is_u16 x -> bswap16 (bswap16 x) = x.
Proof. unfold bswap16. cint. Qed.
(** Little-endian composition of bytes, nested so that each step peels one byte. *)
Definition le16 (b0 b1 : Z) : Z := b0 + 256 * b1.
Definition le32 (b0 b1 b2 b3 : Z) : Z := b0 + 256 * (b1 + 256 * (b2 + 256 * b3)).

Lemma byte_mod a k : is_u8 a -> (a + 256 * k) mod 256 = a.
Proof. intros H. rewrite Z.mul_comm, Z.mod_add by lia. by apply Z.mod_small. Qed.
Lemma byte_div a k : is_u8 a -> (a + 256 * k) / 256 = k.
Proof. intros H. rewrite Z.mul_comm, Z.div_add, Z.div_small by (done || lia). lia. Qed.

Lemma le32_intro x :
  is_u32 x ->
  exists b0 b1 b2 b3, is_u8 b0 /\ is_u8 b1 /\ is_u8 b2 /\ is_u8 b3 /\
    x = le32 b0 b1 b2 b3.
Proof.
  intros H. exists (x mod 256), (x / 256 mod 256), (x / 256 / 256 mod 256),
    (x / 256 / 256 / 256).
  unfold le32. repeat split; try (apply Z.mod_pos_bound; lia);
    rewrite ?Z.div_div by lia; unfold is_u32 in H; try lia.
Qed.

Lemma le32_range b0 b1 b2 b3 :
  is_u8 b0 -> is_u8 b1 -> is_u8 b2 -> is_u8 b3 -> is_u32 (le32 b0 b1 b2 b3).
Proof. unfold le32, is_u8, is_u32. lia. Qed.

Lemma bswap32_le32 b0 b1 b2 b3 :
  is_u8 b0 -> is_u8 b1 -> is_u8 b2 -> is_u8 b3 ->
  bswap32 (le32 b0 b1 b2 b3) = le32 b3 b2 b1 b0.
Proof.
  intros. unfold bswap32, le32.
  change 65536 with (256 * 256). change 16777216 with (256 * 256 * 256).
  rewrite <- !Z.div_div by lia. rewrite !byte_div, !byte_mod by done. lia.
Qed.

Lemma bswap32_range x : is_u32 x -> is_u32 (bswap32 x).
Proof.
  intros (b0 & b1 & b2 & b3 & ? & ? & ? & ? & ->)%le32_intro.
  rewrite bswap32_le32 by done. by apply le32_range.
Qed.

Lemma bswap32_invol x : is_u32 x -> bswap32 (bswap32 x) = x.
Proof.
  intros (b0 & b1 & b2 & b3 & ? & ? & ? & ? & ->)%le32_intro.
  by rewrite !bswap32_le32.
Qed.

(** ** Byte buffers

    A buffer is the list of its bytes.  A load or a store outside the buffer is
    a fault, [None]; a program that never faults is memory safe.  Multi-byte
    accesses are little endian. *)

Definition ld8 (b : list Z) (i : Z) : option Z :=
  if 0 <=? i then b !! Z.to_nat i else None.
Definition ld16 (b : list Z) (i : Z) : option Z :=
  b0 ← ld8 b i; b1 ← ld8 b (i + 1); Some (le16 b0 b1).
Definition ld32 (b : list Z) (i : Z) : option Z :=
  b0 ← ld8 b i; b1 ← ld8 b (i + 1); b2 ← ld8 b (i + 2); b3 ← ld8 b (i + 3);
  Some (le32 b0 b1 b2 b3).

Definition st8 (b : list Z) (i v : Z) : option (list Z) :=
  if (0 <=? i) && (i <? Z.of_nat (length b))
  then Some (<[Z.to_nat i := u8 v]> b) else None.
Definition st16 (b : list Z) (i v : Z) : option (list Z) :=
  b ← st8 b i v; st8 b (i + 1) (v / 256).
Definition st32 (b : list Z) (i v : Z) : option (list Z) :=
  b ← st16 b i v; st16 b (i + 2) (v / 65536).

(** [memcpy] of a whole list of bytes to offset [i]. *)
Fixpoint st_bytes (b : list Z) (i : Z) (vs : list Z) : option (list Z) :=
  match vs with
  | [] => Some b
  | v :: vs => b ← st8 b i v; st_bytes b (i + 1) vs
  end.

(** [n] consecutive bytes from offset [i]. *)
Fixpoint ld_bytes (b : list Z) (i : Z) (n : nat) : option (list Z) :=
  match n with
  | O => Some []
  | S n => v ← ld8 b i; vs ← ld_bytes b (i + 1) n; Some (v :: vs)
  end.

Abbreviation blen b := (Z.of_nat (length b)).

(** Every byte of the buffer is a byte. *)
Definition bytes_ok (b : list Z) : Prop := Forall is_u8 b.

Lemma ld8_Some b i : 0 <= i < blen b -> exists v, ld8 b i = Some v.
Proof.
  intros H. unfold ld8. destruct (Z.leb_spec 0 i); [|lia].
  apply lookup_lt_is_Some_2. lia.
Qed.

Lemma ld8_inv b i v : ld8 b i = Some v -> 0 <= i < blen b.
Proof.
  unfold ld8. destruct (Z.leb_spec 0 i); [|done].
  intros Hl%lookup_lt_Some. lia.
Qed.

Lemma ld8_range b i v : bytes_ok b -> ld8 b i = Some v -> is_u8 v.
Proof.
  unfold ld8. destruct (Z.leb_spec 0 i); [|done]. intros Hb Hl.
  by apply (Forall_lookup_1 _ _ _ _ Hb Hl).
Qed.

Lemma ld16_Some b i : 0 <= i -> i + 2 <= blen b -> exists v, ld16 b i = Some v.
Proof.
  intros. unfold ld16.
  destruct (ld8_Some b i) as [? ->]; [lia|].
  destruct (ld8_Some b (i + 1)) as [? ->]; [lia|]. simpl. eauto.
Qed.

Lemma ld32_Some b i : 0 <= i -> i + 4 <= blen b -> exists v, ld32 b i = Some v.
Proof.
  intros. unfold ld32.
  destruct (ld8_Some b i) as [? ->]; [lia|].
  destruct (ld8_Some b (i + 1)) as [? ->]; [lia|].
  destruct (ld8_Some b (i + 2)) as [? ->]; [lia|].
  destruct (ld8_Some b (i + 3)) as [? ->]; [lia|]. simpl. eauto.
Qed.

Lemma ld16_range b i v : bytes_ok b -> ld16 b i = Some v -> is_u16 v.
Proof.
  unfold ld16. intros Hb.
  destruct (ld8 b i) as [b0|] eqn:E0; [|done].
  destruct (ld8 b (i + 1)) as [b1|] eqn:E1; [|done].
  simpl. intros [= <-]. apply ld8_range in E0, E1; try done.
  unfold le16, is_u8, is_u16 in *. lia.
Qed.

Lemma ld32_range b i v : bytes_ok b -> ld32 b i = Some v -> is_u32 v.
Proof.
  unfold ld32. intros Hb.
  destruct (ld8 b i) as [b0|] eqn:E0; [|done].
  destruct (ld8 b (i + 1)) as [b1|] eqn:E1; [|done].
  destruct (ld8 b (i + 2)) as [b2|] eqn:E2; [|done].
  destruct (ld8 b (i + 3)) as [b3|] eqn:E3; [|done].
  simpl. intros [= <-]. apply ld8_range in E0, E1, E2, E3; try done.
  by apply le32_range.
Qed.

Lemma st8_Some b i v : 0 <= i < blen b -> exists b', st8 b i v = Some b'.
Proof.
  intros. unfold st8.
  destruct (Z.leb_spec 0 i), (Z.ltb_spec i (blen b)); simpl; [eauto|lia..].
Qed.

Lemma st8_inv b i v b' :
  st8 b i v = Some b' -> 0 <= i < blen b /\ b' = <[Z.to_nat i := u8 v]> b.
Proof.
  unfold st8.
  destruct (Z.leb_spec 0 i), (Z.ltb_spec i (blen b)); simpl; [|done..].
  intros [= <-]. auto.
Qed.

Lemma st8_length b i v b' : st8 b i v = Some b' -> length b' = length b.
Proof. intros [_ ->]%st8_inv. apply length_insert. Qed.

Lemma st8_ok b i v b' : bytes_ok b -> st8 b i v = Some b' -> bytes_ok b'.
Proof. intros Hb [_ ->]%st8_inv. apply Forall_insert; auto using u8_range. Qed.

Lemma ld8_st8_eq b i v b' : st8 b i v = Some b' -> ld8 b' i = Some (u8 v).
Proof.
  intros [H ->]%st8_inv. unfold ld8. destruct (Z.leb_spec 0 i); [|lia].
  apply list_lookup_insert_eq. lia.
Qed.

Lemma ld8_st8_ne b i j v b' : st8 b i v = Some b' -> i <> j -> ld8 b' j = ld8 b j.
Proof.
  intros [H ->]%st8_inv Hne. unfold ld8. destruct (Z.leb_spec 0 j); [|done].
  apply list_lookup_insert_ne. lia.
Qed.

Lemma st16_Some b i v : 0 <= i -> i + 2 <= blen b -> exists b', st16 b i v = Some b'.
Proof.
  intros. unfold st16. destruct (st8_Some b i v) as [b1 E]; [lia|]. rewrite E. simpl.
  apply st8_Some. apply st8_length in E. lia.
Qed.

Lemma st16_inv b i v b' :
  st16 b i v = Some b' ->
  exists b1, st8 b i v = Some b1 /\ st8 b1 (i + 1) (v / 256) = Some b'.
Proof. unfold st16. destruct (st8 b i v) as [b1|]; [|done]. simpl. eauto. Qed.

Lemma st16_length b i v b' : st16 b i v = Some b' -> length b' = length b.
Proof. intros (b1 & E1%st8_length & E2%st8_length)%st16_inv. congruence. Qed.

Lemma st16_ok b i v b' : bytes_ok b -> st16 b i v = Some b' -> bytes_ok b'.
Proof. intros Hb (b1 & E1 & E2)%st16_inv. eauto using st8_ok. Qed.

Lemma ld8_st16_ne b i j v b' :
  st16 b i v = Some b' -> j < i \/ i + 2 <= j -> ld8 b' j = ld8 b j.
Proof.
  intros (b1 & E1 & E2)%st16_inv Hj.
  rewrite (ld8_st8_ne _ _ j _ _ E2) by lia.
  by rewrite (ld8_st8_ne _ _ j _ _ E1) by lia.
Qed.

Lemma ld16_st16_eq b i v b' :
  st16 b i v = Some b' -> is_u16 v -> ld16 b' i = Some v.
Proof.
  intros (b1 & E1 & E2)%st16_inv Hv. unfold ld16.
  rewrite (ld8_st8_ne _ _ i _ _ E2), (ld8_st8_eq _ _ _ _ E1) by lia.
  rewrite (ld8_st8_eq _ _ _ _ E2). simpl. f_equal. unfold le16. cint.
Qed.

Lemma ld16_st16_ne b i j v b' :
  st16 b i v = Some b' -> j + 2 <= i \/ i + 2 <= j -> ld16 b' j = ld16 b j.
Proof.
  intros E Hj. unfold ld16. rewrite (ld8_st16_ne _ _ j _ _ E) by lia.
  by rewrite (ld8_st16_ne _ _ (j + 1) _ _ E) by lia.
Qed.

(** ** Little-endian numbers *)

Fixpoint le_bytes (n : nat) (v : Z) : list Z :=
  match n with
  | O => []
  | S n => v mod 256 :: le_bytes n (v / 256)
  end.

(** The number that bytes spell. *)
Fixpoint le_val (l : list Z) : Z :=
  match l with
  | [] => 0
  | x :: l => x + 256 * le_val l
  end.

Lemma le_bytes_length n v : length (le_bytes n v) = n.
Proof. revert v. induction n as [|n IH]; intros v; cbn; [done|]. by rewrite IH. Qed.

Lemma le_bytes_ok n v : bytes_ok (le_bytes n v).
Proof. revert v. induction n as [|n IH]; intros v; cbn; constructor; [cint|apply IH]. Qed.

Lemma le_val_bytes n v : le_val (le_bytes n v) = v mod 256 ^ Z.of_nat n.
Proof.
  revert v. induction n as [|n IH]; intros v; cbn [le_bytes le_val]; [by rewrite Z.mod_1_r|].
  rewrite IH, Nat2Z.inj_succ, Z.pow_succ_r by lia.
  rewrite Z.rem_mul_r by (assert (0 < 256 ^ Z.of_nat n) by (apply Z.pow_pos_nonneg; lia); lia). lia.
Qed.

Lemma le_val_range l : bytes_ok l -> 0 <= le_val l < 256 ^ Z.of_nat (length l).
Proof.
  induction 1 as [|x l Hx Hl IH]; cbn [le_val length]; [lia|].
  rewrite Nat2Z.inj_succ, Z.pow_succ_r by lia. cint.
Qed.

Lemma le_val_inj a b : bytes_ok a -> bytes_ok b -> length a = length b -> le_val a = le_val b -> a = b.
Proof.
  intros Ha. revert b. induction Ha as [|x a Hx Ha IH]; intros [|y b] Hb Hl E; try done.
  apply Forall_cons in Hb as [Hy Hb]. cbn in Hl, E. f_equal; [cint|]. apply IH; [done|lia|cint].
Qed.

Lemma le_bytes_inj n v w :
  0 <= v < 256 ^ Z.of_nat n -> 0 <= w < 256 ^ Z.of_nat n -> le_bytes n v = le_bytes n w -> v = w.
Proof.
  intros Hv Hw E. apply (f_equal le_val) in E. rewrite !le_val_bytes in E.
  by rewrite !Z.mod_small in E.
Qed.

Lemma le_val_app l1 l2 : le_val (l1 ++ l2) = le_val l1 + 256 ^ Z.of_nat (length l1) * le_val l2.
Proof.
  induction l1 as [|x l1 IH]; cbn [app le_val length]; [lia|].
  rewrite IH, Nat2Z.inj_succ, Z.pow_succ_r by lia. lia.
Qed.

(** ** Strings

    A C string is the list of its bytes before the terminating NUL. *)

Fixpoint bytes_of_string (s : string) : list Z :=
  match s with
  | EmptyString => []
  | String a s => Z.of_N (Ascii.N_of_ascii a) :: bytes_of_string s
  end.
Coercion bytes_of_string : string >-> list.

(** A statement about every byte, by evaluation. *)
Lemma byte_cases (P : Z -> bool) :
  forallb P (Z.of_nat <$> seq 0 256) = true -> forall x, is_u8 x -> P x = true.
Proof.
  intros H x Hx. rewrite forallb_forall in H. apply H. apply in_map_iff.
  exists (Z.to_nat x). unfold is_u8 in Hx. split; [lia|]. apply in_seq. lia.
Qed.

(** ** Loops *)

(** [for (i = lo; i < lo + n; i++)] over a state. *)
Fixpoint for_loop {S} (n : nat) (i : Z) (f : Z -> S -> S) (s : S) : S :=
  match n with
  | O => s
  | Datatypes.S n => for_loop n (i + 1) f (f i s)
  end.

(** A loop invariant indexed by the counter. *)
Lemma for_loop_ind {S} (P : Z -> S -> Prop) (f : Z -> S -> S) n i s :
  P i s ->
  (forall j s, i <= j < i + Z.of_nat n -> P j s -> P (j + 1) (f j s)) ->
  P (i + Z.of_nat n) (for_loop n i f s).
Proof.
  revert i s. induction n as [|n IH]; intros i s H0 Hstep; cbn [for_loop].
  - by replace (i + Z.of_nat 0) with i by lia.
  - replace (i + Z.of_nat (Datatypes.S n)) with (i + 1 + Z.of_nat n) by lia.
    apply IH; [apply Hstep; [lia|done]|]. intros j s' Hj. apply Hstep. lia.
Qed.

(** Two loops that keep a relation. *)
Lemma for_loop_rel_in {S1 S2} (R : S1 -> S2 -> Prop) f1 f2 n i s1 s2 :
  R s1 s2 -> (forall j a b, i <= j < i + Z.of_nat n -> R a b -> R (f1 j a) (f2 j b)) ->
  R (for_loop n i f1 s1) (for_loop n i f2 s2).
Proof.
  revert i s1 s2. induction n as [|n IH]; intros i s1 s2 H0 Hf; cbn [for_loop]; [done|].
  apply IH; [apply Hf; [lia|done]|]. intros j a b Hj. apply Hf. lia.
Qed.

Lemma for_loop_ext {S} n i (f g : Z -> S -> S) s :
  (forall j s, i <= j < i + Z.of_nat n -> f j s = g j s) -> for_loop n i f s = for_loop n i g s.
Proof.
  revert i s. induction n as [|n IH]; intros i s H; cbn [for_loop]; [done|].
  rewrite H by lia. apply IH. intros j s' Hj. apply H. lia.
Qed.

Lemma for_loop_snoc {S} n i (f : Z -> S -> S) s :
  for_loop (Datatypes.S n) i f s = f (i + Z.of_nat n) (for_loop n i f s).
Proof.
  revert i s. induction n as [|n IH]; intros i s; [cbn; by rewrite Z.add_0_r|].
  change (for_loop (Datatypes.S (Datatypes.S n)) i f s) with (for_loop (Datatypes.S n) (i + 1) f (f i s)).
  rewrite IH. cbn [for_loop]. f_equal. lia.
Qed.

(** ** Weakest preconditions

    [wp m Q]: the computation [m] does not fault and its result satisfies [Q]. *)

Definition wp {A} (m : option A) (Q : A -> Prop) : Prop :=
  match m with Some a => Q a | None => False end.

Lemma wp_ret {A} (a : A) Q : Q a -> wp (Some a) Q.
Proof. done. Qed.
Lemma wp_bind {A B} (m : option A) (k : A -> option B) Q :
  wp m (fun a => wp (k a) Q) -> wp (m ≫= k) Q.
Proof. by destruct m. Qed.
Lemma wp_mono {A} (m : option A) (P Q : A -> Prop) :
  wp m P -> (forall a, m = Some a -> P a -> Q a) -> wp m Q.
Proof. destruct m; cbn; auto. Qed.
Lemma wp_elim {A} (m : option A) Q : wp m Q -> exists a, m = Some a /\ Q a.
Proof. destruct m; cbn; [eauto|done]. Qed.
Lemma wp_intro {A} (m : option A) Q a : m = Some a -> Q a -> wp m Q.
Proof. by intros ->. Qed.

Lemma wp_ld8 b i Q : 0 <= i < blen b -> (forall v, ld8 b i = Some v -> Q v) -> wp (ld8 b i) Q.
Proof. intros H HQ. destruct (ld8_Some b i H) as [v E]. rewrite E. by apply HQ. Qed.
Lemma wp_ld16 b i Q :
  0 <= i -> i + 2 <= blen b -> (forall v, ld16 b i = Some v -> Q v) -> wp (ld16 b i) Q.
Proof. intros H H' HQ. destruct (ld16_Some b i H H') as [v E]. rewrite E. by apply HQ. Qed.
Lemma wp_ld32 b i Q :
  0 <= i -> i + 4 <= blen b -> (forall v, ld32 b i = Some v -> Q v) -> wp (ld32 b i) Q.
Proof. intros H H' HQ. destruct (ld32_Some b i H H') as [v E]. rewrite E. by apply HQ. Qed.
Lemma wp_st8 b i v Q :
  0 <= i < blen b ->
  (forall b', st8 b i v = Some b' -> length b' = length b -> Q b') -> wp (st8 b i v) Q.
Proof.
  intros H HQ. destruct (st8_Some b i v H) as [b' E]. rewrite E.
  apply HQ; [done|]. by eapply st8_length.
Qed.
Lemma wp_st16 b i v Q :
  0 <= i -> i + 2 <= blen b ->
  (forall b', st16 b i v = Some b' -> length b' = length b -> Q b') -> wp (st16 b i v) Q.
Proof.
  intros H H' HQ. destruct (st16_Some b i v H H') as [b' E]. rewrite E.
  apply HQ; [done|]. by eapply st16_length.
Qed.

Lemma st32_inv b i v b' :
  st32 b i v = Some b' ->
  exists b1, st16 b i v = Some b1 /\ st16 b1 (i + 2) (v / 65536) = Some b'.
Proof. unfold st32. destruct (st16 b i v) as [b1|]; [|done]. simpl. eauto. Qed.
Lemma st32_length b i v b' : st32 b i v = Some b' -> length b' = length b.
Proof. intros (b1 & E1%st16_length & E2%st16_length)%st32_inv. congruence. Qed.
Lemma st32_ok b i v b' : bytes_ok b -> st32 b i v = Some b' -> bytes_ok b'.
Proof. intros Hb (b1 & E1 & E2)%st32_inv. eauto using st16_ok. Qed.
Lemma wp_st32 b i v Q :
  0 <= i -> i + 4 <= blen b ->
  (forall b', st32 b i v = Some b' -> length b' = length b -> Q b') -> wp (st32 b i v) Q.
Proof.
  intros H H' HQ. unfold st32. apply wp_bind, wp_st16; [lia..|]. intros b1 E1 L1.
  apply wp_st16; [lia..|]. intros b2 E2 L2. apply HQ; [|congruence].
  unfold st32. by rewrite E1.
Qed.
Lemma st_bytes_length vs b i b' : st_bytes b i vs = Some b' -> length b' = length b.
Proof.
  revert b i. induction vs as [|v vs IH]; intros b i; cbn; [by intros [= <-]|].
  destruct (st8 b i v) as [b1|] eqn:E; [|done]. cbn. intros H%IH.
  apply st8_length in E. congruence.
Qed.
Lemma st_bytes_ok vs b i b' : bytes_ok b -> st_bytes b i vs = Some b' -> bytes_ok b'.
Proof.
  revert b i. induction vs as [|v vs IH]; intros b i Hb; cbn; [by intros [= <-]|].
  destruct (st8 b i v) as [b1|] eqn:E; [|done]. cbn. apply IH. by eapply st8_ok.
Qed.
Lemma wp_st_bytes vs b i Q :
  0 <= i -> i + blen vs <= blen b ->
  (forall b', st_bytes b i vs = Some b' -> length b' = length b -> Q b') -> wp (st_bytes b i vs) Q.
Proof.
  intros Hi Hlen HQ. assert (exists b', st_bytes b i vs = Some b') as [b' E].
  { clear HQ. revert b i Hi Hlen. induction vs as [|v vs IH]; intros b i Hi Hlen; cbn in *; [eauto|].
    destruct (st8_Some b i v) as [b1 E]; [lia|]. rewrite E. cbn.
    apply IH; [lia|]. apply st8_length in E. lia. }
  rewrite E. apply HQ; [done|]. by eapply st_bytes_length.
Qed.
Lemma wp_ld_bytes n b i Q :
  0 <= i -> i + Z.of_nat n <= blen b ->
  (forall vs, ld_bytes b i n = Some vs -> length vs = n -> Q vs) -> wp (ld_bytes b i n) Q.
Proof.
  intros Hi Hlen HQ. assert (exists vs, ld_bytes b i n = Some vs /\ length vs = n) as (vs & E & L).
  { clear HQ. revert i Hi Hlen. induction n as [|n IH]; intros i Hi Hlen; cbn; [eauto|].
    destruct (ld8_Some b i) as [v E]; [lia|]. destruct (IH (i + 1)) as (vs & E' & L); [lia..|].
    rewrite E. cbn. rewrite E'. cbn. eexists. split; [done|]. cbn. lia. }
  rewrite E. by apply HQ.
Qed.

(** Turn the boolean tests in the context into propositions. *)
Ltac bool_hyps :=
  repeat match goal with
  | H : andb _ _ = true |- _ => apply andb_true_iff in H as [? ?]
  | H : orb _ _ = false |- _ => apply orb_false_iff in H as [? ?]
  | H : negb _ = true |- _ => apply negb_true_iff in H
  | H : negb _ = false |- _ => apply negb_false_iff in H
  | H : (_ <? _) = true |- _ => apply Z.ltb_lt in H
  | H : (_ <? _) = false |- _ => apply Z.ltb_ge in H
  | H : (_ <=? _) = true |- _ => apply Z.leb_le in H
  | H : (_ <=? _) = false |- _ => apply Z.leb_gt in H
  | H : (_ =? _) = true |- _ => apply Z.eqb_eq in H
  | H : (_ =? _) = false |- _ => apply Z.eqb_neq in H
  end.

(** One symbolic step of a computation on buffers; side conditions by [lia]. *)
Ltac wp_step :=
  match goal with
  | |- wp (Some _) _ => apply wp_ret
  | |- wp (_ ≫= _) _ => apply wp_bind
  | |- wp (ld8 _ _) _ => apply wp_ld8; [lia|intros ? ?]
  | |- wp (ld16 _ _) _ => apply wp_ld16; [lia..|intros ? ?]
  | |- wp (ld32 _ _) _ => apply wp_ld32; [lia..|intros ? ?]
  | |- wp (ld_bytes _ _ _) _ => apply wp_ld_bytes; [lia..|intros ? ? ?]
  | |- wp (st8 _ _ _) _ => apply wp_st8; [lia|intros ? ? ?]
  | |- wp (st16 _ _ _) _ => apply wp_st16; [lia..|intros ? ? ?]
  | |- wp (st32 _ _ _) _ => apply wp_st32; [lia..|intros ? ? ?]
  | |- wp (st_bytes _ _ _) _ => apply wp_st_bytes; [lia..|intros ? ? ?]
  | |- wp (let _ := _ in _) _ => cbv zeta
  | |- wp (if (?a <? ?b) then _ else _) _ => destruct (Z.ltb_spec a b)
  | |- wp (if (?a <=? ?b) then _ else _) _ => destruct (Z.leb_spec a b)
  | |- wp (if (?a =? ?b) then _ else _) _ => destruct (Z.eqb_spec a b)
  | |- wp (if ?b then _ else _) _ => destruct b eqn:?; bool_hyps
  end.
