(* ===== verification/Checksum.v ===== *)
(** * Internet checksums

    Every checksum routine of the data plane and of the prober: the incremental
    updates of RFC 1624 ([csum_replace2], [csum_replace4], [csum_replace_ttl]) and
    the folding routines of [bpf/xdp_router.bpf.c], [bpf/xdp_nat46.bpf.c],
    [bpf/xdp_dispatcher.bpf.c], [bpf/xdp_healthchecker.bpf.c] and [src/prober.c].

    They are all compared with one reference, [oc_sum]: the canonical
    representative in [0, 65535] of a sum modulo 65535. *)

From S2P Require Import Prelude.

(** ** Reference: one's complement sums *)

(** The one's complement representative of a non-negative sum. *)
Definition oc_sum (s : Z) : Z := if s =? 0 then 0 else 1 + (s - 1) mod 65535.

(** One carry fold. *)
Definition fold16 (s : Z) : Z := (s .& 65535) + (s .>> 16).

(** ** Routines *)

(** [csum_replace2]: replace the 16-bit word [from] by [to]. *)
Definition csum_replace2 (csum from to : Z) : Z :=
  let c := Z.lnot csum .& 65535 in
  let c := u32 (c + (Z.lnot from .& 65535)) in
  let c := u32 (c + to) in
  let c := u32 (fold16 c) in
  let c := u32 (fold16 c) in
  u16 (Z.lnot c).

(** [csum_replace4]: replace the 32-bit word [from] by [to]. *)
Definition csum_replace4 (csum from to : Z) : Z :=
  let c := Z.lnot csum .& 65535 in
  let from_hi := from .>> 16 in
  let from_lo := from .& 65535 in
  let to_hi := to .>> 16 in
  let to_lo := to .& 65535 in
  let c := u32 (c + (Z.lnot from_hi .& 65535)) in
  let c := u32 (c + (Z.lnot from_lo .& 65535)) in
  let c := u32 (c + to_hi) in
  let c := u32 (c + to_lo) in
  let c := u32 (fold16 c) in
  let c := u32 (fold16 c) in
  u16 (Z.lnot c).

(** [csum_replace_ttl]: the new ([check], [ttl]). *)
Definition csum_replace_ttl (check ttl : Z) : Z * Z :=
  let c := u32 (check + 256) in
  (u16 ((c .& 65535) + (c .>> 16)), u8 (ttl - 1)).

(** [csum_fold_helper]: four conditional folds of a 64-bit accumulator. *)
Definition csum_fold_helper (csum : Z) : Z :=
  let step csum := if csum .>> 16 =? 0 then csum else u64 (fold16 csum) in
  u16 (Z.lnot (step (step (step (step csum))))).

(** [calc_ip_csum]: the [while (csum >> 16)] loop, with fuel. *)
Fixpoint calc_ip_csum_loop (fuel : nat) (csum : Z) : option Z :=
  if csum .>> 16 =? 0 then Some csum
  else match fuel with
       | O => None
       | S fuel => calc_ip_csum_loop fuel (u32 (fold16 csum))
       end.

(** [calc_ip_csum] on the ten words of an IPv4 header. *)
Definition calc_ip_csum (words : list Z) : option Z :=
  let csum := foldl (fun csum w => u32 (csum + w)) 0 words in
  csum ← calc_ip_csum_loop 3 csum; Some (u16 (Z.lnot (u16 csum))).

(** [checksum] of the prober: 16-bit words, then the odd trailing byte. *)
Fixpoint checksum_sum (fuel : nat) (b : list Z) (sum : Z) : Z :=
  match fuel, b with
  | S fuel, b0 :: b1 :: b => checksum_sum fuel b (u32 (sum + le16 b0 b1))
  | _, [b0] => u32 (sum + b0)
  | _, _ => sum
  end.
Definition checksum (b : list Z) : Z :=
  let sum := checksum_sum (length b) b 0 in
  let sum := u32 ((sum .>> 16) + (sum .& 65535)) in
  let sum := u32 (sum + (sum .>> 16)) in
  u16 (Z.lnot sum).

(** [icmp_csum]: at most four words. *)
Fixpoint icmp_csum_sum (n : nat) (words : list Z) (len sum : Z) : Z :=
  match n, words with
  | S n, w :: words =>
      if len <=? 0 then sum else icmp_csum_sum n words (len - 2) (u32 (sum + w))
  | _, _ => sum
  end.
Definition icmp_csum (words : list Z) (len : Z) : Z :=
  let sum := icmp_csum_sum 4 words len 0 in
  let sum := u32 ((sum .>> 16) + (sum .& 65535)) in
  let sum := u32 (sum + (sum .>> 16)) in
  u16 (Z.lnot sum).

(** ** Arithmetic of the reference *)

Lemma land_65535 x : x .& 65535 = x mod 65536.
Proof. apply (Z.land_ones x 16). lia. Qed.
Lemma shiftr_16 x : x .>> 16 = x / 65536.
Proof. apply (Z.shiftr_div_pow2 x 16). lia. Qed.
Lemma lnot_land_65535 x : is_u16 x -> Z.lnot x .& 65535 = 65535 - x.
Proof. intros. rewrite land_65535. unfold Z.lnot, is_u16 in *. lia. Qed.
Lemma u16_lnot x : is_u16 x -> u16 (Z.lnot x) = 65535 - x.
Proof. intros. unfold Z.lnot, u16, is_u16 in *. lia. Qed.

Create Rewrite HintDb csum.
#[export] Hint Rewrite land_65535 shiftr_16 : csum.

Lemma oc_sum_range s : 0 <= s -> is_u16 (oc_sum s).
Proof. unfold oc_sum, is_u16. destruct (Z.eqb_spec s 0); lia. Qed.

Lemma oc_sum_small s : is_u16 s -> oc_sum s = s.
Proof. unfold oc_sum, is_u16. destruct (Z.eqb_spec s 0); lia. Qed.

Lemma oc_sum_pos s : 0 < s -> 0 < oc_sum s.
Proof. unfold oc_sum. destruct (Z.eqb_spec s 0); lia. Qed.

(** Two sums have the same representative when they are congruent modulo 65535
    and neither, or both, are zero. *)
Lemma oc_sum_cong a b k :
  0 <= a -> 0 <= b -> a = b + 65535 * k -> (a = 0 <-> b = 0) -> oc_sum a = oc_sum b.
Proof.
  intros Ha Hb -> Hz. unfold oc_sum.
  destruct (Z.eqb_spec b 0), (Z.eqb_spec (b + 65535 * k) 0); lia.
Qed.

Lemma oc_sum_mod s : 0 <= s -> exists k, 0 <= k /\ s = oc_sum s + 65535 * k.
Proof.
  intros. unfold oc_sum. destruct (Z.eqb_spec s 0) as [->|].
  - exists 0. lia.
  - exists ((s - 1) / 65535). lia.
Qed.

Lemma fold16_spec s : 0 <= s -> oc_sum (fold16 s) = oc_sum s /\ 0 <= fold16 s.
Proof.
  intros Hs. unfold fold16. autorewrite with csum. split; [|lia].
  apply (oc_sum_cong _ _ (- (s / 65536))); lia.
Qed.

Lemma fold16_bound s b :
  0 <= s < 65536 * b -> 1 <= b -> fold16 s <= 65535 + (b - 1).
Proof. intros. unfold fold16. autorewrite with csum. nia. Qed.

(** Two folds normalise any 32-bit sum. *)
Lemma fold16_twice s : is_u32 s -> fold16 (fold16 s) = oc_sum s.
Proof.
  intros Hs. unfold is_u32 in Hs.
  destruct (fold16_spec s) as [E1 P1]; [lia|].
  destruct (fold16_spec (fold16 s)) as [E2 P2]; [lia|].
  rewrite <- E1, <- E2. symmetry. apply oc_sum_small.
  assert (B : fold16 s <= 131070) by (pose proof (fold16_bound s 65536); lia).
  unfold is_u16. split; [lia|].
  revert B. generalize (fold16 s). intros t B. clear -B P1.
  unfold fold16. autorewrite with csum. lia.
Qed.

Lemma fold16_small s : is_u16 s -> fold16 s = s.
Proof. unfold fold16, is_u16. intros. autorewrite with csum. lia. Qed.

(** ** The routines compute the reference *)

Lemma csum_fold_helper_spec s :
  is_u32 s -> csum_fold_helper s = 65535 - oc_sum s.
Proof.
  intros Hs. unfold csum_fold_helper.
  assert (Hstep : forall t, 0 <= t < 18446744073709551616 ->
    (if t .>> 16 =? 0 then t else u64 (fold16 t)) = fold16 t).
  { intros t Ht. rewrite shiftr_16. destruct (Z.eqb_spec (t / 65536) 0).
    - rewrite fold16_small by (unfold is_u16; lia). done.
    - rewrite u64_small; [done|]. unfold fold16. autorewrite with csum. cint. }
  assert (Ho := oc_sum_range s ltac:(cint)). unfold is_u16, is_u32 in *.
  rewrite (Hstep s) by lia.
  assert (H1 : 0 <= fold16 s <= 131070)
    by (pose proof (fold16_bound s 65536); pose proof (fold16_spec s); lia).
  rewrite (Hstep (fold16 s)) by lia. rewrite fold16_twice by (unfold is_u32; lia).
  rewrite (Hstep (oc_sum s)), (fold16_small (oc_sum s)) by (unfold is_u16; lia).
  rewrite (Hstep (oc_sum s)), (fold16_small (oc_sum s)) by (unfold is_u16; lia).
  by rewrite u16_lnot.
Qed.

(** The shared tail of the incremental updates. *)
Lemma fold_not_spec c :
  0 <= c < 4294967296 ->
  u16 (Z.lnot (u32 (fold16 (u32 (fold16 c))))) = 65535 - oc_sum c.
Proof.
  intros Hc. assert (Ho := oc_sum_range c ltac:(lia)).
  assert (H1 : 0 <= fold16 c <= 131070)
    by (pose proof (fold16_bound c 65536); pose proof (fold16_spec c); lia).
  rewrite (u32_small (fold16 c)) by (unfold is_u32; lia).
  rewrite fold16_twice by done. unfold is_u16 in *.
  rewrite u32_small by (unfold is_u32; lia). by rewrite u16_lnot.
Qed.

Lemma csum_replace2_spec csum from to :
  is_u16 csum -> is_u16 from -> is_u16 to ->
  csum_replace2 csum from to
  = 65535 - oc_sum ((65535 - csum) + (65535 - from) + to).
Proof.
  intros Hc Hf Ht. unfold csum_replace2. rewrite !lnot_land_65535 by done.
  unfold is_u16 in *.
  rewrite (u32_small (65535 - csum + (65535 - from))) by (unfold is_u32; lia).
  rewrite (u32_small (65535 - csum + (65535 - from) + to)) by (unfold is_u32; lia).
  apply fold_not_spec. lia.
Qed.

Lemma csum_replace4_spec csum from to :
  is_u16 csum -> is_u32 from -> is_u32 to ->
  csum_replace4 csum from to
  = 65535 - oc_sum ((65535 - csum) + (65535 - from / 65536) + (65535 - from mod 65536)
                    + to / 65536 + to mod 65536).
Proof.
  intros Hc Hf Ht. unfold csum_replace4. autorewrite with csum.
  assert (is_u16 (from / 65536) /\ is_u16 (from mod 65536)) as [? ?] by (unfold is_u16; cint).
  rewrite <- !(land_65535 (Z.lnot _)). rewrite !lnot_land_65535 by done.
  assert (is_u16 (to / 65536) /\ is_u16 (to mod 65536)) as [? ?] by (unfold is_u16; cint).
  unfold is_u16 in *. cbn zeta.
  set (a := from / 65536) in *. set (b := from mod 65536) in *.
  set (c := to / 65536) in *. set (d := to mod 65536) in *.
  rewrite (u32_small (65535 - csum + (65535 - a))) by (unfold is_u32; lia).
  rewrite (u32_small (65535 - csum + (65535 - a) + (65535 - b))) by (unfold is_u32; lia).
  rewrite (u32_small (65535 - csum + (65535 - a) + (65535 - b) + c)) by (unfold is_u32; lia).
  rewrite (u32_small (65535 - csum + (65535 - a) + (65535 - b) + c + d)) by (unfold is_u32; lia).
  apply fold_not_spec. lia.
Qed.

(** A receiver that adds the checksum to the sum it covers gets all ones. *)
Lemma oc_sum_verify s : 0 <= s -> oc_sum (s + (65535 - oc_sum s)) = 65535.
Proof.
  intros Hs. pose proof (oc_sum_range s Hs). destruct (oc_sum_mod s Hs) as (k & Hk0 & Hk).
  unfold is_u16 in *. rewrite (oc_sum_cong _ 65535 k) by lia. reflexivity.
Qed.

(** Replacing part [x] of a covered sum [r + x] by [y] in one's complement. *)
Lemma oc_sum_replace r x y m :
  0 < r + x -> 0 < r + y ->
  0 <= m * 65535 - x ->
  0 <= y ->
  oc_sum (oc_sum (r + x) + (m * 65535 - x) + y) = oc_sum (r + y).
Proof.
  intros H1 H2 H3 H4. pose proof (oc_sum_pos _ H1).
  destruct (oc_sum_mod (r + x)) as (k & Hk0 & Hk); [lia|].
  apply (oc_sum_cong _ _ (m - k)); lia.
Qed.

(** Rewriting a 32-bit address with [csum_replace4] gives the checksum a full
    recomputation by [csum_fold_helper] would give: for any header whose other
    words sum to [r], the incremental update from [from] to [to] of the fold of
    the old sum is the fold of the new sum. *)
Theorem csum_replace4_recompute r from to :
  0 <= r < 4294836224 -> is_u32 from -> is_u32 to ->
  0 < r + from / 65536 + from mod 65536 ->
  0 < r + to / 65536 + to mod 65536 ->
  csum_replace4 (csum_fold_helper (r + from / 65536 + from mod 65536)) from to
  = csum_fold_helper (r + to / 65536 + to mod 65536).
Proof.
  intros Hr Hf Ht Hp Hp'.
  assert (is_u16 (from / 65536) /\ is_u16 (from mod 65536)) as [Hfh Hfl] by (unfold is_u16; cint).
  assert (is_u16 (to / 65536) /\ is_u16 (to mod 65536)) as [Hth Htl] by (unfold is_u16; cint).
  assert (Ho := oc_sum_range (r + from / 65536 + from mod 65536) ltac:(lia)).
  revert Hp Hp' Hfh Hfl Hth Htl Ho. rewrite csum_replace4_spec; cycle 1.
  { apply u16_range. } { done. } { done. }
  generalize (from / 65536) (from mod 65536) (to / 65536) (to mod 65536).
  unfold is_u16. intros a b c d **.
  rewrite !csum_fold_helper_spec by (unfold is_u32; lia). f_equal.
  rewrite <- (Z.add_assoc r a b), <- (Z.add_assoc r c d) in *.
  rewrite <- (oc_sum_replace r (a + b) (c + d) 2) by lia. f_equal. lia.
Qed.

Lemma csum_replace4_recompute_witness :
  csum_replace4 (csum_fold_helper (200000 + 3232235777 / 65536 + 3232235777 mod 65536))
    3232235777 167772161
  = csum_fold_helper (200000 + 167772161 / 65536 + 167772161 mod 65536).
Proof. apply (csum_replace4_recompute 200000 3232235777 167772161); by_eval. Defined.

(** The 16-bit incremental update agrees with a full recomputation. *)
Theorem csum_replace2_recompute r from to :
  0 <= r < 4294836224 -> is_u16 from -> is_u16 to ->
  0 < r + from -> 0 < r + to ->
  csum_replace2 (csum_fold_helper (r + from)) from to = csum_fold_helper (r + to).
Proof.
  intros Hr Hf Ht Hp Hp'. assert (Ho := oc_sum_range (r + from) ltac:(lia)).
  rewrite csum_replace2_spec; [|apply u16_range|done|done]. unfold is_u16 in *.
  rewrite !csum_fold_helper_spec by (unfold is_u32; lia). f_equal.
  rewrite <- (oc_sum_replace r from to 1) by lia. f_equal. lia.
Qed.

Lemma csum_replace2_recompute_witness :
  csum_replace2 (csum_fold_helper (70000 + 8)) 8 0 = csum_fold_helper (70000 + 0).
Proof. apply (csum_replace2_recompute 70000 8 0); by_eval. Defined.

(** [csum_replace_ttl] adds 0x0100 to the checksum as loaded from memory, where the
    word that holds the TTL has it in the low byte: the correct step is 0x0001. *)
Theorem csum_replace_ttl_wrong r ttl proto :
  0 <= r < 4294836224 -> 1 <= ttl < 256 -> is_u8 proto ->
  0 < r + le16 (ttl - 1) proto ->
  fst (csum_replace_ttl (csum_fold_helper (r + le16 ttl proto)) ttl)
  <> csum_fold_helper (r + le16 (ttl - 1) proto).
Proof.
  intros Hr Ht Hp Hpos. unfold is_u8, le16 in *.
  assert (H1 := oc_sum_range (r + (ttl + 256 * proto)) ltac:(lia)).
  destruct (oc_sum_mod (r + (ttl + 256 * proto))) as (k & _ & Hk); [lia|].
  destruct (oc_sum_mod (r + (ttl - 1 + 256 * proto))) as (k' & _ & Hk'); [lia|].
  assert (H2 := oc_sum_range (r + (ttl - 1 + 256 * proto)) ltac:(lia)).
  assert (H3 := oc_sum_pos _ Hpos).
  rewrite !csum_fold_helper_spec by (unfold is_u32; lia).
  unfold csum_replace_ttl. cbn [fst]. autorewrite with csum. unfold is_u16 in *.
  generalize dependent (oc_sum (r + (ttl + 256 * proto))). intros o ? ?.
  generalize dependent (oc_sum (r + (ttl - 1 + 256 * proto))). intros o' ? ? ?.
  assert (o = o' + 1 + 65535 * (k' - k)) by lia.
  unfold u16. rewrite (u32_small (65535 - o + 256)) by (unfold is_u32; lia). lia.
Qed.

(** ** Folding loops of the other programs *)

(** The plain sum of the 16-bit words of a buffer, the odd byte last. *)
Fixpoint words_sum (fuel : nat) (b : list Z) : Z :=
  match fuel, b with
  | S fuel, b0 :: b1 :: b => le16 b0 b1 + words_sum fuel b
  | _, [b0] => b0
  | _, _ => 0
  end.

Lemma words_sum_range n b :
  bytes_ok b -> 0 <= words_sum n b <= 65535 * blen b.
Proof.
  revert b. induction n as [|n IH]; intros b Hb.
  - destruct b as [|b0 [|b1 b]]; simpl; try lia.
    apply Forall_cons_1 in Hb as [? _]. unfold is_u8 in *. lia.
  - destruct b as [|b0 [|b1 b]]; simpl; [lia| |].
    + apply Forall_cons_1 in Hb as [? _]. unfold is_u8 in *. lia.
    + apply Forall_cons_1 in Hb as [? [? Hb]%Forall_cons_1].
      specialize (IH _ Hb). unfold is_u8, le16 in *. lia.
Qed.

Lemma checksum_sum_spec n b s :
  bytes_ok b -> 0 <= s -> s + 65535 * blen b < 4294967296 ->
  checksum_sum n b s = s + words_sum n b.
Proof.
  revert b s. induction n as [|n IH]; intros b s Hb Hs Hlt.
  - destruct b as [|b0 [|b1 b]]; simpl in *; try lia.
    apply Forall_cons_1 in Hb as [? _]. rewrite u32_small; [done|]. cint.
  - destruct b as [|b0 [|b1 b]]; simpl in *; [lia| |].
    + apply Forall_cons_1 in Hb as [? _]. rewrite u32_small; [done|]. cint.
    + apply Forall_cons_1 in Hb as [? [? Hb]%Forall_cons_1].
      assert (Hw : 0 <= le16 b0 b1 <= 65535) by (unfold is_u8, le16 in *; lia).
      rewrite (u32_small (s + le16 b0 b1)) by (unfold is_u32; lia).
      rewrite IH by (done || lia). lia.
Qed.

(** Adding the carry without masking, then truncating, is a fold. *)
Lemma carry_truncate s :
  is_u32 s ->
  u16 (Z.lnot (u32 (u32 ((s .>> 16) + (s .& 65535))
     + (u32 ((s .>> 16) + (s .& 65535)) .>> 16)))) = 65535 - oc_sum s.
Proof.
  intros Hs. rewrite <- fold16_twice by done.
  rewrite (Z.add_comm (s .>> 16)). fold (fold16 s).
  assert (H1 : 0 <= fold16 s <= 131070) by
    (pose proof (fold16_bound s 65536); pose proof (fold16_spec s); unfold is_u32 in *; lia).
  rewrite (u32_small (fold16 s)) by (unfold is_u32; lia).
  generalize dependent (fold16 s). intros t Ht.
  unfold fold16, Z.lnot. autorewrite with csum. unfold u16, u32. lia.
Qed.

Lemma checksum_spec b :
  bytes_ok b -> blen b < 65536 -> checksum b = 65535 - oc_sum (words_sum (length b) b).
Proof.
  intros Hb Hl. pose proof (words_sum_range (length b) b Hb).
  unfold checksum. rewrite checksum_sum_spec by (done || lia).
  rewrite Z.add_0_l. apply carry_truncate. unfold is_u32. lia.
Qed.

(** The [while] loop of [calc_ip_csum] ends within two iterations. *)
Lemma calc_ip_csum_loop_spec s :
  is_u32 s -> calc_ip_csum_loop 3 s = Some (oc_sum s).
Proof.
  intros Hs. assert (Ho := oc_sum_range s ltac:(cint)).
  assert (Hz : forall t, is_u16 t -> (t .>> 16 =? 0) = true).
  { intros t Ht. rewrite shiftr_16. unfold is_u16 in Ht. lia. }
  assert (H1 : 0 <= fold16 s <= 131070) by
    (pose proof (fold16_bound s 65536); pose proof (fold16_spec s); unfold is_u32 in *; lia).
  cbn [calc_ip_csum_loop]. destruct (s .>> 16 =? 0) eqn:E.
  { rewrite shiftr_16 in E. rewrite oc_sum_small; [done|]. unfold is_u16, is_u32 in *. lia. }
  rewrite (u32_small (fold16 s)) by (unfold is_u32; lia).
  destruct (fold16 s .>> 16 =? 0) eqn:E1.
  { rewrite shiftr_16 in E1. f_equal. rewrite <- (fold16_twice s Hs).
    symmetry. apply fold16_small. unfold is_u16. lia. }
  rewrite fold16_twice by done. rewrite u32_small by (unfold is_u32, is_u16 in *; lia).
  by rewrite Hz.
Qed.

Definition sum_list (l : list Z) : Z := foldr Z.add 0 l.

Lemma foldl_u32_sum l s :
  Forall is_u16 l -> 0 <= s -> s + 65535 * Z.of_nat (length l) < 4294967296 ->
  foldl (fun csum w => u32 (csum + w)) s l = s + sum_list l
  /\ 0 <= sum_list l <= 65535 * Z.of_nat (length l).
Proof.
  revert s. induction l as [|w l IH]; intros s Hl Hs Hlt; simpl in *; [lia|].
  apply Forall_cons_1 in Hl as [Hw Hl]. unfold is_u16 in Hw.
  rewrite (u32_small (s + w)) by (unfold is_u32; lia).
  destruct (IH (s + w) Hl) as [-> ?]; lia.
Qed.

Lemma calc_ip_csum_spec words :
  Forall is_u16 words -> (length words <= 1000)%nat ->
  calc_ip_csum words = Some (65535 - oc_sum (sum_list words)) /\ 0 <= sum_list words.
Proof.
  intros Hw Hlen. destruct (foldl_u32_sum words 0 Hw) as [E R]; [lia..|].
  unfold calc_ip_csum. rewrite E, Z.add_0_l.
  rewrite calc_ip_csum_loop_spec by (unfold is_u32; lia). cbn [mbind option_bind].
  assert (Ho := oc_sum_range (sum_list words) ltac:(lia)).
  rewrite (u16_small (oc_sum _)), u16_lnot by done. split; [done|lia].
Qed.

(** The header checksum of the NAT46 translator and the ICMP checksum of the
    prober both make the words they cover verify: with the checksum stored in its
    (zero) field, the one's complement sum is 0xFFFF; [calc_ip_csum]'s loop
    terminates. *)
Theorem checksums_verify words b :
  Forall is_u16 words -> (length words <= 1000)%nat ->
  bytes_ok b -> blen b < 65536 ->
  (exists c, calc_ip_csum words = Some c /\ oc_sum (sum_list words + c) = 65535)
  /\ oc_sum (words_sum (length b) b + checksum b) = 65535.
Proof.
  intros Hw Hlen Hb Hbl. split.
  - destruct (calc_ip_csum_spec words) as [-> ?]; [done..|]. eexists. split; [done|].
    by apply oc_sum_verify.
  - rewrite checksum_spec by done. apply oc_sum_verify.
    pose proof (words_sum_range (length b) b Hb). lia.
Qed.

Lemma checksums_verify_witness :
  (exists c, calc_ip_csum [69; 15360; 0; 64; 1600; 0; 43200; 257; 43200; 513] = Some c
     /\ oc_sum (sum_list [69; 15360; 0; 64; 1600; 0; 43200; 257; 43200; 513] + c) = 65535)
  /\ oc_sum (words_sum 5 [8; 0; 0; 0; 7] + checksum [8; 0; 0; 0; 7]) = 65535.
Proof.
  apply (checksums_verify [69; 15360; 0; 64; 1600; 0; 43200; 257; 43200; 513] [8; 0; 0; 0; 7]);
    [repeat constructor; by_eval|simpl; lia|repeat constructor; by_eval|by_eval].
Defined.
