(* ===== verification/Frames.v ===== *)
(** * Frames as sequences of 16-bit words

    Which bytes a store leaves alone, the words a checksum covers, and how a store
    changes their sum.  Shared by the proofs on every program that rewrites
    packets. *)

From S2P Require Import Prelude Checksum.

(** ** Stores and the bytes around them *)

Lemma ld8_st32_ne b i j v b' :
  st32 b i v = Some b' -> j < i \/ i + 4 <= j -> ld8 b' j = ld8 b j.
Proof.
  intros (b1 & E1 & E2)%st32_inv Hj.
  rewrite (ld8_st16_ne _ _ j _ _ E2) by lia. by rewrite (ld8_st16_ne _ _ j _ _ E1) by lia.
Qed.

Lemma ld8_st_bytes_ne vs b i j b' :
  st_bytes b i vs = Some b' -> j < i \/ i + blen vs <= j -> ld8 b' j = ld8 b j.
Proof.
  revert b i. induction vs as [|v vs IH]; intros b i; cbn [st_bytes length].
  { by intros [= <-]. }
  destruct (st8 b i v) as [b1|] eqn:E; [|done]. cbn. intros H Hj.
  rewrite (IH _ _ H) by lia. apply (ld8_st8_ne _ _ _ _ _ E). lia.
Qed.

Lemma ld8_st_bytes_eq vs b i b' k v :
  st_bytes b i vs = Some b' -> vs !! k = Some v -> ld8 b' (i + Z.of_nat k) = Some (u8 v).
Proof.
  revert b i k. induction vs as [|w vs IH]; intros b i k; cbn [st_bytes]; [done|].
  destruct (st8 b i w) as [b1|] eqn:E; [|done]. cbn. intros H. destruct k as [|k]; cbn.
  - intros [= <-]. rewrite (ld8_st_bytes_ne _ _ _ _ _ H) by lia.
    replace (i + Z.of_nat 0) with i by lia. by apply (ld8_st8_eq _ _ _ _ E).
  - intros Hk. rewrite <- (IH _ _ _ H Hk). f_equal. lia.
Qed.

Lemma ld16_st32_eq b i v b' :
  st32 b i v = Some b' -> is_u32 v ->
  ld16 b' i = Some (v mod 65536) /\ ld16 b' (i + 2) = Some (v / 65536).
Proof.
  intros (b1 & E1 & E2)%st32_inv Hv. split.
  - rewrite (ld16_st16_ne _ _ i _ _ E2) by lia.
    unfold ld16. apply st16_inv in E1 as (b0 & E0 & E1).
    rewrite (ld8_st8_ne _ _ i _ _ E1), (ld8_st8_eq _ _ _ _ E0), (ld8_st8_eq _ _ _ _ E1) by lia.
    cbn. f_equal. unfold le16. cint.
  - apply (ld16_st16_eq _ _ _ _ E2). cint.
Qed.

(** A 16-bit store keeps the low half of its operand. *)
Lemma st16_low b i v : st16 b i (v mod 65536) = st16 b i v.
Proof.
  unfold st16, st8. assert (u8 (v mod 65536) = u8 v) as -> by cint.
  destruct (_ && _); [|done]. cbn. assert (u8 (v mod 65536 / 256) = u8 (v / 256)) as -> by cint. done.
Qed.

Lemma ld32_words b i :
  ld32 b i = (lo ← ld16 b i; hi ← ld16 b (i + 2); Some (lo + 65536 * hi)).
Proof.
  unfold ld32, ld16. replace (i + 2 + 1) with (i + 3) by lia.
  destruct (ld8 b i), (ld8 b (i + 1)), (ld8 b (i + 2)), (ld8 b (i + 3)); cbn; try done.
  f_equal. unfold le32, le16. lia.
Qed.

Lemma ld32_st32_eq b i v b' : st32 b i v = Some b' -> is_u32 v -> ld32 b' i = Some v.
Proof.
  intros E Hv. rewrite ld32_words. destruct (ld16_st32_eq _ _ _ _ E Hv) as [-> ->]. cbn.
  f_equal. unfold is_u32 in Hv. lia.
Qed.

(** [b'] has the bytes of [b] from [lo] to [hi]. *)
Definition agree (lo hi : Z) (b b' : list Z) : Prop := forall j, lo <= j < hi -> ld8 b' j = ld8 b j.

#[global] Instance agree_preorder lo hi : PreOrder (agree lo hi).
Proof. split; [by intros b|]. intros b1 b2 b3 H1 H2 j Hj. rewrite H2 by done. by apply H1. Qed.

Lemma agree_st8 lo hi b i v b' :
  st8 b i v = Some b' -> hi <= i \/ i + 1 <= lo -> agree lo hi b b'.
Proof. intros E Hd j Hj. apply (ld8_st8_ne _ _ _ _ _ E). lia. Qed.
Lemma agree_st16 lo hi b i v b' :
  st16 b i v = Some b' -> hi <= i \/ i + 2 <= lo -> agree lo hi b b'.
Proof. intros E Hd j Hj. apply (ld8_st16_ne _ _ _ _ _ E). lia. Qed.
Lemma agree_st32 lo hi b i v b' :
  st32 b i v = Some b' -> hi <= i \/ i + 4 <= lo -> agree lo hi b b'.
Proof. intros E Hd j Hj. apply (ld8_st32_ne _ _ _ _ _ E). lia. Qed.
Lemma agree_st_bytes lo hi b i vs b' :
  st_bytes b i vs = Some b' -> hi <= i \/ i + blen vs <= lo -> agree lo hi b b'.
Proof. intros E Hd j Hj. apply (ld8_st_bytes_ne _ _ _ _ _ E). lia. Qed.
Lemma agree_weaken lo hi lo' hi' b b' :
  agree lo hi b b' -> lo <= lo' -> hi' <= hi -> agree lo' hi' b b'.
Proof. intros H ? ? j Hj. apply H. lia. Qed.

Lemma ld16_agree lo hi b b' i : agree lo hi b b' -> lo <= i -> i + 2 <= hi -> ld16 b' i = ld16 b i.
Proof. intros H ? ?. unfold ld16. by rewrite !H by lia. Qed.
Lemma ld32_agree lo hi b b' i : agree lo hi b b' -> lo <= i -> i + 4 <= hi -> ld32 b' i = ld32 b i.
Proof. intros H ? ?. unfold ld32. by rewrite !H by lia. Qed.
Lemma ld_bytes_agree n lo hi b b' i :
  agree lo hi b b' -> lo <= i -> i + Z.of_nat n <= hi -> ld_bytes b' i n = ld_bytes b i n.
Proof.
  intros H. revert i. induction n as [|n IH]; intros i Hi Hh; cbn; [done|].
  rewrite H by lia. by rewrite IH by lia.
Qed.

Lemma ld_bytes_lookup n b i vs k v :
  ld_bytes b i n = Some vs -> vs !! k = Some v -> ld8 b (i + Z.of_nat k) = Some v.
Proof.
  revert i vs k. induction n as [|n IH]; intros i vs k; cbn; [by intros [= <-]|].
  destruct (ld8 b i) as [w|] eqn:E; [|done]. destruct (ld_bytes b (i + 1) n) as [ws|] eqn:E'; [|done].
  cbn. intros [= <-]. destruct k as [|k]; cbn.
  - intros [= <-]. by replace (i + Z.of_nat 0) with i by lia.
  - intros Hk. rewrite <- (IH _ _ _ E' Hk). f_equal. lia.
Qed.

Lemma ld_bytes_ok n b i vs : bytes_ok b -> ld_bytes b i n = Some vs -> bytes_ok vs.
Proof.
  intros Hb. revert i vs. induction n as [|n IH]; intros i vs; cbn.
  { intros [= <-]. constructor. }
  destruct (ld8 b i) as [w|] eqn:E; [|done]. destruct (ld_bytes b (i + 1) n) as [ws|] eqn:E'; [|done].
  cbn. intros [= <-]. constructor; [by eapply ld8_range|by eapply IH].
Qed.

(** What is written by [st_bytes] is read back by [ld_bytes]. *)
Lemma ld_bytes_st_bytes vs b i b' :
  bytes_ok vs -> st_bytes b i vs = Some b' -> ld_bytes b' i (length vs) = Some vs.
Proof.
  intros Hvs. revert b i. induction Hvs as [|v vs Hv Hvs IH]; intros b i; cbn; [done|].
  destruct (st8 b i v) as [b1|] eqn:E; [|done]. cbn. intros H.
  rewrite (ld8_st_bytes_ne _ _ _ _ _ H) by lia. rewrite (ld8_st8_eq _ _ _ _ E). cbn.
  rewrite (IH _ _ H). cbn. by rewrite u8_small.
Qed.

(** ** Words *)

Fixpoint words16 (n : nat) (b : list Z) (off : Z) : option (list Z) :=
  match n with
  | O => Some []
  | S n => w ← ld16 b off; ws ← words16 n b (off + 2); Some (w :: ws)
  end.

Lemma words16_Some n b off :
  0 <= off -> off + 2 * Z.of_nat n <= blen b ->
  exists ws, words16 n b off = Some ws /\ length ws = n.
Proof.
  revert off. induction n as [|n IH]; intros off Ho Hl; cbn [words16]; [eauto|].
  destruct (ld16_Some b off) as [w E]; [lia..|]. rewrite E. cbn.
  destruct (IH (off + 2)) as (ws & E' & L); [lia..|]. rewrite E'. cbn. eexists. split; [done|].
  cbn. lia.
Qed.

Lemma words16_length n b off ws : words16 n b off = Some ws -> length ws = n.
Proof.
  revert off ws. induction n as [|n IH]; intros off ws; cbn; [by intros [= <-]|].
  destruct (ld16 b off); [|done]. destruct (words16 n b (off + 2)) eqn:E; [|done]. cbn.
  intros [= <-]. cbn. f_equal. eauto.
Qed.

Lemma words16_range n b off ws : bytes_ok b -> words16 n b off = Some ws -> Forall is_u16 ws.
Proof.
  intros Hb. revert off ws. induction n as [|n IH]; intros off ws; cbn.
  { intros [= <-]. constructor. }
  destruct (ld16 b off) eqn:E0; [|done]. destruct (words16 n b (off + 2)) eqn:E; [|done]. cbn.
  intros [= <-]. constructor; [by eapply ld16_range|eauto].
Qed.

Lemma words16_lookup n b off ws k :
  words16 n b off = Some ws -> (k < n)%nat -> ld16 b (off + 2 * Z.of_nat k) = ws !! k.
Proof.
  revert off ws k. induction n as [|n IH]; intros off ws k; cbn; [lia|].
  destruct (ld16 b off) eqn:E0; [|done]. destruct (words16 n b (off + 2)) eqn:E; [|done]. cbn.
  intros [= <-] Hk. destruct k as [|k]; cbn.
  - by replace (off + 2 * Z.of_nat 0) with off by lia.
  - rewrite <- (IH _ _ _ E) by lia. f_equal. lia.
Qed.

Lemma words16_agree n b b' off lo hi :
  agree lo hi b b' -> lo <= off -> off + 2 * Z.of_nat n <= hi -> words16 n b' off = words16 n b off.
Proof.
  intros H. revert off. induction n as [|n IH]; intros off Ho Hh; cbn; [done|].
  rewrite (ld16_agree _ _ _ _ _ H) by lia. by rewrite IH by lia.
Qed.

Lemma words16_bound n b off ws :
  words16 n b off = Some ws -> off + 2 * Z.of_nat n <= blen b \/ n = 0%nat.
Proof.
  intros H. destruct n as [|n]; [by right|]. left.
  assert (exists w, ld16 b (off + 2 * Z.of_nat n) = Some w) as [w Hw].
  { rewrite (words16_lookup _ _ _ _ n H) by lia.
    apply lookup_lt_is_Some_2. rewrite (words16_length _ _ _ _ H). lia. }
  unfold ld16 in Hw. destruct (ld8 b (off + 2 * Z.of_nat n)); [|done].
  destruct (ld8 b (off + 2 * Z.of_nat n + 1)) eqn:E; [|done]. apply ld8_inv in E. lia.
Qed.

(** The two words of a 32-bit field. *)
Lemma words16_two b off ws v :
  bytes_ok b -> words16 2 b off = Some ws -> ld32 b off = Some v ->
  sum_list ws = v / 65536 + v mod 65536.
Proof.
  intros Hb. rewrite ld32_words. cbn [words16]. destruct (ld16 b off) as [lo|] eqn:El; [|done].
  destruct (ld16 b (off + 2)) as [hi|] eqn:Eh; [|done]. cbn. intros [= <-] [= <-].
  apply ld16_range in El, Eh; [|done..]. cbn. unfold is_u16 in *. lia.
Qed.

(** A 16-bit store to word [k] replaces that word. *)
Lemma words16_st16 n b off k v b' ws :
  st16 b (off + 2 * Z.of_nat k) v = Some b' -> is_u16 v -> words16 n b off = Some ws ->
  words16 n b' off = Some (<[k := v]> ws).
Proof.
  intros E Hv. revert off k ws E. induction n as [|n IH]; intros off k ws E; cbn [words16].
  { by intros [= <-]. }
  destruct (ld16 b off) as [w|] eqn:Ew; [|done].
  destruct (words16 n b (off + 2)) as [us|] eqn:Eu; [|done]. cbn. intros [= <-].
  destruct k as [|k]; cbn.
  - replace (off + 2 * Z.of_nat 0) with off in E by lia.
    rewrite (ld16_st16_eq _ _ _ _ E Hv). cbn.
    assert (A : agree (off + 2) (off + 2 + 2 * Z.of_nat n) b b') by (apply (agree_st16 _ _ _ _ _ _ E); lia).
    rewrite (words16_agree _ _ _ _ _ _ A), Eu by lia. done.
  - rewrite (ld16_st16_ne _ _ off _ _ E), Ew by lia. cbn.
    rewrite (IH (off + 2) k us); [done| |done]. rewrite <- E. f_equal. lia.
Qed.

(** An 8-bit store to the low byte of word [k]. *)
Lemma words16_st8 n b off k v b' ws w :
  bytes_ok b -> st8 b (off + 2 * Z.of_nat k) v = Some b' -> is_u8 v ->
  words16 n b off = Some ws -> ws !! k = Some w ->
  words16 n b' off = Some (<[k := v + 256 * (w / 256)]> ws).
Proof.
  intros Hb E Hv Hws Hk. assert (Hn : (k < n)%nat).
  { rewrite <- (words16_length _ _ _ _ Hws). by eapply lookup_lt_Some. }
  pose proof (words16_lookup _ _ _ _ _ Hws Hn) as Hw. rewrite Hk in Hw.
  assert (E16 : st16 b (off + 2 * Z.of_nat k) (v + 256 * (w / 256)) = Some b').
  { pose proof (ld16_range _ _ _ Hb Hw) as Hrw. unfold ld16 in Hw.
    destruct (ld8 b (off + 2 * Z.of_nat k)) as [c0|] eqn:E0; [|done].
    destruct (ld8 b (off + 2 * Z.of_nat k + 1)) as [c1|] eqn:E1; [|done].
    cbn in Hw. injection Hw as <-. apply st8_inv in E as [Hi ->].
    pose proof (ld8_inv _ _ _ E1) as Hi1. pose proof (ld8_range _ _ _ Hb E1) as Hr1.
    pose proof (ld8_range _ _ _ Hb E0) as Hr0. unfold le16. rewrite byte_div by done.
    unfold st16, st8.
    destruct (Z.leb_spec 0 (off + 2 * Z.of_nat k)), (Z.leb_spec 0 (off + 2 * Z.of_nat k + 1)),
      (Z.ltb_spec (off + 2 * Z.of_nat k) (blen b)), (Z.ltb_spec (off + 2 * Z.of_nat k + 1) (blen b));
      try lia.
    cbn [andb mbind option_bind]. rewrite length_insert.
    destruct (Z.ltb_spec (off + 2 * Z.of_nat k + 1) (blen b)); [|lia]. f_equal.
    assert (u8 (v + 256 * c1) = u8 v) as -> by cint.
    assert (u8 ((v + 256 * c1) / 256) = c1) as -> by (rewrite byte_div by done; by apply u8_small).
    apply list_insert_id. rewrite list_lookup_insert_ne by lia.
    unfold ld8 in E1. by destruct (Z.leb_spec 0 (off + 2 * Z.of_nat k + 1)). }
  apply (words16_st16 _ b _ _ _ _ _ E16); [|done].
  pose proof (words16_range _ _ _ _ Hb Hws) as Hr. pose proof (Forall_lookup_1 _ _ _ _ Hr Hk).
  unfold is_u16, is_u8 in *. lia.
Qed.

Lemma sum_list_insert ws k v w :
  ws !! k = Some w -> sum_list (<[k := v]> ws) = sum_list ws - w + v.
Proof.
  revert k. induction ws as [|u ws IH]; intros [|k]; cbn; try done.
  - intros [= <-]. lia.
  - intros H. change (u + sum_list (<[k := v]> ws) = u + sum_list ws - w + v).
    rewrite (IH _ H). lia.
Qed.

Lemma sum_list_range ws :
  Forall is_u16 ws -> 0 <= sum_list ws <= 65535 * Z.of_nat (length ws).
Proof. induction 1 as [|w ws Hw _ IH]; cbn [sum_list foldr length]; [lia|]. unfold is_u16, sum_list in *. lia. Qed.

Lemma sum_list_ge ws k w : Forall is_u16 ws -> ws !! k = Some w -> w <= sum_list ws.
Proof.
  intros H. revert k. induction H as [|u ws Hu Hws IH]; intros [|k]; cbn; try done.
  - intros [= <-]. pose proof (sum_list_range _ Hws). unfold sum_list in *. lia.
  - intros Hk. specialize (IH _ Hk). unfold is_u16, sum_list in *. lia.
Qed.

(** A block of words whose checksum verifies. *)
Definition verifies (n : nat) (b : list Z) (off : Z) : Prop :=
  exists ws, words16 n b off = Some ws /\ oc_sum (sum_list ws) = 65535.

Lemma verifies_agree n b b' off lo hi :
  agree lo hi b b' -> lo <= off -> off + 2 * Z.of_nat n <= hi -> verifies n b off -> verifies n b' off.
Proof. intros A ? ? (ws & E & H). exists ws. by rewrite (words16_agree _ _ _ _ _ _ A). Qed.

Lemma oc_sum_valid s : 0 <= s -> oc_sum s = 65535 <-> 0 < s /\ s mod 65535 = 0.
Proof. intros. unfold oc_sum. destruct (Z.eqb_spec s 0); lia. Qed.

(** Bytes outside the word at [i] are kept. *)
Definition keeps_but (i n : Z) (b b' : list Z) : Prop :=
  forall j, j < i \/ i + n <= j -> ld8 b' j = ld8 b j.

Lemma keeps_but_agree i n lo hi b b' :
  keeps_but i n b b' -> hi <= i \/ i + n <= lo -> agree lo hi b b'.
Proof. intros H Hd j Hj. apply H. lia. Qed.

(** ** Automation: loads through the stores in the context *)

Ltac agree_by :=
  first
    [ lia
    | match goal with
      | E : st8 ?b _ _ = Some ?b' |- agree _ _ ?b ?b' => apply (agree_st8 _ _ _ _ _ _ E); lia
      | E : st16 ?b _ _ = Some ?b' |- agree _ _ ?b ?b' => apply (agree_st16 _ _ _ _ _ _ E); lia
      | E : st32 ?b _ _ = Some ?b' |- agree _ _ ?b ?b' => apply (agree_st32 _ _ _ _ _ _ E); lia
      | E : st_bytes ?b _ _ = Some ?b' |- agree _ _ ?b ?b' =>
          apply (agree_st_bytes _ _ _ _ _ _ E); lia
      | K : keeps_but _ _ ?b ?b' |- agree _ _ ?b ?b' => apply (keeps_but_agree _ _ _ _ _ _ K); lia
      end ].

(** The buffer [b'] was made from. *)
Ltac with_source b' k :=
  match goal with
  | E : st8 ?b _ _ = Some b' |- _ => k b
  | E : st16 ?b _ _ = Some b' |- _ => k b
  | E : st32 ?b _ _ = Some b' |- _ => k b
  | E : st_bytes ?b _ _ = Some b' |- _ => k b
  | K : keeps_but _ _ ?b b' |- _ => k b
  end.

Lemma ld8_agree j b b' : agree j (j + 1) b b' -> ld8 b' j = ld8 b j.
Proof. intros H. apply H. lia. Qed.

Ltac ld_frame :=
  repeat match goal with
  | |- context [ld8 ?b' ?j] =>
      with_source b' ltac:(fun b => rewrite (ld8_agree j b b') by agree_by)
  | |- context [ld16 ?b' ?j] =>
      with_source b' ltac:(fun b => rewrite (ld16_agree j (j + 2) b b' j) by agree_by)
  | |- context [ld32 ?b' ?j] =>
      with_source b' ltac:(fun b => rewrite (ld32_agree j (j + 4) b b' j) by agree_by)
  | |- context [ld_bytes ?b' ?j ?n] =>
      with_source b' ltac:(fun b => rewrite (ld_bytes_agree n j (j + Z.of_nat n) b b' j) by agree_by)
  | |- verifies ?n ?b' ?off =>
      with_source b' ltac:(fun b =>
        apply (verifies_agree n b b' off off (off + 2 * Z.of_nat n)); [agree_by|lia|lia|])
  end.

(** A load that meets the store that wrote its bytes. *)
Ltac ld_hit :=
  ld_frame;
  match goal with
  | E : st8 _ ?i _ = Some ?b' |- ld8 ?b' ?i = _ => rewrite (ld8_st8_eq _ _ _ _ E)
  | E : st16 _ ?i _ = Some ?b' |- ld16 ?b' ?i = _ =>
      rewrite (ld16_st16_eq _ _ _ _ E) by (done || apply u16_range || cint)
  | E : st32 _ ?i _ = Some ?b' |- ld32 ?b' ?i = _ =>
      rewrite (ld32_st32_eq _ _ _ _ E) by (done || eauto using ld32_range)
  end.

(** A buffer made by stores from a buffer of bytes. *)
Ltac bytes_ok_by :=
  repeat first
    [ assumption
    | match goal with
      | E : st8 _ _ _ = Some ?b' |- bytes_ok ?b' => refine (st8_ok _ _ _ _ _ E)
      | E : st16 _ _ _ = Some ?b' |- bytes_ok ?b' => refine (st16_ok _ _ _ _ _ E)
      | E : st32 _ _ _ = Some ?b' |- bytes_ok ?b' => refine (st32_ok _ _ _ _ _ E)
      | E : st_bytes _ _ _ = Some ?b' |- bytes_ok ?b' => refine (st_bytes_ok _ _ _ _ _ E)
      end ].
