(* ===== verification/Sticky.v ===== *)
(** * Sticky session table ([src/sticky.c])

    The userspace session-affinity table: 1024 buckets of singly linked nodes,
    keyed by client address.  Each operation is the C function with the wall clock
    ([time(NULL)]) and the outcome of [malloc]/[calloc] as arguments; a NULL table
    is [None].  The table refines an abstract finite map from client address to
    (WAN id, last-seen second). *)

From S2P Require Import Prelude.

Record sticky_node := StickyNode {
  client_ip : Z;
  wan_id : Z;
  last_seen_sec : Z
}.

Record sticky_table := StickyTable {
  buckets : list (list sticky_node);
  num_buckets : Z;
  timeout_sec : Z;
  active_count : Z
}.

(** [hash_ip]: two multiply/xor-shift rounds and a final mix. *)
Definition hash_ip (ip num_buckets : Z) : Z :=
  let hash := ip in
  let hash := u32 (((hash .>> 16) .^ hash) * 73244475) in
  let hash := u32 (((hash .>> 16) .^ hash) * 73244475) in
  let hash := (hash .>> 16) .^ hash in
  hash mod num_buckets.

Definition sticky_table_init (calloc_table calloc_buckets : bool)
    (max_entries timeout : Z) : option sticky_table :=
  if negb calloc_table then None
  else if negb calloc_buckets then None
  else Some (StickyTable (replicate 1024 []) 1024 timeout 0).

(** [sticky_table_destroy]: the nodes freed, in order. *)
Definition sticky_table_destroy (table : option sticky_table) : list sticky_node :=
  match table with None => [] | Some t => concat (buckets t) end.

Definition bucket_at (t : sticky_table) (idx : Z) : list sticky_node :=
  default [] (buckets t !! Z.to_nat idx).
Definition set_bucket (t : sticky_table) (idx : Z) (b : list sticky_node) : sticky_table :=
  StickyTable (<[Z.to_nat idx := b]> (buckets t)) (num_buckets t) (timeout_sec t)
    (active_count t).

(** The walk of [sticky_lookup]: the bucket after the walk and the result. *)
Fixpoint lookup_walk (ip now timeout : Z) (curr : list sticky_node) : list sticky_node * Z :=
  match curr with
  | [] => ([], 0)
  | n :: rest =>
      if client_ip n =? ip then
        if u64 (now - last_seen_sec n) <=? timeout
        then (StickyNode (client_ip n) (wan_id n) now :: rest, wan_id n)
        else (n :: rest, 0)
      else let '(rest', r) := lookup_walk ip now timeout rest in (n :: rest', r)
  end.

Definition sticky_lookup (now : Z) (table : option sticky_table) (ip : Z)
    : option sticky_table * Z :=
  match table with
  | None => (None, 0)
  | Some t =>
      if ip =? 0 then (Some t, 0)
      else
        let idx := hash_ip ip (num_buckets t) in
        let '(b, r) := lookup_walk ip now (timeout_sec t) (bucket_at t idx) in
        (Some (set_bucket t idx b), r)
  end.

(** The walk of [sticky_insert]: [None] when no node has the address. *)
Fixpoint insert_walk (ip wan now : Z) (curr : list sticky_node) : option (list sticky_node) :=
  match curr with
  | [] => None
  | n :: rest =>
      if client_ip n =? ip then Some (StickyNode (client_ip n) wan now :: rest)
      else rest' ← insert_walk ip wan now rest; Some (n :: rest')
  end.

Definition sticky_insert (malloc_ok : bool) (now : Z) (table : option sticky_table)
    (ip wan : Z) : option sticky_table * Z :=
  match table with
  | None => (None, -1)
  | Some t =>
      if (ip =? 0) || (wan =? 0) then (Some t, -1)
      else
        let idx := hash_ip ip (num_buckets t) in
        match insert_walk ip wan now (bucket_at t idx) with
        | Some b => (Some (set_bucket t idx b), 0)
        | None =>
            if negb malloc_ok then (Some t, -1)
            else
              let t' := set_bucket t idx (StickyNode ip wan now :: bucket_at t idx) in
              (Some (StickyTable (buckets t') (num_buckets t') (timeout_sec t')
                       (u32 (active_count t' + 1))), 0)
        end
  end.

(** One bucket of [sticky_cleanup_expired], with the active counter. *)
Fixpoint cleanup_walk (now timeout : Z) (curr : list sticky_node) (count : Z)
    : list sticky_node * Z :=
  match curr with
  | [] => ([], count)
  | n :: rest =>
      if timeout <? u64 (now - last_seen_sec n)
      then cleanup_walk now timeout rest (if 0 <? count then count - 1 else count)
      else let '(rest', count') := cleanup_walk now timeout rest count in (n :: rest', count')
  end.
Fixpoint cleanup_buckets (now timeout : Z) (bs : list (list sticky_node)) (count : Z)
    : list (list sticky_node) * Z :=
  match bs with
  | [] => ([], count)
  | b :: bs =>
      let '(b', count1) := cleanup_walk now timeout b count in
      let '(bs', count2) := cleanup_buckets now timeout bs count1 in
      (b' :: bs', count2)
  end.

Definition sticky_cleanup_expired (now : Z) (table : option sticky_table)
    : option sticky_table :=
  match table with
  | None => None
  | Some t =>
      let '(bs, count) := cleanup_buckets now (timeout_sec t) (buckets t) (active_count t) in
      Some (StickyTable bs (num_buckets t) (timeout_sec t) count)
  end.

(** ** Abstract specification *)

(** What the table stands for: address to (WAN id, last seen). *)
Definition entries (t : sticky_table) : list (Z * (Z * Z)) :=
  (fun n => (client_ip n, (wan_id n, last_seen_sec n))) <$> concat (buckets t).
Definition to_map (t : sticky_table) : gmap Z (Z * Z) := list_to_map (entries t).

Definition live (now timeout ts : Z) : bool := u64 (now - ts) <=? timeout.

Definition spec_lookup (now timeout ip : Z) (m : gmap Z (Z * Z)) : gmap Z (Z * Z) * Z :=
  match m !! ip with
  | Some (wan, ts) => if live now timeout ts then (<[ip := (wan, now)]> m, wan) else (m, 0)
  | None => (m, 0)
  end.
Definition spec_cleanup (now timeout : Z) (m : gmap Z (Z * Z)) : gmap Z (Z * Z) :=
  filter (fun p => live now timeout (snd (snd p)) = true) m.

(** Representation invariant. *)
Definition bucket_wf (i : nat) (b : list sticky_node) : Prop :=
  Forall (fun ip => 0 < ip < 4294967296 /\ hash_ip ip 1024 = Z.of_nat i) (client_ip <$> b)
  /\ NoDup (client_ip <$> b).

Record shape (t : sticky_table) : Prop := {
  wf_num : num_buckets t = 1024;
  wf_len : length (buckets t) = 1024%nat;
  wf_bucket : forall i b, buckets t !! i = Some b -> bucket_wf i b
}.
Definition wf (t : sticky_table) : Prop :=
  shape t /\ active_count t = Z.of_nat (length (concat (buckets t))).

(** ** Buckets as maps *)

Definition node_pair (n : sticky_node) : Z * (Z * Z) :=
  (client_ip n, (wan_id n, last_seen_sec n)).
Definition bmap (b : list sticky_node) : gmap Z (Z * Z) := list_to_map (node_pair <$> b).
#[local] Arguments bmap : simpl never.

Lemma hash_ip_range ip n : 0 < n -> 0 <= hash_ip ip n < n.
Proof. intros. unfold hash_ip. apply Z.mod_pos_bound. lia. Qed.

Lemma bmap_cons n b :
  bmap (n :: b) = <[client_ip n := (wan_id n, last_seen_sec n)]> (bmap b).
Proof. done. Qed.

Lemma lookup_walk_spec ip now timeout b :
  spec_lookup now timeout ip (bmap b)
  = (bmap (fst (lookup_walk ip now timeout b)), snd (lookup_walk ip now timeout b)).
Proof.
  induction b as [|n b IH]; [done|]. cbn [lookup_walk]. rewrite bmap_cons.
  unfold spec_lookup in *. destruct (Z.eqb_spec (client_ip n) ip) as [<-|Hne].
  - rewrite lookup_insert_eq. unfold live.
    destruct (u64 (now - last_seen_sec n) <=? timeout); cbn [fst snd]; rewrite bmap_cons; cbn.
    + by rewrite insert_insert_eq.
    + done.
  - rewrite lookup_insert_ne by done.
    destruct (lookup_walk ip now timeout b) as [b' r]. cbn [fst snd] in *.
    rewrite bmap_cons.
    destruct (bmap b !! ip) as [[w ts]|]; [|congruence].
    destruct (live now timeout ts); [|congruence].
    injection IH as <- <-. by rewrite insert_insert_ne.
Qed.

Lemma lookup_walk_ips ip now timeout b :
  client_ip <$> fst (lookup_walk ip now timeout b) = client_ip <$> b.
Proof.
  induction b as [|n b IH]; [done|]. cbn [lookup_walk].
  destruct (client_ip n =? ip); [by destruct (_ <=? _)|].
  destruct (lookup_walk ip now timeout b). cbn in *. by rewrite IH.
Qed.

Lemma insert_walk_spec ip wan now b :
  match insert_walk ip wan now b with
  | Some b' => bmap b' = <[ip := (wan, now)]> (bmap b)
               /\ client_ip <$> b' = client_ip <$> b
  | None => bmap b !! ip = None /\ ip ∉ client_ip <$> b
  end.
Proof.
  induction b as [|n b IH]; [split; [done|apply not_elem_of_nil]|].
  cbn [insert_walk]. rewrite bmap_cons.
  destruct (Z.eqb_spec (client_ip n) ip) as [<-|Hne].
  - rewrite bmap_cons. cbn. by rewrite insert_insert_eq.
  - destruct (insert_walk ip wan now b) as [b'|]; cbn in *.
    + destruct IH as [E1 E2]. rewrite bmap_cons, E1, E2. by rewrite insert_insert_ne.
    + destruct IH as [IH1 IH2]. rewrite lookup_insert_ne by done.
      split; [done|]. by rewrite not_elem_of_cons.
Qed.

(** Well-formedness of a bucket only depends on its addresses. *)
Lemma bucket_wf_ips i b b' :
  client_ip <$> b' = client_ip <$> b -> bucket_wf i b -> bucket_wf i b'.
Proof.
  unfold bucket_wf. intros ->. done.
Qed.

(** ** The table as one map *)

Lemma entries_nodup_from i bs :
  (forall j b, bs !! j = Some b -> bucket_wf (i + j) b) ->
  NoDup (client_ip <$> concat bs).
Proof.
  revert i. induction bs as [|b bs IH]; intros i Hwf; [constructor|].
  cbn. rewrite fmap_app. apply NoDup_app. repeat split.
  - apply (Hwf 0%nat b eq_refl).
  - intros ip Hip (n' & E & Hn')%list_elem_of_fmap.
    apply list_elem_of_In, in_concat in Hn' as (b' & Hb' & Hn').
    apply list_elem_of_In, list_elem_of_lookup in Hb' as [j Hj].
    destruct (Hwf 0%nat b eq_refl) as [H0 _]. destruct (Hwf (S j) b' Hj) as [H1 _].
    rewrite Forall_forall in H0, H1. apply list_elem_of_In in Hn'.
    destruct (H0 _ Hip) as [_ E0].
    destruct (H1 ip) as [_ E1]; [rewrite E; by apply list_elem_of_fmap_2|]. lia.
  - apply (IH (S i)). intros j b' Hj. replace (S i + j)%nat with (i + S j)%nat by lia.
    by apply Hwf.
Qed.

Lemma entries_nodup t : shape t -> NoDup (entries t).*1.
Proof.
  intros Ht. unfold entries. rewrite <- list_fmap_compose.
  apply (entries_nodup_from 0 (buckets t)). intros j b. apply (wf_bucket t Ht).
Qed.

Lemma elem_of_entries t p :
  p ∈ entries t <-> exists i b n, buckets t !! i = Some b /\ n ∈ b /\ p = node_pair n.
Proof.
  unfold entries. rewrite list_elem_of_fmap. split.
  - intros (n & -> & Hn). apply list_elem_of_In, in_concat in Hn as (b & Hb & Hn).
    apply list_elem_of_In, list_elem_of_lookup in Hb as [i Hi].
    exists i, b, n. by rewrite list_elem_of_In.
  - intros (i & b & n & Hi & Hn & ->). exists n. split; [done|].
    apply list_elem_of_In, in_concat. exists b.
    split; [apply list_elem_of_In, list_elem_of_lookup; eauto|by apply list_elem_of_In].
Qed.

Lemma bmap_elem b ip x :
  NoDup (client_ip <$> b) -> bmap b !! ip = Some x <-> (ip, x) ∈ node_pair <$> b.
Proof.
  intros Hb. unfold bmap. symmetry. apply elem_of_list_to_map.
  by rewrite <- list_fmap_compose.
Qed.

Lemma bucket_at_lookup t ip :
  shape t -> buckets t !! Z.to_nat (hash_ip ip 1024) = Some (bucket_at t (hash_ip ip 1024)).
Proof.
  intros Ht. unfold bucket_at.
  destruct (buckets t !! Z.to_nat (hash_ip ip 1024)) eqn:E; [done|].
  apply lookup_ge_None in E. rewrite (wf_len t Ht) in E.
  pose proof (hash_ip_range ip 1024). lia.
Qed.

(** A lookup only depends on the bucket of its hash. *)
Lemma to_map_lookup t ip :
  shape t -> to_map t !! ip = bmap (bucket_at t (hash_ip ip 1024)) !! ip.
Proof.
  intros Ht. pose proof (bucket_at_lookup t ip Ht) as Hb.
  pose proof (wf_bucket t Ht _ _ Hb) as [_ Hnd]. apply option_eq. intros x.
  rewrite bmap_elem by done. unfold to_map.
  rewrite <- elem_of_list_to_map by (by apply entries_nodup).
  rewrite elem_of_entries. split.
  - intros (i & b & n & Hi & Hn & E). pose proof (wf_bucket t Ht _ _ Hi) as [Hw _].
    rewrite Forall_forall in Hw.
    destruct (Hw (client_ip n)) as [_ Hh]; [by apply list_elem_of_fmap_2|].
    assert (ip = client_ip n) as -> by (by inversion E).
    assert (Z.to_nat (hash_ip (client_ip n) 1024) = i) as Ei by lia.
    rewrite Ei in Hb. rewrite Hi in Hb. injection Hb as <-. rewrite E.
    by apply list_elem_of_fmap_2.
  - intros (n & E & Hn)%list_elem_of_fmap. eauto 10.
Qed.

Lemma set_bucket_shape t ip b :
  shape t -> bucket_wf (Z.to_nat (hash_ip ip 1024)) b ->
  shape (set_bucket t (hash_ip ip 1024) b).
Proof.
  intros [H1 H2 H3] Hb. split; cbn; [done|by rewrite length_insert|].
  intros i b'. rewrite list_lookup_insert_Some. intros [(<- & <- & _)|[_ Hi]]; [done|].
  by apply H3.
Qed.

(** Updating the bucket of [ip] by a map operation that only touches [ip] is that
    operation on the whole map. *)
Lemma set_bucket_map t ip b f :
  shape t -> bucket_wf (Z.to_nat (hash_ip ip 1024)) b ->
  bmap b = f (bmap (bucket_at t (hash_ip ip 1024))) ->
  (forall m ip', ip <> ip' -> f m !! ip' = m !! ip') ->
  (forall m m', m !! ip = m' !! ip -> f m !! ip = f m' !! ip) ->
  to_map (set_bucket t (hash_ip ip 1024) b) = f (to_map t).
Proof.
  intros Ht Hb E Hf1 Hf2. apply map_eq. intros ip'.
  rewrite to_map_lookup by (by apply set_bucket_shape).
  pose proof (bucket_at_lookup t ip Ht) as Hl.
  assert (Hat : bucket_at (set_bucket t (hash_ip ip 1024) b) (hash_ip ip' 1024)
    = if decide (hash_ip ip 1024 = hash_ip ip' 1024) then b
      else bucket_at t (hash_ip ip' 1024)).
  { unfold bucket_at. cbn. pose proof (hash_ip_range ip 1024). pose proof (hash_ip_range ip' 1024).
    case_decide as Hd.
    - rewrite <- Hd, list_lookup_insert_eq; [done|]. by apply lookup_lt_Some in Hl.
    - rewrite list_lookup_insert_ne by lia. done. }
  rewrite Hat. destruct (decide (ip = ip')) as [<-|Hne].
  - rewrite decide_True by done. rewrite E. apply Hf2. by rewrite to_map_lookup.
  - rewrite Hf1 by done. rewrite (to_map_lookup t ip' Ht). case_decide as Hd; [|done].
    rewrite E, Hf1 by done. by rewrite Hd.
Qed.

Lemma concat_insert_length t ip b :
  shape t ->
  (length (concat (<[Z.to_nat (hash_ip ip 1024) := b]> (buckets t)))
    + length (bucket_at t (hash_ip ip 1024)) =
   length (concat (buckets t)) + length b)%nat.
Proof.
  intros Ht. pose proof (bucket_at_lookup t ip Ht) as Hl.
  rewrite (insert_take_drop _ _ b) by (by apply lookup_lt_Some in Hl).
  rewrite <- (take_drop_middle _ _ _ Hl) at 3.
  rewrite !concat_app. cbn. rewrite !length_app. lia.
Qed.

(** No more entries than non-zero 32-bit addresses. *)
Lemma entries_bound t : shape t -> Z.of_nat (length (concat (buckets t))) <= 4294967295.
Proof.
  intros Ht. pose proof (entries_nodup_from 0 (buckets t)) as Hnd.
  assert (Hsub : (client_ip <$> concat (buckets t)) ⊆+ seqZ 1 4294967295).
  { apply NoDup_submseteq.
    - apply Hnd. intros j b. apply (wf_bucket t Ht).
    - intros ip (n & -> & Hn)%list_elem_of_fmap.
      apply list_elem_of_In, in_concat in Hn as (b & Hb & Hn).
      apply list_elem_of_In, list_elem_of_lookup in Hb as [i Hi].
      destruct (wf_bucket t Ht _ _ Hi) as [Hw _]. rewrite Forall_forall in Hw.
      apply elem_of_seqZ.
      destruct (Hw (client_ip n)) as [? _]; [|lia].
      apply list_elem_of_fmap_2. by apply list_elem_of_In. }
  apply submseteq_length in Hsub. rewrite length_fmap, length_seqZ in Hsub. lia.
Qed.

(** ** Each operation refines its specification *)

Definition live_node (now timeout : Z) (n : sticky_node) : Prop :=
  live now timeout (last_seen_sec n) = true.
#[local] Instance live_node_dec now timeout n : Decision (live_node now timeout n).
Proof. unfold live_node. apply _. Defined.

Lemma cleanup_walk_spec now timeout b c :
  Z.of_nat (length b) <= c ->
  cleanup_walk now timeout b c
  = (filter (live_node now timeout) b,
     c - (Z.of_nat (length b) - Z.of_nat (length (filter (live_node now timeout) b)))).
Proof.
  revert c. induction b as [|n b IH]; intros c Hc; cbn [cleanup_walk].
  { cbn. f_equal. lia. }
  cbn [length] in *. rewrite filter_cons.
  destruct (decide (live_node now timeout n)) as [Hl|Hl]; unfold live_node, live in Hl.
  - assert ((timeout <? u64 (now - last_seen_sec n)) = false) as -> by lia.
    rewrite IH by lia. cbn [length]. f_equal. lia.
  - assert ((timeout <? u64 (now - last_seen_sec n)) = true) as -> by lia.
    assert ((0 <? c) = true) as -> by lia. rewrite IH by lia. f_equal. lia.
Qed.

Lemma cleanup_buckets_spec now timeout bs c :
  Z.of_nat (length (concat bs)) <= c ->
  cleanup_buckets now timeout bs c
  = (filter (live_node now timeout) <$> bs,
     c - (Z.of_nat (length (concat bs))
          - Z.of_nat (length (concat (filter (live_node now timeout) <$> bs))))).
Proof.
  revert c. induction bs as [|b bs IH]; intros c Hc; cbn [cleanup_buckets concat fmap list_fmap].
  { f_equal. lia. }
  cbn [concat] in Hc. rewrite length_app in Hc.
  rewrite cleanup_walk_spec by lia.
  assert (Hle : (length (filter (live_node now timeout) b) <= length b)%nat)
    by apply length_filter.
  rewrite IH by lia. rewrite !length_app. f_equal. lia.
Qed.

Lemma filter_bucket_wf i now timeout b :
  bucket_wf i b -> bucket_wf i (filter (live_node now timeout) b).
Proof.
  assert (Hs : client_ip <$> filter (live_node now timeout) b `sublist_of` client_ip <$> b).
  { apply fmap_sublist, sublist_filter. }
  intros [H1 H2]. split; [|by eapply sublist_NoDup].
  rewrite Forall_forall in *. intros x Hx. apply H1. by eapply elem_of_sublist.
Qed.

Inductive sticky_op :=
  | OpLookup (ip : Z)
  | OpInsert (malloc_ok : bool) (ip wan : Z)
  | OpCleanup.

Definition op_ok (op : sticky_op) : Prop :=
  match op with OpLookup ip | OpInsert _ ip _ => is_u32 ip | OpCleanup => True end.

(** One call at second [now]: the table afterwards and the returned value. *)
Definition run_op (now : Z) (op : sticky_op) (t : option sticky_table)
    : option sticky_table * Z :=
  match op with
  | OpLookup ip => sticky_lookup now t ip
  | OpInsert malloc_ok ip wan => sticky_insert malloc_ok now t ip wan
  | OpCleanup => (sticky_cleanup_expired now t, 0)
  end.

Definition spec_op (now timeout : Z) (op : sticky_op) (m : gmap Z (Z * Z))
    : gmap Z (Z * Z) * Z :=
  match op with
  | OpLookup ip => spec_lookup now timeout ip m
  | OpInsert malloc_ok ip wan =>
      if (ip =? 0) || (wan =? 0) then (m, -1)
      else if bool_decide (m !! ip = None) && negb malloc_ok then (m, -1)
      else (<[ip := (wan, now)]> m, 0)
  | OpCleanup => (spec_cleanup now timeout m, 0)
  end.

(** The simulation relation between a table and its abstract map. *)
Definition refines (timeout : Z) (t : option sticky_table) (m : gmap Z (Z * Z)) : Prop :=
  exists t0, t = Some t0 /\ wf t0 /\ timeout_sec t0 = timeout /\ to_map t0 = m.

Lemma lookup_refines now timeout t m ip :
  is_u32 ip -> refines timeout t m ->
  refines timeout (fst (sticky_lookup now t ip)) (fst (spec_lookup now timeout ip m))
  /\ snd (sticky_lookup now t ip) = snd (spec_lookup now timeout ip m).
Proof.
  intros Hip (t0 & -> & [Ht Hc] & <- & <-). unfold sticky_lookup.
  destruct (Z.eqb_spec ip 0) as [->|Hne].
  { assert (to_map t0 !! 0 = None) as Hn.
    { rewrite to_map_lookup by done. destruct (bmap _ !! 0) eqn:E; [|done].
      pose proof (bucket_at_lookup t0 0 Ht) as Hb.
      destruct (wf_bucket t0 Ht _ _ Hb) as [Hw Hnd]. rewrite Forall_forall in Hw.
      rewrite bmap_elem in E by done. apply (list_elem_of_fmap_2 fst) in E.
      rewrite <- list_fmap_compose in E. destruct (Hw 0); [exact E|lia]. }
    unfold spec_lookup. rewrite Hn. split; [|done]. exists t0. by split_and!. }
  rewrite (wf_num t0 Ht).
  pose proof (lookup_walk_spec ip now (timeout_sec t0) (bucket_at t0 (hash_ip ip 1024))) as Hs.
  pose proof (lookup_walk_ips ip now (timeout_sec t0) (bucket_at t0 (hash_ip ip 1024))) as Hi.
  destruct (lookup_walk _ _ _ _) as [b r]. cbn [fst snd] in *.
  pose proof (bucket_at_lookup t0 ip Ht) as Hb.
  assert (Hbw : bucket_wf (Z.to_nat (hash_ip ip 1024)) b)
    by (eapply bucket_wf_ips, wf_bucket; eauto).
  assert (Hlen : length b = length (bucket_at t0 (hash_ip ip 1024)))
    by (rewrite <- (length_fmap client_ip b), Hi; apply length_fmap).
  assert (Hsnd : r = snd (spec_lookup now (timeout_sec t0) ip (to_map t0))).
  { unfold spec_lookup in *. rewrite to_map_lookup by done.
    destruct (bmap (bucket_at t0 (hash_ip ip 1024)) !! ip) as [[w ts]|]; [|by inversion Hs].
    destruct (live now (timeout_sec t0) ts); by inversion Hs. }
  split; [|done]. eexists. split; [done|]. split_and!; [split; [by apply set_bucket_shape|]|done|].
  - cbn. rewrite Hc. pose proof (concat_insert_length t0 ip b Ht). lia.
  - apply (set_bucket_map t0 ip b (fun m => fst (spec_lookup now (timeout_sec t0) ip m))); try done.
    + by rewrite Hs.
    + intros m ip' Hd. unfold spec_lookup. destruct (m !! ip) as [[w ts]|]; [|done].
      destruct (live _ _ _); [|done]. cbn. by rewrite lookup_insert_ne.
    + intros m m' E. unfold spec_lookup. rewrite E. destruct (m' !! ip) as [[w ts]|] eqn:E'.
      * destruct (live _ _ _); cbn; [by rewrite !lookup_insert_eq|congruence].
      * cbn. congruence.
Qed.

Lemma insert_refines now timeout t m malloc_ok ip wan :
  is_u32 ip -> refines timeout t m ->
  refines timeout (fst (run_op now (OpInsert malloc_ok ip wan) t))
    (fst (spec_op now timeout (OpInsert malloc_ok ip wan) m))
  /\ snd (run_op now (OpInsert malloc_ok ip wan) t)
     = snd (spec_op now timeout (OpInsert malloc_ok ip wan) m).
Proof.
  intros Hip (t0 & -> & [Ht Hc] & <- & <-). cbn [run_op spec_op sticky_insert].
  destruct ((ip =? 0) || (wan =? 0)) eqn:Ez.
  { split; [|done]. exists t0. by split_and!. }
  assert (Hnz : ip <> 0) by lia. rewrite (wf_num t0 Ht), to_map_lookup by done.
  pose proof (insert_walk_spec ip wan now (bucket_at t0 (hash_ip ip 1024))) as Hs.
  pose proof (bucket_at_lookup t0 ip Ht) as Hb.
  pose proof (wf_bucket t0 Ht _ _ Hb) as [Hw Hnd].
  assert (Hins : forall b, bucket_wf (Z.to_nat (hash_ip ip 1024)) b ->
    bmap b = <[ip := (wan, now)]> (bmap (bucket_at t0 (hash_ip ip 1024))) ->
    to_map (set_bucket t0 (hash_ip ip 1024) b) = <[ip := (wan, now)]> (to_map t0)).
  { intros b Hbw E. apply (set_bucket_map t0 ip b (fun m => <[ip := (wan, now)]> m)); try done.
    - intros. by apply lookup_insert_ne.
    - intros. by rewrite !lookup_insert_eq. }
  destruct (insert_walk _ _ _ _) as [b|].
  - destruct Hs as [E Hi]. assert (Hbw : bucket_wf (Z.to_nat (hash_ip ip 1024)) b)
      by (by eapply bucket_wf_ips).
    assert (bool_decide (bmap (bucket_at t0 (hash_ip ip 1024)) !! ip = None) = false) as ->.
    { apply bool_decide_eq_false. intros Hn. assert (ip ∈ client_ip <$> b) as Hin.
      { assert (bmap b !! ip = Some (wan, now)) as Hx by (rewrite E; apply lookup_insert_eq).
        rewrite bmap_elem in Hx by apply Hbw. apply (list_elem_of_fmap_2 fst) in Hx.
        by rewrite <- list_fmap_compose in Hx. }
      rewrite Hi in Hin. apply list_elem_of_fmap in Hin as (n & -> & Hin).
      assert (bmap (bucket_at t0 (hash_ip (client_ip n) 1024)) !! client_ip n
              = Some (wan_id n, last_seen_sec n)) as Hsome.
      { apply bmap_elem; [done|]. by apply (list_elem_of_fmap_2 node_pair). }
      congruence. }
    cbn. split; [|done]. eexists. split; [done|].
    split_and!; [split; [by apply set_bucket_shape|]|done|by apply Hins].
    cbn. rewrite Hc. pose proof (concat_insert_length t0 ip b Ht).
    assert (length b = length (bucket_at t0 (hash_ip ip 1024)))
      by (rewrite <- (length_fmap client_ip b), Hi; apply length_fmap). lia.
  - destruct Hs as [E Hni]. rewrite bool_decide_true by done. destruct malloc_ok; cbn.
    2: { split; [|done]. exists t0. by split_and!. }
    set (b := StickyNode ip wan now :: bucket_at t0 (hash_ip ip 1024)).
    assert (Hbw : bucket_wf (Z.to_nat (hash_ip ip 1024)) b).
    { split; cbn; [|by constructor]. constructor; [|done].
      pose proof (hash_ip_range ip 1024). unfold is_u32 in Hip. lia. }
    split; [|done]. eexists. split; [done|].
    pose proof (set_bucket_shape t0 ip b Ht Hbw) as [Hs1 Hs2 Hs3].
    pose proof (concat_insert_length t0 ip b Ht) as Hl. cbn [length b] in Hl.
    split_and!; [split; [by split|]|done|by apply Hins]. cbn.
    rewrite u32_small; [lia|]. rewrite Hc.
    pose proof (entries_bound _ (set_bucket_shape t0 ip b Ht Hbw)) as Hbd. cbn in Hbd.
    unfold is_u32. lia.
Qed.

Lemma cleanup_refines now timeout t m :
  refines timeout t m ->
  refines timeout (sticky_cleanup_expired now t) (spec_cleanup now timeout m).
Proof.
  intros (t0 & -> & [Ht Hc] & <- & <-). unfold sticky_cleanup_expired.
  rewrite cleanup_buckets_spec by lia.
  eexists. split; [done|]. set (t1 := StickyTable _ _ _ _).
  assert (Ht1 : shape t1).
  { split; cbn; [apply Ht|rewrite length_fmap; apply Ht|].
    intros i b. rewrite list_lookup_fmap, fmap_Some. intros (b0 & Hb & ->).
    apply filter_bucket_wf. by apply (wf_bucket t0 Ht). }
  split_and!; [split; [done|]|done|].
  - unfold t1. cbn. lia.
  - apply map_eq. intros ip. apply option_eq. intros [w ts].
    unfold spec_cleanup. rewrite map_lookup_filter_Some.
    unfold to_map. rewrite <- !elem_of_list_to_map by (by apply entries_nodup).
    rewrite !elem_of_entries. cbn [snd]. split.
    + intros (i & b & n & Hi & Hn & E). unfold t1 in Hi. cbn in Hi.
      rewrite list_lookup_fmap, fmap_Some in Hi. destruct Hi as (b0 & Hb0 & ->).
      apply list_elem_of_filter in Hn as [Hl Hn]. inversion E; subst. split; [|done].
      eauto 10.
    + intros [(i & b & n & Hi & Hn & E) Hl].
      exists i, (filter (live_node now (timeout_sec t0)) b), n. split_and!; [| |done].
      * unfold t1. cbn. by rewrite list_lookup_fmap, Hi.
      * apply list_elem_of_filter. split; [|done]. inversion E; subst. done.
Qed.

Lemma op_refines now timeout t m op :
  op_ok op -> refines timeout t m ->
  refines timeout (fst (run_op now op t)) (fst (spec_op now timeout op m))
  /\ snd (run_op now op t) = snd (spec_op now timeout op m).
Proof.
  destruct op as [ip|malloc_ok ip wan|]; cbn [op_ok].
  - apply lookup_refines.
  - apply insert_refines.
  - intros _ Hr. split; [|done]. by apply cleanup_refines.
Qed.

(** ** Traces *)

Fixpoint run_trace (ops : list (Z * sticky_op)) (t : option sticky_table)
    : option sticky_table * list Z :=
  match ops with
  | [] => (t, [])
  | (now, op) :: ops =>
      let '(t1, r) := run_op now op t in
      let '(t2, rs) := run_trace ops t1 in (t2, r :: rs)
  end.
Fixpoint spec_trace (timeout : Z) (ops : list (Z * sticky_op)) (m : gmap Z (Z * Z))
    : gmap Z (Z * Z) * list Z :=
  match ops with
  | [] => (m, [])
  | (now, op) :: ops =>
      let '(m1, r) := spec_op now timeout op m in
      let '(m2, rs) := spec_trace timeout ops m1 in (m2, r :: rs)
  end.

Lemma trace_refines timeout ops t m :
  Forall (fun p => op_ok (snd p)) ops -> refines timeout t m ->
  refines timeout (fst (run_trace ops t)) (fst (spec_trace timeout ops m))
  /\ snd (run_trace ops t) = snd (spec_trace timeout ops m).
Proof.
  revert t m. induction ops as [|[now op] ops IH]; intros t m Hok Hr; [done|].
  apply Forall_cons_1 in Hok as [Hop Hok]. cbn [run_trace spec_trace snd] in *.
  destruct (op_refines now timeout t m op Hop Hr) as [Hr1 E1].
  destruct (run_op now op t) as [t1 r], (spec_op now timeout op m) as [m1 r'].
  cbn [fst snd] in *. subst r'. destruct (IH t1 m1 Hok Hr1) as [Hr2 E2].
  destruct (run_trace ops t1), (spec_trace timeout ops m1). cbn in *. by subst.
Qed.

Lemma init_refines max_entries timeout :
  refines timeout (sticky_table_init true true max_entries timeout) ∅.
Proof.
  eexists. split; [done|]. split_and!; [|done|].
  - split; [|by vm_compute]. split; [done|by vm_compute|]. cbn [buckets].
    intros i b [-> _]%lookup_replicate_1. split; cbn; constructor.
  - unfold to_map. replace (entries _) with ([] : list (Z * (Z * Z))) by (by vm_compute). done.
Qed.

(** C32.  The sticky table refines a finite map: over any sequence of timed calls
    (lookups, inserts with or without memory, expiry sweeps) on a freshly
    initialised table, every returned value is the one the abstract map gives,
    the final table represents the final map, and its counter is the number of
    sessions. *)
Theorem sticky_refines max_entries timeout ops :
  Forall (fun p => op_ok (snd p)) ops ->
  let '(t, rs) := run_trace ops (sticky_table_init true true max_entries timeout) in
  let '(m, rs') := spec_trace timeout ops ∅ in
  rs = rs' /\ exists t0, t = Some t0 /\ to_map t0 = m
                       /\ active_count t0 = Z.of_nat (size m).
Proof.
  intros Hok.
  destruct (trace_refines timeout ops _ _ Hok (init_refines max_entries timeout)) as [Hr E].
  destruct (run_trace _ _) as [t rs], (spec_trace _ _ _) as [m rs']. cbn in *.
  split; [done|]. destruct Hr as (t0 & -> & [Ht Hc] & _ & <-).
  exists t0. split_and!; [done|done|]. unfold to_map.
  rewrite map_size_list_to_map by (by apply entries_nodup).
  unfold entries. rewrite length_fmap. done.
Qed.

Definition demo_ops : list (Z * sticky_op) :=
  [(100, OpInsert true 3232235777 2); (130, OpLookup 3232235777);
   (900, OpLookup 3232235777); (901, OpCleanup); (902, OpInsert false 7 1)].

Lemma sticky_refines_witness :
  let '(t, rs) := run_trace demo_ops (sticky_table_init true true 16384 300) in
  let '(m, rs') := spec_trace 300 demo_ops ∅ in
  rs = rs' /\ exists t0, t = Some t0 /\ to_map t0 = m
                       /\ active_count t0 = Z.of_nat (size m).
Proof. apply (sticky_refines 16384 300 demo_ops). repeat constructor; by_eval. Defined.

Example demo_results :
  snd (run_trace demo_ops (sticky_table_init true true 16384 300)) = [0; 2; 0; 0; -1].
Proof. by vm_compute. Qed.

(** ** Session affinity *)

Definition rebinds (ip : Z) (op : sticky_op) : Prop :=
  match op with OpInsert _ ip' _ => ip' = ip | _ => False end.

(** The calls happen at non-decreasing seconds of [[lo, hi]]. *)
Fixpoint timed_within (lo hi : Z) (ops : list (Z * sticky_op)) : Prop :=
  match ops with
  | [] => lo <= hi
  | (now, _) :: ops => lo <= now <= hi /\ timed_within now hi ops
  end.

Lemma live_within now timeout ts t0 :
  0 <= t0 -> t0 <= ts <= now -> now <= t0 + timeout -> now < 18446744073709551616 ->
  live now timeout ts = true.
Proof. intros. unfold live. rewrite u64_small; [lia|]. unfold is_u64. lia. Qed.

Lemma spec_affinity timeout ip wan t0 t1 ops ts m now :
  0 <= t0 -> t1 <= t0 + timeout -> t1 < 18446744073709551616 ->
  t0 <= ts <= now -> m !! ip = Some (wan, ts) ->
  timed_within now t1 ops -> Forall (fun p => ~ rebinds ip (snd p)) ops ->
  exists ts', t0 <= ts' <= t1 /\
    fst (spec_trace timeout ops m) !! ip = Some (wan, ts').
Proof.
  intros H0 H1 H64. revert ts m now.
  induction ops as [|[n op] ops IH]; intros ts m now Hts Hm Ht Hr; cbn in *.
  { exists ts. split; [lia|done]. }
  destruct Ht as [Hn Ht]. apply Forall_cons_1 in Hr as [Hr1 Hr]. cbn in Hr1.
  assert (exists ts', t0 <= ts' <= n /\ fst (spec_op n timeout op m) !! ip = Some (wan, ts')) as Hop.
  { assert (Hl : live n timeout ts = true)
      by (eapply (live_within _ _ _ t0); destruct ops as [|[? ?] ?]; cbn in Ht; lia).
    destruct op as [ip'|ok ip' wan'|]; cbn.
    - unfold spec_lookup. destruct (decide (ip' = ip)) as [->|Hne].
      + rewrite Hm, Hl. cbn. rewrite lookup_insert_eq. exists n. split; [lia|done].
      + destruct (m !! ip') as [[w s]|]; [destruct (live n timeout s)|]; cbn;
          rewrite ?lookup_insert_ne by done; exists ts; (split; [lia|done]).
    - cbn in Hr1. destruct ((ip' =? 0) || _); [exists ts; split; [lia|done]|].
      destruct (_ && _); cbn; rewrite ?lookup_insert_ne by done; exists ts; (split; [lia|done]).
    - exists ts. split; [lia|]. unfold spec_cleanup. rewrite map_lookup_filter, Hm. cbn.
      rewrite option_guard_True by done. done. }
  destruct (spec_op n timeout op m) as [m1 r]. destruct Hop as (ts1 & Hts1 & Hm1).
  destruct (IH ts1 m1 n) as (ts2 & ? & Hf); [lia|done|done|done|].
  destruct (spec_trace timeout ops m1). exists ts2. split; [lia|done].
Qed.

(** Session affinity: once a client is bound to a WAN, a lookup within the
    timeout returns that WAN, whatever lookups, sweeps and inserts for other
    clients happened in between, as long as the clock does not go back. *)
Theorem sticky_affinity max_entries timeout before ip wan t0 ops t1 :
  Forall (fun p => op_ok (snd p)) (before ++ ops) ->
  is_u32 ip -> ip <> 0 -> wan <> 0 -> 0 <= t0 ->
  t1 <= t0 + timeout -> t1 < 18446744073709551616 ->
  timed_within t0 t1 ops -> Forall (fun p => ~ rebinds ip (snd p)) ops ->
  last (snd (run_trace (before ++ [(t0, OpInsert true ip wan)] ++ ops ++ [(t1, OpLookup ip)])
               (sticky_table_init true true max_entries timeout))) = Some wan.
Proof.
  intros Hok Hip Hnz Hw Ht0 Ht1 H64 Htimes Hreb. apply Forall_app in Hok as [Hok1 Hok2].
  set (all := before ++ _).
  assert (Hall : Forall (fun p => op_ok (snd p)) all).
  { unfold all. rewrite !Forall_app, !Forall_singleton. done. }
  destruct (trace_refines timeout all _ _ Hall (init_refines max_entries timeout)) as [_ ->].
  assert (Happ : forall a b m, spec_trace timeout (a ++ b) m =
    (fst (spec_trace timeout b (fst (spec_trace timeout a m))),
     snd (spec_trace timeout a m) ++ snd (spec_trace timeout b (fst (spec_trace timeout a m))))).
  { induction a as [|[n o] a IHa]; intros b m; cbn; [by destruct (spec_trace timeout b m)|].
    destruct (spec_op n timeout o m) as [m1 r]. rewrite IHa.
    destruct (spec_trace timeout a m1) as [m2 rs]. cbn. by destruct (spec_trace timeout b m2). }
  unfold all. rewrite !Happ. cbn [fst snd]. set (m := fst (spec_trace timeout before ∅)).
  assert (fst (spec_trace timeout [(t0, OpInsert true ip wan)] m) = <[ip := (wan, t0)]> m) as ->.
  { cbn. destruct (Z.eqb_spec ip 0), (Z.eqb_spec wan 0); try lia. cbn.
    by rewrite andb_false_r. }
  destruct (spec_affinity timeout ip wan t0 t1 ops t0 (<[ip := (wan, t0)]> m) t0)
    as (ts & Hts & Hm); try done; try lia; [apply lookup_insert_eq|].
  set (m1 := fst (spec_trace timeout ops _)) in *.
  assert (snd (spec_trace timeout [(t1, OpLookup ip)] m1) = [wan]) as ->.
  { cbn. unfold spec_lookup. rewrite Hm, (live_within t1 timeout ts t0) by lia. done. }
  by rewrite !app_assoc, last_snoc.
Qed.

Lemma sticky_affinity_witness :
  last (snd (run_trace ([] ++ [(100, OpInsert true 3232235777 2)]
    ++ [(150, OpLookup 3232235777); (200, OpCleanup); (210, OpInsert true 9 1)]
    ++ [(390, OpLookup 3232235777)]) (sticky_table_init true true 16384 300))) = Some 2.
Proof.
  apply (sticky_affinity 16384 300 [] 3232235777 2 100
    [(150, OpLookup 3232235777); (200, OpCleanup); (210, OpInsert true 9 1)] 390);
    repeat constructor; by_eval || (cbn; lia).
Defined.

(** The age is an unsigned 64-bit difference: a clock set back by one second makes
    every binding look expired. *)
Theorem sticky_clock_back_expires max_entries ip wan t0 timeout :
  is_u32 ip -> ip <> 0 -> wan <> 0 -> 1 <= t0 < 18446744073709551616 ->
  0 <= timeout < 4294967296 ->
  snd (run_trace [(t0, OpInsert true ip wan); (t0 - 1, OpLookup ip)]
         (sticky_table_init true true max_entries timeout)) = [0; 0].
Proof.
  intros Hip Hnz Hw Ht Hto.
  assert (Hok : Forall (fun p => op_ok (snd p)) [(t0, OpInsert true ip wan); (t0 - 1, OpLookup ip)]).
  { constructor; [done|by apply Forall_singleton]. }
  destruct (trace_refines timeout _ _ _ Hok (init_refines max_entries timeout)) as [_ ->].
  cbn. destruct (Z.eqb_spec ip 0), (Z.eqb_spec wan 0); try lia. cbn.
  rewrite andb_false_r. cbn. unfold spec_lookup. rewrite lookup_insert_eq. unfold live.
  assert (u64 (t0 - 1 - t0) = 18446744073709551615) as -> by (unfold u64; lia).
  destruct (Z.leb_spec 18446744073709551615 timeout); [lia|done].
Qed.
