(* ===== verification/DynBuf.v ===== *)
(** * Growable string buffer ([src/dyn_buf.c])

    The buffer every JSON, metrics and CSV response is built in.  Memory is a list
    of cells, [None] for an indeterminate byte; the outcome of each allocation is
    an argument ([true] when [malloc]/[realloc] succeeds).  [size_t] is 64 bits
    wide.  A formatted print is given by the bytes [vsnprintf] produces, or [None]
    for its encoding error. *)

From S2P Require Import Prelude.

Record dyn_buf := DynBuf {
  data : option (list (option Z));
  len : Z;
  capacity : Z
}.

Definition DYN_BUF_DEFAULT_CAPACITY : Z := 2048.

(** The doubling loop of [dyn_buf_grow]; [None] when the fuel runs out. *)
Fixpoint grow_loop (fuel : nat) (new_cap target : Z) : option Z :=
  if new_cap <? target then
    match fuel with
    | O => None
    | S fuel => grow_loop fuel (u64 (new_cap * 2)) target
    end
  else Some new_cap.

(** [realloc]: the old cells, then indeterminate ones. *)
Definition realloc (old : option (list (option Z))) (n : Z) : list (option Z) :=
  let old := default [] old in
  take (Z.to_nat n) old ++ replicate (Z.to_nat n - length old) None.

(** [None]: the loop does not end; otherwise the buffer and 0 or -1. *)
Definition dyn_buf_grow (alloc_ok : bool) (buf : dyn_buf) (needed : Z) : option (dyn_buf * Z) :=
  let target := u64 (u64 (len buf + needed) + 1) in
  if target <=? capacity buf then Some (buf, 0)
  else
    let new_cap := if capacity buf =? 0 then DYN_BUF_DEFAULT_CAPACITY
                   else u64 (capacity buf * 2) in
    new_cap ← grow_loop 64 new_cap target;
    if negb alloc_ok then Some (buf, -1)
    else Some (DynBuf (Some (realloc (data buf) new_cap)) (len buf) new_cap, 0).

Definition dyn_buf_init (alloc_ok : bool) (initial_capacity : Z) : dyn_buf :=
  let cap := if initial_capacity =? 0 then DYN_BUF_DEFAULT_CAPACITY else initial_capacity in
  if alloc_ok
  then DynBuf (Some (<[0%nat := Some 0]> (replicate (Z.to_nat cap) None))) 0 cap
  else DynBuf None 0 0.

(** Store bytes at an offset of the cells. *)
Fixpoint put (cells : list (option Z)) (off : nat) (bs : list Z) : list (option Z) :=
  match bs with
  | [] => cells
  | b :: bs => put (<[off := Some b]> cells) (S off) bs
  end.

(** [vsnprintf (p, size, ...)]: at most [size - 1] bytes and a NUL. *)
Definition vsnprintf (cells : list (option Z)) (off size : Z) (out : list Z)
    : list (option Z) :=
  if size =? 0 then cells
  else put cells (Z.to_nat off) (take (Z.to_nat (size - 1)) out ++ [0]).

Definition dyn_buf_vprintf (alloc_ok : bool) (buf : dyn_buf) (out : option (list Z))
    : option (dyn_buf * Z) :=
  match out with
  | None => Some (buf, -1)
  | Some out =>
      '(buf, rc) ← dyn_buf_grow alloc_ok buf (blen out);
      if negb (rc =? 0) then Some (buf, -1)
      else
        let cells := vsnprintf (default [] (data buf)) (len buf) (capacity buf - len buf) out in
        let written := blen out in
        Some (DynBuf (Some cells)
                (if 0 <? written then u64 (len buf + written) else len buf)
                (capacity buf), written)
  end.

Definition dyn_buf_append_len (alloc_ok : bool) (buf : dyn_buf) (str : list Z)
    : option (dyn_buf * Z) :=
  if blen str =? 0 then Some (buf, 0)
  else
    '(buf, rc) ← dyn_buf_grow alloc_ok buf (blen str);
    if negb (rc =? 0) then Some (buf, -1)
    else
      let cells := put (default [] (data buf)) (Z.to_nat (len buf)) str in
      let len' := u64 (len buf + blen str) in
      Some (DynBuf (Some (<[Z.to_nat len' := Some 0]> cells)) len' (capacity buf), blen str).

(** [dyn_buf_append]: [str] is the C string, up to its NUL. *)
Definition dyn_buf_append (alloc_ok : bool) (buf : dyn_buf) (str : list Z)
    : option (dyn_buf * Z) := dyn_buf_append_len alloc_ok buf str.

Definition dyn_buf_free (buf : dyn_buf) : dyn_buf := DynBuf None 0 0.

(** [dyn_buf_cstr] read as a C string: the bytes before the first NUL; [None] when
    the read meets an indeterminate byte or leaves the buffer. *)
Fixpoint cstr_of (cells : list (option Z)) : option (list Z) :=
  match cells with
  | Some b :: cells => if b =? 0 then Some [] else bs ← cstr_of cells; Some (b :: bs)
  | _ => None
  end.
Definition dyn_buf_cstr (buf : dyn_buf) : option (list Z) :=
  match data buf with None => Some [] | Some cells => cstr_of cells end.

(** ** Invariant *)

(** The buffer holds [content], NUL-terminated inside its capacity. *)
Definition holds (buf : dyn_buf) (content : list Z) : Prop :=
  (data buf = None /\ len buf = 0 /\ capacity buf = 0 /\ content = []) \/
  exists rest, data buf = Some ((Some <$> content) ++ Some 0 :: rest)
    /\ len buf = blen content
    /\ capacity buf = Z.of_nat (length ((Some <$> content) ++ Some 0 :: rest))
    /\ capacity buf < 9223372036854775808.

Lemma grow_loop_spec n cap target :
  0 < cap -> target <= cap * 2 ^ Z.of_nat n -> target <= 9223372036854775808 ->
  exists c, grow_loop n cap target = Some c /\ target <= c /\
    cap <= c /\ (c < 2 * target \/ c = cap).
Proof.
  revert cap. induction n as [|n IH]; intros cap Hc Ht H63; cbn [grow_loop].
  - rewrite Z.pow_0_r in Ht. destruct (Z.ltb_spec cap target); [lia|].
    exists cap. split_and!; (done || lia).
  - destruct (Z.ltb_spec cap target); [|exists cap; split_and!; (done || lia)].
    rewrite (u64_small (cap * 2)) by (unfold is_u64; lia).
    destruct (IH (cap * 2)) as (c & E & ? & ? & ?); [lia| |lia|].
    + rewrite Nat2Z.inj_succ, Z.pow_succ_r in Ht by lia. lia.
    + exists c. split_and!; (done || lia).
Qed.

(** The state of the buffer once [needed] more bytes and the NUL fit. *)
Lemma dyn_buf_grow_spec ok buf content needed :
  holds buf content -> 0 <= needed -> blen content + needed < 4611686018427387000 ->
  exists buf' rc, dyn_buf_grow ok buf needed = Some (buf', rc) /\
    ((rc = 0 /\ exists rest, data buf' = Some ((Some <$> content) ++ rest)
        /\ len buf' = blen content
        /\ capacity buf' = Z.of_nat (length ((Some <$> content) ++ rest))
        /\ capacity buf' < 9223372036854775808
        /\ blen content + needed + 1 <= capacity buf')
     \/ (rc = -1 /\ ok = false /\ buf' = buf)).
Proof.
  intros Hh Hn Hsz. unfold dyn_buf_grow.
  assert (Hlen : len buf = blen content)
    by (destruct Hh as [(_ & -> & _ & ->)|(rest & _ & -> & _)]; done).
  rewrite Hlen. rewrite (u64_small (blen content + needed)) by (unfold is_u64; lia).
  rewrite u64_small by (unfold is_u64; lia).
  destruct (Z.leb_spec (blen content + needed + 1) (capacity buf)) as [Hle|Hgt].
  { eexists _, _. split; [done|]. left. split; [done|].
    destruct Hh as [(_ & _ & E & ->)|(rest & E & El & Ec & Hb)]; [lia|].
    exists (Some 0 :: rest). split_and!; try done. }
  set (new_cap := if capacity buf =? 0 then _ else _).
  assert (Hnew : 1 <= new_cap < 9223372036854775808).
  { unfold new_cap, DYN_BUF_DEFAULT_CAPACITY.
    destruct (Z.eqb_spec (capacity buf) 0); [lia|].
    destruct Hh as [(_ & _ & E & _)|(rest & E & El & Ec & Hb)]; [lia|].
    rewrite u64_small; unfold is_u64; lia. }
  destruct (grow_loop_spec 64 new_cap (blen content + needed + 1))
    as (c & -> & Hc1 & Hc2 & Hc3); [lia| |lia|].
  { change (Z.of_nat 64) with 64. assert (1 <= new_cap) by lia. nia. }
  cbn. destruct ok; cbn.
  2: { eexists _, _. split; [done|]. right. done. }
  eexists _, _. split; [done|]. left. split; [done|]. cbn.
  destruct Hh as [(Ed & _ & _ & ->)|(rest & Ed & El & Ec & Hb)].
  - rewrite Ed. unfold realloc. cbn. rewrite take_nil. cbn.
    eexists. split_and!; try done. rewrite length_replicate. lia. lia.
  - rewrite Ed. unfold realloc. cbn [default from_option id].
    set (old := (Some <$> content) ++ Some 0 :: rest) in *.
    rewrite take_ge by lia.
    exists ((Some 0 :: rest) ++ replicate (Z.to_nat c - length old) None).
    rewrite app_assoc. fold old. split_and!; try done; try lia.
    rewrite length_app, length_replicate. lia.
Qed.

Lemma put_app pre mid post bs :
  length mid = length bs ->
  put (pre ++ mid ++ post) (length pre) bs = pre ++ (Some <$> bs) ++ post.
Proof.
  revert pre mid. induction bs as [|b bs IH]; intros pre mid Hl.
  { by destruct mid. }
  destruct mid as [|c mid]; [done|]. cbn [put fmap list_fmap].
  rewrite insert_app_r_alt, Nat.sub_diag by done. cbn.
  replace (pre ++ Some b :: mid ++ post) with ((pre ++ [Some b]) ++ mid ++ post)
    by (by rewrite <- app_assoc).
  replace (S (length pre)) with (length (pre ++ [Some b])) by (rewrite length_app; cbn; lia).
  rewrite IH by (cbn in Hl; lia). by rewrite <- app_assoc.
Qed.

(** Writing [bs] after the content when it fits. *)
Lemma put_content content rest bs :
  (length bs <= length rest)%nat ->
  put ((Some <$> content) ++ rest) (length content) bs
  = (Some <$> content) ++ (Some <$> bs) ++ drop (length bs) rest.
Proof.
  intros Hl. rewrite <- (take_drop (length bs) rest) at 1.
  replace (length content) with (length ((Some : Z -> option Z) <$> content))
    by apply length_fmap.
  apply put_app. rewrite length_take. lia.
Qed.

(** What one append or print promises. *)
Definition appended (ok : bool) (buf : dyn_buf) (content out : list Z)
    (res : option (dyn_buf * Z)) : Prop :=
  exists buf' r, res = Some (buf', r) /\
    ((r = blen out /\ holds buf' (content ++ out)) \/
     (r = -1 /\ ok = false /\ buf' = buf)).

Lemma append_len_spec ok buf content str :
  holds buf content -> blen content + blen str < 4611686018427387000 ->
  appended ok buf content str (dyn_buf_append_len ok buf str).
Proof.
  intros Hh Hsz. unfold dyn_buf_append_len, appended.
  destruct (Z.eqb_spec (blen str) 0) as [Hz|Hnz].
  { destruct str; [|done]. eexists _, _. split; [done|]. left. by rewrite app_nil_r. }
  destruct (dyn_buf_grow_spec ok buf content (blen str) Hh)
    as (buf1 & rc & -> & [(-> & rest & E1 & E2 & E3 & E4 & E5)|(-> & -> & ->)]); [lia..| |].
  2: { cbn. eexists _, _. split; [done|]. by right. }
  cbn. rewrite E1, E2. cbn. eexists _, _. split; [done|]. left. split; [done|]. right.
  rewrite length_app, length_fmap in E3. rewrite Nat2Z.id.
  rewrite put_content by lia. rewrite u64_small by (unfold is_u64; lia).
  destruct (drop (length str) rest) as [|c rest'] eqn:Ed.
  { apply (f_equal length) in Ed. rewrite length_drop in Ed. cbn in Ed. lia. }
  exists rest'. cbn. rewrite app_assoc, <- fmap_app.
  replace (Z.to_nat (blen content + blen str))
    with (length ((Some : Z -> option Z) <$> (content ++ str)) + 0)%nat
    by (rewrite length_fmap, length_app; lia).
  rewrite insert_app_r. cbn.
  apply (f_equal length) in Ed. rewrite length_drop in Ed. cbn in Ed.
  split_and!; [done|by rewrite length_app, Nat2Z.inj_add| |lia].
  rewrite E3, length_app, length_fmap, length_app. cbn. lia.
Qed.

Lemma vprintf_spec ok buf content out :
  holds buf content -> blen content + blen out < 4611686018427387000 ->
  appended ok buf content out (dyn_buf_vprintf ok buf (Some out)).
Proof.
  intros Hh Hsz. unfold dyn_buf_vprintf, appended.
  destruct (dyn_buf_grow_spec ok buf content (blen out) Hh)
    as (buf1 & rc & -> & [(-> & rest & E1 & E2 & E3 & E4 & E5)|(-> & -> & ->)]); [lia..| |].
  2: { cbn. eexists _, _. split; [done|]. by right. }
  cbn. rewrite E1, E2. cbn. eexists _, _. split; [done|]. left. split; [done|]. right.
  rewrite length_app, length_fmap in E3. unfold vsnprintf.
  destruct (Z.eqb_spec (capacity buf1 - blen content) 0); [lia|].
  rewrite take_ge by lia. rewrite Nat2Z.id.
  rewrite put_content by (rewrite length_app; cbn; lia).
  exists (drop (length (out ++ [0])) rest). cbn.
  rewrite !fmap_app, <- !app_assoc. cbn. split_and!; [done| | |lia].
  - rewrite length_app, Nat2Z.inj_add. rewrite u64_small by (unfold is_u64; lia).
    destruct (Z.ltb_spec 0 (blen out)); lia.
  - rewrite E3, !length_app, !length_fmap. cbn [length].
    rewrite length_drop, ?length_app. cbn [length]. lia.
Qed.

(** ** Sequences of writes *)

Inductive write := Append (str : list Z) | Printf (out : list Z).
Definition bytes_of (w : write) : list Z := match w with Append s | Printf s => s end.

Definition run_write (ok : bool) (w : write) (buf : dyn_buf) : option (dyn_buf * Z) :=
  match w with
  | Append s => dyn_buf_append ok buf s
  | Printf s => dyn_buf_vprintf ok buf (Some s)
  end.

(** Run the writes, collecting the bytes of those that did not report -1. *)
Fixpoint run_writes (ws : list (bool * write)) (buf : dyn_buf) : option (dyn_buf * list Z) :=
  match ws with
  | [] => Some (buf, [])
  | (ok, w) :: ws =>
      '(buf, r) ← run_write ok w buf;
      '(buf, out) ← run_writes ws buf;
      Some (buf, (if r =? -1 then [] else bytes_of w) ++ out)
  end.

Definition total (ws : list (bool * write)) : Z :=
  foldr (fun p n => blen (bytes_of (snd p)) + n) 0 ws.

Lemma total_nonneg ws : 0 <= total ws.
Proof. unfold total. induction ws; cbn; lia. Qed.

Lemma run_writes_holds ws buf content :
  holds buf content -> blen content + total ws < 4611686018427387000 ->
  exists buf' out, run_writes ws buf = Some (buf', out) /\ holds buf' (content ++ out)
    /\ (Forall (fun p => fst p = true) ws -> out = concat (map (fun p => bytes_of (snd p)) ws)).
Proof.
  revert buf content. induction ws as [|[ok w] ws IH]; intros buf content Hh Hsz; cbn.
  { eexists _, _. split; [done|]. by rewrite app_nil_r. }
  cbn [total foldr snd] in Hsz. fold (total ws) in Hsz.
  pose proof (total_nonneg ws).
  assert (Ha : appended ok buf content (bytes_of w) (run_write ok w buf)).
  { destruct w; [apply append_len_spec|apply vprintf_spec]; cbn in *; (done || lia). }
  destruct Ha as (buf1 & r & -> & [[-> H1]|(-> & -> & ->)]); cbn.
  - destruct (IH buf1 (content ++ bytes_of w) H1) as (buf2 & out & -> & H2 & Hall).
    { rewrite length_app. lia. }
    eexists _, _. split; [done|]. rewrite <- app_assoc in H2.
    destruct (Z.eqb_spec (blen (bytes_of w)) (-1)); [lia|]. split; [done|].
    intros Hok. apply Forall_cons_1 in Hok as [_ Hok]. by rewrite Hall.
  - destruct (IH buf content Hh) as (buf2 & out & -> & H2 & Hall); [lia|].
    eexists _, _. split; [done|]. split; [done|].
    intros Hok. by apply Forall_cons_1 in Hok as [? _].
Qed.

Lemma cstr_of_holds content rest :
  Forall (fun b => b <> 0) content -> cstr_of ((Some <$> content) ++ Some 0 :: rest) = Some content.
Proof.
  induction content as [|b content IH]; intros Hc; [done|].
  apply Forall_cons_1 in Hc as [Hb Hc]. cbn.
  destruct (Z.eqb_spec b 0); [done|]. by rewrite IH.
Qed.

Lemma init_holds ok cap :
  0 <= cap < 9223372036854775808 -> holds (dyn_buf_init ok cap) [].
Proof.
  intros Hc. unfold dyn_buf_init, holds, DYN_BUF_DEFAULT_CAPACITY.
  destruct ok; [|by left]. right.
  assert (exists n, Z.to_nat (if cap =? 0 then 2048 else cap) = S n) as [n En].
  { exists (Nat.pred (Z.to_nat (if cap =? 0 then 2048 else cap))). destruct (Z.eqb_spec cap 0); lia. }
  exists (replicate n None). cbn [data len capacity]. rewrite En. cbn.
  rewrite length_replicate. split_and!; [done|done| |]; destruct (Z.eqb_spec cap 0); lia.
Qed.

(** Building a response: any sequence of appends and formatted prints on a
    freshly initialised buffer terminates without writing out of bounds or losing
    bytes.  The C string read back is exactly the concatenation of the writes that
    did not report -1, which is all of them when memory is available. *)
Theorem dyn_buf_content init_ok cap ws :
  0 <= cap < 9223372036854775808 -> total ws < 4611686018427387000 ->
  Forall (fun p => Forall (fun b => b <> 0) (bytes_of (snd p))) ws ->
  exists buf out, run_writes ws (dyn_buf_init init_ok cap) = Some (buf, out)
    /\ dyn_buf_cstr buf = Some out /\ len buf = blen out
    /\ (Forall (fun p => fst p = true) ws -> out = concat (map (fun p => bytes_of (snd p)) ws)).
Proof.
  intros Hc Ht Hnz.
  destruct (run_writes_holds ws (dyn_buf_init init_ok cap) [] (init_holds init_ok cap Hc))
    as (buf & out & E & Hh & Hall); [done|].
  exists buf, out. cbn in Hh. split; [done|].
  assert (Hout : Forall (fun b => b <> 0) out).
  { clear -E Hnz. revert E. generalize (dyn_buf_init init_ok cap). revert buf out.
    induction ws as [|[ok w] ws IH]; intros buf out b0 E; cbn in E.
    { by inversion E. }
    apply Forall_cons_1 in Hnz as [Hw Hnz].
    destruct (run_write ok w b0) as [[b1 r]|]; [|done]. cbn in E.
    destruct (run_writes ws b1) as [[b2 o]|] eqn:E2; [|done]. cbn in E. inversion E; subst.
    apply Forall_app. split; [by destruct (r =? -1)|by eapply IH]. }
  destruct Hh as [(E1 & E2 & E3 & ->)|(rest & E1 & E2 & E3 & E4)]; unfold dyn_buf_cstr; rewrite E1.
  - by split_and!.
  - split_and!; [by apply cstr_of_holds|done|done].
Qed.

Lemma dyn_buf_content_witness :
  let ws := [(true, Append [123; 34]); (false, Printf (repeat 65 40)); (true, Printf [125])] in
  exists buf out, run_writes ws (dyn_buf_init true 16) = Some (buf, out)
    /\ dyn_buf_cstr buf = Some out /\ len buf = blen out
    /\ (Forall (fun p => fst p = true) ws -> out = concat (map (fun p => bytes_of (snd p)) ws)).
Proof.
  apply (dyn_buf_content true 16
    [(true, Append [123; 34]); (false, Printf (repeat 65 40)); (true, Printf [125])]);
    [by_eval|by_eval|repeat constructor; by_eval].
Defined.
