(* ===== verification/Fluxwan.v ===== *)
(** * Shared data model ([include/fluxwan.h])

    The configuration structures the components share.  A [char] array is the list
    of bytes of the C string it holds; a floating point percentage is a rational
    ([losses * 100 / 32] and the thresholds it is compared with are exact in both);
    an array with its element count is the list of its elements. *)

From S2P Require Import Prelude.
From Stdlib Require Export QArith.QArith.
#[global] Open Scope Z_scope.

Abbreviation cstring := (list Z).

Definition MAX_WANS : Z := 256.
Definition MAX_IFNAME_LEN : Z := 32.
Definition MAX_LABEL_LEN : Z := 64.
Definition MAX_PATH_LEN : Z := 256.
Definition MAX_PROXY_SERVERS : Z := 3.
Definition MAX_WAN_GROUPS : Z := 8.
Definition MAX_POLICY_ROUTES : Z := 16.
Definition MAX_GROUP_MEMBERS : Z := 64.
Definition MAX_ADDRESS_LISTS : Z := 16.
Definition MAX_ENTRIES_PER_LIST : Z := 256.
Definition MAX_ENTRY_STR_LEN : Z := 128.
Definition MAX_STATIC_LEASES : Z := 64.
Definition MAX_RATE_LIMITS : Z := 32.
Definition MAX_PPPOE_USERS : Z := 4096.
Definition MAX_PPPOE_PROFILES : Z := 64.
Definition MAX_PPPOE_SESSIONS : Z := 1024.
Definition MAX_WG_PEERS : Z := 64.
Definition MAX_ZT_NETWORKS : Z := 16.
Definition PROBE_WINDOW_SIZE : Z := 32.
Definition MAGLEV_RING_SIZE : Z := 65537.
Definition MAX_SYSTEM_LOGS : Z := 32.

(** WAN provisioning type. *)
Inductive wan_type_t :=
  | WAN_TYPE_STATIC
  | WAN_TYPE_DHCP
  | WAN_TYPE_PPPOE
  | WAN_TYPE_WIFI.

#[export] Instance wan_type_t_eq_dec : EqDecision wan_type_t.
Proof. solve_decision. Defined.

(** WAN health status. *)
Inductive wan_state_t :=
  | WAN_STATE_DOWN
  | WAN_STATE_DEGRADED
  | WAN_STATE_HEALTHY
  | WAN_STATE_DRAINING.

#[export] Instance wan_state_t_eq_dec : EqDecision wan_state_t.
Proof. solve_decision. Defined.

(** Proxy protocols. *)
Inductive proxy_proto_t :=
  | PROXY_PROTO_NONE
  | PROXY_PROTO_VLESS
  | PROXY_PROTO_VMESS
  | PROXY_PROTO_TROJAN
  | PROXY_PROTO_SHADOWSOCKS.

#[export] Instance proxy_proto_t_eq_dec : EqDecision proxy_proto_t.
Proof. solve_decision. Defined.

(** Proxy balancing strategies. *)
Inductive proxy_balancer_strategy_t :=
  | PROXY_STRATEGY_FAILOVER
  | PROXY_STRATEGY_ROUND_ROBIN
  | PROXY_STRATEGY_LEAST_LOAD
  | PROXY_STRATEGY_OTHER (v : Z).   (** any other value the field is given *)

#[export] Instance proxy_balancer_strategy_t_eq_dec : EqDecision proxy_balancer_strategy_t.
Proof. solve_decision. Defined.

(** WAN metrics and telemetry; the loss percentage is exact in [Q]. *)
Record wan_metrics_t := WanMetrics {
  m_rtt_ms : Z;
  m_jitter_ms : Z;
  m_packet_loss_pct : Q;
  m_rx_bytes : Z;
  m_tx_bytes : Z;
  m_rx_packets : Z;
  m_tx_packets : Z;
  m_last_probe_time : Z
}.

Definition set_m_rtt_ms (v : Z) (x : wan_metrics_t) : wan_metrics_t :=
  WanMetrics v (m_jitter_ms x) (m_packet_loss_pct x) (m_rx_bytes x) (m_tx_bytes x) (m_rx_packets x)
    (m_tx_packets x) (m_last_probe_time x).

Definition set_m_jitter_ms (v : Z) (x : wan_metrics_t) : wan_metrics_t :=
  WanMetrics (m_rtt_ms x) v (m_packet_loss_pct x) (m_rx_bytes x) (m_tx_bytes x) (m_rx_packets x)
    (m_tx_packets x) (m_last_probe_time x).

Definition set_m_packet_loss_pct (v : Q) (x : wan_metrics_t) : wan_metrics_t :=
  WanMetrics (m_rtt_ms x) (m_jitter_ms x) v (m_rx_bytes x) (m_tx_bytes x) (m_rx_packets x)
    (m_tx_packets x) (m_last_probe_time x).

Definition set_m_last_probe_time (v : Z) (x : wan_metrics_t) : wan_metrics_t :=
  WanMetrics (m_rtt_ms x) (m_jitter_ms x) (m_packet_loss_pct x) (m_rx_bytes x) (m_tx_bytes x)
    (m_rx_packets x) (m_tx_packets x) v.

(** One proxy endpoint. *)
Record proxy_endpoint_t := ProxyEndpoint {
  ep_proto : proxy_proto_t;
  ep_proto_str : cstring;
  ep_server : cstring;
  ep_port : Z;
  ep_uuid : cstring;
  ep_sni : cstring;
  ep_host : cstring;
  ep_path : cstring;
  ep_transport : cstring;
  ep_security : cstring;
  ep_encryption : cstring;
  ep_raw_uri : cstring;
  ep_is_connected : bool;
  ep_latency_ms : Z;
  ep_weight : Z;
  ep_active_flows : Z
}.

Definition set_ep_raw_uri (v : cstring) (x : proxy_endpoint_t) : proxy_endpoint_t :=
  ProxyEndpoint (ep_proto x) (ep_proto_str x) (ep_server x) (ep_port x) (ep_uuid x) (ep_sni x) (ep_host x)
    (ep_path x) (ep_transport x) (ep_security x) (ep_encryption x) v (ep_is_connected x)
    (ep_latency_ms x) (ep_weight x) (ep_active_flows x).

Definition set_ep_weight (v : Z) (x : proxy_endpoint_t) : proxy_endpoint_t :=
  ProxyEndpoint (ep_proto x) (ep_proto_str x) (ep_server x) (ep_port x) (ep_uuid x) (ep_sni x) (ep_host x)
    (ep_path x) (ep_transport x) (ep_security x) (ep_encryption x) (ep_raw_uri x)
    (ep_is_connected x) (ep_latency_ms x) v (ep_active_flows x).

(** Outbound proxy tunnel of a WAN, with the legacy mirror of the first server. *)
Record wan_proxy_config_t := WanProxyConfig {
  px_enabled : bool;
  px_strategy : proxy_balancer_strategy_t;
  px_servers : list proxy_endpoint_t;   (** all [MAX_PROXY_SERVERS] of them *)
  px_server_count : Z;
  px_proto : proxy_proto_t;
  px_proto_str : cstring;
  px_server : cstring;
  px_port : Z;
  px_uuid : cstring;
  px_sni : cstring;
  px_host : cstring;
  px_path : cstring;
  px_transport : cstring;
  px_security : cstring;
  px_encryption : cstring;
  px_raw_uri : cstring;
  px_tun_dev : cstring;
  px_bind_interface : cstring;
  px_tun_ip : Z;
  px_pid : Z;
  px_is_connected : bool;
  px_latency_ms : Z
}.

Definition set_px_tun_dev (v : cstring) (x : wan_proxy_config_t) : wan_proxy_config_t :=
  WanProxyConfig (px_enabled x) (px_strategy x) (px_servers x) (px_server_count x) (px_proto x)
    (px_proto_str x) (px_server x) (px_port x) (px_uuid x) (px_sni x) (px_host x) (px_path x)
    (px_transport x) (px_security x) (px_encryption x) (px_raw_uri x) v (px_bind_interface x)
    (px_tun_ip x) (px_pid x) (px_is_connected x) (px_latency_ms x).

Definition set_px_bind_interface (v : cstring) (x : wan_proxy_config_t) : wan_proxy_config_t :=
  WanProxyConfig (px_enabled x) (px_strategy x) (px_servers x) (px_server_count x) (px_proto x)
    (px_proto_str x) (px_server x) (px_port x) (px_uuid x) (px_sni x) (px_host x) (px_path x)
    (px_transport x) (px_security x) (px_encryption x) (px_raw_uri x) (px_tun_dev x) v
    (px_tun_ip x) (px_pid x) (px_is_connected x) (px_latency_ms x).

Definition set_px_pid (v : Z) (x : wan_proxy_config_t) : wan_proxy_config_t :=
  WanProxyConfig (px_enabled x) (px_strategy x) (px_servers x) (px_server_count x) (px_proto x)
    (px_proto_str x) (px_server x) (px_port x) (px_uuid x) (px_sni x) (px_host x) (px_path x)
    (px_transport x) (px_security x) (px_encryption x) (px_raw_uri x) (px_tun_dev x)
    (px_bind_interface x) (px_tun_ip x) v (px_is_connected x) (px_latency_ms x).

Definition set_px_is_connected (v : bool) (x : wan_proxy_config_t) : wan_proxy_config_t :=
  WanProxyConfig (px_enabled x) (px_strategy x) (px_servers x) (px_server_count x) (px_proto x)
    (px_proto_str x) (px_server x) (px_port x) (px_uuid x) (px_sni x) (px_host x) (px_path x)
    (px_transport x) (px_security x) (px_encryption x) (px_raw_uri x) (px_tun_dev x)
    (px_bind_interface x) (px_tun_ip x) (px_pid x) v (px_latency_ms x).

Definition set_px_latency_ms (v : Z) (x : wan_proxy_config_t) : wan_proxy_config_t :=
  WanProxyConfig (px_enabled x) (px_strategy x) (px_servers x) (px_server_count x) (px_proto x)
    (px_proto_str x) (px_server x) (px_port x) (px_uuid x) (px_sni x) (px_host x) (px_path x)
    (px_transport x) (px_security x) (px_encryption x) (px_raw_uri x) (px_tun_dev x)
    (px_bind_interface x) (px_tun_ip x) (px_pid x) (px_is_connected x) v.

(** WAN interface definition. *)
Record wan_config_t := WanConfig {
  w_id : Z;
  w_name : cstring;
  w_label : cstring;
  w_type : wan_type_t;
  w_ip_addr : Z;
  w_netmask : Z;
  w_gateway : Z;
  w_dns : list Z;
  w_ip6_addr : cstring;
  w_custom_mac : cstring;
  w_ppp_username : cstring;
  w_ppp_password : cstring;
  w_mss_clamping : Z;
  w_wifi_ssid : cstring;
  w_wifi_password : cstring;
  w_wifi_security : cstring;
  w_wifi_bssid : cstring;
  w_wifi_signal_dbm : Z;
  w_wifi_signal_pct : Z;
  w_wifi_channel : cstring;
  w_table_id : Z;
  w_config_weight : Z;
  w_dynamic_weight : Z;
  w_bandwidth_down_mbps : Z;
  w_bandwidth_up_mbps : Z;
  w_state : wan_state_t;
  w_enabled : bool;
  w_probe_target : cstring;
  w_probe_target_ip : Z;
  w_metrics : wan_metrics_t;
  w_ifindex : Z;
  w_session_start_sec : Z;
  w_lease_time_total : Z;
  w_lease_time_remaining : Z;
  w_ac_name : cstring;
  w_session_status : cstring;
  w_link_mtu : Z;
  w_mtu : Z;
  w_dns_servers : cstring;
  w_proxy : wan_proxy_config_t
}.

Definition set_w_id (v : Z) (x : wan_config_t) : wan_config_t :=
  WanConfig v (w_name x) (w_label x) (w_type x) (w_ip_addr x) (w_netmask x) (w_gateway x) (w_dns x)
    (w_ip6_addr x) (w_custom_mac x) (w_ppp_username x) (w_ppp_password x) (w_mss_clamping x)
    (w_wifi_ssid x) (w_wifi_password x) (w_wifi_security x) (w_wifi_bssid x)
    (w_wifi_signal_dbm x) (w_wifi_signal_pct x) (w_wifi_channel x) (w_table_id x)
    (w_config_weight x) (w_dynamic_weight x) (w_bandwidth_down_mbps x) (w_bandwidth_up_mbps x)
    (w_state x) (w_enabled x) (w_probe_target x) (w_probe_target_ip x) (w_metrics x)
    (w_ifindex x) (w_session_start_sec x) (w_lease_time_total x) (w_lease_time_remaining x)
    (w_ac_name x) (w_session_status x) (w_link_mtu x) (w_mtu x) (w_dns_servers x) (w_proxy x).

Definition set_w_label (v : cstring) (x : wan_config_t) : wan_config_t :=
  WanConfig (w_id x) (w_name x) v (w_type x) (w_ip_addr x) (w_netmask x) (w_gateway x) (w_dns x)
    (w_ip6_addr x) (w_custom_mac x) (w_ppp_username x) (w_ppp_password x) (w_mss_clamping x)
    (w_wifi_ssid x) (w_wifi_password x) (w_wifi_security x) (w_wifi_bssid x)
    (w_wifi_signal_dbm x) (w_wifi_signal_pct x) (w_wifi_channel x) (w_table_id x)
    (w_config_weight x) (w_dynamic_weight x) (w_bandwidth_down_mbps x) (w_bandwidth_up_mbps x)
    (w_state x) (w_enabled x) (w_probe_target x) (w_probe_target_ip x) (w_metrics x)
    (w_ifindex x) (w_session_start_sec x) (w_lease_time_total x) (w_lease_time_remaining x)
    (w_ac_name x) (w_session_status x) (w_link_mtu x) (w_mtu x) (w_dns_servers x) (w_proxy x).

Definition set_w_table_id (v : Z) (x : wan_config_t) : wan_config_t :=
  WanConfig (w_id x) (w_name x) (w_label x) (w_type x) (w_ip_addr x) (w_netmask x) (w_gateway x)
    (w_dns x) (w_ip6_addr x) (w_custom_mac x) (w_ppp_username x) (w_ppp_password x)
    (w_mss_clamping x) (w_wifi_ssid x) (w_wifi_password x) (w_wifi_security x) (w_wifi_bssid x)
    (w_wifi_signal_dbm x) (w_wifi_signal_pct x) (w_wifi_channel x) v (w_config_weight x)
    (w_dynamic_weight x) (w_bandwidth_down_mbps x) (w_bandwidth_up_mbps x) (w_state x)
    (w_enabled x) (w_probe_target x) (w_probe_target_ip x) (w_metrics x) (w_ifindex x)
    (w_session_start_sec x) (w_lease_time_total x) (w_lease_time_remaining x) (w_ac_name x)
    (w_session_status x) (w_link_mtu x) (w_mtu x) (w_dns_servers x) (w_proxy x).

Definition set_w_proxy (v : wan_proxy_config_t) (x : wan_config_t) : wan_config_t :=
  WanConfig (w_id x) (w_name x) (w_label x) (w_type x) (w_ip_addr x) (w_netmask x) (w_gateway x)
    (w_dns x) (w_ip6_addr x) (w_custom_mac x) (w_ppp_username x) (w_ppp_password x)
    (w_mss_clamping x) (w_wifi_ssid x) (w_wifi_password x) (w_wifi_security x) (w_wifi_bssid x)
    (w_wifi_signal_dbm x) (w_wifi_signal_pct x) (w_wifi_channel x) (w_table_id x)
    (w_config_weight x) (w_dynamic_weight x) (w_bandwidth_down_mbps x) (w_bandwidth_up_mbps x)
    (w_state x) (w_enabled x) (w_probe_target x) (w_probe_target_ip x) (w_metrics x)
    (w_ifindex x) (w_session_start_sec x) (w_lease_time_total x) (w_lease_time_remaining x)
    (w_ac_name x) (w_session_status x) (w_link_mtu x) (w_mtu x) (w_dns_servers x) v.

Definition set_w_ip_addr (v : Z) (x : wan_config_t) : wan_config_t :=
  WanConfig (w_id x) (w_name x) (w_label x) (w_type x) v (w_netmask x) (w_gateway x) (w_dns x)
    (w_ip6_addr x) (w_custom_mac x) (w_ppp_username x) (w_ppp_password x) (w_mss_clamping x)
    (w_wifi_ssid x) (w_wifi_password x) (w_wifi_security x) (w_wifi_bssid x)
    (w_wifi_signal_dbm x) (w_wifi_signal_pct x) (w_wifi_channel x) (w_table_id x)
    (w_config_weight x) (w_dynamic_weight x) (w_bandwidth_down_mbps x) (w_bandwidth_up_mbps
    x) (w_state x) (w_enabled x) (w_probe_target x) (w_probe_target_ip x) (w_metrics x)
    (w_ifindex x) (w_session_start_sec x) (w_lease_time_total x) (w_lease_time_remaining x)
    (w_ac_name x) (w_session_status x) (w_link_mtu x) (w_mtu x) (w_dns_servers x) (w_proxy
    x).

Definition set_w_netmask (v : Z) (x : wan_config_t) : wan_config_t :=
  WanConfig (w_id x) (w_name x) (w_label x) (w_type x) (w_ip_addr x) v (w_gateway x) (w_dns x)
    (w_ip6_addr x) (w_custom_mac x) (w_ppp_username x) (w_ppp_password x) (w_mss_clamping x)
    (w_wifi_ssid x) (w_wifi_password x) (w_wifi_security x) (w_wifi_bssid x)
    (w_wifi_signal_dbm x) (w_wifi_signal_pct x) (w_wifi_channel x) (w_table_id x)
    (w_config_weight x) (w_dynamic_weight x) (w_bandwidth_down_mbps x) (w_bandwidth_up_mbps
    x) (w_state x) (w_enabled x) (w_probe_target x) (w_probe_target_ip x) (w_metrics x)
    (w_ifindex x) (w_session_start_sec x) (w_lease_time_total x) (w_lease_time_remaining x)
    (w_ac_name x) (w_session_status x) (w_link_mtu x) (w_mtu x) (w_dns_servers x) (w_proxy
    x).

Definition set_w_gateway (v : Z) (x : wan_config_t) : wan_config_t :=
  WanConfig (w_id x) (w_name x) (w_label x) (w_type x) (w_ip_addr x) (w_netmask x) v (w_dns x)
    (w_ip6_addr x) (w_custom_mac x) (w_ppp_username x) (w_ppp_password x) (w_mss_clamping x)
    (w_wifi_ssid x) (w_wifi_password x) (w_wifi_security x) (w_wifi_bssid x)
    (w_wifi_signal_dbm x) (w_wifi_signal_pct x) (w_wifi_channel x) (w_table_id x)
    (w_config_weight x) (w_dynamic_weight x) (w_bandwidth_down_mbps x) (w_bandwidth_up_mbps
    x) (w_state x) (w_enabled x) (w_probe_target x) (w_probe_target_ip x) (w_metrics x)
    (w_ifindex x) (w_session_start_sec x) (w_lease_time_total x) (w_lease_time_remaining x)
    (w_ac_name x) (w_session_status x) (w_link_mtu x) (w_mtu x) (w_dns_servers x) (w_proxy
    x).

Definition set_w_dynamic_weight (v : Z) (x : wan_config_t) : wan_config_t :=
  WanConfig (w_id x) (w_name x) (w_label x) (w_type x) (w_ip_addr x) (w_netmask x) (w_gateway x)
    (w_dns x) (w_ip6_addr x) (w_custom_mac x) (w_ppp_username x) (w_ppp_password x)
    (w_mss_clamping x) (w_wifi_ssid x) (w_wifi_password x) (w_wifi_security x) (w_wifi_bssid
    x) (w_wifi_signal_dbm x) (w_wifi_signal_pct x) (w_wifi_channel x) (w_table_id x)
    (w_config_weight x) v (w_bandwidth_down_mbps x) (w_bandwidth_up_mbps x) (w_state x)
    (w_enabled x) (w_probe_target x) (w_probe_target_ip x) (w_metrics x) (w_ifindex x)
    (w_session_start_sec x) (w_lease_time_total x) (w_lease_time_remaining x) (w_ac_name x)
    (w_session_status x) (w_link_mtu x) (w_mtu x) (w_dns_servers x) (w_proxy x).

Definition set_w_state (v : wan_state_t) (x : wan_config_t) : wan_config_t :=
  WanConfig (w_id x) (w_name x) (w_label x) (w_type x) (w_ip_addr x) (w_netmask x) (w_gateway x)
    (w_dns x) (w_ip6_addr x) (w_custom_mac x) (w_ppp_username x) (w_ppp_password x)
    (w_mss_clamping x) (w_wifi_ssid x) (w_wifi_password x) (w_wifi_security x) (w_wifi_bssid
    x) (w_wifi_signal_dbm x) (w_wifi_signal_pct x) (w_wifi_channel x) (w_table_id x)
    (w_config_weight x) (w_dynamic_weight x) (w_bandwidth_down_mbps x) (w_bandwidth_up_mbps
    x) v (w_enabled x) (w_probe_target x) (w_probe_target_ip x) (w_metrics x) (w_ifindex x)
    (w_session_start_sec x) (w_lease_time_total x) (w_lease_time_remaining x) (w_ac_name x)
    (w_session_status x) (w_link_mtu x) (w_mtu x) (w_dns_servers x) (w_proxy x).

Definition set_w_metrics (v : wan_metrics_t) (x : wan_config_t) : wan_config_t :=
  WanConfig (w_id x) (w_name x) (w_label x) (w_type x) (w_ip_addr x) (w_netmask x) (w_gateway x)
    (w_dns x) (w_ip6_addr x) (w_custom_mac x) (w_ppp_username x) (w_ppp_password x)
    (w_mss_clamping x) (w_wifi_ssid x) (w_wifi_password x) (w_wifi_security x) (w_wifi_bssid
    x) (w_wifi_signal_dbm x) (w_wifi_signal_pct x) (w_wifi_channel x) (w_table_id x)
    (w_config_weight x) (w_dynamic_weight x) (w_bandwidth_down_mbps x) (w_bandwidth_up_mbps
    x) (w_state x) (w_enabled x) (w_probe_target x) (w_probe_target_ip x) v (w_ifindex x)
    (w_session_start_sec x) (w_lease_time_total x) (w_lease_time_remaining x) (w_ac_name x)
    (w_session_status x) (w_link_mtu x) (w_mtu x) (w_dns_servers x) (w_proxy x).

Definition set_w_probe_target (v : cstring) (x : wan_config_t) : wan_config_t :=
  WanConfig (w_id x) (w_name x) (w_label x) (w_type x) (w_ip_addr x) (w_netmask x) (w_gateway x)
    (w_dns x) (w_ip6_addr x) (w_custom_mac x) (w_ppp_username x) (w_ppp_password x)
    (w_mss_clamping x) (w_wifi_ssid x) (w_wifi_password x) (w_wifi_security x) (w_wifi_bssid
    x) (w_wifi_signal_dbm x) (w_wifi_signal_pct x) (w_wifi_channel x) (w_table_id x)
    (w_config_weight x) (w_dynamic_weight x) (w_bandwidth_down_mbps x) (w_bandwidth_up_mbps
    x) (w_state x) (w_enabled x) v (w_probe_target_ip x) (w_metrics x) (w_ifindex x)
    (w_session_start_sec x) (w_lease_time_total x) (w_lease_time_remaining x) (w_ac_name x)
    (w_session_status x) (w_link_mtu x) (w_mtu x) (w_dns_servers x) (w_proxy x).

Definition set_w_probe_target_ip (v : Z) (x : wan_config_t) : wan_config_t :=
  WanConfig (w_id x) (w_name x) (w_label x) (w_type x) (w_ip_addr x) (w_netmask x) (w_gateway x)
    (w_dns x) (w_ip6_addr x) (w_custom_mac x) (w_ppp_username x) (w_ppp_password x)
    (w_mss_clamping x) (w_wifi_ssid x) (w_wifi_password x) (w_wifi_security x) (w_wifi_bssid
    x) (w_wifi_signal_dbm x) (w_wifi_signal_pct x) (w_wifi_channel x) (w_table_id x)
    (w_config_weight x) (w_dynamic_weight x) (w_bandwidth_down_mbps x) (w_bandwidth_up_mbps
    x) (w_state x) (w_enabled x) (w_probe_target x) v (w_metrics x) (w_ifindex x)
    (w_session_start_sec x) (w_lease_time_total x) (w_lease_time_remaining x) (w_ac_name x)
    (w_session_status x) (w_link_mtu x) (w_mtu x) (w_dns_servers x) (w_proxy x).

Definition set_w_wifi_signal_dbm (v : Z) (x : wan_config_t) : wan_config_t :=
  WanConfig (w_id x) (w_name x) (w_label x) (w_type x) (w_ip_addr x) (w_netmask x) (w_gateway x)
    (w_dns x) (w_ip6_addr x) (w_custom_mac x) (w_ppp_username x) (w_ppp_password x)
    (w_mss_clamping x) (w_wifi_ssid x) (w_wifi_password x) (w_wifi_security x) (w_wifi_bssid
    x) v (w_wifi_signal_pct x) (w_wifi_channel x) (w_table_id x) (w_config_weight x)
    (w_dynamic_weight x) (w_bandwidth_down_mbps x) (w_bandwidth_up_mbps x) (w_state x)
    (w_enabled x) (w_probe_target x) (w_probe_target_ip x) (w_metrics x) (w_ifindex x)
    (w_session_start_sec x) (w_lease_time_total x) (w_lease_time_remaining x) (w_ac_name x)
    (w_session_status x) (w_link_mtu x) (w_mtu x) (w_dns_servers x) (w_proxy x).

Definition set_w_wifi_signal_pct (v : Z) (x : wan_config_t) : wan_config_t :=
  WanConfig (w_id x) (w_name x) (w_label x) (w_type x) (w_ip_addr x) (w_netmask x) (w_gateway x)
    (w_dns x) (w_ip6_addr x) (w_custom_mac x) (w_ppp_username x) (w_ppp_password x)
    (w_mss_clamping x) (w_wifi_ssid x) (w_wifi_password x) (w_wifi_security x) (w_wifi_bssid
    x) (w_wifi_signal_dbm x) v (w_wifi_channel x) (w_table_id x) (w_config_weight x)
    (w_dynamic_weight x) (w_bandwidth_down_mbps x) (w_bandwidth_up_mbps x) (w_state x)
    (w_enabled x) (w_probe_target x) (w_probe_target_ip x) (w_metrics x) (w_ifindex x)
    (w_session_start_sec x) (w_lease_time_total x) (w_lease_time_remaining x) (w_ac_name x)
    (w_session_status x) (w_link_mtu x) (w_mtu x) (w_dns_servers x) (w_proxy x).

Definition set_w_wifi_channel (v : cstring) (x : wan_config_t) : wan_config_t :=
  WanConfig (w_id x) (w_name x) (w_label x) (w_type x) (w_ip_addr x) (w_netmask x) (w_gateway x)
    (w_dns x) (w_ip6_addr x) (w_custom_mac x) (w_ppp_username x) (w_ppp_password x)
    (w_mss_clamping x) (w_wifi_ssid x) (w_wifi_password x) (w_wifi_security x) (w_wifi_bssid
    x) (w_wifi_signal_dbm x) (w_wifi_signal_pct x) v (w_table_id x) (w_config_weight x)
    (w_dynamic_weight x) (w_bandwidth_down_mbps x) (w_bandwidth_up_mbps x) (w_state x)
    (w_enabled x) (w_probe_target x) (w_probe_target_ip x) (w_metrics x) (w_ifindex x)
    (w_session_start_sec x) (w_lease_time_total x) (w_lease_time_remaining x) (w_ac_name x)
    (w_session_status x) (w_link_mtu x) (w_mtu x) (w_dns_servers x) (w_proxy x).

Definition set_w_name (v : cstring) (x : wan_config_t) : wan_config_t :=
  WanConfig (w_id x) v (w_label x) (w_type x) (w_ip_addr x) (w_netmask x) (w_gateway x) (w_dns x)
    (w_ip6_addr x) (w_custom_mac x) (w_ppp_username x) (w_ppp_password x) (w_mss_clamping x)
    (w_wifi_ssid x) (w_wifi_password x) (w_wifi_security x) (w_wifi_bssid x)
    (w_wifi_signal_dbm x) (w_wifi_signal_pct x) (w_wifi_channel x) (w_table_id x)
    (w_config_weight x) (w_dynamic_weight x) (w_bandwidth_down_mbps x) (w_bandwidth_up_mbps
    x) (w_state x) (w_enabled x) (w_probe_target x) (w_probe_target_ip x) (w_metrics x)
    (w_ifindex x) (w_session_start_sec x) (w_lease_time_total x) (w_lease_time_remaining x)
    (w_ac_name x) (w_session_status x) (w_link_mtu x) (w_mtu x) (w_dns_servers x) (w_proxy
    x).

Definition set_w_enabled (v : bool) (x : wan_config_t) : wan_config_t :=
  WanConfig (w_id x) (w_name x) (w_label x) (w_type x) (w_ip_addr x) (w_netmask x) (w_gateway x)
    (w_dns x) (w_ip6_addr x) (w_custom_mac x) (w_ppp_username x) (w_ppp_password x)
    (w_mss_clamping x) (w_wifi_ssid x) (w_wifi_password x) (w_wifi_security x) (w_wifi_bssid
    x) (w_wifi_signal_dbm x) (w_wifi_signal_pct x) (w_wifi_channel x) (w_table_id x)
    (w_config_weight x) (w_dynamic_weight x) (w_bandwidth_down_mbps x) (w_bandwidth_up_mbps
    x) (w_state x) v (w_probe_target x) (w_probe_target_ip x) (w_metrics x) (w_ifindex x)
    (w_session_start_sec x) (w_lease_time_total x) (w_lease_time_remaining x) (w_ac_name x)
    (w_session_status x) (w_link_mtu x) (w_mtu x) (w_dns_servers x) (w_proxy x).

Definition set_w_config_weight (v : Z) (x : wan_config_t) : wan_config_t :=
  WanConfig (w_id x) (w_name x) (w_label x) (w_type x) (w_ip_addr x) (w_netmask x) (w_gateway x)
    (w_dns x) (w_ip6_addr x) (w_custom_mac x) (w_ppp_username x) (w_ppp_password x)
    (w_mss_clamping x) (w_wifi_ssid x) (w_wifi_password x) (w_wifi_security x) (w_wifi_bssid
    x) (w_wifi_signal_dbm x) (w_wifi_signal_pct x) (w_wifi_channel x) (w_table_id x) v
    (w_dynamic_weight x) (w_bandwidth_down_mbps x) (w_bandwidth_up_mbps x) (w_state x)
    (w_enabled x) (w_probe_target x) (w_probe_target_ip x) (w_metrics x) (w_ifindex x)
    (w_session_start_sec x) (w_lease_time_total x) (w_lease_time_remaining x) (w_ac_name x)
    (w_session_status x) (w_link_mtu x) (w_mtu x) (w_dns_servers x) (w_proxy x).

(** LAN subnet to WAN group binding. *)
Record policy_route_t := PolicyRoute {
  pr_subnet_str : cstring;
  pr_subnet_ip : Z;
  pr_netmask : Z;
  pr_prefix_len : Z;
  pr_gateway_ip_str : cstring;
  pr_gateway_ip : Z;
  pr_target_group : cstring;
  pr_target_group_id : Z;
  pr_description : cstring;
  pr_enabled : bool
}.

Definition set_pr_target_group_id (v : Z) (x : policy_route_t) : policy_route_t :=
  PolicyRoute (pr_subnet_str x) (pr_subnet_ip x) (pr_netmask x) (pr_prefix_len x) (pr_gateway_ip_str x)
    (pr_gateway_ip x) (pr_target_group x) v (pr_description x) (pr_enabled x).

(** WAN group with its own Maglev ring. *)
Record wan_group_t := WanGroup {
  g_id : Z;
  g_name : cstring;
  g_description : cstring;
  g_wan_names : list cstring;
  g_wan_member_indices : list Z;
  g_active_wan_count : Z;
  g_maglev_ring : gmap Z Z;
  g_enabled : bool
}.

Definition set_g_maglev_ring (v : gmap Z Z) (x : wan_group_t) : wan_group_t :=
  WanGroup (g_id x) (g_name x) (g_description x) (g_wan_names x) (g_wan_member_indices x)
    (g_active_wan_count x) v (g_enabled x).

(** Static DHCP reservation. *)
Record static_lease_t := StaticLease {
  sl_mac_str : cstring;
  sl_mac_addr : list Z;
  sl_ip_addr : Z;
  sl_hostname : cstring;
  sl_enabled : bool
}.

(** Per-address bandwidth limit. *)
Record rate_limit_t := RateLimit {
  rl_ip_str : cstring;
  rl_ip_addr : Z;
  rl_max_down_mbps : Z;
  rl_max_up_mbps : Z;
  rl_description : cstring;
  rl_enabled : bool
}.

(** Smart queue management. *)
Record qos_config_t := QosConfig {
  qos_enabled : bool;
  qos_algorithm : cstring;
  qos_bandwidth_down_mbps : Z;
  qos_bandwidth_up_mbps : Z;
  qos_diffserv4 : bool
}.

(** DNS features. *)
Record dns_features_t := DnsFeatures {
  dns_adblock_enabled : bool;
  dns_fast_dns_enabled : bool;
  dns_primary_dns : cstring;
  dns_secondary_dns : cstring;
  dns_smart_ipv6_bonding : bool
}.

(** LAN interface definition. *)
Record lan_config_t := LanConfig {
  lan_name : cstring;
  lan_ip_addr : Z;
  lan_netmask : Z;
  lan_dhcp_enabled : bool;
  lan_dhcp_start : Z;
  lan_dhcp_end : Z;
  lan_dhcp_lease_time : Z;
  lan_ifindex : Z;
  lan_policy_routes : list policy_route_t;
  lan_static_leases : list static_lease_t;
  lan_rate_limits : list rate_limit_t;
  lan_qos : qos_config_t;
  lan_dns : dns_features_t
}.

(** Prober configuration. *)
Record prober_config_t := ProberConfig {
  pc_interval_ms : Z;
  pc_timeout_ms : Z;
  pc_loss_window : Z;
  pc_max_acceptable_rtt_ms : Z;
  pc_max_acceptable_loss_pct : Q;
  pc_dynamic_latency_steering : bool
}.

(** Sticky session configuration. *)
Record sticky_config_t := StickyConfig {
  sc_enabled : bool;
  sc_timeout_seconds : Z;
  sc_strict_banking_enabled : bool
}.

(** Telegram alert bot. *)
Record telegram_config_t := TelegramConfig {
  tg_enabled : bool;
  tg_bot_token : cstring;
  tg_chat_id : cstring;
  tg_notify_on_failover : bool;
  tg_notify_on_recovery : bool
}.

(** DNS64 and NAT46 configuration. *)
Record nat46_config_t := Nat46Config {
  n46_enabled : bool;
  n46_synthetic_prefix : cstring;
  n46_upstream_dns : cstring;
  n46_starlink_wan_name : cstring
}.

(** Carrier stealth shield. *)
Record stealth_config_t := StealthConfig {
  st_enabled : bool;
  st_ttl_value : Z;
  st_cloak_traceroute : bool;
  st_block_wan_probes : bool
}.

(** Kind of an address list entry. *)
Inductive addr_entry_type_t :=
  | ADDR_ENTRY_IP
  | ADDR_ENTRY_DOMAIN.

#[export] Instance addr_entry_type_t_eq_dec : EqDecision addr_entry_type_t.
Proof. solve_decision. Defined.

(** One entry of an address list. *)
Record address_list_entry_t := AddressListEntry {
  ae_value : cstring;
  ae_type : addr_entry_type_t;
  ae_resolved_ip : Z
}.

(** A list of addresses and domains bound to a WAN or a group. *)
Record address_list_t := AddressList {
  al_name : cstring;
  al_description : cstring;
  al_target_type : cstring;
  al_target_id : Z;
  al_target_name : cstring;
  al_enabled : bool;
  al_entries : list address_list_entry_t
}.

Definition set_al_target_id (v : Z) (x : address_list_t) : address_list_t :=
  AddressList (al_name x) (al_description x) (al_target_type x) v (al_target_name x) (al_enabled x)
    (al_entries x).

Definition set_al_target_name (v : cstring) (x : address_list_t) : address_list_t :=
  AddressList (al_name x) (al_description x) (al_target_type x) (al_target_id x) v (al_enabled x)
    (al_entries x).

(** Application steering. *)
Record app_steering_t := AppSteering {
  as_gaming_steering_enabled : bool;
  as_voip_steering_enabled : bool;
  as_bulk_balancing_enabled : bool;
  as_primary_gaming_wan_id : Z;
  as_primary_voip_wan_id : Z
}.

(** Deep packet inspection. *)
Record dpi_config_t := DpiConfig {
  dpi_enabled : bool;
  dpi_p2p_throttle_enabled : bool;
  dpi_p2p_throttle_rate_kbps : Z;
  dpi_voip_priority_enabled : bool;
  dpi_gaming_priority_enabled : bool;
  dpi_streaming_balance_enabled : bool
}.

(** Web server. *)
Record web_config_t := WebConfig {
  web_bind_ip : cstring;
  web_port : Z
}.

(** Administrator account. *)
Record auth_config_t := AuthConfig {
  au_enabled : bool;
  au_username : cstring;
  au_password : cstring;
  au_session_token : cstring
}.

Definition set_au_session_token (v : cstring) (x : auth_config_t) : auth_config_t :=
  AuthConfig (au_enabled x) (au_username x) (au_password x) v.

(** Bandwidth profile of the PPPoE server. *)
Record pppoe_profile_t := PppoeProfile {
  pp_name : cstring;
  pp_rate_down_kbps : Z;
  pp_rate_up_kbps : Z;
  pp_validity_days : Z;
  pp_description : cstring
}.

(** Subscriber of the PPPoE server. *)
Record pppoe_user_t := PppoeUser {
  pu_username : cstring;
  pu_password : cstring;
  pu_profile : cstring;
  pu_static_ip : cstring;
  pu_comment : cstring;
  pu_created_at : Z;
  pu_expires_at : Z;
  pu_enabled : bool
}.

(** RADIUS transports. *)
Inductive radius_proto_t :=
  | RADIUS_PROTO_UDP
  | RADIUS_PROTO_RADSEC.

#[export] Instance radius_proto_t_eq_dec : EqDecision radius_proto_t.
Proof. solve_decision. Defined.

(** RADIUS client. *)
Record radius_config_t := RadiusConfig {
  rad_enabled : bool;
  rad_proto : radius_proto_t;
  rad_server : cstring;
  rad_secret : cstring;
  rad_auth_port : Z;
  rad_acct_port : Z;
  rad_coa_port : Z;
  rad_interim_interval : Z;
  rad_nas_identifier : cstring;
  rad_tls_verify_cert : bool;
  rad_ca_cert_path : cstring;
  rad_client_cert_path : cstring;
  rad_client_key_path : cstring;
  rad_sni_hostname : cstring
}.

(** PPPoE server. *)
Record pppoe_server_config_t := PppoeServerConfig {
  ps_enabled : bool;
  ps_lan_mode : cstring;
  ps_interface : cstring;
  ps_service_name : cstring;
  ps_ac_name : cstring;
  ps_local_ip : cstring;
  ps_pool_start : cstring;
  ps_pool_end : cstring;
  ps_pool_count : Z;
  ps_dns1 : cstring;
  ps_dns2 : cstring;
  ps_mru : Z;
  ps_mss : Z;
  ps_radius : radius_config_t;
  ps_profiles : list pppoe_profile_t;
  ps_users : list pppoe_user_t
}.

Definition set_ps_profiles (v : list pppoe_profile_t) (x : pppoe_server_config_t) : pppoe_server_config_t :=
  PppoeServerConfig (ps_enabled x) (ps_lan_mode x) (ps_interface x) (ps_service_name x) (ps_ac_name x)
    (ps_local_ip x) (ps_pool_start x) (ps_pool_end x) (ps_pool_count x) (ps_dns1 x) (ps_dns2 x)
    (ps_mru x) (ps_mss x) (ps_radius x) v (ps_users x).

Definition set_ps_users (v : list pppoe_user_t) (x : pppoe_server_config_t) : pppoe_server_config_t :=
  PppoeServerConfig (ps_enabled x) (ps_lan_mode x) (ps_interface x) (ps_service_name x) (ps_ac_name x)
    (ps_local_ip x) (ps_pool_start x) (ps_pool_end x) (ps_pool_count x) (ps_dns1 x) (ps_dns2 x)
    (ps_mru x) (ps_mss x) (ps_radius x) (ps_profiles x) v.

(** WireGuard peer. *)
Record wireguard_peer_t := WireguardPeer {
  wp_name : cstring;
  wp_public_key : cstring;
  wp_client_private_key : cstring;
  wp_preshared_key : cstring;
  wp_allowed_ips : cstring;
  wp_endpoint : cstring;
  wp_persistent_keepalive : Z;
  wp_enabled : bool;
  wp_latest_handshake : Z;
  wp_rx_bytes : Z;
  wp_tx_bytes : Z;
  wp_last_endpoint : cstring
}.

(** WireGuard device. *)
Record wireguard_config_t := WireguardConfig {
  wg_enabled : bool;
  wg_interface : cstring;
  wg_listen_port : Z;
  wg_address : cstring;
  wg_private_key : cstring;
  wg_public_key : cstring;
  wg_allow_remote_mgmt : bool;
  wg_peers : list wireguard_peer_t
}.

(** ZeroTier network. *)
Record zerotier_network_t := ZerotierNetwork {
  zn_nwid : cstring;
  zn_name : cstring;
  zn_enabled : bool;
  zn_status : cstring;
  zn_assigned_ips : cstring;
  zn_dev_name : cstring;
  zn_mac : cstring;
  zn_mtu : Z
}.

(** ZeroTier node. *)
Record zerotier_config_t := ZerotierConfig {
  zt_enabled : bool;
  zt_node_id : cstring;
  zt_allow_remote_mgmt : bool;
  zt_networks : list zerotier_network_t
}.

(** Tailscale node. *)
Record tailscale_config_t := TailscaleConfig {
  ts_enabled : bool;
  ts_auth_key : cstring;
  ts_hostname : cstring;
  ts_login_server : cstring;
  ts_advertise_routes : cstring;
  ts_accept_routes : bool;
  ts_is_exit_node : bool;
  ts_allow_remote_mgmt : bool;
  ts_status : cstring;
  ts_ipv4 : cstring;
  ts_ipv6 : cstring;
  ts_magic_dns_name : cstring;
  ts_login_url : cstring
}.

(** Virtual private networks. *)
Record vpn_config_t := VpnConfig {
  vpn_wireguard : wireguard_config_t;
  vpn_zerotier : zerotier_config_t;
  vpn_tailscale : tailscale_config_t
}.

(** Global configuration; an array with its count is the list of its first [count] elements. The licence status, a copy of what [License] holds, is left out. *)
Record fluxwan_config_t := FluxwanConfig {
  c_lan : lan_config_t;
  c_wans : list wan_config_t;
  c_groups : list wan_group_t;
  c_prober : prober_config_t;
  c_sticky : sticky_config_t;
  c_telegram : telegram_config_t;
  c_nat46 : nat46_config_t;
  c_stealth : stealth_config_t;
  c_address_lists : list address_list_t;
  c_app_steering : app_steering_t;
  c_web : web_config_t;
  c_auth : auth_config_t;
  c_dpi : dpi_config_t;
  c_pppoe_server : pppoe_server_config_t;
  c_vpn : vpn_config_t;
  c_config_file_path : cstring
}.

Definition set_c_wans (v : list wan_config_t) (x : fluxwan_config_t) : fluxwan_config_t :=
  FluxwanConfig (c_lan x) v (c_groups x) (c_prober x) (c_sticky x) (c_telegram x) (c_nat46 x) (c_stealth x)
    (c_address_lists x) (c_app_steering x) (c_web x) (c_auth x) (c_dpi x) (c_pppoe_server x)
    (c_vpn x) (c_config_file_path x).

Definition set_c_groups (v : list wan_group_t) (x : fluxwan_config_t) : fluxwan_config_t :=
  FluxwanConfig (c_lan x) (c_wans x) v (c_prober x) (c_sticky x) (c_telegram x) (c_nat46 x) (c_stealth x)
    (c_address_lists x) (c_app_steering x) (c_web x) (c_auth x) (c_dpi x) (c_pppoe_server x)
    (c_vpn x) (c_config_file_path x).

Definition set_c_prober (v : prober_config_t) (x : fluxwan_config_t) : fluxwan_config_t :=
  FluxwanConfig (c_lan x) (c_wans x) (c_groups x) v (c_sticky x) (c_telegram x) (c_nat46 x) (c_stealth x)
    (c_address_lists x) (c_app_steering x) (c_web x) (c_auth x) (c_dpi x) (c_pppoe_server x)
    (c_vpn x) (c_config_file_path x).

Definition set_c_lan (v : lan_config_t) (x : fluxwan_config_t) : fluxwan_config_t :=
  FluxwanConfig v (c_wans x) (c_groups x) (c_prober x) (c_sticky x) (c_telegram x) (c_nat46 x) (c_stealth x)
    (c_address_lists x) (c_app_steering x) (c_web x) (c_auth x) (c_dpi x) (c_pppoe_server x)
    (c_vpn x) (c_config_file_path x).

Definition set_c_auth (v : auth_config_t) (x : fluxwan_config_t) : fluxwan_config_t :=
  FluxwanConfig (c_lan x) (c_wans x) (c_groups x) (c_prober x) (c_sticky x) (c_telegram x) (c_nat46 x)
    (c_stealth x) (c_address_lists x) (c_app_steering x) (c_web x) v (c_dpi x)
    (c_pppoe_server x) (c_vpn x) (c_config_file_path x).

Definition set_c_nat46 (v : nat46_config_t) (x : fluxwan_config_t) : fluxwan_config_t :=
  FluxwanConfig (c_lan x) (c_wans x) (c_groups x) (c_prober x) (c_sticky x) (c_telegram x) v (c_stealth x)
    (c_address_lists x) (c_app_steering x) (c_web x) (c_auth x) (c_dpi x) (c_pppoe_server x)
    (c_vpn x) (c_config_file_path x).

Definition set_c_pppoe_server (v : pppoe_server_config_t) (x : fluxwan_config_t) : fluxwan_config_t :=
  FluxwanConfig (c_lan x) (c_wans x) (c_groups x) (c_prober x) (c_sticky x) (c_telegram x) (c_nat46 x)
    (c_stealth x) (c_address_lists x) (c_app_steering x) (c_web x) (c_auth x) (c_dpi x) v
    (c_vpn x) (c_config_file_path x).

Definition set_c_address_lists (v : list address_list_t) (x : fluxwan_config_t) : fluxwan_config_t :=
  FluxwanConfig (c_lan x) (c_wans x) (c_groups x) (c_prober x) (c_sticky x) (c_telegram x) (c_nat46 x)
    (c_stealth x) v (c_app_steering x) (c_web x) (c_auth x) (c_dpi x) (c_pppoe_server x)
    (c_vpn x) (c_config_file_path x).

Definition set_c_config_file_path (v : cstring) (x : fluxwan_config_t) : fluxwan_config_t :=
  FluxwanConfig (c_lan x) (c_wans x) (c_groups x) (c_prober x) (c_sticky x) (c_telegram x) (c_nat46 x)
    (c_stealth x) (c_address_lists x) (c_app_steering x) (c_web x) (c_auth x) (c_dpi x)
    (c_pppoe_server x) (c_vpn x) v.

(** ** Zeroed structures, what [memset] and [calloc] leave *)

Definition zero_metrics : wan_metrics_t := WanMetrics 0 0 0%Q 0 0 0 0 0.
Definition zero_endpoint : proxy_endpoint_t :=
  ProxyEndpoint PROXY_PROTO_NONE [] [] 0 [] [] [] [] [] [] [] [] false 0 0 0.
Definition zero_proxy : wan_proxy_config_t :=
  WanProxyConfig false PROXY_STRATEGY_FAILOVER (replicate 3 zero_endpoint) 0 PROXY_PROTO_NONE [] [] 0 [] [] [] [] [] []
    [] [] [] [] 0 0 false 0.
Definition zero_lan : lan_config_t :=
  LanConfig [] 0 0 false 0 0 0 0 [] [] [] (QosConfig false [] 0 0 false) (DnsFeatures false false [] [] false).
Definition zero_radius : radius_config_t := RadiusConfig false RADIUS_PROTO_UDP [] [] 0 0 0 0 [] false [] [] [] [].
Definition zero_pppoe : pppoe_server_config_t := PppoeServerConfig false [] [] [] [] [] [] [] 0 [] [] 0 0 zero_radius [] [].
Definition zero_vpn : vpn_config_t :=
  VpnConfig (WireguardConfig false [] 0 [] [] [] false []) (ZerotierConfig false [] false [])
    (TailscaleConfig false [] [] [] [] false false false [] [] [] [] []).
Definition zero_config : fluxwan_config_t :=
  FluxwanConfig zero_lan [] [] (ProberConfig 0 0 0 0 0%Q false) (StickyConfig false 0 false)
    (TelegramConfig false [] [] false false) (Nat46Config false [] [] []) (StealthConfig false 0 false false) []
    (AppSteering false false false 0 0) (WebConfig [] 0) (AuthConfig false [] [] [])
    (DpiConfig false false 0 false false false) zero_pppoe zero_vpn [].
