(* ===== verification/Ipv4.v ===== *)
(** * Address text ([src/include/fluxwan.h]: [ip_to_str], [str_to_ip],
      [parse_cidr_subnet])

    With the parts of the C library they use: decimal printing, [atoi], [strchr],
    and [inet_pton]/[inet_ntop] for IPv4 (four decimal octets, no leading zeros).
    Addresses are in network byte order, as in the sources. *)

From S2P Require Import Prelude Fluxwan.

(** ** C library *)

Definition isdigit (c : Z) : bool := (48 <=? c) && (c <=? 57).
Definition isspace (c : Z) : bool := (c =? 32) || ((9 <=? c) && (c <=? 13)).

(** [%u]: the decimal digits of a number, most significant first. *)
Fixpoint dec_digits (fuel : nat) (n : Z) (acc : cstring) : cstring :=
  match fuel with
  | O => acc
  | S fuel =>
      let acc := (48 + n mod 10) :: acc in
      if n <? 10 then acc else dec_digits fuel (n / 10) acc
  end.
Definition dec (n : Z) : cstring := dec_digits 20 n [].

Fixpoint scan_digits (s : cstring) (v : Z) : Z :=
  match s with
  | c :: s => if isdigit c then scan_digits s (10 * v + (c - 48)) else v
  | [] => v
  end.

Fixpoint skip_spaces (s : cstring) : cstring :=
  match s with
  | c :: s' => if isspace c then skip_spaces s' else s
  | [] => []
  end.

Definition atoi (s : cstring) : Z :=
  match skip_spaces s with
  | 45 :: s => - scan_digits s 0
  | 43 :: s => scan_digits s 0
  | s => scan_digits s 0
  end.

(** [strchr]: the text before the first [c] and the text after it. *)
Fixpoint split_at (c : Z) (s : cstring) : option (cstring * cstring) :=
  match s with
  | [] => None
  | x :: s => if x =? c then Some ([], s)
              else match split_at c s with Some (a, b) => Some (x :: a, b) | None => None end
  end.

(** One octet of [inet_pton]: up to three digits, not empty, no leading zero, at
    most 255; the value and the rest of the text. *)
Fixpoint octet_digits (j : nat) (s : cstring) (v : Z) : Z * nat * cstring :=
  match j, s with
  | S j, c :: s' =>
      if isdigit c then
        let '(v, n, r) := octet_digits j s' (10 * v + (c - 48)) in (v, S n, r)
      else (v, O, s)
  | _, _ => (v, O, s)
  end.

Definition octet (s : cstring) : option (Z * cstring) :=
  let '(v, n, r) := octet_digits 3 s 0 in
  if (n =? 0)%nat || ((1 <? n)%nat && bool_decide (head s = Some 48)) || (255 <? v) then None
  else Some (v, r).

Definition inet_pton (s : cstring) : option (Z * Z * Z * Z) :=
  match octet s with
  | Some (a, 46 :: s) =>
      match octet s with
      | Some (b, 46 :: s) =>
          match octet s with
          | Some (c, 46 :: s) =>
              match octet s with
              | Some (d, []) => Some (a, b, c, d)
              | _ => None
              end
          | _ => None
          end
      | _ => None
      end
  | _ => None
  end.

(** ** The helpers *)

Definition str_to_ip (str : cstring) : Z :=
  match inet_pton str with
  | Some (a, b, c, d) => le32 a b c d
  | None => 0
  end.

Definition ip_to_str (ip : Z) : cstring :=
  dec (ip mod 256) ++ [46] ++ dec (ip / 256 mod 256) ++ [46] ++ dec (ip / 65536 mod 256)
  ++ [46] ++ dec (ip / 16777216 mod 256).

Definition netmask_of (prefix : Z) : Z :=
  if prefix =? 0 then 0
  else if prefix =? 32 then 4294967295
  else htonl (u32 (4294967295 .<< (32 - prefix))).

(** [parse_cidr_subnet]: address, netmask, prefix length. *)
Definition parse_cidr_subnet (cidr : cstring) : Z * Z * Z :=
  let '(ip_buf, prefix) :=
    match split_at 47 cidr with
    | Some (before, after) =>
        let p := u32 (atoi after) in
        (take 31 before, if 32 <? p then 32 else p)
    | None => (take 31 cidr, 24)
    end in
  (str_to_ip ip_buf, netmask_of prefix, prefix).

(** ** Printing and reading an octet *)

Definition ends_octet (r : cstring) : Prop :=
  match r with c :: _ => isdigit c = false | [] => True end.

#[local] Arguments isdigit : simpl never.

(** Every octet value is read back, whatever follows that is not a digit. *)
Lemma octet_dec n r : is_u8 n -> ends_octet r -> octet (dec n ++ r) = Some (n, r).
Proof.
  intros Hn Hr.
  assert (Hstop : forall j v, octet_digits j r v = (v, O, r)).
  { intros [|j] v; [by destruct r|]. destruct r as [|c r]; [done|]. cbn in *. by rewrite Hr. }
  assert (Hd : forall d, 0 <= d < 10 -> isdigit (48 + d) = true)
    by (intros; unfold isdigit; rewrite andb_true_iff, !Z.leb_le; lia).
  assert (Hstep : forall j d t v, 0 <= d < 10 -> octet_digits (S j) ((48 + d) :: t) v
    = let '(v, n, r) := octet_digits j t (10 * v + d) in (v, S n, r)).
  { intros j d t v Hdd. cbn. rewrite Hd by done. by replace (48 + d - 48) with d by lia. }
  unfold is_u8 in Hn. unfold dec, octet. cbn [dec_digits].
  destruct (Z.ltb_spec n 10); [|destruct (Z.ltb_spec (n / 10) 10);
    [|destruct (Z.ltb_spec (n / 10 / 10) 10); [|lia]]];
    cbn [app]; rewrite !Hstep by lia; rewrite Hstop; cbn [Nat.eqb Nat.ltb Nat.leb head orb andb];
    match goal with |- context [255 <? ?v] => replace v with n by lia end;
    destruct (Z.ltb_spec 255 n); try lia; try (rewrite bool_decide_false by (intros [=]; lia)); done.
Qed.

Lemma ip_text_roundtrip_lemma ip : is_u32 ip -> str_to_ip (ip_to_str ip) = ip.
Proof.
  intros (a & b & c & d & Ha & Hb & Hc & Hd & ->)%le32_intro.
  assert (E : ip_to_str (le32 a b c d) = dec a ++ 46 :: dec b ++ 46 :: dec c ++ 46 :: dec d ++ []).
  { unfold ip_to_str, le32. change 65536 with (256 * 256). change 16777216 with (256 * 256 * 256).
    rewrite <- !Z.div_div by lia. rewrite !byte_div, !byte_mod by done.
    rewrite (Z.mod_small d) by done. by rewrite app_nil_r. }
  rewrite E. unfold str_to_ip, inet_pton. by rewrite !octet_dec.
Qed.

(** Text and address correspond: printing an address and reading it back gives the
    address, for every 32-bit value. *)
Theorem ip_text_roundtrip ip : is_u32 ip -> str_to_ip (ip_to_str ip) = ip.
Proof. apply ip_text_roundtrip_lemma. Qed.

Lemma ip_text_roundtrip_witness : str_to_ip (ip_to_str 16885952) = 16885952.
Proof. apply (ip_text_roundtrip 16885952). by_eval. Defined.

(** ** Subnets *)

Lemma dec_digits_ok fuel n acc :
  0 <= n -> Forall (fun c => isdigit c = true) acc ->
  Forall (fun c => isdigit c = true) (dec_digits fuel n acc).
Proof.
  revert n acc. induction fuel as [|fuel IH]; intros n acc Hn Ha; cbn [dec_digits]; [done|].
  assert (Forall (fun c => isdigit c = true) ((48 + n mod 10) :: acc)).
  { constructor; [|done]. unfold isdigit. rewrite andb_true_iff, !Z.leb_le. lia. }
  destruct (n <? 10); [done|]. apply IH; [lia|done].
Qed.

Lemma dec_u8_length n : is_u8 n -> (length (dec n) <= 3)%nat.
Proof.
  intros Hn. unfold is_u8 in Hn. unfold dec. cbn [dec_digits].
  destruct (Z.ltb_spec n 10); [cbn; lia|]. destruct (Z.ltb_spec (n / 10) 10); [cbn; lia|].
  destruct (Z.ltb_spec (n / 10 / 10) 10); [cbn; lia|lia].
Qed.

Lemma split_at_app c s t : Forall (fun x => x <> c) s -> split_at c (s ++ c :: t) = Some (s, t).
Proof.
  induction 1 as [|x s Hx _ IH]; cbn; [by rewrite Z.eqb_refl|].
  destruct (Z.eqb_spec x c); [done|]. by rewrite IH.
Qed.

Lemma ip_to_str_shape ip :
  is_u32 ip -> Forall (fun x => x <> 47) (ip_to_str ip) /\ (length (ip_to_str ip) <= 15)%nat.
Proof.
  intros Hip. unfold ip_to_str.
  assert (D : forall n, is_u8 n -> Forall (fun x => x <> 47) (dec n) /\ (length (dec n) <= 3)%nat).
  { intros n Hn. split; [|by apply dec_u8_length].
    eapply Forall_impl; [apply (dec_digits_ok 20 n []); [apply Hn|constructor]|].
    cbn. intros c Hc. unfold isdigit in Hc. bool_hyps. lia. }
  destruct (D (ip mod 256)) as [F1 L1]; [cint|]. destruct (D (ip / 256 mod 256)) as [F2 L2]; [cint|].
  destruct (D (ip / 65536 mod 256)) as [F3 L3]; [cint|].
  destruct (D (ip / 16777216 mod 256)) as [F4 L4]; [cint|].
  split.
  - rewrite !Forall_app, !Forall_singleton. split_and!; (assumption || discriminate).
  - rewrite !length_app. cbn [length]. clear - L1 L2 L3 L4. lia.
Qed.

Lemma atoi_dec_prefix p : 0 <= p <= 32 -> atoi (dec p) = p.
Proof.
  intros Hp. assert (H : Forall (fun p => atoi (dec p) = p) (seqZ 0 33)).
  { apply (bool_decide_unpack _). by_eval. }
  rewrite Forall_forall in H. apply H, elem_of_seqZ. lia.
Qed.

Lemma cidr_parse_lemma ip p :
  is_u32 ip -> 0 <= p <= 32 ->
  parse_cidr_subnet (ip_to_str ip ++ 47 :: dec p) = (ip, netmask_of p, p).
Proof.
  intros Hip Hp. destruct (ip_to_str_shape ip Hip) as [Hs Hl].
  unfold parse_cidr_subnet. rewrite split_at_app by done. rewrite atoi_dec_prefix by done.
  rewrite u32_small by (unfold is_u32; lia). destruct (Z.ltb_spec 32 p); [lia|].
  rewrite take_ge by lia. by rewrite ip_text_roundtrip_lemma.
Qed.

(** A subnet written as address and prefix length is read as that address, that
    length and the netmask of the length. *)
Theorem cidr_parse ip p :
  is_u32 ip -> 0 <= p <= 32 ->
  parse_cidr_subnet (ip_to_str ip ++ 47 :: dec p) = (ip, netmask_of p, p).
Proof. apply cidr_parse_lemma. Qed.

Lemma cidr_parse_witness :
  parse_cidr_subnet (ip_to_str 1313290 ++ 47 :: dec 24) = (1313290, 16777215, 24).
Proof. apply (cidr_parse 1313290 24); by_eval. Defined.
