(* ===== verification/CLib.v ===== *)
(** * The C library on strings

    What the sources use of [string.h], [stdio.h] and [ctype.h].  A C string is the list
    of its bytes before the NUL; a [char] array of [n] bytes holds at most [n - 1] of
    them. *)

From S2P Require Import Prelude Fluxwan Ipv4.

(** The C string that starts a buffer: everything before the first NUL. *)
Fixpoint cstr (b : list Z) : cstring :=
  match b with
  | [] => []
  | c :: b => if c =? 0 then [] else c :: cstr b
  end.

(** [strncpy(dst, src, n - 1)] into an array of [n] bytes whose last byte is NUL, and
    [snprintf(dst, n, "%s", src)]. *)
Definition str_trunc (n : Z) (s : cstring) : cstring := take (Z.to_nat (n - 1)) s.

Definition tolower (c : Z) : Z := if (65 <=? c) && (c <=? 90) then c + 32 else c.
Definition toupper (c : Z) : Z := if (97 <=? c) && (c <=? 122) then c - 32 else c.

(** [strcmp(a, b) == 0] and [strcasecmp(a, b) == 0]. *)
Definition str_eq (a b : cstring) : bool := bool_decide (a = b).
Definition strcase_eq (a b : cstring) : bool := bool_decide (tolower <$> a = tolower <$> b).

(** [strncmp(s, p, strlen(p)) == 0]: [p] is a prefix; and what follows it. *)
Fixpoint strip_prefix (p s : cstring) : option cstring :=
  match p, s with
  | [], s => Some s
  | a :: p, b :: s => if a =? b then strip_prefix p s else None
  | _ :: _, [] => None
  end.
Definition has_prefix (p s : cstring) : bool := bool_decide (is_Some (strip_prefix p s)).

Fixpoint strip_prefix_case (p s : cstring) : option cstring :=
  match p, s with
  | [], s => Some s
  | a :: p, b :: s => if tolower a =? tolower b then strip_prefix_case p s else None
  | _ :: _, [] => None
  end.

(** [strstr]: the text from the first occurrence of [p] on. *)
Fixpoint strstr (s p : cstring) : option cstring :=
  if has_prefix p s then Some s
  else match s with
       | [] => None
       | _ :: s => strstr s p
       end.

(** [strchr]: the text from the first [c] on. *)
Fixpoint strchr (s : cstring) (c : Z) : option cstring :=
  match s with
  | [] => None
  | x :: s' => if x =? c then Some s else strchr s' c
  end.

(** [fgets(buf, n, f)] on the bytes left of a file: the line, at most [n - 1] bytes with its
    newline, and the rest; [None] at the end of the file. *)
Fixpoint take_line (n : nat) (f : list Z) : list Z * list Z :=
  match n, f with
  | S n, c :: f => if c =? 10 then ([c], f)
                   else let '(l, r) := take_line n f in (c :: l, r)
  | _, _ => ([], f)
  end.
Definition fgets (n : Z) (f : list Z) : option (list Z * list Z) :=
  match f with
  | [] => None
  | _ => Some (take_line (Z.to_nat (n - 1)) f)
  end.

(** [%02X]. *)
Definition hex_digit (v : Z) : Z := if v <? 10 then 48 + v else 55 + v.
Definition hex2 (v : Z) : cstring := [hex_digit (v / 16); hex_digit (v mod 16)].
Definition hex_digit_lower (v : Z) : Z := if v <? 10 then 48 + v else 87 + v.
Definition hex2_lower (v : Z) : cstring := [hex_digit_lower (v / 16); hex_digit_lower (v mod 16)].

(** [fscanf("%llu")] on a file: spaces, an optional sign, digits; the value saturates. *)
Definition u64_max : Z := 18446744073709551615.
Definition scan_u64 (f : cstring) : option Z :=
  let digits s :=
    match s with
    | c :: _ => if isdigit c then Some (Z.min u64_max (scan_digits s 0)) else None
    | [] => None
    end in
  match skip_spaces f with
  | 45 :: s => match digits s with
               | Some v => if v =? u64_max then Some v else Some (u64 (- v))
               | None => None
               end
  | 43 :: s => digits s
  | s => digits s
  end.

(** ** Lemmas *)

Lemma cstr_no_nul s : Forall (fun c => c <> 0) s -> cstr s = s.
Proof.
  induction 1 as [|c s Hc Hs IH]; cbn; [done|]. by rewrite (proj2 (Z.eqb_neq c 0)), IH.
Qed.

Lemma cstr_app_nul s r : Forall (fun c => c <> 0) s -> cstr (s ++ 0 :: r) = s.
Proof. induction 1 as [|c s Hc Hs IH]; cbn; [done|]. by rewrite (proj2 (Z.eqb_neq c 0)), IH. Qed.

Lemma strip_prefix_app p s : strip_prefix p (p ++ s) = Some s.
Proof. induction p as [|c p IH]; cbn; [done|]. by rewrite Z.eqb_refl. Qed.

(** A line without an inner newline is read whole. *)
Lemma take_line_all n l r :
  Forall (fun c => c <> 10) l -> (length l < n)%nat -> take_line n (l ++ 10 :: r) = (l ++ [10], r).
Proof.
  intros Hl. revert n. induction Hl as [|c l Hc Hl IH]; intros n Hn; (destruct n as [|n]; [cbn in Hn; lia|]); cbn.
  - done.
  - rewrite (proj2 (Z.eqb_neq c 10)) by done. rewrite IH by (cbn in Hn; lia). done.
Qed.

(** Decimal text and its value. *)
Lemma dec_digits_app fuel n acc r : dec_digits fuel n acc ++ r = dec_digits fuel n (acc ++ r).
Proof.
  revert n acc. induction fuel as [|fuel IH]; intros n acc; cbn [dec_digits]; [done|].
  destruct (n <? 10); [done|]. by rewrite IH.
Qed.

Lemma scan_dec_digits fuel n acc :
  0 <= n < 10 ^ Z.of_nat fuel -> (0 < fuel)%nat -> scan_digits (dec_digits fuel n acc) 0 = scan_digits acc n.
Proof.
  revert n acc. induction fuel as [|fuel IH]; intros n acc Hn Hf; [lia|]. cbn [dec_digits].
  assert (Hd : forall v, scan_digits ((48 + n mod 10) :: acc) v = scan_digits acc (10 * v + n mod 10)).
  { intros v. cbn [scan_digits]. replace (isdigit (48 + n mod 10)) with true
      by (symmetry; unfold isdigit; rewrite andb_true_iff, !Z.leb_le; lia). f_equal. lia. }
  rewrite Nat2Z.inj_succ, Z.pow_succ_r in Hn by lia.
  destruct (Z.ltb_spec n 10).
  - rewrite Hd. f_equal. lia.
  - destruct fuel as [|fuel]; [cbn in Hn; lia|].
    rewrite IH, Hd by (set (q := 10 ^ _) in *; lia). f_equal. lia.
Qed.

Lemma dec_head n r : 0 <= n -> exists c t, dec n ++ r = c :: t /\ isdigit c = true.
Proof.
  intros Hn. pose proof (dec_digits_ok 20 n [] Hn ltac:(constructor)) as H. fold (dec n) in H.
  assert (dec n <> []) as Hne.
  { unfold dec. cbn [dec_digits]. repeat (destruct (_ <? 10); [discriminate|]). discriminate. }
  destruct (dec n) as [|c t]; [done|]. apply Forall_cons in H as [Hc _]. exists c, (t ++ r). by split.
Qed.

Lemma scan_dec n r :
  is_u64 n -> scan_digits r n = n -> scan_u64 (dec n ++ r) = Some n.
Proof.
  intros Hn Hr. unfold is_u64 in Hn. destruct (dec_head n r ltac:(lia)) as (c & t & E & Hc).
  assert (Hv : scan_digits (c :: t) 0 = n).
  { rewrite <- E. unfold dec. rewrite dec_digits_app, scan_dec_digits; [done|cbn; lia|lia]. }
  unfold scan_u64. rewrite E. unfold isdigit in Hc. apply andb_true_iff in Hc as [H1 H2].
  apply Z.leb_le in H1, H2.
  assert (Hsp : skip_spaces (c :: t) = c :: t).
  { cbn. unfold isspace. replace (c =? 32) with false by (symmetry; apply Z.eqb_neq; lia).
    replace (c <=? 13) with false by (symmetry; apply Z.leb_gt; lia). by rewrite andb_false_r. }
  rewrite Hsp. assert (Hmin : Z.min u64_max (scan_digits (c :: t) 0) = n) by (rewrite Hv; unfold u64_max; lia).
  assert (c = 48 \/ c = 49 \/ c = 50 \/ c = 51 \/ c = 52 \/ c = 53 \/ c = 54 \/ c = 55 \/ c = 56 \/ c = 57)
    as Hcases by lia.
  transitivity (Some (Z.min u64_max (scan_digits (c :: t) 0))); [|by rewrite Hmin].
  by repeat (destruct Hcases as [-> | Hcases]; [reflexivity|]); subst.
Qed.
