(* ===== verification/Json.v ===== *)
(** * Reading JSON text ([src/src/config.c], first part)

    The configuration reader does not parse JSON: it searches the text for a quoted key and
    reads what follows.  A pointer into the text is the text from there on; the text up to an
    end pointer is a prefix of it.  [atof] is that of decimal texts, and its value is exact. *)

From S2P Require Import Prelude Fluxwan Ipv4 CLib.

(** ** Numbers of the C library *)

(** [(int)] of a [long], and [atoi], which is [strtol] cut to an [int]. *)
Definition i32 (x : Z) : Z := (x + 2147483648) mod 4294967296 - 2147483648.
Definition clamp_long (x : Z) : Z := Z.max (- 9223372036854775808) (Z.min 9223372036854775807 x).
Definition atoi32 (s : cstring) : Z := i32 (clamp_long (atoi s)).

(** The digits that start a text, their number and value, and the rest. *)
Fixpoint digits_of (s : cstring) (n v : Z) : Z * Z * cstring :=
  match s with
  | c :: s' => if isdigit c then digits_of s' (n + 1) (10 * v + (c - 48)) else (n, v, s)
  | [] => (n, v, [])
  end.

Definition scale10 (m e : Z) : Q :=
  if 0 <=? e then inject_Z (m * 10 ^ e) else Qred (m # Z.to_pos (10 ^ (- e))).

Definition exponent (s : cstring) : Z :=
  match s with
  | c :: s =>
      if (c =? 101) || (c =? 69) then
        let '(sign, s) := match s with 45 :: s => (-1, s) | 43 :: s => (1, s) | s => (1, s) end in
        let '(n, v, _) := digits_of s 0 0 in sign * v
      else 0
  | [] => 0
  end.

Definition atof (s : cstring) : Q :=
  let '(sign, s) := match skip_spaces s with 45 :: s => (-1, s) | 43 :: s => (1, s) | s => (1, s) end in
  let '(n, v, s) := digits_of s 0 0 in
  let '(k, v, s) := match s with 46 :: s => digits_of s 0 v | s => (0, v, s) end in
  if n + k =? 0 then 0%Q else scale10 (sign * v) (exponent s - k).

(** [%x] of [scanf]. *)
Definition hex_val (c : Z) : option Z :=
  if isdigit c then Some (c - 48)
  else if (97 <=? c) && (c <=? 102) then Some (c - 87)
  else if (65 <=? c) && (c <=? 70) then Some (c - 55)
  else None.
Fixpoint hex_digits (s : cstring) (n : nat) (v : Z) : nat * Z * cstring :=
  match s with
  | c :: s' => match hex_val c with
               | Some d => hex_digits s' (S n) (Z.min u64_max (16 * v + d))
               | None => (n, v, s)
               end
  | [] => (n, v, [])
  end.
Definition scan_hex (s : cstring) : option (Z * cstring) :=
  let '(sign, s) := match skip_spaces s with 45 :: s => (-1, s) | 43 :: s => (1, s) | s => (1, s) end in
  let s := match s with
           | 48 :: x :: s' => if (x =? 120) || (x =? 88) then 48 :: s' else s
           | s => s
           end in
  match hex_digits s 0 0 with
  | (O, _, _) => None
  | (_, v, s) => Some (u32 (sign * v), s)
  end.

(** ** Texts *)

Definition read_file_to_string (mem : bool) (file : option (list Z)) : option cstring :=
  match file with
  | None | Some [] => None
  | Some bytes => if mem then Some (cstr bytes) else None
  end.

Definition safe_str_copy (src : cstring) (max_len : Z) : cstring := str_trunc max_len src.

Fixpoint unescape_json_inplace (s : cstring) : cstring :=
  match s with
  | [] => []
  | c :: s =>
      if c =? 92 then
        match s with
        | [] => []
        | e :: s => (if e =? 110 then 10 else if e =? 114 then 13 else if e =? 116 then 9 else e)
                    :: unescape_json_inplace s
        end
      else c :: unescape_json_inplace s
  end.

(** ** Values of keys *)

Definition quoted (s : cstring) : cstring := 34 :: s ++ [34].

Definition json_blank (c : Z) : bool := (c =? 32) || (c =? 58) || (c =? 9) || (c =? 10) || (c =? 13).
Fixpoint skip_json_blanks (s : cstring) : cstring :=
  match s with
  | c :: s' => if json_blank c then skip_json_blanks s' else s
  | [] => []
  end.

(** What follows the first occurrence of the key in quotes. *)
Definition json_value (json key : cstring) : option cstring :=
  let pattern := str_trunc 128 (quoted key) in
  p ← strstr json pattern;
  Some (skip_json_blanks (drop (length pattern) p)).

(** The text before the next quote that is not escaped. *)
Fixpoint string_body (s : cstring) (esc : bool) : option cstring :=
  match s with
  | [] => None
  | c :: s =>
      if esc then cons c <$> string_body s false
      else if c =? 92 then cons c <$> string_body s true
      else if c =? 34 then Some []
      else cons c <$> string_body s false
  end.

Definition extract_json_string (json key : cstring) (max_len : Z) : option cstring :=
  v ← json_value json key;
  match v with
  | 34 :: p => body ← string_body p false;
               Some (unescape_json_inplace (str_trunc max_len body))
  | _ => None
  end.

Definition extract_json_int (json key : cstring) (default_val : Z) : Z :=
  match json_value json key with
  | None => default_val
  | Some p => atoi32 p
  end.

Definition extract_json_float (json key : cstring) (default_val : Q) : Q :=
  match json_value json key with
  | None => default_val
  | Some p => atof p
  end.

Definition extract_json_bool (json key : cstring) (default_val : bool) : bool :=
  match json_value json key with
  | None => default_val
  | Some p => if has_prefix "true" p then true
              else if has_prefix "false" p then false
              else default_val
  end.

Definition extract_json_uint64 (json key : cstring) (default_val : Z) : Z :=
  match json_value json key with
  | None | Some [] => default_val
  | Some (c :: p) => if negb (isdigit c) && negb (c =? 45) then default_val
                     else default 0 (scan_u64 (c :: p))
  end.

(** ** Arrays and objects *)

(** The text from a bracket up to the one that closes it. *)
Fixpoint bracket_scan (s : cstring) (depth : Z) : option cstring :=
  match s with
  | [] => None
  | c :: s =>
      if c =? 91 then cons c <$> bracket_scan s (depth + 1)
      else if c =? 93 then
        if depth - 1 =? 0 then Some [] else cons c <$> bracket_scan s (depth - 1)
      else cons c <$> bracket_scan s depth
  end.
Definition find_matching_bracket (start : cstring) : option cstring :=
  match start with
  | 91 :: _ => bracket_scan start 0
  | _ => None
  end.

(** The same for braces, outside of quoted texts. *)
Fixpoint brace_scan (s : cstring) (depth : Z) (in_str escape : bool) : option cstring :=
  match s with
  | [] => None
  | c :: s =>
      if escape then cons c <$> brace_scan s depth in_str false
      else if c =? 92 then cons c <$> brace_scan s depth in_str true
      else if c =? 34 then cons c <$> brace_scan s depth (negb in_str) false
      else if negb in_str then
        if c =? 123 then cons c <$> brace_scan s (depth + 1) in_str false
        else if c =? 125 then
          if depth - 1 =? 0 then Some [] else cons c <$> brace_scan s (depth - 1) in_str false
        else cons c <$> brace_scan s depth in_str false
      else cons c <$> brace_scan s depth in_str false
  end.
Definition find_matching_brace (start : cstring) : option cstring :=
  match start with
  | 123 :: _ => brace_scan start 0 false false
  | _ => None
  end.

(** [strchr(s, c)], as the text before the first [c]. *)
Fixpoint before (c : Z) (s : cstring) : option cstring :=
  match s with
  | [] => None
  | x :: s => if x =? c then Some [] else cons x <$> before c s
  end.

(** The array that follows, without its closing bracket. *)
Definition json_array (pos : cstring) : option cstring :=
  start ← strchr pos 91;
  find_matching_bracket start.

(** The object that follows, with its closing brace. *)
Definition json_object (pos : cstring) : option cstring :=
  start ← strchr pos 123;
  body ← find_matching_brace start;
  Some (body ++ [125]).

(** The objects of an array.  The end of an object is the first closing brace, or the
    matching one.  An object takes two bytes at least: the length is enough fuel. *)
Fixpoint objects_loop (fuel : nat) (close : cstring -> option cstring) (p : cstring) : list cstring :=
  match fuel with
  | O => []
  | S fuel =>
      match strchr p 123 with
      | None => []
      | Some obj =>
          match close obj with
          | None => []
          | Some body => (body ++ [125]) :: objects_loop fuel close (drop (length body + 1) obj)
          end
      end
  end.
Definition array_objects (close : cstring -> option cstring) (arr : cstring) : list cstring :=
  objects_loop (length arr) close arr.
Definition first_brace : cstring -> option cstring := before 125.

(** The texts in quotes of an array. *)
Fixpoint quoted_loop (fuel : nat) (p : cstring) : list cstring :=
  match fuel with
  | O => []
  | S fuel =>
      match strchr p 34 with
      | Some (_ :: q1) =>
          match before 34 q1 with
          | None => []
          | Some body => body :: quoted_loop fuel (drop (length body + 1) q1)
          end
      | _ => []
      end
  end.
Definition array_strings (arr : cstring) : list cstring := quoted_loop (length arr) arr.

(** Six hexadecimal numbers with the given separator. *)
Fixpoint scan_mac (n : nat) (sep : Z) (s : cstring) : option (list Z) :=
  match n with
  | O => Some []
  | S n =>
      '(v, s) ← scan_hex s;
      match n, s with
      | O, _ => Some [v]
      | _, c :: s => if c =? sep then cons v <$> scan_mac n sep s else None
      | _, [] => None
      end
  end.
Definition parse_mac_str (str : cstring) : option (list Z) :=
  match scan_mac 6 58 str with
  | Some m => Some (map u8 m)
  | None => m ← scan_mac 6 45 str; Some (map u8 m)
  end.
