(* ===== verification/JsonText.v ===== *)
(** * Printed JSON text and the searches in it

    What the writers print is a list of tokens: literal text, quoted keys and quoted strings.
    The lemmas turn the searches of [Json] in such a text into searches in the tokens, as long
    as no string of the text contains a quote, a backslash or a bracket, or is itself a key. *)

From S2P Require Import Prelude Fluxwan Ipv4 CLib Json.

(** ** Tokens *)

Inductive tok :=
  | Lit (s : cstring)
  | Key (k : cstring)
  | Str (s : cstring).

Definition tok_text (t : tok) : cstring :=
  match t with
  | Lit s => s
  | Key s | Str s => quoted s
  end.
Definition render (l : list tok) : cstring := concat (tok_text <$> l).

Definition lit (s : string) : tok := Lit s.
(** A literal that ends the line. *)
Definition ln (s : string) : tok := Lit (bytes_of_string s ++ [10]).

Definition jstr (s : cstring) : list tok := [Str s].
Definition jnum (n : Z) : list tok := [Lit (dec n)].
Definition jbool (b : bool) : list tok := [Lit (if b then bytes_of_string "true" else bytes_of_string "false")].

(** One line, a key with its value: [fprintf(f, "<indent>\"<key>\": <value><sep>\n")]. *)
Definition fld (indent key : string) (v : list tok) (sep : string) : list tok :=
  lit indent :: Key key :: lit ": " :: v ++ [ln sep].

(** The separator after an element of a list: none after the last. *)
Definition comma_list {A} (f : A -> string -> list tok) (l : list A) : list tok :=
  concat (imap (fun i x => f x (if bool_decide (S i = length l) then EmptyString else ","%string)) l).

Lemma render_app a b : render (a ++ b) = render a ++ render b.
Proof. unfold render. by rewrite fmap_app, concat_app. Qed.
Lemma render_cons t l : render (t :: l) = tok_text t ++ render l.
Proof. done. Qed.

(** ** Searching for a key *)

Definition key_char (c : Z) : bool :=
  ((97 <=? c) && (c <=? 122)) || ((65 <=? c) && (c <=? 90)) || ((48 <=? c) && (c <=? 57)) || (c =? 95).
Definition key_ok (k : cstring) : Prop := k <> [] /\ Forall (fun c => key_char c = true) k.

Definition no_char (c : Z) (s : cstring) : Prop := Forall (fun x => x <> c) s.

(** After a closing quote comes something that starts no key. *)
Definition follows (l : list tok) : Prop :=
  match l with
  | [] => True
  | Lit (c :: _) :: _ => key_char c = false /\ c <> 34
  | _ => False
  end.

Fixpoint wf (l : list tok) : Prop :=
  match l with
  | [] => True
  | Lit s :: l => no_char 34 s /\ wf l
  | Key k :: l => key_ok k /\ follows l /\ wf l
  | Str s :: l => no_char 34 s /\ follows l /\ wf l
  end.

(** The tokens after the first quoted text [k]. *)
Fixpoint find_quoted (k : cstring) (l : list tok) : option (list tok) :=
  match l with
  | [] => None
  | Lit _ :: l => find_quoted k l
  | Key s :: l | Str s :: l => if bool_decide (s = k) then Some l else find_quoted k l
  end.

(** The tokens after the first key [k]. *)
Fixpoint find_key (k : cstring) (l : list tok) : option (list tok) :=
  match l with
  | [] => None
  | Key s :: l => if bool_decide (s = k) then Some l else find_key k l
  | _ :: l => find_key k l
  end.

(** No string of the text is the key [k]. *)
Definition str_free (k : cstring) (l : list tok) : Prop :=
  Forall (fun t => match t with Str s => s <> k | _ => True end) l.

Lemma find_quoted_key k l : str_free k l -> find_quoted k l = find_key k l.
Proof.
  induction 1 as [|[s | s | s] l Ht Hl IH]; cbn; [done..| |]; rewrite IH; [done|].
  by rewrite bool_decide_false.
Qed.

Lemma key_char_quote c : key_char c = true -> c <> 34.
Proof. intros H ->. discriminate. Qed.
Lemma key_ok_no_quote k : key_ok k -> no_char 34 k.
Proof. intros [_ H]. eapply Forall_impl; [exact H|]. intros c. apply key_char_quote. Qed.

Lemma strip_prefix_ne c p x s : x <> c -> strip_prefix (c :: p) (x :: s) = None.
Proof. intros H. cbn [strip_prefix]. by rewrite (proj2 (Z.eqb_neq c x)) by congruence. Qed.

(** Two texts without quotes, each closed by one. *)
Lemma strip_prefix_quoted a b r :
  no_char 34 a -> no_char 34 b ->
  strip_prefix (a ++ [34]) (b ++ 34 :: r) = if bool_decide (b = a) then Some r else None.
Proof.
  intros Ha. revert b. induction Ha as [|c a Hc Ha IH]; intros b Hb.
  - destruct b as [|x b]; [done|]. apply Forall_cons in Hb as [Hx _].
    rewrite bool_decide_false by done. cbn [app strip_prefix]. by rewrite (proj2 (Z.eqb_neq 34 x)) by congruence.
  - destruct b as [|x b]; cbn [app strip_prefix].
    + rewrite (proj2 (Z.eqb_neq c 34)) by done. by rewrite bool_decide_false.
    + apply Forall_cons in Hb as [Hx Hb]. destruct (Z.eqb_spec c x) as [-> | Hne].
      * rewrite IH by done. by destruct (decide (b = a)) as [-> | Hba];
          [rewrite !bool_decide_true|rewrite !bool_decide_false by congruence].
      * by rewrite bool_decide_false by congruence.
Qed.

Lemma strstr_skip s p r :
  no_char 34 s -> strstr (s ++ r) (34 :: p) = strstr r (34 :: p).
Proof.
  induction 1 as [|c s Hc Hs IH]; [done|]. cbn [app strstr]. unfold has_prefix.
  rewrite strip_prefix_ne by done. rewrite bool_decide_false by (by intros []). exact IH.
Qed.

Lemma strstr_cons_fail c s p : strip_prefix p (c :: s) = None -> strstr (c :: s) p = strstr s p.
Proof. intros H. cbn [strstr]. unfold has_prefix. rewrite H. by rewrite bool_decide_false by (by intros []). Qed.

Lemma strstr_hit p s r : strip_prefix p s = Some r -> strstr s p = Some s.
Proof. intros H. destruct s; cbn [strstr]; unfold has_prefix; rewrite H; by rewrite bool_decide_true by done. Qed.

Lemma follows_fail k l : key_ok k -> follows l -> strip_prefix (quoted k) (34 :: render l) = None.
Proof.
  intros [Hne Hk] Hf. unfold quoted. cbn [strip_prefix]. rewrite Z.eqb_refl.
  destruct k as [|c k]; [done|]. apply Forall_cons in Hk as [Hc _]. cbn [app].
  destruct l as [|[[|x s] | s | s] l]; try done. destruct Hf as [Hx _]. cbn [render concat fmap list_fmap tok_text app strip_prefix].
  rewrite (proj2 (Z.eqb_neq c x)); [done|]. intros ->. congruence.
Qed.

Lemma strstr_quoted_text k s l :
  key_ok k -> no_char 34 s -> follows l ->
  strstr (quoted s ++ render l) (quoted k)
  = if bool_decide (s = k) then Some (quoted s ++ render l) else strstr (render l) (quoted k).
Proof.
  intros Hk Hs Hf. pose proof (key_ok_no_quote k Hk) as Hq.
  assert (E : strip_prefix (quoted k) (quoted s ++ render l)
              = if bool_decide (s = k) then Some (render l) else None).
  { unfold quoted. cbn [app strip_prefix]. rewrite Z.eqb_refl, <- app_assoc. cbn [app].
    by rewrite strip_prefix_quoted. }
  case_bool_decide as Hsk.
  - by rewrite (strstr_hit _ _ _ E).
  - unfold quoted in E |- * at 1. cbn [app] in E |- *. rewrite strstr_cons_fail by done.
    rewrite <- app_assoc. unfold quoted at 1. rewrite strstr_skip by done. cbn [app].
    rewrite strstr_cons_fail; [done|]. by apply follows_fail.
Qed.

(** The search in the text is the search in the tokens. *)
Lemma strstr_render k l :
  key_ok k -> wf l ->
  strstr (render l) (quoted k) = (fun r => quoted k ++ render r) <$> find_quoted k l.
Proof.
  intros Hk. induction l as [|[s | s | s] l IH]; intros Hw.
  - done.
  - destruct Hw as [Hs Hw]. rewrite render_cons. cbn [tok_text find_quoted]. unfold quoted at 1.
    rewrite strstr_skip by done. by apply IH.
  - destruct Hw as (Hs & Hf & Hw). rewrite render_cons. cbn [tok_text find_quoted].
    rewrite strstr_quoted_text by (done || by apply key_ok_no_quote).
    destruct (decide (s = k)) as [-> | Hne]; [by rewrite bool_decide_true|rewrite !bool_decide_false by done; by apply IH].
  - destruct Hw as (Hs & Hf & Hw). rewrite render_cons. cbn [tok_text find_quoted].
    rewrite strstr_quoted_text by done.
    destruct (decide (s = k)) as [-> | Hne]; [by rewrite bool_decide_true|rewrite !bool_decide_false by done; by apply IH].
Qed.

(** ** Values *)

(** A text that survives printing between quotes and all the searches for brackets. *)
Definition plain_char (c : Z) : bool :=
  negb ((c =? 0) || (c =? 34) || (c =? 92) || (c =? 91) || (c =? 93) || (c =? 123) || (c =? 125)).
Definition plain (s : cstring) : Prop := Forall (fun c => plain_char c = true) s.

Lemma plain_no_char c s : plain_char c = false -> plain s -> no_char c s.
Proof. intros Hc Hs. eapply Forall_impl; [exact Hs|]. intros x Hx ->. congruence. Qed.

Lemma skip_blanks_lit s r :
  Forall (fun c => json_blank c = true) s -> skip_json_blanks (s ++ r) = skip_json_blanks r.
Proof. induction 1 as [|c s Hc Hs IH]; [done|]. cbn [app skip_json_blanks]. by rewrite Hc. Qed.

Definition short_key (k : cstring) : Prop := key_ok k /\ (length k <= 125)%nat.

Lemma pattern_quoted k : (length k <= 125)%nat -> str_trunc 128 (quoted k) = quoted k.
Proof.
  intros H. unfold str_trunc. apply take_ge. unfold quoted. cbn [length]. rewrite length_app. cbn [length]. lia.
Qed.

Lemma json_value_render k l :
  short_key k -> wf l ->
  json_value (render l) k = (fun r => skip_json_blanks (render r)) <$> find_quoted k l.
Proof.
  intros [Hk Hl] Hw. unfold json_value. rewrite pattern_quoted by done. rewrite strstr_render by done.
  destruct (find_quoted k l) as [r|]; [|done]. cbn [fmap option_fmap option_map mbind option_bind].
  by rewrite drop_app_length.
Qed.

Lemma string_body_plain s r :
  no_char 34 s -> no_char 92 s -> string_body (s ++ 34 :: r) false = Some s.
Proof.
  intros H1 H2. induction s as [|c s IH]; [done|]. apply Forall_cons in H1 as [Hc1 H1]. apply Forall_cons in H2 as [Hc2 H2].
  cbn [app string_body]. rewrite (proj2 (Z.eqb_neq c 92)), (proj2 (Z.eqb_neq c 34)) by done. by rewrite IH.
Qed.

Lemma unescape_plain s : no_char 92 s -> unescape_json_inplace s = s.
Proof.
  induction 1 as [|c s Hc Hs IH]; [done|]. cbn [unescape_json_inplace].
  rewrite (proj2 (Z.eqb_neq c 92)) by done. by rewrite IH.
Qed.

Lemma take_no_char c n s : no_char c s -> no_char c (take n s).
Proof. apply Forall_take. Qed.

(** What the reader makes of the value tokens of a key. *)
Definition value_at (l : list tok) (k : cstring) (v : list tok) : Prop :=
  exists r, find_quoted k l = Some (lit ": " :: v ++ r) /\ follows r.

Lemma extract_string_at l k s n :
  short_key k -> wf l -> value_at l k (jstr s) -> no_char 34 s -> no_char 92 s ->
  extract_json_string (render l) k n = Some (str_trunc n s).
Proof.
  intros Hk Hw (r & Hr & _) H1 H2. unfold extract_json_string. rewrite json_value_render, Hr by done.
  cbn [fmap option_fmap option_map mbind option_bind]. rewrite render_cons.
  rewrite skip_blanks_lit by (repeat constructor). cbn [jstr app]. rewrite render_cons. cbn [tok_text quoted app skip_json_blanks].
  change (json_blank 34) with false. cbv iota. rewrite <- app_assoc. cbn [app]. rewrite string_body_plain by done.
  cbn [mbind option_bind]. rewrite unescape_plain; [done|]. by apply take_no_char.
Qed.

Lemma extract_missing l k :
  short_key k -> wf l -> find_quoted k l = None -> json_value (render l) k = None.
Proof. intros Hk Hw Hn. by rewrite json_value_render, Hn. Qed.

Lemma isdigit_facts c : isdigit c = true -> isspace c = false /\ json_blank c = false /\ c <> 43 /\ c <> 45 /\ c <> 34.
Proof.
  unfold isdigit, isspace, json_blank. rewrite andb_true_iff, !Z.leb_le. intros [H1 H2].
  assert (forall k, k < 48 \/ 57 < k -> (c =? k) = false) as He by (intros k Hk; apply Z.eqb_neq; lia).
  rewrite !He by lia. replace (c <=? 13) with false by (symmetry; apply Z.leb_gt; lia).
  rewrite andb_false_r. split_and!; (done || lia).
Qed.

Lemma atoi_dec n r : is_u64 n -> scan_digits r n = n -> atoi (dec n ++ r) = n.
Proof.
  intros Hn Hr. unfold is_u64 in Hn. destruct (dec_head n r ltac:(lia)) as (c & t & E & Hc).
  assert (Hv : scan_digits (c :: t) 0 = n).
  { rewrite <- E. unfold dec. rewrite dec_digits_app. rewrite scan_dec_digits; [done|lia|lia]. }
  destruct (isdigit_facts c Hc) as (Hs & _ & H43 & H45 & _).
  unfold atoi. rewrite E. cbn [skip_spaces]. rewrite Hs.
  destruct c as [|p|p]; try done. do 6 (destruct p as [p|p|]; try done).
Qed.

Definition not_digit (r : cstring) : Prop := match r with c :: _ => isdigit c = false | [] => True end.
Lemma scan_stop r n : not_digit r -> scan_digits r n = n.
Proof. destruct r as [|c r]; [done|]. cbn. by intros ->. Qed.

Lemma u32_i32 x : u32 (i32 x) = u32 x.
Proof. unfold i32, u32. lia. Qed.
Lemma u16_i32 x : u16 (i32 x) = u16 x.
Proof. unfold i32, u16. lia. Qed.
Lemma u8_i32 x : u8 (i32 x) = u8 x.
Proof. unfold i32, u8. lia. Qed.

Lemma follows_not_digit r : follows r -> not_digit (render r).
Proof.
  destruct r as [|[[|c s] | s | s] r]; try done. intros [Hc _]. cbn. unfold key_char in Hc.
  apply orb_false_iff in Hc as [Hc _]. apply orb_false_iff in Hc as [_ Hc]. exact Hc.
Qed.

Lemma extract_int_at l k n d :
  short_key k -> wf l -> value_at l k (jnum n) -> 0 <= n < 9223372036854775808 ->
  extract_json_int (render l) k d = i32 n.
Proof.
  intros Hk Hw (r & Hr & Hf) Hn. unfold extract_json_int. rewrite json_value_render, Hr by done.
  cbn [fmap option_fmap option_map]. rewrite render_cons, skip_blanks_lit by (repeat constructor).
  cbn [jnum app]. rewrite render_cons. cbn [tok_text].
  destruct (dec_head n (render r) ltac:(lia)) as (c & t & E & Hc). destruct (isdigit_facts c Hc) as (_ & Hb & _).
  assert (Hsk : skip_json_blanks (dec n ++ render r) = dec n ++ render r) by (rewrite E; cbn [skip_json_blanks]; by rewrite Hb).
  rewrite Hsk. unfold atoi32. rewrite atoi_dec.
  - f_equal. unfold clamp_long. lia.
  - unfold is_u64. lia.
  - apply scan_stop. by apply follows_not_digit.
Qed.

Lemma extract_u64_at l k n d :
  short_key k -> wf l -> value_at l k (jnum n) -> is_u64 n -> extract_json_uint64 (render l) k d = n.
Proof.
  intros Hk Hw (r & Hr & Hf) Hn. unfold extract_json_uint64. rewrite json_value_render, Hr by done.
  cbn [fmap option_fmap option_map]. rewrite render_cons, skip_blanks_lit by (repeat constructor).
  cbn [jnum app]. rewrite render_cons. cbn [tok_text].
  destruct (dec_head n (render r) ltac:(unfold is_u64 in Hn; lia)) as (c & t & E & Hc). destruct (isdigit_facts c Hc) as (_ & Hb & _).
  assert (Hsk : skip_json_blanks (dec n ++ render r) = dec n ++ render r) by (rewrite E; cbn [skip_json_blanks]; by rewrite Hb).
  assert (Hsc : scan_u64 (dec n ++ render r) = Some n) by (apply scan_dec; [done|]; apply scan_stop; by apply follows_not_digit).
  rewrite Hsk, E, Hc. cbn [negb andb]. by rewrite <- E, Hsc.
Qed.

Lemma extract_bool_at l k b d :
  short_key k -> wf l -> value_at l k (jbool b) -> extract_json_bool (render l) k d = b.
Proof.
  intros Hk Hw (r & Hr & _). unfold extract_json_bool. rewrite json_value_render, Hr by done.
  cbn [fmap option_fmap option_map]. rewrite render_cons, skip_blanks_lit by (repeat constructor).
  by destruct b.
Qed.

(** ** Brackets and braces *)

Lemma strchr_skip c s r : no_char c s -> strchr (s ++ r) c = strchr r c.
Proof.
  induction 1 as [|x s Hx Hs IH]; [done|]. cbn [app strchr]. by rewrite (proj2 (Z.eqb_neq x c)).
Qed.
Lemma strchr_here c r : strchr (c :: r) c = Some (c :: r).
Proof. cbn [strchr]. by rewrite Z.eqb_refl. Qed.
Lemma strchr_none c s : no_char c s -> strchr s c = None.
Proof. intros H. rewrite <- (app_nil_r s). by rewrite strchr_skip. Qed.
Lemma before_spec c s r : no_char c s -> before c (s ++ c :: r) = Some s.
Proof.
  induction 1 as [|x s Hx Hs IH]; cbn [app before]; [by rewrite Z.eqb_refl|].
  by rewrite (proj2 (Z.eqb_neq x c)), IH.
Qed.
Lemma before_none c s : no_char c s -> before c s = None.
Proof. induction 1 as [|x s Hx Hs IH]; cbn [before]; [done|]. by rewrite (proj2 (Z.eqb_neq x c)), IH. Qed.

(** Texts that leave the depth of a scan as it is. *)
Definition bracket_neutral (x : cstring) : Prop :=
  forall d y, 0 < d -> bracket_scan (x ++ y) d = app x <$> bracket_scan y d.
Definition brace_neutral (x : cstring) : Prop :=
  forall d y, 0 < d -> brace_scan (x ++ y) d false false = app x <$> brace_scan y d false false.

Lemma fmap_app_nil (o : option cstring) : app [] <$> o = o.
Proof. by destruct o. Qed.
Lemma fmap_app_app (x y : cstring) (o : option cstring) : app (x ++ y) <$> o = app x <$> (app y <$> o).
Proof. destruct o; cbn; [|done]. by rewrite app_assoc. Qed.

Lemma bracket_neutral_app x y : bracket_neutral x -> bracket_neutral y -> bracket_neutral (x ++ y).
Proof. intros Hx Hy d z Hd. rewrite <- app_assoc, Hx, Hy, fmap_app_app by done. done. Qed.
Lemma brace_neutral_app x y : brace_neutral x -> brace_neutral y -> brace_neutral (x ++ y).
Proof. intros Hx Hy d z Hd. rewrite <- app_assoc, Hx, Hy, fmap_app_app by done. done. Qed.

Lemma bracket_neutral_text x : no_char 91 x -> no_char 93 x -> bracket_neutral x.
Proof.
  intros H1 H2 d y Hd. induction x as [|c x IH]; [by rewrite fmap_app_nil|].
  apply Forall_cons in H1 as [Hc1 H1]. apply Forall_cons in H2 as [Hc2 H2]. cbn [app bracket_scan].
  rewrite (proj2 (Z.eqb_neq c 91)), (proj2 (Z.eqb_neq c 93)), IH by done. by destruct (bracket_scan y d).
Qed.
Lemma bracket_neutral_nest x : bracket_neutral x -> bracket_neutral (91 :: x ++ [93]).
Proof.
  intros Hx d y Hd. cbn [app]. rewrite <- app_assoc. cbn [app bracket_scan]. change (91 =? 91) with true. cbv iota.
  rewrite Hx by lia. cbn [bracket_scan]. change (93 =? 91) with false. change (93 =? 93) with true. cbv iota.
  replace (d + 1 - 1) with d by lia. rewrite (proj2 (Z.eqb_neq d 0)) by lia.
  destruct (bracket_scan y d) as [z|]; [|done]. cbn. by rewrite <- app_assoc.
Qed.
Lemma matching_bracket x y : bracket_neutral x -> find_matching_bracket (91 :: x ++ 93 :: y) = Some (91 :: x).
Proof.
  intros Hx. cbn [find_matching_bracket bracket_scan]. change (91 =? 91) with true. cbv iota. rewrite Hx by lia.
  change (bracket_scan (93 :: y) (0 + 1)) with (Some (@nil Z)). cbn [fmap option_fmap option_map]. by rewrite app_nil_r.
Qed.

Lemma brace_neutral_text x :
  no_char 34 x -> no_char 92 x -> no_char 123 x -> no_char 125 x -> brace_neutral x.
Proof.
  intros H1 H2 H3 H4 d y Hd. induction x as [|c x IH]; [by rewrite fmap_app_nil|].
  apply Forall_cons in H1 as [Hc1 H1]. apply Forall_cons in H2 as [Hc2 H2].
  apply Forall_cons in H3 as [Hc3 H3]. apply Forall_cons in H4 as [Hc4 H4]. cbn [app brace_scan negb].
  rewrite (proj2 (Z.eqb_neq c 92)), (proj2 (Z.eqb_neq c 34)), (proj2 (Z.eqb_neq c 123)), (proj2 (Z.eqb_neq c 125)), IH by done.
  by destruct (brace_scan y d false false).
Qed.
Lemma brace_scan_in_str s d y :
  no_char 34 s -> no_char 92 s ->
  brace_scan (s ++ 34 :: y) d true false = app (s ++ [34]) <$> brace_scan y d false false.
Proof.
  intros H1 H2. induction s as [|c s IH].
  - cbn [app brace_scan]. change (34 =? 92) with false. change (34 =? 34) with true. done.
  - apply Forall_cons in H1 as [Hc1 H1]. apply Forall_cons in H2 as [Hc2 H2]. cbn [app brace_scan negb].
    rewrite (proj2 (Z.eqb_neq c 92)), (proj2 (Z.eqb_neq c 34)), IH by done. by destruct (brace_scan y d false false).
Qed.
Lemma brace_neutral_quoted s : no_char 34 s -> no_char 92 s -> brace_neutral (quoted s).
Proof.
  intros H1 H2 d y Hd. unfold quoted. cbn [app brace_scan]. change (34 =? 92) with false. change (34 =? 34) with true.
  cbv iota. cbn [negb]. rewrite <- app_assoc. cbn [app]. rewrite brace_scan_in_str by done.
  by destruct (brace_scan y d false false).
Qed.
Lemma brace_neutral_nest x : brace_neutral x -> brace_neutral (123 :: x ++ [125]).
Proof.
  intros Hx d y Hd. cbn [app]. rewrite <- app_assoc. cbn [app brace_scan negb].
  change (123 =? 92) with false. change (123 =? 34) with false. change (123 =? 123) with true. cbv iota.
  rewrite Hx by lia. cbn [brace_scan negb]. change (125 =? 92) with false. change (125 =? 34) with false.
  change (125 =? 123) with false. change (125 =? 125) with true. cbv iota.
  replace (d + 1 - 1) with d by lia. rewrite (proj2 (Z.eqb_neq d 0)) by lia.
  destruct (brace_scan y d false false) as [z|]; [|done]. cbn. by rewrite <- app_assoc.
Qed.
Lemma matching_brace x y : brace_neutral x -> find_matching_brace (123 :: x ++ 125 :: y) = Some (123 :: x).
Proof.
  intros Hx. cbn [find_matching_brace brace_scan negb]. change (123 =? 92) with false. change (123 =? 34) with false.
  change (123 =? 123) with true. cbv iota. rewrite Hx by lia.
  change (brace_scan (125 :: y) (0 + 1) false false) with (Some (@nil Z)). cbn [fmap option_fmap option_map].
  by rewrite app_nil_r.
Qed.

(** ** Objects of an array *)

(** An object with the text before and after it. *)
Definition item_text (it : cstring * cstring * cstring) : cstring :=
  let '(pre, body, suf) := it in pre ++ 123 :: body ++ 125 :: suf.
Definition item_obj (it : cstring * cstring * cstring) : cstring :=
  let '(pre, body, suf) := it in 123 :: body ++ [125].
Definition item_ok (close : cstring -> option cstring) (it : cstring * cstring * cstring) : Prop :=
  let '(pre, body, suf) := it in
  no_char 123 pre /\ no_char 123 suf /\ forall r, close (123 :: body ++ 125 :: r) = Some (123 :: body).

Lemma drop_past (x r : cstring) c : drop (length x + 1) (x ++ c :: r) = r.
Proof. induction x as [|y x IH]; [done|]. exact IH. Qed.

Lemma objects_loop_spec close items : forall fuel h post,
  Forall (item_ok close) items -> no_char 123 h -> no_char 123 post -> (length items <= fuel)%nat ->
  objects_loop fuel close (h ++ concat (item_text <$> items) ++ post) = item_obj <$> items.
Proof.
  induction items as [|[[pre body] suf] items IH]; intros fuel h post Hit Hh Hp Hf.
  - cbn [fmap list_fmap concat app]. destruct fuel; [done|]. cbn [objects_loop].
    by rewrite strchr_none by (by apply Forall_app).
  - apply Forall_cons in Hit as [(Hpre & Hsuf & Hc) Hit]. destruct fuel as [|fuel]; [cbn in Hf; lia|].
    cbn [fmap list_fmap concat item_text objects_loop]. rewrite <- !app_assoc. cbn [app].
    rewrite strchr_skip, strchr_skip by done. rewrite <- app_assoc. cbn [app]. rewrite strchr_here, Hc.
    cbn [item_obj app]. f_equal.
    change (drop (length (123 :: body) + 1) (123 :: body ++ 125 :: suf ++ concat (item_text <$> items) ++ post))
      with (drop (length (123 :: body) + 1) ((123 :: body) ++ 125 :: suf ++ concat (item_text <$> items) ++ post)).
    rewrite drop_past.
    apply IH; [done..|cbn in Hf; lia].
Qed.

Lemma items_length items : (length items <= length (concat (item_text <$> items)))%nat.
Proof.
  induction items as [|[[pre body] suf] items IH]; cbn [fmap list_fmap concat length]; [lia|].
  rewrite length_app. cbn [item_text]. rewrite length_app. cbn [length]. lia.
Qed.

Lemma array_objects_spec close items h post :
  Forall (item_ok close) items -> no_char 123 h -> no_char 123 post ->
  array_objects close (h ++ concat (item_text <$> items) ++ post) = item_obj <$> items.
Proof.
  intros Hit Hh Hp. unfold array_objects. apply objects_loop_spec; [done..|].
  pose proof (items_length items). rewrite !length_app. lia.
Qed.

Lemma first_brace_closes body r : no_char 125 body -> first_brace (123 :: body ++ 125 :: r) = Some (123 :: body).
Proof. intros H. apply (before_spec 125 (123 :: body) r). by constructor. Qed.

(** ** Blocks of tokens *)

(** Tokens without brackets. *)
Definition flat_tok (t : tok) : Prop :=
  match t with
  | Lit s | Str s => plain s
  | Key k => key_ok k
  end.
Abbreviation flat := (Forall flat_tok).

(** Tokens that may stand before any well-formed text. *)
Definition wf_block (l : list tok) : Prop := forall r, wf r -> wf (l ++ r).

(** Whether a string of the text is one of the given words. *)
Definition str_free_of (words : list cstring) (l : list tok) : Prop :=
  Forall (fun t => match t with Str s => s ∉ words | _ => True end) l.

Definition key_okb (k : cstring) : bool := negb (bool_decide (k = [])) && forallb key_char k.

Lemma forallb_Forall (f : Z -> bool) s : forallb f s = true -> Forall (fun c => f c = true) s.
Proof.
  induction s as [|c s IH]; [by constructor|]. cbn [forallb]. rewrite andb_true_iff. intros [Hc Hs].
  constructor; [done|]. by apply IH.
Qed.
Lemma plain_bool s : forallb plain_char s = true -> plain s.
Proof. intros H. by apply forallb_Forall. Qed.
Lemma key_ok_bool k : key_okb k = true -> key_ok k.
Proof.
  unfold key_okb. rewrite andb_true_iff, negb_true_iff. intros [Hne H]. apply bool_decide_eq_false in Hne.
  split; [done|]. by apply forallb_Forall.
Qed.

Lemma key_char_plain c : key_char c = true -> plain_char c = true.
Proof.
  unfold key_char, plain_char. rewrite !orb_true_iff, !andb_true_iff, !Z.leb_le, Z.eqb_eq. intros H.
  rewrite negb_true_iff, !orb_false_iff, !Z.eqb_neq. lia.
Qed.
Lemma key_plain k : key_ok k -> plain k.
Proof. intros [_ H]. eapply Forall_impl; [exact H|]. apply key_char_plain. Qed.

Lemma plain_dec n : 0 <= n -> plain (dec n).
Proof.
  intros Hn. pose proof (dec_digits_ok 20 n [] Hn ltac:(constructor)) as H. eapply Forall_impl; [exact H|].
  intros c Hc. apply key_char_plain. unfold key_char. unfold isdigit in Hc. by rewrite Hc, !orb_true_r.
Qed.

Lemma no_char_app c x y : no_char c (x ++ y) <-> no_char c x /\ no_char c y.
Proof. apply Forall_app. Qed.

Lemma flat_no_char c l : plain_char c = false -> c <> 34 -> flat l -> no_char c (render l).
Proof.
  intros Hc Hq. induction 1 as [|t l Ht Hl IH]; [constructor|]. rewrite render_cons. apply no_char_app. split; [|done].
  destruct t as [s | s | s]; cbn in Ht |- *; [by apply plain_no_char| |]; unfold quoted;
    (constructor; [done|]; apply no_char_app; split; [|by repeat constructor]; apply plain_no_char; [done|]).
  - by apply key_plain.
  - done.
Qed.

Lemma flat_bracket_neutral l : flat l -> bracket_neutral (render l).
Proof. intros H. apply bracket_neutral_text; by apply flat_no_char. Qed.

Lemma flat_brace_neutral l : flat l -> brace_neutral (render l).
Proof.
  induction 1 as [|t l Ht Hl IH].
  - intros d y Hd. by rewrite fmap_app_nil.
  - rewrite render_cons. apply brace_neutral_app; [|done].
    destruct t as [s | s | s]; cbn in Ht |- *.
    + apply brace_neutral_text; by apply plain_no_char.
    + apply key_plain in Ht. apply brace_neutral_quoted; by apply plain_no_char.
    + apply brace_neutral_quoted; by apply plain_no_char.
Qed.

Lemma wf_block_wf l : wf_block l -> wf l.
Proof. intros H. rewrite <- (app_nil_r l). by apply H. Qed.
Lemma wf_block_nil : wf_block [].
Proof. by intros r. Qed.
Lemma wf_block_app a b : wf_block a -> wf_block b -> wf_block (a ++ b).
Proof. intros Ha Hb r Hr. rewrite <- app_assoc. by apply Ha, Hb. Qed.
Lemma wf_block_concat ls : Forall wf_block ls -> wf_block (concat ls).
Proof. induction 1 as [|l ls Hl Hls IH]; [apply wf_block_nil|]. by apply wf_block_app. Qed.
Lemma wf_block_lit s l : no_char 34 s -> wf_block l -> wf_block (Lit s :: l).
Proof. intros Hs Hl r Hr. split; [done|]. by apply Hl. Qed.
Lemma wf_block_str s c t l :
  no_char 34 s -> key_char c = false -> c <> 34 -> wf_block (Lit (c :: t) :: l) -> wf_block (Str s :: Lit (c :: t) :: l).
Proof. intros Hs Hc Hq Hl r Hr. split; [done|]. split; [done|]. by apply Hl. Qed.
Lemma wf_block_key k c t l :
  key_ok k -> key_char c = false -> c <> 34 -> wf_block (Lit (c :: t) :: l) -> wf_block (Key k :: Lit (c :: t) :: l).
Proof. intros Hk Hc Hq Hl r Hr. split; [done|]. split; [done|]. by apply Hl. Qed.

Lemma find_key_app k a b :
  find_key k (a ++ b) = match find_key k a with Some r => Some (r ++ b) | None => find_key k b end.
Proof. induction a as [|[s | s | s] a IH]; cbn; [done..| |done]. by case_bool_decide. Qed.

Lemma find_key_concat_none k ls : Forall (fun l => find_key k l = None) ls -> find_key k (concat ls) = None.
Proof. induction 1 as [|l ls Hl Hls IH]; [done|]. cbn [concat]. by rewrite find_key_app, Hl. Qed.

(** *** Lines *)

Definition is_sep (sep : string) : Prop := sep = EmptyString \/ sep = ","%string.

Lemma flat_jstr s : plain s -> flat (jstr s).
Proof. intros H. by constructor. Qed.
Lemma flat_jnum n : 0 <= n -> flat (jnum n).
Proof. intros H. constructor; [|done]. by apply plain_dec. Qed.
Lemma flat_jbool b : flat (jbool b).
Proof. constructor; [|done]. by destruct b; apply plain_bool. Qed.

Lemma flat_fld indent key v sep :
  forallb plain_char (bytes_of_string indent) = true -> key_okb (bytes_of_string key) = true -> flat v -> is_sep sep ->
  flat (fld indent key v sep).
Proof.
  intros Hi Hk Hv Hs. unfold fld. constructor; [by apply plain_bool|]. constructor; [by apply key_ok_bool|].
  constructor; [by apply plain_bool|]. apply Forall_app. split; [done|]. constructor; [|done].
  destruct Hs as [-> | ->]; by apply plain_bool.
Qed.

(** Strings, numbers and truth values. *)
Inductive is_value : list tok -> Prop :=
  | val_str s : no_char 34 s -> is_value (jstr s)
  | val_num n : 0 <= n -> is_value (jnum n)
  | val_bool b : is_value (jbool b).

Lemma wf_block_fld indent key v sep :
  forallb plain_char (bytes_of_string indent) = true -> key_okb (bytes_of_string key) = true -> is_value v -> is_sep sep ->
  wf_block (fld indent key v sep).
Proof.
  intros Hi Hk Hv Hs. unfold fld. apply wf_block_lit; [apply plain_no_char; [done|]; by apply plain_bool|].
  apply wf_block_key; [by apply key_ok_bool|done..|]. apply wf_block_lit; [by repeat constructor|].
  assert (Hend : wf_block [ln sep]).
  { apply wf_block_lit; [|apply wf_block_nil]. destruct Hs as [-> | ->]; by repeat constructor. }
  destruct Hv as [s Hq | n Hn | b]; cbn [jstr jnum jbool app].
  - destruct Hs as [-> | ->]; by apply wf_block_str.
  - apply wf_block_lit; [|done]. apply plain_no_char; [done|]. by apply plain_dec.
  - apply wf_block_lit; [|done]. destruct b; by repeat constructor.
Qed.
