(* ===== verification/ProxyUri.v ===== *)
(** * Proxy links ([src/src/proxy_manager.c], first part)

    Share links of proxy servers ([vless://], [trojan://], [vmess://], [ss://] and the wrapped
    [v2box://]) read into endpoints, and the servers of an uplink brought in line with its
    legacy fields.  A C buffer that receives text is its new contents; an endpoint that a
    failed parse leaves half filled is part of the result. *)

From S2P Require Import Prelude Fluxwan Ipv4 CLib Json.

(** ** Helpers *)

Definition isxdigit (c : Z) : bool := bool_decide (is_Some (hex_val c)).

(** The bytes written, at most [room] of them. *)
Fixpoint url_decode_loop (room : nat) (src : cstring) : list Z :=
  match room, src with
  | S room, c :: s =>
      match s with
      | a :: b :: s' =>
          if (c =? 37) && isxdigit a && isxdigit b
          then (16 * default 0 (hex_val a) + default 0 (hex_val b)) :: url_decode_loop room s'
          else (if c =? 43 then 32 else c) :: url_decode_loop room s
      | _ => (if c =? 43 then 32 else c) :: url_decode_loop room s
      end
  | _, _ => []
  end.
Definition url_decode (src : cstring) (max_len : Z) : cstring :=
  cstr (url_decode_loop (Z.to_nat (max_len - 1)) src).

Definition b64_char_val (c : Z) : Z :=
  if (65 <=? c) && (c <=? 90) then c - 65
  else if (97 <=? c) && (c <=? 122) then c - 97 + 26
  else if (48 <=? c) && (c <=? 57) then c - 48 + 52
  else if (c =? 43) || (c =? 45) then 62
  else if (c =? 47) || (c =? 95) then 63
  else -1.

Fixpoint base64_loop (s : cstring) (val valb : Z) : list Z :=
  match s with
  | [] => []
  | c :: s =>
      if (c =? 61) || isspace c then base64_loop s val valb
      else
        let d := b64_char_val c in
        if d <? 0 then base64_loop s val valb
        else
          let val := u32 (val .<< 6) .| d in
          let valb := valb + 6 in
          if 0 <=? valb then ((val .>> valb) .& 255) :: base64_loop s val (valb - 8)
          else base64_loop s val valb
  end.
(** The decoded bytes; the buffer holds [max_out - 1] of them. *)
Definition base64_decode (s : cstring) (max_out : Z) : list Z :=
  take (Z.to_nat (max_out - 1)) (base64_loop s 0 (-8)).

(** The value ends at the next [&], or else at the first [#]. *)
Definition param_value (v : cstring) : cstring :=
  match before 38 v with
  | Some x => x
  | None => match before 35 v with Some x => x | None => v end
  end.

(** Each turn goes past an [&]: the length is enough fuel. *)
Fixpoint param_loop (fuel : nat) (p key : cstring) (max_out : Z) : cstring :=
  match fuel, p with
  | S fuel, _ :: _ =>
      match strip_prefix (key ++ [61]) p with
      | Some v => url_decode (str_trunc 256 (param_value v)) max_out
      | None => match strchr p 38 with
                | Some (_ :: p) => param_loop fuel p key max_out
                | _ => []
                end
      end
  | _, _ => []
  end.
Definition extract_query_param (query key : cstring) (max_out : Z) : cstring :=
  let query := match query with 63 :: q => q | q => q end in
  param_loop (length query) query key max_out.

Definition json_space (c : Z) : bool := (c =? 32) || (c =? 9) || (c =? 13) || (c =? 10).
Fixpoint skip_json_space (s : cstring) : cstring :=
  match s with
  | c :: s' => if json_space c then skip_json_space s' else s
  | [] => []
  end.
Fixpoint until_value_end (s : cstring) : cstring :=
  match s with
  | [] => []
  | c :: s => if (c =? 44) || (c =? 125) || (c =? 10) then [] else c :: until_value_end s
  end.
Fixpoint drop_spaces (r : cstring) : cstring :=
  match r with
  | c :: r' => if isspace c then drop_spaces r' else r
  | [] => []
  end.
Definition trim_end (s : cstring) : cstring := rev (drop_spaces (rev s)).

Definition json_get_string (json key : cstring) (max_out : Z) : cstring :=
  let pattern := str_trunc 64 (quoted key) in
  match strstr json pattern with
  | None => []
  | Some pos =>
      match strchr (drop (length pattern) pos) 58 with
      | None => []
      | Some pos =>
          match skip_json_space pos with
          | 34 :: pos => match before 34 pos with
                         | Some body => str_trunc max_out body
                         | None => []
                         end
          | pos => trim_end (str_trunc max_out (until_value_end pos))
          end
      end
  end.

(** ** Endpoints *)

Definition ep_fresh (proto : proxy_proto_t) (proto_str uri : cstring) : proxy_endpoint_t :=
  ProxyEndpoint proto proto_str [] 0 [] [] [] [] (bytes_of_string "ws") (bytes_of_string "tls") (bytes_of_string "none")
    uri false 0 0 0.

(** [vless] and [trojan]: [scheme://user@server:port?query].  [p] is what follows the scheme. *)
Definition parse_at_uri (vless : bool) (ep : proxy_endpoint_t) (p uri : cstring) : proxy_endpoint_t * Z :=
  match split_at 64 p with
  | None => (ep, -1)
  | Some (user, p) =>
      let uuid := str_trunc 64 user in
      match split_at 58 p with
      | None => (ProxyEndpoint (ep_proto ep) (ep_proto_str ep) [] 0 uuid [] [] [] (ep_transport ep) (ep_security ep)
                   (ep_encryption ep) (ep_raw_uri ep) false 0 0 0, -1)
      | Some (server, port) =>
          let server := str_trunc 128 server in
          let port := u16 (atoi32 port) in
          let '(encryption, sni, host, path, transport, security) :=
            match strchr p 63 with
            | Some query =>
                (if vless then extract_query_param query "encryption" 256 else ep_encryption ep,
                 extract_query_param query "sni" 128, extract_query_param query "host" 128,
                 extract_query_param query "path" 128, extract_query_param query "type" 16,
                 extract_query_param query "security" 16)
            | None => (ep_encryption ep, [], [], [], ep_transport ep, ep_security ep)
            end in
          let encryption := if vless && bool_decide (encryption = []) then bytes_of_string "none" else encryption in
          let host := if negb (bool_decide (sni = [])) && bool_decide (host = []) then sni else host in
          let sni := if negb (bool_decide (host = [])) && bool_decide (sni = []) then host else sni in
          let security := if (port =? 80) && negb (strcase_eq security "tls") then bytes_of_string "none" else security in
          (ProxyEndpoint (ep_proto ep) (ep_proto_str ep) server port uuid sni host path transport security encryption
             uri false 0 0 0, 0)
      end
  end.

Definition parse_vmess (ep : proxy_endpoint_t) (p : cstring) : proxy_endpoint_t * Z :=
  let json := cstr (base64_decode p 2048) in
  let sni := json_get_string json "sni" 128 in
  let host := json_get_string json "host" 128 in
  let host := if negb (bool_decide (sni = [])) && bool_decide (host = []) then sni else host in
  (ProxyEndpoint (ep_proto ep) (ep_proto_str ep) (json_get_string json "add" 128)
     (u16 (atoi32 (json_get_string json "port" 16))) (json_get_string json "id" 64) sni host
     (json_get_string json "path" 128) (json_get_string json "net" 16) (json_get_string json "tls" 16)
     (ep_encryption ep) (ep_raw_uri ep) false 0 0 0, 0).

Definition parse_ss (ep : proxy_endpoint_t) (p : cstring) : proxy_endpoint_t * Z :=
  match split_at 64 p with
  | None => (ep, -1)
  | Some (user, p) =>
      let with_server server port :=
        ProxyEndpoint (ep_proto ep) (ep_proto_str ep) server port (str_trunc 64 (str_trunc 256 user)) [] [] []
          (ep_transport ep) (ep_security ep) (ep_encryption ep) (ep_raw_uri ep) false 0 0 0 in
      match split_at 58 p with
      | None => (with_server [] 0, -1)
      | Some (server, port) => (with_server (str_trunc 128 server) (u16 (atoi32 port)), 0)
      end
  end.

(** A wrapped link is decoded and read in turn.  The decoded text is shorter than the link, so
    the length of the link is enough fuel; without fuel the endpoint is that of no link. *)
Fixpoint parse_endpoint_fuel (fuel : nat) (uri : cstring) : proxy_endpoint_t * Z :=
  let uri := str_trunc 2048 uri in
  let none := ep_fresh PROXY_PROTO_NONE [] uri in
  match fuel with
  | O => (none, -1)
  | S fuel =>
      match strip_prefix "v2box://" uri with
      | Some p =>
          let b64_str := default p (strip_prefix "v2box://locked=" uri) in
          let decoded := base64_decode b64_str 2048 in
          if 0 <? blen decoded then
            let '(ep, res) := parse_endpoint_fuel fuel (cstr decoded) in
            if res =? 0 then (set_ep_raw_uri uri ep, res) else (ep, res)
          else (none, -1)
      | None =>
          match strip_prefix "vless://" uri with
          | Some p => parse_at_uri true (ep_fresh PROXY_PROTO_VLESS "vless" uri) p uri
          | None =>
              match strip_prefix "trojan://" uri with
              | Some p => parse_at_uri false (ep_fresh PROXY_PROTO_TROJAN "trojan" uri) p uri
              | None =>
                  match strip_prefix "vmess://" uri with
                  | Some p => parse_vmess (ep_fresh PROXY_PROTO_VMESS "vmess" uri) p
                  | None =>
                      match strip_prefix "ss://" uri with
                      | Some p => parse_ss (ep_fresh PROXY_PROTO_SHADOWSOCKS "shadowsocks" uri) p
                      | None => (none, -1)
                      end
                  end
              end
          end
      end
  end.
Definition proxy_manager_parse_endpoint (uri : cstring) : proxy_endpoint_t * Z :=
  parse_endpoint_fuel (S (length uri)) uri.

(** ** The servers of an uplink *)

Definition ep_at (p : wan_proxy_config_t) (i : nat) : proxy_endpoint_t := default zero_endpoint (px_servers p !! i).
Definition empty (s : cstring) : bool := bool_decide (s = []).

(** The first server takes the link and then the fields of the uplink when it has none. *)
Definition adopt_legacy (p : wan_proxy_config_t) (s0 : proxy_endpoint_t) : proxy_endpoint_t :=
  let s0 := if empty (ep_raw_uri s0) && negb (empty (px_raw_uri p))
            then set_ep_raw_uri (safe_str_copy (px_raw_uri p) 2048) s0 else s0 in
  if empty (ep_server s0) && negb (empty (px_server p)) then
    ProxyEndpoint (px_proto p) (px_proto_str p) (px_server p) (px_port p) (px_uuid p) (px_sni p) (px_host p) (px_path p)
      (px_transport p) (px_security p) (px_encryption p) (px_raw_uri p) (ep_is_connected s0) (ep_latency_ms s0)
      (ep_weight s0) (ep_active_flows s0)
  else s0.

Definition sync_server (s : proxy_endpoint_t) : proxy_endpoint_t :=
  let s := if negb (empty (ep_raw_uri s)) && empty (ep_server s)
           then (proxy_manager_parse_endpoint (ep_raw_uri s)).1 else s in
  if negb (empty (ep_server s)) && (ep_weight s =? 0) then set_ep_weight 100 s else s.

Definition proxy_manager_sync_servers (p : wan_proxy_config_t) : wan_proxy_config_t :=
  let servers := sync_server <$> (alter (adopt_legacy p) 0%nat (px_servers p)) in
  let count := Z.of_nat (length (filter (fun s => ep_server s <> []) servers)) in
  let server_count := if 0 <? count then count else if empty (px_server p) then 0 else 1 in
  let s0 := default zero_endpoint (servers !! 0%nat) in
  if (0 <? count) && negb (empty (ep_server s0)) then
    WanProxyConfig (px_enabled p) (px_strategy p) servers server_count (ep_proto s0) (ep_proto_str s0) (ep_server s0)
      (ep_port s0) (ep_uuid s0) (ep_sni s0) (ep_host s0) (ep_path s0) (ep_transport s0) (ep_security s0)
      (ep_encryption s0) (ep_raw_uri s0) (px_tun_dev p) (px_bind_interface p) (px_tun_ip p) (px_pid p)
      (px_is_connected p) (px_latency_ms p)
  else
    WanProxyConfig (px_enabled p) (px_strategy p) servers server_count (px_proto p) (px_proto_str p) (px_server p)
      (px_port p) (px_uuid p) (px_sni p) (px_host p) (px_path p) (px_transport p) (px_security p)
      (px_encryption p) (px_raw_uri p) (px_tun_dev p) (px_bind_interface p) (px_tun_ip p) (px_pid p)
      (px_is_connected p) (px_latency_ms p).

Definition proxy_manager_parse_uri (uri : cstring) : wan_proxy_config_t * Z :=
  let '(ep, rc) := proxy_manager_parse_endpoint uri in
  let z := zero_proxy in
  let p count :=
    WanProxyConfig true (px_strategy z) [ep; zero_endpoint; zero_endpoint] count (px_proto z) [] [] 0 [] [] [] [] [] [] []
      (safe_str_copy uri 2048) [] [] 0 0 false 0 in
  if rc =? 0 then (proxy_manager_sync_servers (p 1), rc) else (p 0, rc).

(** ** Properties *)

(** *** Decoding makes texts shorter *)

Lemma base64_loop_length s val valb :
  -8 <= valb < 0 -> 8 * Z.of_nat (length (base64_loop s val valb)) <= 6 * Z.of_nat (length s) + valb + 8.
Proof.
  revert val valb. induction s as [|c s IH]; intros val valb Hv; [cbn; lia|]. cbn [base64_loop length].
  destruct (_ || _); [specialize (IH val valb Hv); lia|].
  destruct (_ <? 0); [specialize (IH val valb Hv); lia|].
  destruct (Z.leb_spec 0 (valb + 6)).
  - cbn [length]. specialize (IH (u32 (val .<< 6) .| b64_char_val c) (valb + 6 - 8) ltac:(lia)). lia.
  - specialize (IH (u32 (val .<< 6) .| b64_char_val c) (valb + 6) ltac:(lia)). lia.
Qed.

Lemma cstr_length s : (length (cstr s) <= length s)%nat.
Proof. induction s as [|c s IH]; cbn; [lia|]. destruct (c =? 0); cbn; lia. Qed.

Lemma strip_prefix_inv p s r : strip_prefix p s = Some r -> s = p ++ r.
Proof.
  revert s. induction p as [|c p IH]; intros s; cbn; [congruence|].
  destruct s as [|x s]; [done|]. destruct (Z.eqb_spec c x) as [-> | Hne]; [|done]. intros H%IH. by rewrite H.
Qed.

Lemma decoded_shorter uri p b :
  strip_prefix "v2box://" uri = Some p -> strip_prefix "v2box://locked=" uri = Some b \/ b = p ->
  (length (cstr (base64_decode b 2048)) < length uri)%nat.
Proof.
  intros Hp Hb. pose proof (cstr_length (base64_decode b 2048)) as Hc. unfold base64_decode in *. rewrite length_take in Hc.
  pose proof (base64_loop_length b 0 (-8) ltac:(lia)) as Hl.
  apply strip_prefix_inv in Hp. assert (Hlen : (length b <= length p)%nat /\ (length p < length uri)%nat); [|lia].
  split; [|rewrite Hp, length_app; cbn [length bytes_of_string]; lia].
  destruct Hb as [Hb | ->]; [|lia]. apply strip_prefix_inv in Hb. rewrite Hp in Hb.
  apply (f_equal length) in Hb. rewrite !length_app in Hb. cbn [length bytes_of_string] in Hb. lia.
Qed.

(** More fuel than the length of the link changes nothing. *)
Lemma parse_fuel fuel1 fuel2 uri :
  (length uri < fuel1)%nat -> (length uri < fuel2)%nat ->
  parse_endpoint_fuel fuel1 uri = parse_endpoint_fuel fuel2 uri.
Proof.
  revert fuel2 uri. induction fuel1 as [|fuel1 IH]; intros fuel2 uri H1 H2; [lia|]. destruct fuel2 as [|fuel2]; [lia|].
  cbn [parse_endpoint_fuel]. destruct (strip_prefix "v2box://" (str_trunc 2048 uri)) as [p|] eqn:Ep; [|done].
  set (b := default p (strip_prefix "v2box://locked=" (str_trunc 2048 uri))).
  assert (Hb : strip_prefix "v2box://locked=" (str_trunc 2048 uri) = Some b \/ b = p)
    by (unfold b; destruct (strip_prefix "v2box://locked=" _); [by left|by right]).
  pose proof (decoded_shorter _ _ _ Ep Hb) as Hs. unfold str_trunc in Hs. rewrite length_take in Hs.
  rewrite (IH fuel2) by lia. done.
Qed.

(** *** VMess *)

Lemma drop_spaces_snoc r c : isspace c = false -> exists t, drop_spaces (r ++ [c]) = t ++ [c].
Proof.
  intros Hc. induction r as [|x r [t IH]]; cbn [app drop_spaces]; [rewrite Hc; by exists []|].
  destruct (isspace x); [by exists t|by exists (x :: r)].
Qed.

Lemma trim_end_head c s : isspace c = false -> exists t, trim_end (c :: s) = c :: t.
Proof.
  intros Hc. unfold trim_end. cbn [rev]. destruct (drop_spaces_snoc (rev s) c Hc) as [t ->].
  rewrite rev_app_distr. cbn. eauto.
Qed.

(** The reader of a value starts at the colon before it. *)
Lemma json_get_string_colon json key n :
  2 <= n -> json_get_string json key n = [] \/ exists t, json_get_string json key n = 58 :: t.
Proof.
  intros Hn. unfold json_get_string. destruct (strstr json _) as [pos|]; [|by left].
  destruct (strchr (drop _ pos) 58) as [p|] eqn:Ep; [|by left].
  assert (Hp : exists r, p = 58 :: r).
  { revert Ep. generalize (drop (length (str_trunc 64 (quoted key))) pos). intros s. induction s as [|x s IH]; cbn [strchr]; [done|].
    destruct (Z.eqb_spec x 58) as [-> | Hne]; [intros [= <-]; by exists s|exact IH]. }
  destruct Hp as [r ->]. right. change (skip_json_space (58 :: r)) with (58 :: r). cbv iota.
  change (until_value_end (58 :: r)) with (58 :: until_value_end r). unfold str_trunc.
  replace (Z.to_nat (n - 1)) with (S (Z.to_nat (n - 2))) by lia. cbn [take]. by apply trim_end_head.
Qed.

(** No VMess link can be used.  The reader of the JSON object in the link begins at the colon after
    a key and so never sees the quote of the value: the server that it finds starts with a colon, and
    the port is zero, whatever the link says.  The parse reports success. *)
Theorem vmess_never_usable uri p
    (Hlen : (length uri <= 2047)%nat) (Hp : strip_prefix "vmess://" uri = Some p) :
  let '(ep, rc) := proxy_manager_parse_endpoint uri in
  rc = 0 /\ ep_proto ep = PROXY_PROTO_VMESS /\ ep_port ep = 0
  /\ (ep_server ep = [] \/ exists t, ep_server ep = 58 :: t).
Proof.
  unfold proxy_manager_parse_endpoint. cbn [parse_endpoint_fuel].
  assert (Ht : str_trunc 2048 uri = uri) by (apply take_ge; lia). rewrite Ht.
  apply strip_prefix_inv in Hp as ->.
  change (strip_prefix "v2box://" (bytes_of_string "vmess://" ++ p)) with (@None cstring). cbv iota.
  change (strip_prefix "vless://" (bytes_of_string "vmess://" ++ p)) with (@None cstring). cbv iota.
  change (strip_prefix "trojan://" (bytes_of_string "vmess://" ++ p)) with (@None cstring). cbv iota.
  rewrite strip_prefix_app. unfold parse_vmess. cbn [ep_proto ep_port ep_server ep_fresh].
  split; [done|]. split; [done|]. split; [|by apply json_get_string_colon].
  destruct (json_get_string_colon (cstr (base64_decode p 2048)) "port" 16 ltac:(lia)) as [-> | [t ->]]; done.
Qed.

(** *** Links of VLESS and Trojan *)

(** The parameters of a query, as they are written. *)
Definition params_text (ps : list (cstring * cstring)) : cstring :=
  match ps with
  | [] => []
  | (k, v) :: ps => k ++ 61 :: v ++ concat ((fun '(k, v) => 38 :: k ++ 61 :: v) <$> ps)
  end.

(** Percent encoding of every byte. *)
Definition percent (s : cstring) : cstring := concat ((fun c => 37 :: hex2 c) <$> s).

Definition text_ok (s : cstring) : Prop := Forall (fun c => 0 < c < 256) s.

Lemma hex_val_digit v : 0 <= v < 16 -> hex_val (hex_digit v) = Some v.
Proof.
  intros Hv. assert (H : forallb (fun i => bool_decide (hex_val (hex_digit i) = Some i)) (seqZ 0 16) = true) by reflexivity.
  apply forallb_forall with (x := v) in H; [by apply bool_decide_eq_true in H|].
  apply list_elem_of_In, elem_of_seqZ. lia.
Qed.

Lemma url_decode_percent s room :
  text_ok s -> (length s <= room)%nat -> url_decode_loop room (percent s) = s.
Proof.
  intros Hs. revert room. induction Hs as [|c s Hc Hs IH]; intros room Hr; [by destruct room|].
  destruct room as [|room]; [cbn in Hr; lia|]. unfold percent. cbn [fmap list_fmap concat hex2 app url_decode_loop].
  fold (percent s). unfold isxdigit. rewrite !hex_val_digit by lia. change (37 =? 37) with true.
  rewrite !bool_decide_true by done. cbn [andb default]. rewrite IH by (cbn in Hr; lia). f_equal. cbn. lia.
Qed.

Lemma hex_digit_range v : 0 <= v < 16 -> 48 <= hex_digit v <= 70.
Proof. intros Hv. unfold hex_digit. destruct (Z.ltb_spec v 10); lia. Qed.

Lemma percent_chars s : text_ok s -> Forall (fun c => c = 37 \/ 48 <= c <= 70) (percent s).
Proof.
  induction 1 as [|c s Hc Hs IH]; [constructor|]. unfold percent. cbn [fmap list_fmap concat app hex2].
  constructor; [by left|]. constructor; [right; apply hex_digit_range; lia|].
  constructor; [right; apply hex_digit_range; lia|exact IH].
Qed.

Lemma percent_no_char c s : text_ok s -> c <> 37 -> ~ 48 <= c <= 70 -> Forall (fun x => x <> c) (percent s).
Proof. intros Hs H1 H2. eapply Forall_impl; [by apply percent_chars|]. intros x [Hx | Hx] Hc; lia. Qed.

Lemma percent_length s : length (percent s) = (3 * length s)%nat.
Proof. induction s as [|c s IH]; [done|]. unfold percent in *. cbn [fmap list_fmap concat app length hex2]. rewrite IH. lia. Qed.

Definition link_params (ps : list (cstring * cstring)) : cstring := params_text ((fun '(k, v) => (k, percent v)) <$> ps).

Definition param_ok (kv : cstring * cstring) : Prop :=
  Forall (fun c => c <> 61 /\ c <> 38 /\ c <> 63) kv.1 /\ kv.1 <> [] /\ text_ok kv.2 /\ (length kv.2 <= 85)%nat.

Fixpoint param_lookup (key : cstring) (ps : list (cstring * cstring)) : cstring :=
  match ps with
  | [] => []
  | (k, v) :: ps => if bool_decide (k = key) then v else param_lookup key ps
  end.

Lemma strip_prefix_key k key r :
  Forall (fun c => c <> 61) k -> Forall (fun c => c <> 61) key ->
  strip_prefix (key ++ [61]) (k ++ 61 :: r) = if bool_decide (k = key) then Some r else None.
Proof.
  intros Hk. revert k Hk. induction key as [|c key IH]; intros k Hk Hkey.
  - destruct k as [|x k]; [done|]. apply Forall_cons in Hk as [Hx _]. rewrite bool_decide_false by done.
    cbn [app strip_prefix]. by rewrite (proj2 (Z.eqb_neq 61 x)) by congruence.
  - apply Forall_cons in Hkey as [Hc Hkey]. destruct k as [|x k]; cbn [app strip_prefix].
    + rewrite (proj2 (Z.eqb_neq c 61)) by done. by rewrite bool_decide_false.
    + apply Forall_cons in Hk as [Hx Hk]. destruct (Z.eqb_spec c x) as [-> | Hne].
      * rewrite IH by done. by destruct (decide (k = key)) as [-> | Hn];
          [rewrite !bool_decide_true|rewrite !bool_decide_false by congruence].
      * by rewrite bool_decide_false by congruence.
Qed.

(** The rest of the query after the first parameter. *)
Definition more_params (ps : list (cstring * cstring)) : cstring :=
  concat ((fun '(k, v) => 38 :: k ++ 61 :: percent v) <$> ps).

Lemma more_params_cons k v ps : more_params ((k, v) :: ps) = 38 :: k ++ 61 :: percent v ++ more_params ps.
Proof. unfold more_params. cbn [fmap list_fmap concat app]. by rewrite <- app_assoc. Qed.

Lemma link_params_cons k v ps : link_params ((k, v) :: ps) = k ++ 61 :: percent v ++ more_params ps.
Proof.
  unfold link_params, more_params. cbn [fmap list_fmap params_text]. do 4 f_equal. rewrite <- list_fmap_compose.
  apply list_fmap_ext. by intros i [k' v'] _.
Qed.

Lemma before_app_none c x y : Forall (fun a => a <> c) x -> before c (x ++ y) = app x <$> before c y.
Proof.
  induction 1 as [|a x Ha Hx IH]; cbn [app before]; [by destruct (before c y)|].
  rewrite (proj2 (Z.eqb_neq a c)), IH by done. by destruct (before c y).
Qed.

Lemma param_value_percent v ps : text_ok v -> param_value (percent v ++ more_params ps) = percent v.
Proof.
  intros Hv. unfold param_value.
  rewrite before_app_none by (apply percent_no_char; [done|lia..]).
  destruct ps as [|[k' v'] ps].
  - cbn. rewrite app_nil_r. rewrite <- (app_nil_r (percent v)) at 1.
    by rewrite before_app_none by (apply percent_no_char; [done|lia..]).
  - rewrite more_params_cons. cbn [before]. change (38 =? 38) with true. cbn. by rewrite app_nil_r.
Qed.

Lemma strchr_skip_amp x y : Forall (fun a => a <> 38) x -> strchr (x ++ y) 38 = strchr y 38.
Proof. induction 1 as [|a x Ha Hx IH]; [done|]. cbn [app strchr]. by rewrite (proj2 (Z.eqb_neq a 38)). Qed.

Lemma cstr_text s : text_ok s -> cstr s = s.
Proof. intros H. apply cstr_no_nul. eapply Forall_impl; [exact H|]. cbn. lia. Qed.

Lemma param_loop_spec ps key n : forall fuel,
  Forall param_ok ps -> Forall (fun c => c <> 61) key ->
  (length (param_lookup key ps) <= Z.to_nat (n - 1))%nat -> (length ps <= fuel)%nat ->
  param_loop fuel (link_params ps) key n = param_lookup key ps.
Proof.
  induction ps as [|[k v] ps IH]; intros fuel Hps Hkey Hn Hf; [by destruct fuel|].
  apply Forall_cons in Hps as [(Hk & Hne & Hv & Hlen) Hps]. cbn [fst snd] in *.
  destruct fuel as [|fuel]; [cbn in Hf; lia|]. rewrite link_params_cons.
  assert (Hcons : exists c t, k ++ 61 :: percent v ++ more_params ps = c :: t).
  { destruct k as [|c k]; [done|]. eexists _, _. reflexivity. }
  destruct Hcons as (c & t & E). cbn [param_loop]. rewrite E. rewrite <- E.
  rewrite strip_prefix_key; [|eapply Forall_impl; [exact Hk|]; cbn; tauto|done].
  cbn [param_lookup] in Hn |- *. case_bool_decide as Heq.
  - rewrite param_value_percent by done. unfold url_decode, str_trunc.
    rewrite (take_ge (percent v)) by (rewrite percent_length; lia).
    rewrite url_decode_percent by (done || lia). by apply cstr_text.
  - rewrite strchr_skip_amp by (eapply Forall_impl; [exact Hk|]; cbn; tauto).
    cbn [strchr]. change (61 =? 38) with false. cbv iota.
    rewrite strchr_skip_amp by (apply percent_no_char; [done|lia..]).
    destruct ps as [|[k' v'] ps]; [done|]. rewrite more_params_cons. cbn [strchr]. change (38 =? 38) with true. cbv iota.
    rewrite <- link_params_cons. apply IH; [done..|cbn in Hf |- *; lia].
Qed.

Lemma link_params_length ps : Forall param_ok ps -> (length ps <= length (link_params ps))%nat.
Proof.
  destruct ps as [|[k v] ps]; [done|]. intros Hps. apply Forall_cons in Hps as [(_ & Hne & _) _]. cbn [fst] in Hne.
  rewrite link_params_cons. rewrite length_app. cbn [length]. rewrite length_app.
  assert (Hm : (length ps <= length (more_params ps))%nat).
  { induction ps as [|[k' v'] ps IH]; [done|]. rewrite more_params_cons. cbn [length]. rewrite length_app. cbn [length].
    rewrite length_app. lia. }
  destruct k; [done|]. cbn [length]. lia.
Qed.

Lemma extract_param_spec ps key n :
  Forall param_ok ps -> Forall (fun c => c <> 61) key -> (length (param_lookup key ps) <= Z.to_nat (n - 1))%nat ->
  extract_query_param (63 :: link_params ps) key n = param_lookup key ps.
Proof.
  intros Hps Hk Hn. unfold extract_query_param. apply param_loop_spec; [done..|]. by apply link_params_length.
Qed.

Lemma split_at_first c x y : Forall (fun a => a <> c) x -> split_at c (x ++ c :: y) = Some (x, y).
Proof. apply split_at_app. Qed.

Lemma atoi32_port port r : is_u16 port -> match r with c :: _ => isdigit c = false | [] => True end -> u16 (atoi32 (dec port ++ r)) = port.
Proof.
  intros Hp Hr. unfold is_u16 in Hp. destruct (dec_head port r ltac:(lia)) as (c & t & E & Hc).
  assert (Hv : scan_digits (c :: t) 0 = port).
  { rewrite <- E. unfold dec. rewrite dec_digits_app. rewrite scan_dec_digits by lia. cbn [app].
    destruct r as [|x r]; [done|]. cbn. by rewrite Hr. }
  assert (Ha : atoi (dec port ++ r) = port).
  { unfold atoi. rewrite E. unfold isdigit in Hc. apply andb_true_iff in Hc as [H1%Z.leb_le H2%Z.leb_le]. cbn [skip_spaces].
    replace (isspace c) with false.
    2:{ unfold isspace. rewrite (proj2 (Z.eqb_neq c 32)) by lia. rewrite (proj2 (Z.leb_gt c 13)) by lia. by rewrite andb_false_r. }
    destruct c as [|q|q]; try done. do 6 (destruct q as [q|q|]; try done). }
  unfold atoi32. rewrite Ha. unfold clamp_long. rewrite Z.min_r, Z.max_r by lia. unfold i32, u16. lia.
Qed.

(** A link with a user, a server, a port and parameters. *)
Definition at_link (vless : bool) (user server : cstring) (port : Z) (ps : list (cstring * cstring)) : cstring :=
  (if vless then bytes_of_string "vless://" else bytes_of_string "trojan://")
  ++ user ++ 64 :: server ++ 58 :: dec port ++ 63 :: link_params ps.

Definition or_else_text (a b : cstring) : cstring := if empty a then b else a.

Lemma strchr_skip_query x y : Forall (fun a => a <> 63) x -> strchr (x ++ y) 63 = strchr y 63.
Proof. induction 1 as [|a x Ha Hx IH]; [done|]. cbn [app strchr]. by rewrite (proj2 (Z.eqb_neq a 63)). Qed.

Lemma dec_no_query n : 0 <= n -> Forall (fun a => a <> 63) (dec n).
Proof.
  intros Hn. pose proof (dec_digits_ok 20 n [] Hn ltac:(constructor)) as H. eapply Forall_impl; [exact H|].
  intros c Hc ->. discriminate.
Qed.

Lemma param_lookup_short key ps : Forall param_ok ps -> (length (param_lookup key ps) <= 85)%nat.
Proof.
  induction 1 as [|[k v] ps (_ & _ & _ & Hl) Hps IH]; cbn [param_lookup length]; [lia|]. case_bool_decide; [exact Hl|exact IH].
Qed.

Lemma parse_at_link vless user server port ps uri ep :
  Forall (fun c => c <> 64) user -> (length user <= 63)%nat ->
  Forall (fun c => c <> 58 /\ c <> 63) server -> (length server <= 127)%nat -> is_u16 port -> Forall param_ok ps ->
  (length (param_lookup "type" ps) <= 15)%nat -> (length (param_lookup "security" ps) <= 15)%nat ->
  ep_encryption ep = "none" ->
  let sni := param_lookup "sni" ps in
  let host := param_lookup "host" ps in
  let security := param_lookup "security" ps in
  parse_at_uri vless ep (user ++ 64 :: server ++ 58 :: dec port ++ 63 :: link_params ps) uri
  = (ProxyEndpoint (ep_proto ep) (ep_proto_str ep) server port user (or_else_text sni host) (or_else_text host sni)
       (param_lookup "path" ps) (param_lookup "type" ps)
       (if (port =? 80) && negb (strcase_eq security "tls") then bytes_of_string "none" else security)
       (if vless then or_else_text (param_lookup "encryption" ps) (bytes_of_string "none") else bytes_of_string "none")
       uri false 0 0 0, 0).
Proof.
  intros Huser Hul Hserver Hsl Hport Hps Htr Hsec Henc sni host security.
  assert (Hx : forall key n, Forall (fun c => c <> 61) key -> (length (param_lookup key ps) <= Z.to_nat (n - 1))%nat ->
    extract_query_param (63 :: link_params ps) key n = param_lookup key ps) by (intros; by apply extract_param_spec).
  pose proof (fun key => param_lookup_short key ps Hps) as Hv.
  assert (Hs1 : Forall (fun c => c <> 58) server /\ Forall (fun c => c <> 63) server).
  { split; (eapply Forall_impl; [exact Hserver|]; cbn; tauto). }
  unfold parse_at_uri. rewrite split_at_first by done. rewrite split_at_first by apply Hs1.
  rewrite strchr_skip_query by apply Hs1. change (strchr (58 :: ?x) 63) with (strchr x 63).
  rewrite strchr_skip_query by (apply dec_no_query; unfold is_u16 in Hport; lia).
  change (strchr (63 :: ?x) 63) with (Some (63 :: x)). cbv iota.
  rewrite atoi32_port by done. unfold str_trunc. rewrite (take_ge user), (take_ge server) by lia.
  rewrite (Hx "encryption" 256), (Hx "sni" 128), (Hx "host" 128), (Hx "path" 128), (Hx "type" 16), (Hx "security" 16)
    by first [lia | eapply Nat.le_trans; [apply Hv|lia] | repeat (constructor; [by_eval|]); constructor].
  fold sni host security. unfold or_else_text, empty. rewrite Henc. clearbody sni host. f_equal. f_equal.
  - by destruct sni, host.
  - by destruct sni, host.
  - by destruct vless.
Qed.


(** ** Concrete links *)

Module UriDemo.


(** The object of a VMess link: [{"add":"h","port":"443"}]. *)
Definition vmess_demo : cstring := "vmess://eyJhZGQiOiJoIiwicG9ydCI6IjQ0MyJ9".

Lemma vmess_never_usable_witness :
  ep_port (proxy_manager_parse_endpoint vmess_demo).1 = 0
  /\ ep_server (proxy_manager_parse_endpoint vmess_demo).1 = [58; 34; 104; 34].
Proof.
  pose proof (vmess_never_usable vmess_demo (drop 8 vmess_demo) ltac:(apply Nat.leb_le; reflexivity) ltac:(reflexivity)) as H.
  destruct (proxy_manager_parse_endpoint vmess_demo) as [ep rc] eqn:E. destruct H as (_ & _ & Hp & _).
  split; [exact Hp|]. vm_compute in E. injection E as <- _. reflexivity.
Defined.

End UriDemo.
