(* ===== verification/System.v ===== *)
(** * The operating system

    The managers that drive processes, interfaces and files do so through the C library.  What they
    do to the system is a trace of calls; what the system answers is a function of the calls so
    far, so that it may be anything that does not foresee the future. *)

From S2P Require Import Prelude Fluxwan Ipv4 CLib Json.

(** ** Formatted text *)

Inductive fmt_arg :=
  | FS (s : cstring)
  | FN (n : Z).

Fixpoint hex_text_loop (fuel : nat) (n : Z) (acc : cstring) : cstring :=
  match fuel with
  | O => acc
  | S fuel =>
      let acc := hex_digit_lower (n mod 16) :: acc in
      if n / 16 =? 0 then acc else hex_text_loop fuel (n / 16) acc
  end.
Definition hex_text (n : Z) : cstring := hex_text_loop 16 n [].

(** The conversion of one argument: [%s], [%u], [%d] and [%x]. *)
Definition convert (c : Z) (a : fmt_arg) : cstring :=
  match a with
  | FS s => s
  | FN n => if c =? 120 then hex_text n else if n <? 0 then 45 :: dec (- n) else dec n
  end.

(** [sprintf]: a conversion takes the next argument, [%%] is a percent sign. *)
Fixpoint sprintf (fmt : cstring) (args : list fmt_arg) : cstring :=
  match fmt with
  | [] => []
  | 37 :: c :: fmt =>
      if c =? 37 then 37 :: sprintf fmt args
      else match args with
           | a :: args => convert c a ++ sprintf fmt args
           | [] => sprintf fmt []
           end
  | c :: fmt => c :: sprintf fmt args
  end.
Definition snprintf (n : Z) (fmt : cstring) (args : list fmt_arg) : cstring := str_trunc n (sprintf fmt args).

(** Text with the double quotes that it has in the source, written as backquotes here, and text of
    several lines. *)
Definition dq (s : string) : cstring := (fun c => if c =? 96 then 34 else c) <$> bytes_of_string s.
Definition lines (l : list cstring) : cstring := concat ((fun s => s ++ [10]) <$> l).

(** The lines that [fgets] with a buffer of [n] bytes reads; each takes at least one byte. *)
Fixpoint fgets_loop (fuel : nat) (n : Z) (f : list Z) : list cstring :=
  match fuel with
  | O => []
  | S fuel =>
      match fgets n f with
      | None => []
      | Some (line, rest) => cstr line :: fgets_loop fuel n rest
      end
  end.
Definition fgets_lines (n : Z) (f : list Z) : list cstring := fgets_loop (length f) n f.

(** [scanf("%<n>s")]: a word of at most [n] characters. *)
Fixpoint take_word (n : nat) (s : cstring) : cstring :=
  match n, s with
  | S n, c :: s => if isspace c then [] else c :: take_word n s
  | _, _ => []
  end.
Definition scan_word (n : nat) (s : cstring) : option cstring :=
  match take_word n (skip_spaces s) with [] => None | w => Some w end.

(** Text without the line breaks at its end. *)
Fixpoint drop_eol (s : cstring) : cstring :=
  match s with
  | c :: s' => if (c =? 13) || (c =? 10) then drop_eol s' else s
  | [] => []
  end.
Definition strip_eol (s : cstring) : cstring := reverse (drop_eol (reverse s)).

(** [fscanf("%d")]. *)
Definition scan_int (s : cstring) : option Z :=
  let digits t := match t with c :: _ => isdigit c | [] => false end in
  match skip_spaces s with
  | 45 :: t | 43 :: t => if digits t then Some (atoi32 s) else None
  | t => if digits t then Some (atoi32 s) else None
  end.

(** ** Calls and answers *)

Inductive call :=
  | System (cmd : cstring)
  | Kill (pid sig : Z)
  | WriteFile (path : cstring) (content : list Z)
  | Unlink (path : cstring)
  | Mkdir (path : cstring)
  | Usleep (us : Z)
  | Connect (dev : cstring) (ip port : Z)
  | WriteProc (path value : cstring)
  | NetlinkSend (message : list Z)
  | SetIfFlags (dev : cstring) (flags : Z)
  | Chmod (path : cstring) (mode : Z)
  | AppendFile (path : cstring) (content : list Z)
  | Exec (argv : list cstring).
Abbreviation trace := (list call).

Definition SIGKILL : Z := 9.
Definition SIGTERM : Z := 15.

(** What the system answers after a trace of calls. *)
Record os := Os {
  os_read : trace -> cstring -> option (list Z);         (** the content of a file that can be opened *)
  os_create : trace -> cstring -> bool;                  (** the file can be opened for writing *)
  os_executable : trace -> cstring -> bool;              (** [access(path, X_OK) == 0] *)
  os_ifindex : trace -> cstring -> Z;                    (** [if_nametoindex] *)
  os_alive : trace -> Z -> bool;                         (** [kill(pid, 0) == 0] *)
  os_host : trace -> cstring -> option Z;                (** [gethostbyname], the first address *)
  os_clock : trace -> Z * Z;                             (** [CLOCK_MONOTONIC], seconds and nanoseconds *)
  os_time : trace -> Z;                                  (** [time(NULL)] *)
  os_popen : trace -> cstring -> option cstring;         (** what a command prints, when it can be run *)
  os_dir : trace -> cstring -> list cstring;             (** the names in a directory, in the order of [readdir] *)
  os_socket : trace -> bool;
  os_connect : trace -> cstring -> Z -> Z -> bool;       (** a connection from a device is established in time *)
  os_proc : trace -> cstring -> option bool;             (** the file opens for writing, and the whole value is written *)
  os_addrs : trace -> cstring -> list Z;                 (** [getaddrinfo], the IPv4 addresses *)
  os_ifname : trace -> Z -> option cstring;              (** [if_indextoname] *)
  os_ifflags : trace -> cstring -> option Z;             (** [SIOCGIFFLAGS] *)
  os_sent : trace -> bool;                               (** [send] takes the message *)
  os_status : trace -> cstring -> Z;                     (** what [system] returns for a command *)
  os_exists : trace -> cstring -> bool;                  (** [access(path, F_OK) == 0] *)
  os_fork : trace -> Z;                                  (** the process number that [fork] returns to the parent *)
  os_exited : trace -> Z -> bool                         (** [waitpid] with [WNOHANG]: the child has ended, or is gone *)
}.

(** ** Programs *)

Definition sys (A : Type) : Type := os -> trace -> A * trace.
#[export] Instance sys_ret : MRet sys := fun A x _ t => (x, t).
#[export] Instance sys_bind : MBind sys := fun A B k m o t => let '(x, t) := m o t in k x o t.

Definition do_call (c : call) : sys unit := fun _ t => (tt, t ++ [c]).
Definition ask {A} (q : os -> trace -> A) : sys A := fun o t => (q o t, t).

Definition read_file (p : cstring) : sys (option (list Z)) := ask (fun o t => os_read o t p).
Definition can_create (p : cstring) : sys bool := ask (fun o t => os_create o t p).
Definition executable (p : cstring) : sys bool := ask (fun o t => os_executable o t p).
Definition if_nametoindex (d : cstring) : sys Z := ask (fun o t => os_ifindex o t d).
Definition is_alive (pid : Z) : sys bool := ask (fun o t => os_alive o t pid).
Definition gethostbyname (n : cstring) : sys (option Z) := ask (fun o t => os_host o t n).
Definition clock_gettime : sys (Z * Z) := ask os_clock.
Definition time_now : sys Z := ask os_time.
Definition getaddrinfo (n : cstring) : sys (list Z) := ask (fun o t => os_addrs o t n).
Definition if_indextoname (i : Z) : sys (option cstring) := ask (fun o t => os_ifname o t i).
Definition read_dir (p : cstring) : sys (list cstring) := ask (fun o t => os_dir o t p).
(** A command whose output is read. *)
Definition popen (cmd : cstring) : sys (option cstring) :=
  out ← ask (fun o t => os_popen o t cmd);
  do_call (System cmd);;
  mret out.

(** [system], with the status of the command. *)
Definition system (cmd : cstring) : sys Z :=
  r ← ask (fun o t => os_status o t cmd);
  do_call (System cmd);;
  mret r.
Definition file_exists (p : cstring) : sys bool := ask (fun o t => os_exists o t p).

(** [safe_system]. *)
Definition safe_system (cmd : cstring) : sys unit := if bool_decide (cmd = []) then mret tt else do_call (System cmd).

(** [safe_write_proc]: 0 when the whole value was written. *)
Definition safe_write_proc (path value : cstring) : sys Z :=
  r ← ask (fun o t => os_proc o t path);
  match (r : option bool) with
  | None => mret (-1)
  | Some ok => do_call (WriteProc path value);; mret (if ok then 0 else -1)
  end.

(** Milliseconds of the monotonic clock. *)
Definition clock_ms (ts : Z * Z) : Z := u64 (u64 (ts.1 * 1000) + ts.2 / 1000000).

(** A loop over indexes that carries a state. *)
Fixpoint for_each {S} (l : list nat) (f : nat -> S -> sys S) (s : S) : sys S :=
  match l with
  | [] => mret s
  | i :: l => s ← f i s; for_each l f s
  end.

Lemma bind_ask {A B} (q : os -> trace -> A) (k : A -> sys B) o t : (ask q ≫= k) o t = k (q o t) o t.
Proof. reflexivity. Qed.

(** ** Traces only grow *)

Definition extends (t t' : trace) : Prop := exists u, t' = t ++ u.
#[export] Instance extends_preorder : PreOrder extends.
Proof.
  split; [intros t; exists []; by rewrite app_nil_r|].
  intros t1 t2 t3 [u ->] [v ->]. exists (u ++ v). by rewrite app_assoc.
Qed.

(** On a system [o] a program adds only calls that satisfy [P] to the trace, and its result
    satisfies [Q]. *)
Definition runs {A} (o : os) (P : call -> Prop) (Q : A -> Prop) (m : sys A) : Prop :=
  forall t, exists u, (m o t).2 = t ++ u /\ Forall P u /\ Q (m o t).1.

Section Runs.
Context {A B : Type} (o : os) (P : call -> Prop).

Lemma runs_ret (Q : A -> Prop) x : Q x -> runs o P Q (mret x).
Proof. intros H t. exists []. cbn. by rewrite app_nil_r. Qed.
Lemma runs_ask (Q : A -> Prop) q : (forall t, Q (q o t)) -> runs o P Q (ask q).
Proof. intros H t. exists []. cbn. by rewrite app_nil_r. Qed.
Lemma runs_call (Q : unit -> Prop) c : P c -> Q tt -> runs o P Q (do_call c).
Proof. intros Hc HQ t. exists [c]. cbn. split_and!; [done|by constructor|done]. Qed.
Lemma runs_bind (Q : A -> Prop) (Q' : B -> Prop) (m : sys A) k :
  runs o P Q m -> (forall x, Q x -> runs o P Q' (k x)) -> runs o P Q' (m ≫= k).
Proof.
  intros Hm Hk t. destruct (Hm t) as (u & E & Hu & HQ). unfold mbind, sys_bind.
  destruct (m o t) as [x t1]. cbn in E, HQ. subst t1. destruct (Hk x HQ (t ++ u)) as (v & E & Hv & HQ').
  exists (u ++ v). rewrite E, app_assoc. split_and!; [done|by apply Forall_app|done].
Qed.
Lemma runs_weaken (P' : call -> Prop) (Q Q' : A -> Prop) (m : sys A) :
  runs o P Q m -> (forall c, P c -> P' c) -> (forall x, Q x -> Q' x) -> runs o P' Q' m.
Proof. intros H HP HQ t. destruct (H t) as (u & E & Hu & HQx). exists u. split_and!; [done|by eapply Forall_impl|auto]. Qed.
Lemma runs_and (Q Q' : A -> Prop) (m : sys A) :
  runs o P Q m -> runs o (fun _ => True) Q' m -> runs o P (fun x => Q x /\ Q' x) m.
Proof.
  intros H1 H2 t. destruct (H1 t) as (u & E & Hu & HQ). destruct (H2 t) as (v & _ & _ & HQ'). exists u. auto.
Qed.
Lemma runs_result (Q : A -> Prop) (m : sys A) t : runs o P Q m -> Q (m o t).1.
Proof. intros H. by destruct (H t) as (u & _ & _ & HQ). Qed.
End Runs.

Lemma runs_for_each {S} o P (I : S -> Prop) l (f : nat -> S -> sys S) s :
  I s -> (forall i s, i ∈ l -> I s -> runs o P I (f i s)) -> runs o P I (for_each l f s).
Proof.
  revert s. induction l as [|i l IH]; intros s Hs Hf; cbn [for_each]; [by apply runs_ret|].
  eapply runs_bind; [apply Hf; [left|done]|]. intros s' Hs'. apply IH; [done|]. intros j s'' Hj. apply Hf. by right.
Qed.
Lemma runs_safe_system o (P : call -> Prop) (Q : unit -> Prop) cmd : P (System cmd) -> Q tt -> runs o P Q (safe_system cmd).
Proof. intros Hc HQ. unfold safe_system. case_bool_decide; [by apply runs_ret|by apply runs_call]. Qed.

(** Any program, nothing known of its result. *)
Lemma runs_unit o (P : call -> Prop) (m : sys unit) (Q : unit -> Prop) : runs o P (fun _ => True) m -> Q tt -> runs o P Q m.
Proof. intros H HQ. eapply runs_weaken; [exact H|done|]. by intros []. Qed.

(** A program makes a call that satisfies [C]. *)
Definition emits {A} (o : os) (C : call -> Prop) (m : sys A) : Prop :=
  forall t, exists u, (m o t).2 = t ++ u /\ Exists C u.
Lemma emits_call o C c : C c -> emits o C (do_call c).
Proof. intros H t. exists [c]. split; [done|by constructor]. Qed.
Lemma emits_later {A B} o C P (Q : A -> Prop) (m : sys A) (k : A -> sys B) :
  runs o P Q m -> (forall x, Q x -> emits o C (k x)) -> emits o C (m ≫= k).
Proof.
  intros Hm Hk t. destruct (Hm t) as (u & E & _ & HQ). unfold mbind, sys_bind. destruct (m o t) as [x t1]. cbn in E, HQ. subst t1.
  destruct (Hk x HQ (t ++ u)) as (v & E & Hv). exists (u ++ v). rewrite E, app_assoc. split; [done|]. apply Exists_app. by right.
Qed.
Lemma emits_first {A B} o C P (m : sys A) (k : A -> sys B) :
  emits o C m -> (forall x, runs o P (fun _ => True) (k x)) -> emits o C (m ≫= k).
Proof.
  intros Hm Hk t. destruct (Hm t) as (u & E & Hu). unfold mbind, sys_bind. destruct (m o t) as [x t1]. cbn in E. subst t1.
  destruct (Hk x (t ++ u)) as (v & E & _). exists (u ++ v). rewrite E, app_assoc. split; [done|]. apply Exists_app. by left.
Qed.

(** Steps through a program: questions are answered by anything. *)
Ltac run_step :=
  lazymatch goal with
  | |- runs _ _ _ (mret _) => apply runs_ret
  | |- runs _ _ _ (ask _) => apply (runs_ask _ _ (fun _ => True)); done
  | |- runs _ _ _ (do_call _) => apply runs_call; [|try done]
  | |- runs _ _ _ (safe_system _) => apply runs_safe_system; [|try done]
  | |- runs _ _ _ (if ?b then _ else _) => destruct b eqn:?
  | |- runs _ _ _ (match ?x with _ => _ end) => destruct x eqn:?
  | |- runs _ _ _ (_ ≫= _) => eapply (runs_bind _ _ (fun _ => True)); [|intros ? _]
  | |- runs _ _ _ _ => apply (runs_ask _ _ (fun _ => True)); done
  end.
