(* ===== verification/Floats.v ===== *)
(** * Binary floating point

    What the sources do with [float] and [double]: numbers read from text, quotients of integers
    and their decimal print.  A value is the quotient of an integer by a power of two. *)

From Stdlib Require Import QArith.
From S2P Require Import Prelude Fluxwan Ipv4 CLib Json.
Open Scope Z_scope.

(** The integer next to [n / d], ties to even. *)
Definition round_ne (n d : Z) : Z :=
  let q := n / d in
  let r := n mod d in
  if 2 * r <? d then q else if d <? 2 * r then q + 1 else if Z.even q then q else q + 1.

(** The exponent of the leading bit of [n / d], for positive numbers. *)
Definition flog2 (n d : Z) : Z :=
  let e := Z.log2 n - Z.log2 d in
  if n * 2 ^ Z.max 0 (- e) <? d * 2 ^ Z.max 0 e then e - 1 else e.

(** [n / d] with [p] significant bits: a pair [(m, s)] for [m / 2 ^ s]. *)
Definition round_bits (p n d : Z) : Z * Z :=
  let s := p - 1 - flog2 n d in
  (round_ne (n * 2 ^ Z.max 0 s) (d * 2 ^ Z.max 0 (- s)), s).

(** The integer part of a [float] that is read from text, as a conversion to [int] takes it. *)
Definition float_trunc (x : Q) : Z :=
  if Qnum x =? 0 then 0 else
  let '(m, s) := round_bits 24 (Z.abs (Qnum x)) (Zpos (Qden x)) in
  Z.sgn (Qnum x) * (m * 2 ^ Z.max 0 (- s) / 2 ^ Z.max 0 s).

(** [scanf("%f")]: [None] when the text does not start with a number. *)
Definition scan_float (s : cstring) : option Q :=
  let body := match skip_spaces s with 45 :: t | 43 :: t => t | t => t end in
  let digit t := match t with c :: _ => isdigit c | [] => false end in
  if digit body || match body with 46 :: t => digit t | _ => false end then Some (atof s) else None.

(** A quotient of unsigned integers in [double], and [%.4f] of it, below one million. *)
Definition double_div (a b : Z) : Z * Z := if a =? 0 then (0, 0) else round_bits 53 a b.
Definition ten_thousandths (v : Z * Z) : Z := round_ne (v.1 * 10000 * 2 ^ Z.max 0 (- v.2)) (2 ^ Z.max 0 v.2).
Definition dec4 (n : Z) : cstring := [48 + n / 1000 mod 10; 48 + n / 100 mod 10; 48 + n / 10 mod 10; 48 + n mod 10].
Definition fmt4 (v : Z * Z) : cstring := dec (ten_thousandths v / 10000) ++ [46] ++ dec4 (ten_thousandths v mod 10000).

(** ** Rounding *)

Lemma round_ne_error n d : 0 < d -> - d <= 2 * (n - d * round_ne n d) <= d.
Proof.
  intros Hd. unfold round_ne. pose proof (Z.div_mod n d ltac:(lia)). pose proof (Z.mod_pos_bound n d Hd).
  destruct (Z.ltb_spec (2 * (n mod d)) d); [lia|]. destruct (Z.ltb_spec d (2 * (n mod d))); [lia|]. destruct (Z.even _); lia.
Qed.
Lemma round_ne_nonneg n d : 0 <= n -> 0 < d -> 0 <= round_ne n d.
Proof.
  intros Hn Hd. unfold round_ne. pose proof (Z.div_pos n d Hn Hd). repeat case_match; lia.
Qed.

(** ** Printed quotients *)

Lemma flog2_below n d : 0 < n -> n < d -> flog2 n d < 0.
Proof.
  intros Hn Hd. unfold flog2. pose proof (Z.log2_le_mono n d ltac:(lia)) as Hl. destruct (Z.ltb_spec (n * 2 ^ Z.max 0 (- (Z.log2 n - Z.log2 d)))
    (d * 2 ^ Z.max 0 (Z.log2 n - Z.log2 d))) as [|H]; [lia|].
  destruct (Z.eq_dec (Z.log2 n) (Z.log2 d)) as [E|]; [|lia]. rewrite E, Z.sub_diag in H. change (- 0) with 0 in H. rewrite Z.max_id, Z.pow_0_r in H. lia.
Qed.

(** Four digits of a quotient below one are off by at most 51 of a million, the rounding of the
    [double] included. *)
Lemma ten_thousandths_error a b :
  0 < a -> a < b -> - (51 * b) <= 100 * (ten_thousandths (double_div a b) * b - 10000 * a) <= 51 * b.
Proof.
  intros Ha Hb. unfold double_div. rewrite (proj2 (Z.eqb_neq a 0)) by lia. unfold round_bits, ten_thousandths.
  pose proof (flog2_below a b Ha Hb) as Hs. set (s := 53 - 1 - flog2 a b) in *. assert (Hs53 : 53 <= s) by lia. clearbody s. clear Hs.
  cbn [fst snd]. rewrite (Z.max_r 0 s), (Z.max_l 0 (- s)) by lia. change (2 ^ 0) with 1. rewrite !Z.mul_1_r.
  pose proof (Z.pow_le_mono_r 2 53 s ltac:(lia) Hs53) as Hp. change (2 ^ 53) with 9007199254740992 in Hp. set (P := 2 ^ s) in *. clearbody P.
  pose proof (round_ne_error (a * P) b ltac:(lia)) as E1. set (m := round_ne (a * P) b) in *. clearbody m.
  pose proof (round_ne_error (m * 10000) P ltac:(lia)) as E2. set (t := round_ne (m * 10000) P) in *. clearbody t.
  assert (Hpb : 500000 * b <= P * b) by (apply Z.mul_le_mono_nonneg_r; lia).
  assert (Ht : (- P) * b <= 2 * (m * 10000 - P * t) * b <= P * b) by (split; apply Z.mul_le_mono_nonneg_r; lia).
  assert (H : (- (51 * b)) * P <= 100 * (t * b - 10000 * a) * P <= 51 * b * P).
  { replace (2 * (m * 10000 - P * t) * b) with (20000 * (m * b) - 2 * (t * b * P)) in Ht by ring.
    replace (b * m) with (m * b) in E1 by ring. replace (100 * (t * b - 10000 * a) * P) with (100 * (t * b * P) - 1000000 * (a * P)) by ring.
    replace ((- (51 * b)) * P) with (- (51 * (P * b))) by ring. replace (51 * b * P) with (51 * (P * b)) by ring. lia. }
  split; [apply (Z.mul_le_mono_pos_r _ _ P); lia|apply (Z.mul_le_mono_pos_r _ _ P); lia].
Qed.
Lemma ten_thousandths_range a b : 0 < a -> a < b -> 0 <= ten_thousandths (double_div a b) <= 10000.
Proof. intros Ha Hb. pose proof (ten_thousandths_error a b Ha Hb). nia. Qed.

(** The text reads back as the number. *)
Definition text4 (t : Z) : cstring := dec (t / 10000) ++ [46] ++ dec4 (t mod 10000).
Lemma text4_value t : 0 <= t <= 10000 -> (atof (text4 t) == inject_Z t / inject_Z 10000)%Q.
Proof.
  intros Ht. assert (H : forallb (fun k => Qeq_bool (atof (text4 (Z.of_nat k))) (inject_Z (Z.of_nat k) / inject_Z 10000)) (seq 0 (Z.to_nat 10001)) = true)
    by (vm_compute; reflexivity).
  rewrite forallb_forall in H. specialize (H (Z.to_nat t)). rewrite Z2Nat.id in H by lia. apply Qeq_bool_eq, H, in_seq. split; [lia|]. rewrite Nat.add_0_l. lia.
Qed.
Lemma fmt4_value a b : 0 < a -> a < b -> (atof (fmt4 (double_div a b)) == inject_Z (ten_thousandths (double_div a b)) / inject_Z 10000)%Q.
Proof. intros Ha Hb. apply text4_value, ten_thousandths_range; done. Qed.
