(* ===== verification/Samples.v ===== *)
(** Concrete configurations, shared by the examples that evaluate the model. *)
From S2P Require Import Prelude Fluxwan.

Definition sample_proxy : wan_proxy_config_t := zero_proxy.

Definition sample_wan (id : Z) (name : cstring) (weight : Z) (state : wan_state_t) : wan_config_t :=
  WanConfig id name name WAN_TYPE_DHCP 0 0 0 [] [] [] [] [] 0 [] [] [] [] 0 0 [] (100 + id) weight
    weight 0 0 state true [] 0 (WanMetrics 0 0 0%Q 0 0 0 0 0) 0 0 0 0 [] [] 0 0 [] sample_proxy.

Definition sample_config_of (wans : list wan_config_t) : fluxwan_config_t := set_c_wans wans zero_config.

(** Two working links of weights 100 and 50, and one that is down. *)
Definition sample_config : fluxwan_config_t :=
  sample_config_of [sample_wan 1 "eth1" 100 WAN_STATE_HEALTHY;
                    sample_wan 2 "eth2" 50 WAN_STATE_HEALTHY;
                    sample_wan 3 "eth3" 10 WAN_STATE_DOWN].

(** ** Frames *)

Definition sample_eth : list Z := [2; 0; 0; 0; 0; 1; 2; 0; 0; 0; 0; 2; 8; 0].

(** A TCP segment of 192.168.1.1 to 8.8.8.8 port 443 with the given flag byte; its
    checksums are valid for a SYN. *)
Definition sample_tcp (flags : Z) : list Z :=
  sample_eth
  ++ [69; 0; 0; 40; 0; 1; 64; 0; 64; 6; 105; 22; 192; 168; 1; 1; 8; 8; 8; 8]
  ++ [195; 80; 1; 187; 0; 0; 0; 1; 0; 0; 0; 0; 80; flags; 250; 240; 30; 44; 0; 0].

(** An echo request of 192.168.1.20 to 192.168.1.1. *)
Definition sample_echo : list Z :=
  sample_eth
  ++ [69; 0; 0; 32; 0; 1; 64; 0; 64; 1; 183; 118; 192; 168; 1; 20; 192; 168; 1; 1]
  ++ [8; 0; 25; 39; 0; 7; 0; 1; 112; 105; 110; 103].

(** A QUIC short-header packet from the given client address and port. *)
Definition sample_quic (host port : Z) : list Z :=
  sample_eth
  ++ [69; 0; 0; 40; 0; 1; 64; 0; 64; 17; 104; 248; 192; 168; 1; host; 8; 8; 8; 8]
  ++ [195; port; 1; 187; 0; 20; 0; 0; 64; 65; 18; 52; 85; 1; 2; 3; 4; 5; 6; 7].
