(* ===== verification/Netlink.v ===== *)
(** * Netlink

    The messages that set up policy rules and routes, and the messages that the kernel sends
    ([netlink_manager.c]). *)

From S2P Require Import Prelude Fluxwan Ipv4 CLib Json System.

Definition RTM_NEWLINK : Z := 16.
Definition RTM_DELLINK : Z := 17.
Definition RTM_NEWROUTE : Z := 24.
Definition RTM_DELROUTE : Z := 25.
Definition RTM_NEWRULE : Z := 32.
Definition RTM_DELRULE : Z := 33.
Definition NLMSG_DONE : Z := 3.
Definition NLM_F_REQUEST : Z := 1.
Definition NLM_F_REPLACE : Z := 256.
Definition NLM_F_EXCL : Z := 512.
Definition NLM_F_CREATE : Z := 1024.
Definition RT_TABLE_MAIN : Z := 254.
Definition RTPROT_STATIC : Z := 4.
Definition RTN_UNICAST : Z := 1.
Definition RTA_OIF : Z := 4.
Definition RTA_GATEWAY : Z := 5.
Definition RTA_TABLE : Z := 15.
Definition FRA_PRIORITY : Z := 6.
Definition FRA_FWMARK : Z := 10.
Definition FRA_TABLE : Z := 15.
Definition AF_INET : Z := 2.

Record netlink_ctx := NetlinkCtx {
  nl_fd : Z;
  nl_seq : Z
}.

(** ** Messages *)

Definition align4 (n : Z) : Z := (n + 3) / 4 * 4.
Definition nlmsg_len (b : list Z) : Z := le_val (take 4 b).
Definition set_nlmsg_len (n : Z) (b : list Z) : list Z := le_bytes 4 n ++ drop 4 b.
(** The bytes of a cleared buffer up to [n]. *)
Definition zero_to (n : Z) (b : list Z) : list Z := b ++ replicate (Z.to_nat n - length b) 0.

Definition add_rtattr (n : list Z) (maxlen type : Z) (data : list Z) : list Z :=
  let len := 4 + Z.of_nat (length data) in
  let pos := align4 (nlmsg_len n) in
  if maxlen <? pos + align4 len then n
  else set_nlmsg_len (pos + align4 len)
         (zero_to (pos + align4 len) (zero_to pos n ++ le_bytes 2 len ++ le_bytes 2 type ++ data)).

(** A message header and a body of twelve bytes. *)
Definition new_message (type flags seq : Z) (body : list Z) : list Z :=
  le_bytes 4 28 ++ le_bytes 2 type ++ le_bytes 2 flags ++ le_bytes 4 seq ++ le_bytes 4 0 ++ body.
(** [struct fib_rule_hdr] and [struct rtmsg]. *)
Definition rule_body (action : Z) : list Z := [AF_INET; 0; 0; 0; 0; 0; 0; action; 0; 0; 0; 0].
Definition route_body (table protocol scope type : Z) : list Z := [AF_INET; 0; 0; 0; table; protocol; scope; type; 0; 0; 0; 0].

Definition u32_attr (type v : Z) (n : list Z) : list Z := add_rtattr n 1024 type (le_bytes 4 v).

Definition add_rule_msg (seq fwmark table_id priority : Z) : list Z :=
  let n := new_message RTM_NEWRULE (Z.lor (Z.lor NLM_F_REQUEST NLM_F_CREATE) NLM_F_EXCL) seq (rule_body 1) in
  let n := u32_attr FRA_TABLE table_id (u32_attr FRA_FWMARK fwmark n) in
  if 0 <? priority then u32_attr FRA_PRIORITY priority n else n.
Definition del_rule_msg (seq fwmark table_id : Z) : list Z :=
  u32_attr FRA_TABLE table_id (u32_attr FRA_FWMARK fwmark (new_message RTM_DELRULE NLM_F_REQUEST seq (rule_body 0))).

Definition short_table (table_id : Z) : Z := if table_id <? 256 then table_id else RT_TABLE_MAIN.
Definition add_route_msg (seq table_id gateway_ip ifindex : Z) : list Z :=
  let n := new_message RTM_NEWROUTE (Z.lor (Z.lor NLM_F_REQUEST NLM_F_CREATE) NLM_F_REPLACE) seq
             (route_body (short_table table_id) RTPROT_STATIC 0 RTN_UNICAST) in
  let n := u32_attr RTA_GATEWAY gateway_ip n in
  let n := if 0 <? ifindex then u32_attr RTA_OIF ifindex n else n in
  if 256 <=? table_id then u32_attr RTA_TABLE table_id n else n.
Definition del_route_msg (seq table_id gateway_ip : Z) : list Z :=
  u32_attr RTA_GATEWAY gateway_ip (new_message RTM_DELROUTE NLM_F_REQUEST seq (route_body (short_table table_id) 0 0 0)).

(** ** Operations *)

Definition netlink_init (fd : option Z) : netlink_ctx := NetlinkCtx (default (-1) fd) 0.
Definition netlink_get_fd (ctx : option netlink_ctx) : Z := from_option nl_fd (-1) ctx.

(** A message takes the next sequence number; the answer of [send] is looked at, or not. *)
Definition netlink_send (ctx : netlink_ctx) (checked : bool) (msg : Z -> list Z) : sys (Z * netlink_ctx) :=
  if nl_fd ctx <? 0 then mret (0, ctx) else
  let seq := u32 (nl_seq ctx + 1) in
  ok ← ask os_sent;
  do_call (NetlinkSend (msg seq));;
  mret (if checked && negb ok then -1 else 0, NetlinkCtx (nl_fd ctx) seq).

Definition netlink_add_ip_rule (ctx : netlink_ctx) (fwmark table_id priority : Z) : sys (Z * netlink_ctx) :=
  netlink_send ctx true (fun seq => add_rule_msg seq fwmark table_id priority).
Definition netlink_del_ip_rule (ctx : netlink_ctx) (fwmark table_id : Z) : sys (Z * netlink_ctx) :=
  netlink_send ctx false (fun seq => del_rule_msg seq fwmark table_id).
Definition netlink_add_default_route (ctx : netlink_ctx) (table_id gateway_ip ifindex : Z) : sys (Z * netlink_ctx) :=
  netlink_send ctx true (fun seq => add_route_msg seq table_id gateway_ip ifindex).
Definition netlink_del_default_route (ctx : netlink_ctx) (table_id gateway_ip : Z) : sys (Z * netlink_ctx) :=
  netlink_send ctx false (fun seq => del_route_msg seq table_id gateway_ip).
(** Nothing is sent. *)
Definition netlink_set_interface_ip (ctx : netlink_ctx) (ifindex ip_addr netmask : Z) : sys Z := mret 0.

Definition IFF_UP : Z := 1.
Definition IFF_RUNNING : Z := 64.
Definition netlink_set_interface_state (ifindex : Z) (up : bool) : sys Z :=
  name ← if_indextoname ifindex;
  let ifname := default (snprintf 16 "if%d" [FN ifindex]) (name : option cstring) in
  sock ← ask os_socket;
  flags ← ask (fun o t => os_ifflags o t ifname);
  (match (sock : bool), (flags : option Z) with
   | true, Some f => do_call (SetIfFlags ifname (if up then Z.lor f (Z.lor IFF_UP IFF_RUNNING) else Z.ldiff f IFF_UP))
   | _, _ => mret tt
   end);;
  safe_system (snprintf 128 "ip link set %s %s 2>/dev/null || true" [FS ifname; FS (if up then bytes_of_string "up" else bytes_of_string "down")]);;
  mret 0.

(** The messages received: how many report a change of a link.  [None] is a read beyond the
    received bytes. *)
Fixpoint link_events (fuel : nat) (buf : list Z) (pos len : Z) : option Z :=
  match fuel with
  | O => Some 0
  | S fuel =>
      if len <? 16 then Some 0 else
      n ← ld32 buf pos;
      if (n <? 16) || (len <? n) then Some 0 else
      type ← ld16 buf (pos + 4);
      if type =? NLMSG_DONE then Some 0 else
      rest ← link_events fuel buf (pos + align4 n) (len - align4 n);
      Some (rest + (if (type =? RTM_NEWLINK) || (type =? RTM_DELLINK) then 1 else 0))
  end.
(** Every message takes sixteen bytes or more. *)
Definition netlink_process_events (ctx : netlink_ctx) (received : option (list Z)) : option Z :=
  if nl_fd ctx <? 0 then Some 0
  else match received with
       | Some buf => link_events (length buf) buf 0 (Z.of_nat (length buf))
       | None => Some 0
       end.

(** ** Reading the messages *)

(** What a receiver finds: the type and the flags, the table of the body and the attributes. *)
Fixpoint read_attrs (fuel : nat) (b : list Z) : option (list (Z * list Z)) :=
  match fuel, b with
  | _, [] => Some []
  | O, _ => None
  | S fuel, _ =>
      len ← ld16 b 0;
      type ← ld16 b 2;
      if (len <? 4) || (Z.of_nat (length b) <? len) then None else
      rest ← read_attrs fuel (drop (Z.to_nat (align4 len)) b);
      Some ((type, take (Z.to_nat (len - 4)) (drop 4 b)) :: rest)
  end.
Record message := Message {
  m_type : Z;
  m_flags : Z;
  m_seq : list Z;
  m_body : list Z;
  m_attrs : list (Z * list Z)
}.
Definition read_message (b : list Z) : option message :=
  len ← ld32 b 0;
  type ← ld16 b 4;
  flags ← ld16 b 6;
  if negb (len =? Z.of_nat (length b)) || (len <? 28) then None else
  attrs ← read_attrs (length b) (drop 28 b);
  Some (Message type flags (take 4 (drop 8 b)) (take 12 (drop 16 b)) attrs).

(** The bytes of a number are four bytes, whatever they are. *)
Lemma le_bytes_4 v : exists a b c d, le_bytes 4 v = [a; b; c; d].
Proof. by eexists _, _, _, _. Qed.
Ltac four_bytes v := destruct (le_bytes_4 v) as (? & ? & ? & ? & ?).

Lemma add_rule_message seq fwmark table priority :
  read_message (add_rule_msg seq fwmark table priority) =
  Some (Message RTM_NEWRULE 1537 (le_bytes 4 seq) (rule_body 1)
          ([(FRA_FWMARK, le_bytes 4 fwmark); (FRA_TABLE, le_bytes 4 table)] ++
           (if 0 <? priority then [(FRA_PRIORITY, le_bytes 4 priority)] else []))).
Proof.
  unfold add_rule_msg, u32_attr, new_message. destruct (0 <? priority); four_bytes seq; four_bytes fwmark; four_bytes table; four_bytes priority;
    repeat match goal with H : le_bytes 4 _ = _ |- _ => rewrite H; clear H end; vm_compute; reflexivity.
Qed.

Lemma add_route_message seq table gw ifindex :
  exists body, read_message (add_route_msg seq table gw ifindex) =
  Some (Message RTM_NEWROUTE 1281 (le_bytes 4 seq) body
          ([(RTA_GATEWAY, le_bytes 4 gw)] ++ (if 0 <? ifindex then [(RTA_OIF, le_bytes 4 ifindex)] else []) ++
           (if 256 <=? table then [(RTA_TABLE, le_bytes 4 table)] else [])))
  /\ body = route_body (short_table table) RTPROT_STATIC 0 RTN_UNICAST.
Proof.
  eexists. split; [|reflexivity]. unfold add_route_msg, u32_attr, new_message. generalize (short_table table). intros short.
  destruct (0 <? ifindex), (256 <=? table); four_bytes seq; four_bytes gw; four_bytes table; four_bytes ifindex;
    repeat match goal with H : le_bytes 4 _ = _ |- _ => rewrite H; clear H end; vm_compute; reflexivity.
Qed.
Lemma del_route_message seq table gw :
  read_message (del_route_msg seq table gw) =
  Some (Message RTM_DELROUTE 1 (le_bytes 4 seq) (route_body (short_table table) 0 0 0) [(RTA_GATEWAY, le_bytes 4 gw)]).
Proof.
  unfold del_route_msg, u32_attr, new_message. generalize (short_table table). intros short. four_bytes seq; four_bytes gw;
    repeat match goal with H : le_bytes 4 _ = _ |- _ => rewrite H; clear H end; vm_compute; reflexivity.
Qed.

(** The table that a route message names: its attribute, or else the byte of the body. *)
Definition route_table (m : message) : Z :=
  match list_find (fun a => a.1 = RTA_TABLE) (m_attrs m) with
  | Some (_, a) => le_val a.2
  | None => default 0 (m_body m !! 4%nat)
  end.

Lemma le_val_u32 v : is_u32 v -> le_val (le_bytes 4 v) = v.
Proof. intros H. rewrite le_val_bytes. apply Z.mod_small. exact H. Qed.

(** The message for a policy rule reads back as one rule: the mark, the table and, unless it is zero, the
    priority; and the message for a default route names the gateway and the table that were asked for, also
    for the tables from 256 on. *)
Theorem messages_read_back seq fwmark table priority gw ifindex :
  is_u32 table ->
  read_message (add_rule_msg seq fwmark table priority) =
    Some (Message RTM_NEWRULE (1 + 512 + 1024) (le_bytes 4 seq) (rule_body 1)
            ([(FRA_FWMARK, le_bytes 4 fwmark); (FRA_TABLE, le_bytes 4 table)] ++
             (if 0 <? priority then [(FRA_PRIORITY, le_bytes 4 priority)] else []))) /\
  exists m, read_message (add_route_msg seq table gw ifindex) = Some m /\
    m_type m = RTM_NEWROUTE /\ m_flags m = 1 + 256 + 1024 /\ head (m_attrs m) = Some (RTA_GATEWAY, le_bytes 4 gw) /\ route_table m = table.
Proof.
  intros Ht. split; [apply add_rule_message|]. destruct (add_route_message seq table gw ifindex) as (body & -> & ->).
  eexists. split; [reflexivity|]. split_and!; [done|done|done|]. unfold route_table, short_table. cbn [m_attrs m_body].
  destruct (Z.leb_spec 256 table), (Z.ltb_spec table 256), (0 <? ifindex); try lia; first [reflexivity | etrans; [|exact (le_val_u32 table Ht)]; reflexivity].
Qed.

(** The message that is to remove a default route from a table from 256 on names the main table: the code
    leaves out the attribute. *)
Theorem route_removed_from_main seq table gw :
  256 <= table -> exists m, read_message (del_route_msg seq table gw) = Some m /\ route_table m = RT_TABLE_MAIN.
Proof.
  intros H. rewrite del_route_message. eexists. split; [reflexivity|]. unfold route_table, short_table. cbn [m_attrs m_body].
  destruct (Z.ltb_spec table 256); [lia|]. reflexivity.
Qed.

Lemma align4_le n : 0 <= n -> n <= align4 n < n + 4.
Proof. intros H. unfold align4. pose proof (Z.div_mod (n + 3) 4 ltac:(lia)). pose proof (Z.mod_pos_bound (n + 3) 4 ltac:(lia)). lia. Qed.

Lemma link_events_safe fuel buf : forall pos len, 0 <= pos -> pos + len <= blen buf -> is_Some (link_events fuel buf pos len).
Proof.
  induction fuel as [|fuel IH]; intros pos len Hp Hl; cbn [link_events]; [by eexists|].
  destruct (Z.ltb_spec len 16); [by eexists|]. destruct (ld32_Some buf pos ltac:(lia) ltac:(lia)) as [n ->]. cbn [mbind option_bind].
  destruct (Z.ltb_spec n 16), (Z.ltb_spec len n); cbn [orb]; try by eexists.
  destruct (ld16_Some buf (pos + 4) ltac:(lia) ltac:(lia)) as [ty ->]. cbn [mbind option_bind]. destruct (ty =? NLMSG_DONE); [by eexists|].
  pose proof (align4_le n ltac:(lia)). destruct (IH (pos + align4 n) (len - align4 n) ltac:(lia) ltac:(lia)) as [r ->]. by eexists.
Qed.

(** Whatever the kernel sends, the event loop reads nothing beyond the received bytes, and it ends. *)
Theorem events_in_bounds ctx received : is_Some (netlink_process_events ctx received).
Proof.
  unfold netlink_process_events. destruct (nl_fd ctx <? 0); [by eexists|]. destruct received as [buf|]; [|by eexists].
  by apply link_events_safe.
Qed.

Lemma messages_read_back_witness :
  exists m, read_message (add_route_msg 7 1101 16777226 3) = Some m /\ route_table m = 1101.
Proof.
  destruct (messages_read_back 7 257 1101 1000 16777226 3 ltac:(split; [discriminate|reflexivity])) as (_ & m & H & _ & _ & _ & Ht).
  exists m. split; [exact H|exact Ht].
Defined.
Lemma route_removed_from_main_witness : exists m, read_message (del_route_msg 7 1101 16777226) = Some m /\ route_table m = RT_TABLE_MAIN.
Proof. apply (route_removed_from_main 7 1101 16777226). discriminate. Defined.
