(* ===== verification/Wifi.v ===== *)
(** * The Wi-Fi manager

    Scans, the configuration of [wpa_supplicant] and the state of the link ([wifi_manager.c]). *)

From S2P Require Import Prelude Fluxwan Ipv4 CLib Json JsonText ProxyUri System Floats.

Definition MAX_WIFI_SCAN_RESULTS : Z := 32.

Record wifi_scan_item_t := WifiScanItem {
  ws_ssid : cstring;
  ws_bssid : cstring;
  ws_signal_dbm : Z;
  ws_signal_pct : Z;
  ws_channel : Z;
  ws_frequency : cstring;
  ws_security : cstring
}.
Record wifi_link_status_t := WifiLinkStatus {
  wl_connected : bool;
  wl_ssid : cstring;
  wl_bssid : cstring;
  wl_signal_dbm : Z;
  wl_signal_pct : Z;
  wl_channel : Z;
  wl_bitrate_mbps : Z
}.

Definition dbm_to_pct (dbm : Z) : Z := if dbm <=? -100 then 0 else if -50 <=? dbm then 100 else 2 * (dbm + 100).

Definition wifi_manager_init : sys Z := safe_system "rfkill unblock wifi 2>/dev/null || true";; mret 0.

(** ** Scan *)

Definition found (s p : cstring) : bool := match strstr s p with Some _ => true | None => false end.

Record scan_state := ScanState {
  sc_results : list wifi_scan_item_t;
  sc_current : wifi_scan_item_t;
  sc_in_bss : bool;
  sc_has_ssid : bool
}.
Definition zero_item : wifi_scan_item_t := WifiScanItem [] [] 0 0 0 [] [].

Definition with_pct (w : wifi_scan_item_t) : wifi_scan_item_t :=
  WifiScanItem (ws_ssid w) (ws_bssid w) (ws_signal_dbm w) (dbm_to_pct (ws_signal_dbm w)) (ws_channel w) (ws_frequency w) (ws_security w).
(** A network is entered once, with the stronger signal. *)
Definition merge_item (w : wifi_scan_item_t) (l : list wifi_scan_item_t) : list wifi_scan_item_t :=
  match list_find (fun x => ws_ssid x = ws_ssid w) l with
  | Some (k, old) => if ws_signal_dbm old <? ws_signal_dbm w then <[k := w]> l else l
  | None => l ++ [w]
  end.
Definition room (max : Z) (s : scan_state) : bool :=
  sc_in_bss s && sc_has_ssid s && (Z.of_nat (length (sc_results s)) <? max).

Definition new_bss (p : cstring) : wifi_scan_item_t :=
  WifiScanItem [] (safe_str_copy (default [] (scan_word 17 (drop 4 p))) 20) (-90) 0 0 "2.4 GHz" "OPEN".
Definition set_ssid (v : cstring) (w : wifi_scan_item_t) : wifi_scan_item_t :=
  WifiScanItem v (ws_bssid w) (ws_signal_dbm w) (ws_signal_pct w) (ws_channel w) (ws_frequency w) (ws_security w).
Definition set_signal (v : Z) (w : wifi_scan_item_t) : wifi_scan_item_t :=
  WifiScanItem (ws_ssid w) (ws_bssid w) v (ws_signal_pct w) (ws_channel w) (ws_frequency w) (ws_security w).
Definition set_band (f : cstring) (ch : Z) (w : wifi_scan_item_t) : wifi_scan_item_t :=
  WifiScanItem (ws_ssid w) (ws_bssid w) (ws_signal_dbm w) (ws_signal_pct w) ch f (ws_security w).
Definition set_security (v : cstring) (w : wifi_scan_item_t) : wifi_scan_item_t :=
  WifiScanItem (ws_ssid w) (ws_bssid w) (ws_signal_dbm w) (ws_signal_pct w) (ws_channel w) (ws_frequency w) v.

Definition tune (freq : Z) (w : wifi_scan_item_t) : wifi_scan_item_t :=
  if (2412 <=? freq) && (freq <=? 2484) then set_band "2.4 GHz" (if freq =? 2484 then 14 else (freq - 2407) / 5) w
  else if (5150 <=? freq) && (freq <=? 5885) then set_band "5 GHz" ((freq - 5000) / 5) w
  else if 5925 <=? freq then set_band "6 GHz" (u32 (Z.quot (freq - 5940) 5)) w
  else w.

Definition scan_line (max : Z) (s : scan_state) (line : cstring) : scan_state :=
  let p := skip_spaces line in
  let upd w := ScanState (sc_results s) w (sc_in_bss s) (sc_has_ssid s) in
  let cur := sc_current s in
  if has_prefix "BSS " p then
    ScanState (if room max s then merge_item (with_pct cur) (sc_results s) else sc_results s) (new_bss p) true false
  else if has_prefix "SSID: " p then
    match strip_eol (drop 6 p) with
    | [] => s
    | ssid => ScanState (sc_results s) (set_ssid (safe_str_copy ssid 64) cur) (sc_in_bss s) true
    end
  else if has_prefix "signal: " p then
    match scan_float (drop 8 p) with Some x => upd (set_signal (float_trunc x) cur) | None => s end
  else if has_prefix "freq: " p then
    match scan_int (drop 6 p) with Some f => upd (tune f cur) | None => s end
  else if found p "RSN:" || found p "WPA:" then
    if found p "SAE" then upd (set_security "WPA3-SAE" cur)
    else if found p "PSK" || found p "RSN" then upd (set_security "WPA2-PSK" cur)
    else s
  else s.

(** The last network is entered as it is. *)
Definition scan_text (max : Z) (f : list Z) : list wifi_scan_item_t :=
  let s := fold_left (scan_line max) (fgets_lines 512 f) (ScanState [] zero_item false false) in
  if room max s then sc_results s ++ [with_pct (sc_current s)] else sc_results s.

(** The networks that are reported when none was found. *)
Definition mock_nets : list wifi_scan_item_t :=
  [WifiScanItem "FluxWAN_Fiber_5G" "dc:08:56:1a:2b:01" (-48) 100 36 "5 GHz" "WPA2-PSK";
   WifiScanItem "Hotspot_4G_Outdoor" "e4:5f:01:44:aa:12" (-62) 76 6 "2.4 GHz" "WPA2-PSK";
   WifiScanItem "Starlink_WiFi_Mesh" "74:24:9f:88:cc:30" (-55) 90 44 "5 GHz" "WPA2-PSK";
   WifiScanItem "Public_Cafe_Free" "a0:04:60:55:bb:99" (-74) 52 1 "2.4 GHz" "OPEN"].

Definition wifi_manager_scan (ifname : cstring) (max : Z) : sys (option (list wifi_scan_item_t)) :=
  if max =? 0 then mret None else
  safe_system (snprintf 256 "ip link set %s up 2>/dev/null" [FS ifname]);;
  out ← popen (snprintf 256 "iw dev %s scan 2>/dev/null" [FS ifname]);
  let l := match (out : option cstring) with Some f => scan_text max f | None => [] end in
  mret (Some (match l with [] => take (Z.to_nat max) mock_nets | _ => l end)).

(** ** Link *)

Definition wpa_path (ifname : cstring) : cstring := snprintf 256 "/etc/wpa_supplicant/wpa_supplicant_%s.conf" [FS ifname].
Definition wpa_pid (ifname : cstring) : cstring := snprintf 256 "/var/run/wpa_supplicant_%s.pid" [FS ifname].
Definition udhcpc_pid (ifname : cstring) : cstring := snprintf 256 "/var/run/udhcpc_%s.pid" [FS ifname].

Definition wpa_text (ssid password security : cstring) : cstring :=
  let is_open := str_eq security "OPEN" || str_eq security "open" in
  let is_wpa3 := found security "WPA3" || found security "sae" in
  let secret (fmt : string) := if empty password then [] else [sprintf (dq fmt) [FS password]] in
  lines
    ([bytes_of_string "ctrl_interface=/var/run/wpa_supplicant"; bytes_of_string "update_config=1"; [];
      bytes_of_string "network={"; sprintf (dq "    ssid=`%s`") [FS ssid]; bytes_of_string "    scan_ssid=1"] ++
     (if is_open then [bytes_of_string "    key_mgmt=NONE"]
      else if is_wpa3 then
        [bytes_of_string "    key_mgmt=SAE"; bytes_of_string "    ieee80211w=2"] ++ secret "    sae_password=`%s`"
      else [bytes_of_string "    key_mgmt=WPA-PSK"] ++ secret "    psk=`%s`") ++
     [bytes_of_string "}"]).

(** The process of a pid file is ended and the file removed. *)
Definition kill_pid_file (path : cstring) : sys unit :=
  f ← read_file path;
  match (f : option (list Z)) with
  | None => mret tt
  | Some f =>
      (match scan_int f with
       | Some pid => if 1 <? pid then do_call (Kill pid SIGTERM) else mret tt
       | None => mret tt
       end);;
      do_call (Unlink path)
  end.

Definition wifi_manager_connect (ifname ssid password security : cstring) : sys Z :=
  if empty ifname || empty ssid then mret (-1) else
  do_call (Mkdir "/etc/wpa_supplicant");;
  ok ← can_create (wpa_path ifname);
  if negb ok then mret (-1) else
  do_call (WriteFile (wpa_path ifname) (wpa_text ssid password security));;
  kill_pid_file (wpa_pid ifname);;
  safe_system (snprintf 1024 "wpa_supplicant -B -i %s -c %s -P %s -D nl80211,wext >/dev/null 2>&1"
                 [FS ifname; FS (wpa_path ifname); FS (wpa_pid ifname)]);;
  safe_system (snprintf 1024
    (dq "udhcpc -i %s -p /var/run/udhcpc_%s.pid -s /usr/local/bin/fluxwan_wan_dhcp.sh -b -V `TP-Link` -x hostname:Archer_C6 >/dev/null 2>&1")
    [FS ifname; FS ifname]);;
  mret 0.

Definition wifi_manager_disconnect (ifname : cstring) : sys Z :=
  if empty ifname then mret (-1) else
  kill_pid_file (wpa_pid ifname);;
  kill_pid_file (udhcpc_pid ifname);;
  safe_system (snprintf 256 "ip link set %s down 2>/dev/null" [FS ifname]);;
  mret 0.

Definition link_line (s : wifi_link_status_t) (line : cstring) : wifi_link_status_t :=
  let p := skip_spaces line in
  let '(WifiLinkStatus con ssid bssid dbm pct ch rate) := s in
  if has_prefix "Connected to " p then WifiLinkStatus true ssid (default bssid (scan_word 17 (drop 13 p))) dbm pct ch rate
  else if has_prefix "SSID: " p then WifiLinkStatus con (safe_str_copy (strip_eol (drop 6 p)) 64) bssid dbm pct ch rate
  else if has_prefix "signal: " p then
    match scan_float (drop 8 p) with
    | Some x => WifiLinkStatus con ssid bssid (float_trunc x) (dbm_to_pct (float_trunc x)) ch rate
    | None => s
    end
  else if has_prefix "tx bitrate: " p then
    match scan_float (drop 12 p) with Some x => WifiLinkStatus con ssid bssid dbm pct ch (u32 (float_trunc x)) | None => s end
  else s.
Definition link_text (f : list Z) : wifi_link_status_t :=
  fold_left link_line (fgets_lines 256 f) (WifiLinkStatus false [] [] (-90) 0 0 0).

Definition wifi_manager_get_link_status (ifname : cstring) : sys wifi_link_status_t :=
  out ← popen (snprintf 256 "iw dev %s link 2>/dev/null" [FS ifname]);
  let s := match (out : option cstring) with Some f => link_text f | None => link_text [] end in
  mret (if wl_connected s then s
        else WifiLinkStatus true "FluxWAN_WiFi" "00:1a:2b:3c:4d:5e" (-54) (dbm_to_pct (-54)) 36 300).

(** ** Results *)

Definition item_ok (w : wifi_scan_item_t) : Prop := 0 <= ws_signal_pct w <= 100 /\ ws_ssid w <> [] /\ (length (ws_ssid w) <= 63)%nat.
Definition unique_ssids (l : list wifi_scan_item_t) : Prop := NoDup (ws_ssid <$> l).
Record scan_ok (max : Z) (s : scan_state) : Prop := ScanOk {
  so_items : Forall item_ok (sc_results s);
  so_length : Z.of_nat (length (sc_results s)) <= max;
  so_unique : unique_ssids (sc_results s);
  so_ssid : (length (ws_ssid (sc_current s)) <= 63)%nat /\ (sc_has_ssid s = true -> ws_ssid (sc_current s) <> [])
}.

Lemma dbm_to_pct_range dbm : 0 <= dbm_to_pct dbm <= 100.
Proof. unfold dbm_to_pct. destruct (Z.leb_spec dbm (-100)); [lia|]. destruct (Z.leb_spec (-50) dbm); lia. Qed.
Lemma room_true max s : room max s = true -> sc_has_ssid s = true /\ Z.of_nat (length (sc_results s)) < max.
Proof. intros H. apply andb_prop in H as [H H2]. apply andb_prop in H as [_ H]. by apply Z.ltb_lt in H2. Qed.
Lemma current_ok max s : scan_ok max s -> room max s = true -> item_ok (with_pct (sc_current s)).
Proof. intros H [Hs _]%room_true. destruct (so_ssid _ _ H) as [Hl Hn]. split; [apply dbm_to_pct_range|]. split; [by apply Hn|done]. Qed.

Lemma merge_item_ok max w l :
  item_ok w -> Forall item_ok l -> unique_ssids l -> Z.of_nat (length l) < max ->
  Forall item_ok (merge_item w l) /\ unique_ssids (merge_item w l) /\ Z.of_nat (length (merge_item w l)) <= max.
Proof.
  intros Hw Hl Hu Hm. unfold merge_item. destruct (list_find _ l) as [[k old]|] eqn:E.
  - apply list_find_Some in E as (Hk & Hs & _). destruct (_ <? _); [|split_and!; [done|done|lia]].
    split_and!; [by apply Forall_insert| |rewrite length_insert; lia]. unfold unique_ssids. rewrite list_fmap_insert.
    rewrite list_insert_id; [done|]. by rewrite list_lookup_fmap, Hk, <- Hs.
  - apply list_find_None in E. split_and!; [by apply Forall_app_2; [|constructor]| |rewrite length_app; cbn; lia].
    unfold unique_ssids. rewrite fmap_app. apply NoDup_app. split_and!; [done| |apply NoDup_singleton].
    intros x Hx Hx'. apply list_elem_of_singleton in Hx' as ->. apply list_elem_of_fmap in Hx as (y & Hy & Hin).
    rewrite Forall_forall in E. by apply (E y Hin).
Qed.

Lemma keep_current max s w :
  scan_ok max s -> ws_ssid w = ws_ssid (sc_current s) -> scan_ok max (ScanState (sc_results s) w (sc_in_bss s) (sc_has_ssid s)).
Proof. intros [H1 H2 H3 H4] E. split; [done|done|done|]. cbn. by rewrite E. Qed.
Lemma tune_ssid f w : ws_ssid (tune f w) = ws_ssid w.
Proof. unfold tune. by repeat case_match. Qed.

Lemma scan_line_ok max s line : scan_ok max s -> scan_ok max (scan_line max s line).
Proof.
  intros H. unfold scan_line. set (p := skip_spaces line). destruct (has_prefix "BSS " p).
  { assert (Hc : (length (ws_ssid (new_bss p)) <= 63)%nat /\ (false = true -> ws_ssid (new_bss p) <> [])) by (split; [cbn; lia|done]).
    destruct (room max s) eqn:E; [|destruct H; by split].
    destruct (merge_item_ok max _ _ (current_ok _ _ H E) (so_items _ _ H) (so_unique _ _ H) (proj2 (room_true _ _ E))) as (A & B & C).
    by split. }
  destruct (has_prefix "SSID: " p).
  { destruct (strip_eol (drop 6 p)) as [|c l] eqn:E; [done|]. destruct H as [H1 H2 H3 H4]. split; [done|done|done|].
    cbn [sc_current sc_has_ssid set_ssid ws_ssid]. unfold safe_str_copy, str_trunc. split; [rewrite length_take; lia|done]. }
  destruct (has_prefix "signal: " p); [destruct (scan_float _); [by apply keep_current|done]|].
  destruct (has_prefix "freq: " p); [destruct (scan_int _); [apply keep_current; [done|apply tune_ssid]|done]|].
  destruct (_ || _); [|done]. destruct (found p "SAE"); [by apply keep_current|]. destruct (_ || _); [by apply keep_current|done].
Qed.
Lemma scan_lines_ok max lines s : scan_ok max s -> scan_ok max (fold_left (scan_line max) lines s).
Proof. revert s. induction lines as [|l ls IH]; intros s H; cbn [fold_left]; [done|]. by apply IH, scan_line_ok. Qed.

Lemma scan_text_ok max f : 0 < max -> Forall item_ok (scan_text max f) /\ Z.of_nat (length (scan_text max f)) <= max.
Proof.
  intros Hm. unfold scan_text. assert (H : scan_ok max (ScanState [] zero_item false false)).
  { split; [constructor|cbn; lia|constructor|split; [cbn; lia|done]]. }
  apply (scan_lines_ok max (fgets_lines 512 f)) in H. set (s := fold_left _ _ _) in *. destruct (room max s) eqn:E; [|split; apply H].
  split; [apply Forall_app_2; [apply H|constructor; [by apply (current_ok max)|constructor]]|]. rewrite length_app. cbn.
  apply room_true in E as [_ E]. lia.
Qed.

(** Whatever [iw] prints, a scan reports at least one and at most [max] networks, each with a name of at
    most 63 bytes and a signal between 0 and 100 percent. *)
Theorem scan_results_ok ifname max o t :
  0 < max ->
  exists l, (wifi_manager_scan ifname max o t).1 = Some l /\ l <> [] /\ Z.of_nat (length l) <= max /\ Forall item_ok l.
Proof.
  intros Hm. unfold wifi_manager_scan. rewrite (proj2 (Z.eqb_neq max 0)) by lia.
  assert (Hr : runs o (fun _ => True) (fun r => exists l, r = Some l /\ l <> [] /\ Z.of_nat (length l) <= max /\ Forall item_ok l)
    (safe_system (snprintf 256 "ip link set %s up 2>/dev/null" [FS ifname]);;
     out ← popen (snprintf 256 "iw dev %s scan 2>/dev/null" [FS ifname]);
     let l := match (out : option cstring) with Some f => scan_text max f | None => [] end in
     mret (Some (match l with [] => take (Z.to_nat max) mock_nets | _ => l end)))).
  { eapply (runs_bind _ _ (fun _ => True)); [by run_step|intros ? _]. eapply (runs_bind _ _ (fun _ => True)); [unfold popen; repeat run_step; done|].
    intros out _. apply runs_ret. eexists. split; [reflexivity|]. assert (Hmock : Forall item_ok mock_nets) by (repeat constructor; done || by cbn; lia).
    assert (Ht : take (Z.to_nat max) mock_nets <> [] /\ Z.of_nat (length (take (Z.to_nat max) mock_nets)) <= max).
    { rewrite length_take. split; [|lia]. destruct (Z.to_nat max) eqn:E; [lia|done]. }
    destruct out as [f|]; [|split_and!; [apply Ht|apply Ht|by apply Forall_take]].
    destruct (scan_text_ok max f Hm) as [Hi Hl]. destruct (scan_text max f) as [|w l]; [split_and!; [apply Ht|apply Ht|by apply Forall_take]|done]. }
  by apply (runs_result _ _ _ _ t Hr).
Qed.

(** An interface that is not connected is reported as connected to a network that does not exist: the
    status of a link never says that it is down. *)
Theorem link_never_down ifname o t : wl_connected (wifi_manager_get_link_status ifname o t).1 = true.
Proof.
  unfold wifi_manager_get_link_status, popen. unfold mbind, sys_bind, ask, do_call, mret, sys_ret. cbn beta iota zeta.
  unfold fst. destruct (wl_connected (match os_popen _ _ _ with Some _ => _ | None => _ end)) eqn:E; [exact E|reflexivity].
Qed.

Lemma scan_results_ok_witness :
  exists l, (wifi_manager_scan "wlan0" 2 (Os (fun _ _ => None) (fun _ _ => true) (fun _ _ => true) (fun _ _ => 3) (fun _ _ => true)
    (fun _ _ => None) (fun _ => (100, 0)) (fun _ => 0) (fun _ _ => None) (fun _ _ => []) (fun _ => true) (fun _ _ _ _ => false)
    (fun _ _ => None) (fun _ _ => []) (fun _ _ => None) (fun _ _ => None) (fun _ => true) (fun _ _ => 0) (fun _ _ => true) (fun _ => 4242) (fun _ _ => false)) []).1 = Some l /\ l <> [].
Proof.
  destruct (scan_results_ok "wlan0" 2 (Os (fun _ _ => None) (fun _ _ => true) (fun _ _ => true) (fun _ _ => 3) (fun _ _ => true)
    (fun _ _ => None) (fun _ => (100, 0)) (fun _ => 0) (fun _ _ => None) (fun _ _ => []) (fun _ => true) (fun _ _ _ _ => false)
    (fun _ _ => None) (fun _ _ => []) (fun _ _ => None) (fun _ _ => None) (fun _ => true) (fun _ _ => 0) (fun _ _ => true) (fun _ => 4242) (fun _ _ => false)) [] ltac:(reflexivity)) as (l & H & Hn & _).
  exists l. split; [exact H|exact Hn].
Defined.
