(* ===== verification/Firewall.v ===== *)
(** * Firewall rules

    Policy routes, queueing, rate limits, steering, inspection, address lists and the shield of the
    uplinks ([net_apply.c]).  The code configures the kernel by shell commands; each function is the
    list of its commands in order, and the rules that the theorems are about are data that is rendered
    to the text of the command. *)

From Stdlib Require Import Lqa Qfield.
From S2P Require Import Prelude Fluxwan Ipv4 CLib Json JsonText ProxyUri System Floats Samples.
Open Scope Z_scope.

(** ** Commands *)

Fixpoint run_all (cmds : list cstring) : sys unit :=
  match cmds with
  | [] => mret tt
  | c :: cmds => safe_system c;; run_all cmds
  end.

(** A command of iptables whose failure is ignored; the same with the legacy tool as a second try; and a
    rule that is added unless it is there. *)
Definition ipt (args : cstring) : cstring := sprintf "iptables %s 2>/dev/null || true" [FS args].
Definition ipt_both (args : cstring) : cstring :=
  sprintf "iptables %s 2>/dev/null || iptables-legacy %s 2>/dev/null || true" [FS args; FS args].
Definition ipt_once (table rule : cstring) : cstring :=
  sprintf "iptables %s-C %s 2>/dev/null || iptables %s-A %s 2>/dev/null || true" [FS table; FS rule; FS table; FS rule].

Definition wan_mark (i : Z) : Z := u32 (256 + i + 1).
Definition lan_or_eth0 (config : fluxwan_config_t) : cstring :=
  if empty (lan_name (c_lan config)) then bytes_of_string "eth0" else lan_name (c_lan config).
Definition or_default (v d : Z) : Z := if 0 <? v then v else d.
Definition carries (w : wan_config_t) : bool := w_enabled w && negb (bool_decide (w_state w = WAN_STATE_DOWN)).
(** Enabled, not down and with a weight: the uplink takes new flows. *)
Definition active (w : wan_config_t) : bool := carries w && (0 <? w_dynamic_weight w).

(** ** Policy routes *)

Definition group_rule (config : fluxwan_config_t) (p : Z) (pr : policy_route_t) : list cstring :=
  match list_find (fun g => g_id g = pr_target_group_id pr /\ g_wan_member_indices g <> []) (c_groups config) with
  | Some (_, g) =>
      match g_wan_member_indices g with
      | first :: _ =>
          match c_wans config !! Z.to_nat first with
          | Some w =>
              [snprintf 512 "ip rule del from %s lookup %u 2>/dev/null || true; ip rule add from %s lookup %u priority %u 2>/dev/null || true"
                 [FS (pr_subnet_str pr); FN (w_table_id w); FS (pr_subnet_str pr); FN (w_table_id w); FN (u32 (500 + p))]]
          | None => []
          end
      | [] => []
      end
  | None => []
  end.
Definition policy_route_cmds (config : fluxwan_config_t) (p : Z) (pr : policy_route_t) : list cstring :=
  if pr_enabled pr && negb (empty (pr_gateway_ip_str pr)) then
    snprintf 512 "ip addr add %s/%u dev %s 2>/dev/null || true"
      [FS (pr_gateway_ip_str pr); FN (or_default (pr_prefix_len pr) 24); FS (lan_name (c_lan config))]
    :: group_rule config p pr
  else [].
Definition net_apply_policy_routes (config : fluxwan_config_t) : list cstring :=
  concat (imap (fun p pr => policy_route_cmds config (Z.of_nat p) pr) (lan_policy_routes (c_lan config))).

(** ** Queues and limits *)

Definition qdisc_del (dev : cstring) : cstring := snprintf 256 "tc qdisc del dev %s root 2>/dev/null || true" [FS dev].
Definition cake_cmd (dev : cstring) (mbps : Z) (diffserv : bool) (tail : cstring) : cstring :=
  let d := if diffserv then bytes_of_string "diffserv4" else bytes_of_string "besteffort" in
  if 0 <? mbps
  then snprintf 512 "tc qdisc replace dev %s root cake bandwidth %ubit %s %s 2>/dev/null || true" [FS dev; FN (u64 (mbps * 1000000)); FS d; FS tail]
  else snprintf 512 "tc qdisc replace dev %s root cake %s %s 2>/dev/null || true" [FS dev; FS d; FS tail].
Definition fq_codel_cmd (dev : cstring) : cstring :=
  snprintf 512 "tc qdisc replace dev %s root fq_codel limit 1024 target 5ms interval 100ms 2>/dev/null || true" [FS dev].
(** The rate of an uplink: its own, or an equal part of the total. *)
Definition up_rate (config : fluxwan_config_t) (w : wan_config_t) : Z :=
  or_default (w_bandwidth_up_mbps w)
    (qos_bandwidth_up_mbps (lan_qos (c_lan config)) / or_default (Z.of_nat (length (c_wans config))) 1).
Definition net_apply_qos (config : fluxwan_config_t) : list cstring :=
  let qos := lan_qos (c_lan config) in
  let lan := lan_or_eth0 config in
  if negb (qos_enabled qos) then qdisc_del lan :: (qdisc_del ∘ w_name <$> c_wans config)
  else if str_eq (qos_algorithm qos) "cake" then
    cake_cmd lan (qos_bandwidth_down_mbps qos) (qos_diffserv4 qos) "nonat dual-dsthost"
    :: ((fun w => cake_cmd (w_name w) (up_rate config w) (qos_diffserv4 qos) "nat dual-srchost") <$> List.filter carries (c_wans config))
  else fq_codel_cmd lan :: (fq_codel_cmd ∘ w_name <$> List.filter carries (c_wans config)).

Definition limit_cmds (i : Z) (rl : rate_limit_t) : list cstring :=
  if negb (rl_enabled rl) || empty (rl_ip_str rl) then [] else
  (if 0 <? rl_max_down_mbps rl then
     [snprintf 512 "iptables -A FLUXWAN_RATELIMIT -d %s -m hashlimit --hashlimit-above %ukb/s --hashlimit-mode dstip --hashlimit-name rl_d_%u -j DROP 2>/dev/null || true"
        [FS (rl_ip_str rl); FN (u32 (rl_max_down_mbps rl * 1024)); FN i]] else [])
  ++ (if 0 <? rl_max_up_mbps rl then
     [snprintf 512 "iptables -A FLUXWAN_RATELIMIT -s %s -m hashlimit --hashlimit-above %ukb/s --hashlimit-mode srcip --hashlimit-name rl_u_%u -j DROP 2>/dev/null || true"
        [FS (rl_ip_str rl); FN (u32 (rl_max_up_mbps rl * 1024)); FN i]] else []).
Definition net_apply_rate_limits (config : fluxwan_config_t) : list cstring :=
  [ipt "-F FLUXWAN_RATELIMIT"; ipt "-N FLUXWAN_RATELIMIT"; ipt "-D FORWARD -j FLUXWAN_RATELIMIT"; ipt "-I FORWARD 1 -j FLUXWAN_RATELIMIT"]
  ++ concat (imap (fun i rl => limit_cmds (Z.of_nat i) rl) (lan_rate_limits (c_lan config))).

(** ** Application steering *)

(** The index of the uplink that is named, or else of the healthy one with the least metric. *)
Fixpoint best_wan (primary : Z) (metric : wan_config_t -> Z) (i best least : Z) (wans : list wan_config_t) : Z :=
  match wans with
  | [] => best
  | w :: wans =>
      if (0 <? primary) && (w_id w =? primary) then i
      else if w_enabled w && bool_decide (w_state w = WAN_STATE_HEALTHY) && (metric w <? least)
      then best_wan primary metric (i + 1) i (metric w) wans
      else best_wan primary metric (i + 1) best least wans
  end.
Definition rtt (w : wan_config_t) : Z := m_rtt_ms (w_metrics w).
Definition jitter (w : wan_config_t) : Z := m_jitter_ms (w_metrics w).
Definition gaming_wan (config : fluxwan_config_t) : Z :=
  best_wan (as_primary_gaming_wan_id (c_app_steering config)) rtt 0 0 999999 (c_wans config).
Definition voip_wan (config : fluxwan_config_t) : Z :=
  best_wan (as_primary_voip_wan_id (c_app_steering config)) jitter 0 0 999999 (c_wans config).

Definition steer_cmd (lan ports : cstring) (mark : Z) : cstring :=
  snprintf 512 "iptables -t mangle -A FLUXWAN_STEER -i %s -p udp %s -j MARK --set-mark 0x%x 2>/dev/null || true" [FS lan; FS ports; FN mark].
Definition net_apply_app_steering (config : fluxwan_config_t) : list cstring :=
  let lan := lan_or_eth0 config in
  let steer on wan ports :=
    if on && negb (bool_decide (c_wans config = [])) then (fun p => steer_cmd lan p (wan_mark wan)) <$> ports else [] in
  [ipt "-t mangle -F FLUXWAN_STEER"; ipt "-t mangle -N FLUXWAN_STEER"; ipt "-t mangle -D PREROUTING -j FLUXWAN_STEER";
   ipt "-t mangle -I PREROUTING 2 -j FLUXWAN_STEER"]
  ++ steer (as_gaming_steering_enabled (c_app_steering config)) (gaming_wan config)
       [bytes_of_string "-m multiport --dports 3074,3478,3479,3480,27015,27020,27031,27036"; bytes_of_string "--dport 27000:27050";
        bytes_of_string "--dport 5000:5500"]
  ++ steer (as_voip_steering_enabled (c_app_steering config)) (voip_wan config)
       [bytes_of_string "-m multiport --dports 5060,5061"; bytes_of_string "--dport 10000:20000"].

(** ** Names and inspection *)

Definition net_apply_dns_features (config : fluxwan_config_t) : list cstring :=
  [ipt "-t nat -F FLUXWAN_DNS"; ipt "-t nat -N FLUXWAN_DNS"; ipt "-t nat -D PREROUTING -j FLUXWAN_DNS"; ipt "-t nat -I PREROUTING 1 -j FLUXWAN_DNS";
   snprintf 512
     "iptables -t nat -A FLUXWAN_DNS -i %s -p udp --dport 53 -j REDIRECT --to-ports 53 2>/dev/null || true; iptables -t nat -A FLUXWAN_DNS -i %s -p tcp --dport 53 -j REDIRECT --to-ports 53 2>/dev/null || true"
     [FS (lan_or_eth0 config); FS (lan_or_eth0 config)]].

Definition dpi_chains (verb : string) : list cstring :=
  (fun c : string => ipt (sprintf verb [FS c])) <$> ["FLUXWAN_DPI"; "FLUXWAN_DPI_QOS"; "FLUXWAN_DPI_ACCT"]%string.
(** A signature and the mark of its application in bits 16 to 23 of the connection mark. *)
Definition signature (m : string) (app : string) : cstring :=
  ipt (sprintf "-t mangle -A FLUXWAN_DPI %s -j CONNMARK --set-xmark %s/0x00ff0000" [FS (dq m); FS app]).
Definition site (host app : string) : cstring :=
  ipt (sprintf (dq "-t mangle -A FLUXWAN_DPI -m string --string `%s` --algo bm -j CONNMARK --set-xmark %s/0x00ff0000") [FS host; FS app]).
Definition dscp (app class : string) : cstring :=
  ipt (sprintf "-t mangle -A FLUXWAN_DPI_QOS -m connmark --mark %s/0x00ff0000 -j DSCP --set-dscp-class %s" [FS app; FS class]).
Definition account (app name : string) : cstring :=
  ipt (sprintf "-t mangle -A FLUXWAN_DPI_ACCT -m connmark --mark %s/0x00ff0000 -m comment --comment '%s'" [FS app; FS name]).
Definition dpi_signatures : list cstring :=
  [site "googlevideo.com" "0x00100000"; site "youtube.com" "0x00100000"; site "ytimg.com" "0x00100000";
   site "byteoversea.com" "0x00200000"; site "tiktokv.com" "0x00200000"; site "musical.ly" "0x00200000"; site "ibytedtos.com" "0x00200000";
   site "netflix.com" "0x00300000"; site "nflxvideo.net" "0x00300000"; site "nflxext.com" "0x00300000";
   site "zoom.us" "0x00400000"; signature "-p udp -m multiport --dports 8801,8802" "0x00400000";
   site "teams.microsoft.com" "0x00500000"; site "skype.com" "0x00500000";
   site "steampowered.com" "0x00600000"; site "steamcontent.com" "0x00600000";
   signature "-m string --hex-string `|13426974546f7272656e742070726f746f636f6c|` --algo bm" "0x00700000";
   signature "-p tcp -m multiport --dports 6881:6889,51413" "0x00700000"; signature "-p udp -m multiport --dports 6881:6889,51413" "0x00700000"].
Definition net_apply_dpi (config : fluxwan_config_t) : list cstring :=
  let dpi := c_dpi config in
  dpi_chains "-t mangle -F %s" ++ dpi_chains "-t mangle -D PREROUTING -j %s" ++
  if negb (dpi_enabled dpi) then [] else
  dpi_chains "-t mangle -N %s" ++
  [ipt "-t mangle -I PREROUTING 1 -j FLUXWAN_DPI"; ipt "-t mangle -I PREROUTING 2 -j FLUXWAN_DPI_QOS"; ipt "-t mangle -A PREROUTING -j FLUXWAN_DPI_ACCT";
   ipt "-t mangle -A FLUXWAN_DPI -m connmark ! --mark 0/0x00ff0000 -j RETURN"] ++
  dpi_signatures ++
  (if dpi_voip_priority_enabled dpi then [dscp "0x00400000" "EF"; dscp "0x00500000" "EF"] else []) ++
  (if dpi_gaming_priority_enabled dpi then [dscp "0x00600000" "CS5"] else []) ++
  [dscp "0x00700000" "CS1"] ++
  (if dpi_p2p_throttle_enabled dpi then
     [snprintf 512
        "iptables -t mangle -A FLUXWAN_DPI_QOS -m connmark --mark 0x00700000/0x00ff0000 -m hashlimit --hashlimit-above %ukb/s --hashlimit-mode dstip --hashlimit-name p2p_throttle -j DROP 2>/dev/null || true"
        [FN (or_default (dpi_p2p_throttle_rate_kbps dpi) 512)]] else []) ++
  [account "0x00100000" "YouTube"; account "0x00200000" "TikTok"; account "0x00300000" "Netflix"; account "0x00400000" "Zoom";
   account "0x00500000" "Teams"; account "0x00600000" "Steam"; account "0x00700000" "BitTorrent";
   ipt "-t mangle -A FLUXWAN_DPI_ACCT -m comment --comment 'Other'"].

(** ** Weighted choice

    The rules of a chain that spread new flows over uplinks.  A rule without a probability takes every
    flow that has no mark yet; one with a probability takes that part of them. *)

Abbreviation split_rule := (option cstring * Z)%type.
(** Weight and index of each uplink in the order of the chain; the flag tells that none may follow. *)
Fixpoint split_rules (uplinks : list (Z * Z * bool)) (remaining : Z) : list split_rule :=
  match uplinks with
  | [] => []
  | (weight, i, last) :: uplinks =>
      if last || (remaining =? weight)
      then (None, wan_mark i) :: split_rules uplinks remaining
      else (Some (fmt4 (double_div weight remaining)), wan_mark i) :: split_rules uplinks (u32 (remaining - weight))
  end.
Fixpoint total_weight (weights : list Z) (sum : Z) : Z :=
  match weights with
  | [] => sum
  | w :: weights => total_weight weights (u32 (sum + w))
  end.

(** ** Address lists *)

Definition isalnum (c : Z) : bool := isdigit c || ((65 <=? c) && (c <=? 90)) || ((97 <=? c) && (c <=? 122)).
Definition set_char (c : Z) : Z := if isalnum c || (c =? 95) || (c =? 45) then tolower c else 95.
(** The buffer of the result has 64 bytes, so that the bound is 28 characters. *)
Definition sanitize_set_name (in_name : cstring) : cstring := bytes_of_string "fw_" ++ (set_char <$> take 25 in_name).
Definition set_name (al : address_list_t) : cstring := sanitize_set_name (al_name al).
Definition tmp_set (al : address_list_t) : cstring := take 31 (snprintf 80 "t_%s" [FS (set_name al)]).
Definition subchain (al : address_list_t) : cstring := take 28 (snprintf 80 "FW_L_%s" [FS (set_name al)]).

Definition ipset_add (set addr : cstring) : cstring := snprintf 512 "ipset add %s %s -exist 2>/dev/null || true" [FS set; FS addr].
Definition add_entry (set : cstring) (e : address_list_entry_t) : sys unit :=
  if empty (ae_value e) then mret tt
  else if bool_decide (ae_type e = ADDR_ENTRY_IP) then safe_system (ipset_add set (ae_value e))
  else addrs ← getaddrinfo (ae_value e); run_all ((fun a => ipset_add set (ip_to_str a)) <$> (addrs : list Z)).
Fixpoint add_entries (set : cstring) (l : list address_list_entry_t) : sys unit :=
  match l with
  | [] => mret tt
  | e :: l => add_entry set e;; add_entries set l
  end.

Definition target_wan (config : fluxwan_config_t) (al : address_list_t) : option (nat * wan_config_t) :=
  list_find (fun w => w_id w = al_target_id al \/ (al_target_name al <> [] /\ (w_label w = al_target_name al \/ w_name w = al_target_name al)))
    (c_wans config).
Definition target_group (config : fluxwan_config_t) (al : address_list_t) : option (nat * wan_group_t) :=
  list_find (fun g => g_id g = al_target_id al \/ (al_target_name al <> [] /\ g_name g = al_target_name al)) (c_groups config).
(** The members that take flows: index and weight. *)
Definition active_members (config : fluxwan_config_t) (g : wan_group_t) : list (Z * Z) :=
  omap (fun i => match c_wans config !! Z.to_nat i with
                 | Some w => if active w then Some (w_dynamic_weight w, i) else None
                 | None => None
                 end) (g_wan_member_indices g).
Fixpoint mark_last (l : list (Z * Z)) : list (Z * Z * bool) :=
  match l with
  | [] => []
  | x :: l => (x.1, x.2, bool_decide (l = [])) :: mark_last l
  end.

Definition mark_set_cmds (set : cstring) (mark : Z) : list cstring :=
  [snprintf 512 "iptables -t mangle -A FLUXWAN_ADDRLIST -m set --match-set %s dst -j MARK --set-mark 0x%x 2>/dev/null || true" [FS set; FN mark];
   snprintf 512 "iptables -t mangle -A FLUXWAN_ADDRLIST -m set --match-set %s dst -j CONNMARK --save-mark --mask 0x0000ffff 2>/dev/null || true" [FS set]].
Definition split_cmd (chain : cstring) (r : split_rule) : cstring :=
  match r with
  | (None, mark) => snprintf 512 "iptables -t mangle -A %s -m mark --mark 0 -j MARK --set-mark 0x%x 2>/dev/null || true" [FS chain; FN mark]
  | (Some prob, mark) =>
      snprintf 512 "iptables -t mangle -A %s -m mark --mark 0 -m statistic --mode random --probability %s -j MARK --set-mark 0x%x 2>/dev/null || true"
        [FS chain; FS prob; FN mark]
  end.
Definition group_cmds (config : fluxwan_config_t) (al : address_list_t) (g : wan_group_t) : list cstring :=
  let members := active_members config g in
  let total := total_weight members.*1 0 in
  match members with
  | [(_, i)] => mark_set_cmds (set_name al) (wan_mark i)
  | _ =>
      if (1 <? Z.of_nat (length members)) && (0 <? total) then
        let chain := subchain al in
        [snprintf 512 "iptables -t mangle -F %s 2>/dev/null || true" [FS chain]; snprintf 512 "iptables -t mangle -N %s 2>/dev/null || true" [FS chain];
         snprintf 512 "iptables -t mangle -A FLUXWAN_ADDRLIST -m set --match-set %s dst -j %s 2>/dev/null || true" [FS (set_name al); FS chain]]
        ++ (split_cmd chain <$> split_rules (mark_last members) total)
        ++ [snprintf 512 "iptables -t mangle -A %s -j CONNMARK --save-mark --mask 0x0000ffff 2>/dev/null || true" [FS chain]]
      else []
  end.
Definition steer_list (config : fluxwan_config_t) (al : address_list_t) : list cstring :=
  if str_eq (al_target_type al) "wan" then
    match target_wan config al with Some (i, _) => mark_set_cmds (set_name al) (wan_mark (Z.of_nat i)) | None => [] end
  else match target_group config al with Some (_, g) => group_cmds config al g | None => [] end.

Definition apply_list (config : fluxwan_config_t) (al : address_list_t) : sys unit :=
  if negb (al_enabled al) || bool_decide (al_entries al = []) then mret tt else
  let set := set_name al in
  let tmp := tmp_set al in
  let create s := snprintf 512 "ipset create %s hash:net maxelem 65536 -exist 2>/dev/null || true" [FS s] in
  run_all [create set; create tmp; snprintf 512 "ipset flush %s 2>/dev/null || true" [FS tmp]];;
  add_entries tmp (al_entries al);;
  run_all ([snprintf 512 "ipset swap %s %s 2>/dev/null || true" [FS set; FS tmp]; snprintf 512 "ipset destroy %s 2>/dev/null || true" [FS tmp]]
           ++ steer_list config al).
Fixpoint apply_lists (config : fluxwan_config_t) (l : list address_list_t) : sys unit :=
  match l with
  | [] => mret tt
  | al :: l => apply_list config al;; apply_lists config l
  end.
Definition net_apply_address_lists (config : fluxwan_config_t) : sys unit :=
  run_all [ipt "-t mangle -N FLUXWAN_ADDRLIST"; ipt "-t mangle -F FLUXWAN_ADDRLIST";
    bytes_of_string "iptables -t mangle -C PREROUTING -j FLUXWAN_ADDRLIST 2>/dev/null || iptables -t mangle -I PREROUTING 6 -j FLUXWAN_ADDRLIST 2>/dev/null || true";
    ipt_once "-t mangle " "OUTPUT -j FLUXWAN_ADDRLIST"; ipt "-t mangle -A FLUXWAN_ADDRLIST -m mark ! --mark 0 -j RETURN"];;
  apply_lists config (c_address_lists config).

(** ** The shield of the uplinks *)

Inductive rule_match :=
  | OnDev (pattern : cstring)
  | NotOnDev (pattern : cstring)
  | FromNet (net : cstring)
  | CtState (states : list string)
  | Proto (p : string)
  | UdpPorts (sport dport : Z).
Inductive verdict := ACCEPT | DROP.
#[export] Instance verdict_eq_dec : EqDecision verdict.
Proof. solve_decision. Defined.

(** A rule, whether the legacy tool is a second try, and the size of the buffer that its command is
    printed to; a command without a name in it is a literal. *)
Record shield_rule := ShieldRule {
  sr_match : list rule_match;
  sr_target : verdict;
  sr_both : bool;
  sr_buf : option Z
}.

Definition match_text (m : rule_match) : cstring :=
  match m with
  | OnDev d => sprintf "-i %s " [FS d]
  | NotOnDev d => sprintf "! -i %s " [FS d]
  | FromNet n => sprintf "-s %s " [FS n]
  | CtState l => sprintf "-m conntrack --ctstate %s " [FS (String.concat "," l)]
  | Proto p => sprintf "-p %s " [FS p]
  | UdpPorts s d => sprintf "-p udp --sport %u --dport %u " [FN s; FN d]
  end.
Definition rule_args (r : shield_rule) : cstring :=
  sprintf "-A FLUXWAN_WAN_SHIELD %s-j %s"
    [FS (concat (match_text <$> sr_match r)); FS (match sr_target r with ACCEPT => bytes_of_string "ACCEPT" | DROP => bytes_of_string "DROP" end)].
Definition rule_text (r : shield_rule) : cstring := if sr_both r then ipt_both (rule_args r) else ipt (rule_args r).
Definition rule_cmd (r : shield_rule) : cstring := from_option (fun n => str_trunc n (rule_text r)) (rule_text r) (sr_buf r).

Definition allow_rules (config : fluxwan_config_t) : list shield_rule :=
  [ShieldRule [OnDev "lo"] ACCEPT true None]
  ++ (if empty (lan_name (c_lan config)) then [] else [ShieldRule [OnDev (lan_name (c_lan config))] ACCEPT true (Some 512)])
  ++ [ShieldRule [OnDev "wg+"] ACCEPT true None; ShieldRule [OnDev "zt+"] ACCEPT true None; ShieldRule [OnDev "tailscale+"] ACCEPT true None]
  ++ (if ps_enabled (c_pppoe_server config) && negb (empty (ps_local_ip (c_pppoe_server config)))
      then [ShieldRule [FromNet "10.0.0.0/8"] ACCEPT false None; ShieldRule [FromNet "10.100.0.0/16"] ACCEPT false None] else [])
  ++ [ShieldRule [CtState ["ESTABLISHED"; "RELATED"]%string] ACCEPT true None; ShieldRule [CtState ["INVALID"]%string] DROP true None;
      ShieldRule [UdpPorts 67 68] ACCEPT true None].
Definition wan_drop_rules (w : wan_config_t) : list shield_rule :=
  [ShieldRule [OnDev (w_name w); Proto "icmp"] DROP true (Some 1024); ShieldRule [OnDev (w_name w)] DROP true (Some 1024)].
Definition drop_rules (config : fluxwan_config_t) : list shield_rule :=
  [ShieldRule [OnDev "ppp+"; Proto "icmp"] DROP false None; ShieldRule [OnDev "ppp+"] DROP false None;
   ShieldRule [OnDev "macvlan+"] DROP false None; ShieldRule [OnDev "mv_+"] DROP false None; ShieldRule [OnDev "wlan+"] DROP false None]
  ++ (if empty (lan_name (c_lan config)) then [] else [ShieldRule [NotOnDev (lan_name (c_lan config))] DROP true (Some 512)]).
Definition named_wans (config : fluxwan_config_t) : list wan_config_t := List.filter (fun w => negb (empty (w_name w))) (c_wans config).
(** The chain as the commands leave it, after it is flushed. *)
Definition shield_rules (config : fluxwan_config_t) : list shield_rule :=
  allow_rules config ++ concat (wan_drop_rules <$> named_wans config) ++ drop_rules config.

Definition hardening : list (string * string) :=
  [("tcp_timestamps", "0"); ("tcp_sack", "1"); ("tcp_dsack", "0"); ("tcp_fack", "0"); ("tcp_rfc1337", "1"); ("tcp_syncookies", "1");
   ("icmp_echo_ignore_broadcasts", "1"); ("icmp_ignore_bogus_error_responses", "1"); ("conf/all/send_redirects", "0");
   ("conf/default/send_redirects", "0"); ("conf/all/accept_redirects", "0"); ("conf/default/accept_redirects", "0");
   ("conf/all/accept_source_route", "0"); ("conf/default/accept_source_route", "0")]%string.
Definition write_sysctl (name : cstring) (value : cstring) : sys unit :=
  safe_write_proc (sprintf "/proc/sys/net/ipv4/%s" [FS name]) (value ++ [10]);; mret tt.
Fixpoint write_sysctls (l : list (string * string)) : sys unit :=
  match l with
  | [] => mret tt
  | (n, v) :: l => write_sysctl n v;; write_sysctls l
  end.
(** [snprintf] of a path below [/proc/sys/net/ipv4/conf] with a buffer of 128 bytes. *)
Definition write_conf (dev key value : cstring) : sys unit :=
  safe_write_proc (snprintf 128 "/proc/sys/net/ipv4/conf/%s/%s" [FS dev; FS key]) (value ++ [10]);; mret tt.

Fixpoint shield_wans (l : list wan_config_t) : sys unit :=
  match l with
  | [] => mret tt
  | w :: l =>
      run_all (rule_cmd <$> wan_drop_rules w);;
      write_conf (w_name w) "send_redirects" "0";; write_conf (w_name w) "accept_redirects" "0";;
      shield_wans l
  end.

Definition ttl_cmd (ttl : Z) (dev : string) : cstring :=
  snprintf 256 "iptables -t mangle -A FLUXWAN_STEALTH_TTL -o %s -j TTL --ttl-set %u 2>/dev/null || true" [FS dev; FN ttl].
Definition stealth_cmds (config : fluxwan_config_t) : list cstring :=
  let st := c_stealth config in
  let ttl := or_default (st_ttl_value st) 65 in
  [ipt_both "-t mangle -N FLUXWAN_STEALTH_TTL"; ipt_both "-t mangle -F FLUXWAN_STEALTH_TTL"; ipt_both "-t mangle -D POSTROUTING -j FLUXWAN_STEALTH_TTL"]
  ++ (if st_enabled st then
        [ipt_both "-t mangle -A POSTROUTING -j FLUXWAN_STEALTH_TTL";
         snprintf 64 "echo %u > /run/fluxwan_stealth_ttl 2>/dev/null || true" [FN ttl]]
        ++ ((fun w => str_trunc 512 (ipt_both (sprintf "-t mangle -A FLUXWAN_STEALTH_TTL -o %s -j TTL --ttl-set %u" [FS (w_name w); FN ttl])))
              <$> named_wans config)
        ++ (ttl_cmd ttl <$> ["ppp+"; "macvlan+"; "mv_+"; "wlan+"]%string)
      else [])
  ++ [ipt "-D OUTPUT -p icmp --icmp-type time-exceeded -j DROP"; ipt "-D OUTPUT -p icmp --icmp-type destination-unreachable -j DROP"]
  ++ (if st_enabled st && st_cloak_traceroute st
      then [ipt "-A OUTPUT -p icmp --icmp-type time-exceeded -j DROP"; ipt "-A OUTPUT -p icmp --icmp-type destination-unreachable -j DROP"] else []).
Definition redirect_cmds (config : fluxwan_config_t) : list cstring :=
  let lan := lan_name (c_lan config) in
  let ip := ip_to_str (lan_ip_addr (c_lan config)) in
  let dest := if str_eq ip "0.0.0.0" then bytes_of_string "-m addrtype --dst-type LOCAL" else sprintf "-d %s" [FS ip] in
  ipt "-t nat -D PREROUTING -p tcp --dport 80 -j REDIRECT --to-ports 8080"
  :: (if empty lan then [] else
      [snprintf 1024
         "iptables -t nat -D PREROUTING -i %s -p tcp --dport 80 -j REDIRECT --to-ports 8080 2>/dev/null || true; iptables -t nat -C PREROUTING -i %s %s -p tcp --dport 80 -j REDIRECT --to-ports 8080 2>/dev/null || iptables -t nat -A PREROUTING -i %s %s -p tcp --dport 80 -j REDIRECT --to-ports 8080 2>/dev/null || true"
         [FS lan; FS lan; FS dest; FS lan; FS dest]]).

Definition net_apply_wan_shield (config : fluxwan_config_t) : sys unit :=
  write_sysctls hardening;;
  run_all [ipt_both "-N FLUXWAN_WAN_SHIELD"; ipt_both "-F FLUXWAN_WAN_SHIELD"; ipt_both "-D INPUT -j FLUXWAN_WAN_SHIELD";
           ipt_both "-I INPUT 1 -j FLUXWAN_WAN_SHIELD"];;
  run_all (rule_cmd <$> allow_rules config);;
  shield_wans (named_wans config);;
  run_all (rule_cmd <$> drop_rules config);;
  run_all (stealth_cmds config);;
  run_all (redirect_cmds config).

(** ** Shares of a weighted choice *)

(** The part of the flows that a rule takes of those that reach it, as iptables reads the text. *)
Definition rule_prob (r : split_rule) : Q := from_option atof 1%Q r.1.
(** The parts of all flows, [left] of which reach the first rule. *)
Fixpoint shares (rules : list split_rule) (left : Q) : list Q :=
  match rules with
  | [] => []
  | r :: rules => (left * rule_prob r)%Q :: shares rules (left * (1 - rule_prob r))%Q
  end.
Definition weight_of (u : Z * Z * bool) : Z := u.1.1.
Definition sum_weights (l : list (Z * Z * bool)) : Z := foldr Z.add 0 (weight_of <$> l).
(** Weights are positive and only the last uplink may be flagged. *)
Fixpoint uplinks_ok (l : list (Z * Z * bool)) : Prop :=
  match l with
  | [] => True
  | u :: l => 0 < weight_of u /\ (u.2 = true -> l = []) /\ uplinks_ok l
  end.

Definition eps : Q := 51 # 1000000.
Definition within (d x y : Q) : Prop := (- d <= x - y <= d)%Q.
Definition unit_interval (x : Q) : Prop := (0 <= x <= 1)%Q.

Lemma within_mul d x y p q :
  within d x y -> within eps p q -> unit_interval y -> unit_interval p -> (0 <= d)%Q ->
  within (d + eps) (x * p) (y * q) /\ within (d + eps) (x * (1 - p)) (y * (1 - q)).
Proof. unfold within, unit_interval, eps. intros [H1 H2] [H3 H4] [H5 H6] [H7 H8] Hd. split; split; nra. Qed.

Lemma sum_weights_nonneg l : uplinks_ok l -> 0 <= sum_weights l /\ (l <> [] -> 0 < sum_weights l).
Proof.
  induction l as [|u l IH]; [done|]. cbn [uplinks_ok]. intros (Hw & _ & Hl). destruct (IH Hl) as [H _]. unfold sum_weights in *. cbn. lia.
Qed.

(** The probability of a rule against the exact quotient. *)
Lemma prob_error a b :
  0 < a -> a < b -> let p := atof (fmt4 (double_div a b)) in within eps p (inject_Z a / inject_Z b) /\ unit_interval p.
Proof.
  intros Ha Hb p. subst p. pose proof (fmt4_value a b Ha Hb) as E. pose proof (ten_thousandths_error a b Ha Hb) as Hr.
  pose proof (ten_thousandths_range a b Ha Hb) as Ht. set (t := ten_thousandths _) in *. unfold within, unit_interval. rewrite E. clear E. clearbody t.
  assert (Hbq : (0 < inject_Z b)%Q) by (change 0%Q with (inject_Z 0); rewrite <- Zlt_Qlt; lia).
  assert (H1 : (0 <= inject_Z t <= 10000)%Q) by (change 10000%Q with (inject_Z 10000); change 0%Q with (inject_Z 0); rewrite <- !Zle_Qle; lia).
  assert (H2 : (- (51 * inject_Z b) <= 100 * (inject_Z t * inject_Z b - 10000 * inject_Z a) <= 51 * inject_Z b)%Q).
  { change 51%Q with (inject_Z 51). change 100%Q with (inject_Z 100). change 10000%Q with (inject_Z 10000). unfold Qminus.
    rewrite <- !inject_Z_mult, <- !inject_Z_opp, <- !inject_Z_plus, <- !inject_Z_mult, <- !Zle_Qle. lia. }
  change (inject_Z 10000) with 10000%Q. set (B := inject_Z b) in *. set (A := inject_Z a) in *. set (T := inject_Z t) in *. clearbody A B T.
  assert (E : (T / 10000 - A / B == (T * B - 10000 * A) / (10000 * B))%Q) by (field; lra).
  split; [|split; [apply Qle_shift_div_l|apply Qle_shift_div_r]; lra]. unfold eps. rewrite E.
  split; [apply Qle_shift_div_l; [lra|]; lra|apply Qle_shift_div_r; [lra|]; lra].
Qed.

#[export] Instance within_proper : Proper (Qeq ==> Qeq ==> Qeq ==> iff) within.
Proof. intros d d' Hd x x' Hx y y' Hy. unfold within. by rewrite Hd, Hx, Hy. Qed.
Lemma within_weaken d d' x y : within d x y -> (d <= d')%Q -> within d' x y.
Proof. unfold within. intros [H1 H2] Hd. split; lra. Qed.

(** One uplink of the chain: nothing follows and it takes what is left, or its rule has a probability. *)
Lemma split_step u l :
  uplinks_ok (u :: l) -> is_u32 (sum_weights (u :: l)) ->
  let rem := sum_weights (u :: l) in
  (l = [] /\ split_rules (u :: l) rem = [(None, wan_mark u.1.2)] /\ weight_of u = rem)
  \/ (l <> [] /\ 0 < weight_of u < rem
      /\ split_rules (u :: l) rem = (Some (fmt4 (double_div (weight_of u) rem)), wan_mark u.1.2) :: split_rules l (sum_weights l)).
Proof.
  destruct u as [[w i] b]. intros (Hw & Hb & Hl) Hr rem. destruct (sum_weights_nonneg l Hl) as [_ Hs]. unfold weight_of in *. cbn in Hw, Hb.
  assert (Er : rem = w + sum_weights l) by done. clearbody rem. cbn [split_rules fst snd]. destruct (decide (l = [])) as [->|Hne].
  - left. rewrite (proj2 (Z.eqb_eq rem w)) by (rewrite Er; cbn; lia). rewrite orb_true_r. split_and!; [done|done|rewrite Er; cbn; lia].
  - right. specialize (Hs Hne). destruct b; [by specialize (Hb eq_refl)|]. rewrite (proj2 (Z.eqb_neq rem w)) by lia. cbn [orb].
    unfold sum_weights in Hr. cbn in Hr. fold (sum_weights l) in Hr. unfold weight_of in Hr. cbn in Hr.
    rewrite u32_small by cint. replace (rem - w) with (sum_weights l) by lia. split_and!; [done|lia|lia|done].
Qed.

Lemma quotient_steps w rem total :
  0 < rem -> 0 < total ->
  (inject_Z rem / inject_Z total * (inject_Z w / inject_Z rem) == inject_Z w / inject_Z total)%Q
  /\ (inject_Z rem / inject_Z total * (1 - inject_Z w / inject_Z rem) == inject_Z (rem - w) / inject_Z total)%Q.
Proof.
  intros Hr Ht. assert ((0 < inject_Z rem)%Q /\ (0 < inject_Z total)%Q) by (change 0%Q with (inject_Z 0); rewrite <- !Zlt_Qlt; lia).
  unfold Z.sub. rewrite inject_Z_plus, inject_Z_opp. split; field; lra.
Qed.
Lemma quotient_unit a b : 0 <= a <= b -> 0 < b -> unit_interval (inject_Z a / inject_Z b).
Proof.
  intros Ha Hb. assert ((0 < inject_Z b)%Q /\ (0 <= inject_Z a <= inject_Z b)%Q)
    by (change 0%Q with (inject_Z 0); rewrite <- !Zlt_Qlt, <- !Zle_Qle; lia).
  split; [apply Qle_shift_div_l|apply Qle_shift_div_r]; lra.
Qed.

Lemma split_shares total l d left k u :
  uplinks_ok l -> sum_weights l <= total -> is_u32 total -> (0 <= d)%Q ->
  within d left (inject_Z (sum_weights l) / inject_Z total) -> l !! k = Some u ->
  exists x, shares (split_rules l (sum_weights l)) left !! k = Some x
            /\ within (d + inject_Z (Z.of_nat (S k)) * eps) x (inject_Z (weight_of u) / inject_Z total).
Proof.
  revert d left k. induction l as [|v l IH]; intros d left k Hl Hle Ht Hd Hw Hk; [done|]. destruct (sum_weights_nonneg _ Hl) as [Hs Hp].
  specialize (Hp ltac:(done)). destruct (split_step v l Hl ltac:(cint)) as [(-> & -> & Ev)|(Hne & Hv & ->)].
  { destruct k as [|k]; [|done]. cbn in Hk. injection Hk as <-. exists (left * 1)%Q. split; [done|]. rewrite Qmult_1_r, Ev.
    apply (within_weaken _ _ _ _ Hw). unfold eps. change (inject_Z (Z.of_nat 1)) with 1%Q. lra. }
  destruct (prob_error _ _ (proj1 Hv) (proj2 Hv)) as [Hq Hu]. cbn [shares]. unfold rule_prob at 1 2. cbn [from_option fst].
  set (p := atof _) in *. clearbody p. destruct (quotient_steps (weight_of v) (sum_weights (v :: l)) total Hp ltac:(lia)) as [E1 E2].
  destruct (within_mul _ _ _ _ _ Hw Hq (quotient_unit _ _ (conj Hs Hle) ltac:(lia)) Hu Hd) as [S1 S2]. rewrite E1 in S1. rewrite E2 in S2.
  destruct k as [|k]; cbn in Hk.
  { injection Hk as <-. eexists. split; [reflexivity|]. change (inject_Z (Z.of_nat 1)) with 1%Q. apply (within_weaken _ _ _ _ S1). lra. }
  assert (Es : sum_weights (v :: l) - weight_of v = sum_weights l) by (unfold sum_weights; cbn; lia). rewrite Es in S2.
  destruct Hl as (Hv0 & _ & Hl). destruct (IH (d + eps)%Q _ k Hl ltac:(lia) Ht ltac:(unfold eps; lra) S2 Hk) as (x & Hx & Hwx).
  exists x. split; [exact Hx|]. apply (within_weaken _ _ _ _ Hwx).
  replace (Z.of_nat (S (S k))) with (1 + Z.of_nat (S k)) by lia. rewrite inject_Z_plus. change (inject_Z 1) with 1%Q. lra.
Qed.

(** ** What the shield lets in *)

(** A device pattern of iptables: a name that ends in [+] stands for every name that starts like it. *)
Definition dev_matches (pattern dev : cstring) : bool :=
  if bool_decide (last pattern = Some 43) then has_prefix (removelast pattern) dev else str_eq pattern dev.

(** What the firewall of the kernel promises of the matches that the code uses. *)
Class Netfilter (packet : Type) := {
  nf_match : rule_match -> packet -> bool;
  nf_dev : packet -> cstring;
  nf_src : packet -> Z;                 (** source address, most significant byte first *)
  nf_state : packet -> string;
  nf_dhcp_reply : packet -> bool;       (** UDP from port 67 to port 68 *)
  nf_on_dev d p : nf_match (OnDev d) p = dev_matches d (nf_dev p);
  nf_not_on_dev d p : nf_match (NotOnDev d) p = negb (dev_matches d (nf_dev p));
  nf_ten_net p : nf_match (FromNet "10.0.0.0/8") p = (nf_src p / 16777216 =? 10);
  nf_ct_state l p : nf_match (CtState l) p = bool_decide (nf_state p ∈ l);
  nf_ports p : nf_match (UdpPorts 67 68) p = nf_dhcp_reply p
}.

Section Verdicts.
Context `{Netfilter packet}.

Definition rule_applies (p : packet) (r : shield_rule) : bool := forallb (fun m => nf_match m p) (sr_match r).
(** The first rule that applies decides; a packet that none applies to returns to the chain of the caller. *)
Fixpoint chain_verdict (rules : list shield_rule) (p : packet) : option verdict :=
  match rules with
  | [] => None
  | r :: rules => if rule_applies p r then Some (sr_target r) else chain_verdict rules p
  end.

Lemma verdict_app l1 l2 p :
  chain_verdict (l1 ++ l2) p = match chain_verdict l1 p with Some v => Some v | None => chain_verdict l2 p end.
Proof. induction l1 as [|r l1 IH]; [done|]. cbn [app chain_verdict]. by destruct (rule_applies p r). Qed.
Lemma verdict_drop rules p :
  Forall (fun r => sr_target r = DROP) rules -> Exists (fun r => rule_applies p r = true) rules -> chain_verdict rules p = Some DROP.
Proof.
  intros Hd He. induction He as [r l Hr|r l _ IH]; inversion_clear Hd; cbn [chain_verdict].
  - rewrite Hr. by f_equal.
  - destruct (rule_applies p r); [by f_equal|by apply IH].
Qed.

(** Devices that are trusted: the loopback device, the LAN and the tunnels. *)
Definition trusted (config : fluxwan_config_t) (dev : cstring) : Prop :=
  dev = bytes_of_string "lo"
  \/ (lan_name (c_lan config) <> [] /\ dev_matches (lan_name (c_lan config)) dev = true)
  \/ has_prefix "wg" dev = true \/ has_prefix "zt" dev = true \/ has_prefix "tailscale" dev = true.
Definition pppoe_open (config : fluxwan_config_t) : Prop :=
  ps_enabled (c_pppoe_server config) = true /\ ps_local_ip (c_pppoe_server config) <> [].

Lemma applies_one m t b n p : rule_applies p (ShieldRule [m] t b n) = nf_match m p.
Proof. unfold rule_applies. cbn [sr_match forallb]. apply andb_true_r. Qed.
Lemma empty_false s : s <> [] -> empty s = false.
Proof. intros Hs. unfold empty. by case_bool_decide. Qed.
Lemma tunnel_patterns dev :
  dev_matches "lo" dev = str_eq "lo" dev /\ dev_matches "wg+" dev = has_prefix "wg" dev
  /\ dev_matches "zt+" dev = has_prefix "zt" dev /\ dev_matches "tailscale+" dev = has_prefix "tailscale" dev.
Proof. repeat split. Qed.

Lemma allow_passes config p :
  ~ trusted config (nf_dev p) -> ~ pppoe_open config -> nf_state p = "NEW"%string -> nf_dhcp_reply p = false ->
  chain_verdict (allow_rules config) p = None.
Proof.
  intros Ht Hp Hs Hd. destruct (tunnel_patterns (nf_dev p)) as (El & Ew & Ez & Et). unfold allow_rules. rewrite !verdict_app.
  cbn [chain_verdict]. rewrite !applies_one, !nf_on_dev, !nf_ct_state, nf_ports, Hs, Hd, El, Ew, Ez, Et.
  assert (str_eq "lo" (nf_dev p) = false) as -> by (unfold str_eq; case_bool_decide as E; [|done]; exfalso; apply Ht; left; by rewrite <- E).
  assert (has_prefix "wg" (nf_dev p) = false) as -> by (apply not_true_is_false; intros E; apply Ht; unfold trusted; tauto).
  assert (has_prefix "zt" (nf_dev p) = false) as -> by (apply not_true_is_false; intros E; apply Ht; unfold trusted; tauto).
  assert (has_prefix "tailscale" (nf_dev p) = false) as -> by (apply not_true_is_false; intros E; apply Ht; unfold trusted; tauto).
  assert (chain_verdict (if empty (lan_name (c_lan config)) then [] else [ShieldRule [OnDev (lan_name (c_lan config))] ACCEPT true (Some 512)]) p = None) as ->.
  { destruct (empty _) eqn:E; [done|]. cbn [chain_verdict]. rewrite applies_one, nf_on_dev. clear El Ew Ez Et. destruct (dev_matches _ _) eqn:Em; [|done].
    exfalso. apply Ht. right. left. split; [|done]. intros E'. by rewrite E' in E. }
  clear El Ew Ez Et. destruct (_ && _) eqn:E; [|done]. exfalso. apply Hp. apply andb_prop in E as [E1 E2]. split; [done|]. intros E'. by rewrite E' in E2.
Qed.

Lemma wan_rules_drop ws : Forall (fun r => sr_target r = DROP) (concat (wan_drop_rules <$> ws)).
Proof. induction ws as [|w ws IH]; [constructor|]. cbn. by repeat constructor. Qed.
Lemma last_rules_drop config : Forall (fun r => sr_target r = DROP) (drop_rules config).
Proof. unfold drop_rules. destruct (empty _); repeat constructor. Qed.
Lemma dev_matches_refl dev : dev_matches dev dev = true.
Proof.
  unfold dev_matches. case_bool_decide as E; [|unfold str_eq; by case_bool_decide].
  apply last_Some in E as [l ->]. rewrite removelast_last. unfold has_prefix. apply bool_decide_eq_true.
  induction l as [|x l IH]; cbn; [by eexists|]. by rewrite Z.eqb_refl.
Qed.
(** C8.  With the PPPoE server off, a new packet that reaches the router from a device that is not the
    loopback device, the LAN or a tunnel, and that is not a reply to the DHCP client, is dropped: on every
    named uplink, and on any other device when the LAN has a name. *)
Theorem shield_drops_unsolicited config p :
  ~ trusted config (nf_dev p) -> ~ pppoe_open config -> nf_state p = "NEW"%string -> nf_dhcp_reply p = false ->
  (nf_dev p <> [] /\ nf_dev p ∈ w_name <$> c_wans config) \/ lan_name (c_lan config) <> [] ->
  chain_verdict (shield_rules config) p = Some DROP.
Proof.
  intros Ht Hp Hs Hd Hdev. unfold shield_rules. rewrite verdict_app, allow_passes by done. apply verdict_drop.
  - apply Forall_app. split; [apply wan_rules_drop|apply last_rules_drop].
  - destruct Hdev as [[Hne Hin]|Hlan]; apply Exists_app; [left|right].
    + apply list_elem_of_fmap in Hin as (w & Ew & Hw). apply Exists_concat, Exists_fmap, Exists_exists. exists w. split.
      { apply list_elem_of_In, filter_In. split; [by apply list_elem_of_In|]. by rewrite <- Ew, empty_false. }
      unfold wan_drop_rules. apply Exists_cons. right. apply Exists_cons. left. by rewrite applies_one, nf_on_dev, Ew, dev_matches_refl.
    + unfold drop_rules. apply Exists_app. right. rewrite empty_false by done. left. rewrite applies_one, nf_not_on_dev.
      destruct (dev_matches _ _) eqn:E; [|done]. exfalso. apply Ht. right. by left.
Qed.

(** C40.  With the PPPoE server on, a new packet whose source is in 10.0.0.0/8 is accepted from every device,
    the uplinks included, though the rule is meant for subscribers of the LAN. *)
Theorem pppoe_opens_uplinks config p :
  pppoe_open config -> nf_src p / 16777216 = 10 -> chain_verdict (shield_rules config) p = Some ACCEPT.
Proof.
  intros [Hp Hl] Hs. unfold shield_rules, allow_rules. rewrite Hp, (empty_false _ Hl). cbn [andb negb]. rewrite !verdict_app.
  cbn [chain_verdict sr_target]. rewrite !applies_one, nf_ten_net, Hs. change (10 =? 10) with true. cbv beta iota.
  destruct (empty _); cbn [chain_verdict sr_target]; rewrite ?applies_one; by repeat destruct (nf_match (OnDev _) p).
Qed.
End Verdicts.

(** ** The commands of a kind that a program gives, in order *)

Definition adds {A} (o : os) (F : call -> bool) (l : list call) (m : sys A) : Prop :=
  forall t, exists u, (m o t).2 = t ++ u /\ List.filter F u = l.

Section Adds.
Context (o : os) (F : call -> bool).

Lemma adds_ret {A} (x : A) : adds o F [] (mret x).
Proof. intros t. exists []. by rewrite app_nil_r. Qed.
Lemma adds_bind {A B} l1 l2 (m : sys A) (k : A -> sys B) : adds o F l1 m -> (forall x, adds o F l2 (k x)) -> adds o F (l1 ++ l2) (m ≫= k).
Proof.
  intros Hm Hk t. destruct (Hm t) as (u & E & Hu). unfold mbind, sys_bind. destruct (m o t) as [x t1]. cbn in E. subst t1.
  destruct (Hk x (t ++ u)) as (v & E & Hv). exists (u ++ v). rewrite E, app_assoc, List.filter_app, Hu, Hv. done.
Qed.
Lemma adds_skip {A B} l (m : sys A) (k : A -> sys B) : adds o F [] m -> (forall x, adds o F l (k x)) -> adds o F l (m ≫= k).
Proof. apply (adds_bind [] l). Qed.
Lemma adds_nothing {A} (P : call -> Prop) (Q : A -> Prop) (m : sys A) :
  runs o P Q m -> (forall c, P c -> F c = false) -> adds o F [] m.
Proof.
  intros Hm HP t. destruct (Hm t) as (u & E & Hu & _). exists u. split; [done|]. clear E.
  induction Hu as [|c u Hc Hu IH]; [done|]. cbn. by rewrite HP.
Qed.
Lemma adds_run_all cmds : F (System []) = false -> adds o F (List.filter F (System <$> cmds)) (run_all cmds).
Proof.
  intros HF. induction cmds as [|c cmds IH]; [apply adds_ret|]. cbn [run_all fmap list_fmap].
  change (System c :: (System <$> cmds)) with ([System c] ++ (System <$> cmds)). rewrite List.filter_app. apply adds_bind; [|by intros _].
  intros t. unfold safe_system. case_bool_decide as E; [exists []|exists [System c]]; cbn; [|done]. subst. by rewrite app_nil_r, HF.
Qed.
Lemma adds_rules cmds : F (System []) = false -> Forall (fun c => F (System c) = true) cmds -> adds o F (System <$> cmds) (run_all cmds).
Proof.
  intros HF Hc. replace (System <$> cmds) with (List.filter F (System <$> cmds)); [by apply adds_run_all|].
  induction Hc as [|c cmds Hc _ IH]; [done|]. cbn. by rewrite Hc, IH.
Qed.
Lemma adds_others cmds : F (System []) = false -> Forall (fun c => F (System c) = false) cmds -> adds o F [] (run_all cmds).
Proof.
  intros HF Hc. replace [] with (List.filter F (System <$> cmds)); [by apply adds_run_all|].
  induction Hc as [|c cmds Hc _ IH]; [done|]. cbn. by rewrite Hc, IH.
Qed.
Lemma adds_write_proc path value : F (WriteProc path value) = false -> adds o F [] (safe_write_proc path value).
Proof.
  intros HF. apply (adds_nothing (fun c => c = WriteProc path value) (fun _ => True)); [|by intros c ->]. unfold safe_write_proc.
  repeat run_step; done.
Qed.
End Adds.

(** Commands that append to the chain of the shield. *)
Definition shield_append (c : call) : bool :=
  match c with System cmd => has_prefix "iptables -A FLUXWAN_WAN_SHIELD " cmd | _ => false end.

Lemma has_prefix_app p s : has_prefix p (p ++ s) = true.
Proof. unfold has_prefix. apply bool_decide_eq_true. induction p as [|x p IH]; cbn; [by eexists|]. by rewrite Z.eqb_refl. Qed.
Definition append_text : cstring := "iptables -A FLUXWAN_WAN_SHIELD ".
Lemma rule_text_starts r : exists s, rule_text r = append_text ++ s.
Proof.
  destruct r as [m tg [] b]; unfold rule_text, rule_args; cbn [sr_both sr_match sr_target]; generalize (concat (match_text <$> m)); intros x;
    unfold ipt_both, ipt.
  all: eexists; cbv -[Z.add app]; reflexivity.
Qed.
Lemma rule_appends r : match sr_buf r with Some n => 512 <= n | None => True end -> shield_append (System (rule_cmd r)) = true.
Proof.
  intros Hn. destruct (rule_text_starts r) as [s E]. unfold shield_append, rule_cmd, str_trunc. rewrite E. fold append_text.
  destruct (sr_buf r) as [n|]; cbn [from_option]; [|apply has_prefix_app]. rewrite take_app_ge; [apply has_prefix_app|].
  change (length append_text) with 31%nat. lia.
Qed.

(** A command that starts differently is no rule of the shield, whatever names follow. *)
Lemma not_append k c x : append_text !! k = Some x -> c !! k <> Some x -> shield_append (System c) = false.
Proof.
  intros Hk Hc. unfold shield_append. fold append_text. unfold has_prefix. apply bool_decide_eq_false. intros [r Hr].
  apply strip_prefix_inv in Hr as ->. apply Hc. by apply lookup_app_l_Some.
Qed.
Ltac differs k x := apply (not_append k _ x); [reflexivity|lazy; discriminate].
Ltac not_rule := first [differs 0%nat 105|differs 10%nat 65|differs 12%nat 70].

Lemma stealth_no_rules config : Forall (fun c => shield_append (System c) = false) (stealth_cmds config).
Proof.
  unfold stealth_cmds. set (ttl := or_default _ _). clearbody ttl. repeat (apply Forall_app; split).
  - repeat (constructor; [not_rule|]). constructor.
  - destruct (st_enabled _); [|constructor]. repeat (apply Forall_app; split).
    + repeat (constructor; [not_rule|]). constructor.
    + apply Forall_fmap, Forall_true. intros w. unfold compose. generalize (w_name w). intros s. not_rule.
    + repeat (constructor; [not_rule|]). constructor.
  - repeat (constructor; [not_rule|]). constructor.
  - destruct (_ && _); repeat (constructor; [not_rule|]); constructor.
Qed.
Lemma redirect_no_rules config : Forall (fun c => shield_append (System c) = false) (redirect_cmds config).
Proof.
  unfold redirect_cmds. set (d := if str_eq _ _ then _ else _). clearbody d. generalize (lan_name (c_lan config)). intros lan.
  constructor; [not_rule|]. destruct (empty lan); constructor; [not_rule|constructor].
Qed.

Lemma shield_wans_adds o ws : adds o shield_append (System <$> (rule_cmd <$> concat (wan_drop_rules <$> ws))) (shield_wans ws).
Proof.
  induction ws as [|w ws IH]; [apply adds_ret|]. cbn [shield_wans]. rewrite fmap_cons. cbn [concat]. rewrite !fmap_app.
  apply adds_bind; [apply adds_rules; [done|]|].
  { repeat (constructor; [by apply rule_appends|]). constructor. }
  intros _. apply adds_skip; [apply adds_skip; [by apply adds_write_proc|intros; apply adds_ret]|intros _].
  apply adds_skip; [apply adds_skip; [by apply adds_write_proc|intros; apply adds_ret]|]. by intros _.
Qed.
Lemma sysctls_add o l : adds o shield_append [] (write_sysctls l).
Proof.
  induction l as [|[n v] l IH]; [apply adds_ret|]. cbn [write_sysctls]. apply adds_skip; [|by intros _].
  apply adds_skip; [by apply adds_write_proc|intros; apply adds_ret].
Qed.
Lemma static_rules_append rules :
  Forall (fun r => sr_buf r = None \/ sr_buf r = Some 512) rules -> Forall (fun c => shield_append (System c) = true) (rule_cmd <$> rules).
Proof. intros H. apply Forall_fmap. eapply Forall_impl; [exact H|]. intros r [E|E]; apply rule_appends; by rewrite E. Qed.

(** Whatever the system answers, the commands that append to the chain of the shield are its rules, in
    the order in which the chain evaluates them. *)
Theorem shield_commands_are_rules config o t :
  exists u, (net_apply_wan_shield config o t).2 = t ++ u
            /\ List.filter shield_append u = System ∘ rule_cmd <$> shield_rules config.
Proof.
  enough (H : adds o shield_append (System ∘ rule_cmd <$> shield_rules config) (net_apply_wan_shield config)) by apply H.
  unfold net_apply_wan_shield, shield_rules. rewrite list_fmap_compose, !fmap_app.
  apply adds_skip; [apply sysctls_add|intros _]. apply adds_skip; [apply adds_others; [done|]|intros _].
  { repeat (constructor; [not_rule|]). constructor. }
  apply (adds_bind _ _ (System <$> (rule_cmd <$> allow_rules config))); [apply adds_rules; [done|]|intros _].
  { apply static_rules_append. unfold allow_rules. destruct (empty _), (_ && _); repeat (constructor; [by auto|]); constructor. }
  apply (adds_bind _ _ (System <$> (rule_cmd <$> concat (wan_drop_rules <$> named_wans config)))); [apply shield_wans_adds|intros _]. rewrite <- (app_nil_r (System <$> (rule_cmd <$> drop_rules config))).
  apply (adds_bind _ _ (System <$> (rule_cmd <$> drop_rules config))); [apply adds_rules; [done|]|intros _].
  { apply static_rules_append. unfold drop_rules. destruct (empty _); repeat (constructor; [by auto|]); constructor. }
  apply adds_skip; [apply adds_others; [done|apply stealth_no_rules]|intros _].
  apply adds_others; [done|apply redirect_no_rules].
Qed.

(** ** Steering *)

Definition usable (w : wan_config_t) : bool := w_enabled w && bool_decide (w_state w = WAN_STATE_HEALTHY).
Definition least_of (metric : wan_config_t -> Z) (bound : Z) (ws : list wan_config_t) (w : wan_config_t) : Prop :=
  w ∈ ws /\ usable w = true /\ metric w < bound /\ forall v, v ∈ ws -> usable v = true -> metric w <= metric v.

Lemma best_wan_primary primary metric ws k w i best least :
  0 < primary -> list_find (fun w => w_id w = primary) ws = Some (k, w) -> best_wan primary metric i best least ws = i + Z.of_nat k.
Proof.
  intros Hp. revert k i best least. induction ws as [|v ws IH]; intros k i best least Hf; [done|]. cbn [list_find] in Hf. cbn [best_wan].
  rewrite (proj2 (Z.ltb_lt 0 primary)) by done. destruct (decide (w_id v = primary)) as [E|E].
  - injection Hf as <- <-. rewrite (proj2 (Z.eqb_eq _ _) E). cbn. lia.
  - rewrite (proj2 (Z.eqb_neq _ _) E). cbn [andb]. destruct (list_find _ ws) as [[k' w']|] eqn:El; [|done]. injection Hf as <- <-.
    destruct (_ && _); rewrite (IH k') by done; lia.
Qed.
Lemma best_wan_least primary metric ws i best least :
  Forall (fun w => ~ (0 < primary /\ w_id w = primary)) ws ->
  let r := best_wan primary metric i best least ws in
  (r = best /\ Forall (fun v => usable v = true -> least <= metric v) ws)
  \/ (i <= r /\ exists w, ws !! Z.to_nat (r - i) = Some w /\ least_of metric least ws w).
Proof.
  intros Hn. revert i best least. induction Hn as [|v ws Hv _ IH]; intros i best least; cbn [best_wan]; [left; by split|].
  assert ((0 <? primary) && (w_id v =? primary) = false) as -> by (destruct (Z.ltb_spec 0 primary), (Z.eqb_spec (w_id v) primary); cbn; tauto).
  fold (usable v). assert (Hs : forall b l, i + 1 <= best_wan primary metric (i + 1) b l ws ->
    (v :: ws) !! Z.to_nat (best_wan primary metric (i + 1) b l ws - i) = ws !! Z.to_nat (best_wan primary metric (i + 1) b l ws - (i + 1))).
  { intros b l Hl. set (r := best_wan _ _ _ _ _ _) in *. by replace (Z.to_nat (r - i)) with (S (Z.to_nat (r - (i + 1)))) by lia. }
  destruct (usable v && (metric v <? least)) eqn:Eu.
  - apply andb_prop in Eu as [Eu Em]. apply Z.ltb_lt in Em. right. destruct (IH (i + 1) i (metric v)) as [[-> Hf]|(Hr & w & Hw & Hin & Hu & Hm & Hmin)].
    + split; [lia|]. exists v. rewrite Z.sub_diag. split; [done|]. split_and!; [by left|done|done|].
      intros x [->|Hx]%elem_of_cons Hux; [done|]. rewrite Forall_forall in Hf. by apply Hf.
    + split; [lia|]. exists w. rewrite Hs by done. split; [done|]. split_and!; [by right|done|lia|].
      intros x [->|Hx]%elem_of_cons Hux; [lia|by apply Hmin].
  - assert (Hv' : usable v = true -> least <= metric v) by (intros E; rewrite E in Eu; by apply Z.ltb_ge in Eu).
    destruct (IH (i + 1) best least) as [[-> Hf]|(Hr & w & Hw & Hin & Hu & Hm & Hmin)]; [left; split; [done|by constructor]|].
    right. split; [lia|]. exists w. rewrite Hs by done. split; [done|]. split_and!; [by right|done|done|].
    intros x [->|Hx]%elem_of_cons Hux; [specialize (Hv' Hux); lia|by apply Hmin].
Qed.

(** Traffic of games goes to the uplink that the configuration names; without one, to a healthy enabled
    uplink with the least round trip time; and to the first uplink when no such uplink answers within
    999999 ms, whatever its state. *)
Theorem gaming_uplink config :
  let primary := as_primary_gaming_wan_id (c_app_steering config) in
  (exists k w, 0 < primary /\ list_find (fun w => w_id w = primary) (c_wans config) = Some (k, w) /\ gaming_wan config = Z.of_nat k)
  \/ (exists w, c_wans config !! Z.to_nat (gaming_wan config) = Some w /\ least_of rtt 999999 (c_wans config) w)
  \/ (gaming_wan config = 0 /\ Forall (fun v => usable v = true -> 999999 <= rtt v) (c_wans config)).
Proof.
  intros primary. unfold gaming_wan. fold primary. destruct (decide (0 < primary)) as [Hp|Hp].
  - destruct (list_find (fun w => w_id w = primary) (c_wans config)) as [[k w]|] eqn:E.
    + left. exists k, w. split_and!; [done|done|]. by rewrite (best_wan_primary _ _ _ _ _ _ _ _ Hp E).
    + right. apply list_find_None in E. destruct (best_wan_least primary rtt (c_wans config) 0 0 999999) as [H|(Hr & w & Hw & H)]; [|by right|].
      { eapply Forall_impl; [exact E|]. cbn. tauto. }
      left. exists w. by rewrite Z.sub_0_r in Hw.
  - right. destruct (best_wan_least primary rtt (c_wans config) 0 0 999999) as [H|(Hr & w & Hw & H)]; [|by right|].
    { apply Forall_true. tauto. }
    left. exists w. by rewrite Z.sub_0_r in Hw.
Qed.

(** ** Names of sets *)

(** Lower case letters and capitals, digits, the hyphen and the underscore. *)
Definition plain_char (c : Z) : Prop := 48 <= c <= 57 \/ 65 <= c <= 90 \/ 97 <= c <= 122 \/ c = 45 \/ c = 95.
Ltac all_plain := repeat (constructor; [unfold plain_char; lia|]); try constructor.
Lemma set_char_plain c : plain_char (set_char c).
Proof. unfold set_char, isalnum, isdigit, tolower, plain_char. repeat case_match; lia. Qed.
Lemma set_name_plain al : Forall plain_char (set_name al) /\ (length (set_name al) <= 28)%nat.
Proof.
  unfold set_name, sanitize_set_name. split.
  - apply Forall_app. split; [change (bytes_of_string "fw_") with [102; 119; 95]; all_plain|]. apply Forall_fmap, Forall_true, set_char_plain.
  - rewrite length_app, length_fmap, length_take. change (length (bytes_of_string "fw_")) with 3%nat. lia.
Qed.
Lemma set_prefix s : sprintf "t_%s" [FS s] = bytes_of_string "t_" ++ s.
Proof. transitivity (bytes_of_string "t_" ++ (s ++ [])); [reflexivity|by rewrite app_nil_r]. Qed.
Lemma chain_prefix s : sprintf "FW_L_%s" [FS s] = bytes_of_string "FW_L_" ++ s.
Proof. transitivity (bytes_of_string "FW_L_" ++ (s ++ [])); [reflexivity|by rewrite app_nil_r]. Qed.
(** Whatever the name of an address list, the names of its sets and of its chain are at most 31 and 28
    characters long and consist of letters, digits, hyphens and underscores: a name cannot be cut off by
    the kernel's limits or end a command of the shell, and the temporary set differs from the set. *)
Theorem set_names_safe al :
  Forall plain_char (set_name al) /\ Forall plain_char (tmp_set al) /\ Forall plain_char (subchain al)
  /\ (length (set_name al) <= 28)%nat /\ (length (subchain al) <= 28)%nat
  /\ tmp_set al = bytes_of_string "t_" ++ set_name al /\ tmp_set al <> set_name al.
Proof.
  destruct (set_name_plain al) as [Hp Hl].
  assert (Et : tmp_set al = bytes_of_string "t_" ++ set_name al).
  { unfold tmp_set, snprintf, str_trunc. generalize dependent (set_name al). intros s _ Hl.
    assert (E : sprintf "t_%s" [FS s] = bytes_of_string "t_" ++ s) by apply set_prefix. rewrite E.
    assert (length (bytes_of_string "t_" ++ s) <= 30)%nat by (rewrite length_app; cbn; lia). rewrite (take_ge _ (Z.to_nat (80 - 1))) by lia.
    apply take_ge. lia. }
  rewrite Et. split_and!; [done| |unfold subchain|done|unfold subchain; rewrite length_take; lia|done|].
  - apply Forall_app. split; [change (bytes_of_string "t_") with [116; 95]; all_plain|done].
  - apply Forall_take. unfold snprintf, str_trunc. apply Forall_take. rewrite chain_prefix. apply Forall_app.
    split; [change (bytes_of_string "FW_L_") with [70; 87; 95; 76; 95]; all_plain|done].
  - intros E%(f_equal length). rewrite length_app in E. cbn in E. lia.
Qed.

(** ** A firewall that keeps the promises *)

Module FirewallDemo.

Record demo_packet := DemoPacket { dp_dev : cstring; dp_src : Z; dp_state : string; dp_dhcp : bool }.
Definition demo_match (m : rule_match) (p : demo_packet) : bool :=
  match m with
  | OnDev d => dev_matches d (dp_dev p)
  | NotOnDev d => negb (dev_matches d (dp_dev p))
  | FromNet n => bool_decide (n = bytes_of_string "10.0.0.0/8") && (dp_src p / 16777216 =? 10)
  | CtState l => bool_decide (dp_state p ∈ l)
  | Proto _ => false
  | UdpPorts _ _ => dp_dhcp p
  end.
#[export] Instance demo_netfilter : Netfilter demo_packet.
Proof. by refine (Build_Netfilter _ demo_match dp_dev dp_src dp_state dp_dhcp _ _ _ _ _). Defined.

(** A probe of the provider that arrives on an uplink. *)
Definition isp_probe : demo_packet := DemoPacket "eth2" 3405803776 "NEW" false.
Lemma shield_drops_unsolicited_witness : chain_verdict (shield_rules sample_config) isp_probe = Some DROP.
Proof.
  apply (shield_drops_unsolicited sample_config isp_probe).
  - intros [H|[[H _]|[H|[H|H]]]]; first [by vm_compute in H|by apply H].
  - intros [H _]. by vm_compute in H.
  - reflexivity.
  - reflexivity.
  - left. split; [by vm_compute|]. vm_compute. do 2 constructor.
Defined.

(** The same probe with a forged source while the PPPoE server is on. *)
Definition broadband_config : fluxwan_config_t :=
  set_c_pppoe_server (PppoeServerConfig true [] [] [] [] "10.100.0.1" [] [] 0 [] [] 0 0 zero_radius [] []) sample_config.
Lemma pppoe_opens_uplinks_witness : chain_verdict (shield_rules broadband_config) (DemoPacket "eth2" 167772161 "NEW" false) = Some ACCEPT.
Proof. apply (pppoe_opens_uplinks broadband_config (DemoPacket "eth2" 167772161 "NEW" false)); [by split|reflexivity]. Defined.
End FirewallDemo.
