(* ===== verification/NetApply.v ===== *)
(** * Applying a configuration

    Forwarding, address translation, the LAN, the uplinks and the marks that spread new flows over them
    ([net_apply.c]), with the rules of [Firewall], the messages of [Netlink] and the Wi-Fi manager. *)

From Stdlib Require Import Lqa.
From S2P Require Import Prelude Fluxwan Ipv4 CLib Json JsonText ProxyUri System Floats Samples Netlink Wifi Firewall.
Open Scope Z_scope.

Definition net_apply_set_ip_forward (enable : bool) : sys Z :=
  rc ← safe_write_proc "/proc/sys/net/ipv4/ip_forward" ((if enable then bytes_of_string "1" else bytes_of_string "0") ++ [10]);
  mret (if rc =? 0 then 0 else -1).

Definition nat_on_format : cstring := dq
  "iptables -t nat -C POSTROUTING -o %s -j MASQUERADE 2>/dev/null || iptables -t nat -A POSTROUTING -o %s -j MASQUERADE 2>/dev/null || iptables-legacy -t nat -C POSTROUTING -o %s -j MASQUERADE 2>/dev/null || iptables-legacy -t nat -A POSTROUTING -o %s -j MASQUERADE 2>/dev/null || (nft add table ip nat 2>/dev/null; nft 'add chain ip nat postrouting { type nat hook postrouting priority 100; }' 2>/dev/null; nft add rule ip nat postrouting oifname `%s` masquerade 2>/dev/null) || true".
Definition net_apply_wan_nat (wan_ifname : cstring) (enable : bool) : sys Z :=
  if empty wan_ifname then mret (-1) else
  let n := FS wan_ifname in
  safe_system (if enable then snprintf 1024 nat_on_format [n; n; n; n; n]
               else snprintf 1024 "iptables -t nat -D POSTROUTING -o %s -j MASQUERADE 2>/dev/null || iptables-legacy -t nat -D POSTROUTING -o %s -j MASQUERADE 2>/dev/null || true"
                      [n; n]);;
  mret 0.

Definition is_pppoe (w : wan_config_t) : bool := bool_decide (w_type w = WAN_TYPE_PPPOE).
Definition is_wifi (w : wan_config_t) : bool := bool_decide (w_type w = WAN_TYPE_WIFI).
Definition tunnelled (w : wan_config_t) : bool := px_enabled (w_proxy w) && negb (empty (px_tun_dev (w_proxy w))).
Definition mss_cmd (dev : cstring) (mss : Z) : cstring :=
  snprintf 512 "iptables -t mangle -C FORWARD -p tcp --tcp-flags SYN,RST SYN -o %s -j TCPMSS --set-mss %u 2>/dev/null || iptables -t mangle -A FORWARD -p tcp --tcp-flags SYN,RST SYN -o %s -j TCPMSS --set-mss %u 2>/dev/null"
    [FS dev; FN mss; FS dev; FN mss].
Definition apply_mss_clamping (w : wan_config_t) : list cstring :=
  let mss := or_default (w_mss_clamping w) (if is_pppoe w then 1452 else 1460) in
  [mss_cmd (w_name w) mss]
  ++ (if is_pppoe w then [mss_cmd "ppp+" mss] else [])
  ++ (if tunnelled w then [mss_cmd (px_tun_dev (w_proxy w)) 1380] else []).

(** ** The LAN *)

(** The leading ones of a mask in host order. *)
Fixpoint leading_ones (fuel : nat) (m : Z) : Z :=
  match fuel with
  | O => 0
  | S fuel => if Z.testbit m 31 then 1 + leading_ones fuel (u32 (m * 2)) else 0
  end.
Definition lan_cidr (netmask : Z) : Z := if bswap32 netmask =? 0 then 24 else leading_ones 33 (bswap32 netmask).
Definition static_prefix (netmask : Z) : Z :=
  let p := leading_ones 32 (bswap32 netmask) in
  if (bswap32 netmask =? 0) || negb (0 <? p) then 24 else p.

(** The index of a device: the kernel's, or the one of the configuration. *)
Definition device_index (name : cstring) (ifindex : Z) : sys Z :=
  i ← if_nametoindex name; mret (if i32 i <=? 0 then i32 ifindex else i32 i).

Definition set_state_when (nl : option netlink_ctx) (ifidx : Z) (up : bool) : sys unit :=
  match nl with
  | Some _ => if 0 <? ifidx then netlink_set_interface_state ifidx up;; mret tt else mret tt
  | None => mret tt
  end.
Definition lan_bypass (lan : lan_config_t) : cstring :=
  let net := ip_to_str (Z.land (lan_ip_addr lan) (lan_netmask lan)) in
  let cidr := lan_cidr (lan_netmask lan) in
  snprintf 1024
    "ip rule del to %s/%d 2>/dev/null || true; ip rule add to %s/%d table main prio 50 2>/dev/null || true; ip rule del to 10.0.0.0/8 2>/dev/null || true; ip rule add to 10.0.0.0/8 table main prio 51 2>/dev/null || true; ip rule del to 172.16.0.0/12 2>/dev/null || true; ip rule add to 172.16.0.0/12 table main prio 52 2>/dev/null || true; ip rule del to 192.168.0.0/16 2>/dev/null || true; ip rule add to 192.168.0.0/16 table main prio 53 2>/dev/null || true; ip route add 255.255.255.255 dev %s 2>/dev/null || true"
    [FS net; FN cidr; FS net; FN cidr; FS (lan_name lan)].
Definition apply_lan (config : fluxwan_config_t) (nl : option netlink_ctx) : sys unit :=
  let lan := c_lan config in
  ifidx ← device_index (lan_name lan) (lan_ifindex lan);
  set_state_when nl ifidx true;;
  safe_system (snprintf 512 "ip addr add %s/24 dev %s 2>/dev/null || true; ip link set %s up 2>/dev/null"
                 [FS (ip_to_str (lan_ip_addr lan)); FS (lan_name lan); FS (lan_name lan)]);;
  run_all (net_apply_policy_routes config);;
  safe_system (lan_bypass lan).

(** ** The uplinks *)

Definition static_ip_cmd (w : wan_config_t) : cstring :=
  snprintf 512 "ip -4 addr flush dev %s 2>/dev/null || true; ip addr add %s/%d dev %s brd + 2>/dev/null || true; ip link set %s up 2>/dev/null || true"
    [FS (w_name w); FS (ip_to_str (w_ip_addr w)); FN (static_prefix (w_netmask w)); FS (w_name w); FS (w_name w)].
Definition is_static (w : wan_config_t) : bool := bool_decide (w_type w = WAN_TYPE_STATIC) && negb (w_ip_addr w =? 0).
Definition phys_table (w : wan_config_t) : Z := u32 (1000 + w_table_id w).
Definition route_cmd (i : Z) (w : wan_config_t) : cstring :=
  let name := FS (w_name w) in
  let gw := FS (ip_to_str (w_gateway w)) in
  let table := FN (w_table_id w) in
  if px_enabled (w_proxy w)
  then snprintf 512 "ip rule del oif %s table %u 2>/dev/null || true; ip route replace default via %s dev %s table %u proto static 2>/dev/null || true"
         [name; table; gw; name; FN (phys_table w)]
  else snprintf 512 "ip route replace default via %s dev %s table %u proto static 2>/dev/null || true; ip rule del oif %s table %u 2>/dev/null || true; ip rule add oif %s table %u pref 100 2>/dev/null || true; ip route replace default via %s dev %s metric %u 2>/dev/null || true"
         [gw; name; table; name; table; name; table; gw; name; FN (u32 (100 + i + 1))].
Definition tunnel_cmd (i : Z) (w : wan_config_t) : cstring :=
  let name := FS (w_name w) in
  let tun := FS (px_tun_dev (w_proxy w)) in
  let table := FN (w_table_id w) in
  let phys := FN (phys_table w) in
  let mark := FN (u32 (4096 + i)) in
  let metric := FN (u32 (50 + i * 5)) in
  snprintf 768
    "touch /run/fluxwan_proxy_%s; ip route del default dev %s 2>/dev/null || true; ip route replace default via %s dev %s table %u proto static 2>/dev/null || true; ip rule del fwmark 0x%x 2>/dev/null || true; ip rule add fwmark 0x%x table %u pref 40 2>/dev/null || true; ip rule del oif %s table %u 2>/dev/null || true; ip rule add oif %s table %u pref 90 2>/dev/null || true; ip link set %s up 2>/dev/null || true; ip addr replace 198.18.%u.1/24 dev %s 2>/dev/null || true; ip route replace default dev %s table %u proto static 2>/dev/null || true; ip route add default dev %s metric %u 2>/dev/null || ip route replace default dev %s metric %u 2>/dev/null || true"
    [name; name; FS (ip_to_str (w_gateway w)); name; phys; mark; mark; phys; tun; table; tun; table; tun; FN ((i + 10) mod 250); tun; tun; table;
     tun; metric; tun; metric].
Definition ppp_if (i : Z) : cstring := snprintf 16 "ppp%u" [FN i].
Definition nat_pair (i : Z) (w : wan_config_t) (enable : bool) : sys unit :=
  net_apply_wan_nat (w_name w) enable;;
  if is_pppoe w then net_apply_wan_nat (ppp_if i) enable;; mret tt else mret tt.

(** The rule and the route of the table of an uplink. *)
Definition uplink_messages (nl : option netlink_ctx) (i ifidx : Z) (w : wan_config_t) : sys (option netlink_ctx) :=
  match nl with
  | None => mret None
  | Some ctx =>
      set_state_when (Some ctx) ifidx true;;
      r ← netlink_add_ip_rule ctx (wan_mark i) (w_table_id w) (u32 (1000 + i));
      if negb (w_gateway w =? 0) && negb (px_enabled (w_proxy w))
      then r ← netlink_add_default_route (r : Z * netlink_ctx).2 (w_table_id w) (w_gateway w) (u32 ifidx); mret (Some (r : Z * netlink_ctx).2)
      else mret (Some (r : Z * netlink_ctx).2)
  end.

Definition enable_wan (nl : option netlink_ctx) (i ifidx : Z) (w : wan_config_t) : sys (option netlink_ctx) :=
  safe_system (snprintf 128 "ip link set %s up 2>/dev/null || true" [FS (w_name w)]);;
  ok ← can_create (snprintf 64 "/run/fluxwan_table_%s" [FS (w_name w)]);
  (if (ok : bool) then do_call (WriteFile (snprintf 64 "/run/fluxwan_table_%s" [FS (w_name w)]) (dec (w_table_id w) ++ [10])) else mret tt);;
  (if is_static w then safe_system (static_ip_cmd w) else mret tt);;
  nl ← uplink_messages nl i ifidx w;
  (if w_gateway w =? 0 then mret tt else
     safe_system (route_cmd i w);;
     write_conf (w_name w) "rp_filter" "0";; write_conf (w_name w) "arp_ignore" "1";; write_conf (w_name w) "arp_announce" "2");;
  nat_pair i w true;;
  (if is_wifi w && negb (empty (w_wifi_ssid w))
   then wifi_manager_connect (w_name w) (w_wifi_ssid w) (w_wifi_password w) (w_wifi_security w);; mret tt else mret tt);;
  (if tunnelled w then safe_system (tunnel_cmd i w);; net_apply_wan_nat (px_tun_dev (w_proxy w)) true;; mret tt else mret tt);;
  run_all (apply_mss_clamping w);;
  mret nl.

Definition tunnel_del_cmd (i : Z) (w : wan_config_t) : cstring :=
  snprintf 256 "rm -f /run/fluxwan_proxy_%s; ip rule del fwmark 0x%x 2>/dev/null || true; ip link delete %s 2>/dev/null || true"
    [FS (w_name w); FN (u32 (4096 + i)); FS (px_tun_dev (w_proxy w))].
Definition wan_down_format : cstring :=
  "ip link set %s down 2>/dev/null || true; ip route del default dev %s 2>/dev/null || true; ip route flush table %u 2>/dev/null || true; ip rule del oif %s 2>/dev/null || true; ip rule del table %u 2>/dev/null || true; if [ -f /run/udhcpc_%s.pid ]; then kill $(cat /run/udhcpc_%s.pid 2>/dev/null) 2>/dev/null || true; rm -f /run/udhcpc_%s.pid /run/fluxwan_wan_%s.lease; fi".
Definition wan_down_args (w : wan_config_t) : list fmt_arg :=
  let name := FS (w_name w) in
  [name; name; FN (w_table_id w); name; FN (w_table_id w); name; name; name; name].
Definition wan_down_cmd (w : wan_config_t) : cstring := snprintf 512 wan_down_format (wan_down_args w).
Definition disable_wan (nl : option netlink_ctx) (i ifidx : Z) (w : wan_config_t) : sys (option netlink_ctx) :=
  (if is_wifi w then wifi_manager_disconnect (w_name w);; mret tt else mret tt);;
  (if tunnelled w then safe_system (tunnel_del_cmd i w);; net_apply_wan_nat (px_tun_dev (w_proxy w)) false;; mret tt else mret tt);;
  safe_system (wan_down_cmd w);;
  set_state_when nl ifidx false;;
  nat_pair i w false;;
  mret nl.

Fixpoint apply_wans (nl : option netlink_ctx) (i : Z) (wans : list wan_config_t) : sys (option netlink_ctx) :=
  match wans with
  | [] => mret nl
  | w :: wans =>
      ifidx ← device_index (w_name w) (w_ifindex w);
      nl ← (if w_enabled w then enable_wan nl i ifidx w else disable_wan nl i ifidx w);
      apply_wans nl (i + 1) wans
  end.

(** ** Marks of new flows *)

(** The uplinks that take new flows, in order: weight, index, and whether the index is the last one. *)
Definition balanced (config : fluxwan_config_t) : list (Z * Z * bool) :=
  omap (fun '(i, w) => if active w then Some (w_dynamic_weight w, Z.of_nat i, (Z.of_nat i =? Z.of_nat (length (c_wans config)) - 1)) else None)
    (imap pair (c_wans config)).
Definition total_active_weight (config : fluxwan_config_t) : Z := total_weight (weight_of <$> balanced config) 0.
Definition balance_rules (config : fluxwan_config_t) : list split_rule :=
  if 0 <? total_active_weight config then split_rules (balanced config) (total_active_weight config) else [].
Definition balance_cmd (lan : cstring) (r : split_rule) : cstring :=
  let l := FS lan in
  match r with
  | (None, mark) =>
      snprintf 1024 "iptables -t mangle -A PREROUTING -i %s -m mark --mark 0 -j MARK --set-mark 0x%x 2>/dev/null || iptables-legacy -t mangle -A PREROUTING -i %s -m mark --mark 0 -j MARK --set-mark 0x%x 2>/dev/null || true"
        [l; FN mark; l; FN mark]
  | (Some prob, mark) =>
      snprintf 1024 "iptables -t mangle -A PREROUTING -i %s -m mark --mark 0 -m statistic --mode random --probability %s -j MARK --set-mark 0x%x 2>/dev/null || iptables-legacy -t mangle -A PREROUTING -i %s -m mark --mark 0 -m statistic --mode random --probability %s -j MARK --set-mark 0x%x 2>/dev/null || iptables -t mangle -A PREROUTING -i %s -m mark --mark 0 -j MARK --set-mark 0x%x 2>/dev/null || true"
        [l; FS prob; FN mark; l; FS prob; FN mark; l; FN mark]
  end.
Definition mangle_cmds (config : fluxwan_config_t) : list cstring :=
  let lan := lan_name (c_lan config) in
  [ipt_both "-P FORWARD ACCEPT"; ipt_once [] "FORWARD -m conntrack --ctstate RELATED,ESTABLISHED -j ACCEPT";
   ipt_both "-t mangle -F PREROUTING"; ipt_both "-t mangle -A PREROUTING -j CONNMARK --restore-mark --mask 0x0000ffff";
   ipt_both "-t mangle -A PREROUTING -m addrtype --dst-type LOCAL -j RETURN"; ipt_both "-t mangle -A PREROUTING -d 10.10.0.0/16 -j RETURN";
   ipt_both "-t mangle -A PREROUTING -d 192.168.0.0/16 -j RETURN"; ipt_both "-t mangle -A PREROUTING -d 172.16.0.0/12 -j RETURN";
   ipt_both "-t mangle -N FLUXWAN_ADDRLIST"; ipt_both "-t mangle -A PREROUTING -j FLUXWAN_ADDRLIST";
   ipt_once "-t mangle " "OUTPUT -j FLUXWAN_ADDRLIST"]
  ++ (balance_cmd lan <$> balance_rules config)
  ++ [ipt_both "-t mangle -A PREROUTING -j CONNMARK --save-mark --mask 0x0000ffff";
      ipt_once "-t mangle " "FORWARD -p tcp --tcp-flags SYN,RST SYN -j TCPMSS --clamp-mss-to-pmtu";
      ipt_once "-t mangle " "POSTROUTING -p udp -j CHECKSUM --checksum-fill"; ipt_once "-t mangle " "POSTROUTING -p tcp -j CHECKSUM --checksum-fill"]
  ++ (if empty lan then [] else [snprintf 256 "ethtool -K %s rx off tx off 2>/dev/null || true" [FS lan]]).

Definition net_apply_configuration (config : fluxwan_config_t) (nl : option netlink_ctx) : sys (option netlink_ctx) :=
  net_apply_set_ip_forward true;;
  write_sysctl "conf/all/arp_ignore" "1";; write_sysctl "conf/all/arp_announce" "2";; write_sysctl "conf/all/rp_filter" "0";;
  write_sysctl "conf/default/rp_filter" "0";;
  apply_lan config nl;;
  nl ← apply_wans nl 0 (c_wans config);
  write_sysctl "ip_forward" "1";; write_sysctl "conf/all/forwarding" "1";;
  run_all (mangle_cmds config);;
  run_all (net_apply_qos config);; run_all (net_apply_rate_limits config);; net_apply_address_lists config;;
  run_all (net_apply_app_steering config);; run_all (net_apply_dpi config);; run_all (net_apply_dns_features config);;
  net_apply_wan_shield config;;
  mret nl.

(** ** Shares of the uplinks *)

Definition active_weight (w : wan_config_t) : Z := if active w then w_dynamic_weight w else 0.
Definition sum_active (config : fluxwan_config_t) : Z := foldr (fun w s => active_weight w + s) 0 (c_wans config).
(** The part of the new flows that the mark of the uplink [i] is set for. *)
Definition flow_share (config : fluxwan_config_t) (i : Z) : option Q :=
  match list_find (fun r => r.2 = wan_mark i) (balance_rules config) with
  | Some (k, _) => shares (balance_rules config) 1%Q !! k
  | None => None
  end.
Definition weights_ok (config : fluxwan_config_t) : Prop :=
  Forall (fun w => 0 <= w_dynamic_weight w) (c_wans config) /\ is_u32 (sum_active config) /\ Z.of_nat (length (c_wans config)) <= MAX_WANS.

(** The list from an index on. *)
Definition balanced_from (n s : Z) (wans : list wan_config_t) : list (Z * Z * bool) :=
  omap (fun '(i, w) => if active w then Some (w_dynamic_weight w, s + Z.of_nat i, (s + Z.of_nat i =? n - 1)) else None) (imap pair wans).
Lemma balanced_from_cons n s w wans :
  balanced_from n s (w :: wans) = (if active w then [(w_dynamic_weight w, s, s =? n - 1)] else []) ++ balanced_from n (s + 1) wans.
Proof.
  unfold balanced_from. cbn [imap]. cbn [omap list_omap]. rewrite Z.add_0_r.
  assert (E : forall l : list (nat * wan_config_t), omap (fun '(i, w) => if active w then Some (w_dynamic_weight w, s + Z.of_nat i, (s + Z.of_nat i =? n - 1)) else None) ((fun p => (S p.1, p.2)) <$> l)
    = omap (fun '(i, w) => if active w then Some (w_dynamic_weight w, s + 1 + Z.of_nat i, (s + 1 + Z.of_nat i =? n - 1)) else None) l).
  { induction l as [|[i v] l IH]; [done|]. cbn. replace (s + Z.of_nat (S i)) with (s + 1 + Z.of_nat i) by lia. rewrite <- IH. by destruct (active v). }
  rewrite <- E. replace ((fun p => (S p.1, p.2)) <$> imap pair wans) with (imap (pair ∘ S) wans) by (rewrite fmap_imap; done).
  by destruct (active w).
Qed.
Lemma balanced_eq config : balanced config = balanced_from (Z.of_nat (length (c_wans config))) 0 (c_wans config).
Proof. reflexivity. Qed.

Lemma sum_active_cons w wans : foldr (fun w s => active_weight w + s) 0 (w :: wans) = active_weight w + foldr (fun w s => active_weight w + s) 0 wans.
Proof. reflexivity. Qed.
Lemma balanced_from_ok n s wans :
  n = s + Z.of_nat (length wans) -> Forall (fun w => 0 <= w_dynamic_weight w) wans ->
  uplinks_ok (balanced_from n s wans)
  /\ sum_weights (balanced_from n s wans) = foldr (fun w s => active_weight w + s) 0 wans.
Proof.
  intros Hn Hw. revert s Hn. induction Hw as [|w wans Hw0 _ IH]; intros s Hn; [done|]. rewrite balanced_from_cons, sum_active_cons.
  destruct (IH (s + 1) ltac:(cbn [length] in Hn; lia)) as [H1 H2]. unfold active_weight at 1. destruct (active w) eqn:Ea; [|by split].
  cbn [app]. split; [|unfold sum_weights in *; cbn; by rewrite H2]. cbn. split_and!; [| |done].
  - unfold active in Ea. apply andb_prop in Ea as [_ Ea]. by apply Z.ltb_lt in Ea.
  - intros E%Z.eqb_eq. cbn [length] in Hn. destruct wans as [|v wans]; [done|]. cbn [length] in Hn. lia.
Qed.
Lemma balanced_from_index n s wans i w :
  wans !! i = Some w -> active w = true ->
  exists k f, (k <= i)%nat /\ balanced_from n s wans !! k = Some (w_dynamic_weight w, s + Z.of_nat i, f)
              /\ forall j u, (j < k)%nat -> balanced_from n s wans !! j = Some u -> s <= u.1.2 < s + Z.of_nat i.
Proof.
  intros Hi Ha. revert s i Hi. induction wans as [|v wans IH]; intros s i Hi; [done|]. rewrite balanced_from_cons. destruct i as [|i].
  - cbn in Hi. injection Hi as ->. rewrite Ha. exists 0%nat. eexists. rewrite Z.add_0_r. split_and!; [lia|done|lia].
  - destruct (IH (s + 1) i Hi) as (k & f & Hk & Hl & Hlt). replace (s + 1 + Z.of_nat i) with (s + Z.of_nat (S i)) in * by lia.
    destruct (active v); cbn [app]; [exists (S k), f|exists k, f]; (split_and!; [lia|done|]).
    + intros [|j] u Hj Hu; cbn in Hu; [injection Hu as <-; cbn; lia|]. specialize (Hlt j u ltac:(lia) Hu). lia.
    + intros j u Hj Hu. specialize (Hlt j u Hj Hu). lia.
Qed.
Lemma total_weight_sum l acc : Forall (fun x => 0 <= x) l -> 0 <= acc -> acc + foldr Z.add 0 l < 4294967296 -> total_weight l acc = acc + foldr Z.add 0 l.
Proof.
  intros Hl. revert acc. induction Hl as [|x l Hx Hl IH]; intros acc Ha Hs; cbn [total_weight]; [cbn; lia|]. cbn [foldr] in *.
  assert (0 <= foldr Z.add 0 l) by (clear IH Hs; induction Hl; cbn; lia). rewrite u32_small by cint. rewrite IH; lia.
Qed.
Lemma split_rules_marks l rem : snd <$> split_rules l rem = (fun u : Z * Z * bool => wan_mark u.1.2) <$> l.
Proof. revert rem. induction l as [|[[w i] b] l IH]; intros rem; [done|]. cbn [split_rules]. destruct (_ || _); by rewrite !fmap_cons, IH. Qed.

Lemma balance_total config : weights_ok config -> total_active_weight config = sum_active config /\ uplinks_ok (balanced config) /\ sum_weights (balanced config) = sum_active config.
Proof.
  intros (Hw & Hs & _). destruct (balanced_from_ok (Z.of_nat (length (c_wans config))) 0 (c_wans config) ltac:(lia) Hw) as [H1 H2].
  rewrite <- balanced_eq in H1, H2. fold (sum_active config) in H2. split_and!; [|done|done]. unfold total_active_weight. rewrite total_weight_sum.
  - cbn [Z.add]. by rewrite <- H2.
  - clear H2. induction (balanced config) as [|u l IH]; [constructor|]. destruct H1 as (H1 & _ & H3). rewrite fmap_cons. constructor; [lia|by apply IH].
  - lia.
  - change (0 + foldr Z.add 0 (weight_of <$> balanced config)) with (sum_weights (balanced config)). rewrite H2. cint.
Qed.

Lemma whole n : 0 < n -> within 0 1 (inject_Z n / inject_Z n).
Proof.
  intros Hn. assert ((0 < inject_Z n)%Q) by (change 0%Q with (inject_Z 0); by rewrite <- Zlt_Qlt).
  assert (E : (inject_Z n / inject_Z n == 1)%Q) by (field; lra). rewrite E. unfold within. split; lra.
Qed.

(** C13.  New flows of the LAN are spread over the uplinks by weight: an enabled uplink that is not down gets
    its weight over the sum of the weights, up to 51 of a million for each rule before its own and its own;
    the probabilities are the text of the commands, four digits of a quotient of doubles. *)
Theorem flows_follow_weights config i w :
  weights_ok config -> c_wans config !! i = Some w -> active w = true ->
  exists x, flow_share config (Z.of_nat i) = Some x
            /\ within (inject_Z (Z.of_nat (S i)) * eps) x (inject_Z (w_dynamic_weight w) / inject_Z (sum_active config)).
Proof.
  intros Hok Hi Ha. destruct (balance_total config Hok) as (Et & Hu & Es). destruct Hok as (Hw & Hs & Hn). unfold MAX_WANS in Hn.
  destruct (balanced_from_index (Z.of_nat (length (c_wans config))) 0 (c_wans config) i w Hi Ha) as (k & f & Hk & Hl & Hlt).
  rewrite <- balanced_eq in Hl, Hlt. rewrite Z.add_0_l in *. pose proof (lookup_lt_Some _ _ _ Hi) as Hil.
  assert (Hpos : 0 < sum_active config) by (rewrite <- Es; apply sum_weights_nonneg; [done|]; intros E; by rewrite E in Hl).
  unfold flow_share, balance_rules. rewrite Et, (proj2 (Z.ltb_lt _ _) Hpos). rewrite <- Es.
  destruct (split_shares (sum_weights (balanced config)) (balanced config) 0%Q 1%Q k (w_dynamic_weight w, Z.of_nat i, f) Hu ltac:(lia)
    ltac:(by rewrite Es) ltac:(lra)) as (x & Hx & Hwx); [rewrite Es; by apply whole|done|].
  set (rules := split_rules (balanced config) (sum_weights (balanced config))) in *.
  assert (Hm : forall j, snd <$> rules !! j = (fun u : Z * Z * bool => wan_mark u.1.2) <$> balanced config !! j).
  { intros j. rewrite <- !list_lookup_fmap. unfold rules. by rewrite split_rules_marks. }
  destruct (rules !! k) as [r|] eqn:Er; [|specialize (Hm k); rewrite Er, Hl in Hm; done].
  assert (list_find (fun r : split_rule => r.2 = wan_mark (Z.of_nat i)) rules = Some (k, r)) as ->.
  { apply list_find_Some. split_and!; [done|specialize (Hm k); rewrite Er, Hl in Hm; by injection Hm as ->|].
    intros j y Hy Hb Hj. specialize (Hm j). rewrite Hy in Hm. destruct (balanced config !! j) as [u|] eqn:Ej; [|done]. injection Hm as Hm.
    specialize (Hlt j u Hb Ej). rewrite Hj in Hm. unfold wan_mark in Hm. rewrite !u32_small in Hm by cint. lia. }
  exists x. split; [done|]. apply (within_weaken _ _ _ _ Hwx). rewrite Qplus_0_l. unfold eps.
  assert ((inject_Z (Z.of_nat (S k)) <= inject_Z (Z.of_nat (S i)))%Q) by (rewrite <- Zle_Qle; lia). lra.
Qed.

Lemma flows_follow_weights_witness :
  exists x, flow_share sample_config 1 = Some x /\ within (inject_Z 2 * eps) x (inject_Z 50 / inject_Z 150).
Proof. apply (flows_follow_weights sample_config 1 (sample_wan 2 "eth2" 50 WAN_STATE_HEALTHY)); [split_and!; [repeat constructor; discriminate|by_eval|by_eval]|reflexivity..]. Defined.

(** Every new flow of the LAN gets a mark: the last rule of the weighted choice has no probability. *)
Theorem every_flow_marked config :
  weights_ok config -> 0 < sum_active config -> exists mark, last (balance_rules config) = Some (None, mark).
Proof.
  intros Hok Hpos. destruct (balance_total config Hok) as (Et & Hu & Es). unfold balance_rules. rewrite Et, (proj2 (Z.ltb_lt _ _) Hpos).
  destruct Hok as (_ & Hs & _). rewrite <- Es in Hs, Hpos |- *. clear Et Es. revert Hu Hs Hpos. induction (balanced config) as [|u l IH]; intros Hu Hs Hpos; [done|].
  destruct (split_step u l Hu Hs) as [(-> & -> & _)|(Hne & Hw & ->)]; [by eexists|]. destruct Hu as (Hu1 & _ & Hu).
  destruct (sum_weights_nonneg l Hu) as [_ Hl]. specialize (Hl Hne). assert (Hr : is_u32 (sum_weights l)) by (unfold sum_weights in *; cbn in Hs, Hw; cint).
  destruct (IH Hu Hr Hl) as [mark E]. exists mark. by rewrite last_cons, E.
Qed.
Lemma every_flow_marked_witness : exists mark, last (balance_rules sample_config) = Some (None, mark).
Proof. apply (every_flow_marked sample_config); [split_and!; [repeat constructor; discriminate|by_eval|by_eval]|reflexivity]. Defined.

(** ** Commands that are cut off *)

Lemma dec_digits_length fuel n acc k :
  0 <= n < 10 ^ Z.of_nat k -> (1 <= k)%nat -> (length (dec_digits fuel n acc) <= k + length acc)%nat.
Proof.
  revert n acc k. induction fuel as [|fuel IH]; intros n acc k Hn Hk; cbn [dec_digits]; [lia|].
  destruct (Z.ltb_spec n 10); [cbn [length]; lia|]. destruct k as [|[|k]]; [lia|cbn in Hn; lia|].
  specialize (IH (n / 10) ((48 + n mod 10) :: acc) (S k)). cbn [length] in IH. etransitivity; [apply IH; [|lia]|lia].
  split; [apply Z.div_pos; lia|]. apply Z.div_lt_upper_bound; [lia|]. replace (Z.of_nat (S (S k))) with (Z.succ (Z.of_nat (S k))) in Hn by lia.
  rewrite Z.pow_succ_r in Hn by lia. lia.
Qed.
Lemma hex_digits_length fuel n acc k :
  0 <= n < 16 ^ Z.of_nat k -> (1 <= k)%nat -> (length (hex_text_loop fuel n acc) <= k + length acc)%nat.
Proof.
  revert n acc k. induction fuel as [|fuel IH]; intros n acc k Hn Hk; cbn [hex_text_loop]; [lia|].
  destruct (Z.eqb_spec (n / 16) 0) as [|Hd]; [cbn [length]; lia|]. destruct k as [|[|k]]; [lia|rewrite Z.div_small in Hd by (cbn in Hn; lia); done|].
  specialize (IH (n / 16) (hex_digit_lower (n mod 16) :: acc) (S k)). cbn [length] in IH. etransitivity; [apply IH; [|lia]|lia].
  split; [apply Z.div_pos; lia|]. apply Z.div_lt_upper_bound; [lia|]. replace (Z.of_nat (S (S k))) with (Z.succ (Z.of_nat (S k))) in Hn by lia.
  rewrite Z.pow_succ_r in Hn by lia. lia.
Qed.
(** An argument prints to at most [n] characters, whatever its conversion. *)
Definition arg_fits (a : fmt_arg) (n : nat) : Prop := forall c, (length (convert c a) <= n)%nat.
Lemma number_fits v : is_u32 v -> arg_fits (FN v) 10.
Proof.
  intros Hv c. unfold convert. destruct (c =? 120); [|destruct (Z.ltb_spec v 0); [cint|]].
  - etransitivity; [apply (hex_digits_length 16 v [] 8); [cbn; cint|lia]|cbn; lia].
  - apply (dec_digits_length 20 v [] 10); [cbn; cint|lia].
Qed.
Lemma sprintf_plain c f args : c <> 37 -> sprintf (c :: f) args = c :: sprintf f args.
Proof. intros Hc. cbn [sprintf]. by repeat (case_match; try done). Qed.
Lemma sprintf_length fmt args sizes :
  Forall2 arg_fits args sizes -> (length (sprintf fmt args) <= length fmt + sum_list sizes)%nat.
Proof.
  revert args sizes. induction fmt as [fmt IH] using (induction_ltof1 _ (@length Z)). unfold ltof in IH. intros args sizes Ha.
  assert (Hplain : forall c f, fmt = c :: f -> (length (c :: sprintf f args) <= length fmt + sum_list sizes)%nat).
  { intros c f ->. cbn [length]. specialize (IH f ltac:(cbn; lia) args sizes Ha). lia. }
  destruct fmt as [|c [|d f]]; [cbn; lia|..].
  - replace (sprintf [c] args) with (c :: sprintf [] args) by (cbn; by repeat case_match). by apply Hplain.
  - destruct (decide (c = 37)) as [->|Hc]; [|rewrite sprintf_plain by done; by apply Hplain].
    cbn [sprintf]. destruct (d =? 37); [cbn [length]; specialize (IH f ltac:(cbn; lia) args sizes Ha); lia|].
    destruct Ha as [|a n args sizes Hn Ha]; [specialize (IH f ltac:(cbn; lia) [] [] ltac:(constructor)); cbn in *; lia|].
    rewrite length_app. specialize (IH f ltac:(cbn; lia) args sizes Ha). specialize (Hn d). cbn in *. lia.
Qed.

(** For a device name of at most 15 characters, the limit of the kernel, the command that takes an
    uplink down is complete: nothing of it is cut off at the end of its buffer, the clearing of the DHCP
    client included. *)
Theorem teardown_complete w :
  (length (w_name w) <= 15)%nat -> is_u32 (w_table_id w) -> wan_down_cmd w = sprintf wan_down_format (wan_down_args w).
Proof.
  intros Hn Ht. unfold wan_down_cmd, snprintf, str_trunc. pose proof (number_fits _ Ht) as Hf.
  assert (Hs : arg_fits (FS (w_name w)) 15) by (intros c; exact Hn). apply take_ge.
  etransitivity; [apply (sprintf_length _ _ [15; 15; 10; 15; 10; 15; 15; 15; 15]%nat); repeat (constructor; [assumption|]); constructor|]. vm_compute. lia.
Qed.
Lemma teardown_complete_witness :
  wan_down_cmd (sample_wan 2 "eth2" 50 WAN_STATE_DOWN) = sprintf wan_down_format (wan_down_args (sample_wan 2 "eth2" 50 WAN_STATE_DOWN)).
Proof. apply (teardown_complete (sample_wan 2 "eth2" 50 WAN_STATE_DOWN)); [vm_compute; lia|by_eval]. Defined.
