(* ===== verification/WebCore.v ===== *)
(** * The web server: connections, requests and logins

    Versions, the table of connections, the text of a request, the authorisation of requests, the limiter of
    login attempts and the shell of the terminal page ([web_server.c]).  The readers of JSON values are the
    same text as those of [config.c], modelled in [Json]. *)

From S2P Require Import Prelude Fluxwan Ipv4 CLib Json JsonText ProxyUri System Wifi Samples.

(** ** Versions *)

(** [sscanf("%d")]: the number and what follows. *)
Definition scan_dec (s : cstring) : option (Z * cstring) :=
  let '(sign, t) := match skip_spaces s with 45 :: t => (-1, t) | 43 :: t => (1, t) | t => (1, t) end in
  let '(n, v, rest) := digits_of t 0 0 in
  if n =? 0 then None else Some (i32 (clamp_long (sign * v)), rest).
(** [sscanf("%d.%d.%d")]: how many numbers were read, and the numbers, 0 for the others. *)
Definition scan_version (s : cstring) : Z * (Z * Z * Z) :=
  match scan_dec s with
  | None => (0, (0, 0, 0))
  | Some (a, 46 :: s) =>
      match scan_dec s with
      | None => (1, (a, 0, 0))
      | Some (b, 46 :: s) => match scan_dec s with None => (2, (a, b, 0)) | Some (c, _) => (3, (a, b, c)) end
      | Some (b, _) => (2, (a, b, 0))
      end
  | Some (a, _) => (1, (a, 0, 0))
  end.
Fixpoint skip_v (s : cstring) : cstring :=
  match s with
  | c :: s' => if (c =? 118) || (c =? 86) then skip_v s' else s
  | [] => []
  end.
Definition compare_semver (v1 v2 : cstring) : Z :=
  let v1 := skip_v v1 in
  let v2 := skip_v v2 in
  if str_eq v1 v2 then 0 else
  let '(n1, (maj1, min1, pat1)) := scan_version v1 in
  let '(n2, (maj2, min2, pat2)) := scan_version v2 in
  if (1000 <? maj2) || (n2 <? 2) then 1
  else if (1000 <? maj1) || (n1 <? 2) then -1
  else if negb (maj1 =? maj2) then maj1 - maj2
  else if negb (min1 =? min2) then min1 - min2
  else pat1 - pat2.

(** ** The table of connections *)

Definition MAX_CLIENTS : Z := 64.
Record client_conn_t := ClientConn { cc_fd : option Z; cc_is_sse : bool }.

(** A socket is closed and its entries are freed. *)
Definition close_client_socket (fd : Z) (clients : list client_conn_t) : list client_conn_t :=
  (fun c => if bool_decide (cc_fd c = Some fd) && negb (cc_is_sse c) then ClientConn None (cc_is_sse c) else c) <$> clients.
(** A new connection takes a free entry; when there is none, every connection that is no event stream is
    closed and the first of their entries is taken.  The result is the table, the sockets that are closed and
    whether the connection was taken. *)
Definition web_server_accept_client (fd : Z) (clients : list client_conn_t) : list client_conn_t * list Z * bool :=
  match list_find (fun c => cc_fd c = None) clients with
  | Some (i, _) => (<[i := ClientConn (Some fd) false]> clients, [], true)
  | None =>
      let swept := (fun c => if cc_is_sse c then c else ClientConn None false) <$> clients in
      let closed := omap cc_fd (List.filter (fun c => negb (cc_is_sse c)) clients) in
      match list_find (fun c => cc_is_sse c = false) clients with
      | Some (i, _) => (<[i := ClientConn (Some fd) false]> swept, closed, true)
      | None => (swept, fd :: closed, false)
      end
  end.

(** ** Requests *)

Definition max_req : Z := 4194304.
Definition header_end : cstring := [13; 10; 13; 10].
(** The body of a request: what follows the empty line. *)
Definition body_of (req : cstring) : option cstring := drop 4 <$> strstr req header_end.
Definition content_length (req : cstring) : option Z :=
  match strstr req "Content-Length:", strstr req "content-length:" with
  | Some p, _ => Some (atoi32 (drop 15 p))
  | None, Some p => Some (atoi32 (drop 15 p))
  | None, None => None
  end.
(** The chunks that [recv] returns, up to the announced length; an empty chunk ends the connection. *)
Fixpoint read_more (chunks : list (list Z)) (buf : list Z) (body_len expected : Z) : list Z :=
  match chunks with
  | [] => buf
  | c :: chunks =>
      if (body_len <? expected) && (Z.of_nat (length buf) <? max_req - 1) then
        let c := take (Z.to_nat (max_req - 1 - Z.of_nat (length buf))) c in
        if bool_decide (c = []) then buf else read_more chunks (buf ++ c) (body_len + Z.of_nat (length c)) expected
      else buf
  end.
Definition read_request (chunks : list (list Z)) : option (list Z) :=
  match chunks with
  | [] => None
  | c :: chunks =>
      let buf := take (Z.to_nat (max_req - 1)) c in
      if bool_decide (buf = []) then None else
      match strstr (cstr buf) header_end with
      | None => Some buf
      | Some tail =>
          let header_len := Z.of_nat (length (cstr buf)) - Z.of_nat (length tail) + 4 in
          match content_length (cstr buf) with
          | Some n => if 0 <? n then Some (read_more chunks buf (Z.of_nat (length buf) - header_len) n) else Some buf
          | None => Some buf
          end
      end
  end.

Definition is_request_authorized (config : fluxwan_config_t) (req : cstring) : bool :=
  negb (au_enabled (c_auth config))
  || found req (snprintf 128 "X-Auth-Token: %s" [FS (au_session_token (c_auth config))])
  || found req (snprintf 128 "Bearer %s" [FS (au_session_token (c_auth config))]).

Definition array_blank (c : Z) : bool := (c =? 32) || (c =? 9) || (c =? 13) || (c =? 10) || (c =? 44).
Fixpoint skip_array_blanks (s : cstring) : cstring :=
  match s with
  | c :: s' => if array_blank c then skip_array_blanks s' else s
  | [] => []
  end.
(** The strings of an array, at most [MAX_GROUP_MEMBERS] of [MAX_LABEL_LEN - 1] bytes.  [None]: the code steps over the NUL that ends the text, when only blanks are left before it. *)
Fixpoint array_items (fuel : nat) (s : cstring) (count : Z) : option (list cstring) :=
  match fuel with
  | O => Some []
  | S fuel =>
      match s with
      | [] | 93 :: _ => Some []
      | _ =>
          if MAX_GROUP_MEMBERS <=? count then Some [] else
          match skip_array_blanks s with
          | 34 :: p =>
              match strchr p 34 with
              | Some tail =>
                  cons (str_trunc MAX_LABEL_LEN (take (length p - length tail) p)) <$> array_items fuel (drop 1 tail) (count + 1)
              | None => Some []
              end
          | 93 :: _ => Some []
          | [] => None
          | _ :: p => array_items fuel p count
          end
      end
  end.
(** Each turn takes a byte or more. *)
Definition parse_json_string_array (json key : cstring) : option (list cstring) :=
  match strstr json (str_trunc 64 (quoted key)) with
  | None => Some []
  | Some pos =>
      match strchr pos 91 with
      | None => Some []
      | Some p => array_items (length p) (drop 1 p) 0
      end
  end.

(** ** The limiter of login attempts *)

Record login_tracker_t := LoginTracker { lt_ip : Z; lt_failed_attempts : Z; lt_lockout_until : Z }.
Definition MAX_LOGIN_TRACKERS : Z := 64.

Definition login_is_locked_out (ip now : Z) (l : list login_tracker_t) : bool * list login_tracker_t :=
  if ip =? 0 then (false, l) else
  match list_find (fun t => lt_ip t = ip) l with
  | None => (false, l)
  | Some (i, t) =>
      if now <? lt_lockout_until t then (true, l)
      else if negb (lt_lockout_until t =? 0) then (false, <[i := LoginTracker ip 0 0]> l)
      else (false, l)
  end.
(** The entry of the client, or else the first that is free or whose lockout ended an hour ago. *)
Definition tracker_slot (ip now : Z) (l : list login_tracker_t) : option (nat * login_tracker_t) :=
  match list_find (fun t => lt_ip t = ip) l with
  | Some s => Some s
  | None => list_find (fun t => lt_ip t = 0 \/ lt_lockout_until t < now - 3600) l
  end.
Definition login_record_failure (ip now : Z) (l : list login_tracker_t) : list login_tracker_t :=
  if ip =? 0 then l else
  match tracker_slot ip now l with
  | None => l
  | Some (i, t) =>
      let n := lt_failed_attempts t + 1 in
      <[i := LoginTracker ip n (if 5 <=? n then now + 300 else lt_lockout_until t)]> l
  end.
Definition login_record_success (ip : Z) (l : list login_tracker_t) : list login_tracker_t :=
  if ip =? 0 then l else
  match list_find (fun t => lt_ip t = ip) l with
  | None => l
  | Some (i, t) => <[i := LoginTracker ip 0 0]> l
  end.

(** A response: the status line and the body. *)
Record response := Response { rs_status : Z; rs_body : cstring }.
Definition or_text (s : cstring) (d : string) : cstring := if empty s then bytes_of_string d else s.
Definition login_body (body : option cstring) (key : string) : cstring :=
  match body with Some b => default [] (extract_json_string b key 64) | None => [] end.
Definition credentials_ok (auth : auth_config_t) (user pass : cstring) : bool :=
  str_eq user (or_text (au_username auth) "admin") && str_eq pass (or_text (au_password auth) "admin").
Definition handle_login (auth : auth_config_t) (peer_ip now : Z) (req : cstring) (l : list login_tracker_t) : response * list login_tracker_t :=
  let '(locked, l) := login_is_locked_out peer_ip now l in
  if locked then (Response 429 (dq "{`status`:`error`,`message`:`Too many failed attempts. Temporary lockout for 5 minutes.`}"), l) else
  let user := login_body (body_of req) "username" in
  let pass := login_body (body_of req) "password" in
  if credentials_ok auth user pass then
    (Response 200 (snprintf 256 (dq "{`status`:`ok`,`token`:`%s`,`username`:`%s`}")
       [FS (or_text (au_session_token auth) "flux_token_abc123"); FS (or_text (au_username auth) "admin")]), login_record_success peer_ip l)
  else (Response 401 (dq "{`status`:`error`,`message`:`Invalid username or password`}"), login_record_failure peer_ip now l).

(** ** The terminal page *)

(** The text that stands for a byte; most control characters are left out. *)
Definition terminal_char (c : Z) : cstring :=
  if c =? 34 then [92; 34]
  else if c =? 92 then [92; 92]
  else if c =? 10 then [92; 110]
  else if c =? 13 then [92; 114]
  else if c =? 9 then [92; 116]
  else if (c <? 32) && negb (c =? 27) then []
  else [c].
(** [j] bytes are written; the buffer has [dst_max]. *)
Fixpoint escape_loop (src : cstring) (j dst_max : Z) : cstring :=
  match src with
  | [] => []
  | c :: src =>
      if j + 6 <? dst_max then terminal_char c ++ escape_loop src (j + Z.of_nat (length (terminal_char c))) dst_max else []
  end.
Definition escape_terminal_json (src : cstring) (dst_max : Z) : cstring := escape_loop src 0 dst_max.

Definition is_blank (c : Z) : bool := (c =? 32) || (c =? 9) || (c =? 13) || (c =? 10).
Fixpoint trim_left (s : cstring) : cstring :=
  match s with
  | c :: s' => if is_blank c then trim_left s' else s
  | [] => []
  end.
Definition trim (s : cstring) : cstring := reverse (trim_left (reverse (trim_left s))).
Fixpoint skip_tabs (s : cstring) : cstring :=
  match s with
  | c :: s' => if (c =? 32) || (c =? 9) then skip_tabs s' else s
  | [] => []
  end.
Definition is_quote (c : Z) : bool := (c =? 34) || (c =? 39).
(** A directory without the quotes around it. *)
Definition unquote (s : cstring) : cstring :=
  match s with
  | c :: s' =>
      if is_quote c then match last s' with Some d => if is_quote d then removelast s' else s' | None => s' end else s
  | [] => []
  end.

Definition max_out : Z := 65536.
Definition truncated_mark : cstring := 10 :: bytes_of_string "[... Output truncated at 64KB ...]" ++ [10].
(** The output of a command, collected line by line. *)
Fixpoint collect_output (chunks : list cstring) (out : cstring) : cstring :=
  match chunks with
  | [] => out
  | c :: chunks =>
      if Z.of_nat (length out) + Z.of_nat (length c) <? max_out - 64 then collect_output chunks (out ++ c)
      else if Z.of_nat (length out) + Z.of_nat (length truncated_mark) <? max_out - 1 then out ++ truncated_mark else out
  end.

(** The answers of the system that the page depends on: the outcome of [chdir] and [getcwd], what a command
    prints and its exit status. *)
Record terminal_env := TerminalEnv {
  te_chdir : cstring -> bool;
  te_getcwd : option cstring;            (** after the last [chdir] *)
  te_run : cstring -> option (cstring * Z);
  te_error : cstring
}.
Inductive terminal_effect := TeRun (cmd : cstring) | TeChdir (dir : cstring).
Definition cwd_or (env : terminal_env) (d : cstring) : cstring := default d (str_trunc 512 <$> te_getcwd env).
Definition terminal_cmd (body : option cstring) : cstring :=
  trim (match body with Some b => default [] (extract_json_string b "cmd" 1024) | None => [] end).
Definition terminal_exec (env : terminal_env) (cwd cmd : cstring) : list terminal_effect * cstring * cstring * Z :=
  if empty cmd then ([], cwd, [], 0)
  else if str_eq cmd "cd" || str_eq cmd "cd ~" then
    (TeChdir "/root" :: (if te_chdir env "/root" then [] else [TeChdir "/"]), cwd_or env "/root", [], 0)
  else if has_prefix "cd " cmd then
    let dir := unquote (safe_str_copy (skip_tabs (drop 3 cmd)) 512) in
    if te_chdir env dir then ([TeChdir dir], cwd_or env dir, [], 0)
    else ([TeChdir dir], cwd, sprintf "cd: %s: No such file or directory" [FS dir] ++ [10], 1)
  else
    let full := snprintf 2048 (dq "export PATH=/usr/local/sbin:/usr/local/bin:/usr/sbin:/usr/bin:/sbin:/bin:$PATH; cd `%s` 2>/dev/null; (%s) 2>&1") [FS cwd; FS cmd] in
    match te_run env full with
    | Some (out, code) => ([TeRun full], cwd, collect_output (fgets_lines 1024 out) [], code)
    | None => ([], cwd, sprintf "Failed to execute: %s" [FS (te_error env)] ++ [10], 127)
    end.
Definition terminal_body (cmd out cwd : cstring) (code : Z) : cstring :=
  sprintf (lines [dq "{"; dq "  `status`: `%s`,"; dq "  `cmd`: `%s`,"; dq "  `output`: `%s`,"; dq "  `exit_code`: %d,"; dq "  `cwd`: `%s`"])
    [FS (if code =? 0 then bytes_of_string "ok" else bytes_of_string "error"); FS (escape_terminal_json cmd 2048);
     FS (escape_terminal_json out (max_out * 2 + 1024)); FN code; FS (escape_terminal_json cwd 1024)] ++ [125].
Definition handle_terminal_exec (config : fluxwan_config_t) (env : terminal_env) (cwd : cstring) (req : cstring)
    : response * cstring * list terminal_effect :=
  if negb (is_request_authorized config req)
  then (Response 401 (dq "{`status`:`error`,`message`:`Unauthorized. Admin login required.`}"), cwd, []) else
  let cwd := if empty cwd then cwd_or env "/root" else cwd in
  let cmd := terminal_cmd (body_of req) in
  let '(effects, cwd', out, code) := terminal_exec env cwd cmd in
  (Response 200 (str_trunc (max_out * 2 + 1024 + 2048) (terminal_body cmd out cwd' code)), cwd', effects).

(** ** Results: the limiter *)

Definition tracker_ok (t : login_tracker_t) : Prop := 0 <= lt_failed_attempts t /\ (lt_lockout_until t <> 0 -> 5 <= lt_failed_attempts t).
Definition trackers_ok (l : list login_tracker_t) : Prop := Forall tracker_ok l.

Lemma locked_out_ok ip now l : trackers_ok l -> trackers_ok (login_is_locked_out ip now l).2.
Proof.
  intros H. unfold login_is_locked_out. destruct (ip =? 0); [done|]. destruct (list_find _ l) as [[i t]|]; [|done].
  destruct (_ <? _); [done|]. destruct (negb _); [|done]. apply Forall_insert; [done|]. split; cbn; lia.
Qed.
Lemma record_failure_ok ip now l : trackers_ok l -> trackers_ok (login_record_failure ip now l).
Proof.
  intros H. unfold login_record_failure. destruct (ip =? 0); [done|]. destruct (tracker_slot ip now l) as [[i t]|] eqn:E; [|done].
  assert (Ht : tracker_ok t).
  { unfold tracker_slot in E. destruct (list_find (fun t => lt_ip t = ip) l) as [[j u]|] eqn:E1; [injection E as <- <-; apply list_find_Some in E1|apply list_find_Some in E];
      destruct_and?; by eapply Forall_lookup_1. }
  apply Forall_insert; [done|]. destruct Ht as [H1 H2]. split; cbn; [lia|]. destruct (Z.leb_spec 5 (lt_failed_attempts t + 1)); [lia|]. intros Hn. specialize (H2 Hn). lia.
Qed.
Lemma record_success_ok ip l : trackers_ok l -> trackers_ok (login_record_success ip l).
Proof.
  intros H. unfold login_record_success. destruct (ip =? 0); [done|]. destruct (list_find _ l) as [[i t]|]; [|done].
  apply Forall_insert; [done|]. split; cbn; lia.
Qed.
Lemma handle_login_ok auth ip now req l : trackers_ok l -> trackers_ok (handle_login auth ip now req l).2.
Proof.
  intros H. apply (locked_out_ok ip now) in H. unfold handle_login. destruct (login_is_locked_out ip now l) as [[] l']; [done|].
  destruct (credentials_ok _ _ _); [by apply record_success_ok|by apply record_failure_ok].
Qed.

(** A wrong login. *)
Definition wrong (auth : auth_config_t) (req : cstring) : Prop :=
  credentials_ok auth (login_body (body_of req) "username") (login_body (body_of req) "password") = false.
(** Logins in their order, each with the client that sends it and its time. *)
Definition try_logins (auth : auth_config_t) (tries : list (Z * Z * cstring)) (l : list login_tracker_t) : list login_tracker_t :=
  fold_left (fun l '(ip, now, req) => (handle_login auth ip now req l).2) tries l.
(** The clients that have an entry. *)
Definition known (l : list login_tracker_t) : list Z := lt_ip <$> l.
(** The entry of a client counts [k] failures since [start], or it is locked out for five minutes from then on. *)
Definition counted (ip start k : Z) (l : list login_tracker_t) : Prop :=
  exists i t, list_find (fun t => lt_ip t = ip) l = Some (i, t)
              /\ ((lt_lockout_until t = 0 /\ k <= lt_failed_attempts t < 5) \/ start + 300 <= lt_lockout_until t).

Lemma find_insert ip i (t u : login_tracker_t) l :
  list_find (fun t => lt_ip t = ip) l = None \/ (exists v, list_find (fun t => lt_ip t = ip) l = Some (i, v)) -> (i < length l)%nat -> lt_ip u = ip ->
  list_find (fun t => lt_ip t = ip) (<[i := u]> l) = Some (i, u).
Proof.
  intros Hf Hi Hu. apply list_find_Some. split_and!; [by apply list_lookup_insert_eq|done|]. intros j y Hj Hlt.
  rewrite list_lookup_insert_ne in Hj by lia. destruct Hf as [Hf|[v Hf]].
  - apply list_find_None in Hf. by apply (Forall_lookup_1 _ _ _ _ Hf Hj).
  - apply list_find_Some in Hf as (_ & _ & Hf). by apply (Hf j y).
Qed.
Lemma slot_bound ip now l i t : tracker_slot ip now l = Some (i, t) ->
  (i < length l)%nat /\ l !! i = Some t
  /\ (list_find (fun t => lt_ip t = ip) l = None \/ (exists v, list_find (fun t => lt_ip t = ip) l = Some (i, v))).
Proof.
  unfold tracker_slot. destruct (list_find (fun t => lt_ip t = ip) l) as [[j u]|] eqn:E; intros H.
  - injection H as <- <-. pose proof E as E'. apply list_find_Some in E' as (E' & _). split_and!; [by eapply lookup_lt_Some|done|right; eauto].
  - apply list_find_Some in H as (H & _). split_and!; [by eapply lookup_lt_Some|done|by left].
Qed.

Lemma failure_counted ip start now k l i t :
  ip <> 0 -> start <= now -> tracker_slot ip now l = Some (i, t) -> (lt_lockout_until t <> 0 -> 5 <= lt_failed_attempts t) -> k <= lt_failed_attempts t ->
  counted ip start (k + 1) (login_record_failure ip now l).
Proof.
  intros Hip Hs Hslot Hlock Hk. destruct (slot_bound _ _ _ _ _ Hslot) as (Hi & _ & Hf). unfold login_record_failure. rewrite Hslot, (proj2 (Z.eqb_neq ip 0) Hip).
  exists i. eexists. split; [by apply (find_insert ip i t)|]. cbn. destruct (Z.leb_spec 5 (lt_failed_attempts t + 1)); [right; lia|].
  left. split; [|lia]. destruct (Z.eq_dec (lt_lockout_until t) 0) as [|Hne]; [done|]. specialize (Hlock Hne). lia.
Qed.
Lemma try_counted auth ip start k now req l :
  ip <> 0 -> 0 < start -> start <= now < start + 300 -> wrong auth req -> counted ip start k l -> counted ip start (k + 1) (handle_login auth ip now req l).2.
Proof.
  intros Hip Hst Hn Hw (i & t & Hf & Ht). unfold handle_login, login_is_locked_out. rewrite (proj2 (Z.eqb_neq ip 0) Hip), Hf.
  destruct (Z.ltb_spec now (lt_lockout_until t)) as [Hl|Hl].
  - destruct Ht as [Ht|Ht]; [lia|]. exists i, t. split; [done|by right].
  - destruct Ht as [[Ht Hk]|Ht]; [|lia]. rewrite Ht. cbn [Z.eqb negb]. rewrite Hw. cbn [snd].
    eapply (failure_counted _ _ _ _ _ i t); [done|lia|unfold tracker_slot; by rewrite Hf|lia|lia].
Qed.

Lemma first_counted auth ip start req l :
  ip <> 0 -> 0 < start -> trackers_ok l -> wrong auth req -> (login_is_locked_out ip start l).1 = false -> is_Some (tracker_slot ip start l) ->
  counted ip start 1 (handle_login auth ip start req l).2.
Proof.
  intros Hip Hst Hok Hw Hun [[i t] Hslot]. destruct (slot_bound _ _ _ _ _ Hslot) as (Hi & Hl & Hf). pose proof (Forall_lookup_1 _ _ _ _ Hok Hl) as [Ht1 Ht2].
  unfold handle_login. unfold login_is_locked_out in *. rewrite (proj2 (Z.eqb_neq ip 0) Hip) in *.
  destruct (list_find (fun t => lt_ip t = ip) l) as [[j u]|] eqn:E.
  - unfold tracker_slot in Hslot. rewrite E in Hslot. injection Hslot as -> ->. destruct (start <? lt_lockout_until t); [done|].
    destruct (negb (lt_lockout_until t =? 0)) eqn:E0; rewrite Hw; cbn [snd].
    + apply (failure_counted _ _ _ 0 _ i (LoginTracker ip 0 0)); cbn; [done|lia| |lia|lia]. unfold tracker_slot.
      by rewrite (find_insert ip i t) by eauto.
    + apply (failure_counted _ _ _ 0 _ i t); [done|lia|unfold tracker_slot; by rewrite E|done|lia].
  - rewrite Hw. cbn [snd]. apply (failure_counted _ _ _ 0 _ i t); [done|lia|done|done|lia].
Qed.

(** A login of a client with an entry changes that entry only, and leaves it the client's. *)
Lemma own_entry ip l : ip ∈ known l -> exists i t, list_find (fun t => lt_ip t = ip) l = Some (i, t) /\ l !! i = Some t /\ lt_ip t = ip.
Proof.
  intros (t & -> & Ht)%list_elem_of_fmap. destruct (list_find (fun u => lt_ip u = lt_ip t) l) as [[i u]|] eqn:E.
  - pose proof E as (H1 & H2 & _)%list_find_Some. by exists i, u.
  - apply list_find_None in E. rewrite Forall_forall in E. by apply E in Ht.
Qed.
Lemma own_record auth ip now req i t l :
  ip <> 0 -> list_find (fun t => lt_ip t = ip) l = Some (i, t) ->
  exists u, lt_ip u = ip /\
    (if credentials_ok auth (login_body (body_of req) "username") (login_body (body_of req) "password")
     then login_record_success ip l else login_record_failure ip now l) = <[i := u]> l.
Proof.
  intros Hip Hf. unfold login_record_success, login_record_failure, tracker_slot. rewrite (proj2 (Z.eqb_neq ip 0) Hip), Hf.
  destruct (credentials_ok _ _ _); (eexists; split; [|reflexivity]; reflexivity).
Qed.
Lemma own_login auth ip now req l : ip ∈ known l ->
  (handle_login auth ip now req l).2 = l
  \/ exists i t u, l !! i = Some t /\ lt_ip t = ip /\ lt_ip u = ip /\ (handle_login auth ip now req l).2 = <[i := u]> l.
Proof.
  intros Hk. destruct (own_entry ip l Hk) as (i & t & Hf & Hi & Ht). unfold handle_login, login_is_locked_out.
  destruct (Z.eqb_spec ip 0) as [->|Hip].
  - left. unfold login_record_failure, login_record_success. by destruct (credentials_ok _ _ _).
  - rewrite Hf. destruct (now <? lt_lockout_until t); [by left|]. right. exists i, t. destruct (negb _).
    + destruct (own_record auth ip now req i (LoginTracker ip 0 0) (<[i := LoginTracker ip 0 0]> l)) as (u & Hu & E); [done| |].
      { apply (find_insert ip i t); [right; by exists t|by eapply lookup_lt_Some|done]. }
      rewrite list_insert_insert_eq in E. exists u. split_and!; [done..|]. by destruct (credentials_ok _ _ _).
    + destruct (own_record auth ip now req i t l Hip Hf) as (u & Hu & E). exists u. split_and!; [done..|]. by destruct (credentials_ok _ _ _).
Qed.
Lemma login_known auth ip now req l : ip ∈ known l -> known (handle_login auth ip now req l).2 = known l.
Proof.
  intros [-> | (i & t & u & Hi & Ht & Hu & ->)]%(own_login auth ip now req); [done|]. unfold known. rewrite list_fmap_insert.
  apply list_insert_id. rewrite list_lookup_fmap, Hi. cbn. congruence.
Qed.
Lemma other_counted auth ip a start k now req l :
  a <> ip -> a ∈ known l -> counted ip start k l -> counted ip start k (handle_login auth a now req l).2.
Proof.
  intros Hne [-> | (j & v & u & Hj & Hv & Hu & ->)]%(own_login auth a now req) (i & t & Hf & Ht); [by exists i, t|].
  exists i, t. split; [|done]. apply list_find_Some in Hf as (Hi & Hip & Hfirst). apply list_find_Some.
  assert (i <> j) by (intros ->; congruence). split_and!; [by rewrite list_lookup_insert_ne|done|].
  intros x y Hx Hlt. destruct (decide (x = j)) as [->|Hxj].
  - rewrite list_lookup_insert_eq in Hx by (by eapply lookup_lt_Some). congruence.
  - rewrite list_lookup_insert_ne in Hx by done. by apply (Hfirst x y).
Qed.
Lemma counted_known ip start k l : counted ip start k l -> ip ∈ known l.
Proof. intros (i & t & (Hi & <- & _)%list_find_Some & _). apply list_elem_of_fmap_2. by eapply list_elem_of_lookup_2. Qed.

(** What may come after the first wrong login of a client: within five minutes of it, wrong logins of the client, and any
    logins of clients that have an entry of their own. *)
Definition later_login (auth : auth_config_t) (ip start : Z) (clients : list Z) (e : Z * Z * cstring) : Prop :=
  let '(a, u, r) := e in start <= u < start + 300 /\ if decide (a = ip) then wrong auth r else a ∈ clients.
Lemma tries_counted auth ip start : ip <> 0 -> 0 < start -> forall tries k l,
  Forall (later_login auth ip start (known l)) tries -> counted ip start k l ->
  counted ip start (k + Z.of_nat (length (filter (fun e => e.1.1 = ip) tries))) (try_logins auth tries l).
Proof.
  intros Hip Hst. induction tries as [|[[a u] r] tries IH]; intros k l Hf Hc; [by rewrite Z.add_0_r|].
  apply Forall_cons in Hf as [[Hu Ha] Hf]. cbn [try_logins fold_left].
  assert (Hk : a ∈ known l) by (destruct (decide (a = ip)) as [->|]; [by eapply counted_known|done]).
  rewrite <- (login_known auth a u r l Hk) in Hf. rewrite filter_cons. cbn [fst]. destruct (decide (a = ip)) as [->|Hne]; rewrite ?decide_True, ?decide_False by done.
  - cbn [length]. replace (k + Z.of_nat (S (length (filter (fun e => e.1.1 = ip) tries)))) with (k + 1 + Z.of_nat (length (filter (fun e => e.1.1 = ip) tries))) by lia.
    apply IH; [done|]. by apply try_counted.
  - apply IH; [done|]. by apply other_counted.
Qed.

(** C20.  Five wrong logins of a client within five minutes lock it out: until five minutes after the first
    of them every further login of the client is refused, also one with the right password.  The client has a known
    address, is not locked out before, and finds an entry in the table for its first failure; in between, clients that have an entry
    of their own may log in, rightly or not.  A client without one may not: its failure can take the entry over, with its
    count ([failures_are_shared]). *)
Theorem five_failures_lock_out auth ip start req1 tries now req l :
  let l1 := (handle_login auth ip start req1 l).2 in
  ip <> 0 -> 0 < start -> trackers_ok l -> (login_is_locked_out ip start l).1 = false -> is_Some (tracker_slot ip start l) ->
  wrong auth req1 -> Forall (later_login auth ip start (known l1)) tries -> (4 <= length (filter (fun e => e.1.1 = ip) tries))%nat ->
  start <= now < start + 300 ->
  rs_status (handle_login auth ip now req (try_logins auth tries l1)).1 = 429.
Proof.
  intros l1 Hip Hst Hok Hun Hslot Hw1 Htr Hlen Hn. pose proof (first_counted auth ip start req1 l Hip Hst Hok Hw1 Hun Hslot) as Hc.
  destruct (tries_counted auth ip start Hip Hst tries 1 l1 Htr Hc) as (i & t & Hf & Ht). destruct Ht as [Ht|Ht]; [lia|].
  unfold handle_login, login_is_locked_out. rewrite (proj2 (Z.eqb_neq ip 0) Hip), Hf, (proj2 (Z.ltb_lt now (lt_lockout_until t))) by lia. done.
Qed.

(** Failures of one client count against another: the entry of a client that is not locked out is taken
    over with its count, so that after four wrong logins of one client a single wrong login of another one
    locks that other one out. *)
Theorem failures_are_shared auth now req a e l :
  3600 < now -> e <> 0 -> a <> e -> Forall (fun t => lt_ip t <> e) l -> wrong auth req ->
  (login_is_locked_out e now (handle_login auth e now req (LoginTracker a 4 0 :: l)).2).1 = true.
Proof.
  intros Hn He Ha Hl Hw. assert (Hf : list_find (fun t => lt_ip t = e) (LoginTracker a 4 0 :: l) = None)
    by (apply list_find_None; by constructor).
  unfold handle_login, login_is_locked_out at 2. rewrite (proj2 (Z.eqb_neq e 0) He), Hf, Hw. cbn [snd].
  unfold login_record_failure. rewrite (proj2 (Z.eqb_neq e 0) He). unfold tracker_slot. rewrite Hf. cbn [list_find lt_ip lt_lockout_until].
  destruct (decide (a = 0 \/ 0 < now - 3600)) as [_|Hd]; [|lia]. cbn. unfold login_is_locked_out. rewrite (proj2 (Z.eqb_neq e 0) He). cbn [list_find lt_ip].
  destruct (decide (e = e)); [|done]. destruct (now <? _) eqn:E; [done|]. apply Z.ltb_ge in E. cbn in E. change (5 <=? 4 + 1) with true in E. cbv iota in E. lia.
Qed.

Definition admin : auth_config_t := AuthConfig true "admin" "secret" "token".
Definition guess : cstring := header_end ++ dq "{`username`:`admin`,`password`:`guess`}".
Lemma five_failures_lock_out_witness :
  rs_status (handle_login admin 7 1010 (header_end ++ dq "{`username`:`admin`,`password`:`secret`}")
    (try_logins admin [(7, 1001, guess); (9, 1001, guess); (7, 1002, guess); (7, 1003, guess); (7, 1004, guess)]
      (handle_login admin 7 1000 guess (LoginTracker 9 0 0 :: replicate 63 (LoginTracker 0 0 0))).2)).1 = 429.
Proof.
  apply (five_failures_lock_out admin 7 1000 guess [(7, 1001, guess); (9, 1001, guess); (7, 1002, guess); (7, 1003, guess); (7, 1004, guess)]);
    [done|done|apply Forall_cons; split; [|apply Forall_replicate]; (split; [done|by intros []])|reflexivity|by eexists|reflexivity| |vm_compute; lia|by split].
  repeat (apply Forall_cons; split; [split; [by split|first [reflexivity | apply (bool_decide_unpack _); by vm_compute]]|]). constructor.
Defined.
Lemma failures_are_shared_witness :
  (login_is_locked_out 8 5000 (handle_login admin 8 5000 guess (LoginTracker 7 4 0 :: [])).2).1 = true.
Proof. apply (failures_are_shared admin 5000 guess 7 8 []); [done|done|done|constructor|reflexivity]. Defined.

(** ** Results: texts *)

(** What the terminal page shows: everything but control characters other than tab, line breaks and escape. *)
Definition shown (c : Z) : bool := negb ((c <? 32) && negb ((c =? 9) || (c =? 10) || (c =? 13) || (c =? 27))).
Lemma terminal_char_length c : (length (terminal_char c) <= 2)%nat.
Proof. unfold terminal_char. repeat (case_match; [cbn; lia|]). cbn. lia. Qed.
Lemma terminal_char_cases c :
  (terminal_char c = [] /\ shown c = false)
  \/ (terminal_char c = [c] /\ shown c = true /\ c <> 34 /\ c <> 92)
  \/ (exists d, terminal_char c = [92; d] /\ shown c = true /\ (if d =? 110 then 10 else if d =? 114 then 13 else if d =? 116 then 9 else d) = c).
Proof.
  unfold terminal_char, shown. destruct (Z.eqb_spec c 34) as [->|H1]; [right; right; by eexists|].
  destruct (Z.eqb_spec c 92) as [->|H2]; [right; right; by eexists|]. destruct (Z.eqb_spec c 10) as [->|H3]; [right; right; by eexists|].
  destruct (Z.eqb_spec c 13) as [->|H4]; [right; right; by eexists|]. destruct (Z.eqb_spec c 9) as [->|H5]; [right; right; by eexists|].
  destruct (c <? 32), (c =? 27); cbn; [right; left|left|right; left|right; left]; done.
Qed.

Lemma escape_whole s j n :
  j + 2 * Z.of_nat (length s) + 6 < n -> escape_loop s j n = concat (terminal_char <$> s).
Proof.
  revert j. induction s as [|c s IH]; intros j Hn; [done|]. cbn [escape_loop length] in *. pose proof (terminal_char_length c).
  rewrite (proj2 (Z.ltb_lt (j + 6) n)) by lia. rewrite fmap_cons. cbn [concat]. f_equal. apply IH. lia.
Qed.
Lemma escaped_body s rest : string_body (concat (terminal_char <$> s) ++ 34 :: rest) false = Some (concat (terminal_char <$> s)).
Proof.
  induction s as [|c s IH]; [done|]. rewrite fmap_cons. cbn [concat]. rewrite <- app_assoc.
  destruct (terminal_char_cases c) as [[-> _]|[(-> & _ & Hq & Hb)|(d & -> & _)]]; cbn [app string_body]; [done|..].
  - rewrite (proj2 (Z.eqb_neq c 92) Hb), (proj2 (Z.eqb_neq c 34) Hq), IH. done.
  - change (92 =? 92) with true. cbv iota. by rewrite IH.
Qed.
Lemma escaped_reads_back s : unescape_json_inplace (concat (terminal_char <$> s)) = List.filter shown s.
Proof.
  induction s as [|c s IH]; [done|]. rewrite fmap_cons. cbn [concat List.filter].
  destruct (terminal_char_cases c) as [[-> ->]|[(-> & -> & Hq & Hb)|(d & -> & -> & Hd)]]; cbn [app unescape_json_inplace]; [done|..].
  - rewrite (proj2 (Z.eqb_neq c 92) Hb), IH. done.
  - change (92 =? 92) with true. cbv iota. by rewrite Hd, IH.
Qed.

(** The text of the terminal page is a JSON string whatever a command prints: no byte of it ends the
    string, and read back it is what was printed without the control characters, as long as the buffer has
    twice its length. *)
Theorem terminal_text_reads_back s n rest :
  2 * Z.of_nat (length s) + 6 < n ->
  string_body (escape_terminal_json s n ++ 34 :: rest) false = Some (escape_terminal_json s n)
  /\ unescape_json_inplace (escape_terminal_json s n) = List.filter shown s.
Proof. intros Hn. unfold escape_terminal_json. rewrite escape_whole by lia. split; [apply escaped_body|apply escaped_reads_back]. Qed.
Lemma terminal_text_reads_back_witness :
  unescape_json_inplace (escape_terminal_json (dq "a`b\c") 64) = List.filter shown (dq "a`b\c").
Proof. apply (terminal_text_reads_back (dq "a`b\c") 64 []). vm_compute. reflexivity. Defined.

(** The buffers of the terminal page are never overrun. *)
Lemma escape_bound s j n : 0 <= j < n -> j + Z.of_nat (length (escape_loop s j n)) < n.
Proof.
  revert j. induction s as [|c s IH]; intros j Hj; cbn [escape_loop]; [cbn; lia|]. destruct (Z.ltb_spec (j + 6) n); [|cbn; lia].
  rewrite length_app. pose proof (terminal_char_length c). specialize (IH (j + Z.of_nat (length (terminal_char c))) ltac:(lia)). lia.
Qed.
Lemma output_bound chunks out : Z.of_nat (length out) < max_out - 1 -> Z.of_nat (length (collect_output chunks out)) < max_out - 1.
Proof.
  revert out. induction chunks as [|c chunks IH]; intros out H; cbn [collect_output]; [done|]. destruct (Z.ltb_spec (Z.of_nat (length out) + Z.of_nat (length c)) (max_out - 64)).
  - apply IH. rewrite length_app. unfold max_out in *. lia.
  - destruct (Z.ltb_spec (Z.of_nat (length out) + Z.of_nat (length truncated_mark)) (max_out - 1)); [|done]. rewrite length_app. lia.
Qed.
(** Whatever a command prints, its collected output fits its buffer with the NUL, and escaped text fits
    its own. *)
Theorem terminal_buffers_hold out s n :
  0 < n -> Z.of_nat (length (collect_output (fgets_lines 1024 out) [])) < max_out /\ Z.of_nat (length (escape_terminal_json s n)) < n.
Proof.
  intros Hn. split; [|pose proof (escape_bound s 0 n ltac:(lia)); unfold escape_terminal_json; lia].
  pose proof (output_bound (fgets_lines 1024 out) [] ltac:(vm_compute; reflexivity)). lia.
Qed.
Lemma terminal_buffers_hold_witness : Z.of_nat (length (escape_terminal_json (dq "``````````") 10)) < 10.
Proof. apply (terminal_buffers_hold [] (dq "``````````") 10). reflexivity. Defined.

(** While the session token is empty, a request that carries the word [Bearer] with a blank behind it is
    authorised, wherever it stands and whatever follows it. *)
Theorem empty_token_authorises config before after :
  au_session_token (c_auth config) = [] -> is_request_authorized config (before ++ bytes_of_string "Bearer " ++ after) = true.
Proof.
  intros Ht. unfold is_request_authorized. rewrite Ht. replace (snprintf 128 "Bearer %s" [FS []]) with (bytes_of_string "Bearer ") by (vm_compute; reflexivity).
  apply orb_true_iff. right. unfold found. induction before as [|c before IH]; [reflexivity|]. cbn [app strstr].
  destruct (has_prefix _ _); [done|exact IH].
Qed.
Lemma empty_token_authorises_witness : is_request_authorized (set_c_auth (AuthConfig true [] [] []) zero_config) (dq "GET /api/v1/status" ++ bytes_of_string "Bearer " ++ dq "x") = true.
Proof. apply (empty_token_authorises (set_c_auth (AuthConfig true [] [] []) zero_config) (dq "GET /api/v1/status") (dq "x")). reflexivity. Defined.
