(* ===== verification/ConfigLoad.v ===== *)
(** * Reading the configuration file ([src/src/config.c], [config_load])

    The file is searched, not parsed: a block begins at its quoted key, and its fields are the
    first quoted keys that follow, wherever they are.  Each block of [config_load] is one
    definition; [load_objects] is the loop that the arrays share.  The allocations for a copy of
    an object succeed, the file system is a function from paths to contents. *)

From S2P Require Import Prelude Fluxwan Ipv4 CLib Json ProxyUri.

(** [extract_json_string] into a buffer of [n] bytes and from there into a field of [m]. *)
Definition copied (json key : cstring) (n m : Z) : option cstring :=
  v ← extract_json_string json key n;
  Some (safe_str_copy v m).
Definition copied_or (json key : cstring) (n m : Z) (d : string) : cstring :=
  default (bytes_of_string d) (copied json key n m).
(** The same for a zeroed field that stays as it is without the key. *)
Definition copied_text (json key : cstring) (n m : Z) : cstring := default [] (copied json key n m).
Definition read_text (json key : cstring) (n : Z) : cstring := default [] (extract_json_string json key n).

(** The elements of an array of objects: at most [max] of them, each with its index. *)
Definition load_objects {A} (close : cstring -> option cstring) (max : Z) (f : Z -> cstring -> A) (pos : option cstring) : list A :=
  match pos ≫= json_array with
  | None => []
  | Some arr => imap (fun i obj => f (Z.of_nat i) obj) (take (Z.to_nat max) (array_objects close arr))
  end.

(** ** The LAN *)

Definition addr_or (json key : cstring) (d : string) : Z :=
  match extract_json_string json key 64 with
  | Some v => if negb (empty v) && negb (str_eq v "0.0.0.0") then str_to_ip v else str_to_ip d
  | None => str_to_ip d
  end.

Definition load_policy_route (_ : Z) (obj : cstring) : policy_route_t :=
  let subnet := extract_json_string obj "subnet" 64 in
  let '(ip, mask, prefix) := match subnet with Some v => parse_cidr_subnet v | None => (0, 0, 0) end in
  let gateway := extract_json_string obj "gateway_ip" 64 in
  PolicyRoute (match subnet with Some v => safe_str_copy v 32 | None => [] end) ip mask prefix
    (match gateway with Some v => safe_str_copy v 32 | None => [] end)
    (match gateway with Some v => str_to_ip v | None => 0 end)
    (copied_text obj "target_group" 64 32) 0 (copied_text obj "description" 64 64) (extract_json_bool obj "enabled" true).

Definition load_static_lease (_ : Z) (obj : cstring) : static_lease_t :=
  let mval := read_text obj "mac" 64 in
  StaticLease (safe_str_copy mval 18) (default (replicate 6 0) (parse_mac_str mval)) (str_to_ip (read_text obj "ip" 64))
    (safe_str_copy (read_text obj "hostname" 64) 64) (extract_json_bool obj "enabled" true).

Definition load_rate_limit (_ : Z) (obj : cstring) : rate_limit_t :=
  let ipval := read_text obj "ip" 64 in
  RateLimit (safe_str_copy ipval 32) (str_to_ip ipval) (u32 (extract_json_int obj "max_down_mbps" 50))
    (u32 (extract_json_int obj "max_up_mbps" 10)) (safe_str_copy (read_text obj "description" 64) 64)
    (extract_json_bool obj "enabled" true).

Definition load_qos (pos : option cstring) : qos_config_t :=
  match pos with
  | Some p =>
      let algo := read_text p "algorithm" 32 in
      QosConfig (extract_json_bool p "enabled" false) (if empty algo then bytes_of_string "cake" else safe_str_copy algo 16)
        (u32 (extract_json_int p "bandwidth_down_mbps" 100)) (u32 (extract_json_int p "bandwidth_up_mbps" 20))
        (extract_json_bool p "diffserv4" true)
  | None => QosConfig false "cake" 100 20 true
  end.

Definition load_dns (pos : option cstring) : dns_features_t :=
  match pos with
  | Some p =>
      let dns1 := read_text p "primary_dns" 32 in
      let dns2 := read_text p "secondary_dns" 32 in
      DnsFeatures (extract_json_bool p "adblock_enabled" false) (extract_json_bool p "fast_dns_enabled" true)
        (safe_str_copy (if empty dns1 then bytes_of_string "1.1.1.1" else dns1) 32)
        (safe_str_copy (if empty dns2 then bytes_of_string "8.8.8.8" else dns2) 32)
        (extract_json_bool p "smart_ipv6_bonding" true)
  | None => DnsFeatures false true "1.1.1.1" "8.8.8.8" true
  end.

Definition load_lan (json : cstring) : lan_config_t :=
  match strstr json (quoted "lan") with
  | None => zero_lan
  | Some p =>
      let name := read_text p "interface" 64 in
      LanConfig (if empty name then bytes_of_string "eth0" else safe_str_copy name 32)
        (addr_or p "ip" "192.168.90.1") (addr_or p "netmask" "255.255.255.0") (extract_json_bool p "dhcp_enabled" true)
        (addr_or p "dhcp_start" "192.168.90.100") (addr_or p "dhcp_end" "192.168.90.200")
        (u32 (extract_json_int p "dhcp_lease_time" 43200)) 0
        (load_objects first_brace MAX_POLICY_ROUTES load_policy_route (strstr p (quoted "policy_routes")))
        (load_objects first_brace MAX_STATIC_LEASES load_static_lease (strstr p (quoted "static_leases")))
        (load_objects first_brace MAX_RATE_LIMITS load_rate_limit (strstr p (quoted "rate_limits")))
        (load_qos (strstr p (quoted "qos"))) (load_dns (strstr p (quoted "dns")))
  end.

(** ** The uplinks *)

(** The array of the first key [wans] that holds an object; the members of a group are under
    the same key.  Every turn takes six bytes at least: the length is enough fuel. *)
Fixpoint find_wans (fuel : nat) (json : cstring) : option cstring :=
  match fuel with
  | O => None
  | S fuel =>
      pos ← strstr json (quoted "wans");
      match json_array pos with
      | Some arr => match strchr arr 123 with
                    | Some _ => Some arr
                    | None => find_wans fuel (drop 6 pos)
                    end
      | None => find_wans fuel (drop 6 pos)
      end
  end.

Definition wan_type_of (val : cstring) : wan_type_t :=
  if str_eq val "dhcp" then WAN_TYPE_DHCP
  else if str_eq val "pppoe" then WAN_TYPE_PPPOE
  else if str_eq val "wifi" then WAN_TYPE_WIFI
  else WAN_TYPE_STATIC.

Definition proxy_proto_of (val : cstring) : proxy_proto_t :=
  if str_eq val "vless" then PROXY_PROTO_VLESS
  else if str_eq val "vmess" then PROXY_PROTO_VMESS
  else if str_eq val "trojan" then PROXY_PROTO_TROJAN
  else if str_eq val "shadowsocks" then PROXY_PROTO_SHADOWSOCKS
  else PROXY_PROTO_NONE.

Definition strategy_of_int (v : Z) : proxy_balancer_strategy_t :=
  if v =? 0 then PROXY_STRATEGY_FAILOVER
  else if v =? 1 then PROXY_STRATEGY_ROUND_ROBIN
  else if v =? 2 then PROXY_STRATEGY_LEAST_LOAD
  else PROXY_STRATEGY_OTHER v.

Definition strategy_of_name (val : cstring) : proxy_balancer_strategy_t :=
  if strcase_eq val "leastLoad" || strcase_eq val "least_load" || strcase_eq val "smartFlow" then PROXY_STRATEGY_LEAST_LOAD
  else if strcase_eq val "roundRobin" || strcase_eq val "round_robin" then PROXY_STRATEGY_ROUND_ROBIN
  else PROXY_STRATEGY_FAILOVER.

Definition load_proxy (obj name : cstring) : wan_proxy_config_t :=
  let enabled := extract_json_bool obj "proxy_enabled" false in
  let proto := extract_json_string obj "proxy_proto" 256 in
  let raw_uri := copied_text obj "proxy_raw_uri" 1024 2048 in
  let raw_uri2 := copied_text obj "proxy_raw_uri_2" 2048 2048 in
  let raw_uri3 := copied_text obj "proxy_raw_uri_3" 2048 2048 in
  let strategy := match extract_json_string obj "proxy_strategy_str" 32 with
                  | Some v => strategy_of_name v
                  | None => strategy_of_int (extract_json_int obj "proxy_strategy" 0)
                  end in
  let p :=
    WanProxyConfig enabled strategy
      [set_ep_raw_uri raw_uri zero_endpoint; set_ep_raw_uri raw_uri2 zero_endpoint; set_ep_raw_uri raw_uri3 zero_endpoint] 0
      (match proto with Some v => proxy_proto_of v | None => PROXY_PROTO_NONE end)
      (match proto with Some v => safe_str_copy v 16 | None => [] end)
      (copied_text obj "proxy_server" 256 128) (u16 (extract_json_int obj "proxy_port" 443))
      (copied_text obj "proxy_uuid" 256 64) (copied_text obj "proxy_sni" 256 128) (copied_text obj "proxy_host" 256 128)
      (copied_text obj "proxy_path" 256 128) (copied_text obj "proxy_transport" 256 16) (copied_text obj "proxy_security" 256 16)
      (copied_text obj "proxy_encryption" 256 256) raw_uri (copied_text obj "proxy_tun_dev" 256 16) (safe_str_copy name 32)
      0 0 false 0 in
  if enabled || negb (empty raw_uri) || negb (empty raw_uri2) then proxy_manager_sync_servers p else p.

Definition wan_state_of (val : option cstring) (enabled : bool) : wan_state_t :=
  match val with
  | Some v => if str_eq v "DRAINING" then WAN_STATE_DRAINING
              else if str_eq v "DOWN" then WAN_STATE_DOWN
              else if str_eq v "DEGRADED" then WAN_STATE_DEGRADED
              else WAN_STATE_HEALTHY
  | None => if enabled then WAN_STATE_HEALTHY else WAN_STATE_DOWN
  end.

(** The first of two keys that has a string. *)
Definition either_text (obj k1 k2 : cstring) (n m : Z) : cstring :=
  match extract_json_string obj k1 n with
  | Some v => safe_str_copy v m
  | None => copied_text obj k2 n m
  end.
Definition text_ip (obj key : cstring) : Z :=
  match extract_json_string obj key 256 with Some v => str_to_ip v | None => 0 end.

Definition load_wan (idx : Z) (obj : cstring) : wan_config_t :=
  let name := copied_text obj "name" 256 32 in
  let type := match extract_json_string obj "type" 256 with Some v => wan_type_of v | None => WAN_TYPE_STATIC end in
  let security := match extract_json_string obj "wifi_security" 256 with
                  | Some v => safe_str_copy v 16
                  | None => if bool_decide (type = WAN_TYPE_WIFI) then bytes_of_string "WPA2-PSK" else []
                  end in
  let weight := u32 (extract_json_int obj "weight" 100) in
  let mtu := u32 (extract_json_int obj "mtu" 1500) in
  let probe := extract_json_string obj "probe_target" 256 in
  let enabled := extract_json_bool obj "enabled" true in
  let state := wan_state_of (extract_json_string obj "state" 32) enabled in
  WanConfig (u32 (extract_json_int obj "id" (idx + 1))) name (copied_text obj "label" 256 64) type
    (text_ip obj "ip") (text_ip obj "netmask") (text_ip obj "gateway") [0; 0] []
    (either_text obj "mac" "custom_mac" 256 20)
    (either_text obj "ppp_username" "username" 256 64) (either_text obj "ppp_password" "password" 256 64)
    (u16 (extract_json_int obj "mss_clamping" 1452))
    (either_text obj "wifi_ssid" "ssid" 256 64) (copied_text obj "wifi_password" 256 64) security [] 0 0 []
    (u32 (extract_json_int obj "table_id" (100 + idx + 1)))
    weight (if negb enabled then 0 else if bool_decide (state = WAN_STATE_DRAINING) then 0 else weight)
    (u32 (extract_json_int obj "bandwidth_down_mbps" 100)) (u32 (extract_json_int obj "bandwidth_up_mbps" 20))
    state enabled
    (match probe with Some v => safe_str_copy v 64 | None => bytes_of_string "8.8.8.8" end)
    (str_to_ip (match probe with Some v => v | None => bytes_of_string "8.8.8.8" end))
    zero_metrics 0 0 0 0 [] [] (u16 mtu) mtu [] (load_proxy obj name).

(** One turn of the loop that makes the identifiers unique: [before] is what precedes the uplink. *)
Definition unique_ids (before : list wan_config_t) (w : wan_config_t) : wan_config_t :=
  let i := Z.of_nat (length before) in
  let id_dup := existsb (fun v => w_id v =? w_id w) before in
  let table_dup := existsb (fun v => w_table_id v =? w_table_id w) before in
  let w := if id_dup || (w_id w =? 0) then set_w_id (i + 1) w else w in
  let w := if table_dup || (w_table_id w =? 0) then set_w_table_id (100 + i + 1) w else w in
  if empty (w_label w) then set_w_label (str_trunc 64 (bytes_of_string "WAN_" ++ dec (w_id w))) w else w.
Definition unique_wans (wans : list wan_config_t) : list wan_config_t :=
  fold_left (fun before w => before ++ [unique_ids before w]) wans [].

Definition load_wans (json : cstring) : list wan_config_t :=
  match find_wans (length json) json with
  | None => []
  | Some arr =>
      unique_wans (imap (fun i obj => load_wan (Z.of_nat i) obj) (take (Z.to_nat MAX_WANS) (array_objects first_brace arr)))
  end.

(** ** The other blocks *)

Definition load_prober (json : cstring) : prober_config_t :=
  match strstr json (quoted "prober") with
  | Some p =>
      ProberConfig (u32 (extract_json_int p "interval_ms" 500)) (u32 (extract_json_int p "timeout_ms" 1000))
        (u32 (extract_json_int p "loss_window" 20)) (u32 (extract_json_int p "max_acceptable_rtt_ms" 250))
        (extract_json_float p "max_acceptable_loss_pct" 20%Q) (extract_json_bool p "dynamic_latency_steering" true)
  | None => ProberConfig 500 1000 20 250 20%Q true
  end.

Definition load_sticky (json : cstring) : sticky_config_t :=
  match strstr json (quoted "sticky") with
  | Some p => StickyConfig (extract_json_bool p "enabled" true) (u32 (extract_json_int p "timeout_seconds" 300))
                (extract_json_bool p "strict_banking_enabled" true)
  | None => StickyConfig true 300 true
  end.

Definition load_web (json : cstring) : web_config_t :=
  match strstr json (quoted "web") with
  | Some p => WebConfig (copied_or p "bind_ip" 64 64 "0.0.0.0") (u16 (extract_json_int p "port" 8080))
  | None => WebConfig "0.0.0.0" 8080
  end.

Definition load_auth (json : cstring) : auth_config_t :=
  match strstr json (quoted "auth") with
  | Some p => AuthConfig (extract_json_bool p "enabled" true) (copied_or p "username" 64 64 "admin")
                (copied_or p "password" 64 64 "admin") (copied_or p "session_token" 64 64 "flux_sec_token_987")
  | None => AuthConfig true "admin" "admin" "flux_sec_token_987"
  end.

Definition load_nat46 (json : cstring) : nat46_config_t :=
  match strstr json (quoted "nat46") with
  | Some p => Nat46Config (extract_json_bool p "enabled" false) (copied_or p "synthetic_prefix" 64 32 "198.18.0.0/15")
                (copied_or p "upstream_dns" 64 64 "1.1.1.1") (copied_or p "starlink_wan_name" 64 32 "veth_wan2")
  | None => Nat46Config false "198.18.0.0/15" "1.1.1.1" "veth_wan2"
  end.

Definition load_app_steering (json : cstring) : app_steering_t :=
  match strstr json (quoted "app_steering") with
  | Some p => AppSteering (extract_json_bool p "gaming_steering_enabled" false) (extract_json_bool p "voip_steering_enabled" false)
                (extract_json_bool p "bulk_balancing_enabled" true) (u32 (extract_json_int p "primary_gaming_wan_id" 0))
                (u32 (extract_json_int p "primary_voip_wan_id" 0))
  | None => AppSteering false false true 0 0
  end.

Definition load_dpi (json : cstring) : dpi_config_t :=
  match strstr json (quoted "dpi") with
  | Some p => DpiConfig (extract_json_bool p "enabled" false) (extract_json_bool p "p2p_throttle_enabled" false)
                (u32 (extract_json_int p "p2p_throttle_rate_kbps" 512)) (extract_json_bool p "voip_priority_enabled" true)
                (extract_json_bool p "gaming_priority_enabled" true) (extract_json_bool p "streaming_balance_enabled" true)
  | None => DpiConfig false false 512 true true true
  end.

Definition load_telegram (json : cstring) : telegram_config_t :=
  match strstr json (quoted "telegram") with
  | Some p => TelegramConfig (extract_json_bool p "enabled" false) (read_text p "bot_token" 128) (read_text p "chat_id" 64)
                (extract_json_bool p "notify_on_failover" true) (extract_json_bool p "notify_on_recovery" true)
  | None => TelegramConfig false [] [] true true
  end.

Definition load_stealth (json : cstring) : stealth_config_t :=
  match strstr json (quoted "stealth") with
  | Some p => StealthConfig (extract_json_bool p "enabled" true) (u8 (extract_json_int p "ttl_value" 65))
                (extract_json_bool p "cloak_traceroute" true) (extract_json_bool p "block_wan_probes" true)
  | None => StealthConfig true 65 true true
  end.

(** ** The PPPoE server *)

Definition load_radius (pos : option cstring) : radius_config_t :=
  match pos with
  | Some p =>
      let proto := match extract_json_string p "proto" 32 with
                   | Some v => if strcase_eq v "radsec" || strcase_eq v "tls" then RADIUS_PROTO_RADSEC else RADIUS_PROTO_UDP
                   | None => RADIUS_PROTO_RADSEC
                   end in
      let radsec := bool_decide (proto = RADIUS_PROTO_RADSEC) in
      let secret := read_text p "secret" 64 in
      RadiusConfig (extract_json_bool p "enabled" false) proto (read_text p "server" 128)
        (if empty secret && radsec then bytes_of_string "radsec" else secret)
        (u16 (extract_json_int p "auth_port" (if radsec then 2083 else 1812)))
        (u16 (extract_json_int p "acct_port" (if radsec then 2083 else 1813)))
        (u16 (extract_json_int p "coa_port" 3799)) (u32 (extract_json_int p "interim_interval" 300))
        (default (bytes_of_string "FluxWAN-BRAS-01") (extract_json_string p "nas_identifier" 64))
        (extract_json_bool p "tls_verify_cert" false) (read_text p "ca_cert_path" 256) (read_text p "client_cert_path" 256)
        (read_text p "client_key_path" 256) (read_text p "sni_hostname" 64)
  | None => RadiusConfig false RADIUS_PROTO_RADSEC [] "radsec" 2083 2083 3799 300 "FluxWAN-BRAS-01" false [] [] [] []
  end.

Definition load_profile (_ : Z) (obj : cstring) : pppoe_profile_t :=
  PppoeProfile (read_text obj "name" 64) (u32 (extract_json_int obj "rate_down_kbps" 0))
    (u32 (extract_json_int obj "rate_up_kbps" 0)) (u32 (extract_json_int obj "validity_days" 30))
    (read_text obj "description" 64).

Definition load_user (now _ : Z) (obj : cstring) : pppoe_user_t :=
  PppoeUser (read_text obj "username" 64) (read_text obj "password" 64) (read_text obj "profile" 64)
    (read_text obj "static_ip" 32) (read_text obj "comment" 128) (extract_json_uint64 obj "created_at" now)
    (extract_json_uint64 obj "expires_at" 0) (extract_json_bool obj "enabled" true).

Definition default_profiles : list pppoe_profile_t :=
  [PppoeProfile "Economy_10M" 10240 5120 30 "10 Mbps Down / 5 Mbps Up (30 Days)";
   PppoeProfile "Standard_25M" 25600 10240 30 "25 Mbps Down / 10 Mbps Up (30 Days)";
   PppoeProfile "Ultra_50M" 51200 20480 30 "50 Mbps Down / 20 Mbps Up (30 Days)";
   PppoeProfile "Unlimited" 0 0 0 "Max Line Speed (No Shaping / Unlimited)"].

Definition load_pppoe_server (now : Z) (lan : lan_config_t) (json : cstring) : pppoe_server_config_t :=
  let lan_or_eth0 := safe_str_copy (if empty (lan_name lan) then bytes_of_string "eth0" else lan_name lan) 32 in
  match strstr json (quoted "pppoe_server") with
  | Some p =>
      let profiles := load_objects first_brace MAX_PPPOE_PROFILES load_profile (strstr p (quoted "profiles")) in
      PppoeServerConfig (extract_json_bool p "enabled" false) (copied_or p "lan_mode" 64 16 "dual")
        (default lan_or_eth0 (copied p "interface" 64 32)) (copied_or p "service_name" 64 64 "FluxWAN-Broadband")
        (copied_or p "ac_name" 64 64 "FluxWAN-BRAS") (copied_or p "local_ip" 64 32 "10.100.0.1")
        (copied_or p "pool_start" 64 32 "10.100.0.2") (copied_or p "pool_end" 64 32 "10.100.0.254")
        (u32 (extract_json_int p "max_sessions" 250)) (copied_or p "dns1" 64 32 "1.1.1.1") (copied_or p "dns2" 64 32 "8.8.8.8")
        (u16 (extract_json_int p "mru" 1492)) (u16 (extract_json_int p "mss" 1452))
        (load_radius (strstr p (quoted "radius")))
        (match profiles with [] => default_profiles | _ => profiles end)
        (load_objects first_brace MAX_PPPOE_USERS (load_user now) (strstr p (quoted "users")))
  | None =>
      PppoeServerConfig false "dual" lan_or_eth0 "FluxWAN-Broadband" "FluxWAN-BRAS" "10.100.0.1" "10.100.0.2" "10.100.0.254" 250
        "1.1.1.1" "8.8.8.8" 1492 1452 zero_radius default_profiles
        [PppoeUser "fluxwan" "123456" "Standard_25M" [] "Default Broadband User" now 0 true]
  end.

(** ** Virtual private networks *)

(** The object under a key. *)
Definition object_of (key json : cstring) : option cstring :=
  pos ← strstr json (quoted key);
  json_object pos.

(** The same loop for the elements that are kept only when they have a key of their own. *)
Definition load_keyed {A} (max : Z) (f : cstring -> A) (key : A -> cstring) (pos : option cstring) : list A :=
  match pos ≫= json_array with
  | None => []
  | Some arr => take (Z.to_nat max) (filter (fun x => key x <> []) (f <$> array_objects find_matching_brace arr))
  end.

Definition load_peer (obj : cstring) : wireguard_peer_t :=
  WireguardPeer (read_text obj "name" 64) (read_text obj "public_key" 64) (read_text obj "client_private_key" 64)
    (read_text obj "preshared_key" 64) (read_text obj "allowed_ips" 128) (read_text obj "endpoint" 128)
    (u16 (extract_json_int obj "persistent_keepalive" 25)) (extract_json_bool obj "enabled" true) 0 0 0 [].

Definition load_wireguard (vpn : option cstring) : wireguard_config_t :=
  match vpn ≫= object_of "wireguard" with
  | Some s =>
      WireguardConfig (extract_json_bool s "enabled" false) (copied_or s "interface" 128 32 "wg0")
        (u16 (extract_json_int s "listen_port" 51820)) (copied_or s "address" 128 64 "10.250.0.1/24")
        (copied_text s "private_key" 128 64) (copied_text s "public_key" 128 64) (extract_json_bool s "allow_remote_mgmt" true)
        (load_keyed MAX_WG_PEERS load_peer wp_public_key (strstr s (quoted "peers")))
  | None => WireguardConfig false "wg0" 51820 "10.250.0.1/24" [] [] true []
  end.

Definition load_network (obj : cstring) : zerotier_network_t :=
  ZerotierNetwork (read_text obj "nwid" 32) (read_text obj "name" 64) (extract_json_bool obj "enabled" true) [] [] [] [] 0.

Definition load_zerotier (vpn : option cstring) : zerotier_config_t :=
  match vpn ≫= object_of "zerotier" with
  | Some s =>
      ZerotierConfig (extract_json_bool s "enabled" false) (copied_text s "node_id" 64 32)
        (extract_json_bool s "allow_remote_mgmt" true)
        (load_keyed MAX_ZT_NETWORKS load_network zn_nwid (strstr s (quoted "networks")))
  | None => ZerotierConfig false [] true []
  end.

Definition load_tailscale (vpn : option cstring) : tailscale_config_t :=
  match vpn ≫= object_of "tailscale" with
  | Some s =>
      TailscaleConfig (extract_json_bool s "enabled" false) (copied_text s "auth_key" 128 128) (copied_or s "hostname" 128 64 "FluxWAN")
        (copied_text s "login_server" 128 128) (copied_text s "advertise_routes" 128 128) (extract_json_bool s "accept_routes" false)
        (extract_json_bool s "is_exit_node" false) (extract_json_bool s "allow_remote_mgmt" true) [] [] [] [] []
  | None => TailscaleConfig false [] "FluxWAN" [] [] false false true [] [] [] [] []
  end.

Definition load_vpn (json : cstring) : vpn_config_t :=
  let vpn := object_of "vpn" json in
  VpnConfig (load_wireguard vpn) (load_zerotier vpn) (load_tailscale vpn).

(** ** Groups *)

(** The members of a group: up to the first closing bracket after the key. *)
Definition member_names (obj : cstring) : list cstring :=
  match pos ← strstr obj (quoted "wans"); b ← before 93 pos; strchr b 91 with
  | Some arr => str_trunc MAX_LABEL_LEN <$> take (Z.to_nat MAX_GROUP_MEMBERS) (array_strings arr)
  | None => []
  end.

Definition load_group (idx : Z) (obj : cstring) : wan_group_t :=
  let id := u32 (extract_json_int obj "id" (idx + 1)) in
  WanGroup id
    (default (str_trunc 32 (bytes_of_string "Group_" ++ dec id)) (copied obj "name" 64 32))
    (copied_text obj "description" 64 64) (member_names obj) [] 0 ∅ (extract_json_bool obj "enabled" true).

Definition named (name : cstring) (w : wan_config_t) : bool := str_eq name (w_label w) || str_eq name (w_name w).

Definition resolve_members (wans : list wan_config_t) (g : wan_group_t) : wan_group_t :=
  let members := omap (fun name => (fun iw => Z.of_nat iw.1) <$> list_find (fun w => named name w = true) wans) (g_wan_names g) in
  WanGroup (g_id g) (g_name g) (g_description g) (g_wan_names g) members (Z.of_nat (length members)) (g_maglev_ring g) (g_enabled g).

Definition resolve_policy (groups : list wan_group_t) (pr : policy_route_t) : policy_route_t :=
  set_pr_target_group_id
    (match list_find (fun g => pr_target_group pr = g_name g) groups with Some (_, g) => g_id g | None => 0 end) pr.

(** ** Address lists *)

Definition isalpha (c : Z) : bool := ((65 <=? c) && (c <=? 90)) || ((97 <=? c) && (c <=? 122)).

Definition load_entry (value : cstring) : address_list_entry_t :=
  let value := str_trunc MAX_ENTRY_STR_LEN value in
  AddressListEntry value (if existsb isalpha value then ADDR_ENTRY_DOMAIN else ADDR_ENTRY_IP) 0.

Definition load_entries (pos : option cstring) : list address_list_entry_t :=
  match pos ≫= json_array with
  | None => []
  | Some arr => load_entry <$> take (Z.to_nat MAX_ENTRIES_PER_LIST) (filter (fun v => v <> []) (array_strings arr))
  end.

Definition load_address_list (_ : Z) (obj : cstring) : address_list_t :=
  AddressList (copied_text obj "name" 128 64) (copied_text obj "description" 128 128) (copied_or obj "target_type" 128 16 "group")
    (u32 (extract_json_int obj "target_id" 0)) (copied_text obj "target_name" 128 64) (extract_json_bool obj "enabled" true)
    (load_entries (strstr obj (quoted "entries"))).

Definition resolve_target (wans : list wan_config_t) (groups : list wan_group_t) (al : address_list_t) : address_list_t :=
  let name := al_target_name al in
  if str_eq (al_target_type al) "wan" then
    match list_find (fun w => (al_target_id al =? w_id w) || (negb (empty name) && named name w) = true) wans with
    | Some (_, w) => set_al_target_name (safe_str_copy (w_label w) 64) (set_al_target_id (w_id w) al)
    | None => al
    end
  else
    match list_find (fun g => (al_target_id al =? g_id g) || (negb (empty name) && str_eq name (g_name g)) = true) groups with
    | Some (_, g) => set_al_target_name (safe_str_copy (g_name g) 64) (set_al_target_id (g_id g) al)
    | None => al
    end.

(** ** The whole file *)

Definition set_lan_policies (v : list policy_route_t) (x : lan_config_t) : lan_config_t :=
  LanConfig (lan_name x) (lan_ip_addr x) (lan_netmask x) (lan_dhcp_enabled x) (lan_dhcp_start x) (lan_dhcp_end x)
    (lan_dhcp_lease_time x) (lan_ifindex x) v (lan_static_leases x) (lan_rate_limits x) (lan_qos x) (lan_dns x).

Definition load_json (now : Z) (path json : cstring) : fluxwan_config_t :=
  let lan := load_lan json in
  let wans := load_wans json in
  let groups := resolve_members wans <$>
    load_objects first_brace MAX_WAN_GROUPS load_group (strstr json (quoted "groups")) in
  let lists := load_objects find_matching_brace MAX_ADDRESS_LISTS load_address_list (strstr json (quoted "address_lists")) in
  FluxwanConfig (set_lan_policies (resolve_policy groups <$> lan_policy_routes lan) lan) wans groups (load_prober json)
    (load_sticky json) (load_telegram json) (load_nat46 json) (load_stealth json) (resolve_target wans groups <$> lists)
    (load_app_steering json) (load_web json) (load_auth json) (load_dpi json) (load_pppoe_server now lan json)
    (load_vpn json) path.

Definition default_path : cstring := "/opt/fluxwan/config/fluxwan.json".

(** [config_load]: the file to read, and the configuration it gives; [None] is the failure, which
    leaves the structure as it is.  No path is the empty one. *)
Definition load_path (config_path : cstring) (old : fluxwan_config_t) : cstring :=
  safe_str_copy (or_else_text config_path (or_else_text (c_config_file_path old) default_path)) MAX_PATH_LEN.

Definition config_load (fs : cstring -> option (list Z)) (mem : bool) (now : Z) (config_path : cstring)
    (old : fluxwan_config_t) : option fluxwan_config_t :=
  let local_path := load_path config_path old in
  json ← read_file_to_string mem (fs local_path);
  Some (load_json now local_path json).
