(* ===== verification/ConfigSave.v ===== *)
(** * Writing the configuration file and its backups ([src/src/config.c])

    [config_save] as the tokens that its [fprintf] calls print, one line of the model for each
    line of the file; [config_print], [config_validate_wan_attachments], the checksum, the export
    and import of backups and the factory settings. *)

From S2P Require Import Prelude Fluxwan Ipv4 CLib Json JsonText ProxyUri ConfigLoad.

(** ** Values *)

(** [%d], and [%.1f] of an exact value: rounded to the nearest tenth, ties to even. *)
Definition jint (v : Z) : list tok := [Lit (if v <? 0 then 45 :: dec (- v) else dec v)].

Definition tenths (x : Q) : Z :=
  let n := 10 * Qnum x in
  let d := Zpos (Qden x) in
  let q := n / d in
  let r := n mod d in
  if 2 * r <? d then q else if d <? 2 * r then q + 1 else if Z.even q then q else q + 1.
Definition fmt1 (x : Q) : cstring :=
  let t := tenths x in
  (if Qnum x <? 0 then [45] else []) ++ dec (Z.abs t / 10) ++ [46] ++ dec (Z.abs t mod 10).
Definition jfloat (x : Q) : list tok := [Lit (fmt1 x)].

Definition or_num (n d : Z) : Z := if 0 <? n then n else d.

(** An object, on lines of its own. *)
Definition jobj (ind : string) (fields : list tok) (sep : string) : list tok :=
  ln (ind ++ "{")%string :: fields ++ [ln (ind ++ "}" ++ sep)%string].
(** A block [<ind>"<key>": { ... }<sep>]. *)
Definition jblock (ind key : string) (fields : list tok) (sep : string) : list tok :=
  lit ind :: Key key :: ln ": {" :: fields ++ [ln (ind ++ "}" ++ sep)%string].

(** ** The LAN *)

Definition policy_fields (pr : policy_route_t) : list tok :=
  fld "        " "subnet" (jstr (pr_subnet_str pr)) "," ++
  fld "        " "gateway_ip" (jstr (pr_gateway_ip_str pr)) "," ++
  fld "        " "target_group" (jstr (pr_target_group pr)) "," ++
  fld "        " "description" (jstr (pr_description pr)) "," ++
  fld "        " "enabled" (jbool (pr_enabled pr)) "".
Definition policy_tokens (pr : policy_route_t) : string -> list tok := jobj "      " (policy_fields pr).

Definition lease_fields (sl : static_lease_t) : list tok :=
  fld "        " "mac" (jstr (sl_mac_str sl)) "," ++
  fld "        " "ip" (jstr (ip_to_str (sl_ip_addr sl))) "," ++
  fld "        " "hostname" (jstr (sl_hostname sl)) "," ++
  fld "        " "enabled" (jbool (sl_enabled sl)) "".
Definition lease_tokens (sl : static_lease_t) : string -> list tok := jobj "      " (lease_fields sl).

Definition limit_fields (rl : rate_limit_t) : list tok :=
  fld "        " "ip" (jstr (rl_ip_str rl)) "," ++
  fld "        " "max_down_mbps" (jnum (rl_max_down_mbps rl)) "," ++
  fld "        " "max_up_mbps" (jnum (rl_max_up_mbps rl)) "," ++
  fld "        " "description" (jstr (rl_description rl)) "," ++
  fld "        " "enabled" (jbool (rl_enabled rl)) "".
Definition limit_tokens (rl : rate_limit_t) : string -> list tok := jobj "      " (limit_fields rl).

(** An array that is left out when it is empty; it ends the line before it. *)
Definition lan_array {A} (key : string) (f : A -> string -> list tok) (l : list A) : list tok :=
  match l with
  | [] => []
  | _ => [ln ","; lit "    "; Key key; ln ": ["] ++ comma_list f l ++ [lit "    ]"]
  end.

Definition qos_tokens (q : qos_config_t) : list tok :=
  jblock "    " "qos"
    (fld "      " "enabled" (jbool (qos_enabled q)) "," ++
     fld "      " "algorithm" (jstr (or_else_text (qos_algorithm q) "cake")) "," ++
     fld "      " "bandwidth_down_mbps" (jnum (qos_bandwidth_down_mbps q)) "," ++
     fld "      " "bandwidth_up_mbps" (jnum (qos_bandwidth_up_mbps q)) "," ++
     fld "      " "diffserv4" (jbool (qos_diffserv4 q)) "") ",".

Definition dns_tokens (d : dns_features_t) : list tok :=
  jblock "    " "dns"
    (fld "      " "adblock_enabled" (jbool (dns_adblock_enabled d)) "," ++
     fld "      " "fast_dns_enabled" (jbool (dns_fast_dns_enabled d)) "," ++
     fld "      " "smart_ipv6_bonding" (jbool (dns_smart_ipv6_bonding d)) "," ++
     fld "      " "primary_dns" (jstr (or_else_text (dns_primary_dns d) "1.1.1.1")) "," ++
     fld "      " "secondary_dns" (jstr (or_else_text (dns_secondary_dns d) "8.8.8.8")) "") "".

Definition addr_or_default (ip : Z) (d : string) : cstring := ip_to_str (if ip =? 0 then str_to_ip d else ip).

Definition lan_head (lan : lan_config_t) : list tok :=
  fld "    " "interface" (jstr (safe_str_copy (or_else_text (lan_name lan) "eth0") 32)) "," ++
  fld "    " "ip" (jstr (addr_or_default (lan_ip_addr lan) "192.168.90.1")) "," ++
  fld "    " "netmask" (jstr (addr_or_default (lan_netmask lan) "255.255.255.0")) "," ++
  fld "    " "dhcp_enabled" (jbool (lan_dhcp_enabled lan)) "," ++
  fld "    " "dhcp_start" (jstr (addr_or_default (lan_dhcp_start lan) "192.168.90.100")) "," ++
  fld "    " "dhcp_end" (jstr (addr_or_default (lan_dhcp_end lan) "192.168.90.200")) "," ++
  [lit "    "; Key "dhcp_lease_time"; lit ": "] ++ jnum (lan_dhcp_lease_time lan).

Definition lan_tokens (lan : lan_config_t) : list tok :=
  jblock "  " "lan"
    (lan_head lan ++
     lan_array "policy_routes" policy_tokens (lan_policy_routes lan) ++
     lan_array "static_leases" lease_tokens (lan_static_leases lan) ++
     lan_array "rate_limits" limit_tokens (lan_rate_limits lan) ++
     [ln ","] ++ qos_tokens (lan_qos lan) ++ dns_tokens (lan_dns lan)) ",".

(** ** Groups and uplinks *)

(** An array of the first level: on one line when it is empty. *)
Definition top_array {A} (key : string) (f : A -> string -> list tok) (l : list A) : list tok :=
  [lit "  "; Key key; lit ": ["] ++
  match l with
  | [] => [ln "],"]
  | _ => [ln ""] ++ comma_list f l ++ [ln "  ],"]
  end.

(** Strings on one line, with a separator between them. *)
Fixpoint names_tokens (names : list cstring) : list tok :=
  match names with
  | [] => []
  | [n] => [Str n]
  | n :: names => Str n :: lit ", " :: names_tokens names
  end.

Definition group_fields (g : wan_group_t) : list tok :=
  fld "      " "id" (jnum (g_id g)) "," ++
  fld "      " "name" (jstr (g_name g)) "," ++
  fld "      " "description" (jstr (g_description g)) "," ++
  [lit "      "; Key "wans"; lit ": ["] ++ names_tokens (g_wan_names g) ++ [ln "],"] ++
  fld "      " "enabled" (jbool (g_enabled g)) "".
Definition group_tokens (g : wan_group_t) : string -> list tok := jobj "    " (group_fields g).

Definition type_str (t : wan_type_t) : string :=
  match t with
  | WAN_TYPE_DHCP => "dhcp"
  | WAN_TYPE_PPPOE => "pppoe"
  | WAN_TYPE_WIFI => "wifi"
  | WAN_TYPE_STATIC => "static"
  end.

Definition strategy_int (s : proxy_balancer_strategy_t) : Z :=
  match s with
  | PROXY_STRATEGY_FAILOVER => 0
  | PROXY_STRATEGY_ROUND_ROBIN => 1
  | PROXY_STRATEGY_LEAST_LOAD => 2
  | PROXY_STRATEGY_OTHER v => v
  end.
Definition strat_str (s : proxy_balancer_strategy_t) : string :=
  match s with
  | PROXY_STRATEGY_LEAST_LOAD => "leastLoad"
  | PROXY_STRATEGY_ROUND_ROBIN => "roundRobin"
  | _ => "leastPing"
  end.

Definition has_proxy (p : wan_proxy_config_t) : bool :=
  px_enabled p || negb (empty (px_server p)) || (0 <? px_server_count p) || negb (empty (px_raw_uri p)).

Definition proxy_tokens (p : wan_proxy_config_t) : list tok :=
  fld "      " "proxy_enabled" (jbool (px_enabled p)) "," ++
  if has_proxy p then
    fld "      " "proxy_proto" (jstr (or_else_text (px_proto_str p) "vless")) "," ++
    fld "      " "proxy_server" (jstr (px_server p)) "," ++
    fld "      " "proxy_port" (jnum (or_num (px_port p) 443)) "," ++
    fld "      " "proxy_uuid" (jstr (px_uuid p)) "," ++
    fld "      " "proxy_sni" (jstr (px_sni p)) "," ++
    fld "      " "proxy_host" (jstr (px_host p)) "," ++
    fld "      " "proxy_path" (jstr (px_path p)) "," ++
    fld "      " "proxy_transport" (jstr (or_else_text (px_transport p) "ws")) "," ++
    fld "      " "proxy_security" (jstr (or_else_text (px_security p) "tls")) "," ++
    (if empty (px_encryption p) then [] else fld "      " "proxy_encryption" (jstr (px_encryption p)) ",") ++
    fld "      " "proxy_strategy" (jint (strategy_int (px_strategy p))) "," ++
    fld "      " "proxy_strategy_str" (jstr (strat_str (px_strategy p))) "," ++
    fld "      " "proxy_raw_uri" (jstr (or_else_text (ep_raw_uri (ep_at p 0)) (px_raw_uri p))) "," ++
    fld "      " "proxy_raw_uri_2" (jstr (ep_raw_uri (ep_at p 1))) "," ++
    fld "      " "proxy_raw_uri_3" (jstr (ep_raw_uri (ep_at p 2))) "," ++
    fld "      " "proxy_tun_dev" (jstr (px_tun_dev p)) ""
  else fld "      " "proxy_proto" (jstr "vless") "".

Definition wan_id_fields (w : wan_config_t) : list tok :=
  fld "      " "id" (jnum (w_id w)) "," ++
  fld "      " "name" (jstr (w_name w)) "," ++
  fld "      " "label" (jstr (w_label w)) "," ++
  fld "      " "type" (jstr (type_str (w_type w))) ",".
Definition has_ppp (w : wan_config_t) : bool :=
  bool_decide (w_type w = WAN_TYPE_PPPOE) || negb (empty (w_ppp_username w)) || negb (empty (w_ppp_password w)).
Definition wan_ppp_fields (w : wan_config_t) : list tok :=
  if has_ppp w then
    fld "      " "username" (jstr (w_ppp_username w)) "," ++
    fld "      " "password" (jstr (w_ppp_password w)) ","
  else [].
Definition has_wifi (w : wan_config_t) : bool := bool_decide (w_type w = WAN_TYPE_WIFI) || negb (empty (w_wifi_ssid w)).
Definition wan_wifi_fields (w : wan_config_t) : list tok :=
  if has_wifi w then
    fld "      " "wifi_ssid" (jstr (w_wifi_ssid w)) "," ++
    fld "      " "wifi_password" (jstr (w_wifi_password w)) "," ++
    fld "      " "wifi_security" (jstr (or_else_text (w_wifi_security w) "WPA2-PSK")) ","
  else [].
Definition wan_mac_fields (w : wan_config_t) : list tok :=
  if empty (w_custom_mac w) then [] else fld "      " "mac" (jstr (w_custom_mac w)) ",".
Definition wan_net_fields (w : wan_config_t) : list tok :=
  fld "      " "ip" (jstr (ip_to_str (w_ip_addr w))) "," ++
  fld "      " "netmask" (jstr (ip_to_str (w_netmask w))) "," ++
  fld "      " "gateway" (jstr (ip_to_str (w_gateway w))) "," ++
  fld "      " "probe_target" (jstr (or_else_text (w_probe_target w) "8.8.8.8")) "," ++
  fld "      " "weight" (jnum (w_config_weight w)) "," ++
  fld "      " "bandwidth_down_mbps" (jnum (w_bandwidth_down_mbps w)) "," ++
  fld "      " "bandwidth_up_mbps" (jnum (w_bandwidth_up_mbps w)) "," ++
  fld "      " "enabled" (jbool (w_enabled w)) "," ++
  fld "      " "table_id" (jnum (w_table_id w)) ",".
Definition wan_fields (w : wan_config_t) : list tok :=
  wan_id_fields w ++ wan_ppp_fields w ++ wan_wifi_fields w ++ wan_mac_fields w ++ wan_net_fields w ++ proxy_tokens (w_proxy w).
Definition wan_tokens (w : wan_config_t) : string -> list tok := jobj "    " (wan_fields w).

(** ** The other blocks *)

Definition prober_tokens (p : prober_config_t) : list tok :=
  jblock "  " "prober"
    (fld "    " "interval_ms" (jnum (pc_interval_ms p)) "," ++
     fld "    " "timeout_ms" (jnum (pc_timeout_ms p)) "," ++
     fld "    " "loss_window" (jnum (pc_loss_window p)) "," ++
     fld "    " "max_acceptable_rtt_ms" (jnum (pc_max_acceptable_rtt_ms p)) "," ++
     fld "    " "max_acceptable_loss_pct" (jfloat (pc_max_acceptable_loss_pct p)) "," ++
     fld "    " "dynamic_latency_steering" (jbool (pc_dynamic_latency_steering p)) "") ",".

Definition sticky_tokens (s : sticky_config_t) : list tok :=
  jblock "  " "sticky"
    (fld "    " "enabled" (jbool (sc_enabled s)) "," ++
     fld "    " "timeout_seconds" (jnum (sc_timeout_seconds s)) "," ++
     fld "    " "strict_banking_enabled" (jbool (sc_strict_banking_enabled s)) "") ",".

Definition app_steering_tokens (a : app_steering_t) : list tok :=
  jblock "  " "app_steering"
    (fld "    " "gaming_steering_enabled" (jbool (as_gaming_steering_enabled a)) "," ++
     fld "    " "voip_steering_enabled" (jbool (as_voip_steering_enabled a)) "," ++
     fld "    " "bulk_balancing_enabled" (jbool (as_bulk_balancing_enabled a)) "," ++
     fld "    " "primary_gaming_wan_id" (jnum (as_primary_gaming_wan_id a)) "," ++
     fld "    " "primary_voip_wan_id" (jnum (as_primary_voip_wan_id a)) "") ",".

Definition telegram_tokens (t : telegram_config_t) : list tok :=
  jblock "  " "telegram"
    (fld "    " "enabled" (jbool (tg_enabled t)) "," ++
     fld "    " "bot_token" (jstr (tg_bot_token t)) "," ++
     fld "    " "chat_id" (jstr (tg_chat_id t)) "," ++
     fld "    " "notify_on_failover" (jbool (tg_notify_on_failover t)) "," ++
     fld "    " "notify_on_recovery" (jbool (tg_notify_on_recovery t)) "") ",".

Definition web_tokens (w : web_config_t) : list tok :=
  jblock "  " "web"
    (fld "    " "bind_ip" (jstr (web_bind_ip w)) "," ++
     fld "    " "port" (jnum (web_port w)) "") ",".

Definition auth_tokens (a : auth_config_t) : list tok :=
  jblock "  " "auth"
    (fld "    " "enabled" (jbool (au_enabled a)) "," ++
     fld "    " "username" (jstr (au_username a)) "," ++
     fld "    " "password" (jstr (au_password a)) "," ++
     fld "    " "session_token" (jstr (au_session_token a)) "") ",".

Definition nat46_tokens (n : nat46_config_t) : list tok :=
  jblock "  " "nat46"
    (fld "    " "enabled" (jbool (n46_enabled n)) "," ++
     fld "    " "synthetic_prefix" (jstr (n46_synthetic_prefix n)) "," ++
     fld "    " "upstream_dns" (jstr (n46_upstream_dns n)) "," ++
     fld "    " "starlink_wan_name" (jstr (n46_starlink_wan_name n)) "") ",".

Definition dpi_tokens (d : dpi_config_t) : list tok :=
  jblock "  " "dpi"
    (fld "    " "enabled" (jbool (dpi_enabled d)) "," ++
     fld "    " "p2p_throttle_enabled" (jbool (dpi_p2p_throttle_enabled d)) "," ++
     fld "    " "p2p_throttle_rate_kbps" (jnum (dpi_p2p_throttle_rate_kbps d)) "," ++
     fld "    " "voip_priority_enabled" (jbool (dpi_voip_priority_enabled d)) "," ++
     fld "    " "gaming_priority_enabled" (jbool (dpi_gaming_priority_enabled d)) "," ++
     fld "    " "streaming_balance_enabled" (jbool (dpi_streaming_balance_enabled d)) "") ",".

Definition stealth_tokens (s : stealth_config_t) : list tok :=
  jblock "  " "stealth"
    (fld "    " "enabled" (jbool (st_enabled s)) "," ++
     fld "    " "ttl_value" (jnum (or_num (st_ttl_value s) 65)) "," ++
     fld "    " "cloak_traceroute" (jbool (st_cloak_traceroute s)) "," ++
     fld "    " "block_wan_probes" (jbool (st_block_wan_probes s)) "") ",".

(** ** The PPPoE server *)

Definition radius_fields (r : radius_config_t) : list tok :=
  let radsec := bool_decide (rad_proto r = RADIUS_PROTO_RADSEC) in
  fld "      " "enabled" (jbool (rad_enabled r)) "," ++
  fld "      " "proto" (jstr (if radsec then bytes_of_string "radsec" else bytes_of_string "udp")) "," ++
  fld "      " "server" (jstr (rad_server r)) "," ++
  fld "      " "secret" (jstr (rad_secret r)) "," ++
  fld "      " "auth_port" (jnum (or_num (rad_auth_port r) (if radsec then 2083 else 1812))) "," ++
  fld "      " "acct_port" (jnum (or_num (rad_acct_port r) (if radsec then 2083 else 1813))) "," ++
  fld "      " "coa_port" (jnum (or_num (rad_coa_port r) 3799)) "," ++
  fld "      " "interim_interval" (jnum (or_num (rad_interim_interval r) 300)) "," ++
  fld "      " "nas_identifier" (jstr (or_else_text (rad_nas_identifier r) "FluxWAN-BRAS-01")) "," ++
  fld "      " "tls_verify_cert" (jbool (rad_tls_verify_cert r)) "," ++
  fld "      " "ca_cert_path" (jstr (rad_ca_cert_path r)) "," ++
  fld "      " "client_cert_path" (jstr (rad_client_cert_path r)) "," ++
  fld "      " "client_key_path" (jstr (rad_client_key_path r)) "," ++
  fld "      " "sni_hostname" (jstr (rad_sni_hostname r)) "".
Definition radius_tokens (r : radius_config_t) : list tok :=
  [lit "    "; Key "radius"; ln ": {"] ++ radius_fields r ++ [lit "    }"].

Definition profile_fields (p : pppoe_profile_t) : list tok :=
  fld "        " "name" (jstr (pp_name p)) "," ++
  fld "        " "rate_down_kbps" (jnum (pp_rate_down_kbps p)) "," ++
  fld "        " "rate_up_kbps" (jnum (pp_rate_up_kbps p)) "," ++
  fld "        " "validity_days" (jnum (pp_validity_days p)) "," ++
  fld "        " "description" (jstr (pp_description p)) "".
Definition profile_tokens (p : pppoe_profile_t) : string -> list tok := jobj "      " (profile_fields p).

Definition user_fields (u : pppoe_user_t) : list tok :=
  fld "        " "username" (jstr (pu_username u)) "," ++
  fld "        " "password" (jstr (pu_password u)) "," ++
  fld "        " "profile" (jstr (pu_profile u)) "," ++
  fld "        " "static_ip" (jstr (pu_static_ip u)) "," ++
  fld "        " "comment" (jstr (pu_comment u)) "," ++
  fld "        " "created_at" (jnum (pu_created_at u)) "," ++
  fld "        " "expires_at" (jnum (pu_expires_at u)) "," ++
  fld "        " "enabled" (jbool (pu_enabled u)) "".
Definition user_tokens (u : pppoe_user_t) : string -> list tok := jobj "      " (user_fields u).

Definition pppoe_fields (p : pppoe_server_config_t) : list tok :=
  fld "    " "enabled" (jbool (ps_enabled p)) "," ++
  fld "    " "lan_mode" (jstr (or_else_text (ps_lan_mode p) "dual")) "," ++
  fld "    " "interface" (jstr (or_else_text (ps_interface p) "eth0")) "," ++
  fld "    " "service_name" (jstr (or_else_text (ps_service_name p) "FluxWAN-Broadband")) "," ++
  fld "    " "ac_name" (jstr (or_else_text (ps_ac_name p) "FluxWAN-BRAS")) "," ++
  fld "    " "local_ip" (jstr (or_else_text (ps_local_ip p) "10.100.0.1")) "," ++
  fld "    " "pool_start" (jstr (or_else_text (ps_pool_start p) "10.100.0.2")) "," ++
  fld "    " "pool_end" (jstr (or_else_text (ps_pool_end p) "10.100.0.254")) "," ++
  fld "    " "max_sessions" (jnum (or_num (ps_pool_count p) 250)) "," ++
  fld "    " "dns1" (jstr (or_else_text (ps_dns1 p) "1.1.1.1")) "," ++
  fld "    " "dns2" (jstr (or_else_text (ps_dns2 p) "8.8.8.8")) "," ++
  fld "    " "mru" (jnum (or_num (ps_mru p) 1492)) "," ++
  fld "    " "mss" (jnum (or_num (ps_mss p) 1452)) ",".

Definition pppoe_server_tokens (p : pppoe_server_config_t) : list tok :=
  jblock "  " "pppoe_server"
    (pppoe_fields p ++ radius_tokens (ps_radius p) ++
     [ln ","; lit "    "; Key "profiles"; ln ": ["] ++ comma_list profile_tokens (ps_profiles p) ++ [ln "    ],"] ++
     [lit "    "; Key "users"; ln ": ["] ++ comma_list user_tokens (ps_users p) ++ [ln "    ]"]) ",".

(** ** Virtual private networks *)

Definition peer_fields (p : wireguard_peer_t) : list tok :=
  fld "          " "name" (jstr (wp_name p)) "," ++
  fld "          " "public_key" (jstr (wp_public_key p)) "," ++
  (if empty (wp_client_private_key p) then [] else fld "          " "client_private_key" (jstr (wp_client_private_key p)) ",") ++
  fld "          " "preshared_key" (jstr (wp_preshared_key p)) "," ++
  fld "          " "allowed_ips" (jstr (wp_allowed_ips p)) "," ++
  fld "          " "endpoint" (jstr (wp_endpoint p)) "," ++
  fld "          " "persistent_keepalive" (jnum (wp_persistent_keepalive p)) "," ++
  fld "          " "enabled" (jbool (wp_enabled p)) "".
Definition peer_tokens (p : wireguard_peer_t) : string -> list tok := jobj "        " (peer_fields p).

Definition wireguard_fields (w : wireguard_config_t) : list tok :=
  fld "      " "enabled" (jbool (wg_enabled w)) "," ++
  fld "      " "interface" (jstr (or_else_text (wg_interface w) "wg0")) "," ++
  fld "      " "listen_port" (jnum (or_num (wg_listen_port w) 51820)) "," ++
  fld "      " "address" (jstr (or_else_text (wg_address w) "10.250.0.1/24")) "," ++
  fld "      " "private_key" (jstr (wg_private_key w)) "," ++
  fld "      " "public_key" (jstr (wg_public_key w)) "," ++
  fld "      " "allow_remote_mgmt" (jbool (wg_allow_remote_mgmt w)) "," ++
  [lit "      "; Key "peers"; ln ": ["] ++ comma_list peer_tokens (wg_peers w) ++ [ln "      ]"].
Definition wireguard_tokens (w : wireguard_config_t) : list tok := jblock "    " "wireguard" (wireguard_fields w) ",".

Definition network_fields (n : zerotier_network_t) : list tok :=
  fld "          " "nwid" (jstr (zn_nwid n)) "," ++
  fld "          " "name" (jstr (zn_name n)) "," ++
  fld "          " "enabled" (jbool (zn_enabled n)) "".
Definition network_tokens (n : zerotier_network_t) : string -> list tok := jobj "        " (network_fields n).

Definition zerotier_fields (z : zerotier_config_t) : list tok :=
  fld "      " "enabled" (jbool (zt_enabled z)) "," ++
  fld "      " "node_id" (jstr (zt_node_id z)) "," ++
  fld "      " "allow_remote_mgmt" (jbool (zt_allow_remote_mgmt z)) "," ++
  [lit "      "; Key "networks"; ln ": ["] ++ comma_list network_tokens (zt_networks z) ++ [ln "      ]"].
Definition zerotier_tokens (z : zerotier_config_t) : list tok := jblock "    " "zerotier" (zerotier_fields z) ",".

Definition tailscale_fields (t : tailscale_config_t) : list tok :=
  fld "      " "enabled" (jbool (ts_enabled t)) "," ++
  fld "      " "auth_key" (jstr (ts_auth_key t)) "," ++
  fld "      " "hostname" (jstr (or_else_text (ts_hostname t) "FluxWAN")) "," ++
  fld "      " "login_server" (jstr (ts_login_server t)) "," ++
  fld "      " "advertise_routes" (jstr (ts_advertise_routes t)) "," ++
  fld "      " "accept_routes" (jbool (ts_accept_routes t)) "," ++
  fld "      " "is_exit_node" (jbool (ts_is_exit_node t)) "," ++
  fld "      " "allow_remote_mgmt" (jbool (ts_allow_remote_mgmt t)) "".
Definition tailscale_tokens (t : tailscale_config_t) : list tok := jblock "    " "tailscale" (tailscale_fields t) "".

Definition vpn_tokens (v : vpn_config_t) : list tok :=
  [lit "  "; Key "vpn"; ln ": {"] ++
  wireguard_tokens (vpn_wireguard v) ++ zerotier_tokens (vpn_zerotier v) ++ tailscale_tokens (vpn_tailscale v) ++ [lit "  }"].

(** ** Address lists *)

Definition entry_tokens (e : address_list_entry_t) (sep : string) : list tok :=
  [lit "        "; Str (ae_value e); ln sep].

Definition address_list_fields (al : address_list_t) : list tok :=
  fld "      " "name" (jstr (al_name al)) "," ++
  fld "      " "description" (jstr (al_description al)) "," ++
  fld "      " "target_type" (jstr (or_else_text (al_target_type al) "group")) "," ++
  fld "      " "target_id" (jnum (al_target_id al)) "," ++
  fld "      " "target_name" (jstr (al_target_name al)) "," ++
  fld "      " "enabled" (jbool (al_enabled al)) "," ++
  [lit "      "; Key "entries"; ln ": ["] ++ comma_list entry_tokens (al_entries al) ++ [ln "      ]"].
Definition address_list_tokens (al : address_list_t) : string -> list tok := jobj "    " (address_list_fields al).

Definition address_lists_tokens (als : list address_list_t) : list tok :=
  match als with
  | [] => [ln ""]
  | _ => [ln ","; lit "  "; Key "address_lists"; ln ": ["] ++ comma_list address_list_tokens als ++ [ln "  ]"]
  end.

(** ** The whole file *)

Definition config_tokens (c : fluxwan_config_t) : list tok :=
  [ln "{"] ++ lan_tokens (c_lan c) ++ top_array "groups" group_tokens (c_groups c) ++
  top_array "wans" wan_tokens (c_wans c) ++ prober_tokens (c_prober c) ++ sticky_tokens (c_sticky c) ++
  app_steering_tokens (c_app_steering c) ++ telegram_tokens (c_telegram c) ++ web_tokens (c_web c) ++
  auth_tokens (c_auth c) ++ nat46_tokens (c_nat46 c) ++ dpi_tokens (c_dpi c) ++ stealth_tokens (c_stealth c) ++
  pppoe_server_tokens (c_pppoe_server c) ++ vpn_tokens (c_vpn c) ++ address_lists_tokens (c_address_lists c) ++ [ln "}"].
Definition config_text (c : fluxwan_config_t) : cstring := render (config_tokens c).

(** The first of the paths that can be opened for writing. *)
Definition save_path (can_open : cstring -> bool) (config_path : cstring) (c : fluxwan_config_t) : option cstring :=
  let path := or_else_text config_path (or_else_text (c_config_file_path c) default_path) in
  if can_open path then Some path
  else if negb (str_eq path default_path) && can_open default_path then Some default_path
  else if negb (str_eq path "config/fluxwan.json") && can_open "config/fluxwan.json" then Some (bytes_of_string "config/fluxwan.json")
  else None.

(** [config_save]: the file that is written, with its content; [None] is the failure. *)
Definition config_save (can_open : cstring -> bool) (config_path : cstring) (c : fluxwan_config_t) : option (cstring * list Z) :=
  path ← save_path can_open config_path c;
  Some (path, config_text c).

(** ** Printing *)

Definition wan_type_int (t : wan_type_t) : Z :=
  match t with WAN_TYPE_STATIC => 0 | WAN_TYPE_DHCP => 1 | WAN_TYPE_PPPOE => 2 | WAN_TYPE_WIFI => 3 end.
Definition on_off (b : bool) : cstring := if b then bytes_of_string "ENABLED" else bytes_of_string "DISABLED".

Definition config_print (c : fluxwan_config_t) : cstring :=
  concat
    ([bytes_of_string "================ FLUXWAN CONFIGURATION ================"; [10];
      bytes_of_string "LAN Interface : "; lan_name (c_lan c); bytes_of_string " ("; ip_to_str (lan_ip_addr (c_lan c));
      bytes_of_string " / "; ip_to_str (lan_netmask (c_lan c)); bytes_of_string ")"; [10];
      bytes_of_string "Multi-WAN Uplinks ("; dec (Z.of_nat (length (c_wans c))); bytes_of_string " active):"; [10]] ++
     concat ((fun w =>
       [bytes_of_string "  ["; dec (w_id w); bytes_of_string "] "; w_name w; bytes_of_string " ("; w_label w;
        bytes_of_string ") - Type: "; dec (wan_type_int (w_type w)); bytes_of_string ", IP: "; ip_to_str (w_ip_addr w);
        bytes_of_string ", Weight: "; dec (w_config_weight w); bytes_of_string ", Table: "; dec (w_table_id w);
        bytes_of_string ", Probe: "; w_probe_target w; [10]]) <$> c_wans c) ++
     [bytes_of_string "Prober Interval : "; dec (pc_interval_ms (c_prober c)); bytes_of_string "ms | Timeout: ";
      dec (pc_timeout_ms (c_prober c)); bytes_of_string "ms | Max RTT: "; dec (pc_max_acceptable_rtt_ms (c_prober c));
      bytes_of_string "ms"; [10];
      bytes_of_string "Sticky Sessions : "; on_off (sc_enabled (c_sticky c)); bytes_of_string " (Timeout: ";
      dec (sc_timeout_seconds (c_sticky c)); bytes_of_string "s)"; [10];
      bytes_of_string "DNS64 / NAT46   : "; on_off (n46_enabled (c_nat46 c)); bytes_of_string " (Prefix: ";
      n46_synthetic_prefix (c_nat46 c); bytes_of_string " -> Starlink: "; n46_starlink_wan_name (c_nat46 c); bytes_of_string ")"; [10];
      bytes_of_string "Web Management  : http://"; web_bind_ip (c_web c); bytes_of_string ":"; dec (web_port (c_web c));
      bytes_of_string " (Auth: "; on_off (au_enabled (c_auth c)); bytes_of_string ")"; [10];
      bytes_of_string "======================================================="; [10]]).

(** ** Validation: the message of the first violation, cut to the buffer *)

Definition count_on (wans : list wan_config_t) (name : cstring) (t : wan_type_t) : Z :=
  Z.of_nat (length (filter (fun w => w_name w = name /\ w_type w = t) wans)).

Definition port_error (wans : list wan_config_t) (w1 : wan_config_t) : option cstring :=
  let name := w_name w1 in
  let dhcp_count := count_on wans name WAN_TYPE_DHCP in
  let static_count := count_on wans name WAN_TYPE_STATIC in
  let pppoe_count := count_on wans name WAN_TYPE_PPPOE in
  let wifi_count := count_on wans name WAN_TYPE_WIFI in
  let port := bytes_of_string "Physical interface '" ++ name in
  if empty name then None
  else if 1 <? wifi_count then
    Some (port ++ bytes_of_string "' has " ++ dec wifi_count ++ bytes_of_string
      " WiFi clients configured. A wireless card can only connect to 1 WiFi network concurrently.")
  else if 1 <? dhcp_count then
    Some (port ++ bytes_of_string "' has " ++ dec dhcp_count ++ bytes_of_string
      " DHCP clients configured. A physical port can only host 1 DHCP client.")
  else if 1 <? static_count then
    Some (port ++ bytes_of_string
      "' has multiple Static IP WANs configured. A physical port requires an exclusive IP configuration.")
  else if ((0 <? dhcp_count) && (0 <? static_count))
       || (((0 <? dhcp_count) || (0 <? static_count)) && (0 <? pppoe_count))
       || ((0 <? wifi_count) && ((0 <? dhcp_count) || (0 <? static_count) || (0 <? pppoe_count))) then
    Some (port ++ bytes_of_string "' mixes exclusive network modes with other WANs. A dedicated port is required.")
  else None.

Definition lan_error (lan : cstring) (w : wan_config_t) : option cstring :=
  if negb (empty (w_name w)) && str_eq (w_name w) lan then
    Some (bytes_of_string "Interface '" ++ lan ++ bytes_of_string "' is dedicated to LAN Gateway and cannot be used for WAN '"
          ++ w_label w ++ bytes_of_string "'.")
  else None.

Definition first_error {A} (f : A -> option cstring) (l : list A) : option cstring := head (omap f l).

(** [None] is [true]. *)
Definition config_validate_wan_attachments (c : fluxwan_config_t) (err_size : Z) : option cstring :=
  match first_error (lan_error (lan_name (c_lan c))) (c_wans c) with
  | Some e => Some (str_trunc err_size e)
  | None => str_trunc err_size <$> first_error (port_error (c_wans c)) (c_wans c)
  end.

(** ** Backups *)

(** The sum over the characters that are not blank; a [char] is signed. *)
Definition checksum_step (hash c : Z) : Z :=
  if (c =? 32) || (c =? 9) || (c =? 13) || (c =? 10) then hash
  else u32 ((hash .<< 5) + hash + (if c <? 128 then c else c - 256)).
Definition config_calc_checksum (data : cstring) : Z := fold_left checksum_step data 5381.

(** [gmtime] and [strftime] of a time after 1970: the civil date of a day number, counted in
    years that begin on the first of March, and the time of day. *)
Definition civil_of_days (days : Z) : Z * Z * Z :=
  let z := days + 719468 in
  let era := z / 146097 in
  let doe := z mod 146097 in
  let yoe := (doe - doe / 1460 + doe / 36524 - doe / 146096) / 365 in
  let doy := doe - (365 * yoe + yoe / 4 - yoe / 100) in
  let mp := (5 * doy + 2) / 153 in
  let d := doy - (153 * mp + 2) / 5 + 1 in
  let m := if mp <? 10 then mp + 3 else mp - 9 in
  (yoe + 400 * era + (if m <=? 2 then 1 else 0), m, d).
Definition dec2 (n : Z) : cstring := [48 + n / 10; 48 + n mod 10].
Definition iso_time (now : Z) : cstring :=
  let '(y, m, d) := civil_of_days (now / 86400) in
  let s := now mod 86400 in
  dec y ++ [45] ++ dec2 m ++ [45] ++ dec2 d ++ [84] ++ dec2 (s / 3600) ++ [58] ++ dec2 (s / 60 mod 60) ++ [58] ++ dec2 (s mod 60) ++ [90].

Definition FLUXWAN_VERSION : cstring := "1.5.9".
Definition FLUXWAN_AUTHOR : cstring :=
  bytes_of_string "Ahmed Al-Dulaimi (" ++
  [216; 163; 216; 173; 217; 133; 216; 175; 32; 216; 167; 217; 132; 216; 175; 217; 132; 217; 138; 217; 133; 217; 138] ++ [41].
Definition FLUXWAN_LICENSE : cstring := "GNU GPLv3".

Definition backup_tokens (now : Z) (hostname : cstring) (wan_count csum : Z) (cfg_str : cstring) : list tok :=
  [ln "{"] ++
  jblock "  " "fluxwan_backup"
    (fld "    " "version" (jstr FLUXWAN_VERSION) "," ++
     fld "    " "author" (jstr FLUXWAN_AUTHOR) "," ++
     fld "    " "license" (jstr FLUXWAN_LICENSE) "," ++
     fld "    " "created_at" (jnum now) "," ++
     fld "    " "created_at_iso" (jstr (iso_time now)) "," ++
     fld "    " "hostname" (jstr hostname) "," ++
     fld "    " "architecture" (jstr "x86_64") "," ++
     fld "    " "wan_count" (jnum wan_count) "," ++
     fld "    " "checksum" (jnum csum) "," ++
     fld "    " "type" (jstr "full_system_configuration") "") "," ++
  [lit "  "; Key "config"; lit ": "; Lit cfg_str; ln ""; ln "}"].

Definition export_tmp : cstring := "/tmp/fluxwan_export_tmp.json".

(** What a file system holds after a file was written. *)
Definition written (fs : cstring -> option (list Z)) (f : cstring * list Z) (p : cstring) : option (list Z) :=
  if str_eq p f.1 then Some f.2 else fs p.

(** [config_export_backup]: the file that [config_save] wrote, the text in the buffer and the
    result. *)
Definition config_export_backup (fs : cstring -> option (list Z)) (can_open : cstring -> bool) (mem : bool) (now : Z)
    (hostname : cstring) (c : fluxwan_config_t) (max_len : Z) : option (cstring * list Z) * option cstring * Z :=
  if max_len <? 2048 then (None, None, -1)
  else
    match config_save can_open export_tmp c with
    | None => (None, None, -1)
    | Some f =>
        match read_file_to_string mem (written fs f export_tmp) with
        | None => (Some f, None, -1)
        | Some cfg_str =>
            let out := render (backup_tokens now hostname (Z.of_nat (length (c_wans c))) (config_calc_checksum cfg_str) cfg_str) in
            (Some f, Some (str_trunc max_len out), if Z.of_nat (length out) <? max_len then 0 else -1)
        end
    end.

Definition restore_tmp : cstring := "/tmp/fluxwan_restore_tmp.json".

(** [config_import_backup]: the configuration it installs, or the message of the error. *)
Definition config_import_backup (can_write mem calloc : bool) (now : Z) (backup : cstring) (old : fluxwan_config_t)
    (err_size : Z) : cstring + fluxwan_config_t :=
  let fail (msg : cstring) := inl (str_trunc err_size msg) in
  let saved_path := safe_str_copy (or_else_text (c_config_file_path old) default_path) MAX_PATH_LEN in
  let saved_token := safe_str_copy (au_session_token (c_auth old)) 64 in
  let cfg_body := match k ← strstr backup (quoted "config"); json_object k with
                  | Some b => Some b
                  | None => json_object backup
                  end in
  match cfg_body with
  | None => fail "Invalid or missing JSON object in backup"
  | Some body =>
      if negb can_write then fail "Unable to write temporary restore file"
      else if negb calloc then fail "Out of memory during configuration restore"
      else
        match config_load (written (fun _ => None) (restore_tmp, body)) mem now restore_tmp zero_config with
        | None => fail "Invalid or corrupted JSON configuration syntax"
        | Some test_cfg =>
            if lan_ip_addr (c_lan test_cfg) =? 0 then fail "Backup is missing valid LAN IP configuration"
            else
              match config_validate_wan_attachments test_cfg 256 with
              | Some e => fail e
              | None =>
                  let test_cfg := set_c_config_file_path saved_path test_cfg in
                  inr (if empty saved_token then test_cfg
                       else set_c_auth (set_au_session_token saved_token (c_auth test_cfg)) test_cfg)
              end
        end
  end.

(** ** Factory settings *)

Definition config_reset_to_defaults : fluxwan_config_t :=
  FluxwanConfig
    (LanConfig "eth0" (str_to_ip "192.168.90.1") (str_to_ip "255.255.255.0") true (str_to_ip "192.168.90.100")
       (str_to_ip "192.168.90.200") 43200 0 [] [] [] (QosConfig false "cake" 0 0 true)
       (DnsFeatures false true "1.1.1.1" "8.8.8.8" true))
    [] []
    (ProberConfig 500 1000 20 250 20%Q true)
    (StickyConfig true 300 true)
    (TelegramConfig false [] [] true true)
    (Nat46Config false "198.18.0.0/15" "1.1.1.1" "veth_wan2")
    (StealthConfig true 65 true true)
    []
    (AppSteering true true true 1 1)
    (WebConfig "0.0.0.0" 8080)
    (AuthConfig true "admin" "admin" "flux_token_admin_default")
    (DpiConfig true false 512 true true true)
    (PppoeServerConfig false "dual" "eth0" "FluxWAN-Broadband" "FluxWAN-BRAS" "10.100.0.1" "10.100.0.2" "10.100.0.254" 250
       "1.1.1.1" "8.8.8.8" 1492 1452
       (RadiusConfig false RADIUS_PROTO_RADSEC "radius.example.com" "radsec" 2083 2083 3799 300 "FluxWAN-BRAS-01" false [] [] [] [])
       [PppoeProfile "Economy_10M" 10240 5120 0 "10 Mbps Down / 5 Mbps Up";
        PppoeProfile "Standard_25M" 25600 10240 0 "25 Mbps Down / 10 Mbps Up";
        PppoeProfile "Ultra_50M" 51200 20480 0 "50 Mbps Down / 20 Mbps Up";
        PppoeProfile "Unlimited" 0 0 0 "Max Line Speed (No Shaping)"]
       [PppoeUser "fluxwan" "123456" "Standard_25M" [] "Default Broadband User" 0 0 true])
    (VpnConfig (WireguardConfig false "wg0" 51820 "10.250.0.1/24" [] [] true []) (ZerotierConfig false [] true [])
       (TailscaleConfig false [] "FluxWAN" [] [] false false true [] [] [] [] []))
    [].
