(* ===== verification/JsonBlocks.v ===== *)
(** * Documents made of blocks

    The searches of the configuration reader in a text that a writer printed, block by block:
    a value is found under its key, an array gives back its objects and its strings, an object
    its text.  [R] is the set of keys that the reader looks for: no string of the document may
    be one of them. *)

From S2P Require Import Prelude Fluxwan Ipv4 CLib Json JsonText ProxyUri ConfigLoad ConfigSave.

Definition memb (k : cstring) (l : list cstring) : bool := existsb (str_eq k) l.
Lemma memb_elem k l : memb k l = true <-> k ∈ l.
Proof.
  unfold memb. rewrite existsb_exists. split.
  - intros (x & Hx & E). apply bool_decide_eq_true in E as ->. by apply list_elem_of_In.
  - intros H. exists k. split; [by apply list_elem_of_In|]. by apply bool_decide_eq_true.
Qed.
Lemma memb_not_elem k l : memb k l = false <-> k ∉ l.
Proof. rewrite <- not_true_iff_false, memb_elem. done. Qed.

Lemma bytes_app a b : bytes_of_string (a ++ b) = bytes_of_string a ++ bytes_of_string b.
Proof. induction a as [|c a IH]; [done|]. cbn [bytes_of_string app]. rewrite <- IH. done. Qed.

Lemma filter_keeps {A} (P : A -> Prop) `{!forall x, Decision (P x)} l : Forall P l -> filter P l = l.
Proof. induction 1 as [|x l Hx Hl IH]; [done|]. rewrite filter_cons, decide_True by done. by rewrite IH. Qed.

(** No NUL in a text made of plain texts and good blocks. *)
Lemma no_char_cons c x s : no_char c (x :: s) <-> x <> c /\ no_char c s.
Proof. split; [by inversion 1|intros [? ?]; by constructor]. Qed.
Lemma no_char_quoted c k : c <> 34 -> no_char c (quoted k) <-> no_char c k.
Proof.
  intros Hc. unfold quoted. rewrite no_char_cons, no_char_app, no_char_cons. split; [tauto|]. intros H. split_and!; (done || constructor).
Qed.
Ltac no_nul :=
  repeat first [rewrite no_char_app | rewrite no_char_cons | rewrite no_char_quoted by done];
  split_and!; first [assumption | lia | by apply plain_no_char | constructor].

Section Blocks.
Context (R : list cstring) (HR : Forall short_key R).

(** ** Documents *)

Definition doc_tok (t : tok) : Prop := match t with Str s => plain s /\ s ∉ R | _ => True end.
Definition doc (l : list tok) : Prop := wf l /\ Forall doc_tok l.

Lemma doc_str_free k l : k ∈ R -> doc l -> str_free k l.
Proof.
  intros Hk [_ H]. eapply Forall_impl; [exact H|]. intros [s | s | s]; cbn; [done..|]. by intros [_ Hs] ->.
Qed.

Lemma R_short k : k ∈ R -> short_key k.
Proof. intros Hk. by eapply Forall_forall in HR. Qed.

Lemma doc_find k l : k ∈ R -> doc l -> find_quoted k l = find_key k l.
Proof. intros Hk Hd. apply find_quoted_key. by apply doc_str_free. Qed.

Lemma doc_tail t l : doc (t :: l) -> doc l.
Proof. intros [Hw Ht]. apply Forall_cons in Ht as [_ Ht]. split; [|done]. destruct t; cbn in Hw; tauto. Qed.

Lemma find_key_doc k l r : doc l -> find_key k l = Some r -> doc (Key k :: r).
Proof.
  induction l as [|t l IH]; [done|]. intros Hd Hf. pose proof (doc_tail _ _ Hd) as Hd'.
  destruct t as [s | s | s]; cbn [find_key] in Hf; [by apply IH| |by apply IH].
  case_bool_decide as Hs; [|by apply IH]. injection Hf as ->. by subst s.
Qed.

Lemma doc_strstr k l r :
  k ∈ R -> doc l -> find_key k l = Some r -> strstr (render l) (quoted k) = Some (render (Key k :: r)).
Proof.
  intros Hk Hd Hf. rewrite strstr_render; [|apply R_short, Hk|apply Hd]. by rewrite doc_find, Hf by done.
Qed.
Lemma doc_strstr_none k l :
  k ∈ R -> doc l -> find_key k l = None -> strstr (render l) (quoted k) = None.
Proof.
  intros Hk Hd Hf. rewrite strstr_render; [|apply R_short, Hk|apply Hd]. by rewrite doc_find, Hf by done.
Qed.

(** ** Values *)

Lemma found_str k l s r : doc l -> find_key k l = Some (lit ": " :: Str s :: r) -> plain s /\ follows r.
Proof.
  intros Hd Hf. destruct (find_key_doc _ _ _ Hd Hf) as [Hw Ht].
  apply Forall_cons in Ht as [_ Ht]. apply Forall_cons in Ht as [_ Ht]. apply Forall_cons in Ht as [[Hs _] _].
  split; [done|]. cbn in Hw. tauto.
Qed.

Lemma text_value k l s r n :
  k ∈ R -> doc l -> find_key k l = Some (lit ": " :: Str s :: r) ->
  extract_json_string (render l) k n = Some (str_trunc n s).
Proof.
  intros Hk Hd Hf. destruct (found_str _ _ _ _ Hd Hf) as [Hs Hr].
  apply extract_string_at; [by apply R_short|apply Hd| |by apply plain_no_char..].
  exists r. by rewrite doc_find.
Qed.

Lemma no_value k l : k ∈ R -> doc l -> find_key k l = None -> json_value (render l) k = None.
Proof. intros Hk Hd Hf. apply extract_missing; [by apply R_short|apply Hd|]. by rewrite doc_find. Qed.

Lemma no_text k l n : k ∈ R -> doc l -> find_key k l = None -> extract_json_string (render l) k n = None.
Proof. intros Hk Hd Hf. unfold extract_json_string. by rewrite no_value. Qed.
Lemma no_int k l d : k ∈ R -> doc l -> find_key k l = None -> extract_json_int (render l) k d = d.
Proof. intros Hk Hd Hf. unfold extract_json_int. by rewrite no_value. Qed.

Lemma int_value k l n r d :
  k ∈ R -> doc l -> find_key k l = Some (lit ": " :: Lit (dec n) :: r) -> follows r -> is_u32 n ->
  extract_json_int (render l) k d = i32 n.
Proof.
  intros Hk Hd Hf Hr Hn. apply extract_int_at; [by apply R_short|apply Hd| |unfold is_u32 in Hn; lia].
  exists r. by rewrite doc_find.
Qed.
Lemma u32_value k l n r d :
  k ∈ R -> doc l -> find_key k l = Some (lit ": " :: Lit (dec n) :: r) -> follows r -> is_u32 n ->
  u32 (extract_json_int (render l) k d) = n.
Proof. intros Hk Hd Hf Hr Hn. erewrite int_value by done. rewrite u32_i32. by apply u32_small. Qed.
Lemma u16_value k l n r d :
  k ∈ R -> doc l -> find_key k l = Some (lit ": " :: Lit (dec n) :: r) -> follows r -> is_u16 n ->
  u16 (extract_json_int (render l) k d) = n.
Proof.
  intros Hk Hd Hf Hr Hn. erewrite int_value; [|done..|unfold is_u16, is_u32 in *; lia]. rewrite u16_i32. by apply u16_small.
Qed.
Lemma u8_value k l n r d :
  k ∈ R -> doc l -> find_key k l = Some (lit ": " :: Lit (dec n) :: r) -> follows r -> is_u8 n ->
  u8 (extract_json_int (render l) k d) = n.
Proof.
  intros Hk Hd Hf Hr Hn. erewrite int_value; [|done..|unfold is_u8, is_u32 in *; lia]. rewrite u8_i32. by apply u8_small.
Qed.
Lemma u64_value k l n r d :
  k ∈ R -> doc l -> find_key k l = Some (lit ": " :: Lit (dec n) :: r) -> follows r -> is_u64 n ->
  extract_json_uint64 (render l) k d = n.
Proof.
  intros Hk Hd Hf Hr Hn. apply extract_u64_at; [by apply R_short|apply Hd| |done]. exists r. by rewrite doc_find.
Qed.
Lemma bool_value k l (b : bool) r d :
  k ∈ R -> doc l ->
  find_key k l = Some (lit ": " :: Lit (if b then bytes_of_string "true" else bytes_of_string "false") :: r) -> follows r ->
  extract_json_bool (render l) k d = b.
Proof.
  intros Hk Hd Hf Hr. apply extract_bool_at; [by apply R_short|apply Hd|]. exists r. by rewrite doc_find.
Qed.

(** ** Blocks that may stand anywhere *)

Definition good_tok (K : list cstring) (t : tok) : Prop :=
  match t with Lit _ => True | Key k => k ∈ K | Str s => plain s /\ s ∉ R end.

Record good (K : list cstring) (l : list tok) : Prop := Good {
  good_wf : wf_block l;
  good_toks : Forall (good_tok K) l;
  good_brackets : bracket_neutral (render l);
  good_braces : brace_neutral (render l);
  good_nul : no_char 0 (render l)
}.

Lemma good_nil K : good K [].
Proof. split; [apply wf_block_nil|constructor|..|constructor]; intros d y Hd; by rewrite fmap_app_nil. Qed.
Lemma good_app K a b : good K a -> good K b -> good K (a ++ b).
Proof.
  intros [] []. split; [by apply wf_block_app|by apply Forall_app|..]; rewrite render_app;
    [by apply bracket_neutral_app|by apply brace_neutral_app|by apply no_char_app].
Qed.
Lemma good_concat K ls : Forall (good K) ls -> good K (concat ls).
Proof. induction 1; [apply good_nil|by apply good_app]. Qed.
Lemma good_if (b : bool) K x y : good K x -> good K y -> good K (if b then x else y).
Proof. by destruct b. Qed.

Lemma good_weaken K K' l : forallb (fun k => memb k K') K = true -> good K l -> good K' l.
Proof.
  intros Hs [Hw Ht Hb Hc Hz]. split; [done| |done..]. eapply Forall_impl; [exact Ht|]. intros [s | k | s]; cbn; [done| |done].
  intros Hk. rewrite forallb_forall in Hs. apply memb_elem, Hs. by apply list_elem_of_In.
Qed.

Lemma good_doc K l r : good K l -> doc r -> doc (l ++ r).
Proof.
  intros [Hw Ht _ _ _] [Hwr Hr]. split; [by apply Hw|]. apply Forall_app. split; [|done].
  eapply Forall_impl; [exact Ht|]. by intros [s | s | s].
Qed.
Lemma good_none K l k : good K l -> memb k K = false -> find_key k l = None.
Proof.
  intros [_ Ht _ _ _] Hk%memb_not_elem. induction Ht as [|t l Ht _ IH]; [done|].
  destruct t as [s | s | s]; cbn; [done| |done]. by rewrite bool_decide_false by (by intros ->).
Qed.
Lemma good_skip K a b k : good K a -> memb k K = false -> find_key k (a ++ b) = find_key k b.
Proof. intros Ha Hk. by rewrite find_key_app, (good_none K). Qed.

Lemma neutral_plain s : plain s -> bracket_neutral s /\ brace_neutral s.
Proof.
  intros H. split; [apply bracket_neutral_text|apply brace_neutral_text]; by apply plain_no_char.
Qed.
Lemma good_lit K s : plain s -> good K [Lit s].
Proof.
  intros H. assert (render [Lit s] = s) as E by (cbn; by rewrite app_nil_r).
  split; [|by repeat constructor|rewrite E; by apply neutral_plain..|rewrite E; by apply plain_no_char].
  apply wf_block_lit; [by apply plain_no_char|apply wf_block_nil].
Qed.

(** The value of a line. *)
Definition good_value (v : list tok) : Prop :=
  match v with
  | [Str s] => plain s /\ s ∉ R
  | [Lit s] => plain s
  | _ => False
  end.

Lemma good_value_flat v : good_value v -> flat v.
Proof. destruct v as [|[s | s | s] [|]]; cbn; try done; intros H; (constructor; [|done]); tauto. Qed.

Lemma good_fld K indent key v sep :
  forallb plain_char (bytes_of_string indent) = true -> key_okb (bytes_of_string key) = true ->
  memb key K = true -> good_value v -> is_sep sep -> good K (fld indent key v sep).
Proof.
  intros Hi Hk Hm Hv Hs. pose proof (flat_fld _ _ _ _ Hi Hk (good_value_flat _ Hv) Hs) as Hflat.
  split; [| |by apply flat_bracket_neutral|by apply flat_brace_neutral|by apply flat_no_char].
  - unfold fld. apply wf_block_lit; [apply plain_no_char; [done|]; by apply plain_bool|].
    apply wf_block_key; [by apply key_ok_bool|done..|]. apply wf_block_lit; [by repeat constructor|].
    assert (Hend : wf_block [ln sep]).
    { apply wf_block_lit; [|apply wf_block_nil]. destruct Hs as [-> | ->]; by repeat constructor. }
    destruct v as [|[s | s | s] [|]]; try done; cbn [app].
    + apply wf_block_lit; [by apply plain_no_char|done].
    + destruct Hv as [Hv _]. destruct Hs as [-> | ->]; (apply wf_block_str; [by apply plain_no_char|done..]).
  - unfold fld. apply memb_elem in Hm. constructor; [done|]. constructor; [done|]. constructor; [done|].
    apply Forall_app. split; [|by constructor]. destruct v as [|[s | s | s] [|]]; try done; by constructor.
Qed.

Lemma sep_plain sep : is_sep sep -> plain (bytes_of_string sep).
Proof. intros [-> | ->]; by apply plain_bool. Qed.
Lemma plain_app a b : plain (a ++ b) <-> plain a /\ plain b.
Proof. apply Forall_app. Qed.
Lemma plain_nl : plain [10].
Proof. by apply plain_bool. Qed.

Lemma brace_text ind body suf :
  plain ind -> brace_neutral body -> plain suf -> brace_neutral (ind ++ (123 :: body ++ [125]) ++ suf).
Proof.
  intros Hi Hb Hs. apply brace_neutral_app; [by apply neutral_plain|]. apply brace_neutral_app; [|by apply neutral_plain].
  by apply brace_neutral_nest.
Qed.
Lemma bracket_text ind body suf :
  plain ind -> bracket_neutral body -> plain suf -> bracket_neutral (ind ++ (91 :: body ++ [93]) ++ suf).
Proof.
  intros Hi Hb Hs. apply bracket_neutral_app; [by apply neutral_plain|]. apply bracket_neutral_app; [|by apply neutral_plain].
  by apply bracket_neutral_nest.
Qed.
Lemma braces_bracket_neutral s : no_char 91 s -> no_char 93 s -> bracket_neutral s.
Proof. apply bracket_neutral_text. Qed.

(** *** Objects *)

Lemma jobj_text ind fs sep :
  render (jobj ind fs sep)
  = bytes_of_string ind ++ (123 :: (10 :: render fs ++ bytes_of_string ind) ++ [125]) ++ bytes_of_string sep ++ [10].
Proof.
  unfold jobj, ln. rewrite render_cons, render_app. cbn [tok_text]. rewrite !bytes_app. unfold render at 2.
  cbn [fmap list_fmap concat tok_text bytes_of_string]. rewrite app_nil_r, <- !app_assoc. cbn [app].
  by rewrite <- !app_assoc.
Qed.

Lemma good_jobj K ind fs sep :
  plain (bytes_of_string ind) -> is_sep sep -> good K fs -> good K (jobj ind fs sep).
Proof.
  intros Hi Hs [Hw Ht Hk Hc Hz]. pose proof (sep_plain _ Hs) as Hsp. pose proof plain_nl as Hnl. split.
  - unfold jobj, ln. apply wf_block_lit.
    { rewrite bytes_app. apply no_char_app. split; [apply no_char_app; split; [by apply plain_no_char|by repeat constructor]|by repeat constructor]. }
    apply wf_block_app; [done|]. apply wf_block_lit; [|apply wf_block_nil]. rewrite !bytes_app.
    rewrite !no_char_app. split_and!; [by apply plain_no_char|by repeat constructor|by apply plain_no_char|by repeat constructor].
  - unfold jobj. constructor; [done|]. apply Forall_app. split; [done|by constructor].
  - rewrite jobj_text. apply bracket_neutral_app; [by apply neutral_plain|]. apply bracket_neutral_app;
      [|apply bracket_neutral_app; by apply neutral_plain].
    change (123 :: (10 :: render fs ++ bytes_of_string ind) ++ [125])
      with ([123; 10] ++ (render fs ++ bytes_of_string ind) ++ [125]).
    repeat apply bracket_neutral_app; try done; try by apply neutral_plain.
    apply bracket_neutral_text; by repeat constructor.
  - rewrite jobj_text. apply brace_text; [done| |by apply plain_app].
    change (10 :: render fs ++ bytes_of_string ind) with ([10] ++ render fs ++ bytes_of_string ind).
    repeat apply brace_neutral_app; try done; by apply neutral_plain.
  - rewrite jobj_text. no_nul.
Qed.

Lemma jblock_text ind key fs sep :
  render (jblock ind key fs sep)
  = bytes_of_string ind ++ quoted (bytes_of_string key) ++ [58; 32] ++
    (123 :: (10 :: render fs ++ bytes_of_string ind) ++ [125]) ++ bytes_of_string sep ++ [10].
Proof.
  unfold jblock, ln, lit. rewrite !render_cons, render_app. cbn [tok_text]. rewrite !bytes_app. unfold render at 2.
  cbn [fmap list_fmap concat tok_text bytes_of_string]. rewrite app_nil_r, <- !app_assoc. cbn [app].
  by rewrite <- !app_assoc.
Qed.

Lemma quoted_bracket_neutral k : plain k -> bracket_neutral (quoted k).
Proof.
  intros Hk. apply bracket_neutral_text; unfold quoted; (constructor; [done|]; apply no_char_app; split;
    [by apply plain_no_char|by repeat constructor]).
Qed.
Lemma quoted_neutral k : plain k -> bracket_neutral (quoted k) /\ brace_neutral (quoted k).
Proof.
  intros Hk. split; [by apply quoted_bracket_neutral|]. apply brace_neutral_quoted; by apply plain_no_char.
Qed.

Lemma good_jblock K ind (key : string) fs sep :
  plain (bytes_of_string ind) -> key_okb key = true -> memb key K = true -> is_sep sep -> good K fs ->
  good K (jblock ind key fs sep).
Proof.
  intros Hi Hk Hm Hs [Hw Ht Hb Hc Hz]. pose proof (sep_plain _ Hs) as Hsp. pose proof plain_nl as Hnl.
  pose proof (key_ok_bool _ Hk) as Hko. pose proof (key_plain _ Hko) as Hkp. split.
  - unfold jblock, ln, lit. apply wf_block_lit; [by apply plain_no_char|]. apply wf_block_key; [done..|].
    apply wf_block_lit; [by repeat constructor|].
    apply wf_block_app; [done|]. apply wf_block_lit; [|apply wf_block_nil]. rewrite !bytes_app.
    rewrite !no_char_app. split_and!; [by apply plain_no_char|by repeat constructor|by apply plain_no_char|by repeat constructor].
  - unfold jblock. apply memb_elem in Hm. do 3 (constructor; [done|]). apply Forall_app. split; [done|by constructor].
  - rewrite jblock_text. apply bracket_neutral_app; [by apply neutral_plain|]. apply bracket_neutral_app; [by apply quoted_neutral|].
    change (123 :: (10 :: render fs ++ bytes_of_string ind) ++ [125])
      with ([123; 10] ++ (render fs ++ bytes_of_string ind) ++ [125]).
    repeat apply bracket_neutral_app; try done; try by apply neutral_plain.
    all: apply bracket_neutral_text; by repeat constructor.
  - rewrite jblock_text. apply brace_neutral_app; [by apply neutral_plain|]. apply brace_neutral_app; [by apply quoted_neutral|].
    apply brace_text; [by apply plain_bool| |by apply plain_app].
    change (10 :: render fs ++ bytes_of_string ind) with ([10] ++ render fs ++ bytes_of_string ind).
    repeat apply brace_neutral_app; try done; by apply neutral_plain.
  - rewrite jblock_text. no_nul.
Qed.

(** *** Arrays *)

Lemma array_text a k b body c d :
  render ([Lit a; Key k; Lit (58 :: 32 :: 91 :: b)] ++ body ++ [Lit (c ++ 93 :: d)])
  = (a ++ quoted k ++ [58; 32]) ++ (91 :: (b ++ render body ++ c) ++ [93]) ++ d.
Proof.
  cbn [app]. rewrite !render_cons, render_app. cbn [tok_text]. unfold render at 2. cbn [fmap list_fmap concat tok_text].
  rewrite app_nil_r, <- !app_assoc. cbn [app]. done.
Qed.

Lemma good_array K a k b body c d :
  plain a -> key_okb k = true -> memb k K = true -> plain b -> plain c -> plain d -> good K body ->
  good K ([Lit a; Key k; Lit (58 :: 32 :: 91 :: b)] ++ body ++ [Lit (c ++ 93 :: d)]).
Proof.
  intros Ha Hk Hm Hb Hc Hd [Hw Ht Hbk Hbc Hz]. pose proof (key_ok_bool _ Hk) as Hko. pose proof (key_plain _ Hko) as Hkp. split.
  - cbn [app]. apply wf_block_lit; [by apply plain_no_char|]. apply wf_block_key; [done..|].
    apply wf_block_lit; [do 3 (constructor; [done|]); by apply plain_no_char|].
    apply wf_block_app; [done|]. apply wf_block_lit; [|apply wf_block_nil].
    apply no_char_app. split; [by apply plain_no_char|]. constructor; [done|]. by apply plain_no_char.
  - apply memb_elem in Hm. cbn [app]. do 3 (constructor; [done|]). apply Forall_app. split; [done|by constructor].
  - rewrite array_text. apply bracket_neutral_app.
    + repeat apply bracket_neutral_app; [by apply neutral_plain|by apply quoted_neutral|].
      apply bracket_neutral_text; by repeat constructor.
    + apply bracket_neutral_app; [|by apply neutral_plain]. apply bracket_neutral_nest.
      repeat apply bracket_neutral_app; try done; by apply neutral_plain.
  - rewrite array_text.
    change (91 :: (b ++ render body ++ c) ++ [93]) with ([91] ++ (b ++ render body ++ c) ++ [93]).
    repeat apply brace_neutral_app; try done; try (by apply neutral_plain); try (by apply quoted_neutral).
    all: apply brace_neutral_text; by repeat constructor.
  - rewrite array_text. no_nul.
Qed.

Lemma good_comma {A} K (f : A -> string -> list tok) l :
  (forall x sep, x ∈ l -> is_sep sep -> good K (f x sep)) -> good K (comma_list f l).
Proof.
  intros H. unfold comma_list. apply good_concat. apply Forall_lookup. intros i y Hy.
  rewrite list_lookup_imap in Hy. destruct (l !! i) as [x|] eqn:Hx; [|done]. cbn in Hy. injection Hy as <-.
  apply H; [by eapply list_elem_of_lookup_2|]. case_bool_decide; [by left|by right].
Qed.

(** ** Reading arrays and objects back *)

(** The text of an object, from its opening to its closing brace. *)
Definition obj_toks (ind : string) (fs : list tok) : list tok :=
  Lit [123; 10] :: fs ++ [Lit (bytes_of_string ind ++ [125])].

Lemma obj_toks_text ind fs : render (obj_toks ind fs) = 123 :: (10 :: render fs ++ bytes_of_string ind) ++ [125].
Proof.
  unfold obj_toks. rewrite render_cons, render_app. cbn [tok_text]. unfold render at 2.
  cbn [fmap list_fmap concat tok_text app]. by rewrite app_nil_r, <- app_assoc.
Qed.

Lemma obj_toks_doc K ind fs : good K fs -> plain (bytes_of_string ind) -> doc (obj_toks ind fs).
Proof.
  intros Hg Hi. unfold obj_toks.
  assert (Hend : doc [Lit (bytes_of_string ind ++ [125])]).
  { split; [split; [|done]|by repeat constructor]. apply no_char_app. split; [by apply plain_no_char|by repeat constructor]. }
  destruct (good_doc _ _ _ Hg Hend) as [Hw Ht]. split; [split; [by repeat constructor|done]|by constructor].
Qed.

Definition closes (close : cstring -> option cstring) (ind : string) (fs : list tok) : Prop :=
  forall r, close (123 :: (10 :: render fs ++ bytes_of_string ind) ++ 125 :: r)
            = Some (123 :: 10 :: render fs ++ bytes_of_string ind).

Lemma closes_first ind fs : plain (bytes_of_string ind) -> no_char 125 (render fs) -> closes first_brace ind fs.
Proof.
  intros Hi Hf r. apply (first_brace_closes (10 :: render fs ++ bytes_of_string ind)). constructor; [done|].
  apply no_char_app. split; [done|by apply plain_no_char].
Qed.
Lemma closes_match K ind fs : plain (bytes_of_string ind) -> good K fs -> closes find_matching_brace ind fs.
Proof.
  intros Hi Hf r. apply (matching_brace (10 :: render fs ++ bytes_of_string ind)).
  change (10 :: render fs ++ bytes_of_string ind) with ([10] ++ render fs ++ bytes_of_string ind).
  repeat apply brace_neutral_app; [apply neutral_plain, plain_nl|apply Hf|by apply neutral_plain].
Qed.

Lemma render_concat ls : render (concat ls) = concat (render <$> ls).
Proof. induction ls as [|l ls IH]; [done|]. cbn [concat]. rewrite render_app, IH. done. Qed.

Lemma comma_items {A} ind (fields : A -> list tok) xs :
  exists items,
    render (comma_list (fun x => jobj ind (fields x)) xs) = concat (item_text <$> items)
    /\ item_obj <$> items = (fun x => render (obj_toks ind (fields x))) <$> xs
    /\ forall close, plain (bytes_of_string ind) -> Forall (fun x => closes close ind (fields x)) xs -> Forall (item_ok close) items.
Proof.
  set (sep i := if bool_decide (S i = length xs) then EmptyString else ","%string).
  exists (imap (fun i x => (bytes_of_string ind, 10 :: render (fields x) ++ bytes_of_string ind, bytes_of_string (sep i) ++ [10])) xs).
  split_and!.
  - unfold comma_list. rewrite render_concat. f_equal. rewrite !fmap_imap. apply imap_ext. intros i x Hx. unfold compose.
    fold (sep i). rewrite jobj_text. cbn [item_text app]. by rewrite <- app_assoc.
  - rewrite fmap_imap. apply list_eq. intros i. rewrite list_lookup_imap, list_lookup_fmap.
    destruct (xs !! i) as [x|]; [|done].
    cbn [fmap option_fmap option_map]. rewrite obj_toks_text. done.
  - intros close Hi Hc. apply Forall_lookup. intros i y Hy. rewrite list_lookup_imap in Hy.
    destruct (xs !! i) as [x|] eqn:Hx; [|done]. cbn in Hy. injection Hy as <-. split_and!.
    + by apply plain_no_char.
    + apply no_char_app. split; [|by repeat constructor]. unfold sep. case_bool_decide; by repeat constructor.
    + by eapply Forall_lookup_1 in Hc.
Qed.

Lemma json_array_text k l mid rest :
  key_ok k -> render l = [58; 32; 91] ++ mid ++ 93 :: rest -> bracket_neutral mid ->
  json_array (render (Key k :: l)) = Some (91 :: mid).
Proof.
  intros Hk Hl Hm. unfold json_array. rewrite render_cons, Hl. cbn [tok_text]. apply key_plain in Hk.
  rewrite strchr_skip.
  2:{ unfold quoted. constructor; [done|]. apply no_char_app. split; [by apply plain_no_char|by repeat constructor]. }
  change ([58; 32; 91] ++ mid ++ 93 :: rest) with ([58; 32] ++ 91 :: mid ++ 93 :: rest).
  rewrite strchr_skip by (by repeat constructor). rewrite strchr_here. cbn [mbind option_bind].
  by apply matching_bracket.
Qed.

Lemma array_objects_text {A} close ind (fields : A -> list tok) xs b c :
  plain (bytes_of_string ind) -> plain b -> plain c -> Forall (fun x => closes close ind (fields x)) xs ->
  array_objects close (91 :: b ++ render (comma_list (fun x => jobj ind (fields x)) xs) ++ c)
  = (fun x => render (obj_toks ind (fields x))) <$> xs.
Proof.
  intros Hi Hb Hc Hx. destruct (comma_items ind fields xs) as (items & -> & <- & Hok).
  apply (array_objects_spec close items (91 :: b) c); [by apply Hok|constructor; [done|by apply plain_no_char]|by apply plain_no_char].
Qed.

Lemma load_objects_text {A B} close max (f : Z -> cstring -> B) ind (fields : A -> list tok) xs k l b c rest :
  key_ok k -> plain (bytes_of_string ind) -> plain b -> plain c -> (length xs <= Z.to_nat max)%nat ->
  Forall (fun x => closes close ind (fields x)) xs ->
  bracket_neutral (render (comma_list (fun x => jobj ind (fields x)) xs)) ->
  render l = [58; 32; 91] ++ (b ++ render (comma_list (fun x => jobj ind (fields x)) xs) ++ c) ++ 93 :: rest ->
  load_objects close max f (Some (render (Key k :: l)))
  = imap (fun i x => f (Z.of_nat i) (render (obj_toks ind (fields x)))) xs.
Proof.
  intros Hk Hi Hb Hc Hlen Hx Hn Hl. unfold load_objects. cbn [mbind option_bind].
  rewrite (json_array_text k l (b ++ render (comma_list (fun x => jobj ind (fields x)) xs) ++ c) rest); [|done..|].
  - rewrite array_objects_text by done. rewrite take_ge by (by rewrite length_fmap). by rewrite imap_fmap.
  - repeat apply bracket_neutral_app; [by apply neutral_plain|done|by apply neutral_plain].
Qed.

Lemma load_keyed_text {A B} max (f : cstring -> B) key ind (fields : A -> list tok) xs k l b c rest :
  key_ok k -> plain (bytes_of_string ind) -> plain b -> plain c -> (length xs <= Z.to_nat max)%nat ->
  Forall (fun x => closes find_matching_brace ind (fields x)) xs ->
  Forall (fun x => key (f (render (obj_toks ind (fields x)))) <> []) xs ->
  bracket_neutral (render (comma_list (fun x => jobj ind (fields x)) xs)) ->
  render l = [58; 32; 91] ++ (b ++ render (comma_list (fun x => jobj ind (fields x)) xs) ++ c) ++ 93 :: rest ->
  load_keyed max f key (Some (render (Key k :: l))) = (fun x => f (render (obj_toks ind (fields x)))) <$> xs.
Proof.
  intros Hk Hi Hb Hc Hlen Hx Hne Hn Hl. unfold load_keyed. cbn [mbind option_bind].
  rewrite (json_array_text k l (b ++ render (comma_list (fun x => jobj ind (fields x)) xs) ++ c) rest); [|done..|].
  - rewrite array_objects_text by done. rewrite <- list_fmap_compose. rewrite filter_keeps.
    + rewrite take_ge by (by rewrite length_fmap). done.
    + by apply Forall_fmap.
  - repeat apply bracket_neutral_app; [by apply neutral_plain|done|by apply neutral_plain].
Qed.

(** An object under a key. *)
Lemma json_object_text K k ind fs l rest :
  key_ok k -> plain (bytes_of_string ind) -> good K fs ->
  render l = [58; 32] ++ (123 :: (10 :: render fs ++ bytes_of_string ind)) ++ 125 :: rest ->
  json_object (render (Key k :: l)) = Some (render (obj_toks ind fs)).
Proof.
  intros Hk Hi Hg Hl. unfold json_object. rewrite render_cons, Hl. cbn [tok_text]. apply key_plain in Hk.
  rewrite strchr_skip.
  2:{ unfold quoted. constructor; [done|]. apply no_char_app. split; [by apply plain_no_char|by repeat constructor]. }
  rewrite strchr_skip by (by repeat constructor). cbn [app]. rewrite strchr_here. cbn [mbind option_bind].
  pose proof (closes_match _ _ _ Hi Hg rest) as Hc. cbn [app] in Hc. rewrite Hc. cbn [mbind option_bind].
  by rewrite obj_toks_text.
Qed.

(** *** Arrays of strings *)

Definition word_text (it : cstring * cstring * cstring) : cstring := let '(pre, s, suf) := it in pre ++ quoted s ++ suf.
Definition word_ok (it : cstring * cstring * cstring) : Prop :=
  let '(pre, s, suf) := it in no_char 34 pre /\ no_char 34 s /\ no_char 34 suf.

Lemma quoted_loop_spec items : forall fuel h post,
  Forall word_ok items -> no_char 34 h -> no_char 34 post -> (length items <= fuel)%nat ->
  quoted_loop fuel (h ++ concat (word_text <$> items) ++ post) = (fun it => it.1.2) <$> items.
Proof.
  induction items as [|[[pre s] suf] items IH]; intros fuel h post Hit Hh Hp Hf.
  - cbn [fmap list_fmap concat app]. destruct fuel; [done|]. cbn [quoted_loop].
    by rewrite strchr_none by (by apply no_char_app).
  - apply Forall_cons in Hit as [(Hpre & Hs & Hsuf) Hit]. destruct fuel as [|fuel]; [cbn in Hf; lia|].
    cbn [fmap list_fmap concat word_text quoted_loop]. rewrite <- !app_assoc. rewrite strchr_skip, strchr_skip by done.
    unfold quoted. cbn [app]. rewrite strchr_here, <- app_assoc. cbn [app]. rewrite before_spec by done.
    cbn [fst snd]. f_equal. rewrite drop_past. apply IH; [done..|cbn in Hf; lia].
Qed.

Lemma words_length items : (length items <= length (concat (word_text <$> items)))%nat.
Proof.
  induction items as [|[[pre s] suf] items IH]; cbn [fmap list_fmap concat length]; [lia|].
  rewrite length_app. cbn [word_text]. rewrite !length_app. unfold quoted. cbn [length]. lia.
Qed.
Lemma array_strings_spec items h post :
  Forall word_ok items -> no_char 34 h -> no_char 34 post ->
  array_strings (h ++ concat (word_text <$> items) ++ post) = (fun it => it.1.2) <$> items.
Proof.
  intros Hit Hh Hp. unfold array_strings. apply quoted_loop_spec; [done..|]. pose proof (words_length items).
  rewrite !length_app. lia.
Qed.

(** The entries of an address list. *)
Lemma entries_text es b c :
  plain b -> plain c -> Forall (fun e => plain (ae_value e)) es ->
  array_strings (91 :: b ++ render (comma_list entry_tokens es) ++ c) = ae_value <$> es.
Proof.
  intros Hb Hc He. set (sep i := if bool_decide (S i = length es) then EmptyString else ","%string).
  set (items := imap (fun i e => (bytes_of_string "        ", ae_value e, bytes_of_string (sep i) ++ [10])) es).
  assert (E : render (comma_list entry_tokens es) = concat (word_text <$> items)).
  { unfold comma_list, items. rewrite render_concat. f_equal. rewrite !fmap_imap. apply imap_ext. intros i x Hx. unfold compose.
    fold (sep i). unfold entry_tokens, lit, ln. rewrite !render_cons. cbn [tok_text word_text]. cbn [render fmap list_fmap concat].
    by rewrite app_nil_r. }
  rewrite E. change (91 :: b ++ concat (word_text <$> items) ++ c) with ((91 :: b) ++ concat (word_text <$> items) ++ c).
  rewrite array_strings_spec.
  - unfold items. apply list_eq. intros i. rewrite !list_lookup_fmap, list_lookup_imap. by destruct (es !! i).
  - apply Forall_lookup. intros i y Hy. unfold items in Hy. rewrite list_lookup_imap in Hy.
    destruct (es !! i) as [x|] eqn:Hx; [|done]. cbn in Hy. injection Hy as <-. split_and!.
    + by repeat constructor.
    + eapply Forall_lookup_1 in He; [|exact Hx]. by apply plain_no_char.
    + apply no_char_app. split; [|by repeat constructor]. unfold sep. case_bool_decide; by repeat constructor.
  - constructor; [done|by apply plain_no_char].
  - by apply plain_no_char.
Qed.

(** The members of a group. *)
Lemma names_strings names :
  Forall plain names -> array_strings (91 :: render (names_tokens names)) = names.
Proof.
  intros Hn.
  assert (exists items, render (names_tokens names) = concat (word_text <$> items)
                        /\ (fun it => it.1.2) <$> items = names /\ Forall word_ok items) as (items & E & En & Hok).
  { induction Hn as [|n names Hn Hns IH]; [by exists []|]. destruct IH as (items & E & En & Hok).
    destruct names as [|m names].
    - exists [([], n, [])]. split_and!; [cbn; by rewrite !app_nil_r|done|]. constructor; [|done].
      split_and!; [constructor|by apply plain_no_char|constructor].
    - exists (([], n, [44; 32]) :: items). split_and!.
      + change (names_tokens (n :: m :: names)) with (Str n :: lit ", " :: names_tokens (m :: names)).
        rewrite !render_cons, E. cbn [tok_text fmap list_fmap concat word_text app lit]. by rewrite <- app_assoc.
      + cbn [fmap list_fmap]. by rewrite En.
      + constructor; [|done]. split_and!; [constructor|by apply plain_no_char|by repeat constructor]. }
  rewrite E. rewrite <- (app_nil_r (concat _)).
  change (91 :: concat (word_text <$> items) ++ []) with ([91] ++ concat (word_text <$> items) ++ []).
  rewrite array_strings_spec; [done..|by repeat constructor|constructor].
Qed.

Lemma names_cons n m names : names_tokens (n :: m :: names) = Str n :: lit ", " :: names_tokens (m :: names).
Proof. done. Qed.
Lemma names_flat names : Forall plain names -> flat (names_tokens names).
Proof.
  induction 1 as [|n [|m names] Hn Hns IH]; [constructor|by repeat constructor|].
  rewrite names_cons. constructor; [done|]. constructor; [by apply plain_bool|done].
Qed.
Lemma names_wf names d : plain d -> Forall plain names -> wf_block (names_tokens names ++ [Lit (93 :: d)]).
Proof.
  intros Hd Hn.
  assert (He : wf_block [Lit (93 :: d)]).
  { apply wf_block_lit; [|apply wf_block_nil]. constructor; [done|by apply plain_no_char]. }
  induction Hn as [|n [|m names] Hn Hns IH]; [done|apply wf_block_str; [by apply plain_no_char|done..]|].
  rewrite names_cons. apply wf_block_str; [by apply plain_no_char|done..|]. by apply wf_block_lit; [repeat constructor|].
Qed.
Lemma names_good K names : Forall (fun n => plain n /\ n ∉ R) names -> Forall (good_tok K) (names_tokens names).
Proof.
  induction 1 as [|n [|m names] Hn Hns IH]; [constructor|by constructor|].
  rewrite names_cons. constructor; [done|]. by constructor.
Qed.
Lemma names_no_char c names : plain_char c = false -> c <> 34 -> Forall plain names -> no_char c (render (names_tokens names)).
Proof. intros Hc Hq Hn. apply flat_no_char; [done..|]. by apply names_flat. Qed.

Lemma good_names K a k names d :
  plain a -> key_okb k = true -> memb k K = true -> plain d -> Forall (fun n => plain n /\ n ∉ R) names ->
  good K ([Lit a; Key k; lit ": ["] ++ names_tokens names ++ [Lit (93 :: d)]).
Proof.
  intros Ha Hk Hm Hd Hn. pose proof (key_ok_bool _ Hk) as Hko. pose proof (key_plain _ Hko) as Hkp.
  assert (Hp : Forall plain names) by (eapply Forall_impl; [exact Hn|]; by intros n [Hn1 _]).
  pose proof (names_flat _ Hp) as Hf. pose proof (array_text a k [] (names_tokens names) [] d) as E.
  cbn [app] in E. rewrite app_nil_r in E. split.
  - cbn [app]. apply wf_block_lit; [by apply plain_no_char|]. apply wf_block_key; [done..|].
    apply wf_block_lit; [by repeat constructor|]. by apply names_wf.
  - apply memb_elem in Hm. cbn [app]. do 3 (constructor; [done|]). apply Forall_app. split; [by apply names_good|by constructor].
  - cbn [app]. change (lit ": [") with (Lit [58; 32; 91]). rewrite E.
    apply bracket_neutral_app; [repeat apply bracket_neutral_app|].
    + by apply neutral_plain.
    + by apply quoted_neutral.
    + apply bracket_neutral_text; by repeat constructor.
    + change (91 :: (render (names_tokens names) ++ [93]) ++ d) with ((91 :: render (names_tokens names) ++ [93]) ++ d).
      apply bracket_neutral_app; [|by apply neutral_plain]. by apply bracket_neutral_nest, flat_bracket_neutral.
  - cbn [app]. change (lit ": [") with (Lit [58; 32; 91]). rewrite E.
    change (91 :: (render (names_tokens names) ++ [93]) ++ d) with ([91] ++ (render (names_tokens names) ++ [93]) ++ d).
    repeat apply brace_neutral_app; try done; try (by apply neutral_plain); try (by apply quoted_neutral);
      try (by apply flat_brace_neutral). all: apply brace_neutral_text; by repeat constructor.
  - cbn [app]. change (lit ": [") with (Lit [58; 32; 91]). rewrite E. pose proof (names_no_char 0 names ltac:(done) ltac:(done) Hp). no_nul.
Qed.

End Blocks.
