(* ===== verification/ConfigSpec.v ===== *)
(** * What is read back of a configuration that was written

    [config_load] of what [config_save] wrote, block by block: every value is found under its
    key.  The strings of the configuration have no quote, backslash, bracket or brace and are
    none of the keys that the reader looks for ([reserved]). *)

From S2P Require Import Prelude Fluxwan Ipv4 CLib Json JsonText ProxyUri ConfigLoad ConfigSave JsonBlocks.

(** Every key that [config_load] searches for. *)
Definition reserved : list cstring := map bytes_of_string
  ["ac_name"; "accept_routes"; "acct_port"; "adblock_enabled"; "address";
   "address_lists"; "advertise_routes"; "algorithm"; "allow_remote_mgmt";
   "allowed_ips"; "app_steering"; "auth"; "auth_key"; "auth_port";
   "bandwidth_down_mbps"; "bandwidth_up_mbps"; "bind_ip"; "block_wan_probes";
   "bot_token"; "bulk_balancing_enabled"; "ca_cert_path"; "chat_id";
   "client_cert_path"; "client_key_path"; "client_private_key"; "cloak_traceroute";
   "coa_port"; "comment"; "created_at"; "custom_mac"; "description";
   "dhcp_enabled"; "dhcp_end"; "dhcp_lease_time"; "dhcp_start"; "diffserv4";
   "dns"; "dns1"; "dns2"; "dpi"; "dynamic_latency_steering";
   "enabled"; "endpoint"; "entries"; "expires_at"; "fast_dns_enabled";
   "gaming_priority_enabled"; "gaming_steering_enabled"; "gateway"; "gateway_ip";
   "groups"; "hostname"; "id"; "interface"; "interim_interval";
   "interval_ms"; "ip"; "is_exit_node"; "label"; "lan"; "lan_mode";
   "listen_port"; "local_ip"; "login_server"; "loss_window"; "mac";
   "max_acceptable_loss_pct"; "max_acceptable_rtt_ms"; "max_down_mbps";
   "max_sessions"; "max_up_mbps"; "mru"; "mss"; "mss_clamping"; "mtu";
   "name"; "nas_identifier"; "nat46"; "netmask"; "networks";
   "node_id"; "notify_on_failover"; "notify_on_recovery"; "nwid";
   "p2p_throttle_enabled"; "p2p_throttle_rate_kbps"; "password"; "peers";
   "persistent_keepalive"; "policy_routes"; "pool_end"; "pool_start"; "port";
   "ppp_password"; "ppp_username"; "pppoe_server"; "preshared_key";
   "primary_dns"; "primary_gaming_wan_id"; "primary_voip_wan_id"; "private_key";
   "probe_target"; "prober"; "profile"; "profiles"; "proto";
   "proxy_enabled"; "proxy_encryption"; "proxy_host"; "proxy_path";
   "proxy_port"; "proxy_proto"; "proxy_raw_uri"; "proxy_raw_uri_2";
   "proxy_raw_uri_3"; "proxy_security"; "proxy_server"; "proxy_sni";
   "proxy_strategy"; "proxy_strategy_str"; "proxy_transport"; "proxy_tun_dev";
   "proxy_uuid"; "public_key"; "qos"; "radius"; "rate_down_kbps";
   "rate_limits"; "rate_up_kbps"; "secondary_dns"; "secret"; "server";
   "service_name"; "session_token"; "smart_ipv6_bonding"; "sni_hostname";
   "ssid"; "starlink_wan_name"; "state"; "static_ip"; "static_leases";
   "stealth"; "sticky"; "streaming_balance_enabled"; "strict_banking_enabled";
   "subnet"; "synthetic_prefix"; "table_id"; "tailscale"; "target_group";
   "target_id"; "target_name"; "target_type"; "telegram"; "timeout_ms";
   "timeout_seconds"; "tls_verify_cert"; "ttl_value"; "type"; "upstream_dns";
   "username"; "users"; "validity_days"; "voip_priority_enabled";
   "voip_steering_enabled"; "vpn"; "wans"; "web"; "weight";
   "wifi_password"; "wifi_security"; "wifi_ssid"; "wireguard"; "zerotier"]%string.

Definition short_keyb (k : cstring) : bool := key_okb k && (length k <=? 125)%nat.
Lemma reserved_short : Forall short_key reserved.
Proof.
  assert (H : forallb short_keyb reserved = true) by (vm_compute; reflexivity).
  rewrite forallb_forall in H. apply Forall_forall. intros k Hk. apply list_elem_of_In, H in Hk.
  apply andb_true_iff in Hk as [H1 H2%Nat.leb_le]. split; [by apply key_ok_bool|done].
Qed.

(** A text that fits into a field of [n] bytes. *)
Definition txt (n : Z) (s : cstring) : Prop := plain s /\ (s ∉ reserved) /\ Z.of_nat (length s) < n.

Abbreviation cdoc := (doc reserved).
Abbreviation cgood := (good reserved).

(** ** The readers on a document *)

Section Readers.
Context (k : cstring) (l : list tok) (Hk : k ∈ reserved) (Hd : cdoc l).

Lemma trunc_fits n s : Z.of_nat (length s) < n -> str_trunc n s = s.
Proof. intros H. apply take_ge. lia. Qed.

Lemma text_at s r n :
  find_key k l = Some (lit ": " :: Str s :: r) -> Z.of_nat (length s) < n -> extract_json_string (render l) k n = Some s.
Proof.
  intros Hf Hn. erewrite text_value; [|apply reserved_short|done..]. by rewrite trunc_fits.
Qed.
Lemma read_text_at s r n :
  find_key k l = Some (lit ": " :: Str s :: r) -> Z.of_nat (length s) < n -> read_text (render l) k n = s.
Proof. intros Hf Hn. unfold read_text. by erewrite text_at. Qed.
Lemma copied_at s r n m :
  find_key k l = Some (lit ": " :: Str s :: r) -> Z.of_nat (length s) < n -> Z.of_nat (length s) < m ->
  copied (render l) k n m = Some s.
Proof. intros Hf Hn Hm. unfold copied. erewrite text_at by done. cbn. f_equal. by apply trunc_fits. Qed.
Lemma copied_text_at s r n m :
  find_key k l = Some (lit ": " :: Str s :: r) -> Z.of_nat (length s) < n -> Z.of_nat (length s) < m ->
  copied_text (render l) k n m = s.
Proof. intros Hf Hn Hm. unfold copied_text. by erewrite copied_at. Qed.
Lemma copied_or_at s r n m d :
  find_key k l = Some (lit ": " :: Str s :: r) -> Z.of_nat (length s) < n -> Z.of_nat (length s) < m ->
  copied_or (render l) k n m d = s.
Proof. intros Hf Hn Hm. unfold copied_or. by erewrite copied_at. Qed.
Lemma copied_text_none n m : find_key k l = None -> copied_text (render l) k n m = [].
Proof. intros Hf. unfold copied_text, copied. by rewrite no_text with (R := reserved); [|apply reserved_short|..]. Qed.
Lemma text_none n : find_key k l = None -> extract_json_string (render l) k n = None.
Proof. intros Hf. apply no_text with (R := reserved); [apply reserved_short|done..]. Qed.
Lemma int_none d : find_key k l = None -> extract_json_int (render l) k d = d.
Proof. intros Hf. apply no_int with (R := reserved); [apply reserved_short|done..]. Qed.

Lemma u32_at n r d :
  find_key k l = Some (lit ": " :: Lit (dec n) :: r) -> follows r -> is_u32 n -> u32 (extract_json_int (render l) k d) = n.
Proof. intros Hf. eapply u32_value; [apply reserved_short|done..]. Qed.
Lemma u16_at n r d :
  find_key k l = Some (lit ": " :: Lit (dec n) :: r) -> follows r -> is_u16 n -> u16 (extract_json_int (render l) k d) = n.
Proof. intros Hf. eapply u16_value; [apply reserved_short|done..]. Qed.
Lemma u8_at n r d :
  find_key k l = Some (lit ": " :: Lit (dec n) :: r) -> follows r -> is_u8 n -> u8 (extract_json_int (render l) k d) = n.
Proof. intros Hf. eapply u8_value; [apply reserved_short|done..]. Qed.
Lemma u64_at n r d :
  find_key k l = Some (lit ": " :: Lit (dec n) :: r) -> follows r -> is_u64 n -> extract_json_uint64 (render l) k d = n.
Proof. intros Hf. eapply u64_value; [apply reserved_short|done..]. Qed.
Lemma bool_at (b : bool) r d :
  find_key k l = Some (lit ": " :: Lit (if b then bytes_of_string "true" else bytes_of_string "false") :: r) -> follows r ->
  extract_json_bool (render l) k d = b.
Proof. intros Hf. eapply bool_value; [apply reserved_short|done..]. Qed.

Lemma strstr_at r : find_key k l = Some r -> strstr (render l) (quoted k) = Some (render (Key k :: r)).
Proof. intros Hf. apply (doc_strstr reserved); [apply reserved_short|done..]. Qed.
Lemma strstr_absent : find_key k l = None -> strstr (render l) (quoted k) = None.
Proof. intros Hf. apply (doc_strstr_none reserved); [apply reserved_short|done..]. Qed.

End Readers.

Lemma reserved_key k : memb k reserved = true -> k ∈ reserved.
Proof. apply memb_elem. Qed.

(** Solves the side conditions of a reader. *)
Ltac is_key := apply reserved_key; vm_compute; reflexivity.
Ltac follow := split; [reflexivity|discriminate].
Ltac reader_with look :=
  first
    [ eapply bool_at; [is_key|eassumption|look|follow]
    | eapply u32_at; [is_key|eassumption|look|follow|]
    | eapply u16_at; [is_key|eassumption|look|follow|]
    | eapply u8_at; [is_key|eassumption|look|follow|]
    | eapply u64_at; [is_key|eassumption|look|follow|]
    | eapply read_text_at; [is_key|eassumption|look|]
    | eapply copied_text_at; [is_key|eassumption|look|..]
    | eapply copied_or_at; [is_key|eassumption|look|..]
    | eapply copied_text_none; [is_key|eassumption|look]
    | eapply text_at; [is_key|eassumption|look|]
    | eapply text_none; [is_key|eassumption|look] ].
Ltac reader := reader_with ltac:(reflexivity).

Ltac enter Hd Hf := erewrite strstr_at; [|is_key|exact Hd|exact Hf]; pose proof (find_key_doc _ _ _ _ Hd Hf); clear Hd Hf.

(** ** Texts and numbers of a good block *)

Lemma txt_fits n s : txt n s -> Z.of_nat (length s) < n.
Proof. intros (_ & _ & H). exact H. Qed.
Lemma txt_le n m s : txt n s -> n <= m -> Z.of_nat (length s) < m.
Proof. intros (_ & _ & H) Hm. lia. Qed.
Lemma txt_or n s d : txt n s -> txt n d -> txt n (or_else_text s d).
Proof. unfold or_else_text. by destruct (empty s). Qed.
Definition txtb (n : Z) (s : cstring) : bool :=
  forallb plain_char s && negb (memb s reserved) && (Z.of_nat (length s) <? n).
Lemma txt_bool n s : txtb n s = true -> txt n s.
Proof.
  unfold txtb. rewrite !andb_true_iff, negb_true_iff, Z.ltb_lt. intros [[H1 H2] H3].
  split_and!; [by apply plain_bool|by apply memb_not_elem|done].
Qed.

Lemma or_num_range n d m : 0 <= n < m -> 0 < d < m -> 0 < or_num n d < m.
Proof. unfold or_num. intros. destruct (Z.ltb_spec 0 n); lia. Qed.
Lemma or_num_u32 n d : is_u32 n -> 0 < d < 4294967296 -> is_u32 (or_num n d).
Proof. unfold is_u32. intros H1 H2. pose proof (or_num_range n d _ H1 H2). lia. Qed.
Lemma or_num_u16 n d : is_u16 n -> 0 < d < 65536 -> is_u16 (or_num n d).
Proof. unfold is_u16. intros H1 H2. pose proof (or_num_range n d _ H1 H2). lia. Qed.
Lemma or_num_u8 n d : is_u8 n -> 0 < d < 256 -> is_u8 (or_num n d).
Proof. unfold is_u8. intros H1 H2. pose proof (or_num_range n d _ H1 H2). lia. Qed.

Lemma value_text n s : txt n s -> good_value reserved (jstr s).
Proof. intros (H1 & H2 & _). done. Qed.
Lemma value_num n : 0 <= n -> good_value reserved (jnum n).
Proof. apply plain_dec. Qed.
Lemma value_bool b : good_value reserved (jbool b).
Proof. by destruct b; apply plain_bool. Qed.
Lemma value_int v : good_value reserved (jint v).
Proof.
  cbn. destruct (Z.ltb_spec v 0); [|apply plain_dec; lia]. constructor; [done|]. apply plain_dec. lia.
Qed.
Lemma value_float x : good_value reserved (jfloat x).
Proof.
  cbn. unfold fmt1. apply plain_app. split; [destruct (Qnum x <? 0); by repeat constructor|].
  apply plain_app. split; [apply plain_dec; lia|]. constructor; [done|]. apply plain_dec. lia.
Qed.

Lemma sep_end : is_sep "".
Proof. by left. Qed.
Lemma sep_comma : is_sep ",".
Proof. by right. Qed.

Create HintDb cfg.
#[export] Hint Resolve value_bool value_int value_float sep_end sep_comma good_nil : cfg.
Ltac known_text s := match goal with H : txt _ s |- _ => exact H end.
#[export] Hint Extern 2 (good_value _ (jstr ?s)) => (eapply value_text; known_text s) : cfg.
#[export] Hint Extern 3 (good_value _ (jstr (bytes_of_string _))) => (eapply (value_text 4096), txt_bool; vm_compute; reflexivity) : cfg.
#[export] Hint Extern 4 (good_value _ (jstr (or_else_text ?s _))) =>
  (eapply value_text, txt_or; [known_text s|apply txt_bool; vm_compute; reflexivity]) : cfg.
#[export] Hint Extern 2 (good_value _ (jnum _)) =>
  (apply value_num; unfold is_u64, is_u32, is_u16, is_u8 in *; lia) : cfg.
#[export] Hint Extern 3 (good_value _ (jnum (or_num _ _))) =>
  (apply value_num; unfold or_num; case_match; unfold is_u64, is_u32, is_u16, is_u8 in *; lia) : cfg.
#[export] Hint Extern 2 (is_sep _) => assumption : cfg.

(** Blocks built from lines. *)
Ltac good_lines :=
  repeat first
    [ apply good_nil
    | apply good_if
    | apply good_fld; [reflexivity|reflexivity|vm_compute; reflexivity|solve [auto with cfg]|solve [auto with cfg]]
    | lazymatch goal with |- good _ _ [lit _] => idtac | |- good _ _ [ln _] => idtac end;
      apply good_lit; apply plain_bool; vm_compute; reflexivity
    | apply good_app ].

(** ** The blocks of scalars *)

Definition scalar_keys : list cstring := map bytes_of_string
  ["prober"; "interval_ms"; "timeout_ms"; "loss_window"; "max_acceptable_rtt_ms"; "max_acceptable_loss_pct";
   "dynamic_latency_steering"; "sticky"; "enabled"; "timeout_seconds"; "strict_banking_enabled"; "app_steering";
   "gaming_steering_enabled"; "voip_steering_enabled"; "bulk_balancing_enabled"; "primary_gaming_wan_id";
   "primary_voip_wan_id"; "telegram"; "bot_token"; "chat_id"; "notify_on_failover"; "notify_on_recovery"; "web"; "bind_ip";
   "port"; "auth"; "username"; "password"; "session_token"; "nat46"; "synthetic_prefix"; "upstream_dns"; "starlink_wan_name";
   "dpi"; "p2p_throttle_enabled"; "p2p_throttle_rate_kbps"; "voip_priority_enabled"; "gaming_priority_enabled";
   "streaming_balance_enabled"; "stealth"; "ttl_value"; "cloak_traceroute"; "block_wan_probes"]%string.

Ltac good_block := apply good_jblock; [apply plain_bool; reflexivity|reflexivity|vm_compute; reflexivity|auto with cfg|good_lines].

Definition prober_ok (p : prober_config_t) : Prop :=
  is_u32 (pc_interval_ms p) /\ is_u32 (pc_timeout_ms p) /\ is_u32 (pc_loss_window p) /\ is_u32 (pc_max_acceptable_rtt_ms p)
  /\ Z.abs (tenths (pc_max_acceptable_loss_pct p)) < 10 ^ 18.
Definition sticky_ok (s : sticky_config_t) : Prop := is_u32 (sc_timeout_seconds s).
Definition app_steering_ok (a : app_steering_t) : Prop := is_u32 (as_primary_gaming_wan_id a) /\ is_u32 (as_primary_voip_wan_id a).
Definition telegram_ok (t : telegram_config_t) : Prop := txt 128 (tg_bot_token t) /\ txt 64 (tg_chat_id t).
Definition web_ok (w : web_config_t) : Prop := txt 64 (web_bind_ip w) /\ is_u16 (web_port w).
Definition auth_ok (a : auth_config_t) : Prop :=
  txt 64 (au_username a) /\ txt 64 (au_password a) /\ txt 64 (au_session_token a).
Definition nat46_ok (n : nat46_config_t) : Prop :=
  txt 32 (n46_synthetic_prefix n) /\ txt 64 (n46_upstream_dns n) /\ txt 32 (n46_starlink_wan_name n).
Definition dpi_ok (d : dpi_config_t) : Prop := is_u32 (dpi_p2p_throttle_rate_kbps d).
Definition stealth_ok (s : stealth_config_t) : Prop := is_u8 (st_ttl_value s).

Lemma sticky_good s : sticky_ok s -> cgood scalar_keys (sticky_tokens s).
Proof. unfold sticky_ok. intros Hs. good_block. Qed.
Lemma app_steering_good a : app_steering_ok a -> cgood scalar_keys (app_steering_tokens a).
Proof. intros [H1 H2]. good_block. Qed.
Lemma prober_good p : prober_ok p -> cgood scalar_keys (prober_tokens p).
Proof. intros (H1 & H2 & H3 & H4 & _). good_block. Qed.
Lemma telegram_good t : telegram_ok t -> cgood scalar_keys (telegram_tokens t).
Proof. intros (H1 & H2). good_block. Qed.
Lemma web_good w : web_ok w -> cgood scalar_keys (web_tokens w).
Proof. intros (H1 & H2). good_block. Qed.
Lemma auth_good a : auth_ok a -> cgood scalar_keys (auth_tokens a).
Proof. intros (H1 & H2 & H3). good_block. Qed.
Lemma nat46_good n : nat46_ok n -> cgood scalar_keys (nat46_tokens n).
Proof. intros (H1 & H2 & H3). good_block. Qed.
Lemma dpi_good d : dpi_ok d -> cgood scalar_keys (dpi_tokens d).
Proof. unfold dpi_ok. intros Hd. good_block. Qed.
Lemma stealth_good s : stealth_ok s -> cgood scalar_keys (stealth_tokens s).
Proof. unfold stealth_ok. intros Hs. good_block. Qed.

(** *** Percentages *)

Lemma digits_of_app s : forall r n v,
  Forall (fun c => isdigit c = true) s -> not_digit r ->
  digits_of (s ++ r) n v = (n + Z.of_nat (length s), scan_digits s v, r).
Proof.
  induction s as [|c s IH]; intros r n v Hs Hr.
  - cbn [app length scan_digits]. replace (n + Z.of_nat 0) with n by lia. destruct r as [|c r]; [done|]. cbn in Hr |- *. by rewrite Hr.
  - apply Forall_cons in Hs as [Hc Hs]. cbn [app digits_of scan_digits length]. rewrite Hc, IH by done. f_equal. f_equal. lia.
Qed.

Lemma dec_digits_of n r k v :
  0 <= n < 10 ^ 20 -> not_digit r -> v = 0 \/ n < 10 ->
  exists m, 0 < m /\ digits_of (dec n ++ r) k v = (k + m, (if v =? 0 then 0 else 10 * v) + n, r) /\ (n < 10 -> m = 1).
Proof.
  intros Hn Hr Hv. pose proof (dec_digits_ok 20 n [] ltac:(lia) ltac:(constructor)) as Hd. fold (dec n) in Hd.
  destruct (dec_head n [] ltac:(lia)) as (c & t & E & Hc). rewrite app_nil_r in E.
  exists (Z.of_nat (length (dec n))). split; [rewrite E; cbn [length]; lia|]. rewrite digits_of_app by done.
  destruct (Z.ltb_spec n 10) as [Hs | Hs].
  - assert (Ed : dec n = [48 + n]).
    { unfold dec. cbn [dec_digits]. rewrite (proj2 (Z.ltb_lt n 10)) by lia. do 2 f_equal. lia. }
    rewrite Ed. split; [|done]. f_equal. f_equal. cbn [scan_digits].
    replace (isdigit (48 + n)) with true by (symmetry; apply andb_true_iff; rewrite !Z.leb_le; lia).
    destruct (Z.eqb_spec v 0); lia.
  - destruct Hv as [-> | Hv]; [|lia]. split; [|lia]. f_equal. f_equal. unfold dec. rewrite scan_dec_digits; [done|done|lia].
Qed.

Lemma tenths_sign x : (Qnum x < 0 -> tenths x <= 0) /\ (0 <= Qnum x -> 0 <= tenths x).
Proof.
  unfold tenths. pose proof (Z.div_mod (10 * Qnum x) (Zpos (Qden x)) ltac:(lia)) as E.
  pose proof (Z.mod_pos_bound (10 * Qnum x) (Zpos (Qden x)) ltac:(lia)) as Hb.
  set (q := 10 * Qnum x / Zpos (Qden x)) in *. set (r := (10 * Qnum x) mod Zpos (Qden x)) in *. set (d := Zpos (Qden x)) in *.
  assert (Hd : 0 < d) by (unfold d; lia). split; intros Hs.
  - assert (q < 0) by nia. repeat case_match; lia.
  - assert (0 <= q) by nia. repeat case_match; lia.
Qed.

Definition round1 (x : Q) : Q := Qred (tenths x # 10).

Lemma atof_fmt1 x r :
  Z.abs (tenths x) < 10 ^ 18 -> match r with c :: _ => isdigit c = false /\ c <> 101 /\ c <> 69 | [] => True end ->
  atof (fmt1 x ++ r) = round1 x.
Proof.
  intros Hx Hr. destruct (tenths_sign x) as [Hneg Hpos]. unfold fmt1. set (t := tenths x) in *.
  assert (Hnd : not_digit r) by (destruct r; [done|apply Hr]).
  assert (He : exponent r = 0).
  { destruct r as [|c r]; [done|]. destruct Hr as (_ & H1 & H2). cbn. by rewrite (proj2 (Z.eqb_neq c 101)), (proj2 (Z.eqb_neq c 69)). }
  destruct (dec_head (Z.abs t / 10) ([46] ++ dec (Z.abs t mod 10) ++ r) ltac:(lia)) as (c & u & E & Hc).
  destruct (isdigit_facts c Hc) as (Hsp & _ & H43 & H45 & _).
  destruct (dec_digits_of (Z.abs t / 10) (46 :: dec (Z.abs t mod 10) ++ r) 0 0 ltac:(lia) ltac:(done) ltac:(by left))
    as (m1 & Hm1 & E1 & _).
  destruct (dec_digits_of (Z.abs t mod 10) r 0 (Z.abs t / 10) ltac:(lia) Hnd ltac:(right; lia)) as (m2 & Hm2 & E2 & Hm2').
  assert (Hv : (if Z.abs t / 10 =? 0 then 0 else 10 * (Z.abs t / 10)) + Z.abs t mod 10 = Z.abs t).
  { destruct (Z.eqb_spec (Z.abs t / 10) 0); lia. }
  change ((if 0 =? 0 then 0 else 10 * 0) + Z.abs t / 10) with (0 + Z.abs t / 10) in E1. rewrite !Z.add_0_l in E1.
  rewrite Hv in E2. rewrite Hm2' in E2 by lia.
  assert (Hmain : forall sign, sign * Z.abs t = t ->
    (let '(n, v, s) := digits_of (dec (Z.abs t / 10) ++ [46] ++ dec (Z.abs t mod 10) ++ r) 0 0 in
     let '(k, v, s) := match s with 46 :: s => digits_of s 0 v | s => (0, v, s) end in
     if n + k =? 0 then 0%Q else scale10 (sign * v) (exponent s - k)) = round1 x).
  { intros sign Hs. cbn [app]. rewrite E1. rewrite E2. rewrite (proj2 (Z.eqb_neq _ 0)) by lia.
    rewrite He, Hs. done. }
  unfold atof. rewrite <- !app_assoc. destruct (Z.ltb_spec (Qnum x) 0) as [Hn | Hn].
  - apply (Hmain (-1)). lia.
  - rewrite <- (Hmain 1) by lia. cbn [app] in E |- *. rewrite E. cbn [skip_spaces]. rewrite Hsp.
    destruct c as [|p|p]; try done. do 6 (destruct p as [p|p|]; try done).
Qed.

Lemma float_at k l x r d :
  k ∈ reserved -> cdoc l -> find_key k l = Some (lit ": " :: Lit (fmt1 x) :: r) ->
  match render r with c :: _ => isdigit c = false /\ c <> 101 /\ c <> 69 | [] => True end -> Z.abs (tenths x) < 10 ^ 18 ->
  extract_json_float (render l) k d = round1 x.
Proof.
  intros Hk Hd Hf Hr Hx. pose proof reserved_short as HR. unfold extract_json_float.
  rewrite json_value_render; [|by eapply Forall_forall in HR|apply Hd].
  rewrite (doc_find reserved), Hf by done. cbn [fmap option_fmap option_map]. rewrite render_cons, skip_blanks_lit by (repeat constructor).
  rewrite render_cons. cbn [tok_text]. rewrite <- (atof_fmt1 x (render r)) by done. f_equal. unfold fmt1. rewrite <- !app_assoc.
  destruct (Qnum x <? 0); [done|]. cbn [app].
  destruct (dec_head (Z.abs (tenths x) / 10) (46 :: dec (Z.abs (tenths x) mod 10) ++ render r) ltac:(lia)) as (c & u & E & Hc).
  rewrite E. destruct (isdigit_facts c Hc) as (_ & Hb & _). cbn [skip_json_blanks]. by rewrite Hb.
Qed.

(** *** Reading the blocks back *)

(** A text fits into the buffers it goes through. *)
Ltac fits :=
  first
    [ eassumption
    | lazymatch goal with |- Z.of_nat (length ?s) < _ => eapply txt_le; [known_text s|unfold MAX_IFNAME_LEN, MAX_LABEL_LEN, MAX_PATH_LEN; lia] end
    | lazymatch goal with |- Z.of_nat (length (or_else_text ?s _)) < _ =>
        eapply txt_le; [eapply txt_or; [known_text s|apply txt_bool; vm_compute; reflexivity]|lia] end
    | apply Z.ltb_lt; vm_compute; reflexivity
    | eapply txt_le; [eassumption|lia]
    | apply or_num_u32; [assumption|lia] | apply or_num_u16; [assumption|lia] | apply or_num_u8; [assumption|lia] ].
Ltac one_field := reader; fits.

Section Scalars.
Context (l rest : list tok) (Hd : cdoc l).

Lemma sticky_back s :
  sticky_ok s -> find_key "sticky" l = find_key "sticky" (sticky_tokens s ++ rest) -> load_sticky (render l) = s.
Proof. unfold sticky_ok. intros Hs Hf. unfold load_sticky. enter Hd Hf. destruct s. f_equal; one_field. Qed.

Definition reload_prober (p : prober_config_t) : prober_config_t :=
  ProberConfig (pc_interval_ms p) (pc_timeout_ms p) (pc_loss_window p) (pc_max_acceptable_rtt_ms p)
    (round1 (pc_max_acceptable_loss_pct p)) (pc_dynamic_latency_steering p).
Lemma prober_back p :
  prober_ok p -> find_key "prober" l = find_key "prober" (prober_tokens p ++ rest) -> load_prober (render l) = reload_prober p.
Proof.
  intros (H1 & H2 & H3 & H4 & H5) Hf. unfold load_prober. enter Hd Hf. unfold reload_prober. f_equal; try one_field.
  eapply float_at; [is_key|done|reflexivity| |done]. done.
Qed.

Lemma app_steering_back a :
  app_steering_ok a -> find_key "app_steering" l = find_key "app_steering" (app_steering_tokens a ++ rest) ->
  load_app_steering (render l) = a.
Proof. intros (H1 & H2) Hf. unfold load_app_steering. enter Hd Hf. destruct a. f_equal; one_field. Qed.

Lemma telegram_back t :
  telegram_ok t -> find_key "telegram" l = find_key "telegram" (telegram_tokens t ++ rest) -> load_telegram (render l) = t.
Proof. intros (H1 & H2) Hf. unfold load_telegram. enter Hd Hf. destruct t. f_equal; one_field. Qed.

Lemma web_back w : web_ok w -> find_key "web" l = find_key "web" (web_tokens w ++ rest) -> load_web (render l) = w.
Proof. intros (H1 & H2) Hf. unfold load_web. enter Hd Hf. destruct w. f_equal; one_field. Qed.

Lemma auth_back a : auth_ok a -> find_key "auth" l = find_key "auth" (auth_tokens a ++ rest) -> load_auth (render l) = a.
Proof. intros (H1 & H2 & H3) Hf. unfold load_auth. enter Hd Hf. destruct a. f_equal; one_field. Qed.

Lemma nat46_back n : nat46_ok n -> find_key "nat46" l = find_key "nat46" (nat46_tokens n ++ rest) -> load_nat46 (render l) = n.
Proof. intros (H1 & H2 & H3) Hf. unfold load_nat46. enter Hd Hf. destruct n. f_equal; one_field. Qed.

Lemma dpi_back d : dpi_ok d -> find_key "dpi" l = find_key "dpi" (dpi_tokens d ++ rest) -> load_dpi (render l) = d.
Proof. unfold dpi_ok. intros H1 Hf. unfold load_dpi. enter Hd Hf. destruct d. f_equal; one_field. Qed.

Definition reload_stealth (s : stealth_config_t) : stealth_config_t :=
  StealthConfig (st_enabled s) (or_num (st_ttl_value s) 65) (st_cloak_traceroute s) (st_block_wan_probes s).
Lemma stealth_back s :
  stealth_ok s -> find_key "stealth" l = find_key "stealth" (stealth_tokens s ++ rest) -> load_stealth (render l) = reload_stealth s.
Proof. unfold stealth_ok. intros H1 Hf. unfold load_stealth. enter Hd Hf. unfold reload_stealth. f_equal; one_field. Qed.

End Scalars.
