(* ===== verification/ConfigLan.v ===== *)
(** * What is read back of the LAN *)

From S2P Require Import Prelude Fluxwan Ipv4 CLib Json JsonText ProxyUri ConfigLoad ConfigSave JsonBlocks ConfigSpec.

(** ** Addresses in the file *)

Lemma plain_digits s : Forall (fun c => isdigit c = true) s -> plain s.
Proof.
  intros H. eapply Forall_impl; [exact H|]. intros c Hc. apply key_char_plain. unfold key_char. unfold isdigit in Hc.
  by rewrite Hc, !orb_true_r.
Qed.

Lemma dot_not_reserved s : 46 ∈ s -> s ∉ reserved.
Proof.
  intros H Hs. pose proof reserved_short as HR. eapply Forall_forall in HR as [[_ Hk] _]; [|exact Hs].
  eapply Forall_forall in Hk; [|exact H]. discriminate.
Qed.

Lemma txt_ip ip : is_u32 ip -> txt 16 (ip_to_str ip).
Proof.
  intros H. destruct (ip_to_str_shape ip H) as [_ Hl]. split_and!; [| |lia].
  - unfold ip_to_str. rewrite !plain_app. unfold is_u32 in H.
    split_and!; try (apply plain_dec; lia); by apply plain_bool.
  - apply dot_not_reserved. unfold ip_to_str. rewrite !elem_of_app. right. left. by constructor.
Qed.

Lemma ip_zero_text ip : is_u32 ip -> ip <> 0 -> str_eq (ip_to_str ip) "0.0.0.0" = false /\ empty (ip_to_str ip) = false.
Proof.
  intros H Hne. pose proof (ip_text_roundtrip_lemma ip H) as E. split; apply bool_decide_eq_false; intros Hs; rewrite Hs in E.
  - change (str_to_ip "0.0.0.0") with 0 in E. congruence.
  - change (str_to_ip []) with 0 in E. congruence.
Qed.

Definition ip_or (ip : Z) (d : string) : Z := if ip =? 0 then str_to_ip d else ip.
Lemma addr_at k l r ip (d : string) :
  k ∈ reserved -> cdoc l -> find_key k l = Some (lit ": " :: Str (addr_or_default ip d) :: r) ->
  is_u32 (ip_or ip d) -> ip_or ip d <> 0 -> addr_or (render l) k d = ip_or ip d.
Proof.
  intros Hk Hd Hf Hu Hne. change (addr_or_default ip d) with (ip_to_str (ip_or ip d)) in Hf. unfold addr_or.
  erewrite text_at; [|exact Hk|exact Hd|exact Hf|eapply txt_le; [by apply txt_ip|lia]].
  destruct (ip_zero_text _ Hu Hne) as [-> ->]. by apply ip_text_roundtrip_lemma.
Qed.

#[export] Hint Extern 2 (good_value _ (jstr (ip_to_str _))) => (eapply value_text, txt_ip; assumption) : cfg.

(** The start of a line that another call ends. *)
Lemma good_line K a k b :
  plain a -> key_okb k = true -> memb k K = true -> plain b -> cgood K [Lit a; Key k; Lit (58 :: b)].
Proof.
  intros Ha Hk Hm Hb. pose proof (key_ok_bool _ Hk) as Hko.
  assert (Hf : flat [Lit a; Key k; Lit (58 :: b)]) by (repeat (constructor; [done|]); constructor; [by constructor|constructor]).
  split; [| |by apply flat_bracket_neutral|by apply flat_brace_neutral|by apply flat_no_char].
  - apply wf_block_lit; [by apply plain_no_char|]. apply wf_block_key; [done..|].
    apply wf_block_lit; [|apply wf_block_nil]. constructor; [done|by apply plain_no_char].
  - apply memb_elem in Hm. by repeat (constructor; [done|]).
Qed.

(** ** Arrays of flat objects *)

Lemma flat_if (b : bool) (x y : list tok) : flat x -> flat y -> flat (if b then x else y).
Proof. by destruct b. Qed.
Ltac flat_lines :=
  repeat first
    [ apply Forall_nil_2
    | apply flat_if
    | apply flat_fld; [reflexivity|reflexivity|apply (good_value_flat reserved); solve [auto with cfg]|solve [auto with cfg]]
    | apply Forall_app_2 ].

(** The elements of an array, each read back by itself. *)
Lemma objects_back {A B} (K : list cstring) close max (f : Z -> cstring -> B) ind (fields : A -> list tok) (g : A -> B) (ok : A -> Prop)
    xs k l b c rest :
  (forall x, ok x -> cgood K (fields x)) -> (forall x, ok x -> closes close ind (fields x)) ->
  (forall i x, ok x -> f i (render (obj_toks ind (fields x))) = g x) ->
  Forall ok xs -> key_ok k -> plain (bytes_of_string ind) -> plain b -> plain c -> (length xs <= Z.to_nat max)%nat ->
  render l = [58; 32; 91] ++ (b ++ render (comma_list (fun x => jobj ind (fields x)) xs) ++ c) ++ 93 :: rest ->
  load_objects close max f (Some (render (Key k :: l))) = g <$> xs.
Proof.
  intros Hg Hc Hf Hok Hk Hi Hb Hcc Hlen Hl. rewrite (load_objects_text close max f ind fields xs k l b c rest); [|done..| | |exact Hl].
  - apply list_eq. intros i. rewrite list_lookup_imap, list_lookup_fmap. destruct (xs !! i) as [x|] eqn:Hx; [|done].
    cbn. f_equal. apply Hf. by eapply Forall_lookup_1 in Hok.
  - eapply Forall_impl; [exact Hok|]. done.
  - apply (good_brackets reserved K). apply good_comma. intros x sep Hx Hs. apply good_jobj; [done..|]. apply Hg.
    by eapply Forall_forall in Hok.
Qed.

Lemma flat_closes ind fs : plain (bytes_of_string ind) -> flat fs -> closes first_brace ind fs.
Proof. intros Hi Hf. apply closes_first; [done|]. by apply flat_no_char. Qed.

(** ** Policy routes, leases and limits *)

Definition lan_keys : list cstring := map bytes_of_string
  ["lan"; "interface"; "ip"; "netmask"; "dhcp_enabled"; "dhcp_start"; "dhcp_end"; "dhcp_lease_time"; "policy_routes"; "subnet";
   "gateway_ip"; "target_group"; "description"; "enabled"; "static_leases"; "mac"; "hostname"; "rate_limits"; "max_down_mbps";
   "max_up_mbps"; "qos"; "algorithm"; "bandwidth_down_mbps"; "bandwidth_up_mbps"; "diffserv4"; "dns"; "adblock_enabled";
   "fast_dns_enabled"; "smart_ipv6_bonding"; "primary_dns"; "secondary_dns"]%string.

Definition policy_ok (pr : policy_route_t) : Prop :=
  txt 32 (pr_subnet_str pr) /\ txt 32 (pr_gateway_ip_str pr) /\ txt 32 (pr_target_group pr) /\ txt 64 (pr_description pr).
Definition reload_policy (pr : policy_route_t) : policy_route_t :=
  let '(ip, mask, prefix) := parse_cidr_subnet (pr_subnet_str pr) in
  PolicyRoute (pr_subnet_str pr) ip mask prefix (pr_gateway_ip_str pr) (str_to_ip (pr_gateway_ip_str pr)) (pr_target_group pr) 0
    (pr_description pr) (pr_enabled pr).

Definition policy_keys : list cstring := map bytes_of_string ["policy_routes"; "subnet"; "gateway_ip"; "target_group"; "description"; "enabled"]%string.
Lemma policy_good pr : policy_ok pr -> cgood policy_keys (policy_fields pr).
Proof. intros (H1 & H2 & H3 & H4). unfold policy_fields. good_lines. Qed.
Lemma policy_flat pr : policy_ok pr -> flat (policy_fields pr).
Proof. intros (H1 & H2 & H3 & H4). unfold policy_fields. flat_lines. Qed.
Lemma policy_back i pr :
  policy_ok pr -> load_policy_route i (render (obj_toks "      " (policy_fields pr))) = reload_policy pr.
Proof.
  intros Hok. assert (Hd : cdoc (obj_toks "      " (policy_fields pr))) by (eapply obj_toks_doc; [by apply policy_good|by apply plain_bool]).
  destruct Hok as (H1 & H2 & H3 & H4). unfold load_policy_route, reload_policy.
  erewrite !text_at; [|is_key|exact Hd|reflexivity|fits|is_key|exact Hd|reflexivity|fits].
  destruct (parse_cidr_subnet (pr_subnet_str pr)) as [[ip mask] prefix]. unfold safe_str_copy.
  rewrite !trunc_fits by fits. f_equal; one_field.
Qed.

Definition lease_ok (sl : static_lease_t) : Prop := txt 18 (sl_mac_str sl) /\ is_u32 (sl_ip_addr sl) /\ txt 64 (sl_hostname sl).
Definition reload_lease (sl : static_lease_t) : static_lease_t :=
  StaticLease (sl_mac_str sl) (default (replicate 6 0) (parse_mac_str (sl_mac_str sl))) (sl_ip_addr sl) (sl_hostname sl) (sl_enabled sl).

Definition lease_keys : list cstring := map bytes_of_string ["static_leases"; "mac"; "ip"; "hostname"; "enabled"]%string.
Lemma lease_good sl : lease_ok sl -> cgood lease_keys (lease_fields sl).
Proof. intros (H1 & H2 & H3). unfold lease_fields. good_lines. Qed.
Lemma lease_flat sl : lease_ok sl -> flat (lease_fields sl).
Proof. intros (H1 & H2 & H3). unfold lease_fields. flat_lines. Qed.
Lemma lease_back i sl : lease_ok sl -> load_static_lease i (render (obj_toks "      " (lease_fields sl))) = reload_lease sl.
Proof.
  intros Hok. assert (Hd : cdoc (obj_toks "      " (lease_fields sl))) by (eapply obj_toks_doc; [by apply lease_good|by apply plain_bool]).
  destruct Hok as (H1 & H2 & H3). pose proof (txt_ip _ H2) as Hip. unfold load_static_lease, reload_lease.
  rewrite (read_text_at "mac" _ ltac:(is_key) Hd (sl_mac_str sl) _ 64 ltac:(reflexivity) ltac:(fits)).
  rewrite (read_text_at "hostname" _ ltac:(is_key) Hd (sl_hostname sl) _ 64 ltac:(reflexivity) ltac:(fits)).
  rewrite (read_text_at "ip" _ ltac:(is_key) Hd (ip_to_str (sl_ip_addr sl)) _ 64 ltac:(reflexivity) ltac:(fits)).
  unfold safe_str_copy. rewrite !trunc_fits by fits. rewrite ip_text_roundtrip_lemma by done. f_equal. one_field.
Qed.

Definition limit_ok (rl : rate_limit_t) : Prop :=
  txt 32 (rl_ip_str rl) /\ is_u32 (rl_max_down_mbps rl) /\ is_u32 (rl_max_up_mbps rl) /\ txt 64 (rl_description rl).
Definition reload_limit (rl : rate_limit_t) : rate_limit_t :=
  RateLimit (rl_ip_str rl) (str_to_ip (rl_ip_str rl)) (rl_max_down_mbps rl) (rl_max_up_mbps rl) (rl_description rl) (rl_enabled rl).

Definition limit_keys : list cstring := map bytes_of_string ["rate_limits"; "ip"; "max_down_mbps"; "max_up_mbps"; "description"; "enabled"]%string.
Lemma limit_good rl : limit_ok rl -> cgood limit_keys (limit_fields rl).
Proof. intros (H1 & H2 & H3 & H4). unfold limit_fields. good_lines. Qed.
Lemma limit_flat rl : limit_ok rl -> flat (limit_fields rl).
Proof. intros (H1 & H2 & H3 & H4). unfold limit_fields. flat_lines. Qed.
Lemma limit_back i rl : limit_ok rl -> load_rate_limit i (render (obj_toks "      " (limit_fields rl))) = reload_limit rl.
Proof.
  intros Hok. assert (Hd : cdoc (obj_toks "      " (limit_fields rl))) by (eapply obj_toks_doc; [by apply limit_good|by apply plain_bool]).
  destruct Hok as (H1 & H2 & H3 & H4). unfold load_rate_limit, reload_limit.
  rewrite (read_text_at "ip" _ ltac:(is_key) Hd (rl_ip_str rl) _ 64 ltac:(reflexivity) ltac:(fits)).
  rewrite (read_text_at "description" _ ltac:(is_key) Hd (rl_description rl) _ 64 ltac:(reflexivity) ltac:(fits)).
  unfold safe_str_copy. rewrite !trunc_fits by fits. f_equal; one_field.
Qed.

(** ** The optional arrays *)

Section LanArray.
Context {A B : Type} (K : list cstring) (key : string) (f : Z -> cstring -> B) (fields : A -> list tok) (g : A -> B) (ok : A -> Prop) (max : Z).
Context (Hkey : memb key K = true) (Hres : bytes_of_string key ∈ reserved) (Hko : key_okb key = true).
Context (Hgood : forall x, ok x -> cgood K (fields x)) (Hflat : forall x, ok x -> flat (fields x)).
Context (Hback : forall i x, ok x -> f i (render (obj_toks "      " (fields x))) = g x).
Abbreviation objs := (fun x => jobj "      " (fields x)).

Lemma lan_objs_good xs : Forall ok xs -> cgood K (comma_list objs xs).
Proof.
  intros Hok. apply good_comma. intros x sep Hx Hs. apply good_jobj; [by apply plain_bool|done|]. apply Hgood.
  by eapply Forall_forall in Hok.
Qed.
Lemma lan_array_good xs : Forall ok xs -> cgood K (lan_array key objs xs).
Proof.
  intros Hok. unfold lan_array. destruct xs as [|x xs]; [apply good_nil|]. set (ys := x :: xs) in *.
  change ([ln ","; lit "    "; Key key; ln ": ["] ++ comma_list objs ys ++ [lit "    ]"])
    with ([ln ","] ++ [lit "    "; Key key; Lit (58 :: 32 :: 91 :: [10])] ++ comma_list objs ys ++ [Lit (bytes_of_string "    " ++ 93 :: [])]).
  apply good_app; [apply good_lit; by apply plain_bool|].
  apply good_array; [by apply plain_bool|done..|by apply plain_bool|by apply plain_bool|constructor|]. by apply lan_objs_good.
Qed.

Lemma lan_array_back l T xs :
  cdoc l -> Forall ok xs -> (length xs <= Z.to_nat max)%nat ->
  find_key key l = find_key key (lan_array key objs xs ++ T) -> find_key key T = None ->
  load_objects first_brace max f (strstr (render l) (quoted key)) = g <$> xs.
Proof.
  intros Hd Hok Hlen Hf HT. destruct xs as [|x xs].
  - rewrite strstr_absent; [done|done|done|]. rewrite Hf. exact HT.
  - set (ys := x :: xs) in *.
    assert (Hf' : find_key key l = Some (ln ": [" :: (comma_list objs ys ++ [lit "    ]"]) ++ T)).
    { rewrite Hf. unfold lan_array, ys at 1. fold ys. cbn [app find_key]. by rewrite bool_decide_true. }
    erewrite strstr_at; [|done|exact Hd|exact Hf'].
    eapply (objects_back K _ _ _ "      " fields g ok ys _ _ [10] (bytes_of_string "    ") (render T)); try done.
    + intros y Hy. apply flat_closes; [by apply plain_bool|by apply Hflat].
    + by apply key_ok_bool.
    + by apply plain_bool.
    + by apply plain_bool.
    + by apply plain_bool.
    + rewrite render_cons, !render_app. cbn [tok_text ln]. unfold render at 2. cbn [fmap list_fmap concat tok_text lit].
      rewrite app_nil_r, <- !app_assoc. done.
Qed.

End LanArray.

(** ** Queues and names *)

Definition qos_ok (q : qos_config_t) : Prop :=
  txt 16 (qos_algorithm q) /\ is_u32 (qos_bandwidth_down_mbps q) /\ is_u32 (qos_bandwidth_up_mbps q).
Definition reload_qos (q : qos_config_t) : qos_config_t :=
  QosConfig (qos_enabled q) (or_else_text (qos_algorithm q) "cake") (qos_bandwidth_down_mbps q) (qos_bandwidth_up_mbps q) (qos_diffserv4 q).
Definition dns_ok (d : dns_features_t) : Prop := txt 32 (dns_primary_dns d) /\ txt 32 (dns_secondary_dns d).
Definition reload_dns (d : dns_features_t) : dns_features_t :=
  DnsFeatures (dns_adblock_enabled d) (dns_fast_dns_enabled d) (or_else_text (dns_primary_dns d) "1.1.1.1")
    (or_else_text (dns_secondary_dns d) "8.8.8.8") (dns_smart_ipv6_bonding d).

Lemma qos_good q : qos_ok q -> cgood lan_keys (qos_tokens q).
Proof. intros (H1 & H2 & H3). good_block. Qed.
Lemma dns_good d : dns_ok d -> cgood lan_keys (dns_tokens d).
Proof. intros (H1 & H2). good_block. Qed.

Lemma or_else_nonempty s (d : string) : d <> EmptyString -> empty (or_else_text s d) = false.
Proof.
  intros Hd. unfold or_else_text. destruct (empty s) eqn:E; [|done]. destruct d; [done|]. done.
Qed.

Section Lan.
Context (l rest : list tok) (Hd : cdoc l).

Lemma qos_back q :
  qos_ok q -> find_key "qos" l = find_key "qos" (qos_tokens q ++ rest) -> load_qos (strstr (render l) (quoted "qos")) = reload_qos q.
Proof.
  intros (H1 & H2 & H3) Hf. enter Hd Hf. cbn [load_qos]. unfold reload_qos.
  erewrite read_text_at; [|is_key|eassumption|reflexivity|fits].
  rewrite or_else_nonempty by done. unfold safe_str_copy. rewrite trunc_fits by fits. f_equal; one_field.
Qed.

Lemma dns_back d :
  dns_ok d -> find_key "dns" l = find_key "dns" (dns_tokens d ++ rest) -> load_dns (strstr (render l) (quoted "dns")) = reload_dns d.
Proof.
  intros (H1 & H2) Hf. enter Hd Hf. cbn [load_dns]. unfold reload_dns.
  rewrite (read_text_at "primary_dns" _ ltac:(is_key) H (or_else_text (dns_primary_dns d) "1.1.1.1") _ 32 ltac:(reflexivity) ltac:(fits)).
  rewrite (read_text_at "secondary_dns" _ ltac:(is_key) H (or_else_text (dns_secondary_dns d) "8.8.8.8") _ 32 ltac:(reflexivity) ltac:(fits)).
  rewrite !or_else_nonempty by done. unfold safe_str_copy. rewrite !trunc_fits by fits. f_equal; one_field.
Qed.

End Lan.

(** ** The block *)

Record lan_ok (lan : lan_config_t) : Prop := LanOk {
  lo_name : txt 32 (lan_name lan);
  lo_ip : is_u32 (lan_ip_addr lan);
  lo_netmask : is_u32 (lan_netmask lan);
  lo_start : is_u32 (lan_dhcp_start lan);
  lo_end : is_u32 (lan_dhcp_end lan);
  lo_lease : is_u32 (lan_dhcp_lease_time lan);
  lo_policies : Forall policy_ok (lan_policy_routes lan) /\ Z.of_nat (length (lan_policy_routes lan)) <= MAX_POLICY_ROUTES;
  lo_leases : Forall lease_ok (lan_static_leases lan) /\ Z.of_nat (length (lan_static_leases lan)) <= MAX_STATIC_LEASES;
  lo_limits : Forall limit_ok (lan_rate_limits lan) /\ Z.of_nat (length (lan_rate_limits lan)) <= MAX_RATE_LIMITS;
  lo_qos : qos_ok (lan_qos lan);
  lo_dns : dns_ok (lan_dns lan)
}.

Definition reload_lan (lan : lan_config_t) : lan_config_t :=
  LanConfig (or_else_text (lan_name lan) "eth0") (ip_or (lan_ip_addr lan) "192.168.90.1") (ip_or (lan_netmask lan) "255.255.255.0")
    (lan_dhcp_enabled lan) (ip_or (lan_dhcp_start lan) "192.168.90.100") (ip_or (lan_dhcp_end lan) "192.168.90.200")
    (lan_dhcp_lease_time lan) 0 (reload_policy <$> lan_policy_routes lan) (reload_lease <$> lan_static_leases lan)
    (reload_limit <$> lan_rate_limits lan) (reload_qos (lan_qos lan)) (reload_dns (lan_dns lan)).

Lemma ip_or_ok ip (d : string) : is_u32 ip -> is_u32 (str_to_ip d) -> str_to_ip d <> 0 -> is_u32 (ip_or ip d) /\ ip_or ip d <> 0.
Proof. intros H1 H2 H3. unfold ip_or. by destruct (Z.eqb_spec ip 0). Qed.

#[export] Hint Extern 2 (good_value _ (jstr (addr_or_default _ _))) =>
  (eapply value_text, txt_ip; apply ip_or_ok; [assumption|by_eval|by_eval]) : cfg.

Lemma lan_name_text lan : txt 32 (lan_name lan) -> safe_str_copy (or_else_text (lan_name lan) "eth0") 32 = or_else_text (lan_name lan) "eth0".
Proof. intros H. apply trunc_fits. fits. Qed.

Lemma lan_head_good lan : lan_ok lan -> cgood lan_keys (lan_head lan).
Proof.
  intros []. unfold lan_head. rewrite lan_name_text by done. good_lines.
  - apply good_line; [by apply plain_bool|done|by vm_compute|by apply plain_bool].
  - apply good_lit, plain_dec. unfold is_u32 in *. lia.
Qed.

Lemma policies_good lan : lan_ok lan -> cgood policy_keys (lan_array "policy_routes" policy_tokens (lan_policy_routes lan)).
Proof. intros []. apply (lan_array_good policy_keys "policy_routes" policy_fields policy_ok); [by vm_compute|done|apply policy_good|tauto]. Qed.
Lemma leases_good lan : lan_ok lan -> cgood lease_keys (lan_array "static_leases" lease_tokens (lan_static_leases lan)).
Proof. intros []. apply (lan_array_good lease_keys "static_leases" lease_fields lease_ok); [by vm_compute|done|apply lease_good|tauto]. Qed.
Lemma limits_good lan : lan_ok lan -> cgood limit_keys (lan_array "rate_limits" limit_tokens (lan_rate_limits lan)).
Proof. intros []. apply (lan_array_good limit_keys "rate_limits" limit_fields limit_ok); [by vm_compute|done|apply limit_good|tauto]. Qed.

#[export] Hint Resolve lan_head_good policies_good leases_good limits_good : cfg.
#[export] Hint Extern 5 (cgood lan_keys _) => (eapply good_weaken; [|solve [auto with cfg]]; vm_compute; reflexivity) : cfg.

Lemma lan_good lan : lan_ok lan -> cgood lan_keys (lan_tokens lan).
Proof.
  intros Hok. unfold lan_tokens. apply good_jblock; [by apply plain_bool|done|by vm_compute|auto with cfg|].
  repeat (apply good_app; [solve [auto with cfg]|]).
  apply good_app; [apply good_lit; by apply plain_bool|]. destruct Hok. apply good_app; [by apply qos_good|by apply dns_good].
Qed.

(** What follows the lease time in the file. *)
Definition lan_tail (lan : lan_config_t) (rest : list tok) : list tok :=
  lan_array "policy_routes" policy_tokens (lan_policy_routes lan) ++
  lan_array "static_leases" lease_tokens (lan_static_leases lan) ++
  lan_array "rate_limits" limit_tokens (lan_rate_limits lan) ++
  [ln ","] ++ qos_tokens (lan_qos lan) ++ dns_tokens (lan_dns lan) ++ ln "  }," :: rest.

Lemma lan_found lan rest :
  find_key "lan" (lan_tokens lan ++ rest) = Some (ln ": {" :: lan_head lan ++ lan_tail lan rest).
Proof.
  unfold lan_tokens, jblock. cbn [app find_key lit]. change (bool_decide (bytes_of_string "lan" = bytes_of_string "lan")) with true.
  cbv iota. unfold lan_tail. by rewrite <- !app_assoc.
Qed.

Lemma lan_tail_follows lan rest : follows (lan_tail lan rest).
Proof.
  unfold lan_tail, lan_array. destruct (lan_policy_routes lan), (lan_static_leases lan), (lan_rate_limits lan); follow.
Qed.

(** The optional arrays are not in the rest of the file. *)
Definition no_lan_arrays (rest : list tok) : Prop :=
  find_key "policy_routes" rest = None /\ find_key "static_leases" rest = None /\ find_key "rate_limits" rest = None.

Section LanBlock.
Context (lan : lan_config_t) (rest : list tok) (Hok : lan_ok lan).
Abbreviation inside := (Key "lan" :: ln ": {" :: lan_head lan ++ lan_tail lan rest).

Lemma lan_inside k : memb k (map bytes_of_string ["lan"; "interface"; "ip"; "netmask"; "dhcp_enabled"; "dhcp_start"; "dhcp_end"; "dhcp_lease_time"]%string) = false ->
  find_key k inside = find_key k (lan_tail lan rest).
Proof.
  intros Hk. assert (Hh : find_key k (lan_head lan) = None).
  { apply memb_not_elem in Hk. repeat setoid_rewrite elem_of_cons in Hk.
    unfold lan_head, fld, jstr, jbool, jnum, lit, ln. cbn [app find_key].
    repeat (rewrite bool_decide_false by (intros E; apply Hk; rewrite <- E; tauto)). done. }
  cbn [find_key ln]. rewrite bool_decide_false.
  - by rewrite find_key_app, Hh.
  - intros E. rewrite <- E in Hk. discriminate.
Qed.

Lemma lan_skip k :
  memb k policy_keys = false -> memb k lease_keys = false -> memb k limit_keys = false ->
  find_key k (lan_tail lan rest) = find_key k ([ln ","] ++ qos_tokens (lan_qos lan) ++ dns_tokens (lan_dns lan) ++ ln "  }," :: rest).
Proof.
  intros H1 H2 H3. unfold lan_tail. rewrite (good_skip reserved policy_keys); [|by apply policies_good|done].
  rewrite (good_skip reserved lease_keys); [|by apply leases_good|done].
  by rewrite (good_skip reserved limit_keys); [|by apply limits_good|done].
Qed.

Context (Hd : cdoc inside) (Hrest : no_lan_arrays rest).

Lemma policies_back :
  load_objects first_brace MAX_POLICY_ROUTES load_policy_route (strstr (render inside) (quoted "policy_routes"))
  = reload_policy <$> lan_policy_routes lan.
Proof.
  destruct (lo_policies _ Hok) as [P1 P2].
  eapply (lan_array_back policy_keys "policy_routes" load_policy_route policy_fields reload_policy policy_ok);
    [is_key|done|apply policy_good|apply policy_flat|apply policy_back|exact Hd|done|lia|by rewrite lan_inside by reflexivity|].
  rewrite (good_skip reserved lease_keys); [|by apply leases_good|done].
  rewrite (good_skip reserved limit_keys); [|by apply limits_good|done]. apply Hrest.
Qed.
Lemma leases_back :
  load_objects first_brace MAX_STATIC_LEASES load_static_lease (strstr (render inside) (quoted "static_leases"))
  = reload_lease <$> lan_static_leases lan.
Proof.
  destruct (lo_leases _ Hok) as [P1 P2].
  eapply (lan_array_back lease_keys "static_leases" load_static_lease lease_fields reload_lease lease_ok);
    [is_key|done|apply lease_good|apply lease_flat|apply lease_back|exact Hd|done|lia| |].
  - rewrite lan_inside by reflexivity. unfold lan_tail. by rewrite (good_skip reserved policy_keys); [|by apply policies_good|done].
  - rewrite (good_skip reserved limit_keys); [|by apply limits_good|done]. apply Hrest.
Qed.
Lemma limits_back :
  load_objects first_brace MAX_RATE_LIMITS load_rate_limit (strstr (render inside) (quoted "rate_limits"))
  = reload_limit <$> lan_rate_limits lan.
Proof.
  destruct (lo_limits _ Hok) as [P1 P2].
  eapply (lan_array_back limit_keys "rate_limits" load_rate_limit limit_fields reload_limit limit_ok);
    [is_key|done|apply limit_good|apply limit_flat|apply limit_back|exact Hd|done|lia| |].
  - rewrite lan_inside by reflexivity. unfold lan_tail. rewrite (good_skip reserved policy_keys); [|by apply policies_good|done].
    by rewrite (good_skip reserved lease_keys); [|by apply leases_good|done].
  - apply Hrest.
Qed.
End LanBlock.

Lemma lan_back lan rest l :
  lan_ok lan -> cdoc l -> find_key "lan" l = find_key "lan" (lan_tokens lan ++ rest) -> no_lan_arrays rest ->
  load_lan (render l) = reload_lan lan.
Proof.
  intros Hok Hd Hf Hr. rewrite lan_found in Hf. unfold load_lan.
  rewrite (strstr_at "lan" l ltac:(is_key) Hd _ Hf). pose proof (find_key_doc _ _ _ _ Hd Hf) as H. clear Hd Hf.
  rewrite policies_back, leases_back, limits_back by done.
  erewrite qos_back; [|exact H|by apply lo_qos|rewrite lan_inside, lan_skip by done; reflexivity].
  erewrite dns_back; [|exact H|by apply lo_dns|rewrite lan_inside, lan_skip by done; reflexivity].
  destruct Hok. unfold reload_lan.
  erewrite read_text_at; [|is_key|exact H|reflexivity|rewrite lan_name_text by done; fits].
  rewrite lan_name_text by done. rewrite or_else_nonempty by done. rewrite lan_name_text by done.
  f_equal; try one_field.
  all: try (eapply u32_at; [is_key|exact H|reflexivity|apply lan_tail_follows|done]).
  all: eapply addr_at; [is_key|exact H|reflexivity|apply ip_or_ok; (done || by_eval)..].
Qed.
