(* ===== verification/ConfigWan.v ===== *)
(** * What is read back of the groups and the uplinks *)

From S2P Require Import Prelude Fluxwan Ipv4 CLib Json JsonText ProxyUri ConfigLoad ConfigSave JsonBlocks ConfigSpec ConfigLan.

(** ** Groups *)

Definition group_keys : list cstring := map bytes_of_string ["groups"; "id"; "name"; "description"; "wans"; "enabled"]%string.

Definition group_ok (g : wan_group_t) : Prop :=
  is_u32 (g_id g) /\ txt 32 (g_name g) /\ txt 64 (g_description g) /\ Forall (txt MAX_LABEL_LEN) (g_wan_names g)
  /\ Z.of_nat (length (g_wan_names g)) <= MAX_GROUP_MEMBERS.
Definition reload_group (g : wan_group_t) : wan_group_t :=
  WanGroup (g_id g) (g_name g) (g_description g) (g_wan_names g) [] 0 ∅ (g_enabled g).

Lemma names_ok g : group_ok g -> Forall (fun n => plain n /\ n ∉ reserved) (g_wan_names g).
Proof. intros (_ & _ & _ & H & _). eapply Forall_impl; [exact H|]. intros n (H1 & H2 & _). done. Qed.
Lemma names_plain g : group_ok g -> Forall plain (g_wan_names g).
Proof. intros (_ & _ & _ & H & _). eapply Forall_impl; [exact H|]. intros n (H1 & H2 & _). done. Qed.

Lemma group_good g : group_ok g -> cgood group_keys (group_fields g).
Proof.
  intros Hok. pose proof (names_ok _ Hok) as Hn. destruct Hok as (H1 & H2 & H3 & H4 & H5). unfold group_fields.
  do 3 (apply good_app; [good_lines|]).
  match goal with |- cgood _ (?a ++ ?b ++ ?c ++ ?d) =>
    replace (a ++ b ++ c ++ d) with ((a ++ b ++ c) ++ d) by (by rewrite <- !app_assoc) end.
  apply good_app; [|good_lines]. apply good_names; [by apply plain_bool|done|by vm_compute|by apply plain_bool|done].
Qed.

Lemma group_closes g : group_ok g -> closes first_brace "    " (group_fields g).
Proof.
  intros Hok. pose proof (names_plain _ Hok) as Hn. destruct Hok as (H1 & H2 & H3 & H4 & H5).
  apply closes_first; [by apply plain_bool|]. unfold group_fields. rewrite !render_app, !no_char_app. split_and!.
  all: try solve [apply flat_no_char; [done..|]; flat_lines].
  - by repeat constructor.
  - by apply names_no_char.
  - by repeat constructor.
Qed.

Lemma member_names_at l g r :
  cdoc l -> group_ok g -> find_key "wans" l = Some (lit ": [" :: names_tokens (g_wan_names g) ++ ln "]," :: r) ->
  member_names (render l) = g_wan_names g.
Proof.
  intros Hd Hok Hf. pose proof (names_plain _ Hok) as Hn. destruct Hok as (_ & _ & _ & Ht & Hlen). unfold member_names.
  erewrite strstr_at; [|is_key|exact Hd|exact Hf]. cbn [mbind option_bind].
  assert (E : render (Key "wans" :: lit ": [" :: names_tokens (g_wan_names g) ++ ln "]," :: r)
              = (quoted "wans" ++ [58; 32] ++ 91 :: render (names_tokens (g_wan_names g))) ++ 93 :: 44 :: 10 :: render r).
  { rewrite !render_cons, render_app, render_cons. cbn [tok_text ln lit]. by rewrite <- !app_assoc. }
  rewrite E. rewrite before_spec.
  2:{ rewrite !no_char_app. split_and!; [by repeat constructor|by repeat constructor|].
      constructor; [done|]. by apply names_no_char. }
  cbn [mbind option_bind]. rewrite strchr_skip by (by repeat constructor). rewrite strchr_skip by (by repeat constructor).
  rewrite strchr_here. rewrite names_strings by done. rewrite take_ge by (unfold MAX_GROUP_MEMBERS in *; lia).
  clear - Ht. induction Ht as [|n ns Hn Hns IH]; [done|]. cbn [fmap list_fmap]. rewrite IH. f_equal. apply trunc_fits. fits.
Qed.

Lemma find_key_names k names : find_key k (names_tokens names) = None.
Proof. induction names as [|n [|m names] IH]; [done..|]. rewrite names_cons. exact IH. Qed.

Lemma group_enabled g :
  find_key "enabled" (obj_toks "    " (group_fields g))
  = Some (lit ": " :: jbool (g_enabled g) ++ [ln ""; Lit (bytes_of_string "    " ++ [125])]).
Proof.
  unfold obj_toks, group_fields. rewrite <- !app_assoc.
  change (find_key "enabled" (names_tokens (g_wan_names g) ++ [ln "],"] ++ fld "      " "enabled" (jbool (g_enabled g)) "" ++
            [Lit (bytes_of_string "    " ++ [125])])
          = Some (lit ": " :: jbool (g_enabled g) ++ [ln ""; Lit (bytes_of_string "    " ++ [125])])).
  by rewrite find_key_app, find_key_names.
Qed.

Lemma group_back i g : group_ok g -> load_group i (render (obj_toks "    " (group_fields g))) = reload_group g.
Proof.
  intros Hok. assert (Hd : cdoc (obj_toks "    " (group_fields g))) by (eapply obj_toks_doc; [by apply group_good|by apply plain_bool]).
  unfold load_group, reload_group. erewrite member_names_at; [|exact Hd|exact Hok|].
  2:{ unfold obj_toks, group_fields. rewrite <- !app_assoc. reflexivity. }
  destruct Hok as (H1 & H2 & H3 & H4 & H5).
  erewrite (u32_at "id"); [|is_key|exact Hd|reflexivity|follow|done].
  erewrite (copied_at "name"); [|is_key|exact Hd|reflexivity|fits|fits].
  erewrite (copied_text_at "description"); [|is_key|exact Hd|reflexivity|fits|fits]. cbn [default]. f_equal.
  eapply bool_at; [is_key|exact Hd|apply group_enabled|follow].
Qed.

(** ** Arrays of the first level *)

Section TopArray.
Context {A B : Type} (K : list cstring) (key : string) (f : Z -> cstring -> B) (fields : A -> list tok) (g : A -> B) (ok : A -> Prop) (max : Z).
Context (Hkey : memb key K = true) (Hres : bytes_of_string key ∈ reserved) (Hko : key_okb key = true).
Context (Hgood : forall x, ok x -> cgood K (fields x)) (Hcl : forall x, ok x -> closes first_brace "    " (fields x)).
Context (Hback : forall i x, ok x -> f i (render (obj_toks "    " (fields x))) = g x).
Abbreviation objs := (fun x => jobj "    " (fields x)).

(** The inside of the array and what ends it. *)
Definition top_body (xs : list A) : list tok := match xs with [] => [] | _ => [ln ""] ++ comma_list objs xs end.
Definition top_end (xs : list A) : cstring := match xs with [] => [] | _ => bytes_of_string "  " end.
Lemma top_array_eq xs :
  top_array key objs xs
  = [Lit (bytes_of_string "  "); Key key; Lit [58; 32; 91]] ++ top_body xs ++ [Lit (top_end xs ++ 93 :: [44; 10])].
Proof. by destruct xs. Qed.

Lemma top_body_good xs : Forall ok xs -> cgood K (top_body xs).
Proof.
  intros Hok. unfold top_body. destruct xs as [|x xs]; [apply good_nil|].
  apply good_app; [apply good_lit; by apply plain_bool|]. apply good_comma. intros y sep Hy Hs.
  apply good_jobj; [by apply plain_bool|done|]. apply Hgood. by eapply Forall_forall in Hok.
Qed.
Lemma top_end_plain xs : plain (top_end xs).
Proof. destruct xs; by apply plain_bool. Qed.

Lemma top_array_good xs : Forall ok xs -> cgood K (top_array key objs xs).
Proof.
  intros Hok. rewrite top_array_eq.
  apply good_array; [by apply plain_bool|done..|constructor|apply top_end_plain|by apply plain_bool|]. by apply top_body_good.
Qed.

Lemma top_text xs T :
  exists b, plain b /\
  render (Lit [58; 32; 91] :: top_body xs ++ Lit (top_end xs ++ 93 :: [44; 10]) :: T)
  = [58; 32; 91] ++ (b ++ render (comma_list objs xs) ++ top_end xs) ++ 93 :: 44 :: 10 :: render T.
Proof.
  exists (match xs with [] => [] | _ => [10] end). split; [destruct xs; by apply plain_bool|].
  rewrite render_cons, render_app, render_cons. cbn [tok_text]. destruct xs as [|x xs]; [done|].
  cbn [top_body top_end]. rewrite render_app. unfold render at 1. cbn [fmap list_fmap concat tok_text ln]. by rewrite <- !app_assoc.
Qed.

Lemma top_array_found T xs :
  find_key key (top_array key objs xs ++ T) = Some (Lit [58; 32; 91] :: top_body xs ++ Lit (top_end xs ++ 93 :: [44; 10]) :: T).
Proof.
  rewrite top_array_eq. cbn [app find_key]. rewrite bool_decide_true by done. by rewrite <- app_assoc.
Qed.

Lemma top_array_back l T xs :
  cdoc l -> Forall ok xs -> (length xs <= Z.to_nat max)%nat ->
  find_key key l = find_key key (top_array key objs xs ++ T) ->
  load_objects first_brace max f (strstr (render l) (quoted key)) = g <$> xs.
Proof.
  intros Hd Hok Hlen Hf. rewrite top_array_found in Hf. erewrite strstr_at; [|done|exact Hd|exact Hf].
  destruct (top_text xs T) as (b & Hb & E).
  eapply (objects_back K _ _ _ "    " fields g ok xs _ _ b (top_end xs)); try done.
  - by apply key_ok_bool.
  - by apply plain_bool.
  - apply top_end_plain.
Qed.

End TopArray.

(** ** Uplinks *)

Definition id_keys : list cstring := map bytes_of_string ["id"; "name"; "label"; "type"]%string.
Definition ppp_keys : list cstring := map bytes_of_string ["username"; "password"]%string.
Definition wifi_keys : list cstring := map bytes_of_string ["wifi_ssid"; "wifi_password"; "wifi_security"]%string.
Definition mac_keys : list cstring := map bytes_of_string ["mac"]%string.
Definition net_keys : list cstring := map bytes_of_string
  ["ip"; "netmask"; "gateway"; "probe_target"; "weight"; "bandwidth_down_mbps"; "bandwidth_up_mbps"; "enabled"; "table_id"]%string.
Definition proxy_keys : list cstring := map bytes_of_string
  ["proxy_enabled"; "proxy_proto"; "proxy_server"; "proxy_port"; "proxy_uuid"; "proxy_sni"; "proxy_host"; "proxy_path";
   "proxy_transport"; "proxy_security"; "proxy_encryption"; "proxy_strategy"; "proxy_strategy_str"; "proxy_raw_uri";
   "proxy_raw_uri_2"; "proxy_raw_uri_3"; "proxy_tun_dev"]%string.
Definition wan_keys : list cstring :=
  bytes_of_string "wans" :: id_keys ++ ppp_keys ++ wifi_keys ++ mac_keys ++ net_keys ++ proxy_keys.

Record proxy_ok (p : wan_proxy_config_t) : Prop := ProxyOk {
  po_proto : txt 16 (px_proto_str p);
  po_server : txt 128 (px_server p);
  po_port : is_u16 (px_port p);
  po_uuid : txt 64 (px_uuid p);
  po_sni : txt 128 (px_sni p);
  po_host : txt 128 (px_host p);
  po_path : txt 128 (px_path p);
  po_transport : txt 16 (px_transport p);
  po_security : txt 16 (px_security p);
  po_encryption : txt 256 (px_encryption p);
  po_raw_uri : txt 2048 (px_raw_uri p);
  po_uri0 : txt 2048 (ep_raw_uri (ep_at p 0));
  po_uri1 : txt 2048 (ep_raw_uri (ep_at p 1));
  po_uri2 : txt 2048 (ep_raw_uri (ep_at p 2));
  po_tun_dev : txt 16 (px_tun_dev p)
}.

Record wan_ok (w : wan_config_t) : Prop := WanOk {
  wo_id : is_u32 (w_id w);
  wo_name : txt MAX_IFNAME_LEN (w_name w);
  wo_label : txt MAX_LABEL_LEN (w_label w);
  wo_ip : is_u32 (w_ip_addr w);
  wo_netmask : is_u32 (w_netmask w);
  wo_gateway : is_u32 (w_gateway w);
  wo_mac : txt 20 (w_custom_mac w);
  wo_username : txt 64 (w_ppp_username w);
  wo_password : txt 64 (w_ppp_password w);
  wo_ssid : txt 64 (w_wifi_ssid w);
  wo_wifi_password : txt 64 (w_wifi_password w);
  wo_wifi_security : txt 16 (w_wifi_security w);
  wo_table : is_u32 (w_table_id w);
  wo_weight : is_u32 (w_config_weight w);
  wo_down : is_u32 (w_bandwidth_down_mbps w);
  wo_up : is_u32 (w_bandwidth_up_mbps w);
  wo_probe : txt 64 (w_probe_target w);
  wo_proxy : proxy_ok (w_proxy w)
}.

Definition reload_strategy (s : proxy_balancer_strategy_t) : proxy_balancer_strategy_t :=
  match s with
  | PROXY_STRATEGY_OTHER _ => PROXY_STRATEGY_FAILOVER
  | s => s
  end.

(** The link of the first server is cut to 1023 bytes. *)
Definition reload_proxy (name : cstring) (p : wan_proxy_config_t) : wan_proxy_config_t :=
  let uri := str_trunc 1024 (or_else_text (ep_raw_uri (ep_at p 0)) (px_raw_uri p)) in
  let with_uri u := set_ep_raw_uri u zero_endpoint in
  if has_proxy p then
    let q :=
      WanProxyConfig (px_enabled p) (reload_strategy (px_strategy p))
        [with_uri uri; with_uri (ep_raw_uri (ep_at p 1)); with_uri (ep_raw_uri (ep_at p 2))] 0
        (proxy_proto_of (or_else_text (px_proto_str p) "vless")) (or_else_text (px_proto_str p) "vless") (px_server p)
        (or_num (px_port p) 443) (px_uuid p) (px_sni p) (px_host p) (px_path p) (or_else_text (px_transport p) "ws")
        (or_else_text (px_security p) "tls") (px_encryption p) uri (px_tun_dev p) name 0 0 false 0 in
    if px_enabled p || negb (empty uri) || negb (empty (ep_raw_uri (ep_at p 1))) then proxy_manager_sync_servers q else q
  else
    WanProxyConfig false PROXY_STRATEGY_FAILOVER (replicate 3 zero_endpoint) 0 PROXY_PROTO_VLESS "vless" [] 443 [] [] [] [] [] []
      [] [] [] name 0 0 false 0.

Definition reload_wan (w : wan_config_t) : wan_config_t :=
  WanConfig (w_id w) (w_name w) (w_label w) (w_type w) (w_ip_addr w) (w_netmask w) (w_gateway w) [0; 0] [] (w_custom_mac w)
    (w_ppp_username w) (w_ppp_password w) 1452 (w_wifi_ssid w)
    (if has_wifi w then w_wifi_password w else [])
    (if has_wifi w then or_else_text (w_wifi_security w) "WPA2-PSK" else []) [] 0 0 [] (w_table_id w) (w_config_weight w)
    (if w_enabled w then w_config_weight w else 0) (w_bandwidth_down_mbps w) (w_bandwidth_up_mbps w)
    (if w_enabled w then WAN_STATE_HEALTHY else WAN_STATE_DOWN) (w_enabled w)
    (or_else_text (w_probe_target w) "8.8.8.8") (str_to_ip (or_else_text (w_probe_target w) "8.8.8.8"))
    zero_metrics 0 0 0 0 [] [] 1500 1500 [] (reload_proxy (w_name w) (w_proxy w)).

Lemma wan_type_txt t : txt 8 (type_str t).
Proof. apply txt_bool. by destruct t. Qed.
Lemma strat_txt s : txt 16 (strat_str s).
Proof. apply txt_bool. by destruct s. Qed.
#[export] Hint Extern 1 (good_value _ (jstr (bytes_of_string (type_str _)))) => (eapply value_text, wan_type_txt) : cfg.
#[export] Hint Extern 1 (good_value _ (jstr (bytes_of_string (strat_str _)))) => (eapply value_text, strat_txt) : cfg.
#[export] Hint Extern 1 (good_value _ (jstr (or_else_text (ep_raw_uri (ep_at ?p 0)) (px_raw_uri ?p)))) =>
  (apply (value_text 2048), txt_or; assumption) : cfg.

Lemma find_key_obj k ind fs : find_key k (obj_toks ind fs) = find_key k (fs ++ [Lit (bytes_of_string ind ++ [125])]).
Proof. done. Qed.

Section WanPieces.
Context (w : wan_config_t) (Hok : wan_ok w).

Lemma wan_id_good : cgood id_keys (wan_id_fields w).
Proof. destruct Hok. unfold wan_id_fields. good_lines. Qed.
Lemma wan_ppp_good : cgood ppp_keys (wan_ppp_fields w).
Proof. destruct Hok. unfold wan_ppp_fields. good_lines. Qed.
Lemma wan_wifi_good : cgood wifi_keys (wan_wifi_fields w).
Proof. destruct Hok. unfold wan_wifi_fields. good_lines. Qed.
Lemma wan_mac_good : cgood mac_keys (wan_mac_fields w).
Proof. destruct Hok. unfold wan_mac_fields. good_lines. Qed.
Lemma wan_net_good : cgood net_keys (wan_net_fields w).
Proof. destruct Hok. unfold wan_net_fields. good_lines. Qed.
Lemma proxy_good : cgood proxy_keys (proxy_tokens (w_proxy w)).
Proof. destruct Hok as []. destruct wo_proxy0. unfold proxy_tokens. good_lines. Qed.

Lemma wan_good : cgood wan_keys (wan_fields w).
Proof.
  unfold wan_fields. apply good_app; [|apply good_app; [|apply good_app; [|apply good_app; [|apply good_app]]]].
  - eapply good_weaken; [|apply wan_id_good]; by vm_compute.
  - eapply good_weaken; [|apply wan_ppp_good]; by vm_compute.
  - eapply good_weaken; [|apply wan_wifi_good]; by vm_compute.
  - eapply good_weaken; [|apply wan_mac_good]; by vm_compute.
  - eapply good_weaken; [|apply wan_net_good]; by vm_compute.
  - eapply good_weaken; [|apply proxy_good]; by vm_compute.
Qed.
Lemma wan_flat : flat (wan_fields w).
Proof.
  destruct Hok. destruct wo_proxy0. unfold wan_fields, wan_id_fields, wan_ppp_fields, wan_wifi_fields, wan_mac_fields, wan_net_fields,
    proxy_tokens. flat_lines.
Qed.

Abbreviation obj := (obj_toks "    " (wan_fields w)).
Abbreviation obj_end := [Lit (bytes_of_string "    " ++ [125])].

Lemma wan_doc : cdoc obj.
Proof. eapply obj_toks_doc; [apply wan_good|by apply plain_bool]. Qed.

Lemma wan_obj k :
  find_key k obj = find_key k (wan_id_fields w ++ wan_ppp_fields w ++ wan_wifi_fields w ++ wan_mac_fields w ++ wan_net_fields w ++
                               proxy_tokens (w_proxy w) ++ obj_end).
Proof. rewrite find_key_obj. unfold wan_fields. rewrite <- !app_assoc. reflexivity. Qed.
Lemma wan_to_ppp k :
  memb k id_keys = false ->
  find_key k obj = find_key k (wan_ppp_fields w ++ wan_wifi_fields w ++ wan_mac_fields w ++ wan_net_fields w ++ proxy_tokens (w_proxy w) ++ obj_end).
Proof. intros H. by rewrite wan_obj, (good_skip reserved id_keys) by (done || apply wan_id_good). Qed.
Lemma wan_to_wifi k :
  memb k (id_keys ++ ppp_keys) = false ->
  find_key k obj = find_key k (wan_wifi_fields w ++ wan_mac_fields w ++ wan_net_fields w ++ proxy_tokens (w_proxy w) ++ obj_end).
Proof.
  intros H. unfold memb in H. rewrite existsb_app in H. apply orb_false_iff in H as [H1 H2].
  by rewrite wan_to_ppp, (good_skip reserved ppp_keys) by (done || apply wan_ppp_good).
Qed.
Lemma wan_to_mac k :
  memb k ((id_keys ++ ppp_keys) ++ wifi_keys) = false ->
  find_key k obj = find_key k (wan_mac_fields w ++ wan_net_fields w ++ proxy_tokens (w_proxy w) ++ obj_end).
Proof.
  intros H. unfold memb in H. rewrite existsb_app in H. apply orb_false_iff in H as [H1 H2].
  by rewrite wan_to_wifi, (good_skip reserved wifi_keys) by (done || apply wan_wifi_good).
Qed.
Lemma wan_to_net k :
  memb k (((id_keys ++ ppp_keys) ++ wifi_keys) ++ mac_keys) = false ->
  find_key k obj = find_key k (wan_net_fields w ++ proxy_tokens (w_proxy w) ++ obj_end).
Proof.
  intros H. unfold memb in H. rewrite existsb_app in H. apply orb_false_iff in H as [H1 H2].
  by rewrite wan_to_mac, (good_skip reserved mac_keys) by (done || apply wan_mac_good).
Qed.
Lemma wan_to_proxy k :
  memb k ((((id_keys ++ ppp_keys) ++ wifi_keys) ++ mac_keys) ++ net_keys) = false ->
  find_key k obj = find_key k (proxy_tokens (w_proxy w) ++ obj_end).
Proof.
  intros H. unfold memb in H. rewrite existsb_app in H. apply orb_false_iff in H as [H1 H2].
  by rewrite wan_to_net, (good_skip reserved net_keys) by (done || apply wan_net_good).
Qed.
Lemma wan_absent k : memb k wan_keys = false -> find_key k obj = None.
Proof.
  intros H. rewrite find_key_obj. by rewrite (good_skip reserved wan_keys) by (done || apply wan_good).
Qed.

(** *** The proxy *)

Lemma copied_text_cut k l s r n m :
  k ∈ reserved -> cdoc l -> find_key k l = Some (lit ": " :: Str s :: r) -> n <= m -> 0 < n ->
  copied_text (render l) k n m = str_trunc n s.
Proof.
  intros Hk Hd Hf Hn Hp. unfold copied_text, copied. erewrite text_value; [|apply reserved_short|done..]. cbn.
  apply take_ge. unfold str_trunc. rewrite length_take. lia.
Qed.

Lemma strategy_name s : strategy_of_name (strat_str s) = reload_strategy s.
Proof. by destruct s. Qed.

(** Rewrites every read of the goal by what the lookup finds. *)
Ltac read_step look :=
  match goal with
  | H : cdoc ?l |- context [extract_json_bool (render ?l) ?k ?d] =>
      erewrite (bool_at k l); [|is_key|exact H|look|follow]
  | H : cdoc ?l |- context [u32 (extract_json_int (render ?l) ?k ?d)] =>
      erewrite (u32_at k l); [|is_key|exact H|look|follow|fits]
  | H : cdoc ?l |- context [u16 (extract_json_int (render ?l) ?k ?d)] =>
      erewrite (u16_at k l); [|is_key|exact H|look|follow|fits]
  | H : cdoc ?l |- context [extract_json_int (render ?l) ?k ?d] =>
      erewrite (int_none k l); [|is_key|exact H|look]
  | H : cdoc ?l |- context [extract_json_string (render ?l) ?k ?n] =>
      first [ erewrite (text_at k l); [|is_key|exact H|look|fits] | erewrite (text_none k l); [|is_key|exact H|look] ]
  | H : cdoc ?l |- context [copied_text (render ?l) ?k ?n ?m] =>
      first [ erewrite (copied_text_at k l); [|is_key|exact H|look|fits|fits] | erewrite (copied_text_none k l); [|is_key|exact H|look] ]
  end.

Ltac proxy_look Hp He := rewrite wan_to_proxy by (vm_compute; reflexivity); unfold proxy_tokens; rewrite Hp, ?He; reflexivity.

Lemma proxy_back : load_proxy (render obj) (w_name w) = reload_proxy (w_name w) (w_proxy w).
Proof.
  pose proof wan_doc as Hd. destruct (wo_proxy _ Hok). pose proof (wo_name _ Hok) as Hn. pose proof (strat_txt (px_strategy (w_proxy w))) as Hst.
  unfold load_proxy, reload_proxy. cbv zeta.
  assert (En : safe_str_copy (w_name w) 32 = w_name w) by (apply trunc_fits; fits). rewrite En.
  assert (Ep : safe_str_copy (or_else_text (px_proto_str (w_proxy w)) "vless") 16 = or_else_text (px_proto_str (w_proxy w)) "vless")
    by (apply trunc_fits; fits).
  destruct (has_proxy (w_proxy w)) eqn:Hp.
  - destruct (empty (px_encryption (w_proxy w))) eqn:He;
      (erewrite (copied_text_cut "proxy_raw_uri"); [|is_key|exact Hd|proxy_look Hp He|lia|lia]);
      repeat read_step ltac:(proxy_look Hp He); rewrite Ep, strategy_name.
    + by rewrite (bool_decide_eq_true_1 _ He).
    + done.
  - assert (Hen : px_enabled (w_proxy w) = false).
    { unfold has_proxy in Hp. rewrite !orb_false_iff in Hp. tauto. }
    repeat read_step ltac:(proxy_look Hp Hp). by rewrite Hen.
Qed.

(** *** The uplink *)

Ltac wan_look :=
  first
    [ reflexivity
    | rewrite wan_absent by (vm_compute; reflexivity); reflexivity
    | rewrite wan_to_net by (vm_compute; reflexivity); reflexivity ].

Lemma text_ip_at k l r ip :
  k ∈ reserved -> cdoc l -> find_key k l = Some (lit ": " :: Str (ip_to_str ip) :: r) -> is_u32 ip -> text_ip (render l) k = ip.
Proof.
  intros Hk Hd Hf Hi. unfold text_ip. erewrite text_at; [|exact Hk|exact Hd|exact Hf|eapply txt_le; [by apply txt_ip|lia]].
  by apply ip_text_roundtrip_lemma.
Qed.

Lemma empty_text s : empty s = true -> s = [].
Proof. apply bool_decide_eq_true_1. Qed.

Lemma wan_none k :
  memb k (id_keys ++ net_keys ++ proxy_keys) = false -> find_key k (wan_ppp_fields w) = None ->
  find_key k (wan_wifi_fields w) = None -> find_key k (wan_mac_fields w) = None -> find_key k obj = None.
Proof.
  intros Hk H1 H2 H3. unfold memb in Hk. rewrite !existsb_app in Hk. rewrite !orb_false_iff in Hk.
  destruct Hk as (K1 & K2 & K3). rewrite wan_to_ppp by done. rewrite find_key_app, H1, find_key_app, H2, find_key_app, H3.
  rewrite (good_skip reserved net_keys) by (done || apply wan_net_good). by rewrite (good_skip reserved proxy_keys) by (done || apply proxy_good).
Qed.

Lemma wan_ppp_back :
  either_text (render obj) "ppp_username" "username" 256 64 = w_ppp_username w
  /\ either_text (render obj) "ppp_password" "password" 256 64 = w_ppp_password w.
Proof.
  pose proof wan_doc as Hd. pose proof (wo_username _ Hok). pose proof (wo_password _ Hok). unfold either_text.
  rewrite (text_none "ppp_username" obj ltac:(is_key) Hd 256 ltac:(wan_look)).
  rewrite (text_none "ppp_password" obj ltac:(is_key) Hd 256 ltac:(wan_look)).
  destruct (has_ppp w) eqn:Hp.
  - split; (eapply copied_text_at; [is_key|exact Hd| |fits|fits]);
      rewrite wan_to_ppp by (vm_compute; reflexivity); unfold wan_ppp_fields; rewrite Hp; reflexivity.
  - unfold has_ppp in Hp. pose proof Hp as Hp'. rewrite !orb_false_iff, !negb_false_iff in Hp'. destruct Hp' as [[_ H1] H2].
    rewrite (empty_text _ H1), (empty_text _ H2).
    split; (apply copied_text_none; [is_key|exact Hd|]); (apply wan_none; [by vm_compute| | |]).
    all: try (eapply good_none; [apply wan_wifi_good|by vm_compute]).
    all: try (eapply good_none; [apply wan_mac_good|by vm_compute]).
    all: unfold wan_ppp_fields, has_ppp; by rewrite Hp.
Qed.

Lemma wan_mac_back : either_text (render obj) "mac" "custom_mac" 256 20 = w_custom_mac w.
Proof.
  pose proof wan_doc as Hd. pose proof (wo_mac _ Hok). unfold either_text.
  destruct (empty (w_custom_mac w)) eqn:Hm.
  - rewrite (text_none "mac" obj ltac:(is_key) Hd 256).
    + rewrite (empty_text _ Hm). apply copied_text_none; [is_key|exact Hd|wan_look].
    + apply wan_none; [by vm_compute| | |].
      * eapply good_none; [apply wan_ppp_good|by vm_compute].
      * eapply good_none; [apply wan_wifi_good|by vm_compute].
      * unfold wan_mac_fields. by rewrite Hm.
  - erewrite (text_at "mac" obj); [|is_key|exact Hd| |fits].
    + apply trunc_fits. fits.
    + rewrite wan_to_mac by (vm_compute; reflexivity). unfold wan_mac_fields. rewrite Hm. reflexivity.
Qed.

Lemma wan_wifi_back :
  either_text (render obj) "wifi_ssid" "ssid" 256 64 = w_wifi_ssid w
  /\ copied_text (render obj) "wifi_password" 256 64 = (if has_wifi w then w_wifi_password w else [])
  /\ match extract_json_string (render obj) "wifi_security" 256 with
     | Some v => safe_str_copy v 16
     | None => if bool_decide (w_type w = WAN_TYPE_WIFI) then bytes_of_string "WPA2-PSK" else []
     end = (if has_wifi w then or_else_text (w_wifi_security w) "WPA2-PSK" else []).
Proof.
  pose proof wan_doc as Hd. pose proof (wo_ssid _ Hok). pose proof (wo_wifi_password _ Hok). pose proof (wo_wifi_security _ Hok).
  unfold either_text. destruct (has_wifi w) eqn:Hw.
  - assert (Hf : forall k, memb k (id_keys ++ ppp_keys) = false ->
      find_key k obj = find_key k ((fld "      " "wifi_ssid" (jstr (w_wifi_ssid w)) "," ++ fld "      " "wifi_password" (jstr (w_wifi_password w)) "," ++
        fld "      " "wifi_security" (jstr (or_else_text (w_wifi_security w) "WPA2-PSK")) ",") ++ wan_mac_fields w ++ wan_net_fields w ++
        proxy_tokens (w_proxy w) ++ obj_end)).
    { intros k Hk. rewrite wan_to_wifi by done. unfold wan_wifi_fields. by rewrite Hw. }
    erewrite (text_at "wifi_ssid" obj); [|is_key|exact Hd|rewrite Hf by (vm_compute; reflexivity); reflexivity|fits].
    erewrite (copied_text_at "wifi_password" obj); [|is_key|exact Hd|rewrite Hf by (vm_compute; reflexivity); reflexivity|fits|fits].
    erewrite (text_at "wifi_security" obj); [|is_key|exact Hd|rewrite Hf by (vm_compute; reflexivity); reflexivity|fits].
    split_and!; [apply trunc_fits; fits|done|apply trunc_fits; fits].
  - assert (Hf : forall k, memb k wifi_keys = true -> find_key k obj = None).
    { intros k Hk%memb_elem. unfold wifi_keys in Hk. cbn [map] in Hk. rewrite !elem_of_cons in Hk.
      destruct Hk as [-> | [-> | [-> | []%not_elem_of_nil]]]; (apply wan_none; [by vm_compute
        |eapply good_none; [apply wan_ppp_good|by vm_compute]|unfold wan_wifi_fields; by rewrite Hw
        |eapply good_none; [apply wan_mac_good|by vm_compute]]). }
    unfold has_wifi in Hw. rewrite orb_false_iff, negb_false_iff in Hw. destruct Hw as [Ht Hs].
    rewrite (text_none "wifi_ssid" obj ltac:(is_key) Hd 256) by (apply Hf; by vm_compute).
    rewrite (copied_text_none "wifi_password" obj ltac:(is_key) Hd 256 64) by (apply Hf; by vm_compute).
    rewrite (text_none "wifi_security" obj ltac:(is_key) Hd 256) by (apply Hf; by vm_compute).
    rewrite Ht, (empty_text _ Hs). split_and!; [|done..]. apply copied_text_none; [is_key|exact Hd|wan_look].
Qed.

Lemma wan_type_back :
  match extract_json_string (render obj) "type" 256 with Some v => wan_type_of v | None => WAN_TYPE_STATIC end = w_type w.
Proof.
  pose proof wan_doc as Hd. pose proof (wan_type_txt (w_type w)). erewrite (text_at "type" obj); [|is_key|exact Hd|wan_look|fits].
  by destruct (w_type w).
Qed.

Lemma wan_back i : load_wan i (render obj) = reload_wan w.
Proof.
  pose proof wan_doc as Hd. destruct wan_wifi_back as (W1 & W2 & W3). destruct wan_ppp_back as (P1 & P2).
  destruct Hok. unfold load_wan, reload_wan. cbv zeta.
  rewrite wan_type_back, W1, W2, W3, P1, P2, wan_mac_back.
  rewrite (text_ip_at "ip" obj _ (w_ip_addr w) ltac:(is_key) Hd ltac:(wan_look)) by done.
  rewrite (text_ip_at "netmask" obj _ (w_netmask w) ltac:(is_key) Hd ltac:(wan_look)) by done.
  rewrite (text_ip_at "gateway" obj _ (w_gateway w) ltac:(is_key) Hd ltac:(wan_look)) by done.
  rewrite (int_none "mtu" obj ltac:(is_key) Hd 1500 ltac:(wan_look)).
  rewrite (int_none "mss_clamping" obj ltac:(is_key) Hd 1452 ltac:(wan_look)).
  repeat read_step ltac:(wan_look). rewrite proxy_back.
  assert (Et : safe_str_copy (or_else_text (w_probe_target w) "8.8.8.8") 64 = or_else_text (w_probe_target w) "8.8.8.8")
    by (apply trunc_fits; fits). rewrite Et. by destruct (w_enabled w).
Qed.
End WanPieces.

(** ** The array of the uplinks *)

Lemma wan_closes w : wan_ok w -> closes first_brace "    " (wan_fields w).
Proof. intros Hok. apply flat_closes; [by apply plain_bool|by apply wan_flat]. Qed.

Lemma find_wans_step fuel l r arr :
  cdoc l -> find_key "wans" l = Some r -> json_array (render (Key "wans" :: r)) = Some arr ->
  find_wans (S fuel) (render l) = match strchr arr 123 with Some _ => Some arr | None => find_wans fuel (render r) end.
Proof.
  intros Hd Hf Ha. cbn [find_wans]. erewrite strstr_at; [|is_key|exact Hd|exact Hf]. cbn [mbind option_bind]. by rewrite Ha.
Qed.

(** A list with separators is a list of pairs. *)
Lemma comma_pairs {A} (f : A -> string -> list tok) xs :
  exists ps, comma_list f xs = concat ((fun p => f p.1 p.2) <$> ps) /\ ps.*1 = xs /\ Forall (fun p => is_sep p.2) ps.
Proof.
  exists (imap (fun i x => (x, if bool_decide (S i = length xs) then EmptyString else ","%string)) xs). split_and!.
  - unfold comma_list. by rewrite fmap_imap.
  - apply list_eq. intros i. rewrite list_lookup_fmap, list_lookup_imap. by destruct (xs !! i).
  - apply Forall_lookup. intros i y Hy. rewrite list_lookup_imap in Hy. destruct (xs !! i); [|done]. injection Hy as <-. cbn.
    case_bool_decide; [by left|by right].
Qed.

(** The members of a group are no array of objects. *)
Lemma group_wans g sep T :
  find_key "wans" (group_tokens g sep ++ T)
  = Some (lit ": [" :: names_tokens (g_wan_names g) ++ ln "]," :: fld "      " "enabled" (jbool (g_enabled g)) "" ++
          ln ("    " ++ "}" ++ sep)%string :: T).
Proof.
  unfold group_tokens, jobj, group_fields. cbn [app]. rewrite <- !app_assoc.
  transitivity (Some (lit ": [" :: (names_tokens (g_wan_names g) ++ ln "]," :: fld "      " "enabled" (jbool (g_enabled g)) "") ++
                      [ln ("    " ++ "}" ++ sep)%string] ++ T)); [reflexivity|]. by rewrite <- app_assoc.
Qed.

Lemma find_wans_group fuel g sep T l :
  group_ok g -> cdoc l -> find_key "wans" l = find_key "wans" (group_tokens g sep ++ T) ->
  exists r, find_key "wans" l = Some r /\ (find_key "wans" r = find_key "wans" T)
            /\ find_wans (S fuel) (render l) = find_wans fuel (render r).
Proof.
  intros Hok Hd Hf. pose proof (names_plain _ Hok) as Hn. rewrite group_wans in Hf. eexists. split; [exact Hf|]. split.
  - cbn [find_key lit]. rewrite find_key_app, find_key_names. reflexivity.
  - erewrite (find_wans_step fuel l _ (91 :: render (names_tokens (g_wan_names g)))); [|exact Hd|exact Hf|].
    + rewrite strchr_none; [done|]. constructor; [done|]. by apply names_no_char.
    + apply (json_array_text _ _ _ (44 :: 10 :: render (fld "      " "enabled" (jbool (g_enabled g)) "" ++ ln ("    " ++ "}" ++ sep)%string :: T)));
        [by apply key_ok_bool| |by apply flat_bracket_neutral, names_flat].
      rewrite render_cons, render_app, render_cons. cbn [tok_text lit ln]. by rewrite <- !app_assoc.
Qed.

Lemma find_wans_groups ps : forall fuel T l,
  Forall (fun p => group_ok p.1) ps -> cdoc l ->
  find_key "wans" l = find_key "wans" (concat ((fun p => group_tokens p.1 p.2) <$> ps) ++ T) ->
  exists r, cdoc r /\ find_key "wans" r = find_key "wans" T /\ find_wans (length ps + fuel) (render l) = find_wans fuel (render r).
Proof.
  induction ps as [|[g sep] ps IH]; intros fuel T l Hok Hd Hf; [by exists l|].
  apply Forall_cons in Hok as [Hg Hok]. cbn [fmap list_fmap concat fst snd] in Hf. rewrite <- app_assoc in Hf.
  destruct (find_wans_group (length ps + fuel) g sep _ l Hg Hd Hf) as (r & Hr & Hfr & Hw).
  pose proof (doc_tail _ _ _ (find_key_doc _ _ _ _ Hd Hr)) as Hdr.
  destruct (IH fuel T r Hok Hdr Hfr) as (r' & Hd' & Hf' & Hw'). exists r'. split; [done|]. split; [done|].
  cbn [length Nat.add]. by rewrite Hw.
Qed.

Lemma skip_groups gs T :
  exists ps T', ps.*1 = gs /\ find_key "wans" T' = find_key "wans" T
  /\ find_key "wans" (top_array "groups" group_tokens gs ++ T) = find_key "wans" (concat ((fun p => group_tokens p.1 p.2) <$> ps) ++ T').
Proof.
  destruct (comma_pairs group_tokens gs) as (ps & E & Eg & _). unfold top_array. destruct gs as [|g gs].
  - by exists [], T.
  - exists ps, ([ln "  ],"] ++ T). rewrite E. rewrite <- !app_assoc. by split_and!.
Qed.

Lemma wans_array_text ws T :
  Forall wan_ok ws ->
  exists b, plain b /\ json_array (render (Key "wans" :: Lit [58; 32; 91] :: top_body wan_fields ws ++ Lit (top_end ws ++ 93 :: [44; 10]) :: T))
  = Some (91 :: b ++ render (comma_list (fun w => jobj "    " (wan_fields w)) ws) ++ top_end ws).
Proof.
  intros Hok. destruct (top_text wan_fields ws T) as (b & Hb & E). exists b. split; [done|].
  eapply json_array_text; [by apply key_ok_bool|exact E|]. repeat apply bracket_neutral_app; [by apply neutral_plain| |].
  - apply (good_brackets reserved wan_keys). apply good_comma. intros w sep Hw Hs. apply good_jobj; [by apply plain_bool|done|].
    apply wan_good. by eapply Forall_forall in Hok.
  - apply neutral_plain, top_end_plain.
Qed.

Lemma wans_back l gs ws T :
  cdoc l -> Forall group_ok gs -> Forall wan_ok ws -> Z.of_nat (length ws) <= MAX_WANS -> (length gs + 2 <= length (render l))%nat ->
  find_key "wans" l = find_key "wans" (top_array "groups" group_tokens gs ++ top_array "wans" wan_tokens ws ++ T) ->
  find_key "wans" T = None ->
  load_wans (render l) = unique_wans (reload_wan <$> ws).
Proof.
  intros Hd Hg Hw Hlen Hfuel Hf HT. destruct (skip_groups gs (top_array "wans" wan_tokens ws ++ T)) as (ps & T' & Eg & ET & Es).
  rewrite Es in Hf. assert (Hgp : Forall (fun p => group_ok p.1) ps) by (rewrite <- Eg, Forall_fmap in Hg; exact Hg).
  assert (Hlp : length ps = length gs) by (rewrite <- Eg; by rewrite length_fmap).
  set (fuel := (length (render l) - length ps)%nat).
  destruct (find_wans_groups ps fuel T' l Hgp Hd Hf) as (r & Hdr & Hfr & E). rewrite ET in Hfr.
  change wan_tokens with (fun w => jobj "    " (wan_fields w)) in Hfr. rewrite top_array_found in Hfr.
  unfold load_wans. replace (length (render l)) with (length ps + fuel)%nat by (unfold fuel; lia). rewrite E.
  destruct (wans_array_text ws T Hw) as (b & Hb & Ea).
  replace fuel with (S (S (fuel - 2))) by (unfold fuel; lia).
  rewrite (find_wans_step _ r _ _ Hdr Hfr Ea). destruct ws as [|w ws].
  - rewrite strchr_none.
    + pose proof (doc_tail _ _ _ (find_key_doc _ _ _ _ Hdr Hfr)) as Hdr'.
      cbn [find_wans]. by rewrite (strstr_absent "wans") by (try is_key; done).
    + constructor; [done|]. rewrite app_nil_r. by apply plain_no_char.
  - assert (Hin : exists t, strchr (91 :: b ++ render (comma_list (fun w => jobj "    " (wan_fields w)) (w :: ws)) ++ top_end (w :: ws)) 123 = Some t).
    { destruct (comma_items "    " wan_fields (w :: ws)) as (items & -> & Hi & _). destruct items as [|[[pre body] suf] items]; [done|].
      change (91 :: b ++ ?x) with ((91 :: b) ++ x). rewrite strchr_skip by (constructor; [done|by apply plain_no_char]).
      generalize (top_end (w :: ws)). intros z. cbn [fmap list_fmap concat item_text]. rewrite <- !app_assoc. cbn [app].
      clear. induction pre as [|c pre IH]; [eexists; apply strchr_here|]. cbn [app strchr]. destruct (c =? 123); [by eexists|done]. }
    destruct Hin as (t & ->). f_equal. rewrite array_objects_text.
    + rewrite take_ge by (rewrite length_fmap; unfold MAX_WANS in *; lia). apply list_eq. intros i.
      rewrite list_lookup_imap, !list_lookup_fmap. destruct ((w :: ws) !! i) as [v|] eqn:Hv; [|done]. cbn. f_equal.
      apply wan_back. by eapply Forall_lookup_1 in Hw.
    + by apply plain_bool.
    + done.
    + apply top_end_plain.
    + eapply Forall_impl; [exact Hw|]. apply wan_closes.
Qed.
