(* ===== verification/ConfigServices.v ===== *)
(** * What is read back of the PPPoE server, the virtual networks and the address lists *)

From S2P Require Import Prelude Fluxwan Ipv4 CLib Json JsonText ProxyUri ConfigLoad ConfigSave JsonBlocks ConfigSpec ConfigLan ConfigWan.

(** ** Arrays that are always written *)

Section Arrays.
Context {A B : Type} (K : list cstring) (a : string) (key : string) (ind : string) (c : string) (d : cstring).
Context (fields : A -> list tok) (g : A -> B) (ok : A -> Prop) (max : Z).
Context (Hkey : memb key K = true) (Hres : bytes_of_string key ∈ reserved) (Hko : key_okb key = true).
Context (Ha : plain (bytes_of_string a)) (Hind : plain (bytes_of_string ind)) (Hc : plain (bytes_of_string c)) (Hdp : plain d).
Context (Hgood : forall x, ok x -> cgood K (fields x)).
Abbreviation objs := (fun x => jobj ind (fields x)).

Definition arr_toks (xs : list A) : list tok :=
  [lit a; Key key; Lit [58; 32; 91; 10]] ++ comma_list objs xs ++ [Lit (bytes_of_string c ++ 93 :: d)].

Lemma objs_good xs : Forall ok xs -> cgood K (comma_list objs xs).
Proof.
  intros Hok. apply good_comma. intros x sep Hx Hs. apply good_jobj; [done..|]. apply Hgood. by eapply Forall_forall in Hok.
Qed.
Lemma arr_good xs : Forall ok xs -> cgood K (arr_toks xs).
Proof. intros Hok. apply good_array; [done..|by apply plain_bool|done|done|]. by apply objs_good. Qed.

Lemma arr_found xs T :
  find_key key (arr_toks xs ++ T) = Some (Lit [58; 32; 91; 10] :: comma_list objs xs ++ Lit (bytes_of_string c ++ 93 :: d) :: T).
Proof. unfold arr_toks. cbn [app find_key lit]. rewrite bool_decide_true by done. by rewrite <- app_assoc. Qed.

Lemma arr_text xs T :
  render (Lit [58; 32; 91; 10] :: comma_list objs xs ++ Lit (bytes_of_string c ++ 93 :: d) :: T)
  = [58; 32; 91] ++ ([10] ++ render (comma_list objs xs) ++ bytes_of_string c) ++ 93 :: d ++ render T.
Proof. rewrite render_cons, render_app, render_cons. cbn [tok_text]. by rewrite <- !app_assoc. Qed.

Lemma arr_back close (f : Z -> cstring -> B) l T xs :
  (forall x, ok x -> closes close ind (fields x)) -> (forall i x, ok x -> f i (render (obj_toks ind (fields x))) = g x) ->
  cdoc l -> Forall ok xs -> (length xs <= Z.to_nat max)%nat -> find_key key l = find_key key (arr_toks xs ++ T) ->
  load_objects close max f (strstr (render l) (quoted key)) = g <$> xs.
Proof.
  intros Hcl Hback Hd Hok Hlen Hf. rewrite arr_found in Hf. erewrite strstr_at; [|done|exact Hd|exact Hf].
  eapply (objects_back K _ _ _ ind fields g ok xs _ _ [10] (bytes_of_string c)); try done.
  - by apply key_ok_bool.
  - by apply plain_bool.
  - apply arr_text.
Qed.

Lemma arr_keyed_back (f : cstring -> B) (kf : B -> cstring) l T xs :
  (forall x, ok x -> f (render (obj_toks ind (fields x))) = g x) -> (forall x, ok x -> kf (g x) <> []) ->
  cdoc l -> Forall ok xs -> (length xs <= Z.to_nat max)%nat -> find_key key l = find_key key (arr_toks xs ++ T) ->
  load_keyed max f kf (strstr (render l) (quoted key)) = g <$> xs.
Proof.
  intros Hback Hne Hd Hok Hlen Hf. rewrite arr_found in Hf. erewrite strstr_at; [|done|exact Hd|exact Hf].
  rewrite (load_keyed_text max f kf ind fields xs _ _ [10] (bytes_of_string c) (d ++ render T)); try done.
  - apply list_fmap_ext. intros i x Hx. apply Hback. by eapply Forall_lookup_1 in Hok.
  - by apply key_ok_bool.
  - by apply plain_bool.
  - eapply Forall_impl; [exact Hok|]. intros x Hx. eapply closes_match; [done|by apply Hgood].
  - eapply Forall_impl; [exact Hok|]. intros x Hx. rewrite Hback by done. by apply Hne.
  - apply (good_brackets reserved K). by apply objs_good.
  - apply arr_text.
Qed.

End Arrays.

(** ** RADIUS *)

Definition radius_keys : list cstring := map bytes_of_string
  ["radius"; "enabled"; "proto"; "server"; "secret"; "auth_port"; "acct_port"; "coa_port"; "interim_interval"; "nas_identifier";
   "tls_verify_cert"; "ca_cert_path"; "client_cert_path"; "client_key_path"; "sni_hostname"]%string.

Record radius_ok (r : radius_config_t) : Prop := RadiusOk {
  ro_server : txt 128 (rad_server r);
  ro_secret : txt 64 (rad_secret r);
  ro_auth : is_u16 (rad_auth_port r);
  ro_acct : is_u16 (rad_acct_port r);
  ro_coa : is_u16 (rad_coa_port r);
  ro_interim : is_u32 (rad_interim_interval r);
  ro_nas : txt 64 (rad_nas_identifier r);
  ro_ca : txt MAX_PATH_LEN (rad_ca_cert_path r);
  ro_cert : txt MAX_PATH_LEN (rad_client_cert_path r);
  ro_key : txt MAX_PATH_LEN (rad_client_key_path r);
  ro_sni : txt 64 (rad_sni_hostname r)
}.

Definition reload_radius (r : radius_config_t) : radius_config_t :=
  let radsec := bool_decide (rad_proto r = RADIUS_PROTO_RADSEC) in
  RadiusConfig (rad_enabled r) (rad_proto r) (rad_server r)
    (if empty (rad_secret r) && radsec then bytes_of_string "radsec" else rad_secret r)
    (or_num (rad_auth_port r) (if radsec then 2083 else 1812)) (or_num (rad_acct_port r) (if radsec then 2083 else 1813))
    (or_num (rad_coa_port r) 3799) (or_num (rad_interim_interval r) 300) (or_else_text (rad_nas_identifier r) "FluxWAN-BRAS-01")
    (rad_tls_verify_cert r) (rad_ca_cert_path r) (rad_client_cert_path r) (rad_client_key_path r) (rad_sni_hostname r).

(** A block with the text after its closing brace. *)
Lemma good_braced K (a key : string) fs d :
  plain (bytes_of_string a) -> key_okb key = true -> memb key K = true -> plain d -> cgood K fs ->
  cgood K ([lit a; Key key; ln ": {"] ++ fs ++ [Lit (bytes_of_string a ++ 125 :: d)]).
Proof.
  intros Ha Hk Hm Hd [Hw Ht Hb Hc Hz]. pose proof (key_ok_bool _ Hk) as Hko. pose proof (key_plain _ Hko) as Hkp.
  assert (E : render ([lit a; Key key; ln ": {"] ++ fs ++ [Lit (bytes_of_string a ++ 125 :: d)])
              = (bytes_of_string a ++ quoted (bytes_of_string key) ++ [58; 32]) ++ (123 :: (10 :: render fs ++ bytes_of_string a) ++ [125]) ++ d).
  { cbn [app]. rewrite !render_cons, render_app. cbn [tok_text lit ln]. unfold render at 2. cbn [fmap list_fmap concat tok_text].
    rewrite app_nil_r, <- !app_assoc. done. }
  split.
  - cbn [app]. apply wf_block_lit; [by apply plain_no_char|]. apply wf_block_key; [done..|].
    apply wf_block_lit; [by repeat constructor|]. apply wf_block_app; [done|]. apply wf_block_lit; [|apply wf_block_nil].
    apply no_char_app. split; [by apply plain_no_char|]. constructor; [done|by apply plain_no_char].
  - apply memb_elem in Hm. cbn [app]. do 3 (constructor; [done|]). apply Forall_app. split; [done|by constructor].
  - rewrite E. change (123 :: (10 :: render fs ++ bytes_of_string a) ++ [125]) with ([123; 10] ++ (render fs ++ bytes_of_string a) ++ [125]).
    repeat apply bracket_neutral_app; try done; try (by apply neutral_plain); try (by apply quoted_neutral).
    all: apply bracket_neutral_text; by repeat constructor.
  - rewrite E. apply brace_neutral_app; [repeat apply brace_neutral_app|apply brace_neutral_app; [apply brace_neutral_nest|by apply neutral_plain]].
    + by apply neutral_plain.
    + by apply quoted_neutral.
    + apply brace_neutral_text; by repeat constructor.
    + change (10 :: render fs ++ bytes_of_string a) with ([10] ++ render fs ++ bytes_of_string a).
      repeat apply brace_neutral_app; try done; by apply neutral_plain.
  - rewrite E. no_nul.
Qed.

#[export] Hint Extern 1 (good_value _ (jstr (if _ then bytes_of_string _ else bytes_of_string _))) =>
  (case_match; eapply (value_text 4096), txt_bool; vm_compute; reflexivity) : cfg.
#[export] Hint Extern 1 (good_value _ (jnum (or_num _ (if _ then _ else _)))) =>
  (apply value_num; unfold or_num; repeat case_match; unfold is_u64, is_u32, is_u16, is_u8 in *; lia) : cfg.

Lemma radius_fields_good r : radius_ok r -> cgood radius_keys (radius_fields r).
Proof. intros []. unfold radius_fields. cbv zeta. good_lines. Qed.
Lemma radius_good r : radius_ok r -> cgood radius_keys (radius_tokens r).
Proof.
  intros Hok. apply (good_braced radius_keys "    " "radius" (radius_fields r) []);
    [by apply plain_bool|done|by vm_compute|constructor|by apply radius_fields_good].
Qed.

Lemma radius_back l rest r :
  cdoc l -> radius_ok r -> find_key "radius" l = find_key "radius" (radius_tokens r ++ rest) ->
  load_radius (strstr (render l) (quoted "radius")) = reload_radius r.
Proof.
  intros Hd Hok Hf. enter Hd Hf. destruct Hok. cbn [load_radius]. unfold reload_radius. cbv zeta.
  assert (Hx : forall (b : bool), Z.of_nat (length (if b then bytes_of_string "radsec" else bytes_of_string "udp")) < 32) by (by intros []).
  erewrite (text_at "proto"); [|is_key|eassumption|reflexivity|apply Hx].
  erewrite (read_text_at "secret"); [|is_key|eassumption|reflexivity|fits].
  erewrite (text_at "nas_identifier"); [|is_key|eassumption|reflexivity|fits].
  assert (Ep : (if strcase_eq (if bool_decide (rad_proto r = RADIUS_PROTO_RADSEC) then bytes_of_string "radsec" else bytes_of_string "udp") "radsec"
                || strcase_eq (if bool_decide (rad_proto r = RADIUS_PROTO_RADSEC) then bytes_of_string "radsec" else bytes_of_string "udp") "tls"
                then RADIUS_PROTO_RADSEC else RADIUS_PROTO_UDP) = rad_proto r) by (by destruct (rad_proto r)).
  rewrite Ep. cbn [default]. f_equal; try one_field; reader; (apply or_num_u16; [done|destruct (bool_decide _); lia]).
Qed.

(** ** The PPPoE server *)

Definition profile_keys : list cstring := map bytes_of_string
  ["profiles"; "name"; "rate_down_kbps"; "rate_up_kbps"; "validity_days"; "description"]%string.
Definition user_keys : list cstring := map bytes_of_string
  ["users"; "username"; "password"; "profile"; "static_ip"; "comment"; "created_at"; "expires_at"; "enabled"]%string.
Definition pppoe_keys : list cstring :=
  map bytes_of_string ["pppoe_server"; "enabled"; "lan_mode"; "interface"; "service_name"; "ac_name"; "local_ip"; "pool_start";
    "pool_end"; "max_sessions"; "dns1"; "dns2"; "mru"; "mss"]%string ++ radius_keys ++ profile_keys ++ user_keys.

Definition profile_ok (p : pppoe_profile_t) : Prop :=
  txt 64 (pp_name p) /\ is_u32 (pp_rate_down_kbps p) /\ is_u32 (pp_rate_up_kbps p) /\ is_u32 (pp_validity_days p)
  /\ txt 64 (pp_description p).
Lemma profile_good p : profile_ok p -> cgood profile_keys (profile_fields p).
Proof. intros (H1 & H2 & H3 & H4 & H5). unfold profile_fields. good_lines. Qed.
Lemma profile_closes p : profile_ok p -> closes first_brace "      " (profile_fields p).
Proof. intros (H1 & H2 & H3 & H4 & H5). apply flat_closes; [by apply plain_bool|]. unfold profile_fields. flat_lines. Qed.
Lemma profile_back i p : profile_ok p -> load_profile i (render (obj_toks "      " (profile_fields p))) = p.
Proof.
  intros Hok. assert (Hd : cdoc (obj_toks "      " (profile_fields p))) by (eapply obj_toks_doc; [by apply profile_good|by apply plain_bool]).
  destruct Hok as (H1 & H2 & H3 & H4 & H5). unfold load_profile. destruct p. f_equal; one_field.
Qed.

Definition user_ok (u : pppoe_user_t) : Prop :=
  txt 64 (pu_username u) /\ txt 64 (pu_password u) /\ txt 64 (pu_profile u) /\ txt 32 (pu_static_ip u) /\ txt 128 (pu_comment u)
  /\ is_u64 (pu_created_at u) /\ is_u64 (pu_expires_at u).
Lemma user_good u : user_ok u -> cgood user_keys (user_fields u).
Proof. intros (H1 & H2 & H3 & H4 & H5 & H6 & H7). unfold user_fields. good_lines. Qed.
Lemma user_closes u : user_ok u -> closes first_brace "      " (user_fields u).
Proof. intros (H1 & H2 & H3 & H4 & H5 & H6 & H7). apply flat_closes; [by apply plain_bool|]. unfold user_fields. flat_lines. Qed.
Lemma user_back now i u : user_ok u -> load_user now i (render (obj_toks "      " (user_fields u))) = u.
Proof.
  intros Hok. assert (Hd : cdoc (obj_toks "      " (user_fields u))) by (eapply obj_toks_doc; [by apply user_good|by apply plain_bool]).
  destruct Hok as (H1 & H2 & H3 & H4 & H5 & H6 & H7). unfold load_user. destruct u. f_equal; one_field.
Qed.

Record pppoe_ok (p : pppoe_server_config_t) : Prop := PppoeOk {
  pso_mode : txt 16 (ps_lan_mode p);
  pso_if : txt 32 (ps_interface p);
  pso_service : txt 64 (ps_service_name p);
  pso_ac : txt 64 (ps_ac_name p);
  pso_local : txt 32 (ps_local_ip p);
  pso_start : txt 32 (ps_pool_start p);
  pso_end : txt 32 (ps_pool_end p);
  pso_count : is_u32 (ps_pool_count p);
  pso_dns1 : txt 32 (ps_dns1 p);
  pso_dns2 : txt 32 (ps_dns2 p);
  pso_mru : is_u16 (ps_mru p);
  pso_mss : is_u16 (ps_mss p);
  pso_radius : radius_ok (ps_radius p);
  pso_profiles : Forall profile_ok (ps_profiles p) /\ Z.of_nat (length (ps_profiles p)) <= MAX_PPPOE_PROFILES;
  pso_users : Forall user_ok (ps_users p) /\ Z.of_nat (length (ps_users p)) <= MAX_PPPOE_USERS
}.

Definition reload_pppoe (p : pppoe_server_config_t) : pppoe_server_config_t :=
  PppoeServerConfig (ps_enabled p) (or_else_text (ps_lan_mode p) "dual") (or_else_text (ps_interface p) "eth0")
    (or_else_text (ps_service_name p) "FluxWAN-Broadband") (or_else_text (ps_ac_name p) "FluxWAN-BRAS")
    (or_else_text (ps_local_ip p) "10.100.0.1") (or_else_text (ps_pool_start p) "10.100.0.2")
    (or_else_text (ps_pool_end p) "10.100.0.254") (or_num (ps_pool_count p) 250) (or_else_text (ps_dns1 p) "1.1.1.1")
    (or_else_text (ps_dns2 p) "8.8.8.8") (or_num (ps_mru p) 1492) (or_num (ps_mss p) 1452) (reload_radius (ps_radius p))
    (match ps_profiles p with [] => default_profiles | ps => ps end) (ps_users p).

Definition profiles_toks (p : pppoe_server_config_t) : list tok := arr_toks "    " "profiles" "      " "    " [44; 10] profile_fields (ps_profiles p).
Definition users_toks (p : pppoe_server_config_t) : list tok := arr_toks "    " "users" "      " "    " [10] user_fields (ps_users p).

Lemma pppoe_tokens_eq p :
  pppoe_server_tokens p
  = jblock "  " "pppoe_server" (pppoe_fields p ++ radius_tokens (ps_radius p) ++ [ln ","] ++ profiles_toks p ++ users_toks p) ",".
Proof.
  unfold pppoe_server_tokens, profiles_toks, users_toks, arr_toks. do 2 f_equal. f_equal. cbn [app]. do 4 f_equal.
  by rewrite <- app_assoc.
Qed.

Section Pppoe.
Context (p : pppoe_server_config_t) (Hok : pppoe_ok p).

Lemma profiles_good : cgood profile_keys (profiles_toks p).
Proof.
  destruct Hok. apply (arr_good profile_keys "    " "profiles" "      " "    " [44; 10] profile_fields profile_ok);
    [by vm_compute|done|by apply plain_bool..|apply profile_good|tauto].
Qed.
Lemma users_good : cgood user_keys (users_toks p).
Proof.
  destruct Hok. apply (arr_good user_keys "    " "users" "      " "    " [10] user_fields user_ok);
    [by vm_compute|done|by apply plain_bool..|apply user_good|tauto].
Qed.
Lemma pppoe_good : cgood pppoe_keys (pppoe_server_tokens p).
Proof.
  rewrite pppoe_tokens_eq. apply good_jblock; [by apply plain_bool|done|by vm_compute|auto with cfg|].
  apply good_app; [destruct Hok; unfold pppoe_fields; good_lines|].
  apply good_app; [eapply good_weaken; [|apply radius_good, pso_radius, Hok]; by vm_compute|].
  apply good_app; [apply good_lit; by apply plain_bool|].
  apply good_app; (eapply good_weaken; [|first [apply profiles_good|apply users_good]]; by vm_compute).
Qed.

Abbreviation after_radius rest := ([ln ","] ++ profiles_toks p ++ users_toks p ++ ln "  }," :: rest).
Abbreviation inside rest := (Key "pppoe_server" :: ln ": {" :: pppoe_fields p ++ radius_tokens (ps_radius p) ++ after_radius rest).

Lemma pppoe_found rest :
  find_key "pppoe_server" (pppoe_server_tokens p ++ rest)
  = Some (ln ": {" :: pppoe_fields p ++ radius_tokens (ps_radius p) ++ after_radius rest).
Proof.
  rewrite pppoe_tokens_eq. unfold jblock. cbn [app find_key lit].
  change (bool_decide (bytes_of_string "pppoe_server" = bytes_of_string "pppoe_server")) with true. cbv iota. rewrite <- !app_assoc. cbn [app]. by rewrite <- app_assoc.
Qed.

Lemma profiles_back rest :
  cdoc (inside rest) ->
  load_objects first_brace MAX_PPPOE_PROFILES load_profile (strstr (render (inside rest)) (quoted "profiles")) = ps_profiles p.
Proof.
  intros Hd. destruct (pso_profiles _ Hok) as [H1 H2]. etransitivity; [|apply (list_fmap_id (ps_profiles p))].
  apply (arr_back profile_keys "    " "profiles" "      " "    " [44; 10] profile_fields id profile_ok) with (T := users_toks p ++ ln "  }," :: rest);
    [is_key|done|by apply plain_bool..|apply profile_good|apply profile_closes|apply profile_back|done|done
    |unfold MAX_PPPOE_PROFILES in *; lia|reflexivity].
Qed.
Lemma users_back now rest :
  cdoc (inside rest) ->
  load_objects first_brace MAX_PPPOE_USERS (load_user now) (strstr (render (inside rest)) (quoted "users")) = ps_users p.
Proof.
  intros Hd. destruct (pso_users _ Hok) as [H1 H2]. etransitivity; [|apply (list_fmap_id (ps_users p))].
  apply (arr_back user_keys "    " "users" "      " "    " [10] user_fields id user_ok) with (T := ln "  }," :: rest);
    [is_key|done|by apply plain_bool..|apply user_good|apply user_closes|intros; by apply user_back|done|done
    |unfold MAX_PPPOE_USERS in *; lia|].
  transitivity (find_key "users" (profiles_toks p ++ users_toks p ++ ln "  }," :: rest)); [reflexivity|].
  by rewrite (good_skip reserved profile_keys) by (done || apply profiles_good).
Qed.

Lemma pppoe_back now lan l rest :
  cdoc l -> find_key "pppoe_server" l = find_key "pppoe_server" (pppoe_server_tokens p ++ rest) ->
  load_pppoe_server now lan (render l) = reload_pppoe p.
Proof.
  intros Hd Hf. rewrite pppoe_found in Hf. unfold load_pppoe_server.
  rewrite (strstr_at "pppoe_server" l ltac:(is_key) Hd _ Hf). pose proof (find_key_doc _ _ _ _ Hd Hf) as H. clear Hd Hf.
  rewrite (radius_back _ (after_radius rest) (ps_radius p) H (pso_radius _ Hok) ltac:(reflexivity)).
  rewrite profiles_back, users_back by done. destruct Hok. unfold reload_pppoe.
  erewrite (copied_at "interface"); [|is_key|exact H|reflexivity|fits|fits]. cbn [default].
  destruct (ps_profiles p); f_equal; one_field.
Qed.
End Pppoe.

(** ** Virtual private networks *)

Definition wg_keys : list cstring := map bytes_of_string
  ["wireguard"; "enabled"; "interface"; "listen_port"; "address"; "private_key"; "public_key"; "allow_remote_mgmt"; "peers"; "name";
   "client_private_key"; "preshared_key"; "allowed_ips"; "endpoint"; "persistent_keepalive"]%string.
Definition zt_keys : list cstring := map bytes_of_string
  ["zerotier"; "enabled"; "node_id"; "allow_remote_mgmt"; "networks"; "nwid"; "name"]%string.
Definition ts_keys : list cstring := map bytes_of_string
  ["tailscale"; "enabled"; "auth_key"; "hostname"; "login_server"; "advertise_routes"; "accept_routes"; "is_exit_node";
   "allow_remote_mgmt"]%string.
Definition vpn_keys : list cstring := bytes_of_string "vpn" :: wg_keys ++ zt_keys ++ ts_keys.

(** *** Peers *)

Record peer_ok (p : wireguard_peer_t) : Prop := PeerOk {
  weo_name : txt 64 (wp_name p);
  weo_public : txt 64 (wp_public_key p);
  weo_nonempty : wp_public_key p <> [];
  weo_client : txt 64 (wp_client_private_key p);
  weo_psk : txt 64 (wp_preshared_key p);
  weo_allowed : txt 128 (wp_allowed_ips p);
  weo_endpoint : txt 128 (wp_endpoint p);
  weo_keepalive : is_u16 (wp_persistent_keepalive p)
}.
Definition reload_peer (p : wireguard_peer_t) : wireguard_peer_t :=
  WireguardPeer (wp_name p) (wp_public_key p) (wp_client_private_key p) (wp_preshared_key p) (wp_allowed_ips p) (wp_endpoint p)
    (wp_persistent_keepalive p) (wp_enabled p) 0 0 0 [].

Lemma peer_good p : peer_ok p -> cgood wg_keys (peer_fields p).
Proof. intros []. unfold peer_fields. good_lines. Qed.
Lemma peer_back p : peer_ok p -> load_peer (render (obj_toks "        " (peer_fields p))) = reload_peer p.
Proof.
  intros Hok. assert (Hd : cdoc (obj_toks "        " (peer_fields p))) by (eapply obj_toks_doc; [by apply peer_good|by apply plain_bool]).
  destruct Hok. unfold load_peer, reload_peer.
  destruct (empty (wp_client_private_key p)) eqn:He.
  - assert (Hc : read_text (render (obj_toks "        " (peer_fields p))) "client_private_key" 64 = []).
    { unfold read_text. rewrite text_none; [done|is_key|done|]. unfold peer_fields. rewrite He. reflexivity. }
    rewrite Hc, (empty_text _ He). unfold peer_fields in *. rewrite He in *. f_equal; one_field.
  - unfold peer_fields in *. rewrite He in *. f_equal; one_field.
Qed.

(** *** WireGuard *)

Record wireguard_ok (w : wireguard_config_t) : Prop := WireguardOk {
  wgo_if : txt 32 (wg_interface w);
  wgo_port : is_u16 (wg_listen_port w);
  wgo_address : txt 64 (wg_address w);
  wgo_private : txt 64 (wg_private_key w);
  wgo_public : txt 64 (wg_public_key w);
  wgo_peers : Forall peer_ok (wg_peers w) /\ Z.of_nat (length (wg_peers w)) <= MAX_WG_PEERS
}.
Definition reload_wireguard (w : wireguard_config_t) : wireguard_config_t :=
  WireguardConfig (wg_enabled w) (or_else_text (wg_interface w) "wg0") (or_num (wg_listen_port w) 51820)
    (or_else_text (wg_address w) "10.250.0.1/24") (wg_private_key w) (wg_public_key w) (wg_allow_remote_mgmt w) (reload_peer <$> wg_peers w).

Definition peers_toks (w : wireguard_config_t) : list tok := arr_toks "      " "peers" "        " "      " [10] peer_fields (wg_peers w).

Lemma wireguard_good w : wireguard_ok w -> cgood wg_keys (wireguard_fields w).
Proof.
  intros []. unfold wireguard_fields. repeat (apply good_app; [solve [good_lines]|]).
  apply (arr_good wg_keys "      " "peers" "        " "      " [10] peer_fields peer_ok);
    [by vm_compute|done|by apply plain_bool..|apply peer_good|tauto].
Qed.

(** The object under a key, in a document. *)
Lemma object_at K k l ind fs d rest :
  k ∈ reserved -> cdoc l -> plain (bytes_of_string ind) -> cgood K fs ->
  find_key k l = Some (ln ": {" :: fs ++ Lit (bytes_of_string ind ++ 125 :: d) :: rest) ->
  object_of k (render l) = Some (render (obj_toks ind fs)).
Proof.
  intros Hk Hd Hi Hg Hf. unfold object_of. erewrite strstr_at; [|exact Hk|exact Hd|exact Hf]. cbn [mbind option_bind].
  pose proof reserved_short as HR. eapply Forall_forall in HR as [Hko _]; [|exact Hk].
  apply (json_object_text reserved K) with (rest := d ++ render rest); [done..|].
  rewrite render_cons, render_app, render_cons. cbn [tok_text ln]. rewrite <- !app_assoc. cbn [app]. by rewrite <- !app_assoc.
Qed.

Lemma wireguard_back w l d rest :
  wireguard_ok w -> cdoc l ->
  find_key "wireguard" l = Some (ln ": {" :: wireguard_fields w ++ Lit (bytes_of_string "    " ++ 125 :: d) :: rest) ->
  load_wireguard (Some (render l)) = reload_wireguard w.
Proof.
  intros Hok Hd Hf. unfold load_wireguard. cbn [mbind option_bind].
  rewrite (object_at wg_keys "wireguard" l "    " (wireguard_fields w) d rest ltac:(is_key) Hd ltac:(by apply plain_bool) (wireguard_good _ Hok) Hf).
  assert (H : cdoc (obj_toks "    " (wireguard_fields w))) by (eapply obj_toks_doc; [by apply wireguard_good|by apply plain_bool]).
  destruct Hok. destruct wgo_peers0 as [P1 P2]. unfold reload_wireguard. f_equal; try one_field.
  apply (arr_keyed_back wg_keys "      " "peers" "        " "      " [10] peer_fields reload_peer peer_ok)
    with (T := [Lit (bytes_of_string "    " ++ [125])]);
    [is_key|done|by apply plain_bool..|apply peer_good|apply peer_back|by intros x []|done|done|unfold MAX_WG_PEERS in *; lia|].
  unfold obj_toks, wireguard_fields, arr_toks. rewrite <- !app_assoc. reflexivity.
Qed.

(** *** ZeroTier *)

Definition network_ok (n : zerotier_network_t) : Prop := txt 32 (zn_nwid n) /\ zn_nwid n <> [] /\ txt 64 (zn_name n).
Definition reload_network (n : zerotier_network_t) : zerotier_network_t :=
  ZerotierNetwork (zn_nwid n) (zn_name n) (zn_enabled n) [] [] [] [] 0.

Lemma network_good n : network_ok n -> cgood zt_keys (network_fields n).
Proof. intros (H1 & H2 & H3). unfold network_fields. good_lines. Qed.
Lemma network_back n : network_ok n -> load_network (render (obj_toks "        " (network_fields n))) = reload_network n.
Proof.
  intros Hok. assert (Hd : cdoc (obj_toks "        " (network_fields n))) by (eapply obj_toks_doc; [by apply network_good|by apply plain_bool]).
  destruct Hok as (H1 & H2 & H3). unfold load_network, reload_network. f_equal; one_field.
Qed.

Record zerotier_ok (z : zerotier_config_t) : Prop := ZerotierOk {
  zto_node : txt 32 (zt_node_id z);
  zto_networks : Forall network_ok (zt_networks z) /\ Z.of_nat (length (zt_networks z)) <= MAX_ZT_NETWORKS
}.
Definition reload_zerotier (z : zerotier_config_t) : zerotier_config_t :=
  ZerotierConfig (zt_enabled z) (zt_node_id z) (zt_allow_remote_mgmt z) (reload_network <$> zt_networks z).

Lemma zerotier_good z : zerotier_ok z -> cgood zt_keys (zerotier_fields z).
Proof.
  intros []. unfold zerotier_fields. repeat (apply good_app; [solve [good_lines]|]).
  apply (arr_good zt_keys "      " "networks" "        " "      " [10] network_fields network_ok);
    [by vm_compute|done|by apply plain_bool..|apply network_good|tauto].
Qed.

Lemma zerotier_back z l d rest :
  zerotier_ok z -> cdoc l ->
  find_key "zerotier" l = Some (ln ": {" :: zerotier_fields z ++ Lit (bytes_of_string "    " ++ 125 :: d) :: rest) ->
  load_zerotier (Some (render l)) = reload_zerotier z.
Proof.
  intros Hok Hd Hf. unfold load_zerotier. cbn [mbind option_bind].
  rewrite (object_at zt_keys "zerotier" l "    " (zerotier_fields z) d rest ltac:(is_key) Hd ltac:(by apply plain_bool) (zerotier_good _ Hok) Hf).
  assert (H : cdoc (obj_toks "    " (zerotier_fields z))) by (eapply obj_toks_doc; [by apply zerotier_good|by apply plain_bool]).
  destruct Hok. destruct zto_networks0 as [P1 P2]. unfold reload_zerotier. f_equal; try one_field.
  apply (arr_keyed_back zt_keys "      " "networks" "        " "      " [10] network_fields reload_network network_ok)
    with (T := [Lit (bytes_of_string "    " ++ [125])]);
    [is_key|done|by apply plain_bool..|apply network_good|apply network_back|by intros x (_ & Hne & _)|done|done|unfold MAX_ZT_NETWORKS in *; lia|].
  unfold obj_toks, zerotier_fields, arr_toks. rewrite <- !app_assoc. reflexivity.
Qed.

(** *** Tailscale *)

Definition tailscale_ok (t : tailscale_config_t) : Prop :=
  txt 128 (ts_auth_key t) /\ txt 64 (ts_hostname t) /\ txt 128 (ts_login_server t) /\ txt 128 (ts_advertise_routes t).
Definition reload_tailscale (t : tailscale_config_t) : tailscale_config_t :=
  TailscaleConfig (ts_enabled t) (ts_auth_key t) (or_else_text (ts_hostname t) "FluxWAN") (ts_login_server t) (ts_advertise_routes t)
    (ts_accept_routes t) (ts_is_exit_node t) (ts_allow_remote_mgmt t) [] [] [] [] [].

Lemma tailscale_good t : tailscale_ok t -> cgood ts_keys (tailscale_fields t).
Proof. intros (H1 & H2 & H3 & H4). unfold tailscale_fields. good_lines. Qed.
Lemma tailscale_back t l d rest :
  tailscale_ok t -> cdoc l ->
  find_key "tailscale" l = Some (ln ": {" :: tailscale_fields t ++ Lit (bytes_of_string "    " ++ 125 :: d) :: rest) ->
  load_tailscale (Some (render l)) = reload_tailscale t.
Proof.
  intros Hok Hd Hf. unfold load_tailscale. cbn [mbind option_bind].
  rewrite (object_at ts_keys "tailscale" l "    " (tailscale_fields t) d rest ltac:(is_key) Hd ltac:(by apply plain_bool) (tailscale_good _ Hok) Hf).
  assert (H : cdoc (obj_toks "    " (tailscale_fields t))) by (eapply obj_toks_doc; [by apply tailscale_good|by apply plain_bool]).
  destruct Hok as (H1 & H2 & H3 & H4). unfold reload_tailscale. f_equal; one_field.
Qed.

(** *** The block *)

Definition vpn_ok (v : vpn_config_t) : Prop :=
  wireguard_ok (vpn_wireguard v) /\ zerotier_ok (vpn_zerotier v) /\ tailscale_ok (vpn_tailscale v).
Definition reload_vpn (v : vpn_config_t) : vpn_config_t :=
  VpnConfig (reload_wireguard (vpn_wireguard v)) (reload_zerotier (vpn_zerotier v)) (reload_tailscale (vpn_tailscale v)).

Definition vpn_fields (v : vpn_config_t) : list tok :=
  wireguard_tokens (vpn_wireguard v) ++ zerotier_tokens (vpn_zerotier v) ++ tailscale_tokens (vpn_tailscale v).

Section Vpn.
Context (v : vpn_config_t) (Hok : vpn_ok v).

Lemma wg_block_good : cgood wg_keys (wireguard_tokens (vpn_wireguard v)).
Proof. apply good_jblock; [by apply plain_bool|done|by vm_compute|auto with cfg|]. apply wireguard_good, Hok. Qed.
Lemma zt_block_good : cgood zt_keys (zerotier_tokens (vpn_zerotier v)).
Proof. apply good_jblock; [by apply plain_bool|done|by vm_compute|auto with cfg|]. apply zerotier_good, Hok. Qed.
Lemma ts_block_good : cgood ts_keys (tailscale_tokens (vpn_tailscale v)).
Proof. apply good_jblock; [by apply plain_bool|done|by vm_compute|auto with cfg|]. apply tailscale_good, Hok. Qed.
Lemma vpn_fields_good : cgood vpn_keys (vpn_fields v).
Proof.
  unfold vpn_fields. apply good_app; [|apply good_app].
  - eapply good_weaken; [|apply wg_block_good]; by vm_compute.
  - eapply good_weaken; [|apply zt_block_good]; by vm_compute.
  - eapply good_weaken; [|apply ts_block_good]; by vm_compute.
Qed.
Lemma vpn_good : cgood vpn_keys (vpn_tokens v).
Proof.
  pose proof (good_braced vpn_keys "  " "vpn" (vpn_fields v) []) as H. unfold vpn_fields in H. rewrite <- !app_assoc in H.
  apply H; [by apply plain_bool|done|by vm_compute|constructor|apply vpn_fields_good].
Qed.

Lemma jblock_found key fs sep T :
  find_key (bytes_of_string key) (jblock "    " key fs sep ++ T)
  = Some (ln ": {" :: fs ++ Lit (bytes_of_string "    " ++ 125 :: bytes_of_string sep ++ [10]) :: T).
Proof.
  unfold jblock. cbn [app find_key lit]. rewrite bool_decide_true by done. rewrite <- app_assoc. unfold ln. by rewrite !bytes_app, <- !app_assoc.
Qed.

Lemma vpn_back l rest :
  cdoc l -> find_key "vpn" l = find_key "vpn" (vpn_tokens v ++ rest) -> load_vpn (render l) = reload_vpn v.
Proof.
  intros Hd Hf. unfold load_vpn.
  assert (Hf' : find_key "vpn" l = Some (ln ": {" :: vpn_fields v ++ Lit (bytes_of_string "  " ++ 125 :: []) :: rest)).
  { rewrite Hf. unfold vpn_tokens, vpn_fields. rewrite <- !app_assoc. reflexivity. }
  rewrite (object_at vpn_keys "vpn" l "  " (vpn_fields v) [] rest ltac:(is_key) Hd ltac:(by apply plain_bool) vpn_fields_good Hf').
  assert (H : cdoc (obj_toks "  " (vpn_fields v))) by (eapply obj_toks_doc; [by apply vpn_fields_good|by apply plain_bool]).
  destruct Hok as (H1 & H2 & H3). unfold reload_vpn. f_equal.
  - eapply wireguard_back; [done|exact H|]. rewrite find_key_obj. unfold vpn_fields. rewrite <- app_assoc. apply jblock_found.
  - eapply zerotier_back; [done|exact H|]. rewrite find_key_obj. unfold vpn_fields. rewrite <- !app_assoc.
    rewrite (good_skip reserved wg_keys) by (done || apply wg_block_good). apply jblock_found.
  - eapply tailscale_back; [done|exact H|]. rewrite find_key_obj. unfold vpn_fields. rewrite <- !app_assoc.
    rewrite (good_skip reserved wg_keys) by (done || apply wg_block_good).
    rewrite (good_skip reserved zt_keys) by (done || apply zt_block_good). apply jblock_found.
Qed.
End Vpn.

(** ** Address lists *)

Definition al_keys : list cstring := map bytes_of_string
  ["address_lists"; "name"; "description"; "target_type"; "target_id"; "target_name"; "enabled"; "entries"]%string.

Definition entry_ok (e : address_list_entry_t) : Prop := txt MAX_ENTRY_STR_LEN (ae_value e) /\ ae_value e <> [].
Record al_ok (al : address_list_t) : Prop := AlOk {
  alo_name : txt 64 (al_name al);
  alo_description : txt 128 (al_description al);
  alo_type : txt 16 (al_target_type al);
  alo_id : is_u32 (al_target_id al);
  alo_target : txt 64 (al_target_name al);
  alo_entries : Forall entry_ok (al_entries al) /\ Z.of_nat (length (al_entries al)) <= MAX_ENTRIES_PER_LIST
}.
Definition reload_al (al : address_list_t) : address_list_t :=
  AddressList (al_name al) (al_description al) (or_else_text (al_target_type al) "group") (al_target_id al) (al_target_name al)
    (al_enabled al) ((fun e => load_entry (ae_value e)) <$> al_entries al).

Lemma entry_good e sep : entry_ok e -> is_sep sep -> cgood al_keys (entry_tokens e sep).
Proof.
  intros [(H1 & H2 & _) _] Hs. unfold entry_tokens, lit, ln.
  assert (Hsp : plain (bytes_of_string sep ++ [10])) by (apply plain_app; split; [by apply sep_plain|by apply plain_nl]).
  assert (Hf : flat [Lit (bytes_of_string "        "); Str (ae_value e); Lit (bytes_of_string sep ++ [10])]).
  { constructor; [by apply plain_bool|]. constructor; [done|]. by constructor. }
  split; [| |by apply flat_bracket_neutral|by apply flat_brace_neutral|by apply flat_no_char].
  - apply wf_block_lit; [by repeat constructor|].
    destruct Hs as [-> | ->]; (apply wf_block_str; [by apply plain_no_char|done..|apply wf_block_lit; [by repeat constructor|apply wf_block_nil]]).
  - constructor; [done|]. constructor; [done|]. by constructor.
Qed.
Lemma entries_good es : Forall entry_ok es -> cgood al_keys (comma_list entry_tokens es).
Proof. intros H. apply good_comma. intros e sep He Hs. apply entry_good; [|done]. by eapply Forall_forall in H. Qed.

Lemma al_good al : al_ok al -> cgood al_keys (address_list_fields al).
Proof.
  intros []. unfold address_list_fields. repeat (apply good_app; [solve [good_lines]|]).
  apply (good_array reserved al_keys (bytes_of_string "      ") "entries" [10] (comma_list entry_tokens (al_entries al)) (bytes_of_string "      ") [10]);
    [by apply plain_bool|done|by vm_compute|by apply plain_bool..|]. apply entries_good. tauto.
Qed.

Lemma entries_back l T es :
  cdoc l -> Forall entry_ok es -> Z.of_nat (length es) <= MAX_ENTRIES_PER_LIST ->
  find_key "entries" l = Some (ln ": [" :: comma_list entry_tokens es ++ ln "      ]" :: T) ->
  load_entries (strstr (render l) (quoted "entries")) = (fun e => load_entry (ae_value e)) <$> es.
Proof.
  intros Hd Hes Hlen Hf. erewrite strstr_at; [|is_key|exact Hd|exact Hf]. unfold load_entries. cbn [mbind option_bind].
  rewrite (json_array_text _ _ ([10] ++ render (comma_list entry_tokens es) ++ bytes_of_string "      ") (10 :: render T)).
  - change (91 :: [10] ++ ?x) with (91 :: [10] ++ x). rewrite entries_text; [|by apply plain_bool..|].
    + rewrite filter_keeps by (apply Forall_fmap; eapply Forall_impl; [exact Hes|]; by intros e [_ He]).
      rewrite take_ge by (rewrite length_fmap; unfold MAX_ENTRIES_PER_LIST in *; lia). by rewrite <- list_fmap_compose.
    + eapply Forall_impl; [exact Hes|]. by intros e [(He & _) _].
  - by apply key_ok_bool.
  - rewrite render_cons, render_app, render_cons. cbn [tok_text ln]. by rewrite <- !app_assoc.
  - repeat apply bracket_neutral_app; [by apply neutral_plain, plain_bool|apply (good_brackets reserved al_keys), entries_good; done|by apply neutral_plain, plain_bool].
Qed.

Lemma al_back i al : al_ok al -> load_address_list i (render (obj_toks "    " (address_list_fields al))) = reload_al al.
Proof.
  intros Hok. assert (Hd : cdoc (obj_toks "    " (address_list_fields al))) by (eapply obj_toks_doc; [by apply al_good|by apply plain_bool]).
  destruct Hok. destruct alo_entries0 as [E1 E2]. unfold load_address_list, reload_al.
  rewrite (entries_back _ [Lit (bytes_of_string "    " ++ [125])] (al_entries al) Hd E1 E2).
  - f_equal; one_field.
  - unfold obj_toks, address_list_fields. rewrite <- !app_assoc. reflexivity.
Qed.

Definition als_ok (als : list address_list_t) : Prop := Forall al_ok als /\ Z.of_nat (length als) <= MAX_ADDRESS_LISTS.

Lemma als_good als : als_ok als -> cgood al_keys (address_lists_tokens als).
Proof.
  intros [Hok _]. unfold address_lists_tokens. destruct als as [|a als]; [apply good_lit; by apply plain_bool|].
  change ([ln ","; lit "  "; Key "address_lists"; ln ": ["] ++ ?x) with ([ln ","] ++ [lit "  "; Key "address_lists"; ln ": ["] ++ x).
  apply good_app; [apply good_lit; by apply plain_bool|].
  apply (arr_good al_keys "  " "address_lists" "    " "  " [10] address_list_fields al_ok);
    [by vm_compute|done|by apply plain_bool..|apply al_good|done].
Qed.

Lemma als_back l rest als :
  cdoc l -> als_ok als -> find_key "address_lists" l = find_key "address_lists" (address_lists_tokens als ++ rest) ->
  find_key "address_lists" rest = None ->
  load_objects find_matching_brace MAX_ADDRESS_LISTS load_address_list (strstr (render l) (quoted "address_lists")) = reload_al <$> als.
Proof.
  intros Hd [Hok Hlen] Hf Hr. destruct als as [|a als].
  - rewrite strstr_absent; [done|is_key|done|]. rewrite Hf. exact Hr.
  - apply (arr_back al_keys "  " "address_lists" "    " "  " [10] address_list_fields reload_al al_ok) with (T := rest);
      [is_key|done|by apply plain_bool..|apply al_good| |apply al_back|done|done|unfold MAX_ADDRESS_LISTS in *; lia|].
    + intros x Hx. eapply closes_match; [by apply plain_bool|by apply al_good].
    + rewrite Hf. unfold address_lists_tokens, arr_toks. rewrite <- !app_assoc. reflexivity.
Qed.
