(* ===== verification/ConfigRound.v ===== *)
(** * The configuration file as a whole

    What [config_load] makes of a file that [config_save] wrote; what the validation of the uplinks
    means; how far the import of a backup trusts its text. *)

From S2P Require Import Prelude Fluxwan Ipv4 CLib Json JsonText ProxyUri ConfigLoad ConfigSave JsonBlocks ConfigSpec ConfigLan ConfigWan.
From S2P Require Import ConfigServices.

(** ** Configurations that can be written and read back *)

Record config_ok (c : fluxwan_config_t) : Prop := ConfigOk {
  co_lan : lan_ok (c_lan c);
  co_groups : Forall group_ok (c_groups c) /\ Z.of_nat (length (c_groups c)) <= MAX_WAN_GROUPS;
  co_wans : Forall wan_ok (c_wans c) /\ Z.of_nat (length (c_wans c)) <= MAX_WANS;
  co_prober : prober_ok (c_prober c);
  co_sticky : sticky_ok (c_sticky c);
  co_app : app_steering_ok (c_app_steering c);
  co_telegram : telegram_ok (c_telegram c);
  co_web : web_ok (c_web c);
  co_auth : auth_ok (c_auth c);
  co_nat46 : nat46_ok (c_nat46 c);
  co_dpi : dpi_ok (c_dpi c);
  co_stealth : stealth_ok (c_stealth c);
  co_pppoe : pppoe_ok (c_pppoe_server c);
  co_vpn : vpn_ok (c_vpn c);
  co_lists : als_ok (c_address_lists c)
}.

(** What is left of a configuration: defaults in place of empty values, no run-time state, the
    identifiers made unique and the names resolved. *)
Definition reload (path : cstring) (c : fluxwan_config_t) : fluxwan_config_t :=
  let lan := reload_lan (c_lan c) in
  let wans := unique_wans (reload_wan <$> c_wans c) in
  let groups := resolve_members wans <$> (reload_group <$> c_groups c) in
  FluxwanConfig (set_lan_policies (resolve_policy groups <$> lan_policy_routes lan) lan) wans groups (reload_prober (c_prober c))
    (c_sticky c) (c_telegram c) (c_nat46 c) (reload_stealth (c_stealth c))
    (resolve_target wans groups <$> (reload_al <$> c_address_lists c)) (c_app_steering c) (c_web c) (c_auth c) (c_dpi c)
    (reload_pppoe (c_pppoe_server c)) (reload_vpn (c_vpn c)) path.

Lemma find_key_ln k s l : find_key k ([ln s] ++ l) = find_key k l.
Proof. done. Qed.

Section Whole.
Context (c : fluxwan_config_t) (Hok : config_ok c).

Definition services (T : list tok) : list tok :=
  pppoe_server_tokens (c_pppoe_server c) ++ vpn_tokens (c_vpn c) ++ address_lists_tokens (c_address_lists c) ++ T.
Definition scalars (T : list tok) : list tok :=
  prober_tokens (c_prober c) ++ sticky_tokens (c_sticky c) ++ app_steering_tokens (c_app_steering c) ++
  telegram_tokens (c_telegram c) ++ web_tokens (c_web c) ++ auth_tokens (c_auth c) ++ nat46_tokens (c_nat46 c) ++
  dpi_tokens (c_dpi c) ++ stealth_tokens (c_stealth c) ++ T.
Definition groups_toks : list tok := top_array "groups" group_tokens (c_groups c).
Definition wans_toks : list tok := top_array "wans" wan_tokens (c_wans c).

(** The file with [e] in place of the newline after its last brace: the import of a backup cuts it. *)
Definition file_toks (e : cstring) : list tok :=
  [ln "{"] ++ lan_tokens (c_lan c) ++ groups_toks ++ wans_toks ++ scalars (services [Lit (125 :: e)]).
Lemma config_tokens_eq : config_tokens c = file_toks [10].
Proof. done. Qed.

Context (e : cstring) (He : no_char 34 e).

Definition service_keys : list cstring := pppoe_keys ++ vpn_keys ++ al_keys.
Definition after_keys : list cstring := scalar_keys ++ service_keys.

Lemma groups_good : cgood group_keys groups_toks.
Proof.
  apply (top_array_good group_keys "groups" group_fields group_ok); [by vm_compute|done|apply group_good|apply co_groups, Hok].
Qed.
Lemma wans_good : cgood wan_keys wans_toks.
Proof.
  apply (top_array_good wan_keys "wans" wan_fields wan_ok); [by vm_compute|done|apply wan_good|apply co_wans, Hok].
Qed.
Lemma services_good : cgood service_keys (services []).
Proof.
  destruct Hok. unfold services. apply good_app; [|apply good_app; [|apply good_app]].
  - eapply good_weaken; [|by apply pppoe_good]; by vm_compute.
  - eapply good_weaken; [|by apply vpn_good]; by vm_compute.
  - eapply good_weaken; [|by apply als_good]; by vm_compute.
  - apply good_nil.
Qed.
Lemma scalars_good K T : forallb (fun k => memb k K) scalar_keys = true -> cgood K T -> cgood K (scalars T).
Proof.
  intros HK HT. destruct Hok. unfold scalars.
  apply good_app; [eapply good_weaken; [exact HK|by apply prober_good]|].
  apply good_app; [eapply good_weaken; [exact HK|by apply sticky_good]|].
  apply good_app; [eapply good_weaken; [exact HK|by apply app_steering_good]|].
  apply good_app; [eapply good_weaken; [exact HK|by apply telegram_good]|].
  apply good_app; [eapply good_weaken; [exact HK|by apply web_good]|].
  apply good_app; [eapply good_weaken; [exact HK|by apply auth_good]|].
  apply good_app; [eapply good_weaken; [exact HK|by apply nat46_good]|].
  apply good_app; [eapply good_weaken; [exact HK|by apply dpi_good]|].
  apply good_app; [eapply good_weaken; [exact HK|by apply stealth_good]|done].
Qed.
Lemma after_good : cgood after_keys (scalars (services [])).
Proof. apply scalars_good; [by vm_compute|]. eapply good_weaken; [|apply services_good]; by vm_compute. Qed.

Lemma after_end T : scalars (services T) = scalars (services []) ++ T.
Proof. unfold scalars, services. rewrite <- !app_assoc. done. Qed.
Lemma scalars_app T : scalars T = scalars [] ++ T.
Proof. unfold scalars. rewrite <- !app_assoc. done. Qed.

(** The text between the outer braces. *)
Definition inside_toks : list tok := lan_tokens (c_lan c) ++ groups_toks ++ wans_toks ++ scalars (services []).
Definition inside_keys : list cstring := lan_keys ++ group_keys ++ wan_keys ++ after_keys.
Lemma inside_good : cgood inside_keys inside_toks.
Proof.
  unfold inside_toks. apply good_app; [|apply good_app; [|apply good_app]].
  - eapply good_weaken; [|apply lan_good, Hok]; by vm_compute.
  - eapply good_weaken; [|apply groups_good]; by vm_compute.
  - eapply good_weaken; [|apply wans_good]; by vm_compute.
  - eapply good_weaken; [|apply after_good]; by vm_compute.
Qed.
Lemma file_text : render (file_toks e) = 123 :: (10 :: render inside_toks) ++ 125 :: e.
Proof.
  unfold file_toks, inside_toks. rewrite after_end, !app_assoc. rewrite render_app, <- !app_assoc, render_app.
  change (render [ln "{"]) with [123; 10]. change (render [Lit (125 :: e)]) with (125 :: e ++ []).
  rewrite app_nil_r. done.
Qed.

Lemma config_doc : cdoc (file_toks e).
Proof.
  unfold file_toks. rewrite after_end.
  assert (H0 : cdoc [Lit (125 :: e)]).
  { split; [split; [|done]|by repeat constructor]. by constructor. }
  assert (H : cdoc (lan_tokens (c_lan c) ++ groups_toks ++ wans_toks ++ scalars (services []) ++ [Lit (125 :: e)])).
  { apply (good_doc reserved lan_keys); [apply lan_good, Hok|].
    apply (good_doc reserved group_keys); [apply groups_good|]. apply (good_doc reserved wan_keys); [apply wans_good|].
    apply (good_doc reserved after_keys); [apply after_good|done]. }
  destruct H as [H1 H2]. split; [|by constructor]. split; [by repeat constructor|exact H1].
Qed.

(** *** Where the blocks are *)

Lemma to_lan : find_key "lan" (file_toks e) = find_key "lan" (lan_tokens (c_lan c) ++ groups_toks ++ wans_toks ++ scalars (services [Lit (125 :: e)])).
Proof. done. Qed.
Lemma to_groups k :
  memb k lan_keys = false -> find_key k (file_toks e) = find_key k (groups_toks ++ wans_toks ++ scalars (services [Lit (125 :: e)])).
Proof.
  intros H. unfold file_toks. rewrite find_key_ln. apply (good_skip reserved lan_keys); [apply lan_good, Hok|done].
Qed.
Lemma to_scalars k :
  memb k lan_keys = false -> memb k group_keys = false -> memb k wan_keys = false ->
  find_key k (file_toks e) = find_key k (scalars (services [Lit (125 :: e)])).
Proof.
  intros H1 H2 H3. rewrite to_groups by done. rewrite (good_skip reserved group_keys); [|apply groups_good|done].
  by rewrite (good_skip reserved wan_keys); [|apply wans_good|done].
Qed.
Lemma to_services k :
  memb k lan_keys = false -> memb k group_keys = false -> memb k wan_keys = false -> memb k scalar_keys = false ->
  find_key k (file_toks e) = find_key k (services [Lit (125 :: e)]).
Proof.
  intros H1 H2 H3 H4. rewrite to_scalars by done.
  rewrite scalars_app. apply (good_skip reserved scalar_keys); [|done]. apply scalars_good; [by vm_compute|apply good_nil].
Qed.
Lemma not_after k : memb k (group_keys ++ wan_keys ++ after_keys) = false -> find_key k (groups_toks ++ wans_toks ++ scalars (services [Lit (125 :: e)])) = None.
Proof.
  intros H. unfold memb in H. rewrite !existsb_app in H. rewrite !orb_false_iff in H. destruct H as (H1 & H2 & H3).
  rewrite (good_skip reserved group_keys); [|apply groups_good|done]. rewrite (good_skip reserved wan_keys); [|apply wans_good|done].
  rewrite after_end. by rewrite (good_skip reserved after_keys); [|apply after_good|done].
Qed.

End Whole.

Ltac absent := vm_compute; reflexivity.

Section Load.
Context (c : fluxwan_config_t) (Hok : config_ok c) (e : cstring) (He : no_char 34 e).
Abbreviation text := (render (file_toks c e)).

Lemma load_lan_text : load_lan text = reload_lan (c_lan c).
Proof.
  apply lan_back with (rest := groups_toks c ++ wans_toks c ++ scalars c (services c [Lit (125 :: e)]));
    [apply Hok|by apply config_doc|apply to_lan|]. split_and!; apply not_after; (exact Hok || absent).
Qed.
Lemma load_groups_text :
  load_objects first_brace MAX_WAN_GROUPS load_group (strstr text (quoted "groups")) = reload_group <$> c_groups c.
Proof.
  destruct (co_groups _ Hok) as [H1 H2].
  apply (top_array_back group_keys "groups" load_group group_fields reload_group group_ok) with (T := wans_toks c ++ scalars c (services c [Lit (125 :: e)]));
    [is_key|done|apply group_good|apply group_closes|apply group_back|by apply config_doc|done|unfold MAX_WAN_GROUPS in *; lia|].
  apply to_groups; [exact Hok|absent].
Qed.
Lemma text_long : (length (c_groups c) + 2 <= length text)%nat.
Proof.
  destruct (co_groups _ Hok) as [_ H]. unfold file_toks, lan_tokens, jblock. cbn [app]. rewrite !render_cons.
  rewrite !length_app. cbn [tok_text ln lit]. change (length (bytes_of_string "{" ++ [10])) with 2%nat.
  change (length (bytes_of_string "  ")) with 2%nat. change (length (quoted (bytes_of_string "lan"))) with 5%nat.
  change (length (bytes_of_string ": {" ++ [10])) with 4%nat. unfold MAX_WAN_GROUPS in H. lia.
Qed.
Lemma load_wans_text : load_wans text = unique_wans (reload_wan <$> c_wans c).
Proof.
  destruct (co_groups _ Hok) as [G1 G2]. destruct (co_wans _ Hok) as [W1 W2].
  apply wans_back with (gs := c_groups c) (T := scalars c (services c [Lit (125 :: e)]));
    [by apply config_doc|done|done|done|apply text_long|apply to_groups; [exact Hok|absent]|].
  rewrite after_end. rewrite (good_skip reserved after_keys); [done|by apply after_good|absent].
Qed.
Lemma load_lists_text :
  load_objects find_matching_brace MAX_ADDRESS_LISTS load_address_list (strstr text (quoted "address_lists")) = reload_al <$> c_address_lists c.
Proof.
  apply als_back with (rest := [Lit (125 :: e)]); [by apply config_doc|apply Hok| |done].
  rewrite to_services by (exact Hok || absent). unfold services.
  rewrite (good_skip reserved pppoe_keys); [|apply pppoe_good, Hok|absent]. by rewrite (good_skip reserved vpn_keys); [|apply vpn_good, Hok|absent].
Qed.
Lemma load_pppoe_text now lan : load_pppoe_server now lan text = reload_pppoe (c_pppoe_server c).
Proof.
  eapply pppoe_back; [apply Hok|by apply config_doc|]. rewrite to_services by (exact Hok || absent). reflexivity.
Qed.
Lemma load_vpn_text : load_vpn text = reload_vpn (c_vpn c).
Proof.
  eapply vpn_back; [apply Hok|by apply config_doc|]. rewrite to_services by (exact Hok || absent). unfold services.
  rewrite (good_skip reserved pppoe_keys); [|apply pppoe_good, Hok|absent]. reflexivity.
Qed.

Lemma load_scalars_text :
  load_prober text = reload_prober (c_prober c) /\ load_sticky text = c_sticky c /\ load_app_steering text = c_app_steering c
  /\ load_telegram text = c_telegram c /\ load_web text = c_web c /\ load_auth text = c_auth c /\ load_nat46 text = c_nat46 c
  /\ load_dpi text = c_dpi c /\ load_stealth text = reload_stealth (c_stealth c).
Proof.
  pose proof (config_doc c Hok e He) as Hd. split_and!.
  - eapply prober_back; [exact Hd|apply Hok|]. rewrite to_scalars by (exact Hok || absent). reflexivity.
  - eapply sticky_back; [exact Hd|apply Hok|]. rewrite to_scalars by (exact Hok || absent). reflexivity.
  - eapply app_steering_back; [exact Hd|apply Hok|]. rewrite to_scalars by (exact Hok || absent). reflexivity.
  - eapply telegram_back; [exact Hd|apply Hok|]. rewrite to_scalars by (exact Hok || absent). reflexivity.
  - eapply web_back; [exact Hd|apply Hok|]. rewrite to_scalars by (exact Hok || absent). reflexivity.
  - eapply auth_back; [exact Hd|apply Hok|]. rewrite to_scalars by (exact Hok || absent). reflexivity.
  - eapply nat46_back; [exact Hd|apply Hok|]. rewrite to_scalars by (exact Hok || absent). reflexivity.
  - eapply dpi_back; [exact Hd|apply Hok|]. rewrite to_scalars by (exact Hok || absent). reflexivity.
  - eapply stealth_back; [exact Hd|apply Hok|]. rewrite to_scalars by (exact Hok || absent). reflexivity.
Qed.

Lemma load_text now path : load_json now path text = reload path c.
Proof.
  destruct load_scalars_text as (E1 & E2 & E3 & E4 & E5 & E6 & E7 & E8 & E9). unfold load_json, reload.
  rewrite load_lan_text, load_wans_text, load_groups_text, load_lists_text, load_pppoe_text, load_vpn_text.
  by rewrite E1, E2, E3, E4, E5, E6, E7, E8, E9.
Qed.
End Load.
