(* ===== verification/ConfigStore.v ===== *)
(** * The configuration on disk, in backups and against the ports

    The theorems on the configuration file: the round trip of [config_save] and [config_load], the
    backup that [config_import_backup] restores, what [config_validate_wan_attachments] decides,
    and what the reader makes of texts the writer did not escape. *)

From S2P Require Import Prelude Fluxwan Ipv4 CLib Json JsonText ProxyUri ConfigLoad ConfigSave JsonBlocks ConfigSpec ConfigLan ConfigWan.
From S2P Require Import ConfigServices ConfigRound.

(** ** The file *)

Lemma file_no_nul c e : config_ok c -> no_char 0 e -> no_char 0 (render (file_toks c e)).
Proof.
  intros Hok He. rewrite file_text. pose proof (good_nul _ _ _ (inside_good c Hok)). cbn [app]. no_nul.
Qed.

Lemma file_read c e (fs : cstring -> option (list Z)) p :
  config_ok c -> no_char 0 e -> read_file_to_string true (written fs (p, render (file_toks c e)) p) = Some (render (file_toks c e)).
Proof.
  intros Hok He. unfold written. cbn [fst snd]. unfold str_eq. rewrite bool_decide_true by done.
  pose proof (cstr_no_nul _ (file_no_nul c e Hok He)) as E. rewrite file_text in E |- *. unfold read_file_to_string.
  cbn [app] in E |- *. by rewrite E.
Qed.

Lemma save_path_some can_open path c p : save_path can_open path c = Some p -> p <> [].
Proof.
  unfold save_path. intros H E. subst p. revert H. unfold or_else_text, empty.
  repeat case_bool_decide; repeat case_match; intros [=]; by subst.
Qed.

Lemma load_path_given p old : p <> [] -> Z.of_nat (length p) < MAX_PATH_LEN -> load_path p old = p.
Proof.
  intros Hp Hl. unfold load_path, or_else_text, empty. rewrite (bool_decide_false (p = [])) by done. by apply trunc_fits.
Qed.

Lemma written_load c e fs p now old :
  config_ok c -> no_char 34 e -> no_char 0 e -> p <> [] -> Z.of_nat (length p) < MAX_PATH_LEN ->
  config_load (written fs (p, render (file_toks c e))) true now p old = Some (reload p c).
Proof.
  intros Hok Hq He Hp Hl. unfold config_load. rewrite load_path_given by done. rewrite file_read by done.
  cbn [mbind option_bind]. by rewrite load_text.
Qed.

Lemma saved_load c can_open path fs now old f :
  config_ok c -> config_save can_open path c = Some f -> Z.of_nat (length f.1) < MAX_PATH_LEN ->
  config_load (written fs f) true now f.1 old = Some (reload f.1 c).
Proof.
  intros Hok Hs Hl. unfold config_save in Hs. destruct (save_path can_open path c) as [p|] eqn:Hp; [|done].
  injection Hs as <-. cbn [fst] in *. apply save_path_some in Hp. unfold config_text. rewrite config_tokens_eq.
  apply written_load; try done; by repeat constructor.
Qed.


(** ** The ports *)

Definition port (w : wan_config_t) : cstring * wan_type_t := (w_name w, w_type w).

(** No uplink is on the port of the LAN, and a port carries several uplinks only when all of them
    dial over PPPoE. *)
Definition attachable (lan : cstring) (ports : list (cstring * wan_type_t)) : Prop :=
  (forall n t, (n, t) ∈ ports -> n <> [] -> n <> lan)
  /\ (forall i j n t t', i <> j -> ports !! i = Some (n, t) -> ports !! j = Some (n, t') -> n <> [] ->
       t = WAN_TYPE_PPPOE /\ t' = WAN_TYPE_PPPOE).

Lemma first_error_none {A} (f : A -> option cstring) l : first_error f l = None <-> forall x, x ∈ l -> f x = None.
Proof.
  unfold first_error. induction l as [|x l IH]; cbn; [by split; [intros _ x Hx; inversion Hx|]|].
  destruct (f x) as [e|] eqn:E; cbn.
  - split; [done|]. intros H. specialize (H x ltac:(left)). congruence.
  - rewrite IH. split; [intros H y [-> | Hy]%elem_of_cons; auto|]. intros H y Hy. apply H. by right.
Qed.

Lemma lan_error_none lan w : lan_error lan w = None <-> (w_name w <> [] -> w_name w <> lan).
Proof.
  unfold lan_error, empty, str_eq. destruct (decide (w_name w = [])) as [E | E];
    [rewrite (bool_decide_true (w_name w = [])) by done|rewrite (bool_decide_false (w_name w = [])) by done]; cbn; [done|].
  case_bool_decide as H; split; try done. intros H'. by destruct (H' E).
Qed.

(** A second element with the property. *)
Lemma filter_other {A} (P : A -> Prop) `{!forall x, Decision (P x)} l i x :
  l !! i = Some x -> P x ->
  (2 <= length (filter P l))%nat <-> exists j y, j <> i /\ l !! j = Some y /\ P y.
Proof.
  intros Hi Hx. pose proof (take_drop_middle l i x Hi) as E. pose proof (lookup_lt_Some _ _ _ Hi) as Hlt.
  assert (Hlen : length (filter P l) = (length (filter P (take i l)) + S (length (filter P (drop (S i) l))))%nat).
  { rewrite <- E at 1. rewrite filter_app, filter_cons_True by done. by rewrite length_app. }
  rewrite Hlen. split.
  - intros H2. assert (filter P (take i l) <> [] \/ filter P (drop (S i) l) <> []) as [Hn | Hn].
    { destruct (filter P (take i l)); [right|by left]. intros Hz. rewrite Hz in H2. cbn in H2. lia. }
    + destruct (filter P (take i l)) as [|y r] eqn:Ey; [done|]. assert (y ∈ filter P (take i l)) as Hy by (rewrite Ey; left).
      apply list_elem_of_filter in Hy as [HP Hy]. apply list_elem_of_lookup in Hy as [j Hj]. apply lookup_take_Some in Hj as [Hj ?].
      exists j, y. split_and!; [lia|done..].
    + destruct (filter P (drop (S i) l)) as [|y r] eqn:Ey; [done|]. assert (y ∈ filter P (drop (S i) l)) as Hy by (rewrite Ey; left).
      apply list_elem_of_filter in Hy as [HP Hy]. apply list_elem_of_lookup in Hy as [j Hj]. rewrite lookup_drop in Hj.
      exists (S i + j)%nat, y. split_and!; [lia|done..].
  - intros (j & y & Hne & Hj & Hy). destruct (decide (j < i)%nat) as [Hlt' | Hge].
    + assert (y ∈ filter P (take i l)) as Hin.
      { apply list_elem_of_filter. split; [done|]. apply list_elem_of_lookup. exists j. by apply lookup_take_Some. }
      destruct (filter P (take i l)); [inversion Hin|]. cbn. lia.
    + assert (y ∈ filter P (drop (S i) l)) as Hin.
      { apply list_elem_of_filter. split; [done|]. apply list_elem_of_lookup. exists (j - S i)%nat. rewrite lookup_drop.
        by replace (S i + (j - S i))%nat with j by lia. }
      destruct (filter P (drop (S i) l)); [inversion Hin|]. cbn. lia.
Qed.

Lemma count_on_total wans n :
  count_on wans n WAN_TYPE_DHCP + count_on wans n WAN_TYPE_STATIC + count_on wans n WAN_TYPE_PPPOE + count_on wans n WAN_TYPE_WIFI
  = Z.of_nat (length (filter (fun w => w_name w = n) wans)).
Proof.
  unfold count_on. induction wans as [|w wans IH]; [done|].
  rewrite !filter_cons. destruct (decide (w_name w = n)) as [E | E].
  - destruct (w_type w); repeat case_decide; try (exfalso; intuition congruence); cbn [length]; lia.
  - repeat case_decide; try (exfalso; intuition congruence). exact IH.
Qed.
Lemma count_on_pos wans n t : 0 < count_on wans n t <-> exists w, w ∈ wans /\ w_name w = n /\ w_type w = t.
Proof.
  unfold count_on. destruct (filter _ wans) as [|w r] eqn:E; cbn [length].
  - split; [lia|]. intros (w & Hw & H). assert (w ∈ filter (fun w => w_name w = n /\ w_type w = t) wans) as Hin by (by apply list_elem_of_filter).
    rewrite E in Hin. inversion Hin.
  - split; [|lia]. intros _. assert (w ∈ filter (fun w => w_name w = n /\ w_type w = t) wans) as Hin by (rewrite E; left).
    apply list_elem_of_filter in Hin as [H Hin]. eauto.
Qed.

Lemma port_error_none wans w :
  port_error wans w = None <->
  (w_name w <> [] -> (length (filter (fun v => w_name v = w_name w) wans) <= 1)%nat
                     \/ forall v, v ∈ wans -> w_name v = w_name w -> w_type v = WAN_TYPE_PPPOE).
Proof.
  unfold port_error, empty. case_bool_decide as E; [done|]. pose proof (count_on_total wans (w_name w)) as T.
  set (d := count_on wans (w_name w) WAN_TYPE_DHCP) in *. set (s := count_on wans (w_name w) WAN_TYPE_STATIC) in *.
  set (p := count_on wans (w_name w) WAN_TYPE_PPPOE) in *. set (f := count_on wans (w_name w) WAN_TYPE_WIFI) in *.
  assert (0 <= d /\ 0 <= s /\ 0 <= p /\ 0 <= f) as (? & ? & ? & ?) by (unfold d, s, p, f, count_on; lia).
  assert (Hpp : (forall v, v ∈ wans -> w_name v = w_name w -> w_type v = WAN_TYPE_PPPOE) <-> d = 0 /\ s = 0 /\ f = 0).
  { split.
    - intros Hv. assert (Hz : forall t, t <> WAN_TYPE_PPPOE -> ~ 0 < count_on wans (w_name w) t).
      { intros t Ht (v & Hin & Hn & <-)%count_on_pos. by apply Ht, Hv. }
      pose proof (Hz WAN_TYPE_DHCP ltac:(done)). pose proof (Hz WAN_TYPE_STATIC ltac:(done)). pose proof (Hz WAN_TYPE_WIFI ltac:(done)).
      fold d s f in H3, H4, H5. lia.
    - intros (Hd & Hs & Hf) v Hin Hn. assert (0 < count_on wans (w_name w) (w_type v)) as Hc by (apply count_on_pos; eauto).
      destruct (w_type v); [fold s in Hc|fold d in Hc|done|fold f in Hc]; lia. }
  rewrite Hpp. transitivity ((d + s + p + f <= 1) \/ (d = 0 /\ s = 0 /\ f = 0)); [|rewrite T; split; intros HH; [intros _|specialize (HH E)]; destruct HH; [left; lia|by right|left; lia|by right]].
  repeat case_match; split; intros HH; try discriminate; try done; destruct_or?; lia.
Qed.

Lemma ports_exclusive wans :
  (forall w, w ∈ wans -> port_error wans w = None) <->
  (forall i j n t t', i <> j -> (port <$> wans) !! i = Some (n, t) -> (port <$> wans) !! j = Some (n, t') -> n <> [] ->
     t = WAN_TYPE_PPPOE /\ t' = WAN_TYPE_PPPOE).
Proof.
  split.
  - intros H i j n t t' Hij Hi Hj Hn. apply list_lookup_fmap_Some in Hi as (w & [= -> ->] & Hi).
    apply list_lookup_fmap_Some in Hj as (v & [= Hname ->] & Hj).
    pose proof (list_elem_of_lookup_2 _ _ _ Hi) as Hw. apply list_elem_of_lookup_2 in Hj as Hv. apply H, port_error_none in Hw as [Hc | Hp]; [| |done].
    + assert (2 <= length (filter (fun v => w_name v = w_name w) wans))%nat; [|lia].
      apply (filter_other (fun v => w_name v = w_name w) wans i w Hi eq_refl). exists j, v. auto.
    + split; apply Hp; try done. by apply list_elem_of_lookup_2 in Hi.
  - intros H w [i Hi]%list_elem_of_lookup. apply port_error_none. intros Hn.
    destruct (decide (length (filter (fun v => w_name v = w_name w) wans) <= 1)%nat) as [Hc | Hc]; [by left|right].
    intros v [j Hj]%list_elem_of_lookup Hname. assert (2 <= length (filter (fun v => w_name v = w_name w) wans))%nat as H2 by lia.
    apply (filter_other (fun v => w_name v = w_name w) wans j v Hj Hname) in H2 as (k & u & Hkj & Hk & Hu).
    apply (H j k (w_name w) (w_type v) (w_type u)); [done|..|done]; apply list_lookup_fmap_Some.
    + exists v. split; [|done]. unfold port. by rewrite Hname.
    + exists u. split; [|done]. unfold port. by rewrite Hu.
Qed.

Lemma validate_attachable c n :
  config_validate_wan_attachments c n = None <-> attachable (lan_name (c_lan c)) (port <$> c_wans c).
Proof.
  unfold config_validate_wan_attachments, attachable.
  assert (Hl : first_error (lan_error (lan_name (c_lan c))) (c_wans c) = None <->
               (forall m t, (m, t) ∈ port <$> c_wans c -> m <> [] -> m <> lan_name (c_lan c))).
  { rewrite first_error_none. split.
    - intros H m t (w & [= -> ->] & Hw)%list_elem_of_fmap. by apply lan_error_none, H.
    - intros H w Hw. apply lan_error_none. apply (H _ (w_type w)). apply list_elem_of_fmap. by exists w. }
  rewrite <- Hl, <- ports_exclusive, <- first_error_none.
  destruct (first_error (lan_error _) _) as [e|]; [split; [done|by intros [? _]]|].
  rewrite fmap_None. tauto.
Qed.

(** [config_validate_wan_attachments] accepts exactly the configurations in which no uplink uses
    the port of the LAN and two uplinks share a port only when both are PPPoE. *)
Theorem validate_spec c n :
  config_validate_wan_attachments c n = None <-> attachable (lan_name (c_lan c)) (port <$> c_wans c).
Proof. apply validate_attachable. Qed.

(** ** Identifiers *)

Lemma unique_wans_app ws : forall before,
  exists ws', fold_left (fun before w => before ++ [unique_ids before w]) ws before = before ++ ws' /\ port <$> ws' = port <$> ws.
Proof.
  induction ws as [|w ws IH]; intros before; cbn [fold_left]; [exists []; by rewrite app_nil_r|].
  destruct (IH (before ++ [unique_ids before w])) as (ws' & E & Hp). exists (unique_ids before w :: ws').
  rewrite E, <- app_assoc. split; [done|]. rewrite !fmap_cons, Hp. f_equal. unfold unique_ids. by repeat case_match.
Qed.
Lemma unique_wans_ports ws : port <$> unique_wans ws = port <$> ws.
Proof. destruct (unique_wans_app ws []) as (ws' & E & Hp). unfold unique_wans. by rewrite E. Qed.

Lemma reload_attachable p c :
  lan_name (c_lan c) <> [] -> attachable (lan_name (c_lan c)) (port <$> c_wans c) ->
  attachable (lan_name (c_lan (reload p c))) (port <$> c_wans (reload p c)).
Proof.
  intros Hn H. cbn [reload c_wans c_lan lan_name set_lan_policies reload_lan]. rewrite unique_wans_ports.
  unfold or_else_text, empty. rewrite bool_decide_false by done. rewrite <- list_fmap_compose. exact H.
Qed.

(** The identifiers, routing tables and labels of uplinks are left alone when they are set and no
    two agree. *)
Definition settled (ws : list wan_config_t) : Prop :=
  NoDup (w_id <$> ws) /\ NoDup (w_table_id <$> ws) /\ Forall (fun w => w_id w <> 0 /\ w_table_id w <> 0 /\ w_label w <> []) ws.

Lemma not_before {A} (f : A -> Z) before w ws :
  NoDup (f <$> before ++ w :: ws) -> existsb (fun v => f v =? f w) before = false.
Proof.
  intros H. apply not_true_is_false. intros (v & Hv & E%Z.eqb_eq)%existsb_exists. rewrite fmap_app, fmap_cons in H.
  apply NoDup_app in H as (_ & H & _). apply (H (f v)); [apply list_elem_of_fmap_2; by apply list_elem_of_In|rewrite E; left].
Qed.
Lemma unique_ids_settled ws : forall before,
  settled (before ++ ws) -> fold_left (fun before w => before ++ [unique_ids before w]) ws before = before ++ ws.
Proof.
  induction ws as [|w ws IH]; intros before (Hi & Ht & Hs); cbn [fold_left]; [by rewrite app_nil_r|].
  assert (unique_ids before w = w) as ->.
  { apply Forall_app in Hs as [_ Hs]. apply Forall_cons in Hs as [(H1 & H2 & H3) _]. unfold unique_ids.
    rewrite (not_before w_id before w ws Hi), (not_before w_table_id before w ws Ht).
    rewrite (proj2 (Z.eqb_neq (w_id w) 0)) by done. cbn [orb]. rewrite (proj2 (Z.eqb_neq (w_table_id w) 0)) by done. cbn [orb].
    unfold empty. by rewrite bool_decide_false. }
  rewrite IH; [by rewrite <- app_assoc|]. unfold settled. rewrite <- app_assoc. done.
Qed.

Lemma unique_wans_settled ws : settled ws -> unique_wans ws = ws.
Proof. apply (unique_ids_settled ws []). Qed.

(** ** Backups *)

(** The date is made of small numbers: its text has no character that the searches stop at. *)
Lemma div_bounds a b : 0 < b -> b * (a / b) <= a <= b * (a / b) + (b - 1).
Proof. intros. pose proof (Z.div_mod a b ltac:(lia)). pose proof (Z.mod_pos_bound a b ltac:(lia)). lia. Qed.
Lemma civil_range days : 0 <= days -> let '(y, m, d) := civil_of_days days in 0 <= y /\ -9 <= m <= 20 /\ -60 <= d <= 90.
Proof.
  intros H. unfold civil_of_days. cbv zeta. set (z := days + 719468).
  assert (0 <= z mod 146097 < 146097) as Hr by (apply Z.mod_pos_bound; lia). assert (0 <= z / 146097) as He by (apply Z.div_pos; lia).
  set (doe := z mod 146097) in *. pose proof (div_bounds doe 1460 ltac:(lia)) as B1. pose proof (div_bounds doe 36524 ltac:(lia)) as B2.
  pose proof (div_bounds doe 146096 ltac:(lia)) as B3. set (x := doe - doe / 1460 + doe / 36524 - doe / 146096) in *.
  pose proof (div_bounds x 365 ltac:(lia)) as B4. set (yoe := x / 365) in *. pose proof (div_bounds yoe 4 ltac:(lia)) as B5.
  pose proof (div_bounds yoe 100 ltac:(lia)) as B6. set (doy := doe - (365 * yoe + yoe / 4 - yoe / 100)) in *.
  assert (0 <= yoe <= 400 /\ -10 <= doy <= 380) as [Hy Hd] by (subst doy x; lia).
  pose proof (div_bounds (5 * doy + 2) 153 ltac:(lia)) as B7. set (mp := (5 * doy + 2) / 153) in *.
  pose proof (div_bounds (153 * mp + 2) 5 ltac:(lia)) as B8. destruct (Z.ltb_spec mp 10); case_match; lia.
Qed.

Lemma dec2_plain n : -130 < n < 420 -> plain (dec2 n).
Proof.
  intros H. unfold dec2. pose proof (div_bounds n 10 ltac:(lia)). pose proof (Z.mod_pos_bound n 10 ltac:(lia)).
  repeat constructor; unfold plain_char; rewrite negb_true_iff, !orb_false_iff, !Z.eqb_neq; lia.
Qed.
Lemma iso_time_text now : 0 <= now -> plain (iso_time now) /\ iso_time now <> "config".
Proof.
  intros H. unfold iso_time. pose proof (civil_range (now / 86400) ltac:(apply Z.div_pos; lia)) as Hc.
  destruct (civil_of_days (now / 86400)) as [[y m] d]. destruct Hc as (Hy & Hm & Hd).
  pose proof (Z.mod_pos_bound now 86400 ltac:(lia)) as Hs. split.
  - repeat (apply plain_app; split); try (by apply plain_bool); try (by apply plain_dec); apply dec2_plain; lia.
  - intros E. assert (45 ∈ bytes_of_string "config") as Hin; [|by rewrite list_elem_of_In in Hin; repeat destruct Hin as [Hin | Hin]].
    rewrite <- E. rewrite !elem_of_app. right. left. by constructor.
Qed.

(** The head of a backup, up to the key of the configuration. *)
Definition backup_head (now : Z) (hostname : cstring) (n csum : Z) : list tok :=
  jblock "  " "fluxwan_backup"
    (fld "    " "version" (jstr FLUXWAN_VERSION) "," ++
     fld "    " "author" (jstr FLUXWAN_AUTHOR) "," ++
     fld "    " "license" (jstr FLUXWAN_LICENSE) "," ++
     fld "    " "created_at" (jnum now) "," ++
     fld "    " "created_at_iso" (jstr (iso_time now)) "," ++
     fld "    " "hostname" (jstr hostname) "," ++
     fld "    " "architecture" (jstr "x86_64") "," ++
     fld "    " "wan_count" (jnum n) "," ++
     fld "    " "checksum" (jnum csum) "," ++
     fld "    " "type" (jstr "full_system_configuration") "") "," ++ [lit "  "].
Definition backup_end : cstring := [10; 10; 125; 10].

Lemma backup_text now hostname n csum c :
  render (backup_tokens now hostname n csum (config_text c))
  = render (([ln "{"] ++ backup_head now hostname n csum) ++ Key "config" :: lit ": " :: file_toks c backup_end).
Proof.
  unfold backup_tokens, backup_head. rewrite !render_app, <- !app_assoc. do 2 f_equal.
  unfold config_text. rewrite config_tokens_eq. rewrite !render_cons, !file_text. cbn [tok_text].
  change (render []) with (@nil Z). rewrite app_nil_r. change (tok_text (ln "")) with [10]. change (tok_text (ln "}")) with [125; 10].
  cbn [app]. rewrite <- !app_assoc. by rewrite <- app_comm_cons.
Qed.

Definition head_keys : list cstring :=
  bytes_of_string <$> ["fluxwan_backup"; "version"; "author"; "license"; "created_at"; "created_at_iso"; "hostname"; "architecture";
    "wan_count"; "checksum"; "type"]%string.

Lemma value_not_config s : plain s -> s <> "config" -> good_value [bytes_of_string "config"] (jstr s).
Proof. intros Hp Hn. split; [done|]. by intros ?%list_elem_of_singleton. Qed.
Lemma head_good now hostname n csum :
  0 <= now -> 0 <= n -> 0 <= csum -> plain hostname -> hostname <> "config" ->
  good [bytes_of_string "config"] head_keys (backup_head now hostname n csum).
Proof.
  intros Hnow Hn Hc Hp Hh. destruct (iso_time_text now Hnow) as [I1 I2]. unfold backup_head. apply good_app.
  2: apply good_lit; by apply plain_bool.
  apply good_jblock; [by apply plain_bool|done|done|by right|].
  repeat apply good_app; (apply good_fld; [done|done|done| |by (left + right)]);
    first [exact (plain_dec _ Hnow)|exact (plain_dec _ Hn)|exact (plain_dec _ Hc)|
           apply value_not_config; first [assumption|by apply plain_bool|discriminate]].
Qed.

Lemma find_quoted_skip R K a b k : good R K a -> k ∈ R -> memb k K = false -> find_quoted k (a ++ b) = find_quoted k b.
Proof.
  intros [_ Ht _ _ _] HR HK%memb_not_elem. induction Ht as [|t l Ht _ IH]; [done|]. cbn [app].
  destruct t as [s | s | s]; cbn in Ht |- *; [done| |]; rewrite bool_decide_false; try done; intros ->; [done|by destruct Ht].
Qed.

Lemma find_quoted_ln k s l : find_quoted k ([ln s] ++ l) = find_quoted k l.
Proof. done. Qed.
Lemma render_key k l : render (Key k :: l) = quoted k ++ render l.
Proof. done. Qed.

Lemma config_of_backup now hostname n csum c :
  config_ok c -> 0 <= now -> 0 <= n -> 0 <= csum -> plain hostname -> hostname <> "config" ->
  (k ← strstr (render (backup_tokens now hostname n csum (config_text c))) (quoted "config"); json_object k)
  = Some (render (file_toks c [])).
Proof.
  intros Hok H1 H2 H3 H4 H5. rewrite backup_text. pose proof (head_good now hostname n csum H1 H2 H3 H4 H5) as Hg.
  assert (Hq : no_char 34 backup_end) by (by repeat constructor).
  rewrite strstr_render; [|by apply key_ok_bool|].
  2:{ rewrite <- app_assoc. split; [by repeat constructor|]. apply (good_wf _ _ _ Hg). split; [by apply key_ok_bool|].
      split; [done|]. split; [by repeat constructor|]. by apply config_doc. }
  rewrite <- app_assoc. rewrite find_quoted_ln.
  rewrite (find_quoted_skip _ _ _ _ _ Hg); [|by apply list_elem_of_singleton|done].
  cbn [find_quoted]. rewrite bool_decide_true by done. cbn [fmap option_fmap option_map mbind option_bind].
  rewrite <- render_key.
  rewrite (json_object_text reserved inside_keys (bytes_of_string "config") "" (inside_toks c) _ backup_end);
    [|by apply key_ok_bool|by apply plain_bool|by apply inside_good|].
  - rewrite obj_toks_text, file_text. by rewrite app_nil_r.
  - rewrite render_cons, file_text. cbn [tok_text bytes_of_string]. by rewrite app_nil_r.
Qed.

(** The configuration that a restored backup leaves: the file of the running system and its
    session token stay. *)
Definition restored (old c : fluxwan_config_t) : fluxwan_config_t :=
  let c := set_c_config_file_path (safe_str_copy (or_else_text (c_config_file_path old) default_path) MAX_PATH_LEN) (reload restore_tmp c) in
  let token := safe_str_copy (au_session_token (c_auth old)) 64 in
  if empty token then c else set_c_auth (set_au_session_token token (c_auth c)) c.

Lemma import_text now hostname n csum c old now' err_size :
  config_ok c -> 0 <= now -> 0 <= n -> 0 <= csum -> plain hostname -> hostname <> "config" ->
  lan_name (c_lan c) <> [] -> config_validate_wan_attachments c 256 = None ->
  config_import_backup true true true now' (render (backup_tokens now hostname n csum (config_text c))) old err_size = inr (restored old c).
Proof.
  intros Hok H1 H2 H3 H4 H5 Hl Hv. unfold config_import_backup. rewrite config_of_backup by done. cbn [negb].
  rewrite written_load; [|done|constructor|constructor|done|done].
  assert (lan_ip_addr (c_lan (reload restore_tmp c)) <> 0) as Hip.
  { apply (ip_or_ok (lan_ip_addr (c_lan c)) "192.168.90.1"); [apply Hok|by_eval|by_eval]. }
  rewrite (proj2 (Z.eqb_neq _ 0) Hip). rewrite (proj2 (validate_attachable (reload restore_tmp c) 256)); [done|].
  apply reload_attachable; [done|]. by apply (validate_attachable c 256).
Qed.

Lemma checksum_range s : 0 <= config_calc_checksum s.
Proof.
  unfold config_calc_checksum. assert (0 <= 5381) as H by lia. revert H. generalize 5381. induction s as [|c s IH]; intros h Hh; [done|].
  cbn [fold_left]. apply IH. unfold checksum_step. case_match; [done|]. unfold u32. apply Z.mod_pos_bound. lia.
Qed.

(** What [config_export_backup] returns, [config_import_backup] restores: the same configuration as
    the file of [config_save] gives, with the path and the session of the running system. *)
Theorem backup_round_trip fs can_open now hostname c max_len f out old now' err_size :
  config_ok c -> 0 <= now -> plain hostname -> hostname <> "config" ->
  lan_name (c_lan c) <> [] -> config_validate_wan_attachments c 256 = None ->
  can_open export_tmp = true -> config_export_backup fs can_open true now hostname c max_len = (f, Some out, 0) ->
  config_import_backup true true true now' out old err_size = inr (restored old c).
Proof.
  intros Hok Hnow Hp Hh Hl Hv Ho He. unfold config_export_backup in He. destruct (max_len <? 2048); [done|].
  unfold config_save, save_path in He. cbn [or_else_text empty] in He.
  change (or_else_text export_tmp _) with export_tmp in He. rewrite Ho in He. cbn [mbind option_bind] in He.
  unfold config_text in He. rewrite config_tokens_eq in He. rewrite file_read in He by (done || by repeat constructor).
  rewrite <- config_tokens_eq in He. fold (config_text c) in He.
  set (b := render _) in He. destruct (Z.ltb_spec (Z.of_nat (length b)) max_len) as [Hlt | Hge]; [|done].
  injection He as _ <-. rewrite trunc_fits by done. subst b. apply import_text; try done; [lia|apply checksum_range].
Qed.

(** The checksum of a backup is not checked: with any number in its place the backup is restored. *)
Theorem backup_checksum_ignored now hostname n csum c old now' err_size :
  config_ok c -> 0 <= now -> 0 <= n -> 0 <= csum -> plain hostname -> hostname <> "config" ->
  lan_name (c_lan c) <> [] -> config_validate_wan_attachments c 256 = None ->
  config_import_backup true true true now' (render (backup_tokens now hostname n csum (config_text c))) old err_size = inr (restored old c).
Proof. apply import_text. Qed.

Module StoreDemo.

Definition uplink (id : Z) (name label : cstring) (t : wan_type_t) (user password : cstring) : wan_config_t :=
  WanConfig id name label t 0 0 0 [0; 0] [] [] user password 1440 [] [] [] [] 0 0 [] (100 + id) 50 50 100 20 WAN_STATE_HEALTHY true
    "9.9.9.9" (str_to_ip "9.9.9.9") zero_metrics 0 0 0 0 [] [] 1492 1492 [] zero_proxy.

Definition wans : list wan_config_t :=
  [uplink 1 "eth1" "Fibre" WAN_TYPE_PPPOE "alice" "s3cret"; uplink 2 "eth1" "Copper" WAN_TYPE_PPPOE "bob" "hidden";
   uplink 3 "eth2" "Cable" WAN_TYPE_DHCP [] []].
Definition config : fluxwan_config_t :=
  set_c_groups [WanGroup 1 "gaming" "Low latency" [bytes_of_string "Fibre"; bytes_of_string "Cable"] [] 0 ∅ true]
    (set_c_wans wans config_reset_to_defaults).

Ltac is_ok :=
  repeat first
    [ apply txt_bool; vm_compute; reflexivity
    | progress unfold is_u8, is_u16, is_u32, is_u64
    | match goal with
      | |- _ /\ _ => split
      | |- Forall _ _ => constructor
      | |- _ <= _ => vm_compute; discriminate
      | |- _ < _ => vm_compute; reflexivity
      | |- _ <> _ => vm_compute; discriminate
      end
    | constructor ].
Lemma config_fits : config_ok config.
Proof.
  split; is_ok.
Qed.

Definition anywhere (p : cstring) : bool := true.


Lemma backup_round_trip_witness :
  let out := render (backup_tokens 1700000000 "router" 3 (config_calc_checksum (config_text config)) (config_text config)) in
  config_import_backup true true true 7 out zero_config 256 = inr (restored zero_config config).
Proof.
  apply (backup_round_trip (fun _ => None) anywhere 1700000000 "router" config 65536 (Some (export_tmp, config_text config)));
    [exact config_fits|lia|by apply plain_bool|discriminate|discriminate|vm_compute; reflexivity|reflexivity|vm_compute; reflexivity].
Defined.

Lemma backup_checksum_ignored_witness :
  config_calc_checksum (config_text config) <> 1
  /\ config_import_backup true true true 7 (render (backup_tokens 1700000000 "router" 3 1 (config_text config))) zero_config 256
     = inr (restored zero_config config).
Proof.
  split; [vm_compute; discriminate|].
  apply (backup_checksum_ignored 1700000000 "router" 3 1 config zero_config 7 256);
    [exact config_fits|lia|lia|lia|by apply plain_bool|discriminate|discriminate|vm_compute; reflexivity].
Defined.

(** Three uplinks, two of them on one port over PPPoE, keep their identifiers and their group. *)
Lemma reloaded_config :
  w_id <$> c_wans (reload default_path config) = [1; 2; 3]
  /\ g_wan_member_indices <$> c_groups (reload default_path config) = [[0; 2]].
Proof. by_eval. Qed.

End StoreDemo.

(** ** Where the file does not say what was saved *)

(** Uplinks with set and distinct identifiers, tables and labels pass the pass that makes them
    unique unchanged. *)
Theorem settled_ids_kept ws : settled ws -> unique_wans ws = ws.
Proof. apply unique_wans_settled. Qed.

Lemma settled_ids_kept_witness : unique_wans StoreDemo.wans = StoreDemo.wans.
Proof.
  apply (settled_ids_kept StoreDemo.wans). split_and!.
  - by apply (bool_decide_unpack (NoDup _)); vm_compute.
  - by apply (bool_decide_unpack (NoDup _)); vm_compute.
  - repeat constructor; discriminate.
Defined.

(** The pass that makes identifiers unique gives a repeated one the position of the uplink, which
    an earlier uplink may have: two uplinks with identifier 2 keep it. *)
Theorem unique_wans_duplicate :
  exists ws, w_id <$> unique_wans ws = [2; 2].
Proof. exists (set_w_id 2 <$> take 2 StoreDemo.wans). by_eval. Qed.

Definition labelled_auth : fluxwan_config_t :=
  set_c_wans [StoreDemo.uplink 1 "eth1" "auth" WAN_TYPE_PPPOE "bob" "hidden"] config_reset_to_defaults.

(** The reader looks for a block by the first text that equals its key.  When an uplink is
    labelled [auth], saving and loading the configuration replaces the administrator's login by
    the PPPoE account of that uplink. *)
Theorem auth_label_hijack :
  exists c', (f ← config_save StoreDemo.anywhere [] labelled_auth; config_load (written (fun _ => None) f) true 7 f.1 zero_config) = Some c'
  /\ au_username (c_auth labelled_auth) = "admin" /\ au_password (c_auth labelled_auth) = "admin"
  /\ au_username (c_auth c') = "bob" /\ au_password (c_auth c') = "hidden".
Proof. eexists. split; [vm_compute; reflexivity|]. by_eval. Qed.
