(* ===== verification/WebApi.v ===== *)
(** * The web server: changes of the configuration

    The handlers that change the configuration ([web_server.c], the branches of
    [web_server_process_client_impl]) and the order in which a request is matched against the routes.  The
    state is the shared configuration and the files on disk: a handler changes the configuration, saves it
    and loads it again with the definitions of [ConfigSave] and [ConfigLoad].  What it then calls of the other
    components is an ordered list of actions, each named after the function that is called, on the configuration
    of the final state.  Where such a function changes the configuration itself (the subscribers of the PPPoE server,
    the peers of the VPNs) and the handler saves it afterwards, the saving is an action too. *)

From S2P Require Import Prelude Fluxwan Ipv4 CLib Json JsonText ProxyUri System Wifi Samples Firewall WebCore.
From S2P Require Import ConfigLoad ConfigSave JsonBlocks ConfigSpec ConfigLan ConfigWan ConfigServices ConfigRound ConfigStore.

Inductive web_action :=
  | SaveConfig        (** the configuration is saved after the actions before it *)
  | Rebalance | ApplyConfiguration | ProxyApply | VpnApply
  | DhcpReload | DhcpRenewAll
  | PolicyRoutes | AddressLists | RateLimits | Qos | DnsFeature | Steering | DpiRules | WanShield
  | Shell (cmd : cstring)
  | PppoeStart | PppoeStop | PppoeReload
  | PppoeDeleteUser (name : cstring) | PppoeRenewUser (name : cstring) (days : Z) (profile : cstring)
  | PppoeToggleUser (name : cstring) (enable : bool) | PppoeSetUser (u : pppoe_user_t)
  | PppoeDeleteProfile (name : cstring) | PppoeRenameProfile (old new : cstring) | PppoeSetProfile (p : pppoe_profile_t)
  | PppoeDisconnect (ifname : cstring)
  | WgApply | WgDeletePeer (key : cstring) | WgAddPeer (p : wireguard_peer_t)
  | ZtApply | ZtJoin (nwid name : cstring) | ZtLeave (nwid : cstring)
  | TsApply | TsDown | TsUp (auth_key hostname login_server routes : cstring) (accept_routes is_exit_node : bool).

(** The components that are there, the clock and the disk: which paths can be opened for writing, and
    whether memory for reading a file is there. *)
Record web_env := WebEnv { we_wan_mgr : bool; we_dhcp : bool; we_pppoe : bool; we_proxy : bool; we_now : Z; we_can_open : cstring -> bool;
  we_opt_writable : bool; we_mem : bool }.
Definition when (b : bool) (l : list web_action) : list web_action := if b then l else [].

Record web_state := WebState { ws_config : fluxwan_config_t; ws_fs : cstring -> option (list Z) }.
Record outcome := Outcome { oc_state : web_state; oc_actions : list web_action; oc_response : response }.
Definition ok_reply (message : string) : response := Response 200 (sprintf (dq "{`status`:`ok`,`message`:`%s`}") [FS message]).
Definition error_reply (message : string) : response := Response 400 (sprintf (dq "{`status`:`error`,`message`:`%s`}") [FS message]).
Definition nothing (st : web_state) (r : response) : outcome := Outcome st [] r.

Definition get_config_target_path (env : web_env) (c : fluxwan_config_t) : cstring :=
  if negb (empty (c_config_file_path c)) && negb (found (c_config_file_path c) "tmp") then c_config_file_path c
  else if we_opt_writable env then default_path
  else bytes_of_string "config/fluxwan.json".
Definition save_state (env : web_env) (st : web_state) : web_state :=
  match config_save (we_can_open env) (get_config_target_path env (ws_config st)) (ws_config st) with
  | Some f => WebState (ws_config st) (written (ws_fs st) f)
  | None => st
  end.
(** A file that cannot be read leaves the configuration as it is. *)
Definition load_state (env : web_env) (st : web_state) : web_state :=
  match config_load (ws_fs st) (we_mem env) (we_now env) (get_config_target_path env (ws_config st)) (ws_config st) with
  | Some c => WebState c (ws_fs st)
  | None => st
  end.
(** The changed configuration is saved and loaded again. *)
Definition persist (env : web_env) (st : web_state) (c : fluxwan_config_t) : web_state :=
  load_state env (save_state env (WebState c (ws_fs st))).

(** ** Parts of the configuration *)

Definition set_c_telegram (v : telegram_config_t) (c : fluxwan_config_t) : fluxwan_config_t :=
  FluxwanConfig (c_lan c) (c_wans c) (c_groups c) (c_prober c) (c_sticky c) v (c_nat46 c) (c_stealth c) (c_address_lists c)
    (c_app_steering c) (c_web c) (c_auth c) (c_dpi c) (c_pppoe_server c) (c_vpn c) (c_config_file_path c).
Definition set_c_stealth (v : stealth_config_t) (c : fluxwan_config_t) : fluxwan_config_t :=
  FluxwanConfig (c_lan c) (c_wans c) (c_groups c) (c_prober c) (c_sticky c) (c_telegram c) (c_nat46 c) v (c_address_lists c)
    (c_app_steering c) (c_web c) (c_auth c) (c_dpi c) (c_pppoe_server c) (c_vpn c) (c_config_file_path c).
Definition set_c_app_steering (v : app_steering_t) (c : fluxwan_config_t) : fluxwan_config_t :=
  FluxwanConfig (c_lan c) (c_wans c) (c_groups c) (c_prober c) (c_sticky c) (c_telegram c) (c_nat46 c) (c_stealth c) (c_address_lists c)
    v (c_web c) (c_auth c) (c_dpi c) (c_pppoe_server c) (c_vpn c) (c_config_file_path c).
Definition set_c_dpi (v : dpi_config_t) (c : fluxwan_config_t) : fluxwan_config_t :=
  FluxwanConfig (c_lan c) (c_wans c) (c_groups c) (c_prober c) (c_sticky c) (c_telegram c) (c_nat46 c) (c_stealth c) (c_address_lists c)
    (c_app_steering c) (c_web c) (c_auth c) v (c_pppoe_server c) (c_vpn c) (c_config_file_path c).
Definition set_c_vpn (v : vpn_config_t) (c : fluxwan_config_t) : fluxwan_config_t :=
  FluxwanConfig (c_lan c) (c_wans c) (c_groups c) (c_prober c) (c_sticky c) (c_telegram c) (c_nat46 c) (c_stealth c) (c_address_lists c)
    (c_app_steering c) (c_web c) (c_auth c) (c_dpi c) (c_pppoe_server c) v (c_config_file_path c).
(** The tables and settings of the LAN. *)
Definition set_lan_tables (routes : list policy_route_t) (leases : list static_lease_t) (limits : list rate_limit_t) (qos : qos_config_t)
    (dns : dns_features_t) (dhcp : bool) (c : fluxwan_config_t) : fluxwan_config_t :=
  let l := c_lan c in
  set_c_lan (LanConfig (lan_name l) (lan_ip_addr l) (lan_netmask l) dhcp (lan_dhcp_start l) (lan_dhcp_end l) (lan_dhcp_lease_time l)
    (lan_ifindex l) routes leases limits qos dns) c.
Definition set_policy_routes (v : list policy_route_t) (c : fluxwan_config_t) : fluxwan_config_t :=
  let l := c_lan c in set_lan_tables v (lan_static_leases l) (lan_rate_limits l) (lan_qos l) (lan_dns l) (lan_dhcp_enabled l) c.
Definition set_static_leases (v : list static_lease_t) (c : fluxwan_config_t) : fluxwan_config_t :=
  let l := c_lan c in set_lan_tables (lan_policy_routes l) v (lan_rate_limits l) (lan_qos l) (lan_dns l) (lan_dhcp_enabled l) c.
Definition set_rate_limits (v : list rate_limit_t) (c : fluxwan_config_t) : fluxwan_config_t :=
  let l := c_lan c in set_lan_tables (lan_policy_routes l) (lan_static_leases l) v (lan_qos l) (lan_dns l) (lan_dhcp_enabled l) c.
Definition set_qos (v : qos_config_t) (c : fluxwan_config_t) : fluxwan_config_t :=
  let l := c_lan c in set_lan_tables (lan_policy_routes l) (lan_static_leases l) (lan_rate_limits l) v (lan_dns l) (lan_dhcp_enabled l) c.
Definition set_dns (v : dns_features_t) (c : fluxwan_config_t) : fluxwan_config_t :=
  let l := c_lan c in set_lan_tables (lan_policy_routes l) (lan_static_leases l) (lan_rate_limits l) (lan_qos l) v (lan_dhcp_enabled l) c.
Definition set_dhcp_enabled (v : bool) (c : fluxwan_config_t) : fluxwan_config_t :=
  let l := c_lan c in set_lan_tables (lan_policy_routes l) (lan_static_leases l) (lan_rate_limits l) (lan_qos l) (lan_dns l) v c.

(** A text of the body, empty when it is missing; and one that is kept when it is missing. *)
Definition text (body : cstring) (key : string) (n : Z) : cstring := default [] (extract_json_string body key n).
Definition text_or (body : cstring) (key : string) (n size : Z) (old : cstring) : cstring :=
  match extract_json_string body key n with Some v => safe_str_copy v size | None => old end.
Definition filled_or (v : cstring) (size : Z) (old : cstring) : cstring := if empty v then old else safe_str_copy v size.
Definition int_or (body : cstring) (key : string) (old : Z) : Z := u32 (extract_json_int body key (i32 old)).
Definition positive_or (v old : Z) : Z := if 0 <? v then v else old.

(** An entry of a table is replaced, or appended while there is room. *)
Definition put_entry {A} (i : option nat) (max : Z) (stale : A) (f : A -> A) (l : list A) : option (list A) :=
  match i with
  | Some i => Some (alter f i l)
  | None => if Z.of_nat (length l) <? max then Some (l ++ [f stale]) else None
  end.

(** ** Groups *)

Definition handle_group_delete (env : web_env) (st : web_state) (body : option cstring) : outcome :=
  let c := ws_config st in
  let reply := ok_reply "Group deleted" in
  match body with
  | None => nothing st reply
  | Some b =>
      let gname := text b "name" 64 in
      let gid := extract_json_int b "id" (-1) in
      match list_find (fun g => (gname <> [] /\ g_name g = gname) \/ (0 <= gid /\ i32 (g_id g) = gid)) (c_groups c) with
      | Some (i, _) => Outcome (persist env st (set_c_groups (delete i (c_groups c)) c)) (when (we_wan_mgr env) [Rebalance]) reply
      | None => nothing st reply
      end
  end.

(** The indices of the members stay what the slot held, [g_wan_member_indices] of the old entry and then
    [stale_index]; loading the file computes them again. *)
Definition fill_group (name desc : cstring) (enabled : bool) (wans : list cstring) (stale_index : nat -> Z) (g : wan_group_t) : wan_group_t :=
  WanGroup (g_id g) (str_trunc 32 name) (str_trunc 64 desc) (str_trunc MAX_LABEL_LEN <$> wans)
    ((fun k => default (stale_index k) (g_wan_member_indices g !! k)) <$> seq 0 (length wans)) (g_active_wan_count g) (g_maglev_ring g) enabled.
Definition with_group_id (id : Z) (g : wan_group_t) : wan_group_t :=
  WanGroup id (g_name g) (g_description g) (g_wan_names g) (g_wan_member_indices g) (g_active_wan_count g) (g_maglev_ring g) (g_enabled g).
(** [None]: the list of members runs past the end of the request. *)
Definition handle_group_save (stale : wan_group_t) (stale_index : nat -> Z) (env : web_env) (st : web_state) (body : option cstring)
    : option outcome :=
  let c := ws_config st in
  let reply := ok_reply "Group saved" in
  match body with
  | None => Some (nothing st reply)
  | Some b =>
      let gname := text b "name" 64 in
      wans ← parse_json_string_array b "wans";
      if empty gname then Some (nothing st reply) else
      let i := fst <$> list_find (fun g => g_name g = gname) (c_groups c) in
      let stale := with_group_id (u32 (Z.of_nat (length (c_groups c)) + 1)) stale in
      match put_entry i MAX_WAN_GROUPS stale (fill_group gname (text b "description" 64) (extract_json_bool b "enabled" true) wans stale_index) (c_groups c) with
      | Some l => Some (Outcome (persist env st (set_c_groups l c)) (when (we_wan_mgr env) [Rebalance]) reply)
      | None => Some (nothing st reply)
      end
  end.

(** ** Policy routes *)

Definition handle_route_delete (env : web_env) (st : web_state) (body : option cstring) : outcome :=
  let c := ws_config st in
  let reply := ok_reply "Policy route deleted" in
  match body with
  | None => nothing st reply
  | Some b =>
      let subnet := text b "subnet" 64 in
      match list_find (fun r => subnet <> [] /\ pr_subnet_str r = subnet) (lan_policy_routes (c_lan c)) with
      | Some (i, _) =>
          Outcome (persist env st (set_policy_routes (delete i (lan_policy_routes (c_lan c))) c)) (when (we_wan_mgr env) [Rebalance] ++ [PolicyRoutes]) reply
      | None => nothing st reply
      end
  end.
Definition fill_route (subnet gw group desc : cstring) (enabled : bool) (r : policy_route_t) : policy_route_t :=
  let '(ip, mask, prefix) := parse_cidr_subnet subnet in
  PolicyRoute (str_trunc 32 subnet) ip mask prefix (str_trunc 32 gw) (str_to_ip gw) (str_trunc 32 group) (pr_target_group_id r) (str_trunc 64 desc) enabled.
Definition handle_route_save (stale : policy_route_t) (env : web_env) (st : web_state) (body : option cstring) : outcome :=
  let c := ws_config st in
  let reply := ok_reply "Policy route saved" in
  match body with
  | None => nothing st reply
  | Some b =>
      let subnet := text b "subnet" 64 in
      if empty subnet then nothing st reply else
      let i := fst <$> list_find (fun r => pr_subnet_str r = subnet) (lan_policy_routes (c_lan c)) in
      let fill := fill_route subnet (text b "gateway_ip" 64) (text b "target_group" 64) (text b "description" 64) (extract_json_bool b "enabled" true) in
      match put_entry i MAX_POLICY_ROUTES stale fill (lan_policy_routes (c_lan c)) with
      | Some l => Outcome (persist env st (set_policy_routes l c)) (when (we_wan_mgr env) [Rebalance] ++ [PolicyRoutes]) reply
      | None => nothing st reply
      end
  end.

(** ** Address lists *)

(** The value of a new entry is compared without case. *)
Definition add_value (value : cstring) (entries : list address_list_entry_t) : list address_list_entry_t :=
  if empty value || existsb (fun e => strcase_eq (ae_value e) value) entries || (MAX_ENTRIES_PER_LIST <=? Z.of_nat (length entries)) then entries
  else entries ++ [load_entry value].

(** In a script an escaped line end counts as a line end. *)
Fixpoint skip_line_ends (s : cstring) : cstring :=
  match s with
  | [] => []
  | c :: s' =>
      if (c =? 32) || (c =? 9) || (c =? 13) || (c =? 10) then skip_line_ends s'
      else if c =? 92 then
        match s' with
        | d :: s'' => if (d =? 110) || (d =? 114) then skip_line_ends s'' else s
        | [] => s
        end
      else s
  end.
Fixpoint line_of (s : cstring) : cstring * cstring :=
  match s with
  | [] => ([], [])
  | c :: s' =>
      if (c =? 13) || (c =? 10) then ([], s)
      else if (c =? 92) && match s' with d :: _ => (d =? 110) || (d =? 114) | [] => false end then ([], s)
      else let '(l, rest) := line_of s' in (c :: l, rest)
  end.
(** The characters up to one of [stops], [n] at most. *)
Fixpoint word_to (stops : list Z) (n : nat) (s : cstring) : cstring :=
  match n, s with
  | S n, c :: s => if existsb (Z.eqb c) stops then [] else c :: word_to stops n s
  | _, _ => []
  end.
Definition skip_quote (s : cstring) : cstring := match s with 34 :: s => s | _ => s end.
Definition field_stops : list Z := [32; 34; 9; 13; 10].
Definition line_value (line : cstring) : cstring :=
  match strstr line "address=" with
  | Some m => word_to field_stops (Z.to_nat (MAX_ENTRY_STR_LEN - 1)) (skip_quote (drop 8 m))
  | None =>
      if has_prefix "/" line || has_prefix "#" line || has_prefix "add" line then []
      else word_to [32; 9; 44; 13; 10] (Z.to_nat (MAX_ENTRY_STR_LEN - 1)) line
  end.
Definition line_name (line name : cstring) : cstring :=
  match strstr line "list=" with
  | Some m => if empty name then word_to field_stops 63 (skip_quote (drop 5 m)) else name
  | None => name
  end.
(** The name and the entries of the list.  Each turn takes a byte or more. *)
Fixpoint text_loop (fuel : nat) (p : cstring) (name : cstring) (entries : list address_list_entry_t) : cstring * list address_list_entry_t :=
  match fuel with
  | O => (name, entries)
  | S fuel =>
      if MAX_ENTRIES_PER_LIST <=? Z.of_nat (length entries) then (name, entries) else
      match skip_line_ends p with
      | [] => (name, entries)
      | p =>
          let '(line, rest) := line_of p in
          let line := str_trunc 512 line in
          text_loop fuel (match rest with 92 :: _ :: r => r | _ => rest end) (line_name line name) (add_value (line_value line) entries)
      end
  end.
Definition parse_address_entries_from_text (text name : cstring) (entries : list address_list_entry_t) : cstring * list address_list_entry_t :=
  text_loop (S (length text)) text name entries.

(** The array up to the bracket that closes it. *)
Fixpoint json_loop (fuel : nat) (p : cstring) (entries : list address_list_entry_t) : list address_list_entry_t :=
  match fuel with
  | O => entries
  | S fuel =>
      if MAX_ENTRIES_PER_LIST <=? Z.of_nat (length entries) then entries else
      match skip_array_blanks p with
      | [] => entries
      | 123 :: p' =>
          match before 125 p' with
          | None => entries
          | Some o =>
              let obj := str_trunc 512 (123 :: o ++ [125]) in
              json_loop fuel (drop (length o + 1) p') (add_value (text obj "value" MAX_ENTRY_STR_LEN) entries)
          end
      | 34 :: p' =>
          match before 34 p' with
          | None => entries
          | Some v =>
              json_loop fuel (drop (length v + 1) p') (add_value (unescape_json_inplace (str_trunc MAX_ENTRY_STR_LEN v)) entries)
          end
      | _ :: p' => json_loop fuel p' entries
      end
  end.
Definition parse_address_entries_from_json (arr_start : cstring) (entries : list address_list_entry_t) : list address_list_entry_t :=
  match find_matching_bracket arr_start with
  | None => entries
  | Some arr => json_loop (length arr) (drop 1 arr) []
  end.

Definition handle_list_delete (env : web_env) (st : web_state) (body : option cstring) : outcome :=
  let c := ws_config st in
  let reply := ok_reply "Address list deleted" in
  match body with
  | None => nothing st reply
  | Some b =>
      let name := text b "name" 64 in
      match list_find (fun al => name <> [] /\ al_name al = name) (c_address_lists c) with
      | Some (i, al) =>
          Outcome (persist env st (set_c_address_lists (delete i (c_address_lists c)) c))
            [Shell (snprintf 256 "ipset destroy %s 2>/dev/null || true" [FS (set_name al)]); AddressLists] reply
      | None => nothing st reply
      end
  end.

Definition fill_list (c : fluxwan_config_t) (b name : cstring) (scripted : list address_list_entry_t) (al : address_list_t) : address_list_t :=
  let entries :=
    if 0 <? Z.of_nat (length scripted) then scripted
    else match pos ← strstr b (quoted "entries"); strchr pos 91 with
         | Some e_start => parse_address_entries_from_json e_start (al_entries al)
         | None => al_entries al
         end in
  resolve_target (c_wans c) (c_groups c)
    (AddressList (safe_str_copy name 64) (safe_str_copy (or_else_text (text b "description" 128) "Custom Address List") 128)
       (safe_str_copy (or_else_text (text b "target_type" 16) "group") 16) (u32 (extract_json_int b "target_id" 0))
       (safe_str_copy (text b "target_name" 64) 64) (extract_json_bool b "enabled" true) entries).
(** The name is the one of the request, the one the script gives, or a fixed one. *)
Definition scripted_list (b : cstring) (mem : bool) : cstring * list address_list_entry_t :=
  let name := safe_str_copy (text b "name" 64) 64 in
  let '(name, entries) :=
    if mem then
      match (match extract_json_string b "script" 65536 with Some s => Some s | None => extract_json_string b "raw_text" 65536 end) with
      | Some s => parse_address_entries_from_text s name []
      | None => (name, [])
      end
    else (name, []) in
  (or_else_text name "Custom_List", entries).
Definition handle_list_save (stale : address_list_t) (env : web_env) (st : web_state) (body : option cstring) : outcome :=
  let c := ws_config st in
  let reply := ok_reply "Address list saved and applied to Kernel" in
  match body with
  | None => nothing st reply
  | Some b =>
      let '(name, scripted) := scripted_list b (we_mem env) in
      let i := fst <$> list_find (fun al => al_name al = name) (c_address_lists c) in
      match put_entry i MAX_ADDRESS_LISTS stale (fill_list c b name scripted) (c_address_lists c) with
      | Some l => Outcome (persist env st (set_c_address_lists l c)) [AddressLists] reply
      | None => nothing st reply
      end
  end.

(** ** Static leases and rate limits *)

Definition handle_lease_delete (env : web_env) (st : web_state) (body : option cstring) : outcome :=
  let c := ws_config st in
  let reply := ok_reply "Static reservation removed" in
  match body with
  | None => nothing st reply
  | Some b =>
      let mac := text b "mac" 32 in
      let ip := text b "ip" 32 in
      match list_find (fun sl => (mac <> [] /\ strcase_eq (sl_mac_str sl) mac = true) \/ (ip <> [] /\ sl_ip_addr sl = str_to_ip ip)) (lan_static_leases (c_lan c)) with
      | Some (i, _) => Outcome (persist env st (set_static_leases (delete i (lan_static_leases (c_lan c))) c)) (when (we_dhcp env) [DhcpReload]) reply
      | None => nothing st reply
      end
  end.
(** An address that cannot be read leaves the bytes of the slot. *)
Definition fill_lease (mac ip host : cstring) (enabled : bool) (sl : static_lease_t) : static_lease_t :=
  StaticLease (safe_str_copy mac 18) (default (sl_mac_addr sl) (parse_mac_str mac)) (str_to_ip ip)
    (safe_str_copy (or_else_text host "Static-Host") 64) enabled.
Definition handle_lease_save (stale : static_lease_t) (env : web_env) (st : web_state) (body : option cstring) : outcome :=
  let c := ws_config st in
  let reply := ok_reply "Static reservation saved" in
  match body with
  | None => nothing st reply
  | Some b =>
      let mac := text b "mac" 32 in
      let ip := text b "ip" 32 in
      if empty mac || empty ip then nothing st reply else
      let i := fst <$> list_find (fun sl => strcase_eq (sl_mac_str sl) mac = true) (lan_static_leases (c_lan c)) in
      match put_entry i MAX_STATIC_LEASES stale (fill_lease mac ip (text b "hostname" 64) (extract_json_bool b "enabled" true)) (lan_static_leases (c_lan c)) with
      | Some l => Outcome (persist env st (set_static_leases l c)) (when (we_dhcp env) [DhcpReload]) reply
      | None => nothing st reply
      end
  end.

Definition handle_limit_delete (env : web_env) (st : web_state) (body : option cstring) : outcome :=
  let c := ws_config st in
  let reply := ok_reply "Rate limit deleted" in
  match body with
  | None => nothing st reply
  | Some b =>
      let ip := text b "ip" 32 in
      match list_find (fun rl => ip <> [] /\ rl_ip_str rl = ip) (lan_rate_limits (c_lan c)) with
      | Some (i, _) => Outcome (persist env st (set_rate_limits (delete i (lan_rate_limits (c_lan c))) c)) [RateLimits] reply
      | None => nothing st reply
      end
  end.
Definition fill_limit (ip desc : cstring) (max_d max_u : Z) (enabled : bool) (_ : rate_limit_t) : rate_limit_t :=
  RateLimit (safe_str_copy ip 32) (str_to_ip ip) max_d max_u (safe_str_copy desc 64) enabled.
Definition handle_limit_save (stale : rate_limit_t) (env : web_env) (st : web_state) (body : option cstring) : outcome :=
  let c := ws_config st in
  let reply := ok_reply "Rate limit saved" in
  match body with
  | None => nothing st reply
  | Some b =>
      let ip := text b "ip" 32 in
      if empty ip then nothing st reply else
      let i := fst <$> list_find (fun rl => rl_ip_str rl = ip) (lan_rate_limits (c_lan c)) in
      let fill := fill_limit ip (text b "description" 64) (u32 (extract_json_int b "max_down_mbps" 50)) (u32 (extract_json_int b "max_up_mbps" 10))
                    (extract_json_bool b "enabled" true) in
      match put_entry i MAX_RATE_LIMITS stale fill (lan_rate_limits (c_lan c)) with
      | Some l => Outcome (persist env st (set_rate_limits l c)) [RateLimits] reply
      | None => nothing st reply
      end
  end.

(** ** Settings *)

(** A change of settings: saved, loaded again and followed by the actions. *)
Definition change (env : web_env) (st : web_state) (body : option cstring) (f : cstring -> fluxwan_config_t -> fluxwan_config_t)
    (actions : list web_action) (reply : response) : outcome :=
  match body with
  | None => nothing st reply
  | Some b => Outcome (persist env st (f b (ws_config st))) actions reply
  end.

Definition read_qos (b : cstring) (q : qos_config_t) : qos_config_t :=
  QosConfig (extract_json_bool b "enabled" (qos_enabled q)) (filled_or (text b "algorithm" 32) 16 (qos_algorithm q))
    (int_or b "bandwidth_down_mbps" (qos_bandwidth_down_mbps q)) (int_or b "bandwidth_up_mbps" (qos_bandwidth_up_mbps q))
    (extract_json_bool b "diffserv4" (qos_diffserv4 q)).
Definition handle_qos (env : web_env) (st : web_state) (body : option cstring) : outcome :=
  change env st body (fun b c => set_qos (read_qos b (lan_qos (c_lan c))) c) [Qos] (ok_reply "QoS settings updated").

Definition read_dns (b : cstring) (d : dns_features_t) : dns_features_t :=
  DnsFeatures (extract_json_bool b "adblock_enabled" (dns_adblock_enabled d)) (extract_json_bool b "fast_dns_enabled" (dns_fast_dns_enabled d))
    (filled_or (text b "primary_dns" 32) 32 (dns_primary_dns d)) (filled_or (text b "secondary_dns" 32) 32 (dns_secondary_dns d))
    (extract_json_bool b "smart_ipv6_bonding" (dns_smart_ipv6_bonding d)).
Definition handle_dns (env : web_env) (st : web_state) (body : option cstring) : outcome :=
  change env st body (fun b c => set_dns (read_dns b (lan_dns (c_lan c))) c) [DnsFeature] (ok_reply "DNS settings updated").

Definition read_steering (b : cstring) (a : app_steering_t) : app_steering_t :=
  AppSteering (extract_json_bool b "gaming_steering_enabled" (as_gaming_steering_enabled a))
    (extract_json_bool b "voip_steering_enabled" (as_voip_steering_enabled a))
    (extract_json_bool b "bulk_balancing_enabled" (as_bulk_balancing_enabled a))
    (int_or b "primary_gaming_wan_id" (as_primary_gaming_wan_id a)) (int_or b "primary_voip_wan_id" (as_primary_voip_wan_id a)).
Definition handle_app_steering (env : web_env) (st : web_state) (body : option cstring) : outcome :=
  change env st body (fun b c => set_c_app_steering (read_steering b (c_app_steering c)) c) [Steering] (ok_reply "Application steering updated").

Definition read_dpi (b : cstring) (d : dpi_config_t) : dpi_config_t :=
  DpiConfig (extract_json_bool b "enabled" (dpi_enabled d)) (extract_json_bool b "p2p_throttle_enabled" (dpi_p2p_throttle_enabled d))
    (int_or b "p2p_throttle_rate_kbps" (dpi_p2p_throttle_rate_kbps d)) (extract_json_bool b "voip_priority_enabled" (dpi_voip_priority_enabled d))
    (extract_json_bool b "gaming_priority_enabled" (dpi_gaming_priority_enabled d))
    (extract_json_bool b "streaming_balance_enabled" (dpi_streaming_balance_enabled d)).
Definition handle_dpi (env : web_env) (st : web_state) (body : option cstring) : outcome :=
  change env st body (fun b c => set_c_dpi (read_dpi b (c_dpi c)) c) [DpiRules] (ok_reply "DPI traffic policies updated").

Definition handle_telegram_test (env : web_env) (st : web_state) (body : option cstring) : outcome :=
  let field key n := match body with Some b => text b key n | None => [] end in
  let token := or_else_text (field "bot_token" 128) (safe_str_copy (tg_bot_token (c_telegram (ws_config st))) 128) in
  let chat := or_else_text (field "chat_id" 64) (safe_str_copy (tg_chat_id (c_telegram (ws_config st))) 64) in
  Outcome st
    (when (negb (empty token) && negb (empty chat))
       [Shell (snprintf 512 "curl -s -X POST 'https://api.telegram.org/bot%s/sendMessage' -d 'chat_id=%s' -d 'text=🚀 FluxWAN Router: Test notification sent successfully!' >/dev/null 2>&1 &"
                 [FS token; FS chat])])
    (ok_reply "Test alert sent").
Definition read_telegram (b : cstring) (t : telegram_config_t) : telegram_config_t :=
  TelegramConfig (extract_json_bool b "enabled" (tg_enabled t)) (filled_or (text b "bot_token" 128) 128 (tg_bot_token t))
    (filled_or (text b "chat_id" 64) 64 (tg_chat_id t)) (extract_json_bool b "notify_on_failover" (tg_notify_on_failover t))
    (extract_json_bool b "notify_on_recovery" (tg_notify_on_recovery t)).
Definition handle_telegram (env : web_env) (st : web_state) (body : option cstring) : outcome :=
  change env st body (fun b c => set_c_telegram (read_telegram b (c_telegram c)) c) [] (ok_reply "Telegram configuration updated").

(** The shield is saved and not loaded again. *)
Definition read_stealth (b : cstring) (s : stealth_config_t) : stealth_config_t :=
  let ttl := extract_json_int b "ttl_value" 0 in
  StealthConfig (extract_json_bool b "enabled" (st_enabled s)) (if (0 <? ttl) && (ttl <=? 255) then u8 ttl else st_ttl_value s)
    (extract_json_bool b "cloak_traceroute" (st_cloak_traceroute s)) (extract_json_bool b "block_wan_probes" (st_block_wan_probes s)).
Definition handle_stealth (env : web_env) (st : web_state) (body : option cstring) : outcome :=
  let reply := ok_reply "Carrier Stealth Shield settings updated" in
  match body with
  | None => nothing st reply
  | Some b =>
      let c := ws_config st in
      Outcome (save_state env (WebState (set_c_stealth (read_stealth b (c_stealth c)) c) (ws_fs st))) [WanShield] reply
  end.

Definition handle_client_block (env : web_env) (st : web_state) (body : option cstring) : outcome :=
  let ip := match body with Some b => text b "ip" 64 | None => [] end in
  let do_block :=
    match body with
    | None => true
    | Some b => let action := text b "action" 32 in
                if str_eq action "unblock" then false else if str_eq action "block" then true else extract_json_bool b "block" true
    end in
  let blk_file := snprintf 128 "/tmp/fluxwan_blocked_%s" [FS ip] in
  Outcome st
    (when (negb (empty ip))
       [Shell (if do_block then
                 snprintf 256 "ip rule del from %s blackhole priority 50 2>/dev/null || true; ip rule add from %s blackhole priority 50 2>/dev/null || true; touch %s"
                   [FS ip; FS ip; FS blk_file]
               else snprintf 256 "ip rule del from %s blackhole priority 50 2>/dev/null || true; rm -f %s" [FS ip; FS blk_file])])
    (Response 200 (dq "{`status`:`ok`,`success`:true,`message`:`Client access rule updated`}")).

(** ** Backups *)

(** Where the configuration is saved, with a second attempt on the usual path. *)
Definition save_twice (env : web_env) (path : cstring) (c : fluxwan_config_t) (fs : cstring -> option (list Z)) : cstring * (cstring -> option (list Z)) :=
  match config_save (we_can_open env) path c with
  | Some f => (path, written fs f)
  | None => (default_path, match config_save (we_can_open env) default_path c with Some f => written fs f | None => fs end)
  end.
Definition applied (env : web_env) : list web_action := [ApplyConfiguration] ++ when (we_wan_mgr env) [Rebalance] ++ when (we_dhcp env) [DhcpReload].

Definition handle_restore (can_write calloc calloc_import : bool) (env : web_env) (st : web_state) (body : option cstring) : outcome :=
  let failed (msg : cstring) := nothing st (Response 400 (snprintf 512 (dq "{`status`:`error`,`message`:`%s`}") [FS msg])) in
  match body with
  | None => failed "Invalid payload"
  | Some b =>
      if negb calloc then failed "Invalid payload" else
      let path := safe_str_copy (get_config_target_path env (ws_config st)) MAX_PATH_LEN in
      match config_import_backup can_write (we_mem env) calloc_import (we_now env) (trim_left b) (set_c_config_file_path path zero_config) 256 with
      | inl e => failed e
      | inr c => Outcome (WebState c ((save_twice env path c (ws_fs st)).2)) (applied env)
                   (ok_reply "Backup restored and applied to Linux kernel successfully!")
      end
  end.

Definition handle_reset (calloc : bool) (env : web_env) (st : web_state) (_ : option cstring) : outcome :=
  let reply := ok_reply "System reset to factory defaults successfully" in
  if negb calloc then nothing st reply else
  let path := safe_str_copy (get_config_target_path env (ws_config st)) MAX_PATH_LEN in
  let c := set_c_config_file_path path config_reset_to_defaults in
  Outcome (WebState c ((save_twice env path c (ws_fs st)).2)) (applied env) reply.

Definition handle_renew (env : web_env) (st : web_state) (_ : option cstring) : outcome :=
  Outcome st (when (we_wan_mgr env) [DhcpRenewAll]) (ok_reply "WAN DHCP renew broadcasted across all uplinks successfully!").

(** ** The PPPoE server *)

Definition with_config (f : fluxwan_config_t -> fluxwan_config_t) (st : web_state) : web_state := WebState (f (ws_config st)) (ws_fs st).
Definition field (body : option cstring) (key : string) (n : Z) : cstring := match body with Some b => text b key n | None => [] end.
Definition enabled_reply (enable : bool) (message : string) : response :=
  Response 200 (sprintf (dq "{`status`:`ok`,`enabled`:%s,`message`:`%s`}") [FS (if enable then bytes_of_string "true" else bytes_of_string "false"); FS message]).
Definition enable_of (body : option cstring) : bool := match body with Some b => extract_json_bool b "enabled" true | None => true end.

Definition set_ps_enabled (v : bool) (x : pppoe_server_config_t) : pppoe_server_config_t :=
  PppoeServerConfig v (ps_lan_mode x) (ps_interface x) (ps_service_name x) (ps_ac_name x)
    (ps_local_ip x) (ps_pool_start x) (ps_pool_end x) (ps_pool_count x) (ps_dns1 x) (ps_dns2 x)
    (ps_mru x) (ps_mss x) (ps_radius x) (ps_profiles x) (ps_users x).
Definition handle_broadband_toggle (env : web_env) (st : web_state) (body : option cstring) : outcome :=
  let enable := enable_of body in
  Outcome (with_config (fun c => set_c_pppoe_server (set_ps_enabled enable (c_pppoe_server c)) c) st)
    (when (we_pppoe env) [if enable then PppoeStart else PppoeStop] ++ [SaveConfig]) (enabled_reply enable "Broadband server state updated").

Definition read_broadband (b : cstring) (x : pppoe_server_config_t) : pppoe_server_config_t :=
  let msess := extract_json_int b "max_sessions" 0 in
  PppoeServerConfig (ps_enabled x) (text_or b "lan_mode" 64 16 (ps_lan_mode x)) (text_or b "interface" 64 32 (ps_interface x))
    (text_or b "service_name" 64 64 (ps_service_name x)) (text_or b "ac_name" 64 64 (ps_ac_name x))
    (text_or b "local_ip" 64 32 (ps_local_ip x)) (text_or b "pool_start" 64 32 (ps_pool_start x)) (text_or b "pool_end" 64 32 (ps_pool_end x))
    (positive_or msess (ps_pool_count x)) (text_or b "dns1" 64 32 (ps_dns1 x)) (text_or b "dns2" 64 32 (ps_dns2 x))
    (ps_mru x) (ps_mss x) (ps_radius x) (ps_profiles x) (ps_users x).
Definition handle_broadband_config (env : web_env) (st : web_state) (body : option cstring) : outcome :=
  let reply := ok_reply "Broadband configuration saved successfully" in
  match body with
  | None => nothing st reply
  | Some b =>
      let p := read_broadband b (c_pppoe_server (ws_config st)) in
      Outcome (with_config (fun c => set_dhcp_enabled (negb (str_eq (ps_lan_mode p) "pppoe_only")) (set_c_pppoe_server p c)) st)
        (when (we_pppoe env && ps_enabled p) [PppoeStop; PppoeStart] ++ [SaveConfig]) reply
  end.

(** An action on a subscriber, when one is named. *)
Definition named_action (env : web_env) (st : web_state) (name : cstring) (a : web_action) (message : string) : outcome :=
  Outcome st (when (negb (empty name) && we_pppoe env) [a; SaveConfig]) (ok_reply message).
Definition handle_user_delete (env : web_env) (st : web_state) (body : option cstring) : outcome :=
  let uname := field body "username" 64 in named_action env st uname (PppoeDeleteUser uname) "User deleted successfully".
Definition handle_user_renew (env : web_env) (st : web_state) (body : option cstring) : outcome :=
  let uname := field body "username" 64 in
  let days := match body with Some b => u32 (extract_json_int b "days" 0) | None => 0 end in
  named_action env st uname (PppoeRenewUser uname days (field body "profile" 64)) "Subscriber renewed successfully".
Definition handle_user_toggle (env : web_env) (st : web_state) (body : option cstring) : outcome :=
  let uname := field body "username" 64 in
  named_action env st uname (PppoeToggleUser uname (enable_of body)) "Subscriber state updated".
Definition handle_profile_delete (env : web_env) (st : web_state) (body : option cstring) : outcome :=
  let pname := field body "name" 64 in named_action env st pname (PppoeDeleteProfile pname) "Speed profile deleted successfully".
Definition handle_disconnect (env : web_env) (st : web_state) (body : option cstring) : outcome :=
  let ifname := field body "ifname" 64 in
  Outcome st (when (negb (empty ifname) && we_pppoe env) [PppoeDisconnect ifname]) (ok_reply "Session disconnected successfully").

(** A subscriber as the request gives it. *)
Definition read_user (now : Z) (b : cstring) : pppoe_user_t :=
  let keep_expiry := extract_json_bool b "keep_expiry" false in
  let vdays := extract_json_int b "validity_days" (-1) in
  let expires :=
    if negb keep_expiry && (0 <=? vdays) then (if vdays =? 0 then 0 else u64 (now + vdays * 86400)) else extract_json_uint64 b "expires_at" 0 in
  PppoeUser (text b "username" 64) (text b "password" 64) (or_else_text (text b "profile" 64) "Standard_25M") (text b "static_ip" 32)
    (text b "comment" 128) (extract_json_uint64 b "created_at" 0) expires (extract_json_bool b "enabled" true).
(** Under another name the old subscriber is deleted, even when the new name is empty. *)
Definition handle_user_save (env : web_env) (st : web_state) (body : option cstring) : outcome :=
  let reply := ok_reply "User account saved successfully" in
  match body with
  | Some b =>
      if negb (we_pppoe env) then nothing st reply else
      let old := text b "old_username" 64 in
      let u := read_user (we_now env) b in
      Outcome st (when (negb (empty old) && negb (str_eq old (pu_username u))) [PppoeDeleteUser old] ++
                  when (negb (empty (pu_username u))) [PppoeSetUser u; SaveConfig]) reply
  | None => nothing st reply
  end.

Definition read_profile (b : cstring) : pppoe_profile_t :=
  PppoeProfile (text b "name" 64) (u32 (extract_json_int b "rate_down_kbps" 0)) (u32 (extract_json_int b "rate_up_kbps" 0))
    (u32 (extract_json_int b "validity_days" 30)) (text b "description" 64).
Definition handle_profile_save (env : web_env) (st : web_state) (body : option cstring) : outcome :=
  let reply := ok_reply "Speed profile saved successfully" in
  match body with
  | Some b =>
      if negb (we_pppoe env) then nothing st reply else
      let old := text b "old_name" 64 in
      let p := read_profile b in
      Outcome st (when (negb (empty old) && negb (str_eq old (pp_name p))) [PppoeRenameProfile old (pp_name p)] ++
                  when (negb (empty (pp_name p))) [PppoeSetProfile p; SaveConfig]) reply
  | None => nothing st reply
  end.

Definition read_radius (b : cstring) (r : radius_config_t) : radius_config_t :=
  let port key old := let p := extract_json_int b key 0 in if 0 <? p then u16 p else old in
  RadiusConfig (extract_json_bool b "enabled" (rad_enabled r))
    (match extract_json_string b "proto" 128 with
     | Some v => if strcase_eq v "radsec" || strcase_eq v "tls" then RADIUS_PROTO_RADSEC else RADIUS_PROTO_UDP
     | None => rad_proto r
     end)
    (text_or b "server" 128 128 (rad_server r)) (text_or b "secret" 128 64 (rad_secret r))
    (port "auth_port" (rad_auth_port r)) (port "acct_port" (rad_acct_port r)) (port "coa_port" (rad_coa_port r))
    (positive_or (extract_json_int b "interim_interval" 0) (rad_interim_interval r))
    (text_or b "nas_identifier" 128 64 (rad_nas_identifier r)) (extract_json_bool b "tls_verify_cert" (rad_tls_verify_cert r))
    (text_or b "ca_cert_path" 128 256 (rad_ca_cert_path r)) (text_or b "client_cert_path" 128 256 (rad_client_cert_path r))
    (text_or b "client_key_path" 128 256 (rad_client_key_path r)) (text_or b "sni_hostname" 128 64 (rad_sni_hostname r)).
Definition set_ps_radius (v : radius_config_t) (x : pppoe_server_config_t) : pppoe_server_config_t :=
  PppoeServerConfig (ps_enabled x) (ps_lan_mode x) (ps_interface x) (ps_service_name x) (ps_ac_name x)
    (ps_local_ip x) (ps_pool_start x) (ps_pool_end x) (ps_pool_count x) (ps_dns1 x) (ps_dns2 x)
    (ps_mru x) (ps_mss x) v (ps_profiles x) (ps_users x).
Definition handle_radius (env : web_env) (st : web_state) (body : option cstring) : outcome :=
  let reply := ok_reply "RADIUS / RadSec AAA configuration saved" in
  match body with
  | None => nothing st reply
  | Some b =>
      let p := c_pppoe_server (ws_config st) in
      Outcome (with_config (set_c_pppoe_server (set_ps_radius (read_radius b (ps_radius p)) p)) st)
        ([SaveConfig] ++ when (we_pppoe env && ps_enabled p) [PppoeReload]) reply
  end.

(** ** The virtual private networks *)

Definition set_wireguard (f : wireguard_config_t -> wireguard_config_t) (c : fluxwan_config_t) : fluxwan_config_t :=
  set_c_vpn (VpnConfig (f (vpn_wireguard (c_vpn c))) (vpn_zerotier (c_vpn c)) (vpn_tailscale (c_vpn c))) c.
Definition set_zerotier (f : zerotier_config_t -> zerotier_config_t) (c : fluxwan_config_t) : fluxwan_config_t :=
  set_c_vpn (VpnConfig (vpn_wireguard (c_vpn c)) (f (vpn_zerotier (c_vpn c))) (vpn_tailscale (c_vpn c))) c.
Definition set_tailscale (f : tailscale_config_t -> tailscale_config_t) (c : fluxwan_config_t) : fluxwan_config_t :=
  set_c_vpn (VpnConfig (vpn_wireguard (c_vpn c)) (vpn_zerotier (c_vpn c)) (f (vpn_tailscale (c_vpn c)))) c.

Definition handle_wg_toggle (env : web_env) (st : web_state) (body : option cstring) : outcome :=
  let enable := enable_of body in
  Outcome (with_config (set_wireguard (fun w => WireguardConfig enable (wg_interface w) (wg_listen_port w) (wg_address w) (wg_private_key w)
             (wg_public_key w) (wg_allow_remote_mgmt w) (wg_peers w))) st)
    [WgApply; SaveConfig] (enabled_reply enable "WireGuard state updated").
Definition read_wireguard (b : cstring) (w : wireguard_config_t) : wireguard_config_t :=
  let port := extract_json_int b "listen_port" 0 in
  WireguardConfig (wg_enabled w) (text_or b "interface" 128 32 (wg_interface w)) (if 0 <? port then u16 port else wg_listen_port w)
    (text_or b "address" 128 64 (wg_address w)) (text_or b "private_key" 128 64 (wg_private_key w))
    (text_or b "public_key" 128 64 (wg_public_key w)) (extract_json_bool b "allow_remote_mgmt" (wg_allow_remote_mgmt w)) (wg_peers w).
Definition handle_wg_config (env : web_env) (st : web_state) (body : option cstring) : outcome :=
  let reply := ok_reply "WireGuard settings saved successfully" in
  match body with
  | None => nothing st reply
  | Some b => Outcome (with_config (set_wireguard (read_wireguard b)) st) [WgApply; SaveConfig] reply
  end.
Definition handle_wg_peer_delete (env : web_env) (st : web_state) (body : option cstring) : outcome :=
  let key := field body "public_key" 64 in
  Outcome st (when (negb (empty key)) [WgDeletePeer key; SaveConfig]) (ok_reply "Peer removed successfully").
Definition read_peer (b : cstring) : wireguard_peer_t :=
  WireguardPeer (text b "name" 64) (text b "public_key" 64) (text b "client_private_key" 64) (text b "preshared_key" 64)
    (text b "allowed_ips" 128) (text b "endpoint" 128) (u16 (extract_json_int b "persistent_keepalive" 25)) (extract_json_bool b "enabled" true)
    0 0 0 [].
Definition handle_wg_peer_save (env : web_env) (st : web_state) (body : option cstring) : outcome :=
  let reply := ok_reply "Peer saved successfully" in
  match body with
  | None => nothing st reply
  | Some b => let p := read_peer b in Outcome st (when (negb (empty (wp_public_key p))) [WgAddPeer p; SaveConfig]) reply
  end.

Definition handle_zt_toggle (env : web_env) (st : web_state) (body : option cstring) : outcome :=
  let enable := enable_of body in
  Outcome (with_config (set_zerotier (fun z => ZerotierConfig enable (zt_node_id z) (zt_allow_remote_mgmt z) (zt_networks z))) st)
    [ZtApply; SaveConfig] (enabled_reply enable "ZeroTier state updated").
Definition handle_zt_config (env : web_env) (st : web_state) (body : option cstring) : outcome :=
  let reply := ok_reply "ZeroTier settings saved successfully" in
  match body with
  | None => nothing st reply
  | Some b =>
      Outcome (with_config (set_zerotier (fun z => ZerotierConfig (zt_enabled z) (zt_node_id z) (extract_json_bool b "allow_remote_mgmt" (zt_allow_remote_mgmt z)) (zt_networks z))) st)
        [ZtApply; SaveConfig] reply
  end.
(** The hexadecimal digits of the text, sixteen at most. *)
Definition isxdigit (c : Z) : bool := isdigit c || ((65 <=? c) && (c <=? 70)) || ((97 <=? c) && (c <=? 102)).
Definition clean_nwid (nwid : cstring) : cstring := take 16 (tolower <$> filter (fun c => isxdigit c = true) nwid).
(** [joined]: what [vpn_manager_zt_join] returns, below zero for a failure. *)
Definition handle_zt_join (joined : Z) (env : web_env) (st : web_state) (body : option cstring) : outcome :=
  let id := clean_nwid (field body "nwid" 32) in
  if negb (Z.of_nat (length id) =? 16) then nothing st (error_reply "Invalid 16-hex ZeroTier Network ID")
  else
    let join := ZtJoin id (field body "name" 64) in
    if 0 <=? joined then Outcome st [join; SaveConfig] (ok_reply "Network joined successfully")
    else Outcome st [join] (Response 500 (dq "{`status`:`error`,`message`:`Failed to join ZeroTier network`}")).
Definition handle_zt_leave (env : web_env) (st : web_state) (body : option cstring) : outcome :=
  let nwid := field body "nwid" 32 in
  Outcome st (when (negb (empty nwid)) [ZtLeave nwid; SaveConfig]) (ok_reply "Left network successfully").

Definition handle_ts_toggle (env : web_env) (st : web_state) (body : option cstring) : outcome :=
  let enable := enable_of body in
  Outcome (with_config (set_tailscale (fun t => TailscaleConfig enable (ts_auth_key t) (ts_hostname t) (ts_login_server t) (ts_advertise_routes t)
             (ts_accept_routes t) (ts_is_exit_node t) (ts_allow_remote_mgmt t) (ts_status t) (ts_ipv4 t) (ts_ipv6 t) (ts_magic_dns_name t) (ts_login_url t))) st)
    [if enable then TsApply else TsDown; SaveConfig] (enabled_reply enable "Tailscale state updated").
Definition set_ts_allow_remote_mgmt (v : bool) (t : tailscale_config_t) : tailscale_config_t :=
  TailscaleConfig (ts_enabled t) (ts_auth_key t) (ts_hostname t) (ts_login_server t) (ts_advertise_routes t)
    (ts_accept_routes t) (ts_is_exit_node t) v (ts_status t) (ts_ipv4 t) (ts_ipv6 t) (ts_magic_dns_name t) (ts_login_url t).
(** [after]: the node after [vpn_manager_tailscale_up]. *)
Definition handle_ts_up (after : tailscale_config_t) (env : web_env) (st : web_state) (body : option cstring) : outcome :=
  let t := vpn_tailscale (c_vpn (ws_config st)) in
  let flag key old := match body with Some b => extract_json_bool b key old | None => old end in
  Outcome (with_config (set_tailscale (set_ts_allow_remote_mgmt (flag "allow_remote_mgmt" (ts_allow_remote_mgmt t)))) st)
    [TsUp (field body "auth_key" 128) (field body "hostname" 64) (field body "login_server" 128) (field body "advertise_routes" 128)
       (flag "accept_routes" (ts_accept_routes t)) (flag "is_exit_node" (ts_is_exit_node t)); SaveConfig]
    (Response 200 (snprintf 512 (dq "{`status`:`ok`,`message`:`Tailscale connected`,`node_status`:`%s`,`ipv4`:`%s`,`login_url`:`%s`}")
       [FS (ts_status after); FS (ts_ipv4 after); FS (ts_login_url after)])).
Definition handle_ts_down (env : web_env) (st : web_state) (_ : option cstring) : outcome :=
  Outcome st [TsDown; SaveConfig] (ok_reply "Tailscale disconnected successfully").
Definition read_tailscale (b : cstring) (t : tailscale_config_t) : tailscale_config_t :=
  TailscaleConfig (ts_enabled t) (text_or b "auth_key" 128 128 (ts_auth_key t)) (text_or b "hostname" 128 64 (ts_hostname t))
    (text_or b "login_server" 128 128 (ts_login_server t)) (text_or b "advertise_routes" 128 128 (ts_advertise_routes t))
    (extract_json_bool b "accept_routes" (ts_accept_routes t)) (extract_json_bool b "is_exit_node" (ts_is_exit_node t))
    (extract_json_bool b "allow_remote_mgmt" (ts_allow_remote_mgmt t)) (ts_status t) (ts_ipv4 t) (ts_ipv6 t) (ts_magic_dns_name t) (ts_login_url t).
Definition handle_ts_config (env : web_env) (st : web_state) (body : option cstring) : outcome :=
  let reply := ok_reply "Tailscale settings saved successfully" in
  match body with
  | None => nothing st reply
  | Some b => Outcome (with_config (set_tailscale (read_tailscale b)) st) [TsApply; SaveConfig] reply
  end.

(** ** The whole configuration *)

(** The parts that the payload does not mention are taken from the running configuration [old]. *)
Definition omitted (b : cstring) (key : string) : bool := negb (found b (quoted key)).
Definition none {A} (l : list A) : bool := bool_decide (l = []).
Definition keep_wans (b : cstring) (old t : fluxwan_config_t) : fluxwan_config_t :=
  if none (c_wans t) && negb (none (c_wans old)) && omitted b "wans" then set_c_wans (c_wans old) t else t.
Definition keep_lan (old t : fluxwan_config_t) : fluxwan_config_t :=
  let l := c_lan t in let o := c_lan old in
  set_c_lan (LanConfig (if empty (lan_name l) then safe_str_copy (or_else_text (lan_name o) "eth0") MAX_IFNAME_LEN else lan_name l)
    (if lan_ip_addr l =? 0 then (if lan_ip_addr o =? 0 then str_to_ip "192.168.90.1" else lan_ip_addr o) else lan_ip_addr l)
    (if lan_netmask l =? 0 then (if lan_netmask o =? 0 then str_to_ip "255.255.255.0" else lan_netmask o) else lan_netmask l)
    (lan_dhcp_enabled l) (lan_dhcp_start l) (lan_dhcp_end l) (lan_dhcp_lease_time l) (lan_ifindex l) (lan_policy_routes l) (lan_static_leases l)
    (lan_rate_limits l) (lan_qos l) (lan_dns l)) t.
Definition keep_pppoe (b : cstring) (old t : fluxwan_config_t) : fluxwan_config_t :=
  let p := c_pppoe_server t in let o := c_pppoe_server old in
  set_c_pppoe_server
    (if omitted b "pppoe_server" then o
     else let p := if none (ps_users p) && negb (none (ps_users o)) then set_ps_users (ps_users o) p else p in
          if none (ps_profiles p) && negb (none (ps_profiles o)) then set_ps_profiles (ps_profiles o) p else p) t.
Definition keep_vpn (b : cstring) (old t : fluxwan_config_t) : fluxwan_config_t :=
  let w := vpn_wireguard (c_vpn t) in let wo := vpn_wireguard (c_vpn old) in
  let z := vpn_zerotier (c_vpn t) in let zo := vpn_zerotier (c_vpn old) in
  let text_kept (new old : cstring) n := if empty new && negb (empty old) then safe_str_copy old n else new in
  set_c_vpn
    (if omitted b "vpn" then c_vpn old
     else VpnConfig
            (WireguardConfig (wg_enabled w) (wg_interface w) (wg_listen_port w) (wg_address w) (text_kept (wg_private_key w) (wg_private_key wo) 64)
               (text_kept (wg_public_key w) (wg_public_key wo) 64) (wg_allow_remote_mgmt w)
               (if none (wg_peers w) && negb (none (wg_peers wo)) && omitted b "peers" then wg_peers wo else wg_peers w))
            (ZerotierConfig (zt_enabled z) (text_kept (zt_node_id z) (zt_node_id zo) 32) (zt_allow_remote_mgmt z)
               (if none (zt_networks z) && negb (none (zt_networks zo)) && omitted b "networks" then zt_networks zo else zt_networks z))
            (vpn_tailscale (c_vpn t))) t.
Definition keep_services (b : cstring) (old t : fluxwan_config_t) : fluxwan_config_t :=
  let pick {A} (key : string) (f : fluxwan_config_t -> A) : A := if omitted b key then f old else f t in
  FluxwanConfig (c_lan t) (c_wans t) (c_groups t) (pick "prober" c_prober) (pick "sticky" c_sticky) (c_telegram t) (pick "nat46" c_nat46)
    (pick "stealth" c_stealth) (c_address_lists t) (c_app_steering t) (pick "web" c_web) (pick "auth" c_auth) (pick "dpi" c_dpi)
    (c_pppoe_server t) (c_vpn t) (c_config_file_path t).
Definition merge_config (b : cstring) (old t : fluxwan_config_t) : fluxwan_config_t :=
  keep_services b old (keep_vpn b old (keep_pppoe b old (keep_lan old (keep_wans b old t)))).

Definition test_path : cstring := "/tmp/fluxwan_test_cfg.json".
Definition assign_ok : response := ok_reply "Configuration validated, saved, and applied to Linux Kernel".
Definition assign_actions (env : web_env) : list web_action :=
  [ApplyConfiguration] ++ when (we_proxy env) [ProxyApply] ++ when (we_wan_mgr env) [Rebalance].
Definition install (env : web_env) (st : web_state) (fs : cstring -> option (list Z)) (merged : fluxwan_config_t) : outcome :=
  let '(path, fs) := save_twice env (get_config_target_path env (ws_config st)) merged fs in
  let c := default (ws_config st) (config_load fs (we_mem env) (we_now env) path (ws_config st)) in
  Outcome (WebState c fs) (when (we_pppoe env) [PppoeReload] ++ [VpnApply] ++ when (we_proxy env) [ProxyApply] ++ assign_actions env) assign_ok.
(** The payload goes through a file; when that cannot be opened, an older file is read. *)
Definition payload_fs (env : web_env) (st : web_state) (b : cstring) : cstring -> option (list Z) :=
  if we_can_open env test_path then written (ws_fs st) (test_path, b) else ws_fs st.
Definition apply_payload (env : web_env) (st : web_state) (b : cstring) : outcome :=
  let fs := payload_fs env st b in
  match config_load fs (we_mem env) (we_now env) test_path zero_config with
  | None => Outcome (WebState (ws_config st) fs) (assign_actions env) assign_ok
  | Some t =>
      let merged := merge_config b (ws_config st) t in
      match config_validate_wan_attachments merged 256 with
      | Some e => Outcome (WebState (ws_config st) fs) [] (Response 400 (snprintf 512 (dq "{`status`:`error`,`message`:`%s`}") [FS e]))
      | None => install env st fs merged
      end
  end.
Definition handle_assign (calloc : bool) (env : web_env) (st : web_state) (body : option cstring) : outcome :=
  let apply_only := Outcome st (assign_actions env) assign_ok in
  match trim_left <$> body with
  | Some b => if bool_decide (head b = Some 123) && calloc then apply_payload env st b else apply_only
  | None => apply_only
  end.

(** ** The file follows the running configuration *)

Definition on_disk (env : web_env) (c : fluxwan_config_t) : Prop :=
  let path := get_config_target_path env c in
  we_can_open env path = true /\ Z.of_nat (length path) < MAX_PATH_LEN /\ we_mem env = true.

Lemma target_path_filled env c : get_config_target_path env c <> [].
Proof. unfold get_config_target_path, empty. case_bool_decide; [by destruct (we_opt_writable env)|]. by repeat case_match. Qed.

Lemma save_opens can_open p c : p <> [] -> can_open p = true -> config_save can_open p c = Some (p, config_text c).
Proof.
  intros Hp Ho. unfold config_save, save_path, or_else_text, empty. rewrite (bool_decide_false (p = [])) by done. by rewrite Ho.
Qed.

Lemma persist_reload env st c :
  config_ok c -> on_disk env c ->
  persist env st c = WebState (reload (get_config_target_path env c) c) (written (ws_fs st) (get_config_target_path env c, config_text c)).
Proof.
  intros Hok (Ho & Hl & Hm). pose proof (target_path_filled env c) as Hp. unfold persist, save_state. cbn [ws_config ws_fs].
  rewrite save_opens by done. unfold load_state. cbn [ws_config ws_fs]. rewrite Hm.
  set (p := get_config_target_path env c) in *.
  pose proof (saved_load c (we_can_open env) p (ws_fs st) (we_now env) c (p, config_text c) Hok (save_opens _ _ _ Hp Ho) Hl) as E.
  cbn [fst] in E. by rewrite E.
Qed.

(** What a restart reads is the running configuration. *)
Lemma persist_restarts env st c now old :
  config_ok c -> on_disk env c ->
  config_load (ws_fs (persist env st c)) true now (get_config_target_path env c) old = Some (ws_config (persist env st c)).
Proof.
  intros Hok Hd. rewrite persist_reload by done. destruct Hd as (Ho & Hl & Hm). cbn [ws_config ws_fs].
  exact (saved_load c (we_can_open env) _ (ws_fs st) now old (_, config_text c) Hok (save_opens _ _ _ (target_path_filled env c) Ho) Hl).
Qed.

(** ** Groups *)

Section GroupSaved.
Context (stale : wan_group_t) (stale_index : nat -> Z) (env : web_env) (st : web_state) (b : cstring) (ws : list cstring).
Let c := ws_config st.
Let name := text b "name" 64.
Let desc := text b "description" 64.
Context (Hok : config_ok c) (Hn : txt 32 name) (Hne : name <> []) (Hd : txt 64 desc) (Hws : Forall (txt MAX_LABEL_LEN) ws)
  (Hwl : Z.of_nat (length ws) <= MAX_GROUP_MEMBERS) (Hp : parse_json_string_array b "wans" = Some ws)
  (Hroom : Z.of_nat (length (c_groups c)) < MAX_WAN_GROUPS \/ exists g, g ∈ c_groups c /\ g_name g = name).
Let fill := fill_group name desc (extract_json_bool b "enabled" true) ws stale_index.

Lemma trunc_txt n s : txt n s -> str_trunc n s = s.
Proof. intros (_ & _ & H). by apply trunc_fits. Qed.
Lemma trunc_txts n l : Forall (txt n) l -> str_trunc n <$> l = l.
Proof. induction 1 as [|s l H _ IH]; [done|]. cbn [fmap list_fmap]. by rewrite trunc_txt, IH. Qed.
Lemma fill_group_ok g : is_u32 (g_id g) -> group_ok (fill g).
Proof. intros Hi. unfold group_ok, fill, fill_group. cbn. rewrite !trunc_txt, trunc_txts by done. done. Qed.

Lemma put_some : exists l, put_entry (fst <$> list_find (fun g => g_name g = name) (c_groups c)) MAX_WAN_GROUPS
    (with_group_id (u32 (Z.of_nat (length (c_groups c)) + 1)) stale) fill (c_groups c) = Some l
  /\ (exists g, fill g ∈ l) /\ Forall group_ok l /\ Z.of_nat (length l) <= MAX_WAN_GROUPS.
Proof.
  destruct (co_groups _ Hok) as [Hg Hlen]. unfold put_entry. destruct (list_find _ _) as [[i g]|] eqn:E; cbn [fmap option_fmap option_map fst].
  - apply list_find_Some in E as (Hi & _ & _). eexists; split; [done|]. split_and!.
    + exists g. apply list_elem_of_lookup. exists i. rewrite list_lookup_alter_eq, Hi. done.
    + apply Forall_alter; [done|]. intros x Hx Hxok. apply fill_group_ok, Hxok.
    + by rewrite length_alter.
  - destruct Hroom as [Hr | (g & Hgin & Hgn)].
    + apply Z.ltb_lt in Hr as Hr'. rewrite Hr'. eexists; split; [done|]. split_and!.
      * eexists. apply elem_of_app. right. by apply list_elem_of_singleton.
      * apply Forall_app. split; [done|]. constructor; [|constructor]. apply fill_group_ok. cbn. unfold is_u32, u32. apply Z.mod_pos_bound. lia.
      * rewrite length_app. cbn [length]. lia.
    + exfalso. apply list_find_None in E. rewrite Forall_forall in E. by apply (E g).
Qed.

Lemma group_save_outcome : exists l o,
  handle_group_save stale stale_index env st (Some b) = Some o /\ oc_state o = persist env st (set_c_groups l c)
  /\ (exists g, fill g ∈ l) /\ config_ok (set_c_groups l c).
Proof.
  destruct put_some as (l & E & Hin & Hg & Hl). exists l. eexists. unfold handle_group_save. fold c name desc. rewrite Hp. cbn [mbind option_bind].
  unfold empty. rewrite (bool_decide_false (name = [])) by done. fold fill. rewrite E. split; [done|]. split; [done|]. split; [done|].
  destruct Hok. by split.
Qed.

End GroupSaved.

(** A group that a request gives is in the running configuration when the request is answered, with its
    members resolved to the uplinks of their names, and a restart reads exactly the running configuration back
    from the file. *)
Theorem group_saved_survives_restart stale stale_index env st b ws now old :
  let c := ws_config st in
  let name := text b "name" 64 in
  config_ok c -> txt 32 name -> name <> [] -> txt 64 (text b "description" 64) ->
  parse_json_string_array b "wans" = Some ws -> Forall (txt MAX_LABEL_LEN) ws -> Z.of_nat (length ws) <= MAX_GROUP_MEMBERS ->
  Z.of_nat (length (c_groups c)) < MAX_WAN_GROUPS \/ (exists g, g ∈ c_groups c /\ g_name g = name) ->
  on_disk env c ->
  exists o, handle_group_save stale stale_index env st (Some b) = Some o /\
    let c' := ws_config (oc_state o) in
    (exists g, g ∈ c_groups c' /\ g_name g = name /\ g_description g = text b "description" 64 /\ g_wan_names g = ws
       /\ g_enabled g = extract_json_bool b "enabled" true
       /\ g_wan_member_indices g = omap (fun n => (fun iw => Z.of_nat iw.1) <$> list_find (fun w => named n w = true) (c_wans c')) ws)
    /\ config_load (ws_fs (oc_state o)) true now (get_config_target_path env c) old = Some c'.
Proof.
  intros c name Hok Hn Hne Hd Hp Hws Hwl Hroom Hdisk.
  destruct (group_save_outcome stale stale_index env st b ws Hok Hn Hne Hd Hws Hwl Hp Hroom) as (l & o & Ho & Hs & (g & Hg) & Hok').
  exists o. split; [done|]. rewrite Hs. change (on_disk env (set_c_groups l c)) in Hdisk. split.
  - rewrite persist_reload by done. eexists. split.
    + cbn [ws_config reload c_groups set_c_groups]. apply list_elem_of_fmap. eexists. split; [reflexivity|].
      apply list_elem_of_fmap. eexists. split; [reflexivity|exact Hg].
    + cbn. fold name. rewrite !trunc_txt, trunc_txts by done. done.
  - change (get_config_target_path env c) with (get_config_target_path env (set_c_groups l c)). by apply persist_restarts.
Qed.

(** ** The size of the tables *)

(** The uplinks and the tables that the handlers change themselves.  Subscribers and their profiles, peers and networks are
    added by their own managers ([PppoeServer], [VpnManager]). *)
Record tables_fit (c : fluxwan_config_t) : Prop := TablesFit {
  tf_wans : Z.of_nat (length (c_wans c)) <= MAX_WANS;
  tf_groups : Z.of_nat (length (c_groups c)) <= MAX_WAN_GROUPS;
  tf_routes : Z.of_nat (length (lan_policy_routes (c_lan c))) <= MAX_POLICY_ROUTES;
  tf_leases : Z.of_nat (length (lan_static_leases (c_lan c))) <= MAX_STATIC_LEASES;
  tf_limits : Z.of_nat (length (lan_rate_limits (c_lan c))) <= MAX_RATE_LIMITS;
  tf_lists : Z.of_nat (length (c_address_lists c)) <= MAX_ADDRESS_LISTS;
  tf_entries : Forall (fun al => Z.of_nat (length (al_entries al)) <= MAX_ENTRIES_PER_LIST) (c_address_lists c)
}.

Lemma objects_fit {A} close max (f : Z -> cstring -> A) pos : 0 <= max -> Z.of_nat (length (load_objects close max f pos)) <= max.
Proof.
  intros Hm. unfold load_objects. destruct (pos ≫= json_array); [|done]. rewrite length_imap, length_take. lia.
Qed.
Lemma entries_fit pos : Z.of_nat (length (load_entries pos)) <= MAX_ENTRIES_PER_LIST.
Proof.
  unfold load_entries. destruct (pos ≫= json_array); [|done]. rewrite length_fmap, length_take. unfold MAX_ENTRIES_PER_LIST. lia.
Qed.
Lemma resolved_entries wans groups al : al_entries (resolve_target wans groups al) = al_entries al.
Proof. unfold resolve_target. by repeat case_match. Qed.

Lemma load_wans_fit json : Z.of_nat (length (load_wans json)) <= MAX_WANS.
Proof.
  unfold load_wans. destruct (find_wans _ _) as [arr|]; [|done].
  assert (Hu : forall l acc, length (fold_left (fun before w => before ++ [unique_ids before w]) l acc) = (length acc + length l)%nat).
  { induction l as [|w l IH]; intros acc; cbn [fold_left length]; [lia|]. rewrite IH, length_app. cbn [length]. lia. }
  unfold unique_wans. rewrite Hu, length_imap, length_take. cbn [length]. unfold MAX_WANS. lia.
Qed.
Lemma load_fits now path json : tables_fit (load_json now path json).
Proof.
  split; cbn [load_json c_wans c_groups c_lan set_lan_policies lan_policy_routes lan_static_leases lan_rate_limits c_address_lists].
  - apply load_wans_fit.
  - rewrite length_fmap. by apply objects_fit.
  - rewrite length_fmap. unfold load_lan. destruct (strstr _ _); [|done]. by apply objects_fit.
  - unfold load_lan. destruct (strstr _ _); [|done]. by apply objects_fit.
  - unfold load_lan. destruct (strstr _ _); [|done]. by apply objects_fit.
  - rewrite length_fmap. by apply objects_fit.
  - apply Forall_fmap, Forall_forall. intros al Hal. cbn. rewrite resolved_entries. unfold load_objects in Hal.
    destruct (_ ≫= json_array); [|by apply not_elem_of_nil in Hal]. apply list_elem_of_lookup in Hal as (i & Hi).
    rewrite list_lookup_imap in Hi. apply fmap_Some in Hi as (obj & _ & ->). apply entries_fit.
Qed.
Lemma config_load_fits fs mem now path old c : config_load fs mem now path old = Some c -> tables_fit c.
Proof. unfold config_load. destruct (read_file_to_string _ _); [|done]. intros [= <-]. apply load_fits. Qed.

Lemma saved_config env st : ws_config (save_state env st) = ws_config st.
Proof. unfold save_state. by destruct (config_save _ _ _). Qed.
Lemma persist_fits env st c : tables_fit c -> tables_fit (ws_config (persist env st c)).
Proof.
  intros H. unfold persist, load_state. destruct (config_load _ _ _ _ _) as [c'|] eqn:E; [by apply config_load_fits in E|].
  by rewrite saved_config.
Qed.

Lemma put_fits {A} i max stale f (l l' : list A) :
  put_entry i max stale f l = Some l' -> Z.of_nat (length l) <= max -> Z.of_nat (length l') <= max.
Proof.
  unfold put_entry. destruct i as [i|]; [|destruct (Z.ltb_spec (Z.of_nat (length l)) max); [|done]]; intros [= <-] Hl.
  - by rewrite length_alter.
  - rewrite length_app. cbn. lia.
Qed.
Lemma delete_fits {A} i max (l : list A) : Z.of_nat (length l) <= max -> Z.of_nat (length (delete i l)) <= max.
Proof. intros H. rewrite delete_take_drop, length_app, length_take, length_drop. lia. Qed.

(** ** The entries of a list *)

(** No two entries differ only by case, no entry is empty, and the kind of an entry follows from its text. *)
Record entries_wf (l : list address_list_entry_t) : Prop := EntriesWf {
  ew_count : Z.of_nat (length l) <= MAX_ENTRIES_PER_LIST;
  ew_distinct : NoDup ((fun e => tolower <$> ae_value e) <$> l);
  ew_each : Forall (fun e => ae_value e <> [] /\ Z.of_nat (length (ae_value e)) < MAX_ENTRY_STR_LEN /\
    ae_type e = (if existsb isalpha (ae_value e) then ADDR_ENTRY_DOMAIN else ADDR_ENTRY_IP)) l
}.
Lemma no_entries : entries_wf [].
Proof. by split; [|constructor|constructor]. Qed.

Lemma load_entry_ok v : v <> [] ->
  let e := load_entry v in ae_value e <> [] /\ Z.of_nat (length (ae_value e)) < MAX_ENTRY_STR_LEN /\
    ae_type e = (if existsb isalpha (ae_value e) then ADDR_ENTRY_DOMAIN else ADDR_ENTRY_IP).
Proof.
  intros Hv. cbn. unfold str_trunc. rewrite length_take. split_and!; [by destruct v|unfold MAX_ENTRY_STR_LEN; lia|done].
Qed.

Lemma add_value_wf v l : Z.of_nat (length v) < MAX_ENTRY_STR_LEN -> entries_wf l -> entries_wf (add_value v l).
Proof.
  intros Hlen [Hc Hd He]. unfold add_value. destruct (Z.leb_spec MAX_ENTRIES_PER_LIST (Z.of_nat (length l))); [by rewrite orb_true_r|].
  rewrite orb_false_r. unfold empty. destruct (bool_decide_reflect (v = [])) as [|Hv]; [done|]. cbn [orb].
  destruct (existsb _ l) eqn:E; [done|]. split.
  - rewrite length_app. cbn. lia.
  - rewrite fmap_app. apply NoDup_app. split; [done|]. split; [|apply NoDup_singleton].
    intros x Hx Hx'. cbn in Hx'. apply list_elem_of_singleton in Hx'. subst x. rewrite trunc_fits in Hx by done.
    apply list_elem_of_fmap in Hx as (e & Hte & Hin). apply not_true_iff_false in E. apply E. apply existsb_exists.
    exists e. split; [by apply list_elem_of_In|]. by apply bool_decide_eq_true.
  - apply Forall_app. split; [done|]. constructor; [by apply load_entry_ok|constructor].
Qed.

Lemma word_to_length stops n s : (length (word_to stops n s) <= n)%nat.
Proof. revert n. induction s as [|c s IH]; intros [|n]; cbn; try lia. case_match; cbn; [lia|]. specialize (IH n). lia. Qed.
Lemma line_value_length line : Z.of_nat (length (line_value line)) < MAX_ENTRY_STR_LEN.
Proof.
  unfold line_value. assert (forall stops s, Z.of_nat (length (word_to stops (Z.to_nat (MAX_ENTRY_STR_LEN - 1)) s)) < MAX_ENTRY_STR_LEN).
  { intros stops s. pose proof (word_to_length stops (Z.to_nat (MAX_ENTRY_STR_LEN - 1)) s). unfold MAX_ENTRY_STR_LEN in *. lia. }
  destruct (strstr _ _); [done|]. by case_match.
Qed.

Lemma text_loop_wf fuel : forall p name l, entries_wf l -> entries_wf (text_loop fuel p name l).2.
Proof.
  induction fuel as [|fuel IH]; intros p name l Hl; [done|]. cbn [text_loop]. case_match; [done|].
  destruct (skip_line_ends p) as [|a q]; [done|]. destruct (line_of (a :: q)) as [line rest]. apply IH, add_value_wf; [apply line_value_length|done].
Qed.

Lemma unescape_length s : (length (unescape_json_inplace s) <= length s)%nat.
Proof.
  cut (forall n s, (length s <= n)%nat -> (length (unescape_json_inplace s) <= length s)%nat); [intros H; by apply (H (length s))|].
  clear s. induction n as [|n IH]; intros [|c s] H; cbn [length] in H; try (cbn; lia). cbn [unescape_json_inplace].
  destruct (c =? 92); [destruct s as [|e s]; [cbn; lia|]|]; cbn [length] in *; pose proof (IH s ltac:(lia)); lia.
Qed.
Lemma text_length b key n : 0 < n -> Z.of_nat (length (text b key n)) < n.
Proof.
  intros Hn. unfold text, extract_json_string. destruct (json_value b key) as [v|]; [|done]. cbn [mbind option_bind].
  repeat (case_match; try done); subst. destruct (string_body _ _) as [q|]; [|done]. cbn [mbind option_bind default].
  pose proof (unescape_length (str_trunc n q)) as H. unfold str_trunc in *. rewrite length_take in H. cbn. lia.
Qed.

Lemma json_loop_wf fuel : forall p l, entries_wf l -> entries_wf (json_loop fuel p l).
Proof.
  induction fuel as [|fuel IH]; intros p l Hl; [done|]. cbn [json_loop]. case_match; [done|].
  repeat (case_match; try done; try (by apply IH)); apply IH, add_value_wf; try done; [by apply text_length|].
  match goal with |- context [unescape_json_inplace ?x] => pose proof (unescape_length x) as Hu end.
  unfold str_trunc in *. rewrite length_take in Hu. unfold MAX_ENTRY_STR_LEN in *. lia.
Qed.

(** A text without a character of the pattern does not hold the pattern. *)
Lemma strstr_missing c p : c ∈ p -> forall s, no_char c s -> strstr s p = None.
Proof.
  intros Hc. assert (forall s, no_char c s -> strip_prefix p s = None) as Hs.
  { intros s Hs. destruct (strip_prefix p s) as [r|] eqn:E; [|done]. apply strip_prefix_inv in E. subst s.
    unfold no_char in Hs. rewrite Forall_forall in Hs. exfalso. apply (Hs c); [|done]. by apply elem_of_app; left. }
  induction s as [|x s IH]; intros H.
  - by destruct p; [apply not_elem_of_nil in Hc|].
  - rewrite strstr_cons_fail by (by apply Hs). by apply IH, (Forall_inv_tail H).
Qed.

(** The values of a script of plain lines: no blanks, commas, escapes or equal signs, and no comment or command at the start. *)
Definition line_char (c : Z) : bool := forallb (fun x => negb (c =? x)) [32; 9; 13; 10; 44; 92; 61].
Definition plain_value (v : cstring) : Prop :=
  v <> [] /\ Z.of_nat (length v) < MAX_ENTRY_STR_LEN /\ Forall (fun c => line_char c = true) v
  /\ has_prefix "/" v || has_prefix "#" v || has_prefix "add" v = false.
Definition script (vs : list cstring) : cstring := concat ((fun v => v ++ [10]) <$> vs).

Lemma line_char_out c x : line_char c = true -> x ∈ [32; 9; 13; 10; 44; 92; 61] -> c <> x.
Proof.
  unfold line_char. intros H Hx ->. rewrite forallb_forall in H. apply list_elem_of_In in Hx. specialize (H x Hx).
  by rewrite Z.eqb_refl in H.
Qed.
Lemma line_char_eqb c x : line_char c = true -> x ∈ [32; 9; 13; 10; 44; 92; 61] -> (c =? x) = false.
Proof. intros H Hx. by apply Z.eqb_neq, (line_char_out c x). Qed.
Lemma skip_line_start c s : line_char c = true -> skip_line_ends (c :: s) = c :: s.
Proof. intros H. cbn [skip_line_ends]. by rewrite !(line_char_eqb c _ H) by (by apply list_elem_of_In; cbn; tauto). Qed.
Lemma line_of_value v s : Forall (fun c => line_char c = true) v -> line_of (v ++ 10 :: s) = (v, 10 :: s).
Proof.
  induction 1 as [|c v H _ IH]; [done|]. cbn [app line_of].
  by rewrite !(line_char_eqb c _ H), IH by (by apply list_elem_of_In; cbn; tauto).
Qed.
Lemma word_to_value v n : Forall (fun c => line_char c = true) v -> (length v <= n)%nat -> word_to [32; 9; 44; 13; 10] n v = v.
Proof.
  intros Hv. revert n. induction Hv as [|c v H _ IH]; intros [|n] Hl; cbn [length] in Hl; try done; [lia|]. cbn [word_to existsb].
  rewrite !(line_char_eqb c _ H) by (by apply list_elem_of_In; cbn; tauto). cbn [orb]. by rewrite IH by lia.
Qed.
Lemma plain_no_equals v : Forall (fun c => line_char c = true) v -> no_char 61 v.
Proof. intros H. eapply Forall_impl; [exact H|]. intros c Hc. apply line_char_out; [done|]. by apply list_elem_of_In; cbn; tauto. Qed.
Lemma plain_line_value v : plain_value v -> line_value v = v.
Proof.
  intros (_ & Hl & Hv & Hp). unfold line_value. rewrite (strstr_missing 61) by (by apply plain_no_equals || by vm_compute; repeat constructor).
  rewrite Hp. apply word_to_value; [done|]. unfold MAX_ENTRY_STR_LEN in *. lia.
Qed.
Lemma plain_line_name v name : plain_value v -> line_name v name = name.
Proof.
  intros (_ & _ & Hv & _). unfold line_name. by rewrite (strstr_missing 61) by (by apply plain_no_equals || by vm_compute; repeat constructor).
Qed.
Definition lower (s : cstring) : cstring := tolower <$> s.
Lemma add_new pre v :
  Forall plain_value pre -> plain_value v -> lower v ∉ (lower <$> pre) -> Z.of_nat (length pre) < MAX_ENTRIES_PER_LIST ->
  add_value v (load_entry <$> pre) = load_entry <$> (pre ++ [v]).
Proof.
  intros Hpre Hv Hn Hl. unfold add_value. rewrite length_fmap. rewrite (proj2 (Z.leb_gt _ _)) by lia. rewrite orb_false_r.
  unfold empty. rewrite bool_decide_false by apply Hv. cbn [orb]. rewrite fmap_app.
  destruct (existsb _ _) eqn:E; [|done]. exfalso. apply existsb_exists in E as (e & He & Heq). apply list_elem_of_In, list_elem_of_fmap in He as (w & -> & Hw).
  apply Hn. apply list_elem_of_fmap. exists w. split; [|done]. apply bool_decide_eq_true in Heq. cbn in Heq.
  rewrite Forall_forall in Hpre. destruct (Hpre w Hw) as (_ & Hwl & _). by rewrite trunc_fits in Heq.
Qed.

Lemma text_loop_newline fuel s name l : text_loop fuel (10 :: s) name l = text_loop fuel s name l.
Proof. by destruct fuel. Qed.

Lemma text_loop_script name vs : forall fuel pre,
  Forall plain_value (pre ++ vs) -> NoDup (lower <$> (pre ++ vs)) -> Z.of_nat (length (pre ++ vs)) <= MAX_ENTRIES_PER_LIST -> (length vs < fuel)%nat ->
  text_loop fuel (script vs) name (load_entry <$> pre) = (name, load_entry <$> (pre ++ vs)).
Proof.
  induction vs as [|v vs IH]; intros fuel pre Hp Hd Hl Hf; (destruct fuel as [|fuel]; [cbn in Hf; lia|]).
  - rewrite app_nil_r. cbn [text_loop script]. by case_match.
  - assert (plain_value v) as Hv by (by rewrite Forall_app in Hp; apply (Forall_inv (proj2 Hp))).
    pose proof Hv as (Hne & Hvl & Hc & _). rewrite length_app in Hl. cbn [length] in Hl, Hf. cbn [text_loop]. rewrite length_fmap.
    rewrite (proj2 (Z.leb_gt _ _)) by lia. unfold script. cbn [fmap list_fmap concat]. rewrite <- app_assoc. cbn [app]. fold (script vs).
    destruct v as [|a v']; [done|]. cbn [app]. rewrite skip_line_start by apply (Forall_inv Hc).
    change (a :: v' ++ 10 :: script vs) with ((a :: v') ++ 10 :: script vs). rewrite line_of_value by done.
    set (v := a :: v') in *. cbn [app]. rewrite (trunc_fits 512) by (unfold MAX_ENTRY_STR_LEN in *; lia).
    rewrite plain_line_value, plain_line_name, text_loop_newline by done. rewrite cons_middle, app_assoc in Hp, Hd |- *. rewrite add_new.
    + apply IH; [done..| |lia]. rewrite !length_app. cbn [length]. lia.
    + by rewrite !Forall_app in Hp; apply Hp.
    + done.
    + rewrite !fmap_app in Hd. apply NoDup_app in Hd as [Hd _]. apply NoDup_app in Hd as (_ & Hd & _). intros Hin. apply (Hd _ Hin).
      by apply list_elem_of_singleton.
    + lia.
Qed.

(** A script of plain lines becomes an address list with one entry for each line, in the order of the
    script and with its text unchanged; the parser comes to the end of every such script. *)
Theorem script_becomes_entries name vs :
  Forall plain_value vs -> NoDup (lower <$> vs) -> Z.of_nat (length vs) <= MAX_ENTRIES_PER_LIST ->
  parse_address_entries_from_text (script vs) name [] = (name, load_entry <$> vs) /\ (ae_value <$> (load_entry <$> vs)) = vs.
Proof.
  intros Hp Hd Hl. split.
  - apply (text_loop_script name vs _ []); [done..|]. assert (length vs <= length (script vs))%nat; [|lia].
    clear. induction vs as [|v vs IH]; [done|]. unfold script in *. cbn. rewrite !length_app. cbn. lia.
  - clear Hd Hl. induction Hp as [|v vs (_ & Hv & _) _ IH]; [done|]. cbn [fmap list_fmap load_entry ae_value]. by rewrite trunc_fits, IH.
Qed.
Lemma script_becomes_entries_witness :
  let vs := [bytes_of_string "10.1.0.0/16"; bytes_of_string "Example.org"] in
  parse_address_entries_from_text (script vs) "work" [] = (bytes_of_string "work", load_entry <$> vs) /\ (ae_value <$> (load_entry <$> vs)) = vs.
Proof.
  apply script_becomes_entries; [|apply (bool_decide_unpack _); by vm_compute|by vm_compute].
  repeat (constructor; [split_and!; [done|by vm_compute|by repeat constructor|by vm_compute]|]); constructor.
Defined.

(** Whatever a request says, from a script or from an array of values or of objects, the entries of a list stay within the
    table, are not empty, have the kind that their text has, and no two of them differ only by case. *)
Theorem entries_always_wf text name arr l :
  entries_wf l -> entries_wf (parse_address_entries_from_text text name []).2 /\ entries_wf (parse_address_entries_from_json arr l).
Proof.
  intros Hl. split; [apply text_loop_wf, no_entries|]. unfold parse_address_entries_from_json. destruct (find_matching_bracket arr); [|done].
  apply json_loop_wf, no_entries.
Qed.
Lemma entries_always_wf_witness :
  entries_wf (parse_address_entries_from_text "A.example" "l" []).2 /\ entries_wf (parse_address_entries_from_json (dq "[`1.2.3.4`, {`value`:`A.b`}, `a.B`]") []).
Proof. apply entries_always_wf, no_entries. Defined.

(** ** Every handler keeps the tables within their bounds *)

Lemma fit_groups c l : tables_fit c -> Z.of_nat (length l) <= MAX_WAN_GROUPS -> tables_fit (set_c_groups l c).
Proof. intros [] H. by split. Qed.
Lemma fit_routes c l : tables_fit c -> Z.of_nat (length l) <= MAX_POLICY_ROUTES -> tables_fit (set_policy_routes l c).
Proof. intros [] H. by split. Qed.
Lemma fit_leases c l : tables_fit c -> Z.of_nat (length l) <= MAX_STATIC_LEASES -> tables_fit (set_static_leases l c).
Proof. intros [] H. by split. Qed.
Lemma fit_limits c l : tables_fit c -> Z.of_nat (length l) <= MAX_RATE_LIMITS -> tables_fit (set_rate_limits l c).
Proof. intros [] H. by split. Qed.
Definition entries_bound (al : address_list_t) : Prop := Z.of_nat (length (al_entries al)) <= MAX_ENTRIES_PER_LIST.
Lemma fit_lists c l : tables_fit c -> Z.of_nat (length l) <= MAX_ADDRESS_LISTS -> Forall entries_bound l -> tables_fit (set_c_address_lists l c).
Proof. intros [] H H'. by split. Qed.

Definition keeps_tables (h : web_env -> web_state -> option cstring -> outcome) : Prop :=
  forall env st body, tables_fit (ws_config st) -> tables_fit (ws_config (oc_state (h env st body))).

Ltac open_handler h :=
  intros env st body H; unfold h; destruct body as [b|]; [|done]; try (case_match; [done|]).

Lemma group_delete_fits : keeps_tables handle_group_delete.
Proof. open_handler handle_group_delete. destruct (list_find _ _) as [[i g]|]; [|done]. apply persist_fits, fit_groups, delete_fits, H. done. Qed.
Lemma route_delete_fits : keeps_tables handle_route_delete.
Proof. open_handler handle_route_delete. destruct (list_find _ _) as [[i g]|]; [|done]. apply persist_fits, fit_routes, delete_fits, H. done. Qed.
Lemma lease_delete_fits : keeps_tables handle_lease_delete.
Proof. open_handler handle_lease_delete. destruct (list_find _ _) as [[i g]|]; [|done]. apply persist_fits, fit_leases, delete_fits, H. done. Qed.
Lemma limit_delete_fits : keeps_tables handle_limit_delete.
Proof. open_handler handle_limit_delete. destruct (list_find _ _) as [[i g]|]; [|done]. apply persist_fits, fit_limits, delete_fits, H. done. Qed.
Lemma list_delete_fits : keeps_tables handle_list_delete.
Proof.
  open_handler handle_list_delete. destruct (list_find _ _) as [[i g]|]; [|done]. apply persist_fits, fit_lists, Forall_delete, H; [done|].
  apply delete_fits, H.
Qed.
Lemma route_save_fits stale : keeps_tables (handle_route_save stale).
Proof. open_handler handle_route_save. destruct (put_entry _ _ _ _ _) as [l|] eqn:E; [|done]. apply persist_fits, fit_routes; [done|]. apply (put_fits _ _ _ _ _ _ E), H. Qed.
Lemma lease_save_fits stale : keeps_tables (handle_lease_save stale).
Proof. open_handler handle_lease_save. destruct (put_entry _ _ _ _ _) as [l|] eqn:E; [|done]. apply persist_fits, fit_leases; [done|]. apply (put_fits _ _ _ _ _ _ E), H. Qed.
Lemma limit_save_fits stale : keeps_tables (handle_limit_save stale).
Proof. open_handler handle_limit_save. destruct (put_entry _ _ _ _ _) as [l|] eqn:E; [|done]. apply persist_fits, fit_limits; [done|]. apply (put_fits _ _ _ _ _ _ E), H. Qed.

Lemma put_Forall {A} (P : A -> Prop) i max stale f (l l' : list A) :
  put_entry i max stale f l = Some l' -> Forall P l -> P stale -> (forall x, P x -> P (f x)) -> Forall P l'.
Proof.
  unfold put_entry. destruct i as [i|]; [|destruct (Z.of_nat (length l) <? max); [|done]]; intros [= <-] Hl Hs Hf.
  - apply Forall_alter; [done|]. intros x _. apply Hf.
  - apply Forall_app. split; [done|]. constructor; [by apply Hf|constructor].
Qed.
Lemma text_loop_fits fuel : forall p name l,
  Z.of_nat (length l) <= MAX_ENTRIES_PER_LIST -> Z.of_nat (length (text_loop fuel p name l).2) <= MAX_ENTRIES_PER_LIST.
Proof.
  induction fuel as [|fuel IH]; intros p name l H; [done|]. cbn [text_loop]. case_match eqn:E; [done|].
  destruct (skip_line_ends p); [done|]. destruct (line_of _). apply IH. apply Z.leb_gt in E. unfold add_value. case_match; [done|].
  rewrite length_app. cbn. lia.
Qed.
Lemma scripted_fits b mem : Z.of_nat (length (scripted_list b mem).2) <= MAX_ENTRIES_PER_LIST.
Proof.
  unfold scripted_list. destruct mem; [|done].
  destruct (match extract_json_string b "script" 65536 with Some s => Some s | None => _ end) as [s|]; [|done].
  destruct (parse_address_entries_from_text s _ []) as [n l] eqn:E. cbn [snd].
  replace l with (parse_address_entries_from_text s (safe_str_copy (text b "name" 64) 64) []).2 by (by rewrite E). by apply text_loop_fits.
Qed.
Lemma fill_list_fits c b name scripted al :
  Z.of_nat (length scripted) <= MAX_ENTRIES_PER_LIST -> entries_bound al -> entries_bound (fill_list c b name scripted al).
Proof.
  intros Hs Ha. unfold fill_list, entries_bound. rewrite resolved_entries. cbn [al_entries]. case_match; [done|].
  destruct (_ ≫= _) as [e|]; [|done]. unfold parse_address_entries_from_json. destruct (find_matching_bracket e) as [arr|]; [|done].
  apply (json_loop_wf (length arr) (drop 1 arr) []), no_entries.
Qed.
Lemma list_save_fits stale : entries_bound stale -> keeps_tables (handle_list_save stale).
Proof.
  intros Hs. open_handler handle_list_save. destruct (scripted_list _ _) as [name sc] eqn:Esc.
  pose proof (scripted_fits b (we_mem env)) as Hsc. rewrite Esc in Hsc. cbn [snd] in Hsc.
  destruct (put_entry _ _ _ _ _) as [l|] eqn:E; [|done]. apply persist_fits, fit_lists; [done|apply (put_fits _ _ _ _ _ _ E), H|].
  apply (put_Forall _ _ _ _ _ _ _ E); [apply H|done|]. intros al. by apply fill_list_fits.
Qed.

Lemma change_fits env st body f actions reply :
  (forall b c, tables_fit c -> tables_fit (f b c)) -> tables_fit (ws_config st) -> tables_fit (ws_config (oc_state (change env st body f actions reply))).
Proof. intros Hf H. destruct body; [|done]. by apply persist_fits, Hf. Qed.
Ltac change_handler := intros env st body H; apply change_fits; [|done]; intros b c []; by split.
Lemma qos_fits : keeps_tables handle_qos. Proof. change_handler. Qed.
Lemma dns_fits : keeps_tables handle_dns. Proof. change_handler. Qed.
Lemma steering_fits : keeps_tables handle_app_steering. Proof. change_handler. Qed.
Lemma dpi_fits : keeps_tables handle_dpi. Proof. change_handler. Qed.
Lemma telegram_fits : keeps_tables handle_telegram. Proof. change_handler. Qed.
Lemma stealth_fits : keeps_tables handle_stealth.
Proof. open_handler handle_stealth. cbn [oc_state]. rewrite saved_config. destruct H. by split. Qed.
Lemma group_save_fits stale stale_index env st body o :
  tables_fit (ws_config st) -> handle_group_save stale stale_index env st body = Some o -> tables_fit (ws_config (oc_state o)).
Proof.
  intros H. unfold handle_group_save. destruct body as [b|]; [|by intros [= <-]].
  destruct (parse_json_string_array b "wans") as [ws|]; [|done]. cbn [mbind option_bind]. case_match; [by intros [= <-]|].
  destruct (put_entry _ _ _ _ _) as [l|] eqn:E; intros [= <-]; [|done]. apply persist_fits, fit_groups; [done|]. apply (put_fits _ _ _ _ _ _ E), H.
Qed.

Lemma restore_fits can_write calloc calloc_import : keeps_tables (handle_restore can_write calloc calloc_import).
Proof.
  open_handler handle_restore. destruct (config_import_backup _ _ _ _ _ _ _) as [e|c] eqn:E; [done|]. cbn [oc_state ws_config].
  unfold config_import_backup in E. destruct (match _ ≫= _ with Some _ => _ | None => _ end) as [q|]; [|done].
  destruct (negb can_write); [done|]. destruct (negb calloc_import); [done|].
  destruct (config_load _ _ _ _ _) as [t|] eqn:Et; [|done]. apply config_load_fits in Et as [].
  case_match; [done|]. destruct (config_validate_wan_attachments t 256); [done|]. injection E as <-. repeat case_match; by split.
Qed.
Lemma reset_fits calloc : keeps_tables (handle_reset calloc).
Proof. intros env st body H. unfold handle_reset. destruct calloc; [|done]. split; first [by vm_compute | by constructor]. Qed.
Ltac same_tables := intros env st body []; (by split) || (destruct body; by split).
Lemma broadband_toggle_fits : keeps_tables handle_broadband_toggle. Proof. same_tables. Qed.
Lemma broadband_config_fits : keeps_tables handle_broadband_config. Proof. same_tables. Qed.
Lemma radius_fits : keeps_tables handle_radius. Proof. same_tables. Qed.
Lemma wg_toggle_fits : keeps_tables handle_wg_toggle. Proof. same_tables. Qed.
Lemma wg_config_fits : keeps_tables handle_wg_config. Proof. same_tables. Qed.
Lemma zt_toggle_fits : keeps_tables handle_zt_toggle. Proof. same_tables. Qed.
Lemma zt_config_fits : keeps_tables handle_zt_config. Proof. same_tables. Qed.
Lemma ts_toggle_fits : keeps_tables handle_ts_toggle. Proof. same_tables. Qed.
Lemma ts_up_fits after : keeps_tables (handle_ts_up after). Proof. same_tables. Qed.
Lemma ts_config_fits : keeps_tables handle_ts_config. Proof. same_tables. Qed.

(** The handlers that leave the configuration to the actions. *)
Definition keeps_config (h : web_env -> web_state -> option cstring -> outcome) : Prop := forall env st body, oc_state (h env st body) = st.
Lemma keeps_config_tables h : keeps_config h -> keeps_tables h.
Proof. intros Hk env st body H. by rewrite Hk. Qed.
Ltac leaves h := intros env st body; unfold h; destruct body; repeat case_match; done.
Lemma telegram_test_keeps : keeps_config handle_telegram_test. Proof. done. Qed.
Lemma client_block_keeps : keeps_config handle_client_block. Proof. done. Qed.
Lemma renew_keeps : keeps_config handle_renew. Proof. done. Qed.
Lemma user_delete_keeps : keeps_config handle_user_delete. Proof. done. Qed.
Lemma user_renew_keeps : keeps_config handle_user_renew. Proof. done. Qed.
Lemma user_toggle_keeps : keeps_config handle_user_toggle. Proof. done. Qed.
Lemma user_save_keeps : keeps_config handle_user_save. Proof. leaves handle_user_save. Qed.
Lemma profile_delete_keeps : keeps_config handle_profile_delete. Proof. done. Qed.
Lemma profile_save_keeps : keeps_config handle_profile_save. Proof. leaves handle_profile_save. Qed.
Lemma disconnect_keeps : keeps_config handle_disconnect. Proof. done. Qed.
Lemma wg_peer_delete_keeps : keeps_config handle_wg_peer_delete. Proof. done. Qed.
Lemma wg_peer_save_keeps : keeps_config handle_wg_peer_save. Proof. leaves handle_wg_peer_save. Qed.
Lemma zt_join_keeps joined : keeps_config (handle_zt_join joined).
Proof. intros env st body. unfold handle_zt_join. by destruct (negb _); [|destruct (0 <=? joined)]. Qed.
Lemma zt_leave_keeps : keeps_config handle_zt_leave. Proof. done. Qed.
Lemma ts_down_keeps : keeps_config handle_ts_down. Proof. done. Qed.

(** ** The whole configuration *)

Lemma install_fits env st fs merged : tables_fit (ws_config st) -> tables_fit (ws_config (oc_state (install env st fs merged))).
Proof.
  intros H. unfold install. destruct (save_twice _ _ _ _) as [path fs']. cbn [oc_state ws_config].
  destruct (config_load _ _ _ _ _) as [c|] eqn:E; [by apply config_load_fits in E|done].
Qed.
Lemma assign_fits calloc : keeps_tables (handle_assign calloc).
Proof.
  intros env st body H. unfold handle_assign. destruct (trim_left <$> body) as [b|]; [|done]. case_match; [|done]. unfold apply_payload.
  destruct (config_load _ _ _ _ _) as [t|]; [|done]. cbn zeta. destruct (config_validate_wan_attachments _ _); [done|]. by apply install_fits.
Qed.

Lemma merged_lan_name b old t : lan_name (c_lan (merge_config b old t)) <> [].
Proof.
  unfold merge_config, keep_services, keep_vpn, keep_pppoe, keep_lan. cbn. unfold empty. case_bool_decide; [|done].
  unfold or_else_text, empty, safe_str_copy, str_trunc. case_bool_decide as E; [done|]. by destruct (lan_name (c_lan old)).
Qed.
Lemma assign_payload env st body b : trim_left body = b -> head b = Some 123 -> handle_assign true env st (Some body) = apply_payload env st b.
Proof. intros <- Hh. unfold handle_assign. cbn [fmap option_fmap option_map]. by rewrite bool_decide_true. Qed.

Lemma installed env st fs merged :
  config_ok merged -> on_disk env (ws_config st) ->
  let path := get_config_target_path env (ws_config st) in
  oc_state (install env st fs merged) = WebState (reload path merged) (written fs (path, config_text merged)).
Proof.
  intros Hok (Ho & Hl & Hm) path. unfold install, save_twice. fold path. pose proof (target_path_filled env (ws_config st)) as Hp. fold path in Ho, Hl, Hp.
  rewrite save_opens by done. cbn [oc_state]. rewrite Hm.
  pose proof (saved_load merged (we_can_open env) path fs (we_now env) (ws_config st) (path, config_text merged) Hok (save_opens _ _ _ Hp Ho) Hl) as E.
  cbn [fst] in E. by rewrite E.
Qed.


Module ApiDemo.

Definition env : web_env := WebEnv true true true true 1700000000 (fun _ => true) true true.
Definition st : web_state := WebState StoreDemo.config (fun _ => None).
Definition stale : wan_group_t := WanGroup 0 [] [] [] [] 0 ∅ false.
Definition group_body : cstring := dq "{`name`:`voice`,`description`:`Calls`,`wans`:[`Fibre`,`Cable`],`enabled`:true}".
Lemma disk : on_disk env StoreDemo.config.
Proof. by vm_compute. Qed.

Definition payload : cstring := dq "{`lan`:{`interface`:`br0`},`groups`:[]}".
Definition loaded : fluxwan_config_t := Eval vm_compute in load_json 1700000000 test_path payload.
Definition merged : fluxwan_config_t := Eval vm_compute in merge_config payload StoreDemo.config loaded.
Lemma merged_eq : merge_config payload StoreDemo.config loaded = merged.
Proof. by vm_compute. Qed.
Lemma merged_ok : config_ok merged.
Proof. split; StoreDemo.is_ok. Qed.

End ApiDemo.

Lemma group_saved_survives_restart_witness :
  exists o, handle_group_save ApiDemo.stale (fun _ => 0) ApiDemo.env ApiDemo.st (Some ApiDemo.group_body) = Some o /\
    let c' := ws_config (oc_state o) in
    (exists g, g ∈ c_groups c' /\ g_name g = "voice" /\ g_description g = "Calls" /\ g_wan_names g = [bytes_of_string "Fibre"; bytes_of_string "Cable"]
       /\ g_enabled g = true
       /\ g_wan_member_indices g = omap (fun n => (fun iw => Z.of_nat iw.1) <$> list_find (fun w => named n w = true) (c_wans c')) [bytes_of_string "Fibre"; bytes_of_string "Cable"])
    /\ config_load (ws_fs (oc_state o)) true 0 default_path zero_config = Some c'.
Proof.
  apply (group_saved_survives_restart ApiDemo.stale (fun _ => 0) ApiDemo.env ApiDemo.st ApiDemo.group_body);
    [apply StoreDemo.config_fits|apply txt_bool; by vm_compute|by vm_compute|apply txt_bool; by vm_compute|by vm_compute| |by vm_compute|left; by vm_compute|apply ApiDemo.disk].
  repeat (constructor; [apply txt_bool; by vm_compute|]); constructor.
Defined.


(** Groups, address lists, application steering and the Telegram settings are not among the parts that an
    application keeps: a request that does not mention them is answered with success and deletes the groups. *)
Theorem apply_forgets_groups :
  let o := handle_assign true ApiDemo.env ApiDemo.st (Some (bytes_of_string "{}")) in
  length (c_groups (ws_config ApiDemo.st)) = 1%nat /\ c_groups (ws_config (oc_state o)) = [] /\ rs_status (oc_response o) = 200.
Proof. split; [reflexivity|]. split; vm_compute; reflexivity. Qed.

(** A subscriber that is renamed to nothing is deleted, in a request that is answered with success, and the
    deletion is not saved. *)
Theorem rename_to_nothing_deletes env st b :
  we_pppoe env = true -> text b "username" 64 = [] -> text b "old_username" 64 <> [] ->
  let o := handle_user_save env st (Some b) in
  oc_actions o = [PppoeDeleteUser (text b "old_username" 64)] /\ rs_status (oc_response o) = 200.
Proof.
  intros Hp Hu Ho. unfold handle_user_save. rewrite Hp. cbn [negb oc_actions oc_response rs_status]. split; [|done].
  unfold read_user. cbn [pu_username]. rewrite Hu. unfold str_eq, empty. rewrite !bool_decide_false by done. done.
Qed.
Lemma rename_to_nothing_deletes_witness :
  let o := handle_user_save ApiDemo.env ApiDemo.st (Some (dq "{`old_username`:`carol`,`profile`:`Basic`}")) in
  oc_actions o = [PppoeDeleteUser "carol"] /\ rs_status (oc_response o) = 200.
Proof. apply rename_to_nothing_deletes; [reflexivity|by_eval|by_eval]. Defined.
