(* ===== verification/WebRoutes.v ===== *)
(** * The web server: routes, updates and captures

    How [web_server_process_client_impl] chooses the branch of a request and checks its authorisation, the
    update of the program and the return to the version before it, and the capture of packets
    ([handle_pcap_export] of [web_server.c]). *)

From S2P Require Import Prelude Fluxwan Ipv4 CLib Json JsonText ProxyUri System Wifi Samples Firewall WebCore.
From S2P Require Import ConfigLoad ConfigSave JsonBlocks ConfigSpec ConfigStore WebApi.

(** ** Updates *)

(** What the commands of an update give: the manifest, whether the download succeeded, the size of the file (none when it cannot
    be opened) and the hash that [sha256sum] prints (none when there is none). *)
Record upgrade_env := UpgradeEnv { ue_manifest : option cstring; ue_downloaded : bool; ue_size : option Z; ue_sha : option cstring }.

(** The package: its address, its hash and its version. *)
Definition upgrade_package (env : upgrade_env) (body : option cstring) : cstring * cstring * cstring :=
  let url := field body "url" 512 in
  let sha := field body "sha256" 128 in
  let ver := field body "version" 32 in
  let '(url, sha, ver) :=
    if negb (empty url) then (url, sha, ver) else
    match ue_manifest env with
    | None => (url, sha, ver)
    | Some m =>
        let ver := if empty ver || str_eq ver "latest" then default ver (extract_json_string m "latest_version" 32) else ver in
        match strstr m (quoted "core") with
        | Some core => (default url (extract_json_string core "url" 512), default sha (extract_json_string core "sha256" 128), ver)
        | None => (url, sha, ver)
        end
    end in
  (or_else_text url "https://raw.githubusercontent.com/ahmedha43/FluxWAN/main/dist/fluxwan", sha, ver).
Definition upgrade_download (url : cstring) (now : Z) : cstring :=
  let sep : cstring := if found url "?" then bytes_of_string "&" else bytes_of_string "?" in
  snprintf 1024 (dq "wget -q -T 60 -O /tmp/fluxwan_update.tmp `%s%st=%u` 2>/dev/null || curl -sSL --connect-timeout 8 -m 120 `%s%st=%u` -o /tmp/fluxwan_update.tmp 2>/dev/null")
    [FS url; FS sep; FN now; FS url; FS sep; FN now].
(** The reason for which a package is not installed. *)
Definition upgrade_error (env : upgrade_env) (sha : cstring) : option cstring :=
  match (if ue_downloaded env then ue_size env else None) with
  | None => Some (bytes_of_string "Download failed")
  | Some fsz =>
      if negb (50000 <? fsz) then Some (snprintf 256 "Downloaded file is corrupted or too small (%d bytes)" [FN fsz])
      else if Z.of_nat (length sha) =? 64 then
        match ue_sha env with
        | Some actual =>
            if strcase_eq actual sha then None
            else Some (snprintf 256 "SHA-256 integrity check failed (expected %s, got %s)" [FS sha; FS actual])
        | None => None
        end
      else None
  end.
Definition sha_cmd : cstring := "sha256sum /tmp/fluxwan_update.tmp | awk '{print $1}' > /tmp/fluxwan_hash.tmp 2>/dev/null".
Definition hashes (env : upgrade_env) (sha : cstring) : bool :=
  ue_downloaded env && match ue_size env with Some n => 50000 <? n | None => false end && (Z.of_nat (length sha) =? 64).
Definition install_cmd : cstring := "mv /tmp/fluxwan_update.tmp /opt/fluxwan/fluxwan && chmod +x /opt/fluxwan/fluxwan".
Definition restart_cmd : cstring :=
  "nohup sh -c 'sleep 1; rc-service fluxwan restart 2>/dev/null || /etc/init.d/fluxwan restart 2>/dev/null || (killall fluxwan 2>/dev/null; sleep 1; /opt/fluxwan/fluxwan /opt/fluxwan/config/fluxwan.json >/dev/null 2>&1 &)' >/dev/null 2>&1 &".
Definition install_cmds (ver : cstring) : list cstring :=
  [bytes_of_string "chmod +x /tmp/fluxwan_update.tmp"; bytes_of_string "cp -a /opt/fluxwan/fluxwan /opt/fluxwan/fluxwan.old 2>/dev/null || true"; install_cmd] ++
  (if negb (empty ver) && negb (str_eq ver "latest") then [snprintf 128 (dq "echo `%s` > /opt/fluxwan/version") [FS ver]] else []) ++ [restart_cmd].
(** The commands, after the backup of the configuration, and the reply. *)
Definition handle_upgrade (uenv : upgrade_env) (env : web_env) (body : option cstring) : list cstring * response :=
  let '(url, sha, ver) := upgrade_package uenv body in
  let before := upgrade_download url (we_now env) :: (if hashes uenv sha then [sha_cmd] else []) in
  match upgrade_error uenv sha with
  | Some e => (before, Response 400 (snprintf 512 (dq "{`status`:`error`,`message`:`%s`}") [FS e]))
  | None => (before ++ install_cmds ver, ok_reply "Update applied successfully! Core engine restarting in 1 second...")
  end.
Definition handle_rollback (old_exists : bool) : list cstring * response :=
  if negb old_exists then ([], error_reply "No previous version backup (fluxwan.old) found to rollback")
  else ([bytes_of_string "mv /opt/fluxwan/fluxwan.old /opt/fluxwan/fluxwan && chmod +x /opt/fluxwan/fluxwan"; bytes_of_string "rm -f /opt/fluxwan/version"; restart_cmd],
        ok_reply "Rolled back to previous version successfully! Restarting in 1 second...").

(** The version of the running system: the first word of its file, or the one it was built with. *)
Fixpoint word_of (n : nat) (s : cstring) : cstring :=
  match n, s with
  | S n, c :: s => if isspace c then [] else c :: word_of n s
  | _, _ => []
  end.
Definition get_active_system_version (file : option cstring) (max_len : Z) : cstring :=
  match (f ← file; match word_of 31 (skip_spaces f) with [] => None | w => Some w end) with
  | Some w => w
  | None => safe_str_copy FLUXWAN_VERSION max_len
  end.
(** Whether an update is there: the version of the manifest is newer. *)
Definition update_available (manifest : option cstring) (version_file : option cstring) : bool :=
  match manifest with
  | Some ((_ :: _) as m) =>
      0 <? compare_semver (default (bytes_of_string "1.2.3") (extract_json_string m "latest_version" 32)) (get_active_system_version version_file 32)
  | _ => false
  end.

(** ** Captures *)

Fixpoint query_word (n : nat) (s : cstring) : cstring :=
  match n, s with
  | S n, c :: s => if (c =? 32) || (c =? 38) || (c =? 13) || (c =? 10) then [] else c :: query_word n s
  | _, _ => []
  end.
(** The interface: the one that is named, the one of the given number, or the first uplink. *)
Definition pcap_target (config : fluxwan_config_t) (req : cstring) : cstring :=
  let target := match strstr req "wan=" with Some p => query_word 63 (drop 4 p) | None => [] end in
  match target with
  | c :: _ =>
      if isdigit c then
        match c_wans config !! Z.to_nat (atoi32 target) with
        | Some w => if 0 <=? atoi32 target then safe_str_copy (w_name w) 64 else target
        | None => target
        end
      else target
  | [] => match c_wans config with w :: _ => safe_str_copy (w_name w) 64 | [] => [] end
  end.
Definition pcap_count (req : cstring) : Z :=
  match strstr req "count=" with
  | Some p => let c := atoi32 (drop 6 p) in if (0 <? c) && (c <=? 200) then c else 30
  | None => 30
  end.
(** The structures as they are in the memory of a little-endian machine. *)
Definition pcap_global_hdr : list Z := le_bytes 4 0xa1b2c3d4 ++ le_bytes 2 2 ++ le_bytes 2 4 ++ le_bytes 4 0 ++ le_bytes 4 0 ++ le_bytes 4 65535 ++ le_bytes 4 1.
Definition pcap_packet (p : Z * Z * list Z) : list Z :=
  let '(sec, usec, data) := p in
  let len := Z.of_nat (length data) in
  le_bytes 4 sec ++ le_bytes 4 usec ++ le_bytes 4 len ++ le_bytes 4 len ++ data.
Definition diag_pkt : list Z :=
  [255; 255; 255; 255; 255; 255; 2; 0x46; 0x57; 0x41; 0x4e; 1; 8; 0; 0x45; 0; 0; 46; 0; 0; 0x40; 0; 64; 17; 0; 0; 10; 10; 10; 1; 8; 8; 8; 8; 0x1f; 0x90; 0x1f; 0x90; 0; 26; 0; 0]
  ++ bytes_of_string "FluxWAN Diag Stream" ++ [0; 0; 0].
(** The packets that the socket gives within two seconds, with the times; a packet made up when there is none. *)
Definition handle_pcap_export (now : Z) (packets : list (Z * Z * list Z)) (req : cstring) : list Z :=
  let captured := (fun p : Z * Z * list Z => (p.1, take 2048 p.2)) <$> take (Z.to_nat (pcap_count req)) packets in
  pcap_global_hdr ++ concat (pcap_packet <$> match captured with [] => [(u32 now, 100000, diag_pkt)] | _ => captured end).

(** ** Routes *)

(** What new entries of the tables hold before they are filled, and what is asked of the system. *)
Record web_params := WebParams { wp_group : wan_group_t; wp_index : nat -> Z; wp_route : policy_route_t; wp_list : address_list_t;
  wp_lease : static_lease_t; wp_limit : rate_limit_t; wp_can_write : bool; wp_calloc : bool; wp_calloc_import : bool; wp_joined : Z; wp_ts_after : tailscale_config_t }.

(** [Public]: no authorisation is asked for.  [Protected]: a report or a tool outside of this file.  [Change]: a handler of [WebApi]. *)
Inductive target :=
  | Public
  | Protected
  | Change (h : web_env -> web_state -> option cstring -> option outcome).
Definition always (h : web_env -> web_state -> option cstring -> outcome) : target := Change (fun env st body => Some (h env st body)).

Definition routes (w : web_params) : list (list string * target) :=
  [(["POST /api/v1/login"], Public); (["POST /api/v1/wan/proxy/parse_uri"], Protected); (["POST /api/v1/wan/proxy/test"], Protected);
   (["GET /api/v1/interfaces"], Protected); (["GET /api/v1/wifi/scan"], Protected); (["GET /api/v1/wifi/status"], Protected); (["GET /api/v1/status"], Protected);
   (["GET /api/v1/metrics"; "GET /metrics"], Protected); (["GET /api/v1/debug"], Protected); (["GET /api/v1/dhcp/leases"], Protected);
   (["GET /api/v1/logs"], Protected); (["GET /api/v1/license"], Protected); (["POST /api/v1/license/activate"], Protected);
   (["GET /api/v1/groups"], Protected); (["POST /api/v1/groups/delete"], always handle_group_delete);
   (["POST /api/v1/groups"], Change (handle_group_save (wp_group w) (wp_index w)));
   (["GET /api/v1/policy_routes"], Protected); (["POST /api/v1/policy_routes/delete"], always handle_route_delete);
   (["POST /api/v1/policy_routes"], always (handle_route_save (wp_route w)));
   (["GET /api/v1/address_lists"], Protected); (["POST /api/v1/address_lists/delete"], always handle_list_delete);
   (["POST /api/v1/address_lists"], always (handle_list_save (wp_list w)));
   (["GET /api/v1/leases"; "GET /api/v1/dhcp/leases"], Protected); (["POST /api/v1/leases/static/delete"], always handle_lease_delete);
   (["POST /api/v1/leases/static"], always (handle_lease_save (wp_lease w)));
   (["POST /api/v1/ratelimits/delete"], always handle_limit_delete); (["POST /api/v1/ratelimits"], always (handle_limit_save (wp_limit w)));
   (["POST /api/v1/qos"], always handle_qos); (["POST /api/v1/dns"], always handle_dns); (["POST /api/v1/app_steering"], always handle_app_steering);
   (["GET /api/v1/dpi/stats"; "GET /api/v1/dpi"], Protected); (["POST /api/v1/dpi/policy"; "POST /api/v1/dpi"], always handle_dpi);
   (["POST /api/v1/telegram/test"], always handle_telegram_test); (["POST /api/v1/telegram"], always handle_telegram);
   (["GET /api/v1/system/backup"], Protected);
   (["POST /api/v1/system/restore"], always (handle_restore (wp_can_write w) (wp_calloc w) (wp_calloc_import w)));
   (["POST /api/v1/system/reset"], always (handle_reset (wp_calloc w))); (["GET /api/v1/system/check_update"], Public);
   (["POST /api/v1/system/upgrade"], Protected); (["POST /api/v1/system/rollback"], Protected); (["POST /api/v1/wans/renew"], always handle_renew);
   (["GET /api/v1/clients"], Protected); (["GET /api/v1/broadband/status"], Protected); (["GET /api/v1/broadband/sessions"], Protected);
   (["POST /api/v1/broadband/toggle"], always handle_broadband_toggle); (["POST /api/v1/broadband/config"], always handle_broadband_config);
   (["POST /api/v1/broadband/users/delete"], always handle_user_delete); (["POST /api/v1/broadband/users/renew"], always handle_user_renew);
   (["POST /api/v1/broadband/users/toggle"], always handle_user_toggle); (["POST /api/v1/broadband/users"], always handle_user_save);
   (["POST /api/v1/broadband/profiles/delete"], always handle_profile_delete); (["POST /api/v1/broadband/profiles"], always handle_profile_save);
   (["POST /api/v1/broadband/sessions/disconnect"], always handle_disconnect);
   (["POST /api/v1/broadband/radius"; "POST /api/v1/pppoe/radius"], always handle_radius); (["GET /api/v1/vpn/status"], Protected);
   (["POST /api/v1/vpn/wireguard/toggle"], always handle_wg_toggle); (["POST /api/v1/vpn/wireguard/config"], always handle_wg_config);
   (["POST /api/v1/vpn/wireguard/genkeys"], Protected); (["POST /api/v1/vpn/wireguard/peers/delete"], always handle_wg_peer_delete);
   (["POST /api/v1/vpn/wireguard/peers"], always handle_wg_peer_save); (["POST /api/v1/vpn/wireguard/client-conf"], Protected);
   (["POST /api/v1/vpn/zerotier/toggle"], always handle_zt_toggle); (["POST /api/v1/vpn/zerotier/config"], always handle_zt_config);
   (["POST /api/v1/vpn/zerotier/join"], always (handle_zt_join (wp_joined w))); (["POST /api/v1/vpn/zerotier/leave"], always handle_zt_leave);
   (["POST /api/v1/vpn/tailscale/toggle"], always handle_ts_toggle); (["POST /api/v1/vpn/tailscale/up"], always (handle_ts_up (wp_ts_after w)));
   (["POST /api/v1/vpn/tailscale/down"], always handle_ts_down); (["POST /api/v1/vpn/tailscale/config"], always handle_ts_config);
   (["GET /api/v1/broadband/export.csv"], Protected); (["POST /api/v1/broadband/import"], Protected); (["POST /api/v1/stealth"], always handle_stealth);
   (["POST /api/v1/clients/block"], always handle_client_block); (["POST /api/v1/diagnostics/speedtest"], Protected);
   (["GET /api/v1/diagnostics/gaming_ping"], Protected); (["POST /api/v1/assign"; "POST /api/v1/apply"], always (handle_assign (wp_calloc w)));
   (["POST /api/v1/terminal"; "POST /api/v1/exec"], Protected); (["GET /api/v1/diagnostics/pcap"], Public); (["GET /api/v1/telemetry"], Public)]%string.

(** The first route with a pattern somewhere in the request; none is the page. *)
Definition matches (req : cstring) (patterns : list string) : bool := existsb (fun p => found req (bytes_of_string p)) patterns.
Definition find_route (w : web_params) (req : cstring) : option target := snd ∘ snd <$> list_find (fun r => matches req r.1 = true) (routes w).
Inductive result :=
  | Refused                                   (** 401 *)
  | Answered                                  (** by a branch that is not a handler of [WebApi] *)
  | Handled (o : option outcome).             (** [None] for a read past the end of the request *)
Definition process (w : web_params) (env : web_env) (st : web_state) (req : cstring) : result :=
  if has_prefix "OPTIONS " req then Answered else
  match find_route w req with
  | None | Some Public => Answered
  | Some Protected => if is_request_authorized (ws_config st) req then Answered else Refused
  | Some (Change h) => if is_request_authorized (ws_config st) req then Handled (h env st (body_of req)) else Refused
  end.

(** ** Only authorised requests act *)

Definition public_patterns : list string :=
  ["POST /api/v1/login"; "GET /api/v1/system/check_update"; "GET /api/v1/diagnostics/pcap"; "GET /api/v1/telemetry"]%string.
(** A request that is answered without authorisation: a preflight, one that names a public route, or one that names no route. *)
Definition public_request (w : web_params) (req : cstring) : Prop :=
  has_prefix "OPTIONS " req = true \/ matches req public_patterns = true \/ Forall (fun r => matches req r.1 = false) (routes w).

Lemma matches_sub req l l' : (forall p, In p l -> In p l') -> matches req l = true -> matches req l' = true.
Proof. unfold matches. rewrite !existsb_exists. intros Hs (p & Hp & Hf). exists p. split; [by apply Hs|done]. Qed.
Lemma public_routes w : Forall (fun r => r.2 = Public -> forall p, In p r.1 -> In p public_patterns) (routes w).
Proof. repeat (constructor; [first [discriminate | intros _ p [<-|[]]; cbn; tauto]|]). constructor. Qed.

Lemma found_route w req t : find_route w req = Some t -> exists ps, (ps, t) ∈ routes w /\ matches req ps = true.
Proof.
  unfold find_route. destruct (list_find _ _) as [[i [ps t']]|] eqn:E; [|done]. intros [= <-]. apply list_find_Some in E as (Hi & Hm & _).
  exists ps. split; [by eapply list_elem_of_lookup_2|done].
Qed.

(** A route that the search stops at, when the text names one. *)
Lemma named_route w req : Exists (fun r => matches req r.1 = true) (routes w) -> is_Some (find_route w req).
Proof.
  intros (r & Hin & Hm)%Exists_exists. unfold find_route. destruct (list_find _ _) as [[i x]|] eqn:E; [by eexists|].
  apply list_find_None in E. rewrite Forall_forall in E. by apply E in Hin.
Qed.
Lemma no_route w req : find_route w req = None -> Forall (fun r => matches req r.1 = false) (routes w).
Proof.
  unfold find_route. destruct (list_find _ _) as [[i r]|] eqn:E; [done|]. intros _. apply list_find_None in E.
  eapply Forall_impl; [exact E|]. intros r Hr. by apply not_true_iff_false in Hr.
Qed.
Lemma public_route w req : find_route w req = Some Public -> matches req public_patterns = true.
Proof.
  intros (ps & Hin & Hm)%found_route. pose proof (public_routes w) as Hp. rewrite Forall_forall in Hp.
  by apply (matches_sub req ps public_patterns (Hp _ Hin eq_refl)).
Qed.

(** The session token as a request carries it: after [X-Auth-Token: ] or after [Bearer ], somewhere in its text. *)
Definition token_texts (config : fluxwan_config_t) : list cstring :=
  [snprintf 128 "X-Auth-Token: %s" [FS (au_session_token (c_auth config))]; snprintf 128 "Bearer %s" [FS (au_session_token (c_auth config))]].
Definition carries_token (config : fluxwan_config_t) (req : cstring) : Prop := Exists (fun t => found req t = true) (token_texts config).
Lemma authorized_iff config req : is_request_authorized config req = true <-> au_enabled (c_auth config) = false \/ carries_token config req.
Proof.
  unfold is_request_authorized, carries_token, token_texts. rewrite !orb_true_iff, negb_true_iff, !Exists_cons, Exists_nil. tauto.
Qed.

(** C9.  What a request needs to act.  With authentication on, a request whose text has neither [X-Auth-Token: ] nor [Bearer ]
    followed by the session token reaches no handler.  It is refused, whatever routes its text names and in whatever
    order, unless it is a preflight, names one of the four public routes, or names no route and gets the page; and
    where it is no preflight and names routes, none of them public, it is always refused.  A request with the token, or any
    request while authentication is off, is never refused. *)
Theorem only_authorised_requests_act w env st req :
  let c := ws_config st in
  (au_enabled (c_auth c) = true -> ~ carries_token c req ->
     (forall o, process w env st req <> Handled o)
     /\ (process w env st req = Refused \/ (process w env st req = Answered /\ public_request w req))
     /\ (has_prefix "OPTIONS " req = false -> matches req public_patterns = false ->
         Exists (fun r => matches req r.1 = true) (routes w) -> process w env st req = Refused))
  /\ (au_enabled (c_auth c) = false \/ carries_token c req -> process w env st req <> Refused).
Proof.
  intros c. split.
  - intros He Ht. assert (Ha : is_request_authorized c req = false).
    { apply not_true_iff_false. intros [H|H]%authorized_iff; [congruence|done]. }
    unfold process. destruct (has_prefix "OPTIONS " req) eqn:Eo; [by split_and!; [|right; split; [|left]|]|].
    destruct (find_route w req) as [t|] eqn:Er.
    + fold c. rewrite Ha. destruct t; [|by split_and!; [|left|]..]. apply public_route in Er.
      split_and!; [done|by right; split; [|right; left]|congruence].
    + split_and!; [done|right; split; [done|right; right; by apply no_route]|]. intros _ _ H%named_route. rewrite Er in H. by destruct H.
  - intros Ha%authorized_iff. unfold process. fold c. rewrite Ha. destruct (has_prefix _ _); [done|]. by destruct (find_route w req) as [[]|].
Qed.

(** ** The tables under every sequence of requests *)

Create HintDb tables.
#[export] Hint Resolve group_delete_fits route_delete_fits lease_delete_fits limit_delete_fits list_delete_fits route_save_fits lease_save_fits
  limit_save_fits list_save_fits qos_fits dns_fits steering_fits dpi_fits telegram_fits stealth_fits restore_fits reset_fits broadband_toggle_fits
  broadband_config_fits radius_fits wg_toggle_fits wg_config_fits zt_toggle_fits zt_config_fits ts_toggle_fits ts_up_fits ts_config_fits assign_fits
  telegram_test_keeps client_block_keeps renew_keeps user_delete_keeps user_renew_keeps user_toggle_keeps user_save_keeps profile_delete_keeps
  profile_save_keeps disconnect_keeps wg_peer_delete_keeps wg_peer_save_keeps zt_join_keeps zt_leave_keeps ts_down_keeps : tables.

Definition target_fits (t : target) : Prop :=
  match t with
  | Change h => forall env st body o, tables_fit (ws_config st) -> h env st body = Some o -> tables_fit (ws_config (oc_state o))
  | _ => True
  end.
Lemma always_fits h : keeps_tables h -> target_fits (always h).
Proof. intros Hh env st body o H [= <-]. by apply Hh. Qed.
Lemma routes_fit w : entries_bound (wp_list w) -> Forall (fun r => target_fits r.2) (routes w).
Proof.
  intros Hw.
  repeat (constructor; [cbn [snd]; first [exact I | intros env st body o; apply group_save_fits
    | apply always_fits; solve [auto with tables | apply keeps_config_tables; auto with tables]]|]).
  constructor.
Qed.

(** A request, or another component: it may change the uplinks, though not their number, and leaves the other tables alone. *)
Inductive web_step (w : web_params) : web_state -> web_state -> Prop :=
  | step_request env st req o : process w env st req = Handled (Some o) -> web_step w st (oc_state o)
  | step_component st st' : length (c_wans (ws_config st')) = length (c_wans (ws_config st)) -> c_groups (ws_config st') = c_groups (ws_config st) -> c_lan (ws_config st') = c_lan (ws_config st) ->
      c_address_lists (ws_config st') = c_address_lists (ws_config st) -> web_step w st st'.

Lemma step_fits w st st' : entries_bound (wp_list w) -> web_step w st st' -> tables_fit (ws_config st) -> tables_fit (ws_config st').
Proof.
  intros Hw Hs H. destruct Hs as [env st req o Hp | st st' Hn Hg Hl Ha].
  - unfold process in Hp. destruct (has_prefix _ _); [done|]. destruct (find_route w req) as [t|] eqn:Er; [|done].
    apply found_route in Er as (ps & Hin & _). pose proof (routes_fit w Hw) as Hr. rewrite Forall_forall in Hr. specialize (Hr _ Hin). cbn [snd] in Hr.
    destruct t as [| |h]; [done|by destruct (is_request_authorized _ _)|]. destruct (is_request_authorized _ _); [|done]. injection Hp as Hp. by apply (Hr env st (body_of req)).
  - destruct H. split; rewrite ?Hn, ?Hg, ?Hl, ?Ha; done.
Qed.

(** C17.  Whatever requests arrive, in whatever order and with whatever text, these tables of the configuration stay
    within the arrays that hold them: 256 uplinks, 8 groups, 16 policy routes, 64 leases, 32 rate limits, and 16 address lists of
    256 entries.  Other components may act in between, as long as they keep the number of uplinks, the LAN, the groups and
    the lists; the memory that a new list starts from counts 256 entries or fewer.  Subscribers and VPN peers are not among these tables. *)
Theorem requests_keep_tables w st st' :
  entries_bound (wp_list w) -> tables_fit (ws_config st) -> rtc (web_step w) st st' -> tables_fit (ws_config st').
Proof. intros Hw H Hs. induction Hs as [st|st st1 st' Hs _ IH]; [done|]. apply IH. by apply (step_fits w st st1). Qed.

Module RoutesDemo.
Definition w : web_params :=
  WebParams ApiDemo.stale (fun _ => 0) (PolicyRoute [] 0 0 0 [] 0 [] 0 [] false) (AddressList [] [] [] 0 [] false []) (StaticLease [] [] 0 [] false)
    (RateLimit [] 0 0 0 [] false) true true true 0 (vpn_tailscale (c_vpn config_reset_to_defaults)).
Definition body : cstring := dq "{`name`:`gaming`}".
Definition req : cstring :=
  bytes_of_string "POST /api/v1/groups/delete HTTP/1.1" ++ [13; 10] ++ bytes_of_string "X-Auth-Token: flux_token_admin_default" ++ header_end ++ body.
End RoutesDemo.

(** The request of the example without its token. *)
Definition bare_request : cstring := bytes_of_string "POST /api/v1/groups/delete HTTP/1.1" ++ header_end ++ RoutesDemo.body.
Lemma only_authorised_requests_act_witness :
  process RoutesDemo.w ApiDemo.env ApiDemo.st bare_request = Refused /\ process RoutesDemo.w ApiDemo.env ApiDemo.st RoutesDemo.req <> Refused.
Proof.
  split.
  - refine (proj2 (proj2 (proj1 (only_authorised_requests_act RoutesDemo.w ApiDemo.env ApiDemo.st bare_request) _ _)) _ _ _); [by vm_compute| |by vm_compute|by vm_compute|].
    + intros [E|[E|[]%Exists_nil]%Exists_cons]%Exists_cons; by vm_compute in E.
    + apply Exists_exists. exists (["POST /api/v1/groups/delete"]%string, always handle_group_delete). split; [|by vm_compute].
      apply (list_elem_of_lookup_2 _ 14). reflexivity.
  - apply (only_authorised_requests_act RoutesDemo.w ApiDemo.env ApiDemo.st RoutesDemo.req). right. apply Exists_cons. left. by vm_compute.
Defined.

Lemma requests_keep_tables_witness :
  rtc (web_step RoutesDemo.w) ApiDemo.st (oc_state (handle_group_delete ApiDemo.env ApiDemo.st (Some RoutesDemo.body)))
  /\ tables_fit (ws_config (oc_state (handle_group_delete ApiDemo.env ApiDemo.st (Some RoutesDemo.body)))).
Proof.
  assert (rtc (web_step RoutesDemo.w) ApiDemo.st (oc_state (handle_group_delete ApiDemo.env ApiDemo.st (Some RoutesDemo.body)))) as Hs.
  { apply rtc_once, (step_request _ ApiDemo.env ApiDemo.st RoutesDemo.req). unfold process.
    assert (has_prefix "OPTIONS " RoutesDemo.req = false) as -> by by_eval.
    assert (find_route RoutesDemo.w RoutesDemo.req = Some (always handle_group_delete)) as -> by reflexivity.
    assert (is_request_authorized (ws_config ApiDemo.st) RoutesDemo.req = true) as -> by by_eval.
    assert (body_of RoutesDemo.req = Some RoutesDemo.body) as -> by by_eval. reflexivity. }
  split; [done|]. apply (requests_keep_tables RoutesDemo.w ApiDemo.st); [by vm_compute| |done]. split; first [by vm_compute | by constructor].
Defined.

(** ** An update installs what it checked *)

Lemma download_is_not_install url now : upgrade_download url now <> install_cmd.
Proof. unfold upgrade_download, snprintf. intros E. apply (f_equal (take 1)) in E. vm_compute in E. discriminate E. Qed.
Lemma before_install uenv env body url sha ver :
  upgrade_package uenv body = (url, sha, ver) -> install_cmd ∈ (handle_upgrade uenv env body).1 -> upgrade_error uenv sha = None.
Proof.
  intros Ep. unfold handle_upgrade. rewrite Ep. destruct (upgrade_error uenv sha); [|done]. cbn [fst]. intros [E|H]%elem_of_cons.
  - by apply eq_sym, download_is_not_install in E.
  - destruct (hashes uenv sha); [apply list_elem_of_singleton in H|by apply not_elem_of_nil in H]. by vm_compute in H.
Qed.

(** The program is replaced only by a package that was downloaded in full size, and, where a hash of 64 characters
    is given and the hash of the package can be computed, only by one with that hash; the running program is copied first. *)
Theorem upgrade_installs_checked uenv env body url sha ver :
  upgrade_package uenv body = (url, sha, ver) -> install_cmd ∈ (handle_upgrade uenv env body).1 ->
  ue_downloaded uenv = true /\ (exists n, ue_size uenv = Some n /\ 50000 < n)
  /\ (forall a, Z.of_nat (length sha) = 64 -> ue_sha uenv = Some a -> strcase_eq a sha = true)
  /\ exists pre post, (handle_upgrade uenv env body).1
       = pre ++ [bytes_of_string "cp -a /opt/fluxwan/fluxwan /opt/fluxwan/fluxwan.old 2>/dev/null || true"; install_cmd] ++ post /\ install_cmd ∉ pre.
Proof.
  intros Ep Hin. pose proof (before_install _ _ _ _ _ _ Ep Hin) as He. clear Hin. split_and!.
  - unfold upgrade_error in He. by destruct (ue_downloaded uenv).
  - unfold upgrade_error in He. destruct (ue_downloaded uenv); [|done]. destruct (ue_size uenv) as [n|]; [|done]. exists n. split; [done|].
    destruct (Z.ltb_spec 50000 n); [done|]. done.
  - intros a Hl Ha. unfold upgrade_error in He. destruct (ue_downloaded uenv); [|done]. destruct (ue_size uenv) as [n|]; [|done].
    destruct (negb _); [done|]. rewrite (proj2 (Z.eqb_eq _ _) Hl), Ha in He. by destruct (strcase_eq a sha).
  - unfold handle_upgrade. rewrite Ep, He. cbn [fst]. unfold install_cmds. set (dl := upgrade_download _ _).
    exists (dl :: (if hashes uenv sha then [sha_cmd] else []) ++ [bytes_of_string "chmod +x /tmp/fluxwan_update.tmp"]). eexists. split.
    + cbn [app]. rewrite <- app_assoc. cbn [app]. reflexivity.
    + intros [E|H]%elem_of_cons; [by apply eq_sym, download_is_not_install in E|]. apply elem_of_app in H as [H|H].
      * destruct (hashes uenv sha); [apply list_elem_of_singleton in H; by vm_compute in H|by apply not_elem_of_nil in H].
      * apply list_elem_of_singleton in H. by vm_compute in H.
Qed.
Module UpgradeDemo.
Definition hash_text : cstring := bytes_of_string "0123456789abcdef0123456789abcdef0123456789abcdef0123456789abcdef".
Definition uenv : upgrade_env := UpgradeEnv None true (Some 812344) (Some hash_text).
Definition body : cstring := dq "{`url`:`https://example.org/fluxwan`,`sha256`:`0123456789ABCDEF0123456789ABCDEF0123456789ABCDEF0123456789ABCDEF`,`version`:`1.6.0`}".
End UpgradeDemo.
Lemma upgrade_installs_checked_witness :
  exists pre post, (handle_upgrade UpgradeDemo.uenv ApiDemo.env (Some UpgradeDemo.body)).1
    = pre ++ [bytes_of_string "cp -a /opt/fluxwan/fluxwan /opt/fluxwan/fluxwan.old 2>/dev/null || true"; install_cmd] ++ post /\ install_cmd ∉ pre.
Proof.
  eapply (upgrade_installs_checked UpgradeDemo.uenv ApiDemo.env (Some UpgradeDemo.body)); [vm_compute; reflexivity|].
  apply (bool_decide_unpack _). by vm_compute.
Defined.

(** A hash that is not 64 characters long is not compared: the package is installed with any content. *)
Theorem odd_hash_not_checked uenv env body url sha ver n :
  upgrade_package uenv body = (url, sha, ver) -> ue_downloaded uenv = true -> ue_size uenv = Some n -> 50000 < n -> Z.of_nat (length sha) <> 64 ->
  install_cmd ∈ (handle_upgrade uenv env body).1.
Proof.
  intros Ep Hd Hn Hl Hs. unfold handle_upgrade. rewrite Ep. unfold upgrade_error. rewrite Hd, Hn, (proj2 (Z.ltb_lt _ _) Hl), (proj2 (Z.eqb_neq _ _) Hs).
  cbn [negb fst]. apply elem_of_app. right. unfold install_cmds. apply elem_of_app. left. by do 2 apply list_elem_of_further; apply list_elem_of_here.
Qed.
Lemma odd_hash_not_checked_witness :
  install_cmd ∈ (handle_upgrade (UpgradeEnv None true (Some 60000) (Some UpgradeDemo.hash_text)) ApiDemo.env (Some (dq "{`url`:`http://h/x`,`sha256`:`abc`}"))).1.
Proof. eapply odd_hash_not_checked; [vm_compute; reflexivity|reflexivity|reflexivity|by vm_compute|by vm_compute]. Defined.

(** ** A capture is a well-formed file *)

Definition take_le (n : nat) (s : list Z) : option (Z * list Z) := if bool_decide (n <= length s)%nat then Some (le_val (take n s), drop n s) else None.
(** A reader of the format; each packet takes 16 bytes or more. *)
Fixpoint read_packets (fuel : nat) (s : list Z) : option (list (Z * Z * list Z)) :=
  match fuel, s with
  | _, [] => Some []
  | O, _ => None
  | S fuel, _ =>
      '(sec, s) ← take_le 4 s; '(usec, s) ← take_le 4 s; '(incl, s) ← take_le 4 s; '(orig, s) ← take_le 4 s;
      if (incl <=? orig) && (incl <=? Z.of_nat (length s)) then cons (sec, usec, take (Z.to_nat incl) s) <$> read_packets fuel (drop (Z.to_nat incl) s)
      else None
  end.
Definition read_pcap (s : list Z) : option (list (Z * Z * list Z)) :=
  if bool_decide (take 24 s = pcap_global_hdr) then read_packets (length s) (drop 24 s) else None.

Definition packet_ok (p : Z * Z * list Z) : Prop := is_u32 p.1.1 /\ is_u32 p.1.2 /\ Z.of_nat (length p.2) <= 65535.
Lemma take_le_bytes n v r : 0 <= v < 256 ^ Z.of_nat n -> take_le n (le_bytes n v ++ r) = Some (v, r).
Proof.
  intros Hv. unfold take_le. rewrite bool_decide_true by (rewrite length_app, le_bytes_length; lia).
  rewrite take_app_length' by (by rewrite le_bytes_length). rewrite drop_app_length' by (by rewrite le_bytes_length).
  by rewrite le_val_bytes, Z.mod_small.
Qed.
Lemma read_packet fuel p r : packet_ok p -> read_packets (S fuel) (pcap_packet p ++ r) = cons p <$> read_packets fuel r.
Proof.
  destruct p as [[sec usec] data]. intros (H1 & H2 & H3). cbn [fst snd] in *. unfold is_u32 in *.
  assert (E : forall s, s <> [] -> read_packets (S fuel) s =
    '(sec, s) ← take_le 4 s; '(usec, s) ← take_le 4 s; '(incl, s) ← take_le 4 s; '(orig, s) ← take_le 4 s;
    if (incl <=? orig) && (incl <=? Z.of_nat (length s)) then cons (sec, usec, take (Z.to_nat incl) s) <$> read_packets fuel (drop (Z.to_nat incl) s)
    else None) by (by intros [|x s]).
  rewrite E by done. clear E. unfold pcap_packet. rewrite <- !app_assoc.
  rewrite take_le_bytes by (change (256 ^ Z.of_nat 4) with 4294967296; lia). cbn [mbind option_bind].
  rewrite take_le_bytes by (change (256 ^ Z.of_nat 4) with 4294967296; lia). cbn [mbind option_bind].
  rewrite take_le_bytes by (change (256 ^ Z.of_nat 4) with 4294967296; lia). cbn [mbind option_bind].
  rewrite take_le_bytes by (change (256 ^ Z.of_nat 4) with 4294967296; lia). cbn [mbind option_bind].
  rewrite Z.leb_refl, length_app, (proj2 (Z.leb_le _ _)) by lia. cbn [andb]. rewrite Nat2Z.id.
  by rewrite take_app_length, drop_app_length.
Qed.
Lemma read_all ps : forall fuel, Forall packet_ok ps -> (length ps <= fuel)%nat -> read_packets fuel (concat (pcap_packet <$> ps)) = Some ps.
Proof.
  induction ps as [|p ps IH]; intros fuel Hp Hf; [by destruct fuel|]. apply Forall_cons in Hp as [Hp Hps]. cbn [length] in Hf.
  destruct fuel as [|fuel]; [lia|]. cbn [fmap list_fmap concat]. rewrite read_packet by done. by rewrite IH by (done || lia).
Qed.
Lemma packets_long ps : (length ps <= length (concat (pcap_packet <$> ps)))%nat.
Proof.
  induction ps as [|[[sec usec] data] ps IH]; [done|]. cbn [fmap list_fmap concat length]. rewrite length_app. unfold pcap_packet at 1.
  rewrite !length_app, !le_bytes_length. lia.
Qed.

(** What a capture sends is a file that a reader of the format accepts, and the reader finds the packets that were
    captured, as many as were asked for, or the one that stands for none. *)
Theorem capture_reads_back now packets req :
  Forall packet_ok packets ->
  read_pcap (handle_pcap_export now packets req) =
    Some (match take (Z.to_nat (pcap_count req)) packets with
          | [] => [(u32 now, 100000, diag_pkt)]
          | l => (fun p : Z * Z * list Z => (p.1, take 2048 p.2)) <$> l
          end).
Proof.
  intros Hp. unfold handle_pcap_export. set (l := take _ packets). set (cut := fun p : Z * Z * list Z => (p.1, take 2048 p.2)).
  set (ps := match cut <$> l with [] => [(u32 now, 100000, diag_pkt)] | _ => cut <$> l end).
  assert (Hok : Forall packet_ok ps).
  { subst ps. destruct (cut <$> l) as [|x y] eqn:E.
    - constructor; [|constructor]. split_and!; [apply Z.mod_pos_bound; lia|done|by vm_compute].
    - rewrite <- E. apply Forall_fmap. eapply Forall_impl; [apply Forall_take, Hp|]. intros [[a b] d] (H1 & H2 & H3). cbn in *.
      split_and!; [done..|]. cbn. rewrite length_take. lia. }
  unfold read_pcap. assert (length pcap_global_hdr = 24%nat) as Hh by done.
  rewrite take_app_length' by done. rewrite bool_decide_true by done. rewrite drop_app_length' by done. rewrite length_app.
  rewrite read_all; [|done|pose proof (packets_long ps); lia]. subst ps. by destruct l.
Qed.
Lemma capture_reads_back_witness :
  read_pcap (handle_pcap_export 1700000000 [(1700000000, 5, [1; 2; 3])] "GET /api/v1/diagnostics/pcap?wan=eth1&count=5") = Some [(1700000000, 5, [1; 2; 3])].
Proof.
  apply (capture_reads_back 1700000000 [(1700000000, 5, [1; 2; 3])]). constructor; [|constructor]. split_and!; by vm_compute.
Defined.
