(* ===== verification/ProxyManager.v ===== *)
(** * The proxy manager

    Configuration files of the proxy daemons (sing-box and Xray), their start and stop, and the
    supervisor ([proxy_manager.c]; the links of servers are read in [ProxyUri]). *)

From S2P Require Import Prelude Fluxwan Ipv4 CLib Json JsonText ProxyUri System ConfigSave.

(** The context: process numbers, failed probes and the times of the last start, one per uplink. *)
Record proxy_manager_ctx := ProxyManagerCtx {
  pm_config : fluxwan_config_t;
  pm_pids : list Z;
  pm_fail_counts : list Z;
  pm_last_restart_ms : list Z
}.

Definition pm_wan (ctx : proxy_manager_ctx) (i : nat) : option wan_config_t := c_wans (pm_config ctx) !! i.
Definition put_wan (i : nat) (w : wan_config_t) (ctx : proxy_manager_ctx) : proxy_manager_ctx :=
  ProxyManagerCtx (set_c_wans (<[i := w]> (c_wans (pm_config ctx))) (pm_config ctx)) (pm_pids ctx) (pm_fail_counts ctx)
    (pm_last_restart_ms ctx).
Definition put_pid (i : nat) (pid : Z) (ctx : proxy_manager_ctx) : proxy_manager_ctx :=
  ProxyManagerCtx (pm_config ctx) (<[i := pid]> (pm_pids ctx)) (pm_fail_counts ctx) (pm_last_restart_ms ctx).
Definition put_fails (i : nat) (n : Z) (ctx : proxy_manager_ctx) : proxy_manager_ctx :=
  ProxyManagerCtx (pm_config ctx) (pm_pids ctx) (<[i := n]> (pm_fail_counts ctx)) (pm_last_restart_ms ctx).
Definition put_restart (i : nat) (ms : Z) (ctx : proxy_manager_ctx) : proxy_manager_ctx :=
  ProxyManagerCtx (pm_config ctx) (pm_pids ctx) (pm_fail_counts ctx) (<[i := ms]> (pm_last_restart_ms ctx)).

(** ** Configuration files *)

Definition wan_number (w : wan_config_t) (wan_idx : Z) : Z := if 0 <? w_id w then w_id w else u32 (wan_idx + 1).
Definition conf_path (w : wan_config_t) (wan_idx max_path : Z) : cstring :=
  snprintf max_path "/etc/fluxwan/proxy_wan_%u.json" [FN (wan_number w wan_idx)].
Definition tun_default (w : wan_config_t) (wan_idx : Z) : cstring :=
  snprintf 16 "tun_wan%u" [FN (wan_number w wan_idx mod 1000)].
Definition tun_name (w : wan_config_t) (wan_idx : Z) : cstring :=
  if empty (px_tun_dev (w_proxy w)) then tun_default w wan_idx else px_tun_dev (w_proxy w).

(** The name of a server is replaced by its address when it has one. *)
Definition resolve_server (server : cstring) : sys cstring :=
  match inet_pton server with
  | Some _ => mret (safe_str_copy server 128)
  | None =>
      he ← gethostbyname server;
      mret (match he with Some ip => ip_to_str ip | None => safe_str_copy server 128 end)
  end.

Definition uses_tls (security sni : cstring) (port : Z) : bool :=
  negb (strcase_eq security "none") && negb (strcase_eq security "plain")
  && (strcase_eq security "tls" || (port =? 443) || (negb (empty sni) && negb (port =? 80))).

Definition fwmark (wan_idx : Z) : Z := u32 (4096 + wan_idx).
Definition tun_address (wan_idx : Z) : cstring := sprintf "198.18.%u.1/24" [FN ((wan_idx + 10) mod 250)].

(** An array [<ind>"<key>": [ ... ]<sep>]. *)
Definition jarr (ind key : string) (body : list tok) (sep : string) : list tok :=
  lit ind :: Key key :: ln ": [" :: body ++ [ln (ind ++ "]" ++ sep)%string].

Definition or_port (port d : Z) : Z := if 0 <? port then port else d.

(** *** sing-box *)

Definition singbox_inbound (w : wan_config_t) (wan_idx : Z) : list tok :=
  jarr "  " "inbounds"
    (jobj "    "
      (fld "      " "type" (jstr "tun") "," ++
       fld "      " "tag" (jstr "tun-in") "," ++
       fld "      " "interface_name" (jstr (tun_name w wan_idx)) "," ++
       jarr "      " "address" [lit "        "; Str (tun_address wan_idx); ln EmptyString] "," ++
       fld "      " "mtu" (jnum 1420) "," ++
       fld "      " "stack" (jstr "system") "," ++
       fld "      " "auto_route" (jbool false) "," ++
       fld "      " "strict_route" (jbool false) "," ++
       fld "      " "sniff" (jbool true) "") "") ",".

Definition singbox_tls (p : wan_proxy_config_t) : list tok :=
  if uses_tls (px_security p) (px_sni p) (px_port p) then
    jblock "      " "tls"
      (fld "        " "enabled" (jbool true) "," ++
       fld "        " "server_name" (jstr (if empty (px_sni p) then px_server p else px_sni p)) "," ++
       fld "        " "insecure" (jbool true) "") ","
  else [].

Definition singbox_transport (p : wan_proxy_config_t) : list tok :=
  if strcase_eq (px_transport p) "ws" || negb (empty (px_path p)) then
    jblock "      " "transport"
      (fld "        " "type" (jstr "ws") "," ++
       fld "        " "path" (jstr (or_else_text (px_path p) "/")) "," ++
       (if negb (empty (px_host p)) || negb (empty (px_sni p)) then
          jblock "        " "headers" (fld "          " "Host" (jstr (or_else_text (px_host p) (px_sni p))) "") ""
        else [])) ","
  else [].

Definition pinning (ind : string) (k1 k2 : string) (name : cstring) (wan_idx : Z) : list tok :=
  fld ind k1 (jnum (fwmark wan_idx)) "," ++ fld ind k2 (jstr name) "".

Definition singbox_tokens (w : wan_config_t) (wan_idx : Z) (resolved_server : cstring) : list tok :=
  let p := w_proxy w in
  [ln "{"] ++
  jblock "  " "log" (fld "    " "level" (jstr "warn") "") "," ++
  jblock "  " "dns"
    (jarr "    " "servers"
       [lit "      {"; Key "tag"; lit ": "; Str "local-dns"; lit ", "; Key "address"; lit ": "; Str "local"; lit ", ";
        Key "detour"; lit ": "; Str "direct"; ln "}"] "") "," ++
  singbox_inbound w wan_idx ++
  jarr "  " "outbounds"
    (jobj "    "
       (fld "      " "type" (jstr (or_else_text (px_proto_str p) "vless")) "," ++
        fld "      " "tag" (jstr "proxy-out") "," ++
        fld "      " "server" (jstr resolved_server) "," ++
        fld "      " "server_port" (jnum (or_port (px_port p) 443)) "," ++
        fld "      " "uuid" (jstr (px_uuid p)) "," ++
        singbox_tls p ++ singbox_transport p ++
        pinning "      " "routing_mark" "bind_interface" (w_name w) wan_idx) "," ++
     jobj "    "
       (fld "      " "type" (jstr "direct") "," ++
        fld "      " "tag" (jstr "direct") "," ++
        pinning "      " "routing_mark" "bind_interface" (w_name w) wan_idx) "") "" ++
  [ln "}"].

(** The file is opened, the server resolved, the text written. *)
Definition generate_proxy_config_file (w : wan_config_t) (wan_idx max_path : Z) : sys (Z * cstring) :=
  let path := conf_path w wan_idx max_path in
  do_call (Mkdir "/etc/fluxwan");;
  ok ← can_create path;
  if (ok : bool) then
    resolved ← resolve_server (px_server (w_proxy w));
    do_call (WriteFile path (render (singbox_tokens w wan_idx resolved)));;
    mret (0, path)
  else mret (-1, path).

(** *** Xray *)

Definition xray_user (fields : list tok) : list tok :=
  jarr "            " "users" (jobj "              " fields "") "".

(** The settings of an outbound, by protocol; other protocols have none. *)
Definition xray_settings (ep : proxy_endpoint_t) (resolved_server : cstring) : list tok :=
  let proto := or_else_text (ep_proto_str ep) "vless" in
  let enc := or_else_text (ep_encryption ep) "none" in
  let address := fld "            " "address" (jstr resolved_server) "," in
  let port d := fld "            " "port" (jnum (or_port (ep_port ep) d)) "," in
  if str_eq proto "vless" then
    jarr "        " "vnext"
      (jobj "          "
         (address ++ port 443 ++
          xray_user (fld "                " "id" (jstr (ep_uuid ep)) "," ++
                     fld "                " "encryption" (jstr enc) "," ++
                     fld "                " "level" (jnum 0) "")) "") ""
  else if str_eq proto "vmess" then
    jarr "        " "vnext"
      (jobj "          "
         (address ++ port 443 ++
          xray_user (fld "                " "id" (jstr (ep_uuid ep)) "," ++
                     fld "                " "alterId" (jnum 0) "," ++
                     fld "                " "security" (jstr "auto") "")) "") ""
  else if str_eq proto "trojan" then
    jarr "        " "servers"
      (jobj "          " (address ++ port 443 ++ fld "            " "password" (jstr (ep_uuid ep)) "") "") ""
  else if str_eq proto "shadowsocks" then
    jarr "        " "servers"
      (jobj "          "
         (address ++ port 8388 ++ fld "            " "password" (jstr (ep_uuid ep)) "," ++
          fld "            " "method" (jstr "chacha20-ietf-poly1305") "") "") ""
  else [].

Definition xray_network (ep : proxy_endpoint_t) : cstring :=
  if strcase_eq (ep_transport ep) "ws" || negb (empty (ep_path ep)) then bytes_of_string "ws" else bytes_of_string "tcp".

Definition xray_stream (ep : proxy_endpoint_t) (resolved_server : cstring) : list tok :=
  let has_tls := uses_tls (ep_security ep) (ep_sni ep) (ep_port ep) in
  fld "        " "network" (jstr (xray_network ep)) "," ++
  fld "        " "security" (jstr (if has_tls then bytes_of_string "tls" else bytes_of_string "none")) "," ++
  (if has_tls then
     jblock "        " "tlsSettings"
       (fld "          " "serverName" (jstr (or_else_text (ep_sni ep) (or_else_text (ep_host ep) resolved_server))) "," ++
        fld "          " "allowInsecure" (jbool true) "") ","
   else []) ++
  (if str_eq (xray_network ep) "ws" then
     let h := or_else_text (ep_host ep) (ep_sni ep) in
     jblock "        " "wsSettings"
       (fld "          " "path" (jstr (or_else_text (ep_path ep) "/")) "," ++
        (if empty h then [] else jblock "          " "headers" (fld "            " "Host" (jstr h) "") "")) ","
   else []).

Definition sockopt (w : wan_config_t) (wan_idx : Z) : list tok :=
  jblock "        " "sockopt" (pinning "          " "mark" "interface" (w_name w) wan_idx) "".

Definition write_xray_single_outbound (ep : proxy_endpoint_t) (tag : cstring) (w : wan_config_t) (wan_idx : Z) : sys (list tok) :=
  resolved ← resolve_server (ep_server ep);
  mret (jobj "    "
    (fld "      " "tag" (jstr tag) "," ++
     fld "      " "protocol" (jstr (or_else_text (ep_proto_str ep) "vless")) "," ++
     jblock "      " "settings" (xray_settings ep resolved) "," ++
     jblock "      " "streamSettings" (xray_stream ep resolved ++ sockopt w wan_idx) "") ",").

(** One outbound per server of the table that has a name. *)
Fixpoint xray_outbounds (i : Z) (eps : list proxy_endpoint_t) (w : wan_config_t) (wan_idx : Z) : sys (list tok) :=
  match eps with
  | [] => mret []
  | ep :: eps =>
      a ← (if empty (ep_server ep) then mret []
           else write_xray_single_outbound ep (snprintf 32 "proxy-out-%d" [FN i]) w wan_idx);
      b ← xray_outbounds (i + 1) eps w wan_idx;
      mret (a ++ b)
  end.

Definition rule_direct : list tok :=
  jobj "      " (fld "        " "type" (jstr "field") "," ++ fld "        " "outboundTag" (jstr "direct") "") "".
Definition rule_tun (key : string) (target : cstring) : list tok :=
  jobj "      "
    (fld "        " "type" (jstr "field") "," ++
     [lit "        "; Key "inboundTag"; lit ": ["; Str "tun-in"; ln "],"] ++
     fld "        " key (jstr target) "") ",".

Definition xray_strategy (s : proxy_balancer_strategy_t) : cstring :=
  match s with
  | PROXY_STRATEGY_ROUND_ROBIN => "roundRobin"
  | PROXY_STRATEGY_LEAST_LOAD => "leastLoad"
  | _ => "leastPing"
  end.

Definition xray_routing (p : wan_proxy_config_t) (several : bool) : list tok :=
  if several then
    jblock "  " "observatory"
      ([lit "    "; Key "subjectSelector"; lit ": ["; Str "proxy-out-"; ln "],"] ++
       fld "    " "probeURL" (jstr "http://1.1.1.1") "," ++
       fld "    " "probeInterval" (jstr "3s") "," ++
       fld "    " "enableConcurrency" (jbool true) "") "," ++
    jblock "  " "routing"
      (fld "    " "domainStrategy" (jstr "AsIs") "," ++
       jarr "    " "balancers"
         (jobj "      "
            (fld "        " "tag" (jstr "wan_balancer") "," ++
             [lit "        "; Key "selector"; lit ": ["; Str "proxy-out-"; ln "],"] ++
             jblock "        " "strategy" (fld "          " "type" (jstr (xray_strategy (px_strategy p))) "") "") "") "," ++
       jarr "    " "rules" (rule_tun "balancerTag" "wan_balancer" ++ rule_direct) "") ""
  else
    jblock "  " "routing"
      (fld "    " "domainStrategy" (jstr "AsIs") "," ++
       jarr "    " "rules" (rule_tun "outboundTag" "proxy-out" ++ rule_direct) "") "".

Definition active_servers (p : wan_proxy_config_t) : Z :=
  Z.of_nat (length (filter (fun ep => ep_server ep <> []) (px_servers p))).

Definition xray_tokens (w : wan_config_t) (wan_idx : Z) (outbounds : list tok) : list tok :=
  [ln "{"] ++
  jblock "  " "log" (fld "    " "loglevel" (jstr "warning") "") "," ++
  jarr "  " "inbounds"
    (jobj "    "
      (fld "      " "tag" (jstr "tun-in") "," ++
       fld "      " "protocol" (jstr "tun") "," ++
       jblock "      " "settings"
         (fld "        " "name" (jstr (tun_name w wan_idx)) "," ++
          fld "        " "mtu" (jnum 1420) "," ++
          jarr "        " "gateway" [lit "          "; Str (tun_address wan_idx); ln EmptyString] "") "") "") "," ++
  jarr "  " "outbounds"
    (outbounds ++
     jobj "    "
       (fld "      " "tag" (jstr "direct") "," ++
        fld "      " "protocol" (jstr "freedom") "," ++
        jblock "      " "streamSettings" (sockopt w wan_idx) "") "") "," ++
  xray_routing (w_proxy w) (1 <? active_servers (w_proxy w)) ++
  [ln "}"].

Section Xray.

(** The settings of the uplink read through a pointer to the structure of a server: which bytes
    that gives depends on the layout that the compiler chooses. *)
Context (as_endpoint : wan_proxy_config_t -> proxy_endpoint_t).

Definition xray_servers (w : wan_config_t) (wan_idx : Z) : sys (list tok) :=
  let p := w_proxy w in
  if 1 <? active_servers p then xray_outbounds 0 (px_servers p) w wan_idx
  else write_xray_single_outbound (if empty (ep_server (ep_at p 0)) then as_endpoint p else ep_at p 0) "proxy-out" w wan_idx.

Definition generate_xray_config_file (w : wan_config_t) (wan_idx max_path : Z) : sys (Z * cstring) :=
  let path := conf_path w wan_idx max_path in
  do_call (Mkdir "/etc/fluxwan");;
  ok ← can_create path;
  if (ok : bool) then
    outbounds ← xray_servers w wan_idx;
    do_call (WriteFile path (render (xray_tokens w wan_idx outbounds)));;
    mret (0, path)
  else mret (-1, path).

(** ** The daemons *)

Definition check_binary_available (name : cstring) : sys bool :=
  a ← executable (snprintf 128 "/usr/bin/%s" [FS name]);
  if (a : bool) then mret true else
  b ← executable (snprintf 128 "/usr/local/bin/%s" [FS name]);
  if (b : bool) then mret true else
  executable (snprintf 128 "/bin/%s" [FS name]).

Definition contains (s p : cstring) : bool := bool_decide (is_Some (strstr s p)).
Definition needs_xray (encryption raw_uri : cstring) : bool :=
  (negb (empty encryption) && negb (str_eq encryption "none"))
  || contains raw_uri "v2box://" || contains raw_uri "mlkem" || contains raw_uri "x25519plus".
Definition is_xray_required (p : wan_proxy_config_t) : bool :=
  (1 <? px_server_count p)
  || existsb (fun ep => needs_xray (ep_encryption ep) (ep_raw_uri ep)) (px_servers p)
  || needs_xray (px_encryption p) (px_raw_uri p).

Definition proxy_manager_generate_config (w : wan_config_t) (wan_idx max_path : Z) : sys (Z * cstring) :=
  available ← check_binary_available "xray";
  if (available : bool) || is_xray_required (w_proxy w) then generate_xray_config_file w wan_idx max_path
  else generate_proxy_config_file w wan_idx max_path.

Definition pid_file (i : nat) : cstring := snprintf 128 "/var/run/fluxwan_proxy_wan_%u.pid" [FN (Z.of_nat i)].

(** The number in the file of a process, when it is one. *)
Definition read_pid (file : option (list Z)) : option Z :=
  bytes ← file;
  pid ← scan_int bytes;
  if 1 <? pid then Some pid else None.

Definition kill_recorded (i : nat) : sys unit :=
  file ← read_file (pid_file i);
  match file with
  | None => mret tt
  | Some _ =>
      match read_pid file with
      | Some pid => do_call (Kill pid SIGTERM);; do_call (Usleep 50000);; do_call (Kill pid SIGKILL)
      | None => mret tt
      end;;
      do_call (Unlink (pid_file i))
  end.

Definition stopped_proxy (p : wan_proxy_config_t) : wan_proxy_config_t :=
  set_px_latency_ms 0 (set_px_is_connected false (set_px_pid 0 p)).

Definition proxy_manager_stop_wan (ctx : proxy_manager_ctx) (i : nat) : sys (Z * proxy_manager_ctx) :=
  match pm_wan ctx i with
  | None => mret (-1, ctx)
  | Some w =>
      kill_recorded i;;
      (if empty (px_tun_dev (w_proxy w)) then mret tt
       else do_call (System (snprintf 128 "ip link delete %s 2>/dev/null || true" [FS (px_tun_dev (w_proxy w))])));;
      mret (0, put_wan i (set_w_proxy (stopped_proxy (w_proxy w)) w) (put_pid i (-1) ctx))
  end.

Definition launch_cmd (use_xray : bool) (path : cstring) (i : nat) : cstring :=
  if use_xray then snprintf 2048 "sh -c 'xray run -c %s >/dev/null 2>&1 & echo $! > %s' &" [FS path; FS (pid_file i)]
  else snprintf 2048
    "sh -c 'export ENABLE_DEPRECATED_TUN_ADDRESS_X=true; sing-box run -c %s >/dev/null 2>&1 & echo $! > %s' &"
    [FS path; FS (pid_file i)].

Definition main_metric (i : nat) : Z := if (i =? 1)%nat then 10 else if (i =? 2)%nat then 15 else u32 (50 + Z.of_nat i * 5).

Definition tun_route_cmd (i : nat) (dev : cstring) (table : Z) : cstring :=
  snprintf 640
    ("ip link set %s up 2>/dev/null || true; " ++
     "ip addr replace 198.18.%u.1/24 dev %s 2>/dev/null || true; " ++
     "ip rule del oif %s table %u 2>/dev/null || true; " ++
     "ip rule add oif %s table %u pref 90 2>/dev/null || true; " ++
     "ip route replace default dev %s table %u proto static 2>/dev/null || true; " ++
     "ip route add default dev %s metric %u 2>/dev/null || ip route replace default dev %s metric %u 2>/dev/null || true")%string
    [FS dev; FN ((Z.of_nat i + 10) mod 250); FS dev; FS dev; FN table; FS dev; FN table; FS dev; FN table; FS dev; FN (main_metric i);
     FS dev; FN (main_metric i)].

(** Up to 2.5 seconds until the daemon has created its interface. *)
Fixpoint wait_tun (n : nat) (dev : cstring) : sys unit :=
  match n with
  | O => mret tt
  | S n =>
      idx ← if_nametoindex dev;
      if 0 <? idx then mret tt else do_call (Usleep 100000);; wait_tun n dev
  end.

Definition running_proxy (pid : Z) (p : wan_proxy_config_t) : wan_proxy_config_t := set_px_is_connected true (set_px_pid pid p).

(** The daemon is started, and its process number read back from the file that the shell writes. *)
Definition launch (ctx : proxy_manager_ctx) (i : nat) (w : wan_config_t) (use_xray : bool) (path : cstring) : sys proxy_manager_ctx :=
  do_call (System (launch_cmd use_xray path i));;
  do_call (Usleep 100000);;
  file ← read_file (pid_file i);
  match read_pid file with
  | None => mret ctx
  | Some pid =>
      wait_tun 25 (px_tun_dev (w_proxy w));;
      safe_system (tun_route_cmd i (px_tun_dev (w_proxy w)) (w_table_id w));;
      mret (put_wan i (set_w_proxy (running_proxy pid (w_proxy w)) w) (put_pid i pid ctx))
  end.

(** The settings of an uplink before the daemon is started: the table of servers and the name of
    the interface. *)
Definition synced (w : wan_config_t) : wan_config_t :=
  if w_enabled w && px_enabled (w_proxy w) then set_w_proxy (proxy_manager_sync_servers (w_proxy w)) w else w.
Definition with_tun (w : wan_config_t) (i : nat) : wan_config_t :=
  if empty (px_tun_dev (w_proxy w)) then set_w_proxy (set_px_tun_dev (tun_default w (Z.of_nat i)) (w_proxy w)) w else w.
Definition not_wanted (w : wan_config_t) : bool :=
  negb (w_enabled w) || negb (px_enabled (w_proxy w)) || (empty (px_server (w_proxy w)) && (px_server_count (w_proxy w) =? 0)).

Definition proxy_manager_start_wan (ctx : proxy_manager_ctx) (i : nat) : sys (Z * proxy_manager_ctx) :=
  match pm_wan ctx i with
  | None => mret (-1, ctx)
  | Some w =>
      let w := synced w in
      let ctx := put_wan i w ctx in
      if not_wanted w then proxy_manager_stop_wan ctx i
      else
        let w := with_tun w i in
        let ctx := put_wan i w ctx in
        gen ← proxy_manager_generate_config w (Z.of_nat i) 256;
        if negb (gen.1 =? 0) then mret (-1, ctx)
        else
          available ← check_binary_available "xray";
          let use_xray := (available : bool) || is_xray_required (w_proxy w) in
          stop ← proxy_manager_stop_wan ctx i;
          ts ← clock_gettime;
          let ctx := put_restart i (clock_ms ts) stop.2 in
          let w := default w (pm_wan ctx i) in
          ctx ← launch ctx i w use_xray gen.2;
          mret (0, ctx)
  end.

Definition indexes (ctx : proxy_manager_ctx) : list nat := seq 0 (length (c_wans (pm_config ctx))).

Definition proxy_manager_apply (ctx : proxy_manager_ctx) : sys (Z * proxy_manager_ctx) :=
  ctx ← for_each (indexes ctx) (fun i ctx =>
    match pm_wan ctx i with
    | None => mret ctx
    | Some w =>
        r ← (if w_enabled w && px_enabled (w_proxy w) then proxy_manager_start_wan ctx i else proxy_manager_stop_wan ctx i);
        mret r.2
    end) ctx;
  mret (0, ctx).

Definition proxy_manager_init (config : fluxwan_config_t) : proxy_manager_ctx :=
  let all v := replicate (Z.to_nat MAX_WANS) v in ProxyManagerCtx config (all (-1)) (all 0) (all 0).

Definition proxy_manager_close (ctx : proxy_manager_ctx) : sys proxy_manager_ctx :=
  for_each (indexes ctx) (fun i ctx => r ← proxy_manager_stop_wan ctx i; mret r.2) ctx.

(** ** Probes through the tunnel *)

(** One connection attempt from a device. *)
Definition connect (dev : cstring) (ip port : Z) : sys bool :=
  ok ← ask (fun o t => os_connect o t dev ip port);
  do_call (Connect dev ip port);;
  mret ok.

(** Where the probe goes: through the tunnel to 1.0.0.1, or to the server itself; [None] is the
    early return. *)
Definition probe_target (p : wan_proxy_config_t) : sys (option (cstring * Z * Z)) :=
  if px_is_connected p && negb (empty (px_tun_dev p)) then mret (Some (px_tun_dev p, str_to_ip "1.0.0.1", 80))
  else if empty (px_server p) || (px_port p =? 0) then mret None
  else
    match inet_pton (px_server p) with
    | Some _ => mret (Some (px_bind_interface p, str_to_ip (px_server p), px_port p))
    | None =>
        he ← gethostbyname (px_server p);
        mret (match he with Some ip => Some (px_bind_interface p, ip, px_port p) | None => None end)
    end.

(** When the probe through the tunnel failed, the server is tried from the uplink. *)
Definition fallback (p : wan_proxy_config_t) (rc : bool) : sys bool :=
  if negb rc && px_is_connected p && negb (empty (px_server p)) && (0 <? px_port p) then
    s2 ← ask os_socket;
    if negb s2 then mret false
    else match inet_pton (px_server p) with
         | Some _ => connect (px_bind_interface p) (str_to_ip (px_server p)) (px_port p)
         | None => mret false
         end
  else mret rc.

(** The latency in milliseconds, at least one; [None] is the result -1. *)
Definition proxy_manager_test_tunnel (p : wan_proxy_config_t) : sys (option Z) :=
  start ← clock_gettime;
  s ← ask os_socket;
  if negb s then mret None else
  target ← probe_target p;
  match target with
  | None => mret None
  | Some (dev, ip, port) =>
      rc ← connect dev ip port;
      rc ← fallback p rc;
      if negb rc then mret None
      else
        fin ← clock_gettime;
        let ms := u32 ((fin.1 - start.1) * 1000 + Z.quot (fin.2 - start.2) 1000000) in
        mret (Some (if 0 <? ms then ms else 1))
  end.

(** ** The supervisor *)

Definition chk_route (i : nat) (w : wan_config_t) : cstring :=
  let dev := px_tun_dev (w_proxy w) in
  let phys_table := u32 (1000 + w_table_id w) in
  let mark := fwmark (Z.of_nat i) in
  let tun_fmt :=
    ("ip link set %s up 2>/dev/null || true; " ++
     "ip rule show | grep -q 'oif %s lookup %u' || ip rule add oif %s table %u pref 90 2>/dev/null || true; " ++
     "ip route replace default dev %s table %u proto static 2>/dev/null || true; " ++
     "ip route replace default dev %s metric %u 2>/dev/null || true")%string in
  let tun_args := [FS dev; FS dev; FN (w_table_id w); FS dev; FN (w_table_id w); FS dev; FN (w_table_id w); FS dev; FN (main_metric i)] in
  if w_gateway w =? 0 then snprintf 768 tun_fmt tun_args
  else
    snprintf 768
      ("ip route del default dev %s 2>/dev/null || true; " ++
       "ip route replace default via %s dev %s table %u proto static 2>/dev/null || true; " ++
       "ip rule show | grep -q 'fwmark 0x%x lookup %u' || ip rule add fwmark 0x%x table %u pref 40 2>/dev/null || true; " ++ tun_fmt)%string
      ([FS (w_name w); FS (ip_to_str (w_gateway w)); FS (w_name w); FN phys_table; FN mark; FN phys_table; FN mark; FN phys_table] ++ tun_args).

(** The uplink takes the name of its device as that of the device the proxy is bound to. *)
Definition bound (w : wan_config_t) : wan_config_t :=
  if empty (px_bind_interface (w_proxy w)) && negb (empty (w_name w))
  then set_w_proxy (set_px_bind_interface (safe_str_copy (w_name w) 32) (w_proxy w)) w else w.

Definition lost (w : wan_config_t) : wan_config_t :=
  set_w_metrics (set_m_rtt_ms 0 (set_m_packet_loss_pct 100%Q (w_metrics w)))
    (set_w_proxy (set_px_latency_ms 0 (set_px_is_connected false (w_proxy w))) w).

Definition reached (lat : Z) (w : wan_config_t) : wan_config_t :=
  set_w_state WAN_STATE_HEALTHY
    (set_w_metrics (set_m_packet_loss_pct 0%Q (set_m_rtt_ms lat (w_metrics w)))
       (set_w_proxy (set_px_latency_ms lat (w_proxy w)) w)).

Definition upd_wan (i : nat) (f : wan_config_t -> wan_config_t) (ctx : proxy_manager_ctx) : proxy_manager_ctx :=
  match pm_wan ctx i with Some w => put_wan i (f w) ctx | None => ctx end.

Definition since_restart (ctx : proxy_manager_ctx) (i : nat) (now_ms : Z) : Z :=
  u64 (now_ms - default 0 (pm_last_restart_ms ctx !! i)).

(** No process: it is started again, at most every five seconds, and the uplink counts as lost. *)
Definition supervise_dead (now_ms : Z) (ctx : proxy_manager_ctx) (i : nat) : sys proxy_manager_ctx :=
  ctx ← (if 5000 <=? since_restart ctx i now_ms then
           r ← proxy_manager_start_wan (put_restart i now_ms ctx) i; mret r.2
         else mret ctx);
  mret (upd_wan i lost ctx).

(** A process: routes are repaired and the tunnel probed; it is started again only when its
    interface is gone, at most every ten seconds. *)
Definition supervise_alive (now_ms : Z) (ctx : proxy_manager_ctx) (i : nat) (w : wan_config_t) : sys proxy_manager_ctx :=
  let dev := px_tun_dev (w_proxy w) in
  idx ← if_nametoindex dev;
  (if negb (empty dev) && (0 <? idx) then safe_system (chk_route i w) else mret tt);;
  lat ← proxy_manager_test_tunnel (w_proxy w);
  match lat with
  | Some lat_ms => mret (put_fails i 0 (put_wan i (reached lat_ms w) ctx))
  | None =>
      let ctx := put_fails i (u32 (default 0 (pm_fail_counts ctx !! i) + 1)) ctx in
      idx ← if_nametoindex dev;
      if negb (empty dev) && (idx =? 0) && (10000 <=? since_restart ctx i now_ms) then
        r ← proxy_manager_start_wan (put_restart i now_ms (put_fails i 0 ctx)) i;
        mret r.2
      else mret ctx
  end.

Definition supervise_wan (now_ms : Z) (i : nat) (ctx : proxy_manager_ctx) : sys proxy_manager_ctx :=
  match pm_wan ctx i with
  | None => mret ctx
  | Some w =>
      if negb (w_enabled w) || negb (px_enabled (w_proxy w)) then mret ctx
      else
        let w := bound w in
        let ctx := put_wan i w ctx in
        let pid := default 0 (pm_pids ctx !! i) in
        alive ← (if 1 <? pid then is_alive pid else mret false);
        if (alive : bool) then supervise_alive now_ms ctx i w else supervise_dead now_ms ctx i
  end.

Definition proxy_manager_supervise_tick (ctx : proxy_manager_ctx) : sys proxy_manager_ctx :=
  ts ← clock_gettime;
  for_each (indexes ctx) (supervise_wan (clock_ms ts)) ctx.
End Xray.

(** The thread sleeps four seconds in slices and then supervises, until it is asked to stop; it is
    asked after [rounds] rounds. *)
Fixpoint sleep_slices (n : nat) : sys unit :=
  match n with O => mret tt | S n => do_call (Usleep 100000);; sleep_slices n end.
Fixpoint proxy_supervisor_worker (as_endpoint : wan_proxy_config_t -> proxy_endpoint_t) (rounds : nat) (ctx : proxy_manager_ctx)
    : sys proxy_manager_ctx :=
  match rounds with
  | O => mret ctx
  | S rounds =>
      sleep_slices 40;;
      ctx ← proxy_manager_supervise_tick as_endpoint ctx;
      proxy_supervisor_worker as_endpoint rounds ctx
  end.

(** ** The table of processes *)

(** A proxy that counts as connected has a process, of the number that both tables record. *)
Definition linked (ctx : proxy_manager_ctx) (i : nat) (w : wan_config_t) : Prop :=
  px_is_connected (w_proxy w) = true -> exists pid, pm_pids ctx !! i = Some pid /\ 1 < pid /\ px_pid (w_proxy w) = pid.
Record pm_inv (ctx : proxy_manager_ctx) : Prop := PmInv {
  pi_count : (length (c_wans (pm_config ctx)) <= length (pm_pids ctx))%nat;
  pi_linked : forall i w, pm_wan ctx i = Some w -> linked ctx i w
}.

Lemma pm_wan_put i w ctx j : pm_wan (put_wan i w ctx) j = if decide (i = j) then (fun _ => w) <$> pm_wan ctx i else pm_wan ctx j.
Proof.
  unfold pm_wan, put_wan. cbn. destruct (decide (i = j)) as [<- | Hne]; [|by rewrite list_lookup_insert_ne].
  destruct (c_wans (pm_config ctx) !! i) eqn:E; cbn.
  - rewrite list_lookup_insert_eq; [done|]. by eapply lookup_lt_Some.
  - rewrite list_insert_ge; [done|]. by apply lookup_ge_None.
Qed.
Lemma put_wan_inv i w ctx : pm_inv ctx -> linked ctx i w -> pm_inv (put_wan i w ctx).
Proof.
  intros [Hc Hl] Hw. split; [by cbn; rewrite length_insert|]. intros j v Hj. rewrite pm_wan_put in Hj.
  destruct (decide (i = j)) as [<- | Hne]; [|by apply Hl]. destruct (pm_wan ctx i); [|done]. cbn in Hj. by injection Hj as <-.
Qed.
Lemma put_pid_inv i w pid ctx :
  pm_inv ctx -> is_Some (pm_wan ctx i) -> linked (put_pid i pid ctx) i w -> pm_inv (put_wan i w (put_pid i pid ctx)).
Proof.
  intros [Hc Hl] Hi Hw. split; [by cbn; rewrite !length_insert|]. intros j v Hj. rewrite pm_wan_put in Hj.
  destruct (decide (i = j)) as [<- | Hne].
  - change (pm_wan (put_pid i pid ctx) i) with (pm_wan ctx i) in Hj. destruct (pm_wan ctx i); [|done]. cbn in Hj. by injection Hj as <-.
  - intros Hv. destruct (Hl j v Hj Hv) as (q & Hq & H1 & H2). exists q. split; [|done]. cbn. by rewrite list_lookup_insert_ne.
Qed.
Lemma same_link ctx i w v :
  linked ctx i w -> px_is_connected (w_proxy v) = px_is_connected (w_proxy w) -> px_pid (w_proxy v) = px_pid (w_proxy w) -> linked ctx i v.
Proof. intros H E1 E2 Hv. rewrite E1 in Hv. rewrite E2. by apply H. Qed.
Lemma not_linked ctx i w : px_is_connected (w_proxy w) = false -> linked ctx i w.
Proof. intros H H'. congruence. Qed.

Lemma sync_keeps p :
  let q := proxy_manager_sync_servers p in
  px_is_connected q = px_is_connected p /\ px_pid q = px_pid p /\ px_tun_dev q = px_tun_dev p /\ px_enabled q = px_enabled p.
Proof. unfold proxy_manager_sync_servers. by repeat case_match. Qed.
Lemma synced_keeps w :
  px_is_connected (w_proxy (synced w)) = px_is_connected (w_proxy w) /\ px_pid (w_proxy (synced w)) = px_pid (w_proxy w).
Proof. unfold synced. case_match; [|done]. destruct (sync_keeps (w_proxy w)) as (H1 & H2 & _). done. Qed.
Lemma with_tun_keeps w i :
  px_is_connected (w_proxy (with_tun w i)) = px_is_connected (w_proxy w) /\ px_pid (w_proxy (with_tun w i)) = px_pid (w_proxy w).
Proof. unfold with_tun. by case_match. Qed.

Section Invariant.
Context (as_endpoint : wan_proxy_config_t -> proxy_endpoint_t) (o : os).
Abbreviation any := (fun _ : call => True).

Ltac run := repeat run_step.

Lemma run_kill_recorded (Q : unit -> Prop) i : Q tt -> runs o any Q (kill_recorded i).
Proof. intros HQ. apply runs_unit; [|done]. unfold kill_recorded, read_file. run; done. Qed.
Lemma run_resolve s : runs o any (fun _ => True) (resolve_server s).
Proof. unfold resolve_server, gethostbyname. run; done. Qed.
Lemma run_single_outbound ep tag w i : runs o any (fun _ => True) (write_xray_single_outbound ep tag w i).
Proof. unfold write_xray_single_outbound. run_step; [apply run_resolve|run; done]. Qed.
Lemma run_outbounds eps w wi : forall i, runs o any (fun _ => True) (xray_outbounds i eps w wi).
Proof.
  induction eps as [|ep eps IH]; intros i; cbn [xray_outbounds]; [by run_step|].
  run_step; [run_step; [by run_step|apply run_single_outbound]|]. run_step; [apply IH|by run_step].
Qed.
Lemma run_generate w i n : runs o any (fun _ => True) (proxy_manager_generate_config as_endpoint w i n).
Proof.
  unfold proxy_manager_generate_config, check_binary_available, generate_xray_config_file, generate_proxy_config_file, executable, can_create.
  run; try done; [unfold xray_servers; run; [apply run_outbounds|apply run_single_outbound]|apply run_resolve].
Qed.
Lemma run_wait n dev : runs o any (fun _ => True) (wait_tun n dev).
Proof. induction n as [|n IH]; cbn [wait_tun]; unfold if_nametoindex; run; done. Qed.

Definition same_wans (ctx ctx' : proxy_manager_ctx) : Prop := length (c_wans (pm_config ctx')) = length (c_wans (pm_config ctx)).
Lemma same_wans_put i w ctx : same_wans ctx (put_wan i w ctx).
Proof. unfold same_wans, put_wan. cbn. apply length_insert. Qed.
Lemma same_wans_is_Some i ctx ctx' : same_wans ctx ctx' -> is_Some (pm_wan ctx i) -> is_Some (pm_wan ctx' i).
Proof. unfold same_wans, pm_wan. rewrite !lookup_lt_is_Some. lia. Qed.

Lemma stop_inv ctx i :
  pm_inv ctx -> runs o any (fun r => pm_inv r.2 /\ same_wans ctx r.2) (proxy_manager_stop_wan ctx i).
Proof.
  intros Hi. unfold proxy_manager_stop_wan. destruct (pm_wan ctx i) as [w|] eqn:Hw; [|by apply runs_ret].
  run_step; [by apply run_kill_recorded|]. run_step; [run; done|]. apply runs_ret. cbn [snd]. split.
  - apply put_pid_inv; [done|by rewrite Hw|by apply not_linked].
  - apply (same_wans_put i _ (put_pid i (-1) ctx)).
Qed.

Lemma launch_inv ctx i w x p :
  pm_inv ctx -> is_Some (pm_wan ctx i) ->
  runs o any (fun c => pm_inv c /\ same_wans ctx c) (launch ctx i w x p).
Proof.
  intros Hi Hw. unfold launch, read_file. do 3 (run_step; [by run_step|]).
  destruct (read_pid _) as [pid|] eqn:Hp; [|by apply runs_ret]. run_step; [apply run_wait|]. run_step; [by run_step|].
  apply runs_ret. assert (1 < pid) as Hgt.
  { unfold read_pid in Hp. destruct x2 as [b|]; [|done]. cbn in Hp. destruct (scan_int b) as [q|]; [|done]. cbn in Hp.
    destruct (Z.ltb_spec 1 q); [|done]. by injection Hp as <-. }
  split; [|apply (same_wans_put i _ (put_pid i pid ctx))]. apply put_pid_inv; [done|done|].
  intros _. exists pid. split_and!; [|done|done]. cbn. apply list_lookup_insert_eq. destruct Hi as [Hc _].
  apply lookup_lt_is_Some in Hw. lia.
Qed.

Lemma same_wans_trans a b c : same_wans a b -> same_wans b c -> same_wans a c.
Proof. unfold same_wans. congruence. Qed.
Lemma put_restart_inv i ms ctx : pm_inv ctx -> pm_inv (put_restart i ms ctx).
Proof. by intros [? ?]. Qed.
Lemma put_fails_inv i n ctx : pm_inv ctx -> pm_inv (put_fails i n ctx).
Proof. by intros [? ?]. Qed.

Lemma start_inv ctx i :
  pm_inv ctx -> runs o any (fun r => pm_inv r.2 /\ same_wans ctx r.2) (proxy_manager_start_wan as_endpoint ctx i).
Proof.
  intros Hi. unfold proxy_manager_start_wan. destruct (pm_wan ctx i) as [w|] eqn:Hw; [|by apply runs_ret].
  pose proof (pi_linked _ Hi i w Hw) as Hl. destruct (synced_keeps w) as [S1 S2]. destruct (with_tun_keeps (synced w) i) as [T1 T2].
  assert (pm_inv (put_wan i (synced w) ctx)) as H1 by (apply put_wan_inv; [done|]; by eapply same_link).
  assert (same_wans ctx (put_wan i (synced w) ctx)) as W1 by apply same_wans_put. cbv zeta.
  destruct (not_wanted (synced w)).
  { eapply runs_weaken; [by apply stop_inv|done|]. intros [rc c] [H W]. split; [done|]. by eapply same_wans_trans. }
  set (ctx2 := put_wan i (with_tun (synced w) i) (put_wan i (synced w) ctx)).
  assert (pm_inv ctx2) as H2 by (apply put_wan_inv; [done|]; by eapply same_link; [by eapply same_link|..]).
  assert (same_wans ctx ctx2) as W2 by (eapply same_wans_trans; [exact W1|apply same_wans_put]).
  run_step; [apply run_generate|]. destruct (negb _); [by apply runs_ret|].
  run_step; [unfold check_binary_available, executable; run; done|].
  eapply runs_bind; [by apply stop_inv|]. intros [rc ctx3] [H3 W3]. cbn [snd] in *. unfold clock_gettime.
  run_step; [by run_step|]. eapply runs_bind; [apply launch_inv; [by apply put_restart_inv|]|].
  - apply (same_wans_is_Some i ctx); [by eapply same_wans_trans|by rewrite Hw].
  - intros ctx4 [H4 W4]. apply runs_ret. split; [done|]. eapply same_wans_trans; [exact W2|]. by eapply same_wans_trans.
Qed.

Lemma apply_inv ctx : pm_inv ctx -> runs o any (fun r => pm_inv r.2) (proxy_manager_apply as_endpoint ctx).
Proof.
  intros Hi. unfold proxy_manager_apply. eapply runs_bind; [apply (runs_for_each _ _ pm_inv); [exact Hi|]|intros c Hc; by apply runs_ret].
  intros i c _ Hc. destruct (pm_wan c i) as [w|]; [|by apply runs_ret]. eapply runs_bind; [|intros r Hr; apply runs_ret; exact Hr].
  case_match; (eapply runs_weaken; [by (apply start_inv || apply stop_inv)|done|]); by intros r [? _].
Qed.
Lemma close_inv ctx : pm_inv ctx -> runs o any pm_inv (proxy_manager_close ctx).
Proof.
  intros Hi. apply runs_for_each; [done|]. intros i c _ Hc. eapply runs_bind; [by apply stop_inv|]. intros r [H _]. by apply runs_ret.
Qed.

Lemma upd_wan_inv i f ctx : pm_inv ctx -> (forall w, pm_wan ctx i = Some w -> linked ctx i (f w)) -> pm_inv (upd_wan i f ctx).
Proof. intros Hi Hf. unfold upd_wan. destruct (pm_wan ctx i) as [w|] eqn:E; [|done]. apply put_wan_inv; [done|]. by apply Hf. Qed.

Lemma run_test p : runs o any (fun _ => True) (proxy_manager_test_tunnel p).
Proof.
  unfold proxy_manager_test_tunnel, clock_gettime, probe_target, gethostbyname, fallback, connect. run; done.
Qed.

Lemma dead_inv now ctx i : pm_inv ctx -> runs o any pm_inv (supervise_dead as_endpoint now ctx i).
Proof.
  intros Hi. unfold supervise_dead. eapply (runs_bind _ _ pm_inv).
  - case_match; [|by apply runs_ret]. eapply runs_bind; [apply start_inv; by apply put_restart_inv|]. intros r [Hr _]. by apply runs_ret.
  - intros c Hc. apply runs_ret, upd_wan_inv; [done|]. intros w _. by apply not_linked.
Qed.
Lemma alive_inv now ctx i w :
  pm_inv ctx -> linked ctx i w -> runs o any pm_inv (supervise_alive as_endpoint now ctx i w).
Proof.
  intros Hi Hw. unfold supervise_alive, if_nametoindex. run_step; [by run_step|]. run_step; [run; done|].
  run_step; [apply run_test|]. case_match.
  - apply runs_ret, put_fails_inv, put_wan_inv; [done|]. by eapply same_link.
  - run_step; [by run_step|]. case_match; [|by apply runs_ret, put_fails_inv].
    eapply runs_bind; [apply start_inv, put_restart_inv, put_fails_inv, put_fails_inv, Hi|]. intros r [H' _]. by apply runs_ret.
Qed.
Lemma supervise_inv now i ctx : pm_inv ctx -> runs o any pm_inv (supervise_wan as_endpoint now i ctx).
Proof.
  intros Hi. unfold supervise_wan. destruct (pm_wan ctx i) as [w|] eqn:Hw; [|by apply runs_ret].
  case_match; [by apply runs_ret|]. cbv zeta.
  assert (linked ctx i (bound w)) as Hb.
  { eapply same_link; [by apply (pi_linked _ Hi)|..]; unfold bound; by case_match. }
  assert (pm_inv (put_wan i (bound w) ctx)) as H1 by (by apply put_wan_inv).
  unfold is_alive. run_step; [run; done|]. case_match; [by apply alive_inv|by apply dead_inv].
Qed.
Lemma all_supervised_inv ctx : pm_inv ctx -> runs o any pm_inv (proxy_manager_supervise_tick as_endpoint ctx).
Proof.
  intros Hi. unfold proxy_manager_supervise_tick, clock_gettime. run_step; [by run_step|].
  apply runs_for_each; [done|]. intros i c _. apply supervise_inv.
Qed.
End Invariant.

(** ** Runs of the manager *)

Inductive pm_op :=
  | PmApply
  | PmStart (i : nat)
  | PmStop (i : nat)
  | PmTick.
Definition pm_step (as_endpoint : wan_proxy_config_t -> proxy_endpoint_t) (op : pm_op) (ctx : proxy_manager_ctx) : sys proxy_manager_ctx :=
  match op with
  | PmApply => r ← proxy_manager_apply as_endpoint ctx; mret r.2
  | PmStart i => r ← proxy_manager_start_wan as_endpoint ctx i; mret r.2
  | PmStop i => r ← proxy_manager_stop_wan ctx i; mret r.2
  | PmTick => proxy_manager_supervise_tick as_endpoint ctx
  end.
Fixpoint pm_run (as_endpoint : wan_proxy_config_t -> proxy_endpoint_t) (ops : list pm_op) (ctx : proxy_manager_ctx) : sys proxy_manager_ctx :=
  match ops with
  | [] => mret ctx
  | op :: ops => ctx ← pm_step as_endpoint op ctx; pm_run as_endpoint ops ctx
  end.

Lemma pm_run_inv ae o ops : forall ctx, pm_inv ctx -> runs o (fun _ => True) pm_inv (pm_run ae ops ctx).
Proof.
  induction ops as [|op ops IH]; intros ctx Hi; cbn [pm_run]; [by apply runs_ret|].
  eapply (runs_bind _ _ pm_inv); [|auto]. destruct op as [|i|i|]; cbn [pm_step].
  - eapply runs_bind; [by apply apply_inv|]. intros r H. by apply runs_ret.
  - eapply runs_bind; [by apply start_inv|]. intros r [H _]. by apply runs_ret.
  - eapply runs_bind; [by apply stop_inv|]. intros r [H _]. by apply runs_ret.
  - by apply all_supervised_inv.
Qed.

Definition unconnected (w : wan_config_t) : Prop := px_is_connected (w_proxy w) = false.
Lemma init_inv config :
  (length (c_wans config) <= Z.to_nat MAX_WANS)%nat -> Forall unconnected (c_wans config) -> pm_inv (proxy_manager_init config).
Proof.
  intros Hl Hu. split; [cbn [proxy_manager_init pm_config pm_pids]; by rewrite length_replicate|]. intros i w Hw. apply not_linked.
  unfold pm_wan in Hw. by eapply (Forall_lookup_1 _ _ _ _ Hu) in Hw.
Qed.

(** C15.  Whatever is started, stopped, applied and supervised, and whatever the system answers: for an
    uplink whose proxy counts as connected, the table of the manager and the configuration record the same
    process number, greater than 1.  This is about the two records; whether that process still runs is what the
    next supervision looks at. *)
Theorem connected_pids_agree ae o config ops t i w :
  (length (c_wans config) <= Z.to_nat MAX_WANS)%nat -> Forall unconnected (c_wans config) ->
  let ctx := (pm_run ae ops (proxy_manager_init config) o t).1 in
  pm_wan ctx i = Some w -> px_is_connected (w_proxy w) = true ->
  exists pid, pm_pids ctx !! i = Some pid /\ 1 < pid /\ px_pid (w_proxy w) = pid.
Proof.
  intros Hl Hu ctx Hw. apply (pi_linked ctx); [|done]. subst ctx.
  apply (runs_result _ (fun _ => True)). apply pm_run_inv. by apply init_inv.
Qed.

(** ** A process that answers *)

(** The process of every wanted proxy exists, and so does the interface of every name. *)
Definition all_up (o : os) : Prop := (forall t pid, os_alive o t pid = true) /\ (forall t d, 0 < os_ifindex o t d).
Definition wanted (w : wan_config_t) : bool := w_enabled w && px_enabled (w_proxy w).
Definition processes (ctx : proxy_manager_ctx) : Prop :=
  forall i w, pm_wan ctx i = Some w -> wanted w = true -> 1 < default 0 (pm_pids ctx !! i).
Definition repair (c : call) : Prop :=
  match c with
  | System cmd => exists i w, cmd = chk_route i w
  | Connect _ _ _ => True
  | _ => False
  end.

Section Up.
Context (ae : wan_proxy_config_t -> proxy_endpoint_t) (o : os) (Hup : all_up o).

Lemma run_test_repair p : runs o repair (fun _ => True) (proxy_manager_test_tunnel p).
Proof.
  unfold proxy_manager_test_tunnel, clock_gettime, probe_target, gethostbyname, fallback, connect. repeat run_step; done.
Qed.

(** What a tick may change of an uplink while everything is up. *)
Definition same_proxy (w v : wan_config_t) : Prop :=
  px_is_connected (w_proxy v) = px_is_connected (w_proxy w) /\ px_pid (w_proxy v) = px_pid (w_proxy w) /\ wanted v = wanted w.
#[local] Instance same_proxy_preorder : PreOrder same_proxy.
Proof. split; [done|]. intros a b c (?&?&?) (?&?&?). unfold same_proxy. split_and!; congruence. Qed.
Definition same_run (ctx ctx' : proxy_manager_ctx) : Prop :=
  pm_pids ctx' = pm_pids ctx /\ pm_last_restart_ms ctx' = pm_last_restart_ms ctx
  /\ Forall2 same_proxy (c_wans (pm_config ctx)) (c_wans (pm_config ctx')).

Lemma same_run_put i w v ctx : pm_wan ctx i = Some w -> same_proxy w v -> same_run ctx (put_wan i v ctx).
Proof.
  intros Hw Hv. split_and!; [done|done|]. cbn. rewrite <- (list_insert_id _ _ _ Hw) at 1. apply Forall2_insert; [|done]. apply Forall_Forall2_diag. by apply Forall_true.
Qed.
Lemma same_run_trans a b c : same_run a b -> same_run b c -> same_run a c.
Proof.
  intros (P1 & R1 & W1) (P2 & R2 & W2). split_and!; [congruence|congruence|]. by etransitivity.
Qed.
Lemma same_run_refl a : same_run a a.
Proof. split_and!; [done|done|]. apply Forall_Forall2_diag. by apply Forall_true. Qed.
Lemma same_run_processes a b : same_run a b -> processes a -> processes b.
Proof.
  intros (P & _ & W) H i v Hv Hw. rewrite P. destruct (Forall2_lookup_r _ _ _ _ _ W Hv) as (w & Hi & _ & _ & E).
  apply (H i w); [done|]. congruence.
Qed.

Lemma up_step now i ctx :
  processes ctx -> runs o repair (same_run ctx) (supervise_wan ae now i ctx).
Proof.
  intros Hp. destruct Hup as [Ha Hi]. unfold supervise_wan. destruct (pm_wan ctx i) as [w|] eqn:Hw; [|apply runs_ret, same_run_refl].
  destruct (negb (w_enabled w) || negb (px_enabled (w_proxy w))) eqn:Hn; [apply runs_ret, same_run_refl|]. cbv zeta.
  apply orb_false_iff in Hn as [N1%negb_false_iff N2%negb_false_iff].
  assert (same_proxy w (bound w)) as Hb by (unfold bound, same_proxy, wanted; by case_match).
  pose proof (same_run_put i w (bound w) ctx Hw Hb) as S1. change (pm_pids (put_wan i (bound w) ctx)) with (pm_pids ctx).
  rewrite (proj2 (Z.ltb_lt 1 (default 0 (pm_pids ctx !! i)))) by (apply (Hp i w Hw); unfold wanted; by rewrite N1, N2).
  unfold is_alive. eapply (runs_bind _ _ (fun b => b = true)); [by apply runs_ask|]. intros ? ->.
  unfold supervise_alive, if_nametoindex. eapply (runs_bind _ _ (fun n => 0 < n)); [by apply runs_ask|]. intros n _.
  run_step; [repeat run_step; try done; by eexists _, _|]. run_step; [apply run_test_repair|]. case_match.
  - apply runs_ret. eapply same_run_trans; [exact S1|]. apply (same_run_put i (bound w)); [|done].
    rewrite pm_wan_put, decide_True by done. by rewrite Hw.
  - eapply (runs_bind _ _ (fun n => 0 < n)); [by apply runs_ask|]. intros m Hm.
    rewrite (proj2 (Z.eqb_neq m 0)) by lia. rewrite andb_false_r. cbn [andb]. by apply runs_ret.
Qed.

Lemma up_tick ctx : processes ctx -> runs o repair (same_run ctx) (proxy_manager_supervise_tick ae ctx).
Proof.
  intros Hp. unfold proxy_manager_supervise_tick, clock_gettime. run_step; [by run_step|].
  apply runs_for_each; [apply same_run_refl|]. intros i c _ Hc. eapply runs_weaken; [apply up_step; by eapply same_run_processes|done|].
  intros c'. by apply same_run_trans.
Qed.
End Up.

(** While the processes and interfaces of the proxies exist, a tick sends no signal, starts and
    stops nothing and deletes nothing: it repairs routes and opens connections, and leaves the
    table of processes as it is, whether or not the probes are answered. *)
Theorem live_tunnel_untouched ae o ctx t :
  all_up o -> processes ctx ->
  let r := proxy_manager_supervise_tick ae ctx o t in
  pm_pids r.1 = pm_pids ctx /\ exists u, r.2 = t ++ u /\ Forall repair u.
Proof.
  intros Hup Hp. destruct (up_tick ae o Hup ctx Hp t) as (u & E & Hu & HQ & _). split; [exact HQ|]. by exists u.
Qed.

(** ** One uplink in the loop *)

(** What is known of uplink [i]. *)
Definition same_at (i : nat) (ctx ctx' : proxy_manager_ctx) : Prop :=
  pm_wan ctx' i = pm_wan ctx i /\ pm_pids ctx' !! i = pm_pids ctx !! i
  /\ pm_last_restart_ms ctx' !! i = pm_last_restart_ms ctx !! i.
#[export] Instance same_at_preorder i : PreOrder (same_at i).
Proof. split; [done|]. intros a b c (?&?&?) (?&?&?). unfold same_at. split_and!; congruence. Qed.

Section Frame.
Context (ae : wan_proxy_config_t -> proxy_endpoint_t) (o : os) (i j : nat) (Hij : j <> i).
Abbreviation any := (fun _ : call => True).

Lemma at_put_wan w ctx : same_at i ctx (put_wan j w ctx).
Proof. split; [|done]. by rewrite pm_wan_put, decide_False. Qed.
Lemma at_put_pid p ctx : same_at i ctx (put_pid j p ctx).
Proof. unfold same_at, put_pid; cbn. split_and!; [done|by rewrite list_lookup_insert_ne|done]. Qed.
Lemma at_put_restart p ctx : same_at i ctx (put_restart j p ctx).
Proof. unfold same_at, put_restart; cbn. split_and!; [done|done|by rewrite list_lookup_insert_ne]. Qed.
Lemma at_put_fails p ctx : same_at i ctx (put_fails j p ctx).
Proof. done. Qed.
Lemma at_upd_wan f ctx : same_at i ctx (upd_wan j f ctx).
Proof. unfold upd_wan. case_match; [apply at_put_wan|done]. Qed.
Lemma at_stop ctx : runs o any (fun r => same_at i ctx r.2) (proxy_manager_stop_wan ctx j).
Proof.
  unfold proxy_manager_stop_wan. destruct (pm_wan ctx j) as [w|]; [|by apply runs_ret].
  run_step; [by apply run_kill_recorded|]. run_step; [repeat run_step; done|]. apply runs_ret. cbn [snd].
  etransitivity; [apply at_put_pid|apply at_put_wan].
Qed.
Lemma at_launch ctx w x p : runs o any (same_at i ctx) (launch ctx j w x p).
Proof.
  unfold launch, read_file. do 3 (run_step; [by run_step|]). destruct (read_pid _) as [pid|]; [|by apply runs_ret].
  run_step; [apply run_wait|]. run_step; [by run_step|]. apply runs_ret. etransitivity; [apply at_put_pid|apply at_put_wan].
Qed.
Lemma at_start ctx : runs o any (fun r => same_at i ctx r.2) (proxy_manager_start_wan ae ctx j).
Proof.
  unfold proxy_manager_start_wan. destruct (pm_wan ctx j) as [w|]; [|by apply runs_ret]. cbv zeta.
  case_match; [eapply runs_weaken; [apply at_stop|done|]; intros r Hr; etransitivity; [apply at_put_wan|exact Hr]|].
  run_step; [apply run_generate|]. case_match; [apply runs_ret; cbn [snd]; etransitivity; apply at_put_wan|].
  run_step; [unfold check_binary_available, executable; repeat run_step; done|].
  eapply runs_bind; [apply at_stop|]. intros r Hr. unfold clock_gettime. run_step; [by run_step|].
  eapply runs_bind; [apply at_launch|]. intros c Hc. apply runs_ret. cbn [snd]. etransitivity; [|exact Hc].
  etransitivity; [|apply at_put_restart]. etransitivity; [|exact Hr]. etransitivity; apply at_put_wan.
Qed.
Lemma at_supervise now ctx : runs o any (same_at i ctx) (supervise_wan ae now j ctx).
Proof.
  unfold supervise_wan. destruct (pm_wan ctx j) as [w|]; [|by apply runs_ret]. case_match; [by apply runs_ret|]. cbv zeta.
  unfold is_alive. run_step; [repeat run_step; done|]. case_match.
  - unfold supervise_alive, if_nametoindex. run_step; [by run_step|]. run_step; [repeat run_step; done|]. run_step; [apply run_test|].
    case_match; [apply runs_ret; etransitivity; [apply at_put_wan|]; etransitivity; [apply at_put_wan|apply at_put_fails]|].
    run_step; [by run_step|]. case_match; [|apply runs_ret; etransitivity; [apply at_put_wan|apply at_put_fails]].
    eapply runs_bind; [apply at_start|]. intros r Hr. apply runs_ret. etransitivity; [|exact Hr]. etransitivity; [|apply at_put_restart].
    etransitivity; [apply at_put_wan|done].
  - unfold supervise_dead. eapply (runs_bind _ _ (same_at i ctx)).
    + case_match; [|apply runs_ret, at_put_wan]. eapply runs_bind; [apply at_start|]. intros r Hr. apply runs_ret.
      etransitivity; [|exact Hr]. etransitivity; [apply at_put_wan|apply at_put_restart].
    + intros c Hc. apply runs_ret. etransitivity; [exact Hc|apply at_upd_wan].
Qed.
End Frame.

Lemma for_each_app {S} a b (f : nat -> S -> sys S) s o t :
  for_each (a ++ b) f s o t = for_each b f (for_each a f s o t).1 o (for_each a f s o t).2.
Proof.
  revert s t. induction a as [|i a IH]; intros s t; [done|]. cbn [app for_each]. unfold mbind, sys_bind. destruct (f i s o t). apply IH.
Qed.
Lemma at_others ae o i l now ctx :
  i ∉ l -> runs o (fun _ => True) (same_at i ctx) (for_each l (supervise_wan ae now) ctx).
Proof.
  intros Hi. apply runs_for_each; [done|]. intros j c Hj Hc. eapply runs_weaken; [apply at_supervise; intros E; by rewrite E in Hj|done|].
  intros c' H. by etransitivity.
Qed.

(** In a tick uplink [i] has its turn once; what comes before and after does not concern it. *)
Lemma tick_at ae o i ctx t :
  pm_inv ctx -> is_Some (pm_wan ctx i) ->
  exists ctx1 t1, same_at i ctx ctx1 /\ pm_inv ctx1 /\ extends t t1 /\
    let r := supervise_wan ae (clock_ms (os_clock o t)) i ctx1 o t1 in
    let fin := proxy_manager_supervise_tick ae ctx o t in same_at i r.1 fin.1 /\ extends r.2 fin.2.
Proof.
  intros Hinv Hi%lookup_lt_is_Some. unfold proxy_manager_supervise_tick, clock_gettime, mbind, sys_bind. cbn [ask].
  set (now := clock_ms _). unfold indexes. set (n := length (c_wans (pm_config ctx))) in *.
  assert (E : seq 0 n = seq 0 i ++ i :: seq (S i) (n - S i)).
  { replace n with (i + S (n - S i))%nat at 1 by lia. rewrite seq_app. done. }
  destruct (at_others ae o i (seq 0 i) now ctx ltac:(rewrite elem_of_seq; lia) t) as (u & E1 & _ & S1).
  exists (for_each (seq 0 i) (supervise_wan ae now) ctx o t).1, (t ++ u). split; [exact S1|]. split; [|split; [by exists u|]].
  { apply (runs_result _ (fun _ => True)), runs_for_each; [done|]. intros j c _. apply supervise_inv. }
  rewrite E, for_each_app, E1. cbn [for_each]. unfold mbind, sys_bind.
  destruct (supervise_wan ae now i _ o (t ++ u)) as [c2 t2]. cbn [fst snd].
  destruct (at_others ae o i (seq (S i) (n - S i)) now c2 ltac:(rewrite elem_of_seq; lia) t2) as (v & E2 & _ & S2).
  split; [exact S2|]. by exists v.
Qed.

(** ** A process that died *)

Definition dead (o : os) (ctx : proxy_manager_ctx) (i : nat) : Prop :=
  forall t pid, pm_pids ctx !! i = Some pid -> 1 < pid -> os_alive o t pid = false.

Lemma dead_turn ae o now i ctx w :
  pm_wan ctx i = Some w -> wanted w = true -> dead o ctx i ->
  forall t, supervise_wan ae now i ctx o t = supervise_dead ae now (put_wan i (bound w) ctx) i o t.
Proof.
  intros Hw Hn Hd t. unfold supervise_wan. rewrite Hw. apply andb_true_iff in Hn as [-> ->]. cbn [negb orb]. cbv zeta.
  change (pm_pids (put_wan i (bound w) ctx)) with (pm_pids ctx). unfold mbind, sys_bind.
  destruct (Z.ltb_spec 1 (default 0 (pm_pids ctx !! i))) as [H | H]; [|done].
  destruct (pm_pids ctx !! i) as [pid|] eqn:E; [|cbn in H; lia]. cbn in H |- *. by rewrite (Hd t pid E H).
Qed.

Lemma same_wans_some ctx ctx' i w : same_wans ctx ctx' -> pm_wan ctx i = Some w -> exists v, pm_wan ctx' i = Some v.
Proof. intros H Hw. apply (same_wans_is_Some i ctx ctx' H). by rewrite Hw. Qed.

(** After its turn the proxy does not count as connected, also when its process was started. *)
Lemma dead_disconnected ae o now i ctx w :
  pm_wan ctx i = Some w -> pm_inv ctx ->
  runs o (fun _ => True) (fun c => exists v, pm_wan c i = Some v /\ unconnected v) (supervise_dead ae now ctx i).
Proof.
  intros Hw Hi. unfold supervise_dead. eapply (runs_bind _ _ (same_wans ctx)).
  - case_match; [|by apply runs_ret]. eapply runs_bind; [apply start_inv; by apply put_restart_inv|]. intros r [_ Hr]. by apply runs_ret.
  - intros c Hc. apply runs_ret. destruct (same_wans_some _ _ _ _ Hc Hw) as [v Hv]. unfold upd_wan. rewrite Hv.
    exists (lost v). split; [|done]. rewrite pm_wan_put, decide_True by done. by rewrite Hv.
Qed.

Lemma sleep_runs o n : runs o (fun _ => True) (fun _ => True) (sleep_slices n).
Proof. induction n as [|n IH]; cbn [sleep_slices]; [by apply runs_ret|]. run_step; [by run_step|done]. Qed.
Lemma up_worker ae o n : forall ctx,
  all_up o -> processes ctx -> runs o (fun _ => True) (same_run ctx) (proxy_supervisor_worker ae n ctx).
Proof.
  induction n as [|n IH]; intros ctx Hup Hp; cbn [proxy_supervisor_worker]; [apply runs_ret, same_run_refl|].
  run_step; [apply sleep_runs|]. eapply (runs_bind _ _ (same_run ctx)).
  - eapply runs_weaken; [by apply up_tick|done|done].
  - intros c Hc. eapply runs_weaken; [apply IH; [done|by eapply same_run_processes]|done|]. intros c'. by apply same_run_trans.
Qed.

(** A proxy whose process was found dead is marked as not connected after it was started again, and
    nothing sets the mark again: however long the new process and its interface are up, the proxy
    counts as not connected, and its probes go to the server instead of through the tunnel. *)
Theorem restarted_never_connected ae o1 o2 ctx t1 t2 i w n :
  pm_inv ctx -> pm_wan ctx i = Some w -> wanted w = true -> dead o1 ctx i ->
  let ctx1 := (proxy_manager_supervise_tick ae ctx o1 t1).1 in
  all_up o2 -> processes ctx1 ->
  let ctx2 := (proxy_supervisor_worker ae n ctx1 o2 t2).1 in
  pm_pids ctx2 !! i = pm_pids ctx1 !! i /\ exists v, pm_wan ctx2 i = Some v /\ px_is_connected (w_proxy v) = false.
Proof.
  intros Hi Hw Hn Hd ctx1 Hup Hp ctx2.
  destruct (tick_at ae o1 i ctx t1 Hi ltac:(by rewrite Hw)) as (c & t' & (A1 & A2 & A3) & Hc & _ & S & _). fold ctx1 in S.
  assert (exists v, pm_wan ctx1 i = Some v /\ unconnected v) as (v & Hv & Hu).
  { destruct S as (-> & _ & _). rewrite Hw in A1. assert (dead o1 c i) as Hdc by (intros t pid Hpid; rewrite A2 in Hpid; by apply Hd).
    rewrite (dead_turn ae o1 _ i c w A1 Hn Hdc). apply (runs_result _ (fun _ => True)).
    apply (dead_disconnected ae o1 _ i _ (bound w)); [by rewrite pm_wan_put, decide_True, A1 by done|].
    apply put_wan_inv; [done|]. eapply same_link; [by apply (pi_linked _ Hc)|..]; unfold bound; by case_match. }
  destruct (up_worker ae o2 n ctx1 Hup Hp t2) as (u & _ & _ & P & _ & W). fold ctx2 in P, W. split; [by rewrite P|].
  destruct (Forall2_lookup_l _ _ _ _ _ W Hv) as (v' & Hv' & E & _). exists v'. split; [done|]. congruence.
Qed.

Definition launches (i : nat) (c : call) : Prop := exists x path, c = System (launch_cmd x path i).

Lemma generate_succeeds ae o w i n :
  (forall t p, os_create o t p = true) -> runs o (fun _ => True) (fun r => r.1 = 0) (proxy_manager_generate_config ae w i n).
Proof.
  intros Hc. unfold proxy_manager_generate_config. run_step; [unfold check_binary_available, executable; repeat run_step; done|].
  case_match; unfold generate_xray_config_file, generate_proxy_config_file, can_create; (run_step; [by run_step|]);
    (eapply (runs_bind _ _ (fun b => b = true)); [by apply runs_ask|]); intros ? ->.
  - run_step; [unfold xray_servers; case_match; [apply run_outbounds|apply run_single_outbound]|]. run_step; [by run_step|by apply runs_ret].
  - run_step; [apply run_resolve|]. run_step; [by run_step|by apply runs_ret].
Qed.
Lemma launch_launches o ctx i w x p : emits o (launches i) (launch ctx i w x p).
Proof.
  unfold launch. eapply (emits_first _ _ (fun _ => True)); [apply emits_call; by eexists _, _|]. intros _.
  unfold read_file. do 2 (run_step; [by run_step|]). case_match; [|by apply runs_ret].
  run_step; [apply run_wait|]. run_step; [by run_step|by apply runs_ret].
Qed.
Lemma start_launches ae o ctx i w :
  (forall t p, os_create o t p = true) -> pm_inv ctx -> pm_wan ctx i = Some w -> not_wanted (synced w) = false ->
  emits o (launches i) (proxy_manager_start_wan ae ctx i).
Proof.
  intros Hc Hi Hw Hn. unfold proxy_manager_start_wan. rewrite Hw. cbv zeta. rewrite Hn.
  eapply emits_later; [by apply generate_succeeds|]. intros [rc path] Hrc. cbn in Hrc. subst rc. cbn [fst snd negb Z.eqb].
  eapply (emits_later _ _ (fun _ => True) (fun _ => True)); [unfold check_binary_available, executable; repeat run_step; done|]. intros b _.
  eapply (emits_later _ _ (fun _ => True) (fun _ => True)).
  - eapply runs_weaken; [apply (at_stop o (S i) i ltac:(lia))|done|done].
  - intros r _. unfold clock_gettime. eapply (emits_later _ _ (fun _ => True) (fun _ => True)); [by run_step|]. intros ts _.
    eapply (emits_first _ _ (fun _ => True)); [apply launch_launches|]. intros c. by apply runs_ret.
Qed.

(** A daemon that died is started again at the next tick that comes five seconds or more after its
    last start, when its file can be written. *)
Theorem dead_daemon_restarted ae o ctx t i w :
  pm_inv ctx -> pm_wan ctx i = Some w -> wanted w = true -> not_wanted (synced (bound w)) = false ->
  dead o ctx i -> 5000 <= since_restart ctx i (clock_ms (os_clock o t)) -> (forall t p, os_create o t p = true) ->
  exists u, (proxy_manager_supervise_tick ae ctx o t).2 = t ++ u /\ Exists (launches i) u.
Proof.
  intros Hi Hw Hn Hs Hd Ht Hc. destruct (tick_at ae o i ctx t Hi ltac:(by rewrite Hw)) as (c & t1 & (A1 & A2 & A3) & Hic & [u ->] & _ & [v ->]).
  rewrite Hw in A1. assert (dead o c i) as Hdc by (intros t' pid Hpid; rewrite A2 in Hpid; by apply Hd).
  rewrite (dead_turn ae o _ i c w A1 Hn Hdc). set (now := clock_ms _) in *.
  assert (emits o (launches i) (supervise_dead ae now (put_wan i (bound w) c) i)) as He.
  { unfold supervise_dead. eapply (emits_first _ _ (fun _ => True)); [|intros x; by apply runs_ret].
    unfold since_restart in *. cbn [put_wan pm_last_restart_ms]. rewrite A3. rewrite (proj2 (Z.leb_le _ _) Ht).
    eapply (emits_first _ _ (fun _ => True)); [|intros x; by apply runs_ret]. apply (start_launches ae o _ i (bound w)); try done.
    - apply put_restart_inv, put_wan_inv; [done|]. eapply same_link; [by apply (pi_linked _ Hic)|..]; unfold bound; by case_match.
    - unfold pm_wan. cbn. apply list_lookup_insert_eq. by eapply lookup_lt_Some. }
  destruct (He (t ++ u)) as (x & -> & Hx). exists (u ++ x ++ v). split; [by rewrite <- !app_assoc|].
  apply Exists_app. right. apply Exists_app. by left.
Qed.

(** Before that, its turn makes no call at all and only marks the uplink as lost. *)
Theorem dead_daemon_backoff ae o ctx t i w now :
  pm_wan ctx i = Some w -> wanted w = true -> dead o ctx i -> since_restart ctx i now < 5000 ->
  exists ctx', supervise_wan ae now i ctx o t = (ctx', t) /\ pm_wan ctx' i = Some (lost (bound w)) /\ pm_pids ctx' = pm_pids ctx.
Proof.
  intros Hw Hn Hd Ht. rewrite (dead_turn ae o now i ctx w Hw Hn Hd). unfold supervise_dead.
  change (since_restart (put_wan i (bound w) ctx) i now) with (since_restart ctx i now). rewrite (proj2 (Z.leb_gt _ _) Ht).
  unfold mbind, sys_bind, mret, sys_ret. eexists. split; [reflexivity|].
  assert (pm_wan (put_wan i (bound w) ctx) i = Some (bound w)) as E by (by rewrite pm_wan_put, decide_True, Hw by done).
  unfold upd_wan. rewrite E. split; [|done]. rewrite pm_wan_put, decide_True by done. by rewrite E.
Qed.

(** ** Outbounds are pinned to the uplink *)

(** The values of a key in a text. *)
Fixpoint values_of (k : cstring) (l : list tok) : list tok :=
  match l with
  | Key s :: ((Lit _ :: v :: _) as l') => if bool_decide (s = k) then v :: values_of k l' else values_of k l'
  | _ :: l => values_of k l
  | [] => []
  end.

Ltac flat_tokens :=
  unfold jarr, jobj, jblock, pinning, xray_user, fld, ln, lit, jstr, jnum, jbool;
  repeat match goal with |- context [dec ?x] => generalize (dec x); intros ? end.

Lemma settings_values ep resolved k rest :
  k = bytes_of_string "interface" \/ k = bytes_of_string "mark" -> values_of k (xray_settings ep resolved ++ rest) = values_of k rest.
Proof.
  intros Hk. unfold xray_settings. cbv zeta. generalize (or_else_text (ep_proto_str ep) "vless"). intros proto.
  destruct (str_eq proto "vless"), (str_eq proto "vmess"), (str_eq proto "trojan"), (str_eq proto "shadowsocks"), Hk as [-> | ->];
    flat_tokens; reflexivity.
Qed.
Lemma outbound_pinned ep tag w wi o t rest :
  let out := (write_xray_single_outbound ep tag w wi o t).1 in
  values_of "interface" (out ++ rest) = Str (w_name w) :: values_of "interface" rest
  /\ values_of "mark" (out ++ rest) = Lit (dec (fwmark wi)) :: values_of "mark" rest.
Proof.
  cbv zeta. unfold write_xray_single_outbound, mbind, sys_bind. destruct (resolve_server (ep_server ep) o t) as [resolved t'].
  cbn [fst mret sys_ret]. pose proof (settings_values ep resolved) as HS. revert HS. generalize (xray_settings ep resolved). intros st HS.
  unfold xray_stream, sockopt. generalize (or_else_text (ep_proto_str ep) "vless").
  generalize (uses_tls (ep_security ep) (ep_sni ep) (ep_port ep)). generalize (xray_network ep).
  intros net tls proto. cbv zeta. destruct tls, (str_eq net "ws"), (empty (or_else_text (ep_host ep) (ep_sni ep))); flat_tokens;
    cbn [app]; rewrite <- !app_assoc; cbn [app]; split;
    lazymatch goal with
    | |- values_of ?k ?l = _ =>
        lazymatch l with
        | context [st ++ ?T] => transitivity (values_of k (st ++ T)); [destruct st; reflexivity|rewrite HS by auto; reflexivity]
        end
    end.
Qed.

Definition named_servers (eps : list proxy_endpoint_t) : nat := length (filter (fun ep => ep_server ep <> []) eps).
Lemma outbounds_pinned w wi o eps : forall i t rest,
  let out := (xray_outbounds i eps w wi o t).1 in
  values_of "interface" (out ++ rest) = replicate (named_servers eps) (Str (w_name w)) ++ values_of "interface" rest
  /\ values_of "mark" (out ++ rest) = replicate (named_servers eps) (Lit (dec (fwmark wi))) ++ values_of "mark" rest.
Proof.
  unfold named_servers. induction eps as [|ep eps IH]; intros i t rest; [done|]. cbn [xray_outbounds]. cbv zeta. unfold mbind, sys_bind.
  rewrite filter_cons. unfold empty. destruct (decide (ep_server ep = [])) as [E | E].
  - rewrite bool_decide_true, decide_False by (done || tauto). cbn [mret sys_ret].
    specialize (IH (i + 1) t rest). destruct (xray_outbounds (i + 1) eps w wi o t). exact IH.
  - rewrite bool_decide_false, decide_True by done.
    pose proof (outbound_pinned ep (snprintf 32 "proxy-out-%d" [FN i]) w wi o t) as Ho. cbv zeta in Ho.
    destruct (write_xray_single_outbound ep _ w wi o t) as [a t1]. cbn [fst] in Ho.
    specialize (IH (i + 1) t1 rest). destruct (xray_outbounds (i + 1) eps w wi o t1) as [b t2]. cbn [fst mret sys_ret] in *.
    rewrite <- app_assoc. destruct (Ho (b ++ rest)) as [-> ->]. destruct IH as [-> ->]. done.
Qed.

(** How many outbounds the file of Xray has. *)
Definition outbound_count (p : wan_proxy_config_t) : nat :=
  if 1 <? active_servers p then named_servers (px_servers p) else 1%nat.

(** What stands before and after the outbounds of the servers. *)
Definition xray_head (w : wan_config_t) (wi : Z) : list tok :=
  [ln "{"] ++ jblock "  " "log" (fld "    " "loglevel" (jstr "warning") "") "," ++
  jarr "  " "inbounds"
    (jobj "    "
      (fld "      " "tag" (jstr "tun-in") "," ++
       fld "      " "protocol" (jstr "tun") "," ++
       jblock "      " "settings"
         (fld "        " "name" (jstr (tun_name w wi)) "," ++
          fld "        " "mtu" (jnum 1420) "," ++
          jarr "        " "gateway" [lit "          "; Str (tun_address wi); ln EmptyString] "") "") "") "," ++
  [lit "  "; Key "outbounds"; ln ": ["].
Definition xray_tail (w : wan_config_t) (wi : Z) : list tok :=
  jobj "    "
    (fld "      " "tag" (jstr "direct") "," ++
     fld "      " "protocol" (jstr "freedom") "," ++
     jblock "      " "streamSettings" (sockopt w wi) "") "" ++ [ln "  ],"] ++
  xray_routing (w_proxy w) (1 <? active_servers (w_proxy w)) ++ [ln "}"].
Lemma xray_tokens_eq w wi outs : xray_tokens w wi outs = xray_head w wi ++ outs ++ xray_tail w wi.
Proof.
  unfold xray_tokens, xray_head, xray_tail. rewrite <- !app_assoc. do 3 f_equal.
  change (jarr "  " "outbounds" ?b ",") with ([lit "  "; Key "outbounds"; ln ": ["] ++ b ++ [ln "  ],"]).
  by rewrite <- !app_assoc.
Qed.
Lemma xray_head_values w wi rest :
  values_of "interface" (xray_head w wi ++ rest) = values_of "interface" rest
  /\ values_of "mark" (xray_head w wi ++ rest) = values_of "mark" rest.
Proof. unfold xray_head. generalize (tun_name w wi) (tun_address wi). intros tn ta. destruct rest; split; flat_tokens; reflexivity. Qed.
Lemma xray_tail_values w wi :
  values_of "interface" (xray_tail w wi) = [Str (w_name w)] /\ values_of "mark" (xray_tail w wi) = [Lit (dec (fwmark wi))].
Proof.
  unfold xray_tail, xray_routing, sockopt, rule_tun, rule_direct. generalize (xray_strategy (px_strategy (w_proxy w))). intros st.
  destruct (1 <? active_servers (w_proxy w)); split; flat_tokens; reflexivity.
Qed.

(** Every outbound of the generated files, that of the proxy, of each of its servers and the direct
    one, carries the mark and the interface of the uplink, and nothing else names a mark or an
    interface to bind to. *)
Theorem outbounds_pinned_to_uplink ae w wi o t resolved :
  let x := xray_tokens w wi (xray_servers ae w wi o t).1 in
  let n := S (outbound_count (w_proxy w)) in
  values_of "interface" x = replicate n (Str (w_name w)) /\ values_of "mark" x = replicate n (Lit (dec (fwmark wi)))
  /\ values_of "bind_interface" (singbox_tokens w wi resolved) = [Str (w_name w); Str (w_name w)]
  /\ values_of "routing_mark" (singbox_tokens w wi resolved) = [Lit (dec (fwmark wi)); Lit (dec (fwmark wi))].
Proof.
  cbv zeta. rewrite xray_tokens_eq. destruct (xray_head_values w wi ((xray_servers ae w wi o t).1 ++ xray_tail w wi)) as [-> ->].
  destruct (xray_tail_values w wi) as [T1 T2]. rewrite !replicate_S_end. unfold xray_servers, outbound_count.
  split; [|split].
  - destruct (1 <? _).
    + destruct (outbounds_pinned w wi o (px_servers (w_proxy w)) 0 t (xray_tail w wi)) as [-> _]. by rewrite T1.
    + rewrite (proj1 (outbound_pinned _ _ _ _ _ _ _)). by rewrite T1.
  - destruct (1 <? _).
    + destruct (outbounds_pinned w wi o (px_servers (w_proxy w)) 0 t (xray_tail w wi)) as [_ ->]. by rewrite T2.
    + rewrite (proj2 (outbound_pinned _ _ _ _ _ _ _)). by rewrite T2.
  - unfold singbox_tokens, singbox_inbound, singbox_tls, singbox_transport. generalize (tun_name w wi) (tun_address wi). intros tn ta.
    destruct (uses_tls _ _ _), (strcase_eq (px_transport (w_proxy w)) "ws" || negb (empty (px_path (w_proxy w)))),
      (negb (empty (px_host (w_proxy w))) || negb (empty (px_sni (w_proxy w)))); flat_tokens; split; reflexivity.
Qed.

Module ProxyDemo.

Definition proxy : wan_proxy_config_t :=
  WanProxyConfig true PROXY_STRATEGY_FAILOVER (replicate (Z.to_nat MAX_PROXY_SERVERS) zero_endpoint) 0 PROXY_PROTO_VLESS "vless" "203.0.113.7" 443
    "0f0e" "portal.example" [] "/ws" "ws" "tls" "none" [] [] [] 0 0 false 0.
Definition uplink : wan_config_t :=
  WanConfig 1 "eth1" "Cell" WAN_TYPE_DHCP 0 0 0 [0; 0] [] [] [] [] 1440 [] [] [] [] 0 0 [] 101 50 50 100 20 WAN_STATE_HEALTHY true
    [] 0 zero_metrics 0 0 0 0 [] [] 1500 1500 [] proxy.
Definition config : fluxwan_config_t := set_c_wans [uplink] zero_config.
Definition ae (p : wan_proxy_config_t) : proxy_endpoint_t := zero_endpoint.

(** Everything works, and the file of the process number holds 4242; or the process is dead. *)
Definition machine (alive : bool) : os :=
  Os (fun _ _ => Some (bytes_of_string "4242" ++ [10])) (fun _ _ => true) (fun _ _ => true) (fun _ _ => 3) (fun _ _ => alive)
    (fun _ _ => None) (fun _ => (100, 0)) (fun _ => 0) (fun _ _ => None) (fun _ _ => []) (fun _ => true) (fun _ _ _ _ => false)
    (fun _ _ => None) (fun _ _ => []) (fun _ _ => None) (fun _ _ => None) (fun _ => true) (fun _ _ => 0) (fun _ _ => true) (fun _ => 4242) (fun _ _ => false).

Abbreviation init := (proxy_manager_init config).
Abbreviation started := ((pm_run ae [PmStart 0] init (machine true) []).1).

Lemma config_small : (length (c_wans config) <= Z.to_nat MAX_WANS)%nat.
Proof. apply Nat.leb_le. reflexivity. Qed.
Lemma config_unconnected : Forall unconnected (c_wans config).
Proof. repeat constructor. Qed.
Lemma one_wan ctx : length (c_wans (pm_config ctx)) = 1%nat ->
  (forall w, pm_wan ctx 0 = Some w -> 1 < default 0 (pm_pids ctx !! 0%nat)) -> processes ctx.
Proof.
  intros Hl H i w Hw _. assert (i = 0)%nat as -> by (unfold pm_wan in Hw; apply lookup_lt_Some in Hw; lia). by eapply H.
Qed.

Lemma connected_pids_agree_witness :
  exists pid, pm_pids started !! 0%nat = Some pid /\ 1 < pid /\ (px_pid ∘ w_proxy) <$> pm_wan started 0 = Some pid.
Proof.
  destruct (pm_wan started 0) as [w|] eqn:E; [|vm_compute in E; discriminate].
  assert (px_is_connected (w_proxy w) = true) as Hc by (vm_compute in E; injection E as <-; reflexivity).
  destruct (connected_pids_agree ae (machine true) config [PmStart 0] [] 0 w config_small config_unconnected E Hc) as (pid & H1 & H2 & H3).
  exists pid. split; [exact H1|]. split; [exact H2|]. cbn. by rewrite <- H3.
Defined.

Lemma live_tunnel_untouched_witness :
  let r := proxy_manager_supervise_tick ae started (machine true) [] in
  pm_pids r.1 = pm_pids started /\ exists u, r.2 = [] ++ u /\ Forall repair u.
Proof.
  apply (live_tunnel_untouched ae (machine true) started []); [by split|].
  apply one_wan; [reflexivity|]. intros w _. vm_compute. reflexivity.
Defined.

Lemma started_inv : pm_inv started.
Proof. apply (runs_result _ (fun _ => True)), pm_run_inv, init_inv; [exact config_small|exact config_unconnected]. Qed.

Lemma restarted_never_connected_witness :
  let ctx1 := (proxy_manager_supervise_tick ae started (machine false) []).1 in
  let ctx2 := (proxy_supervisor_worker ae 3 ctx1 (machine true) []).1 in
  pm_pids ctx1 !! 0%nat = Some 4242
  /\ pm_pids ctx2 !! 0%nat = pm_pids ctx1 !! 0%nat /\ exists v, pm_wan ctx2 0 = Some v /\ px_is_connected (w_proxy v) = false.
Proof.
  split; [vm_compute; reflexivity|]. destruct (pm_wan started 0) as [w|] eqn:E; [|vm_compute in E; discriminate].
  apply (restarted_never_connected ae (machine false) (machine true) started [] [] 0 w 3);
    [exact started_inv|exact E|vm_compute in E; injection E as <-; reflexivity|done|by split|].
  apply one_wan; [vm_compute; reflexivity|]. intros v _. vm_compute. reflexivity.
Defined.

Lemma dead_daemon_restarted_witness :
  exists u, (proxy_manager_supervise_tick ae init (machine false) []).2 = [] ++ u /\ Exists (launches 0) u.
Proof.
  apply (dead_daemon_restarted ae (machine false) init [] 0 uplink);
    [apply init_inv; [exact config_small|exact config_unconnected]|reflexivity|reflexivity|vm_compute; reflexivity|done|
     vm_compute; discriminate|done].
Defined.

Lemma dead_daemon_backoff_witness :
  exists ctx', supervise_wan ae 4000 0 init (machine false) [] = (ctx', []) /\ pm_wan ctx' 0 = Some (lost (bound uplink)) /\ pm_pids ctx' = pm_pids init.
Proof.
  apply (dead_daemon_backoff ae (machine false) init [] 0 uplink 4000); [reflexivity|reflexivity|done|vm_compute; reflexivity].
Defined.

End ProxyDemo.
