(* ===== verification/PppoeServer.v ===== *)
(** * The PPPoE server

    Subscriber accounts and speed profiles, the files that [pppd] and the RADIUS client read, the
    sessions and the removal of those that are not allowed any more ([pppoe_server.c]). *)

From S2P Require Import Prelude Fluxwan Ipv4 CLib Json JsonText ProxyUri System.

Record session_history_t := SessionHistory {
  sh_ifname : cstring;
  sh_last_rx_bytes : Z;
  sh_last_tx_bytes : Z;
  sh_last_time_ms : Z
}.

(** The context, with the time of the last check, which is a static variable of the tick. *)
Record pppoe_server_ctx := PppoeServerCtx {
  psc_config : fluxwan_config_t;
  psc_history : list session_history_t;
  psc_last_check_ms : Z
}.
Definition psc_server (ctx : pppoe_server_ctx) : pppoe_server_config_t := c_pppoe_server (psc_config ctx).
Definition with_server (f : pppoe_server_config_t -> pppoe_server_config_t) (ctx : pppoe_server_ctx) : pppoe_server_ctx :=
  PppoeServerCtx (set_c_pppoe_server (f (psc_server ctx)) (psc_config ctx)) (psc_history ctx) (psc_last_check_ms ctx).
Definition with_users (us : list pppoe_user_t) : pppoe_server_ctx -> pppoe_server_ctx := with_server (set_ps_users us).
Definition with_profiles (ps : list pppoe_profile_t) : pppoe_server_ctx -> pppoe_server_ctx := with_server (set_ps_profiles ps).

(** A live session. *)
Record pppoe_active_session_t := PppoeActiveSession {
  pas_ifname : cstring;
  pas_username : cstring;
  pas_ip : cstring;
  pas_mac : cstring;
  pas_connect_time : Z;
  pas_uptime_sec : Z;
  pas_rx_bytes : Z;
  pas_tx_bytes : Z;
  pas_rx_packets : Z;
  pas_tx_packets : Z;
  pas_rx_rate_kbps : Z;
  pas_tx_rate_kbps : Z;
  pas_profile : cstring
}.

(** ** Start-up *)

Definition or_number (n d : Z) : Z := if n =? 0 then d else n.

Definition init_profiles : list pppoe_profile_t :=
  [PppoeProfile "Economy_10M" 10240 5120 30 "10 Mbps Down / 5 Mbps Up (30 Days)";
   PppoeProfile "Standard_25M" 25600 10240 30 "25 Mbps Down / 10 Mbps Up (30 Days)";
   PppoeProfile "Ultra_50M" 51200 20480 30 "50 Mbps Down / 20 Mbps Up (30 Days)";
   PppoeProfile "Unlimited" 0 0 0 "Max Line Speed (No Shaping / Unlimited)"].
(** The fields that the code leaves alone are those of a cleared configuration. *)
Definition init_users (now : Z) : list pppoe_user_t :=
  [PppoeUser "fluxwan" "123456" "Standard_25M" [] "Default Broadband User" (u64 now) 0 true].

Definition pppoe_server_init (config : fluxwan_config_t) : sys pppoe_server_ctx :=
  now ← time_now;
  let p := c_pppoe_server config in
  let p := PppoeServerConfig (ps_enabled p) (or_else_text (ps_lan_mode p) "dual")
    (or_else_text (ps_interface p) (safe_str_copy (or_else_text (lan_name (c_lan config)) "eth0") MAX_IFNAME_LEN))
    (or_else_text (ps_service_name p) "FluxWAN-Broadband") (or_else_text (ps_ac_name p) "FluxWAN-BRAS")
    (or_else_text (ps_local_ip p) "10.100.0.1") (or_else_text (ps_pool_start p) "10.100.0.2")
    (or_else_text (ps_pool_end p) "10.100.0.254") (or_number (ps_pool_count p) 250) (or_else_text (ps_dns1 p) "1.1.1.1")
    (or_else_text (ps_dns2 p) "8.8.8.8") (or_number (ps_mru p) 1492) (or_number (ps_mss p) 1452) (ps_radius p)
    (match ps_profiles p with [] => init_profiles | l => l end) (match ps_users p with [] => init_users now | l => l end) in
  mret (PppoeServerCtx (set_c_pppoe_server p config) [] 0).

(** ** Files *)

Definition positive_or (n d : Z) : Z := if 0 <? n then n else d.
Definition is_radsec (r : radius_config_t) : bool := match rad_proto r with RADIUS_PROTO_RADSEC => true | _ => false end.

(** A file is written when it can be opened. *)
Definition write_if_open (path : cstring) (content : cstring) : sys bool :=
  ok ← can_create path;
  if (ok : bool) then do_call (WriteFile path content);; mret true else mret false.

Definition options_file : cstring := "/etc/ppp/pppoe-server-options".
Definition options_text (cfg : pppoe_server_config_t) : cstring :=
  lines
    ([bytes_of_string "# FluxWAN Broadband Remote Access Server Options"; bytes_of_string "# Generated dynamically by FluxWAN Core"; [];
      bytes_of_string "auth"; bytes_of_string "+chap"; bytes_of_string "+pap"; bytes_of_string "lcp-echo-interval 10";
      bytes_of_string "lcp-echo-failure 3";
      sprintf "ms-dns %s" [FS (or_else_text (ps_dns1 cfg) "1.1.1.1")];
      sprintf "ms-dns %s" [FS (or_else_text (ps_dns2 cfg) "8.8.8.8")];
      bytes_of_string "default-asyncmap"; bytes_of_string "nopcomp"; bytes_of_string "noaccomp"; bytes_of_string "nodeflate";
      bytes_of_string "novj"; bytes_of_string "nobsdcomp"; bytes_of_string "ktune";
      sprintf "mru %u" [FN (positive_or (ps_mru cfg) 1492)];
      sprintf "mtu %u" [FN (positive_or (ps_mru cfg) 1492)]] ++
     (if rad_enabled (ps_radius cfg) then
        [[]; bytes_of_string "# RADIUS / RadSec AAA Integration"; bytes_of_string "plugin radius.so"; bytes_of_string "plugin radattr.so";
         bytes_of_string "radius-config-file /etc/ppp/radius/radius.conf"]
      else [])).

Definition write_pppoe_server_options (cfg : pppoe_server_config_t) : sys Z :=
  ok ← write_if_open options_file (options_text cfg);
  mret (if (ok : bool) then 0 else -1).

(** Fields separated by tabs, which are written as circumflexes here. *)
Definition tabs (s : string) : cstring := (fun c => if c =? 94 then 9 else c) <$> bytes_of_string s.

Definition dictionary_text : cstring :=
  lines (tabs <$>
    ["# FluxWAN Carrier RADIUS / RadSec Dictionary";
     "ATTRIBUTE^User-Name^1^string"; "ATTRIBUTE^User-Password^2^string"; "ATTRIBUTE^CHAP-Password^3^string";
     "ATTRIBUTE^NAS-IP-Address^4^ipaddr"; "ATTRIBUTE^NAS-Port^5^integer"; "ATTRIBUTE^Service-Type^6^integer";
     "ATTRIBUTE^Framed-Protocol^7^integer"; "ATTRIBUTE^Framed-IP-Address^8^ipaddr"; "ATTRIBUTE^Framed-IP-Netmask^9^ipaddr";
     "ATTRIBUTE^Filter-Id^11^string"; "ATTRIBUTE^Framed-MTU^12^integer"; "ATTRIBUTE^Reply-Message^18^string";
     "ATTRIBUTE^Session-Timeout^27^integer"; "ATTRIBUTE^Idle-Timeout^28^integer"; "ATTRIBUTE^Called-Station-Id^30^string";
     "ATTRIBUTE^Calling-Station-Id^31^string"; "ATTRIBUTE^NAS-Identifier^32^string"; "ATTRIBUTE^Acct-Status-Type^40^integer";
     "ATTRIBUTE^Acct-Delay-Time^41^integer"; "ATTRIBUTE^Acct-Input-Octets^42^integer"; "ATTRIBUTE^Acct-Output-Octets^43^integer";
     "ATTRIBUTE^Acct-Session-Id^44^string"; "ATTRIBUTE^Acct-Authentic^45^integer"; "ATTRIBUTE^Acct-Session-Time^46^integer";
     "ATTRIBUTE^Acct-Input-Packets^47^integer"; "ATTRIBUTE^Acct-Output-Packets^48^integer"; "ATTRIBUTE^Acct-Terminate-Cause^49^integer";
     "ATTRIBUTE^Acct-Interim-Interval^85^integer"; "ATTRIBUTE^NAS-Port-Type^61^integer"; EmptyString;
     "VALUE^Service-Type^Framed-User^2"; "VALUE^Framed-Protocol^PPP^1"; EmptyString;
     "# MikroTik Vendor Dictionary (VSA 14988)"; "VENDOR^MikroTik^14988";
     "ATTRIBUTE^Mikrotik-Recv-Limit^1^integer^MikroTik"; "ATTRIBUTE^Mikrotik-Xmit-Limit^2^integer^MikroTik";
     "ATTRIBUTE^Mikrotik-Group^3^string^MikroTik"; "ATTRIBUTE^Mikrotik-Wireless-Forward^4^integer^MikroTik";
     "ATTRIBUTE^Mikrotik-Rate-Limit^8^string^MikroTik"; "ATTRIBUTE^Mikrotik-Realm^9^string^MikroTik";
     "ATTRIBUTE^Mikrotik-Host-IP^10^ipaddr^MikroTik"]%string).

Definition servers_text (r : radius_config_t) : cstring :=
  let sec := or_else_text (rad_secret r) (if is_radsec r then bytes_of_string "radsec" else bytes_of_string "testing123") in
  lines [bytes_of_string "# Server Secret"; sprintf "%s %s" [FS (rad_server r); FS sec]; sprintf "127.0.0.1 %s" [FS sec];
         sprintf "localhost %s" [FS sec]].

Definition radius_text (r : radius_config_t) : cstring :=
  lines
    ([bytes_of_string "# FluxWAN RADIUS Client Configuration"] ++
     (if is_radsec r then [bytes_of_string "authserver 127.0.0.1:11812"; bytes_of_string "acctserver 127.0.0.1:11813"]
      else [sprintf "authserver %s:%u" [FS (rad_server r); FN (positive_or (rad_auth_port r) 1812)];
            sprintf "acctserver %s:%u" [FS (rad_server r); FN (positive_or (rad_acct_port r) 1813)]]) ++
     [bytes_of_string "servers /etc/ppp/radius/servers"; bytes_of_string "dictionary /etc/ppp/radius/dictionary";
      bytes_of_string "default_realm"; sprintf "radius_timeout %u" [FN (if is_radsec r then 10 else 5)];
      bytes_of_string "radius_retries 3"; sprintf "nas_identifier %s" [FS (or_else_text (rad_nas_identifier r) "FluxWAN-BRAS-01")]]).

Definition file_option (opt : string) (path : cstring) : list cstring :=
  if empty path then [] else [sprintf (dq opt) [FS path; FS path]].
Definition bridge_text (r : radius_config_t) : cstring :=
  lines
    ([bytes_of_string "#!/bin/sh"; bytes_of_string "# FluxWAN Automated RadSec RFC 6614 TLS Relay Bridge";
      sprintf (dq "SERVER=`%s`") [FS (rad_server r)]; sprintf (dq "PORT=`%u`") [FN (positive_or (rad_auth_port r) 2083)];
      sprintf (dq "SNI=`%s`") [FS (or_else_text (rad_sni_hostname r) (rad_server r))];
      dq "CA_OPT=``"] ++ file_option "[ -f `%s` ] && CA_OPT=`-CAfile %s`" (rad_ca_cert_path r) ++
     [dq "CERT_OPT=``"] ++ file_option "[ -f `%s` ] && CERT_OPT=`-cert %s`" (rad_client_cert_path r) ++
     [dq "KEY_OPT=``"] ++ file_option "[ -f `%s` ] && KEY_OPT=`-key %s`" (rad_client_key_path r) ++
     [bytes_of_string "if which radsecproxy >/dev/null 2>&1; then"; bytes_of_string "  cat << 'RSEOF' > /etc/radsecproxy.conf";
      bytes_of_string "ListenUDP 127.0.0.1:11812"; bytes_of_string "ListenUDP 127.0.0.1:11813"; bytes_of_string "Server upstream_radsec {";
      bytes_of_string "  type TLS"; bytes_of_string "  host $SERVER:$PORT";
      sprintf (dq "  secret `%s`") [FS (or_else_text (rad_secret r) "radsec")]; bytes_of_string "}"; bytes_of_string "RSEOF";
      bytes_of_string "  exec radsecproxy -c /etc/radsecproxy.conf -f"; bytes_of_string "elif which socat >/dev/null 2>&1; then";
      bytes_of_string
        "  exec socat UDP-LISTEN:11812,fork,reuseaddr OPENSSL:$SERVER:$PORT,servername=$SNI $CA_OPT $CERT_OPT $KEY_OPT";
      bytes_of_string "fi"]).

Definition setup_radius_config (cfg : pppoe_server_config_t) : sys unit :=
  let r := ps_radius cfg in
  if negb (rad_enabled r) || empty (rad_server r) then mret tt else
  safe_system "mkdir -p /etc/ppp/radius /run/fluxwan/radius 2>/dev/null || true";;
  write_if_open "/etc/ppp/radius/dictionary" dictionary_text;;
  srv ← write_if_open "/etc/ppp/radius/servers" (servers_text r);
  (if (srv : bool) then safe_system "chmod 600 /etc/ppp/radius/servers 2>/dev/null || true" else mret tt);;
  write_if_open "/etc/ppp/radius/radius.conf" (radius_text r);;
  if is_radsec r then
    safe_system "pkill -f 'fluxwan-radsec-bridge' 2>/dev/null || true";;
    safe_system "pkill -f 'radsecproxy' 2>/dev/null || true";;
    ok ← write_if_open "/usr/local/bin/fluxwan-radsec-bridge" (bridge_text r);
    if (ok : bool) then
      safe_system "chmod +x /usr/local/bin/fluxwan-radsec-bridge 2>/dev/null || true";;
      safe_system "nohup /usr/local/bin/fluxwan-radsec-bridge >/tmp/radsec_bridge.log 2>&1 &"
    else mret tt
  else mret tt.

(** ** Accounts that may connect *)

Definition CHAP_SECRETS : cstring := "/etc/ppp/chap-secrets".
Definition PAP_SECRETS : cstring := "/etc/ppp/pap-secrets".

Definition user_expired (now : Z) (u : pppoe_user_t) : bool := (0 <? pu_expires_at u) && (pu_expires_at u <=? u64 now).
Definition user_listed (now : Z) (u : pppoe_user_t) : bool :=
  pu_enabled u && negb (empty (pu_username u)) && negb (user_expired now u).
Definition secret_line (u : pppoe_user_t) : cstring :=
  sprintf (dq "`%s` * `%s` %s") [FS (pu_username u); FS (pu_password u); FS (or_else_text (pu_static_ip u) "*")].
Definition secrets_text (now : Z) (users : list pppoe_user_t) : cstring :=
  lines ([bytes_of_string "# FluxWAN Broadband Accounts Secrets"; bytes_of_string "# Secrets for authentication using CHAP / PAP";
          bytes_of_string "# client server secret IP_addresses"] ++
         (secret_line <$> filter (fun u => user_listed now u = true) users)).

Definition write_pppoe_secrets (cfg : pppoe_server_config_t) : sys Z :=
  chap ← can_create CHAP_SECRETS;
  pap ← can_create PAP_SECRETS;
  if negb chap && negb pap then mret (-1) else
  now ← time_now;
  (if (chap : bool) then do_call (WriteFile CHAP_SECRETS (secrets_text now (ps_users cfg))) else mret tt);;
  (if (pap : bool) then do_call (WriteFile PAP_SECRETS (secrets_text now (ps_users cfg))) else mret tt);;
  mret 0.

(** ** Session hooks *)

Definition shaping_lines (prof : pppoe_profile_t) : list cstring :=
  if 0 <? pp_rate_down_kbps prof then
    [sprintf (dq "if [ `$PROFILE` = `%s` ]; then") [FS (pp_name prof)];
     sprintf (dq "  tc qdisc add dev `$1` root tbf rate %ukbit burst 32kbit latency 50ms 2>/dev/null || true")
       [FN (pp_rate_down_kbps prof)];
     bytes_of_string "fi"]
  else [].
Definition ip_up_text (cfg : pppoe_server_config_t) : cstring :=
  lines
    ((dq <$>
      ["#!/bin/sh"; "# FluxWAN Broadband Dynamic Session Hook"; "mkdir -p /run/fluxwan/pppoe";
       "SESSION_FILE=`/run/fluxwan/pppoe/$1.session`"; "cat << 'EOF' > `$SESSION_FILE`"; "IFNAME=$1"; "TTY=$2"; "SPEED=$3";
       "LOCAL_IP=$4"; "REMOTE_IP=$5"; "IPPARAM=$6"; "USERNAME=${PEERNAME:-$USER}"; "CONNECT_TIME=$(date +%s)";
       "MAC=${MACREMOTE:-unknown}"; "EOF"]%string) ++
     concat (shaping_lines <$> ps_profiles cfg) ++
     (dq <$>
      ["# Dynamic RADIUS / RadSec Rate Limiting"; "RADATTR=`/var/run/radattr.$1`"; "if [ -f `$RADATTR` ]; then";
       "  MK_RATE=$(grep -i 'Mikrotik-Rate-Limit' `$RADATTR` | awk '{print $2}' | tr -d '`' | cut -d'/' -f1)";
       "  if [ -n `$MK_RATE` ]; then"; "    case `$MK_RATE` in"; "      *M|*m) RATE_KB=$((${MK_RATE%[Mm]} * 1024)) ;;";
       "      *k|*K) RATE_KB=${MK_RATE%[Kk]} ;;"; "      *[0-9]) RATE_KB=$((MK_RATE / 1000)) ;;"; "    esac";
       "    if [ `$RATE_KB` -gt 0 ] 2>/dev/null; then"; "      tc qdisc del dev `$1` root 2>/dev/null || true";
       "      tc qdisc add dev `$1` root tbf rate `${RATE_KB}kbit` burst 64kbit latency 50ms 2>/dev/null || true"; "    fi"; "  fi";
       "fi"]%string)).
Definition ip_down_text : cstring :=
  lines (dq <$>
    ["#!/bin/sh"; "# FluxWAN Broadband Session Teardown Hook";
     "rm -f `/run/fluxwan/pppoe/$1.session` `/var/run/radattr.$1` 2>/dev/null || true"]%string).

Definition setup_pppoe_scripts (cfg : pppoe_server_config_t) : sys unit :=
  safe_system "mkdir -p /run/fluxwan/pppoe /etc/ppp 2>/dev/null || true";;
  up ← write_if_open "/etc/ppp/ip-up" (ip_up_text cfg);
  (if (up : bool) then safe_system "chmod +x /etc/ppp/ip-up 2>/dev/null || true" else mret tt);;
  down ← write_if_open "/etc/ppp/ip-down" ip_down_text;
  if (down : bool) then safe_system "chmod +x /etc/ppp/ip-down 2>/dev/null || true" else mret tt.

(** ** The daemon *)

Definition server_cmd (cfg : pppoe_server_config_t) : cstring :=
  snprintf 1024 (dq "/usr/sbin/pppoe-server -I %s -L %s -R %s -N %u -k -C `%s` -S `%s` -O /etc/ppp/pppoe-server-options")
    [FS (or_else_text (ps_interface cfg) "eth0"); FS (or_else_text (ps_local_ip cfg) "10.100.0.1");
     FS (or_else_text (ps_pool_start cfg) "10.100.0.2"); FN (positive_or (ps_pool_count cfg) 250);
     FS (or_else_text (ps_ac_name cfg) "FluxWAN-BRAS"); FS (or_else_text (ps_service_name cfg) "FluxWAN-Broadband")].

Definition write_all (cfg : pppoe_server_config_t) : sys unit :=
  setup_radius_config cfg;;
  write_pppoe_server_options cfg;;
  write_pppoe_secrets cfg;;
  setup_pppoe_scripts cfg.

Definition pppoe_server_start (ctx : pppoe_server_ctx) : sys Z :=
  let cfg := psc_server ctx in
  if negb (ps_enabled cfg) then mret 0 else
  safe_system "modprobe pppoe 2>/dev/null || true";;
  safe_system "modprobe pppox 2>/dev/null || true";;
  safe_system "modprobe ppp_generic 2>/dev/null || true";;
  write_all cfg;;
  safe_system "iptables -A FORWARD -i ppp+ -j ACCEPT 2>/dev/null || true";;
  safe_system "iptables -A FORWARD -o ppp+ -j ACCEPT 2>/dev/null || true";;
  safe_system "iptables -t mangle -A FORWARD -p tcp --tcp-flags SYN,RST SYN -o ppp+ -j TCPMSS --set-mss 1452 2>/dev/null || true";;
  safe_system "killall pppoe-server 2>/dev/null || true";;
  do_call (Usleep 50000);;
  safe_system (server_cmd cfg);;
  mret 0.

Definition pppoe_server_stop (ctx : pppoe_server_ctx) : sys Z :=
  safe_system "killall -TERM pppoe-server 2>/dev/null || true";;
  safe_system (dq "pkill -TERM -f `pppd.*pppoe-server-options` 2>/dev/null || true");;
  safe_system "pkill -f 'fluxwan-radsec-bridge' 2>/dev/null || true";;
  safe_system "pkill -f 'radsecproxy' 2>/dev/null || true";;
  safe_system "rm -rf /run/fluxwan/pppoe/* 2>/dev/null || true";;
  mret 0.

Definition pppoe_server_close (ctx : pppoe_server_ctx) : sys unit := pppoe_server_stop ctx;; mret tt.

Definition pppoe_server_is_running : sys bool :=
  out ← popen "pgrep pppoe-server 2>/dev/null";
  mret (match out ≫= fgets 32 with
        | Some (line, _) => 0 <? atoi32 (cstr line)
        | None => false
        end).

Definition pppoe_server_reload (ctx : pppoe_server_ctx) : sys Z :=
  let cfg := psc_server ctx in
  write_all cfg;;
  running ← pppoe_server_is_running;
  if ps_enabled cfg && negb running then pppoe_server_start ctx
  else if negb (ps_enabled cfg) && running then pppoe_server_stop ctx
  else mret 0.

(** ** Sessions *)

Definition SESSION_DIR : cstring := "/run/fluxwan/pppoe".

Definition read_sys_u64 (path : cstring) : sys Z :=
  f ← read_file path;
  mret (default 0 (f ≫= scan_u64)).

Definition empty_session : pppoe_active_session_t := PppoeActiveSession [] [] [] [] 0 0 0 0 0 0 0 0 [].
Definition atoll (s : cstring) : Z := clamp_long (atoi s).

(** One line [KEY=value] of a session file. *)
Definition session_line (line : cstring) (s : pppoe_active_session_t) : pppoe_active_session_t :=
  match before 61 line, strchr line 61 with
  | Some key, Some eq =>
      let val := strip_eol (drop 1 eq) in
      let upd ifname username ip mac connect_time :=
        PppoeActiveSession ifname username ip mac connect_time (pas_uptime_sec s) (pas_rx_bytes s) (pas_tx_bytes s)
          (pas_rx_packets s) (pas_tx_packets s) (pas_rx_rate_kbps s) (pas_tx_rate_kbps s) (pas_profile s) in
      if str_eq key "IFNAME" then upd (safe_str_copy val 32) (pas_username s) (pas_ip s) (pas_mac s) (pas_connect_time s)
      else if str_eq key "REMOTE_IP" then upd (pas_ifname s) (pas_username s) (safe_str_copy val 32) (pas_mac s) (pas_connect_time s)
      else if str_eq key "USERNAME" then upd (pas_ifname s) (safe_str_copy val 64) (pas_ip s) (pas_mac s) (pas_connect_time s)
      else if str_eq key "MAC" then upd (pas_ifname s) (pas_username s) (pas_ip s) (safe_str_copy val 32) (pas_connect_time s)
      else if str_eq key "CONNECT_TIME" then upd (pas_ifname s) (pas_username s) (pas_ip s) (pas_mac s) (u64 (atoll val))
      else s
  | _, _ => s
  end.
Definition parse_session (f : list Z) : pppoe_active_session_t :=
  fold_left (fun s line => session_line line s) (fgets_lines 256 f) empty_session.

Definition find_user (name : cstring) (users : list pppoe_user_t) : option (nat * pppoe_user_t) :=
  list_find (fun u => pu_username u = name) users.
Definition find_profile (name : cstring) (profiles : list pppoe_profile_t) : option (nat * pppoe_profile_t) :=
  list_find (fun p => pp_name p = name) profiles.

Definition session_profile (users : list pppoe_user_t) (name : cstring) : cstring :=
  or_else_text (match find_user name users with Some (_, u) => safe_str_copy (pu_profile u) 64 | None => [] end) "Standard_25M".

(** The rates since the last reading of the interface, when it has an entry of the history. *)
Definition session_rates (now_ms : Z) (hist : list session_history_t) (ifname : cstring) (rx tx : Z) : Z * Z * list session_history_t :=
  match list_find (fun h => sh_ifname h = ifname) hist with
  | None => (0, 0, hist)
  | Some (i, h) =>
      let dt := u64 (now_ms - sh_last_time_ms h) in
      let rate cur last := u32 (u64 ((if last <=? cur then cur - last else 0) * 8) / dt) in
      let '(r, t) := if (200 <? dt) && (dt <? 10000) then (rate rx (sh_last_rx_bytes h), rate tx (sh_last_tx_bytes h)) else (0, 0) in
      (r, t, <[i := SessionHistory (sh_ifname h) rx tx now_ms]> hist)
  end.

Definition stat_path (ifname : cstring) (counter : string) : cstring :=
  snprintf 512 "/sys/class/net/%s/statistics/%s" [FS ifname; FS counter].

(** A file of the directory: the session that it describes, if it names an interface. *)
Definition read_session (users : list pppoe_user_t) (now_ms now_sec : Z) (hist : list session_history_t) (name : cstring)
    : sys (option pppoe_active_session_t * list session_history_t) :=
  match strstr name ".session" with
  | None => mret (None, hist)
  | Some _ =>
      f ← read_file (snprintf 512 "/run/fluxwan/pppoe/%s" [FS name]);
      match f with
      | None => mret (None, hist)
      | Some f =>
          let s := parse_session f in
          let dev := pas_ifname s in
          if empty dev then mret (None, hist) else
          rx ← read_sys_u64 (stat_path dev "rx_bytes");
          tx ← read_sys_u64 (stat_path dev "tx_bytes");
          rxp ← read_sys_u64 (stat_path dev "rx_packets");
          txp ← read_sys_u64 (stat_path dev "tx_packets");
          let start := pas_connect_time s in
          let up := if (0 <? start) && (start <=? u64 now_sec) then u64 now_sec - start else 0 in
          let '(rrate, trate, hist) := session_rates now_ms hist dev rx tx in
          mret (Some (PppoeActiveSession dev (pas_username s) (pas_ip s) (pas_mac s) start up rx tx rxp txp rrate trate
                        (session_profile users (pas_username s))), hist)
      end
  end.

Fixpoint read_sessions (users : list pppoe_user_t) (now_ms now_sec : Z) (names : list cstring) (max : nat)
    (hist : list session_history_t) : sys (list pppoe_active_session_t * list session_history_t) :=
  match names, max with
  | [], _ | _, O => mret ([], hist)
  | name :: names, S max' =>
      r ← read_session users now_ms now_sec hist name;
      let '(s, hist) := (r : option pppoe_active_session_t * list session_history_t) in
      match s with
      | None => read_sessions users now_ms now_sec names max hist
      | Some s =>
          q ← read_sessions users now_ms now_sec names max' hist;
          let '(l, hist) := (q : list pppoe_active_session_t * list session_history_t) in
          mret (s :: l, hist)
      end
  end.

Definition pppoe_server_get_sessions (ctx : pppoe_server_ctx) (max_sessions : Z)
    : sys (list pppoe_active_session_t * pppoe_server_ctx) :=
  ts ← clock_gettime;
  now_sec ← time_now;
  names ← read_dir SESSION_DIR;
  r ← read_sessions (ps_users (psc_server ctx)) (clock_ms ts) now_sec names (Z.to_nat max_sessions) (psc_history ctx);
  let '(l, hist) := (r : list pppoe_active_session_t * list session_history_t) in
  mret (l, PppoeServerCtx (psc_config ctx) hist (psc_last_check_ms ctx)).

Definition kill_cmd (ifname : cstring) : cstring :=
  snprintf 256 (dq "pkill -f `pppd.*%s` 2>/dev/null || ip link set dev %s down 2>/dev/null || true") [FS ifname; FS ifname].
Definition forget_cmd (ifname : cstring) : cstring :=
  snprintf 256 "rm -f /run/fluxwan/pppoe/%s.session 2>/dev/null || true" [FS ifname].
Definition pppoe_server_disconnect_session (ifname : cstring) : sys Z :=
  if empty ifname then mret (-1) else
  safe_system (kill_cmd ifname);;
  safe_system (forget_cmd ifname);;
  mret 0.

Fixpoint disconnect_where (bad : pppoe_active_session_t -> bool) (l : list pppoe_active_session_t) : sys unit :=
  match l with
  | [] => mret tt
  | s :: l => (if bad s then pppoe_server_disconnect_session (pas_ifname s);; mret tt else mret tt);; disconnect_where bad l
  end.
(** The sessions of a subscriber are dropped. *)
Definition reconnect_user (name : cstring) (ctx : pppoe_server_ctx) : sys pppoe_server_ctx :=
  r ← pppoe_server_get_sessions ctx MAX_PPPOE_SESSIONS;
  let '(l, ctx) := (r : list pppoe_active_session_t * pppoe_server_ctx) in
  disconnect_where (fun s => str_eq (pas_username s) name) l;;
  mret ctx.

(** ** Accounts *)

Definition set_created (v : Z) (u : pppoe_user_t) : pppoe_user_t :=
  PppoeUser (pu_username u) (pu_password u) (pu_profile u) (pu_static_ip u) (pu_comment u) v (pu_expires_at u) (pu_enabled u).
Definition set_expires (v : Z) (u : pppoe_user_t) : pppoe_user_t :=
  PppoeUser (pu_username u) (pu_password u) (pu_profile u) (pu_static_ip u) (pu_comment u) (pu_created_at u) v (pu_enabled u).
Definition set_enabled (v : bool) (u : pppoe_user_t) : pppoe_user_t :=
  PppoeUser (pu_username u) (pu_password u) (pu_profile u) (pu_static_ip u) (pu_comment u) (pu_created_at u) (pu_expires_at u) v.
Definition set_profile_name (v : cstring) (u : pppoe_user_t) : pppoe_user_t :=
  PppoeUser (pu_username u) (pu_password u) v (pu_static_ip u) (pu_comment u) (pu_created_at u) (pu_expires_at u) (pu_enabled u).

Definition days (n : Z) : Z := u64 (n * 86400).
Definition created_by (now : Z) (u : pppoe_user_t) : pppoe_user_t := if pu_created_at u =? 0 then set_created (u64 now) u else u.
(** An account without expiry gets the validity of its profile. *)
Definition expiry_from (now : Z) (profiles : list pppoe_profile_t) (u : pppoe_user_t) : pppoe_user_t :=
  if (pu_expires_at u =? 0) && negb (empty (pu_profile u)) then
    match find_profile (pu_profile u) profiles with
    | Some (_, p) => if 0 <? pp_validity_days p then set_expires (u64 (u64 now + days (pp_validity_days p))) u else u
    | None => u
    end
  else u.

(** Insertion by name into an array of [max] entries: [None] when it is full. *)
Definition put_user (u : pppoe_user_t) (l : list pppoe_user_t) : option (list pppoe_user_t) :=
  match find_user (pu_username u) l with
  | Some (i, _) => Some (<[i := u]> l)
  | None => if Z.of_nat (length l) <? MAX_PPPOE_USERS then Some (l ++ [u]) else None
  end.
Definition put_profile (p : pppoe_profile_t) (l : list pppoe_profile_t) : option (list pppoe_profile_t) :=
  match find_profile (pp_name p) l with
  | Some (i, _) => Some (<[i := p]> l)
  | None => if Z.of_nat (length l) <? MAX_PPPOE_PROFILES then Some (l ++ [p]) else None
  end.

Definition needs_reconnect (old new : pppoe_user_t) : bool :=
  negb (str_eq (pu_password old) (pu_password new)) || negb (str_eq (pu_profile old) (pu_profile new)) ||
  negb (bool_decide (pu_enabled old = pu_enabled new)).

Definition pppoe_server_set_user (user : pppoe_user_t) (ctx : pppoe_server_ctx) : sys (Z * pppoe_server_ctx) :=
  if empty (pu_username user) then mret (-1, ctx) else
  let cfg := psc_server ctx in
  now ← time_now;
  let u := expiry_from now (ps_profiles cfg) (created_by now user) in
  match put_user u (ps_users cfg) with
  | None => mret (-1, ctx)
  | Some users =>
      let ctx := with_users users ctx in
      write_pppoe_secrets (psc_server ctx);;
      if match find_user (pu_username user) (ps_users cfg) with Some (_, old) => needs_reconnect old u | None => false end then
        ctx ← reconnect_user (pu_username user) ctx; mret (0, ctx)
      else mret (0, ctx)
  end.

Definition pppoe_server_delete_user (username : cstring) (ctx : pppoe_server_ctx) : sys (Z * pppoe_server_ctx) :=
  if empty username then mret (-1, ctx) else
  match find_user username (ps_users (psc_server ctx)) with
  | Some (i, _) =>
      let ctx := with_users (delete i (ps_users (psc_server ctx))) ctx in
      write_pppoe_secrets (psc_server ctx);;
      mret (0, ctx)
  | None => mret (0, ctx)
  end.

Definition renewal_days (profiles : list pppoe_profile_t) (profile : cstring) (additional_days : Z) : Z :=
  if additional_days =? 0 then
    or_number (match find_profile profile profiles with Some (_, p) => pp_validity_days p | None => 0 end) 30
  else additional_days.
Definition renewed (now : Z) (n : Z) (u : pppoe_user_t) : pppoe_user_t :=
  set_enabled true
    (set_expires (if (pu_expires_at u =? 0) || (pu_expires_at u <=? u64 now) then u64 (u64 now + days n)
                  else u64 (pu_expires_at u + days n)) u).

Definition switches (new_profile : option cstring) (u : pppoe_user_t) : bool :=
  match new_profile with Some p => negb (empty p) && negb (str_eq (pu_profile u) p) | None => false end.
Definition switched (new_profile : option cstring) (u : pppoe_user_t) : pppoe_user_t :=
  if switches new_profile u then set_profile_name (safe_str_copy (default [] new_profile) 64) u else u.

Definition pppoe_server_renew_user (username : cstring) (additional_days : Z) (new_profile : option cstring) (ctx : pppoe_server_ctx)
    : sys (Z * pppoe_server_ctx) :=
  if empty username then mret (-1, ctx) else
  let cfg := psc_server ctx in
  match find_user username (ps_users cfg) with
  | None => mret (-1, ctx)
  | Some (i, u) =>
      let change := switches new_profile u in
      let u := switched new_profile u in
      now ← time_now;
      let ctx := with_users (<[i := renewed now (renewal_days (ps_profiles cfg) (pu_profile u) additional_days) u]> (ps_users cfg)) ctx in
      write_pppoe_secrets (psc_server ctx);;
      if change then ctx ← reconnect_user username ctx; mret (0, ctx) else mret (0, ctx)
  end.

Definition pppoe_server_toggle_user (username : cstring) (enable : bool) (ctx : pppoe_server_ctx) : sys (Z * pppoe_server_ctx) :=
  if empty username then mret (-1, ctx) else
  match find_user username (ps_users (psc_server ctx)) with
  | None => mret (-1, ctx)
  | Some (i, u) =>
      let ctx := with_users (<[i := set_enabled enable u]> (ps_users (psc_server ctx))) ctx in
      write_pppoe_secrets (psc_server ctx);;
      if enable then mret (0, ctx) else ctx ← reconnect_user username ctx; mret (0, ctx)
  end.

(** A session is dropped when the first account of its name is disabled or expired. *)
Definition must_leave (now : Z) (users : list pppoe_user_t) (s : pppoe_active_session_t) : bool :=
  match find_user (pas_username s) users with
  | Some (_, u) => negb (pu_enabled u) || user_expired now u
  | None => false
  end.
Definition kick_sessions (now : Z) (ctx : pppoe_server_ctx) : sys pppoe_server_ctx :=
  r ← pppoe_server_get_sessions ctx MAX_PPPOE_SESSIONS;
  let '(l, ctx') := (r : list pppoe_active_session_t * pppoe_server_ctx) in
  disconnect_where (must_leave now (ps_users (psc_server ctx))) l;;
  mret ctx'.
Definition checked_at (now_ms : Z) (ctx : pppoe_server_ctx) : pppoe_server_ctx :=
  PppoeServerCtx (psc_config ctx) (psc_history ctx) now_ms.
Definition lapsed (now : Z) (ctx : pppoe_server_ctx) : bool :=
  existsb (fun u => pu_enabled u && user_expired now u) (ps_users (psc_server ctx)).
Definition pppoe_server_periodic_tick (now_ms : Z) (ctx : pppoe_server_ctx) : sys pppoe_server_ctx :=
  let cfg := psc_server ctx in
  if negb (ps_enabled cfg) then mret ctx else
  if u64 (now_ms - psc_last_check_ms ctx) <? 5000 then mret ctx else
  let ctx := checked_at now_ms ctx in
  now ← time_now;
  (if lapsed now ctx then write_pppoe_secrets (psc_server ctx);; mret tt else mret tt);;
  kick_sessions now ctx.

(** ** Profiles *)

Definition set_pp_name (v : cstring) (p : pppoe_profile_t) : pppoe_profile_t :=
  PppoeProfile v (pp_rate_down_kbps p) (pp_rate_up_kbps p) (pp_validity_days p) (pp_description p).

Definition pppoe_server_set_profile (profile : pppoe_profile_t) (ctx : pppoe_server_ctx) : Z * pppoe_server_ctx :=
  if empty (pp_name profile) then (-1, ctx) else
  match put_profile profile (ps_profiles (psc_server ctx)) with
  | Some l => (0, with_profiles l ctx)
  | None => (-1, ctx)
  end.

Definition pppoe_server_delete_profile (name : cstring) (ctx : pppoe_server_ctx) : Z * pppoe_server_ctx :=
  if empty name then (-1, ctx) else
  match find_profile name (ps_profiles (psc_server ctx)) with
  | Some (i, _) => (0, with_profiles (delete i (ps_profiles (psc_server ctx))) ctx)
  | None => (0, ctx)
  end.

Definition rename_first (old new : cstring) (l : list pppoe_profile_t) : list pppoe_profile_t :=
  match find_profile old l with
  | Some (i, p) => <[i := set_pp_name (safe_str_copy new 64) p]> l
  | None => l
  end.
Definition follow_rename (old new : cstring) (u : pppoe_user_t) : pppoe_user_t :=
  if str_eq (pu_profile u) old then set_profile_name (safe_str_copy new 64) u else u.
Definition pppoe_server_rename_profile (old_name new_name : cstring) (ctx : pppoe_server_ctx) : Z * pppoe_server_ctx :=
  if empty old_name || empty new_name then (-1, ctx) else
  (0, with_users (follow_rename old_name new_name <$> ps_users (psc_server ctx))
        (with_profiles (rename_first old_name new_name (ps_profiles (psc_server ctx))) ctx)).

(** ** Import and export *)

Definition import_profile (l : list pppoe_profile_t) (p : pppoe_profile_t) : list pppoe_profile_t :=
  if empty (pp_name p) then l else default l (put_profile p l).

Definition autoprof (name : cstring) : pppoe_profile_t := PppoeProfile (safe_str_copy name 64) 10240 5120 30 "Auto-created on import".
Definition import_user (now : Z) (pu : list pppoe_profile_t * list pppoe_user_t) (nu : pppoe_user_t)
    : list pppoe_profile_t * list pppoe_user_t :=
  let '(profiles, users) := pu in
  if empty (pu_username nu) || empty (pu_password nu) then pu else
  let u := created_by now nu in
  let '(profiles, u) :=
    if empty (pu_profile u) then (profiles, u)
    else match find_profile (pu_profile u) profiles with
         | Some (_, p) => (profiles, expiry_from now profiles u)
         | None =>
             if Z.of_nat (length profiles) <? MAX_PPPOE_PROFILES then
               (profiles ++ [autoprof (pu_profile u)], if pu_expires_at u =? 0 then set_expires (u64 (u64 now + 30 * 86400)) u else u)
             else (profiles, u)
         end in
  (profiles, default users (put_user u users)).

Definition pppoe_server_bulk_import (new_users : list pppoe_user_t) (new_profs : list pppoe_profile_t) (replace_mode : bool)
    (ctx : pppoe_server_ctx) : sys (Z * pppoe_server_ctx) :=
  let cfg := psc_server ctx in
  let users := if replace_mode then [] else ps_users cfg in
  let profiles := if replace_mode && negb (bool_decide (new_profs = [])) then [] else ps_profiles cfg in
  let profiles := fold_left import_profile new_profs profiles in
  now ← time_now;
  let '(profiles, users) := fold_left (import_user now) new_users (profiles, users) in
  let ctx := with_users users (with_profiles profiles ctx) in
  write_pppoe_secrets (psc_server ctx);;
  setup_pppoe_scripts (psc_server ctx);;
  mret (0, ctx).

Definition csv_header : cstring :=
  bytes_of_string
    "id,username,firstname,lastname,city,phone,balance,expiration,email,static_ip,enabled,notes,profile_name,mac,parent_name,ct_password,address,contract_id,created_at"
  ++ [13; 10].

Section CsvExport.
(** A time in the time zone of the router, as [%Y-%m-%d %H:%M:%S]. *)
Context (local_time : Z -> cstring).

Definition csv_date (t : Z) : cstring := if 0 <? t then local_time t else [].
Definition csv_row (i : Z) (u : pppoe_user_t) : cstring :=
  sprintf (dq "%u,`%s`,`%s`,``,``,``,`0.00`,`%s`,``,`%s`,%d,`%s`,`%s`,`N/A`,`admin`,`%s`,``,``,`%s`")
    [FN i; FS (pu_username u); FS (pu_comment u); FS (csv_date (pu_expires_at u)); FS (pu_static_ip u);
     FN (if pu_enabled u then 1 else 0); FS (pu_comment u); FS (pu_profile u); FS (pu_password u);
     FS (csv_date (pu_created_at u))] ++ [13; 10].

(** Rows while there is room for 512 more bytes; each counts with the length that it has in full.  The
    space left is computed without sign: past the end of the buffer it is huge, and the write goes
    out of bounds ([None]). *)
Fixpoint csv_rows (max_len : Z) (i : Z) (offset : Z) (users : list pppoe_user_t) : option cstring :=
  match users with
  | [] => Some []
  | u :: users =>
      if negb (offset <? u64 (max_len - 512)) then Some []
      else if max_len <? offset then None
      else let row := csv_row i u in
           app row <$> csv_rows max_len (i + 1) (offset + Z.of_nat (length row)) users
  end.
(** The returned length and the text left in the buffer. *)
Definition pppoe_server_export_csv (cfg : pppoe_server_config_t) (max_len : Z) : option (Z * cstring) :=
  if max_len =? 0 then Some (-1, []) else
  rows ← csv_rows max_len 1 (Z.of_nat (length csv_header)) (ps_users cfg);
  let text := csv_header ++ rows in
  Some (i32 (Z.of_nat (length text)), str_trunc max_len text).
End CsvExport.

(** ** Operations in sequence *)

Inductive operation :=
  | SetUser (u : pppoe_user_t)
  | DeleteUser (name : cstring)
  | RenewUser (name : cstring) (additional_days : Z) (profile : option cstring)
  | ToggleUser (name : cstring) (enable : bool)
  | SetProfile (p : pppoe_profile_t)
  | DeleteProfile (name : cstring)
  | RenameProfile (old new : cstring)
  | BulkImport (users : list pppoe_user_t) (profiles : list pppoe_profile_t) (replace_mode : bool)
  | GetSessions (max : Z)
  | Tick (now_ms : Z).

Definition context_of {A B} (m : sys (A * B)) : sys B := r ← m; mret (r : A * B).2.
Definition perform (op : operation) (ctx : pppoe_server_ctx) : sys pppoe_server_ctx :=
  match op with
  | SetUser u => context_of (pppoe_server_set_user u ctx)
  | DeleteUser n => context_of (pppoe_server_delete_user n ctx)
  | RenewUser n d p => context_of (pppoe_server_renew_user n d p ctx)
  | ToggleUser n b => context_of (pppoe_server_toggle_user n b ctx)
  | SetProfile p => mret (pppoe_server_set_profile p ctx).2
  | DeleteProfile n => mret (pppoe_server_delete_profile n ctx).2
  | RenameProfile a b => mret (pppoe_server_rename_profile a b ctx).2
  | BulkImport us ps b => context_of (pppoe_server_bulk_import us ps b ctx)
  | GetSessions n => context_of (pppoe_server_get_sessions ctx n)
  | Tick ms => pppoe_server_periodic_tick ms ctx
  end.
Fixpoint perform_all (ops : list operation) (ctx : pppoe_server_ctx) : sys pppoe_server_ctx :=
  match ops with
  | [] => mret ctx
  | op :: ops => ctx ← perform op ctx; perform_all ops ctx
  end.

(** ** Tables by name *)

Definition names_unique (us : list pppoe_user_t) : Prop := NoDup (pu_username <$> us).
Record tables_ok (us : list pppoe_user_t) (ps : list pppoe_profile_t) : Prop := TablesOk {
  to_unique : names_unique us;
  to_named : Forall (fun u => pu_username u <> []) us;
  to_users : Z.of_nat (length us) <= MAX_PPPOE_USERS;
  to_profiles : Z.of_nat (length ps) <= MAX_PPPOE_PROFILES
}.
Definition accounts_ok (ctx : pppoe_server_ctx) : Prop :=
  tables_ok (ps_users (psc_server ctx)) (ps_profiles (psc_server ctx)) /\ psc_history ctx = [].

Lemma find_user_Some n us i u : find_user n us = Some (i, u) -> us !! i = Some u /\ pu_username u = n.
Proof. intros H. apply list_find_Some in H as (H1 & H2 & _). done. Qed.
Lemma find_user_None n us : find_user n us = None -> n ∉ pu_username <$> us.
Proof.
  intros H. apply list_find_None in H. intros Hin. apply list_elem_of_fmap in Hin as (u & -> & Hu).
  rewrite Forall_forall in H. by apply (H u).
Qed.

Lemma names_insert (us : list pppoe_user_t) (i : nat) u v : us !! i = Some u -> pu_username v = pu_username u -> pu_username <$> <[i := v]> us = pu_username <$> us.
Proof. intros Hi Hn. rewrite list_fmap_insert. apply list_insert_id. by rewrite list_lookup_fmap, Hi, Hn. Qed.

Lemma update_ok us ps (i : nat) u v : tables_ok us ps -> us !! i = Some u -> pu_username v = pu_username u -> tables_ok (<[i := v]> us) ps.
Proof.
  intros [H1 H2 H3 H4] Hi Hn. split; [unfold names_unique; by rewrite (names_insert _ _ u)| |by rewrite length_insert|done].
  apply Forall_insert; [done|]. rewrite Hn. by eapply (Forall_lookup_1 _ _ _ _ H2).
Qed.
Lemma put_user_ok u us us' ps : pu_username u <> [] -> tables_ok us ps -> put_user u us = Some us' -> tables_ok us' ps.
Proof.
  intros Hu Hok H. unfold put_user in H. destruct (find_user _ us) as [[i old]|] eqn:E.
  - injection H as <-. apply find_user_Some in E as [Hi Hn]. by apply (update_ok us ps i old).
  - apply find_user_None in E. destruct Hok as [H1 H2 H3 H4]. destruct (Z.ltb_spec (Z.of_nat (length us)) MAX_PPPOE_USERS); [|done].
    injection H as <-. split; [|by apply Forall_app_2; [|constructor]|rewrite length_app; cbn; lia|done].
    unfold names_unique. rewrite fmap_app. apply NoDup_app. split_and!; [done| |apply NoDup_singleton].
    intros x Hx Hx'. apply list_elem_of_singleton in Hx' as ->. done.
Qed.
Lemma delete_ok us ps (i : nat) : tables_ok us ps -> tables_ok (delete i us) ps.
Proof.
  intros [H1 H2 H3 H4]. split; [|by apply Forall_delete| |done].
  - unfold names_unique. rewrite list_fmap_delete. eapply sublist_NoDup; [exact H1|]. apply sublist_delete.
  - pose proof (sublist_length _ _ (sublist_delete us i)). lia.
Qed.
Lemma put_profile_length p ps ps' :
  Z.of_nat (length ps) <= MAX_PPPOE_PROFILES -> put_profile p ps = Some ps' -> Z.of_nat (length ps') <= MAX_PPPOE_PROFILES.
Proof.
  intros H E. unfold put_profile in E. destruct (find_profile _ ps) as [[i q]|]; [injection E as <-; by rewrite length_insert|].
  destruct (Z.ltb_spec (Z.of_nat (length ps)) MAX_PPPOE_PROFILES); [|done]. injection E as <-. rewrite length_app. cbn. lia.
Qed.

(** ** What the operations call *)

Definition is_system (c : call) : Prop := match c with System _ => True | _ => False end.
Definition idle (s : pppoe_active_session_t) : Prop := pas_rx_rate_kbps s = 0 /\ pas_tx_rate_kbps s = 0 /\ pas_ifname s <> [].

Section Runs.
Context (o : os).

Lemma read_sys_u64_runs P path : runs o P (fun _ => True) (read_sys_u64 path).
Proof. unfold read_sys_u64. repeat run_step; done. Qed.

Lemma read_session_runs P users ms now name :
  runs o P (fun r => from_option idle True r.1 /\ r.2 = []) (read_session users ms now [] name).
Proof.
  unfold read_session. destruct (strstr name _); [|by apply runs_ret].
  eapply (runs_bind _ _ (fun _ => True)); [run_step|]. intros [f|] _; [|by apply runs_ret].
  unfold empty. case_bool_decide as Hdev; [by apply runs_ret|].
  do 4 (eapply (runs_bind _ _ (fun _ => True)); [apply read_sys_u64_runs|intros ? _]). by apply runs_ret.
Qed.
Lemma read_sessions_runs P users ms now names max :
  runs o P (fun r => Forall idle r.1 /\ r.2 = []) (read_sessions users ms now names max []).
Proof.
  revert max. induction names as [|name names IH]; intros max; [by apply runs_ret|]. destruct max as [|max]; [by apply runs_ret|].
  cbn [read_sessions]. eapply runs_bind; [apply read_session_runs|]. intros [[s|] hist] [Hs Hh]; cbn in Hs, Hh; subst hist; [|apply IH].
  eapply runs_bind; [apply IH|]. intros [l hist] [Hl Hh]. apply runs_ret. split; [by constructor|done].
Qed.

Definition same_tables (ctx ctx' : pppoe_server_ctx) : Prop :=
  psc_config ctx' = psc_config ctx /\ psc_history ctx' = [].

(** The sessions are read without calls, and without rates: nothing enters the history. *)
Lemma get_sessions_runs P ctx max :
  psc_history ctx = [] -> runs o P (fun r => Forall idle r.1 /\ same_tables ctx r.2) (pppoe_server_get_sessions ctx max).
Proof.
  intros Hh. unfold pppoe_server_get_sessions. do 3 (eapply (runs_bind _ _ (fun _ => True)); [run_step|intros ? _]).
  rewrite Hh. eapply runs_bind; [apply read_sessions_runs|]. intros [l hist] [Hl Hhist]. apply runs_ret. by split.
Qed.

Lemma disconnect_runs dev : runs o is_system (fun _ => True) (pppoe_server_disconnect_session dev).
Proof. unfold pppoe_server_disconnect_session. repeat run_step; done. Qed.
Lemma disconnect_where_runs bad l : runs o is_system (fun _ => True) (disconnect_where bad l).
Proof.
  induction l as [|s l IH]; cbn [disconnect_where]; [by apply runs_ret|]. eapply (runs_bind _ _ (fun _ => True)); [|intros ? _; apply IH].
  destruct (bad s); [|by apply runs_ret]. eapply (runs_bind _ _ (fun _ => True)); [apply disconnect_runs|intros ? _; by apply runs_ret].
Qed.
Lemma reconnect_runs name ctx : psc_history ctx = [] -> runs o is_system (same_tables ctx) (reconnect_user name ctx).
Proof.
  intros Hh. unfold reconnect_user. eapply runs_bind; [by apply get_sessions_runs|]. intros [l ctx'] [_ Hs]. cbn in Hs.
  eapply (runs_bind _ _ (fun _ => True)); [apply disconnect_where_runs|]. intros ? _. by apply runs_ret.
Qed.
Lemma write_if_open_runs (P : call -> Prop) path text : P (WriteFile path text) -> runs o P (fun _ => True) (write_if_open path text).
Proof. intros H. unfold write_if_open. repeat run_step; done. Qed.
Lemma scripts_runs (P : call -> Prop) cfg :
  (forall c, is_system c -> P c) -> (forall x, P (WriteFile "/etc/ppp/ip-up" x)) -> (forall x, P (WriteFile "/etc/ppp/ip-down" x)) ->
  runs o P (fun _ => True) (setup_pppoe_scripts cfg).
Proof.
  intros Hs H1 H2. unfold setup_pppoe_scripts. eapply (runs_bind _ _ (fun _ => True)); [run_step; by apply Hs|intros ? _].
  eapply (runs_bind _ _ (fun _ => True)); [by apply write_if_open_runs|intros up _].
  eapply (runs_bind _ _ (fun _ => True)); [destruct up; [run_step; by apply Hs|by apply runs_ret]|intros ? _].
  eapply (runs_bind _ _ (fun _ => True)); [by apply write_if_open_runs|intros [] _; [run_step; by apply Hs|by apply runs_ret]].
Qed.

End Runs.

(** ** The tables stay well formed *)

Lemma with_users_ok us ctx : tables_ok us (ps_profiles (psc_server ctx)) -> psc_history ctx = [] -> accounts_ok (with_users us ctx).
Proof. by split. Qed.
Lemma with_profiles_ok ps ctx : accounts_ok ctx -> Z.of_nat (length ps) <= MAX_PPPOE_PROFILES -> accounts_ok (with_profiles ps ctx).
Proof. intros [[H1 H2 H3 H4] Hh] Hp. by split. Qed.
Lemma same_tables_ok ctx ctx' : accounts_ok ctx -> same_tables ctx ctx' -> accounts_ok ctx'.
Proof. intros [H _] [E Hh]. split; [|done]. unfold psc_server in *. by rewrite E. Qed.

Lemma expiry_from_name now ps u : pu_username (expiry_from now ps u) = pu_username u.
Proof. unfold expiry_from. repeat case_match; done. Qed.
Lemma created_by_name now u : pu_username (created_by now u) = pu_username u.
Proof. unfold created_by. by destruct (_ =? _). Qed.

Lemma import_profile_length ps p :
  Z.of_nat (length ps) <= MAX_PPPOE_PROFILES -> Z.of_nat (length (import_profile ps p)) <= MAX_PPPOE_PROFILES.
Proof.
  intros H. unfold import_profile. destruct (empty _); [done|]. destruct (put_profile p ps) eqn:E; cbn; [|done].
  by eapply put_profile_length.
Qed.
Lemma put_default_ok u us ps : pu_username u <> [] -> tables_ok us ps -> tables_ok (default us (put_user u us)) ps.
Proof. intros Hu H. destruct (put_user u us) eqn:E; cbn; [by eapply put_user_ok|done]. Qed.
Lemma tables_profiles us ps ps' : tables_ok us ps -> Z.of_nat (length ps') <= MAX_PPPOE_PROFILES -> tables_ok us ps'.
Proof. intros [H1 H2 H3 H4] H. by split. Qed.
Lemma import_user_ok now pu nu : tables_ok pu.2 pu.1 -> tables_ok (import_user now pu nu).2 (import_user now pu nu).1.
Proof.
  destruct pu as [ps us]. cbn [fst snd]. intros H. unfold import_user, empty. case_bool_decide as Hn; [done|].
  case_bool_decide; [done|]. cbn [orb]. case_bool_decide; [apply put_default_ok; by rewrite ?created_by_name|].
  destruct (find_profile _ ps) as [[i p]|].
  - apply put_default_ok; [by rewrite expiry_from_name, created_by_name|done].
  - destruct (Z.ltb_spec (Z.of_nat (length ps)) MAX_PPPOE_PROFILES); cbn [fst snd].
    + apply put_default_ok; [by case_match; cbn; rewrite created_by_name|]. eapply tables_profiles; [done|]. rewrite length_app. cbn. lia.
    + apply put_default_ok; by rewrite ?created_by_name.
Qed.
Lemma imports_ok now nus ps us :
  tables_ok us ps -> let r := fold_left (import_user now) nus (ps, us) in tables_ok r.2 r.1.
Proof.
  intros H. cbn zeta. assert (Hp : tables_ok (ps, us).2 (ps, us).1) by done. clear H. revert Hp. generalize (ps, us). clear ps us.
  induction nus as [|nu nus IH]; intros pu H; cbn [fold_left]; [done|]. apply IH. by apply import_user_ok.
Qed.
Lemma import_profiles_length nps ps :
  Z.of_nat (length ps) <= MAX_PPPOE_PROFILES -> Z.of_nat (length (fold_left import_profile nps ps)) <= MAX_PPPOE_PROFILES.
Proof. revert ps. induction nps as [|p nps IH]; intros ps H; cbn [fold_left]; [done|]. apply IH. by apply import_profile_length. Qed.

Lemma rename_ok old new us ps : tables_ok us ps -> tables_ok (follow_rename old new <$> us) (rename_first old new ps).
Proof.
  intros [H1 H2 H3 H4]. assert (Hn : forall u, pu_username (follow_rename old new u) = pu_username u).
  { intros u. unfold follow_rename. by destruct (str_eq _ _). }
  split.
  - unfold names_unique. rewrite <- list_fmap_compose. by erewrite list_fmap_ext; [exact H1|]; intros; apply Hn.
  - apply Forall_fmap. eapply Forall_impl; [exact H2|]. intros u Hu. cbn. by rewrite Hn.
  - by rewrite length_fmap.
  - unfold rename_first. repeat case_match; by rewrite ?length_insert.
Qed.

Section Invariant.
Context (o : os).
Abbreviation any := (fun _ : call => True).

Lemma secrets_runs cfg : runs o any (fun _ => True) (write_pppoe_secrets cfg).
Proof. unfold write_pppoe_secrets. repeat run_step; done. Qed.

(** An operation stores a table, writes the secrets and drops sessions. *)
Lemma stored_runs ctx (b : bool) name :
  accounts_ok ctx ->
  runs o any (fun r => accounts_ok r.2)
    (write_pppoe_secrets (psc_server ctx);; if b then ctx ← reconnect_user name ctx; mret (0, ctx) else mret (0, ctx)).
Proof.
  intros H. eapply (runs_bind _ _ (fun _ => True)); [apply secrets_runs|intros ? _]. destruct b; [|by apply runs_ret].
  eapply runs_bind; [eapply runs_weaken; [apply reconnect_runs, H|done|]|]; [intros c Hc; exact Hc|].
  intros c Hc. apply runs_ret. by eapply same_tables_ok.
Qed.
Lemma context_of_runs {A B} P (m : sys (A * B)) (Q : B -> Prop) : runs o P (fun r => Q r.2) m -> runs o P Q (context_of m).
Proof. intros H. eapply runs_bind; [exact H|]. intros r Hr. by apply runs_ret. Qed.

Lemma set_user_runs u ctx : accounts_ok ctx -> runs o any (fun r => accounts_ok r.2) (pppoe_server_set_user u ctx).
Proof.
  intros H. unfold pppoe_server_set_user, empty. case_bool_decide as Hu; [by apply runs_ret|].
  eapply (runs_bind _ _ (fun _ => True)); [run_step|intros now _]. destruct (put_user _ _) as [us|] eqn:E; [|by apply runs_ret].
  apply stored_runs, with_users_ok; [|apply H]. eapply put_user_ok; [|apply H|exact E]. by rewrite expiry_from_name, created_by_name.
Qed.
Lemma delete_user_runs n ctx : accounts_ok ctx -> runs o any (fun r => accounts_ok r.2) (pppoe_server_delete_user n ctx).
Proof.
  intros H. unfold pppoe_server_delete_user. destruct (empty n); [by apply runs_ret|].
  destruct (find_user n _) as [[i u]|]; [|by apply runs_ret]. apply (stored_runs _ false []), with_users_ok; [|apply H]. apply delete_ok, H.
Qed.
Lemma renew_user_runs n d p ctx : accounts_ok ctx -> runs o any (fun r => accounts_ok r.2) (pppoe_server_renew_user n d p ctx).
Proof.
  intros H. unfold pppoe_server_renew_user. destruct (empty n); [by apply runs_ret|].
  destruct (find_user n _) as [[i u]|] eqn:E; [|by apply runs_ret]. apply find_user_Some in E as [Hi _].
  eapply (runs_bind _ _ (fun _ => True)); [run_step|intros now _]. apply stored_runs, with_users_ok; [|apply H].
  eapply update_ok; [apply H|exact Hi|]. unfold switched. by destruct (switches p u).
Qed.
Lemma toggle_user_runs n b ctx : accounts_ok ctx -> runs o any (fun r => accounts_ok r.2) (pppoe_server_toggle_user n b ctx).
Proof.
  intros H. unfold pppoe_server_toggle_user. destruct (empty n); [by apply runs_ret|].
  destruct (find_user n _) as [[i u]|] eqn:E; [|by apply runs_ret]. apply find_user_Some in E as [Hi _].
  set (ctx' := with_users _ _). assert (H' : accounts_ok ctx') by (apply with_users_ok; [eapply update_ok; [apply H|exact Hi|done]|apply H]).
  destruct b; [by apply (stored_runs ctx' false n)|by apply (stored_runs ctx' true n)].
Qed.
Lemma bulk_import_runs us ps b ctx : accounts_ok ctx -> runs o any (fun r => accounts_ok r.2) (pppoe_server_bulk_import us ps b ctx).
Proof.
  intros [Ht Hh]. unfold pppoe_server_bulk_import. eapply (runs_bind _ _ (fun _ => True)); [run_step|intros now _].
  set (us0 := if b then [] else _). set (ps0 := if b && _ then [] else _).
  assert (H0 : tables_ok us0 (fold_left import_profile ps ps0)).
  { apply (tables_profiles _ (ps_profiles (psc_server ctx))).
    - subst us0. destruct b; [|done]. split; [constructor|constructor|by cbn|apply Ht].
    - apply import_profiles_length. subst ps0. destruct (b && _); [by cbn|apply Ht]. }
  pose proof (imports_ok now us _ _ H0) as H. destruct (fold_left _ us _) as [ps' us']. cbn in H.
  eapply (runs_bind _ _ (fun _ => True)); [apply secrets_runs|intros ? _].
  eapply (runs_bind _ _ (fun _ => True)); [by apply scripts_runs|intros ? _]. by apply runs_ret.
Qed.
Lemma kick_runs (P : call -> Prop) now ctx :
  (forall c, is_system c -> P c) -> psc_history ctx = [] -> runs o P (same_tables ctx) (kick_sessions now ctx).
Proof.
  intros HP Hh. eapply runs_bind; [by apply get_sessions_runs|]. intros [l c] [_ Hs]. cbn in Hs.
  eapply (runs_bind _ _ (fun _ => True)); [|intros ? _; by apply runs_ret].
  eapply runs_weaken; [apply disconnect_where_runs|exact HP|done].
Qed.
Lemma tick_runs ms ctx : accounts_ok ctx -> runs o any accounts_ok (pppoe_server_periodic_tick ms ctx).
Proof.
  intros H. unfold pppoe_server_periodic_tick. destruct (negb _); [by apply runs_ret|]. destruct (_ <? 5000); [by apply runs_ret|].
  eapply (runs_bind _ _ (fun _ => True)); [run_step|intros now _].
  eapply (runs_bind _ _ (fun _ => True)).
  { destruct (lapsed _ _); [|by apply runs_ret]. eapply (runs_bind _ _ (fun _ => True)); [apply secrets_runs|intros ? _; by apply runs_ret]. }
  intros ? _. eapply (runs_weaken _ any); [apply kick_runs; [done|apply H]|done|]. intros c Hc. by apply (same_tables_ok (checked_at ms ctx)).
Qed.
Lemma perform_runs op ctx : accounts_ok ctx -> runs o any accounts_ok (perform op ctx).
Proof.
  intros H. destruct op; cbn [perform]; try apply context_of_runs.
  - by apply set_user_runs.
  - by apply delete_user_runs.
  - by apply renew_user_runs.
  - by apply toggle_user_runs.
  - apply runs_ret. unfold pppoe_server_set_profile. destruct (empty _); [done|]. destruct (put_profile _ _) eqn:E; [|done].
    apply with_profiles_ok; [done|]. eapply put_profile_length; [apply H|exact E].
  - apply runs_ret. unfold pppoe_server_delete_profile. destruct (empty _); [done|]. destruct (find_profile _ _) as [[i p]|]; [|done].
    apply with_profiles_ok; [done|]. etrans; [|apply H]. apply inj_le, sublist_length, sublist_delete.
  - apply runs_ret. unfold pppoe_server_rename_profile. destruct (_ || _); [done|]. split; [apply rename_ok, H|apply H].
  - by apply bulk_import_runs.
  - eapply (runs_weaken _ any); [apply get_sessions_runs, H|done|]. intros r [_ Hr]. by eapply same_tables_ok.
  - by apply tick_runs.
Qed.
Lemma perform_all_runs ops ctx : accounts_ok ctx -> runs o any accounts_ok (perform_all ops ctx).
Proof.
  revert ctx. induction ops as [|op ops IH]; intros ctx H; cbn [perform_all]; [by apply runs_ret|].
  eapply runs_bind; [by apply perform_runs|]. exact IH.
Qed.
End Invariant.

(** ** The secrets follow the accounts *)

Definition last_secrets (t : trace) : option cstring :=
  fold_left (fun a c => match c with WriteFile p x => if bool_decide (p = CHAP_SECRETS) then Some x else a | _ => a end) t None.
Definition not_secrets (c : call) : Prop := match c with WriteFile p _ => p <> CHAP_SECRETS | _ => True end.
(** The file that was written last lists the accounts as of some earlier moment. *)
Definition in_step (o : os) (us : list pppoe_user_t) (t : trace) : Prop :=
  exists t1, extends t1 t /\ last_secrets t = Some (secrets_text (os_time o t1) us).

Lemma last_secrets_app t u : Forall not_secrets u -> last_secrets (t ++ u) = last_secrets t.
Proof.
  intros H. unfold last_secrets. rewrite fold_left_app. generalize (fold_left (B := call) (fun (a : option cstring) c => match c with WriteFile p x => if bool_decide (p = CHAP_SECRETS) then Some x else a | _ => a end) t None).
  induction H as [|c u Hc Hu IH]; intros a; cbn [fold_left]; [done|]. rewrite <- IH. destruct c; try done. cbn in Hc. by rewrite bool_decide_false.
Qed.
Lemma system_not_secrets c : is_system c -> not_secrets c.
Proof. by destruct c. Qed.

Section InStep.
Context (o : os) (Hchap : forall t, os_create o t CHAP_SECRETS = true).

Lemma in_step_after {A} (m : sys A) us t (Q : A -> Prop) : runs o not_secrets Q m -> in_step o us t -> in_step o us (m o t).2.
Proof.
  intros Hm (t1 & He & Hl). destruct (Hm t) as (u & -> & Hu & _). exists t1. split; [|by rewrite last_secrets_app].
  etrans; [exact He|]. by exists u.
Qed.

(** The file is rewritten with the accounts of the moment. *)
Lemma secrets_written cfg t :
  exists u, (write_pppoe_secrets cfg o t).2 = t ++ u /\ last_secrets (t ++ u) = Some (secrets_text (os_time o t) (ps_users cfg)).
Proof.
  unfold write_pppoe_secrets, can_create, time_now, ask, do_call, mbind, sys_bind, mret, sys_ret. cbn beta iota. rewrite Hchap.
  cbn beta iota delta [negb andb]. set (x := WriteFile CHAP_SECRETS _).
  assert (Hx : last_secrets (t ++ [x]) = Some (secrets_text (os_time o t) (ps_users cfg))).
  { unfold last_secrets. rewrite fold_left_app. cbn -[secrets_text CHAP_SECRETS]. by rewrite bool_decide_true. }
  destruct (os_create o t PAP_SECRETS); cbn -[secrets_text CHAP_SECRETS PAP_SECRETS last_secrets]; [|by exists [x]].
  exists [x; WriteFile PAP_SECRETS (secrets_text (os_time o t) (ps_users cfg))]. split; [by rewrite <- app_assoc|].
  change [x; ?y] with ([x] ++ [y]). rewrite app_assoc, last_secrets_app; [done|]. by repeat constructor.
Qed.

Lemma stored_in_step {A} cfg (k : sys A) (Q : A -> Prop) t :
  runs o not_secrets Q k ->
  in_step o (ps_users cfg) ((write_pppoe_secrets cfg;; k) o t).2 /\ Q ((write_pppoe_secrets cfg;; k) o t).1.
Proof.
  intros Hk. unfold mbind, sys_bind. destruct (secrets_written cfg t) as (u & E & Hu).
  destruct (write_pppoe_secrets cfg o t) as [z t']. cbn in E. subst t'. split; [|by eapply runs_result].
  eapply in_step_after; [exact Hk|]. exists t. split; [by exists u|done].
Qed.

Lemma reconnect_tables (b : bool) name ctx :
  psc_history ctx = [] ->
  runs o not_secrets (fun r => same_tables ctx r.2) (if b then ctx ← reconnect_user name ctx; mret (0, ctx) else mret (0, ctx)).
Proof.
  intros Hh. destruct b; [|by apply runs_ret]. eapply runs_bind.
  - eapply runs_weaken; [by apply reconnect_runs|exact system_not_secrets|]. intros c Hc. exact Hc.
  - intros c Hc. by apply runs_ret.
Qed.
Definition users_of (ctx : pppoe_server_ctx) : list pppoe_user_t := ps_users (psc_server ctx).
Lemma same_tables_users ctx ctx' : same_tables ctx ctx' -> users_of ctx' = users_of ctx.
Proof. intros [E _]. unfold users_of, psc_server. by rewrite E. Qed.

(** The operations that store the table [ctx] and then only drop sessions. *)
Lemma stored_users ctx (b : bool) name t :
  psc_history ctx = [] ->
  let r := (write_pppoe_secrets (psc_server ctx);; if b then ctx ← reconnect_user name ctx; mret (0, ctx) else mret (0, ctx)) o t in
  in_step o (users_of r.1.2) r.2.
Proof.
  intros Hh. cbn zeta. destruct (stored_in_step (psc_server ctx) _ _ t (reconnect_tables b name ctx Hh)) as [H Hs].
  by rewrite (same_tables_users _ _ Hs).
Qed.

Lemma rename_secrets now old new us : secrets_text now (follow_rename old new <$> us) = secrets_text now us.
Proof.
  unfold secrets_text. do 2 f_equal. induction us as [|u us IH]; [done|]. rewrite fmap_cons, !filter_cons.
  assert (E1 : user_listed now (follow_rename old new u) = user_listed now u) by (unfold follow_rename; by destruct (str_eq _ _)).
  assert (E2 : secret_line (follow_rename old new u) = secret_line u).
  { unfold follow_rename. destruct (str_eq _ _); [|reflexivity]. unfold secret_line, set_profile_name.
    cbn [pu_username pu_password pu_static_ip]. reflexivity. }
  rewrite E1. destruct (decide _); [|done]. rewrite !fmap_cons, IH. by rewrite E2.
Qed.

Lemma context_of_eq {A B} (m : sys (A * B)) t : context_of m o t = ((m o t).1.2, (m o t).2).
Proof. unfold context_of, mbind, sys_bind. by destruct (m o t). Qed.

Definition tick_due (ms : Z) (ctx : pppoe_server_ctx) : Prop :=
  ps_enabled (psc_server ctx) = true /\ 5000 <= u64 (ms - psc_last_check_ms ctx).
Lemma tick_cases ms ctx t :
  (~ tick_due ms ctx /\ pppoe_server_periodic_tick ms ctx o t = (ctx, t)) \/
  (tick_due ms ctx /\
   pppoe_server_periodic_tick ms ctx o t =
     (if lapsed (os_time o t) ctx then (write_pppoe_secrets (psc_server ctx);; kick_sessions (os_time o t) (checked_at ms ctx)) o t
      else kick_sessions (os_time o t) (checked_at ms ctx) o t)).
Proof.
  unfold pppoe_server_periodic_tick, tick_due. destruct (ps_enabled _); [|left; by split; [intros []|]]. cbn [negb].
  destruct (Z.ltb_spec (u64 (ms - psc_last_check_ms ctx)) 5000); [left; split; [lia|done]|]. right. split; [done|].
  unfold time_now, ask. unfold mbind at 1, sys_bind at 1. change (lapsed (os_time o t) (checked_at ms ctx)) with (lapsed (os_time o t) ctx).
  destruct (lapsed _ _); [|reflexivity]. change (psc_server (checked_at ms ctx)) with (psc_server ctx). unfold mbind, sys_bind.
  by destruct (write_pppoe_secrets _ o t).
Qed.

Lemma tick_in_step ms ctx t :
  psc_history ctx = [] -> in_step o (users_of ctx) t ->
  let r := pppoe_server_periodic_tick ms ctx o t in in_step o (users_of r.1) r.2.
Proof.
  intros Hh H. cbn zeta. destruct (tick_cases ms ctx t) as [[_ ->]|[_ ->]]; [done|].
  pose proof (kick_runs o _ (os_time o t) (checked_at ms ctx) system_not_secrets Hh) as Hk. destruct (lapsed _ _).
  - destruct (stored_in_step (psc_server ctx) _ _ t Hk) as [H1 H2]. rewrite (same_tables_users _ _ H2). exact H1.
  - rewrite (same_tables_users _ _ (runs_result _ _ _ _ t Hk)). eapply in_step_after; [exact Hk|exact H].
Qed.

Lemma bulk_in_step us ps b ctx t :
  let r := pppoe_server_bulk_import us ps b ctx o t in in_step o (users_of r.1.2) r.2.
Proof.
  unfold pppoe_server_bulk_import, time_now. cbn zeta. rewrite bind_ask. destruct (fold_left (import_user _) us _) as [ps' us']. set (ctx1 := with_users _ _).
  assert (Hk : runs o not_secrets (fun r => r.2 = ctx1) (setup_pppoe_scripts (psc_server ctx1);; mret (0, ctx1))).
  { eapply (runs_bind _ _ (fun _ => True)); [by apply scripts_runs; [exact system_not_secrets|..]|]. intros ? _. by apply runs_ret. }
  destruct (stored_in_step (psc_server ctx1) _ _ t Hk) as [H1 ->]. exact H1.
Qed.

Lemma perform_in_step op ctx t :
  accounts_ok ctx -> in_step o (users_of ctx) t -> let r := perform op ctx o t in in_step o (users_of r.1) r.2.
Proof.
  intros [_ Hh] H. destruct op as [u|n|n d p|n b|p|n|a b|us ps b|max|ms]; cbn [perform]; rewrite ?context_of_eq; cbn zeta; cbn [fst snd].
  - unfold pppoe_server_set_user, time_now. destruct (empty _); [done|]. rewrite bind_ask. destruct (put_user _ _); [|done].
    by apply stored_users.
  - unfold pppoe_server_delete_user. destruct (empty n); [done|]. destruct (find_user n _) as [[i u]|]; [|done].
    by apply (stored_users (with_users _ ctx) false []).
  - unfold pppoe_server_renew_user, time_now. destruct (empty n); [done|]. destruct (find_user n _) as [[i u]|]; [|done].
    rewrite bind_ask. by apply stored_users.
  - unfold pppoe_server_toggle_user. destruct (empty n); [done|]. destruct (find_user n _) as [[i u]|]; [|done].
    destruct b; [by apply (stored_users (with_users _ ctx) false n)|by apply (stored_users (with_users _ ctx) true n)].
  - unfold pppoe_server_set_profile. destruct (empty _); [done|]. by destruct (put_profile _ _).
  - unfold pppoe_server_delete_profile. destruct (empty _); [done|]. by destruct (find_profile _ _) as [[i p]|].
  - unfold pppoe_server_rename_profile. destruct (_ || _); [done|]. destruct H as (t1 & He & Hl). exists t1. split; [exact He|].
    etrans; [exact Hl|]. f_equal. symmetry. apply rename_secrets.
  - apply bulk_in_step.
  - pose proof (get_sessions_runs o not_secrets ctx max Hh) as Hk. destruct (runs_result _ _ _ _ t Hk) as [_ Hs].
    rewrite (same_tables_users _ _ Hs). by eapply in_step_after.
  - by apply tick_in_step.
Qed.
Lemma perform_all_in_step ops ctx t :
  accounts_ok ctx -> in_step o (users_of ctx) t -> let r := perform_all ops ctx o t in in_step o (users_of r.1) r.2.
Proof.
  revert ctx t. induction ops as [|op ops IH]; intros ctx t Hok H; cbn [perform_all]; [done|].
  pose proof (perform_in_step op ctx t Hok H) as H'. pose proof (runs_result _ _ _ _ t (perform_runs o op ctx Hok)) as Hok'.
  unfold mbind, sys_bind. destruct (perform op ctx o t) as [ctx' t']. by apply IH.
Qed.
End InStep.

(** ** The tick drops exactly the sessions that must leave *)

Definition drop_calls (s : pppoe_active_session_t) : trace := [System (kill_cmd (pas_ifname s)); System (forget_cmd (pas_ifname s))].

Lemma snprintf_head n c fmt args : 1 < n -> c <> 37 -> snprintf n (c :: fmt) args <> [].
Proof.
  intros Hn Hc. unfold snprintf, str_trunc. destruct (Z.to_nat (n - 1)) eqn:E; [lia|].
  assert (Hs : exists r, sprintf (c :: fmt) args = c :: r).
  { exists (sprintf fmt args). cbn [sprintf]. repeat (case_match; try done; try lia). }
  destruct Hs as [r ->]. done.
Qed.
Lemma kill_cmd_some dev : kill_cmd dev <> [].
Proof. unfold kill_cmd. by apply (snprintf_head 256 112). Qed.
Lemma forget_cmd_some dev : forget_cmd dev <> [].
Proof. unfold forget_cmd. by apply (snprintf_head 256 114). Qed.
Lemma safe_system_trace cmd o t : cmd <> [] -> safe_system cmd o t = (tt, t ++ [System cmd]).
Proof. intros H. unfold safe_system. by rewrite bool_decide_false. Qed.

Lemma disconnect_trace dev o t :
  dev <> [] -> (pppoe_server_disconnect_session dev o t).2 = t ++ [System (kill_cmd dev); System (forget_cmd dev)].
Proof.
  intros H. unfold pppoe_server_disconnect_session, empty. rewrite bool_decide_false by done.
  generalize (kill_cmd_some dev), (forget_cmd_some dev). generalize (kill_cmd dev), (forget_cmd dev). intros a b Ha Hb.
  unfold mbind, sys_bind. rewrite !safe_system_trace by done. cbn [snd mret sys_ret]. by rewrite <- app_assoc.
Qed.
Lemma disconnect_where_trace bad l o t :
  Forall idle l -> (disconnect_where bad l o t).2 = t ++ concat (drop_calls <$> filter (fun s => bad s = true) l).
Proof.
  intros H. revert t. induction H as [|s l (_ & _ & Hs) Hl IH]; intros t; cbn [disconnect_where]; [by rewrite app_nil_r|].
  unfold mbind, sys_bind. rewrite filter_cons. destruct (bad s); [rewrite decide_True by done|rewrite decide_False by done].
  - pose proof (disconnect_trace (pas_ifname s) o t Hs) as E. destruct (pppoe_server_disconnect_session _ o t) as [z t']. cbn in E.
    cbn [mret sys_ret]. rewrite IH, E, <- app_assoc. reflexivity.
  - apply IH.
Qed.
Lemma kick_trace now ctx o t :
  psc_history ctx = [] ->
  let l := (pppoe_server_get_sessions ctx MAX_PPPOE_SESSIONS o t).1.1 in
  (kick_sessions now ctx o t).2 = t ++ concat (drop_calls <$> filter (fun s => must_leave now (users_of ctx) s = true) l).
Proof.
  intros Hh. cbn zeta. destruct (get_sessions_runs o (fun _ => False) ctx MAX_PPPOE_SESSIONS Hh t) as (u & E & Hu & Hl & _).
  destruct u; [|by inversion Hu]. rewrite app_nil_r in E. unfold kick_sessions, mbind, sys_bind.
  destruct (pppoe_server_get_sessions ctx _ o t) as [[l c] t']. cbn in E, Hl |- *. subst t'.
  rewrite <- (disconnect_where_trace _ _ o t Hl). unfold users_of. by destruct (disconnect_where _ l o t).
Qed.

(** ** Correctness *)

(** The account tables stay well formed: user names stay unique and non-empty and both tables stay within
    their arrays, whatever sequence of operations runs on whatever system. *)
Theorem accounts_stay_ok o ops ctx t : accounts_ok ctx -> accounts_ok (perform_all ops ctx o t).1.
Proof. intros H. by eapply runs_result, perform_all_runs. Qed.


(** A subscriber of this name has an account, which is disabled or has ended. *)
Definition barred (now : Z) (us : list pppoe_user_t) (s : pppoe_active_session_t) : Prop :=
  exists u, u ∈ us /\ pu_username u = pas_username s /\
    (pu_enabled u = false \/ (pu_expires_at u <> 0 /\ pu_expires_at u <= now)).

Lemma must_leave_barred now us s :
  names_unique us -> is_u64 now -> Forall (fun u => is_u64 (pu_expires_at u)) us -> must_leave now us s = true <-> barred now us s.
Proof.
  intros Hn Hnow Hus. unfold must_leave, barred. destruct (find_user (pas_username s) us) as [[i u]|] eqn:E.
  - apply find_user_Some in E as [Hi Hu]. pose proof (Forall_lookup_1 _ _ _ _ Hus Hi) as Hx. cbn in Hx.
    assert (Hb : negb (pu_enabled u) || user_expired now u = true <-> pu_enabled u = false \/ pu_expires_at u <> 0 /\ pu_expires_at u <= now).
    { unfold user_expired. rewrite u64_small by done. rewrite orb_true_iff, negb_true_iff, andb_true_iff, Z.ltb_lt, Z.leb_le. unfold is_u64 in *.
      split; (intros [H|H]; [by left|right; lia]). }
    rewrite Hb. split; [intros H; exists u; split_and!; [by eapply list_elem_of_lookup_2|done|done]|].
    intros (v & Hv & Hvn & H). apply list_elem_of_lookup in Hv as [j Hj]. rewrite <- Hu in Hvn.
    assert (j = i) as ->; [|by simplify_eq]. eapply (NoDup_lookup _ _ _ _ Hn); rewrite list_lookup_fmap; [by rewrite Hj|by rewrite Hi, Hvn].
  - split; [done|]. intros (v & Hv & Hvn & _). exfalso. apply find_user_None in E. apply E. rewrite <- Hvn. apply list_elem_of_fmap. by exists v.
Qed.

Lemma tick_exact o ms ctx t :
  (forall t, os_create o t CHAP_SECRETS = true) -> accounts_ok ctx -> in_step o (users_of ctx) t -> tick_due ms ctx ->
  let now := os_time o t in
  exists t1,
    let gone := filter (fun s => must_leave now (users_of ctx) s = true)
                  (pppoe_server_get_sessions (checked_at ms ctx) MAX_PPPOE_SESSIONS o t1).1.1 in
    extends t t1 /\
    (pppoe_server_periodic_tick ms ctx o t).2 = t1 ++ concat (drop_calls <$> gone) /\
    exists t0, last_secrets t1 = Some (secrets_text (os_time o t0) (users_of ctx)) /\
      Forall (fun u => user_listed (os_time o t0) u = true -> user_expired now u = false) (users_of ctx).
Proof.
  intros Hc [_ Hh] (t0 & He & Hl) Hdue now. destruct (tick_cases o ms ctx t) as [[Hn _]|[_ ->]]; [done|]. fold now.
  destruct (lapsed now ctx) eqn:Hlap.
  - destruct (secrets_written o Hc (psc_server ctx) t) as (u & E & Hu). exists (t ++ u). split_and!; [by exists u| |].
    + unfold mbind, sys_bind. destruct (write_pppoe_secrets _ o t) as [z t']. cbn in E. subst t'.
      by apply (kick_trace now (checked_at ms ctx) o (t ++ u)).
    + exists t. split; [exact Hu|]. apply Forall_forall. intros x _ Hx. apply andb_prop in Hx as [_ Hx]. by apply negb_true_iff in Hx.
  - exists t. split_and!; [done|by apply (kick_trace now (checked_at ms ctx))|]. exists t0. split; [exact Hl|].
    apply Forall_forall. intros x Hin Hx. unfold user_listed in Hx. destruct (user_expired now x) eqn:Ex; [|done].
    apply andb_prop in Hx as [Hx _]. apply andb_prop in Hx as [Hx _]. exfalso. apply eq_true_false_abs with (2 := Hlap).
    apply existsb_exists. exists x. split; [by apply list_elem_of_In|]. by rewrite Hx, Ex.
Qed.

(** C14.  A tick that is due rewrites the secrets when an enabled account has expired, so that the file lists
    nobody who is expired at that moment, and then drops exactly the sessions whose account is disabled or
    expired, in order, and no other. *)
Theorem tick_enforces_expiry o ms ctx t :
  (forall t, os_create o t CHAP_SECRETS = true) -> accounts_ok ctx -> in_step o (users_of ctx) t -> tick_due ms ctx ->
  is_u64 (os_time o t) -> Forall (fun u => is_u64 (pu_expires_at u)) (users_of ctx) ->
  exists t1 gone,
    let sessions := (pppoe_server_get_sessions (checked_at ms ctx) MAX_PPPOE_SESSIONS o t1).1.1 in
    extends t t1 /\ sublist gone sessions /\
    (forall s, s ∈ gone <-> s ∈ sessions /\ barred (os_time o t) (users_of ctx) s) /\
    (pppoe_server_periodic_tick ms ctx o t).2 = t1 ++ concat (drop_calls <$> gone) /\
    exists t0, last_secrets t1 = Some (secrets_text (os_time o t0) (users_of ctx)) /\
      Forall (fun u => user_listed (os_time o t0) u = true -> pu_expires_at u = 0 \/ os_time o t < pu_expires_at u) (users_of ctx).
Proof.
  intros Hc Hok Hin Hdue Hnow Hus. destruct (tick_exact o ms ctx t Hc Hok Hin Hdue) as (t1 & He & Ht & t0 & Hl & Hx).
  eexists t1, (filter (fun s => must_leave (os_time o t) (users_of ctx) s = true) _).
  split_and!; [exact He|apply sublist_filter| |exact Ht|].
  - intros s. rewrite list_elem_of_filter, must_leave_barred by (done || apply Hok). tauto.
  - exists t0. split; [exact Hl|]. rewrite Forall_forall in Hx, Hus |- *. intros u Hu Hlist. specialize (Hx u Hu Hlist). specialize (Hus u Hu).
    unfold user_expired in Hx. rewrite u64_small in Hx by done. apply andb_false_iff in Hx. rewrite Z.ltb_ge, Z.leb_gt in Hx. cint.
Qed.

Lemma renewed_max now n u p :
  is_u64 now -> is_u64 (pu_expires_at u) -> 0 <= n -> Z.max now (pu_expires_at u) + n * 86400 < 18446744073709551616 ->
  renewed now n (switched p u) = set_enabled true (set_expires (Z.max now (pu_expires_at u) + n * 86400) (switched p u)).
Proof.
  intros Hn Hu Hd Hb. assert (E : pu_expires_at (switched p u) = pu_expires_at u) by (unfold switched; by destruct (switches p u)).
  unfold renewed, days. rewrite E. do 2 f_equal. rewrite (u64_small now) by done.
  destruct (Z.eqb_spec (pu_expires_at u) 0), (Z.leb_spec (pu_expires_at u) now); cbn [orb]; cint.
Qed.
Lemma renew_tail_runs o (b : bool) name ctx :
  psc_history ctx = [] ->
  runs o (fun _ => True) (fun r => r.1 = 0 /\ same_tables ctx r.2)
    (write_pppoe_secrets (psc_server ctx);; if b then ctx ← reconnect_user name ctx; mret (0, ctx) else mret (0, ctx)).
Proof.
  intros Hh. eapply (runs_bind _ _ (fun _ => True)); [apply secrets_runs|intros ? _]. destruct b; [|by apply runs_ret].
  eapply runs_bind; [eapply (runs_weaken _ is_system); [by apply reconnect_runs|done|intros c Hc; exact Hc]|]. intros c Hc. by apply runs_ret.
Qed.

(** Renewing an account extends it from the later of now and its present end, by the days asked for, else
    by the validity of its profile, else by thirty days; it is enabled, and no other account changes. *)
Theorem renewal_extends o t ctx name n p i u :
  accounts_ok ctx -> find_user name (users_of ctx) = Some (i, u) -> is_u64 (os_time o t) -> is_u64 (pu_expires_at u) ->
  let d := renewal_days (ps_profiles (psc_server ctx)) (pu_profile (switched p u)) n in
  let till := Z.max (os_time o t) (pu_expires_at u) + d * 86400 in
  0 <= d -> till < 18446744073709551616 ->
  let r := pppoe_server_renew_user name n p ctx o t in
  r.1.1 = 0 /\ users_of r.1.2 = <[i := set_enabled true (set_expires till (switched p u))]> (users_of ctx).
Proof.
  intros [Hok Hh] Hf Ht Hu d till Hd Htill. cbn zeta. pose proof (find_user_Some _ _ _ _ Hf) as [Hi Hname].
  assert (Hne : name <> []) by (rewrite <- Hname; by eapply (Forall_lookup_1 _ _ _ _ (to_named _ _ Hok))).
  unfold pppoe_server_renew_user, empty, time_now. rewrite bool_decide_false by done. unfold users_of in Hf. rewrite Hf, bind_ask.
  rewrite renewed_max by done. fold d till. set (ctx1 := with_users _ _).
  pose proof (renew_tail_runs o (switches p u) name ctx1 Hh t) as (v & _ & _ & -> & Hs). split; [done|]. by rewrite (same_tables_users _ _ Hs).
Qed.

(** The traffic rates of the sessions are always zero: the history that they are computed from has no
    entry in any state that the operations reach. *)
Theorem session_rates_never_known o ops ctx t t' max :
  accounts_ok ctx ->
  Forall (fun s => pas_rx_rate_kbps s = 0 /\ pas_tx_rate_kbps s = 0)
    (pppoe_server_get_sessions (perform_all ops ctx o t).1 max o t').1.1.
Proof.
  intros H. pose proof (runs_result _ _ _ _ t (perform_all_runs o ops ctx H)) as [_ Hh].
  destruct (runs_result _ _ _ _ t' (get_sessions_runs o (fun _ => True) _ max Hh)) as [Hl _].
  eapply Forall_impl; [exact Hl|]. by intros s (H1 & H2 & _).
Qed.

(** The lines between the marks of the here-document.  The mark is quoted, so that the shell copies them
    without expansion. *)
Definition hook_session : cstring :=
  lines (bytes_of_string <$>
    ["IFNAME=$1"; "TTY=$2"; "SPEED=$3"; "LOCAL_IP=$4"; "REMOTE_IP=$5"; "IPPARAM=$6"; "USERNAME=${PEERNAME:-$USER}";
     "CONNECT_TIME=$(date +%s)"; "MAC=${MACREMOTE:-unknown}"]%string).
Definition hook_name : cstring := "${PEERNAME:-$USER}".

Lemma lines_app a b : lines (a ++ b) = lines a ++ lines b.
Proof. unfold lines. by rewrite fmap_app, concat_app. Qed.

(** The hook that records a session quotes the mark of its here-document, so that the file holds the names
    of the shell variables: the session read back is of the interface [$1] and the subscriber
    [${PEERNAME:-$USER}], and a tick drops it only if an account has that very name. *)
Theorem hook_records_no_subscriber cfg now us :
  (exists pre post,
     ip_up_text cfg = pre ++ dq "cat << 'EOF' > `$SESSION_FILE`" ++ [10] ++ hook_session ++ bytes_of_string "EOF" ++ [10] ++ post) /\
  pas_ifname (parse_session hook_session) = bytes_of_string "$1" /\
  pas_username (parse_session hook_session) = hook_name /\
  pas_connect_time (parse_session hook_session) = 0 /\
  (must_leave now us (parse_session hook_session) = true -> hook_name ∈ pu_username <$> us).
Proof.
  assert (Hu : pas_username (parse_session hook_session) = hook_name) by (vm_compute; reflexivity).
  split_and!; [|by vm_compute|exact Hu|by vm_compute|].
  - unfold ip_up_text. rewrite !lines_app. generalize (lines (concat (shaping_lines <$> ps_profiles cfg))). intros shaping.
    match goal with |- exists pre post, _ ++ shaping ++ ?r = _ => generalize r end. intros r.
    exists (lines (dq <$> ["#!/bin/sh"; "# FluxWAN Broadband Dynamic Session Hook"; "mkdir -p /run/fluxwan/pppoe";
                           "SESSION_FILE=`/run/fluxwan/pppoe/$1.session`"]%string)), (shaping ++ r).
    rewrite !app_assoc. by do 2 f_equal.
  - unfold must_leave. rewrite Hu. destruct (find_user hook_name us) as [[i u]|] eqn:E; [|done]. intros _.
    apply find_user_Some in E as [Hi <-]. apply list_elem_of_fmap. exists u. split; [done|]. by eapply list_elem_of_lookup_2.
Qed.

(** The size of the buffer that the web server exports into, and the sizes of the fields of an account. *)
Definition csv_cap : Z := MAX_PPPOE_USERS * 256 + 2048.
Definition user_fits (u : pppoe_user_t) : bool :=
  (length (pu_username u) <=? 63)%nat && (length (pu_password u) <=? 63)%nat && (length (pu_profile u) <=? 63)%nat &&
  (length (pu_static_ip u) <=? 31)%nat && (length (pu_comment u) <=? 127)%nat.
Definition full_user (i : nat) : pppoe_user_t :=
  let id := dec (Z.of_nat i) in
  PppoeUser (id ++ replicate (63 - length id) 120) (replicate 63 119) (replicate 63 112) (replicate 31 49)
    (if decide (i = 1)%nat then [] else replicate 127 99) 0 0 true.
Definition full_users : list pppoe_user_t := full_user <$> seq 1 1930.

(** The export can report more bytes than its buffer has: a row may be longer than the 512 bytes that the
    loop keeps free, and the returned length counts it in full.  With 1930 accounts whose fields fit, the caller
    sends 29 bytes from behind its buffer. *)
Theorem export_reports_too_much local_time cfg :
  let cfg := set_ps_users full_users cfg in
  names_unique full_users /\ forallb user_fits full_users = true /\ Z.of_nat (length full_users) <= MAX_PPPOE_USERS /\
  fst <$> pppoe_server_export_csv local_time cfg csv_cap = Some (csv_cap + 29).
Proof.
  split_and!; [|by vm_compute|by vm_compute|].
  { unfold names_unique. apply (NoDup_fmap_1 atoi). replace (atoi <$> _) with (Z.of_nat <$> seq 1 1930) by (vm_compute; reflexivity).
    apply NoDup_fmap_2; [|apply NoDup_seq]. intros a b Hab. lia. }
  unfold pppoe_server_export_csv. vm_compute. reflexivity.
Qed.

(** ** Examples *)

Module PppoeDemo.

Definition late : pppoe_user_t := PppoeUser "late" "pw" "Standard_25M" [] [] 10 900 true.
Definition paying : pppoe_user_t := PppoeUser "paying" "pw" "Standard_25M" [] [] 10 5000 true.
Definition server : pppoe_server_config_t :=
  PppoeServerConfig true "dual" "eth0" [] [] [] [] [] 0 [] [] 0 0 (ps_radius (c_pppoe_server zero_config)) init_profiles [late; paying].
Definition ctx : pppoe_server_ctx := PppoeServerCtx (set_c_pppoe_server server zero_config) [] 0.

(** Every file can be written; the subscriber [late] is connected on [ppp0]. *)
Definition machine : os :=
  Os (fun _ p => if bool_decide (p = bytes_of_string "/run/fluxwan/pppoe/ppp0.session")
                 then Some (lines [bytes_of_string "IFNAME=ppp0"; bytes_of_string "USERNAME=late"]) else None)
    (fun _ _ => true) (fun _ _ => true) (fun _ _ => 3) (fun _ _ => true) (fun _ _ => None) (fun _ => (100, 0)) (fun _ => 1000)
    (fun _ _ => None) (fun _ _ => [bytes_of_string "ppp0.session"]) (fun _ => true) (fun _ _ _ _ => false)
    (fun _ _ => None) (fun _ _ => []) (fun _ _ => None) (fun _ _ => None) (fun _ => true) (fun _ _ => 0) (fun _ _ => true) (fun _ => 4242) (fun _ _ => false).
Abbreviation started := ((pppoe_server_start ctx machine []).2).

Lemma ctx_ok : accounts_ok ctx.
Proof. split; [|done]. split; [apply (bool_decide_unpack _); vm_compute; exact I|repeat constructor; discriminate|by vm_compute|by vm_compute]. Qed.
Lemma ctx_in_step : in_step machine (users_of ctx) started.
Proof. exists []. split; [exists started; exact eq_refl|]. vm_compute. reflexivity. Qed.

Lemma accounts_stay_ok_witness : accounts_ok (perform_all [DeleteUser "late"; BulkImport [late] [] false; Tick 9000] ctx machine []).1.
Proof. apply (accounts_stay_ok machine [DeleteUser "late"; BulkImport [late] [] false; Tick 9000] ctx []). exact ctx_ok. Defined.


Lemma tick_enforces_expiry_witness :
  exists t1 gone, extends started t1 /\
    (forall s, s ∈ gone <-> s ∈ (pppoe_server_get_sessions (checked_at 9000 ctx) MAX_PPPOE_SESSIONS machine t1).1.1
                          /\ barred 1000 [late; paying] s) /\
    (pppoe_server_periodic_tick 9000 ctx machine started).2 = t1 ++ concat (drop_calls <$> gone).
Proof.
  assert (Hdue : tick_due 9000 ctx) by (split; [reflexivity|]; vm_compute; discriminate).
  assert (Hnow : is_u64 (os_time machine started)) by (split; [discriminate|reflexivity]).
  assert (Hus : Forall (fun u => is_u64 (pu_expires_at u)) (users_of ctx)) by (repeat constructor; discriminate).
  destruct (tick_enforces_expiry machine 9000 ctx started (fun _ => eq_refl) ctx_ok ctx_in_step Hdue Hnow Hus)
    as (t1 & gone & H1 & _ & H2 & H3 & _).
  exists t1, gone. split; [exact H1|]. split; [exact H2|exact H3].
Defined.

Lemma renewal_extends_witness :
  let r := pppoe_server_renew_user "late" 0 None ctx machine [] in
  r.1.1 = 0 /\ users_of r.1.2 = [set_enabled true (set_expires (1000 + 30 * 86400) late); paying].
Proof.
  apply (renewal_extends machine [] ctx "late" 0 None 0 late);
    [exact ctx_ok|reflexivity|split; [discriminate|reflexivity]|split; [discriminate|reflexivity]|by vm_compute|by vm_compute].
Defined.

Lemma session_rates_never_known_witness :
  Forall (fun s => pas_rx_rate_kbps s = 0 /\ pas_tx_rate_kbps s = 0) (pppoe_server_get_sessions (perform_all [] ctx machine []).1 1024 machine []).1.1.
Proof. apply (session_rates_never_known machine [] ctx [] [] 1024). exact ctx_ok. Defined.

End PppoeDemo.
