(* ===== verification/WebImport.v ===== *)
(** * The web server: import of subscribers

    The dates, the CSV tables and the JSON documents that the import of PPPoE subscribers reads
    ([web_server.c], [parse_subscriber_expiration] to [parse_broadband_import_json], and the handler of
    [/api/v1/broadband/import]).  A table that [pppoe_server_export_csv] wrote is read back. *)

From Stdlib Require Import QArith.
From S2P Require Import Prelude Fluxwan Ipv4 CLib Json JsonText ProxyUri System Floats Wifi Samples Firewall NetApply WebCore.
From S2P Require Import ConfigLoad ConfigSave JsonBlocks ConfigSpec WebApi PppoeServer.
Open Scope Z_scope.

(** ** Numbers *)

(** What [strtod] returns: a finite number, infinity, or a value for which every comparison with a positive number fails. *)
Inductive number := Finite (q : Q) | Infinite | NotPositive.

(** [double] arithmetic rounds to 53 bits; numbers that are not positive are only compared. *)
Definition double_of (q : Q) : Q :=
  if Qnum q <=? 0 then q else
  let '(m, s) := round_bits 53 (Qnum q) (Zpos (Qden q)) in
  Qred ((m * 2 ^ Z.max 0 (- s)) # Z.to_pos (2 ^ Z.max 0 s)).

(** The exponent of a number, with the rest; without digits it is no exponent. *)
Definition scan_exponent (mark : Z) (s : cstring) : Z * cstring :=
  match s with
  | c :: t =>
      if tolower c =? mark then
        let '(sign, t) := match t with 45 :: t => (-1, t) | 43 :: t => (1, t) | t => (1, t) end in
        let '(n, v, rest) := digits_of t 0 0 in
        if n =? 0 then (0, s) else (sign * v, rest)
      else (0, s)
  | [] => (0, s)
  end.
Fixpoint hex_run (s : cstring) (n v : Z) : Z * Z * cstring :=
  match s with
  | c :: s' => match hex_val c with Some d => hex_run s' (n + 1) (16 * v + d) | None => (n, v, s) end
  | [] => (n, v, [])
  end.
Definition scale2 (m e : Z) : Q := if 0 <=? e then inject_Z (m * 2 ^ e) else Qred (m # Z.to_pos (2 ^ (- e))).
Definition signed (neg : bool) (q : Q) : number := if neg then NotPositive else Finite (double_of q).
(** [None]: the text does not start with digits. *)
Definition scan_decimal (s : cstring) : option (Q * cstring) :=
  let '(n, v, s) := digits_of s 0 0 in
  let '(k, v, s) := match s with 46 :: s => digits_of s 0 v | s => (0, v, s) end in
  if n + k =? 0 then None else let '(e, s) := scan_exponent 101 s in Some (scale10 v (e - k), s).
Definition scan_hexadecimal (s : cstring) : option (Q * cstring) :=
  match strip_prefix_case "0x" s with
  | None => None
  | Some s =>
      let '(n, v, s) := hex_run s 0 0 in
      let '(k, v, s) := match s with 46 :: s => hex_run s 0 v | s => (0, v, s) end in
      if n + k =? 0 then None else let '(e, s) := scan_exponent 112 s in Some (scale2 v (e - 4 * k), s)
  end.
(** The characters in parentheses after [nan] belong to it. *)
Fixpoint nan_chars (s : cstring) : option cstring :=
  match s with
  | c :: s => if c =? 41 then Some s else if isalnum c || (c =? 95) then nan_chars s else None
  | [] => None
  end.
Definition strtod (s : cstring) : number * cstring :=
  let '(neg, t) := match skip_spaces s with 45 :: t => (true, t) | 43 :: t => (false, t) | t => (false, t) end in
  let infinite := if neg then NotPositive else Infinite in
  match strip_prefix_case "infinity" t, strip_prefix_case "inf" t, strip_prefix_case "nan" t with
  | Some r, _, _ => (infinite, r)
  | _, Some r, _ => (infinite, r)
  | _, _, Some r => (NotPositive, match r with 40 :: q => default r (nan_chars q) | _ => r end)
  | None, None, None =>
      match scan_hexadecimal t, scan_decimal t with
      | Some (q, r), _ => (signed neg q, r)
      | None, Some (q, r) => (signed neg q, r)
      | None, None => (NotPositive, s)
      end
  end.

(** ** Dates *)

Fixpoint skip_date_start (s : cstring) : cstring :=
  match s with
  | c :: s' => if (c =? 32) || (c =? 9) || (c =? 34) then skip_date_start s' else s
  | [] => []
  end.
Definition after (c : Z) (s : cstring) : option cstring := match s with x :: s => if x =? c then Some s else None | [] => None end.
(** [sscanf("%d-%d-%d %d:%d:%d")] with three numbers or more, the others 0; [sep] stands between the first three. *)
Definition scan_date (sep : Z) (s : cstring) : option (Z * Z * Z * (Z * Z * Z)) :=
  '(y, s) ← scan_dec s; s ← after sep s; '(m, s) ← scan_dec s; s ← after sep s; '(d, s) ← scan_dec s;
  Some (y, m, d,
    match scan_dec s with
    | None => (0, 0, 0)
    | Some (h, s) =>
        match s ← after 58 s; scan_dec s with
        | None => (h, 0, 0)
        | Some (mi, s) => match s ← after 58 s; scan_dec s with None => (h, mi, 0) | Some (sec, _) => (h, mi, sec) end
        end
    end).

Section Importing.
(** [mktime] of year, month, day, hour, minute and second in the time zone of the router, -1 for a failure. *)
Context (mktime : Z * Z * Z * (Z * Z * Z) -> Z).

Definition qtrunc (q : Q) : Z := Qnum q / Zpos (Qden q).
Definition qlt (a b : Q) : bool := negb (Qle_bool b a).
(** The integer that a positive [double] is converted to; [None] where the conversion is undefined. *)
Definition to_u64 (q : Q) : option Z := if qtrunc q <? 18446744073709551616 then Some (qtrunc q) else None.
(** The shorter formats of the code match only where the longer ones have matched. *)
Definition expiry_date (raw : cstring) : Z :=
  match (match scan_date 45 raw with Some d => Some d | None => scan_date 47 raw end) with
  | Some d => if 0 <? mktime d then mktime d else 0
  | None => 0
  end.
Definition parse_subscriber_expiration (raw : cstring) : option Z :=
  match skip_date_start raw with
  | [] => Some 0
  | raw =>
      let '(v, rest) := strtod raw in
      let ends := match rest with [] => true | c :: _ => (c =? 34) || (c =? 32) end in
      match v with
      | Infinite => if ends then None else Some (expiry_date raw)
      | NotPositive => Some (expiry_date raw)
      | Finite q =>
          if qlt 1000000000 q && ends then to_u64 q
          else if Qle_bool 35000 q && Qle_bool q 80000 && ends then to_u64 (double_of ((q - 25569) * 86400))
          else Some (expiry_date raw)
      end
  end.

(** ** Tables *)

Definition csv_end (c : Z) : bool := (c =? 44) || (c =? 13) || (c =? 10).
(** The text in quotes, where two quotes stand for one, and what follows. *)
Fixpoint quoted_field (s : cstring) : cstring * cstring :=
  match s with
  | [] => ([], [])
  | c :: s' =>
      if c =? 34 then
        match s' with
        | 34 :: s'' => let '(t, r) := quoted_field s'' in (34 :: t, r)
        | _ => ([], s')
        end
      else let '(t, r) := quoted_field s' in (c :: t, r)
  end.
Fixpoint plain_field (s : cstring) : cstring * cstring :=
  match s with
  | [] => ([], [])
  | c :: s' => if csv_end c then ([], s) else let '(t, r) := plain_field s' in (c :: t, r)
  end.
Definition csv_field (p : cstring) : cstring * cstring :=
  match skip_tabs p with
  | 34 :: p => let '(t, r) := quoted_field p in (str_trunc 128 t, (plain_field r).2)
  | p => let '(t, r) := plain_field p in (str_trunc 128 t, r)
  end.
Fixpoint csv_fields (max_fields : nat) (p : cstring) : list cstring :=
  match max_fields, p with
  | S n, _ :: _ =>
      let '(t, r) := csv_field p in
      t :: match r with 44 :: r => csv_fields n r | _ => [] end
  | _, _ => []
  end.
Definition parse_csv_line (line : cstring) : list cstring := csv_fields 32 line.

Record columns := Columns { col_user : Z; col_pass : Z; col_prof : Z; col_ip : Z; col_exp : Z; col_en : Z; col_notes : Z; col_fn : Z; col_ln : Z; col_phone : Z }.
Definition no_columns : columns := Columns (-1) (-1) (-1) (-1) (-1) (-1) (-1) (-1) (-1) (-1).
Definition is_named (f : cstring) (names : list string) : bool := existsb (fun n => strcase_eq f (bytes_of_string n)) names.
Definition header_column (c : columns) (i : Z) (f : cstring) : columns :=
  let '(Columns u p pr ip e en n fn ln ph) := c in
  if is_named f ["username"; "user"]%string then Columns i p pr ip e en n fn ln ph
  else if is_named f ["password"; "ct_password"; "pass"]%string then Columns u i pr ip e en n fn ln ph
  else if is_named f ["profile_name"; "profile"; "group_name"]%string then Columns u p i ip e en n fn ln ph
  else if is_named f ["static_ip"; "ip"]%string then Columns u p pr i e en n fn ln ph
  else if is_named f ["expiration"; "expires_at"; "expiry"]%string then Columns u p pr ip i en n fn ln ph
  else if is_named f ["enabled"; "status"; "active"]%string then Columns u p pr ip e i n fn ln ph
  else if is_named f ["notes"; "comment"]%string then Columns u p pr ip e en i fn ln ph
  else if is_named f ["firstname"]%string then Columns u p pr ip e en n i ln ph
  else if is_named f ["lastname"]%string then Columns u p pr ip e en n fn i ph
  else if is_named f ["phone"]%string then Columns u p pr ip e en n fn ln i
  else c.
Fixpoint header_columns (c : columns) (i : Z) (fields : list cstring) : columns :=
  match fields with
  | [] => c
  | f :: fields => header_columns (header_column c i f) (i + 1) fields
  end.
(** A table without a header has its columns in a fixed order; the line is then a subscriber. *)
Definition default_columns (c : columns) : columns := Columns 0 1 2 5 3 (col_en c) 4 (col_fn c) (col_ln c) (col_phone c).

Definition column (fields : list cstring) (i : Z) : option cstring := if 0 <=? i then fields !! Z.to_nat i else None.
Definition safe_str_concat (dst src : cstring) (max_len : Z) : cstring := str_trunc max_len (dst ++ src).
(** A name put together from the columns for it. *)
Definition with_part (sep : string) (name : cstring) (part : option cstring) : cstring :=
  match part with
  | Some ((_ :: _) as p) => safe_str_concat (if empty name then name else safe_str_concat name sep 128) p 128
  | _ => name
  end.
Definition name_comment (c : columns) (fields : list cstring) : cstring :=
  let name := match column fields (col_fn c) with Some ((_ :: _) as p) => safe_str_copy p 128 | _ => [] end in
  let name := with_part " " name (column fields (col_ln c)) in
  safe_str_copy (with_part " - " name (column fields (col_phone c))) 128.
Definition csv_text (c : columns) (fields : list cstring) (col : columns -> Z) (n : Z) : cstring :=
  default [] ((fun f => safe_str_copy f n) <$> column fields (col c)).
(** A subscriber; [None] where the date is converted without a defined result. *)
Definition csv_user (c : columns) (fields : list cstring) : option pppoe_user_t :=
  let comment := csv_text c fields col_notes 128 in
  let enabled := match column fields (col_en c) with
                 | Some f => negb (str_eq f "0" || strcase_eq f "false" || strcase_eq f "disabled")
                 | None => true
                 end in
  expires ← match column fields (col_exp c) with Some ((_ :: _) as f) => parse_subscriber_expiration f | _ => Some 0 end;
  Some (PppoeUser (csv_text c fields col_user 64) (or_else_text (csv_text c fields col_pass 64) "123456")
          (or_else_text (csv_text c fields col_prof 64) "Standard_25M") (csv_text c fields col_ip 32)
          (if empty comment then name_comment c fields else comment) 0 expires enabled).

(** The next line, 2047 characters of it at most, and the rest. *)
Fixpoint next_line (n : nat) (p : cstring) : cstring * cstring :=
  match p with
  | [] => ([], [])
  | c :: p' =>
      if c =? 10 then ([], p')
      else match n with
           | O => ([], p)
           | S n => let '(l, r) := next_line n p' in (c :: l, r)
           end
  end.
Fixpoint drop_line_end (s : cstring) : cstring :=
  match s with
  | c :: s' => if (c =? 13) || (c =? 32) then drop_line_end s' else s
  | [] => []
  end.
Definition trim_line_end (s : cstring) : cstring := reverse (drop_line_end (reverse s)).

(** [header]: the columns, once the header has been read.  Each turn takes a character or more. *)
Fixpoint csv_loop (fuel : nat) (p : cstring) (header : option columns) (users : list pppoe_user_t) : option (list pppoe_user_t) :=
  match fuel, p with
  | O, _ | _, [] => Some users
  | S fuel, _ =>
      if MAX_PPPOE_USERS <=? Z.of_nat (length users) then Some users else
      let '(line, p) := next_line 2047 p in
      match parse_csv_line (trim_line_end line) with
      | [] => csv_loop fuel p header users
      | fields =>
          let found := header_columns no_columns 0 fields in
          match header, col_user found =? -1 with
          | None, false => csv_loop fuel p (Some found) users
          | _, _ =>
              let c := default (default_columns found) header in
              u ← csv_user c fields;
              csv_loop fuel p (Some c) (if empty (pu_username u) then users else users ++ [u])
          end
      end
  end.
Definition parse_broadband_import_csv (csv_text : cstring) : option (list pppoe_user_t) := csv_loop (length csv_text) csv_text None [].

(** ** Documents *)

(** The object that starts a text and what follows it.  [Open]: it is not closed.  [Overrun]: a backslash that ends
    the text takes the scan past its end. *)
Inductive scanned := Closed (obj rest : cstring) | Open | Overrun.
Definition scan_cons (c : Z) (r : scanned) : scanned := match r with Closed o rest => Closed (c :: o) rest | r => r end.
Fixpoint scan_object (s : cstring) (depth : Z) (in_str : bool) : scanned :=
  match s with
  | [] => Open
  | c :: s' =>
      if (c =? 92) && in_str then
        match s' with
        | [] => Overrun
        | d :: s'' => scan_cons c (scan_cons d (scan_object s'' depth in_str))
        end
      else
        let in_str := if c =? 34 then negb in_str else in_str in
        if in_str then scan_cons c (scan_object s' depth in_str)
        else if c =? 123 then scan_cons c (scan_object s' (depth + 1) in_str)
        else if c =? 125 then (if depth - 1 =? 0 then Closed [c] s' else scan_cons c (scan_object s' (depth - 1) in_str))
        else scan_cons c (scan_object s' depth in_str)
  end.
Fixpoint skip_to_object (s : cstring) : cstring :=
  match s with
  | c :: s' => if (c =? 123) || (c =? 93) then s else skip_to_object s'
  | [] => []
  end.
(** The objects of an array, read with [f] while there is room; [None] for an overrun or an undefined conversion.
    An object takes two characters or more. *)
Fixpoint objects {A} (fuel : nat) (max : Z) (f : cstring -> option (option A)) (curr : cstring) (l : list A) : option (list A) :=
  match fuel with
  | O => Some l
  | S fuel =>
      if max <=? Z.of_nat (length l) then Some l else
      match skip_to_object curr with
      | (123 :: _) as obj =>
          match scan_object obj 0 false with
          | Overrun => None
          | Open => Some l
          | Closed o rest => r ← f o; objects fuel max f rest (match r with Some x => l ++ [x] | None => l end)
          end
      | _ => Some l
      end
  end.
Definition array_of {A} (max : Z) (f : cstring -> option (option A)) (arr : cstring) : option (list A) :=
  objects (length arr) max f (drop 1 arr) [].

Definition json_profile (o : cstring) : option (option pppoe_profile_t) :=
  let p := read_profile o in Some (if empty (pp_name p) then None else Some p).
Definition import_profiles (body : cstring) : option (list pppoe_profile_t) :=
  match pos ← strstr body (quoted "profiles"); strchr pos 91 with
  | Some parr => array_of MAX_PPPOE_PROFILES json_profile parr
  | None => Some []
  end.

(** The first of the keys that has a text. *)
Fixpoint first_text (o : cstring) (n : Z) (keys : list string) : cstring :=
  match keys with
  | [] => []
  | k :: keys => or_else_text (text o k n) (first_text o n keys)
  end.
Fixpoint drop_spaces (s : cstring) : cstring := match s with c :: s' => if c =? 32 then drop_spaces s' else s | [] => [] end.
Definition json_comment (o : cstring) : cstring :=
  let c := first_text o 128 ["comment"; "notes"]%string in
  if negb (empty c) then c else
  let fn := text o "firstname" 64 in let ln := text o "lastname" 64 in let ph := text o "phone" 32 in
  if empty fn && empty ln && empty ph then []
  else drop_spaces (reverse (drop_spaces (reverse (snprintf 128 "%s %s %s" [FS fn; FS ln; FS ph])))).
Definition json_expiry (now : Z) (o : cstring) : option Z :=
  let given := extract_json_uint64 o "expires_at" 0 in
  e ← (if given =? 0 then match extract_json_string o "expiration" 64 with Some raw => parse_subscriber_expiration raw | None => Some given end
       else Some given);
  let vdays := extract_json_int o "validity_days" (-1) in
  Some (if 0 <=? vdays then (if vdays =? 0 then 0 else u64 (now + vdays * 86400)) else e).
Definition json_user (now : Z) (o : cstring) : option (option pppoe_user_t) :=
  e ← json_expiry now o;
  let u := PppoeUser (text o "username" 64) (or_else_text (first_text o 64 ["password"; "ct_password"]%string) "123456")
             (or_else_text (first_text o 64 ["profile"; "profile_name"; "group_name"]%string) "Standard_25M") (text o "static_ip" 32)
             (json_comment o) (extract_json_uint64 o "created_at" 0) e (extract_json_bool o "enabled" true) in
  Some (if empty (pu_username u) then None else Some u).
Definition users_array (body : cstring) : option cstring :=
  match strstr body (quoted "users") with
  | Some pos => strchr pos 91
  | None => match trim_left body with (91 :: _) as b => Some b | _ => None end
  end.
(** The users, the profiles and whether they replace the old ones. *)
Definition parse_broadband_import_json (now : Z) (body : cstring) : option (list pppoe_user_t * list pppoe_profile_t * bool) :=
  let replace := match extract_json_string body "mode" 32 with Some m => strcase_eq m "replace" | None => false end in
  profiles ← import_profiles body;
  users ← match users_array body with Some arr => array_of MAX_PPPOE_USERS (json_user now) arr | None => Some [] end;
  Some (users, profiles, replace).

(** ** The handler *)

(** What is imported, and the reply; [total] is the number of subscribers after the import. *)
Definition import_reply (users : list pppoe_user_t) (profiles : list pppoe_profile_t) (total : Z) : response :=
  Response 200 (snprintf 512 (dq "{`status`:`ok`,`message`:`Import completed successfully`,`imported_users`:%u,`imported_profiles`:%u,`total_users`:%u}")
    [FN (Z.of_nat (length users)); FN (Z.of_nat (length profiles)); FN total]).
(** The body, behind the blanks that the branch skips first, is a document or a table. *)
Definition parse_import (now : Z) (body : cstring) : option (list pppoe_user_t * list pppoe_profile_t * bool) :=
  match trim_left body with
  | (123 :: _) as b => parse_broadband_import_json now b
  | (91 :: _) as b => parse_broadband_import_json now b
  | b => users ← parse_broadband_import_csv b; Some (users, [], false)
  end.
(** The import runs in [pppoe_server_bulk_import]; the configuration is saved afterwards. *)
Definition handle_import (mem : bool) (env : web_env) (ctx : pppoe_server_ctx) (body : option cstring) : option (sys (pppoe_server_ctx * bool * response)) :=
  match body with
  | None => Some (mret (ctx, false, error_reply "Empty request body"))
  | Some b =>
      if negb mem then Some (mret (ctx, false, Response 500 (dq "{`status`:`error`,`message`:`Out of memory`}"))) else
      '(users, profiles, replace) ← parse_import (we_now env) b;
      let reply ctx := import_reply users profiles (Z.of_nat (length (ps_users (psc_server ctx)))) in
      if we_pppoe env && ((0 <? Z.of_nat (length users)) || replace) then
        Some ('(_, ctx) ← pppoe_server_bulk_import users profiles replace ctx; mret (ctx, true, reply ctx))
      else Some (mret (ctx, false, reply ctx))
  end.
End Importing.

(** ** Dates are read back *)

(** [strftime("%Y-%m-%d %H:%M:%S")]. *)
Definition date_text (d : Z * Z * Z * (Z * Z * Z)) : cstring :=
  let '(y, mo, dy, (h, mi, s)) := d in
  dec y ++ 45 :: dec2 mo ++ 45 :: dec2 dy ++ 32 :: dec2 h ++ 58 :: dec2 mi ++ 58 :: dec2 s.
Definition date_ok (d : Z * Z * Z * (Z * Z * Z)) : Prop :=
  let '(y, mo, dy, (h, mi, s)) := d in
  0 <= y < 10000 /\ 0 <= mo < 100 /\ 0 <= dy < 100 /\ 0 <= h < 100 /\ 0 <= mi < 100 /\ 0 <= s < 100.
Definition number_text (n : Z) (t : cstring) : Prop := t <> [] /\ Forall (fun c => isdigit c = true) t /\ scan_digits t 0 = n.

Lemma digit_cases c : isdigit c = true ->
  c = 48 \/ c = 49 \/ c = 50 \/ c = 51 \/ c = 52 \/ c = 53 \/ c = 54 \/ c = 55 \/ c = 56 \/ c = 57.
Proof. unfold isdigit. rewrite andb_true_iff, !Z.leb_le. lia. Qed.
Ltac digits c H := destruct (digit_cases c H) as [->|[->|[->|[->|[->|[->|[->|[->|[->| ->]]]]]]]]].

Lemma dec_number n : 0 <= n < 10 ^ 20 -> number_text n (dec n).
Proof.
  intros Hn. destruct (dec_head n [] ltac:(lia)) as (c & t & E & _). rewrite app_nil_r in E. split_and!; [by rewrite E| |].
  - apply (dec_digits_ok 20 n []); [lia|constructor].
  - unfold dec. rewrite scan_dec_digits; [done|done|lia].
Qed.
Lemma dec2_number n : 0 <= n < 100 -> number_text n (dec2 n).
Proof.
  intros Hn. unfold dec2. assert (isdigit (48 + n / 10) = true /\ isdigit (48 + n mod 10) = true) as [H1 H2].
  { unfold isdigit. rewrite !andb_true_iff, !Z.leb_le. lia. }
  split_and!; [done|by repeat constructor|]. cbn [scan_digits]. rewrite H1, H2. lia.
Qed.
Lemma scan_number n t r : number_text n t -> 0 <= n <= 2147483647 -> not_digit r -> scan_dec (t ++ r) = Some (n, r).
Proof.
  intros (Hne & Hd & Hv) Hn Hr. destruct t as [|c t]; [done|]. pose proof (Forall_inv Hd) as Hc.
  assert (E : scan_dec ((c :: t) ++ r) = let '(n, v, rest) := digits_of ((c :: t) ++ r) 0 0 in
            if n =? 0 then None else Some (i32 (clamp_long (1 * v)), rest)).
  { cbn beta in Hc. cbn [app]. clear -Hc. digits c Hc; reflexivity. }
  rewrite E, digits_of_app by done. rewrite Hv. rewrite (proj2 (Z.eqb_neq _ _)) by (cbn [length]; lia). do 2 f_equal.
  unfold i32, clamp_long. lia.
Qed.
Lemma scan_spaced n t r : number_text n t -> 0 <= n <= 2147483647 -> not_digit r -> scan_dec (32 :: t ++ r) = Some (n, r).
Proof. intros Ht Hn Hr. transitivity (scan_dec (t ++ r)); [reflexivity|by apply scan_number]. Qed.

Ltac num := first [lia | done | apply dec_number; lia | apply dec2_number; lia].
Lemma after_self c s : after c (c :: s) = Some s.
Proof. cbn. by rewrite Z.eqb_refl. Qed.
Ltac next := cbn [mbind option_bind]; rewrite ?after_self; cbn [mbind option_bind].
Lemma date_scanned d : date_ok d -> scan_date 45 (date_text d) = Some d.
Proof.
  destruct d as [[[y mo] dy] [[h mi] s]]. intros (Hy & Hmo & Hd & Hh & Hmi & Hs). unfold date_text, scan_date.
  rewrite (scan_number y) by num. next. rewrite (scan_number mo) by num. next. rewrite (scan_number dy) by num. next.
  rewrite (scan_spaced h) by num. next. rewrite (scan_number mi) by num. next.
  rewrite <- (app_nil_r (dec2 s)). by rewrite (scan_number s) by num.
Qed.

(** A number that a dash follows is taken for the start of a date. *)
Lemma decimal_dash c t r : Forall (fun c => isdigit c = true) (c :: t) -> exists q, scan_decimal ((c :: t) ++ 45 :: r) = Some (q, 45 :: r).
Proof.
  intros Hd. unfold scan_decimal. rewrite digits_of_app by done. cbn [scan_exponent]. change (tolower 45 =? 101) with false. cbn match.
  rewrite (proj2 (Z.eqb_neq _ _)) by (cbn [length]; lia). by eexists.
Qed.
Lemma hexadecimal_dash c t r : Forall (fun c => isdigit c = true) (c :: t) -> scan_hexadecimal ((c :: t) ++ 45 :: r) = None.
Proof.
  intros Hd. pose proof (Forall_inv Hd) as Hc. cbn beta in Hc. unfold scan_hexadecimal. destruct t as [|x t].
  - digits c Hc; reflexivity.
  - apply Forall_inv_tail, Forall_inv in Hd. cbn beta in Hd. cbn [app]. digits c Hc; try reflexivity. digits x Hd; reflexivity.
Qed.
Lemma strtod_digit c t : isdigit c = true ->
  strtod (c :: t) = match scan_hexadecimal (c :: t), scan_decimal (c :: t) with
                    | Some (q, r), _ => (signed false q, r)
                    | None, Some (q, r) => (signed false q, r)
                    | None, None => (NotPositive, c :: t)
                    end.
Proof. intros Hc. digits c Hc; reflexivity. Qed.
Lemma strtod_dash n t r : number_text n t -> exists v, strtod (t ++ 45 :: r) = (v, 45 :: r).
Proof.
  intros (Hne & Hd & _). destruct t as [|c t]; [done|]. destruct (decimal_dash c t r Hd) as [q Hq].
  pose proof (hexadecimal_dash c t r Hd) as Hh. exists (signed false q). cbn [app] in Hq, Hh |- *.
  by rewrite strtod_digit, Hh, Hq by apply (Forall_inv Hd).
Qed.

Lemma date_start c s : isdigit c = true -> skip_date_start (c :: s) = c :: s.
Proof. intros Hc. digits c Hc; reflexivity. Qed.
(** The text of a date is read as [mktime] of the date. *)
Lemma expiration_of_date mktime d : date_ok d -> 0 < mktime d -> parse_subscriber_expiration mktime (date_text d) = Some (mktime d).
Proof.
  intros Hd Hm. assert (Hs : expiry_date mktime (date_text d) = mktime d).
  { unfold expiry_date. rewrite date_scanned by done. by rewrite (proj2 (Z.ltb_lt _ _) Hm). }
  destruct d as [[[y mo] dy] [[h mi] s]]. pose proof (dec_number y ltac:(destruct Hd; lia)) as Hy.
  unfold date_text in *. set (r := dec2 mo ++ _) in *. destruct (strtod_dash y (dec y) r Hy) as [v Hv].
  destruct Hy as (Hne & Hdig & _). destruct (dec y) as [|c t]; [done|]. cbn [app] in Hs, Hv |- *.
  unfold parse_subscriber_expiration. rewrite date_start by apply (Forall_inv Hdig). rewrite Hv. cbn match.
  destruct v as [q| |]; [|by rewrite Hs..]. rewrite !andb_false_r. by rewrite Hs.
Qed.

(** ** Tables are read back *)

Definition cell_char (c : Z) : Prop := c <> 34 /\ c <> 10 /\ c <> 13.
Definition cell (n : Z) (s : cstring) : Prop := Forall cell_char s /\ Z.of_nat (length s) < n.

Lemma cell_bool n s : forallb (fun c => negb ((c =? 34) || (c =? 10) || (c =? 13))) s && (Z.of_nat (length s) <? n) = true -> cell n s.
Proof.
  rewrite andb_true_iff, Z.ltb_lt, forallb_forall. intros [Hc Hl]. split; [|done]. apply Forall_forall. intros c Hin.
  specialize (Hc c ltac:(by apply list_elem_of_In)). cbn beta in Hc. unfold cell_char. lia.
Qed.

Lemma quoted_field_cell t r : Forall cell_char t -> head r <> Some 34 -> quoted_field (t ++ 34 :: r) = (t, r).
Proof.
  intros Ht Hr. induction Ht as [|c t (Hc & _) _ IH].
  - cbn [app quoted_field]. change (34 =? 34) with true. cbn match. destruct r as [|x r]; [done|].
    destruct (Z.eq_dec x 34) as [->|Hx]; [done|]. destruct x as [|p|p]; try done. do 6 (destruct p as [p|p|]; try done).
  - cbn [app quoted_field]. by rewrite (proj2 (Z.eqb_neq c 34)), IH by done.
Qed.
Lemma field_quoted n t r : cell 128 t -> csv_fields (S n) (34 :: t ++ 34 :: 44 :: r) = t :: csv_fields n r.
Proof.
  intros [Ht Hl]. cbn [csv_fields]. unfold csv_field. cbn [skip_tabs]. change ((34 =? 32) || (34 =? 9)) with false. cbn match.
  rewrite quoted_field_cell by done. cbn [plain_field]. change (csv_end 44) with true. cbn [snd]. by rewrite trunc_fits.
Qed.
Lemma field_last n t : cell 128 t -> csv_fields (S n) (34 :: t ++ [34]) = [t].
Proof.
  intros [Ht Hl]. cbn [csv_fields]. unfold csv_field. cbn [skip_tabs]. change ((34 =? 32) || (34 =? 9)) with false. cbn match.
  rewrite quoted_field_cell by done. cbn [plain_field snd]. by rewrite trunc_fits.
Qed.
Lemma plain_field_digits t r : Forall (fun c => isdigit c = true) t -> plain_field (t ++ 44 :: r) = (t, 44 :: r).
Proof.
  induction 1 as [|c t Hc _ IH]; [done|]. cbn [app plain_field]. replace (csv_end c) with false by (digits c Hc; reflexivity). by rewrite IH.
Qed.
Lemma field_number n m t r : number_text m t -> Z.of_nat (length t) < 128 -> csv_fields (S n) (t ++ 44 :: r) = t :: csv_fields n r.
Proof.
  intros (Hne & Hd & _) Hl. destruct t as [|c t]; [done|]. pose proof (Forall_inv Hd) as Hc. cbn beta in Hc.
  assert (csv_field ((c :: t) ++ 44 :: r) = (str_trunc 128 (c :: t), 44 :: r)) as E.
  { unfold csv_field. transitivity (let '(t, r) := plain_field ((c :: t) ++ 44 :: r) in (str_trunc 128 t, r)).
    - cbn [app]. clear -Hc. digits c Hc; reflexivity.
    - by rewrite plain_field_digits. }
  cbn [csv_fields app] in E |- *. rewrite E. by rewrite trunc_fits.
Qed.

Definition subscriber_ok (u : pppoe_user_t) : Prop :=
  pu_username u <> [] /\ cell 64 (pu_username u) /\ cell 64 (pu_password u) /\ cell 64 (pu_profile u) /\ cell 32 (pu_static_ip u)
  /\ cell 128 (pu_comment u) /\ 0 <= pu_expires_at u /\ 0 <= pu_created_at u.
(** What is left of a subscriber: defaults for the empty texts, and no date of creation. *)
Definition reimported (u : pppoe_user_t) : pppoe_user_t :=
  PppoeUser (pu_username u) (or_else_text (pu_password u) "123456") (or_else_text (pu_profile u) "Standard_25M") (pu_static_ip u) (pu_comment u)
    0 (pu_expires_at u) (pu_enabled u).

(** The line of a subscriber without its end. *)
Definition row_line (local_time : Z -> cstring) (i : Z) (u : pppoe_user_t) : cstring :=
  dec i ++ 44 :: 34 :: pu_username u ++ 34 :: 44 :: 34 :: pu_comment u ++ dq "`,``,``,``,`0.00`,`" ++ csv_date local_time (pu_expires_at u) ++ dq "`,``,`" ++
  pu_static_ip u ++ 34 :: 44 :: dec (if pu_enabled u then 1 else 0) ++ 44 :: 34 :: pu_comment u ++ 34 :: 44 :: 34 :: pu_profile u ++ dq "`,`N/A`,`admin`,`" ++
  pu_password u ++ dq "`,``,``,`" ++ csv_date local_time (pu_created_at u) ++ [34].
Lemma convert_dec c n : c <> 120 -> 0 <= n -> convert c (FN n) = dec n.
Proof. intros Hc Hn. cbn. by rewrite (proj2 (Z.eqb_neq c 120)), (proj2 (Z.ltb_ge n 0)) by done. Qed.
Lemma row_text local_time i u : 0 <= i -> csv_row local_time i u = row_line local_time i u ++ [13; 10].
Proof.
  intros Hi. unfold csv_row. f_equal. unfold row_line.
  rewrite <- (convert_dec 117 i) by done. rewrite <- (convert_dec 100 (if pu_enabled u then 1 else 0)) by (done || by destruct (pu_enabled u)).
  generalize (csv_date local_time (pu_expires_at u)) (csv_date local_time (pu_created_at u)). intros d1 d2. reflexivity.
Qed.

(** A line as its fields, each with or without quotes. *)
Fixpoint csv_line (l : list (bool * cstring)) : cstring :=
  match l with
  | [] => []
  | (q, t) :: l =>
      let rest := match l with [] => [] | _ => 44 :: csv_line l end in
      if q : bool then 34 :: t ++ 34 :: rest else t ++ rest
  end.
Definition field_ok (f : bool * cstring) : Prop :=
  if f.1 then cell 128 f.2 else Z.of_nat (length f.2) < 128 /\ exists n, number_text n f.2.
Lemma csv_line_read l : forall n, Forall field_ok l -> last l = Some (true, []) \/ (exists t, last l = Some (true, t)) -> (length l <= n)%nat ->
  csv_fields n (csv_line l) = snd <$> l.
Proof.
  induction l as [|[q t] l IH]; intros n Hf Hl Hn; [by destruct n|]. destruct n as [|n]; [cbn in Hn; lia|].
  apply Forall_cons in Hf as [Hf Hfs]. destruct l as [|f l].
  - assert (q = true) as -> by (destruct Hl as [[=]|(? & [=])]; done). cbn [csv_line fmap list_fmap snd]. by apply field_last.
  - assert (IH' : csv_fields n (csv_line (f :: l)) = snd <$> f :: l) by (apply IH; [done|done|cbn in Hn |- *; lia]).
    set (rest := f :: l) in *. assert (csv_line ((q, t) :: rest) = if q then 34 :: t ++ 34 :: 44 :: csv_line rest else t ++ 44 :: csv_line rest) as -> by done.
    rewrite fmap_cons. cbn [snd]. rewrite <- IH'. destruct q; [by apply field_quoted|]. destruct Hf as (H1 & m & H2). by eapply field_number.
Qed.

Definition row_fields (local_time : Z -> cstring) (i : Z) (u : pppoe_user_t) : list (bool * cstring) :=
  [(false, dec i); (true, pu_username u); (true, pu_comment u); (true, []); (true, []); (true, []); (true, bytes_of_string "0.00");
   (true, csv_date local_time (pu_expires_at u)); (true, []); (true, pu_static_ip u); (false, dec (if pu_enabled u then 1 else 0)); (true, pu_comment u);
   (true, pu_profile u); (true, bytes_of_string "N/A"); (true, bytes_of_string "admin"); (true, pu_password u); (true, []); (true, []);
   (true, csv_date local_time (pu_created_at u))].
Lemma row_is_line local_time i u : row_line local_time i u = csv_line (row_fields local_time i u).
Proof. reflexivity. Qed.

Lemma cell_weaken n m s : cell n s -> n <= m -> cell m s.
Proof. intros [H1 H2] H. split; [done|lia]. Qed.
Lemma digits_cell s : Forall (fun c => isdigit c = true) s -> Forall cell_char s.
Proof. intros H. eapply Forall_impl; [exact H|]. intros c Hc. unfold cell_char. digits c Hc; done. Qed.
Lemma dec_cell n : 0 <= n < 10 ^ 20 -> Forall cell_char (dec n) /\ (length (dec n) <= 20)%nat.
Proof.
  intros Hn. destruct (dec_number n Hn) as (_ & H & _). split; [by apply digits_cell|].
  pose proof (dec_digits_length 20 n [] 20 ltac:(done) ltac:(lia)) as Hl. cbn [length] in Hl. unfold dec. lia.
Qed.

Lemma date_cell d : date_ok d -> cell 64 (date_text d).
Proof.
  destruct d as [[[y mo] dy] [[h mi] s]]. intros (Hy & Hmo & Hd & Hh & Hmi & Hs). destruct (dec_cell y ltac:(lia)) as [H1 H2].
  assert (forall n, 0 <= n < 100 -> Forall cell_char (dec2 n)) as H2d by (intros n Hn; apply digits_cell, dec2_number, Hn).
  assert (forall n, length (dec2 n) = 2%nat) as Hl by done. unfold date_text. split.
  - repeat (rewrite Forall_app || rewrite Forall_cons). split_and!; auto; done.
  - repeat (rewrite length_app || cbn [length] || rewrite Hl). lia.
Qed.

Section RoundTrip.
(** [localtime_r] and [mktime] of the time zone. *)
Context (zone : Z -> Z * Z * Z * (Z * Z * Z)) (mktime : Z * Z * Z * (Z * Z * Z) -> Z).
(** [mktime] takes a date that [localtime_r] gave back to its time. *)
Definition zone_ok (t : Z) : Prop := 0 < t -> date_ok (zone t) /\ mktime (zone t) = t.
Definition row_ok (u : pppoe_user_t) : Prop := subscriber_ok u /\ zone_ok (pu_expires_at u) /\ zone_ok (pu_created_at u).
Let local_time (t : Z) : cstring := date_text (zone t).
Let export_columns : columns := Columns 1 15 12 9 7 10 11 2 3 5.

Lemma csv_date_cell t : zone_ok t -> cell 64 (csv_date local_time t).
Proof.
  intros Hz. unfold csv_date. destruct (Z.ltb_spec 0 t) as [Ht|]; [by apply date_cell, Hz|]. by split; [constructor|].
Qed.
Lemma row_fields_ok i u : row_ok u -> 0 <= i < 10 ^ 20 -> Forall field_ok (row_fields local_time i u).
Proof.
  intros ((_ & H1 & H2 & H3 & H4 & H5 & _) & He & Hc) Hi. apply csv_date_cell in He, Hc.
  assert (forall n, 0 <= n < 10 ^ 20 -> field_ok (false, dec n)) as Hn.
  { intros n Hn. destruct (dec_cell n Hn) as [_ Hl]. split; [change (Z.of_nat (length (dec n)) < 128); lia|]. exists n. by apply dec_number. }
  repeat (constructor; [first [apply Hn; [done|by destruct (pu_enabled u)] | apply Hn; by destruct (pu_enabled u)
    | by apply cell_bool | eapply cell_weaken; [eassumption|done] | done]|]); constructor.
Qed.

Lemma csv_text_fits c fields col n f : column fields (col c) = Some f -> Z.of_nat (length f) < n -> csv_text c fields col n = f.
Proof. intros E Hf. unfold csv_text. rewrite E. cbn. by apply trunc_fits. Qed.
Lemma expiry_read t : 0 <= t -> zone_ok t ->
  match csv_date local_time t with [] => Some 0 | _ :: _ => parse_subscriber_expiration mktime (csv_date local_time t) end = Some t.
Proof.
  intros Ht Hz. unfold csv_date. destruct (Z.ltb_spec 0 t) as [Hp|]; [|f_equal; lia]. destruct (Hz Hp) as [Hd Hm].
  pose proof (expiration_of_date mktime (zone t) Hd ltac:(lia)) as E. rewrite Hm in E. unfold local_time.
  destruct (date_text (zone t)) eqn:Ed; [|done]. exfalso. revert Ed. clear. destruct (zone t) as [[[y mo] dy] [[h mi] s]]. unfold date_text.
  intros E. by apply app_eq_nil in E as [_ ?].
Qed.
Lemma user_of_row i u : row_ok u -> csv_user mktime export_columns (snd <$> row_fields local_time i u) = Some (reimported u).
Proof.
  intros ((H0 & [_ H1] & [_ H2] & [_ H3] & [_ H4] & [_ H5] & Hp & _) & He & _). unfold csv_user.
  rewrite (csv_text_fits _ _ col_user 64 (pu_username u)), (csv_text_fits _ _ col_pass 64 (pu_password u)), (csv_text_fits _ _ col_prof 64 (pu_profile u)),
    (csv_text_fits _ _ col_ip 32 (pu_static_ip u)), (csv_text_fits _ _ col_notes 128 (pu_comment u)) by (reflexivity || done).
  change (column _ (col_exp export_columns)) with (Some (csv_date local_time (pu_expires_at u))).
  change (column _ (col_en export_columns)) with (Some (dec (if pu_enabled u then 1 else 0))).
  cbn match. rewrite expiry_read by done. cbn [mbind option_bind]. unfold reimported. do 2 f_equal.
  - unfold empty. case_bool_decide as E; [|done]. rewrite E. unfold name_comment.
    change (column _ (col_fn export_columns)) with (Some (pu_comment u)). rewrite E. reflexivity.
  - by destruct (pu_enabled u).
Qed.

Lemma next_line_full n l r : no_char 10 l -> (length l <= n)%nat -> next_line n (l ++ 10 :: r) = (l, r).
Proof.
  intros Hl. revert n. induction Hl as [|c l Hc _ IH]; intros n Hn; [by destruct n|]. cbn [length] in Hn.
  destruct n as [|n]; [lia|]. cbn [app next_line]. rewrite (proj2 (Z.eqb_neq c 10)) by done. by rewrite IH by lia.
Qed.
Lemma trim_row s : trim_line_end ((s ++ [34]) ++ [13]) = s ++ [34].
Proof.
  unfold trim_line_end. replace (reverse ((s ++ [34]) ++ [13])) with (13 :: 34 :: reverse s) by (by rewrite !reverse_app).
  transitivity (reverse (34 :: reverse s)); [reflexivity|]. by rewrite reverse_cons, reverse_involutive.
Qed.

Lemma line_chars l : Forall field_ok l -> no_char 10 (csv_line l).
Proof.
  induction 1 as [|[q t] l Hf _ IH]; [constructor|]. cbn [csv_line].
  assert (no_char 10 (match l with [] => [] | _ :: _ => 44 :: csv_line l end)) as Hr by (destruct l; [constructor|by constructor]).
  unfold field_ok in Hf. cbn [fst snd] in Hf. destruct q.
  - destruct Hf as [Ht _]. constructor; [done|]. apply Forall_app. split; [eapply Forall_impl; [exact Ht|]; by intros c (_ & ? & _)|]. by constructor.
  - destruct Hf as (_ & m & _ & Ht & _). apply Forall_app. split; [|done]. eapply Forall_impl; [exact Ht|]. intros c Hc. cbn beta in Hc. digits c Hc; done.
Qed.
Lemma row_length i u : row_ok u -> 0 <= i < 10 ^ 20 -> (length (row_line local_time i u) <= 2000)%nat.
Proof.
  intros ((_ & [_ H1] & [_ H2] & [_ H3] & [_ H4] & [_ H5] & _) & He & Hc) Hi.
  destruct (csv_date_cell _ He) as [_ H6]. destruct (csv_date_cell _ Hc) as [_ H7]. destruct (dec_cell i Hi) as [_ H8].
  unfold row_line. destruct (dec_cell (if pu_enabled u then 1 else 0) ltac:(by destruct (pu_enabled u))) as [_ H9].
  repeat (rewrite length_app || rewrite length_cons). unfold dq. rewrite !length_fmap.
  set (a := length (bytes_of_string _)). set (b := length (bytes_of_string "`,``,`")). set (d := length (bytes_of_string "`,`N/A`,`admin`,`")).
  set (e := length (bytes_of_string "`,``,``,`")). change [34] with (34 :: []). cbn [length].
  assert (a = 19%nat) as -> by reflexivity. assert (b = 6%nat) as -> by reflexivity. assert (d = 17%nat) as -> by reflexivity.
  assert (e = 9%nat) as -> by reflexivity. lia.
Qed.
Lemma row_ends i u : exists s, row_line local_time i u = s ++ [34].
Proof.
  unfold row_line. eexists. rewrite ?app_comm_cons, ?app_assoc. reflexivity.
Qed.

Definition rows (i : Z) (users : list pppoe_user_t) : cstring := concat (imap (fun k u => csv_row local_time (i + Z.of_nat k) u) users).
Lemma rows_cons i u users : rows i (u :: users) = csv_row local_time i u ++ rows (i + 1) users.
Proof.
  unfold rows. cbn [imap concat]. replace (i + Z.of_nat 0) with i by lia. f_equal. f_equal. apply imap_ext. intros k x _.
  unfold compose. cbn beta. replace (i + Z.of_nat (S k)) with (i + 1 + Z.of_nat k) by lia. reflexivity.
Qed.

(** One line of a subscriber. *)
Lemma loop_row fuel i u users r :
  row_ok u -> 0 <= i < 10 ^ 20 -> Z.of_nat (length users) < MAX_PPPOE_USERS ->
  csv_loop mktime (S fuel) (csv_row local_time i u ++ r) (Some export_columns) users =
  csv_loop mktime fuel r (Some export_columns) (users ++ [reimported u]).
Proof.
  intros Hu Hi Hl. rewrite row_text by lia. pose proof (row_length i u Hu Hi) as Hlen. pose proof (row_fields_ok i u Hu Hi) as Hf.
  destruct (row_ends i u) as [s Es]. assert (Hne : row_line local_time i u <> []) by (rewrite Es; by intros [_ ?]%app_eq_nil).
  assert (En : next_line 2047 ((row_line local_time i u ++ [13; 10]) ++ r) = (row_line local_time i u ++ [13], r)).
  { replace ((row_line local_time i u ++ [13; 10]) ++ r) with ((row_line local_time i u ++ [13]) ++ 10 :: r) by (by rewrite <- !app_assoc).
    apply next_line_full; [|rewrite length_app; cbn [length]; lia]. apply Forall_app. split; [|by repeat constructor]. rewrite row_is_line. by apply line_chars. }
  assert (Ep : parse_csv_line (trim_line_end (row_line local_time i u ++ [13])) = snd <$> row_fields local_time i u).
  { rewrite Es, trim_row, <- Es, row_is_line. apply csv_line_read; [done|by right; eexists|cbn [length row_fields]; lia]. }
  assert (Ec : forall p, p <> [] -> csv_loop mktime (S fuel) p (Some export_columns) users =
    if MAX_PPPOE_USERS <=? Z.of_nat (length users) then Some users else
    let '(line, p) := next_line 2047 p in
    match parse_csv_line (trim_line_end line) with
    | [] => csv_loop mktime fuel p (Some export_columns) users
    | fields => u ← csv_user mktime export_columns fields; csv_loop mktime fuel p (Some export_columns) (if empty (pu_username u) then users else users ++ [u])
    end) by (intros [|x p] Hp; done).
  rewrite Ec by (intros E; apply Hne; by apply app_eq_nil in E as [[? _]%app_eq_nil _]).
  rewrite (proj2 (Z.leb_gt _ _)) by lia. rewrite En, Ep. change (snd <$> row_fields local_time i u) with (dec i :: (snd <$> drop 1 (row_fields local_time i u))) at 1.
  cbn match. change (dec i :: (snd <$> drop 1 (row_fields local_time i u))) with (snd <$> row_fields local_time i u).
  rewrite user_of_row by done. cbn [mbind option_bind reimported pu_username]. unfold empty. by rewrite bool_decide_false by apply Hu.
Qed.

Lemma loop_rows us : forall fuel i users,
  Forall row_ok us -> 1 <= i -> i + Z.of_nat (length us) <= 10 ^ 20 -> Z.of_nat (length users) + Z.of_nat (length us) <= MAX_PPPOE_USERS -> (length us <= fuel)%nat ->
  csv_loop mktime fuel (rows i us) (Some export_columns) users = Some (users ++ (reimported <$> us)).
Proof.
  induction us as [|u us IH]; intros fuel i users Hu Hi Hb Hm Hf.
  - rewrite app_nil_r. by destruct fuel.
  - apply Forall_cons in Hu as [Hu Hus]. cbn [length] in *. destruct fuel as [|fuel]; [lia|]. rewrite rows_cons, loop_row by (done || lia).
    rewrite IH by (done || lia || (rewrite length_app; cbn [length]; lia)). by rewrite <- app_assoc.
Qed.

Lemma loop_header fuel r : csv_loop mktime (S fuel) (csv_header ++ r) None [] = csv_loop mktime fuel r (Some export_columns) [].
Proof.
  unfold csv_header. set (line := bytes_of_string _). rewrite <- app_assoc. change ([13; 10] ++ r) with ([13] ++ 10 :: r). rewrite app_assoc.
  assert (En : next_line 2047 ((line ++ [13]) ++ 10 :: r) = (line ++ [13], r)).
  { apply next_line_full; [apply (bool_decide_unpack _); by vm_compute|by apply Nat.leb_le; vm_compute]. }
  assert (Ec : forall x p, csv_loop mktime (S fuel) (x :: p) None [] =
    let '(line, p) := next_line 2047 (x :: p) in
    match parse_csv_line (trim_line_end line) with
    | [] => csv_loop mktime fuel p None []
    | fields =>
        let found := header_columns no_columns 0 fields in
        if col_user found =? -1 then
          u ← csv_user mktime (default_columns found) fields; csv_loop mktime fuel p (Some (default_columns found)) (if empty (pu_username u) then [] else [u])
        else csv_loop mktime fuel p (Some found) []
    end).
  { intros x p. cbn [csv_loop]. change (MAX_PPPOE_USERS <=? Z.of_nat (length [])) with false. cbn match. destruct (next_line 2047 (x :: p)) as [l q].
    destruct (parse_csv_line (trim_line_end l)); [done|]. cbv zeta. by destruct (col_user _ =? -1). }
  assert (Hn : exists x p, (line ++ [13]) ++ 10 :: r = x :: p) by (by eexists _, _). destruct Hn as (x & p & Hn). rewrite Hn in En |- *.
  rewrite Ec, En. assert (Ef : exists f fs, parse_csv_line (trim_line_end (line ++ [13])) = f :: fs /\ header_columns no_columns 0 (f :: fs) = export_columns).
  { clear. subst line. destruct (parse_csv_line _) as [|f fs] eqn:E; [by vm_compute in E|]. exists f, fs. split; [done|]. rewrite <- E. clear E f fs. by vm_compute. }
  destruct Ef as (f & fs & -> & E). cbv zeta. by rewrite E.
Qed.

Lemma exported max_len : forall us i offset,
  offset + Z.of_nat (length (rows i us)) < max_len - 512 -> 0 <= offset -> 512 <= max_len < 18446744073709551616 ->
  csv_rows local_time max_len i offset us = Some (rows i us).
Proof.
  induction us as [|u us IH]; intros i offset Ho Hp Hm; [done|]. rewrite rows_cons in Ho |- *. rewrite length_app in Ho. cbn [csv_rows].
  assert (u64 (max_len - 512) = max_len - 512) as -> by (unfold u64; rewrite Z.mod_small; lia).
  rewrite (proj2 (Z.ltb_lt _ _)) by lia. cbn [negb]. rewrite (proj2 (Z.ltb_ge _ _)) by lia. by rewrite IH by lia.
Qed.
Lemma rows_long us : forall i, Forall row_ok us -> (length us <= length (rows i us))%nat.
Proof.
  induction us as [|u us IH]; intros i Hu; [done|]. rewrite rows_cons, length_app. specialize (IH (i + 1) (Forall_inv_tail Hu)).
  unfold csv_row. rewrite length_app. cbn [length]. lia.
Qed.
End RoundTrip.

(** A text with the header of an export is taken for a table. *)
Lemma import_of_table mktime now r : parse_import mktime now (csv_header ++ r) = (users ← parse_broadband_import_csv mktime (csv_header ++ r); Some (users, [], false)).
Proof. unfold csv_header. set (r' := _ ++ r). reflexivity. Qed.

(** C21.  The table of subscribers that the router exports is what its import handler reads back, as subscribers to be added and no
    profiles: every subscriber, in the same order, with the same name, address, comment, state and date of expiry.  The date of
    creation is lost, and an empty password or profile becomes the default one.  This is for a table that fits in the buffer, names that are
    not empty, texts that fit in their fields and have no quote and no line break, and a [mktime] that inverts [localtime] on the
    dates of the table. *)
Theorem exported_table_imports zone mktime now cfg max_len :
  Forall (row_ok zone mktime) (ps_users cfg) -> Z.of_nat (length (ps_users cfg)) <= MAX_PPPOE_USERS ->
  Z.of_nat (length (csv_header ++ rows zone 1 (ps_users cfg))) < max_len - 512 -> max_len < 18446744073709551616 ->
  exists n text, pppoe_server_export_csv (fun t => date_text (zone t)) cfg max_len = Some (n, text)
    /\ parse_import mktime now text = Some (reimported <$> ps_users cfg, [], false).
Proof.
  intros Hu Hc Hl Hm. unfold pppoe_server_export_csv. rewrite (proj2 (Z.eqb_neq max_len 0)) by lia.
  rewrite length_app in Hl. rewrite (exported zone mktime max_len) by lia. cbn [mbind option_bind]. eexists _, _. split; [reflexivity|].
  rewrite trunc_fits by (rewrite length_app; lia). rewrite import_of_table.
  assert (parse_broadband_import_csv mktime (csv_header ++ rows zone 1 (ps_users cfg)) = Some (reimported <$> ps_users cfg)) as ->; [|reflexivity].
  unfold parse_broadband_import_csv. pose proof (rows_long zone mktime (ps_users cfg) 1 Hu) as Hlen. rewrite length_app.
  destruct (length csv_header) as [|k] eqn:E; [discriminate E|]. cbn [Nat.add]. rewrite (loop_header zone mktime).
  apply (loop_rows zone mktime (ps_users cfg) _ 1 []); [done|lia|unfold MAX_PPPOE_USERS in Hc; lia|cbn [length]; lia|lia].
Qed.

Module ImportDemo.
Definition zone (_ : Z) : Z * Z * Z * (Z * Z * Z) := (2026, 9, 12, (8, 5, 0)).
Definition mktime (_ : Z * Z * Z * (Z * Z * Z)) : Z := 1789200300.
Definition users : list pppoe_user_t :=
  [PppoeUser "carol" "s3cret, too" "Ultra_50M" "10.100.0.9" "Flat 3" 1789200300 1789200300 true;
   PppoeUser "dave" [] [] [] [] 0 0 false].
Definition cfg : pppoe_server_config_t := set_ps_users users (c_pppoe_server config_reset_to_defaults).
End ImportDemo.

Lemma exported_table_imports_witness :
  exists n text, pppoe_server_export_csv (fun t => date_text (ImportDemo.zone t)) ImportDemo.cfg 4096 = Some (n, text)
    /\ parse_import ImportDemo.mktime 0 text = Some (reimported <$> ImportDemo.users, [], false).
Proof.
  apply (exported_table_imports ImportDemo.zone ImportDemo.mktime 0 ImportDemo.cfg 4096); [|by vm_compute..].
  assert (forall t, t = 1789200300 \/ t = 0 -> zone_ok ImportDemo.zone ImportDemo.mktime t) as Hz by (intros t [-> | ->] Ht; by vm_compute in Ht |- *).
  repeat (constructor; [split; [split_and!; [done|apply cell_bool; by vm_compute..|by vm_compute|by vm_compute]|split; apply Hz; cbn; tauto]|]); constructor.
Defined.

(** ** Bounds of an import *)

Lemma objects_bound {A} max (f : cstring -> option (option A)) : 0 <= max -> forall fuel curr l r,
  Z.of_nat (length l) <= max -> objects fuel max f curr l = Some r -> Z.of_nat (length r) <= max.
Proof.
  intros Hm. induction fuel as [|fuel IH]; intros curr l r Hl; cbn [objects]; [by intros [= <-]|].
  destruct (Z.leb_spec max (Z.of_nat (length l))) as [|Hlt]; [by intros [= <-]|].
  destruct (skip_to_object curr) as [|c q]; [by intros [= <-]|].
  destruct (Z.eq_dec c 123) as [->|Hc].
  - destruct (scan_object (123 :: q) 0 false) as [o rest| |]; [|by intros [= <-]|done].
    destruct (f o) as [x|]; [|done]. cbn [mbind option_bind]. apply IH. destruct x; [|done]. rewrite length_app. cbn. lia.
  - intros E. replace r with l; [done|]. revert E. clear -Hc. destruct c as [|p|p]; try (by intros [= <-]). do 7 (destruct p as [p|p|]; try (by intros [= <-])). done.
Qed.
Lemma csv_bound mktime fuel : forall p h l r,
  Z.of_nat (length l) <= MAX_PPPOE_USERS -> csv_loop mktime fuel p h l = Some r -> Z.of_nat (length r) <= MAX_PPPOE_USERS.
Proof.
  induction fuel as [|fuel IH]; intros p h l r Hl; [by intros [= <-]|]. cbn [csv_loop]. destruct p as [|x p]; [by intros [= <-]|].
  destruct (Z.leb_spec MAX_PPPOE_USERS (Z.of_nat (length l))); [by intros [= <-]|]. destruct (next_line 2047 (x :: p)) as [line q].
  destruct (parse_csv_line _) as [|f fs]; [by apply IH|]. cbv zeta.
  assert (forall c, (u ← csv_user mktime c (f :: fs); csv_loop mktime fuel q (Some c) (if empty (pu_username u) then l else l ++ [u])) = Some r ->
    Z.of_nat (length r) <= MAX_PPPOE_USERS) as Hu.
  { intros c. destruct (csv_user mktime c (f :: fs)) as [u|]; [|done]. cbn [mbind option_bind]. apply IH. case_match; [done|]. rewrite length_app. cbn. lia. }
  destruct h as [c|]; [apply Hu|]. destruct (col_user _ =? -1); [apply Hu|by apply IH].
Qed.

(** However long the table or the document of an import is, the arrays that it fills are not overrun: at most
    4096 subscribers and 64 profiles are read. *)
Theorem import_bounded mktime now body users profiles replace :
  parse_import mktime now body = Some (users, profiles, replace) ->
  Z.of_nat (length users) <= MAX_PPPOE_USERS /\ Z.of_nat (length profiles) <= MAX_PPPOE_PROFILES.
Proof.
  assert (Hj : forall b, parse_broadband_import_json mktime now b = Some (users, profiles, replace) ->
    Z.of_nat (length users) <= MAX_PPPOE_USERS /\ Z.of_nat (length profiles) <= MAX_PPPOE_PROFILES).
  { intros b. unfold parse_broadband_import_json. destruct (import_profiles b) as [ps|] eqn:Ep; [|done]. cbn [mbind option_bind].
    destruct (match users_array b with Some _ => _ | None => _ end) as [us|] eqn:Eu; [|done]. intros [= <- <- <-]. split.
    - destruct (users_array b); [|by injection Eu as <-]. by eapply objects_bound; [| |exact Eu].
    - unfold import_profiles in Ep. destruct (_ ≫= _); [|by injection Ep as <-]. by eapply objects_bound; [| |exact Ep]. }
  assert (Hc : forall b, (us ← parse_broadband_import_csv mktime b; Some (us, [], false)) = Some (users, profiles, replace) ->
    Z.of_nat (length users) <= MAX_PPPOE_USERS /\ Z.of_nat (length profiles) <= MAX_PPPOE_PROFILES).
  { intros b. destruct (parse_broadband_import_csv mktime b) as [us|] eqn:E; [|done]. intros [= <- <- <-]. split; [|done].
    by eapply csv_bound; [|exact E]. }
  unfold parse_import. destruct (trim_left body) as [|x b]; [apply Hc|]. destruct x as [|p|p]; try apply Hc. do 7 (destruct p as [p|p|]; try (apply Hc || apply Hj)).
Qed.
Lemma import_bounded_witness :
  Z.of_nat (length [PppoeUser "eve" "123456" "Standard_25M" [] [] 0 0 true]) <= MAX_PPPOE_USERS /\ Z.of_nat (length (@nil pppoe_profile_t)) <= MAX_PPPOE_PROFILES.
Proof. apply (import_bounded ImportDemo.mktime 0 (dq "[{`username`:`eve`}]") _ _ false). by vm_compute. Defined.

(** A document that ends in a backslash within a text takes the search for the end of an object past the end of the request. *)
Theorem import_reads_past_end mktime now : parse_import mktime now (dq "[{`username`:`eve\") = None.
Proof. by vm_compute. Qed.
