(* ===== verification/Maglev.v ===== *)
(** * Maglev rings ([src/wan_manager.c], [build_single_maglev_ring])

    The weighted Maglev table: every WAN member walks its own probe sequence over
    the 65537 slots, and takes turns in proportion to its weight.  The ring is a
    finite map in which a missing slot holds the initial 0xFFFFFFFF.  The loops
    carry fuel: [ring_fuel] (65537) is enough for each of them. *)

From S2P Require Import Prelude Fluxwan Samples.

(** ** Hashing *)

Definition rotl64 (x r : Z) : Z := u64 (x .<< r) .| (x .>> (64 - r)).

Definition murmurhash3_x64_64 (A B seed : Z) : Z :=
  let h1 := seed in
  let h2 := seed in
  let c1 := 9782798678568883157 in
  let c2 := 5545529020109919103 in
  let k1 := A in
  let k2 := B in
  let k1 := u64 (k1 * c1) in
  let k1 := rotl64 k1 31 in
  let k1 := u64 (k1 * c2) in
  let h1 := h1 .^ k1 in
  let h1 := rotl64 h1 27 in
  let h1 := u64 (h1 + h2) in
  let h1 := u64 (h1 * 5 + 1390208809) in
  let k2 := u64 (k2 * c2) in
  let k2 := rotl64 k2 33 in
  let k2 := u64 (k2 * c1) in
  let h2 := h2 .^ k2 in
  let h2 := rotl64 h2 31 in
  let h2 := u64 (h2 + h1) in
  let h2 := u64 (h2 * 5 + 944331445) in
  let h1 := h1 .^ 16 in
  let h2 := h2 .^ 16 in
  let h1 := u64 (h1 + h2) in
  let h2 := u64 (h2 + h1) in
  let h1 := h1 .^ (h1 .>> 33) in
  let h1 := u64 (h1 * 18397679294719823053) in
  let h1 := h1 .^ (h1 .>> 33) in
  let h1 := u64 (h1 * 14181476777654086739) in
  let h1 := h1 .^ (h1 .>> 33) in
  let h2 := h2 .^ (h2 .>> 33) in
  let h2 := u64 (h2 * 18397679294719823053) in
  let h2 := h2 .^ (h2 .>> 33) in
  let h2 := u64 (h2 * 14181476777654086739) in
  let h2 := h2 .^ (h2 .>> 33) in
  u64 (h1 + h2).

Definition KHASH_SEED0 : Z := 0.
Definition KHASH_SEED1 : Z := 2307.
Definition KHASH_SEED2 : Z := 42.
Definition KHASH_SEED3 : Z := 2718281828.

(** The hash of a WAN's interface name. *)
Definition wan_name_hash (name : cstring) : Z :=
  foldl (fun h p => u64 (h * 33) .^ u8 p) 2166136261 name.

(** ** The ring *)

Definition EMPTY : Z := 4294967295.
Definition lut_get (lut : gmap Z Z) (i : Z) : Z := default EMPTY (lut !! i).
Definition ring_fuel : nat := Z.to_nat MAGLEV_RING_SIZE.

(** Entry [m] of the arrays [permutation], [next], [weights], [cum_weight] and
    [member_indices]. *)
Record slot := Slot {
  s_idx : Z;
  s_offset : Z;
  s_skip : Z;
  s_next : Z;
  s_weight : Z;
  s_cum : Z
}.

Definition wan_is_active (w : wan_config_t) : bool :=
  w_enabled w && negb (bool_decide (w_state w = WAN_STATE_DOWN))
  && negb (bool_decide (w_state w = WAN_STATE_DRAINING)) && (0 <? w_dynamic_weight w).

(** First loop, for the member at position [m].  An index out of range is skipped
    by [continue], which leaves the array entries indeterminate: [stk] stands for
    the stack contents. *)
Definition prepare_member (config : fluxwan_config_t) (stk : nat -> slot) (m : nat) (w_idx : Z)
    : slot :=
  match (if w_idx <? Z.of_nat (length (c_wans config)) then c_wans config !! Z.to_nat w_idx
         else None) with
  | None =>
      let g := stk m in Slot w_idx (s_offset g) (s_skip g) (s_next g) (s_weight g) 0
  | Some w =>
      let wan_hash := wan_name_hash (w_name w) in
      let offset_hash := murmurhash3_x64_64 wan_hash KHASH_SEED2 KHASH_SEED0 in
      let skip_hash := murmurhash3_x64_64 wan_hash KHASH_SEED3 KHASH_SEED1 in
      Slot w_idx (offset_hash mod MAGLEV_RING_SIZE)
        (skip_hash mod (MAGLEV_RING_SIZE - 1) + 1) 0
        (if wan_is_active w then w_dynamic_weight w else 0) 0
  end.

(** [active_members > 0] and [first_active_idx] after the first loop. *)
Definition member_active (config : fluxwan_config_t) (w_idx : Z) : bool :=
  match c_wans config !! Z.to_nat w_idx with
  | Some w => (0 <=? w_idx) && wan_is_active w
  | None => false
  end.

Definition slot_probe (s : slot) (next : Z) : Z :=
  u32 (s_offset s + u32 (next * s_skip s)) mod MAGLEV_RING_SIZE.

(** The inner [while (next[m] < MAGLEV_RING_SIZE)]: ring, [next], and whether a
    slot was taken. *)
Fixpoint probe (fuel : nat) (lut : gmap Z Z) (s : slot) (next : Z) : gmap Z Z * Z * bool :=
  match fuel with
  | O => (lut, next, false)
  | S fuel =>
      if next <? MAGLEV_RING_SIZE then
        let cur := slot_probe s next in
        if lut_get lut cur =? EMPTY
        then (<[cur := s_idx s]> lut, next + 1, true)
        else probe fuel lut s (next + 1)
      else (lut, next, false)
  end.

Definition with_next_cum (s : slot) (next cum : Z) : slot :=
  Slot (s_idx s) (s_offset s) (s_skip s) next (s_weight s) cum.

(** One pass of the [for] over the members: slots, ring, [runs], [progress]. *)
Fixpoint round (max_weight : Z) (slots : list slot) (lut : gmap Z Z) (runs : Z) (progress : bool)
    : list slot * gmap Z Z * Z * bool :=
  match slots with
  | [] => ([], lut, runs, progress)
  | s :: rest =>
      if s_weight s =? 0 then
        let '(rest', lut', runs', progress') := round max_weight rest lut runs progress in
        (s :: rest', lut', runs', progress')
      else
        let cum := u32 (s_cum s + s_weight s) in
        if max_weight <=? cum then
          let '(lut1, next, placed) := probe ring_fuel lut s (s_next s) in
          let s1 := with_next_cum s next (cum - max_weight) in
          let runs1 := if placed then runs + 1 else runs in
          let progress1 := progress || placed in
          if runs1 =? MAGLEV_RING_SIZE then (s1 :: rest, lut1, runs1, progress1)
          else
            let '(rest', lut', runs', progress') := round max_weight rest lut1 runs1 progress1 in
            (s1 :: rest', lut', runs', progress')
        else
          let '(rest', lut', runs', progress') := round max_weight rest lut runs progress in
          (with_next_cum s (s_next s) cum :: rest', lut', runs', progress')
  end.

(** The completion loop over the empty slots. *)
Definition fill_rest (first_active_idx : Z) (lut : gmap Z Z) : gmap Z Z :=
  for_loop ring_fuel 0 (fun i lut =>
    if lut_get lut i =? EMPTY then <[i := first_active_idx]> lut else lut) lut.

(** The outer [while (runs < MAGLEV_RING_SIZE)]; [None] when the fuel runs out. *)
Fixpoint fill (fuel : nat) (max_weight first_active_idx : Z) (slots : list slot)
    (lut : gmap Z Z) (runs : Z) : option (gmap Z Z) :=
  if runs <? MAGLEV_RING_SIZE then
    match fuel with
    | O => None
    | S fuel =>
        let '(slots', lut', runs', progress) := round max_weight slots lut runs false in
        if negb progress && (runs' <? MAGLEV_RING_SIZE)
        then Some (fill_rest first_active_idx lut')
        else fill fuel max_weight first_active_idx slots' lut' runs'
    end
  else Some lut.

Definition fill_const (v : Z) : gmap Z Z :=
  for_loop ring_fuel 0 (fun i lut => <[i := v]> lut) ∅.

Definition prepare (config : fluxwan_config_t) (stk : nat -> slot) (members : list Z)
    : list slot := imap (prepare_member config stk) members.

Definition max_weight_of (slots : list slot) : Z :=
  let m := foldl (fun acc s => if acc <? s_weight s then s_weight s else acc) 0 slots in
  if m =? 0 then 1 else m.

Definition build_single_maglev_ring (config : fluxwan_config_t) (stk : nat -> slot)
    (members : list Z) : option (gmap Z Z) :=
  match members with
  | [] => Some (fill_const 0)
  | m0 :: _ =>
      let slots := prepare config stk members in
      match List.filter (member_active config) members with
      | [] => Some (fill_const m0)
      | first_active_idx :: _ =>
          fill ring_fuel (max_weight_of slots) first_active_idx slots ∅ 0
      end
  end.

(** ** Complete rings *)

Lemma ring_size_val : MAGLEV_RING_SIZE = 65537.
Proof. done. Qed.
Lemma ring_fuel_val : Z.of_nat ring_fuel = MAGLEV_RING_SIZE.
Proof. unfold ring_fuel. rewrite Z2Nat.id; [done|]. by_eval. Qed.
#[global] Opaque ring_fuel MAGLEV_RING_SIZE.

(** Only ring slots are set, to values that are not the empty mark and are [good]. *)
Definition ring_ok (good : Z -> Prop) (lut : gmap Z Z) : Prop :=
  forall i v, lut !! i = Some v -> 0 <= i < MAGLEV_RING_SIZE /\ v <> EMPTY /\ good v.

Definition ring_full (lut : gmap Z Z) : Prop :=
  forall i, 0 <= i < MAGLEV_RING_SIZE -> is_Some (lut !! i).

Definition ring_slots : gset Z := list_to_set (seqZ 0 MAGLEV_RING_SIZE).

Lemma ring_slots_size : Z.of_nat (size ring_slots) = MAGLEV_RING_SIZE.
Proof.
  unfold ring_slots. rewrite size_list_to_set by apply NoDup_seqZ.
  rewrite length_seqZ, Z2Nat.id; [done|]. rewrite ring_size_val. lia.
Qed.

Lemma elem_of_ring_slots i : i ∈ ring_slots <-> 0 <= i < MAGLEV_RING_SIZE.
Proof. unfold ring_slots. rewrite elem_of_list_to_set, elem_of_seqZ. lia. Qed.

Lemma ring_ok_dom good lut : ring_ok good lut -> dom lut ⊆ ring_slots.
Proof.
  intros Hok i [v Hv]%elem_of_dom. apply elem_of_ring_slots. by apply (Hok i v).
Qed.

Lemma ring_ok_size good lut : ring_ok good lut -> Z.of_nat (size lut) <= MAGLEV_RING_SIZE.
Proof.
  intros Hok%ring_ok_dom%subseteq_size. rewrite <- ring_slots_size. rewrite <- size_dom. lia.
Qed.

(** A ring with as many entries as slots has no empty slot. *)
Lemma ring_ok_full good lut :
  ring_ok good lut -> Z.of_nat (size lut) = MAGLEV_RING_SIZE -> ring_full lut.
Proof.
  intros Hok Hs i Hi. apply elem_of_dom.
  assert (dom lut ≡ ring_slots) as ->; [|by apply elem_of_ring_slots].
  apply set_subseteq_size_equiv; [by eapply ring_ok_dom|].
  rewrite size_dom. pose proof ring_slots_size. lia.
Qed.

Lemma ring_ok_get good lut i v :
  ring_ok good lut -> lut !! i = Some v -> lut_get lut i = v /\ v <> EMPTY.
Proof. intros Hok Hv. unfold lut_get. rewrite Hv. split; [done|]. by apply (Hok i v). Qed.

Lemma ring_ok_empty good lut i :
  ring_ok good lut -> lut_get lut i = EMPTY -> lut !! i = None.
Proof.
  intros Hok E. destruct (lut !! i) eqn:El; [|done].
  apply (ring_ok_get good) in El as [? ?]; [congruence|done].
Qed.

Lemma ring_ok_insert good lut i v :
  ring_ok good lut -> 0 <= i < MAGLEV_RING_SIZE -> v <> EMPTY -> good v ->
  ring_ok good (<[i := v]> lut).
Proof.
  intros Hok Hi Hv Hg j w. rewrite lookup_insert_Some.
  intros [[<- <-]|[_ Hj]]; [done|by apply Hok].
Qed.

Lemma slot_probe_range s j : 0 <= slot_probe s j < MAGLEV_RING_SIZE.
Proof. unfold slot_probe. apply Z.mod_pos_bound. rewrite ring_size_val. lia. Qed.

(** What a walk along a probe sequence does. *)
Lemma probe_spec good fuel lut s next lut' next' placed :
  ring_ok good lut -> next <= MAGLEV_RING_SIZE ->
  probe fuel lut s next = (lut', next', placed) ->
  next <= next' <= MAGLEV_RING_SIZE
  /\ (forall j, next <= j < next' -> is_Some (lut' !! slot_probe s j))
  /\ (if placed
      then exists cur, 0 <= cur < MAGLEV_RING_SIZE /\ lut !! cur = None
                       /\ lut' = <[cur := s_idx s]> lut
      else lut' = lut /\ (MAGLEV_RING_SIZE - next <= Z.of_nat fuel -> next' = MAGLEV_RING_SIZE)).
Proof.
  intros Hok. revert next. induction fuel as [|fuel IH]; intros next Hn E; cbn [probe] in E.
  { injection E as <- <- <-. split_and!; (done || (intros; lia)). }
  destruct (Z.ltb_spec next MAGLEV_RING_SIZE) as [Hlt|Hge].
  2: { injection E as <- <- <-. split_and!; (done || (intros; lia)). }
  pose proof (slot_probe_range s next) as Hr.
  destruct (Z.eqb_spec (lut_get lut (slot_probe s next)) EMPTY) as [He|Hne].
  - injection E as <- <- <-. split_and!; try lia.
    + intros j Hj. replace j with next by lia. rewrite lookup_insert_eq. eauto.
    + exists (slot_probe s next). split; [done|]. by rewrite (ring_ok_empty good).
  - destruct (IH (next + 1)) as (H1 & H2 & H3); [lia|done|]. split_and!; [lia|lia| |].
    + intros j Hj. destruct (decide (j = next)) as [->|]; [|apply H2; lia].
      assert (is_Some (lut !! slot_probe s next)) as [v Hv].
      { unfold lut_get in Hne. destruct (lut !! slot_probe s next); [eauto|done]. }
      destruct placed; [|destruct H3 as [-> _]; eauto].
      destruct H3 as (cur & _ & Hc & ->). rewrite lookup_insert_ne; [eauto|congruence].
    + destruct placed; [done|]. destruct H3 as [-> H3]. split; [done|]. intros. apply H3. lia.
Qed.

Definition slot_ok (good : Z -> Prop) (s : slot) : Prop :=
  s_next s <= MAGLEV_RING_SIZE /\ (s_weight s <> 0 -> good (s_idx s) /\ s_idx s <> EMPTY).

Lemma round_ok good W slots lut runs progress slots' lut' runs' progress' :
  ring_ok good lut -> runs = Z.of_nat (size lut) -> Forall (slot_ok good) slots ->
  round W slots lut runs progress = (slots', lut', runs', progress') ->
  ring_ok good lut' /\ runs' = Z.of_nat (size lut') /\ runs <= runs'
  /\ (progress' = true -> progress = true \/ runs < runs')
  /\ Forall (slot_ok good) slots'.
Proof.
  revert lut runs progress slots'.
  induction slots as [|s rest IH]; intros lut runs progress slots' Hok Hruns Hs E; cbn [round] in E.
  { injection E as <- <- <- <-. by split_and!; try lia; auto. }
  apply Forall_cons_1 in Hs as [[Hn Hg] Hs].
  destruct (Z.eqb_spec (s_weight s) 0) as [Hw|Hw].
  { destruct (round W rest lut runs progress) as [[[r l] n] p] eqn:Er. injection E as <- <- <- <-.
    destruct (IH _ _ _ _ Hok Hruns Hs Er) as (? & ? & ? & ? & ?). by split_and!; auto; constructor. }
  destruct (W <=? u32 (s_cum s + s_weight s)).
  2: { destruct (round W rest lut runs progress) as [[[r l] n] p] eqn:Er. injection E as <- <- <- <-.
       destruct (IH _ _ _ _ Hok Hruns Hs Er) as (? & ? & ? & ? & ?).
       by split_and!; auto; constructor. }
  destruct (probe ring_fuel lut s (s_next s)) as [[lut1 next] placed] eqn:Ep.
  destruct (probe_spec good _ _ _ _ _ _ _ Hok Hn Ep) as (Hn1 & _ & Hp).
  destruct (Hg Hw) as [Hg1 Hg2].
  set (runs1 := if placed then runs + 1 else runs) in *.
  assert (ring_ok good lut1 /\ runs1 = Z.of_nat (size lut1)) as [Hok1 Hr1].
  { unfold runs1. destruct placed; [|by destruct Hp as [-> _]].
    destruct Hp as (cur & Hc & Hnone & ->). split; [by apply ring_ok_insert|].
    rewrite map_size_insert_None by done. lia. }
  assert (Hle : runs <= runs1 /\ (placed = true -> runs < runs1))
    by (unfold runs1; destruct placed; split; (lia || done)).
  destruct (runs1 =? MAGLEV_RING_SIZE).
  { injection E as <- <- <- <-. split_and!; try done; [lia| |].
    - intros [|]%orb_true_iff; [auto|right; apply Hle; done].
    - constructor; [|done]. by split; [cbn; lia|]. }
  destruct (round W rest lut1 runs1 (progress || placed)) as [[[r l] n] p] eqn:Er.
  injection E as <- <- <- <-.
  destruct (IH _ _ _ _ Hok1 Hr1 Hs Er) as (H1 & H2 & H3 & H4 & H5).
  split_and!; [done|done|lia| |].
  - intros Hp'. destruct (H4 Hp') as [[|]%orb_true_iff|]; [auto|right|right; lia].
    destruct Hle as [_ Hle]. specialize (Hle ltac:(done)). lia.
  - constructor; [|done]. by split; [cbn; lia|].
Qed.

Lemma fill_rest_ok good first lut :
  ring_ok good lut -> good first -> first <> EMPTY ->
  ring_ok good (fill_rest first lut) /\ ring_full (fill_rest first lut).
Proof.
  intros Hok Hg Hne. unfold fill_rest, ring_full.
  pose proof (for_loop_ind (fun j lut => ring_ok good lut /\
    forall i, 0 <= i < j -> is_Some (lut !! i))
    (fun i lut => if lut_get lut i =? EMPTY then <[i := first]> lut else lut) ring_fuel 0 lut) as H.
  rewrite !ring_fuel_val in H. apply H; clear H; [split; [done|intros; lia]|].
  intros j l Hj [Hl Hf]. destruct (Z.eqb_spec (lut_get l j) EMPTY) as [He|He].
  - split; [apply ring_ok_insert; (done || lia)|]. intros i Hi.
    destruct (decide (i = j)) as [->|]; [rewrite lookup_insert_eq; eauto|].
    rewrite lookup_insert_ne by done. apply Hf. lia.
  - split; [done|]. intros i Hi. destruct (decide (i = j)) as [->|]; [|apply Hf; lia].
    unfold lut_get in He. destruct (l !! j); [eauto|done].
Qed.

Lemma fill_ok good W first fuel slots lut runs :
  ring_ok good lut -> runs = Z.of_nat (size lut) -> Forall (slot_ok good) slots ->
  good first -> first <> EMPTY -> MAGLEV_RING_SIZE - runs <= Z.of_nat fuel ->
  exists lut', fill fuel W first slots lut runs = Some lut' /\ ring_ok good lut' /\ ring_full lut'.
Proof.
  intros Hok Hr Hs Hg Hne. revert slots lut runs Hok Hr Hs.
  induction fuel as [|fuel IH]; intros slots lut runs Hok Hr Hs Hf; cbn [fill];
    destruct (Z.ltb_spec runs MAGLEV_RING_SIZE) as [Hlt|Hge]; try lia;
    try (exists lut; split_and!; [done|done|]; eapply ring_ok_full; [done|];
         pose proof (ring_ok_size _ _ Hok); lia).
  destruct (round W slots lut runs false) as [[[slots' lut'] runs'] progress] eqn:Er.
  destruct (round_ok good _ _ _ _ _ _ _ _ _ Hok Hr Hs Er) as (H1 & H2 & H3 & H4 & H5).
  destruct progress; cbn.
  - apply IH; try done. destruct (H4 eq_refl); [done|lia].
  - destruct (Z.ltb_spec runs' MAGLEV_RING_SIZE).
    + eexists. split; [done|]. by apply fill_rest_ok.
    + exists lut'. destruct fuel; cbn [fill];
        (destruct (Z.ltb_spec runs' MAGLEV_RING_SIZE); [lia|]);
        (split_and!; [done|done|]); (eapply ring_ok_full; [done|]);
        pose proof (ring_ok_size _ _ H1); lia.
Qed.

Lemma fill_const_get v i : 0 <= i < MAGLEV_RING_SIZE -> lut_get (fill_const v) i = v.
Proof.
  intros Hi. unfold fill_const.
  pose proof (for_loop_ind (fun j (lut : gmap Z Z) => forall i, 0 <= i < j -> lut !! i = Some v)
    (fun i lut => <[i := v]> lut) ring_fuel 0 ∅) as H.
  rewrite !ring_fuel_val in H. unfold lut_get. rewrite H; [done|intros; lia| |lia].
  intros j l Hj Hl k Hk. destruct (decide (k = j)) as [->|]; [by rewrite lookup_insert_eq|].
  rewrite lookup_insert_ne by done. apply Hl. lia.
Qed.

(** Members are indices of configured WANs. *)
Definition members_ok (config : fluxwan_config_t) (members : list Z) : Prop :=
  Z.of_nat (length (c_wans config)) <= MAX_WANS /\
  Forall (fun i => 0 <= i < Z.of_nat (length (c_wans config))) members.

Definition serves (config : fluxwan_config_t) (members : list Z) (v : Z) : Prop :=
  v ∈ members /\ member_active config v = true.

Lemma prepare_member_valid config stk m i :
  0 <= i < Z.of_nat (length (c_wans config)) ->
  exists w, c_wans config !! Z.to_nat i = Some w /\
    prepare_member config stk m i =
      Slot i (murmurhash3_x64_64 (wan_name_hash (w_name w)) KHASH_SEED2 KHASH_SEED0
                mod MAGLEV_RING_SIZE)
        (murmurhash3_x64_64 (wan_name_hash (w_name w)) KHASH_SEED3 KHASH_SEED1
           mod (MAGLEV_RING_SIZE - 1) + 1) 0
        (if member_active config i then w_dynamic_weight w else 0) 0.
Proof.
  intros Hi. destruct (lookup_lt_is_Some_2 (c_wans config) (Z.to_nat i)) as [w Hw]; [lia|].
  exists w. split; [done|]. unfold prepare_member, member_active.
  destruct (Z.ltb_spec i (Z.of_nat (length (c_wans config)))); [|lia]. rewrite Hw.
  destruct (Z.leb_spec 0 i); [|lia]. done.
Qed.

Lemma prepare_ok config stk members :
  members_ok config members -> Forall (slot_ok (serves config members)) (prepare config stk members).
Proof.
  intros [Hlen Hm]. apply Forall_lookup. intros k s. unfold prepare.
  rewrite list_lookup_imap, fmap_Some. intros (i & Hi & ->).
  rewrite Forall_lookup in Hm.
  destruct (prepare_member_valid config stk k i (Hm _ _ Hi)) as (w & Hw & ->).
  split; cbn; [rewrite ring_size_val; lia|].
  destruct (member_active config i) eqn:E; [|done]. intros _. split.
  - split; [|done]. by eapply list_elem_of_lookup_2.
  - specialize (Hm _ _ Hi). unfold EMPTY, MAX_WANS in *. cbn in Hm. lia.
Qed.

(** The first member the filter keeps serves. *)
Lemma first_active_serves config members f rest :
  List.filter (member_active config) members = f :: rest -> serves config members f.
Proof.
  intros E. assert (Hin : In f (List.filter (member_active config) members))
    by (rewrite E; by left).
  apply List.filter_In in Hin as [H1 H2]. split; [by apply list_elem_of_In|done].
Qed.

Lemma build_ring_complete config stk members :
  members_ok config members -> members <> [] ->
  exists lut, build_single_maglev_ring config stk members = Some lut /\
    forall i, 0 <= i < MAGLEV_RING_SIZE ->
      if existsb (member_active config) members
      then serves config members (lut_get lut i)
      else Some (lut_get lut i) = head members.
Proof.
  intros Hm Hne. destruct members as [|m0 ms] eqn:Em; [done|]. rewrite <- Em in *.
  unfold build_single_maglev_ring. rewrite Em. rewrite <- Em.
  destruct (List.filter (member_active config) members) as [|first rest] eqn:Ef.
  - assert (existsb (member_active config) members = false) as ->.
    { apply not_true_iff_false. intros (x & Hx & Ha)%existsb_exists.
      assert (In x []) as []. rewrite <- Ef. by apply List.filter_In. }
    eexists. split; [done|]. intros i Hi. rewrite fill_const_get by done. by rewrite Em.
  - pose proof (first_active_serves _ _ _ _ Ef) as Hs.
    assert (existsb (member_active config) members = true) as ->.
    { apply existsb_exists. exists first. split; [apply list_elem_of_In|]; apply Hs. }
    assert (first <> EMPTY).
    { destruct Hm as [Hl Hm]. rewrite Forall_forall in Hm. specialize (Hm first (proj1 Hs)).
      unfold EMPTY, MAX_WANS in *. lia. }
    destruct (fill_ok (serves config members) (max_weight_of (prepare config stk members)) first
      ring_fuel (prepare config stk members) ∅ 0) as (lut & E & Hok & Hfull); try done.
    + by apply prepare_ok.
    + exists lut. split; [done|]. intros i Hi. destruct (Hfull i Hi) as [v Hv].
      destruct (ring_ok_get _ _ _ _ Hok Hv) as [-> _]. by apply (Hok i v).
Qed.

(** The ring is always complete.  For any members that index configured
    WANs, [build_single_maglev_ring] terminates (65537 passes suffice) and fills
    every one of the 65537 slots: with a member that is enabled, neither down nor
    draining, and of positive weight, when there is one; with the first member
    otherwise. *)
Theorem maglev_ring_complete config stk members :
  members_ok config members -> members <> [] ->
  exists lut, build_single_maglev_ring config stk members = Some lut /\
    forall i, 0 <= i < MAGLEV_RING_SIZE ->
      if existsb (member_active config) members
      then serves config members (lut_get lut i)
      else Some (lut_get lut i) = head members.
Proof. apply build_ring_complete. Qed.

(** ** Proportional shares *)

Definition cnt (lut : gmap Z Z) (v : Z) : Z := Z.of_nat (size (filter (fun p => p.2 = v) lut)).

Lemma cnt_insert lut cur v u :
  lut !! cur = None ->
  cnt (<[cur := v]> lut) u = cnt lut u + (if decide (v = u) then 1 else 0).
Proof.
  intros Hn. unfold cnt. rewrite map_filter_insert. cbn. destruct (decide (v = u)).
  - rewrite map_size_insert_None; [lia|]. rewrite map_lookup_filter_None. auto.
  - rewrite delete_id by done. lia.
Qed.

(** 65537 is prime: no proper divisor up to its square root. *)
Lemma ring_size_no_divisor g : 1 < g -> g < MAGLEV_RING_SIZE -> (g | MAGLEV_RING_SIZE) -> False.
Proof.
  rewrite ring_size_val.
  assert (Hsmall : forall d, 1 < d <= 256 -> (d | 65537) -> False).
  { intros d Hd Hdiv. assert (Hm : 65537 mod d = 0) by (apply Z.mod_divide; [lia|done]).
    assert (Hall : Forall (fun d => 65537 mod d <> 0) (seqZ 2 255)).
    { apply (bool_decide_unpack _). by_eval. }
    rewrite Forall_forall in Hall. apply (Hall d); [|done]. apply elem_of_seqZ. lia. }
  intros H1 H2 Hd. destruct Hd as [q Hq]. destruct (Z.le_gt_cases g 256).
  - apply (Hsmall g); [lia|]. by exists q.
  - apply (Hsmall q); [nia|]. exists g. lia.
Qed.

(** The last probe of the sequence does not wrap around at 32 bits. *)
Definition probe_exact (s : slot) : Prop :=
  0 <= s_offset s /\ 1 <= s_skip s < MAGLEV_RING_SIZE
  /\ s_offset s + (MAGLEV_RING_SIZE - 1) * s_skip s < 2 ^ 32.

Lemma slot_probe_exact s j :
  probe_exact s -> 0 <= j < MAGLEV_RING_SIZE ->
  slot_probe s j = (s_offset s + j * s_skip s) mod MAGLEV_RING_SIZE.
Proof.
  intros (Ho & Hk & Hx) Hj. unfold slot_probe, u32.
  assert (0 <= j * s_skip s <= (MAGLEV_RING_SIZE - 1) * s_skip s) by nia.
  rewrite (Z.mod_small (j * s_skip s)) by lia. by rewrite (Z.mod_small (_ + _)) by lia.
Qed.

Definition covers (s : slot) : Prop :=
  forall i, 0 <= i < MAGLEV_RING_SIZE ->
    exists j, 0 <= j < MAGLEV_RING_SIZE /\ slot_probe s j = i.

(** Such a sequence visits every slot: the skip is invertible modulo the ring size. *)
Lemma probe_exact_covers s : probe_exact s -> covers s.
Proof.
  intros Hx i Hi. pose proof Hx as (Ho & Hk & _).
  assert (Hg : Z.gcd (s_skip s) MAGLEV_RING_SIZE = 1).
  { pose proof (Z.gcd_nonneg (s_skip s) MAGLEV_RING_SIZE).
    pose proof (Z.gcd_divide_l (s_skip s) MAGLEV_RING_SIZE) as Hl.
    pose proof (Z.gcd_divide_r (s_skip s) MAGLEV_RING_SIZE) as Hr.
    assert (Z.gcd (s_skip s) MAGLEV_RING_SIZE <= s_skip s) by (apply Z.divide_pos_le; [lia|done]).
    destruct (Z.eq_dec (Z.gcd (s_skip s) MAGLEV_RING_SIZE) 0) as [E|].
    { rewrite E in Hl. apply Z.divide_0_l in Hl. lia. }
    destruct (Z.eq_dec (Z.gcd (s_skip s) MAGLEV_RING_SIZE) 1) as [|Hne]; [done|].
    exfalso. eapply ring_size_no_divisor, Hr; lia. }
  destruct (Z.gcd_bezout (s_skip s) MAGLEV_RING_SIZE _ Hg) as (a & b & Hab).
  exists (((i - s_offset s) * a) mod MAGLEV_RING_SIZE).
  assert (Hj : 0 <= ((i - s_offset s) * a) mod MAGLEV_RING_SIZE < MAGLEV_RING_SIZE)
    by (apply Z.mod_pos_bound; lia).
  split; [done|]. rewrite slot_probe_exact by done.
  rewrite Z.mul_comm, <- Zplus_mod_idemp_r, Zmult_mod_idemp_r, Zplus_mod_idemp_r.
  replace (s_offset s + s_skip s * ((i - s_offset s) * a))
    with (i + ((i - s_offset s) * - b) * MAGLEV_RING_SIZE) by nia.
  rewrite Z.mod_add by lia. by apply Z.mod_small.
Qed.

Definition no_good (v : Z) : Prop := True.

(** What a member's slot keeps over the passes: after [k] passes of weight [w]
    against the maximum [W] it has taken [k * w / W] slots and carries the
    remainder, and every probe before [next] is taken. *)
Record share (W k : Z) (lut : gmap Z Z) (s : slot) : Prop := {
  sh_weight : 0 <= s_weight s <= W;
  sh_cum : 0 <= s_cum s < W;
  sh_cnt : s_cum s + W * cnt lut (s_idx s) = k * s_weight s;
  sh_next : 0 <= s_next s <= MAGLEV_RING_SIZE;
  sh_taken : forall j, 0 <= j < s_next s -> is_Some (lut !! slot_probe s j);
  sh_covers : s_weight s <> 0 -> covers s /\ s_idx s <> EMPTY
}.

Lemma share_mono W k lut lut' s :
  share W k lut s -> lut ⊆ lut' -> cnt lut' (s_idx s) = cnt lut (s_idx s) -> share W k lut' s.
Proof.
  intros [] Hsub Hc. split; try done; [by rewrite Hc|].
  intros j Hj. destruct (sh_taken0 j Hj) as [v Hv]. exists v. by eapply lookup_weaken.
Qed.

Lemma ring_full_size lut : ring_full lut -> MAGLEV_RING_SIZE <= Z.of_nat (size lut).
Proof.
  intros Hf. assert (ring_slots ⊆ dom lut) as H%subseteq_size.
  { intros i Hi%elem_of_ring_slots. by apply elem_of_dom, Hf. }
  rewrite size_dom in H. pose proof ring_slots_size. lia.
Qed.

(** A walk over a covering sequence finds a free slot while there is one. *)
Lemma probe_places W k lut s lut' next' placed :
  ring_ok no_good lut -> Z.of_nat (size lut) < MAGLEV_RING_SIZE -> share W k lut s ->
  s_weight s <> 0 -> probe ring_fuel lut s (s_next s) = (lut', next', placed) ->
  0 <= next' <= MAGLEV_RING_SIZE
  /\ (forall j, 0 <= j < next' -> is_Some (lut' !! slot_probe s j))
  /\ placed = true
  /\ exists cur, 0 <= cur < MAGLEV_RING_SIZE /\ lut !! cur = None /\ lut' = <[cur := s_idx s]> lut.
Proof.
  intros Hok Hsz Hs Hw E. pose proof (sh_next _ _ _ _ Hs).
  destruct (probe_spec no_good _ _ _ _ _ _ _ Hok (proj2 H) E) as (Hn & Ht & Hp).
  assert (Hall : forall j, 0 <= j < next' -> is_Some (lut' !! slot_probe s j)).
  { intros j Hj. destruct (Z.lt_ge_cases j (s_next s)) as [Hlt|]; [|apply Ht; lia].
    destruct (sh_taken _ _ _ _ Hs j ltac:(lia)) as [v Hv].
    destruct placed; [|destruct Hp as [-> _]; eauto].
    destruct Hp as (cur & _ & Hc & ->). rewrite lookup_insert_ne; [eauto|congruence]. }
  destruct placed; [split_and!; (done || lia)|].
  destruct Hp as [-> Hp]. pose proof ring_fuel_val. rewrite Hp in Hall by lia.
  assert (Hf : ring_full lut).
  { intros i Hi. destruct (proj1 (sh_covers _ _ _ _ Hs Hw) i Hi) as (j & Hj & <-). by apply Hall. }
  apply ring_full_size in Hf. lia.
Qed.

(** One turn of a member whose weight is not zero. *)
Lemma share_turn W k lut s :
  W < 2 ^ 31 -> ring_ok no_good lut -> Z.of_nat (size lut) < MAGLEV_RING_SIZE ->
  share W k lut s -> s_weight s <> 0 ->
  let cum := u32 (s_cum s + s_weight s) in
  if W <=? cum
  then forall lut' next' placed, probe ring_fuel lut s (s_next s) = (lut', next', placed) ->
       placed = true
       /\ (exists cur, 0 <= cur < MAGLEV_RING_SIZE /\ lut !! cur = None
                       /\ lut' = <[cur := s_idx s]> lut)
       /\ share W (k + 1) lut' (with_next_cum s next' (cum - W))
  else share W (k + 1) lut (with_next_cum s (s_next s) cum).
Proof.
  intros HW Hok Hsz Hs Hw cum. pose proof Hs as [H1 H2 H3 H4 H5 H6].
  assert (cum = s_cum s + s_weight s) as Ec by (apply u32_small; unfold is_u32; lia).
  destruct (Z.leb_spec W cum) as [Hle|Hlt].
  - intros lut' next' placed E.
    destruct (probe_places W k _ _ _ _ _ Hok Hsz Hs Hw E) as (Hn & Ht & -> & cur & Hc & Hno & ->).
    split_and!; [done|by exists cur|]. split; cbn; try done; try lia.
    rewrite cnt_insert by done. rewrite decide_True by done. lia.
  - split; cbn; try done; lia.
Qed.

Definition same_member (s s' : slot) : Prop := s_idx s' = s_idx s /\ s_weight s' = s_weight s.

(** What one pass leaves: the slots already treated have done [k + 1] passes,
    those after a break on a full ring only [k]. *)
Record pass (W k : Z) (slots : list slot) (lut : gmap Z Z) (progress : bool)
    (slots' : list slot) (lut' : gmap Z Z) (runs' : Z) (progress' : bool) : Prop := {
  ps_same : Forall2 same_member slots slots';
  ps_other : forall v, v ∉ s_idx <$> slots -> cnt lut' v = cnt lut v;
  ps_sub : lut ⊆ lut';
  ps_shares : Forall (fun s => share W (k + 1) lut' s
                               \/ runs' = MAGLEV_RING_SIZE /\ share W k lut' s) slots';
  ps_progress : progress = true \/ Exists (fun s => s_weight s = W) slots ->
                progress' = true
}.

Lemma pass_cons W k s slots lut p s1 lut1 p1 slots' lut' runs' p' :
  pass W k slots lut1 p1 slots' lut' runs' p' ->
  s_idx s ∉ s_idx <$> slots -> same_member s s1 -> share W (k + 1) lut1 s1 -> lut ⊆ lut1 ->
  (forall v, v <> s_idx s -> cnt lut1 v = cnt lut v) ->
  (p = true \/ s_weight s = W -> p1 = true) ->
  pass W k (s :: slots) lut p (s1 :: slots') lut' runs' p'.
Proof.
  intros [] Hno [Hi Hw] Hs Hsub Hc Hp. split.
  - by constructor.
  - intros v [Hv Hv']%not_elem_of_cons. by rewrite ps_other0, Hc.
  - by trans lut1.
  - constructor; [|done]. left. eapply share_mono; [done..|]. rewrite Hi. by apply ps_other0.
  - rewrite Exists_cons. intros [|[|]]; apply ps_progress0; auto.
Qed.

Lemma cnt_insert_other lut cur v u :
  lut !! cur = None -> u <> v -> cnt (<[cur := v]> lut) u = cnt lut u.
Proof. intros. rewrite cnt_insert by done. rewrite decide_False by congruence. lia. Qed.

Lemma share_others W k lut cur v slots :
  lut !! cur = None -> v ∉ s_idx <$> slots -> Forall (share W k lut) slots ->
  Forall (share W k (<[cur := v]> lut)) slots.
Proof.
  intros Hc Hv. rewrite !Forall_forall. intros Hs t Ht.
  eapply share_mono; [by apply Hs|by apply insert_subseteq|].
  apply cnt_insert_other; [done|]. intros <-. apply Hv. by apply list_elem_of_fmap_2.
Qed.

(** A slot of weight zero has done any number of passes. *)
Lemma share_idle W k lut s : s_weight s = 0 -> share W k lut s -> share W (k + 1) lut s.
Proof. intros Hw []. split; try done. rewrite Hw in *. lia. Qed.

Lemma Forall2_same_member slots : Forall2 same_member slots slots.
Proof. by apply Forall_Forall2_diag, Forall_true. Qed.

Lemma round_share W k slots lut progress slots' lut' runs' progress' :
  0 < W < 2 ^ 31 -> ring_ok no_good lut -> Z.of_nat (size lut) < MAGLEV_RING_SIZE ->
  Forall (share W k lut) slots -> NoDup (s_idx <$> slots) ->
  round W slots lut (Z.of_nat (size lut)) progress = (slots', lut', runs', progress') ->
  pass W k slots lut progress slots' lut' runs' progress'.
Proof.
  intros HW. revert lut progress slots'.
  induction slots as [|s rest IH]; intros lut progress slots' Hok Hsz Hs Hnd E; cbn [round] in E.
  { injection E as <- <- <- <-. split; auto. intros [|H]; [done|]. by apply Exists_nil in H. }
  apply Forall_cons_1 in Hs as [Hs Hrest]. apply NoDup_cons in Hnd as [Hno Hnd].
  destruct (Z.eqb_spec (s_weight s) 0) as [Hw|Hw].
  { destruct (round W rest _ _ progress) as [[[r l] n] p] eqn:Er. injection E as <- <- <- <-.
    eapply pass_cons; [by apply IH in Er|done|done|by apply share_idle|done|done|].
    intros [|]; [done|lia]. }
  pose proof (share_turn W k lut s (proj2 HW) Hok Hsz Hs Hw) as Ht. cbv zeta in Ht.
  pose proof (sh_cum _ _ _ _ Hs) as Hcum. pose proof (sh_weight _ _ _ _ Hs) as Hwt.
  destruct (Z.leb_spec W (u32 (s_cum s + s_weight s))) as [Hle|Hlt].
  2: { destruct (round W rest _ _ progress) as [[[r l] n] p] eqn:Er. injection E as <- <- <- <-.
       eapply pass_cons; [by apply IH in Er|done|done|done|done|done|].
       rewrite u32_small in Hlt by (unfold is_u32; lia). intros [|]; [done|lia]. }
  destruct (probe ring_fuel lut s (s_next s)) as [[lut1 next] placed] eqn:Ep.
  destruct (Ht _ _ _ eq_refl) as (-> & (cur & Hc & Hnone & ->) & Hs1). rewrite orb_true_r in E.
  assert (Hsz1 : Z.of_nat (size (<[cur:=s_idx s]> lut)) = Z.of_nat (size lut) + 1)
    by (rewrite map_size_insert_None by done; lia).
  assert (Hok1 : ring_ok no_good (<[cur:=s_idx s]> lut)).
  { apply ring_ok_insert; [done|done| |done]. by apply (sh_covers _ _ _ _ Hs). }
  assert (Hsub : lut ⊆ <[cur:=s_idx s]> lut) by by apply insert_subseteq.
  assert (Hrest1 : Forall (share W k (<[cur:=s_idx s]> lut)) rest). by by apply share_others.
  destruct (Z.eqb_spec (Z.of_nat (size lut) + 1) MAGLEV_RING_SIZE) as [Hfull|Hmore].
  { injection E as <- <- <- <-. split.
    - constructor; [done|]. apply Forall2_same_member.
    - intros v [Hv _]%not_elem_of_cons. by apply cnt_insert_other.
    - done.
    - constructor; [by left|]. eapply Forall_impl; [done|]. auto.
    - done. }
  destruct (round W rest _ _ true) as [[[r l] n] p] eqn:Er. injection E as <- <- <- <-.
  rewrite <- Hsz1 in Er. pose proof (ring_ok_size _ _ Hok1).
  eapply pass_cons; [apply IH in Er; [done|done|lia|done|done]|done|done|done|done| |done].
  intros v Hv. by apply cnt_insert_other.
Qed.

Lemma share_slot_ok W k lut s : share W k lut s -> slot_ok no_good s.
Proof. intros []. split; [lia|]. intros Hw. split; [done|]. by apply sh_covers0. Qed.

Lemma same_member_idx slots slots' :
  Forall2 same_member slots slots' -> s_idx <$> slots' = s_idx <$> slots.
Proof. induction 1 as [|s s' ? ? [H _]]; cbn; [done|]. by rewrite H, IHForall2. Qed.

Lemma same_member_Exists W slots slots' :
  Forall2 same_member slots slots' -> Exists (fun s => s_weight s = W) slots ->
  Exists (fun s => s_weight s = W) slots'.
Proof.
  induction 1 as [|s s' ? ? [_ H]]; [done|]. rewrite !Exists_cons, H. intros [|]; auto.
Qed.

Lemma same_member_trans s1 s2 s3 : same_member s1 s2 -> same_member s2 s3 -> same_member s1 s3.
Proof. intros [] []. split; congruence. Qed.

(** The shares at the end of the outer loop. *)
Definition shared (W k : Z) (lut : gmap Z Z) (s : slot) : Prop :=
  exists s', same_member s s' /\ (share W k lut s' \/ share W (k + 1) lut s').

Lemma fill_share W first fuel slots lut k :
  0 < W < 2 ^ 31 -> ring_ok no_good lut -> Forall (share W k lut) slots ->
  NoDup (s_idx <$> slots) -> Exists (fun s => s_weight s = W) slots -> 0 <= k ->
  MAGLEV_RING_SIZE - Z.of_nat (size lut) <= Z.of_nat fuel ->
  exists lut' k', fill fuel W first slots lut (Z.of_nat (size lut)) = Some lut' /\ 0 <= k'
    /\ Forall (shared W k' lut') slots.
Proof.
  intros HW. revert slots lut k.
  induction fuel as [|fuel IH]; intros slots lut k Hok Hs Hnd Hex Hk Hf; cbn [fill];
    destruct (Z.ltb_spec (Z.of_nat (size lut)) MAGLEV_RING_SIZE) as [Hlt|Hge]; try lia;
    try (exists lut, k; split_and!; [done|done|]; eapply Forall_impl; [done|];
         intros s Hsh; exists s; by split; [|left]).
  destruct (round W slots lut _ false) as [[[slots' lut'] runs'] progress] eqn:Er.
  destruct (round_ok no_good _ _ _ _ _ _ _ _ _ Hok eq_refl
    (Forall_impl _ _ _ Hs (share_slot_ok W k lut)) Er) as (Hok' & -> & _ & Hprog & _).
  destruct (round_share _ _ _ _ _ _ _ _ _ HW Hok Hlt Hs Hnd Er) as [Hsame _ _ Hsh Hp].
  rewrite Hp in * by auto. cbn. destruct (Hprog eq_refl) as [|Hinc]; [done|].
  destruct (decide (Z.of_nat (size lut') = MAGLEV_RING_SIZE)) as [Hfull|Hmore].
  - exists lut', k. split_and!; [|done|].
    + destruct fuel; cbn [fill]; by rewrite Hfull, Z.ltb_irrefl.
    + apply Forall_lookup. intros i s Hi. destruct (Forall2_lookup_l _ _ _ _ _ Hsame Hi)
        as (s' & Hi' & Hs'). exists s'. split; [done|].
      rewrite Forall_lookup in Hsh. destruct (Hsh _ _ Hi') as [|[]]; auto.
  - destruct (IH slots' lut' (k + 1)) as (lut2 & k2 & E & Hk2 & Hsh2); try done; try lia.
    + eapply Forall_impl; [done|]. by intros s [|[]].
    + by rewrite (same_member_idx _ _ Hsame).
    + by eapply same_member_Exists.
    + exists lut2, k2. split_and!; [done|done|]. apply Forall_lookup. intros i s Hi.
      destruct (Forall2_lookup_l _ _ _ _ _ Hsame Hi) as (s' & Hi' & Hs').
      rewrite Forall_lookup in Hsh2. destruct (Hsh2 _ _ Hi') as (s2 & Hs2 & Hor).
      exists s2. split; [by eapply same_member_trans|done].
Qed.

(** ** The weights *)

Definition member_weight (config : fluxwan_config_t) (i : Z) : Z :=
  if member_active config i then
    match c_wans config !! Z.to_nat i with Some w => w_dynamic_weight w | None => 0 end
  else 0.

Definition max_member_weight (config : fluxwan_config_t) (members : list Z) : Z :=
  foldr Z.max 0 (member_weight config <$> members).

Lemma max_weight_fold slots acc :
  foldl (fun acc s => if acc <? s_weight s then s_weight s else acc) acc slots
  = Z.max acc (foldr Z.max 0 (s_weight <$> slots)) \/ acc < 0.
Proof.
  revert acc. induction slots as [|s slots IH]; intros acc; cbn; [lia|].
  destruct (Z.ltb_spec acc (s_weight s)); [destruct (IH (s_weight s))|destruct (IH acc)]; lia.
Qed.

Lemma foldr_max_ge l x : x ∈ l -> x <= foldr Z.max 0 l.
Proof. induction 1; cbn; lia. Qed.

Lemma foldr_max_in l : 0 < foldr Z.max 0 l -> foldr Z.max 0 l ∈ l.
Proof.
  induction l as [|x l IH]; cbn; [lia|]. intros H.
  destruct (Z.max_spec x (foldr Z.max 0 l)) as [[_ E]|[_ E]]; rewrite E in *;
    [right; auto|left].
Qed.

(** The probe sequence of a configured WAN, as the first loop computes it. *)
Definition wan_slot (config : fluxwan_config_t) (i : Z) : slot :=
  prepare_member config (fun _ => Slot 0 0 0 0 0 0) 0 i.

Lemma prepare_lookup config stk members k s :
  members_ok config members -> prepare config stk members !! k = Some s ->
  exists i, members !! k = Some i /\ s = wan_slot config i /\ s_idx s = i
    /\ s_next s = 0 /\ s_cum s = 0 /\ s_weight s = member_weight config i.
Proof.
  intros [_ Hm]. unfold prepare. rewrite list_lookup_imap, fmap_Some. intros (i & Hi & ->).
  rewrite Forall_lookup in Hm. exists i. split; [done|]. unfold wan_slot.
  destruct (prepare_member_valid config stk k i (Hm _ _ Hi)) as (w & Hw & ->).
  destruct (prepare_member_valid config (fun _ => Slot 0 0 0 0 0 0) 0 i (Hm _ _ Hi))
    as (w' & Hw' & ->). simplify_eq. split_and!; try done.
  unfold member_weight. cbn. by rewrite Hw.
Qed.

Lemma prepare_map {A} (f : slot -> A) (g : Z -> A) config stk members :
  members_ok config members ->
  (forall k s i, prepare config stk members !! k = Some s -> members !! k = Some i -> f s = g i) ->
  f <$> prepare config stk members = g <$> members.
Proof.
  intros Hm H. apply list_eq. intros k. rewrite !list_lookup_fmap.
  destruct (prepare config stk members !! k) eqn:E.
  - destruct (prepare_lookup _ _ _ _ _ Hm E) as (i & Hi & _). rewrite Hi. cbn. f_equal.
    by eapply H.
  - revert E. unfold prepare. rewrite list_lookup_imap. by destruct (members !! k).
Qed.

Lemma prepare_idx config stk members :
  members_ok config members -> s_idx <$> prepare config stk members = members.
Proof.
  intros Hm. rewrite <- (list_fmap_id members) at 2. apply prepare_map; [done|].
  intros k s i Hs Hi. destruct (prepare_lookup _ _ _ _ _ Hm Hs) as (i' & ? & ? & ? & _).
  by simplify_eq.
Qed.

Lemma prepare_weights config stk members :
  members_ok config members ->
  s_weight <$> prepare config stk members = member_weight config <$> members.
Proof.
  intros Hm. apply prepare_map; [done|]. intros k s i Hs Hi.
  destruct (prepare_lookup _ _ _ _ _ Hm Hs) as (i' & ? & ? & ? & ? & ? & ?). by simplify_eq.
Qed.

Lemma member_weight_active config i :
  0 <= member_weight config i /\ (member_active config i = true <-> member_weight config i <> 0).
Proof.
  unfold member_weight. destruct (member_active config i) eqn:E; [|done].
  revert E. unfold member_active, wan_is_active. destruct (c_wans config !! Z.to_nat i); [|done].
  rewrite !andb_true_iff, Z.ltb_lt. lia.
Qed.

Lemma max_weight_of_prepare config stk members :
  members_ok config members -> 0 < max_member_weight config members ->
  max_weight_of (prepare config stk members) = max_member_weight config members.
Proof.
  intros Hm Hpos. unfold max_weight_of.
  destruct (max_weight_fold (prepare config stk members) 0) as [->|]; [|lia].
  rewrite prepare_weights by done. fold (max_member_weight config members).
  rewrite Z.max_r by lia. destruct (Z.eqb_spec (max_member_weight config members) 0); lia.
Qed.

Lemma prepare_shares config stk members :
  members_ok config members ->
  Forall (fun i => member_active config i = true -> probe_exact (wan_slot config i)) members ->
  0 < max_member_weight config members ->
  Forall (share (max_member_weight config members) 0 ∅) (prepare config stk members).
Proof.
  intros Hm Hx Hpos. apply Forall_lookup. intros k s Hs.
  destruct (prepare_lookup _ _ _ _ _ Hm Hs) as (i & Hi & Hw & Hidx & Hn & Hc & Hwt).
  destruct (member_weight_active config i) as [H0 Ha].
  assert (Hin : i ∈ members) by by eapply list_elem_of_lookup_2. split.
  - rewrite Hwt. split; [done|]. by apply foldr_max_ge, list_elem_of_fmap_2.
  - lia.
  - unfold cnt. rewrite map_filter_empty, map_size_empty. lia.
  - rewrite Hn, ring_size_val. lia.
  - intros j Hj. lia.
  - rewrite Hwt, Hidx, Hw. intros Hne. rewrite Forall_forall in Hx. split.
    + apply probe_exact_covers, Hx; [done|]. by apply Ha.
    + destruct Hm as [Hl Hm]. rewrite Forall_forall in Hm. specialize (Hm i Hin).
      unfold EMPTY, MAX_WANS in *. lia.
Qed.

Lemma share_quotient W k lut s :
  0 < W -> share W k lut s -> cnt lut (s_idx s) = k * s_weight s / W.
Proof. intros HW [_ Hc He _ _ _]. apply (Z.div_unique _ _ _ (s_cum s)); lia. Qed.

Lemma build_active config stk members j :
  j ∈ members -> member_active config j = true ->
  exists first, build_single_maglev_ring config stk members =
    fill ring_fuel (max_weight_of (prepare config stk members)) first
      (prepare config stk members) ∅ 0.
Proof.
  intros Hj%list_elem_of_In Ha. unfold build_single_maglev_ring.
  destruct members as [|m0 ms]; [done|].
  destruct (List.filter (member_active config) (m0 :: ms)) as [|first rest] eqn:Ef; [|eauto].
  assert (In j []) as []. rewrite <- Ef. by apply List.filter_In.
Qed.

(** C16.  The ring's slots are shared in exact proportion to the weights, as the
    comment on the algorithm promises.  For distinct members whose 32-bit probe
    arithmetic does not wrap, one number of passes [k] describes the whole ring:
    a member of weight [w] owns [k * w / W] or [(k + 1) * w / W] slots, [W] the
    largest weight (a member that is not active owns none). *)
Theorem maglev_proportional config stk members :
  members_ok config members -> NoDup members ->
  0 < max_member_weight config members < 2 ^ 31 ->
  Forall (fun i => member_active config i = true -> probe_exact (wan_slot config i)) members ->
  exists lut k, build_single_maglev_ring config stk members = Some lut /\ 0 <= k
    /\ forall i, i ∈ members ->
         cnt lut i = k * member_weight config i / max_member_weight config members
         \/ cnt lut i = (k + 1) * member_weight config i / max_member_weight config members.
Proof.
  intros Hm Hnd HW Hx. set (W := max_member_weight config members) in *.
  assert (HWin : W ∈ member_weight config <$> members) by (apply foldr_max_in; apply HW).
  apply list_elem_of_fmap in HWin as (j & HWj & Hj).
  assert (Haj : member_active config j = true) by (apply member_weight_active; lia).
  destruct (build_active config stk members j Hj Haj) as [first ->].
  rewrite max_weight_of_prepare by (done || apply HW). fold W.
  destruct (fill_share W first ring_fuel (prepare config stk members) ∅ 0) as (lut & k & E & Hk & Hsh).
  - done.
  - intros i v Hv. by rewrite lookup_empty in Hv.
  - apply prepare_shares; [done|done|apply HW].
  - by rewrite prepare_idx.
  - apply Exists_exists. assert (Hin : W ∈ s_weight <$> prepare config stk members).
    { rewrite prepare_weights, HWj by done. by apply list_elem_of_fmap_2. }
    apply list_elem_of_fmap in Hin as (s & ? & ?). by exists s.
  - done.
  - pose proof ring_fuel_val. rewrite map_size_empty. lia.
  - exists lut, k. split_and!; [done|done|]. intros i [p Hi]%list_elem_of_lookup_1.
    assert (exists s, prepare config stk members !! p = Some s) as [s Hs].
    { unfold prepare. rewrite list_lookup_imap, Hi. eauto. }
    destruct (prepare_lookup _ _ _ _ _ Hm Hs) as (i' & Hi' & _ & Hidx & _ & _ & Hwt). simplify_eq.
    rewrite Forall_lookup in Hsh. destruct (Hsh _ _ Hs) as (s' & [Hi2 Hw2] & Hor).
    rewrite <- Hwt, <- Hw2, <- Hi2.
    destruct Hor as [Ho|Ho]; [left|right]; by apply share_quotient; [apply HW|].
Qed.

Lemma sample_members_ok : members_ok sample_config [0; 1; 2].
Proof. split; [by_eval|]. repeat apply Forall_cons_2; [..|apply Forall_nil_2]; by_eval. Qed.

Lemma maglev_ring_complete_witness :
  exists lut, build_single_maglev_ring sample_config (fun _ => Slot 0 0 0 0 0 0) [0; 1; 2] = Some lut
    /\ serves sample_config [0; 1; 2] (lut_get lut 4242).
Proof.
  destruct (maglev_ring_complete sample_config (fun _ => Slot 0 0 0 0 0 0) [0; 1; 2])
    as (lut & E & H).
  - exact sample_members_ok.
  - done.
  - exists lut. split; [exact E|]. apply (H 4242). by_eval.
Defined.

Lemma maglev_proportional_witness :
  exists lut k, build_single_maglev_ring sample_config (fun _ => Slot 0 0 0 0 0 0) [0; 1; 2]
    = Some lut /\ 0 <= k
    /\ (cnt lut 1 = k * member_weight sample_config 1 / max_member_weight sample_config [0; 1; 2]
        \/ cnt lut 1 = (k + 1) * member_weight sample_config 1
                       / max_member_weight sample_config [0; 1; 2])
    /\ member_weight sample_config 1 = 50 /\ max_member_weight sample_config [0; 1; 2] = 100.
Proof.
  destruct (maglev_proportional sample_config (fun _ => Slot 0 0 0 0 0 0) [0; 1; 2])
    as (lut & k & E & Hk & H).
  - exact sample_members_ok.
  - apply (bool_decide_unpack _). by_eval.
  - by_eval.
  - repeat apply Forall_cons_2; [..|apply Forall_nil_2]; intros; by_eval.
  - exists lut, k. split; [exact E|]. split; [exact Hk|]. split; [|split; reflexivity].
    apply (H 1). right. left.
Defined.
