(* ===== verification/Bpf.v ===== *)
(** * BPF maps and the structures the data path shares with user space

    ([src/bpf/xdp_control_map.h], [src/bpf/xdp_flow_debug.h],
    [src/bpf/xdp_introspection.h], the structures and maps of
    [src/bpf/xdp_router.bpf.c].)

    The kernel's map implementations are not part of the sources.  Array maps have
    the documented behaviour of a zero-initialised array.  The two LRU session
    maps are known only through the interface [BpfHash] and its laws: an update
    makes the key present and may evict any other entries; a lookup may change
    the recency order but no entry.  The per-CPU maps are those of the CPU that
    runs the program. *)

From S2P Require Import Prelude.

(** ** Hash maps with eviction *)

Class BpfHash (K V M : Type) := {
  h_lookup : M -> K -> option V;
  h_touch : M -> K -> M;
  h_update : M -> K -> V -> M;
  h_delete : M -> K -> M
}.

Class BpfHashLaws (K V M : Type) `{BpfHash K V M} := {
  h_lookup_touch : forall m k k', h_lookup (h_touch m k) k' = h_lookup m k';
  h_lookup_update_same : forall m k v, h_lookup (h_update m k v) k = Some v;
  h_lookup_update_inv : forall m k v k' v',
    h_lookup (h_update m k v) k' = Some v' -> k' <> k -> h_lookup m k' = Some v';
  h_lookup_delete_same : forall m k, h_lookup (h_delete m k) k = None;
  h_lookup_delete_other : forall m k k', k' <> k -> h_lookup (h_delete m k) k' = h_lookup m k'
}.

(** An LRU list of bounded size implements the interface. *)
Section lru_list.
Context {K V : Type} `{EqDecision K}.

Record lru := Lru { lru_cap : nat; lru_items : list (K * V) }.

Definition lru_remove (l : list (K * V)) (k : K) : list (K * V) :=
  filter (fun p => p.1 <> k) l.

Fixpoint lru_find (l : list (K * V)) (k : K) : option V :=
  match l with
  | [] => None
  | (k', v) :: l => if decide (k' = k) then Some v else lru_find l k
  end.

Definition lru_lookup (m : lru) (k : K) : option V := lru_find (lru_items m) k.

Definition lru_touch (m : lru) (k : K) : lru :=
  match lru_lookup m k with
  | Some v => Lru (lru_cap m) ((k, v) :: lru_remove (lru_items m) k)
  | None => m
  end.

Definition lru_update (m : lru) (k : K) (v : V) : lru :=
  Lru (lru_cap m) ((k, v) :: take (lru_cap m - 1) (lru_remove (lru_items m) k)).

Definition lru_delete (m : lru) (k : K) : lru :=
  Lru (lru_cap m) (lru_remove (lru_items m) k).

Lemma lru_find_remove_ne l k k' : k' <> k -> lru_find (lru_remove l k) k' = lru_find l k'.
Proof.
  intros Hne. unfold lru_remove. induction l as [|[j v] l IH]; [done|].
  rewrite filter_cons. cbn. destruct (decide (j <> k)); cbn; [by rewrite IH|].
  rewrite IH. rewrite decide_False; [done|]. intros <-. tauto.
Qed.

Lemma lru_find_remove_eq l k : lru_find (lru_remove l k) k = None.
Proof.
  unfold lru_remove. induction l as [|[j v] l IH]; [done|]. rewrite filter_cons. cbn.
  destruct (decide (j <> k)) as [Hj|]; cbn; [|done]. by rewrite decide_False by done.
Qed.

Lemma lru_find_take l n k v : lru_find (take n l) k = Some v -> lru_find l k = Some v.
Proof.
  revert n. induction l as [|[j w] l IH]; intros [|n]; cbn; try done.
  destruct (decide (j = k)); [done|]. apply IH.
Qed.

#[global] Instance lru_hash : BpfHash K V lru := {
  h_lookup := lru_lookup; h_touch := lru_touch; h_update := lru_update; h_delete := lru_delete
}.

#[global] Instance lru_hash_laws : BpfHashLaws K V lru.
Proof.
  split; cbn.
  - intros m k k'. unfold lru_touch. destruct (lru_lookup m k) as [v|] eqn:E; [|done].
    unfold lru_lookup in *. cbn. destruct (decide (k = k')) as [<-|]; [done|].
    by apply lru_find_remove_ne.
  - intros m k v. unfold lru_lookup. cbn. by rewrite decide_True.
  - intros m k v k' v'. unfold lru_lookup. cbn. intros Hl Hne.
    rewrite decide_False in Hl by congruence. apply lru_find_take in Hl.
    by rewrite lru_find_remove_ne in Hl.
  - intros m k. apply lru_find_remove_eq.
  - intros m k k' Hne. by apply lru_find_remove_ne.
Qed.
End lru_list.
Arguments lru : clear implicits.

(** ** Array maps *)

(** [bpf_map_lookup_elem] on an array of [n] zero-initialised elements. *)
Definition array_lookup {V} (n : Z) (zero : V) (m : gmap Z V) (k : Z) : option V :=
  if (0 <=? k) && (k <? n) then Some (default zero (m !! k)) else None.

Lemma array_lookup_Some {V} n (zero : V) m k :
  0 <= k < n -> array_lookup n zero m k = Some (default zero (m !! k)).
Proof.
  intros. unfold array_lookup. destruct (Z.leb_spec 0 k), (Z.ltb_spec k n); cbn; (done || lia).
Qed.

Lemma array_lookup_inv {V} n (zero : V) m k v :
  array_lookup n zero m k = Some v -> 0 <= k < n /\ v = default zero (m !! k).
Proof.
  unfold array_lookup. destruct (Z.leb_spec 0 k), (Z.ltb_spec k n); cbn; [|done..].
  by intros [= <-].
Qed.

(** ** Structures *)

Definition MAX_EBPF_WANS : Z := 256.
Definition MAX_STICKY_ENTRIES : Z := 16384.
Definition MAX_BPF_POLICIES : Z := 16.
Definition MAX_BPF_GROUPS : Z := 8.

Record flow_5tuple := Flow5 {
  f_src_ip : Z;
  f_dst_ip : Z;
  f_src_port : Z;
  f_dst_port : Z;
  f_proto : Z;
  f_pkt_flags : Z;
  f_quic_token : Z
}.
#[export] Instance flow_5tuple_eq_dec : EqDecision flow_5tuple.
Proof. solve_decision. Defined.

Record bpf_wan_entry := BpfWanEntry {
  we_wan_id : Z;
  we_ifindex : Z;
  we_ip_addr : Z;
  we_gateway : Z;
  we_weight : Z;
  we_is_active : Z;
  we_table_id : Z;
  we_fwmark : Z;
  we_is_draining : Z;
  we_mtu : Z
}.
Definition zero_wan_entry : bpf_wan_entry := BpfWanEntry 0 0 0 0 0 0 0 0 0 0.

(** The kernel's layout of the per-WAN statistics: six counters. *)
Record bpf_wan_stats := BpfWanStats {
  ws_rx_packets : Z;
  ws_rx_bytes : Z;
  ws_tx_packets : Z;
  ws_tx_bytes : Z;
  ws_snat_packets : Z;
  ws_dropped_packets : Z
}.
Definition zero_wan_stats : bpf_wan_stats := BpfWanStats 0 0 0 0 0 0.

Record bpf_session_val := BpfSessionVal {
  sv_wan_idx : Z;
  sv_wan_id : Z;
  sv_orig_src_ip : Z;
  sv_last_seen_ns : Z
}.

Record bpf_policy_entry := BpfPolicyEntry {
  pe_subnet_ip : Z;
  pe_netmask : Z;
  pe_target_group : Z;
  pe_is_active : Z
}.
Definition zero_policy_entry : bpf_policy_entry := BpfPolicyEntry 0 0 0 0.

Record router_ctrl := RouterCtrl {
  rc_lan_ip : Z;
  rc_active_wans : Z;
  rc_snat_enabled : Z;
  rc_debug_enabled : Z;
  rc_router_flags : Z;
  rc_hc_interval_ms : Z
}.
Definition zero_ctrl : router_ctrl := RouterCtrl 0 0 0 0 0 0.

Record router_global_stats := RouterGlobalStats {
  gs_total_rx_packets : Z;
  gs_total_rx_bytes : Z;
  gs_total_snat_rewrites : Z;
  gs_total_sticky_hits : Z;
  gs_total_maglev_dispatches : Z;
  gs_total_failovers : Z;
  gs_total_drops : Z;
  gs_total_session_evictions : Z;
  gs_total_hc_probes_rx : Z
}.
Definition zero_global_stats : router_global_stats := RouterGlobalStats 0 0 0 0 0 0 0 0 0.

(** ** Counters ([xdp_introspection.h]; the single array element is never null) *)

Definition stats_inc_rx (s : router_global_stats) (bytes : Z) : router_global_stats :=
  RouterGlobalStats (u64 (gs_total_rx_packets s + 1)) (u64 (gs_total_rx_bytes s + bytes))
    (gs_total_snat_rewrites s) (gs_total_sticky_hits s) (gs_total_maglev_dispatches s)
    (gs_total_failovers s) (gs_total_drops s) (gs_total_session_evictions s)
    (gs_total_hc_probes_rx s).
Definition stats_inc_snat (s : router_global_stats) : router_global_stats :=
  RouterGlobalStats (gs_total_rx_packets s) (gs_total_rx_bytes s)
    (u64 (gs_total_snat_rewrites s + 1)) (gs_total_sticky_hits s) (gs_total_maglev_dispatches s)
    (gs_total_failovers s) (gs_total_drops s) (gs_total_session_evictions s)
    (gs_total_hc_probes_rx s).
Definition stats_inc_sticky_hit (s : router_global_stats) : router_global_stats :=
  RouterGlobalStats (gs_total_rx_packets s) (gs_total_rx_bytes s) (gs_total_snat_rewrites s)
    (u64 (gs_total_sticky_hits s + 1)) (gs_total_maglev_dispatches s) (gs_total_failovers s)
    (gs_total_drops s) (gs_total_session_evictions s) (gs_total_hc_probes_rx s).
Definition stats_inc_maglev (s : router_global_stats) : router_global_stats :=
  RouterGlobalStats (gs_total_rx_packets s) (gs_total_rx_bytes s) (gs_total_snat_rewrites s)
    (gs_total_sticky_hits s) (u64 (gs_total_maglev_dispatches s + 1)) (gs_total_failovers s)
    (gs_total_drops s) (gs_total_session_evictions s) (gs_total_hc_probes_rx s).
Definition stats_inc_failover (s : router_global_stats) : router_global_stats :=
  RouterGlobalStats (gs_total_rx_packets s) (gs_total_rx_bytes s) (gs_total_snat_rewrites s)
    (gs_total_sticky_hits s) (gs_total_maglev_dispatches s) (u64 (gs_total_failovers s + 1))
    (gs_total_drops s) (gs_total_session_evictions s) (gs_total_hc_probes_rx s).
Definition stats_inc_drop (s : router_global_stats) : router_global_stats :=
  RouterGlobalStats (gs_total_rx_packets s) (gs_total_rx_bytes s) (gs_total_snat_rewrites s)
    (gs_total_sticky_hits s) (gs_total_maglev_dispatches s) (gs_total_failovers s)
    (u64 (gs_total_drops s + 1)) (gs_total_session_evictions s) (gs_total_hc_probes_rx s).
Definition stats_inc_session_evict (s : router_global_stats) : router_global_stats :=
  RouterGlobalStats (gs_total_rx_packets s) (gs_total_rx_bytes s) (gs_total_snat_rewrites s)
    (gs_total_sticky_hits s) (gs_total_maglev_dispatches s) (gs_total_failovers s)
    (gs_total_drops s) (u64 (gs_total_session_evictions s + 1)) (gs_total_hc_probes_rx s).

(** ** Flow events ([xdp_flow_debug.h]) *)

Definition EVT_NEW_FLOW : Z := 0.
Definition EVT_STICKY_HIT : Z := 1.
Definition EVT_SNAT_REWRITE : Z := 2.
Definition EVT_FAILOVER : Z := 3.
Definition EVT_SESSION_CLOSE : Z := 4.
Definition EVT_DROP : Z := 5.
Definition EVT_HC_REPLY : Z := 6.

(** [ev_wan_name] is the written prefix of [wan_name]. *)
Record flow_debug_event := FlowDebugEvent {
  ev_timestamp_ns : Z;
  ev_src_ip : Z;
  ev_dst_ip : Z;
  ev_src_port : Z;
  ev_dst_port : Z;
  ev_proto : Z;
  ev_wan_idx : Z;
  ev_event_type : Z;
  ev_pkt_flags : Z;
  ev_orig_src_ip : Z;
  ev_wan_ip : Z;
  ev_flow_hash : Z;
  ev_wan_name : list Z
}.

(** What the kernel decides while a program runs: the clock, whether the ring
    buffer has room for another event, and the outcome of moving the packet's
    tail or head. *)
Record xdp_env := XdpEnv {
  ktime_get_ns : Z;
  ringbuf_has_room : list flow_debug_event -> bool;
  xdp_adjust_tail : list Z -> Z -> option (list Z);
  xdp_adjust_head : list Z -> Z -> option (list Z)
}.

Definition flow_debug_emit (env : xdp_env) (ring : list flow_debug_event)
    (src_ip dst_ip src_port dst_port proto pkt_flags wan_idx orig_src_ip wan_ip
     flow_hash event_type debug_enabled : Z) : list flow_debug_event :=
  if debug_enabled =? 0 then ring
  else if negb (ringbuf_has_room env ring) then ring
  else ring ++ [FlowDebugEvent (ktime_get_ns env) src_ip dst_ip src_port dst_port proto wan_idx
                  event_type pkt_flags orig_src_ip wan_ip flow_hash
                  [87; 65; 78; 48 + (wan_idx .& 7); 0]].
