(* ===== verification/XdpRouter.v ===== *)
(** * The XDP egress router ([src/bpf/xdp_router.bpf.c])

    The program runs on a frame, the list of its bytes; pointers into the frame
    are offsets, and an access outside of it is a fault ([None]).  A parser that
    returns -1 gives [Some None].  The maps are a record; the two session maps are
    known through the interface of [Bpf].  Header offsets are those of the kernel's
    [ethhdr], [iphdr], [tcphdr], [udphdr] and of the file's [icmphdr]. *)

From S2P Require Import Prelude Checksum Fluxwan Samples Bpf.

(** ** Constants *)

Definition XDP_DROP : Z := 1.
Definition XDP_PASS : Z := 2.
Definition XDP_TX : Z := 3.

Definition ETH_P_IP : Z := 2048.
Definition ETH_P_8021Q : Z := 33024.
Definition ETH_P_8021AD : Z := 34984.
Definition IPPROTO_ICMP : Z := 1.
Definition IPPROTO_TCP : Z := 6.
Definition IPPROTO_UDP : Z := 17.
Definition ICMP_ECHO : Z := 8.
Definition ICMP_ECHOREPLY : Z := 0.

Definition PKT_FLAG_SYN : Z := 1.
Definition PKT_FLAG_RST : Z := 2.
Definition PKT_FLAG_FIN : Z := 4.
Definition PKT_FLAG_ICMP : Z := 8.
Definition PKT_FLAG_QUIC : Z := 16.
Definition PKT_FLAG_PMTU : Z := 32.

(** A C value used as a condition. *)
Definition nz (x : Z) : bool := negb (x =? 0).

(** ** Flow hash *)

Definition no_src_port_service (p : Z) : bool :=
  (p =? htons 5060) || (p =? htons 554) || (p =? htons 21) || (p =? htons 500)
  || (p =? htons 4500) || (p =? htons 51820).

Definition hash_5tuple (key : flow_5tuple) : Z :=
  let h :=
    if nz (f_pkt_flags key .& PKT_FLAG_QUIC)
    then f_dst_ip key .^ u32 (f_quic_token key .<< 16) .^ f_dst_port key
    else
      let src_p := if no_src_port_service (f_dst_port key) || no_src_port_service (f_src_port key)
                   then 0 else f_src_port key in
      let h := f_src_ip key .^ f_dst_ip key in
      let h := h .^ (u32 (src_p .<< 16) .| f_dst_port key) in
      h .^ f_proto key in
  let h := u32 ((h .^ (h .>> 16)) * 73244475) in
  let h := u32 ((h .^ (h .>> 16)) * 73244475) in
  h .^ (h .>> 16).

(** ** Header accessors *)

Definition is_vlan (proto : Z) : bool := (proto =? htons ETH_P_8021Q) || (proto =? htons ETH_P_8021AD).

Definition ip_version (pkt : list Z) (iph : Z) : option Z := b ← ld8 pkt iph; Some (b .>> 4).
Definition ip_ihl (pkt : list Z) (iph : Z) : option Z := b ← ld8 pkt iph; Some (b .& 15).

(** Sum of [n] 16-bit words from offset [off] into a 64-bit accumulator. *)
Fixpoint csum_words (n : nat) (pkt : list Z) (off csum : Z) : option Z :=
  match n with
  | O => Some csum
  | S n => w ← ld16 pkt off; csum_words n pkt (off + 2) (u64 (csum + w))
  end.

Definition update_ip_checksum (pkt : list Z) (iph : Z) : option (list Z) :=
  pkt ← st16 pkt (iph + 10) 0;
  csum ← csum_words 10 pkt iph 0;
  st16 pkt (iph + 10) (csum_fold_helper csum).

(** ** Parsers *)

Fixpoint parse_vlans (n : nat) (pkt : list Z) (cur proto : Z) : option (option (Z * Z)) :=
  match n with
  | O => Some (Some (cur, proto))
  | S n =>
      if is_vlan proto then
        if blen pkt <? cur + 4 then Some None
        else proto ← ld16 pkt (cur + 2); parse_vlans n pkt (cur + 4) proto
      else parse_vlans n pkt cur proto
  end.

Definition parse_eth (pkt : list Z) (cur : Z) : option (option (Z * Z)) :=
  if blen pkt <? cur + 14 then Some None
  else proto ← ld16 pkt (cur + 12); parse_vlans 2 pkt (cur + 14) proto.

Definition parse_ipv4 (pkt : list Z) (cur : Z) (flow : flow_5tuple)
    : option (option (Z * flow_5tuple)) :=
  if blen pkt <? cur + 20 then Some None
  else
    version ← ip_version pkt cur;
    ihl ← ip_ihl pkt cur;
    if negb (version =? 4) || (ihl <? 5) then Some None
    else
      let iph_len := ihl * 4 in
      if blen pkt <? cur + iph_len then Some None
      else
        saddr ← ld32 pkt (cur + 12);
        daddr ← ld32 pkt (cur + 16);
        protocol ← ld8 pkt (cur + 9);
        Some (Some (cur + iph_len,
                    Flow5 saddr daddr (f_src_port flow) (f_dst_port flow) protocol
                      (f_pkt_flags flow) (f_quic_token flow))).

Definition parse_tcp (pkt : list Z) (cur : Z) (flow : flow_5tuple)
    : option (option flow_5tuple) :=
  if blen pkt <? cur + 20 then Some None
  else
    source ← ld16 pkt cur;
    dest ← ld16 pkt (cur + 2);
    b ← ld8 pkt (cur + 13);
    let flags := 0 in
    let flags := if Z.testbit b 1 then flags .| PKT_FLAG_SYN else flags in
    let flags := if Z.testbit b 2 then flags .| PKT_FLAG_RST else flags in
    let flags := if Z.testbit b 0 then flags .| PKT_FLAG_FIN else flags in
    Some (Some (Flow5 (f_src_ip flow) (f_dst_ip flow) source dest (f_proto flow) flags
                  (f_quic_token flow))).

(** The offset of the destination connection id, when one can be read. *)
Definition quic_dcid (pkt : list Z) (quic_data first_byte : Z) : option (option Z) :=
  if nz (first_byte .& 128) then
    if quic_data + 6 <=? blen pkt then
      dcid_len ← ld8 pkt (quic_data + 5);
      Some (if (4 <=? dcid_len) && (quic_data + 6 + 4 <=? blen pkt)
            then Some (quic_data + 6) else None)
    else Some None
  else Some (if quic_data + 5 <=? blen pkt then Some (quic_data + 1) else None).

Definition quic_token_of (pkt : list Z) (dcid : Z) : option Z :=
  d0 ← ld8 pkt dcid;
  d1 ← ld8 pkt (dcid + 1);
  d2 ← ld8 pkt (dcid + 2);
  let cid_ver := d0 .>> 6 in
  Some (if cid_ver =? 0 then u16 (((d0 .& 63) .<< 10) .| (d1 .<< 2) .| (d2 .>> 6))
        else if cid_ver =? 1 then u16 ((d1 .<< 8) .| d2)
        else u16 ((d0 .<< 8) .| (d1 .^ d2))).

Definition parse_udp (pkt : list Z) (cur : Z) (flow : flow_5tuple)
    : option (option flow_5tuple) :=
  if blen pkt <? cur + 8 then Some None
  else
    source ← ld16 pkt cur;
    dest ← ld16 pkt (cur + 2);
    let plain := Flow5 (f_src_ip flow) (f_dst_ip flow) source dest (f_proto flow) 0 0 in
    if (dest =? 47873) || (source =? 47873) then
      let quic_data := cur + 8 in
      if quic_data + 1 <=? blen pkt then
        first_byte ← ld8 pkt quic_data;
        if nz (first_byte .& 64) then
          dcid ← quic_dcid pkt quic_data first_byte;
          token ← match dcid with
                  | Some d => quic_token_of pkt d
                  | None => Some 0
                  end;
          Some (Some
            (if negb (token =? 0)
             then Flow5 0 (f_dst_ip flow) 0 dest (f_proto flow) PKT_FLAG_QUIC token
             else Flow5 (f_src_ip flow) (f_dst_ip flow) source dest (f_proto flow) PKT_FLAG_QUIC 0))
        else Some (Some plain)
      else Some (Some plain)
    else Some (Some plain).

(** The inner header of an ICMP error, when it can be read. *)
Definition parse_icmp_inner (pkt : list Z) (inner : Z) : option (option (Z * Z * Z * Z * Z)) :=
  if inner + 20 <=? blen pkt then
    version ← ip_version pkt inner;
    if version =? 4 then
      ihl ← ip_ihl pkt inner;
      let inner_ihl := ihl * 4 in
      if (20 <=? inner_ihl) && (inner + inner_ihl + 4 <=? blen pkt) then
        saddr ← ld32 pkt (inner + 12);
        daddr ← ld32 pkt (inner + 16);
        p0 ← ld16 pkt (inner + inner_ihl);
        p1 ← ld16 pkt (inner + inner_ihl + 2);
        protocol ← ld8 pkt (inner + 9);
        Some (Some (saddr, daddr, p0, p1, protocol))
      else Some None
    else Some None
  else Some None.

Definition parse_icmp (pkt : list Z) (cur : Z) (flow : flow_5tuple)
    : option (option flow_5tuple) :=
  if blen pkt <? cur + 8 then Some None
  else
    type ← ld8 pkt cur;
    if (type =? ICMP_ECHO) || (type =? ICMP_ECHOREPLY) then
      id ← ld16 pkt (cur + 4);
      sequence ← ld16 pkt (cur + 6);
      Some (Some (Flow5 (f_src_ip flow) (f_dst_ip flow) id sequence (f_proto flow) PKT_FLAG_ICMP 0))
    else if (type =? 3) || (type =? 11) then
      let flags := PKT_FLAG_ICMP .| PKT_FLAG_PMTU in
      inner ← parse_icmp_inner pkt (cur + 8);
      Some (Some
        match inner with
        | Some (saddr, daddr, p0, p1, protocol) => Flow5 saddr daddr p0 p1 protocol flags 0
        | None => Flow5 (f_src_ip flow) (f_dst_ip flow) 0 0 (f_proto flow) flags 0
        end)
    else
      Some (Some (Flow5 (f_src_ip flow) (f_dst_ip flow) 0 0 (f_proto flow) PKT_FLAG_ICMP 0)).

(** Steps 1 to 3 of the program: the flow key, or a frame it passes. *)
Definition parse_flow (pkt : list Z) : option (option flow_5tuple) :=
  eth ← parse_eth pkt 0;
  match eth with
  | None => Some None
  | Some (cur, eth_proto) =>
      if negb (eth_proto =? htons ETH_P_IP) then Some None
      else
        ip ← parse_ipv4 pkt cur (Flow5 0 0 0 0 0 0 0);
        match ip with
        | None => Some None
        | Some (cur, key) =>
            if f_proto key =? IPPROTO_TCP then parse_tcp pkt cur key
            else if f_proto key =? IPPROTO_UDP then parse_udp pkt cur key
            else if f_proto key =? IPPROTO_ICMP then parse_icmp pkt cur key
            else Some None
        end
  end.

(** ** Rewriting *)

(** [apply_snat]: the frame and the return code. *)
Definition apply_snat (pkt : list Z) (new_src_ip : Z) : option (list Z * Z) :=
  if blen pkt <? 14 then Some (pkt, -1)
  else
    let iph := 14 in
    if blen pkt <? iph + 20 then Some (pkt, -1)
    else
      version ← ip_version pkt iph;
      ihl ← ip_ihl pkt iph;
      if negb (version =? 4) || (ihl <? 5) then Some (pkt, -1)
      else
        old_src_ip ← ld32 pkt (iph + 12);
        pkt ← st32 pkt (iph + 12) new_src_ip;
        check ← ld16 pkt (iph + 10);
        pkt ← st16 pkt (iph + 10) (csum_replace4 check old_src_ip new_src_ip);
        Some (pkt, 0).

(** The last part of [send_icmp_echo_reply]: the Ethernet and IP headers, ... *)
Definition echo_headers (pkt : list Z) (cur : Z) : option (list Z) :=
  tmp_mac ← ld_bytes pkt 6 6;
  h_dest ← ld_bytes pkt 0 6;
  pkt ← st_bytes pkt 6 h_dest;
  pkt ← st_bytes pkt 0 tmp_mac;
  tmp_ip ← ld32 pkt (cur + 12);
  daddr ← ld32 pkt (cur + 16);
  pkt ← st32 pkt (cur + 12) daddr;
  pkt ← st32 pkt (cur + 16) tmp_ip;
  pkt ← st8 pkt (cur + 8) 64;
  update_ip_checksum pkt cur.

(** ... then the ICMP header. *)
Definition echo_rewrite (pkt : list Z) (cur icmph : Z) : option (list Z) :=
  pkt ← echo_headers pkt cur;
  pkt ← st8 pkt icmph ICMP_ECHOREPLY;
  csum ← ld16 pkt (icmph + 2);
  st16 pkt (icmph + 2) (csum_replace2 csum (htons 2048) 0).

(** [send_icmp_echo_reply]: the frame and the XDP action. *)
Definition send_icmp_echo_reply (pkt : list Z) : option (list Z * Z) :=
  eth ← parse_eth pkt 0;
  match eth with
  | None => Some (pkt, XDP_PASS)
  | Some (cur, eth_proto) =>
      if negb (eth_proto =? htons ETH_P_IP) then Some (pkt, XDP_PASS)
      else if blen pkt <? cur + 20 then Some (pkt, XDP_PASS)
      else
        version ← ip_version pkt cur;
        ihl ← ip_ihl pkt cur;
        if negb (version =? 4) || (ihl <? 5) then Some (pkt, XDP_PASS)
        else if blen pkt <? cur + ihl * 4 then Some (pkt, XDP_PASS)
        else
          let icmph := cur + ihl * 4 in
          if blen pkt <? icmph + 8 then Some (pkt, XDP_PASS)
          else
            type ← ld8 pkt icmph;
            if negb (type =? ICMP_ECHO) then Some (pkt, XDP_PASS)
            else
              pkt ← echo_rewrite pkt cur icmph;
              Some (pkt, XDP_TX)
  end.

(** The headers [send_icmp_too_big] writes over the shortened frame. *)
Definition write_too_big (pkt client_mac router_mac orig_payload : list Z)
    (client_ip router_ip target_mtu : Z) : option (list Z) :=
  pkt ← st_bytes pkt 0 client_mac;
  pkt ← st_bytes pkt 6 router_mac;
  pkt ← st16 pkt 12 (htons ETH_P_IP);
  pkt ← st8 pkt 14 69;
  pkt ← st8 pkt 15 0;
  pkt ← st16 pkt 16 (htons 56);
  pkt ← st16 pkt 18 0;
  pkt ← st16 pkt 20 0;
  pkt ← st8 pkt 22 64;
  pkt ← st8 pkt 23 IPPROTO_ICMP;
  pkt ← st32 pkt 26 router_ip;
  pkt ← st32 pkt 30 client_ip;
  pkt ← update_ip_checksum pkt 14;
  pkt ← st8 pkt 34 3;
  pkt ← st8 pkt 35 4;
  pkt ← st16 pkt 36 0;
  pkt ← st16 pkt 38 0;
  pkt ← st16 pkt 40 (htons (u16 target_mtu));
  pkt ← st_bytes pkt 42 orig_payload;
  icmp_csum ← csum_words 18 pkt 34 0;
  st16 pkt 36 (csum_fold_helper icmp_csum).

Definition send_icmp_too_big (env : xdp_env) (pkt : list Z) (pkt_len target_mtu : Z)
    : option (list Z * Z) :=
  if blen pkt <? 14 then Some (pkt, XDP_PASS)
  else if blen pkt <? 14 + 20 then Some (pkt, XDP_PASS)
  else if blen pkt <? 14 + 28 then Some (pkt, XDP_PASS)
  else
    orig_payload ← ld_bytes pkt 14 28;
    client_mac ← ld_bytes pkt 6 6;
    router_mac ← ld_bytes pkt 0 6;
    client_ip ← ld32 pkt 26;
    router_ip ← ld32 pkt 30;
    match xdp_adjust_tail env pkt (70 - pkt_len) with
    | None => Some (pkt, XDP_PASS)
    | Some pkt =>
        if blen pkt <? 14 then Some (pkt, XDP_PASS)
        else if blen pkt <? 14 + 20 then Some (pkt, XDP_PASS)
        else if blen pkt <? 34 + 8 then Some (pkt, XDP_PASS)
        else if blen pkt <? 42 + 28 then Some (pkt, XDP_PASS)
        else
          pkt ← write_too_big pkt client_mac router_mac orig_payload client_ip router_ip target_mtu;
          Some (pkt, XDP_TX)
    end.

(** ** The maps *)

Record router_maps (L G : Type) := RouterMaps {
  maglev_lut_map : gmap Z Z;
  wan_table_map : gmap Z bpf_wan_entry;
  local_lru_map : L;
  sticky_flow_map : G;
  wan_percpu_stats_map : gmap Z bpf_wan_stats;
  policy_route_map : gmap Z bpf_policy_entry;
  maglev_group_map : gmap Z Z;
  lpm_subnet_map : Z -> option Z;
  ctrl_map : router_ctrl;
  global_stats_map : router_global_stats;
  flow_ringbuf : list flow_debug_event
}.
Arguments RouterMaps {L G}.
Arguments maglev_lut_map {L G}.
Arguments wan_table_map {L G}.
Arguments local_lru_map {L G}.
Arguments sticky_flow_map {L G}.
Arguments wan_percpu_stats_map {L G}.
Arguments policy_route_map {L G}.
Arguments maglev_group_map {L G}.
Arguments lpm_subnet_map {L G}.
Arguments ctrl_map {L G}.
Arguments global_stats_map {L G}.
Arguments flow_ringbuf {L G}.

Section router.
Context {L G : Type}.
Context `{BpfHash flow_5tuple bpf_session_val L} `{BpfHash flow_5tuple bpf_session_val G}.
Context (env : xdp_env).

Definition with_local (m : router_maps L G) (l : L) : router_maps L G :=
  RouterMaps (maglev_lut_map m) (wan_table_map m) l (sticky_flow_map m) (wan_percpu_stats_map m)
    (policy_route_map m) (maglev_group_map m) (lpm_subnet_map m) (ctrl_map m)
    (global_stats_map m) (flow_ringbuf m).
Definition with_sticky (m : router_maps L G) (g : G) : router_maps L G :=
  RouterMaps (maglev_lut_map m) (wan_table_map m) (local_lru_map m) g (wan_percpu_stats_map m)
    (policy_route_map m) (maglev_group_map m) (lpm_subnet_map m) (ctrl_map m)
    (global_stats_map m) (flow_ringbuf m).
Definition with_wan_stats (m : router_maps L G) (s : gmap Z bpf_wan_stats) : router_maps L G :=
  RouterMaps (maglev_lut_map m) (wan_table_map m) (local_lru_map m) (sticky_flow_map m) s
    (policy_route_map m) (maglev_group_map m) (lpm_subnet_map m) (ctrl_map m)
    (global_stats_map m) (flow_ringbuf m).
Definition with_gstats (m : router_maps L G) (s : router_global_stats) : router_maps L G :=
  RouterMaps (maglev_lut_map m) (wan_table_map m) (local_lru_map m) (sticky_flow_map m)
    (wan_percpu_stats_map m) (policy_route_map m) (maglev_group_map m) (lpm_subnet_map m)
    (ctrl_map m) s (flow_ringbuf m).
Definition with_ring (m : router_maps L G) (r : list flow_debug_event) : router_maps L G :=
  RouterMaps (maglev_lut_map m) (wan_table_map m) (local_lru_map m) (sticky_flow_map m)
    (wan_percpu_stats_map m) (policy_route_map m) (maglev_group_map m) (lpm_subnet_map m)
    (ctrl_map m) (global_stats_map m) r.

Definition wan_lookup (m : router_maps L G) (idx : Z) : option bpf_wan_entry :=
  array_lookup MAX_EBPF_WANS zero_wan_entry (wan_table_map m) idx.

(** A call of [flow_debug_emit] with the fields the program takes from the key. *)
Definition emit (m : router_maps L G) (key : flow_5tuple) (wan_idx wan_ip flow_hash evt : Z)
    : router_maps L G :=
  with_ring m (flow_debug_emit env (flow_ringbuf m) (f_src_ip key) (f_dst_ip key) (f_src_port key)
    (f_dst_port key) (f_proto key) (f_pkt_flags key) (u8 wan_idx) (f_src_ip key) wan_ip flow_hash
    evt (rc_debug_enabled (ctrl_map m))).

(** ** Step 4: session lookup *)

Definition is_dns_or_ntp (key : flow_5tuple) : bool :=
  (f_proto key =? IPPROTO_UDP)
  && ((f_dst_port key =? htons 53) || (f_src_port key =? htons 53)
      || (f_dst_port key =? htons 123) || (f_src_port key =? htons 123)).

Definition session_lookup (m : router_maps L G) (key : flow_5tuple)
    : router_maps L G * option bpf_session_val :=
  if is_dns_or_ntp key then (m, None)
  else
    let l := local_lru_map m in
    let m := with_local m (h_touch l key) in
    match h_lookup l key with
    | Some s => (m, Some s)
    | None =>
        let g := sticky_flow_map m in
        let m := with_sticky m (h_touch g key) in
        match h_lookup g key with
        | Some s => (with_local m (h_update (local_lru_map m) key s), Some s)
        | None => (m, None)
        end
    end.

Definition evict (m : router_maps L G) (key : flow_5tuple) : router_maps L G :=
  let m := with_local m (h_delete (local_lru_map m) key) in
  let m := with_sticky m (h_delete (sticky_flow_map m) key) in
  with_gstats m (stats_inc_session_evict (global_stats_map m)).

(** Whether the session is followed: [Some] of the WAN index, or [None] when a
    dispatch is needed. *)
Definition use_session (m : router_maps L G) (key : flow_5tuple) (flow_hash : Z)
    (sticky : option bpf_session_val) : router_maps L G * option Z :=
  match sticky with
  | None => (m, None)
  | Some s =>
      let cidx := sv_wan_idx s in
      if cidx <? MAX_EBPF_WANS then
        match wan_lookup m cidx with
        | Some ce =>
            if nz (we_is_active ce) && ((0 <? we_weight ce) || nz (we_is_draining ce)) then
              if nz (f_pkt_flags key .& (PKT_FLAG_RST .| PKT_FLAG_FIN))
              then (emit (evict m key) key cidx (we_ip_addr ce) flow_hash EVT_SESSION_CLOSE, None)
              else
                let m := with_gstats m (stats_inc_sticky_hit (global_stats_map m)) in
                (emit m key cidx (we_ip_addr ce) flow_hash EVT_STICKY_HIT, Some cidx)
            else (evict m key, None)
        | None => (evict m key, None)
        end
      else (m, None)
  end.

(** ** Step 5: dispatch *)

(** The first active policy that matches the source address. *)
Fixpoint policy_group (n : nat) (p : Z) (m : router_maps L G) (src_ip : Z) : Z :=
  match n with
  | O => 0
  | S n =>
      match array_lookup MAX_BPF_POLICIES zero_policy_entry (policy_route_map m) p with
      | Some pe =>
          if nz (pe_is_active pe) && nz (pe_netmask pe)
             && ((src_ip .& pe_netmask pe) =? pe_subnet_ip pe)
          then pe_target_group pe
          else policy_group n (p + 1) m src_ip
      | None => policy_group n (p + 1) m src_ip
      end
  end.

(** The ring slot of the flow, in the group's ring or in the default one. *)
Definition ring_pick (m : router_maps L G) (group flow_hash : Z) : option Z :=
  let ring_slot := flow_hash mod MAGLEV_RING_SIZE in
  let picked :=
    if (0 <? group) && (group <? MAX_BPF_GROUPS)
    then array_lookup (MAX_BPF_GROUPS * MAGLEV_RING_SIZE) 0 (maglev_group_map m)
           (u32 (group * MAGLEV_RING_SIZE + ring_slot))
    else None in
  match picked with
  | Some p => Some p
  | None => array_lookup MAGLEV_RING_SIZE 0 (maglev_lut_map m) ring_slot
  end.

(** The target before the health check. *)
Definition first_choice (m : router_maps L G) (key : flow_5tuple) (flow_hash : Z)
    : router_maps L G * Z :=
  let maglev :=
    let group := policy_group 16 0 m (f_src_ip key) in
    let target :=
      match ring_pick m group flow_hash with
      | Some p => if p <? MAX_EBPF_WANS then p else flow_hash mod MAX_EBPF_WANS
      | None => flow_hash mod MAX_EBPF_WANS
      end in
    (with_gstats m (stats_inc_maglev (global_stats_map m)), target) in
  match lpm_subnet_map m (f_dst_ip key) with
  | Some w => if w <? MAX_EBPF_WANS then (m, w) else maglev
  | None => maglev
  end.

Definition eligible (e : bpf_wan_entry) : bool :=
  nz (we_is_active e) && (0 <? we_weight e) && negb (nz (we_is_draining e)).

(** The failover scan over the WAN table. *)
Fixpoint first_healthy (n : nat) (i : Z) (m : router_maps L G) : option (Z * bpf_wan_entry) :=
  match n with
  | O => None
  | S n =>
      match wan_lookup m i with
      | Some fe => if eligible fe then Some (i, fe) else first_healthy n (i + 1) m
      | None => first_healthy n (i + 1) m
      end
  end.

Definition health_check (m : router_maps L G) (key : flow_5tuple) (flow_hash target : Z)
    : router_maps L G * Z :=
  let fallback :=
    match first_healthy 256 0 m with
    | Some (fi, fe) =>
        let m := with_gstats m (stats_inc_failover (global_stats_map m)) in
        (emit m key fi (we_ip_addr fe) flow_hash EVT_FAILOVER, fi)
    | None => (m, target)
    end in
  match wan_lookup m target with
  | None => fallback
  | Some we =>
      if negb (nz (we_is_active we)) || (we_weight we =? 0) || nz (we_is_draining we)
      then fallback else (m, target)
  end.

Definition record_session (m : router_maps L G) (key : flow_5tuple) (flow_hash target : Z)
    : router_maps L G :=
  if negb (is_dns_or_ntp key) && negb (nz (f_pkt_flags key .& (PKT_FLAG_RST .| PKT_FLAG_FIN)))
  then
    let new_sess := BpfSessionVal target (u32 (target + 1)) (f_src_ip key) 0 in
    let m := with_local m (h_update (local_lru_map m) key new_sess) in
    let m := with_sticky m (h_update (sticky_flow_map m) key new_sess) in
    emit m key target (match wan_lookup m target with Some e => we_ip_addr e | None => 0 end)
      flow_hash EVT_NEW_FLOW
  else m.

Definition dispatch (m : router_maps L G) (key : flow_5tuple) (flow_hash : Z)
    : router_maps L G * Z :=
  let '(m, target) := first_choice m key flow_hash in
  let '(m, target) := health_check m key flow_hash target in
  (record_session m key flow_hash target, target).

(** Steps 4 and 5: the WAN of the packet. *)
Definition select_wan (m : router_maps L G) (key : flow_5tuple) : router_maps L G * Z :=
  let '(m, sticky) := session_lookup m key in
  let flow_hash := hash_5tuple key in
  let '(m, followed) := use_session m key flow_hash sticky in
  match followed with
  | Some cidx => (m, cidx)
  | None => dispatch m key flow_hash
  end.

(** ** Steps 6 to 8 *)

Definition is_lan (src_ip : Z) : bool :=
  let src := ntohl src_ip in
  ((src .& 4278190080) =? 167772160) || ((src .& 4293918720) =? 2886729728)
  || ((src .& 4294901760) =? 3232235520).

(** The "packet too big" condition of step 6.1. *)
Definition exceeds_mtu (pkt : list Z) (wan : option bpf_wan_entry) : option bool :=
  match wan with
  | None => Some false
  | Some w =>
      if (0 <? we_mtu w) && (we_mtu w <? blen pkt) then
        if 14 <=? blen pkt then
          h_proto ← ld16 pkt 12;
          if h_proto =? htons ETH_P_IP then
            if 14 + 20 <=? blen pkt then
              frag_off ← ld16 pkt 20;
              Some (nz (frag_off .& htons 16384))
            else Some false
          else Some false
        else Some false
      else Some false
  end.

Definition snat_wan (wan : option bpf_wan_entry) : option bpf_wan_entry :=
  match wan with
  | Some w => if nz (we_is_active w) && nz (we_ip_addr w) then Some w else None
  | None => None
  end.

Definition snat_step (m : router_maps L G) (pkt : list Z) (key : flow_5tuple)
    (target : Z) (wan : option bpf_wan_entry) : option (router_maps L G * list Z) :=
  if nz (rc_snat_enabled (ctrl_map m)) then
    match snat_wan wan with
    | Some w =>
        if is_lan (f_src_ip key) then
          r ← apply_snat pkt (we_ip_addr w);
          let m := with_gstats m (stats_inc_snat (global_stats_map m)) in
          Some (emit m key target (we_ip_addr w) (hash_5tuple key) EVT_SNAT_REWRITE, r.1)
        else Some (m, pkt)
    | None => Some (m, pkt)
    end
  else Some (m, pkt).

Definition count_wan (m : router_maps L G) (target pkt_len : Z) (wan : option bpf_wan_entry)
    : router_maps L G :=
  match array_lookup MAX_EBPF_WANS zero_wan_stats (wan_percpu_stats_map m) target with
  | None => m
  | Some s =>
      let snat := match snat_wan wan with
                  | Some _ => u64 (ws_snat_packets s + 1)
                  | None => ws_snat_packets s
                  end in
      with_wan_stats m (<[target := BpfWanStats (u64 (ws_rx_packets s + 1))
        (u64 (ws_rx_bytes s + pkt_len)) (ws_tx_packets s) (ws_tx_bytes s) snat
        (ws_dropped_packets s)]> (wan_percpu_stats_map m))
  end.

Definition lan_ip_of (c : router_ctrl) : Z :=
  if negb (rc_lan_ip c =? 0) then rc_lan_ip c else htonl 3232235777.

(** [xdp_router_func]: the maps, the frame and the action. *)
Definition xdp_router_func (m : router_maps L G) (pkt : list Z)
    : option (router_maps L G * list Z * Z) :=
  parsed ← parse_flow pkt;
  match parsed with
  | None => Some (m, pkt, XDP_PASS)
  | Some key =>
      let pkt_len := blen pkt in
      let m := with_gstats m (stats_inc_rx (global_stats_map m) pkt_len) in
      if (f_proto key =? IPPROTO_ICMP) && nz (f_pkt_flags key .& PKT_FLAG_ICMP)
         && (f_dst_ip key =? lan_ip_of (ctrl_map m))
      then r ← send_icmp_echo_reply pkt; Some (m, r.1, r.2)
      else
        let '(m, target) := select_wan m key in
        let wan := wan_lookup m target in
        too_big ← exceeds_mtu pkt wan;
        if (too_big : bool) then
          r ← send_icmp_too_big env pkt pkt_len (match wan with Some w => we_mtu w | None => 0 end);
          Some (m, r.1, r.2)
        else
          r ← snat_step m pkt key target wan;
          Some (count_wan r.1 target pkt_len wan, r.2, XDP_PASS)
  end.
End router.

(** ** Memory safety *)

Lemma land_15_range b : 0 <= b .& 15 < 16.
Proof. change 15 with (Z.ones 4). rewrite Z.land_ones by lia. apply Z.mod_pos_bound. lia. Qed.

Definition ends_within (pkt : list Z) (lo : Z) (r : option (Z * Z)) : Prop :=
  match r with Some (cur, _) => lo <= cur <= blen pkt | None => True end.

Lemma parse_vlans_wp n pkt cur proto :
  0 <= cur <= blen pkt -> wp (parse_vlans n pkt cur proto) (ends_within pkt cur).
Proof.
  revert cur proto. induction n as [|n IH]; intros cur proto Hc; cbn [parse_vlans].
  - apply wp_ret. cbn. lia.
  - repeat wp_step; try (by apply IH); [done|].
    eapply wp_mono; [apply IH; lia|]. intros [[c p]|] _; cbn; [lia|done].
Qed.

Lemma parse_eth_wp pkt : wp (parse_eth pkt 0) (ends_within pkt 14).
Proof. unfold parse_eth. repeat wp_step; [done|]. apply parse_vlans_wp. lia. Qed.

Lemma ip_version_wp pkt i Q :
  0 <= i < blen pkt -> (forall b, ld8 pkt i = Some b -> Q (b .>> 4)) -> wp (ip_version pkt i) Q.
Proof. intros Hi HQ. unfold ip_version. repeat wp_step. by apply HQ. Qed.

Lemma ip_ihl_wp pkt i Q :
  0 <= i < blen pkt ->
  (forall b, ld8 pkt i = Some b -> 0 <= b .& 15 < 16 -> Q (b .& 15)) -> wp (ip_ihl pkt i) Q.
Proof. intros Hi HQ. unfold ip_ihl. repeat wp_step. apply HQ; [done|]. apply land_15_range. Qed.

(** Steps of a parser: loads, bound checks, header nibbles. *)
Ltac wp_hdr :=
  repeat first
    [ wp_step
    | match goal with
      | |- wp (ip_version _ _) _ => apply ip_version_wp; [lia|intros ? ?]
      | |- wp (ip_ihl _ _) _ => apply ip_ihl_wp; [lia|intros ? ? ?]
      end ].

Lemma parse_ipv4_wp pkt cur flow :
  0 <= cur ->
  wp (parse_ipv4 pkt cur flow)
    (fun r => match r with Some (c, _) => cur + 20 <= c <= blen pkt | None => True end).
Proof.
  intros Hc. unfold parse_ipv4. wp_hdr; (done || lia).
Qed.

Lemma parse_tcp_wp pkt cur flow : 0 <= cur -> wp (parse_tcp pkt cur flow) (fun _ => True).
Proof. intros Hc. unfold parse_tcp. wp_hdr; done. Qed.

Lemma quic_dcid_wp pkt q fb :
  0 <= q ->
  q < blen pkt ->
  wp (quic_dcid pkt q fb)
    (fun r => match r with Some d => 0 <= d /\ d + 3 <= blen pkt | None => True end).
Proof.
  intros Hq Hl. unfold quic_dcid. wp_hdr; try done.
  - destruct (Z.leb_spec 4 v), (Z.leb_spec (q + 6 + 4) (blen pkt)); cbn; (done || lia).
  - destruct (Z.leb_spec (q + 5) (blen pkt)); (done || lia).
Qed.

Lemma parse_udp_wp pkt cur flow : 0 <= cur -> wp (parse_udp pkt cur flow) (fun _ => True).
Proof.
  intros Hc. unfold parse_udp. wp_hdr; try done.
  eapply wp_mono; [apply quic_dcid_wp; lia|]. intros [d|] _ Hd; cbn beta iota; [|wp_hdr; done].
  apply wp_bind. unfold quic_token_of. destruct Hd. wp_hdr; done.
Qed.

Lemma parse_icmp_inner_wp pkt i : 0 <= i -> wp (parse_icmp_inner pkt i) (fun _ => True).
Proof.
  intros Hi. unfold parse_icmp_inner. wp_hdr; done.
Qed.

Lemma parse_icmp_wp pkt cur flow : 0 <= cur -> wp (parse_icmp pkt cur flow) (fun _ => True).
Proof.
  intros Hc. unfold parse_icmp. wp_hdr; try done.
  eapply wp_mono; [apply parse_icmp_inner_wp; lia|]. done.
Qed.

Lemma parse_flow_wp pkt : wp (parse_flow pkt) (fun _ => True).
Proof.
  unfold parse_flow. apply wp_bind. eapply wp_mono; [apply parse_eth_wp|].
  intros [[cur proto]|] _ Hc; [|done]. cbn in Hc. wp_step; [done|]. apply wp_bind.
  eapply wp_mono; [apply parse_ipv4_wp; lia|]. intros [[c k]|] _ Hk; [|done].
  repeat wp_step; try done; [apply parse_tcp_wp|apply parse_udp_wp|apply parse_icmp_wp]; lia.
Qed.

Lemma csum_words_wp n pkt off s :
  0 <= off -> off + 2 * Z.of_nat n <= blen pkt -> wp (csum_words n pkt off s) (fun _ => True).
Proof.
  revert off s. induction n as [|n IH]; intros off s Ho Hl; cbn [csum_words]; [done|].
  repeat wp_step. apply IH; lia.
Qed.

Lemma update_ip_checksum_wp pkt iph :
  0 <= iph -> iph + 20 <= blen pkt ->
  wp (update_ip_checksum pkt iph) (fun pkt' => length pkt' = length pkt).
Proof.
  intros Hi Hl. unfold update_ip_checksum. do 2 wp_step. wp_step.
  eapply wp_mono; [apply csum_words_wp; lia|]. intros c _ _. wp_step. lia.
Qed.

Ltac wp_frame :=
  repeat first
    [ progress wp_hdr
    | match goal with
      | |- wp (update_ip_checksum _ _) _ =>
          eapply wp_mono; [apply update_ip_checksum_wp; lia|intros ? ? ?; cbv beta in *]
      | |- wp (csum_words _ _ _ _) _ =>
          eapply wp_mono; [apply csum_words_wp; lia|intros ? _ _; cbv beta]
      end ].

Lemma apply_snat_wp pkt ip :
  wp (apply_snat pkt ip) (fun r => length r.1 = length pkt).
Proof. unfold apply_snat. cbv zeta. wp_hdr; cbn; (done || lia). Qed.

Definition is_action (a : Z) : Prop := a = XDP_PASS \/ a = XDP_TX.

Lemma echo_rewrite_wp pkt cur icmph :
  14 <= cur -> cur + 20 <= icmph -> icmph + 8 <= blen pkt ->
  wp (echo_rewrite pkt cur icmph) (fun pkt' => length pkt' = length pkt).
Proof. intros Hc Hi Hl. unfold echo_rewrite, echo_headers. wp_frame. lia. Qed.

Lemma send_icmp_echo_reply_wp pkt :
  wp (send_icmp_echo_reply pkt) (fun r => length r.1 = length pkt /\ is_action r.2).
Proof.
  unfold send_icmp_echo_reply, is_action. apply wp_bind. eapply wp_mono; [apply parse_eth_wp|].
  intros [[cur proto]|] _ Hc; cbn in Hc; [|cbn; auto].
  wp_frame; cbn; try (split; [lia|auto]).
  eapply wp_mono; [apply echo_rewrite_wp; lia|]. intros p _ Hp. cbn. auto.
Qed.

Lemma write_too_big_wp pkt cm rm op cip rip mtu :
  70 <= blen pkt -> length cm = 6%nat -> length rm = 6%nat -> length op = 28%nat ->
  wp (write_too_big pkt cm rm op cip rip mtu) (fun pkt' => length pkt' = length pkt).
Proof. intros Hl Hc Hr Ho. unfold write_too_big. wp_frame. lia. Qed.

Lemma send_icmp_too_big_wp env pkt pkt_len mtu :
  wp (send_icmp_too_big env pkt pkt_len mtu) (fun r => is_action r.2).
Proof.
  unfold send_icmp_too_big, is_action. wp_frame; cbn; auto.
  destruct (xdp_adjust_tail env pkt (70 - pkt_len)); [|cbn; auto].
  wp_frame; cbn; auto. eapply wp_mono; [apply write_too_big_wp; lia|]. cbn. auto.
Qed.

Lemma exceeds_mtu_wp pkt wan : wp (exceeds_mtu pkt wan) (fun _ => True).
Proof. unfold exceeds_mtu. destruct wan; wp_frame; done. Qed.

(** C26.  The router is total on every frame: no load or store leaves the frame,
    whatever the maps hold and the kernel answers; the action is to pass the frame
    or to send it back, never to drop it. *)
Theorem xdp_router_safe {L G} `{BpfHash flow_5tuple bpf_session_val L}
    `{BpfHash flow_5tuple bpf_session_val G} env (m : router_maps L G) pkt :
  exists m' pkt' act, xdp_router_func env m pkt = Some (m', pkt', act) /\ is_action act.
Proof.
  enough (wp (xdp_router_func env m pkt) (fun r => is_action r.2)) as W.
  { apply wp_elim in W as ([[m' pkt'] act] & E & Ha). eauto. }
  unfold xdp_router_func. apply wp_bind. eapply wp_mono; [apply parse_flow_wp|].
  intros [key|] _ _; [|by left]. cbv zeta. wp_step.
  - wp_step. eapply wp_mono; [apply send_icmp_echo_reply_wp|]. intros r _ [_ ?]. done.
  - destruct (select_wan env _ key) as [m1 target]. wp_step.
    eapply wp_mono; [apply exceeds_mtu_wp|]. intros tb _ _. cbv beta. wp_step.
    + wp_step. eapply wp_mono; [apply send_icmp_too_big_wp|]. done.
    + wp_step. unfold snat_step. wp_step; [|by left].
      destruct (snat_wan _) as [w|]; [|by left]. wp_step; [|by left]. wp_step.
      eapply wp_mono; [apply apply_snat_wp|]. by left.
Qed.

(** ** QUIC flows *)

Lemma parse_udp_token pkt cur flow key :
  parse_udp pkt cur flow = Some (Some key) -> f_quic_token key <> 0 ->
  key = Flow5 0 (f_dst_ip flow) 0 (f_dst_port key) (f_proto flow) PKT_FLAG_QUIC (f_quic_token key).
Proof.
  unfold parse_udp. destruct (blen pkt <? cur + 8); [done|].
  destruct (ld16 pkt cur) as [source|]; [|done]. destruct (ld16 pkt (cur + 2)) as [dest|]; [|done].
  cbn [mbind option_bind]. cbv zeta. destruct ((dest =? 47873) || (source =? 47873));
    [|by intros [= <-]]. destruct (cur + 8 + 1 <=? blen pkt); [|by intros [= <-]].
  destruct (ld8 pkt (cur + 8)) as [fb|]; [|done]. cbn [mbind option_bind].
  destruct (nz (fb .& 64)); [|by intros [= <-]].
  destruct (quic_dcid pkt (cur + 8) fb) as [dcid|]; [|done]. cbn [mbind option_bind].
  match goal with |- context [mbind _ ?t] => destruct t as [token|] end; [|done].
  cbn [mbind option_bind]. destruct (Z.eqb_spec token 0); cbn; by intros [= <-].
Qed.

Lemma parse_flow_token pkt key :
  parse_flow pkt = Some (Some key) -> f_quic_token key <> 0 ->
  exists dst_ip dst_port, key = Flow5 0 dst_ip 0 dst_port IPPROTO_UDP PKT_FLAG_QUIC (f_quic_token key).
Proof.
  unfold parse_flow. destruct (parse_eth pkt 0) as [[[cur proto]|]|]; [|done..].
  cbn [mbind option_bind]. destruct (negb (proto =? htons ETH_P_IP)); [done|].
  destruct (parse_ipv4 pkt cur _) as [[[c k]|]|] eqn:Eip; [|done..]. cbn [mbind option_bind].
  assert (Hk : f_quic_token k = 0).
  { revert Eip. unfold parse_ipv4. repeat (case_match; try done);
      repeat match goal with |- context [mbind _ ?e] => destruct e; cbn [mbind option_bind]; try done end;
      repeat (case_match; try done);
      repeat match goal with |- context [mbind _ ?e] => destruct e; cbn [mbind option_bind]; try done end.
    by intros [= _ <-]. }
  destruct (Z.eqb_spec (f_proto k) IPPROTO_TCP).
  { unfold parse_tcp. destruct (_ <? _); [done|].
    do 3 (match goal with |- context [mbind _ ?e] => destruct e; cbn [mbind option_bind]; try done end).
    intros [= <-]. cbn. congruence. }
  destruct (Z.eqb_spec (f_proto k) IPPROTO_UDP) as [Hu|].
  { intros E Ht. rewrite (parse_udp_token _ _ _ _ E Ht), Hu. eauto. }
  destruct (f_proto k =? IPPROTO_ICMP); [|done]. unfold parse_icmp. destruct (_ <? _); [done|].
  destruct (ld8 pkt c); [|done]. cbn [mbind option_bind]. destruct (_ || _).
  { do 2 (match goal with |- context [mbind _ ?e] => destruct e; cbn [mbind option_bind]; try done end).
    by intros [= <-]. }
  destruct (_ || _); [|by intros [= <-]]. destruct (parse_icmp_inner pkt (c + 8)); [|done].
  cbn. intros [= <-]. by repeat case_match.
Qed.

(** QUIC flows with a connection token keep their session key when the client
    roams: the key depends only on the destination and the token, not on the
    client's address or port. *)
Theorem quic_roaming_key pkt1 pkt2 key1 key2 :
  parse_flow pkt1 = Some (Some key1) -> parse_flow pkt2 = Some (Some key2) ->
  f_quic_token key1 <> 0 -> f_quic_token key2 = f_quic_token key1 ->
  f_dst_ip key2 = f_dst_ip key1 -> f_dst_port key2 = f_dst_port key1 ->
  key2 = key1 /\ hash_5tuple key2 = hash_5tuple key1.
Proof.
  intros E1 E2 Ht He Hi Hp.
  destruct (parse_flow_token _ _ E1 Ht) as (i1 & p1 & K1).
  destruct (parse_flow_token _ _ E2) as (i2 & p2 & K2); [congruence|].
  assert (key2 = key1) as ->; [|done]. rewrite K1, K2 in Hi, Hp. cbn in Hi, Hp.
  rewrite K1, K2, He, Hi, Hp. by rewrite K1.
Qed.

(** The same normalisation disables source NAT for such flows: the router takes
    the zeroed source address of the key for a public one and leaves the frame as
    it is, although the frame carries a private address. *)
Theorem quic_never_natted {L G} `{BpfHash flow_5tuple bpf_session_val L}
    `{BpfHash flow_5tuple bpf_session_val G} env (m : router_maps L G) pkt key target wan :
  parse_flow pkt = Some (Some key) -> f_quic_token key <> 0 ->
  snat_step env m pkt key target wan = Some (m, pkt).
Proof.
  intros E Ht. destruct (parse_flow_token _ _ E Ht) as (i & p & ->). unfold snat_step.
  destruct (nz _); [|done]. destruct (snat_wan wan); done.
Qed.

Lemma quic_roaming_key_witness :
  let key1 := Flow5 0 134744072 0 47873 17 16 4660 in
  parse_flow (sample_quic 20 80) = Some (Some key1)
  /\ parse_flow (sample_quic 33 99) = Some (Some key1) /\ key1 = key1.
Proof.
  cbv zeta. split; [vm_compute; reflexivity|]. split; [vm_compute; reflexivity|].
  apply (quic_roaming_key (sample_quic 20 80) (sample_quic 33 99)).
  - vm_compute. reflexivity.
  - vm_compute. reflexivity.
  - discriminate.
  - reflexivity.
  - reflexivity.
  - reflexivity.
Defined.

Definition sample_no_maps : router_maps (lru flow_5tuple bpf_session_val) (lru flow_5tuple bpf_session_val) :=
  RouterMaps ∅ ∅ (Lru 8 []) (Lru 8 []) ∅ ∅ ∅ (fun _ => None) (RouterCtrl 0 1 1 0 0 0)
    zero_global_stats [].

Lemma quic_never_natted_witness :
  snat_step (XdpEnv 0 (fun _ => true) (fun _ _ => None) (fun _ _ => None)) sample_no_maps
    (sample_quic 20 80) (Flow5 0 134744072 0 47873 17 16 4660) 0
    (Some (BpfWanEntry 1 2 167772161 0 100 1 101 257 0 1500))
  = Some (sample_no_maps, sample_quic 20 80).
Proof.
  apply quic_never_natted.
  - vm_compute. reflexivity.
  - discriminate.
Defined.
