(* ===== verification/XdpFrames.v ===== *)
(** * What the XDP router writes into frames

    Byte-level theorems on the three rewriting routines of [XdpRouter]: source NAT,
    the echo responder and the "packet too big" reflection. *)

From S2P Require Import Prelude Checksum Frames Fluxwan Samples Bpf XdpRouter.

Lemma csum_words_spec n pkt off s ws :
  words16 n pkt off = Some ws -> Forall is_u16 ws -> 0 <= s ->
  s + 65535 * Z.of_nat n < 18446744073709551616 ->
  csum_words n pkt off s = Some (s + sum_list ws).
Proof.
  revert off s ws. induction n as [|n IH]; intros off s ws; cbn [words16 csum_words].
  { intros [= <-] _ Hs Hb. cbn. f_equal. lia. }
  destruct (ld16 pkt off) as [w|]; [|done]. destruct (words16 n pkt (off + 2)) as [us|] eqn:E; [|done].
  cbn. intros [= <-] [Hw Hus]%Forall_cons_1 Hs Hb. unfold is_u16 in Hw.
  rewrite u64_small by (unfold is_u64; lia). rewrite (IH _ _ _ E) by (done || lia).
  change (sum_list (w :: us)) with (w + sum_list us). f_equal. lia.
Qed.

Lemma update_ip_checksum_spec pkt iph :
  bytes_ok pkt -> 0 <= iph -> iph + 20 <= blen pkt ->
  wp (update_ip_checksum pkt iph) (fun pkt' =>
    length pkt' = length pkt /\ bytes_ok pkt' /\ verifies 10 pkt' iph
    /\ keeps_but (iph + 10) 2 pkt pkt').
Proof.
  intros Hb Hi Hl. unfold update_ip_checksum. wp_step. wp_step. rename b' into p1.
  destruct (words16_Some 10 p1 iph) as (ws & Hws & Lws); [lia|cbn; lia|].
  assert (Hb1 : bytes_ok p1) by by eapply st16_ok.
  pose proof (words16_range _ _ _ _ Hb1 Hws) as Hr. pose proof (sum_list_range _ Hr).
  rewrite (csum_words_spec _ _ _ _ _ Hws Hr) by lia. cbn [option_bind mbind].
  rewrite Z.add_0_l, csum_fold_helper_spec by (unfold is_u32; lia).
  pose proof (oc_sum_range (sum_list ws) ltac:(lia)) as Ho.
  wp_step. split_and!; [congruence|by eapply st16_ok| |].
  - exists (<[5%nat := 65535 - oc_sum (sum_list ws)]> ws). split.
    + apply (words16_st16 _ p1 _ _ _ _ _); [done|unfold is_u16 in *; lia|done].
    + assert (H5 : ws !! 5%nat = Some 0).
      { rewrite <- (words16_lookup _ _ _ _ _ Hws) by lia.
        by apply (ld16_st16_eq _ _ _ _ H). }
      rewrite (sum_list_insert _ _ _ _ H5), Z.sub_0_r. apply oc_sum_verify. lia.
  - intros j Hj. rewrite (ld8_st16_ne _ _ j _ _ H2) by lia. by apply (ld8_st16_ne _ _ _ _ _ H).
Qed.

(** ** Source NAT *)

(** Replacing two address words and the checksum word the way [apply_snat] does
    keeps a block valid. *)
Lemma snat_words ws c lo hi new k0 w0 :
  Forall is_u16 ws -> is_u32 new ->
  ws !! 5%nat = Some c -> ws !! 6%nat = Some lo -> ws !! 7%nat = Some hi ->
  ws !! k0 = Some w0 -> 0 < w0 -> (k0 < 5)%nat ->
  oc_sum (sum_list ws) = 65535 ->
  oc_sum (sum_list (<[5%nat := csum_replace4 c (lo + 65536 * hi) new]>
    (<[7%nat := new / 65536]> (<[6%nat := new mod 65536]> ws)))) = 65535.
Proof.
  intros Hws Hnew H5 H6 H7 H0 Hw0 Hk0 Hv.
  assert (is_u16 c /\ is_u16 lo /\ is_u16 hi) as (Hc & Hlo & Hhi)
    by (split_and!; by eapply Forall_lookup_1).
  set (new_lo := new mod 65536). set (new_hi := new / 65536).
  assert (is_u16 new_lo /\ is_u16 new_hi) as [Hnl Hnh] by (unfold new_lo, new_hi; cint).
  set (ws1 := <[7%nat := new_hi]> (<[6%nat := new_lo]> ws)).
  assert (Hws1 : Forall is_u16 ws1) by (repeat apply Forall_insert; done).
  assert (H51 : ws1 !! 5%nat = Some c) by (unfold ws1; by rewrite !list_lookup_insert_ne).
  assert (H01 : ws1 !! k0 = Some w0) by (unfold ws1; by rewrite !list_lookup_insert_ne by lia).
  assert (S1 : sum_list ws1 = sum_list ws - lo - hi + new_lo + new_hi).
  { unfold ws1. rewrite (sum_list_insert _ 7 _ hi) by (by rewrite list_lookup_insert_ne).
    rewrite (sum_list_insert _ 6 _ lo) by done. lia. }
  pose proof (sum_list_range _ Hws). apply oc_sum_valid in Hv as [Hp Hm]; [|lia].
  rewrite csum_replace4_spec by (done || (unfold is_u16, is_u32 in *; lia)).
  fold new_lo new_hi. unfold is_u16 in *.
  replace ((lo + 65536 * hi) / 65536) with hi by lia.
  replace ((lo + 65536 * hi) mod 65536) with lo by lia.
  set (x := _ + new_hi + new_lo). assert (0 <= x) by (unfold x; lia).
  destruct (oc_sum_mod x) as (k & Hk & Hx); [done|]. pose proof (oc_sum_range x ltac:(done)) as Hox.
  unfold is_u16 in Hox. rewrite (sum_list_insert _ _ _ _ H51).
  remember (oc_sum x) as o eqn:Eo. unfold x in Hx. clear Eo.
  assert (c + w0 <= sum_list ws1).
  { pose proof (sum_list_ge (<[5%nat := 0]> ws1) k0 w0) as Hge.
    rewrite (sum_list_insert _ _ _ _ H51) in Hge.
    rewrite list_lookup_insert_ne in Hge by lia.
    assert (w0 <= sum_list ws1 - c + 0); [|lia]. apply Hge; [|done].
    apply Forall_insert; [done|]. unfold is_u16. lia. }
  apply oc_sum_valid; [lia|]. split; [lia|]. clear - Hm S1 Hx. lia.
Qed.

(** The IPv4 header [apply_snat] accepts: right after the Ethernet header. *)
Definition plain_ipv4 (pkt : list Z) : Prop :=
  bytes_ok pkt /\ 34 <= blen pkt
  /\ exists b0, ld8 pkt 14 = Some b0 /\ b0 .>> 4 = 4 /\ 5 <= b0 .& 15.

Lemma plain_ipv4_first pkt :
  plain_ipv4 pkt -> exists w, ld16 pkt 14 = Some w /\ 0 < w.
Proof.
  intros (Hb & Hl & b0 & E0 & Hv & _). unfold ld16. change (14 + 1) with 15. rewrite E0.
  cbn [mbind option_bind]. destruct (ld8_Some pkt 15) as [b1 E1]; [lia|]. rewrite E1. cbn. eexists. split; [done|].
  pose proof (ld8_range _ _ _ Hb E0). pose proof (ld8_range _ _ _ Hb E1).
  rewrite Z.shiftr_div_pow2 in Hv by lia. change (2 ^ 4) with 16 in Hv.
  unfold le16, is_u8 in *. lia.
Qed.

Lemma apply_snat_eval pkt ip :
  plain_ipv4 pkt ->
  exists old p1 check p2, ld32 pkt 26 = Some old /\ st32 pkt 26 ip = Some p1
    /\ ld16 p1 24 = Some check /\ st16 p1 24 (csum_replace4 check old ip) = Some p2
    /\ apply_snat pkt ip = Some (p2, 0).
Proof.
  intros (Hb & Hl & b0 & E0 & Hv & Hh).
  destruct (ld32_Some pkt 26) as [old E1]; [lia..|].
  enough (wp (st32 pkt 26 ip) (fun p1 => exists check p2, st32 pkt 26 ip = Some p1
    /\ ld16 p1 24 = Some check /\ st16 p1 24 (csum_replace4 check old ip) = Some p2)) as W.
  { apply wp_elim in W as (p1 & _ & check & p2 & E2 & E3 & E4). exists old, p1, check, p2.
    split_and!; try done. unfold apply_snat, ip_version, ip_ihl. cbv zeta.
    destruct (Z.ltb_spec (blen pkt) 14); [lia|]. change (14 + 20) with 34.
    change (14 + 12) with 26. change (14 + 10) with 24.
    destruct (Z.ltb_spec (blen pkt) 34); [lia|]. rewrite E0. cbn [mbind option_bind].
    rewrite Hv, Z.eqb_refl. cbn [negb orb]. destruct (Z.ltb_spec (b0 .& 15) 5); [lia|].
    rewrite E1. cbn [mbind option_bind]. rewrite E2. cbn [mbind option_bind].
    rewrite E3. cbn [mbind option_bind]. by rewrite E4. }
  wp_step. destruct (ld16_Some b' 24) as [check E3]; [lia..|].
  destruct (st16_Some b' 24 (csum_replace4 check old ip)) as [p2 E4]; [lia..|]. eauto.
Qed.

(** C27.  Source NAT writes the WAN's address over the source address, changes nothing
    but the address and the header checksum, and a header of any length whose
    checksum verified still does. *)
Theorem snat_correct pkt ip :
  plain_ipv4 pkt -> is_u32 ip ->
  exists pkt', apply_snat pkt ip = Some (pkt', 0)
    /\ length pkt' = length pkt /\ ld32 pkt' 26 = Some ip
    /\ (forall j, j < 24 \/ 30 <= j -> ld8 pkt' j = ld8 pkt j)
    /\ (forall n, (10 <= n)%nat -> verifies n pkt 14 -> verifies n pkt' 14).
Proof.
  intros Hp Hip. destruct (apply_snat_eval pkt ip Hp) as (old & p1 & c & p2 & E1 & E2 & E3 & E4 & ->).
  exists p2. split; [done|]. pose proof Hp as (Hb & Hl & _).
  pose proof (st32_length _ _ _ _ E2). pose proof (st16_length _ _ _ _ E4). split_and!.
  - congruence.
  - rewrite <- (ld32_st32_eq _ _ _ _ E2 Hip). apply (ld32_agree 26 30); [|lia..].
    apply (agree_st16 _ _ _ _ _ _ E4). lia.
  - intros j Hj. rewrite (ld8_st16_ne _ _ j _ _ E4) by lia.
    by rewrite (ld8_st32_ne _ _ j _ _ E2) by lia.
  - intros n Hn (ws & Hws & Hv). pose proof (words16_range _ _ _ _ Hb Hws) as Hr.
    apply st32_inv in E2 as (p0 & E20 & E21).
    assert (W1 : words16 n p1 14 = Some (<[7%nat := ip / 65536]> (<[6%nat := ip mod 65536]> ws))).
    { apply (words16_st16 _ p0 _ 7); [done|cint|].
      apply (words16_st16 _ pkt _ 6); [|cint|done]. rewrite <- E20. apply st16_low. }
    assert (K : forall k, (k < 10)%nat -> ld16 pkt (14 + 2 * Z.of_nat k) = ws !! k)
      by (intros; apply (words16_lookup _ _ _ _ _ Hws); lia).
    destruct (plain_ipv4_first _ Hp) as (w0 & Ew0 & Hw0).
    rewrite ld32_words in E1. destruct (ld16 pkt 26) as [lo|] eqn:Elo; [|done].
    destruct (ld16 pkt (26 + 2)) as [hi|] eqn:Ehi; [|done]. injection E1 as <-.
    exists (<[5%nat := csum_replace4 c (lo + 65536 * hi) ip]>
             (<[7%nat := ip / 65536]> (<[6%nat := ip mod 65536]> ws))). split.
    + apply (words16_st16 _ p1 _ 5); [done|apply u16_range|done].
    + apply (snat_words _ _ _ _ _ 0 w0); [done|done| | | | |done|lia|done].
      * rewrite <- (K 5%nat), <- E3 by lia. symmetry.
        rewrite (ld16_st16_ne _ _ 24 _ _ E21) by lia.
        by rewrite (ld16_st16_ne _ _ 24 _ _ E20) by lia.
      * by rewrite <- (K 6%nat) by lia.
      * by rewrite <- (K 7%nat) by lia.
      * by rewrite <- (K 0%nat) by lia.
Qed.

(** ** The echo responder *)

(** The checksum update of the responder: the type byte goes from 8 to 0. *)
Lemma echo_words ws w0 c k w :
  Forall is_u16 ws -> ws !! 0%nat = Some w0 -> w0 mod 256 = 8 -> ws !! 1%nat = Some c ->
  (2 <= k)%nat -> ws !! k = Some w -> 0 < w ->
  oc_sum (sum_list ws) = 65535 ->
  oc_sum (sum_list (<[1%nat := csum_replace2 c 8 0]> (<[0%nat := 0 + 256 * (w0 / 256)]> ws))) = 65535.
Proof.
  intros Hws H0 H8 H1 Hk Hkw Hw Hv.
  assert (is_u16 w0 /\ is_u16 c) as [Hw0 Hc] by (split; by eapply Forall_lookup_1).
  set (ws1 := <[0%nat := 0 + 256 * (w0 / 256)]> ws).
  assert (H11 : ws1 !! 1%nat = Some c) by (unfold ws1; by rewrite list_lookup_insert_ne).
  assert (S1 : sum_list ws1 = sum_list ws - 8)
    by (unfold ws1; rewrite (sum_list_insert _ _ _ _ H0); unfold is_u16 in *; lia).
  assert (Hws1 : Forall is_u16 ws1) by (apply Forall_insert; [done|unfold is_u16 in *; lia]).
  pose proof (sum_list_range _ Hws). apply oc_sum_valid in Hv as [Hp Hm]; [|lia].
  rewrite csum_replace2_spec by (done || (unfold is_u16; lia)). unfold is_u16 in *.
  set (x := _ + (65535 - 8) + 0). assert (0 <= x) by (unfold x; lia).
  destruct (oc_sum_mod x) as (q & Hq & Hx); [done|]. pose proof (oc_sum_range x ltac:(done)) as Hox.
  unfold is_u16 in Hox. rewrite (sum_list_insert _ _ _ _ H11).
  remember (oc_sum x) as o eqn:Eo. unfold x in Hx. clear Eo.
  assert (w + c <= sum_list ws1).
  { pose proof (sum_list_ge (<[1%nat := 0]> ws1) k w) as Hge.
    rewrite (sum_list_insert _ _ _ _ H11) in Hge.
    assert (w <= sum_list ws1 - c + 0); [|lia]. apply Hge.
    - apply Forall_insert; [done|]. unfold is_u16. lia.
    - unfold ws1. by rewrite !list_lookup_insert_ne by lia. }
  apply oc_sum_valid; [lia|]. split; [lia|]. clear - Hm S1 Hx. lia.
Qed.

(** Addresses are exchanged at both layers, the lifetime is fresh and the header
    checksum is recomputed; nothing from [hi] on changes. *)
Record echo_swapped (pkt pkt' : list Z) (cur : Z) : Prop := {
  es_length : length pkt' = length pkt;
  es_bytes : bytes_ok pkt';
  es_dest : ld_bytes pkt' 0 6 = ld_bytes pkt 6 6;
  es_source : ld_bytes pkt' 6 6 = ld_bytes pkt 0 6;
  es_saddr : ld32 pkt' (cur + 12) = ld32 pkt (cur + 16);
  es_daddr : ld32 pkt' (cur + 16) = ld32 pkt (cur + 12);
  es_ttl : ld8 pkt' (cur + 8) = Some 64;
  es_valid : verifies 10 pkt' cur;
  es_rest : forall j, 12 <= j < cur \/ cur + 20 <= j -> ld8 pkt' j = ld8 pkt j
}.

Lemma echo_headers_spec pkt cur :
  bytes_ok pkt -> 14 <= cur -> cur + 20 <= blen pkt ->
  wp (echo_headers pkt cur) (fun pkt' => echo_swapped pkt pkt' cur).
Proof.
  intros Hb Hc Hl. unfold echo_headers.
  apply wp_bind, wp_ld_bytes; [lia..|]. intros src Esrc Lsrc.
  apply wp_bind, wp_ld_bytes; [lia..|]. intros dst Edst Ldst.
  apply wp_bind, wp_st_bytes; [lia..|]. intros p1 E1 L1.
  apply wp_bind, wp_st_bytes; [lia..|]. intros p2 E2 L2.
  apply wp_bind, wp_ld32; [lia..|]. intros sip Esip.
  apply wp_bind, wp_ld32; [lia..|]. intros dip Edip.
  apply wp_bind, wp_st32; [lia..|]. intros p3 E3 L3.
  apply wp_bind, wp_st32; [lia..|]. intros p4 E4 L4.
  apply wp_bind, wp_st8; [lia..|]. intros p5 E5 L5.
  assert (Hb2 : bytes_ok p2) by (repeat (eapply st_bytes_ok; [|done]); done).
  assert (Hb5 : bytes_ok p5)
    by (eapply st8_ok; [|done]; eapply st32_ok; [|done]; by eapply st32_ok).
  eapply wp_mono; [apply update_ip_checksum_spec; [done|lia|lia]|].
  intros p6 _ (L6 & Hb6 & Hv & Hk).
  assert (Hpre : agree 14 (blen pkt) pkt p2).
  { etrans; [apply (agree_st_bytes _ _ _ _ _ _ E1); lia|apply (agree_st_bytes _ _ _ _ _ _ E2); lia]. }
  assert (Hlow : agree 0 14 p2 p6).
  { intros j Hj. rewrite Hk by lia. by ld_frame. }
  split; try done.
  - lia.
  - rewrite (ld_bytes_agree 6 0 14 p2 p6), Esrc by (done || lia). rewrite <- Lsrc at 1.
    apply (ld_bytes_st_bytes _ p1); [exact (ld_bytes_ok _ _ _ _ Hb Esrc)|done].
  - rewrite (ld_bytes_agree 6 0 14 p2 p6), Edst by (done || lia). rewrite <- Ldst at 1.
    assert (A : agree 6 12 p1 p2) by (apply (agree_st_bytes _ _ _ _ _ _ E2); lia).
    rewrite (ld_bytes_agree _ _ _ _ _ _ A) by lia.
    apply (ld_bytes_st_bytes _ pkt); [exact (ld_bytes_ok _ _ _ _ Hb Edst)|done].
  - rewrite <- (ld32_agree _ _ _ _ _ Hpre), Edip by lia.
    rewrite <- (ld32_st32_eq _ _ _ _ E3 (ld32_range _ _ _ Hb2 Edip)).
    apply (ld32_agree (cur + 12) (cur + 16)); [|lia..]. intros j Hj. rewrite Hk by lia. by ld_frame.
  - rewrite <- (ld32_agree _ _ _ _ _ Hpre), Esip by lia.
    rewrite <- (ld32_st32_eq _ _ _ _ E4 (ld32_range _ _ _ Hb2 Esip)).
    apply (ld32_agree (cur + 16) (cur + 20)); [|lia..]. intros j Hj. rewrite Hk by lia. by ld_frame.
  - rewrite Hk by lia. apply (ld8_st8_eq _ _ _ _ E5).
  - intros j Hj. rewrite Hk by lia. by ld_frame.
Qed.

(** An echo request for the router: IPv4 after any VLAN tags, an ICMP header of
    type 8 after the IP header. *)
Record echo_request (pkt : list Z) (cur icmph : Z) : Prop := {
  er_bytes : bytes_ok pkt;
  er_eth : parse_eth pkt 0 = Some (Some (cur, htons ETH_P_IP));
  er_ip : exists b0, ld8 pkt cur = Some b0 /\ b0 .>> 4 = 4 /\ 5 <= b0 .& 15
                     /\ icmph = cur + (b0 .& 15) * 4;
  er_room : icmph + 8 <= blen pkt;
  er_type : ld8 pkt icmph = Some ICMP_ECHO
}.

Lemma echo_request_bounds pkt cur icmph :
  echo_request pkt cur icmph -> 14 <= cur /\ cur + 20 <= icmph.
Proof.
  intros [_ He (b0 & _ & _ & Hh & ->) _ _]. pose proof (parse_eth_wp pkt) as W. rewrite He in W.
  cbn in W. lia.
Qed.

(** The checks of [send_icmp_echo_reply] all pass on an echo request. *)
Lemma send_icmp_echo_reply_eval pkt cur icmph pkt' :
  echo_request pkt cur icmph -> echo_rewrite pkt cur icmph = Some pkt' ->
  send_icmp_echo_reply pkt = Some (pkt', XDP_TX).
Proof.
  intros Hr E. destruct (echo_request_bounds _ _ _ Hr) as [Hc Hi].
  destruct Hr as [_ He (b0 & E0 & Hv & Hh & ->) Hroom Ht].
  unfold send_icmp_echo_reply, ip_version, ip_ihl. rewrite He. cbn [mbind option_bind].
  rewrite Z.eqb_refl. cbn [negb]. destruct (Z.ltb_spec (blen pkt) (cur + 20)); [lia|].
  rewrite E0. cbn [mbind option_bind]. rewrite Hv, Z.eqb_refl. cbn [negb orb].
  destruct (Z.ltb_spec (b0 .& 15) 5); [lia|].
  destruct (Z.ltb_spec (blen pkt) (cur + (b0 .& 15) * 4)); [lia|]. cbv zeta.
  destruct (Z.ltb_spec (blen pkt) (cur + (b0 .& 15) * 4 + 8)); [lia|].
  rewrite Ht. cbn [mbind option_bind]. rewrite Z.eqb_refl. cbn [negb]. by rewrite E.
Qed.

(** The ICMP checksum of the reply verifies if that of the request did. *)
Lemma echo_icmp_valid pkt p1 p2 pkt' icmph c n ws k w :
  bytes_ok pkt -> bytes_ok p1 -> ld8 pkt icmph = Some ICMP_ECHO ->
  st8 p1 icmph ICMP_ECHOREPLY = Some p2 ->
  (forall j, icmph <= j -> ld8 p1 j = ld8 pkt j) ->
  ld16 p2 (icmph + 2) = Some c ->
  st16 p2 (icmph + 2) (csum_replace2 c (htons 2048) 0) = Some pkt' ->
  words16 n pkt icmph = Some ws -> oc_sum (sum_list ws) = 65535 ->
  (2 <= k)%nat -> ws !! k = Some w -> 0 < w -> verifies n pkt' icmph.
Proof.
  intros Hb Hb1 Ht E1 Hrest E2 E3 Hws Hv Hk Hkw Hw.
  assert (Hws1 : words16 n p1 icmph = Some ws).
  { rewrite <- Hws. apply (words16_agree _ _ _ _ icmph (icmph + 2 * Z.of_nat n)); [|lia..].
    intros j Hj. apply Hrest. lia. }
  pose proof (words16_length _ _ _ _ Hws) as Ln. pose proof (lookup_lt_Some _ _ _ Hkw) as Lk.
  destruct (lookup_lt_is_Some_2 ws 0) as [w0 H0]; [lia|].
  destruct (lookup_lt_is_Some_2 ws 1) as [w1 H1]; [lia|].
  assert (H8 : w0 mod 256 = 8).
  { rewrite <- (words16_lookup _ _ _ _ 0 Hws) in H0 by lia. cbn in H0. rewrite Z.add_0_r in H0.
    unfold ld16 in H0. rewrite Ht in H0. cbn in H0. destruct (ld8 pkt (icmph + 1)); [|done].
    injection H0 as <-. unfold le16. by rewrite byte_mod. }
  assert (Hws2 : words16 n p2 icmph = Some (<[0%nat := 0 + 256 * (w0 / 256)]> ws)).
  { apply (words16_st8 _ p1 _ 0 0); [done| |unfold is_u8; lia|done|done].
    rewrite <- E1. f_equal. lia. }
  assert (c = w1) as ->.
  { pose proof (words16_lookup _ _ _ _ 1 Hws2 ltac:(lia)) as H2.
    rewrite list_lookup_insert_ne, H1 in H2 by done. change (2 * Z.of_nat 1) with 2 in H2. congruence. }
  exists (<[1%nat := csum_replace2 w1 8 0]> (<[0%nat := 0 + 256 * (w0 / 256)]> ws)). split.
  + apply (words16_st16 _ p2 _ 1); [done|apply u16_range|done].
  + eapply echo_words; eauto using words16_range.
Qed.

(** What the stores to the ICMP header add to the exchanged headers. *)
Lemma echo_reply_facts pkt cur icmph p1 p2 c pkt' :
  bytes_ok pkt -> 14 <= cur -> cur + 20 <= icmph -> ld8 pkt icmph = Some ICMP_ECHO ->
  echo_swapped pkt p1 cur -> st8 p1 icmph ICMP_ECHOREPLY = Some p2 ->
  ld16 p2 (icmph + 2) = Some c ->
  st16 p2 (icmph + 2) (csum_replace2 c (htons 2048) 0) = Some pkt' ->
  length pkt' = length pkt
  /\ ld_bytes pkt' 0 6 = ld_bytes pkt 6 6 /\ ld_bytes pkt' 6 6 = ld_bytes pkt 0 6
  /\ ld32 pkt' (cur + 12) = ld32 pkt (cur + 16) /\ ld32 pkt' (cur + 16) = ld32 pkt (cur + 12)
  /\ ld8 pkt' (cur + 8) = Some 64 /\ verifies 10 pkt' cur
  /\ ld8 pkt' icmph = Some ICMP_ECHOREPLY
  /\ (forall j, icmph + 4 <= j -> ld8 pkt' j = ld8 pkt j)
  /\ (forall n ws k w, words16 n pkt icmph = Some ws -> oc_sum (sum_list ws) = 65535 ->
        (2 <= k)%nat -> ws !! k = Some w -> 0 < w -> verifies n pkt' icmph).
Proof.
  intros Hb Hc Hi Ht [Hlen Hb1 Hd Hsr Hsa Hda Httl Hval Hrest] E1 E2 E3.
  assert (A : agree 0 icmph p1 pkt').
  { etrans; [apply (agree_st8 _ _ _ _ _ _ E1); lia|apply (agree_st16 _ _ _ _ _ _ E3); lia]. }
  pose proof (st8_length _ _ _ _ E1). pose proof (st16_length _ _ _ _ E3). split_and!.
  - congruence.
  - by rewrite (ld_bytes_agree _ _ _ _ _ _ A) by lia.
  - by rewrite (ld_bytes_agree _ _ _ _ _ _ A) by lia.
  - by rewrite (ld32_agree _ _ _ _ _ A) by lia.
  - by rewrite (ld32_agree _ _ _ _ _ A) by lia.
  - by rewrite A by lia.
  - apply (verifies_agree _ _ _ _ _ _ A); [lia|cbn; lia|done].
  - rewrite (ld8_st16_ne _ _ _ _ _ E3) by lia. apply (ld8_st8_eq _ _ _ _ E1).
  - intros j Hj. ld_frame. apply Hrest. lia.
  - intros n ws k w Hws Hv Hk Hkw Hw.
    by apply (echo_icmp_valid pkt p1 p2 pkt' icmph c n ws k w); [| | | |intros; apply Hrest; lia|..].
Qed.

(** The reply to a ping: [send_icmp_echo_reply] sends an echo request back with
    its Ethernet and IP addresses exchanged, type 0, a fresh lifetime and a valid
    header checksum over the 20 bytes it covers; identifier, sequence number and
    data are untouched; and if the ICMP checksum of the request verified over any
    number of words, that of the reply does, provided the message holds a word
    that is not zero after the checksum. *)
Theorem echo_reply_correct pkt cur icmph :
  echo_request pkt cur icmph ->
  exists pkt', send_icmp_echo_reply pkt = Some (pkt', XDP_TX)
    /\ length pkt' = length pkt
    /\ ld_bytes pkt' 0 6 = ld_bytes pkt 6 6 /\ ld_bytes pkt' 6 6 = ld_bytes pkt 0 6
    /\ ld32 pkt' (cur + 12) = ld32 pkt (cur + 16) /\ ld32 pkt' (cur + 16) = ld32 pkt (cur + 12)
    /\ ld8 pkt' (cur + 8) = Some 64 /\ verifies 10 pkt' cur
    /\ ld8 pkt' icmph = Some ICMP_ECHOREPLY
    /\ (forall j, icmph + 4 <= j -> ld8 pkt' j = ld8 pkt j)
    /\ (forall n ws k w, words16 n pkt icmph = Some ws -> oc_sum (sum_list ws) = 65535 ->
          (2 <= k)%nat -> ws !! k = Some w -> 0 < w -> verifies n pkt' icmph).
Proof.
  intros Hr. destruct (echo_request_bounds _ _ _ Hr) as [Hc Hi].
  pose proof Hr as [Hb _ _ Hroom Ht].
  enough (wp (echo_rewrite pkt cur icmph) (fun pkt' => exists p1 p2 c,
    echo_swapped pkt p1 cur /\ st8 p1 icmph ICMP_ECHOREPLY = Some p2
    /\ ld16 p2 (icmph + 2) = Some c
    /\ st16 p2 (icmph + 2) (csum_replace2 c (htons 2048) 0) = Some pkt')) as W.
  { apply wp_elim in W as (pkt' & E & p1 & p2 & c & Hs & E1 & E2 & E3).
    exists pkt'. split; [by eapply send_icmp_echo_reply_eval|].
    by eapply echo_reply_facts. }
  unfold echo_rewrite. apply wp_bind.
  eapply wp_mono; [apply echo_headers_spec; [done|lia|lia]|]. intros p1 _ Hs.
  pose proof (es_length _ _ _ Hs).
  apply wp_bind, wp_st8; [lia|]. intros p2 E1 L1.
  apply wp_bind, wp_ld16; [lia..|]. intros c E2.
  apply wp_st16; [lia..|]. intros p3 E3 L3. by exists p1, p2, c.
Qed.

(** ** The "packet too big" reflection *)

(** Storing the fold of a block over its zeroed checksum word makes it verify. *)
Lemma store_checksum_verifies n b off k b' :
  bytes_ok b -> (n <= 1000)%nat -> (k < n)%nat -> 0 <= off -> off + 2 * Z.of_nat n <= blen b ->
  ld16 b (off + 2 * Z.of_nat k) = Some 0 ->
  (s ← csum_words n b off 0; st16 b (off + 2 * Z.of_nat k) (csum_fold_helper s)) = Some b' ->
  verifies n b' off /\ keeps_but (off + 2 * Z.of_nat k) 2 b b' /\ length b' = length b.
Proof.
  intros Hb Hn Hk Ho Hl H0 E.
  destruct (words16_Some n b off) as (ws & Hws & Lws); [lia..|].
  pose proof (words16_range _ _ _ _ Hb Hws) as Hr. pose proof (sum_list_range _ Hr).
  rewrite (csum_words_spec _ _ _ _ _ Hws Hr) in E by lia. cbn [option_bind mbind] in E.
  rewrite Z.add_0_l, csum_fold_helper_spec in E by (unfold is_u32; lia).
  pose proof (oc_sum_range (sum_list ws) ltac:(lia)) as Hos. split_and!.
  - exists (<[k := 65535 - oc_sum (sum_list ws)]> ws). split.
    + apply (words16_st16 _ b _ _ _ _ _ E); [unfold is_u16 in *; lia|done].
    + rewrite (words16_lookup _ _ _ _ _ Hws Hk) in H0.
      rewrite (sum_list_insert _ _ _ _ H0), Z.sub_0_r. apply oc_sum_verify. lia.
  - intros j Hj. apply (ld8_st16_ne _ _ _ _ _ E). lia.
  - by eapply st16_length.
Qed.

Record too_big_message (pkt' : list Z) (client_mac router_mac orig : list Z)
    (client_ip router_ip mtu : Z) : Prop := {
  tb_dest : ld_bytes pkt' 0 6 = Some client_mac;
  tb_source : ld_bytes pkt' 6 6 = Some router_mac;
  tb_proto : ld16 pkt' 12 = Some (htons ETH_P_IP);
  tb_version : ld8 pkt' 14 = Some 69;
  tb_length : ld16 pkt' 16 = Some (htons 56);
  tb_protocol : ld8 pkt' 23 = Some IPPROTO_ICMP;
  tb_saddr : ld32 pkt' 26 = Some router_ip;
  tb_daddr : ld32 pkt' 30 = Some client_ip;
  tb_valid : verifies 10 pkt' 14;
  tb_type : ld8 pkt' 34 = Some 3;
  tb_code : ld8 pkt' 35 = Some 4;
  tb_mtu : ld16 pkt' 40 = Some (htons mtu);
  tb_orig : ld_bytes pkt' 42 28 = Some orig;
  tb_icmp_valid : verifies 18 pkt' 34
}.

Lemma ld_bytes_st_bytes_n n vs b i b' :
  bytes_ok vs -> length vs = n -> st_bytes b i vs = Some b' -> ld_bytes b' i n = Some vs.
Proof. intros Hv <-. by apply ld_bytes_st_bytes. Qed.

Lemma write_too_big_spec pkt cm rm orig cip rip mtu :
  bytes_ok pkt -> blen pkt = 70 -> bytes_ok cm -> length cm = 6%nat -> bytes_ok rm ->
  length rm = 6%nat -> bytes_ok orig -> length orig = 28%nat -> is_u32 cip -> is_u32 rip ->
  is_u16 mtu ->
  wp (write_too_big pkt cm rm orig cip rip mtu) (fun pkt' =>
    length pkt' = length pkt /\ too_big_message pkt' cm rm orig cip rip mtu).
Proof.
  intros Hb Hl Hcm Lcm Hrm Lrm Hor Lor Hcip Hrip Hmtu. unfold write_too_big.
  do 12 (apply wp_bind; wp_step). apply wp_bind.
  match goal with |- wp (update_ip_checksum ?p _) _ => assert (Hb1 : bytes_ok p) end.
  { bytes_ok_by. }
  eapply wp_mono; [apply update_ip_checksum_spec; [done|lia|lia]|].
  intros p13 _ (L13 & Hb13 & V13 & K13). cbv beta.
  do 6 (apply wp_bind; wp_step).
  match goal with |- wp ?c _ => destruct c as [p'|] eqn:E end.
  2: { exfalso. revert E. match goal with |- ?c = None -> _ => enough (wp c (fun _ => True)) as W end.
       { intros E. by rewrite E in W. }
       wp_frame. done. }
  match type of E with (mbind _ (csum_words _ ?p _ _)) = _ => assert (Hb19 : bytes_ok p) end.
  { bytes_ok_by. }
  apply (store_checksum_verifies 18 _ 34 1) in E as (V & K & L); [|done|lia|lia|lia|cbn; lia|].
  2: { change (34 + 2 * Z.of_nat 1) with 36. ld_hit. done. }
  change (34 + 2 * Z.of_nat 1) with 36 in K. split; [lia|].
  rewrite u16_small in * by done. pose proof (bswap16_range _ Hmtu).
  split; try done; ld_frame; try done; try (ld_hit; done).
  all: by eapply ld_bytes_st_bytes_n.
Qed.

(** What the tail helper does when it succeeds: the frame has the new length and
    still consists of bytes. *)
Definition adjust_tail_ok (env : xdp_env) : Prop :=
  forall pkt delta p, bytes_ok pkt -> xdp_adjust_tail env pkt delta = Some p ->
    blen p = blen pkt + delta /\ bytes_ok p.

(** The reflection [send_icmp_too_big] sends back is a complete ICMP "fragmentation
    needed" message of 70 bytes: to the sender's hardware and network addresses,
    from those the packet was sent to, with the WAN's MTU, the first 28 bytes of
    the packet as its body, and both checksums valid. *)
Theorem too_big_correct env pkt mtu p :
  adjust_tail_ok env -> bytes_ok pkt -> 42 <= blen pkt -> is_u16 mtu ->
  xdp_adjust_tail env pkt (70 - blen pkt) = Some p ->
  exists pkt' cm rm orig cip rip,
    send_icmp_too_big env pkt (blen pkt) mtu = Some (pkt', XDP_TX) /\ blen pkt' = 70
    /\ ld_bytes pkt 6 6 = Some cm /\ ld_bytes pkt 0 6 = Some rm /\ ld_bytes pkt 14 28 = Some orig
    /\ ld32 pkt 26 = Some cip /\ ld32 pkt 30 = Some rip
    /\ too_big_message pkt' cm rm orig cip rip mtu.
Proof.
  intros Henv Hb Hl Hmtu Hp. destruct (Henv _ _ _ Hb Hp) as [Lp Hbp].
  enough (wp (send_icmp_too_big env pkt (blen pkt) mtu) (fun r => exists cm rm orig cip rip,
    r.2 = XDP_TX /\ blen r.1 = 70
    /\ ld_bytes pkt 6 6 = Some cm /\ ld_bytes pkt 0 6 = Some rm /\ ld_bytes pkt 14 28 = Some orig
    /\ ld32 pkt 26 = Some cip /\ ld32 pkt 30 = Some rip
    /\ too_big_message r.1 cm rm orig cip rip mtu)) as W.
  { apply wp_elim in W as ([pkt' act] & E & cm & rm & orig & cip & rip & W). cbn in W.
    destruct W as (-> & W). by exists pkt', cm, rm, orig, cip, rip. }
  unfold send_icmp_too_big. do 3 (wp_step; [lia|]).
  apply wp_bind, wp_ld_bytes; [lia..|]. intros orig Eor Lor.
  apply wp_bind, wp_ld_bytes; [lia..|]. intros cm Ecm Lcm.
  apply wp_bind, wp_ld_bytes; [lia..|]. intros rm Erm Lrm.
  apply wp_bind, wp_ld32; [lia..|]. intros cip Ecip.
  apply wp_bind, wp_ld32; [lia..|]. intros rip Erip.
  rewrite Hp. do 4 (wp_step; [lia|]). apply wp_bind.
  eapply wp_mono; [apply write_too_big_spec; try done; try lia|].
  - exact (ld_bytes_ok _ _ _ _ Hb Ecm).
  - exact (ld_bytes_ok _ _ _ _ Hb Erm).
  - exact (ld_bytes_ok _ _ _ _ Hb Eor).
  - exact (ld32_range _ _ _ Hb Ecip).
  - exact (ld32_range _ _ _ Hb Erip).
  - intros pkt' _ [L' M]. apply wp_ret. exists cm, rm, orig, cip, rip. cbn [fst snd].
    split_and!; (done || lia).
Qed.

(** The size test compares the whole frame, Ethernet header included, with the
    MTU, which bounds the IP packet: a frame whose IP packet fits the MTU exactly
    is taken for too big and reflected. *)
Theorem mtu_test_counts_ethernet pkt w frag :
  plain_ipv4 pkt -> ld16 pkt 12 = Some (htons ETH_P_IP) ->
  ld16 pkt 20 = Some frag -> frag .& htons 16384 <> 0 ->
  we_mtu w = blen pkt - 14 ->
  exceeds_mtu pkt (Some w) = Some true.
Proof.
  intros (_ & Hl & _) Hp Hf Hdf Hm. unfold exceeds_mtu. rewrite Hm.
  destruct (Z.ltb_spec 0 (blen pkt - 14)); [|lia].
  destruct (Z.ltb_spec (blen pkt - 14) (blen pkt)); [|lia]. cbn [andb].
  destruct (Z.leb_spec 14 (blen pkt)); [|lia]. rewrite Hp. cbn [mbind option_bind].
  rewrite Z.eqb_refl. change (14 + 20) with 34. destruct (Z.leb_spec 34 (blen pkt)); [|lia].
  rewrite Hf. cbn [mbind option_bind]. unfold nz. by destruct (Z.eqb_spec (frag .& htons 16384) 0).
Qed.

(** ** Transport checksums *)

(** The TCP or UDP checksum of a segment of [n] words after a 20-byte header: it
    covers the pseudo header with both addresses. *)
Definition transport_verifies (pkt : list Z) (n : nat) (proto_len : Z) : Prop :=
  exists src dst ws, words16 2 pkt 26 = Some src /\ words16 2 pkt 30 = Some dst
    /\ words16 n pkt 34 = Some ws
    /\ oc_sum (sum_list src + sum_list dst + proto_len + sum_list ws) = 65535.

(** [apply_snat] leaves the transport checksum as it was although it covers the
    source address: a segment whose checksum verified does not verify any more,
    unless old and new address have the same one's complement sum. *)
Theorem snat_stale_transport pkt ip old n pl pkt' :
  plain_ipv4 pkt -> is_u32 ip -> ld32 pkt 26 = Some old -> 0 <= pl ->
  (old / 65536 + old mod 65536) mod 65535 <> (ip / 65536 + ip mod 65536) mod 65535 ->
  transport_verifies pkt n pl -> apply_snat pkt ip = Some (pkt', 0) ->
  ~ transport_verifies pkt' n pl.
Proof.
  intros Hp Hip Hold Hpl Hne (src & dst & ws & Hsrc & Hdst & Hws & Hv) E.
  pose proof Hp as (Hb & Hl & _).
  destruct (apply_snat_eval pkt ip Hp) as (old' & p1 & c & p2 & E1 & E2 & E3 & E4 & E').
  rewrite E' in E. injection E as ->. rewrite Hold in E1. injection E1 as <-.
  assert (A : agree 30 (blen pkt) pkt pkt').
  { etrans; [apply (agree_st32 _ _ _ _ _ _ E2); lia|apply (agree_st16 _ _ _ _ _ _ E4); lia]. }
  intros (src' & dst' & ws' & Hsrc' & Hdst' & Hws' & Hv').
  rewrite (words16_agree 2 _ _ _ 30 (blen pkt) A), Hdst in Hdst' by (cbn; lia).
  assert (Hwn : 34 + 2 * Z.of_nat n <= blen pkt \/ n = 0%nat) by by eapply words16_bound.
  assert (words16 n pkt' 34 = words16 n pkt 34) as Ew.
  { destruct Hwn as [Hwn | ->]; [|done]. apply (words16_agree n _ _ _ 30 (blen pkt) A); lia. }
  rewrite Ew, Hws in Hws'. injection Hdst' as <-. injection Hws' as <-.
  assert (Ssrc : sum_list src = old / 65536 + old mod 65536).
  { apply (words16_two _ _ _ _ Hb Hsrc Hold). }
  assert (Hb' : bytes_ok pkt') by (eapply st16_ok, E4; by eapply st32_ok).
  assert (Ssrc' : sum_list src' = ip / 65536 + ip mod 65536).
  { apply (words16_two pkt' 26 _ _ Hb' Hsrc'). ld_hit. done. }
  pose proof (sum_list_range _ (words16_range _ _ _ _ Hb Hdst)).
  pose proof (sum_list_range _ (words16_range _ _ _ _ Hb Hws)).
  rewrite Ssrc in Hv. rewrite Ssrc' in Hv'.
  assert (0 <= old / 65536 + old mod 65536) by (pose proof (ld32_range _ _ _ Hb Hold); cint).
  assert (0 <= ip / 65536 + ip mod 65536) by cint.
  apply oc_sum_valid in Hv as [_ Hv]; [|lia]. apply oc_sum_valid in Hv' as [_ Hv']; [|lia].
  revert Hne Hv Hv'. generalize (old / 65536 + old mod 65536) (ip / 65536 + ip mod 65536).
  clear. intros a b. lia.
Qed.

(** ** Examples *)

Lemma bytes_ok_check b : forallb (fun x => (0 <=? x) && (x <? 256)) b = true -> bytes_ok b.
Proof.
  intros H. apply Forall_forall. intros x Hx%list_elem_of_In.
  rewrite forallb_forall in H. specialize (H x Hx). bool_hyps. unfold is_u8. lia.
Qed.

Lemma sample_tcp_plain : plain_ipv4 (sample_tcp 2).
Proof.
  split; [apply bytes_ok_check; reflexivity|]. split; [by_eval|].
  exists 69. split; [reflexivity|]. by_eval.
Qed.

Lemma snat_correct_witness :
  exists pkt', apply_snat (sample_tcp 2) 167772170 = Some (pkt', 0)
    /\ ld32 pkt' 26 = Some 167772170 /\ verifies 10 pkt' 14.
Proof.
  destruct (snat_correct (sample_tcp 2) 167772170) as (pkt' & E & _ & H1 & _ & H2).
  - exact sample_tcp_plain.
  - by_eval.
  - exists pkt'. split; [exact E|]. split; [exact H1|]. apply H2; [lia|].
    eexists. split; [vm_compute; reflexivity|]. vm_compute. reflexivity.
Defined.

Lemma snat_stale_transport_witness :
  transport_verifies (sample_tcp 2) 10 (htons 6 + htons 20)
  /\ forall pkt', apply_snat (sample_tcp 2) 167772170 = Some (pkt', 0) ->
       ~ transport_verifies pkt' 10 (htons 6 + htons 20).
Proof.
  assert (T : transport_verifies (sample_tcp 2) 10 (htons 6 + htons 20)).
  { eexists _, _, _. split; [vm_compute; reflexivity|]. split; [vm_compute; reflexivity|].
    split; [vm_compute; reflexivity|]. vm_compute. reflexivity. }
  split; [exact T|]. intros pkt' E.
  apply (snat_stale_transport (sample_tcp 2) 167772170 16885952 10 (htons 6 + htons 20) pkt').
  - exact sample_tcp_plain.
  - by_eval.
  - reflexivity.
  - by_eval.
  - vm_compute. discriminate.
  - exact T.
  - exact E.
Defined.

Lemma echo_reply_correct_witness :
  exists pkt', send_icmp_echo_reply sample_echo = Some (pkt', XDP_TX)
    /\ ld32 pkt' 26 = ld32 sample_echo 30 /\ verifies 6 pkt' 34.
Proof.
  destruct (echo_reply_correct sample_echo 14 34)
    as (pkt' & E & _ & _ & _ & Hs & _ & _ & _ & _ & _ & H).
  - split.
    + apply bytes_ok_check. reflexivity.
    + vm_compute. reflexivity.
    + exists 69. split; [reflexivity|]. by_eval.
    + by_eval.
    + reflexivity.
  - exists pkt'. split; [exact E|]. split; [exact Hs|].
    eapply (H 6%nat _ 2%nat); [vm_compute; reflexivity|vm_compute; reflexivity|lia|reflexivity|lia].
Defined.

(** A tail helper that truncates, or pads with zeros. *)
Definition sample_tail_env : xdp_env :=
  XdpEnv 0 (fun _ => true)
    (fun pkt delta =>
       if blen pkt + delta <? 14 then None
       else Some (take (Z.to_nat (blen pkt + delta)) pkt
                  ++ replicate (Z.to_nat (blen pkt + delta) - length pkt) 0))
    (fun _ _ => None).

Lemma sample_tail_env_ok : adjust_tail_ok sample_tail_env.
Proof.
  intros pkt delta p Hb. cbn. destruct (Z.ltb_spec (blen pkt + delta) 14); [done|].
  intros [= <-]. split.
  - rewrite length_app, length_take, length_replicate. lia.
  - apply Forall_app. split; [by apply Forall_take|]. apply Forall_replicate. by_eval.
Qed.

(** A full-size segment: an IP packet of 1500 bytes. *)
Definition sample_full : list Z := sample_tcp 16 ++ replicate 1460 0.

Lemma too_big_correct_witness :
  exists pkt', send_icmp_too_big sample_tail_env sample_full (blen sample_full) 1492
                 = Some (pkt', XDP_TX) /\ verifies 10 pkt' 14 /\ verifies 18 pkt' 34.
Proof.
  destruct (too_big_correct sample_tail_env sample_full 1492 (take 70 sample_full))
    as (pkt' & cm & rm & orig & cip & rip & E & _ & _ & _ & _ & _ & _ & M).
  - exact sample_tail_env_ok.
  - apply bytes_ok_check. vm_compute. reflexivity.
  - by_eval.
  - by_eval.
  - vm_compute. reflexivity.
  - exists pkt'. split; [exact E|]. split; [apply M|apply M].
Defined.

Lemma mtu_test_counts_ethernet_witness :
  blen sample_full - 14 = 1500
  /\ exceeds_mtu sample_full (Some (BpfWanEntry 1 2 167772161 0 100 1 101 257 0 1500)) = Some true.
Proof.
  split; [vm_compute; reflexivity|]. apply (mtu_test_counts_ethernet _ _ 64).
  - split; [apply bytes_ok_check; vm_compute; reflexivity|]. split; [by_eval|].
    exists 69. split; [reflexivity|]. by_eval.
  - reflexivity.
  - reflexivity.
  - by_eval.
  - vm_compute. reflexivity.
Defined.
