(* ===== verification/RouterSessions.v ===== *)
(** * Sessions of the XDP router: selection, affinity, failover

    Theorems on the WAN selection of [XdpRouter] against the interface of the
    session maps ([BpfHash] and its laws): a step relation for packets and for
    control-plane writes, the invariant of the two session tiers, and what it
    implies. *)

From S2P Require Import Prelude Fluxwan Samples Bpf XdpRouter.

Section sessions.
Context {L G : Type}.
Context `{HL : BpfHash flow_5tuple bpf_session_val L} `{HG : BpfHash flow_5tuple bpf_session_val G}.
Context `{!BpfHashLaws flow_5tuple bpf_session_val L} `{!BpfHashLaws flow_5tuple bpf_session_val G}.

Abbreviation maps := (router_maps L G).
Implicit Types m : router_maps L G.

(** ** Usable WANs *)

(** A WAN an established session may keep using. *)
Definition usable (e : bpf_wan_entry) : bool :=
  nz (we_is_active e) && ((0 <? we_weight e) || nz (we_is_draining e)).

Definition closing (key : flow_5tuple) : bool :=
  nz (f_pkt_flags key .& (PKT_FLAG_RST .| PKT_FLAG_FIN)).

(** ** The session tiers *)

Definition lookup_session (m : maps) (k : flow_5tuple) : option bpf_session_val :=
  match h_lookup (local_lru_map m) k with
  | Some v => Some v
  | None => h_lookup (sticky_flow_map m) k
  end.

(** Everything but the session tiers, the counters and the events. *)
Definition same_tables (m m' : maps) : Prop :=
  wan_table_map m' = wan_table_map m /\ maglev_lut_map m' = maglev_lut_map m
  /\ policy_route_map m' = policy_route_map m /\ maglev_group_map m' = maglev_group_map m
  /\ lpm_subnet_map m' = lpm_subnet_map m /\ ctrl_map m' = ctrl_map m.

#[local] Instance same_tables_preorder : PreOrder same_tables.
Proof.
  split; [by intros m|]. intros m1 m2 m3 (?&?&?&?&?&?) (?&?&?&?&?&?). repeat split; congruence.
Qed.

Definition same_sessions (m m' : maps) : Prop :=
  local_lru_map m' = local_lru_map m /\ sticky_flow_map m' = sticky_flow_map m.

#[local] Instance same_sessions_preorder : PreOrder same_sessions.
Proof. split; [by intros m|]. intros m1 m2 m3 (?&?) (?&?). split; congruence. Qed.

Lemma same_tables_wan m m' i : same_tables m m' -> wan_lookup m' i = wan_lookup m i.
Proof. intros [H _]. unfold wan_lookup. by rewrite H. Qed.

Lemma first_healthy_tables n i m m' :
  same_tables m m' -> first_healthy n i m' = first_healthy n i m.
Proof.
  intros Ht. revert i. induction n as [|n IH]; intros i; cbn; [done|].
  rewrite (same_tables_wan m m') by done. by rewrite !IH.
Qed.

Lemma first_healthy_Some n i m fi fe :
  first_healthy n i m = Some (fi, fe) ->
  wan_lookup m fi = Some fe /\ eligible fe = true /\ i <= fi < i + Z.of_nat n.
Proof.
  revert i. induction n as [|n IH]; intros i; cbn; [done|].
  destruct (wan_lookup m i) as [e|] eqn:Ew; [destruct (eligible e) eqn:Ee|].
  - intros [= <- <-]. split_and!; (done || lia).
  - intros (?&?&?)%IH. split_and!; (done || lia).
  - intros (?&?&?)%IH. split_and!; (done || lia).
Qed.

Lemma first_healthy_finds n i m j e :
  i <= j < i + Z.of_nat n -> wan_lookup m j = Some e -> eligible e = true ->
  is_Some (first_healthy n i m).
Proof.
  intros Hj Hw He. revert i Hj. induction n as [|n IH]; intros i Hj; cbn; [lia|].
  destruct (decide (j = i)) as [->|Hne]; [rewrite Hw, He; eauto|].
  destruct (wan_lookup m i) as [e'|]; [destruct (eligible e'); [eauto|]|]; apply IH; lia.
Qed.

Lemma eligible_inv e :
  eligible e = negb (negb (nz (we_is_active e)) || (we_weight e <=? 0) || nz (we_is_draining e)).
Proof.
  unfold eligible. rewrite Z.leb_antisym. rewrite !negb_orb, !negb_involutive. done.
Qed.

Lemma eligible_usable e : eligible e = true -> usable e = true.
Proof.
  unfold eligible, usable. rewrite !andb_true_iff. intros [[Ha Hw] _]. by rewrite Ha, Hw.
Qed.

(** Weights are unsigned. *)
Definition weights_ok (m : maps) : Prop :=
  forall i e, wan_lookup m i = Some e -> 0 <= we_weight e.

(** ** Effects of the steps *)

Lemma emit_tables env m key i ip h evt : same_tables m (emit env m key i ip h evt).
Proof. done. Qed.
Lemma emit_sessions env m key i ip h evt : same_sessions m (emit env m key i ip h evt).
Proof. done. Qed.

Lemma first_choice_spec m key h m' t :
  first_choice m key h = (m', t) -> same_tables m m' /\ same_sessions m m'.
Proof.
  unfold first_choice. destruct (lpm_subnet_map m (f_dst_ip key)) as [w|];
    [destruct (w <? MAX_EBPF_WANS)|]; intros [= <- <-]; done.
Qed.

Lemma health_check_spec env m key h t m' t' :
  health_check env m key h t = (m', t') ->
  same_tables m m' /\ same_sessions m m'
  /\ (t' = t \/ 0 <= t' < MAX_EBPF_WANS)
  /\ (weights_ok m -> forall i e, wan_lookup m i = Some e -> eligible e = true ->
      exists e', wan_lookup m' t' = Some e' /\ eligible e' = true).
Proof.
  unfold health_check. intros E.
  assert (Hf : (match first_healthy 256 0 m with
    | Some (fi, fe) => (emit env (with_gstats m (stats_inc_failover (global_stats_map m))) key fi
                          (we_ip_addr fe) h EVT_FAILOVER, fi)
    | None => (m, t) end) = (m', t') ->
    same_tables m m' /\ same_sessions m m' /\ (t' = t \/ 0 <= t' < MAX_EBPF_WANS)
    /\ (weights_ok m -> forall i e, wan_lookup m i = Some e -> eligible e = true ->
      exists e', wan_lookup m' t' = Some e' /\ eligible e' = true)).
  { destruct (first_healthy 256 0 m) as [[fi fe]|] eqn:Ef; intros [= <- <-].
    - apply first_healthy_Some in Ef as (Hw & He & Hr). split_and!; [done..|right; apply Hr|].
      intros _ _ _ _ _. exists fe. done.
    - split_and!; [done|done|by left|]. intros _ i e Hw He.
      pose proof (array_lookup_inv _ _ _ _ _ Hw) as [Hi _].
      destruct (first_healthy_finds 256 0 m i e) as [? Hs]; [exact Hi|done|done|congruence]. }
  destruct (wan_lookup m t) as [we|] eqn:Ew; [|by apply Hf].
  destruct (negb (nz (we_is_active we)) || (we_weight we =? 0) || nz (we_is_draining we)) eqn:Eb;
    [by apply Hf|]. injection E as <- <-. split_and!; [done..|by left|].
  intros Hwt i e Hw He. exists we. split; [done|]. rewrite eligible_inv.
  specialize (Hwt _ _ Ew). destruct (Z.leb_spec (we_weight we) 0), (Z.eqb_spec (we_weight we) 0);
    try lia; (by rewrite Eb || (bool_hyps; congruence)).
Qed.

Definition evicted (m m' : maps) (key : flow_5tuple) : Prop :=
  local_lru_map m' = h_delete (local_lru_map m) key
  /\ sticky_flow_map m' = h_delete (sticky_flow_map m) key.

Lemma use_session_spec env m key h s m' r :
  use_session env m key h s = (m', r) ->
  same_tables m m' /\
  match r with
  | Some i => exists v e, s = Some v /\ i = sv_wan_idx v /\ wan_lookup m i = Some e
                /\ usable e = true /\ closing key = false /\ same_sessions m m'
  | None => (evicted m m' key \/ same_sessions m m') /\ (s = None -> same_sessions m m')
            /\ forall v e, s = Some v -> wan_lookup m (sv_wan_idx v) = Some e ->
                          usable e = true -> closing key = true
  end.
Proof.
  unfold use_session. destruct s as [v|].
  2: { intros [= <- <-]. split; [done|]. split_and!; [by right|done|done]. }
  destruct (Z.ltb_spec (sv_wan_idx v) MAX_EBPF_WANS) as [Hi|Hi].
  2: { intros [= <- <-]. split; [done|]. split_and!; [by right|done|].
       intros ? e [= <-] [Hr _]%array_lookup_inv. lia. }
  destruct (wan_lookup m (sv_wan_idx v)) as [ce|] eqn:Ew.
  2: { intros [= <- <-]. split; [done|]. split_and!; [by left|done|]. intros ? e [= <-] ?. congruence. }
  fold (usable ce). destruct (usable ce) eqn:Eu.
  2: { intros [= <- <-]. split; [done|]. split_and!; [by left|done|].
       intros ? e [= <-] ? ?. congruence. }
  fold (closing key). destruct (closing key) eqn:Ec; intros [= <- <-]; (split; [done|]).
  - split_and!; [by left|done|done].
  - by exists v, ce.
Qed.

Lemma session_lookup_spec m key m' s :
  session_lookup m key = (m', s) ->
  same_tables m m'
  /\ s = (if is_dns_or_ntp key then None else lookup_session m key)
  /\ (forall k, h_lookup (sticky_flow_map m') k = h_lookup (sticky_flow_map m) k)
  /\ (forall k v, h_lookup (local_lru_map m') k = Some v ->
        h_lookup (local_lru_map m) k = Some v
        \/ k = key /\ h_lookup (sticky_flow_map m) k = Some v)
  /\ (forall v, s = Some v -> h_lookup (local_lru_map m') key = Some v).
Proof.
  unfold session_lookup, lookup_session. destruct (is_dns_or_ntp key).
  { intros [= <- <-]. split_and!; auto; done. }
  destruct (h_lookup (local_lru_map m) key) as [v|] eqn:El.
  { intros [= <- <-]. split_and!; try done.
    - intros k w. cbn. rewrite h_lookup_touch. auto.
    - intros w [= <-]. cbn. by rewrite h_lookup_touch. }
  cbn. destruct (h_lookup (sticky_flow_map m) key) as [v|] eqn:Eg.
  - intros [= <- <-]. split_and!; try done; cbn.
    + intros k. by rewrite h_lookup_touch.
    + intros k w Hk. destruct (decide (k = key)) as [->|Hne].
      * rewrite h_lookup_update_same in Hk. injection Hk as <-. auto.
      * apply h_lookup_update_inv in Hk; [|done]. rewrite h_lookup_touch in Hk. auto.
    + intros w [= <-]. by rewrite h_lookup_update_same.
  - intros [= <- <-]. split_and!; try done; cbn.
    + intros k. by rewrite h_lookup_touch.
    + intros k w. rewrite h_lookup_touch. auto.
Qed.

Definition new_session (key : flow_5tuple) (target : Z) : bpf_session_val :=
  BpfSessionVal target (u32 (target + 1)) (f_src_ip key) 0.

Lemma record_session_spec env m key h t :
  same_tables m (record_session env m key h t)
  /\ (if negb (is_dns_or_ntp key) && negb (closing key)
      then local_lru_map (record_session env m key h t)
           = h_update (local_lru_map m) key (new_session key t)
           /\ sticky_flow_map (record_session env m key h t)
              = h_update (sticky_flow_map m) key (new_session key t)
      else same_sessions m (record_session env m key h t)).
Proof.
  unfold record_session. fold (closing key).
  destruct (negb (is_dns_or_ntp key) && negb (closing key)); done.
Qed.

(** What a dispatch does to the tables and the session tiers. *)
Lemma dispatch_spec env m key h m' t :
  dispatch env m key h = (m', t) ->
  same_tables m m'
  /\ (weights_ok m -> forall i e, wan_lookup m i = Some e -> eligible e = true ->
      exists e', wan_lookup m' t = Some e' /\ eligible e' = true)
  /\ (if negb (is_dns_or_ntp key) && negb (closing key)
      then local_lru_map m' = h_update (local_lru_map m) key (new_session key t)
           /\ sticky_flow_map m' = h_update (sticky_flow_map m) key (new_session key t)
      else same_sessions m m').
Proof.
  unfold dispatch. destruct (first_choice m key h) as [m1 t1] eqn:E1.
  destruct (health_check env m1 key h t1) as [m2 t2] eqn:E2. intros [= <- <-].
  apply first_choice_spec in E1 as [Ht1 Hs1].
  apply health_check_spec in E2 as (Ht2 & Hs2 & _ & Hel).
  destruct (record_session_spec env m2 key h t2) as [Ht3 Hs3].
  assert (Ht : same_tables m (record_session env m2 key h t2)) by (etrans; [|done]; by etrans).
  assert (Hs12 : same_sessions m m2) by by etrans. split_and!; [done| |].
  - intros Hw i e Hi He. destruct (Hel) with (i := i) (e := e) as (e' & He' & Hel'); [| | |].
    + intros j f. rewrite (same_tables_wan m m1) by done. apply Hw.
    + by rewrite (same_tables_wan m m1).
    + done.
    + exists e'. rewrite (same_tables_wan m2 _) by done. done.
  - destruct Hs12 as [Hl Hg].
    destruct (negb (is_dns_or_ntp key) && negb (closing key)); [|by etrans; [split|]].
    by rewrite <- Hl, <- Hg.
Qed.

(** ** The invariant of the session tiers *)

(** A stored session: of a key the program stores sessions for, and well formed. *)
Definition session_ok (k : flow_5tuple) (v : bpf_session_val) : Prop :=
  is_dns_or_ntp k = false /\ closing k = false /\ sv_wan_id v = u32 (sv_wan_idx v + 1)
  /\ sv_orig_src_ip v = f_src_ip k.

Record router_inv (m : maps) : Prop := {
  inv_local : forall k v, h_lookup (local_lru_map m) k = Some v -> session_ok k v;
  inv_sticky : forall k v, h_lookup (sticky_flow_map m) k = Some v -> session_ok k v;
  inv_coherent : forall k v w, h_lookup (local_lru_map m) k = Some v ->
                 h_lookup (sticky_flow_map m) k = Some w -> v = w
}.

Lemma router_inv_same m m' : same_sessions m m' -> router_inv m -> router_inv m'.
Proof. intros [Hl Hg] []. split; rewrite ?Hl, ?Hg; auto. Qed.

Lemma router_inv_lookup m key m' s :
  session_lookup m key = (m', s) -> router_inv m -> router_inv m'.
Proof.
  intros (_ & _ & Hg & Hl & _)%session_lookup_spec [I1 I2 I3]. split.
  - intros k v [H|[-> H]]%Hl; auto.
  - intros k v. rewrite Hg. apply I2.
  - intros k v w Hk. rewrite Hg. intros Hw. destruct (Hl _ _ Hk) as [H|[-> H]]; [eauto|congruence].
Qed.

Lemma router_inv_evicted m m' key : evicted m m' key -> router_inv m -> router_inv m'.
Proof.
  intros [Hl Hg] [I1 I2 I3].
  assert (D1 : forall k v, h_lookup (local_lru_map m') k = Some v ->
    h_lookup (local_lru_map m) k = Some v).
  { intros k v. rewrite Hl. destruct (decide (k = key)) as [->|].
    - by rewrite h_lookup_delete_same.
    - by rewrite h_lookup_delete_other. }
  assert (D2 : forall k v, h_lookup (sticky_flow_map m') k = Some v ->
    h_lookup (sticky_flow_map m) k = Some v).
  { intros k v. rewrite Hg. destruct (decide (k = key)) as [->|].
    - by rewrite h_lookup_delete_same.
    - by rewrite h_lookup_delete_other. }
  split; eauto.
Qed.

Lemma router_inv_dispatch env m key h m' t :
  dispatch env m key h = (m', t) -> router_inv m -> router_inv m'.
Proof.
  intros (_ & _ & Hs)%dispatch_spec I.
  destruct (negb (is_dns_or_ntp key) && negb (closing key)) eqn:E; [|by eapply router_inv_same].
  bool_hyps. assert (Hok : session_ok key (new_session key t)) by done.
  destruct Hs as [Hl Hg], I as [I1 I2 I3]. split; rewrite ?Hl, ?Hg.
  - intros k v. destruct (decide (k = key)) as [->|Hne].
    + rewrite h_lookup_update_same. by intros [= <-].
    + intros Hk. apply h_lookup_update_inv in Hk; auto.
  - intros k v. destruct (decide (k = key)) as [->|Hne].
    + rewrite h_lookup_update_same. by intros [= <-].
    + intros Hk. apply h_lookup_update_inv in Hk; auto.
  - intros k v w. destruct (decide (k = key)) as [->|Hne].
    + rewrite !h_lookup_update_same. congruence.
    + intros Hk Hw. apply h_lookup_update_inv in Hk, Hw; eauto.
Qed.

Lemma select_wan_inv env m key m' t :
  select_wan env m key = (m', t) -> router_inv m -> router_inv m'.
Proof.
  unfold select_wan. destruct (session_lookup m key) as [m1 s] eqn:E1.
  destruct (use_session env m1 key (hash_5tuple key) s) as [m2 r] eqn:E2.
  intros E I. assert (I1 : router_inv m1) by by eapply router_inv_lookup.
  apply use_session_spec in E2 as [_ E2]. destruct r as [i|].
  - injection E as <- <-. destruct E2 as (? & ? & _ & _ & _ & _ & _ & Hs).
    by eapply router_inv_same.
  - eapply router_inv_dispatch; [done|].
    destruct E2 as [[?|?] _]; [by eapply router_inv_evicted|by eapply router_inv_same].
Qed.

(** The tables never change under a selection. *)
Lemma select_wan_tables env m key m' t : select_wan env m key = (m', t) -> same_tables m m'.
Proof.
  unfold select_wan. destruct (session_lookup m key) as [m1 s] eqn:E1.
  destruct (use_session env m1 key (hash_5tuple key) s) as [m2 r] eqn:E2. intros E.
  apply session_lookup_spec in E1 as [H1 _]. apply use_session_spec in E2 as [H2 _].
  destruct r as [i|]; [injection E as <- <-; by etrans|].
  apply dispatch_spec in E as [H3 _]. by do 2 (etrans; [done|]).
Qed.

(** ** Steps of the system *)

Definition evictions (m : maps) : Z := gs_total_session_evictions (global_stats_map m).

(** A packet, or a write of the control plane to anything but the session tiers. *)
Inductive rstep : maps -> maps -> Prop :=
  | rs_packet env m pkt m' pkt' act :
      xdp_router_func env m pkt = Some (m', pkt', act) -> rstep m m'
  | rs_control m m' : same_sessions m m' -> rstep m m'.

(** What a packet does to the session tiers: those of a selection, or nothing. *)
Lemma xdp_router_sessions env m pkt m' pkt' act :
  xdp_router_func env m pkt = Some (m', pkt', act) ->
  same_sessions m m' /\ evictions m' = evictions m \/
  exists key m1 m2 t, parse_flow pkt = Some (Some key) /\ same_sessions m m1 /\ same_tables m m1
    /\ evictions m1 = evictions m
    /\ select_wan env m1 key = (m2, t) /\ same_sessions m2 m' /\ evictions m' = evictions m2.
Proof.
  unfold xdp_router_func. destruct (parse_flow pkt) as [[key|]|]; cbn; [|intros [= <- _ _]; by left|done].
  destruct ((f_proto key =? IPPROTO_ICMP) && _ && _).
  { destruct (send_icmp_echo_reply pkt) as [r|]; cbn; [|done]. intros [= <- _ _]. by left. }
  match goal with |- context [select_wan env ?m1 key] => set (m0 := m1) end.
  destruct (select_wan env m0 key) as [m2 t] eqn:Es. intros E. right.
  exists key, m0, m2, t. do 5 (split; [done|]).
  destruct (exceeds_mtu pkt (wan_lookup m2 t)) as [[|]|]; cbn in E; [| |done].
  { destruct (send_icmp_too_big _ _ _ _) as [r|]; cbn in E; [|done]. by injection E as <- _ _. }
  unfold snat_step in E.
  destruct (nz _); [destruct (snat_wan _) as [w|]; [destruct (is_lan _);
    [destruct (apply_snat _ _) as [r|]|]|]|]; cbn in E; try done;
    injection E as <- _ _; unfold count_wan; destruct (array_lookup _ _ _ _); done.
Qed.

Lemma rstep_inv m m' : rstep m m' -> router_inv m -> router_inv m'.
Proof.
  intros [env m0 pkt m1 pkt' act E|m0 m1 Hs] I; [|by eapply router_inv_same].
  apply xdp_router_sessions in E as [[Hs _]|(key & m2 & m3 & t & _ & Hs & _ & _ & E & Hs' & _)].
  - by eapply router_inv_same.
  - eapply router_inv_same; [done|]. eapply select_wan_inv; [done|]. by eapply router_inv_same.
Qed.

(** A state with no session, and the states it reaches. *)
Definition no_sessions (m : maps) : Prop :=
  (forall k, h_lookup (local_lru_map m) k = None)
  /\ (forall k, h_lookup (sticky_flow_map m) k = None).

Definition reachable (m : maps) : Prop := exists m0, no_sessions m0 /\ rtc rstep m0 m.

Lemma reachable_inv m : reachable m -> router_inv m.
Proof.
  intros (m0 & [H1 H2] & Hr). assert (I : router_inv m0).
  { split; intros k; rewrite ?H1, ?H2; done. }
  clear H1 H2. induction Hr as [|x y z Hs _ IH]; [done|]. by apply IH, (rstep_inv x).
Qed.

(** A selection follows the stored session, or dispatches. *)
Lemma select_wan_cases env m key m' t :
  select_wan env m key = (m', t) ->
  (exists v e, is_dns_or_ntp key = false /\ closing key = false
     /\ lookup_session m key = Some v /\ t = sv_wan_idx v /\ wan_lookup m t = Some e
     /\ usable e = true /\ same_tables m m' /\ h_lookup (local_lru_map m') key = Some v)
  \/ (exists m2, dispatch env m2 key (hash_5tuple key) = (m', t) /\ same_tables m m2
     /\ forall v e, is_dns_or_ntp key = false -> lookup_session m key = Some v ->
          wan_lookup m (sv_wan_idx v) = Some e -> usable e = true -> closing key = true).
Proof.
  unfold select_wan. destruct (session_lookup m key) as [m1 s] eqn:E1.
  destruct (use_session env m1 key (hash_5tuple key) s) as [m2 r] eqn:E2. intros E.
  apply session_lookup_spec in E1 as (Ht1 & Hs & _ & _ & Hl).
  apply use_session_spec in E2 as [Ht2 E2]. destruct r as [j|].
  - left. injection E as <- <-. destruct E2 as (v & e & -> & -> & He & Hu & Hc & [Hloc _]).
    exists v, e. destruct (is_dns_or_ntp key); [done|]. split_and!; try done.
    + by rewrite <- (same_tables_wan m m1).
    + by etrans.
    + rewrite Hloc. by apply Hl.
  - right. exists m2. split_and!; [done|by etrans|]. destruct E2 as (_ & _ & Hno).
    intros v e Hd Hv Hw. apply (Hno v); [by rewrite Hs, Hd|]. by rewrite (same_tables_wan m m1).
Qed.

Lemma select_usable env m key m' t i e :
  weights_ok m -> wan_lookup m i = Some e -> eligible e = true ->
  select_wan env m key = (m', t) ->
  exists e', wan_lookup m' t = Some e' /\
    (eligible e' = true
     \/ usable e' = true /\ exists v, lookup_session m key = Some v /\ sv_wan_idx v = t).
Proof.
  intros Hw Hi He [(v & e' & _ & _ & Hv & -> & He' & Hu & Ht & _)|(m2 & E & Ht & _)]%select_wan_cases.
  - exists e'. rewrite (same_tables_wan m m') by done. split; [done|]. right. eauto.
  - apply dispatch_spec in E as (_ & Hd & _).
    destruct (Hd) with (i := i) (e := e) as (e' & ? & ?); eauto.
    + intros k f. rewrite (same_tables_wan m m2) by done. apply Hw.
    + by rewrite (same_tables_wan m m2).
Qed.

(** ** Theorems *)

(** C2.  No packet is sent to a dead uplink while one works: if some WAN is active, of
    positive weight and not draining, the WAN chosen for any packet is such a WAN
    too, unless the packet follows its stored session, whose WAN is active and of
    positive weight or draining. *)
Theorem selects_usable_wan env m key m' t i e :
  weights_ok m -> wan_lookup m i = Some e -> eligible e = true ->
  select_wan env m key = (m', t) ->
  exists e', wan_lookup m' t = Some e' /\
    (eligible e' = true
     \/ usable e' = true /\ exists v, lookup_session m key = Some v /\ sv_wan_idx v = t).
Proof. apply select_usable. Qed.

(** The program follows a stored session whose WAN is still usable, whatever the
    rings, the policies and the prefix table hold by then. *)
Lemma follows_session env m key m' t v e :
  is_dns_or_ntp key = false -> closing key = false -> lookup_session m key = Some v ->
  wan_lookup m (sv_wan_idx v) = Some e -> usable e = true ->
  select_wan env m key = (m', t) ->
  t = sv_wan_idx v /\ h_lookup (local_lru_map m') key = Some v.
Proof.
  intros Hd Hc Hv Hw Hu [(v' & e' & _ & _ & Hv' & -> & _ & _ & _ & Hl)|(m2 & _ & _ & Hno)]%select_wan_cases.
  - rewrite Hv in Hv'. injection Hv' as <-. auto.
  - rewrite (Hno v e) in Hc; done.
Qed.

(** After a packet of a key that sessions are kept for, the local tier holds a
    session of the WAN it was sent to. *)
Lemma select_wan_records env m key m' t :
  is_dns_or_ntp key = false -> closing key = false -> select_wan env m key = (m', t) ->
  exists v, h_lookup (local_lru_map m') key = Some v /\ sv_wan_idx v = t.
Proof.
  intros Hd Hc [(v & e & _ & _ & _ & -> & _ & _ & _ & Hl)|(m2 & E & _)]%select_wan_cases; [eauto|].
  apply dispatch_spec in E as (_ & _ & Hs). rewrite Hd, Hc in Hs. destruct Hs as [-> _].
  rewrite h_lookup_update_same. eauto.
Qed.

(** C4.  A packet with the key of an earlier one goes to the same WAN.  The key is the five-tuple with the packet flags (and
    the QUIC token), so that of a TCP connection only packets with equal SYN, RST and FIN bits share it; the packets are
    not DNS or NTP and have no RST or FIN.  In between the maps may be rewritten, by other packets too, as long as the
    router still finds for the key the session it found after the first packet (the bounded session maps do not evict it) and the WAN of
    the first packet is still usable. *)
Theorem flow_affinity env env' m key m1 t m2 m3 t' e :
  is_dns_or_ntp key = false -> closing key = false ->
  select_wan env m key = (m1, t) -> lookup_session m2 key = lookup_session m1 key ->
  wan_lookup m2 t = Some e -> usable e = true ->
  select_wan env' m2 key = (m3, t') -> t' = t.
Proof.
  intros Hd Hc E1 Hl Hw Hu E2.
  destruct (select_wan_records _ _ _ _ _ Hd Hc E1) as (v & Hv & <-).
  eapply follows_session in E2 as [-> _]; [done|done|done| |done|done].
  rewrite Hl. unfold lookup_session. by rewrite Hv.
Qed.

(** C7.  Failover.  When the WAN of a stored session is not usable any more and another
    WAN is eligible, the very next packet of the flow goes to an eligible WAN, and
    both tiers hold the new session. *)
Theorem failover_rebinds env m key m' t v e0 i e :
  weights_ok m -> is_dns_or_ntp key = false -> closing key = false ->
  lookup_session m key = Some v -> wan_lookup m (sv_wan_idx v) = Some e0 -> usable e0 = false ->
  wan_lookup m i = Some e -> eligible e = true ->
  select_wan env m key = (m', t) ->
  (exists e', wan_lookup m' t = Some e' /\ eligible e' = true)
  /\ t <> sv_wan_idx v
  /\ h_lookup (local_lru_map m') key = Some (new_session key t)
  /\ h_lookup (sticky_flow_map m') key = Some (new_session key t).
Proof.
  intros Hwt Hd Hc Hv Hw0 Hu Hi He E.
  destruct (select_usable env m key m' t i e) as (e' & He' & Hor); [done..|].
  apply select_wan_cases in E as [(v' & e2 & _ & _ & Hv' & -> & Hw' & Hu' & _)|(m2 & E & Ht2 & _)].
  { rewrite Hv in Hv'. injection Hv' as <-. congruence. }
  apply dispatch_spec in E as (Ht3 & _ & Hs). rewrite Hd, Hc in Hs. destruct Hs as [-> ->].
  rewrite !h_lookup_update_same.
  assert (Hne : t <> sv_wan_idx v).
  { intros ->. rewrite (same_tables_wan m2 m'), (same_tables_wan m m2), Hw0 in He' by done.
    injection He' as <-. destruct Hor as [Hel|[Hus _]]; [apply eligible_usable in Hel|]; congruence. }
  split_and!; try done. exists e'. split; [done|].
  destruct Hor as [|(_ & v' & Hv' & Hid)]; [done|]. rewrite Hv in Hv'. congruence.
Qed.

(** ** Closing packets *)

Lemma dispatch_evictions env m key h m' t :
  dispatch env m key h = (m', t) -> evictions m' = evictions m.
Proof.
  unfold dispatch, first_choice, health_check, record_session.
  destruct (lpm_subnet_map m (f_dst_ip key)) as [w|]; [destruct (w <? MAX_EBPF_WANS)|];
    (destruct (wan_lookup _ _) as [we|]; [destruct (_ || _ || _)|]);
    try destruct (first_healthy _ _ _) as [[? ?]|]; destruct (_ && _); by intros [= <- _].
Qed.

(** In a reachable state no session is stored under the key of a RST or FIN
    packet: the flags are part of the key, and no session is recorded for it. *)
Lemma select_wan_closing env m key m' t :
  router_inv m -> closing key = true -> select_wan env m key = (m', t) ->
  evictions m' = evictions m
  /\ (forall k, h_lookup (local_lru_map m') k = h_lookup (local_lru_map m) k)
  /\ (forall k, h_lookup (sticky_flow_map m') k = h_lookup (sticky_flow_map m) k).
Proof.
  intros [I1 I2 _] Hc. unfold select_wan, session_lookup.
  assert (Nl : h_lookup (local_lru_map m) key = None).
  { destruct (h_lookup (local_lru_map m) key) as [v|] eqn:E; [|done].
    apply I1 in E as (_ & ? & _). congruence. }
  assert (Ng : h_lookup (sticky_flow_map m) key = None).
  { destruct (h_lookup (sticky_flow_map m) key) as [v|] eqn:E; [|done].
    apply I2 in E as (_ & ? & _). congruence. }
  destruct (is_dns_or_ntp key) eqn:Hd; cbn; rewrite ?Nl, ?Ng; cbn; intros E;
    pose proof (dispatch_evictions _ _ _ _ _ _ E) as Hev;
    apply dispatch_spec in E as (_ & _ & Hs); rewrite Hc, andb_false_r in Hs;
    destruct Hs as [-> ->]; split_and!; try done; intros k; cbn; by rewrite ?h_lookup_touch.
Qed.

(** A RST or FIN never closes a session.  The packet flags are part of the session
    key and no session is recorded under a key that carries RST or FIN, so the
    lookup of such a packet always misses: in any reachable state it removes no
    session and counts no eviction. *)
Theorem rst_fin_never_evicts env m pkt key m' pkt' act :
  reachable m -> parse_flow pkt = Some (Some key) -> closing key = true ->
  xdp_router_func env m pkt = Some (m', pkt', act) ->
  evictions m' = evictions m
  /\ (forall k, h_lookup (local_lru_map m') k = h_lookup (local_lru_map m) k)
  /\ (forall k, h_lookup (sticky_flow_map m') k = h_lookup (sticky_flow_map m) k).
Proof.
  intros I%reachable_inv Hp Hc E.
  apply xdp_router_sessions in E
    as [[[-> ->] ?]|(key' & m1 & m2 & t & Hp' & Hs & Ht & <- & E & Hs' & ->)]; [done|].
  rewrite Hp in Hp'. injection Hp' as <-. destruct Hs as [Hl Hg], Hs' as [-> ->].
  rewrite <- Hl, <- Hg. by eapply select_wan_closing; [apply (router_inv_same m)| |].
Qed.

(** The session tiers agree, in every reachable state: a session found in both is
    the same; every stored session names a WAN and its id, remembers the source
    address of its key, and belongs to a key that is neither DNS or NTP traffic nor
    a closing packet. *)
Theorem session_tiers_invariant m :
  reachable m ->
  (forall k v, lookup_session m k = Some v -> session_ok k v)
  /\ (forall k v w, h_lookup (local_lru_map m) k = Some v ->
        h_lookup (sticky_flow_map m) k = Some w -> v = w).
Proof.
  intros [I1 I2 I3]%reachable_inv. split; [|done]. intros k v. unfold lookup_session.
  destruct (h_lookup (local_lru_map m) k) eqn:E; [intros [= <-]|]; auto.
Qed.
End sessions.

(** ** Examples *)

Definition sample_entry (ip weight active draining : Z) : bpf_wan_entry :=
  BpfWanEntry 1 2 ip 0 weight active 101 257 draining 1500.

Definition sample_env : xdp_env :=
  XdpEnv 0 (fun _ => true) (fun _ _ => None) (fun _ _ => None).

Abbreviation session_lru := (lru flow_5tuple bpf_session_val).

(** WAN 0 is down, WAN 1 works. *)
Definition sample_maps (l : list (flow_5tuple * bpf_session_val)) : router_maps session_lru session_lru :=
  RouterMaps ∅ {[0 := sample_entry 1 100 0 0; 1 := sample_entry 2 50 1 0]} (Lru 64 l) (Lru 64 l) ∅ ∅ ∅
    (fun _ => None) (RouterCtrl 0 2 1 1 0 0) zero_global_stats [].

Definition sample_key : flow_5tuple := Flow5 16885952 134744072 4660 47873 6 0 0.

Lemma sample_weights_ok l : weights_ok (sample_maps l).
Proof.
  intros i e [_ ->]%array_lookup_inv. cbn.
  destruct (decide (i = 0)) as [->|]; [by_eval|]. destruct (decide (i = 1)) as [->|]; [by_eval|].
  rewrite lookup_insert_ne, lookup_singleton_ne by done. by_eval.
Qed.

Lemma selects_usable_wan_witness :
  exists e', wan_lookup (select_wan sample_env (sample_maps []) sample_key).1
               (select_wan sample_env (sample_maps []) sample_key).2 = Some e'
    /\ (eligible e' = true \/ usable e' = true /\ exists v,
          lookup_session (sample_maps []) sample_key = Some v
          /\ sv_wan_idx v = (select_wan sample_env (sample_maps []) sample_key).2).
Proof.
  apply (selects_usable_wan sample_env (sample_maps []) sample_key _ _ 1 (sample_entry 2 50 1 0)).
  - apply sample_weights_ok.
  - vm_compute. reflexivity.
  - reflexivity.
  - apply surjective_pairing.
Defined.

(** The state after one packet of the flow, with every other table rewritten. *)
Definition sample_sent : router_maps session_lru session_lru * Z :=
  Eval vm_compute in select_wan sample_env (sample_maps []) sample_key.
Definition sample_rewritten : router_maps session_lru session_lru :=
  RouterMaps {[5 := 7]} (wan_table_map sample_sent.1) (local_lru_map sample_sent.1)
    (sticky_flow_map sample_sent.1) ∅ ∅ ∅ (fun _ => Some 0) zero_ctrl zero_global_stats [].

Lemma flow_affinity_witness :
  sample_sent.2 = 1 /\ (select_wan sample_env sample_rewritten sample_key).2 = sample_sent.2.
Proof.
  split; [vm_compute; reflexivity|].
  apply (flow_affinity sample_env sample_env (sample_maps []) sample_key sample_sent.1
    sample_sent.2 sample_rewritten (select_wan sample_env sample_rewritten sample_key).1 _
    (sample_entry 2 50 1 0)).
  - reflexivity.
  - reflexivity.
  - vm_compute. reflexivity.
  - reflexivity.
  - vm_compute. reflexivity.
  - reflexivity.
  - apply surjective_pairing.
Defined.

(** A flow bound to WAN 0, which is down. *)
Definition sample_bound : router_maps session_lru session_lru :=
  sample_maps [(sample_key, new_session sample_key 0)].
Definition sample_moved : router_maps session_lru session_lru * Z :=
  Eval vm_compute in select_wan sample_env sample_bound sample_key.

Lemma failover_rebinds_witness :
  sample_moved.2 <> 0
  /\ h_lookup (sticky_flow_map sample_moved.1) sample_key
     = Some (new_session sample_key sample_moved.2).
Proof.
  destruct (failover_rebinds sample_env sample_bound sample_key sample_moved.1 sample_moved.2
    (new_session sample_key 0) (sample_entry 1 100 0 0) 1 (sample_entry 2 50 1 0))
    as (_ & H1 & _ & H2).
  - apply sample_weights_ok.
  - reflexivity.
  - reflexivity.
  - vm_compute. reflexivity.
  - vm_compute. reflexivity.
  - reflexivity.
  - vm_compute. reflexivity.
  - reflexivity.
  - vm_compute. reflexivity.
  - split; [exact H1|exact H2].
Defined.

Lemma sample_reachable : reachable (sample_maps []).
Proof. exists (sample_maps []). split; [split; intros k; reflexivity|apply rtc_refl]. Qed.

(** The states before and after a SYN. *)
Definition after_syn : router_maps session_lru session_lru :=
  match xdp_router_func sample_env (sample_maps []) (sample_tcp 2) with
  | Some (m, _, _) => m
  | None => sample_maps []
  end.

Lemma after_syn_reachable : reachable after_syn.
Proof.
  exists (sample_maps []). split; [split; intros k; reflexivity|]. apply rtc_once.
  destruct (xdp_router_func sample_env (sample_maps []) (sample_tcp 2)) as [[[m p] a]|] eqn:E.
  - unfold after_syn. rewrite E. by eapply rs_packet.
  - exfalso. revert E. vm_compute. discriminate.
Qed.

Lemma session_tiers_invariant_witness :
  let k := Flow5 16885952 134744072 20675 47873 6 1 0 in
  exists v, lookup_session after_syn k = Some v /\ session_ok k v.
Proof.
  cbv zeta. destruct (session_tiers_invariant after_syn after_syn_reachable) as [H _].
  eexists. split; [vm_compute; reflexivity|]. apply H. vm_compute. reflexivity.
Defined.

Lemma rst_fin_never_evicts_witness :
  match xdp_router_func sample_env after_syn (sample_tcp 17) with
  | Some (m', _, _) => forall k, h_lookup (sticky_flow_map m') k = h_lookup (sticky_flow_map after_syn) k
  | None => False
  end.
Proof.
  destruct (xdp_router_func sample_env after_syn (sample_tcp 17)) as [[[m' p] a]|] eqn:E.
  - apply (rst_fin_never_evicts sample_env after_syn (sample_tcp 17)
      (Flow5 16885952 134744072 20675 47873 6 4 0) m' p a).
    + exact after_syn_reachable.
    + vm_compute. reflexivity.
    + reflexivity.
    + exact E.
  - revert E. vm_compute. discriminate.
Defined.
