(* ===== verification/HealthChecker.v ===== *)
(** * The in-kernel health checker ([src/bpf/xdp_healthchecker.bpf.c])

    Two programs over three maps: [xdp_hc_rx] records echo replies, [tc_hc_tx] accounts for
    probes.  The rate limiter is that of the CPU that runs the program; the clock is an
    argument of each run.  Frames are lists of bytes, as in [XdpRouter]. *)

From S2P Require Import Prelude Fluxwan Samples Bpf XdpRouter.

Definition HC_PROBE_MAGIC_ID : Z := 61863.
Definition HC_PROBE_INTERVAL_NS : Z := 500 * 1000000.

Record hc_probe_key := HcProbeKey {
  hk_wan_ifindex : Z;
  hk_gateway_ip : Z;
  hk_wan_ip : Z
}.
Definition zero_probe_key : hc_probe_key := HcProbeKey 0 0 0.

Record hc_result := HcResult {
  hr_last_probe_ns : Z;
  hr_last_reply_ns : Z;
  hr_rtt_us : Z;
  hr_is_alive : Z;
  hr_probe_count : Z;
  hr_reply_count : Z;
  hr_miss_count : Z
}.

Record hc_maps := HcMaps {
  hc_probe_target_map : gmap Z hc_probe_key;
  hc_result_map : gmap Z hc_result;
  hc_rate_limit_map : gmap Z Z
}.
Definition set_result (i : Z) (r : hc_result) (m : hc_maps) : hc_maps :=
  HcMaps (hc_probe_target_map m) (<[i := r]> (hc_result_map m)) (hc_rate_limit_map m).
Definition set_rate (i t : Z) (m : hc_maps) : hc_maps :=
  HcMaps (hc_probe_target_map m) (hc_result_map m) (<[i := t]> (hc_rate_limit_map m)).

(** ** Replies *)

(** The sequence number of an echo reply with the signature, or nothing to record. *)
Definition probe_reply (pkt : list Z) : option (option Z) :=
  if blen pkt <? 14 then Some None
  else
    h_proto ← ld16 pkt 12;
    if negb (h_proto =? htons ETH_P_IP) then Some None
    else
      let iph := 14 in
      if blen pkt <? iph + 20 then Some None
      else
        protocol ← ld8 pkt (iph + 9);
        if negb (protocol =? IPPROTO_ICMP) then Some None
        else
          ihl ← ip_ihl pkt iph;
          let icmph := iph + ihl * 4 in
          if blen pkt <? icmph + 8 then Some None
          else
            type ← ld8 pkt icmph;
            if negb (type =? ICMP_ECHOREPLY) then Some None
            else
              id ← ld16 pkt (icmph + 4);
              if negb (ntohs id =? HC_PROBE_MAGIC_ID) then Some None
              else
                sequence ← ld16 pkt (icmph + 6);
                Some (Some (ntohs sequence)).

(** The entry after a reply; the clock is read at [now] and again at [now']. *)
Definition reply_result (now now' : Z) (res : option hc_result) : hc_result :=
  match res with
  | Some r =>
      let rtt_us := if (0 <? hr_last_probe_ns r) && (hr_last_probe_ns r <? now)
                    then u32 ((now - hr_last_probe_ns r) / 1000) else hr_rtt_us r in
      HcResult (hr_last_probe_ns r) now' rtt_us 1 (hr_probe_count r) (u32 (hr_reply_count r + 1)) 0
  | None => HcResult 0 now 0 1 0 1 0
  end.

(** [xdp_hc_rx]: the maps and the action. *)
Definition xdp_hc_rx (now now' : Z) (m : hc_maps) (pkt : list Z) : option (hc_maps * Z) :=
  r ← probe_reply pkt;
  match r with
  | None => Some (m, XDP_PASS)
  | Some sequence =>
      let wan_idx := sequence .& 7 in
      Some (set_result wan_idx (reply_result now now' (hc_result_map m !! wan_idx)) m, XDP_PASS)
  end.

(** ** Probes *)

Definition probe_result (now : Z) (r : hc_result) : hc_result :=
  let miss := if hr_miss_count r <? 255 then hr_miss_count r + 1 else hr_miss_count r in
  HcResult now (hr_last_reply_ns r) (hr_rtt_us r) (if 3 <=? miss then 0 else hr_is_alive r)
    (u32 (hr_probe_count r + 1)) (hr_reply_count r) miss.

(** One turn of the loop; both array lookups succeed for an index in range. *)
Definition probe_slot (now i : Z) (m : hc_maps) : hc_maps :=
  match array_lookup MAX_EBPF_WANS 0 (hc_rate_limit_map m) i with
  | Some last_ts =>
      if u64 (now - last_ts) <? HC_PROBE_INTERVAL_NS then m
      else
        match array_lookup MAX_EBPF_WANS zero_probe_key (hc_probe_target_map m) i with
        | Some target =>
            if (hk_gateway_ip target =? 0) || (hk_wan_ip target =? 0) then m
            else
              let m := set_rate i now m in
              match hc_result_map m !! i with
              | Some r => set_result i (probe_result now r) m
              | None => m
              end
        | None => m
        end
  | None => m
  end.

Definition TC_ACT_OK : Z := 0.
Definition tc_hc_tx (now : Z) (m : hc_maps) : hc_maps * Z :=
  (for_loop 256 0 (probe_slot now) m, TC_ACT_OK).

(** ** Safety *)

Lemma probe_reply_total pkt : exists r, probe_reply pkt = Some r.
Proof.
  enough (wp (probe_reply pkt) (fun _ => True)) as H by (apply wp_elim in H as (r & -> & _); by exists r).
  unfold probe_reply. cbv zeta. wp_hdr; done.
Qed.

Lemma hc_rx_total now now' m pkt : exists m', xdp_hc_rx now now' m pkt = Some (m', XDP_PASS).
Proof.
  unfold xdp_hc_rx. destruct (probe_reply_total pkt) as [r ->]. cbn.
  destruct r; by eexists.
Qed.

(** ** Runs *)

Inductive hc_step : hc_maps -> hc_maps -> Prop :=
  | step_rx now now' m pkt m' act : xdp_hc_rx now now' m pkt = Some (m', act) -> hc_step m m'
  | step_tx now m : hc_step m (tc_hc_tx now m).1
  | step_target m targets : hc_step m (HcMaps targets (hc_result_map m) (hc_rate_limit_map m)).

(** The state of an entry: alive exactly while fewer than three probes are unanswered. *)
Record result_ok (r : hc_result) : Prop := {
  ro_miss : 0 <= hr_miss_count r <= 255;
  ro_alive : hr_is_alive r = if hr_miss_count r <? 3 then 1 else 0
}.
Definition results_ok (m : hc_maps) : Prop :=
  map_Forall (fun i r => 0 <= i < 8 /\ result_ok r) (hc_result_map m).

Lemma land_7 x : x .& 7 = x mod 8.
Proof. change 7 with (Z.ones 3). by rewrite Z.land_ones. Qed.

Lemma reply_result_ok now now' res : result_ok (reply_result now now' res).
Proof. destruct res; split; cbn; (done || lia). Qed.

Lemma probe_result_ok now r : result_ok r -> result_ok (probe_result now r).
Proof.
  intros [Hm Ha]. unfold probe_result. destruct (Z.ltb_spec (hr_miss_count r) 255) as [Hlt | Hge].
  - split; cbn; [lia|]. destruct (Z.leb_spec 3 (hr_miss_count r + 1)).
    + by rewrite (proj2 (Z.ltb_ge _ _)) by lia.
    + rewrite Ha, !(proj2 (Z.ltb_lt _ _)) by lia. done.
  - split; cbn; [lia|]. rewrite (proj2 (Z.leb_le _ _)) by lia. by rewrite (proj2 (Z.ltb_ge _ _)) by lia.
Qed.

Lemma probe_slot_ok now i m : results_ok m -> results_ok (probe_slot now i m).
Proof.
  intros Hm. unfold probe_slot. destruct (array_lookup _ _ (hc_rate_limit_map m) i) as [t|]; [|done].
  destruct (_ <? _); [done|]. destruct (array_lookup _ _ _ i) as [k|]; [|done]. destruct (_ || _); [done|].
  cbn [hc_result_map set_rate]. destruct (hc_result_map m !! i) as [r|] eqn:E; [|done].
  apply map_Forall_insert_2; [|done]. apply Hm in E as [Hi Hr]. split; [done|]. by apply probe_result_ok.
Qed.

Lemma hc_step_ok m m' : hc_step m m' -> results_ok m -> results_ok m'.
Proof.
  destruct 1 as [now now' m pkt m' act E | now m | m targets]; intros Hm; [| |done].
  - unfold xdp_hc_rx in E. destruct (probe_reply pkt) as [[s|]|]; [|by injection E as <- _|done].
    cbn in E. injection E as <- _. apply map_Forall_insert_2; [|done].
    split; [|apply reply_result_ok]. rewrite land_7. apply Z.mod_pos_bound. lia.
  - change (results_ok (for_loop 256 0 (probe_slot now) m)).
    apply (for_loop_ind (fun _ m => results_ok m)); [done|]. intros j s _. apply probe_slot_ok.
Qed.

Lemma hc_run_ok m m' : rtc hc_step m m' -> results_ok m -> results_ok m'.
Proof. induction 1 as [|x y z Hxy _ IH]; [done|]. intros Hm. by apply IH, (hc_step_ok x). Qed.

(** The turns of the loop for other uplinks leave an uplink alone. *)
Lemma probe_slot_other now j i m :
  j <> i -> let m' := probe_slot now j m in
  hc_result_map m' !! i = hc_result_map m !! i /\ hc_rate_limit_map m' !! i = hc_rate_limit_map m !! i
  /\ hc_probe_target_map m' = hc_probe_target_map m.
Proof.
  intros Hne. unfold probe_slot. cbv zeta. destruct (array_lookup _ _ (hc_rate_limit_map m) j) as [t|]; [|done].
  destruct (_ <? _); [done|]. destruct (array_lookup _ _ _ j) as [k|]; [|done]. destruct (_ || _); [done|].
  cbn [hc_result_map set_rate]. destruct (hc_result_map m !! j) as [r|]; cbn; rewrite ?lookup_insert_ne by done; done.
Qed.

Definition same_at (i : Z) (m m' : hc_maps) : Prop :=
  hc_result_map m' !! i = hc_result_map m !! i /\ hc_rate_limit_map m' !! i = hc_rate_limit_map m !! i
  /\ hc_probe_target_map m' = hc_probe_target_map m.

Lemma probe_slots_other now n j i m :
  (i < j \/ j + Z.of_nat n <= i) -> same_at i m (for_loop n j (probe_slot now) m).
Proof.
  intros Hi. apply (for_loop_ind (fun _ m' => same_at i m m')); [done|].
  intros k m' Hk (H1 & H2 & H3). destruct (probe_slot_other now k i m') as (E1 & E2 & E3); [lia|].
  unfold same_at. rewrite E1, E2, E3. done.
Qed.

Lemma for_loop_app {S} n k i (f : Z -> S -> S) s :
  for_loop (n + k) i f s = for_loop k (i + Z.of_nat n) f (for_loop n i f s).
Proof.
  revert i s. induction n as [|n IH]; intros i s; [cbn; by rewrite Z.add_0_r|].
  cbn [for_loop Nat.add]. rewrite IH. f_equal. lia.
Qed.

(** ** Theorems *)

(** One run of the probe program, for an uplink that has an entry and whose time has come. *)
Lemma tx_effect now i m r k last :
  0 <= i < 256 -> hc_result_map m !! i = Some r ->
  hc_probe_target_map m !! i = Some k -> hk_gateway_ip k <> 0 -> hk_wan_ip k <> 0 ->
  hc_rate_limit_map m !! i = Some last -> 0 <= last -> last + HC_PROBE_INTERVAL_NS <= now < 18446744073709551616 ->
  let m' := (tc_hc_tx now m).1 in
  hc_result_map m' !! i = Some (probe_result now r) /\ hc_rate_limit_map m' !! i = Some now
  /\ hc_probe_target_map m' = hc_probe_target_map m.
Proof.
  intros Hi Hr Hk Hg Hw Hl Hl0 Hnow. cbv zeta. unfold tc_hc_tx. cbn [fst].
  replace 256%nat with (Z.to_nat i + (1 + (255 - Z.to_nat i)))%nat by lia.
  rewrite !for_loop_app. cbn [for_loop]. rewrite Z2Nat.id by lia. change (0 + i) with i.
  destruct (probe_slots_other now (Z.to_nat i) 0 i m) as (E1 & E2 & E3); [lia|].
  set (m1 := for_loop (Z.to_nat i) 0 (probe_slot now) m) in *.
  assert (E : probe_slot now i m1 = set_result i (probe_result now r) (set_rate i now m1)).
  { unfold probe_slot. rewrite !array_lookup_Some by done. rewrite E2, Hl, E3, Hk. cbn [default from_option id].
    unfold HC_PROBE_INTERVAL_NS in *. rewrite u64_small by cint. rewrite (proj2 (Z.ltb_ge _ _)) by lia.
    rewrite (proj2 (Z.eqb_neq _ _) Hg), (proj2 (Z.eqb_neq _ _) Hw). cbn [orb hc_result_map set_rate]. by rewrite E1, Hr. }
  destruct (probe_slots_other now (255 - Z.to_nat i) (i + Z.of_nat 1) i (probe_slot now i m1)) as (F1 & F2 & F3); [lia|].
  rewrite F1, F2, F3, E. cbn. by rewrite !lookup_insert_eq.
Qed.

(** Times at least an interval apart. *)
Fixpoint spaced (last : Z) (ts : list Z) : Prop :=
  match ts with
  | [] => True
  | t :: ts => last + HC_PROBE_INTERVAL_NS <= t < 18446744073709551616 /\ spaced t ts
  end.
Definition probes (ts : list Z) (m : hc_maps) : hc_maps := foldl (fun m t => (tc_hc_tx t m).1) m ts.

Lemma probes_miss i k ts : forall m r last,
  0 <= i < 256 -> hc_result_map m !! i = Some r -> result_ok r ->
  hc_probe_target_map m !! i = Some k -> hk_gateway_ip k <> 0 -> hk_wan_ip k <> 0 ->
  hc_rate_limit_map m !! i = Some last -> 0 <= last -> spaced last ts ->
  exists r', hc_result_map (probes ts m) !! i = Some r' /\ result_ok r'
    /\ hr_miss_count r' = Z.min 255 (hr_miss_count r + Z.of_nat (length ts)).
Proof.
  induction ts as [|t ts IH]; intros m r last Hi Hr Hok Hk Hg Hw Hl Hl0 Hs.
  { exists r. pose proof (ro_miss _ Hok). split_and!; [done|done|cbn; lia]. }
  destruct Hs as [Ht Hs].
  destruct (tx_effect t i m r k last Hi Hr Hk Hg Hw Hl Hl0 Ht) as (E1 & E2 & E3).
  unfold probes. cbn [foldl].
  generalize dependent (tc_hc_tx t m).1. intros m1 E1 E2 E3. unfold HC_PROBE_INTERVAL_NS in Ht.
  destruct (IH m1 (probe_result t r) t Hi E1 (probe_result_ok t r Hok)) as (r' & H1 & H2 & H3);
    [by rewrite E3|done|done|done|lia|done|].
  exists r'. split_and!; [done|done|]. rewrite H3. pose proof (ro_miss _ Hok). cbn [probe_result hr_miss_count length].
  destruct (Z.ltb_spec (hr_miss_count r) 255); lia.
Qed.

(** An uplink that does not answer is declared dead: after three probes, at least half a second
    apart, without a reply. *)
Theorem silent_uplink_dead i k m r last ts
    (Hi : 0 <= i < 256) (Hentry : hc_result_map m !! i = Some r) (Hok : result_ok r)
    (Htarget : hc_probe_target_map m !! i = Some k) (Hgw : hk_gateway_ip k <> 0) (Hip : hk_wan_ip k <> 0)
    (Hlast : hc_rate_limit_map m !! i = Some last) (Hpos : 0 <= last)
    (Hspaced : spaced last ts) (Hthree : (3 <= length ts)%nat) :
  exists r', hc_result_map (probes ts m) !! i = Some r' /\ hr_is_alive r' = 0.
Proof.
  destruct (probes_miss i k ts m r last Hi Hentry Hok Htarget Hgw Hip Hlast Hpos Hspaced) as (r' & H1 & [Hm Ha] & H3).
  exists r'. split; [exact H1|]. pose proof (ro_miss _ Hok). by rewrite Ha, (proj2 (Z.ltb_ge _ _)) by lia.
Qed.

(** The health entries of any run, whatever frames arrive: an entry says alive exactly while fewer
    than three probes are unanswered, and the entries are those of the uplinks 0 to 7 only, since
    the index is cut to three bits: further uplinks are never seen alive. *)
Theorem health_entries targets rates m
    (Hrun : rtc hc_step (HcMaps targets ∅ rates) m) i r (Hr : hc_result_map m !! i = Some r) :
  0 <= i < 8 /\ (hr_is_alive r = 1 <-> hr_miss_count r < 3) /\ (hr_is_alive r = 0 <-> 3 <= hr_miss_count r).
Proof.
  assert (H0 : results_ok (HcMaps targets ∅ rates)) by apply map_Forall_empty.
  apply (hc_run_ok _ _ Hrun H0) in Hr as [Hi [_ Ha]]. split; [done|]. rewrite Ha.
  destruct (Z.ltb_spec (hr_miss_count r) 3); split; split; (done || lia).
Qed.

(** ** Witnesses *)

Module HcDemo.
(** An echo reply with the signature and sequence number 9. *)
Definition reply_frame : list Z :=
  sample_eth
  ++ [69; 0; 0; 28; 0; 1; 64; 0; 64; 1; 183; 118; 192; 168; 1; 1; 192; 168; 1; 20]
  ++ [0; 0; 0; 0; 241; 167; 0; 9].
Definition targets : gmap Z hc_probe_key := {[ 1 := HcProbeKey 3 16843009 33686018 ]}.
Definition m0 : hc_maps := HcMaps targets ∅ {[ 1 := 0 ]}.
Definition m1 : hc_maps := default m0 (fst <$> xdp_hc_rx 1000 1001 m0 reply_frame).
Definition r1 : hc_result := HcResult 0 1000 0 1 0 1 0.

Lemma health_entries_witness : 0 <= 1 < 8 /\ (hr_is_alive r1 = 1 <-> hr_miss_count r1 < 3).
Proof.
  assert (Hs : xdp_hc_rx 1000 1001 m0 reply_frame = Some (m1, XDP_PASS)) by reflexivity.
  destruct (health_entries targets {[ 1 := 0 ]} m1 (rtc_once _ _ (step_rx 1000 1001 m0 reply_frame m1 XDP_PASS Hs))
    1 r1 ltac:(reflexivity)) as (H1 & H2 & _). split; [exact H1|exact H2].
Defined.

Lemma silent_uplink_dead_witness :
  exists r', hc_result_map (probes [500000000; 1000000000; 1500000000] m1) !! 1 = Some r' /\ hr_is_alive r' = 0.
Proof.
  apply (silent_uplink_dead 1 (HcProbeKey 3 16843009 33686018) m1 r1 0).
  - lia.
  - reflexivity.
  - split; cbn; (lia || reflexivity).
  - reflexivity.
  - discriminate.
  - discriminate.
  - reflexivity.
  - lia.
  - cbn. unfold HC_PROBE_INTERVAL_NS. lia.
  - cbn. lia.
Defined.
End HcDemo.
