(* ===== verification/Dispatcher.v ===== *)
(** * The tail-call dispatcher ([src/bpf/xdp_dispatcher.bpf.c])

    The modular form of the router: five programs chained by tail calls, which share one
    per-CPU record.  A tail call runs the program when its slot is filled and falls through
    to [XDP_PASS] otherwise.  Frames, array maps and the session map are those of [XdpRouter]
    and [Bpf]. *)

From S2P Require Import Prelude Checksum Frames Fluxwan Samples Bpf XdpRouter XdpFrames.

(** ** Data *)

Record xdp_pkt_ctx := XdpPktCtx {
  px_src_ip : Z;
  px_dst_ip : Z;
  px_src_port : Z;
  px_dst_port : Z;
  px_proto : Z;
  px_pkt_flags : Z;
  px_stage : Z;
  px_is_lan_src : Z;
  px_target_wan_idx : Z;
  px_wan_ip : Z;
  px_flow_hash : Z
}.

(** The entry of this program has neither the draining flag nor the MTU of the router's. *)
Record wan_entry := WanEntry {
  de_wan_id : Z;
  de_ifindex : Z;
  de_ip_addr : Z;
  de_gateway : Z;
  de_weight : Z;
  de_is_active : Z;
  de_table_id : Z;
  de_fwmark : Z
}.
Definition zero_entry : wan_entry := WanEntry 0 0 0 0 0 0 0 0.

Record flow_key := FlowKey {
  fk_src_ip : Z;
  fk_dst_ip : Z;
  fk_src_port : Z;
  fk_dst_port : Z;
  fk_proto : Z;
  fk_pkt_flags : Z
}.
#[export] Instance flow_key_eq_dec : EqDecision flow_key.
Proof. solve_decision. Defined.

Inductive xdp_prog := PROG_CLASSIFIER | PROG_LB | PROG_SNAT | PROG_STATS.

Record disp_maps (G : Type) := DispMaps {
  d_xdp_progs : xdp_prog -> bool;   (** which slots are filled *)
  d_pkt_ctx : xdp_pkt_ctx;
  d_maglev_lut : gmap Z Z;
  d_wan_table : gmap Z wan_entry;
  d_sticky_flow : G;
  d_wan_stats : gmap Z bpf_wan_stats
}.
Arguments DispMaps {G}.
Arguments d_xdp_progs {G}.
Arguments d_pkt_ctx {G}.
Arguments d_maglev_lut {G}.
Arguments d_wan_table {G}.
Arguments d_sticky_flow {G}.
Arguments d_wan_stats {G}.

(** ** Assignments to the shared record *)

Definition px_reset (c : xdp_pkt_ctx) : xdp_pkt_ctx :=
  XdpPktCtx (px_src_ip c) (px_dst_ip c) (px_src_port c) (px_dst_port c) (px_proto c) 0 0 0 0 0 0.
Definition px_set_ip (src dst proto : Z) (c : xdp_pkt_ctx) : xdp_pkt_ctx :=
  XdpPktCtx src dst (px_src_port c) (px_dst_port c) proto (px_pkt_flags c) (px_stage c) (px_is_lan_src c)
    (px_target_wan_idx c) (px_wan_ip c) (px_flow_hash c).
Definition px_set_l4 (sport dport flags : Z) (c : xdp_pkt_ctx) : xdp_pkt_ctx :=
  XdpPktCtx (px_src_ip c) (px_dst_ip c) sport dport (px_proto c) flags (px_stage c) (px_is_lan_src c)
    (px_target_wan_idx c) (px_wan_ip c) (px_flow_hash c).
Definition px_set_class (lan hash : Z) (c : xdp_pkt_ctx) : xdp_pkt_ctx :=
  XdpPktCtx (px_src_ip c) (px_dst_ip c) (px_src_port c) (px_dst_port c) (px_proto c) (px_pkt_flags c) 1 lan
    (px_target_wan_idx c) (px_wan_ip c) hash.
Definition px_set_target (target : Z) (wan_ip : option Z) (c : xdp_pkt_ctx) : xdp_pkt_ctx :=
  XdpPktCtx (px_src_ip c) (px_dst_ip c) (px_src_port c) (px_dst_port c) (px_proto c) (px_pkt_flags c) 2
    (px_is_lan_src c) target (default (px_wan_ip c) wan_ip) (px_flow_hash c).
Definition px_set_stage (s : Z) (c : xdp_pkt_ctx) : xdp_pkt_ctx :=
  XdpPktCtx (px_src_ip c) (px_dst_ip c) (px_src_port c) (px_dst_port c) (px_proto c) (px_pkt_flags c) s
    (px_is_lan_src c) (px_target_wan_idx c) (px_wan_ip c) (px_flow_hash c).

Definition hash_5tuple_ctx (c : xdp_pkt_ctx) : Z :=
  let h := px_src_ip c .^ px_dst_ip c in
  let h := h .^ (u32 (px_src_port c .<< 16) .| px_dst_port c) in
  let h := h .^ px_proto c in
  let h := u32 ((h .^ (h .>> 16)) * 73244475) in
  let h := u32 ((h .^ (h .>> 16)) * 73244475) in
  h .^ (h .>> 16).

(** [csum_fold]: up to four folds of a 64-bit accumulator, then the complement. *)
Definition csum_fold (csum : Z) : Z :=
  let step csum := if csum .>> 16 =? 0 then csum else u64 (fold16 csum) in
  u16 (Z.lnot (step (step (step (step csum))))).

Section dispatcher.
Context {G : Type} `{BpfHash flow_key bpf_session_val G}.

Definition with_ctx (c : xdp_pkt_ctx) (m : disp_maps G) : disp_maps G :=
  DispMaps (d_xdp_progs m) c (d_maglev_lut m) (d_wan_table m) (d_sticky_flow m) (d_wan_stats m).
Definition with_flows (g : G) (m : disp_maps G) : disp_maps G :=
  DispMaps (d_xdp_progs m) (d_pkt_ctx m) (d_maglev_lut m) (d_wan_table m) g (d_wan_stats m).
Definition with_stats (s : gmap Z bpf_wan_stats) (m : disp_maps G) : disp_maps G :=
  DispMaps (d_xdp_progs m) (d_pkt_ctx m) (d_maglev_lut m) (d_wan_table m) (d_sticky_flow m) s.

Definition entry_lookup (m : disp_maps G) (idx : Z) : option wan_entry :=
  array_lookup MAX_EBPF_WANS zero_entry (d_wan_table m) idx.

(** A tail call. *)
Definition tail_call (p : xdp_prog) (prog : disp_maps G -> list Z -> option (disp_maps G * list Z * Z))
    (m : disp_maps G) (pkt : list Z) : option (disp_maps G * list Z * Z) :=
  if d_xdp_progs m p then prog m pkt else Some (m, pkt, XDP_PASS).

(** ** Stage 4: counters *)

Definition xdp_stats (m : disp_maps G) (pkt : list Z) : option (disp_maps G * list Z * Z) :=
  let c := d_pkt_ctx m in
  let wan_idx := if MAX_EBPF_WANS <=? px_target_wan_idx c then 0 else px_target_wan_idx c in
  Some (match array_lookup MAX_EBPF_WANS zero_wan_stats (d_wan_stats m) wan_idx with
        | Some s =>
            let snat := nz (px_wan_ip c) && nz (px_is_lan_src c) in
            let s := BpfWanStats (u64 (ws_rx_packets s + 1)) (u64 (ws_rx_bytes s + blen pkt)) (ws_tx_packets s)
                       (ws_tx_bytes s) (if snat then u64 (ws_snat_packets s + 1) else ws_snat_packets s)
                       (ws_dropped_packets s) in
            with_stats (<[wan_idx := s]> (d_wan_stats m)) m
        | None => m
        end, pkt, XDP_PASS).

(** ** Stage 3: source NAT *)

Definition snat_rewrite (c : xdp_pkt_ctx) (pkt : list Z) : option (list Z) :=
  if nz (px_is_lan_src c) && nz (px_wan_ip c) then
    if blen pkt <? 14 then Some pkt
    else
      let iph := 14 in
      if blen pkt <? iph + 20 then Some pkt
      else
        version ← ip_version pkt iph;
        ihl ← ip_ihl pkt iph;
        if negb (version =? 4) || (ihl <? 5) then Some pkt
        else
          pkt ← st32 pkt (iph + 12) (px_wan_ip c);
          pkt ← st16 pkt (iph + 10) 0;
          csum ← csum_words 10 pkt iph 0;
          st16 pkt (iph + 10) (csum_fold csum)
  else Some pkt.

Definition xdp_snat (m : disp_maps G) (pkt : list Z) : option (disp_maps G * list Z * Z) :=
  pkt ← snat_rewrite (d_pkt_ctx m) pkt;
  tail_call PROG_STATS xdp_stats (with_ctx (px_set_stage 3 (d_pkt_ctx m)) m) pkt.

(** ** Stage 2: load balancer *)

Definition flow_key_of (c : xdp_pkt_ctx) : flow_key :=
  FlowKey (px_src_ip c) (px_dst_ip c) (px_src_port c) (px_dst_port c) (px_proto c) (px_pkt_flags c).
Definition disp_closing (c : xdp_pkt_ctx) : bool := nz (px_pkt_flags c .& (PKT_FLAG_RST .| PKT_FLAG_FIN)).
Definition disp_usable (e : wan_entry) : bool := nz (de_is_active e) && (0 <? de_weight e).

(** The session of the flow: its WAN, or a dispatch is needed. *)
Definition lb_session (m : disp_maps G) : disp_maps G * option Z :=
  let c := d_pkt_ctx m in
  let fkey := flow_key_of c in
  let g := d_sticky_flow m in
  let m := with_flows (h_touch g fkey) m in
  match h_lookup g fkey with
  | Some s =>
      if sv_wan_idx s <? MAX_EBPF_WANS then
        match entry_lookup m (sv_wan_idx s) with
        | Some we =>
            if disp_usable we then
              if disp_closing c then (with_flows (h_delete (d_sticky_flow m) fkey) m, None)
              else (m, Some (sv_wan_idx s))
            else (m, None)
        | None => (m, None)
        end
      else (m, None)
  | None => (m, None)
  end.

Fixpoint first_usable (n : nat) (i : Z) (m : disp_maps G) : option Z :=
  match n with
  | O => None
  | S n => match entry_lookup m i with
           | Some fe => if disp_usable fe then Some i else first_usable n (i + 1) m
           | None => first_usable n (i + 1) m
           end
  end.

(** The slot of the ring, ... *)
Definition lb_ring (m : disp_maps G) : Z :=
  let hash := px_flow_hash (d_pkt_ctx m) in
  match array_lookup MAGLEV_RING_SIZE 0 (d_maglev_lut m) (hash mod MAGLEV_RING_SIZE) with
  | Some p => if p <? MAX_EBPF_WANS then p else hash mod MAX_EBPF_WANS
  | None => hash mod MAX_EBPF_WANS
  end.

(** ... then the first usable WAN when that one is not. *)
Definition lb_dispatch (m : disp_maps G) : Z :=
  let target := lb_ring m in
  match entry_lookup m target with
  | Some we => if negb (nz (de_is_active we)) || (de_weight we =? 0)
               then default target (first_usable 256 0 m) else target
  | None => default target (first_usable 256 0 m)
  end.

Definition lb_select (m : disp_maps G) : disp_maps G * Z :=
  let '(m, followed) := lb_session m in
  match followed with
  | Some target => (m, target)
  | None =>
      let target := lb_dispatch m in
      let c := d_pkt_ctx m in
      (if negb (disp_closing c)
       then with_flows (h_update (d_sticky_flow m) (flow_key_of c)
              (BpfSessionVal target (u32 (target + 1)) (px_src_ip c) 0)) m
       else m, target)
  end.

Definition xdp_lb (m : disp_maps G) (pkt : list Z) : option (disp_maps G * list Z * Z) :=
  let '(m, target) := lb_select m in
  let wan_ip := match entry_lookup m target with
                | Some wan => if nz (de_is_active wan) then Some (de_ip_addr wan) else None
                | None => None
                end in
  tail_call PROG_SNAT xdp_snat (with_ctx (px_set_target target wan_ip (d_pkt_ctx m)) m) pkt.

(** ** Stage 1: classifier *)

(** The ports and flags, or a truncated header. *)
Definition classify_l4 (pkt : list Z) (cur proto : Z) : option (option (Z * Z * Z)) :=
  if proto =? IPPROTO_TCP then
    if blen pkt <? cur + 20 then Some None
    else
      source ← ld16 pkt cur;
      dest ← ld16 pkt (cur + 2);
      b ← ld8 pkt (cur + 13);
      Some (Some (source, dest, (if Z.testbit b 1 then PKT_FLAG_SYN else 0)
                                .| (if Z.testbit b 2 then PKT_FLAG_RST else 0)
                                .| (if Z.testbit b 0 then PKT_FLAG_FIN else 0)))
  else if proto =? IPPROTO_UDP then
    if blen pkt <? cur + 8 then Some None
    else
      source ← ld16 pkt cur;
      dest ← ld16 pkt (cur + 2);
      Some (Some (source, dest, 0))
  else if proto =? IPPROTO_ICMP then
    if blen pkt <? cur + 8 then Some None
    else
      id ← ld16 pkt (cur + 4);
      sequence ← ld16 pkt (cur + 6);
      Some (Some (id, sequence, PKT_FLAG_ICMP))
  else Some None.

(** The record after the parser, and whether the frame goes on. *)
Definition classify (c : xdp_pkt_ctx) (pkt : list Z) : option (xdp_pkt_ctx * bool) :=
  if blen pkt <? 14 then Some (c, false)
  else
    proto ← ld16 pkt 12;
    r ← parse_vlans 2 pkt 14 proto;
    match r with
    | None => Some (c, false)
    | Some (cur, proto) =>
        if negb (proto =? htons ETH_P_IP) then Some (c, false)
        else if blen pkt <? cur + 20 then Some (c, false)
        else
          version ← ip_version pkt cur;
          ihl ← ip_ihl pkt cur;
          if negb (version =? 4) || (ihl <? 5) then Some (c, false)
          else if blen pkt <? cur + ihl * 4 then Some (c, false)
          else
            saddr ← ld32 pkt (cur + 12);
            daddr ← ld32 pkt (cur + 16);
            protocol ← ld8 pkt (cur + 9);
            let c := px_set_ip saddr daddr protocol c in
            l4 ← classify_l4 pkt (cur + ihl * 4) protocol;
            match l4 with
            | None => Some (c, false)
            | Some (sport, dport, flags) =>
                let c := px_set_l4 sport dport flags c in
                Some (px_set_class (if is_lan saddr then 1 else 0) (hash_5tuple_ctx c) c, true)
            end
    end.

Definition xdp_classifier (m : disp_maps G) (pkt : list Z) : option (disp_maps G * list Z * Z) :=
  r ← classify (d_pkt_ctx m) pkt;
  let m := with_ctx r.1 m in
  if (r.2 : bool) then tail_call PROG_LB xdp_lb m pkt else Some (m, pkt, XDP_PASS).

(** ** Stage 0 *)

Definition xdp_dispatcher (m : disp_maps G) (pkt : list Z) : option (disp_maps G * list Z * Z) :=
  tail_call PROG_CLASSIFIER xdp_classifier (with_ctx (px_reset (d_pkt_ctx m)) m) pkt.
End dispatcher.

(** ** Safety *)

Lemma classify_l4_wp pkt cur proto : 0 <= cur -> wp (classify_l4 pkt cur proto) (fun _ => True).
Proof. intros Hc. unfold classify_l4. repeat wp_step; (done || lia). Qed.

Lemma classify_wp c pkt : wp (classify c pkt) (fun _ => True).
Proof.
  unfold classify. wp_step; [done|]. wp_step. wp_step. apply wp_bind. eapply wp_mono; [apply parse_vlans_wp; lia|].
  intros [[cur proto]|] _ Hc; cbn in Hc; [|done]. wp_hdr; try done.
  eapply wp_mono; [apply classify_l4_wp; lia|]. intros [[[sp dp] fl]|] _ _; done.
Qed.

Lemma snat_is_update c pkt :
  snat_rewrite c pkt
  = (if nz (px_is_lan_src c) && nz (px_wan_ip c) then
       if blen pkt <? 14 then Some pkt
       else if blen pkt <? 14 + 20 then Some pkt
       else
         version ← ip_version pkt 14;
         ihl ← ip_ihl pkt 14;
         if negb (version =? 4) || (ihl <? 5) then Some pkt
         else pkt ← st32 pkt (14 + 12) (px_wan_ip c); update_ip_checksum pkt 14
     else Some pkt).
Proof. reflexivity. Qed.

Lemma snat_rewrite_wp c pkt : wp (snat_rewrite c pkt) (fun pkt' => length pkt' = length pkt).
Proof. rewrite snat_is_update. wp_frame; (done || lia). Qed.

Section safety.
Context {G : Type} `{BpfHash flow_key bpf_session_val G}.

Definition passes (r : disp_maps G * list Z * Z) (pkt : list Z) : Prop :=
  r.2 = XDP_PASS /\ length r.1.2 = length pkt.

Lemma tail_call_wp p prog (m : disp_maps G) pkt pkt' :
  length pkt' = length pkt -> wp (prog m pkt') (fun r => passes r pkt) -> wp (tail_call p prog m pkt') (fun r => passes r pkt).
Proof. intros Hl Hp. unfold tail_call. destruct (d_xdp_progs m p); [done|]. by split. Qed.

Lemma xdp_snat_wp (m : disp_maps G) pkt : wp (xdp_snat m pkt) (fun r => passes r pkt).
Proof.
  unfold xdp_snat. apply wp_bind. eapply wp_mono; [apply snat_rewrite_wp|]. intros p _ Hp.
  apply tail_call_wp; [done|]. by split.
Qed.

Lemma xdp_lb_wp (m : disp_maps G) pkt : wp (xdp_lb m pkt) (fun r => passes r pkt).
Proof.
  unfold xdp_lb. destruct (lb_select m) as [m1 target]. apply tail_call_wp; [done|]. apply xdp_snat_wp.
Qed.

Lemma xdp_dispatcher_wp (m : disp_maps G) pkt : wp (xdp_dispatcher m pkt) (fun r => passes r pkt).
Proof.
  unfold xdp_dispatcher. apply tail_call_wp; [done|]. unfold xdp_classifier. apply wp_bind.
  eapply wp_mono; [apply classify_wp|]. intros [c go] _ _. cbn [fst snd]. destruct go; [|by split].
  apply tail_call_wp; [done|]. apply xdp_lb_wp.
Qed.
End safety.

(** ** Selection *)

Section selection.
Context {G : Type} `{HG : BpfHash flow_key bpf_session_val G}.
Implicit Types m : disp_maps G.

Lemma first_usable_Some n i m j :
  first_usable n i m = Some j -> i <= j < i + Z.of_nat n /\ exists e, entry_lookup m j = Some e /\ disp_usable e = true.
Proof.
  revert i. induction n as [|n IH]; intros i; cbn; [done|].
  destruct (entry_lookup m i) as [e|] eqn:Ee; [destruct (disp_usable e) eqn:Eu|].
  - intros [= <-]. split; [lia|]. by exists e.
  - intros [Hj He]%IH. split; [lia|done].
  - intros [Hj He]%IH. split; [lia|done].
Qed.

Lemma first_usable_finds n i m j e :
  i <= j < i + Z.of_nat n -> entry_lookup m j = Some e -> disp_usable e = true -> is_Some (first_usable n i m).
Proof.
  intros Hj Hw He. revert i Hj. induction n as [|n IH]; intros i Hj; cbn; [lia|].
  destruct (decide (j = i)) as [->|Hne]; [rewrite Hw, He; eauto|].
  destruct (entry_lookup m i) as [e'|]; [destruct (disp_usable e'); [eauto|]|]; apply IH; lia.
Qed.

(** Weights are unsigned. *)
Definition entries_ok m : Prop := forall i e, entry_lookup m i = Some e -> 0 <= de_weight e.

Lemma lb_dispatch_usable m i e :
  entries_ok m -> entry_lookup m i = Some e -> disp_usable e = true ->
  exists e', entry_lookup m (lb_dispatch m) = Some e' /\ disp_usable e' = true.
Proof.
  intros Hok Hi He. pose proof (array_lookup_inv _ _ _ _ _ Hi) as [Hr _]. unfold MAX_EBPF_WANS in Hr.
  destruct (first_usable_finds 256 0 m i e) as [j Hj]; [lia|done|done|].
  destruct (first_usable_Some _ _ _ _ Hj) as [_ Hf]. unfold lb_dispatch. rewrite Hj. cbn [default from_option id].
  destruct (entry_lookup m (lb_ring m)) as [we|] eqn:Et; [|done].
  destruct (negb (nz (de_is_active we)) || (de_weight we =? 0)) eqn:Eb; [done|].
  exists we. split; [done|]. apply orb_false_iff in Eb as [Ha Hw]. unfold disp_usable.
  apply negb_false_iff in Ha. rewrite Ha. cbn. apply Z.ltb_lt. apply Z.eqb_neq in Hw. specialize (Hok _ _ Et). lia.
Qed.

Definition same_config m m' : Prop :=
  d_wan_table m' = d_wan_table m /\ d_maglev_lut m' = d_maglev_lut m /\ d_xdp_progs m' = d_xdp_progs m
  /\ d_pkt_ctx m' = d_pkt_ctx m /\ d_wan_stats m' = d_wan_stats m.

Lemma same_config_lookup m m' i : same_config m m' -> entry_lookup m' i = entry_lookup m i.
Proof. intros [E _]. unfold entry_lookup. by rewrite E. Qed.

Lemma lb_session_spec m m' r :
  lb_session m = (m', r) ->
  same_config m m' /\ forall t, r = Some t -> exists e, entry_lookup m' t = Some e /\ disp_usable e = true.
Proof.
  unfold lb_session. destruct (h_lookup (d_sticky_flow m) _) as [s|]; [|by intros [= <- <-]].
  destruct (sv_wan_idx s <? MAX_EBPF_WANS); [|by intros [= <- <-]].
  destruct (entry_lookup _ (sv_wan_idx s)) as [we|] eqn:Ee; [|by intros [= <- <-]].
  destruct (disp_usable we) eqn:Eu; [|by intros [= <- <-]].
  destruct (disp_closing (d_pkt_ctx m)); intros [= <- <-]; [done|]. split; [done|].
  intros t [= <-]. by exists we.
Qed.

Lemma lb_select_usable m m' t i e :
  entries_ok m -> entry_lookup m i = Some e -> disp_usable e = true -> lb_select m = (m', t) ->
  same_config m m' /\ exists e', entry_lookup m' t = Some e' /\ disp_usable e' = true.
Proof.
  intros Hok Hi He. unfold lb_select. destruct (lb_session m) as [m1 r] eqn:Es.
  destruct (lb_session_spec _ _ _ Es) as [Hc Hf]. destruct r as [x|].
  - intros [= <- <-]. split; [done|]. by apply Hf.
  - intros [= <- <-].
    assert (Hok1 : entries_ok m1) by (intros k f; rewrite (same_config_lookup _ _ _ Hc); apply Hok).
    destruct (lb_dispatch_usable m1 i e Hok1) as (e' & H1 & H2); [by rewrite (same_config_lookup _ _ _ Hc)|done|].
    destruct (negb _); (split; [done|]; by exists e').
Qed.
End selection.

(** ** Rewriting *)

Lemma snat_rewrite_spec c pkt :
  plain_ipv4 pkt -> is_u32 (px_wan_ip c) -> nz (px_is_lan_src c) = true -> nz (px_wan_ip c) = true ->
  wp (snat_rewrite c pkt) (fun pkt' =>
    length pkt' = length pkt /\ ld32 pkt' 26 = Some (px_wan_ip c) /\ verifies 10 pkt' 14
    /\ forall j, j < 24 \/ 30 <= j -> ld8 pkt' j = ld8 pkt j).
Proof.
  intros (Hb & Hl & b0 & E0 & Hv & Hh) Hip H1 H2. rewrite snat_is_update, H1, H2. cbn [andb].
  rewrite (proj2 (Z.ltb_ge _ _)) by lia. rewrite (proj2 (Z.ltb_ge _ _)) by lia.
  unfold ip_version, ip_ihl. rewrite E0. cbn [mbind option_bind]. rewrite Hv, Z.eqb_refl. cbn [negb orb].
  rewrite (proj2 (Z.ltb_ge _ _)) by lia. apply wp_bind. apply wp_st32; [lia..|]. intros p1 E1 L1.
  eapply wp_mono; [apply update_ip_checksum_spec; [by eapply st32_ok|lia|lia]|].
  intros p2 _ (L2 & _ & Hver & Hk). split_and!; [congruence| |done|].
  - rewrite <- (ld32_st32_eq _ _ _ _ E1 Hip). apply (ld32_agree 26 30); [|lia..].
    intros j Hj. apply Hk. lia.
  - intros j Hj. rewrite (Hk j) by lia. by rewrite (ld8_st32_ne _ _ j _ _ E1) by lia.
Qed.

(** The shared record after the load balancer. *)
Definition counted (s : bpf_wan_stats) (len : Z) (snat : bool) : bpf_wan_stats :=
  BpfWanStats (u64 (ws_rx_packets s + 1)) (u64 (ws_rx_bytes s + len)) (ws_tx_packets s) (ws_tx_bytes s)
    (if snat then u64 (ws_snat_packets s + 1) else ws_snat_packets s) (ws_dropped_packets s).

Section theorems.
Context {G : Type} `{HG : BpfHash flow_key bpf_session_val G}.
Implicit Types m : disp_maps G.

(** The five programs never leave the frame, whatever the frame, the maps and the programs that
    are loaded; they pass every frame on, at its length. *)
Theorem dispatcher_safe m pkt :
  exists m' pkt', xdp_dispatcher m pkt = Some (m', pkt', XDP_PASS) /\ length pkt' = length pkt.
Proof.
  destruct (wp_elim _ _ (xdp_dispatcher_wp m pkt)) as ([[m' pkt'] act] & E & Ha & Hl). cbn in Ha, Hl.
  exists m', pkt'. by rewrite E, Ha.
Qed.

Lemma tail_call_filled p prog m pkt : d_xdp_progs m p = true -> tail_call p prog m pkt = prog m pkt.
Proof. unfold tail_call. by intros ->. Qed.

(** Stages 3 and 4 for a frame whose uplink is known. *)
Lemma snat_and_stats m pkt :
  d_xdp_progs m PROG_STATS = true -> plain_ipv4 pkt -> is_u32 (px_wan_ip (d_pkt_ctx m)) ->
  0 <= px_target_wan_idx (d_pkt_ctx m) < MAX_EBPF_WANS ->
  let c := d_pkt_ctx m in
  let snat := nz (px_wan_ip c) && nz (px_is_lan_src c) in
  exists m' pkt', xdp_snat m pkt = Some (m', pkt', XDP_PASS) /\ d_wan_table m' = d_wan_table m
    /\ d_pkt_ctx m' = px_set_stage 3 c
    /\ d_wan_stats m' = <[px_target_wan_idx c :=
         counted (default zero_wan_stats (d_wan_stats m !! px_target_wan_idx c)) (blen pkt) snat]> (d_wan_stats m)
    /\ if snat then length pkt' = length pkt /\ ld32 pkt' 26 = Some (px_wan_ip c) /\ verifies 10 pkt' 14
                    /\ (forall j, j < 24 \/ 30 <= j -> ld8 pkt' j = ld8 pkt j)
       else pkt' = pkt.
Proof.
  intros Hp Hpkt Hip Ht c snat. unfold xdp_snat. fold c.
  assert (Hgo : forall p, length p = length pkt -> exists m', tail_call PROG_STATS xdp_stats
      (with_ctx (px_set_stage 3 c) m) p = Some (m', p, XDP_PASS) /\ d_wan_table m' = d_wan_table m
    /\ d_pkt_ctx m' = px_set_stage 3 c
    /\ d_wan_stats m' = <[px_target_wan_idx c :=
         counted (default zero_wan_stats (d_wan_stats m !! px_target_wan_idx c)) (blen pkt) snat]> (d_wan_stats m)).
  { intros p Hl. rewrite tail_call_filled by done. unfold xdp_stats.
    cbn [d_pkt_ctx with_ctx px_set_stage px_target_wan_idx]. fold c in Ht.
    rewrite (proj2 (Z.leb_gt _ _)) by lia. cbn [d_wan_stats with_ctx]. rewrite array_lookup_Some by done.
    rewrite Hl. by eexists. }
  destruct snat eqn:Es.
  - unfold snat in Es. apply andb_true_iff in Es as [H1 H2].
    destruct (wp_elim _ _ (snat_rewrite_spec c pkt Hpkt Hip H2 H1)) as (p & E & Hl & Hrest). rewrite E.
    cbn [mbind option_bind]. destruct (Hgo p Hl) as (m' & H3 & H4 & H5 & H6).
    exists m', p. do 4 (split; [done|]). by split.
  - assert (E : snat_rewrite c pkt = Some pkt).
    { unfold snat_rewrite. unfold snat in Es. rewrite andb_comm in Es. by rewrite Es. }
    rewrite E. cbn [mbind option_bind]. destruct (Hgo pkt eq_refl) as (m' & H3 & H4 & H5 & H6).
    exists m', pkt. by do 4 (split; [done|]).
Qed.

(** The whole pipeline on a frame it classifies, while some uplink is usable: the frame is assigned a
    usable uplink and counted there; a frame from the LAN leaves with the address of that uplink,
    a header checksum that verifies and nothing else changed, any other frame as it came. *)
Theorem dispatcher_forwards m pkt c i e
    (Hprogs : forall p, d_xdp_progs m p = true) (Hpkt : plain_ipv4 pkt)
    (Hclass : classify (px_reset (d_pkt_ctx m)) pkt = Some (c, true))
    (Hok : entries_ok m) (Hips : forall j f, entry_lookup m j = Some f -> is_u32 (de_ip_addr f))
    (Hi : entry_lookup m i = Some e) (He : disp_usable e = true) :
  exists m' pkt' t e', xdp_dispatcher m pkt = Some (m', pkt', XDP_PASS)
    /\ px_target_wan_idx (d_pkt_ctx m') = t /\ entry_lookup m t = Some e' /\ disp_usable e' = true
    /\ let snat := nz (de_ip_addr e') && nz (px_is_lan_src c) in
       d_wan_stats m' = <[t := counted (default zero_wan_stats (d_wan_stats m !! t)) (blen pkt) snat]> (d_wan_stats m)
       /\ if snat then length pkt' = length pkt /\ ld32 pkt' 26 = Some (de_ip_addr e') /\ verifies 10 pkt' 14
                       /\ (forall j, j < 24 \/ 30 <= j -> ld8 pkt' j = ld8 pkt j)
          else pkt' = pkt.
Proof.
  unfold xdp_dispatcher. rewrite tail_call_filled by apply Hprogs. unfold xdp_classifier. cbn [d_pkt_ctx with_ctx].
  rewrite Hclass. cbn [mbind option_bind fst snd]. rewrite tail_call_filled by apply Hprogs.
  set (m1 := with_ctx c (with_ctx (px_reset (d_pkt_ctx m)) m)). unfold xdp_lb.
  destruct (lb_select m1) as [m2 t] eqn:Es.
  assert (Hl1 : forall j, entry_lookup m1 j = entry_lookup m j) by done.
  destruct (lb_select_usable m1 m2 t i e Hok Hi He Es) as [Hsame (e' & He' & Hu')].
  assert (Het : entry_lookup m t = Some e') by (by rewrite <- Hl1, <- (same_config_lookup _ _ _ Hsame)).
  destruct Hsame as (Ht & _ & Hp2 & Hc2 & Hs2). rewrite He'.
  assert (Ha : nz (de_is_active e') = true) by (unfold disp_usable in Hu'; by apply andb_true_iff in Hu' as [? _]).
  rewrite Ha. rewrite tail_call_filled by (cbn; rewrite Hp2; apply Hprogs).
  set (m3 := with_ctx _ m2).
  destruct (snat_and_stats m3 pkt) as (m' & pkt' & E & Htab & Hctx & Hst & Hf).
  - cbn. rewrite Hp2. apply Hprogs.
  - done.
  - cbn. by apply (Hips t).
  - cbn. by apply array_lookup_inv in Het as [? _].
  - exists m', pkt', t, e'. rewrite E. split; [done|]. rewrite Hctx. split; [done|]. split; [done|]. split; [done|].
    cbn [m3 with_ctx d_pkt_ctx px_set_target px_wan_ip px_is_lan_src px_target_wan_idx default from_option id d_wan_stats] in Hst, Hf.
    rewrite Hc2, Hs2 in *. by split.
Qed.
End theorems.

(** ** Agreement with the router *)

(** The entry of this program for an entry of the router's table. *)
Definition entry_of (e : bpf_wan_entry) : wan_entry :=
  WanEntry (we_wan_id e) (we_ifindex e) (we_ip_addr e) (we_gateway e) (we_weight e) (we_is_active e)
    (we_table_id e) (we_fwmark e).
(** The key of the router with the fields of the record; [classified_key] relates it to the router's own parser. *)
Definition router_key (c : xdp_pkt_ctx) : flow_5tuple :=
  Flow5 (px_src_ip c) (px_dst_ip c) (px_src_port c) (px_dst_port c) (px_proto c) (px_pkt_flags c) 0.

Lemma hashes_agree c :
  nz (px_pkt_flags c .& PKT_FLAG_QUIC) = false ->
  no_src_port_service (px_src_port c) = false -> no_src_port_service (px_dst_port c) = false ->
  hash_5tuple (router_key c) = hash_5tuple_ctx c.
Proof. intros Hq Hs Hd. unfold hash_5tuple. cbn [router_key f_pkt_flags f_src_port f_dst_port f_quic_token]. by rewrite Hq, Hs, Hd. Qed.

Section agreement.
Context {G L R : Type} `{HG : BpfHash flow_key bpf_session_val G}.
Context `{HL : BpfHash flow_5tuple bpf_session_val L} `{HR : BpfHash flow_5tuple bpf_session_val R}.
Variables (env : xdp_env) (m : disp_maps G) (r : router_maps L R).
Hypothesis (Hlut : d_maglev_lut m = maglev_lut_map r).
Hypothesis (Htab : d_wan_table m = entry_of <$> wan_table_map r).
Hypothesis (Hdrain : forall i e, wan_lookup r i = Some e -> we_is_draining e = 0).

Lemma entry_lookup_of i : entry_lookup m i = entry_of <$> wan_lookup r i.
Proof.
  unfold entry_lookup, wan_lookup, array_lookup. rewrite Htab, lookup_fmap.
  destruct (_ && _); [|done]. by destruct (wan_table_map r !! i).
Qed.

Lemma usable_eligible i e : wan_lookup r i = Some e -> disp_usable (entry_of e) = eligible e.
Proof. intros He. unfold disp_usable, eligible. rewrite (Hdrain i e He). cbn. by rewrite andb_true_r. Qed.

Lemma first_usable_healthy n i : first_usable n i m = fst <$> first_healthy n i r.
Proof.
  revert i. induction n as [|n IH]; intros i; [done|]. cbn [first_usable first_healthy]. rewrite entry_lookup_of.
  destruct (wan_lookup r i) as [e|] eqn:E; cbn [fmap option_fmap option_map]; [|apply IH].
  rewrite (usable_eligible i e E). destruct (eligible e); [done|apply IH].
Qed.

Lemma health_check_target h t key :
  (health_check env r key h t).2
  = match wan_lookup r t with
    | Some we => if negb (nz (we_is_active we)) || (we_weight we =? 0) || nz (we_is_draining we)
                 then default t (fst <$> first_healthy 256 0 r) else t
    | None => default t (fst <$> first_healthy 256 0 r)
    end.
Proof.
  unfold health_check. generalize (first_healthy 256 0 r). intros o.
  destruct (wan_lookup r t) as [we|]; [destruct (_ || _ || _)|]; destruct o as [[fi fe]|]; done.
Qed.
End agreement.

Lemma first_healthy_gstats {L R : Type} (r : router_maps L R) s n i :
  first_healthy n i (with_gstats r s) = first_healthy n i r.
Proof.
  revert i. induction n as [|n IH]; intros i; [done|]. cbn [first_healthy].
  change (wan_lookup (with_gstats r s) i) with (wan_lookup r i). by rewrite !IH.
Qed.
Lemma first_usable_table {G : Type} (m m' : disp_maps G) n i :
  d_wan_table m' = d_wan_table m -> first_usable n i m' = first_usable n i m.
Proof.
  intros E. revert i. induction n as [|n IH]; intros i; [done|]. cbn [first_usable]. unfold entry_lookup. by rewrite E, !IH.
Qed.

(** The choice of an uplink for a record, and the router's for the key with the same fields. *)
Lemma lb_dispatch_agrees {G L R : Type} `{BpfHash flow_key bpf_session_val G}
    `{BpfHash flow_5tuple bpf_session_val L} `{BpfHash flow_5tuple bpf_session_val R}
    (env : xdp_env) (m : disp_maps G) (r : router_maps L R)
    (Hlut : d_maglev_lut m = maglev_lut_map r) (Htab : d_wan_table m = entry_of <$> wan_table_map r)
    (Hdrain : forall i e, wan_lookup r i = Some e -> we_is_draining e = 0) :
  let c := d_pkt_ctx m in
  lpm_subnet_map r (px_dst_ip c) = None -> policy_group 16 0 r (px_src_ip c) = 0 ->
  nz (px_pkt_flags c .& PKT_FLAG_QUIC) = false ->
  no_src_port_service (px_src_port c) = false -> no_src_port_service (px_dst_port c) = false ->
  px_flow_hash c = hash_5tuple_ctx c ->
  lb_dispatch m = (dispatch env r (router_key c) (hash_5tuple (router_key c))).2.
Proof.
  intros c Hlpm Hpol Hquic Hsport Hdport Hhash.
  rewrite hashes_agree by done. unfold dispatch, first_choice. cbn [f_dst_ip f_src_ip router_key].
  rewrite Hlpm, Hpol. unfold ring_pick. change (0 <? 0) with false. cbn [andb].
  assert (Ht : match array_lookup MAGLEV_RING_SIZE 0 (maglev_lut_map r) (hash_5tuple_ctx c mod MAGLEV_RING_SIZE) with
    | Some p => if p <? MAX_EBPF_WANS then p else hash_5tuple_ctx c mod MAX_EBPF_WANS
    | None => hash_5tuple_ctx c mod MAX_EBPF_WANS end = lb_ring m)
    by (unfold lb_ring; fold c; by rewrite Hhash, Hlut).
  rewrite Ht. set (t := lb_ring m). set (r1 := with_gstats r _).
  pose proof (health_check_target env r1 (hash_5tuple_ctx c) t (router_key c)) as Hc.
  destruct (health_check env r1 (router_key c) (hash_5tuple_ctx c) t) as [r2 t2]. cbn [snd] in *. subst t2.
  change (wan_lookup r1 t) with (wan_lookup r t). unfold r1. rewrite first_healthy_gstats.
  unfold lb_dispatch. fold t. rewrite (first_usable_healthy m r Htab Hdrain), (entry_lookup_of m r Htab).
  destruct (wan_lookup r t) as [we|] eqn:E; [|reflexivity]. cbn [fmap option_fmap option_map].
  rewrite (Hdrain t we E). change (nz 0) with false. rewrite orb_false_r. cbn [entry_of de_is_active de_weight].
  reflexivity.
Qed.

(** *** The two parsers *)

Definition no_quic_or_icmp (key : flow_5tuple) : bool :=
  negb (nz (f_pkt_flags key .& PKT_FLAG_QUIC)) && negb (nz (f_pkt_flags key .& PKT_FLAG_ICMP)).
(** Ports and flags of a frame that the router takes for TCP, or for UDP other than QUIC. *)
Definition same_l4 (pkt : list Z) (cur : Z) (flow key : flow_5tuple) : Prop :=
  exists sport dport flags, classify_l4 pkt cur (f_proto flow) = Some (Some (sport, dport, flags))
    /\ key = Flow5 (f_src_ip flow) (f_dst_ip flow) sport dport (f_proto flow) flags 0.

Lemma tcp_same pkt cur flow key :
  f_proto flow = IPPROTO_TCP -> f_quic_token flow = 0 -> parse_tcp pkt cur flow = Some (Some key) -> same_l4 pkt cur flow key.
Proof.
  intros Hp Hq. unfold parse_tcp, same_l4, classify_l4. rewrite Hp, Hq, Z.eqb_refl. destruct (blen pkt <? cur + 20); [done|].
  destruct (ld16 pkt cur) as [sp|]; [|done]. destruct (ld16 pkt (cur + 2)) as [dp|]; [|done]. destruct (ld8 pkt (cur + 13)) as [b|]; [|done].
  cbn [mbind option_bind]. generalize (Z.testbit b 1) (Z.testbit b 2) (Z.testbit b 0). intros syn rst fin [= <-].
  eexists _, _, _. split; [reflexivity|]. by destruct syn, rst, fin.
Qed.
Lemma udp_same pkt cur flow key :
  f_proto flow = IPPROTO_UDP -> parse_udp pkt cur flow = Some (Some key) -> no_quic_or_icmp key = true -> same_l4 pkt cur flow key.
Proof.
  intros Hp. unfold parse_udp, same_l4, classify_l4. rewrite Hp. change (IPPROTO_UDP =? IPPROTO_TCP) with false. rewrite Z.eqb_refl.
  destruct (blen pkt <? cur + 8); [done|]. destruct (ld16 pkt cur) as [sp|]; [|done]. destruct (ld16 pkt (cur + 2)) as [dp|]; [|done].
  cbn [mbind option_bind]. cbv zeta. intros E Hk.
  assert (key = Flow5 (f_src_ip flow) (f_dst_ip flow) sp dp IPPROTO_UDP 0 0) as ->; [|by eexists _, _, _].
  revert E. destruct (_ || _); [|by intros [= <-]]. destruct (_ <=? _); [|by intros [= <-]].
  destruct (ld8 pkt (cur + 8)) as [fb|]; [|done]. cbn [mbind option_bind]. destruct (nz _); [|by intros [= <-]].
  destruct (quic_dcid pkt (cur + 8) fb) as [d|]; [|done]. cbn [mbind option_bind].
  destruct (match d with Some d => quic_token_of pkt d | None => Some 0 end) as [tok|]; [|done]. cbn [mbind option_bind].
  intros [= <-]. by destruct (negb (tok =? 0)).
Qed.
Lemma icmp_flagged pkt cur flow key : parse_icmp pkt cur flow = Some (Some key) -> no_quic_or_icmp key = false.
Proof.
  unfold parse_icmp. destruct (_ <? _); [done|]. destruct (ld8 pkt cur) as [ty|]; [|done]. cbn [mbind option_bind].
  destruct (_ || _).
  - destruct (ld16 pkt (cur + 4)); [|done]. destruct (ld16 pkt (cur + 6)); [|done]. cbn [mbind option_bind]. by intros [= <-].
  - destruct (_ || _); [|by intros [= <-]]. cbv zeta. destruct (parse_icmp_inner pkt (cur + 8)) as [i|]; [|done]. cbn [mbind option_bind].
    intros [= <-]. by destruct i as [[[[[? ?] ?] ?] ?]|].
Qed.

(** A frame that the router's parser takes for TCP, or for UDP other than QUIC, is classified, and the
    record has the fields of the router's key. *)
Lemma classified_key c0 pkt key :
  parse_flow pkt = Some (Some key) -> no_quic_or_icmp key = true ->
  exists c, classify c0 pkt = Some (c, true) /\ router_key c = key /\ px_flow_hash c = hash_5tuple_ctx c.
Proof.
  unfold parse_flow, parse_eth, classify. change (0 + 14) with 14. change (0 + 12) with 12. intros E Hk. revert E. destruct (blen pkt <? 14); [done|].
  destruct (ld16 pkt 12) as [proto|]; [|done]. cbn [mbind option_bind].
  destruct (parse_vlans 2 pkt 14 proto) as [[[cur proto']|]|]; [|done|done]. cbn [mbind option_bind].
  destruct (negb _); [done|]. unfold parse_ipv4. destruct (blen pkt <? cur + 20); [done|].
  destruct (ip_version pkt cur) as [v|]; [|done]. destruct (ip_ihl pkt cur) as [ihl|]; [|done]. cbn [mbind option_bind].
  destruct (_ || _); [done|]. cbv zeta. destruct (blen pkt <? cur + ihl * 4); [done|].
  destruct (ld32 pkt (cur + 12)) as [sa|]; [|done]. destruct (ld32 pkt (cur + 16)) as [da|]; [|done].
  destruct (ld8 pkt (cur + 9)) as [pr|]; [|done]. cbn [mbind option_bind f_proto f_src_port f_dst_port f_pkt_flags f_quic_token].
  set (flow := Flow5 sa da 0 0 pr 0 0). intros E.
  assert (Hl : same_l4 pkt (cur + ihl * 4) flow key).
  { destruct (Z.eqb_spec pr IPPROTO_TCP); [by apply tcp_same|]. destruct (Z.eqb_spec pr IPPROTO_UDP); [by apply udp_same|].
    destruct (pr =? IPPROTO_ICMP); [|done]. apply icmp_flagged in E. congruence. }
  destruct Hl as (sp & dp & fl & El & ->). cbn [f_proto flow] in El. rewrite El. cbn [mbind option_bind]. eexists. by split_and!.
Qed.

(** *** The whole programs *)

Lemma snat_keeps_target {G : Type} (m : disp_maps G) pkt m' pkt' a :
  xdp_snat m pkt = Some (m', pkt', a) -> px_target_wan_idx (d_pkt_ctx m') = px_target_wan_idx (d_pkt_ctx m).
Proof.
  unfold xdp_snat. destruct (snat_rewrite _ _) as [p|]; [|done]. cbn [mbind option_bind]. unfold tail_call, xdp_stats.
  destruct (d_xdp_progs _ _); [|by intros [= <- _ _]]. cbv zeta. destruct (array_lookup _ _ _ _); by intros [= <- _ _].
Qed.
Lemma lb_select_progs {G : Type} `{BpfHash flow_key bpf_session_val G} (m m' : disp_maps G) t :
  lb_select m = (m', t) -> d_xdp_progs m' = d_xdp_progs m.
Proof.
  unfold lb_select. destruct (lb_session m) as [m1 f] eqn:Es. apply lb_session_spec in Es as [(_ & _ & Hp & _) _].
  destruct f; [by intros [= <- _]|]. destruct (negb _); by intros [= <- _].
Qed.
Lemma lb_select_new {G : Type} `{BpfHash flow_key bpf_session_val G} (m : disp_maps G) :
  h_lookup (d_sticky_flow m) (flow_key_of (d_pkt_ctx m)) = None -> (lb_select m).2 = lb_dispatch m.
Proof.
  intros Hn. unfold lb_select, lb_session. rewrite Hn. cbn [snd]. unfold lb_dispatch.
  by rewrite (first_usable_table m) by done.
Qed.
Lemma select_new {L R : Type} `{BpfHash flow_5tuple bpf_session_val L} `{BpfHash flow_5tuple bpf_session_val R}
    env (r : router_maps L R) key :
  h_lookup (local_lru_map r) key = None -> h_lookup (sticky_flow_map r) key = None ->
  exists l g, select_wan env r key = dispatch env (with_sticky (with_local r l) g) key (hash_5tuple key).
Proof.
  intros Hl Hg. unfold select_wan, session_lookup. destruct (is_dns_or_ntp key).
  - exists (local_lru_map r), (sticky_flow_map r). by destruct r.
  - rewrite Hl. cbn [sticky_flow_map with_local]. rewrite Hg. by eexists _, _.
Qed.

(** C30.  The two forms of the router agree on a frame.  Take tables that say the same, with no policy or prefix route for
    the frame's addresses and no draining uplink, all programs of the pipeline loaded, and a frame that the
    router's parser takes for TCP, or for UDP other than QUIC, with no port of a service whose source port is left out of
    the hash and no session in either form.  Then the pipeline passes the frame and assigns it
    the uplink that the router selects.  Frames of QUIC and ICMP, which the two parse differently, are left out. *)
Theorem dispatcher_agrees {G L R : Type} `{BpfHash flow_key bpf_session_val G}
    `{BpfHash flow_5tuple bpf_session_val L} `{BpfHash flow_5tuple bpf_session_val R}
    (env : xdp_env) (m : disp_maps G) (r : router_maps L R) pkt key
    (Hprogs : forall p, d_xdp_progs m p = true)
    (Hlut : d_maglev_lut m = maglev_lut_map r) (Htab : d_wan_table m = entry_of <$> wan_table_map r)
    (Hdrain : forall i e, wan_lookup r i = Some e -> we_is_draining e = 0)
    (Hkey : parse_flow pkt = Some (Some key)) (Hplain : no_quic_or_icmp key = true)
    (Hlpm : lpm_subnet_map r (f_dst_ip key) = None) (Hpol : policy_group 16 0 r (f_src_ip key) = 0)
    (Hsport : no_src_port_service (f_src_port key) = false) (Hdport : no_src_port_service (f_dst_port key) = false)
    (Hflow : h_lookup (d_sticky_flow m) (FlowKey (f_src_ip key) (f_dst_ip key) (f_src_port key) (f_dst_port key)
               (f_proto key) (f_pkt_flags key)) = None)
    (Hlocal : h_lookup (local_lru_map r) key = None) (Hsticky : h_lookup (sticky_flow_map r) key = None) :
  exists m' pkt', xdp_dispatcher m pkt = Some (m', pkt', XDP_PASS)
    /\ px_target_wan_idx (d_pkt_ctx m') = (select_wan env r key).2.
Proof.
  destruct (wp_elim _ _ (xdp_dispatcher_wp m pkt)) as ([[m' pkt'] act] & E & Ha & _). cbn in Ha. subst act.
  exists m', pkt'. split; [done|].
  destruct (classified_key (px_reset (d_pkt_ctx m)) pkt key Hkey Hplain) as (c & Ec & <- & Hh).
  destruct (select_new env r (router_key c) Hlocal Hsticky) as (l & g & ->).
  unfold xdp_dispatcher in E. rewrite tail_call_filled in E by apply Hprogs. unfold xdp_classifier in E. cbn [d_pkt_ctx with_ctx] in E.
  rewrite Ec in E. cbn [mbind option_bind fst snd] in E. rewrite tail_call_filled in E by apply Hprogs.
  set (m1 := with_ctx c _) in E.
  rewrite <- (lb_dispatch_agrees env m1 (with_sticky (with_local r l) g) Hlut Htab Hdrain Hlpm Hpol); [|..|done|done|done].
  - rewrite <- (lb_select_new m1) by done. unfold xdp_lb in E. destruct (lb_select m1) as [m2 t] eqn:Es. cbn [snd].
    assert (Hp : d_xdp_progs m2 PROG_SNAT = true) by (apply lb_select_progs in Es; rewrite Es; apply Hprogs).
    rewrite tail_call_filled in E by exact Hp. apply snat_keeps_target in E. by rewrite E.
  - by apply andb_true_iff in Hplain as [Hq%negb_true_iff _].
Qed.

(** ** Witnesses *)

Module DispDemo.
Definition entry (ip weight active : Z) : bpf_wan_entry := BpfWanEntry 1 2 ip 0 weight active 100 257 0 1500.
Definition table : gmap Z bpf_wan_entry := {[ 0 := entry 0 0 0; 1 := entry 16909060 10 1 ]}.
Definition pctx : xdp_pkt_ctx := XdpPktCtx 0 0 0 0 0 0 0 0 0 0 0.
Definition m0 : disp_maps (lru flow_key bpf_session_val) :=
  DispMaps (fun _ => true) pctx ∅ (entry_of <$> table) (Lru 16 []) ∅.
Definition classified : xdp_pkt_ctx := default (pctx) (fst <$> classify (px_reset pctx) (sample_tcp 2)).
Definition r0 : router_maps (lru flow_5tuple bpf_session_val) (lru flow_5tuple bpf_session_val) :=
  RouterMaps ∅ table (Lru 16 []) (Lru 16 []) ∅ ∅ ∅ (fun _ => None) zero_ctrl zero_global_stats [].
Definition env0 : xdp_env := XdpEnv 0 (fun _ => true) (fun _ _ => None) (fun _ _ => None).

Lemma table_cases (P : Z -> wan_entry -> Prop) :
  P 0 (entry_of (entry 0 0 0)) -> P 1 (entry_of (entry 16909060 10 1)) -> (forall i, P i zero_entry) ->
  forall i e, entry_lookup m0 i = Some e -> P i e.
Proof.
  intros H0 H1 Hz i e [_ ->]%array_lookup_inv. cbn [d_wan_table m0]. rewrite lookup_fmap. unfold table.
  destruct (decide (i = 0)) as [-> | N0]; [exact H0|]. destruct (decide (i = 1)) as [-> | N1]; [exact H1|].
  rewrite lookup_insert_ne, lookup_singleton_ne by done. apply Hz.
Qed.

Lemma sample_plain : plain_ipv4 (sample_tcp 2).
Proof.
  split_and!; [vm_compute; repeat (constructor; [split; (discriminate || reflexivity)|]); constructor|cbn; lia|].
  exists 69. split_and!; [reflexivity|reflexivity|vm_compute; discriminate].
Qed.

Lemma dispatcher_forwards_witness :
  exists m' pkt' t e', xdp_dispatcher m0 (sample_tcp 2) = Some (m', pkt', XDP_PASS)
    /\ px_target_wan_idx (d_pkt_ctx m') = t /\ entry_lookup m0 t = Some e' /\ disp_usable e' = true.
Proof.
  destruct (dispatcher_forwards m0 (sample_tcp 2) classified 1 (entry_of (entry 16909060 10 1)))
    as (m' & pkt' & t & e' & H1 & H2 & H3 & H4 & _).
  - reflexivity.
  - apply sample_plain.
  - vm_compute. reflexivity.
  - exact (table_cases (fun _ e => 0 <= de_weight e) ltac:(by_eval) ltac:(by_eval) ltac:(intros; by_eval)).
  - exact (table_cases (fun _ e => is_u32 (de_ip_addr e)) ltac:(by_eval) ltac:(by_eval) ltac:(intros; by_eval)).
  - reflexivity.
  - reflexivity.
  - exists m', pkt', t, e'. split; [exact H1|]. split; [exact H2|]. split; [exact H3|exact H4].
Defined.

Definition sample_flow : flow_5tuple := default (Flow5 0 0 0 0 0 0 0) (mjoin (parse_flow (sample_tcp 2))).
Lemma dispatcher_agrees_witness :
  exists m' pkt', xdp_dispatcher m0 (sample_tcp 2) = Some (m', pkt', XDP_PASS)
    /\ px_target_wan_idx (d_pkt_ctx m') = (select_wan env0 r0 sample_flow).2 /\ (select_wan env0 r0 sample_flow).2 = 1.
Proof.
  destruct (dispatcher_agrees env0 m0 r0 (sample_tcp 2) sample_flow) as (m' & pkt' & H1 & H2); try (vm_compute; reflexivity).
  - intros i e [_ ->]%array_lookup_inv. cbn [wan_table_map r0]. unfold table.
    destruct (decide (i = 0)) as [-> | N0]; [reflexivity|]. destruct (decide (i = 1)) as [-> | N1]; [reflexivity|].
    rewrite lookup_insert_ne, lookup_singleton_ne by done. reflexivity.
  - exists m', pkt'. split; [exact H1|]. split; [exact H2|]. vm_compute. reflexivity.
Defined.
End DispDemo.
