(* ===== verification/BpfLoader.v ===== *)
(** * The BPF loader ([src/src/bpf_loader.c], built with libbpf)

    What user space writes into the kernel's maps and reads back.  The kernel side
    is a record of map contents, [kernel_maps]; libbpf's answers when the object
    is loaded or attached are arguments; a map of an invalid file descriptor is
    not touched. *)

From S2P Require Import Prelude Fluxwan Ipv4 Bpf XdpRouter.

(** ** State *)

Inductive xdp_mode := Drv | Skb.

Record map_fds := MapFds {
  fd_maglev_lut : Z;
  fd_wan_table : Z;
  fd_local_lru : Z;
  fd_sticky_flow : Z;
  fd_percpu_stats : Z;
  fd_ctrl_map : Z;
  fd_global_stats : Z;
  fd_policy_route : Z;
  fd_maglev_group : Z;
  fd_lpm_subnet : Z
}.

Record bpf_loader_ctx := BpfLoaderCtx {
  bl_prog : bool;
  bl_xdp_link : bool;
  bl_fds : map_fds;
  bl_is_attached : bool;
  bl_ifindex_lan : Z;
  bl_obj_path : cstring;
  bl_num_cpus : Z;
  bl_wan_ifnames : gmap Z cstring;
  bl_net : gmap Z (Z * Z * Z * Z)
}.

Record kernel_maps := KernelMaps {
  km_wan_table : gmap Z bpf_wan_entry;
  km_maglev_lut : gmap Z Z;
  km_policy_route : gmap Z bpf_policy_entry;
  km_maglev_group : gmap Z Z;
  km_lpm : list (Z * Z * Z);
  km_ctrl : router_ctrl;
  km_drv : bool;
  km_skb : bool
}.

Definition with_wan_table (k : kernel_maps) (t : gmap Z bpf_wan_entry) : kernel_maps :=
  KernelMaps t (km_maglev_lut k) (km_policy_route k) (km_maglev_group k) (km_lpm k) (km_ctrl k)
    (km_drv k) (km_skb k).
Definition with_maglev_lut (k : kernel_maps) (t : gmap Z Z) : kernel_maps :=
  KernelMaps (km_wan_table k) t (km_policy_route k) (km_maglev_group k) (km_lpm k) (km_ctrl k)
    (km_drv k) (km_skb k).
Definition with_policy (k : kernel_maps) (t : gmap Z bpf_policy_entry) : kernel_maps :=
  KernelMaps (km_wan_table k) (km_maglev_lut k) t (km_maglev_group k) (km_lpm k) (km_ctrl k)
    (km_drv k) (km_skb k).
Definition with_group (k : kernel_maps) (t : gmap Z Z) : kernel_maps :=
  KernelMaps (km_wan_table k) (km_maglev_lut k) (km_policy_route k) t (km_lpm k) (km_ctrl k)
    (km_drv k) (km_skb k).
Definition with_lpm (k : kernel_maps) (t : list (Z * Z * Z)) : kernel_maps :=
  KernelMaps (km_wan_table k) (km_maglev_lut k) (km_policy_route k) (km_maglev_group k) t
    (km_ctrl k) (km_drv k) (km_skb k).
Definition with_ctrl (k : kernel_maps) (c : router_ctrl) : kernel_maps :=
  KernelMaps (km_wan_table k) (km_maglev_lut k) (km_policy_route k) (km_maglev_group k) (km_lpm k)
    c (km_drv k) (km_skb k).
Definition with_hook (k : kernel_maps) (m : xdp_mode) (on : bool) : kernel_maps :=
  KernelMaps (km_wan_table k) (km_maglev_lut k) (km_policy_route k) (km_maglev_group k) (km_lpm k)
    (km_ctrl k) (match m with Drv => on | Skb => km_drv k end)
    (match m with Drv => km_skb k | Skb => on end).

(** [bpf_map_update_elem] on an array of [n] elements. *)
Definition array_update {V} (n : Z) (m : gmap Z V) (k : Z) (v : V) : option (gmap Z V) :=
  if (0 <=? k) && (k <? n) then Some (<[k := v]> m) else None.

(** ** Loading and attaching *)

Definition BPF_OBJ_DEFAULT : cstring := "/opt/fluxwan/bpf/xdp_router.bpf.o".

Definition no_fds : map_fds := MapFds (-1) (-1) 0 (-1) (-1) (-1) (-1) (-1) (-1) (-1).

(** The first readable candidate path. *)
Fixpoint choose_path (readable : cstring -> bool) (candidates : list cstring) : option cstring :=
  match candidates with
  | [] => None
  | c :: rest => if readable c then Some c else choose_path readable rest
  end.

(** [loaded]: what libbpf answers for the chosen path, [None] when the object cannot
    be opened or loaded, otherwise whether the program is found and the
    descriptors of its maps.  A null path ends the candidate list at once. *)
Definition bpf_loader_init (calloc_ok : bool) (nproc : Z) (readable : cstring -> bool)
    (loaded : cstring -> option (bool * map_fds)) (bpf_obj_path : option cstring)
    : option bpf_loader_ctx :=
  if negb calloc_ok then None
  else
    let num_cpus := if 0 <? nproc then nproc else 1 in
    let candidates :=
      match bpf_obj_path with
      | None => []
      | Some p => [p; BPF_OBJ_DEFAULT; bytes_of_string "bpf/xdp_router.bpf.o";
                   bytes_of_string "/opt/fluxwan/bpf/xdp_router.bpf.o";
                   bytes_of_string "./xdp_router.bpf.o"]
      end in
    let chosen := match choose_path readable candidates with
                  | Some p => p
                  | None => default BPF_OBJ_DEFAULT bpf_obj_path
                  end in
    let path := take 255 chosen in
    Some match loaded path with
         | Some (true, fds) => BpfLoaderCtx true false fds false 0 path num_cpus ∅ ∅
         | _ => BpfLoaderCtx false false no_fds false 0 path num_cpus ∅ ∅
         end.

Definition set_attached (ctx : bpf_loader_ctx) (link attached : bool) (ifindex : Z)
    : bpf_loader_ctx :=
  BpfLoaderCtx (bl_prog ctx) link (bl_fds ctx) attached ifindex (bl_obj_path ctx)
    (bl_num_cpus ctx) (bl_wan_ifnames ctx) (bl_net ctx).

(** [attach m]: whether the kernel accepts the program in mode [m]; [link_ok]:
    whether [bpf_program__attach_xdp] succeeds (in driver mode). *)
Definition bpf_loader_attach_xdp (if_nametoindex : cstring -> Z) (attach : xdp_mode -> bool)
    (link_ok : bool) (ctx : bpf_loader_ctx) (k : kernel_maps) (ifname : option cstring)
    : bpf_loader_ctx * kernel_maps * Z :=
  match ifname with
  | None => (ctx, k, -1)
  | Some ifname =>
      let ifindex := if_nametoindex ifname in
      if ifindex =? 0 then (set_attached ctx (bl_xdp_link ctx) (bl_is_attached ctx) 0, k, -1)
      else if bl_prog ctx then
        if attach Drv then (set_attached ctx (bl_xdp_link ctx) true ifindex, with_hook k Drv true, 0)
        else if link_ok then (set_attached ctx true true ifindex, with_hook k Drv true, 0)
        else if attach Skb then (set_attached ctx false true ifindex, with_hook k Skb true, 0)
        else (set_attached ctx false (bl_is_attached ctx) ifindex, k, -1)
      else (set_attached ctx (bl_xdp_link ctx) true ifindex, k, 0)
  end.

(** Destroying the link removes what it attached; [bpf_xdp_attach] with descriptor
    -1 removes the program of the mode in its flags. *)
Definition bpf_loader_detach_xdp (ctx : option bpf_loader_ctx) (k : kernel_maps)
    : option bpf_loader_ctx * kernel_maps * Z :=
  match ctx with
  | None => (None, k, 0)
  | Some c =>
      if negb (bl_is_attached c) then (Some c, k, 0)
      else
        let k := if bl_xdp_link c then with_hook k Drv false
                 else if 0 <? bl_ifindex_lan c then with_hook k Skb false else k in
        (Some (set_attached c false false (bl_ifindex_lan c)), k, 0)
  end.

(** The kernel's tables after the loader was freed. *)
Definition bpf_loader_close (ctx : option bpf_loader_ctx) (k : kernel_maps) : kernel_maps :=
  let '(_, k, _) := bpf_loader_detach_xdp ctx k in k.

(** ** Writing the tables *)

Definition wan_entry_of (ifindex wan_idx : Z) (wan : wan_config_t) : bpf_wan_entry :=
  let draining := bool_decide (w_state wan = WAN_STATE_DRAINING) in
  BpfWanEntry (w_id wan) (u32 ifindex) (w_ip_addr wan) (w_gateway wan)
    (if draining then 0 else w_dynamic_weight wan)
    (if bool_decide (w_state wan = WAN_STATE_DOWN) then 0 else 1)
    (w_table_id wan) (u32 (256 + wan_idx + 1)) (if draining then 1 else 0)
    (if w_mtu wan =? 0 then 1500 else w_mtu wan).

Definition set_ifname (ctx : bpf_loader_ctx) (i : Z) (name : cstring) : bpf_loader_ctx :=
  BpfLoaderCtx (bl_prog ctx) (bl_xdp_link ctx) (bl_fds ctx) (bl_is_attached ctx)
    (bl_ifindex_lan ctx) (bl_obj_path ctx) (bl_num_cpus ctx)
    (<[i := take 31 name]> (bl_wan_ifnames ctx)) (bl_net ctx).

Definition bpf_loader_update_wan_map (if_nametoindex : cstring -> Z) (ctx : bpf_loader_ctx)
    (k : kernel_maps) (wan_idx : Z) (wan : wan_config_t) : bpf_loader_ctx * kernel_maps * Z :=
  if MAX_WANS <=? wan_idx then (ctx, k, -1)
  else
    let ctx := match w_name wan with [] => ctx | name => set_ifname ctx wan_idx name end in
    let entry := wan_entry_of (if_nametoindex (w_name wan)) wan_idx wan in
    if 0 <=? fd_wan_table (bl_fds ctx) then
      match array_update MAX_EBPF_WANS (km_wan_table k) wan_idx entry with
      | Some t => (ctx, with_wan_table k t, 0)
      | None => (ctx, k, -1)
      end
    else (ctx, k, 0).

(** One [bpf_map_update_batch] call: [batch] consecutive slots from [i]. *)
Definition batch_update (n : Z) (m : gmap Z Z) (lut : Z -> Z) (i batch : Z) : gmap Z Z :=
  for_loop (Z.to_nat batch) i
    (fun j m => match array_update n m j (lut j) with Some m => m | None => m end) m.

(** The [while (i < ring_size)] over batches of at most 256; [None] without fuel. *)
Fixpoint batch_loop (fuel : nat) (n : Z) (m : gmap Z Z) (lut : Z -> Z) (i ring_size : Z)
    : option (gmap Z Z) :=
  if i <? ring_size then
    match fuel with
    | O => None
    | S fuel =>
        let batch := if ring_size - i <? 256 then ring_size - i else 256 in
        batch_loop fuel n (batch_update n m lut i batch) lut (i + batch) ring_size
    end
  else Some m.

Definition bpf_loader_update_maglev_lut (ctx : bpf_loader_ctx) (k : kernel_maps) (lut : Z -> Z)
    (ring_size : Z) : option (kernel_maps * Z) :=
  if ring_size =? 0 then Some (k, -1)
  else
    let ring_size := if MAGLEV_RING_SIZE <? ring_size then MAGLEV_RING_SIZE else ring_size in
    if 0 <=? fd_maglev_lut (bl_fds ctx) then
      m ← batch_loop 257 MAGLEV_RING_SIZE (km_maglev_lut k) lut 0 ring_size;
      Some (with_maglev_lut k m, 0)
    else Some (k, 0).

Definition policy_entry_of (routes : option (list policy_route_t)) (count i : Z)
    : bpf_policy_entry :=
  match routes with
  | Some rs =>
      match (if i <? count then rs !! Z.to_nat i else None) with
      | Some r =>
          if pr_enabled r
          then BpfPolicyEntry (pr_subnet_ip r) (pr_netmask r) (pr_target_group_id r) 1
          else zero_policy_entry
      | None => zero_policy_entry
      end
  | None => zero_policy_entry
  end.

Definition bpf_loader_update_policy_routes (ctx : bpf_loader_ctx) (k : kernel_maps)
    (routes : option (list policy_route_t)) (count : Z) : kernel_maps * Z :=
  if 0 <=? fd_policy_route (bl_fds ctx) then
    (with_policy k (for_loop 16 0 (fun i m =>
       match array_update MAX_BPF_POLICIES m i (policy_entry_of routes count i) with
       | Some m => m
       | None => m
       end) (km_policy_route k)), 0)
  else (k, 0).

Definition bpf_loader_update_group_maglev_lut (ctx : bpf_loader_ctx) (k : kernel_maps)
    (group_id : Z) (lut : Z -> Z) (ring_size : Z) : kernel_maps * Z :=
  if 8 <=? group_id then (k, -1)
  else if 0 <=? fd_maglev_group (bl_fds ctx) then
    let base := u32 (group_id * MAGLEV_RING_SIZE) in
    (with_group k (for_loop (Z.to_nat (Z.min ring_size MAGLEV_RING_SIZE)) 0 (fun i m =>
       match array_update (MAX_BPF_GROUPS * MAGLEV_RING_SIZE) m (u32 (base + i)) (lut i) with
       | Some m => m
       | None => m
       end) (km_maglev_group k)), 0)
  else (k, 0).

Definition bpf_loader_update_ctrl_map (ctx : bpf_loader_ctx) (k : kernel_maps)
    (lan_ip active_wans snat_enabled debug_enabled : Z) : kernel_maps * Z :=
  if 0 <=? fd_ctrl_map (bl_fds ctx) then
    (with_ctrl k (RouterCtrl lan_ip active_wans snat_enabled debug_enabled
       ((if nz snat_enabled then 1 else 0) .| (if nz debug_enabled then 2 else 0)) 500), 0)
  else (k, 0).

(** [update_err]: the kernel's answer to the trie update. *)
Definition bpf_loader_update_lpm_route (update_err : Z) (ctx : bpf_loader_ctx) (k : kernel_maps)
    (subnet_ip prefixlen target_wan_idx : Z) : kernel_maps * Z :=
  if 0 <=? fd_lpm_subnet (bl_fds ctx) then
    if nz update_err then (k, update_err)
    else (with_lpm k ((prefixlen, subnet_ip, target_wan_idx)
            :: filter (fun e => e.1 <> (prefixlen, subnet_ip)) (km_lpm k)), 0)
  else (k, 0).

(** ** Reading statistics *)

(** User space's layout of the per-WAN statistics: five counters. *)
Definition user_stats_words : Z := 5.
Definition kernel_stats_words : Z := 6.

Definition words_of_stats (s : bpf_wan_stats) : list Z :=
  [ws_rx_packets s; ws_rx_bytes s; ws_tx_packets s; ws_tx_bytes s; ws_snat_packets s;
   ws_dropped_packets s].

(** [bpf_map_lookup_elem] on a per-CPU array copies one kernel value per possible
    CPU to the buffer: a fault when they do not fit. *)
Definition percpu_copy (buf_words : Z) (vals : list bpf_wan_stats) : option (list Z) :=
  let ws := concat (words_of_stats <$> vals) in
  if Z.of_nat (length ws) <=? buf_words
  then Some (ws ++ replicate (Z.to_nat (buf_words - Z.of_nat (length ws))) 0)
  else None.

(** The sums over the buffer read as an array of user-space structures:
    received bytes and packets, sent bytes and packets. *)
Definition sum_user_stats (num_cpus : Z) (buf : list Z) : option (Z * Z * Z * Z) :=
  for_loop (Z.to_nat num_cpus) 0 (fun cpu acc =>
    '(rb, rp, tb, tp) ← acc;
    rp1 ← ld8 buf (user_stats_words * cpu);
    rb1 ← ld8 buf (user_stats_words * cpu + 1);
    tp1 ← ld8 buf (user_stats_words * cpu + 2);
    tb1 ← ld8 buf (user_stats_words * cpu + 3);
    Some (u64 (rb + rb1), u64 (rp + rp1), u64 (tb + tb1), u64 (tp + tp1))) (Some (0, 0, 0, 0)).

(** [percpu]: the values of the WAN, one per possible CPU, or [None] when the lookup
    fails; [sysfs]: the interface's counters as read from sysfs, each optional. *)
Definition bpf_loader_get_percpu_wan_stats (calloc_ok : bool)
    (percpu : option (list bpf_wan_stats)) (sysfs : cstring -> option Z * option Z * option Z * option Z)
    (ctx : bpf_loader_ctx) (wan_idx : Z) : option (bpf_loader_ctx * option (Z * Z * Z * Z)) :=
  if MAX_WANS <=? wan_idx then Some (ctx, None)
  else if (0 <=? fd_percpu_stats (bl_fds ctx)) && calloc_ok then
    match percpu with
    | Some vals =>
        buf ← percpu_copy (user_stats_words * bl_num_cpus ctx) vals;
        r ← sum_user_stats (bl_num_cpus ctx) buf;
        Some (ctx, Some r)
    | None => Some (ctx, Some (0, 0, 0, 0))
    end
  else
    let '(rb, rp, tb, tp) := default (0, 0, 0, 0) (bl_net ctx !! wan_idx) in
    let fresh :=
      match bl_wan_ifnames ctx !! wan_idx with
      | Some (c :: n) =>
          let '(rb', rp', tb', tp') := sysfs (c :: n) in
          (default rb rb', default rp rp', default tb tb', default tp tp')
      | _ => (rb, rp, tb, tp)
      end in
    Some (BpfLoaderCtx (bl_prog ctx) (bl_xdp_link ctx) (bl_fds ctx) (bl_is_attached ctx)
            (bl_ifindex_lan ctx) (bl_obj_path ctx) (bl_num_cpus ctx) (bl_wan_ifnames ctx)
            (<[wan_idx := fresh]> (bl_net ctx)), Some fresh).

(** The two counters of received traffic only. *)
Definition bpf_loader_get_wan_stats (calloc_ok : bool) (percpu : option (list bpf_wan_stats))
    (sysfs : cstring -> option Z * option Z * option Z * option Z) (ctx : bpf_loader_ctx) (wan_idx : Z)
    : option (bpf_loader_ctx * option (Z * Z)) :=
  r ← bpf_loader_get_percpu_wan_stats calloc_ok percpu sysfs ctx wan_idx;
  Some (r.1, match r.2 with Some (rb, rp, _, _) => Some (rb, rp) | None => None end).

Definition add_global (a b : router_global_stats) : router_global_stats :=
  RouterGlobalStats (u64 (gs_total_rx_packets a + gs_total_rx_packets b))
    (u64 (gs_total_rx_bytes a + gs_total_rx_bytes b))
    (u64 (gs_total_snat_rewrites a + gs_total_snat_rewrites b))
    (u64 (gs_total_sticky_hits a + gs_total_sticky_hits b))
    (u64 (gs_total_maglev_dispatches a + gs_total_maglev_dispatches b))
    (u64 (gs_total_failovers a + gs_total_failovers b))
    (u64 (gs_total_drops a + gs_total_drops b))
    (u64 (gs_total_session_evictions a + gs_total_session_evictions b))
    (gs_total_hc_probes_rx a).

(** [percpu] as above, of exactly [num_cpus] values; the output buffer keeps its
    contents [out] when the lookup fails. *)
Definition bpf_loader_get_global_stats (calloc_ok : bool)
    (percpu : option (list router_global_stats)) (ctx : bpf_loader_ctx)
    (out : router_global_stats) : router_global_stats * Z :=
  if (0 <=? fd_global_stats (bl_fds ctx)) && calloc_ok then
    match percpu with
    | Some vals => (foldl add_global zero_global_stats vals, 0)
    | None => (out, 0)
    end
  else (RouterGlobalStats 10240 (10240 * 128) 0 8000 2240 0 0 0 0, 0).

(** ** Table writes *)

Definition put_slot {V} (n : Z) (key : Z -> Z) (val : Z -> V) (j : Z) (m : gmap Z V) : gmap Z V :=
  match array_update n m (key j) (val j) with Some m => m | None => m end.

(** A loop of array updates with consecutive keys in range. *)
Lemma for_loop_put {V} n cnt i key val (m : gmap Z V) base x :
  (forall j, i <= j < i + Z.of_nat cnt -> key j = base + j /\ 0 <= base + j < n) ->
  for_loop cnt i (put_slot n key val) m !! x =
    if bool_decide (base + i <= x < base + i + Z.of_nat cnt) then Some (val (x - base)) else m !! x.
Proof.
  revert i m. induction cnt as [|cnt IH]; intros i m Hk; cbn [for_loop].
  { rewrite bool_decide_false; [done|lia]. }
  rewrite IH by (intros; apply Hk; lia). destruct (Hk i) as [Ek Hi]; [lia|].
  unfold put_slot at 1. unfold array_update. rewrite Ek.
  destruct (Z.leb_spec 0 (base + i)), (Z.ltb_spec (base + i) n); try lia. cbn [andb].
  destruct (decide (x = base + i)) as [->|Hne].
  - rewrite bool_decide_false, bool_decide_true by lia. rewrite lookup_insert_eq.
    do 2 f_equal. lia.
  - rewrite lookup_insert_ne by done.
    destruct (bool_decide_reflect (base + (i + 1) <= x < base + (i + 1) + Z.of_nat cnt)),
      (bool_decide_reflect (base + i <= x < base + i + Z.of_nat (S cnt))); (done || lia).
Qed.

Lemma batch_update_lookup n m lut i batch x :
  0 <= i -> 0 <= batch -> i + batch <= n ->
  batch_update n m lut i batch !! x =
    if bool_decide (i <= x < i + batch) then Some (lut x) else m !! x.
Proof.
  intros Hi Hb Hn. unfold batch_update.
  change (for_loop (Z.to_nat batch) i (put_slot n (fun j => j) lut) m !! x = 
    if bool_decide (i <= x < i + batch) then Some (lut x) else m !! x).
  rewrite (for_loop_put _ _ _ _ _ _ 0) by (intros; lia).
  rewrite Z2Nat.id, Z.add_0_l, Z.sub_0_r by lia. done.
Qed.

(** The batched loop writes every slot, and 257 batches are enough. *)
Lemma batch_loop_spec fuel n m lut i ring_size :
  0 <= i <= ring_size -> ring_size <= n -> ring_size - i <= 256 * Z.of_nat fuel ->
  exists m', batch_loop fuel n m lut i ring_size = Some m' /\
    forall x, m' !! x = if bool_decide (i <= x < ring_size) then Some (lut x) else m !! x.
Proof.
  revert m i. induction fuel as [|fuel IH]; intros m i Hi Hn Hf; cbn [batch_loop];
    destruct (Z.ltb_spec i ring_size) as [Hlt|Hge]; try lia.
  - exists m. split; [done|]. intros x. rewrite bool_decide_false; [done|lia].
  - set (batch := if ring_size - i <? 256 then ring_size - i else 256).
    assert (0 < batch <= ring_size - i /\ (batch = 256 \/ batch = ring_size - i)) as [Hb Hb']
      by (unfold batch; destruct (Z.ltb_spec (ring_size - i) 256); lia).
    destruct (IH (batch_update n m lut i batch) (i + batch)) as (m' & E & Hm'); [lia..|].
    exists m'. split; [done|]. intros x. rewrite Hm', batch_update_lookup by lia.
    destruct (bool_decide_reflect (i + batch <= x < ring_size)),
      (bool_decide_reflect (i <= x < i + batch)), (bool_decide_reflect (i <= x < ring_size));
      (done || lia).
  - exists m. split; [done|]. intros x. rewrite bool_decide_false; [done|lia].
Qed.

Lemma update_maglev_lut_spec ctx k lut :
  0 <= fd_maglev_lut (bl_fds ctx) ->
  exists m', bpf_loader_update_maglev_lut ctx k lut MAGLEV_RING_SIZE = Some (with_maglev_lut k m', 0)
    /\ forall x, 0 <= x < MAGLEV_RING_SIZE -> m' !! x = Some (lut x).
Proof.
  intros Hfd. unfold bpf_loader_update_maglev_lut.
  assert (Hr : MAGLEV_RING_SIZE = 65537) by reflexivity.
  destruct (Z.eqb_spec MAGLEV_RING_SIZE 0); [lia|]. rewrite Z.ltb_irrefl.
  destruct (Z.leb_spec 0 (fd_maglev_lut (bl_fds ctx))); [|lia].
  destruct (batch_loop_spec 257 MAGLEV_RING_SIZE (km_maglev_lut k) lut 0 MAGLEV_RING_SIZE)
    as (m' & E & Hm); [lia..|].
  rewrite E. cbn. exists m'. split; [done|]. intros x Hx. rewrite Hm, bool_decide_true; done.
Qed.

(** A group's ring goes to the block the router reads it from. *)
Lemma update_group_lut_spec ctx k g lut x :
  0 <= fd_maglev_group (bl_fds ctx) -> 0 <= g < MAX_BPF_GROUPS ->
  km_maglev_group (fst (bpf_loader_update_group_maglev_lut ctx k g lut MAGLEV_RING_SIZE)) !! x
  = if bool_decide (g * MAGLEV_RING_SIZE <= x < g * MAGLEV_RING_SIZE + MAGLEV_RING_SIZE)
    then Some (lut (x - g * MAGLEV_RING_SIZE)) else km_maglev_group k !! x.
Proof.
  intros Hfd Hg. unfold bpf_loader_update_group_maglev_lut.
  assert (Hr : MAGLEV_RING_SIZE = 65537) by reflexivity. unfold MAX_BPF_GROUPS in *.
  destruct (Z.leb_spec 8 g); [lia|]. destruct (Z.leb_spec 0 (fd_maglev_group (bl_fds ctx))); [|lia].
  cbv zeta. cbn [fst with_group km_maglev_group]. rewrite Z.min_id.
  rewrite (u32_small (g * MAGLEV_RING_SIZE)) by (unfold is_u32; lia).
  change (for_loop (Z.to_nat MAGLEV_RING_SIZE) 0
    (put_slot (8 * MAGLEV_RING_SIZE) (fun i => u32 (g * MAGLEV_RING_SIZE + i)) lut)
    (km_maglev_group k) !! x = 
    if bool_decide (g * MAGLEV_RING_SIZE <= x < g * MAGLEV_RING_SIZE + MAGLEV_RING_SIZE)
    then Some (lut (x - g * MAGLEV_RING_SIZE)) else km_maglev_group k !! x).
  rewrite (for_loop_put _ _ _ _ _ _ (g * MAGLEV_RING_SIZE)).
  - rewrite Z2Nat.id, !Z.add_0_r by lia. done.
  - intros j Hj. rewrite u32_small by (unfold is_u32; lia). lia.
Qed.

(** The policies of the router are the enabled ones, in their order. *)
Lemma update_policy_spec ctx k routes x :
  0 <= fd_policy_route (bl_fds ctx) -> 0 <= x < MAX_BPF_POLICIES ->
  km_policy_route (fst (bpf_loader_update_policy_routes ctx k routes (default 0
     (Z.of_nat ∘ length <$> routes)))) !! x
  = Some (policy_entry_of routes (default 0 (Z.of_nat ∘ length <$> routes)) x).
Proof.
  intros Hfd Hx. unfold bpf_loader_update_policy_routes.
  destruct (Z.leb_spec 0 (fd_policy_route (bl_fds ctx))); [|lia].
  cbn [fst with_policy km_policy_route]. set (c := default 0 _).
  change (for_loop 16 0 (put_slot MAX_BPF_POLICIES (fun i => i) (policy_entry_of routes c))
    (km_policy_route k) !! x = Some (policy_entry_of routes c x)).
  rewrite (for_loop_put _ _ _ _ _ _ 0) by (unfold MAX_BPF_POLICIES; intros; lia).
  rewrite bool_decide_true by (unfold MAX_BPF_POLICIES in Hx; cbn; lia). do 2 f_equal. lia.
Qed.

(** ** Theorems *)

(** Reading the per-CPU counters of a WAN overruns the buffer: the kernel copies
    six counters per possible CPU where user space has room for five per online
    CPU.  Whatever the counters are, the read faults. *)
Theorem percpu_stats_overrun vals sysfs ctx i :
  i < MAX_WANS -> 0 <= fd_percpu_stats (bl_fds ctx) -> 0 < bl_num_cpus ctx ->
  bl_num_cpus ctx <= Z.of_nat (length vals) ->
  bpf_loader_get_percpu_wan_stats true (Some vals) sysfs ctx i = None.
Proof.
  intros Hi Hfd Hn Hv. unfold bpf_loader_get_percpu_wan_stats.
  destruct (Z.leb_spec MAX_WANS i); [lia|].
  destruct (Z.leb_spec 0 (fd_percpu_stats (bl_fds ctx))); [|lia]. cbn [andb].
  assert (Hlen : Z.of_nat (length (concat (words_of_stats <$> vals))) = 6 * Z.of_nat (length vals)).
  { clear. induction vals as [|v vals IH]; [done|].
    cbn [fmap list_fmap concat]. rewrite length_app. cbn [length words_of_stats] in *. lia. }
  unfold percpu_copy. rewrite Hlen. unfold user_stats_words.
  destruct (Z.leb_spec (6 * Z.of_nat (length vals)) (5 * bl_num_cpus ctx)); [lia|done].
Qed.

(** Detaching does not undo the preferred attachment: after a successful attach in
    driver mode, [bpf_loader_detach_xdp] removes a generic-mode program that is not
    there, reports success, and the router stays on the interface. *)
Theorem detach_leaves_driver_mode ifx attach link_ok ctx k ifname ctx' k' :
  bl_prog ctx = true -> bl_xdp_link ctx = false -> attach Drv = true -> 0 < ifx ifname ->
  bpf_loader_attach_xdp ifx attach link_ok ctx k (Some ifname) = (ctx', k', 0) ->
  exists ctx'' k'', bpf_loader_detach_xdp (Some ctx') k' = (Some ctx'', k'', 0)
    /\ bl_is_attached ctx'' = false /\ km_drv k'' = true.
Proof.
  intros Hp Hl Ha Hi. unfold bpf_loader_attach_xdp.
  destruct (Z.eqb_spec (ifx ifname) 0); [lia|]. rewrite Hp, Ha, Hl. intros [= <- <-].
  unfold bpf_loader_detach_xdp. cbn [bl_is_attached set_attached negb bl_xdp_link bl_ifindex_lan].
  destruct (Z.ltb_spec 0 (ifx ifname)); [|lia]. by eexists _, _.
Qed.

(** No policy of the table matches: the default group. *)
Lemma policy_group_none {L G} n p (m : router_maps L G) src :
  (forall x pe, p <= x < p + Z.of_nat n ->
     array_lookup MAX_BPF_POLICIES zero_policy_entry (policy_route_map m) x = Some pe ->
     pe_is_active pe = 0 \/ src .& pe_netmask pe <> pe_subnet_ip pe) ->
  policy_group n p m src = 0.
Proof.
  revert p. induction n as [|n IH]; intros p H; cbn [policy_group]; [done|].
  assert (policy_group n (p + 1) m src = 0) as ->.
  { apply IH. intros x pe Hx. apply H. lia. }
  destruct (array_lookup _ _ _ p) as [pe|] eqn:E; [|done].
  destruct (H p pe) as [Ha|Hm]; [lia|done| |]; unfold nz.
  - by rewrite Ha.
  - destruct (Z.eqb_spec (src .& pe_netmask pe) (pe_subnet_ip pe)); [done|]. by rewrite andb_false_r.
Qed.

(** The address of a subnet is not masked when it is read: a policy for a subnet
    given with host bits, such as 10.10.20.1/24, never applies.  With such a route
    as the only policy, the router's policy scan gives the default group for
    every source address. *)
Theorem host_bits_policy_dead {L G} ctx k ip p r (m : router_maps L G) src :
  0 <= fd_policy_route (bl_fds ctx) -> is_u32 ip -> 0 <= p <= 32 ->
  (pr_subnet_ip r, pr_netmask r, pr_prefix_len r)
  = parse_cidr_subnet (ip_to_str ip ++ 47 :: dec p) ->
  ip .& netmask_of p <> ip ->
  policy_route_map m = km_policy_route (fst (bpf_loader_update_policy_routes ctx k (Some [r]) 1)) ->
  policy_group 16 0 m src = 0.
Proof.
  intros Hfd Hip Hp Hr Hne Hm. rewrite cidr_parse_lemma in Hr by done. injection Hr as Hs Hn _.
  apply policy_group_none. intros x pe Hx. rewrite Hm. intros [Hx' ->]%array_lookup_inv.
  assert (km_policy_route (fst (bpf_loader_update_policy_routes ctx k (Some [r]) 1)) !! x
    = Some (policy_entry_of (Some [r]) 1 x)) as -> by apply (update_policy_spec ctx k (Some [r]) x Hfd Hx').
  cbn. unfold policy_entry_of.
  destruct (Z.ltb_spec x 1); [|by left]. replace x with 0 by lia. cbn.
  change ([r] !! Z.to_nat 0) with (Some r). cbv beta iota. destruct (pr_enabled r); [|by left]. right. cbn. rewrite Hs, Hn. intros <-.
  apply Hne. by rewrite <- Z.land_assoc, Z.land_diag.
Qed.

Definition sample_fds : map_fds := MapFds 3 4 5 6 7 8 9 10 11 12.
Definition sample_loader : bpf_loader_ctx :=
  BpfLoaderCtx true false sample_fds false 0 [] 2 ∅ ∅.
Definition sample_kernel : kernel_maps := KernelMaps ∅ ∅ ∅ ∅ [] zero_ctrl false false.

Lemma percpu_stats_overrun_witness :
  bpf_loader_get_percpu_wan_stats true (Some [zero_wan_stats; zero_wan_stats])
    (fun _ => (None, None, None, None)) sample_loader 0 = None.
Proof. apply percpu_stats_overrun; by_eval. Defined.

Lemma detach_leaves_driver_mode_witness :
  let r := bpf_loader_attach_xdp (fun _ => 2) (fun _ => true) true sample_loader sample_kernel
             (Some (bytes_of_string "eth0")) in
  exists ctx k, bpf_loader_detach_xdp (Some r.1.1) r.1.2 = (Some ctx, k, 0)
    /\ bl_is_attached ctx = false /\ km_drv k = true.
Proof.
  apply (detach_leaves_driver_mode (fun _ => 2) (fun _ => true) true sample_loader sample_kernel
    (bytes_of_string "eth0")); reflexivity.
Defined.

(** 10.10.20.1/24. *)
Definition sample_route : policy_route_t :=
  let '(ip, mask, p) := parse_cidr_subnet (bytes_of_string "10.10.20.1/24") in
  PolicyRoute (bytes_of_string "10.10.20.1/24") ip mask p [] 0 [] 1 [] true.

Definition sample_policy_maps : router_maps unit unit :=
  RouterMaps ∅ ∅ tt tt ∅
    (km_policy_route (fst (bpf_loader_update_policy_routes sample_loader sample_kernel
                             (Some [sample_route]) 1)))
    ∅ (fun _ => None) zero_ctrl zero_global_stats [].

Lemma host_bits_policy_dead_witness :
  policy_group 16 0 sample_policy_maps (str_to_ip "10.10.20.77") = 0.
Proof.
  apply (host_bits_policy_dead sample_loader sample_kernel 18090506 24 sample_route).
  - by_eval.
  - by_eval.
  - by_eval.
  - vm_compute. reflexivity.
  - vm_compute. discriminate.
  - reflexivity.
Defined.
