(* ===== verification/WanManager.v ===== *)
(** * The WAN manager ([src/src/wan_manager.c])

    State: the configuration, the loader with the kernel's tables, the default
    ring, the DHCP watchdog counters and the event log.  Calls into the parts of
    the system that only issue commands (routes, firewall, DHCP client, alerts)
    are recorded as effects, in order.  A log message is its format with its
    arguments. *)

From S2P Require Import Prelude Fluxwan Samples Ipv4 Maglev Bpf XdpRouter BpfLoader.

(** ** State *)

Inductive log_arg := AInt (n : Z) | AStr (s : cstring) | ARat (q : Q).

Record system_log_entry_t := SystemLogEntry {
  le_timestamp_sec : Z;
  le_time_str : cstring;
  le_level : cstring;
  le_format : string;
  le_args : list log_arg
}.

Inductive effect :=
  | NlRule (mark table prio : Z)
  | NlDefaultRoute (table gateway ifindex : Z)
  | RouteReplaceDev (dev : cstring) (table : Z)
  | WanNat (dev : cstring) (on : bool)
  | ShieldDrop (dev : cstring)
  | StealthTtl (dev : cstring) (ttl : Z)
  | ApplyConfiguration
  | PppoeStartAll
  | Telegram (fmt : string) (args : list log_arg)
  | AddrFlush (dev : cstring)
  | KillUdhcpc (dev : cstring)
  | RemoveLease (dev : cstring)
  | InstallDhcpHook
  | WriteTableFile (dev : cstring) (table : Z)
  | LinkUp (dev : cstring)
  | StartUdhcpc (dev : cstring)
  | BindRoutes (gateway ip dev : cstring) (table : Z) (proxied : bool).

Record wan_manager_ctx := WanManagerCtx {
  wm_config : fluxwan_config_t;
  wm_nl : bool;
  wm_bpf : option bpf_loader_ctx;
  wm_kernel : kernel_maps;
  wm_pppoe : bool;
  wm_maglev_lut : gmap Z Z;
  wm_last_dhcp_renew_ms : gmap Z Z;
  wm_dhcp_dead_cycles : gmap Z Z;
  wm_last_dhcp_rebind_ms : gmap Z Z;
  wm_logs : list system_log_entry_t;
  wm_effects : list effect
}.

(** What the surroundings answer: the clock, the licence gate, interface indices,
    and the contents of uninitialised stack memory in the ring builder. *)
Record wm_env := WmEnv {
  ev_now_sec : Z;
  ev_time_str : cstring;
  ev_authorized : bool;
  ev_nametoindex : cstring -> Z;
  ev_stack : nat -> slot
}.

Definition set_config (c : fluxwan_config_t) (x : wan_manager_ctx) : wan_manager_ctx :=
  WanManagerCtx c (wm_nl x) (wm_bpf x) (wm_kernel x) (wm_pppoe x) (wm_maglev_lut x)
    (wm_last_dhcp_renew_ms x) (wm_dhcp_dead_cycles x) (wm_last_dhcp_rebind_ms x) (wm_logs x)
    (wm_effects x).
Definition set_loader (b : option bpf_loader_ctx) (k : kernel_maps) (x : wan_manager_ctx)
    : wan_manager_ctx :=
  WanManagerCtx (wm_config x) (wm_nl x) b k (wm_pppoe x) (wm_maglev_lut x)
    (wm_last_dhcp_renew_ms x) (wm_dhcp_dead_cycles x) (wm_last_dhcp_rebind_ms x) (wm_logs x)
    (wm_effects x).
Definition set_lut (l : gmap Z Z) (x : wan_manager_ctx) : wan_manager_ctx :=
  WanManagerCtx (wm_config x) (wm_nl x) (wm_bpf x) (wm_kernel x) (wm_pppoe x) l
    (wm_last_dhcp_renew_ms x) (wm_dhcp_dead_cycles x) (wm_last_dhcp_rebind_ms x) (wm_logs x)
    (wm_effects x).
Definition set_dhcp (renew dead rebind : gmap Z Z) (x : wan_manager_ctx) : wan_manager_ctx :=
  WanManagerCtx (wm_config x) (wm_nl x) (wm_bpf x) (wm_kernel x) (wm_pppoe x) (wm_maglev_lut x)
    renew dead rebind (wm_logs x) (wm_effects x).
Definition set_logs (l : list system_log_entry_t) (x : wan_manager_ctx) : wan_manager_ctx :=
  WanManagerCtx (wm_config x) (wm_nl x) (wm_bpf x) (wm_kernel x) (wm_pppoe x) (wm_maglev_lut x)
    (wm_last_dhcp_renew_ms x) (wm_dhcp_dead_cycles x) (wm_last_dhcp_rebind_ms x) l (wm_effects x).
Definition perform (es : list effect) (x : wan_manager_ctx) : wan_manager_ctx :=
  WanManagerCtx (wm_config x) (wm_nl x) (wm_bpf x) (wm_kernel x) (wm_pppoe x) (wm_maglev_lut x)
    (wm_last_dhcp_renew_ms x) (wm_dhcp_dead_cycles x) (wm_last_dhcp_rebind_ms x) (wm_logs x)
    (wm_effects x ++ es).

Definition wan_count (ctx : wan_manager_ctx) : Z := Z.of_nat (length (c_wans (wm_config ctx))).
Definition wan_at (ctx : wan_manager_ctx) (i : Z) : option wan_config_t :=
  c_wans (wm_config ctx) !! Z.to_nat i.
Definition upd_wan (i : Z) (f : wan_config_t -> wan_config_t) (ctx : wan_manager_ctx)
    : wan_manager_ctx :=
  set_config (set_c_wans (alter f (Z.to_nat i) (c_wans (wm_config ctx))) (wm_config ctx)) ctx.

(** ** The event log *)

(** [g_logs] with [g_log_count] is the list of the stored entries, oldest first. *)
Definition push_log (logs : list system_log_entry_t) (entry : system_log_entry_t)
    : list system_log_entry_t :=
  if Z.of_nat (length logs) <? MAX_SYSTEM_LOGS then logs ++ [entry] else drop 1 logs ++ [entry].

Definition wan_manager_add_log (env : wm_env) (level : option cstring) (fmt : string)
    (args : list log_arg) (ctx : wan_manager_ctx) : wan_manager_ctx :=
  set_logs (push_log (wm_logs ctx)
    (SystemLogEntry (ev_now_sec env) (ev_time_str env)
       (take 15 (default (bytes_of_string "INFO") level)) fmt args)) ctx.

(** The entries written to the caller's buffer, in order. *)
Definition wan_manager_get_logs (logs : list system_log_entry_t) (max_count : Z)
    : list system_log_entry_t :=
  if max_count =? 0 then []
  else
    let g_log_count := Z.of_nat (length logs) in
    let count := if g_log_count <? max_count then g_log_count else max_count in
    omap (fun i => logs !! Z.to_nat (g_log_count - 1 - i)) (seqZ 0 count).

Abbreviation log_info env := (wan_manager_add_log env (Some (bytes_of_string "INFO"))).
Abbreviation log_warn env := (wan_manager_add_log env (Some (bytes_of_string "WARN"))).

(** ** Rings and tables *)

(** [bpf_loader_update_wan_map] for WAN [i], if a loader is there. *)
Definition sync_wan (env : wm_env) (i : Z) (ctx : wan_manager_ctx) : wan_manager_ctx :=
  match wm_bpf ctx, wan_at ctx i with
  | Some b, Some w =>
      let '(b, k, _) := bpf_loader_update_wan_map (ev_nametoindex env) b (wm_kernel ctx) i w in
      set_loader (Some b) k ctx
  | _, _ => ctx
  end.

(** The ring of one group, built and written to the kernel. *)
Definition group_ring (env : wm_env) (g : nat) (ctx : wan_manager_ctx) : option wan_manager_ctx :=
  match c_groups (wm_config ctx) !! g with
  | None => Some ctx
  | Some grp =>
      match g_wan_member_indices grp with
      | [] => Some ctx
      | members =>
          ring ← build_single_maglev_ring (wm_config ctx) (ev_stack env) members;
          let ctx := set_config (set_c_groups (alter (set_g_maglev_ring ring) g
                       (c_groups (wm_config ctx))) (wm_config ctx)) ctx in
          Some match wm_bpf ctx with
               | Some b => set_loader (Some b) (fst (bpf_loader_update_group_maglev_lut b
                             (wm_kernel ctx) (g_id grp) (lut_get ring) MAGLEV_RING_SIZE)) ctx
               | None => ctx
               end
      end
  end.

Fixpoint group_rings (env : wm_env) (n g : nat) (ctx : wan_manager_ctx) : option wan_manager_ctx :=
  match n with
  | O => Some ctx
  | S n => ctx ← group_ring env g ctx; group_rings env n (S g) ctx
  end.

Definition wan_manager_generate_maglev_lut (env : wm_env) (ctx : wan_manager_ctx)
    : option (wan_manager_ctx * Z) :=
  let count := wan_count ctx in
  if count =? 0 then Some (ctx, 0)
  else
    ring ← build_single_maglev_ring (wm_config ctx) (ev_stack env) (seqZ 0 count);
    let ctx := set_lut ring ctx in
    ctx ← match wm_bpf ctx with
          | Some b => r ← bpf_loader_update_maglev_lut b (wm_kernel ctx) (lut_get ring)
                            MAGLEV_RING_SIZE;
                      Some (set_loader (Some b) (fst r) ctx)
          | None => Some ctx
          end;
    ctx ← group_rings env (length (c_groups (wm_config ctx))) 0 ctx;
    let ctx :=
      match wm_bpf ctx with
      | Some b => set_loader (Some b) (fst (bpf_loader_update_policy_routes b (wm_kernel ctx)
                    (Some (lan_policy_routes (c_lan (wm_config ctx))))
                    (Z.of_nat (length (lan_policy_routes (c_lan (wm_config ctx))))))) ctx
      | None => ctx
      end in
    Some (ctx, 0).

(** ** Rebalancing *)

Definition min_healthy_rtt (wans : list wan_config_t) : Z :=
  foldl (fun acc w =>
    if w_enabled w && bool_decide (w_state w = WAN_STATE_HEALTHY) && (0 <? m_rtt_ms (w_metrics w))
    then if m_rtt_ms (w_metrics w) <? acc then m_rtt_ms (w_metrics w) else acc
    else acc) 999999 wans.

(** The new weight and state of one WAN. *)
Definition rebalance_wan (steering : bool) (min_rtt : Z) (w : wan_config_t) : wan_config_t :=
  if negb (w_enabled w) || bool_decide (w_state w = WAN_STATE_DOWN) then
    let w := set_w_dynamic_weight 0 w in
    if negb (w_enabled w) then set_w_state WAN_STATE_DOWN w else w
  else if bool_decide (w_state w = WAN_STATE_DRAINING) then set_w_dynamic_weight 0 w
  else
    let base := if 0 <? w_bandwidth_down_mbps w then w_bandwidth_down_mbps w
                else w_config_weight w in
    let base := if base =? 0 then 1 else base in
    let weight := if bool_decide (w_state w = WAN_STATE_DEGRADED)
                  then (if base / 4 =? 0 then 1 else base / 4) else base in
    let rtt := m_rtt_ms (w_metrics w) in
    let weight :=
      if steering && (min_rtt <? 999999) && (u32 (min_rtt + 60) <? rtt) then
        let scaled := u32 (weight * min_rtt) / rtt in
        if 0 <? scaled then scaled else 1
      else weight in
    set_w_dynamic_weight weight w.

Definition active_count (wans : list wan_config_t) : Z :=
  Z.of_nat (length (List.filter (fun w =>
    w_enabled w && negb (bool_decide (w_state w = WAN_STATE_DOWN))) wans)).

Definition sync_ctrl (active : Z) (ctx : wan_manager_ctx) : wan_manager_ctx :=
  match wm_bpf ctx with
  | Some b => set_loader (Some b) (fst (bpf_loader_update_ctrl_map b (wm_kernel ctx)
                (lan_ip_addr (c_lan (wm_config ctx))) active 1 0)) ctx
  | None => ctx
  end.

(** [for] over the WANs: change WAN [i], then write it to the kernel. *)
Definition each_wan (env : wm_env) (f : wan_config_t -> wan_config_t) (ctx : wan_manager_ctx)
    : wan_manager_ctx :=
  for_loop (length (c_wans (wm_config ctx))) 0 (fun i ctx => sync_wan env i (upd_wan i f ctx)) ctx.

Definition wan_manager_rebalance (env : wm_env) (ctx : wan_manager_ctx)
    : option (wan_manager_ctx * Z) :=
  if negb (ev_authorized env) then Some (each_wan env (set_w_dynamic_weight 0) ctx, -2)
  else
    let min_rtt := min_healthy_rtt (c_wans (wm_config ctx)) in
    let steering := pc_dynamic_latency_steering (c_prober (wm_config ctx)) in
    let ctx := each_wan env (rebalance_wan steering min_rtt) ctx in
    r ← wan_manager_generate_maglev_lut env ctx;
    let ctx := fst r in
    let ctx := sync_ctrl (active_count (c_wans (wm_config ctx))) ctx in
    Some (perform [ApplyConfiguration] ctx, 0).

(** ** Health updates *)

Definition state_str (s : wan_state_t) : cstring :=
  match s with
  | WAN_STATE_DEGRADED => "DEGRADED"
  | WAN_STATE_DOWN => "DOWN"
  | WAN_STATE_DRAINING => "DRAINING"
  | WAN_STATE_HEALTHY => "HEALTHY"
  end%string.

(** [send_telegram_alert]: nothing without a token, a chat and the switch. *)
Definition send_telegram_alert (tg : telegram_config_t) (fmt : string) (args : list log_arg)
    : list effect :=
  if negb (tg_enabled tg) then []
  else match tg_bot_token tg, tg_chat_id tg with
       | _ :: _, _ :: _ => [Telegram fmt args]
       | _, _ => []
       end.

(** The alert of a state change. *)
Definition health_alert (tg : telegram_config_t) (w : wan_config_t) (state : wan_state_t)
    : list effect :=
  if negb (tg_enabled tg) then []
  else if (bool_decide (state = WAN_STATE_DOWN) || bool_decide (state = WAN_STATE_DEGRADED))
          && tg_notify_on_failover tg
  then send_telegram_alert tg "FluxWAN Alert: WAN %u (%s) is %s (RTT: %ums, Loss: %.1f%%)"
         [AInt (w_id w); AStr (w_label w); AStr (state_str state); AInt (m_rtt_ms (w_metrics w));
          ARat (m_packet_loss_pct (w_metrics w))]
  else if bool_decide (state = WAN_STATE_HEALTHY) && tg_notify_on_recovery tg
  then send_telegram_alert tg "FluxWAN Recovery: WAN %u (%s) is now HEALTHY (RTT: %ums, Loss: %.1f%%)"
         [AInt (w_id w); AStr (w_label w); AInt (m_rtt_ms (w_metrics w));
          ARat (m_packet_loss_pct (w_metrics w))]
  else [].

Definition wan_manager_on_health_update (env : wm_env) (wan_idx : Z) (state : wan_state_t)
    (metrics : option wan_metrics_t) (ctx : wan_manager_ctx) : option wan_manager_ctx :=
  if wan_count ctx <=? wan_idx then Some ctx
  else
    let ctx := match metrics with
               | Some m => upd_wan wan_idx (set_w_metrics m) ctx
               | None => ctx
               end in
    match wan_at ctx wan_idx with
    | None => Some ctx
    | Some w =>
        if bool_decide (w_state w = WAN_STATE_DRAINING) then Some ctx
        else
          let old_state := w_state w in
          let ctx := upd_wan wan_idx (set_w_state state) ctx in
          if bool_decide (old_state = state) then Some ctx
          else
            let ctx := wan_manager_add_log env
              (Some (bytes_of_string (if bool_decide (state = WAN_STATE_HEALTHY)
                                      then "INFO" else "WARN")))
              "WAN %u (%s) health transitioned to %s (RTT: %ums, Loss: %.1f%%)"
              [AInt (w_id w); AStr (w_label w); AStr (state_str state);
               AInt (m_rtt_ms (w_metrics w)); ARat (m_packet_loss_pct (w_metrics w))] ctx in
            let ctx := perform (health_alert (c_telegram (wm_config ctx)) w state) ctx in
            r ← wan_manager_rebalance env ctx; Some (fst r)
    end.

(** ** PPPoE callbacks (called with an index of a session, never negative) *)

Definition default_probe_target (w : wan_config_t) : wan_config_t :=
  if w_probe_target_ip w =? 0 then
    match w_probe_target w with
    | _ :: _ => set_w_probe_target_ip (str_to_ip (w_probe_target w)) w
    | [] => set_w_probe_target (bytes_of_string "8.8.8.8")
              (set_w_probe_target_ip (str_to_ip "8.8.8.8") w)
    end
  else w.

Definition on_pppoe_connected_cb (env : wm_env) (wan_idx : Z) (ppp_ifname : cstring) (ip gw : Z)
    (ctx : wan_manager_ctx) : option wan_manager_ctx :=
  if wan_count ctx <=? wan_idx then Some ctx
  else
    let ctx := upd_wan wan_idx (fun w =>
      default_probe_target
        (set_w_netmask 4294967295 (set_w_gateway (htonl gw) (set_w_ip_addr (htonl ip)
          (set_w_state WAN_STATE_HEALTHY w))))) ctx in
    match wan_at ctx wan_idx with
    | None => Some ctx
    | Some w =>
        let ctx := log_info env "PPPoE WAN %u (%s) established session on %s (IP: %s)"
          [AInt (w_id w); AStr (w_label w); AStr ppp_ifname; AStr (ip_to_str (htonl ip))] ctx in
        let ttl := if 0 <? st_ttl_value (c_stealth (wm_config ctx))
                   then st_ttl_value (c_stealth (wm_config ctx)) else 65 in
        let ifidx := ev_nametoindex env ppp_ifname in
        let ctx := perform
          ([RouteReplaceDev ppp_ifname (w_table_id w)]
           ++ (if wm_nl ctx then [NlDefaultRoute (w_table_id w) (htonl gw)
                                    (if 0 <? ifidx then ifidx else 0)] else [])
           ++ [WanNat ppp_ifname true; ShieldDrop ppp_ifname; StealthTtl ppp_ifname ttl]) ctx in
        r ← wan_manager_rebalance env ctx; Some (fst r)
    end.

Definition on_pppoe_disconnected_cb (env : wm_env) (wan_idx : Z) (ppp_ifname : cstring)
    (attempt : Z) (ctx : wan_manager_ctx) : option wan_manager_ctx :=
  if wan_count ctx <=? wan_idx then Some ctx
  else
    let ctx := upd_wan wan_idx (set_w_state WAN_STATE_DOWN) ctx in
    match wan_at ctx wan_idx with
    | None => Some ctx
    | Some w =>
        let ctx := log_warn env "PPPoE WAN %u (%s) session dropped on %s (Auto-reconnect #%d)"
          [AInt (w_id w); AStr (w_label w); AStr ppp_ifname; AInt attempt] ctx in
        r ← wan_manager_rebalance env ctx; Some (fst r)
    end.

(** ** Start and stop *)

(** One WAN of the start-up loop. *)
Definition provision_wan (env : wm_env) (i : Z) (ctx : wan_manager_ctx) : wan_manager_ctx :=
  match wan_at ctx i with
  | None => ctx
  | Some w =>
      let ctx := perform
        (if wm_nl ctx then
           NlRule (256 + i + 1) (w_table_id w) (1000 + i)
           :: (if negb (w_gateway w =? 0) && negb (px_enabled (w_proxy w))
               then [NlDefaultRoute (w_table_id w) (w_gateway w) (w_ifindex w)] else [])
         else []) ctx in
      let ctx := sync_wan env i ctx in
      log_info env "WAN %u (%s - %s) policy routing initialized on Table %u"
        [AInt (w_id w); AStr (w_name w); AStr (w_label w); AInt (w_table_id w)] ctx
  end.

Definition wan_manager_init (calloc_ok : bool) (env : wm_env) (config : fluxwan_config_t)
    (nl : bool) (bpf : option bpf_loader_ctx) (kernel : kernel_maps) (pppoe_ok : bool)
    (logs : list system_log_entry_t) : option (option wan_manager_ctx) :=
  if negb calloc_ok then Some None
  else
    let ctx := WanManagerCtx config nl bpf kernel false ∅ ∅ ∅ ∅ logs [] in
    let ctx := log_info env "FluxWAN Core Multi-WAN Router Engine started" [] ctx in
    let ctx := WanManagerCtx (wm_config ctx) (wm_nl ctx) (wm_bpf ctx) (wm_kernel ctx) pppoe_ok
                 (wm_maglev_lut ctx) ∅ ∅ ∅ (wm_logs ctx) (wm_effects ctx) in
    let ctx := for_loop (length (c_wans config)) 0 (provision_wan env) ctx in
    let ctx := perform (if pppoe_ok then [PppoeStartAll] else []) ctx in
    let ctx := sync_ctrl (wan_count ctx) ctx in
    r ← wan_manager_generate_maglev_lut env ctx; Some (Some (fst r)).

Definition wan_manager_close (env : wm_env) (ctx : wan_manager_ctx) : list system_log_entry_t :=
  wm_logs (log_info env "FluxWAN Core Multi-WAN Router Engine stopped" [] ctx).

(** ** DHCP *)

Definition zget (m : gmap Z Z) (i : Z) : Z := default 0 (m !! i).

Definition dhcp_client (w : wan_config_t) : bool :=
  (bool_decide (w_type w = WAN_TYPE_DHCP) || bool_decide (w_type w = WAN_TYPE_WIFI)) && w_enabled w.

Definition wan_manager_dhcp_renew (env : wm_env) (wan_idx : Z) (ctx : wan_manager_ctx)
    : wan_manager_ctx :=
  for_loop (length (c_wans (wm_config ctx))) 0 (fun i ctx =>
    if (0 <=? wan_idx) && negb (i =? wan_idx) then ctx
    else match wan_at ctx i with
         | None => ctx
         | Some w =>
             if dhcp_client w then
               let ctx := log_info env "[DHCP Client] Force-renewing IP lease on %s..."
                            [AStr (w_name w)] ctx in
               let ctx := perform [AddrFlush (w_name w); KillUdhcpc (w_name w);
                                   RemoveLease (w_name w)] ctx in
               set_dhcp (<[i := 0]> (wm_last_dhcp_renew_ms ctx))
                 (<[i := 0]> (wm_dhcp_dead_cycles ctx)) (wm_last_dhcp_rebind_ms ctx) ctx
             else ctx
         end) ctx.

(** What the system shows about an interface when it is polled: the wireless link,
    whether the DHCP client runs, the lines of the lease file, the address of the
    interface. *)
Record tick_env := TickEnv {
  tk_wifi : cstring -> option (Z * Z * Z);
  tk_running : cstring -> bool;
  tk_lease : cstring -> option (list cstring);
  tk_if_addr : cstring -> option Z
}.

(** [sscanf(s, "%31s")]: the first word, the old contents when there is none. *)
Fixpoint take_word (n : nat) (s : cstring) : cstring :=
  match n, s with
  | S n, c :: s => if isspace c then [] else c :: take_word n s
  | _, _ => []
  end.
Definition scan_word (s old : cstring) : cstring :=
  match take_word 31 (skip_spaces s) with [] => old | w => w end.

Fixpoint strip_prefix (p s : cstring) : option cstring :=
  match p, s with
  | [], _ => Some s
  | c :: p, d :: s => if c =? d then strip_prefix p s else None
  | _, [] => None
  end.

(** Address, gateway and netmask text of a lease. *)
Fixpoint parse_lease (lines : list cstring) (ip gw mask : cstring) : cstring * cstring * cstring :=
  match lines with
  | [] => (ip, gw, mask)
  | l :: lines =>
      match strip_prefix "IP=" l with
      | Some r => parse_lease lines (scan_word r ip) gw mask
      | None =>
          match strip_prefix "GATEWAY=" l with
          | Some r => parse_lease lines ip (scan_word r gw) mask
          | None =>
              match strip_prefix "NETMASK=" l with
              | Some r => parse_lease lines ip gw (scan_word r mask)
              | None => parse_lease lines ip gw mask
              end
          end
      end
  end.

(** A lease that changes the address or the gateway of WAN [i]. *)
Definition bind_lease (env : wm_env) (i : Z) (w : wan_config_t) (lines : list cstring)
    (ctx : wan_manager_ctx) : option wan_manager_ctx :=
  let '(ip_str, gw_str, mask_str) := parse_lease lines [] [] [] in
  let new_ip := str_to_ip ip_str in
  let new_gw := str_to_ip gw_str in
  let new_mask := if str_to_ip mask_str =? 0 then str_to_ip "255.255.255.0"
                  else str_to_ip mask_str in
  if negb (new_ip =? 0) && (negb (new_ip =? w_ip_addr w) || negb (new_gw =? w_gateway w)) then
    let ctx := log_info env "[DHCP WAN%u] Bound IP %s, Gateway %s on %s"
      [AInt (w_id w); AStr ip_str; AStr gw_str; AStr (w_name w)] ctx in
    let ctx := upd_wan i (fun w => default_probe_target
      (set_w_state WAN_STATE_HEALTHY (set_w_netmask new_mask (set_w_gateway new_gw
        (set_w_ip_addr new_ip w))))) ctx in
    let proxied := px_enabled (w_proxy w) in
    let ctx := perform
      ((if negb (new_gw =? 0)
        then [BindRoutes gw_str ip_str (w_name w)
                (if proxied then 1000 + w_table_id w else w_table_id w) proxied]
        else []) ++ [WanNat (w_name w) true]) ctx in
    r ← wan_manager_rebalance env ctx; Some (fst r)
  else Some ctx.

(** The watchdog of WAN [i]: count dead checks, rebind after fifteen. *)
Definition dhcp_watchdog (env : wm_env) (i now_ms : Z) (w : wan_config_t) (ctx : wan_manager_ctx)
    : wan_manager_ctx :=
  let dead := wm_dhcp_dead_cycles ctx in
  if negb (px_enabled (w_proxy w))
     && (bool_decide (w_state w = WAN_STATE_DOWN) || Qle_bool 99 (m_packet_loss_pct (w_metrics w)))
  then
    let ctx := set_dhcp (wm_last_dhcp_renew_ms ctx) (<[i := u32 (zget dead i + 1)]> dead)
                 (wm_last_dhcp_rebind_ms ctx) ctx in
    if (15 <=? zget (wm_dhcp_dead_cycles ctx) i)
       && (60000 <=? u64 (now_ms - zget (wm_last_dhcp_rebind_ms ctx) i))
    then
      let ctx := set_dhcp (wm_last_dhcp_renew_ms ctx) (<[i := 0]> (wm_dhcp_dead_cycles ctx))
                   (<[i := now_ms]> (wm_last_dhcp_rebind_ms ctx)) ctx in
      let ctx := log_warn env "[DHCP Watchdog] Gateway unreachable on %s. Re-discovering network..."
                   [AStr (w_name w)] ctx in
      wan_manager_dhcp_renew env i ctx
    else ctx
  else set_dhcp (wm_last_dhcp_renew_ms ctx) (<[i := 0]> dead) (wm_last_dhcp_rebind_ms ctx) ctx.

(** The two-second check of WAN [i]. *)
Definition dhcp_check (env : wm_env) (tk : tick_env) (i now_ms : Z) (w : wan_config_t)
    (ctx : wan_manager_ctx) : option wan_manager_ctx :=
  if 2000 <=? u64 (now_ms - zget (wm_last_dhcp_renew_ms ctx) i) then
    let ctx := set_dhcp (<[i := now_ms]> (wm_last_dhcp_renew_ms ctx)) (wm_dhcp_dead_cycles ctx)
                 (wm_last_dhcp_rebind_ms ctx) ctx in
    let ctx := perform [InstallDhcpHook; WriteTableFile (w_name w) (w_table_id w);
                        LinkUp (w_name w)] ctx in
    let ctx :=
      if tk_running tk (w_name w) then ctx
      else perform [StartUdhcpc (w_name w)]
             (log_info env "[DHCP Client] Starting DHCP client on %s (Table %u)"
                [AStr (w_name w); AInt (w_table_id w)] ctx) in
    match tk_lease tk (w_name w) with
    | Some lines => bind_lease env i w lines ctx
    | None =>
        if w_ip_addr w =? 0 then
          match tk_if_addr tk (w_name w) with
          | Some a =>
              if negb (a =? 0) && negb (a =? str_to_ip "127.0.0.1") then
                let ctx := upd_wan i (fun w => set_w_state WAN_STATE_HEALTHY (set_w_ip_addr a w)) ctx in
                r ← wan_manager_rebalance env ctx; Some (fst r)
              else Some ctx
          | None => Some ctx
          end
        else Some ctx
    end
  else Some ctx.

Definition poll_wifi (tk : tick_env) (i : Z) (ctx : wan_manager_ctx) : wan_manager_ctx :=
  match wan_at ctx i with
  | Some w =>
      if bool_decide (w_type w = WAN_TYPE_WIFI) && w_enabled w then
        match tk_wifi tk (w_name w) with
        | Some (dbm, pct, channel) =>
            upd_wan i (fun w =>
              let w := set_w_wifi_signal_pct pct (set_w_wifi_signal_dbm dbm w) in
              if 0 <? channel then set_w_wifi_channel (bytes_of_string "Ch " ++ dec channel) w else w)
              ctx
        | None => ctx
        end
      else ctx
  | None => ctx
  end.

Definition tick_wan (env : wm_env) (tk : tick_env) (now_ms i : Z) (ctx : wan_manager_ctx)
    : option wan_manager_ctx :=
  let ctx := poll_wifi tk i ctx in
  match wan_at ctx i with
  | Some w =>
      if dhcp_client w then
        let ctx := dhcp_watchdog env i now_ms w ctx in dhcp_check env tk i now_ms w ctx
      else Some ctx
  | None => Some ctx
  end.

Fixpoint tick_wans (env : wm_env) (tk : tick_env) (now_ms : Z) (n : nat) (i : Z)
    (ctx : wan_manager_ctx) : option wan_manager_ctx :=
  match n with
  | O => Some ctx
  | S n => ctx ← tick_wan env tk now_ms i ctx; tick_wans env tk now_ms n (i + 1) ctx
  end.

(** The session manager calls back for each session that changed. *)
Inductive pppoe_event :=
  | PppoeUp (wan_idx : Z) (ifname : cstring) (ip gw : Z)
  | PppoeDown (wan_idx : Z) (ifname : cstring) (attempt : Z).

Fixpoint pppoe_callbacks (env : wm_env) (evs : list pppoe_event) (ctx : wan_manager_ctx)
    : option wan_manager_ctx :=
  match evs with
  | [] => Some ctx
  | PppoeUp i ifname ip gw :: evs =>
      ctx ← on_pppoe_connected_cb env i ifname ip gw ctx; pppoe_callbacks env evs ctx
  | PppoeDown i ifname attempt :: evs =>
      ctx ← on_pppoe_disconnected_cb env i ifname attempt ctx; pppoe_callbacks env evs ctx
  end.

(** [wan_manager_periodic_tick], with the callbacks the session manager makes. *)
Definition wan_manager_periodic_tick (env : wm_env) (tk : tick_env) (evs : list pppoe_event)
    (now_ms : Z) (ctx : wan_manager_ctx) : option wan_manager_ctx :=
  ctx ← (if wm_pppoe ctx then pppoe_callbacks env evs ctx else Some ctx);
  tick_wans env tk now_ms (length (c_wans (wm_config ctx))) 0 ctx.

(** ** The event log keeps the newest entries *)

Lemma push_log_suffix es e :
  push_log (drop (length es - Z.to_nat MAX_SYSTEM_LOGS) es) e
  = drop (length (es ++ [e]) - Z.to_nat MAX_SYSTEM_LOGS) (es ++ [e]).
Proof.
  unfold push_log, MAX_SYSTEM_LOGS. rewrite length_drop, length_app. cbn [length].
  change (Z.to_nat 32) with 32%nat.
  destruct (Z.ltb_spec (Z.of_nat (length es - (length es - 32))) 32).
  - rewrite drop_app_le by lia.
    replace (length es - 32)%nat with 0%nat by lia. by replace (length es + 1 - 32)%nat with 0%nat by lia.
  - rewrite drop_drop, drop_app_le by lia. do 2 f_equal. lia.
Qed.

Lemma pushed_logs es :
  foldl push_log [] es = drop (length es - Z.to_nat MAX_SYSTEM_LOGS) es.
Proof.
  induction es as [|e es IH] using rev_ind; [done|].
  rewrite foldl_app. cbn [foldl]. rewrite IH. apply push_log_suffix.
Qed.

Lemma newest_first (logs : list system_log_entry_t) k :
  (k <= length logs)%nat ->
  omap (fun i => logs !! Z.to_nat (Z.of_nat (length logs) - 1 - i)) (seqZ 0 (Z.of_nat k))
  = take k (reverse logs).
Proof.
  induction k as [|k IH]; intros Hk; [done|].
  replace (Z.of_nat (S k)) with (Z.of_nat k + 1) by lia.
  rewrite seqZ_app with (n2 := 1) by lia. rewrite omap_app, IH by lia.
  destruct (lookup_lt_is_Some_2 logs (length logs - S k)) as [e He]; [lia|].
  rewrite (take_S_r _ _ e) by (rewrite reverse_lookup by lia; done).
  f_equal. change (seqZ (0 + Z.of_nat k) 1) with [Z.of_nat k]. cbn [omap list_omap].
  replace (Z.to_nat (Z.of_nat (length logs) - 1 - Z.of_nat k)) with (length logs - S k)%nat by lia.
  by rewrite He.
Qed.

Lemma get_logs_reverse logs n :
  0 <= n -> wan_manager_get_logs logs n = take (Z.to_nat n) (reverse logs).
Proof.
  intros Hn. unfold wan_manager_get_logs. destruct (Z.eqb_spec n 0) as [->|]; [done|].
  destruct (Z.ltb_spec (Z.of_nat (length logs)) n).
  - rewrite newest_first by done. by rewrite !take_ge by (rewrite length_reverse; lia).
  - rewrite <- (Z2Nat.id n) at 1 by lia. apply newest_first. lia.
Qed.

(** The event log.  After any sequence of entries was logged, a reader who asks for
    [n] of them gets the newest ones, newest first, as many as it asked for up to 32. *)
Theorem logs_newest_first es n :
  0 <= n ->
  wan_manager_get_logs (foldl push_log [] es) n
  = take (Nat.min (Z.to_nat n) (Z.to_nat MAX_SYSTEM_LOGS)) (reverse es).
Proof.
  intros Hn. rewrite get_logs_reverse, pushed_logs by done. rewrite <- take_take. f_equal.
  set (k := Z.to_nat MAX_SYSTEM_LOGS).
  rewrite <- (take_drop (length es - k) es) at 3. rewrite reverse_app.
  destruct (decide (length es <= k)%nat).
  - replace (length es - k)%nat with 0%nat by lia. rewrite drop_0, take_0. cbn.
    rewrite app_nil_r. symmetry. apply take_ge. rewrite length_reverse. lia.
  - rewrite take_app_le, take_ge by (rewrite length_reverse, length_drop; lia). done.
Qed.

Lemma logs_newest_first_witness :
  let e i := SystemLogEntry i [] (bytes_of_string "INFO") "event %d" [AInt i] in
  wan_manager_get_logs (foldl push_log [] (e <$> seqZ 0 40)) 3 = [e 39; e 38; e 37].
Proof.
  cbv zeta. rewrite (logs_newest_first _ 3) by lia. vm_compute. reflexivity.
Defined.

(** ** Pace of the DHCP watchdog *)

Section watchdog.
Context (env : wm_env) (i : Z).

Definition is_rebind (e : effect) : bool := match e with KillUdhcpc _ => true | _ => false end.
Definition rebinds (ctx : wan_manager_ctx) : Z :=
  Z.of_nat (length (List.filter is_rebind (wm_effects ctx))).

(** Checks of the watchdog of WAN [i], each at a time and with what it sees of the WAN. *)
Definition watch (checks : list (Z * wan_config_t)) (ctx : wan_manager_ctx) : wan_manager_ctx :=
  foldl (fun ctx c => dhcp_watchdog env i c.1 c.2 ctx) ctx checks.

(** What a loop over the WANs that renews WAN [i] only has done after turn [j]. *)
Record renewing (ctx : wan_manager_ctx) (j : Z) (s : wan_manager_ctx) : Prop := {
  rn_count : rebinds ctx <= rebinds s <= rebinds ctx + (if i <? j then 1 else 0);
  rn_config : wm_config s = wm_config ctx;
  rn_rebind : wm_last_dhcp_rebind_ms s = wm_last_dhcp_rebind_ms ctx;
  rn_dead : zget (wm_dhcp_dead_cycles ctx) i = 0 -> zget (wm_dhcp_dead_cycles s) i = 0
}.

Lemma rebinds_app ctx ctx' es :
  wm_effects ctx' = wm_effects ctx ++ es ->
  rebinds ctx' = rebinds ctx + Z.of_nat (length (List.filter is_rebind es)).
Proof. unfold rebinds. intros ->. rewrite List.filter_app, length_app. lia. Qed.

Lemma dhcp_renew_one ctx :
  0 <= i -> renewing ctx (0 + wan_count ctx) (wan_manager_dhcp_renew env i ctx).
Proof.
  intros Hi. unfold wan_manager_dhcp_renew.
  apply (for_loop_ind (renewing ctx)).
  - split; try done. destruct (i <? 0); lia.
  - intros j s _ [Hn Hc Hr Hd]. destruct (Z.leb_spec 0 i); [|lia]. cbn [andb].
    destruct (Z.eqb_spec j i) as [->|Hj]; cbn [negb].
    2: { split; try done. destruct (Z.ltb_spec i j), (Z.ltb_spec i (j + 1)); lia. }
    rewrite Z.ltb_irrefl in Hn. pose proof (proj2 (Z.ltb_lt i (i + 1)) ltac:(lia)) as Hlt.
    destruct (wan_at s i) as [w|]; [destruct (dhcp_client w)|]; split; try done; cbn; rewrite ?Hlt; try lia.
    + match goal with |- _ <= rebinds ?s' <= _ =>
        rewrite (rebinds_app s s' [AddrFlush (w_name w); KillUdhcpc (w_name w); RemoveLease (w_name w)])
      end; [cbn [List.filter is_rebind length]; lia|done].
    + intros _. unfold zget. by rewrite lookup_insert_eq.
Qed.

Lemma zget_insert m v : zget (<[i := v]> m) i = v.
Proof. unfold zget. by rewrite lookup_insert_eq. Qed.

(** One check: without a rebind the counter moves by at most one; with a rebind the
    counter had reached its fifteenth dead check, and a minute had passed. *)
Lemma watchdog_check now w ctx :
  0 <= i -> 0 <= zget (wm_dhcp_dead_cycles ctx) i < 2 ^ 31 -> 0 <= zget (wm_last_dhcp_rebind_ms ctx) i <= now ->
  now < 2 ^ 63 ->
  let ctx' := dhcp_watchdog env i now w ctx in
  0 <= zget (wm_dhcp_dead_cycles ctx') i
  /\ ((rebinds ctx' = rebinds ctx /\ zget (wm_last_dhcp_rebind_ms ctx') i = zget (wm_last_dhcp_rebind_ms ctx) i
       /\ zget (wm_dhcp_dead_cycles ctx') i <= zget (wm_dhcp_dead_cycles ctx) i + 1)
      \/ (rebinds ctx <= rebinds ctx' <= rebinds ctx + 1 /\ zget (wm_last_dhcp_rebind_ms ctx') i = now
          /\ zget (wm_last_dhcp_rebind_ms ctx) i + 60000 <= now
          /\ zget (wm_dhcp_dead_cycles ctx') i = 0 /\ 14 <= zget (wm_dhcp_dead_cycles ctx) i)).
Proof.
  intros Hi Hd Hl Hn. cbv zeta. unfold dhcp_watchdog.
  destruct (negb _ && _).
  2: { cbn [wm_dhcp_dead_cycles wm_last_dhcp_rebind_ms set_dhcp]. rewrite zget_insert.
       split; [lia|]. left. split_and!; [done|done|lia]. }
  cbn [wm_dhcp_dead_cycles wm_last_dhcp_rebind_ms set_dhcp].
  rewrite zget_insert, u32_small by (unfold is_u32; lia). rewrite u64_small by (unfold is_u64; lia).
  destruct (_ && _) eqn:E.
  - set (ctx1 := wan_manager_add_log _ _ _ _ _). destruct (dhcp_renew_one ctx1 Hi) as [H1 _ H3 H4].
    rewrite H3. change (rebinds ctx1) with (rebinds ctx) in H1. bool_hyps.
    rewrite H4 by (unfold ctx1; cbn; by rewrite zget_insert).
    assert (zget (wm_last_dhcp_rebind_ms ctx1) i = now) as -> by apply zget_insert.
    split; [lia|]. right. clearbody ctx1. destruct (i <? _); split_and!; lia.
  - cbn [wm_dhcp_dead_cycles wm_last_dhcp_rebind_ms set_dhcp]. rewrite zget_insert.
    split; [lia|]. left. split_and!; [done|done|lia].
Qed.

(** Times that do not run backwards, from [t0], within the clock's range. *)
Fixpoint clock_from (t0 : Z) (checks : list (Z * wan_config_t)) : Prop :=
  match checks with
  | [] => True
  | c :: cs => t0 <= c.1 < 2 ^ 63 /\ clock_from c.1 cs
  end.

Lemma watch_pace checks : forall t0 ctx,
  0 <= i -> clock_from t0 checks ->
  0 <= zget (wm_dhcp_dead_cycles ctx) i ->
  zget (wm_dhcp_dead_cycles ctx) i + Z.of_nat (length checks) < 2 ^ 31 ->
  0 <= zget (wm_last_dhcp_rebind_ms ctx) i <= t0 ->
  let ctx' := watch checks ctx in
  let n := rebinds ctx' - rebinds ctx in
  0 <= n
  /\ 15 * n + zget (wm_dhcp_dead_cycles ctx') i
     <= zget (wm_dhcp_dead_cycles ctx) i + Z.of_nat (length checks)
  /\ 60000 * n <= zget (wm_last_dhcp_rebind_ms ctx') i - zget (wm_last_dhcp_rebind_ms ctx) i
  /\ zget (wm_last_dhcp_rebind_ms ctx') i <= List.last (checks.*1) t0
  /\ 0 <= zget (wm_dhcp_dead_cycles ctx') i.
Proof.
  induction checks as [|[now w] cs IH]; intros t0 ctx Hi Hc Hd Hd' Hl; cbv zeta; cbn [watch foldl].
  { cbn in *. lia. }
  destruct Hc as [Ht Hc]. cbn [fst snd length] in *.
  destruct (watchdog_check now w ctx) as [Hd1 Hor]; [lia..|].
  set (ctx1 := dhcp_watchdog env i now w ctx) in *. clearbody ctx1.
  assert (0 <= zget (wm_last_dhcp_rebind_ms ctx1) i <= now) by lia.
  destruct (IH now ctx1) as (H1 & H2 & H3 & H4 & H5); [done|done|done|lia|done|].
  fold (watch cs ctx1). change (((now, w) :: cs).*1) with (now :: cs.*1).
  assert (List.last (now :: cs.*1) t0 = List.last cs.*1 now) as ->.
  { destruct cs as [|c cs]; [done|]. cbn [fmap list_fmap]. clear. revert c. induction cs as [|d cs IH]; intros c; [done|].
    exact (IH d). }
  lia.
Qed.
End watchdog.

(** Pace of the DHCP watchdog.  Over any run of checks of an uplink, on a clock
    that does not run backwards, the watchdog drops and re-requests the lease at
    most once in fifteen checks and at most once a minute. *)
Theorem watchdog_pace env i checks ctx :
  0 <= i -> clock_from 0 checks -> Z.of_nat (length checks) < 2 ^ 31 ->
  zget (wm_dhcp_dead_cycles ctx) i = 0 -> zget (wm_last_dhcp_rebind_ms ctx) i = 0 ->
  let n := rebinds (watch env i checks ctx) - rebinds ctx in
  0 <= n /\ 15 * n <= Z.of_nat (length checks) /\ 60000 * n <= List.last (checks.*1) 0.
Proof.
  intros Hi Hc Hn Hd Hl. destruct (watch_pace env i checks 0 ctx) as (H1 & H2 & H3 & H4 & H5);
    [done|done|lia|lia|lia|]. cbv zeta. lia.
Qed.

(** ** Examples *)

Definition sample_wm_env : wm_env :=
  WmEnv 0 [] true (fun _ => 7) (fun _ => Slot 0 0 1 0 0 0).
Definition sample_manager : wan_manager_ctx :=
  WanManagerCtx sample_config true (Some sample_loader) sample_kernel false ∅ ∅ ∅ ∅ [] [].

(** Sixteen dead checks, five seconds apart. *)
Definition sample_checks : list (Z * wan_config_t) :=
  (fun k => (5000 * k, sample_wan 1 "eth1" 100 WAN_STATE_DOWN)) <$> seqZ 1 16.

Lemma watchdog_pace_witness :
  let n := rebinds (watch sample_wm_env 0 sample_checks sample_manager) - rebinds sample_manager in
  n = 1 /\ 15 * n <= 16 /\ 60000 * n <= 80000.
Proof.
  cbv zeta. split; [vm_compute; reflexivity|].
  destruct (watchdog_pace sample_wm_env 0 sample_checks sample_manager) as (_ & H1 & H2).
  - lia.
  - repeat (split; [split; vm_compute; [discriminate|reflexivity]|]). exact I.
  - vm_compute. reflexivity.
  - reflexivity.
  - reflexivity.
  - split; [exact H1|exact H2].
Defined.
