(* ===== verification/ControlPlane.v ===== *)
(** * The control plane drives the data plane

    What a rebalance of [WanManager] leaves in the kernel's tables, and what the
    router of [XdpRouter] then does with new flows: the refinement between the
    configuration and the packet path. *)

From S2P Require Import Prelude Fluxwan Samples Ipv4 Maglev Bpf XdpRouter RouterSessions BpfLoader WanManager.

(** ** The loop over the WANs *)

Section rebalance.
Context (env : wm_env).

(** The kernel entry of WAN [i]. *)
Definition entry_for (i : Z) (w : wan_config_t) : bpf_wan_entry :=
  wan_entry_of (ev_nametoindex env (w_name w)) i w.

(** The state after [j] turns of [each_wan f], from [ctx0] with loader [b0]. *)
Record turned (f : wan_config_t -> wan_config_t) (ctx0 : wan_manager_ctx) (b0 : bpf_loader_ctx)
    (j : Z) (ctx : wan_manager_ctx) : Prop := {
  tu_config : wm_config ctx = set_c_wans ((f <$> take (Z.to_nat j) (c_wans (wm_config ctx0)))
                ++ drop (Z.to_nat j) (c_wans (wm_config ctx0))) (wm_config ctx0);
  tu_bpf : exists b, wm_bpf ctx = Some b /\ bl_fds b = bl_fds b0;
  tu_kernel : exists t, wm_kernel ctx = with_wan_table (wm_kernel ctx0) t
    /\ forall x w, 0 <= x < j -> c_wans (wm_config ctx0) !! Z.to_nat x = Some w ->
         t !! x = Some (entry_for x (f w));
  tu_rest : forall x, ~ 0 <= x < j ->
    km_wan_table (wm_kernel ctx) !! x = km_wan_table (wm_kernel ctx0) !! x;
  tu_nl : wm_nl ctx = wm_nl ctx0
}.

Lemma alter_turn {A} (f : A -> A) (l : list A) j x :
  l !! j = Some x ->
  alter f j ((f <$> take j l) ++ drop j l) = (f <$> take (S j) l) ++ drop (S j) l.
Proof.
  intros Hx. pose proof (lookup_lt_Some _ _ _ Hx).
  rewrite alter_app_r_alt by (rewrite length_fmap, length_take; lia).
  rewrite length_fmap, length_take, Nat.min_l, Nat.sub_diag by lia.
  rewrite (drop_S _ _ _ Hx). cbn [alter list_alter].
  rewrite (take_S_r _ _ _ Hx), fmap_app, <- app_assoc. done.
Qed.

Lemma wan_at_turn (f : wan_config_t -> wan_config_t) (l : list wan_config_t) (j : nat) w :
  l !! j = Some w -> ((f <$> take (S j) l) ++ drop (S j) l) !! j = Some (f w).
Proof.
  intros Hx. pose proof (lookup_lt_Some _ _ _ Hx).
  rewrite lookup_app_l by (rewrite length_fmap, length_take; lia).
  rewrite list_lookup_fmap, lookup_take_lt, Hx by lia. done.
Qed.

Lemma each_wan_turn f ctx0 b0 j ctx :
  0 <= fd_wan_table (bl_fds b0) -> wan_count ctx0 <= MAX_WANS ->
  0 <= j < wan_count ctx0 -> turned f ctx0 b0 j ctx ->
  turned f ctx0 b0 (j + 1) (sync_wan env j (upd_wan j f ctx)).
Proof.
  intros Hfd Hc Hj [Hcfg (b & Hb & Hfds) (t & Hk & Ht) Hr Hnl]. unfold wan_count in *.
  destruct (lookup_lt_is_Some_2 (c_wans (wm_config ctx0)) (Z.to_nat j)) as [w Hw]; [lia|].
  assert (Hcfg' : wm_config (upd_wan j f ctx)
    = set_c_wans ((f <$> take (Z.to_nat (j + 1)) (c_wans (wm_config ctx0)))
        ++ drop (Z.to_nat (j + 1)) (c_wans (wm_config ctx0))) (wm_config ctx0)).
  { unfold upd_wan. cbn [wm_config set_config]. rewrite Hcfg. cbn [c_wans set_c_wans].
    rewrite (alter_turn _ _ _ _ Hw). by replace (Z.to_nat (j + 1)) with (S (Z.to_nat j)) by lia. }
  assert (Hat : wan_at (upd_wan j f ctx) j = Some (f w)).
  { unfold wan_at. rewrite Hcfg'. cbn [c_wans set_c_wans].
    replace (Z.to_nat (j + 1)) with (S (Z.to_nat j)) by lia. by apply wan_at_turn. }
  unfold sync_wan. change (wm_bpf (upd_wan j f ctx)) with (wm_bpf ctx). rewrite Hb, Hat.
  unfold bpf_loader_update_wan_map. destruct (Z.leb_spec MAX_WANS j); [lia|].
  set (b1 := match w_name (f w) with [] => b | name => set_ifname b j name end).
  assert (Hfds1 : bl_fds b1 = bl_fds b0) by (unfold b1; by destruct (w_name (f w))).
  cbv zeta. fold b1. rewrite Hfds1. destruct (Z.leb_spec 0 (fd_wan_table (bl_fds b0))); [|lia].
  change (wm_kernel (upd_wan j f ctx)) with (wm_kernel ctx). rewrite Hk.
  unfold array_update, MAX_EBPF_WANS, MAX_WANS in *. cbn [km_wan_table with_wan_table].
  destruct (Z.leb_spec 0 j); [|lia]. destruct (Z.ltb_spec j 256); [|lia]. cbn [andb].
  split; [done|by exists b1| | |done].
  2: { intros x Hx. rewrite <- Hr, Hk by lia. cbn. rewrite lookup_insert_ne by lia. done. }
  exists (<[j := entry_for j (f w)]> t). split; [done|].
  intros x w' Hx Hw'. destruct (decide (x = j)) as [->|Hne].
  - rewrite lookup_insert_eq. congruence.
  - rewrite lookup_insert_ne by done. apply Ht; [lia|done].
Qed.

Lemma each_wan_spec f ctx b :
  wm_bpf ctx = Some b -> 0 <= fd_wan_table (bl_fds b) -> wan_count ctx <= MAX_WANS ->
  turned f ctx b (wan_count ctx) (each_wan env f ctx).
Proof.
  intros Hb Hfd Hc. unfold each_wan.
  apply (for_loop_ind (turned f ctx b) (fun i ctx => sync_wan env i (upd_wan i f ctx))
    (length (c_wans (wm_config ctx))) 0 ctx).
  - split; cbn; [by rewrite drop_0; destruct (wm_config ctx)|by exists b| |done|done].
    exists (km_wan_table (wm_kernel ctx)). split; [by destruct (wm_kernel ctx)|]. intros; lia.
  - intros j s Hj. apply each_wan_turn; [done|done|]. unfold wan_count. lia.
Qed.

(** ** Ring generation *)

(** Groups whose members are configured WANs. *)
Definition groups_ok (config : fluxwan_config_t) : Prop :=
  Forall (fun g => members_ok config (g_wan_member_indices g)) (c_groups config).

(** What ring generation for the groups leaves alone. *)
Record kept (ctx ctx' : wan_manager_ctx) : Prop := {
  kp_wans : c_wans (wm_config ctx') = c_wans (wm_config ctx);
  kp_lan : c_lan (wm_config ctx') = c_lan (wm_config ctx);
  kp_members : g_wan_member_indices <$> c_groups (wm_config ctx')
               = g_wan_member_indices <$> c_groups (wm_config ctx);
  kp_bpf : wm_bpf ctx' = wm_bpf ctx;
  kp_table : km_wan_table (wm_kernel ctx') = km_wan_table (wm_kernel ctx);
  kp_lut : km_maglev_lut (wm_kernel ctx') = km_maglev_lut (wm_kernel ctx)
}.

#[local] Instance kept_preorder : PreOrder kept.
Proof. split; [by intros ctx; split|]. intros c1 c2 c3 [] []. split; congruence. Qed.

Lemma groups_ok_kept ctx ctx' :
  kept ctx ctx' -> groups_ok (wm_config ctx) -> groups_ok (wm_config ctx').
Proof.
  intros [Hw _ Hm _ _ _] Hg. apply Forall_lookup. intros i g' Hi.
  assert (exists g, c_groups (wm_config ctx) !! i = Some g
            /\ g_wan_member_indices g = g_wan_member_indices g') as (g & Hgi & <-).
  { apply (f_equal (lookup i)) in Hm. rewrite !list_lookup_fmap, Hi in Hm.
    destruct (c_groups (wm_config ctx) !! i) as [g|]; simplify_eq/=. by exists g. }
  unfold members_ok. rewrite Hw. exact (Forall_lookup_1 _ _ _ _ Hg Hgi).
Qed.

Lemma alter_members ring (g : nat) (gs : list wan_group_t) :
  g_wan_member_indices <$> alter (set_g_maglev_ring ring) g gs = g_wan_member_indices <$> gs.
Proof.
  apply list_eq. intros i. rewrite !list_lookup_fmap. destruct (decide (i = g)) as [->|].
  - rewrite list_lookup_alter_eq. by destruct (gs !! g).
  - by rewrite list_lookup_alter_ne.
Qed.

Lemma group_ring_total g ctx :
  groups_ok (wm_config ctx) -> exists ctx', group_ring env g ctx = Some ctx' /\ kept ctx ctx'.
Proof.
  intros Hg. unfold group_ring. destruct (c_groups (wm_config ctx) !! g) as [grp|] eqn:Eg;
    [|by exists ctx].
  pose proof (Forall_lookup_1 _ _ _ _ Hg Eg) as Hm. cbn beta in Hm.
  destruct (g_wan_member_indices grp) as [|m0 ms] eqn:Em; [by exists ctx|]. rewrite <- Em in *.
  destruct (build_ring_complete (wm_config ctx) (ev_stack env) (g_wan_member_indices grp))
    as (ring & -> & _); [done|by rewrite Em|].
  cbn [mbind option_bind]. eexists. split; [done|].
  destruct (wm_bpf ctx) as [b|] eqn:Eb; split; cbn; try done; try apply alter_members.
  all: unfold bpf_loader_update_group_maglev_lut; repeat case_match; simplify_eq; try done.
  all: apply alter_members.
Qed.

Lemma group_rings_total n g ctx :
  groups_ok (wm_config ctx) -> exists ctx', group_rings env n g ctx = Some ctx' /\ kept ctx ctx'.
Proof.
  revert g ctx. induction n as [|n IH]; intros g ctx Hg; cbn [group_rings]; [by exists ctx|].
  destruct (group_ring_total g ctx Hg) as (ctx1 & -> & K1). cbn [mbind option_bind].
  destruct (IH (S g) ctx1) as (ctx2 & E & K2); [by eapply groups_ok_kept|].
  exists ctx2. split; [done|]. by etrans.
Qed.

Lemma all_members_ok config :
  Z.of_nat (length (c_wans config)) <= MAX_WANS ->
  members_ok config (seqZ 0 (Z.of_nat (length (c_wans config)))).
Proof.
  intros Hc. split; [done|]. apply Forall_forall. intros i Hi%elem_of_seqZ. lia.
Qed.

Lemma generate_maglev_total ctx b :
  wm_bpf ctx = Some b -> 0 <= fd_maglev_lut (bl_fds b) -> wan_count ctx <= MAX_WANS ->
  0 < wan_count ctx -> groups_ok (wm_config ctx) ->
  exists ctx' ring,
    wan_manager_generate_maglev_lut env ctx = Some (ctx', 0)
    /\ c_wans (wm_config ctx') = c_wans (wm_config ctx)
    /\ c_lan (wm_config ctx') = c_lan (wm_config ctx)
    /\ wm_bpf ctx' = Some b
    /\ km_wan_table (wm_kernel ctx') = km_wan_table (wm_kernel ctx)
    /\ build_single_maglev_ring (wm_config ctx) (ev_stack env) (seqZ 0 (wan_count ctx)) = Some ring
    /\ forall x, 0 <= x < MAGLEV_RING_SIZE ->
         km_maglev_lut (wm_kernel ctx') !! x = Some (lut_get ring x).
Proof.
  intros Hb Hfd Hc Hpos Hg. unfold wan_manager_generate_maglev_lut.
  destruct (Z.eqb_spec (wan_count ctx) 0); [lia|].
  destruct (build_ring_complete (wm_config ctx) (ev_stack env) (seqZ 0 (wan_count ctx)))
    as (ring & Er & _).
  { by apply all_members_ok. }
  { intros E%(f_equal length). rewrite length_seqZ in E. cbn in E. lia. }
  rewrite Er. cbn [mbind option_bind]. change (wm_bpf (set_lut ring ctx)) with (wm_bpf ctx). rewrite Hb.
  destruct (update_maglev_lut_spec b (wm_kernel (set_lut ring ctx)) (lut_get ring) Hfd)
    as (m & Em & Hm). rewrite Em. cbn [mbind option_bind fst].
  set (ctx1 := set_loader (Some b) (with_maglev_lut (wm_kernel (set_lut ring ctx)) m) (set_lut ring ctx)).
  destruct (group_rings_total (length (c_groups (wm_config ctx1))) 0 ctx1) as (ctx2 & E2 & K); [done|].
  rewrite E2. cbn [mbind option_bind]. destruct K as [K1 K2 K3 K4 K5 K6]. rewrite K4.
  change (wm_bpf ctx1) with (Some b). cbv iota.
  eexists _, ring. split; [done|]. cbn [wm_config set_loader wm_bpf wm_kernel].
  split_and!; try done.
  - unfold bpf_loader_update_policy_routes. by case_match.
  - intros x Hx. rewrite <- (Hm x Hx). transitivity (km_maglev_lut (wm_kernel ctx2) !! x).
    + unfold bpf_loader_update_policy_routes. by case_match.
    + by rewrite K6.
Qed.

(** ** Rebalancing *)

(** An uplink new flows may be given to. *)
Definition in_service (w : wan_config_t) : bool :=
  w_enabled w && negb (bool_decide (w_state w = WAN_STATE_DOWN))
  && negb (bool_decide (w_state w = WAN_STATE_DRAINING)).

(** The weight before penalties: the line's bandwidth, else the configured weight. *)
Definition base_weight (w : wan_config_t) : Z :=
  let base := if 0 <? w_bandwidth_down_mbps w then w_bandwidth_down_mbps w else w_config_weight w in
  if base =? 0 then 1 else base.

Lemma steered_bounds weight min_rtt rtt :
  0 < weight -> 0 <= min_rtt < 999999 -> u32 (min_rtt + 60) < rtt ->
  let scaled := u32 (weight * min_rtt) / rtt in
  1 <= (if 0 <? scaled then scaled else 1) <= weight.
Proof.
  intros Hw Hm Hr. cbv zeta. rewrite u32_small in Hr by (unfold is_u32; lia).
  destruct (Z.ltb_spec 0 (u32 (weight * min_rtt) / rtt)); [|lia]. split; [lia|].
  apply Z.div_le_upper_bound; [lia|]. transitivity (weight * min_rtt); [|nia].
  apply Z.mod_le; [nia|]. done.
Qed.

Lemma rebalance_wan_weight steering min_rtt w :
  0 <= w_config_weight w -> 0 <= min_rtt ->
  let w' := rebalance_wan steering min_rtt w in
  in_service w' = in_service w
  /\ if in_service w then 1 <= w_dynamic_weight w' <= base_weight w else w_dynamic_weight w' = 0.
Proof.
  intros Hc Hm. unfold rebalance_wan, in_service. destruct (w_enabled w) eqn:En; cbn [negb orb andb].
  2: { unfold set_w_state, set_w_dynamic_weight. cbn. by rewrite En. }
  destruct (decide (w_state w = WAN_STATE_DOWN)) as [Ed|Ed].
  { rewrite (bool_decide_true (w_state w = _)) by done.
    cbn [w_enabled w_state w_dynamic_weight set_w_dynamic_weight negb].
    rewrite En. cbn [negb w_enabled w_state w_dynamic_weight set_w_dynamic_weight].
    by rewrite (bool_decide_true (w_state w = _)), andb_false_r. }
  rewrite (bool_decide_false (w_state w = WAN_STATE_DOWN)) by done.
  destruct (decide (w_state w = WAN_STATE_DRAINING)) as [Er|Er].
  { rewrite (bool_decide_true (w_state w = _)) by done.
    cbn [w_enabled w_state w_dynamic_weight set_w_dynamic_weight negb].
    by rewrite En, (bool_decide_true (w_state w = WAN_STATE_DRAINING)), andb_false_r. }
  rewrite (bool_decide_false (w_state w = WAN_STATE_DRAINING)) by done. cbn [negb andb].
  cbn [w_enabled w_state w_dynamic_weight set_w_dynamic_weight]. rewrite En.
  rewrite !bool_decide_false by done. split; [done|].
  assert (Hb : 0 < base_weight w).
  { unfold base_weight. destruct (Z.ltb_spec 0 (w_bandwidth_down_mbps w)); repeat case_match; lia. }
  fold (base_weight w). set (pen := if bool_decide (w_state w = WAN_STATE_DEGRADED) then _ else _).
  assert (1 <= pen <= base_weight w).
  { unfold pen. case_match; [|lia].
    assert (base_weight w / 4 <= base_weight w) by (apply Z.div_le_upper_bound; lia).
    assert (0 <= base_weight w / 4) by (apply Z.div_pos; lia).
    destruct (Z.eqb_spec (base_weight w / 4) 0); lia. }
  destruct (steering && (min_rtt <? 999999) && (u32 (min_rtt + 60) <? m_rtt_ms (w_metrics w))) eqn:E; [|lia].
  bool_hyps. destruct (steered_bounds pen min_rtt (m_rtt_ms (w_metrics w))); lia.
Qed.

Lemma min_rtt_nonneg wans : 0 <= min_healthy_rtt wans.
Proof.
  unfold min_healthy_rtt. generalize 999999 (ltac:(lia) : 0 <= 999999).
  induction wans as [|w wans IH]; intros acc Hacc; cbn [foldl]; [done|].
  apply IH. destruct (w_enabled w && _ && (0 <? m_rtt_ms (w_metrics w))) eqn:E; [|done].
  bool_hyps. case_match; lia.
Qed.

(** What a rebalance needs: the kernel's tables open, at most [MAX_WANS] uplinks,
    groups of configured uplinks, and unsigned configured weights. *)
Record manager_ok (ctx : wan_manager_ctx) (b : bpf_loader_ctx) : Prop := {
  mo_bpf : wm_bpf ctx = Some b;
  mo_table : 0 <= fd_wan_table (bl_fds b);
  mo_lut : 0 <= fd_maglev_lut (bl_fds b);
  mo_count : 0 < wan_count ctx <= MAX_WANS;
  mo_groups : groups_ok (wm_config ctx);
  mo_weights : Forall (fun w => 0 <= w_config_weight w) (c_wans (wm_config ctx))
}.

(** The function a rebalance applies to each uplink. *)
Definition rebalanced (ctx : wan_manager_ctx) : wan_config_t -> wan_config_t :=
  rebalance_wan (pc_dynamic_latency_steering (c_prober (wm_config ctx)))
    (min_healthy_rtt (c_wans (wm_config ctx))).

Lemma turned_all f ctx b ctx' :
  turned f ctx b (wan_count ctx) ctx' ->
  c_wans (wm_config ctx') = f <$> c_wans (wm_config ctx)
  /\ c_groups (wm_config ctx') = c_groups (wm_config ctx).
Proof.
  intros [Hc _ _ _ _]. rewrite Hc. cbn. unfold wan_count. rewrite Nat2Z.id.
  by rewrite take_ge, drop_ge, app_nil_r by lia.
Qed.

Lemma groups_ok_fmap f config config' :
  c_wans config' = f <$> c_wans config -> c_groups config' = c_groups config ->
  groups_ok config -> groups_ok config'.
Proof.
  unfold groups_ok, members_ok. intros Hw ->. rewrite Hw, length_fmap. done.
Qed.

(** The state after an authorised rebalance. *)
Record rebalance_result (ctx ctx' : wan_manager_ctx) : Prop := {
  rr_wans : c_wans (wm_config ctx') = rebalanced ctx <$> c_wans (wm_config ctx);
  rr_table : forall x w, 0 <= x -> wan_at ctx' x = Some w ->
    km_wan_table (wm_kernel ctx') !! x = Some (entry_for x w);
  rr_rest : forall x, ~ 0 <= x < wan_count ctx ->
    km_wan_table (wm_kernel ctx') !! x = km_wan_table (wm_kernel ctx) !! x;
  rr_lut : existsb in_service (c_wans (wm_config ctx)) = true ->
    forall x, 0 <= x < MAGLEV_RING_SIZE ->
      exists i w, km_maglev_lut (wm_kernel ctx') !! x = Some i /\ 0 <= i
        /\ wan_at ctx' i = Some w /\ in_service w = true
}.

Lemma rebalanced_active ctx w :
  0 <= w_config_weight w ->
  wan_is_active (rebalanced ctx w) = in_service w /\ in_service (rebalanced ctx w) = in_service w.
Proof.
  intros Hw. unfold rebalanced.
  destruct (rebalance_wan_weight (pc_dynamic_latency_steering (c_prober (wm_config ctx)))
    (min_healthy_rtt (c_wans (wm_config ctx))) w Hw (min_rtt_nonneg _)) as [Hs Hd].
  split; [|done]. unfold wan_is_active. fold (in_service (rebalance_wan
    (pc_dynamic_latency_steering (c_prober (wm_config ctx)))
    (min_healthy_rtt (c_wans (wm_config ctx))) w)).
  rewrite Hs. destruct (in_service w); [|done]. cbn. apply Z.ltb_lt. lia.
Qed.

Lemma entry_eligible ctx i w :
  0 <= w_config_weight w ->
  eligible (entry_for i (rebalanced ctx w)) = in_service w.
Proof.
  intros Hw. destruct (rebalanced_active ctx w Hw) as [Ha Hs].
  unfold eligible, entry_for, wan_entry_of. cbn [we_is_active we_weight we_is_draining].
  set (w' := rebalanced ctx w) in *.
  destruct (in_service w) eqn:E.
  - revert Ha. unfold wan_is_active.
    destruct (w_state w'), (w_enabled w'); try done;
      rewrite !bool_decide_false by done; cbn; by intros ->.
  - assert (Hd : w_dynamic_weight w' = 0).
    { destruct (rebalance_wan_weight (pc_dynamic_latency_steering (c_prober (wm_config ctx)))
        (min_healthy_rtt (c_wans (wm_config ctx))) w Hw (min_rtt_nonneg _)) as [_ H].
      by rewrite E in H. }
    rewrite Hd. by repeat case_match.
Qed.

(** A slot of a ring over all the uplinks of [config]. *)
Lemma ring_slot_active config ring x :
  Z.of_nat (length (c_wans config)) <= MAX_WANS ->
  existsb wan_is_active (c_wans config) = true ->
  build_single_maglev_ring config (ev_stack env) (seqZ 0 (Z.of_nat (length (c_wans config)))) = Some ring ->
  0 <= x < MAGLEV_RING_SIZE ->
  exists w, 0 <= lut_get ring x /\ c_wans config !! Z.to_nat (lut_get ring x) = Some w
    /\ wan_is_active w = true.
Proof.
  intros Hc Ha Er Hx. apply existsb_exists in Ha as (w & Hin & Ha).
  apply list_elem_of_In, list_elem_of_lookup_1 in Hin as [j Hj]. pose proof (lookup_lt_Some _ _ _ Hj).
  destruct (build_ring_complete config (ev_stack env) (seqZ 0 (Z.of_nat (length (c_wans config)))))
    as (ring' & Er' & Hs).
  { by apply all_members_ok. }
  { intros E%(f_equal length). rewrite length_seqZ in E. cbn in E. lia. }
  rewrite Er in Er'. injection Er' as <-. specialize (Hs x Hx).
  assert (existsb (member_active config) (seqZ 0 (Z.of_nat (length (c_wans config)))) = true) as Hex.
  { apply existsb_exists. exists (Z.of_nat j). split.
    - apply list_elem_of_In, elem_of_seqZ. lia.
    - unfold member_active. rewrite Nat2Z.id, Hj, Ha, andb_true_r. apply Z.leb_le. lia. }
  rewrite Hex in Hs. destruct Hs as [Hmem Hact]. revert Hact. unfold member_active.
  destruct (c_wans config !! Z.to_nat (lut_get ring x)) as [w'|]; [|done].
  intros Hact. bool_hyps. by exists w'.
Qed.

Lemma existsb_rebalanced ctx :
  Forall (fun w => 0 <= w_config_weight w) (c_wans (wm_config ctx)) ->
  existsb wan_is_active (rebalanced ctx <$> c_wans (wm_config ctx))
  = existsb in_service (c_wans (wm_config ctx)).
Proof.
  generalize (rebalanced_active ctx). generalize (rebalanced ctx). intros f Hf.
  induction 1 as [|w wans Hw _ IH]; cbn; [done|]. by rewrite IH, (proj1 (Hf w Hw)).
Qed.

Lemma rebalance_spec ctx b :
  ev_authorized env = true -> manager_ok ctx b ->
  exists ctx', wan_manager_rebalance env ctx = Some (ctx', 0) /\ rebalance_result ctx ctx'.
Proof.
  intros Hauth [Hb Ht Hl [Hc0 Hc] Hg Hw]. unfold wan_manager_rebalance. rewrite Hauth. cbn [negb].
  fold (rebalanced ctx).
  pose proof (each_wan_spec (rebalanced ctx) ctx b Hb Ht Hc) as Htu.
  set (ctx1 := each_wan env (rebalanced ctx) ctx) in *.
  destruct (turned_all _ _ _ _ Htu) as [Hwans Hgs]. destruct Htu as [_ (b1 & Hb1 & Hfds) (t & Hk & Htab) Hrest _].
  assert (Hcnt : wan_count ctx1 = wan_count ctx) by (unfold wan_count; by rewrite Hwans, length_fmap).
  destruct (generate_maglev_total ctx1 b1) as (ctx2 & ring & E2 & W2 & _ & B2 & T2 & R2 & L2);
    [done|by rewrite Hfds|lia|lia|by apply (groups_ok_fmap (rebalanced ctx) (wm_config ctx))|].
  rewrite E2. cbn [mbind option_bind fst]. eexists. split; [done|]. unfold sync_ctrl. rewrite B2.
  assert (Hctrl : forall a, km_wan_table (fst (bpf_loader_update_ctrl_map b1 (wm_kernel ctx2) a
            (active_count (c_wans (wm_config ctx2))) 1 0)) = km_wan_table (wm_kernel ctx2)
          /\ km_maglev_lut (fst (bpf_loader_update_ctrl_map b1 (wm_kernel ctx2) a
            (active_count (c_wans (wm_config ctx2))) 1 0)) = km_maglev_lut (wm_kernel ctx2)).
  { intros a. unfold bpf_loader_update_ctrl_map. by case_match. }
  destruct (Hctrl (lan_ip_addr (c_lan (wm_config ctx2)))) as [Hct Hcl].
  split; unfold wan_at; cbn [wm_config wm_kernel perform set_loader]; rewrite ?Hct, ?Hcl, ?W2, ?T2.
  - done.
  - intros x w Hx. rewrite Hwans, list_lookup_fmap. intros (w0 & Hw0 & ->)%fmap_Some.
    rewrite Hk. cbn [km_wan_table with_wan_table]. apply Htab; [|done].
    pose proof (lookup_lt_Some _ _ _ Hw0). unfold wan_count. lia.
  - intros x Hx. by apply Hrest.
  - intros Hin x Hx. rewrite (L2 x Hx).
    destruct (ring_slot_active (wm_config ctx1) ring x) as (w & H0 & Hat & Hact); [unfold wan_count in *; lia| |done|done|].
    { rewrite Hwans. by rewrite existsb_rebalanced. }
    exists (lut_get ring x), w. split_and!; try done.
    by apply andb_prop in Hact as [Hact _].
Qed.
End rebalance.

(** No entry past the configured uplinks is one the router may pick. *)
Definition no_stale_entries (ctx : wan_manager_ctx) : Prop :=
  forall x, wan_count ctx <= x ->
    let e := default zero_wan_entry (km_wan_table (wm_kernel ctx) !! x) in
    eligible e = false /\ 0 <= we_weight e.

(** ** Theorems *)

(** A rebalance publishes the configuration.  For an authorised manager whose
    tables are open, [wan_manager_rebalance] succeeds; afterwards every configured
    uplink has its entry in the kernel's WAN table, which the router may pick for new
    flows exactly when the uplink is enabled and neither down nor draining; and if there is such an
    uplink every slot of the kernel's ring names one. *)
Theorem rebalance_publishes env ctx b :
  ev_authorized env = true -> manager_ok ctx b ->
  exists ctx', wan_manager_rebalance env ctx = Some (ctx', 0)
    /\ (forall x w, 0 <= x -> wan_at ctx x = Some w ->
          exists e, km_wan_table (wm_kernel ctx') !! x = Some e /\ eligible e = in_service w)
    /\ (existsb in_service (c_wans (wm_config ctx)) = true ->
        forall x, 0 <= x < MAGLEV_RING_SIZE ->
          exists i w, km_maglev_lut (wm_kernel ctx') !! x = Some i /\ 0 <= i
            /\ wan_at ctx i = Some w /\ in_service w = true).
Proof.
  intros Ha Hok. destruct (rebalance_spec env ctx b Ha Hok) as (ctx' & E & [Hw Ht Hr Hl]).
  pose proof (proj1 (Forall_lookup _ _) (mo_weights _ _ Hok)) as Hwt. cbn beta in Hwt.
  exists ctx'. split_and!; [done| |].
  - intros x w Hx Hat. exists (entry_for env x (rebalanced ctx w)). split.
    + apply Ht; [done|]. unfold wan_at in *. by rewrite Hw, list_lookup_fmap, Hat.
    + by apply entry_eligible, (Hwt (Z.to_nat x)).
  - intros Hex x Hx. destruct (Hl Hex x Hx) as (i & w & Hi & H0 & Hat & Hs).
    unfold wan_at in Hat. rewrite Hw, list_lookup_fmap in Hat.
    apply fmap_Some in Hat as (w0 & Hat & ->). exists i, w0. split_and!; try done.
    by rewrite <- (proj2 (rebalanced_active ctx w0 (Hwt _ _ Hat))).
Qed.

(** Rebalanced weights.  The new weight of an uplink in service lies between one
    and its base weight (its bandwidth, else its configured weight): the penalties for
    degradation and latency never raise it and never starve the uplink.  An uplink
    out of service weighs nothing. *)
Theorem rebalanced_weights steering wans w :
  0 <= w_config_weight w ->
  let w' := rebalance_wan steering (min_healthy_rtt wans) w in
  if in_service w then 1 <= w_dynamic_weight w' <= base_weight w else w_dynamic_weight w' = 0.
Proof. intros Hw. apply rebalance_wan_weight; [done|apply min_rtt_nonneg]. Qed.

(** ** Health updates *)

Lemma manager_ok_config ctx ctx' b f i :
  c_wans (wm_config ctx') = alter f i (c_wans (wm_config ctx)) ->
  c_groups (wm_config ctx') = c_groups (wm_config ctx) -> wm_bpf ctx' = wm_bpf ctx ->
  (forall w, w_config_weight (f w) = w_config_weight w) ->
  manager_ok ctx b -> manager_ok ctx' b.
Proof.
  intros Hw Hg Hb Hf [H1 H2 H3 H4 H5 H6].
  assert (Hl : length (c_wans (wm_config ctx')) = length (c_wans (wm_config ctx))).
  { by rewrite Hw, length_alter. }
  split; try done.
  - congruence.
  - unfold wan_count in *. by rewrite Hl.
  - unfold groups_ok, members_ok in *. by rewrite Hg, Hl.
  - rewrite Hw. apply Forall_lookup. intros j w Hj. rewrite Forall_lookup in H6.
    destruct (decide (j = i)) as [->|].
    + rewrite list_lookup_alter_eq in Hj. apply fmap_Some in Hj as (w0 & Hw0 & ->). rewrite Hf. by apply (H6 i).
    + rewrite list_lookup_alter_ne in Hj by done. by apply (H6 j).
Qed.

Lemma wan_at_upd ctx i f w :
  wan_at ctx i = Some w -> wan_at (upd_wan i f ctx) i = Some (f w).
Proof. unfold wan_at, upd_wan. cbn. intros H. by rewrite list_lookup_alter_eq, H. Qed.

Lemma with_metrics_ok ctx b i metrics :
  manager_ok ctx b ->
  manager_ok (match metrics with Some m => upd_wan i (set_w_metrics m) ctx | None => ctx end) b.
Proof. intros H. destruct metrics; [|done]. by apply (manager_ok_config ctx _ b (set_w_metrics w) (Z.to_nat i)). Qed.

(** Health updates.  A prober report about an uplink is total.  A draining uplink only takes
    the new metrics, whatever the report says.  A report without a change of state
    touches neither the kernel's tables nor the routes.  A change of state reaches the kernel at
    once: afterwards the uplink's entry may be picked for new flows exactly when the
    uplink is enabled and its new state is neither down nor draining. *)
Theorem health_update_published env ctx b i state metrics w :
  ev_authorized env = true -> manager_ok ctx b -> 0 <= i -> wan_at ctx i = Some w ->
  exists ctx', wan_manager_on_health_update env i state metrics ctx = Some ctx'
    /\ if bool_decide (w_state w = WAN_STATE_DRAINING) then
         ctx' = match metrics with Some m => upd_wan i (set_w_metrics m) ctx | None => ctx end
       else if bool_decide (w_state w = state) then
         wm_kernel ctx' = wm_kernel ctx /\ wm_effects ctx' = wm_effects ctx
       else exists e, km_wan_table (wm_kernel ctx') !! i = Some e
         /\ eligible e = in_service (set_w_state state w).
Proof.
  intros Ha Hok Hi Hat. unfold wan_manager_on_health_update.
  destruct (Z.leb_spec (wan_count ctx) i).
  { apply lookup_lt_Some in Hat. unfold wan_count in *. lia. }
  set (ctx1 := match metrics with Some m => _ | None => ctx end).
  set (w1 := match metrics with Some m => set_w_metrics m w | None => w end).
  assert (Hat1 : wan_at ctx1 i = Some w1).
  { unfold ctx1, w1. destruct metrics; [|done]. by apply wan_at_upd. }
  assert (Hs1 : w_state w1 = w_state w) by (unfold w1; by destruct metrics).
  rewrite Hat1, Hs1. destruct (bool_decide (w_state w = WAN_STATE_DRAINING)); [by eexists|].
  destruct (bool_decide (w_state w = state)).
  { eexists. split; [done|]. unfold ctx1. by destruct metrics. }
  set (ctx2 := perform _ _).
  assert (Hok2 : manager_ok ctx2 b).
  { apply (manager_ok_config ctx1 _ b (set_w_state state) (Z.to_nat i)); try done. by apply with_metrics_ok. }
  destruct (rebalance_spec env ctx2 b Ha Hok2) as (ctx3 & -> & [Hw Ht _ _]). cbn [mbind option_bind fst].
  eexists. split; [done|]. assert (Hat2 : wan_at ctx2 i = Some (set_w_state state w1)).
  { by apply (wan_at_upd ctx1). }
  exists (entry_for env i (rebalanced ctx2 (set_w_state state w1))). split.
  - apply Ht; [done|]. unfold wan_at in *. by rewrite Hw, list_lookup_fmap, Hat2.
  - rewrite entry_eligible.
    + unfold w1. by destruct metrics.
    + apply (Forall_lookup_1 _ _ _ _ (mo_weights _ _ Hok2) Hat2).
Qed.

Section end_to_end.
Context {L G : Type}.
Context `{HL : BpfHash flow_5tuple bpf_session_val L} `{HG : BpfHash flow_5tuple bpf_session_val G}.
Context `{!BpfHashLaws flow_5tuple bpf_session_val L} `{!BpfHashLaws flow_5tuple bpf_session_val G}.
Implicit Types m : router_maps L G.

Lemma wan_lookup_table m ctx x :
  wan_table_map m = km_wan_table (wm_kernel ctx) -> 0 <= x < MAX_EBPF_WANS ->
  wan_lookup m x = Some (default zero_wan_entry (km_wan_table (wm_kernel ctx) !! x)).
Proof. intros E Hx. unfold wan_lookup. rewrite E. by apply array_lookup_Some. Qed.

(** Weights are unsigned: those of the entries that are in the table already. *)
Definition table_weights (ctx : wan_manager_ctx) : Prop :=
  forall x e, km_wan_table (wm_kernel ctx) !! x = Some e -> 0 <= we_weight e.
(** An entry behind the configured uplinks that an earlier configuration with more of them left. *)
Definition leftover (ctx : wan_manager_ctx) (x : Z) : Prop :=
  wan_count ctx <= x /\ exists e, km_wan_table (wm_kernel ctx) !! x = Some e /\ eligible e = true.
Lemma no_leftover ctx x : no_stale_entries ctx -> ~ leftover ctx x.
Proof. intros H [Hx (e & He & Hel)]. destruct (H x Hx) as [Hs _]. rewrite He in Hs. cbn in Hs. congruence. Qed.

(** Which entries of the table after a rebalance the router may pick. *)
Lemma published_entry env ctx b ctx' m x e :
  manager_ok ctx b -> table_weights ctx -> rebalance_result env ctx ctx' ->
  wan_table_map m = km_wan_table (wm_kernel ctx') -> wan_lookup m x = Some e ->
  0 <= we_weight e
  /\ (eligible e = true -> 0 <= x /\ ((exists w, wan_at ctx x = Some w /\ in_service w = true) \/ leftover ctx x)).
Proof.
  intros Hok Hst [Hw Ht Hr _] Hm Hx. unfold wan_lookup in Hx. rewrite Hm in Hx.
  apply array_lookup_inv in Hx as [Hx ->].
  destruct (decide (x < wan_count ctx)) as [Hlt|Hge].
  - destruct (lookup_lt_is_Some_2 (c_wans (wm_config ctx)) (Z.to_nat x)) as [w Hat];
      [unfold wan_count in Hlt; lia|].
    pose proof (Forall_lookup_1 _ _ _ _ (mo_weights _ _ Hok) Hat) as Hw0. cbn beta in Hw0.
    rewrite (Ht x (rebalanced ctx w)) by (unfold wan_at; rewrite ?Hw, ?list_lookup_fmap, ?Hat; (lia || done)).
    cbn [from_option id]. split.
    + destruct (rebalance_wan_weight (pc_dynamic_latency_steering (c_prober (wm_config ctx)))
        (min_healthy_rtt (c_wans (wm_config ctx))) w Hw0 (min_rtt_nonneg _)) as [_ Hd].
      unfold entry_for, wan_entry_of. cbn [we_weight]. destruct (bool_decide _); [lia|].
      unfold rebalanced. destruct (in_service w); lia.
    + rewrite entry_eligible by done. intros Hs. split; [lia|]. left. by exists w.
  - rewrite Hr by lia. destruct (km_wan_table (wm_kernel ctx) !! x) as [f|] eqn:Ef; cbn [from_option id]; [|done].
    split; [by apply (Hst x)|]. intros Hel. split; [lia|]. right. split; [lia|]. by exists f.
Qed.

(** C1.  End to end: with an authorisation, and with an uplink that the configuration has enabled and that
    is neither down nor draining, a rebalance publishes a table on which the router sends the first packet
    of a flow to such an uplink.  The one exception is an entry behind the configured uplinks, which an
    earlier configuration with more of them left in the table and which no rebalance clears; without such
    entries, as on the table of a new start, there is none. *)
Theorem new_flows_on_working_wans env ctx b renv m key m' t ctx' :
  ev_authorized env = true -> manager_ok ctx b -> table_weights ctx ->
  existsb in_service (c_wans (wm_config ctx)) = true ->
  wan_manager_rebalance env ctx = Some (ctx', 0) ->
  wan_table_map m = km_wan_table (wm_kernel ctx') ->
  lookup_session m key = None -> select_wan renv m key = (m', t) ->
  0 <= t /\ ((exists w, wan_at ctx t = Some w /\ in_service w = true)
             \/ (leftover ctx t /\ ~ no_stale_entries ctx)).
Proof.
  intros Ha Hok Hst Hex E Hm Hnew Hs.
  destruct (rebalance_spec env ctx b Ha Hok) as (c2 & E2 & Hres). rewrite E in E2. injection E2 as <-.
  assert (Hwt : weights_ok m).
  { intros i e Hi. by apply (published_entry env ctx b ctx' m i e). }
  apply existsb_exists in Hex as (w & Hin & Hw).
  apply list_elem_of_In, list_elem_of_lookup_1 in Hin as [j Hj]. pose proof (lookup_lt_Some _ _ _ Hj) as Hlt.
  pose proof (Forall_lookup_1 _ _ _ _ (mo_weights _ _ Hok) Hj) as Hw0. cbn beta in Hw0.
  pose proof (mo_count _ _ Hok) as [_ Hc]. unfold wan_count, MAX_WANS in Hc.
  destruct (select_usable renv m key m' t (Z.of_nat j) (entry_for env (Z.of_nat j) (rebalanced ctx w)))
    as (e & He & Hor); [done| | |done|].
  - rewrite (wan_lookup_table m ctx') by (done || unfold MAX_EBPF_WANS; lia).
    rewrite (rr_table _ _ _ Hres (Z.of_nat j) (rebalanced ctx w)); [done|lia|].
    unfold wan_at. by rewrite (rr_wans _ _ _ Hres), list_lookup_fmap, Nat2Z.id, Hj.
  - by rewrite entry_eligible.
  - destruct Hor as [Hel|(_ & v & Hv & _)]; [|congruence].
    rewrite (same_tables_wan m m') in He by (by eapply select_wan_tables).
    destruct (published_entry env ctx b ctx' m t e Hok Hst Hres Hm He) as [_ H]. destruct (H Hel) as [H0 [H1|H1]].
    + split; [done|by left].
    + split; [done|right]. split; [done|]. intros Hn. by apply (no_leftover ctx t).
Qed.

Lemma first_healthy_none n i m :
  (forall x e, wan_lookup m x = Some e -> eligible e = false) -> first_healthy n i m = None.
Proof.
  intros H. revert i. induction n as [|n IH]; intros i; cbn [first_healthy]; [done|].
  destruct (wan_lookup m i) as [e|] eqn:E; [|done]. by rewrite (H i e).
Qed.

(** With nothing to fail over to, a flow without a session stays on its first choice. *)
Lemma dispatch_stays renv m key h :
  (forall x e, wan_lookup m x = Some e -> eligible e = false) ->
  (dispatch renv m key h).2 = (first_choice m key h).2.
Proof.
  intros H. unfold dispatch. destruct (first_choice m key h) as [m1 t1] eqn:E1.
  apply first_choice_spec in E1 as [Ht _]. unfold health_check.
  rewrite (first_healthy_none 256 0 m1).
  2: { intros x e. rewrite (same_tables_wan m m1) by done. apply H. }
  destruct (wan_lookup m1 t1) as [we|]; [|done]. by destruct (_ || _ || _).
Qed.

Lemma first_choice_tables m m2 key h :
  same_tables m m2 -> (first_choice m2 key h).2 = (first_choice m key h).2.
Proof.
  intros (_ & Hlut & Hpol & Hgrp & Hlpm & _). unfold first_choice. rewrite Hlpm.
  assert (policy_group 16 0 m2 (f_src_ip key) = policy_group 16 0 m (f_src_ip key)) as ->.
  { generalize 16%nat 0. intros n p. revert p. induction n as [|n IH]; intros p; [done|].
    cbn [policy_group]. rewrite Hpol. by repeat case_match. }
  unfold ring_pick. rewrite Hlut, Hgrp. by repeat case_match.
Qed.

Lemma unlicensed_rebalance env ctx ctx' :
  ev_authorized env = false -> wan_manager_rebalance env ctx = Some (ctx', -2) ->
  ctx' = each_wan env (set_w_dynamic_weight 0) ctx.
Proof. unfold wan_manager_rebalance. intros ->. cbn [negb]. congruence. Qed.

End end_to_end.

(** ** Examples *)

Lemma sample_manager_ok : manager_ok sample_manager sample_loader.
Proof.
  split; try (vm_compute; (reflexivity || discriminate)).
  - split; vm_compute; (reflexivity || discriminate).
  - constructor.
  - repeat constructor; vm_compute; discriminate.
Qed.

Lemma sample_no_stale : no_stale_entries sample_manager.
Proof. intros x _. cbn [wm_kernel sample_manager sample_kernel km_wan_table]. by rewrite lookup_empty. Qed.

Lemma rebalance_publishes_witness :
  exists ctx' e0 e2, wan_manager_rebalance sample_wm_env sample_manager = Some (ctx', 0)
    /\ km_wan_table (wm_kernel ctx') !! 0 = Some e0 /\ eligible e0 = true
    /\ km_wan_table (wm_kernel ctx') !! 2 = Some e2 /\ eligible e2 = false.
Proof.
  destruct (rebalance_publishes sample_wm_env sample_manager sample_loader) as (ctx' & E & H & _).
  - reflexivity.
  - exact sample_manager_ok.
  - destruct (H 0 (sample_wan 1 "eth1" 100 WAN_STATE_HEALTHY)) as (e0 & H0 & H0'); [lia|reflexivity|].
    destruct (H 2 (sample_wan 3 "eth3" 10 WAN_STATE_DOWN)) as (e2 & H2 & H2'); [lia|reflexivity|].
    exists ctx', e0, e2. split; [exact E|]. split; [exact H0|]. split; [exact H0'|].
    split; [exact H2|exact H2'].
Defined.

Lemma rebalanced_weights_witness :
  let w := sample_wan 1 "eth1" 100 WAN_STATE_DEGRADED in
  1 <= w_dynamic_weight (rebalance_wan false (min_healthy_rtt [w]) w) <= 100.
Proof.
  exact (rebalanced_weights false [sample_wan 1 "eth1" 100 WAN_STATE_DEGRADED]
    (sample_wan 1 "eth1" 100 WAN_STATE_DEGRADED) ltac:(vm_compute; discriminate)).
Defined.

Lemma health_update_published_witness :
  exists ctx' e, wan_manager_on_health_update sample_wm_env 0 WAN_STATE_DOWN None sample_manager = Some ctx'
    /\ km_wan_table (wm_kernel ctx') !! 0 = Some e /\ eligible e = false.
Proof.
  destruct (health_update_published sample_wm_env sample_manager sample_loader 0 WAN_STATE_DOWN None
    (sample_wan 1 "eth1" 100 WAN_STATE_HEALTHY)) as (ctx' & E & H).
  - reflexivity.
  - exact sample_manager_ok.
  - lia.
  - reflexivity.
  - destruct H as (e & H1 & H2). exists ctx', e. split; [exact E|]. split; [exact H1|exact H2].
Defined.

(** The state after a rebalance, and a router on its tables. *)
Definition sample_balanced : wan_manager_ctx :=
  default sample_manager (fst <$> wan_manager_rebalance sample_wm_env sample_manager).
Definition router_on (ctx : wan_manager_ctx) : router_maps session_lru session_lru :=
  RouterMaps (km_maglev_lut (wm_kernel ctx)) (km_wan_table (wm_kernel ctx)) (Lru 64 []) (Lru 64 [])
    ∅ ∅ ∅ (fun _ => None) (km_ctrl (wm_kernel ctx)) zero_global_stats [].

Lemma new_flows_on_working_wans_witness :
  let t := (select_wan sample_env (router_on sample_balanced) sample_key).2 in
  0 <= t /\ exists w, wan_at sample_manager t = Some w /\ in_service w = true.
Proof.
  cbv zeta.
  destruct (new_flows_on_working_wans sample_wm_env sample_manager sample_loader sample_env
    (router_on sample_balanced) sample_key (select_wan sample_env (router_on sample_balanced) sample_key).1
    (select_wan sample_env (router_on sample_balanced) sample_key).2 sample_balanced) as [H0 [Hw|[_ Hn]]].
  - reflexivity.
  - exact sample_manager_ok.
  - intros x e He. cbn [wm_kernel sample_manager sample_kernel km_wan_table] in He. rewrite lookup_empty in He. discriminate He.
  - reflexivity.
  - unfold sample_balanced. destruct (rebalance_spec sample_wm_env sample_manager sample_loader) as (c & E & _);
      [reflexivity|exact sample_manager_ok|]. rewrite E. reflexivity.
  - reflexivity.
  - reflexivity.
  - apply surjective_pairing.
  - split; [exact H0|exact Hw].
  - destruct (Hn sample_no_stale).
Defined.

(** The same manager without a licence. *)
Definition sample_unlicensed : wm_env :=
  WmEnv 0 [] false (fun _ => 7) (fun _ => Slot 0 0 1 0 0 0).
Definition sample_gated : wan_manager_ctx := each_wan sample_unlicensed (set_w_dynamic_weight 0) sample_manager.

