(* ===== verification/Prober.v ===== *)
(** * The health prober ([src/src/prober.c])

    One echo probe per uplink and interval, a window of the last 32 outcomes, and the
    state of the uplink computed from it.  The prober holds a pointer to the
    configuration that the WAN manager holds too, and calls back into the manager:
    the shared object is one store ([ConfigStore]), written by both.

    Socket calls are arguments: what [socket], [setsockopt], [sendto] and [recvfrom]
    answer.  Packets sent are returned, in order. *)

From S2P Require Import Prelude Fluxwan Samples Checksum Ipv4 Maglev Bpf BpfLoader WanManager.

(** ** The shared configuration *)

Class ConfigStore (S : Type) := {
  cs_config : S -> fluxwan_config_t;
  cs_set_config : fluxwan_config_t -> S -> S
}.

#[export] Instance manager_store : ConfigStore wan_manager_ctx :=
  {| cs_config := wm_config; cs_set_config := set_config |}.

(** ** State *)

Record probe_slot_t := ProbeSlot {
  sl_seq : Z;
  sl_send_time_us : Z;
  sl_received : bool
}.

Record wan_probe_state_t := WanProbeState {
  ps_wan_idx : Z;
  ps_target_ip : Z;
  ps_current_seq : Z;
  ps_rtt_history : list Z;
  ps_loss_history : list bool;
  ps_history_idx : Z;
  ps_pending_probes : list probe_slot_t
}.

(** [wan_send_fds] holds the open sockets; an absent entry is -1. *)
Record prober_ctx := ProberCtx {
  pr_raw_fd : Z;
  pr_wan_send_fds : gmap Z Z;
  pr_wan_states : list wan_probe_state_t;
  pr_pid : Z
}.

Definition set_fds (fds : gmap Z Z) (p : prober_ctx) : prober_ctx :=
  ProberCtx (pr_raw_fd p) fds (pr_wan_states p) (pr_pid p).
Definition set_probe_state (i : Z) (ps : wan_probe_state_t) (p : prober_ctx) : prober_ctx :=
  ProberCtx (pr_raw_fd p) (pr_wan_send_fds p) (<[Z.to_nat i := ps]> (pr_wan_states p)) (pr_pid p).

Definition zero_slot : probe_slot_t := ProbeSlot 0 0 false.
Definition zero_probe_state : wan_probe_state_t :=
  WanProbeState 0 0 0 (replicate 32 0) (replicate 32 false) 0 (replicate 16 zero_slot).

Definition prober_init (calloc_ok : bool) (pid raw_socket : Z) (config : fluxwan_config_t)
    : option prober_ctx :=
  if calloc_ok then
    let states := imap (fun i w => WanProbeState (Z.of_nat i) (w_probe_target_ip w) 1
                          (replicate 32 0) (replicate 32 false) 0 (replicate 16 zero_slot))
                    (c_wans config) in
    Some (ProberCtx (if raw_socket <? 0 then -1 else raw_socket) ∅
            (states ++ replicate (Z.to_nat MAX_WANS - length states) zero_probe_state)
            (u16 (pid .& 65535)))
  else None.

(** The descriptors that [prober_close] closes. *)
Definition prober_close (p : prober_ctx) : list Z :=
  (if 0 <=? pr_raw_fd p then [pr_raw_fd p] else [])
  ++ omap (fun i => pr_wan_send_fds p !! i) (seqZ 0 MAX_WANS).

Definition prober_get_fd (p : option prober_ctx) : Z :=
  match p with Some p => pr_raw_fd p | None => -1 end.

(** ** One uplink's window *)

Definition window_idx (ps : wan_probe_state_t) : nat :=
  Z.to_nat (ps_history_idx ps mod PROBE_WINDOW_SIZE).

Definition record_loss (ps : wan_probe_state_t) : wan_probe_state_t :=
  WanProbeState (ps_wan_idx ps) (ps_target_ip ps) (ps_current_seq ps) (ps_rtt_history ps)
    (<[window_idx ps := true]> (ps_loss_history ps)) (u32 (ps_history_idx ps + 1))
    (ps_pending_probes ps).

Definition record_reply (rtt_ms : Z) (ps : wan_probe_state_t) : wan_probe_state_t :=
  WanProbeState (ps_wan_idx ps) (ps_target_ip ps) (ps_current_seq ps)
    (<[window_idx ps := rtt_ms]> (ps_rtt_history ps))
    (<[window_idx ps := false]> (ps_loss_history ps)) (u32 (ps_history_idx ps + 1))
    (ps_pending_probes ps).

Definition set_slot (k : nat) (sl : probe_slot_t) (ps : wan_probe_state_t) : wan_probe_state_t :=
  WanProbeState (ps_wan_idx ps) (ps_target_ip ps) (ps_current_seq ps) (ps_rtt_history ps)
    (ps_loss_history ps) (ps_history_idx ps) (<[k := sl]> (ps_pending_probes ps)).

Definition next_seq (ps : wan_probe_state_t) : wan_probe_state_t :=
  WanProbeState (ps_wan_idx ps) (ps_target_ip ps) (u16 (ps_current_seq ps + 1)) (ps_rtt_history ps)
    (ps_loss_history ps) (ps_history_idx ps) (ps_pending_probes ps).

(** A new probe takes the slot of the one sixteen probes earlier; that one counts as
    lost if it is unanswered past the timeout. *)
Definition send_slot (timeout_ms now_us : Z) (ps : wan_probe_state_t) : wan_probe_state_t :=
  let seq := ps_current_seq ps in
  let ps := next_seq ps in
  let slot := Z.to_nat (seq mod 16) in
  let ps :=
    match ps_pending_probes ps !! slot with
    | Some sl =>
        if (0 <? sl_send_time_us sl) && negb (sl_received sl)
           && (timeout_ms <=? u64 (now_us - sl_send_time_us sl) / 1000)
        then record_loss ps else ps
    | None => ps
    end in
  set_slot slot (ProbeSlot seq now_us false) ps.

(** Average round trip, jitter and loss over the window. *)
Definition window_metrics (now_us : Z) (ps : wan_probe_state_t) (m : wan_metrics_t)
    : wan_metrics_t :=
  let seen := List.filter (fun r => 0 <? r) (ps_rtt_history ps) in
  let total_rtt := foldl (fun a r => u64 (a + r)) 0 seen in
  let count := Z.of_nat (length seen) in
  let losses := Z.of_nat (length (List.filter id (ps_loss_history ps))) in
  let m :=
    if 0 <? count then
      let avg_rtt := u32 (total_rtt / count) in
      set_m_rtt_ms avg_rtt
        (set_m_jitter_ms (if m_rtt_ms m <=? avg_rtt then avg_rtt - m_rtt_ms m
                          else m_rtt_ms m - avg_rtt) m)
    else m in
  set_m_last_probe_time (now_us / 1000)
    (set_m_packet_loss_pct (inject_Z (losses * 100) / inject_Z PROBE_WINDOW_SIZE)%Q m).

Definition link_state (pc : prober_config_t) (m : wan_metrics_t) : wan_state_t :=
  if negb (Qle_bool (m_packet_loss_pct m) (pc_max_acceptable_loss_pct pc)) then WAN_STATE_DOWN
  else if pc_max_acceptable_rtt_ms pc <? m_rtt_ms m then WAN_STATE_DEGRADED
  else WAN_STATE_HEALTHY.

(** ** Packets *)

Definition be16 (v : Z) : list Z := [v / 256; v mod 256].

Definition ICMP_ECHO : Z := 8.
Definition ICMP_ECHOREPLY : Z := 0.

(** The 64-byte echo request: header, send time, padding. *)
Definition echo_packet (id seq now_us : Z) : option (list Z) :=
  let packet := [ICMP_ECHO; 0; 0; 0] ++ be16 id ++ be16 seq ++ le_bytes 8 now_us ++ replicate 48 0 in
  st16 packet 2 (checksum packet).

(** ** Sending *)

Record send_env := SendEnv {
  se_now_us : Z;
  se_nametoindex : cstring -> Z;
  se_socket : Z -> Z;       (** a new raw socket for uplink [i]: a descriptor or negative *)
  se_bind : Z -> bool;      (** [SO_BINDTODEVICE] succeeds *)
  se_send_dead : Z -> bool  (** [sendto] fails with [EBADF] or [ENODEV] *)
}.

Record sent_probe := SentProbe { sp_fd : Z; sp_dest : Z; sp_packet : list Z }.

Definition target_dev (i : Z) (w : wan_config_t) : cstring :=
  take 31 (if bool_decide (w_type w = WAN_TYPE_PPPOE) then bytes_of_string "ppp" ++ dec i
           else w_name w).

(** The socket of uplink [i] after the stale one was dropped and a new one opened. *)
Definition open_socket (env : send_env) (i : Z) (dev : cstring) (p : prober_ctx) : prober_ctx :=
  let fds := pr_wan_send_fds p in
  let fds := match fds !! i, dev with
             | Some _, _ :: _ => if se_nametoindex env dev =? 0 then delete i fds else fds
             | _, _ => fds
             end in
  let fds := match fds !! i, dev with
             | None, _ :: _ =>
                 if (0 <? se_nametoindex env dev) && (0 <=? se_socket env i) && se_bind env i
                 then <[i := se_socket env i]> fds else fds
             | _, _ => fds
             end in
  set_fds fds p.

Definition probe_target_of (w : wan_config_t) : Z :=
  let target_ip := match w_probe_target w with
                   | _ :: _ => if w_probe_target_ip w =? 0 then str_to_ip (w_probe_target w)
                               else w_probe_target_ip w
                   | [] => w_probe_target_ip w
                   end in
  if target_ip =? 0 then str_to_ip "8.8.8.8" else target_ip.

(** The request of uplink [i], if a socket is open. *)
Definition send_request (env : send_env) (i seq : Z) (w : wan_config_t) (p : prober_ctx)
    : option (prober_ctx * list sent_probe) :=
  let send_fd := default (pr_raw_fd p) (pr_wan_send_fds p !! i) in
  let target_ip := probe_target_of w in
  if (0 <=? send_fd) && negb (target_ip =? 0) then
    packet ← echo_packet (u16 (pr_pid p + i)) seq (se_now_us env);
    let p := if se_send_dead env i then set_fds (delete i (pr_wan_send_fds p)) p else p in
    Some (p, [SentProbe send_fd target_ip packet])
  else Some (p, []).

Section send.
Context {S : Type} `{ConfigStore S}.
Context (callback : option (Z -> wan_state_t -> option wan_metrics_t -> S -> option S)).

Definition cs_wan (i : Z) (s : S) : option wan_config_t := c_wans (cs_config s) !! Z.to_nat i.
Definition cs_upd_wan (i : Z) (f : wan_config_t -> wan_config_t) (s : S) : S :=
  cs_set_config (set_c_wans (alter f (Z.to_nat i) (c_wans (cs_config s))) (cs_config s)) s.

(** Evaluation of uplink [i]: the state goes to the shared configuration first, then
    the callback is told. *)
Definition evaluate (env : send_env) (i : Z) (ps : wan_probe_state_t) (s : S) : option S :=
  let s := cs_upd_wan i (fun w => set_w_metrics (window_metrics (se_now_us env) ps (w_metrics w)) w) s in
  match cs_wan i s with
  | None => Some s
  | Some w =>
      let new_state := link_state (c_prober (cs_config s)) (w_metrics w) in
      if bool_decide (w_state w = new_state) then Some s
      else
        let s := cs_upd_wan i (set_w_state new_state) s in
        match callback with
        | Some cb => cb i new_state (Some (w_metrics w)) s
        | None => Some s
        end
  end.

Definition probe_wan (env : send_env) (i : Z) (st : prober_ctx * S)
    : option (prober_ctx * S * list sent_probe) :=
  let '(p, s) := st in
  match cs_wan i s, pr_wan_states p !! Z.to_nat i with
  | Some w, Some ps =>
      if negb (w_enabled w) || px_enabled (w_proxy w) then Some (p, s, [])
      else
        let seq := ps_current_seq ps in
        let ps := send_slot (pc_timeout_ms (c_prober (cs_config s))) (se_now_us env) ps in
        let p := open_socket env i (target_dev i w) (set_probe_state i ps p) in
        r ← send_request env i seq w p;
        let p := r.1 in let sent := r.2 in
        s ← evaluate env i ps s;
        Some (p, s, sent)
  | _, _ => Some (p, s, [])
  end.

Fixpoint probe_wans (env : send_env) (n : nat) (i : Z) (st : prober_ctx * S)
    : option (prober_ctx * S * list sent_probe) :=
  match n with
  | O => Some (st, [])
  | Datatypes.S n =>
      r ← probe_wan env i st;
      r' ← probe_wans env n (i + 1) r.1;
      Some (r'.1, r.2 ++ r'.2)
  end.

Definition prober_send_probes (env : send_env) (st : prober_ctx * S)
    : option (prober_ctx * S * list sent_probe) :=
  probe_wans env (length (c_wans (cs_config st.2))) 0 st.

(** ** Receiving *)

Definition measured_rtt (now_us send_time_us : Z) : Z :=
  if (0 <? send_time_us) && (send_time_us <=? now_us) then
    let r := u32 (u64 (now_us - send_time_us + 500) / 1000) in if r =? 0 then 1 else r
  else 1.

Definition mark_received (k : nat) (ps : wan_probe_state_t) : wan_probe_state_t :=
  match ps_pending_probes ps !! k with
  | Some sl => set_slot k (ProbeSlot (sl_seq sl) (sl_send_time_us sl) true) ps
  | None => ps
  end.

Definition prober_handle_packet (now_us : Z) (buf : list Z) (st : prober_ctx * S)
    : option (prober_ctx * S) :=
  let '(p, s) := st in
  let len := blen buf in
  if len <? 28 then Some (p, s)
  else
    b0 ← ld8 buf 0;
    let ip_hl := (b0 .& 15) * 4 in
    if len <? ip_hl + 8 then Some (p, s)
    else
      type ← ld8 buf ip_hl;
      if negb (type =? ICMP_ECHOREPLY) then Some (p, s)
      else
        id ← ld16 buf (ip_hl + 4);
        seq ← ld16 buf (ip_hl + 6);
        let wan_idx := u16 (ntohs id - pr_pid p) in
        if Z.of_nat (length (c_wans (cs_config s))) <=? wan_idx then Some (p, s)
        else
          ps ← pr_wan_states p !! Z.to_nat wan_idx;
          let slot := Z.to_nat (ntohs seq mod 16) in
          send_time_us ←
            (if ip_hl + 8 + 8 <=? len then
               b ← ld_bytes buf (ip_hl + 8) 8; Some (le_val b)
             else sl_send_time_us <$> (ps_pending_probes ps !! slot));
          let rtt := measured_rtt now_us send_time_us in
          let p := set_probe_state wan_idx (mark_received slot (record_reply rtt ps)) p in
          let s := cs_upd_wan wan_idx (fun w =>
                     set_w_metrics (set_m_last_probe_time (now_us / 1000)
                       (set_m_rtt_ms rtt (w_metrics w))) w) s in
          Some (p, s).

(** What a socket yields until [recvfrom] stops: the datagrams with their arrival
    times, and whether it stopped with [EBADF] or [ENODEV]. *)
Definition recv_env : Type := Z -> list (Z * list Z) * bool.

Fixpoint handle_all (pkts : list (Z * list Z)) (st : prober_ctx * S) : option (prober_ctx * S) :=
  match pkts with
  | [] => Some st
  | (now_us, buf) :: pkts => st ← prober_handle_packet now_us buf st; handle_all pkts st
  end.

Fixpoint drain_wans (recv : recv_env) (n : nat) (i : Z) (st : prober_ctx * S)
    : option (prober_ctx * S) :=
  match n with
  | O => Some st
  | Datatypes.S n =>
      st ← match pr_wan_send_fds st.1 !! i with
           | Some fd =>
               st ← handle_all (recv fd).1 st;
               Some (if (recv fd).2 then set_fds (delete i (pr_wan_send_fds st.1)) st.1 else st.1, st.2)
           | None => Some st
           end;
      drain_wans recv n (i + 1) st
  end.

Definition prober_process_responses (recv : recv_env) (st : prober_ctx * S) : option (prober_ctx * S) :=
  st ← (if 0 <=? pr_raw_fd st.1 then handle_all (recv (pr_raw_fd st.1)).1 st else Some st);
  drain_wans recv (length (c_wans (cs_config st.2))) 0 st.
End send.

(** ** One round of probes *)

Definition probed (w : wan_config_t) : bool := w_enabled w && negb (px_enabled (w_proxy w)).

(** What a round does to an uplink's window and to the uplink. *)
Definition probed_state (pc : prober_config_t) (now_us : Z) (w : wan_config_t)
    (ps : wan_probe_state_t) : wan_probe_state_t :=
  if probed w then send_slot (pc_timeout_ms pc) now_us ps else ps.
Definition evaluated (pc : prober_config_t) (now_us : Z) (ps : wan_probe_state_t)
    (w : wan_config_t) : wan_config_t :=
  let m := window_metrics now_us ps (w_metrics w) in
  set_w_state (link_state pc m) (set_w_metrics m w).
Definition probed_wan (pc : prober_config_t) (now_us : Z) (ps : wan_probe_state_t)
    (w : wan_config_t) : wan_config_t :=
  if probed w then evaluated pc now_us (send_slot (pc_timeout_ms pc) now_us ps) w else w.

Lemma alter_fix {A} (f : A -> A) (l : list A) (i : nat) x :
  l !! i = Some x -> f x = x -> alter f i l = l.
Proof.
  intros Hx Hf. apply list_eq. intros j. destruct (decide (j = i)) as [->|].
  - rewrite list_lookup_alter_eq, Hx. cbn. by rewrite Hf.
  - by rewrite list_lookup_alter_ne.
Qed.

Lemma upd_wan_fix i f ctx w :
  wan_at ctx i = Some w -> f w = w -> upd_wan i f ctx = ctx.
Proof.
  unfold wan_at, upd_wan. intros Hw Hf. rewrite (alter_fix _ _ _ w Hw Hf).
  by destruct ctx as [[] ? ? ? ? ? ? ? ? ? ?].
Qed.

(** The manager sees no news in a state that is already in the configuration. *)
Lemma callback_noop wenv i w ctx :
  0 <= i -> wan_at ctx i = Some w ->
  wan_manager_on_health_update wenv i (w_state w) (Some (w_metrics w)) ctx = Some ctx.
Proof.
  intros Hi Hw. unfold wan_manager_on_health_update. destruct (_ <=? i); [done|].
  rewrite (upd_wan_fix i (set_w_metrics (w_metrics w)) ctx w Hw) by (by destruct w).
  rewrite Hw. destruct (bool_decide (w_state w = WAN_STATE_DRAINING)); [done|].
  rewrite (upd_wan_fix i (set_w_state (w_state w)) ctx w Hw) by (by destruct w).
  by rewrite bool_decide_true.
Qed.

Lemma wan_at_upd_same i f ctx w :
  wan_at ctx i = Some w -> wan_at (upd_wan i f ctx) i = Some (f w).
Proof. unfold wan_at, upd_wan. cbn. intros E. by rewrite list_lookup_alter_eq, E. Qed.

Lemma upd_upd i f g ctx : upd_wan i g (upd_wan i f ctx) = upd_wan i (fun w => g (f w)) ctx.
Proof.
  assert (E : alter g (Z.to_nat i) (alter f (Z.to_nat i) (c_wans (wm_config ctx)))
    = alter (fun w => g (f w)) (Z.to_nat i) (c_wans (wm_config ctx))).
  { apply list_eq. intros j. destruct (decide (j = Z.to_nat i)) as [->|].
    - rewrite !list_lookup_alter_eq. by destruct (_ !! _).
    - by rewrite !list_lookup_alter_ne. }
  unfold upd_wan. cbn [wm_config set_config c_wans set_c_wans]. by rewrite E.
Qed.

(** Evaluation with the manager's callback, without one, and as a function. *)
Lemma evaluate_spec wenv cb env i ps ctx w :
  cb = None \/ cb = Some (wan_manager_on_health_update wenv) -> 0 <= i -> wan_at ctx i = Some w ->
  evaluate cb env i ps ctx
  = Some (upd_wan i (evaluated (c_prober (wm_config ctx)) (se_now_us env) ps) ctx).
Proof.
  intros Hcb Hi Hw. unfold evaluate.
  set (f := fun w => set_w_metrics (window_metrics (se_now_us env) ps (w_metrics w)) w).
  change (cs_upd_wan i f ctx) with (upd_wan i f ctx).
  change (cs_wan i (upd_wan i f ctx)) with (wan_at (upd_wan i f ctx) i).
  rewrite (wan_at_upd_same i f ctx w Hw).
  change (c_prober (cs_config (upd_wan i f ctx))) with (c_prober (wm_config ctx)).
  set (st := link_state (c_prober (wm_config ctx)) (w_metrics (f w))).
  assert (Hgoal : upd_wan i (set_w_state st) (upd_wan i f ctx)
    = upd_wan i (evaluated (c_prober (wm_config ctx)) (se_now_us env) ps) ctx).
  { rewrite upd_upd. unfold upd_wan. f_equal. f_equal. apply list_eq. intros j.
    destruct (decide (j = Z.to_nat i)) as [->|]; [|by rewrite !list_lookup_alter_ne].
    rewrite !list_lookup_alter_eq. unfold wan_at in Hw. by rewrite Hw. }
  destruct (decide (w_state (f w) = st)) as [Heq|Hne].
  - rewrite bool_decide_true by done. rewrite <- Hgoal. f_equal. symmetry.
    apply (upd_wan_fix _ _ _ (f w)); [by apply wan_at_upd_same|]. rewrite <- Heq. by destruct (f w).
  - rewrite bool_decide_false by done. rewrite <- Hgoal.
    change (cs_upd_wan i (set_w_state st) (upd_wan i f ctx)) with (upd_wan i (set_w_state st) (upd_wan i f ctx)).
    destruct Hcb as [-> | ->]; [done|].
    apply (callback_noop wenv i (set_w_state st (f w))); [done|].
    by apply wan_at_upd_same, wan_at_upd_same.
Qed.

Lemma echo_packet_total id seq now_us : exists pk, echo_packet id seq now_us = Some pk.
Proof. unfold echo_packet. apply st16_Some; [lia|]. cbn. lia. Qed.

Lemma send_request_total env i seq w p :
  exists p' sent, send_request env i seq w p = Some (p', sent)
    /\ pr_wan_states p' = pr_wan_states p /\ pr_pid p' = pr_pid p.
Proof.
  unfold send_request. destruct (_ && _); [|by eexists _, _].
  destruct (echo_packet_total (u16 (pr_pid p + i)) seq (se_now_us env)) as [pk ->].
  cbn [mbind option_bind]. eexists _, _. split; [done|]. by destruct (se_send_dead env i).
Qed.

(** The state after the uplinks before [j] were probed. *)
Record probing (env : send_env) (p0 : prober_ctx) (ctx0 : wan_manager_ctx) (j : Z)
    (p : prober_ctx) (ctx : wan_manager_ctx) : Prop := {
  pb_ctx : ctx = set_config (set_c_wans (c_wans (wm_config ctx)) (wm_config ctx0)) ctx0;
  pb_wan : forall x w ps, wan_at ctx0 (Z.of_nat x) = Some w -> pr_wan_states p0 !! x = Some ps ->
    wan_at ctx (Z.of_nat x)
    = Some (if Z.of_nat x <? j then probed_wan (c_prober (wm_config ctx0)) (se_now_us env) ps w else w);
  pb_state : forall x w ps, wan_at ctx0 (Z.of_nat x) = Some w -> pr_wan_states p0 !! x = Some ps ->
    pr_wan_states p !! x
    = Some (if Z.of_nat x <? j then probed_state (c_prober (wm_config ctx0)) (se_now_us env) w ps else ps);
  pb_length : length (c_wans (wm_config ctx)) = length (c_wans (wm_config ctx0));
  pb_states : length (pr_wan_states p) = length (pr_wan_states p0);
  pb_pid : pr_pid p = pr_pid p0
}.

Lemma wan_at_upd_ne i j f ctx : Z.to_nat i <> Z.to_nat j -> wan_at (upd_wan i f ctx) j = wan_at ctx j.
Proof. unfold wan_at, upd_wan. cbn. intros. by rewrite list_lookup_alter_ne. Qed.

Lemma step_index (x j : Z) {A} (a b : A) :
  x <> j -> (if x <? j + 1 then a else b) = (if x <? j then a else b).
Proof. intros. destruct (Z.ltb_spec x (j + 1)), (Z.ltb_spec x j); (done || lia). Qed.
Lemma at_index (j : Z) {A} (a b : A) : (if j <? j + 1 then a else b) = a /\ (if j <? j then a else b) = b.
Proof. destruct (Z.ltb_spec j (j + 1)), (Z.ltb_spec j j); (done || lia). Qed.

Lemma probing_upd env p0 ctx0 k p ctx w ps p' :
  probing env p0 ctx0 (Z.of_nat k) p ctx -> wan_at ctx0 (Z.of_nat k) = Some w ->
  pr_wan_states p0 !! k = Some ps -> probed w = true ->
  pr_wan_states p' = <[k := probed_state (c_prober (wm_config ctx0)) (se_now_us env) w ps]> (pr_wan_states p) ->
  pr_pid p' = pr_pid p ->
  probing env p0 ctx0 (Z.of_nat k + 1) p' (upd_wan (Z.of_nat k) (evaluated (c_prober (wm_config ctx0))
    (se_now_us env) (send_slot (pc_timeout_ms (c_prober (wm_config ctx0))) (se_now_us env) ps)) ctx).
Proof.
  intros [Hctx Hwan Hst Hl Hls Hp] Hw Hps Eb Hs1 Hp'.
  pose proof (Hwan _ _ _ Hw Hps) as Hwj. pose proof (Hst _ _ _ Hw Hps) as Hsj.
  rewrite (proj2 (at_index _ _ _)) in Hwj. split.
  - rewrite Hctx at 1. unfold upd_wan. cbn. rewrite Hctx at 3. done.
  - intros x w' ps1 Hw' Hps1. destruct (decide (x = k)) as [->|Hx].
    + rewrite (wan_at_upd_same _ _ _ w Hwj), (proj1 (at_index _ _ _)).
      assert (w' = w) as -> by congruence. assert (ps1 = ps) as -> by congruence.
      unfold probed_wan. by rewrite Eb.
    + rewrite wan_at_upd_ne, step_index by lia. by apply Hwan.
  - intros x w' ps1 Hw' Hps1. rewrite Hs1. destruct (decide (x = k)) as [->|Hx].
    + rewrite list_lookup_insert_eq by (by eapply lookup_lt_Some).
      rewrite (proj1 (at_index _ _ _)). assert (w' = w) as -> by congruence.
      by assert (ps1 = ps) as -> by congruence.
    + rewrite list_lookup_insert_ne, step_index by lia. by apply (Hst x w' ps1).
  - cbn. by rewrite length_alter.
  - by rewrite Hs1, length_insert.
  - congruence.
Qed.

Lemma probing_same env p0 ctx0 k p ctx w ps :
  probing env p0 ctx0 (Z.of_nat k) p ctx -> wan_at ctx0 (Z.of_nat k) = Some w ->
  pr_wan_states p0 !! k = Some ps -> probed w = false ->
  probing env p0 ctx0 (Z.of_nat k + 1) p ctx.
Proof.
  intros [Hctx Hwan Hst Hl Hls Hp] Hw Hps Eb. split; try done.
  - intros x w' ps1 Hw' Hps1. rewrite (Hwan x w' ps1 Hw' Hps1). destruct (decide (x = k)) as [->|Hx].
    + destruct (at_index (Z.of_nat k) (probed_wan (c_prober (wm_config ctx0)) (se_now_us env) ps1 w') w') as [-> ->].
      assert (w' = w) as -> by congruence. unfold probed_wan. by rewrite Eb.
    + by rewrite step_index by lia.
  - intros x w' ps1 Hw' Hps1. rewrite (Hst x w' ps1 Hw' Hps1). destruct (decide (x = k)) as [->|Hx].
    + destruct (at_index (Z.of_nat k) (probed_state (c_prober (wm_config ctx0)) (se_now_us env) w' ps1) ps1) as [-> ->].
      assert (w' = w) as -> by congruence. unfold probed_state. by rewrite Eb.
    + by rewrite step_index by lia.
Qed.

Lemma probe_wan_step wenv cb env p0 ctx0 j p ctx :
  cb = None \/ cb = Some (wan_manager_on_health_update wenv) ->
  (length (c_wans (wm_config ctx0)) <= length (pr_wan_states p0))%nat ->
  0 <= j < wan_count ctx0 -> probing env p0 ctx0 j p ctx ->
  exists p' ctx' sent, probe_wan cb env j (p, ctx) = Some (p', ctx', sent)
    /\ probing env p0 ctx0 (j + 1) p' ctx'.
Proof.
  intros Hcb Hlen Hj [Hctx Hwan Hst Hl Hls Hp]. unfold wan_count in Hj.
  destruct (Z_of_nat_complete j) as [k ->]; [lia|].
  destruct (lookup_lt_is_Some_2 (c_wans (wm_config ctx0)) k) as [w Hw]; [lia|].
  destruct (lookup_lt_is_Some_2 (pr_wan_states p0) k) as [ps Hps]; [lia|].
  assert (Hw0 : wan_at ctx0 (Z.of_nat k) = Some w) by (unfold wan_at; by rewrite Nat2Z.id).
  pose proof (Hwan _ _ _ Hw0 Hps) as Hwj. pose proof (Hst _ _ _ Hw0 Hps) as Hsj.
  rewrite (proj2 (at_index _ _ _)) in Hwj. rewrite (proj2 (at_index _ _ _)) in Hsj.
  assert (Hpc : c_prober (wm_config ctx) = c_prober (wm_config ctx0)) by (by rewrite Hctx).
  unfold probe_wan. change (cs_wan (Z.of_nat k) ctx) with (wan_at ctx (Z.of_nat k)).
  rewrite Hwj, Nat2Z.id, Hsj.
  assert (Hnb : negb (w_enabled w) || px_enabled (w_proxy w) = negb (probed w)).
  { unfold probed. by destruct (w_enabled w), (px_enabled (w_proxy w)). }
  rewrite Hnb. destruct (probed w) eqn:Eb; cbn [negb].
  - change (cs_config ctx) with (wm_config ctx). rewrite Hpc.
    set (ps' := send_slot _ _ ps).
    set (p1 := open_socket env (Z.of_nat k) _ (set_probe_state (Z.of_nat k) ps' p)).
    destruct (send_request_total env (Z.of_nat k) (ps_current_seq ps) w p1) as (p2 & sent & -> & Hs2 & Hp2).
    cbn [mbind option_bind fst snd].
    rewrite (evaluate_spec wenv cb env (Z.of_nat k) ps' ctx w Hcb (proj1 Hj) Hwj), Hpc.
    cbn [mbind option_bind]. eexists _, _, _. split; [done|].
    assert (Hs1 : pr_wan_states p2 = <[k := ps']> (pr_wan_states p)).
    { rewrite Hs2. cbn. by rewrite Nat2Z.id. }
    apply (probing_upd env p0 ctx0 k p ctx w ps); [by split|done..| |by rewrite Hp2].
    rewrite Hs1. unfold probed_state. by rewrite Eb.
  - eexists _, _, _. split; [done|]. apply (probing_same env p0 ctx0 k p ctx w ps); [by split|done..].
Qed.

Lemma probe_wans_spec wenv cb env p0 ctx0 n : forall j p ctx,
  cb = None \/ cb = Some (wan_manager_on_health_update wenv) ->
  (length (c_wans (wm_config ctx0)) <= length (pr_wan_states p0))%nat ->
  0 <= j -> j + Z.of_nat n = wan_count ctx0 -> probing env p0 ctx0 j p ctx ->
  exists p' ctx' sent, probe_wans cb env n j (p, ctx) = Some (p', ctx', sent)
    /\ probing env p0 ctx0 (wan_count ctx0) p' ctx'.
Proof.
  induction n as [|n IH]; intros j p ctx Hcb Hlen Hj Hn Hpb; cbn [probe_wans].
  - replace (wan_count ctx0) with j by lia. by eexists _, _, _.
  - destruct (probe_wan_step wenv cb env p0 ctx0 j p ctx) as (p1 & c1 & s1 & -> & H1); [done|done|lia|done|].
    cbn [mbind option_bind fst snd].
    destruct (IH (j + 1) p1 c1) as (p2 & c2 & s2 & -> & H2); [done|done|lia|lia|done|].
    cbn [mbind option_bind fst snd]. by eexists _, _, _.
Qed.

Lemma send_probes_spec wenv cb env p ctx :
  cb = None \/ cb = Some (wan_manager_on_health_update wenv) ->
  (length (c_wans (wm_config ctx)) <= length (pr_wan_states p))%nat ->
  exists p' ctx' sent, prober_send_probes cb env (p, ctx) = Some (p', ctx', sent)
    /\ probing env p ctx (wan_count ctx) p' ctx'.
Proof.
  intros Hcb Hlen. unfold prober_send_probes. apply (probe_wans_spec wenv); [done|done|done|done|].
  split; try done.
  - by destruct ctx as [[] ? ? ? ? ? ? ? ? ? ?].
  - intros x w ps Hw _. destruct (Z.ltb_spec (Z.of_nat x) 0); [lia|done].
  - intros x w ps _ Hps. destruct (Z.ltb_spec (Z.of_nat x) 0); [lia|done].
Qed.

Lemma evaluate_same wenv env i ps ctx :
  0 <= i ->
  evaluate (Some (wan_manager_on_health_update wenv)) env i ps ctx = evaluate None env i ps ctx.
Proof.
  intros Hi. destruct (wan_at ctx i) as [w|] eqn:Hw.
  - rewrite !(evaluate_spec wenv _ env i ps ctx w) by auto. done.
  - unfold evaluate. change (cs_wan i (cs_upd_wan i ?f ctx)) with (wan_at (upd_wan i f ctx) i).
    unfold wan_at, upd_wan in *. cbn. by rewrite list_lookup_alter_eq, Hw.
Qed.

Lemma probe_wans_same wenv env n : forall i st, 0 <= i ->
  probe_wans (Some (wan_manager_on_health_update wenv)) env n i st = probe_wans None env n i st.
Proof.
  induction n as [|n IH]; intros i [p ctx] Hi; cbn [probe_wans]; [done|].
  assert (probe_wan (Some (wan_manager_on_health_update wenv)) env i (p, ctx) = probe_wan None env i (p, ctx)) as ->.
  { unfold probe_wan. destruct (cs_wan i ctx) as [w|], (pr_wan_states p !! Z.to_nat i) as [ps|]; try done.
    destruct (_ || _); [done|]. destruct (send_request _ _ _ _ _) as [r|]; [|done].
    cbn [mbind option_bind]. by rewrite evaluate_same. }
  destruct (probe_wan None env i (p, ctx)) as [[st sent]|]; [|done]. cbn [mbind option_bind fst snd].
  by rewrite IH by lia.
Qed.

(** ** Theorems *)

(** C22.  The failover callback never fires.  The prober writes an uplink's new state into the
    configuration it shares with the WAN manager before it calls the manager, whose
    handler compares the reported state with the one in the configuration: it always finds
    no change.  A round of probes with the manager's callback is the round without any
    callback; it changes neither the kernel's tables nor the routes nor the log,
    whatever states the uplinks go to. *)
Theorem failover_callback_never_fires wenv env p ctx :
  (length (c_wans (wm_config ctx)) <= length (pr_wan_states p))%nat ->
  exists p' ctx' sent,
    prober_send_probes (Some (wan_manager_on_health_update wenv)) env (p, ctx) = Some (p', ctx', sent)
    /\ prober_send_probes None env (p, ctx) = Some (p', ctx', sent)
    /\ wm_kernel ctx' = wm_kernel ctx /\ wm_effects ctx' = wm_effects ctx /\ wm_logs ctx' = wm_logs ctx.
Proof.
  intros Hlen.
  destruct (send_probes_spec wenv None env p ctx) as (p' & ctx' & sent & E & [Hctx _ _ _ _ _]); [by left|done|].
  exists p', ctx', sent. split_and!; try (by rewrite Hctx); [|done].
  rewrite <- E. by apply probe_wans_same.
Qed.

(** A round of probes sets the state of every enabled uplink without a proxy to the
    one its window of outcomes implies: down when the loss exceeds the limit, else degraded when the
    round trip does, else healthy.  In particular an uplink that is being drained
    stops being drained. *)
Theorem probes_set_state wenv env p ctx x w :
  (length (c_wans (wm_config ctx)) <= length (pr_wan_states p))%nat ->
  wan_at ctx (Z.of_nat x) = Some w -> probed w = true ->
  exists p' ctx' sent w',
    prober_send_probes (Some (wan_manager_on_health_update wenv)) env (p, ctx) = Some (p', ctx', sent)
    /\ wan_at ctx' (Z.of_nat x) = Some w'
    /\ w_state w' = link_state (c_prober (wm_config ctx)) (w_metrics w')
    /\ w_state w' <> WAN_STATE_DRAINING.
Proof.
  intros Hlen Hw Hpr.
  destruct (send_probes_spec wenv (Some (wan_manager_on_health_update wenv)) env p ctx)
    as (p' & ctx' & sent & E & [_ Hwan _ _ _ _]); [by right|done|].
  assert (Hx : (x < length (c_wans (wm_config ctx)))%nat).
  { unfold wan_at in Hw. rewrite Nat2Z.id in Hw. by eapply lookup_lt_Some. }
  destruct (lookup_lt_is_Some_2 (pr_wan_states p) x) as [ps Hps]; [lia|].
  specialize (Hwan x w ps Hw Hps). destruct (Z.ltb_spec (Z.of_nat x) (wan_count ctx)) as [_|]; [|unfold wan_count in *; lia].
  unfold probed_wan in Hwan. rewrite Hpr in Hwan.
  exists p', ctx', sent. eexists. split_and!; [done|done|done|].
  cbn [evaluated w_state set_w_state]. unfold evaluated. cbn. unfold link_state. by repeat case_match.
Qed.

(** ** Detection of a dead link *)

Record window_ok (ps : wan_probe_state_t) : Prop := {
  wo_seq : is_u16 (ps_current_seq ps);
  wo_idx : is_u32 (ps_history_idx ps);
  wo_loss : length (ps_loss_history ps) = 32%nat;
  wo_pending : length (ps_pending_probes ps) = 16%nat
}.

(** The last probes, newest first, are all unanswered. *)
Definition unanswered (ts : list Z) (ps : wan_probe_state_t) : Prop :=
  forall k t, (k < 16)%nat -> ts !! k = Some t ->
    exists q, ps_pending_probes ps !! Z.to_nat ((ps_current_seq ps - 1 - Z.of_nat k) mod 16)
              = Some (ProbeSlot q t false).

(** The last [n] outcomes are losses. *)
Definition lost (n : nat) (ps : wan_probe_state_t) : Prop :=
  forall q, 1 <= q <= Z.of_nat n -> q <= 32 ->
    ps_loss_history ps !! Z.to_nat ((ps_history_idx ps - q) mod 32) = Some true.

Lemma mod16_step s k : (u16 (s + 1) - 1 - k) mod 16 = (s - k) mod 16.
Proof. unfold u16. lia. Qed.
Lemma mod32_step h q : (u32 (h + 1) - q) mod 32 = (h + 1 - q) mod 32.
Proof. unfold u32. lia. Qed.

Lemma lost_record n ps : length (ps_loss_history ps) = 32%nat -> lost n ps -> lost (S n) (record_loss ps).
Proof.
  intros Hl H q Hq Hq32. unfold record_loss, window_idx, PROBE_WINDOW_SIZE. cbn. rewrite mod32_step.
  destruct (decide (q = 1)) as [->|Hne].
  - replace (ps_history_idx ps + 1 - 1) with (ps_history_idx ps) by lia.
    apply list_lookup_insert_eq. lia.
  - rewrite list_lookup_insert_ne by lia. replace (ps_history_idx ps + 1 - q) with (ps_history_idx ps - (q - 1)) by lia.
    apply H; lia.
Qed.

Lemma send_slot_ok timeout now ps : window_ok ps -> window_ok (send_slot timeout now ps).
Proof.
  intros [H1 H2 H3 H4]. unfold send_slot.
  repeat case_match; split; cbn; rewrite ?length_insert; try done; try apply u16_range; apply u32_range.
Qed.

Lemma send_slot_unanswered timeout now ps ts :
  window_ok ps -> unanswered ts ps -> unanswered (now :: ts) (send_slot timeout now ps).
Proof.
  intros [H1 H2 H3 H4] Hu k t Hk Hkt.
  assert (E : exists ps1, send_slot timeout now ps
      = set_slot (Z.to_nat (ps_current_seq ps mod 16)) (ProbeSlot (ps_current_seq ps) now false) ps1
    /\ ps_pending_probes ps1 = ps_pending_probes ps /\ ps_current_seq ps1 = u16 (ps_current_seq ps + 1)).
  { unfold send_slot. eexists. split; [done|]. by repeat case_match. }
  destruct E as (ps1 & -> & Hp1 & Hs1). cbn. rewrite Hp1, Hs1, mod16_step.
  destruct k as [|k]; simplify_eq/=.
  - rewrite Z.sub_0_r. eexists. apply list_lookup_insert_eq. lia.
  - rewrite list_lookup_insert_ne by lia.
    replace (ps_current_seq ps - Z.of_nat (S k)) with (ps_current_seq ps - 1 - Z.of_nat k) by lia.
    apply Hu; [lia|done].
Qed.

(** With sixteen unanswered probes and the oldest past the timeout, a loss is recorded. *)
Lemma send_slot_lost timeout now ps ts t n :
  window_ok ps -> unanswered ts ps -> ts !! 15%nat = Some t ->
  0 < t <= now -> now < 2 ^ 63 -> timeout * 1000 <= now - t ->
  lost n ps -> lost (S n) (send_slot timeout now ps).
Proof.
  intros [H1 H2 H3 H4] Hu Ht Hnow Hmax Hto Hl. unfold send_slot.
  destruct (Hu 15%nat t) as [q Hq]; [lia|done|].
  replace ((ps_current_seq ps - 1 - Z.of_nat 15) mod 16) with (ps_current_seq ps mod 16) in Hq by lia.
  cbn [next_seq ps_pending_probes]. rewrite Hq. cbn [sl_send_time_us sl_received negb].
  rewrite u64_small by (unfold is_u64; lia).
  destruct (Z.ltb_spec 0 t); [|lia]. destruct (Z.leb_spec timeout ((now - t) / 1000)); [|lia]. cbn [andb].
  exact (lost_record n (next_seq ps) H3 Hl).
Qed.

(** Probe times: positive, in range, and past the timeout sixteen probes on. *)
Fixpoint spaced (timeout : Z) (ts nows : list Z) : Prop :=
  match nows with
  | [] => True
  | now :: nows =>
      0 < now < 2 ^ 63 /\ (forall t, ts !! 15%nat = Some t -> 0 < t <= now /\ timeout * 1000 <= now - t)
      /\ spaced timeout (now :: ts) nows
  end.

Definition send_all (timeout : Z) (nows : list Z) (ps : wan_probe_state_t) : wan_probe_state_t :=
  foldl (fun ps now => send_slot timeout now ps) ps nows.

Lemma send_all_lost timeout nows : forall ts n ps,
  window_ok ps -> unanswered ts ps -> spaced timeout ts nows ->
  ((16 <= length ts)%nat -> lost n ps) -> (length ts < 16 -> n = 0)%nat ->
  let ps' := send_all timeout nows ps in
  window_ok ps' /\ lost (n + (length nows - (16 - length ts))) ps'.
Proof.
  induction nows as [|now nows IH]; intros ts n ps Hok Hu Hsp Hl Hn; cbv zeta; cbn [send_all foldl length].
  - split; [done|]. destruct (decide (16 <= length ts)%nat); [|intros q; lia].
    replace (n + (0 - (16 - length ts)))%nat with n by lia. by apply Hl.
  - destruct Hsp as (Hnow & Ht & Hsp). fold (send_all timeout nows (send_slot timeout now ps)).
    pose proof (send_slot_ok timeout now ps Hok) as Hok'.
    pose proof (send_slot_unanswered timeout now ps ts Hok Hu) as Hu'.
    destruct (decide (16 <= length ts)%nat) as [Hge|Hlt].
    + destruct (lookup_lt_is_Some_2 ts 15) as [t Ht15]; [lia|].
      destruct (Ht t Ht15) as [Htr Hto].
      pose proof (send_slot_lost timeout now ps ts t n Hok Hu Ht15 Htr ltac:(lia) Hto (Hl Hge)) as Hl'.
      destruct (IH (now :: ts) (S n) _ Hok' Hu' Hsp) as [Ho Hlo]; [done|cbn; lia|].
      split; [done|]. cbn [length] in Hlo.
      by replace (n + (S (length nows) - (16 - length ts)))%nat with (S n + (length nows - (16 - S (length ts))))%nat by lia.
    + rewrite (Hn ltac:(lia)) in *. destruct (IH (now :: ts) 0%nat _ Hok' Hu' Hsp) as [Ho Hlo];
        [intros _ q; lia|done|].
      split; [done|]. cbn [length] in Hlo.
      by replace (0 + (S (length nows) - (16 - length ts)))%nat with (0 + (length nows - (16 - S (length ts))))%nat by lia.
Qed.

Lemma lost_all ps : window_ok ps -> lost 32 ps -> ps_loss_history ps = replicate 32 true.
Proof.
  intros [_ H2 H3 _] Hl. apply list_eq. intros j. destruct (decide (j < 32)%nat).
  - rewrite lookup_replicate_2 by done.
    set (q := (ps_history_idx ps - Z.of_nat j - 1) mod 32 + 1).
    rewrite <- (Hl q) by (unfold q; lia). f_equal. unfold q. lia.
  - rewrite !lookup_ge_None_2; [done|rewrite length_replicate; lia|lia].
Qed.

(** Rounds of probes without replies in between. *)
Fixpoint rounds (wenv : wm_env) (envs : list send_env) (st : prober_ctx * wan_manager_ctx)
    : option (prober_ctx * wan_manager_ctx) :=
  match envs with
  | [] => Some st
  | env :: envs =>
      r ← prober_send_probes (Some (wan_manager_on_health_update wenv)) env st;
      rounds wenv envs r.1
  end.

(** The uplink's state and loss are those of its window. *)
Definition judged (pc : prober_config_t) (w : wan_config_t) (ps : wan_probe_state_t) : Prop :=
  w_state w = link_state pc (w_metrics w)
  /\ m_packet_loss_pct (w_metrics w)
     = (inject_Z (Z.of_nat (length (List.filter id (ps_loss_history ps))) * 100)
        / inject_Z PROBE_WINDOW_SIZE)%Q.

Lemma evaluated_judged pc now ps w : judged pc (evaluated pc now ps w) ps.
Proof. by split. Qed.

Lemma rounds_spec wenv x : forall envs p ctx w ps,
  (length (c_wans (wm_config ctx)) <= length (pr_wan_states p))%nat ->
  wan_at ctx (Z.of_nat x) = Some w -> probed w = true -> pr_wan_states p !! x = Some ps ->
  let pc := c_prober (wm_config ctx) in
  exists p' ctx' w', rounds wenv envs (p, ctx) = Some (p', ctx')
    /\ wan_at ctx' (Z.of_nat x) = Some w' /\ wm_kernel ctx' = wm_kernel ctx
    /\ (judged pc w ps \/ envs <> [] -> judged pc w' (send_all (pc_timeout_ms pc) (se_now_us <$> envs) ps)).
Proof.
  intros envs. induction envs as [|env envs IH]; intros p ctx w ps Hlen Hw Hpr Hps; cbv zeta; cbn [rounds].
  { eexists _, _, _. split_and!; try done. by intros [|]. }
  destruct (send_probes_spec wenv (Some (wan_manager_on_health_update wenv)) env p ctx)
    as (p1 & c1 & sent & -> & [Hctx Hwan Hst Hl Hls _]); [by right|done|].
  cbn [mbind option_bind fst]. specialize (Hwan x w ps Hw Hps). specialize (Hst x w ps Hw Hps).
  assert (Z.of_nat x < wan_count ctx) as Hx.
  { unfold wan_at in Hw. rewrite Nat2Z.id in Hw. apply lookup_lt_Some in Hw. unfold wan_count. lia. }
  destruct (Z.ltb_spec (Z.of_nat x) (wan_count ctx)) as [_|]; [|lia].
  unfold probed_wan in Hwan. unfold probed_state in Hst. rewrite Hpr in Hwan, Hst.
  assert (Hpc : c_prober (wm_config c1) = c_prober (wm_config ctx)) by (by rewrite Hctx).
  destruct (IH p1 c1 _ _ ltac:(lia) Hwan Hpr Hst) as (p' & c' & w' & -> & Hw' & Hk & Hj).
  eexists _, _, _. split_and!; [done|done|by rewrite Hk, Hctx|]. intros _. rewrite Hpc in Hj.
  apply Hj. left. apply evaluated_judged.
Qed.


(** ** Replies *)

Lemma le_bytes_roundtrip n v : 0 <= v < 256 ^ Z.of_nat n -> le_val (le_bytes n v) = v.
Proof. intros Hv. by rewrite le_val_bytes, Z.mod_small. Qed.

Lemma be16_le16 v : is_u16 v -> ntohs (le16 (v / 256) (v mod 256)) = v.
Proof. unfold bswap16, le16. cint. Qed.

Lemma echo_packet_shape id seq now_us pk :
  echo_packet id seq now_us = Some pk ->
  drop 4 pk = be16 id ++ be16 seq ++ le_bytes 8 now_us ++ replicate 48 0.
Proof.
  unfold echo_packet. intros (b & H1%st8_inv & H2%st8_inv)%st16_inv.
  destruct H1 as [_ ->], H2 as [_ ->]. done.
Qed.

(** The reply of a host: its IP header, the type and checksum of a reply, and the rest of the request. *)
Definition echo_reply (hdr : list Z) (ck0 ck1 : Z) (request : list Z) : list Z :=
  hdr ++ [ICMP_ECHOREPLY; 0; ck0; ck1] ++ drop 4 request.

Lemma u16_back a i : is_u16 a -> 0 <= i < 65536 -> u16 (u16 (a + i) - a) = i.
Proof. unfold is_u16, u16. lia. Qed.

Lemma measured_rtt_spec now_us sent_us :
  0 < sent_us <= now_us -> now_us < 2 ^ 63 -> now_us - sent_us < 4294967295000 ->
  measured_rtt now_us sent_us = Z.max 1 ((now_us - sent_us + 500) / 1000).
Proof.
  intros H1 H2 H3. unfold measured_rtt.
  destruct (Z.ltb_spec 0 sent_us), (Z.leb_spec sent_us now_us); try lia. cbn [andb].
  rewrite u64_small, u32_small by (unfold is_u64, is_u32; lia). destruct (Z.eqb_spec ((now_us - sent_us + 500) / 1000) 0); lia.
Qed.

(** Round trips are measured.  The reply to the request sent for uplink [i] at [sent_us], arriving at [now_us]
    behind an IP header of 20 bytes, is credited to uplink [i] and to no other: its
    window gets the round trip, rounded to milliseconds and at least one, and the
    probe's slot counts as answered. *)
Theorem reply_is_credited p ctx i seq sent_us now_us pk hdr ck0 ck1 ps :
  is_u16 (pr_pid p) -> 0 <= i < wan_count ctx -> wan_count ctx <= MAX_WANS -> is_u16 seq ->
  0 < sent_us <= now_us -> now_us < 2 ^ 63 -> now_us - sent_us < 4294967295000 ->
  echo_packet (u16 (pr_pid p + i)) seq sent_us = Some pk ->
  length hdr = 20%nat -> (default 0 (head hdr)) .& 15 = 5 ->
  pr_wan_states p !! Z.to_nat i = Some ps ->
  let rtt := Z.max 1 ((now_us - sent_us + 500) / 1000) in
  prober_handle_packet now_us (echo_reply hdr ck0 ck1 pk) (p, ctx)
  = Some (set_probe_state i (mark_received (Z.to_nat (seq mod 16)) (record_reply rtt ps)) p,
          upd_wan i (fun w => set_w_metrics (set_m_last_probe_time (now_us / 1000)
            (set_m_rtt_ms rtt (w_metrics w))) w) ctx).
Proof.
  intros Hpid Hi Hc Hseq Hs1 Hs2 Hs3 Hpk Hh Hihl Hps. cbv zeta. rewrite <- measured_rtt_spec by done.
  unfold echo_reply. rewrite (echo_packet_shape _ _ _ _ Hpk).
  do 20 (destruct hdr as [|? hdr]; [done|]). destruct hdr; [|done]. cbn [head from_option Datatypes.id] in Hihl.
  set (ident := u16 (pr_pid p + i)) in *. assert (Hid : is_u16 ident) by apply u16_range.
  unfold prober_handle_packet.
  set (buf := _ ++ _). change (blen buf) with 84. change (84 <? 28) with false. cbv iota.
  change (ld8 buf 0) with (Some z). cbn [mbind option_bind]. rewrite Hihl.
  change (84 <? 5 * 4 + 8) with false. cbv iota.
  change (ld8 buf (5 * 4)) with (Some 0). cbn [mbind option_bind].
  change (negb (0 =? ICMP_ECHOREPLY)) with false. cbv iota.
  change (ld16 buf (5 * 4 + 4)) with (Some (le16 (ident / 256) (ident mod 256))).
  change (ld16 buf (5 * 4 + 6)) with (Some (le16 (seq / 256) (seq mod 256))). cbn [mbind option_bind].
  rewrite !be16_le16 by done.
  assert (Hw : u16 (ident - pr_pid p) = i).
  { apply u16_back; [done|]. unfold MAX_WANS in Hc. lia. }
  rewrite Hw. unfold wan_count in Hi. change (cs_config ctx) with (wm_config ctx).
  destruct (Z.leb_spec (Z.of_nat (length (c_wans (wm_config ctx)))) i); [lia|].
  rewrite Hps. cbn [mbind option_bind]. change (5 * 4 + 8 + 8 <=? 84) with true. cbv iota.
  assert (ld_bytes buf (5 * 4 + 8) 8 = Some (le_bytes 8 sent_us)) as -> by reflexivity.
  cbn [mbind option_bind]. rewrite le_bytes_roundtrip by (change (256 ^ Z.of_nat 8) with 18446744073709551616; lia).
  done.
Qed.

(** ** No packet faults the prober *)

Lemma ld8_wp_range b i : bytes_ok b -> 0 <= i < blen b -> exists v, ld8 b i = Some v /\ is_u8 v.
Proof. intros Hb Hi. destruct (ld8_Some b i Hi) as [v E]. exists v. split; [done|]. by eapply ld8_range. Qed.

(** Whatever arrives, the handler stays in bounds: for any datagram, and a prober
    with a window for each configured uplink, [prober_handle_packet] returns, and
    leaves the kernel's tables alone. *)
Theorem reply_handler_safe p ctx now_us buf :
  bytes_ok buf -> (length (c_wans (wm_config ctx)) <= length (pr_wan_states p))%nat ->
  Forall window_ok (pr_wan_states p) ->
  exists p' ctx', prober_handle_packet now_us buf (p, ctx) = Some (p', ctx')
    /\ wm_kernel ctx' = wm_kernel ctx.
Proof.
  intros Hb Hlen Hok. unfold prober_handle_packet.
  destruct (Z.ltb_spec (blen buf) 28); [by eexists _, _|].
  destruct (ld8_wp_range buf 0 Hb) as (b0 & -> & Hb0); [lia|]. cbn [mbind option_bind].
  assert (Hihl : 0 <= (b0 .& 15) * 4 <= 60).
  { change 15 with (Z.ones 4). rewrite Z.land_ones by lia. lia. }
  set (ihl := (b0 .& 15) * 4) in *. clearbody ihl.
  destruct (Z.ltb_spec (blen buf) (ihl + 8)); [by eexists _, _|].
  destruct (ld8_Some buf ihl) as [ty ->]; [lia|]. cbn [mbind option_bind].
  destruct (negb _); [by eexists _, _|].
  destruct (ld16_Some buf (ihl + 4)) as [id ->]; [lia..|].
  destruct (ld16_Some buf (ihl + 6)) as [seq ->]; [lia..|]. cbn [mbind option_bind].
  change (cs_config ctx) with (wm_config ctx). pose proof (u16_range (ntohs id - pr_pid p)) as [Hr _].
  destruct (Z.leb_spec (Z.of_nat (length (c_wans (wm_config ctx)))) (u16 (ntohs id - pr_pid p))) as [|Hlt]; [by eexists _, _|].
  destruct (lookup_lt_is_Some_2 (pr_wan_states p) (Z.to_nat (u16 (ntohs id - pr_pid p)))) as [ps Hps]; [lia|].
  rewrite Hps. cbn [mbind option_bind].
  assert (exists t, (if ihl + 8 + 8 <=? blen buf
                     then b ← ld_bytes buf (ihl + 8) 8; Some (le_val b)
                     else sl_send_time_us <$> ps_pending_probes ps !! Z.to_nat (ntohs seq mod 16)) = Some t) as [t ->].
  { destruct (Z.leb_spec (ihl + 8 + 8) (blen buf)).
    - destruct (wp_elim (ld_bytes buf (ihl + 8) 8) (fun _ => True)) as (vs & -> & _); [|by eexists].
      apply wp_ld_bytes; [lia|lia|done].
    - pose proof (Forall_lookup_1 _ _ _ _ Hok Hps) as [_ _ _ H16].
      destruct (lookup_lt_is_Some_2 (ps_pending_probes ps) (Z.to_nat (ntohs seq mod 16))) as [sl ->]; [lia|].
      by eexists. }
  cbn [mbind option_bind]. by eexists _, _.
Qed.

(** ** Examples *)

Definition sample_window : wan_probe_state_t :=
  WanProbeState 0 0 1 (replicate 32 0) (replicate 32 false) 0 (replicate 16 zero_slot).
Definition sample_prober : prober_ctx := ProberCtx 5 ∅ (replicate 3 sample_window) 4242.
Definition sample_send (now_us : Z) : send_env :=
  SendEnv now_us (fun _ => 7) (fun _ => 9) (fun _ => true) (fun _ => false).
(** 48 rounds, one second apart. *)
Definition sample_rounds : list send_env := (fun k => sample_send (1000000 * k)) <$> seqZ 1 48.

Lemma sample_window_ok : window_ok sample_window.
Proof. split; by_eval. Qed.

Lemma failover_callback_never_fires_witness :
  exists p' ctx' sent,
    prober_send_probes (Some (wan_manager_on_health_update sample_wm_env)) (sample_send 1000000)
      (sample_prober, sample_manager) = Some (p', ctx', sent)
    /\ wm_kernel ctx' = wm_kernel sample_manager.
Proof.
  destruct (failover_callback_never_fires sample_wm_env (sample_send 1000000) sample_prober sample_manager)
    as (p' & ctx' & sent & E & _ & Hk & _).
  - vm_compute. lia.
  - exists p', ctx', sent. split; [exact E|exact Hk].
Defined.

(** The first uplink, set to draining. *)
Definition sample_draining : wan_manager_ctx := upd_wan 0 (set_w_state WAN_STATE_DRAINING) sample_manager.

Lemma probes_set_state_witness :
  exists p' ctx' sent w',
    prober_send_probes (Some (wan_manager_on_health_update sample_wm_env)) (sample_send 1000000)
      (sample_prober, sample_draining) = Some (p', ctx', sent)
    /\ wan_at ctx' 0 = Some w' /\ w_state w' <> WAN_STATE_DRAINING.
Proof.
  destruct (probes_set_state sample_wm_env (sample_send 1000000) sample_prober sample_draining 0
    (sample_wan 1 "eth1" 100 WAN_STATE_DRAINING)) as (p' & ctx' & sent & w' & E & H1 & _ & H2).
  - vm_compute. lia.
  - reflexivity.
  - reflexivity.
  - exists p', ctx', sent, w'. split; [exact E|]. split; [exact H1|exact H2].
Defined.


(** A request for the second uplink, answered 25.3 ms later. *)
Definition sample_request : list Z := Eval vm_compute in default [] (echo_packet 4243 7 1000000).
Definition sample_header : list Z := [69; 0; 0; 84; 0; 0; 0; 0; 55; 1; 0; 0; 8; 8; 8; 8; 10; 0; 0; 2].

Lemma reply_is_credited_witness :
  option_map (fun st => pr_wan_states (fst st) !! 1%nat)
    (prober_handle_packet 1025300 (echo_reply sample_header 1 2 sample_request) (sample_prober, sample_manager))
  = Some (Some (mark_received 7 (record_reply 25 sample_window))).
Proof.
  rewrite (reply_is_credited sample_prober sample_manager 1 7 1000000 1025300 sample_request sample_header 1 2
    sample_window); [reflexivity|by_eval|by_eval|by_eval|by_eval|by_eval|by_eval|by_eval|..];
    vm_compute; reflexivity.
Defined.

Lemma reply_handler_safe_witness :
  exists p' ctx', prober_handle_packet 5 (replicate 28 0) (sample_prober, sample_manager) = Some (p', ctx')
    /\ wm_kernel ctx' = wm_kernel sample_manager.
Proof.
  apply (reply_handler_safe sample_prober sample_manager 5 (replicate 28 0)).
  - repeat constructor; by_eval.
  - vm_compute. lia.
  - repeat constructor; by_eval.
Defined.
