(* ===== verification/Nat46.v ===== *)
(** * The NAT46 translator ([src/bpf/xdp_nat46.bpf.c], [src/bpf/nat46_maps.h])

    Translates IPv4 packets to a pool of synthetic addresses into IPv6 packets to
    the servers behind them, and the servers' replies back.  IPv6 addresses and
    MACs are lists of bytes.  What [bpf_xdp_adjust_head] exposes in front of a
    frame is an argument: the bytes that happen to be in the headroom. *)

From S2P Require Import Prelude Checksum Frames XdpRouter.

(** ** Maps *)

Definition SYNTH_IPV4_NET : Z := 3323068416.
Definition SYNTH_IPV4_MASK : Z := 4294836224.
Definition NAT46_MAX_ENTRIES : Z := 65536.
Definition ETH_P_IPV6 : Z := 34525.
Definition IP_DF : Z := 16384.
Definition XDP_REDIRECT : Z := 4.

Record nat46_forward_val := Nat46Forward {
  nf_target_v6 : list Z;
  nf_client_v4 : Z;
  nf_last_seen_sec : Z
}.

Record nat46_reverse_val := Nat46Reverse {
  nr_synthetic_v4 : Z;
  nr_client_v4 : Z;
  nr_last_seen_sec : Z
}.

Record nat46_config := Nat46Cfg {
  nc_router_v6_src : list Z;
  nc_starlink_ifindex : Z;
  nc_lan_ifindex : Z;
  nc_starlink_gw_mac : list Z;
  nc_lan_gw_mac : list Z;
  nc_enabled : Z;
  nc_total_translated_egress : Z;
  nc_total_translated_ingress : Z
}.

Record nat46_maps := Nat46Maps {
  v4_to_v6_map : gmap Z nat46_forward_val;
  v6_to_v4_map : gmap (list Z) nat46_reverse_val;
  nat46_cfg : nat46_config
}.

Definition count_egress (m : nat46_maps) : nat46_maps :=
  let c := nat46_cfg m in
  Nat46Maps (v4_to_v6_map m) (v6_to_v4_map m)
    (Nat46Cfg (nc_router_v6_src c) (nc_starlink_ifindex c) (nc_lan_ifindex c) (nc_starlink_gw_mac c)
       (nc_lan_gw_mac c) (nc_enabled c) (u32 (nc_total_translated_egress c + 1))
       (nc_total_translated_ingress c)).
Definition count_ingress (m : nat46_maps) : nat46_maps :=
  let c := nat46_cfg m in
  Nat46Maps (v4_to_v6_map m) (v6_to_v4_map m)
    (Nat46Cfg (nc_router_v6_src c) (nc_starlink_ifindex c) (nc_lan_ifindex c) (nc_starlink_gw_mac c)
       (nc_lan_gw_mac c) (nc_enabled c) (nc_total_translated_egress c)
       (u32 (nc_total_translated_ingress c + 1))).

(** [bpf_map_update_elem] on a hash map: a new key needs a free entry. *)
Definition reverse_update (m : nat46_maps) (k : list Z) (v : nat46_reverse_val) : nat46_maps :=
  let r := v6_to_v4_map m in
  Nat46Maps (v4_to_v6_map m)
    (if bool_decide (is_Some (r !! k)) || (Z.of_nat (size r) <? NAT46_MAX_ENTRIES)
     then <[k := v]> r else r) (nat46_cfg m).

(** ** Head adjustment *)

(** [Some bytes]: the bytes in front of the frame, when there is headroom. *)
Definition headroom : Type := option (list Z).

Definition grow_head (hr : headroom) (pkt : list Z) : option (list Z) :=
  match hr with Some bytes => Some (bytes ++ pkt) | None => None end.
(** Shrinking fails when less than an Ethernet header would be left. *)
Definition shrink_head (n : Z) (pkt : list Z) : option (list Z) :=
  if n + 14 <=? blen pkt then Some (drop (Z.to_nat n) pkt) else None.

(** ** Translation *)

(** What the program returns: the maps, the frame, the verdict, and where the frame is
    redirected to. *)
Definition nat46_result : Type := nat46_maps * list Z * Z * option Z.

(** The IPv6 header over the grown frame, then the Ethernet header. *)
Definition write_ipv6 (cfg : nat46_config) (pkt : list Z) (payload_len proto : Z) (target_v6 : list Z)
    : option (list Z) :=
  pkt ← st8 pkt 14 96;
  pkt ← st8 pkt 15 0;
  pkt ← st8 pkt 16 0;
  pkt ← st8 pkt 17 0;
  pkt ← st16 pkt 18 (htons payload_len);
  pkt ← st8 pkt 20 proto;
  pkt ← st8 pkt 21 64;
  pkt ← st_bytes pkt 22 (nc_router_v6_src cfg);
  pkt ← st_bytes pkt 38 target_v6;
  pkt ← st16 pkt 12 (htons ETH_P_IPV6);
  st_bytes pkt 0 (nc_starlink_gw_mac cfg).

Definition egress (hr : headroom) (m : nat46_maps) (pkt : list Z) : option nat46_result :=
  let cfg := nat46_cfg m in
  daddr ← ld32 pkt 30;
  if (ntohl daddr .& SYNTH_IPV4_MASK) =? SYNTH_IPV4_NET then
    match v4_to_v6_map m !! daddr with
    | None => Some (m, pkt, XDP_PASS, None)
    | Some fwd =>
        client_ip ← ld32 pkt 26;
        len_field ← ld16 pkt 16;
        b0 ← ld8 pkt 14;
        let tot_len := ntohs len_field in
        let ihl_bytes := (b0 .& 15) * 4 in
        if tot_len <? ihl_bytes then Some (m, pkt, XDP_PASS, None)
        else
          let payload_len := tot_len - ihl_bytes in
          proto ← ld8 pkt 23;
          match grow_head hr pkt with
          | None => Some (m, pkt, XDP_DROP, None)
          | Some pkt =>
              if blen pkt <? 14 then Some (m, pkt, XDP_DROP, None)
              else if blen pkt <? 54 then Some (m, pkt, XDP_DROP, None)
              else
                pkt ← write_ipv6 cfg pkt payload_len proto (nf_target_v6 fwd);
                let m := reverse_update m (nf_target_v6 fwd) (Nat46Reverse daddr client_ip 0) in
                Some (count_egress m, pkt, XDP_REDIRECT, Some (nc_starlink_ifindex cfg))
          end
    end
  else Some (m, pkt, XDP_PASS, None).

(** The IPv4 header over the shrunk frame, then the Ethernet header. *)
Definition write_ipv4 (cfg : nat46_config) (pkt : list Z) (payload_len proto synth_ip client_ip : Z)
    : option (list Z) :=
  pkt ← st8 pkt 14 69;
  pkt ← st8 pkt 15 0;
  pkt ← st16 pkt 16 (htons (u16 (payload_len + 20)));
  pkt ← st16 pkt 18 0;
  pkt ← st16 pkt 20 (htons IP_DF);
  pkt ← st8 pkt 22 64;
  pkt ← st8 pkt 23 proto;
  pkt ← st16 pkt 24 0;
  pkt ← st32 pkt 26 synth_ip;
  pkt ← st32 pkt 30 client_ip;
  words ← words16 10 pkt 14;
  check ← calc_ip_csum words;
  pkt ← st16 pkt 24 check;
  pkt ← st16 pkt 12 (htons ETH_P_IP);
  st_bytes pkt 0 (nc_lan_gw_mac cfg).

Definition ingress (m : nat46_maps) (pkt : list Z) : option nat46_result :=
  let cfg := nat46_cfg m in
  if blen pkt <? 54 then Some (m, pkt, XDP_PASS, None)
  else
    saddr ← ld_bytes pkt 22 16;
    match v6_to_v4_map m !! saddr with
    | None => Some (m, pkt, XDP_PASS, None)
    | Some rev =>
        len_field ← ld16 pkt 18;
        proto ← ld8 pkt 20;
        match shrink_head 20 pkt with
        | None => Some (m, pkt, XDP_DROP, None)
        | Some pkt =>
            if blen pkt <? 14 then Some (m, pkt, XDP_DROP, None)
            else if blen pkt <? 34 then Some (m, pkt, XDP_DROP, None)
            else
              pkt ← write_ipv4 cfg pkt (ntohs len_field) proto (nr_synthetic_v4 rev) (nr_client_v4 rev);
              Some (count_ingress m, pkt, XDP_REDIRECT, Some (nc_lan_ifindex cfg))
        end
    end.

Definition xdp_nat46_handler (hr : headroom) (m : nat46_maps) (pkt : list Z) : option nat46_result :=
  if blen pkt <? 14 then Some (m, pkt, XDP_PASS, None)
  else if nc_enabled (nat46_cfg m) =? 0 then Some (m, pkt, XDP_PASS, None)
  else
    h_proto ← ld16 pkt 12;
    if h_proto =? htons ETH_P_IP then
      if blen pkt <? 34 then Some (m, pkt, XDP_PASS, None) else egress hr m pkt
    else if h_proto =? htons ETH_P_IPV6 then ingress m pkt
    else Some (m, pkt, XDP_PASS, None).

(** ** Well-formed maps *)

Record nat46_ok (m : nat46_maps) : Prop := {
  no_src : length (nc_router_v6_src (nat46_cfg m)) = 16%nat /\ bytes_ok (nc_router_v6_src (nat46_cfg m));
  no_smac : length (nc_starlink_gw_mac (nat46_cfg m)) = 6%nat /\ bytes_ok (nc_starlink_gw_mac (nat46_cfg m));
  no_lmac : length (nc_lan_gw_mac (nat46_cfg m)) = 6%nat /\ bytes_ok (nc_lan_gw_mac (nat46_cfg m));
  no_fwd : map_Forall (fun _ v => length (nf_target_v6 v) = 16%nat /\ bytes_ok (nf_target_v6 v)) (v4_to_v6_map m);
  no_rev : map_Forall (fun _ v => is_u32 (nr_synthetic_v4 v) /\ is_u32 (nr_client_v4 v)) (v6_to_v4_map m)
}.

Definition headroom_ok (hr : headroom) : Prop :=
  match hr with Some bytes => length bytes = 20%nat /\ bytes_ok bytes | None => True end.

(** ** The headers written *)

Lemma ld_bytes_hit n vs b i b' :
  bytes_ok vs -> length vs = n -> st_bytes b i vs = Some b' -> ld_bytes b' i n = Some vs.
Proof. intros Hb <- E. by apply (ld_bytes_st_bytes vs b i b'). Qed.

Ltac bytes_hit :=
  ld_frame;
  match goal with
  | E : st_bytes _ ?i ?vs = Some ?b' |- ld_bytes ?b' ?i _ = _ => by apply (ld_bytes_hit _ vs _ _ _ ltac:(done) ltac:(done) E)
  end.

(** The bytes of [b'] from [lo] on are those of [b], through the stores in the context. *)
Ltac agree_all :=
  repeat match goal with
  | |- agree _ _ ?b ?b => reflexivity
  | |- agree _ _ _ ?b' => with_source b' ltac:(fun b => transitivity b; [|agree_by])
  end.

Lemma write_ipv6_spec cfg pkt payload_len proto tgt :
  bytes_ok pkt -> 54 <= blen pkt -> is_u16 payload_len -> is_u8 proto ->
  length (nc_router_v6_src cfg) = 16%nat -> bytes_ok (nc_router_v6_src cfg) ->
  length (nc_starlink_gw_mac cfg) = 6%nat -> bytes_ok (nc_starlink_gw_mac cfg) ->
  length tgt = 16%nat -> bytes_ok tgt ->
  wp (write_ipv6 cfg pkt payload_len proto tgt) (fun p =>
    length p = length pkt /\ bytes_ok p
    /\ ld16 p 12 = Some (htons ETH_P_IPV6) /\ ld8 p 14 = Some 96
    /\ ld16 p 18 = Some (htons payload_len) /\ ld8 p 20 = Some proto /\ ld8 p 21 = Some 64
    /\ ld_bytes p 22 16 = Some (nc_router_v6_src cfg) /\ ld_bytes p 38 16 = Some tgt
    /\ ld_bytes p 0 6 = Some (nc_starlink_gw_mac cfg)
    /\ agree 54 (blen pkt) pkt p).
Proof.
  intros Hb Hl Hpl Hpr Ls Bs Lm Bm Lt Bt. unfold write_ipv6.
  pose proof (bswap16_range _ Hpl) as Hsw. do 20 wp_step. apply wp_st_bytes; [lia|lia|]. intros p Hp Hlp.
  split_and!; try by bytes_hit.
  - lia.
  - bytes_ok_by.
  - ld_hit. done.
  - ld_hit. done.
  - ld_hit. done.
  - ld_hit. by rewrite u8_small.
  - ld_hit. done.
  - agree_all.
Qed.

Lemma store_check_verifies p ws check p' :
  bytes_ok p -> words16 10 p 14 = Some ws -> ld16 p 24 = Some 0 ->
  calc_ip_csum ws = Some check -> st16 p 24 check = Some p' -> verifies 10 p' 14.
Proof.
  intros Hb Hws H0 Hc Hst. pose proof (words16_range _ _ _ _ Hb Hws) as Hr.
  pose proof (words16_length _ _ _ _ Hws) as Hl.
  destruct (calc_ip_csum_spec ws Hr) as [Ec Hs]; [lia|]. rewrite Hc in Ec. injection Ec as ->.
  pose proof (oc_sum_range _ Hs) as Ho.
  exists (<[5%nat := 65535 - oc_sum (sum_list ws)]> ws). split.
  - apply (words16_st16 _ p _ 5 _ _ _); [done|unfold is_u16 in *; lia|done].
  - assert (H5 : ws !! 5%nat = Some 0).
    { by rewrite <- (words16_lookup _ _ _ _ _ Hws) by lia. }
    rewrite (sum_list_insert _ _ _ _ H5), Z.sub_0_r. by apply oc_sum_verify.
Qed.

Lemma write_ipv4_spec cfg pkt payload_len proto synth client :
  bytes_ok pkt -> 34 <= blen pkt -> is_u16 payload_len -> is_u8 proto -> is_u32 synth -> is_u32 client ->
  length (nc_lan_gw_mac cfg) = 6%nat -> bytes_ok (nc_lan_gw_mac cfg) ->
  wp (write_ipv4 cfg pkt payload_len proto synth client) (fun p =>
    length p = length pkt /\ bytes_ok p
    /\ ld16 p 12 = Some (htons ETH_P_IP) /\ ld8 p 14 = Some 69
    /\ ld16 p 16 = Some (htons (u16 (payload_len + 20))) /\ ld8 p 23 = Some proto
    /\ ld32 p 26 = Some synth /\ ld32 p 30 = Some client
    /\ ld_bytes p 0 6 = Some (nc_lan_gw_mac cfg)
    /\ verifies 10 p 14 /\ agree 34 (blen pkt) pkt p).
Proof.
  intros Hb Hl Hpl Hpr Hsy Hcl Lm Bm. unfold write_ipv4.
  pose proof (bswap16_range _ (u16_range (payload_len + 20))) as Hsw.
  do 20 wp_step. rename b'8 into p0.
  assert (Hb0 : bytes_ok p0) by bytes_ok_by.
  destruct (words16_Some 10 p0 14) as (ws & Hws & Lws); [lia|cbn; lia|].
  pose proof (words16_range _ _ _ _ Hb0 Hws) as Hr.
  assert (Hchk : ld16 p0 24 = Some 0) by (by ld_hit).
  destruct (calc_ip_csum_spec ws Hr) as [Ec Hs]; [lia|].
  wp_step. rewrite Hws. cbn [wp]. wp_step. rewrite Ec. cbn [wp]. do 4 wp_step.
  apply wp_st_bytes; [lia|lia|]. intros p Hp Hlp.
  assert (Hv : verifies 10 p 14).
  { ld_frame. eapply (store_check_verifies p0 ws); [done|done|done|done|eassumption]. }
  split_and!; try by bytes_hit.
  - lia.
  - bytes_ok_by.
  - ld_hit. done.
  - ld_hit. done.
  - ld_hit. done.
  - ld_hit. by rewrite u8_small.
  - ld_hit. done.
  - ld_hit. done.
  - done.
  - agree_all.
Qed.

(** ** Frames *)

(** An IPv4 frame without options. *)
Record v4_frame (pkt : list Z) (payload_len proto saddr daddr : Z) : Prop := {
  v4_bytes : bytes_ok pkt;
  v4_len : 34 <= blen pkt;
  v4_type : ld16 pkt 12 = Some (htons ETH_P_IP);
  v4_ihl : ld8 pkt 14 = Some 69;
  v4_total : ld16 pkt 16 = Some (htons (payload_len + 20));
  v4_proto : ld8 pkt 23 = Some proto;
  v4_saddr : ld32 pkt 26 = Some saddr;
  v4_daddr : ld32 pkt 30 = Some daddr
}.

(** An IPv6 frame. *)
Record v6_frame (pkt : list Z) (payload_len proto : Z) (saddr daddr : list Z) : Prop := {
  v6_bytes : bytes_ok pkt;
  v6_len : 54 <= blen pkt;
  v6_type : ld16 pkt 12 = Some (htons ETH_P_IPV6);
  v6_total : ld16 pkt 18 = Some (htons payload_len);
  v6_proto : ld8 pkt 20 = Some proto;
  v6_saddr : ld_bytes pkt 22 16 = Some saddr;
  v6_daddr : ld_bytes pkt 38 16 = Some daddr
}.

Lemma ld8_app_r hr pkt j : 0 <= j -> ld8 (hr ++ pkt) (blen hr + j) = ld8 pkt j.
Proof.
  intros Hj. unfold ld8. destruct (Z.leb_spec 0 (blen hr + j)), (Z.leb_spec 0 j); try lia.
  rewrite lookup_app_r by lia. f_equal. lia.
Qed.
Lemma ld8_drop n pkt j : 0 <= n -> 0 <= j -> ld8 (drop (Z.to_nat n) pkt) j = ld8 pkt (n + j).
Proof.
  intros Hn Hj. unfold ld8. destruct (Z.leb_spec 0 j), (Z.leb_spec 0 (n + j)); try lia.
  rewrite lookup_drop. f_equal. lia.
Qed.

Lemma htons_values : htons ETH_P_IP <> htons ETH_P_IPV6.
Proof. by vm_compute. Qed.

Lemma ihl_69 : (69 .& 15) * 4 = 20.
Proof. reflexivity. Qed.

(** The program on an IPv4 frame to a mapped synthetic address. *)
Lemma egress_spec hr m pkt payload_len proto client synth fwd :
  nat46_ok m -> nc_enabled (nat46_cfg m) <> 0 -> length hr = 20%nat -> bytes_ok hr ->
  v4_frame pkt payload_len proto client synth -> 0 <= payload_len < 65516 ->
  (ntohl synth .& SYNTH_IPV4_MASK) = SYNTH_IPV4_NET -> v4_to_v6_map m !! synth = Some fwd ->
  exists p, xdp_nat46_handler (Some hr) m pkt
      = Some (count_egress (reverse_update m (nf_target_v6 fwd) (Nat46Reverse synth client 0)), p,
              XDP_REDIRECT, Some (nc_starlink_ifindex (nat46_cfg m)))
    /\ v6_frame p payload_len proto (nc_router_v6_src (nat46_cfg m)) (nf_target_v6 fwd)
    /\ blen p = blen pkt + 20 /\ (forall j, 0 <= j -> ld8 p (54 + j) = ld8 pkt (34 + j)).
Proof.
  intros [[Ls Bs] [Lm Bm] _ Hf _] Hen Lh Bh [Hb Hl Ht Hi Hn Hp Hs Hd] Hpl Hpool Hfw.
  destruct (Hf synth fwd Hfw) as [Lt Bt].
  unfold xdp_nat46_handler. destruct (Z.ltb_spec (blen pkt) 14); [lia|].
  destruct (Z.eqb_spec (nc_enabled (nat46_cfg m)) 0); [done|]. rewrite Ht. cbn [mbind option_bind].
  rewrite Z.eqb_refl. destruct (Z.ltb_spec (blen pkt) 34); [lia|].
  unfold egress. rewrite Hd. cbn [mbind option_bind]. rewrite Hpool, Z.eqb_refl, Hfw, Hs.
  cbn [mbind option_bind]. rewrite Hn. cbn [mbind option_bind]. rewrite Hi. cbn [mbind option_bind].
  rewrite bswap16_invol by (unfold is_u16; lia). rewrite ihl_69.
  destruct (Z.ltb_spec (payload_len + 20) 20); [lia|]. rewrite Hp. cbn [mbind option_bind grow_head].
  assert (Hlen : blen (hr ++ pkt) = blen pkt + 20) by (rewrite length_app; lia).
  destruct (Z.ltb_spec (blen (hr ++ pkt)) 14); [lia|].
  destruct (Z.ltb_spec (blen (hr ++ pkt)) 54); [lia|].
  replace (payload_len + 20 - 20) with payload_len by lia.
  destruct (wp_elim _ _ (write_ipv6_spec (nat46_cfg m) (hr ++ pkt) payload_len proto (nf_target_v6 fwd)
    ltac:(by apply Forall_app) ltac:(lia) ltac:(unfold is_u16; lia) (ld8_range _ _ _ Hb Hp) Ls Bs Lm Bm Lt Bt))
    as (p & -> & Hlp & Hbp & Hty & _ & Hpln & Hpp & _ & Hsa & Hda & _ & Hag).
  cbn [mbind option_bind]. exists p. split; [done|]. split; [split; try done; lia|]. split; [lia|].
  intros j Hj. destruct (decide (54 + j < blen (hr ++ pkt))).
  - rewrite Hag by lia. replace (54 + j) with (blen hr + (34 + j)) by lia. apply ld8_app_r. lia.
  - transitivity (@None Z).
    + unfold ld8. destruct (0 <=? 54 + j); [|done]. apply lookup_ge_None_2. lia.
    + unfold ld8. destruct (0 <=? 34 + j); [|done]. symmetry. apply lookup_ge_None_2. lia.
Qed.

(** The program on an IPv6 frame from a server in the reverse map. *)
Lemma ingress_spec hr m pkt payload_len proto saddr daddr rev :
  nat46_ok m -> nc_enabled (nat46_cfg m) <> 0 ->
  v6_frame pkt payload_len proto saddr daddr -> 0 <= payload_len < 65516 ->
  v6_to_v4_map m !! saddr = Some rev ->
  exists p, xdp_nat46_handler hr m pkt
      = Some (count_ingress m, p, XDP_REDIRECT, Some (nc_lan_ifindex (nat46_cfg m)))
    /\ v4_frame p payload_len proto (nr_synthetic_v4 rev) (nr_client_v4 rev) /\ verifies 10 p 14
    /\ blen p = blen pkt - 20 /\ (forall j, 0 <= j -> ld8 p (34 + j) = ld8 pkt (54 + j)).
Proof.
  intros [_ _ [Lm Bm] _ Hr] Hen [Hb Hl Ht Hn Hp Hs Hd] Hpl Hrev. destruct (Hr saddr rev Hrev) as [Hsy Hcl].
  unfold xdp_nat46_handler. destruct (Z.ltb_spec (blen pkt) 14); [lia|].
  destruct (Z.eqb_spec (nc_enabled (nat46_cfg m)) 0); [done|]. rewrite Ht. cbn [mbind option_bind].
  destruct (Z.eqb_spec (htons ETH_P_IPV6) (htons ETH_P_IP)) as [E|_]; [by destruct htons_values|].
  rewrite Z.eqb_refl. unfold ingress. destruct (Z.ltb_spec (blen pkt) 54); [lia|].
  rewrite Hs. cbn [mbind option_bind]. rewrite Hrev, Hn. cbn [mbind option_bind]. rewrite Hp.
  cbn [mbind option_bind]. unfold shrink_head. destruct (Z.leb_spec (20 + 14) (blen pkt)); [|lia].
  assert (Hlen : blen (drop (Z.to_nat 20) pkt) = blen pkt - 20) by (rewrite length_drop; lia).
  destruct (Z.ltb_spec (blen (drop (Z.to_nat 20) pkt)) 14); [lia|].
  destruct (Z.ltb_spec (blen (drop (Z.to_nat 20) pkt)) 34); [lia|].
  rewrite bswap16_invol by (unfold is_u16; lia).
  destruct (wp_elim _ _ (write_ipv4_spec (nat46_cfg m) (drop (Z.to_nat 20) pkt) payload_len proto
    (nr_synthetic_v4 rev) (nr_client_v4 rev) ltac:(by apply Forall_drop) ltac:(lia) ltac:(unfold is_u16; lia)
    (ld8_range _ _ _ Hb Hp) Hsy Hcl Lm Bm))
    as (p & -> & Hlp & Hbp & Hty & Hv & Htot & Hpp & Hsa & Hda & _ & Hck & Hag).
  cbn [mbind option_bind]. exists p. split; [done|]. rewrite u16_small in Htot by (unfold is_u16; lia).
  split; [split; try done; lia|]. split; [done|]. split; [lia|].
  intros j Hj. destruct (decide (34 + j < blen (drop (Z.to_nat 20) pkt))).
  - rewrite Hag by lia. rewrite ld8_drop by lia. f_equal. lia.
  - transitivity (@None Z).
    + unfold ld8. destruct (0 <=? 34 + j); [|done]. apply lookup_ge_None_2. lia.
    + unfold ld8. destruct (0 <=? 54 + j); [|done]. symmetry. apply lookup_ge_None_2. lia.
Qed.

Lemma nat46_ok_update m k v :
  nat46_ok m -> is_u32 (nr_synthetic_v4 v) -> is_u32 (nr_client_v4 v) ->
  nat46_ok (count_egress (reverse_update m k v)).
Proof.
  intros [H1 H2 H3 H4 H5] Hs Hc. split; try done. cbn. case_match; [|done].
  by apply map_Forall_insert_2.
Qed.

(** An update finds room: the key is there already, or the map is not full. *)
Definition has_room (m : nat46_maps) (k : list Z) : Prop :=
  is_Some (v6_to_v4_map m !! k) \/ Z.of_nat (size (v6_to_v4_map m)) < NAT46_MAX_ENTRIES.

Lemma reverse_update_lookup m k v :
  has_room m k -> v6_to_v4_map (count_egress (reverse_update m k v)) !! k = Some v.
Proof.
  intros Hr. cbn. assert (bool_decide (is_Some (v6_to_v4_map m !! k))
    || (Z.of_nat (size (v6_to_v4_map m)) <? NAT46_MAX_ENTRIES) = true) as ->.
  { destruct Hr as [Hr|Hr]; [by rewrite bool_decide_true|]. by rewrite (proj2 (Z.ltb_lt _ _) Hr), orb_true_r. }
  apply lookup_insert_eq.
Qed.

Lemma has_room_update m k v : has_room m k -> has_room (count_egress (reverse_update m k v)) k.
Proof. intros Hr. left. rewrite reverse_update_lookup by done. by eexists. Qed.

(** ** Theorems *)

(** C31.  A flow through the translator.  An IPv4 packet without options from a client to a
    mapped synthetic address, with room for the server in the reverse map, leaves as an IPv6 packet from the router to the
    server, with the same payload.  Whatever the server sends to the router next, before any other packet passes the
    translator (another client of the same server would take its replies over, [nat46_last_client_wins]), comes
    back to the client as an IPv4 packet from the synthetic address, with the server's
    payload and a header checksum that verifies. *)
Theorem nat46_round_trip hr m pkt payload_len proto client synth fwd :
  nat46_ok m -> nc_enabled (nat46_cfg m) <> 0 -> length hr = 20%nat -> bytes_ok hr ->
  v4_frame pkt payload_len proto client synth -> 0 <= payload_len < 65516 ->
  (ntohl synth .& SYNTH_IPV4_MASK) = SYNTH_IPV4_NET -> v4_to_v6_map m !! synth = Some fwd ->
  has_room m (nf_target_v6 fwd) ->
  exists m1 p, xdp_nat46_handler (Some hr) m pkt
      = Some (m1, p, XDP_REDIRECT, Some (nc_starlink_ifindex (nat46_cfg m)))
    /\ v6_frame p payload_len proto (nc_router_v6_src (nat46_cfg m)) (nf_target_v6 fwd)
    /\ (forall j, 0 <= j -> ld8 p (54 + j) = ld8 pkt (34 + j))
    /\ forall hr' reply len' proto', v6_frame reply len' proto' (nf_target_v6 fwd) (nc_router_v6_src (nat46_cfg m)) ->
         0 <= len' < 65516 ->
         exists m2 r, xdp_nat46_handler hr' m1 reply
             = Some (m2, r, XDP_REDIRECT, Some (nc_lan_ifindex (nat46_cfg m)))
           /\ v4_frame r len' proto' synth client /\ verifies 10 r 14
           /\ (forall j, 0 <= j -> ld8 r (34 + j) = ld8 reply (54 + j)).
Proof.
  intros Hok Hen Lh Bh Hv Hpl Hpool Hfw Hroom.
  destruct (egress_spec hr m pkt payload_len proto client synth fwd) as (p & E & Hp & _ & Hpay); try done.
  eexists _, p. split; [done|]. split; [done|]. split; [done|].
  intros hr' reply len' proto' Hr Hlen'.
  pose proof (ld32_range _ _ _ (v4_bytes _ _ _ _ _ Hv) (v4_saddr _ _ _ _ _ Hv)) as Hc.
  pose proof (ld32_range _ _ _ (v4_bytes _ _ _ _ _ Hv) (v4_daddr _ _ _ _ _ Hv)) as Hs.
  destruct (ingress_spec hr' (count_egress (reverse_update m (nf_target_v6 fwd) (Nat46Reverse synth client 0)))
    reply len' proto' (nf_target_v6 fwd) (nc_router_v6_src (nat46_cfg m)) (Nat46Reverse synth client 0))
    as (r & E' & Hr4 & Hck & _ & Hpay'); try done.
  - by apply nat46_ok_update.
  - by apply reverse_update_lookup.
  - by eexists _, r.
Qed.

(** One client per server.  The reverse map holds one entry per server: when two
    clients talk to the same server, every reply of the server goes to the client
    that sent last, also the replies to the other one's packets. *)
Theorem nat46_last_client_wins hr m pkt1 pkt2 len1 len2 proto1 proto2 client1 client2 synth fwd reply len' proto' daddr :
  nat46_ok m -> nc_enabled (nat46_cfg m) <> 0 -> length hr = 20%nat -> bytes_ok hr ->
  v4_frame pkt1 len1 proto1 client1 synth -> 0 <= len1 < 65516 ->
  v4_frame pkt2 len2 proto2 client2 synth -> 0 <= len2 < 65516 ->
  (ntohl synth .& SYNTH_IPV4_MASK) = SYNTH_IPV4_NET -> v4_to_v6_map m !! synth = Some fwd ->
  has_room m (nf_target_v6 fwd) ->
  v6_frame reply len' proto' (nf_target_v6 fwd) daddr -> 0 <= len' < 65516 ->
  exists m1 p1 m2 p2 m3 r ifindex,
    xdp_nat46_handler (Some hr) m pkt1 = Some (m1, p1, XDP_REDIRECT, Some ifindex)
    /\ xdp_nat46_handler (Some hr) m1 pkt2 = Some (m2, p2, XDP_REDIRECT, Some ifindex)
    /\ xdp_nat46_handler (Some hr) m2 reply = Some (m3, r, XDP_REDIRECT, Some (nc_lan_ifindex (nat46_cfg m)))
    /\ ld32 r 30 = Some client2.
Proof.
  intros Hok Hen Lh Bh Hv1 Hl1 Hv2 Hl2 Hpool Hfw Hroom Hr Hlen'.
  pose proof (ld32_range _ _ _ (v4_bytes _ _ _ _ _ Hv1) (v4_saddr _ _ _ _ _ Hv1)) as Hc1.
  pose proof (ld32_range _ _ _ (v4_bytes _ _ _ _ _ Hv2) (v4_saddr _ _ _ _ _ Hv2)) as Hc2.
  pose proof (ld32_range _ _ _ (v4_bytes _ _ _ _ _ Hv1) (v4_daddr _ _ _ _ _ Hv1)) as Hs.
  destruct (egress_spec hr m pkt1 len1 proto1 client1 synth fwd) as (p1 & E1 & _); try done.
  set (m1 := count_egress (reverse_update m (nf_target_v6 fwd) (Nat46Reverse synth client1 0))) in *.
  assert (Hok1 : nat46_ok m1) by (by apply nat46_ok_update).
  destruct (egress_spec hr m1 pkt2 len2 proto2 client2 synth fwd) as (p2 & E2 & _); try done.
  set (m2 := count_egress (reverse_update m1 (nf_target_v6 fwd) (Nat46Reverse synth client2 0))) in *.
  destruct (ingress_spec (Some hr) m2 reply len' proto' (nf_target_v6 fwd) daddr (Nat46Reverse synth client2 0))
    as (r & E3 & Hr4 & _); try done.
  - by apply nat46_ok_update.
  - by apply reverse_update_lookup, has_room_update.
  - eexists m1, p1, m2, p2, _, r, _. split_and!; [done|done|done|apply Hr4].
Qed.

(** The translator is memory safe: on any frame, with any headroom, it neither loads nor
    stores outside the frame, and its maps stay well formed. *)
Theorem nat46_safe hr m pkt :
  nat46_ok m -> bytes_ok pkt -> headroom_ok hr ->
  exists m' pkt' verdict ifindex, xdp_nat46_handler hr m pkt = Some (m', pkt', verdict, ifindex)
    /\ nat46_ok m'.
Proof.
  intros Hok Hb Hhr. enough (wp (xdp_nat46_handler hr m pkt) (fun r => nat46_ok r.1.1.1)) as W.
  { apply wp_elim in W as ([[[m' p] v] i] & -> & H). by exists m', p, v, i. }
  pose proof Hok as [[Ls Bs] [Lm Bm] [Ll Bl] Hf Hr]. unfold xdp_nat46_handler.
  do 2 (wp_step; [by apply wp_ret|]). do 2 wp_step. wp_step.
  - wp_step; [by apply wp_ret|]. unfold egress. wp_step. wp_step. wp_step; [|by apply wp_ret].
    destruct (v4_to_v6_map m !! v0) as [fwd|] eqn:Efwd; [|by apply wp_ret].
    destruct (Hf _ _ Efwd) as [Lt Bt]. do 6 wp_step. wp_step; [by apply wp_ret|].
    cbv zeta. do 2 wp_step.
    destruct hr as [hr|]; cbn [grow_head]; [|by apply wp_ret]. destruct Hhr as [Lh Bh].
    do 2 (wp_step; [by apply wp_ret|]). wp_step.
    pose proof (ld8_range _ _ _ Hb H7) as Hb0.
    eapply wp_mono; [apply write_ipv6_spec; try done|].
    + by apply Forall_app.
    + pose proof (bswap16_range _ (ld16_range _ _ _ Hb H4)). unfold is_u16 in *.
      assert (0 <= v3 .& 15) by (apply Z.land_nonneg; lia). lia.
    + intros p _ _. cbv beta. wp_step. cbn [fst]. apply nat46_ok_update;
        [done|exact (ld32_range _ _ _ Hb H2)|exact (ld32_range _ _ _ Hb H3)].
  - wp_step; [|by apply wp_ret]. unfold ingress. wp_step; [by apply wp_ret|]. do 2 wp_step.
    destruct (v6_to_v4_map m !! vs) as [rev|] eqn:Erev; [|by apply wp_ret].
    destruct (Hr _ _ Erev) as [Hsy Hcl]. do 4 wp_step. unfold shrink_head.
    destruct (Z.leb_spec (20 + 14) (blen pkt)); [|by apply wp_ret].
    do 2 (wp_step; [by apply wp_ret|]). wp_step.
    eapply wp_mono; [apply write_ipv4_spec; try done|].
    + by apply Forall_drop.
    + match goal with H : ld16 pkt 18 = Some _ |- _ => exact (bswap16_range _ (ld16_range _ _ _ Hb H)) end.
    + match goal with H : ld8 pkt 20 = Some _ |- _ => exact (ld8_range _ _ _ Hb H) end.
    + intros p _ _. cbv beta. wp_step. done.
Qed.

(** ** Examples *)

Definition sample_server : list Z := [32; 1; 13; 184; 0; 0; 0; 0; 0; 0; 0; 0; 0; 0; 0; 1].
Definition sample_router_v6 : list Z := [38; 5; 0; 1; 0; 0; 0; 0; 0; 0; 0; 0; 0; 0; 0; 2].
(** 198.18.0.7, in network byte order. *)
Definition sample_synth : Z := 117445318.
Definition sample_nat46 : nat46_maps :=
  Nat46Maps {[sample_synth := Nat46Forward sample_server 0 0]} ∅
    (Nat46Cfg sample_router_v6 5 6 [2; 0; 0; 0; 0; 9] [2; 0; 0; 0; 0; 8] 1 0 0).

(** A UDP datagram without data from 192.168.1.[host] to 198.18.0.7. *)
Definition sample_v4 (host : Z) : list Z :=
  [2; 0; 0; 0; 0; 1; 2; 0; 0; 0; 0; 2; 8; 0]
  ++ [69; 0; 0; 28; 0; 1; 64; 0; 64; 17; 0; 0; 192; 168; 1; host; 198; 18; 0; 7]
  ++ [195; 80; 0; 53; 0; 8; 0; 0].
(** The server's datagram to the router. *)
Definition sample_v6 : list Z :=
  [2; 0; 0; 0; 0; 1; 2; 0; 0; 0; 0; 2; 134; 221]
  ++ [96; 0; 0; 0; 0; 8; 17; 60] ++ sample_server ++ sample_router_v6
  ++ [0; 53; 195; 80; 0; 8; 0; 0].

Lemma sample_nat46_ok : nat46_ok sample_nat46.
Proof.
  split; try (split; [reflexivity|repeat constructor; by_eval]).
  - apply map_Forall_singleton. split; [reflexivity|]. repeat constructor; by_eval.
  - apply map_Forall_empty.
Qed.

Lemma sample_v4_frame host : is_u8 host -> v4_frame (sample_v4 host) 8 17 (108736 + 16777216 * host) sample_synth.
Proof.
  intros Hh. split; try (vm_compute; (reflexivity || discriminate)).
  - repeat (constructor; [first [exact Hh | by_eval]|]). constructor.
  - change (ld32 (sample_v4 host) 26) with (Some (le32 192 168 1 host)). unfold le32. f_equal. lia.
Qed.

Lemma sample_v6_frame : v6_frame sample_v6 8 17 sample_server sample_router_v6.
Proof. split; try (vm_compute; (reflexivity || discriminate)). repeat constructor; by_eval. Qed.

Lemma sample_has_room : has_room sample_nat46 sample_server.
Proof. right. by_eval. Qed.

Lemma nat46_round_trip_witness :
  exists m1 p m2 r, xdp_nat46_handler (Some (replicate 20 0)) sample_nat46 (sample_v4 20)
      = Some (m1, p, XDP_REDIRECT, Some 5)
    /\ xdp_nat46_handler None m1 sample_v6 = Some (m2, r, XDP_REDIRECT, Some 6)
    /\ ld32 r 30 = Some (108736 + 16777216 * 20) /\ verifies 10 r 14.
Proof.
  destruct (nat46_round_trip (replicate 20 0) sample_nat46 (sample_v4 20) 8 17 (108736 + 16777216 * 20)
    sample_synth (Nat46Forward sample_server 0 0)) as (m1 & p & E & _ & _ & H).
  - exact sample_nat46_ok.
  - vm_compute. discriminate.
  - reflexivity.
  - repeat constructor; by_eval.
  - apply sample_v4_frame. by_eval.
  - by_eval.
  - reflexivity.
  - vm_compute. reflexivity.
  - exact sample_has_room.
  - destruct (H None sample_v6 8 17 sample_v6_frame) as (m2 & r & E' & Hr & Hck & _); [by_eval|].
    exists m1, p, m2, r. split; [exact E|]. split; [exact E'|]. split; [exact (v4_daddr _ _ _ _ _ Hr)|exact Hck].
Defined.

Lemma nat46_last_client_wins_witness :
  exists m1 p1 m2 p2 m3 r ifindex,
    xdp_nat46_handler (Some (replicate 20 0)) sample_nat46 (sample_v4 20) = Some (m1, p1, XDP_REDIRECT, Some ifindex)
    /\ xdp_nat46_handler (Some (replicate 20 0)) m1 (sample_v4 30) = Some (m2, p2, XDP_REDIRECT, Some ifindex)
    /\ xdp_nat46_handler (Some (replicate 20 0)) m2 sample_v6 = Some (m3, r, XDP_REDIRECT, Some 6)
    /\ ld32 r 30 = Some (108736 + 16777216 * 30).
Proof.
  apply (nat46_last_client_wins (replicate 20 0) sample_nat46 (sample_v4 20) (sample_v4 30) 8 8 17 17
    (108736 + 16777216 * 20) (108736 + 16777216 * 30) sample_synth (Nat46Forward sample_server 0 0)
    sample_v6 8 17 sample_router_v6).
  - exact sample_nat46_ok.
  - vm_compute. discriminate.
  - reflexivity.
  - repeat constructor; by_eval.
  - apply sample_v4_frame. by_eval.
  - by_eval.
  - apply sample_v4_frame. by_eval.
  - by_eval.
  - reflexivity.
  - vm_compute. reflexivity.
  - exact sample_has_room.
  - exact sample_v6_frame.
  - by_eval.
Defined.

Lemma nat46_safe_witness :
  exists m' pkt' verdict ifindex,
    xdp_nat46_handler None sample_nat46 (sample_v4 20) = Some (m', pkt', verdict, ifindex) /\ nat46_ok m'.
Proof.
  apply (nat46_safe None sample_nat46 (sample_v4 20)).
  - exact sample_nat46_ok.
  - exact (v4_bytes _ _ _ _ _ (sample_v4_frame 20 ltac:(by_eval))).
  - exact I.
Defined.
