(* ===== verification/Dns64.v ===== *)
(** * The DNS forwarder ([src/src/dns64_daemon.c], [src/include/dns64_daemon.h])

    State: the synthetic address counter, the counters, the table of pending queries, the
    cache, and the two kernel maps of the translator, those of [Nat46].  The configuration is
    the shared one and an argument of each turn of the worker; what a turn sends is a list.
    The 2048-byte buffer of the worker is a list of bytes with faulting stores, and keeps what
    earlier datagrams left in it. *)

From S2P Require Import Prelude Fluxwan Samples Ipv4 CLib Checksum Frames XdpRouter Nat46.

(** ** Data *)

Definition SYNTH_START_IP_HOST : Z := 3323068417.
Definition SYNTH_END_IP_HOST : Z := 3323199486.
Definition DNS_CACHE_SIZE : Z := 4096.
Definition DNS_CACHE_TTL_SEC : Z := 7200.

(** An address and port. *)
Definition sockaddr : Type := Z * Z.

Record dns_cache_entry_t := DnsCacheEntry {
  ce_hash : Z;
  ce_expires_at : Z;
  ce_data : list Z   (** the first [len] bytes *)
}.

Record pending_dns_entry_t := PendingDnsEntry {
  pq_client_addr : sockaddr;
  pq_timestamp : Z;
  pq_qhash : Z
}.

Record dns64_stats_t := Dns64Stats {
  dt_total_queries : Z;
  dt_synthesized_a_records : Z;
  dt_passthrough_queries : Z;
  dt_cache_hits : Z;
  dt_cached_entries : Z;
  dt_active_synthetic_mappings : Z;
  dt_happy_eyeballs_ipv4_fallbacks : Z
}.

(** An entry of the cache or of the pending table is present when it is valid, or of the
    family [AF_INET]. *)
Record dns64_ctx := Dns64Ctx {
  dx_upstream_addr : Z;
  dx_upstream_addr2 : Z;
  dx_upstream2_valid : bool;
  dx_v4_map_ok : bool;
  dx_v6_map_ok : bool;
  dx_current_synth_ip_host : Z;
  dx_stats : dns64_stats_t;
  dx_pending_queries : gmap Z pending_dns_entry_t;
  dx_cache : gmap Z dns_cache_entry_t;
  dx_maps : nat46_maps
}.

Definition dx_with (synth : Z) (s : dns64_stats_t) (pending : gmap Z pending_dns_entry_t)
    (cache : gmap Z dns_cache_entry_t) (maps : nat46_maps) (x : dns64_ctx) : dns64_ctx :=
  Dns64Ctx (dx_upstream_addr x) (dx_upstream_addr2 x) (dx_upstream2_valid x) (dx_v4_map_ok x) (dx_v6_map_ok x)
    synth s pending cache maps.
Definition set_dx_stats (s : dns64_stats_t) (x : dns64_ctx) : dns64_ctx :=
  dx_with (dx_current_synth_ip_host x) s (dx_pending_queries x) (dx_cache x) (dx_maps x) x.
Definition set_dx_synth (v : Z) (x : dns64_ctx) : dns64_ctx :=
  dx_with v (dx_stats x) (dx_pending_queries x) (dx_cache x) (dx_maps x) x.
Definition set_dx_pending (p : gmap Z pending_dns_entry_t) (x : dns64_ctx) : dns64_ctx :=
  dx_with (dx_current_synth_ip_host x) (dx_stats x) p (dx_cache x) (dx_maps x) x.
Definition set_dx_cache (c : gmap Z dns_cache_entry_t) (x : dns64_ctx) : dns64_ctx :=
  dx_with (dx_current_synth_ip_host x) (dx_stats x) (dx_pending_queries x) c (dx_maps x) x.
Definition set_dx_maps (m : nat46_maps) (x : dns64_ctx) : dns64_ctx :=
  dx_with (dx_current_synth_ip_host x) (dx_stats x) (dx_pending_queries x) (dx_cache x) m x.

(** Increments of the counters. *)
Definition dt_query (s : dns64_stats_t) : dns64_stats_t :=
  Dns64Stats (u64 (dt_total_queries s + 1)) (dt_synthesized_a_records s) (dt_passthrough_queries s)
    (dt_cache_hits s) (dt_cached_entries s) (dt_active_synthetic_mappings s) (dt_happy_eyeballs_ipv4_fallbacks s).
Definition dt_synth (s : dns64_stats_t) : dns64_stats_t :=
  Dns64Stats (dt_total_queries s) (u64 (dt_synthesized_a_records s + 1)) (dt_passthrough_queries s)
    (dt_cache_hits s) (dt_cached_entries s) (dt_active_synthetic_mappings s) (dt_happy_eyeballs_ipv4_fallbacks s).
Definition dt_pass (s : dns64_stats_t) : dns64_stats_t :=
  Dns64Stats (dt_total_queries s) (dt_synthesized_a_records s) (u64 (dt_passthrough_queries s + 1))
    (dt_cache_hits s) (dt_cached_entries s) (dt_active_synthetic_mappings s) (dt_happy_eyeballs_ipv4_fallbacks s).
Definition dt_hit (s : dns64_stats_t) : dns64_stats_t :=
  Dns64Stats (dt_total_queries s) (dt_synthesized_a_records s) (dt_passthrough_queries s)
    (u64 (dt_cache_hits s + 1)) (dt_cached_entries s) (dt_active_synthetic_mappings s) (dt_happy_eyeballs_ipv4_fallbacks s).
Definition dt_cached (s : dns64_stats_t) : dns64_stats_t :=
  Dns64Stats (dt_total_queries s) (dt_synthesized_a_records s) (dt_passthrough_queries s)
    (dt_cache_hits s) (u32 (dt_cached_entries s + 1)) (dt_active_synthetic_mappings s) (dt_happy_eyeballs_ipv4_fallbacks s).
Definition dt_mapping (s : dns64_stats_t) : dns64_stats_t :=
  Dns64Stats (dt_total_queries s) (dt_synthesized_a_records s) (dt_passthrough_queries s)
    (dt_cache_hits s) (dt_cached_entries s) (u64 (dt_active_synthetic_mappings s + 1)) (dt_happy_eyeballs_ipv4_fallbacks s).
Definition dt_fallback (s : dns64_stats_t) : dns64_stats_t :=
  Dns64Stats (dt_total_queries s) (dt_synthesized_a_records s) (dt_passthrough_queries s)
    (dt_cache_hits s) (dt_cached_entries s) (dt_active_synthetic_mappings s) (u64 (dt_happy_eyeballs_ipv4_fallbacks s + 1)).

(** ** The hash of a question *)

Definition fnv (hash c : Z) : Z := u32 ((hash .^ c) * 16777619).

(** The two nested loops over the labels; [rest] is what remains of the current label. *)
Fixpoint hash_name (rest : nat) (p : list Z) (hash : Z) : list Z * Z :=
  match p with
  | [] => ([], hash)
  | c :: p' =>
      match rest with
      | O => if c =? 0 then (p, hash) else hash_name (Z.to_nat c) p' hash
      | S rest => hash_name rest p' (fnv hash (tolower c))
      end
  end.

Definition dns_compute_question_hash (msg : list Z) : Z :=
  if blen msg <=? 12 then 0
  else
    let '(p, hash) := hash_name 0 (drop 12 msg) 2166136261 in
    let p := match p with 0 :: p => p | p => p end in
    foldl fnv hash (take 4 p).

(** ** Synthetic addresses *)

Definition allocate_synthetic_ip (ctx : dns64_ctx) : dns64_ctx * Z :=
  let ip := dx_current_synth_ip_host ctx in
  let next := u32 (ip + 1) in
  (set_dx_synth (if SYNTH_END_IP_HOST <? next then SYNTH_START_IP_HOST else next) ctx, htonl ip).

(** [bpf_map_update_elem] on the hash map of the translator: a new key needs a free entry. *)
Definition forward_update (m : nat46_maps) (k : Z) (v : nat46_forward_val) : nat46_maps :=
  let f := v4_to_v6_map m in
  Nat46Maps (if bool_decide (is_Some (f !! k)) || (Z.of_nat (size f) <? NAT46_MAX_ENTRIES)
             then <[k := v]> f else f) (v6_to_v4_map m) (nat46_cfg m).

Definition dns64_register_mapping (ctx : dns64_ctx) (fake_v4 : Z) (real_v6 : list Z) : dns64_ctx :=
  let m := dx_maps ctx in
  let m := if dx_v4_map_ok ctx then forward_update m fake_v4 (Nat46Forward real_v6 0 0) else m in
  let m := if dx_v6_map_ok ctx then reverse_update m real_v6 (Nat46Reverse fake_v4 0 0) else m in
  set_dx_stats (dt_mapping (dx_stats ctx)) (set_dx_maps m ctx).

(** [2001:4860:4860::8888]. *)
Definition target_v6 : list Z := [32; 1; 72; 96; 72; 96; 0; 0; 0; 0; 0; 0; 0; 0; 136; 136].

(** ** The worker *)

Inductive dns_dest := ToClient (a : sockaddr) | ToUpstream (a : Z) | ToUpstream2 (a : Z).
Definition dns_msg : Type := dns_dest * list Z.

(** The end of the name: each turn moves forward, so [n] turns are enough. *)
Fixpoint skip_name (fuel : nat) (buf : list Z) (n i : Z) : option Z :=
  match fuel with
  | O => None
  | S fuel =>
      if i <? n then
        b ← ld8 buf i;
        if b =? 0 then Some i else skip_name fuel buf n (i + (b + 1))
      else Some i
  end.

(** The index after the name and the query type, zero when the question is cut short. *)
Definition query_type (buf : list Z) (n : Z) : option (Z * Z) :=
  i ← skip_name (S (Z.to_nat n)) buf n 12;
  i ← (if i <? n then b ← ld8 buf i; Some (if b =? 0 then i + 1 else i) else Some i);
  if i + 4 <=? n then b0 ← ld8 buf i; b1 ← ld8 buf (i + 1); Some (i, (b0 .<< 8) .| b1)
  else Some (i, 0).

(** Empty answer to a query for an IPv6 address. *)
Definition answer_empty (buf : list Z) (qptr : Z) : option (list Z) :=
  buf ← st16 buf 2 (htons 33152);
  buf ← st16 buf 6 (htons 0);
  buf ← st16 buf 8 (htons 0);
  buf ← st16 buf 10 (htons 0);
  ld_bytes buf 0 (Z.to_nat (qptr + 4)).

(** Answer with a synthetic address, written after the [n] bytes of the query. *)
Definition answer_synthetic (buf : list Z) (n synth_v4 : Z) : option (list Z) :=
  buf ← st16 buf 2 (htons 33152);
  buf ← st16 buf 6 (htons 1);
  buf ← st_bytes buf n [192; 12; 0; 1; 0; 1; 0; 0; 0; 60; 0; 4];
  buf ← st32 buf (n + 12) synth_v4;
  ld_bytes buf 0 (Z.to_nat (n + 16)).

Definition cache_lookup (ctx : dns64_ctx) (qhash now : Z) : option (list Z) :=
  if qhash =? 0 then None
  else
    e ← dx_cache ctx !! (qhash mod DNS_CACHE_SIZE);
    if (ce_hash e =? qhash) && (now <? ce_expires_at e) && (blen (ce_data e) <=? 512)
    then Some (ce_data e) else None.

(** A query that neither the suppression nor the synthesis answers: from the cache, or on to
    the upstream servers.  [true]: the turn ends here. *)
Definition resolve (now : Z) (client : sockaddr) (query : list Z) (ctx : dns64_ctx)
    : option (dns64_ctx * list dns_msg * bool) :=
  id ← ld16 query 0;
  let qhash := dns_compute_question_hash query in
  match cache_lookup ctx qhash now with
  | Some resp =>
      resp ← st16 resp 0 id;
      Some (set_dx_stats (dt_hit (dx_stats ctx)) ctx, [(ToClient client, resp)], true)
  | None =>
      let ctx := set_dx_pending (<[ntohs id := PendingDnsEntry client now qhash]> (dx_pending_queries ctx)) ctx in
      Some (ctx, (ToUpstream (dx_upstream_addr ctx), query)
                 :: (if dx_upstream2_valid ctx then [(ToUpstream2 (dx_upstream_addr2 ctx), query)] else []), false)
  end.

(** A datagram of a client, received over the [stale] bytes of the buffer. *)
Definition client_query (config : fluxwan_config_t) (now : Z) (client : sockaddr) (dgram stale : list Z)
    (ctx : dns64_ctx) : option (dns64_ctx * list dns_msg * bool) :=
  let query := take 2048 dgram in
  let n := blen query in
  if n <? 12 then Some (ctx, [], false)
  else
    let buf := query ++ drop (length query) stale in
    let ctx := set_dx_stats (dt_query (dx_stats ctx)) ctx in
    '(qptr, qtype) ← query_type buf n;
    if dns_smart_ipv6_bonding (lan_dns (c_lan config)) && (qtype =? 28) then
      reply ← answer_empty buf qptr;
      Some (set_dx_stats (dt_fallback (dx_stats ctx)) ctx, [(ToClient client, reply)], true)
    else if n46_enabled (c_nat46 config) && (qtype =? 1) then
      let '(ctx, synth_v4) := allocate_synthetic_ip ctx in
      let ctx := dns64_register_mapping ctx synth_v4 target_v6 in
      reply ← answer_synthetic buf n synth_v4;
      Some (set_dx_stats (dt_synth (dx_stats ctx)) ctx, [(ToClient client, reply)], true)
    else resolve now client query ctx.

(** A datagram of an upstream server; [now] is the time it is cached. *)
Definition upstream_reply (now : Z) (dgram : list Z) (ctx : dns64_ctx) : option (dns64_ctx * list dns_msg) :=
  let reply := take 2048 dgram in
  let n := blen reply in
  if n <? 12 then Some (ctx, [])
  else
    id ← ld16 reply 0;
    let qid := ntohs id in
    match dx_pending_queries ctx !! qid with
    | None => Some (ctx, [])
    | Some q =>
        let qhash := pq_qhash q in
        let ctx := set_dx_pending (delete qid (dx_pending_queries ctx)) ctx in
        let ctx := set_dx_stats (dt_pass (dx_stats ctx)) ctx in
        flags ← ld16 reply 2;
        ancount ← ld16 reply 6;
        let ctx :=
          if ((ntohs flags .& 15) =? 0) && (0 <? ntohs ancount) && (n <=? 512) && negb (qhash =? 0) then
            let idx := qhash mod DNS_CACHE_SIZE in
            let ctx := if bool_decide (is_Some (dx_cache ctx !! idx)) then ctx
                       else set_dx_stats (dt_cached (dx_stats ctx)) ctx in
            set_dx_cache (<[idx := DnsCacheEntry qhash (now + DNS_CACHE_TTL_SEC) reply]> (dx_cache ctx)) ctx
          else ctx in
        Some (ctx, [(ToClient (pq_client_addr q), reply)])
    end.

(** One turn of the worker: what [select] found ready.  A query that is answered at once ends
    the turn before the upstream sockets are read. *)
Record dns_ready := DnsReady {
  rd_client : option (sockaddr * list Z);
  rd_upstream : option (list Z);
  rd_upstream2 : option (list Z)
}.

Definition read_upstream (now : Z) (d : option (list Z)) (r : dns64_ctx * list dns_msg)
    : option (dns64_ctx * list dns_msg) :=
  match d with
  | None => Some r
  | Some d => '(ctx, out) ← upstream_reply now d r.1; Some (ctx, r.2 ++ out)
  end.

Definition dns64_turn (config : fluxwan_config_t) (now : Z) (stale : list Z) (rd : dns_ready) (ctx : dns64_ctx)
    : option (dns64_ctx * list dns_msg) :=
  '(ctx, out, stop) ←
    match rd_client rd with
    | Some (client, d) => client_query config now client d stale ctx
    | None => Some (ctx, [], false)
    end;
  if (stop : bool) then Some (ctx, out)
  else
    r ← read_upstream now (rd_upstream rd) (ctx, out);
    if dx_upstream2_valid ctx then read_upstream now (rd_upstream2 rd) r else Some r.

(** ** Start *)

Definition dns64_init (inet_addr : cstring -> Z) (mem socket_ok upstream2_ok v4_ok v6_ok : bool) (maps : nat46_maps)
    (config : fluxwan_config_t) : option dns64_ctx :=
  if negb mem then None
  else if negb socket_ok then None
  else
    let dns := lan_dns (c_lan config) in
    let target_dns :=
      if dns_adblock_enabled dns then bytes_of_string "94.140.14.14"
      else match dns_primary_dns dns with [] => bytes_of_string "1.1.1.1" | t => t end in
    let target_dns2 := match dns_secondary_dns dns with [] => bytes_of_string "8.8.8.8" | t => t end in
    Some (Dns64Ctx (inet_addr target_dns) (inet_addr target_dns2) upstream2_ok v4_ok v6_ok SYNTH_START_IP_HOST
            (Dns64Stats 0 0 0 0 0 0 0) ∅ ∅ maps).

(** The counters and the next address of the pool. *)
Definition dns64_get_stats (ctx : dns64_ctx) : dns64_stats_t * Z :=
  (dx_stats ctx, htonl (dx_current_synth_ip_host ctx)).

(** ** Questions *)

(** A name as its labels, in the wire format. *)
Definition name_bytes (labels : list (list Z)) : list Z :=
  concat ((fun l => blen l :: l) <$> labels) ++ [0].
Definition label_ok (l : list Z) : Prop := bytes_ok l /\ (0 < length l <= 63)%nat.
Definition letters (labels : list (list Z)) : list Z := tolower <$> concat labels.

Lemma hash_label l r hash :
  hash_name (length l) (l ++ r) hash = hash_name 0 r (foldl fnv hash (tolower <$> l)).
Proof. revert hash. induction l as [|c l IH]; intros hash; [done|]. cbn. apply IH. Qed.

Lemma hash_labels labels r hash :
  Forall label_ok labels ->
  hash_name 0 (name_bytes labels ++ r) hash = (0 :: r, foldl fnv hash (letters labels)).
Proof.
  intros Hl. revert hash. unfold name_bytes, letters. induction Hl as [|l labels [_ Hl] Hls IH]; intros hash; [done|].
  cbn [fmap list_fmap concat app hash_name]. rewrite (proj2 (Z.eqb_neq _ _)) by lia. rewrite Nat2Z.id.
  rewrite <- !app_assoc. rewrite hash_label. rewrite <- app_assoc in IH. rewrite IH.
  by rewrite fmap_app, foldl_app.
Qed.

(** A query: twelve bytes of header, the name, its type and class. *)
Definition query (header : list Z) (labels : list (list Z)) (tc : list Z) : list Z :=
  header ++ name_bytes labels ++ tc.
Definition header_ok (header : list Z) : Prop := bytes_ok header /\ length header = 12%nat.

Lemma question_hash header labels tc :
  header_ok header -> Forall label_ok labels -> length tc = 4%nat ->
  dns_compute_question_hash (query header labels tc) = foldl fnv 2166136261 (letters labels ++ tc).
Proof.
  intros [_ Hh] Hl Ht. unfold dns_compute_question_hash, query.
  rewrite (proj2 (Z.leb_gt _ _)).
  2:{ unfold name_bytes. rewrite !length_app. cbn [length]. lia. }
  rewrite drop_app_length' by done. rewrite hash_labels by done. rewrite take_ge by lia. by rewrite foldl_app.
Qed.

Lemma fnv_range h c : is_u32 (fnv h c).
Proof. apply u32_range. Qed.

(** ** Safety *)

Record dns_ok (ctx : dns64_ctx) : Prop := {
  do_synth : SYNTH_START_IP_HOST <= dx_current_synth_ip_host ctx <= SYNTH_END_IP_HOST;
  do_cache : map_Forall (fun _ e => bytes_ok (ce_data e) /\ 12 <= blen (ce_data e) <= 512) (dx_cache ctx)
}.

Lemma skip_name_total fuel buf n i :
  bytes_ok buf -> 0 <= i -> n <= blen buf -> n - i < Z.of_nat fuel -> 1 <= Z.of_nat fuel ->
  exists j, skip_name fuel buf n i = Some j /\ i <= j.
Proof.
  intros Hb. revert i. induction fuel as [|fuel IH]; intros i Hi Hn Hf H1; [lia|]. cbn [skip_name].
  destruct (Z.ltb_spec i n) as [Hlt | Hge]; [|exists i; split; [done|lia]].
  destruct (ld8_Some buf i) as [b E]; [lia|]. rewrite E. cbn [mbind option_bind].
  pose proof (ld8_range _ _ _ Hb E) as Hr. unfold is_u8 in Hr.
  destruct (b =? 0); [exists i; split; [done|lia]|].
  destruct (Z_lt_le_dec (i + (b + 1)) n) as [H2 | H2].
  - destruct (IH (i + (b + 1))) as (j & Hj & Hle); [lia..|]. exists j. split; [done|lia].
  - destruct fuel as [|fuel]; [lia|]. exists (i + (b + 1)). cbn [skip_name].
    rewrite (proj2 (Z.ltb_ge _ _)) by lia. split; [done|lia].
Qed.

Lemma query_type_total buf n :
  bytes_ok buf -> 12 <= n <= blen buf ->
  exists q t, query_type buf n = Some (q, t) /\ 12 <= q /\ (t <> 0 -> q + 4 <= n).
Proof.
  intros Hb Hn. unfold query_type. destruct (skip_name_total (S (Z.to_nat n)) buf n 12) as (i & -> & Hi); [done|lia..|].
  cbn [mbind option_bind].
  assert (Hj : exists j, (if i <? n then b ← ld8 buf i; Some (if b =? 0 then i + 1 else i) else Some i) = Some j /\ 12 <= j).
  { destruct (Z.ltb_spec i n); [|by exists i]. destruct (ld8_Some buf i) as [b ->]; [lia|]. cbn.
    eexists. split; [done|]. destruct (b =? 0); lia. }
  destruct Hj as (j & -> & Hj). cbn [mbind option_bind]. destruct (Z.leb_spec (j + 4) n) as [Hle | Hgt].
  - destruct (ld8_Some buf j) as [b0 ->]; [lia|]. destruct (ld8_Some buf (j + 1)) as [b1 ->]; [lia|]. cbn.
    eexists _, _. split; [done|]. lia.
  - eexists _, _. split; [done|]. lia.
Qed.

Lemma answer_empty_wp buf q : 12 <= q -> q + 4 <= blen buf -> wp (answer_empty buf q) (fun _ => True).
Proof.
  intros Hq Hl. unfold answer_empty. repeat wp_step. done.
Qed.

Lemma answer_synthetic_wp buf n ip : 12 <= n -> n + 16 <= blen buf -> wp (answer_synthetic buf n ip) (fun r => blen r = n + 16).
Proof.
  intros Hq Hl. unfold answer_synthetic. do 4 wp_step. apply wp_bind, wp_st_bytes; [lia|cbn [length]; lia|].
  intros ? ? ?. repeat wp_step. lia.
Qed.

Lemma answer_synthetic_overrun buf n ip : 0 <= n -> blen buf < n + 16 -> answer_synthetic buf n ip = None.
Proof.
  intros Hn Hl. unfold answer_synthetic. destruct (st16 buf 2 _) as [b1|] eqn:E1; [|done]. cbn [mbind option_bind].
  destruct (st16 b1 6 _) as [b2|] eqn:E2; [|done]. cbn [mbind option_bind].
  destruct (st_bytes b2 n _) as [b3|] eqn:E3; [|done]. cbn [mbind option_bind].
  apply st16_length in E1, E2. apply st_bytes_length in E3.
  unfold st32, st16. destruct (st8 b3 (n + 12) ip) as [b4|] eqn:E4; [|done]. cbn [mbind option_bind].
  destruct (st8 b4 (n + 12 + 1) _) as [b5|] eqn:E5; [|done]. cbn [mbind option_bind].
  destruct (st8 b5 (n + 12 + 2) _) as [b6|] eqn:E6; [|done]. cbn [mbind option_bind].
  destruct (st8 b6 (n + 12 + 2 + 1) _) as [b7|] eqn:E7; [|done].
  apply st8_length in E4, E5, E6. apply st8_inv in E7 as [E7 _]. lia.
Qed.

Lemma resolve_total now client q ctx :
  dns_ok ctx -> bytes_ok q -> 12 <= blen q ->
  exists ctx' out stop, resolve now client q ctx = Some (ctx', out, stop) /\ dns_ok ctx'.
Proof.
  intros [Hs Hc] Hb Hl. unfold resolve. destruct (ld16_Some q 0) as [id ->]; [lia..|]. cbn [mbind option_bind].
  unfold cache_lookup. destruct (_ =? 0); [by eexists _, _, _|].
  destruct (dx_cache ctx !! _) as [e|] eqn:Ee; cbn [mbind option_bind]; [|by eexists _, _, _].
  destruct (_ && _ && _); [|by eexists _, _, _]. apply Hc in Ee as [_ Ee].
  destruct (st16_Some (ce_data e) 0 id) as [r ->]; [lia..|]. by eexists _, _, _.
Qed.

Lemma allocate_range ctx :
  dns_ok ctx -> let '(ctx', ip) := allocate_synthetic_ip ctx in
  dns_ok ctx' /\ SYNTH_START_IP_HOST <= ntohl ip <= SYNTH_END_IP_HOST.
Proof.
  intros [Hs Hc]. unfold allocate_synthetic_ip, SYNTH_START_IP_HOST, SYNTH_END_IP_HOST in *.
  rewrite bswap32_invol by cint. split; [|done]. split; [|done]. cbn.
  rewrite u32_small by cint. destruct (Z.ltb_spec 3323199486 (dx_current_synth_ip_host ctx + 1));
    unfold SYNTH_START_IP_HOST, SYNTH_END_IP_HOST; lia.
Qed.

(** The datagram in the buffer of the worker. *)
Definition in_buffer (dgram stale : list Z) : list Z :=
  take 2048 dgram ++ drop (length (take 2048 dgram)) stale.

Lemma in_buffer_ok dgram stale :
  bytes_ok dgram -> bytes_ok stale -> length stale = 2048%nat ->
  bytes_ok (in_buffer dgram stale) /\ blen (in_buffer dgram stale) = 2048.
Proof.
  intros Hd Hs Hl. unfold in_buffer. split.
  - apply Forall_app. split; [by apply Forall_take|by apply Forall_drop].
  - rewrite length_app, length_drop, length_take. lia.
Qed.

Lemma client_query_cases config now client dgram stale ctx :
  dns_ok ctx -> bytes_ok dgram -> bytes_ok stale -> length stale = 2048%nat ->
  let n := blen (take 2048 dgram) in
  let overrun := n46_enabled (c_nat46 config) = true /\ 2032 < n
                 /\ exists q, query_type (in_buffer dgram stale) n = Some (q, 1) in
  (overrun /\ client_query config now client dgram stale ctx = None)
  \/ (~ overrun /\ exists ctx' out stop, client_query config now client dgram stale ctx = Some (ctx', out, stop) /\ dns_ok ctx').
Proof.
  intros Hok Hd Hs Hl n overrun. destruct (in_buffer_ok dgram stale Hd Hs Hl) as [Hbb Hbl].
  unfold client_query. fold n. fold (in_buffer dgram stale).
  assert (Hn : n <= 2048) by (unfold n; rewrite length_take; lia).
  destruct (Z.ltb_spec n 12) as [Hlt | Hge].
  { right. split; [|by eexists _, _, _]. intros (_ & Hx & _). lia. }
  destruct (query_type_total (in_buffer dgram stale) n Hbb) as (q & t & Eq & Hq & Ht); [lia|]. rewrite Eq.
  cbn [mbind option_bind]. destruct (dns_smart_ipv6_bonding _ && (t =? 28)) eqn:E28.
  { right. apply andb_true_iff in E28 as [_ ->%Z.eqb_eq]. split; [intros (_ & _ & q' & Hx); congruence|].
    destruct (wp_elim _ _ (answer_empty_wp (in_buffer dgram stale) q Hq ltac:(specialize (Ht ltac:(done)); lia))) as (r & -> & _).
    cbn. eexists _, _, _. split; [done|]. destruct Hok. by split. }
  set (c1 := set_dx_stats (dt_query (dx_stats ctx)) ctx). assert (Hc1 : dns_ok c1) by (destruct Hok; by split).
  destruct (n46_enabled (c_nat46 config) && (t =? 1)) eqn:E1.
  - apply andb_true_iff in E1 as [Hen ->%Z.eqb_eq]. pose proof (allocate_range c1 Hc1) as Ha.
    destruct (allocate_synthetic_ip c1) as [c2 ip]. destruct Ha as [Hc2 _].
    destruct (Z_lt_le_dec 2032 n) as [Hov | Hno].
    + left. split; [split_and!; [done|done|by exists q]|]. by rewrite answer_synthetic_overrun by lia.
    + right. split; [intros (_ & Hx & _); lia|].
      destruct (wp_elim _ _ (answer_synthetic_wp (in_buffer dgram stale) n ip ltac:(lia) ltac:(lia))) as (r & -> & _).
      cbn. eexists _, _, _. split; [done|]. destruct Hc2. by split.
  - right. split.
    + intros (Hen & _ & q' & Hx). rewrite Eq in Hx. injection Hx as _ ->. by rewrite Hen in E1.
    + apply resolve_total; [done|by apply Forall_take|done].
Qed.

(** ** Pending queries and the cache *)

Record good_reply (resp : list Z) (id : Z) : Prop := {
  gr_bytes : bytes_ok resp;
  gr_len : 12 <= blen resp <= 512;
  gr_id : ld16 resp 0 = Some id;
  gr_flags : exists f, ld16 resp 2 = Some f /\ (ntohs f .& 15) = 0;
  gr_answers : exists a, ld16 resp 6 = Some a /\ 0 < ntohs a
}.

Lemma upstream_caches now resp id ctx q :
  good_reply resp id -> dx_pending_queries ctx !! ntohs id = Some q -> pq_qhash q <> 0 ->
  exists ctx', upstream_reply now resp ctx = Some (ctx', [(ToClient (pq_client_addr q), resp)])
    /\ dx_cache ctx' !! (pq_qhash q mod DNS_CACHE_SIZE)
       = Some (DnsCacheEntry (pq_qhash q) (now + DNS_CACHE_TTL_SEC) resp)
    /\ dx_pending_queries ctx' = delete (ntohs id) (dx_pending_queries ctx).
Proof.
  intros [Hb Hl Hid (f & Hf & Hf0) (a & Ha & Ha0)] Hq Hh. unfold upstream_reply.
  rewrite take_ge by lia. rewrite (proj2 (Z.ltb_ge _ _)) by lia. rewrite Hid. cbn [mbind option_bind].
  rewrite Hq, Hf. cbn [mbind option_bind]. rewrite Ha. cbn [mbind option_bind].
  rewrite Hf0, Z.eqb_refl, (proj2 (Z.ltb_lt _ _) Ha0), (proj2 (Z.leb_le _ _)), (proj2 (Z.eqb_neq _ _) Hh) by lia.
  cbn [andb negb]. eexists. split; [done|]. cbn [set_dx_cache dx_with dx_cache dx_pending_queries].
  split; [apply lookup_insert_eq|]. by destruct (bool_decide _).
Qed.

Lemma resolve_cached now client q id ctx h t resp r :
  ld16 q 0 = Some id -> dns_compute_question_hash q = h -> h <> 0 ->
  dx_cache ctx !! (h mod DNS_CACHE_SIZE) = Some (DnsCacheEntry h t resp) -> now < t -> blen resp <= 512 ->
  st16 resp 0 id = Some r ->
  exists ctx', resolve now client q ctx = Some (ctx', [(ToClient client, r)], true).
Proof.
  intros Hid Hh H0 Hc Ht Hl Hr. unfold resolve. rewrite Hid. cbn [mbind option_bind]. rewrite Hh.
  unfold cache_lookup. rewrite (proj2 (Z.eqb_neq _ _) H0), Hc. cbn [mbind option_bind ce_hash ce_expires_at ce_data].
  rewrite Z.eqb_refl, (proj2 (Z.ltb_lt _ _) Ht), (proj2 (Z.leb_le _ _) Hl). cbn [andb]. rewrite Hr. by eexists.
Qed.

Lemma resolve_forwarded now client q id ctx ctx' out :
  ld16 q 0 = Some id -> resolve now client q ctx = Some (ctx', out, false) ->
  dx_pending_queries ctx'
  = <[ntohs id := PendingDnsEntry client now (dns_compute_question_hash q)]> (dx_pending_queries ctx).
Proof.
  intros Hid. unfold resolve. rewrite Hid. cbn [mbind option_bind].
  destruct (cache_lookup _ _ _) as [resp|]; [|by intros [= <- _]].
  destruct (st16 resp 0 id); done.
Qed.

Lemma query_id header labels tc :
  header_ok header -> exists id, ld16 (query header labels tc) 0 = Some id /\ is_u16 id.
Proof.
  intros [Hb Hl]. unfold query. destruct header as [|a [|b h]]; [done|done|].
  apply Forall_cons in Hb as [Ha [Hb _]%Forall_cons]. exists (le16 a b). split; [done|]. unfold le16. cint.
Qed.

(** What the cache answers.  When a question went to the servers and their reply was stored, every
    later question of the same letters, type and class is answered with it for two hours, under its
    own identifier.  Upper and lower case are rightly one; but where the dots are is not part of the
    hash either, so that also questions for other names are answered with this reply. *)
Theorem cache_answers_same_letters now1 now2 now3 a b h1 h2 labels1 labels2 tc ctx ctx1 out1 resp id1
    (Hh1 : header_ok h1) (Hh2 : header_ok h2) (Hl1 : Forall label_ok labels1) (Hl2 : Forall label_ok labels2)
    (Htc : length tc = 4%nat) (Hletters : letters labels2 = letters labels1)
    (Hnz : dns_compute_question_hash (query h1 labels1 tc) <> 0)
    (Hid : ld16 (query h1 labels1 tc) 0 = Some id1)
    (Hfwd : resolve now1 a (query h1 labels1 tc) ctx = Some (ctx1, out1, false))
    (Hresp : good_reply resp id1) (Htime : now3 < now2 + DNS_CACHE_TTL_SEC) :
  exists ctx2 ctx3 id2 r,
    upstream_reply now2 resp ctx1 = Some (ctx2, [(ToClient a, resp)])
    /\ ld16 (query h2 labels2 tc) 0 = Some id2 /\ st16 resp 0 id2 = Some r
    /\ resolve now3 b (query h2 labels2 tc) ctx2 = Some (ctx3, [(ToClient b, r)], true).
Proof.
  apply (resolve_forwarded _ _ _ id1) in Hfwd; [|done]. set (h := dns_compute_question_hash (query h1 labels1 tc)) in *.
  destruct (upstream_caches now2 resp id1 ctx1 (PendingDnsEntry a now1 h) Hresp) as (ctx2 & E2 & Hc & _);
    [rewrite Hfwd; apply lookup_insert_eq|done|]. cbn [pq_qhash pq_client_addr] in *.
  destruct (query_id h2 labels2 tc Hh2) as (id2 & Hid2 & _). pose proof (gr_len _ _ Hresp) as Hlen.
  destruct (st16_Some resp 0 id2) as [r Hr]; [lia..|].
  assert (Hh : dns_compute_question_hash (query h2 labels2 tc) = h)
    by (unfold h; by rewrite !question_hash, Hletters).
  destruct (resolve_cached now3 b (query h2 labels2 tc) id2 ctx2 h _ resp r Hid2 Hh Hnz Hc Htime) as [ctx3 E3]; [lia|done|].
  by exists ctx2, ctx3, id2, r.
Qed.

(** Replies are matched by the identifier alone.  When a second client uses the identifier of a
    question that is still pending, the reply to the first one's question goes to the second client,
    and is stored as the answer to the second question: whoever asks that question next gets it. *)
Theorem same_id_poisons_cache now1 now2 now3 now4 a b c q1 q2 q3 id id3 ctx ctx1 ctx2 out1 out2 resp
    (Hid1 : ld16 q1 0 = Some id) (Hid2 : ld16 q2 0 = Some id) (Hid3 : ld16 q3 0 = Some id3)
    (Hsame : dns_compute_question_hash q3 = dns_compute_question_hash q2)
    (Hnz : dns_compute_question_hash q2 <> 0)
    (Hf1 : resolve now1 a q1 ctx = Some (ctx1, out1, false))
    (Hf2 : resolve now2 b q2 ctx1 = Some (ctx2, out2, false))
    (Hresp : good_reply resp id) (Htime : now4 < now3 + DNS_CACHE_TTL_SEC) :
  exists ctx3 ctx4 r, upstream_reply now3 resp ctx2 = Some (ctx3, [(ToClient b, resp)])
    /\ dx_pending_queries ctx3 !! ntohs id = None
    /\ st16 resp 0 id3 = Some r
    /\ resolve now4 c q3 ctx3 = Some (ctx4, [(ToClient c, r)], true).
Proof.
  apply (resolve_forwarded _ _ _ id) in Hf2; [|done]. set (h := dns_compute_question_hash q2) in *.
  destruct (upstream_caches now3 resp id ctx2 (PendingDnsEntry b now2 h) Hresp) as (ctx3 & E3 & Hc & Hp);
    [rewrite Hf2; apply lookup_insert_eq|done|]. cbn [pq_qhash pq_client_addr] in *.
  pose proof (gr_len _ _ Hresp) as Hlen. destruct (st16_Some resp 0 id3) as [r Hr]; [lia..|].
  destruct (resolve_cached now4 c q3 id3 ctx3 h _ resp r Hid3 Hsame Hnz Hc Htime) as [ctx4 E4]; [lia|done|].
  exists ctx3, ctx4, r. split_and!; [done| |done|done]. rewrite Hp. apply lookup_delete_eq.
Qed.

(** The query that overruns the buffer of the worker: with the translation enabled, an address query of
    more than 2032 bytes; the answer is written past the end.  Every other datagram stays inside it. *)
Theorem dns_overrun_iff config now client dgram stale ctx
    (Hok : dns_ok ctx) (Hd : bytes_ok dgram) (Hs : bytes_ok stale) (Hl : length stale = 2048%nat) :
  client_query config now client dgram stale ctx = None
  <-> n46_enabled (c_nat46 config) = true /\ 2032 < blen (take 2048 dgram)
      /\ exists q, query_type (in_buffer dgram stale) (blen (take 2048 dgram)) = Some (q, 1).
Proof.
  destruct (client_query_cases config now client dgram stale ctx Hok Hd Hs Hl) as [[Ho ->] | (Hn & c & o & st & -> & _)].
  - by split.
  - split; [done|]. intros Ho. by destruct Hn.
Qed.

(** ** The synthetic pool *)

Lemma land_pool h : is_u32 h -> h .& SYNTH_IPV4_MASK = (h / 131072) * 131072.
Proof.
  intros Hh. change SYNTH_IPV4_MASK with (Z.ldiff (Z.ones 32) (Z.ones 17)).
  assert (E : h .& Z.ldiff (Z.ones 32) (Z.ones 17) = Z.ldiff (h .& Z.ones 32) (Z.ones 17)).
  { apply Z.bits_inj'. intros k Hk. rewrite Z.land_spec, !Z.ldiff_spec, Z.land_spec. by rewrite andb_assoc. }
  rewrite E, Z.land_ones by lia. rewrite Z.mod_small by (unfold is_u32 in Hh; lia).
  rewrite Z.ldiff_ones_r by lia. by rewrite Z.shiftl_mul_pow2, Z.shiftr_div_pow2 by lia.
Qed.

Lemma pool_in_range h : SYNTH_START_IP_HOST <= h <= SYNTH_END_IP_HOST -> (h .& SYNTH_IPV4_MASK) = SYNTH_IPV4_NET.
Proof.
  unfold SYNTH_START_IP_HOST, SYNTH_END_IP_HOST. intros Hh. rewrite land_pool by cint. unfold SYNTH_IPV4_NET. lia.
Qed.

(** The addresses of [k] allocations in a row. *)
Fixpoint allocations (k : nat) (ctx : dns64_ctx) : list Z :=
  match k with
  | O => []
  | S k => let '(ctx, ip) := allocate_synthetic_ip ctx in ip :: allocations k ctx
  end.

Definition pool_size : Z := SYNTH_END_IP_HOST - SYNTH_START_IP_HOST + 1.

Lemma next_synth ctx :
  dns_ok ctx -> dx_current_synth_ip_host (allocate_synthetic_ip ctx).1
  = SYNTH_START_IP_HOST + (dx_current_synth_ip_host ctx - SYNTH_START_IP_HOST + 1) mod pool_size.
Proof.
  intros [Hs _]. cbn. unfold pool_size, SYNTH_START_IP_HOST, SYNTH_END_IP_HOST in *. rewrite u32_small by cint.
  destruct (Z.ltb_spec 3323199486 (dx_current_synth_ip_host ctx + 1)); lia.
Qed.

Lemma allocations_values k : forall ctx,
  dns_ok ctx -> allocations k ctx
  = (fun i => htonl (SYNTH_START_IP_HOST
      + (dx_current_synth_ip_host ctx - SYNTH_START_IP_HOST + Z.of_nat i) mod pool_size)) <$> seq 0 k.
Proof.
  induction k as [|k IH]; intros ctx Hok; [done|]. cbn [allocations].
  pose proof (allocate_range ctx Hok) as Ha. pose proof (next_synth ctx Hok) as Hn.
  assert (Hip : (allocate_synthetic_ip ctx).2 = htonl (dx_current_synth_ip_host ctx)) by done.
  destruct (allocate_synthetic_ip ctx) as [ctx1 ip]. cbn [fst snd] in *. subst ip. destruct Ha as [Hok1 _].
  rewrite (IH ctx1 Hok1), Hn. cbn [seq fmap list_fmap]. f_equal.
  - f_equal. destruct Hok as [Hs _]. unfold pool_size, SYNTH_START_IP_HOST, SYNTH_END_IP_HOST in *.
    rewrite Z.mod_small by lia. lia.
  - rewrite <- fmap_S_seq, <- list_fmap_compose. apply list_fmap_ext. intros i j _. cbn. do 2 f_equal.
    match goal with |- (?a + _ - ?a + _) mod _ = _ => set (s := a) end.
    match goal with |- (s + ?x mod ?m - s + ?y) mod _ = ?z mod _ =>
      replace (s + x mod m - s + y) with (x mod m + y) by lia end.
    rewrite Zplus_mod_idemp_l. f_equal. lia.
Qed.

(** The pool of synthetic addresses.  Until it has been gone through once, 131070 allocations, no
    address is given out twice; and every one of them lies in the network that the translator looks at. *)
Theorem synthetic_pool ctx k (Hok : dns_ok ctx) (Hk : Z.of_nat k <= pool_size) :
  NoDup (allocations k ctx)
  /\ Forall (fun ip => (ntohl ip .& SYNTH_IPV4_MASK) = SYNTH_IPV4_NET) (allocations k ctx).
Proof.
  rewrite allocations_values by done. set (c := dx_current_synth_ip_host ctx - SYNTH_START_IP_HOST).
  assert (Hr : forall i, 0 <= (c + Z.of_nat i) mod pool_size < pool_size) by (intros i; apply Z.mod_pos_bound; done).
  assert (Hu : forall i, is_u32 (SYNTH_START_IP_HOST + (c + Z.of_nat i) mod pool_size)).
  { intros i. specialize (Hr i). unfold pool_size, SYNTH_START_IP_HOST, SYNTH_END_IP_HOST in *. cint. }
  split.
  - apply NoDup_fmap_2_strong; [|apply NoDup_ListNoDup, seq_NoDup].
    intros i j Hi%elem_of_seq Hj%elem_of_seq E. apply (f_equal bswap32) in E. rewrite !bswap32_invol in E by apply Hu.
    unfold pool_size, SYNTH_START_IP_HOST, SYNTH_END_IP_HOST in *. lia.
  - apply Forall_fmap, Forall_forall. intros i _. cbn. rewrite bswap32_invol by apply Hu. apply pool_in_range.
    specialize (Hr i). unfold pool_size in *. lia.
Qed.

(** ** Names and the translator *)

Lemma forward_update_lookup m k v :
  Z.of_nat (size (v4_to_v6_map m)) < NAT46_MAX_ENTRIES -> v4_to_v6_map (forward_update m k v) !! k = Some v.
Proof.
  intros Hs. cbn. rewrite (proj2 (Z.ltb_lt _ _) Hs), orb_true_r. apply lookup_insert_eq.
Qed.

Lemma target_v6_ok : length target_v6 = 16%nat /\ bytes_ok target_v6.
Proof. split; [done|]. repeat (constructor; [by_eval|]). constructor. Qed.

Lemma register_ok ctx ip :
  is_u32 ip -> nat46_ok (dx_maps ctx) -> nat46_ok (dx_maps (dns64_register_mapping ctx ip target_v6)).
Proof.
  intros Hip [H1 H2 H3 H4 H5]. cbn.
  assert (Hf : nat46_ok (forward_update (dx_maps ctx) ip (Nat46Forward target_v6 0 0))).
  { split; try done. cbn. destruct (_ || _); [|done]. apply map_Forall_insert_2; [apply target_v6_ok|done]. }
  set (m := if dx_v4_map_ok ctx then _ else _). assert (Hm : nat46_ok m) by (unfold m; by destruct (dx_v4_map_ok ctx)).
  destruct (dx_v6_map_ok ctx); [|done]. destruct Hm as [G1 G2 G3 G4 G5]. split; try done. cbn.
  destruct (_ || _); [|done]. apply map_Forall_insert_2; [|done]. split; [done|]. by_eval.
Qed.

(** Where a resolved name leads.  With the translation enabled, an address query is answered with a
    synthetic address whatever name it asks for, and the translator sends a packet to that address
    on to one and the same server, the public resolver [2001:4860:4860::8888]. *)
Theorem every_name_is_one_server config now client dgram stale ctx q hr pkt len proto src
    (Hok : dns_ok ctx) (Hmaps : nat46_ok (dx_maps ctx)) (Hd : bytes_ok dgram) (Hs : bytes_ok stale)
    (Hl : length stale = 2048%nat) (Hen : n46_enabled (c_nat46 config) = true)
    (Hn : 12 <= blen (take 2048 dgram) <= 2032)
    (Hq : query_type (in_buffer dgram stale) (blen (take 2048 dgram)) = Some (q, 1))
    (Hroom : Z.of_nat (size (v4_to_v6_map (dx_maps ctx))) < NAT46_MAX_ENTRIES) (Hv4 : dx_v4_map_ok ctx = true)
    (Hxdp : nc_enabled (nat46_cfg (dx_maps ctx)) <> 0) (Hhr : length hr = 20%nat) (Hhrb : bytes_ok hr)
    (Hlen : 0 <= len < 65516)
    (Hpkt : v4_frame pkt len proto src (htonl (dx_current_synth_ip_host ctx))) :
  exists ctx' reply, client_query config now client dgram stale ctx = Some (ctx', [(ToClient client, reply)], true)
    /\ exists m' p, xdp_nat46_handler (Some hr) (dx_maps ctx') pkt
         = Some (m', p, XDP_REDIRECT, Some (nc_starlink_ifindex (nat46_cfg (dx_maps ctx))))
       /\ v6_frame p len proto (nc_router_v6_src (nat46_cfg (dx_maps ctx))) target_v6.
Proof.
  unfold client_query. fold (in_buffer dgram stale). rewrite (proj2 (Z.ltb_ge _ _)) by lia. rewrite Hq.
  cbn [mbind option_bind]. change (1 =? 28) with false. rewrite andb_false_r, Hen. change (1 =? 1) with true. cbn [andb].
  set (c1 := set_dx_stats (dt_query (dx_stats ctx)) ctx). assert (Hc1 : dns_ok c1) by (destruct Hok; by split).
  pose proof (allocate_range c1 Hc1) as Ha.
  assert (Hip : (allocate_synthetic_ip c1).2 = htonl (dx_current_synth_ip_host ctx)) by done.
  assert (Hm2 : dx_maps (allocate_synthetic_ip c1).1 = dx_maps ctx) by done.
  assert (Hv2 : dx_v4_map_ok (allocate_synthetic_ip c1).1 = true) by done.
  destruct (allocate_synthetic_ip c1) as [c2 ip]. cbn [fst snd] in *. destruct Ha as [_ Hr]. subst ip.
  set (ip := htonl (dx_current_synth_ip_host ctx)) in *.
  assert (Hu : is_u32 ip).
  { apply bswap32_range. destruct Hok as [Hx _]. unfold SYNTH_START_IP_HOST, SYNTH_END_IP_HOST in Hx. cint. }
  destruct (in_buffer_ok dgram stale Hd Hs Hl) as [_ Hbl].
  destruct (wp_elim _ _ (answer_synthetic_wp (in_buffer dgram stale) (blen (take 2048 dgram)) ip ltac:(lia) ltac:(lia)))
    as (reply & -> & _). cbn [mbind option_bind]. eexists _, reply. split; [done|].
  cbn [set_dx_stats dx_with dx_maps]. set (c3 := dns64_register_mapping c2 ip target_v6).
  assert (H3 : nat46_ok (dx_maps c3)) by (apply register_ok; [done|by rewrite Hm2]).
  assert (Hcfg : nat46_cfg (dx_maps c3) = nat46_cfg (dx_maps ctx)).
  { unfold c3. cbn. rewrite Hm2. by destruct (dx_v4_map_ok c2), (dx_v6_map_ok c2). }
  assert (Hfw : v4_to_v6_map (dx_maps c3) !! ip = Some (Nat46Forward target_v6 0 0)).
  { unfold c3, dns64_register_mapping. cbn [set_dx_stats set_dx_maps dx_with dx_maps]. rewrite Hv2, Hm2.
    destruct (dx_v6_map_ok c2); by apply forward_update_lookup. }
  destruct (egress_spec hr (dx_maps c3) pkt len proto src ip (Nat46Forward target_v6 0 0)) as (p & E & Hv6 & _);
    [done|by rewrite Hcfg|done..|by apply pool_in_range|done|].
  rewrite Hcfg in *. by eexists _, p.
Qed.

(** ** Concrete runs *)

Module DnsDemo.

Definition demo_ctx : dns64_ctx :=
  Dns64Ctx 134744072 0 false true true SYNTH_START_IP_HOST (Dns64Stats 0 0 0 0 0 0 0) ∅ ∅ sample_nat46.

Definition demo_config : fluxwan_config_t := set_c_nat46 (Nat46Config true [] [] []) sample_config.

Definition header (id : Z) : list Z := [0; id; 1; 0; 0; 1; 0; 0; 0; 0; 0; 0].
Definition type_a : list Z := [0; 1; 0; 1].

(** "ab.c" and "a.bc". *)
Definition q_ab_c (id : Z) : list Z := query (header id) [[97; 98]; [99]] type_a.
Definition q_a_bc (id : Z) : list Z := query (header id) [[97]; [98; 99]] type_a.

(** A reply with one answer. *)
Definition reply (id : Z) : list Z := [0; id; 129; 128; 0; 1; 0; 1; 0; 0; 0; 0; 1; 2; 3; 4].

Lemma demo_ok : dns_ok demo_ctx.
Proof. split; [by_eval|]. apply map_Forall_empty. Qed.

Lemma demo_labels : Forall label_ok [[97; 98]; [99]] /\ Forall label_ok [[97]; [98; 99]].
Proof.
  split; repeat (constructor; [split; [repeat (constructor; [by_eval|]); constructor|cbn [length]; lia]|]); constructor.
Qed.

Lemma demo_header : header_ok (header 7) /\ header_ok (header 9).
Proof. split; (split; [repeat (constructor; [by_eval|]); constructor|reflexivity]). Qed.

Lemma demo_reply : good_reply (reply 7) (7 * 256).
Proof.
  split.
  - repeat (constructor; [by_eval|]). constructor.
  - by_eval.
  - reflexivity.
  - eexists. split; vm_compute; reflexivity.
  - eexists. split; vm_compute; reflexivity.
Qed.

Lemma cache_answers_same_letters_witness :
  exists ctx1 ctx2 ctx3 out r,
    resolve 100 (1, 5000) (q_ab_c 7) demo_ctx = Some (ctx1, out, false)
    /\ upstream_reply 101 (reply 7) ctx1 = Some (ctx2, [(ToClient (1, 5000), reply 7)])
    /\ resolve 102 (2, 6000) (q_a_bc 9) ctx2 = Some (ctx3, [(ToClient (2, 6000), r)], true).
Proof.
  destruct (resolve 100 (1, 5000) (q_ab_c 7) demo_ctx) as [[[ctx1 out] b]|] eqn:E; [|vm_compute in E; discriminate].
  assert (Hb : b = false) by (vm_compute in E; congruence). subst b.
  destruct (cache_answers_same_letters 100 101 102 (1, 5000) (2, 6000) (header 7) (header 9)
    [[97; 98]; [99]] [[97]; [98; 99]] type_a demo_ctx ctx1 out (reply 7) (7 * 256))
    as (ctx2 & ctx3 & id2 & r & E2 & _ & _ & E3).
  - exact (proj1 demo_header).
  - exact (proj2 demo_header).
  - exact (proj1 demo_labels).
  - exact (proj2 demo_labels).
  - reflexivity.
  - reflexivity.
  - vm_compute. discriminate.
  - reflexivity.
  - exact E.
  - exact demo_reply.
  - by_eval.
  - exists ctx1, ctx2, ctx3, out, r. split; [reflexivity|]. split; [exact E2|exact E3].
Defined.

Lemma same_id_poisons_cache_witness :
  exists ctx1 ctx2 ctx3 ctx4 out1 out2 r,
    resolve 100 (1, 5000) (query (header 7) [[120]] type_a) demo_ctx = Some (ctx1, out1, false)
    /\ resolve 100 (2, 6000) (q_ab_c 7) ctx1 = Some (ctx2, out2, false)
    /\ upstream_reply 101 (reply 7) ctx2 = Some (ctx3, [(ToClient (2, 6000), reply 7)])
    /\ resolve 102 (3, 7000) (q_ab_c 9) ctx3 = Some (ctx4, [(ToClient (3, 7000), r)], true).
Proof.
  destruct (resolve 100 (1, 5000) (query (header 7) [[120]] type_a) demo_ctx) as [[[ctx1 out1] b1]|] eqn:E1;
    [|vm_compute in E1; discriminate].
  assert (Hb : b1 = false) by (vm_compute in E1; congruence). subst b1.
  destruct (resolve 100 (2, 6000) (q_ab_c 7) ctx1) as [[[ctx2 out2] b2]|] eqn:E2;
    [|vm_compute in E1; injection E1 as <- <-; vm_compute in E2; discriminate].
  assert (Hb : b2 = false) by (vm_compute in E1; injection E1 as <- <-; vm_compute in E2; congruence). subst b2.
  destruct (same_id_poisons_cache 100 100 101 102 (1, 5000) (2, 6000) (3, 7000)
    (query (header 7) [[120]] type_a) (q_ab_c 7) (q_ab_c 9) (7 * 256) (9 * 256) demo_ctx ctx1 ctx2 out1 out2 (reply 7))
    as (ctx3 & ctx4 & r & E3 & _ & _ & E4).
  - reflexivity.
  - reflexivity.
  - reflexivity.
  - reflexivity.
  - vm_compute. discriminate.
  - exact E1.
  - exact E2.
  - exact demo_reply.
  - by_eval.
  - exists ctx1, ctx2, ctx3, ctx4, out1, out2, r. split; [reflexivity|]. split; [exact E2|]. split; [exact E3|exact E4].
Defined.

(** A query for "x" followed by 2020 further bytes. *)
Definition long_query : list Z := query (header 7) [[120]] type_a ++ replicate 2020 0.

Lemma bytes_ok_zeros k : bytes_ok (replicate k 0).
Proof. apply Forall_replicate. by_eval. Qed.

Lemma long_query_bytes : bytes_ok long_query.
Proof.
  apply Forall_app. split; [|apply bytes_ok_zeros]. repeat (constructor; [by_eval|]). constructor.
Qed.

Lemma dns_overrun_iff_witness :
  client_query demo_config 100 (1, 5000) long_query (replicate 2048 0) demo_ctx = None.
Proof.
  apply (dns_overrun_iff demo_config 100 (1, 5000) long_query (replicate 2048 0) demo_ctx).
  - exact demo_ok.
  - exact long_query_bytes.
  - apply bytes_ok_zeros.
  - apply length_replicate.
  - split; [reflexivity|]. split; [vm_compute; reflexivity|]. eexists. vm_compute. reflexivity.
Defined.

Lemma synthetic_pool_witness :
  NoDup (allocations 1000 demo_ctx).
Proof.
  apply (synthetic_pool demo_ctx 1000); [exact demo_ok|by_eval].
Defined.

Definition demo_v4 : list Z :=
  sample_eth ++ [69; 0; 0; 28; 0; 1; 64; 0; 64; 17; 0; 0; 192; 168; 1; 20; 198; 18; 0; 1]
  ++ [195; 80; 0; 53; 0; 8; 0; 0].

Lemma demo_v4_frame : v4_frame demo_v4 8 17 (108736 + 16777216 * 20) (htonl SYNTH_START_IP_HOST).
Proof.
  split; try (vm_compute; (reflexivity || discriminate)). repeat (constructor; [by_eval|]). constructor.
Qed.

Lemma every_name_is_one_server_witness :
  exists ctx' r m' p,
    client_query demo_config 100 (1, 5000) (q_ab_c 7) (replicate 2048 0) demo_ctx
      = Some (ctx', [(ToClient (1, 5000), r)], true)
    /\ xdp_nat46_handler (Some (replicate 20 0)) (dx_maps ctx') demo_v4 = Some (m', p, XDP_REDIRECT, Some 5)
    /\ v6_frame p 8 17 sample_router_v6 target_v6.
Proof.
  destruct (every_name_is_one_server demo_config 100 (1, 5000) (q_ab_c 7) (replicate 2048 0) demo_ctx 18 (replicate 20 0)
    demo_v4 8 17 (108736 + 16777216 * 20)) as (ctx' & r & E & m' & p & E' & H).
  - exact demo_ok.
  - exact sample_nat46_ok.
  - repeat (constructor; [by_eval|]). constructor.
  - apply bytes_ok_zeros.
  - apply length_replicate.
  - reflexivity.
  - vm_compute. split; discriminate.
  - vm_compute. reflexivity.
  - vm_compute. reflexivity.
  - reflexivity.
  - vm_compute. discriminate.
  - reflexivity.
  - apply bytes_ok_zeros.
  - lia.
  - exact demo_v4_frame.
  - exists ctx', r, m', p. split; [exact E|]. split; [exact E'|exact H].
Defined.

End DnsDemo.
