(* ===== verification/Base64.v ===== *)
(** * Base64 ([src/src/crypto_ed25519.c]: [crypto_base64_encode],
      [crypto_base64_decode])

    Text and data are lists of bytes; the terminating NUL of a C string is not
    part of the list. *)

From S2P Require Import Prelude Fluxwan.

Definition b64_table : cstring :=
  Eval vm_compute in bytes_of_string "ABCDEFGHIJKLMNOPQRSTUVWXYZabcdefghijklmnopqrstuvwxyz0123456789+/".

Definition b64_char (v : Z) : Z := default 0 (b64_table !! Z.to_nat v).

(** One group of up to three bytes; [rem] is the number of bytes left. *)
Definition encode_group (rem a b c : Z) : cstring :=
  let triple := (a .<< 16) .| (b .<< 8) .| c in
  [b64_char ((triple .>> 18) .& 63); b64_char ((triple .>> 12) .& 63);
   if 1 <? rem then b64_char ((triple .>> 6) .& 63) else 61;
   if 2 <? rem then b64_char (triple .& 63) else 61].

Fixpoint encode_loop (src : list Z) : cstring :=
  match src with
  | [] => []
  | a :: [] => encode_group 1 a 0 0
  | a :: b :: [] => encode_group 2 a b 0
  | a :: b :: c :: rest => encode_group (3 + blen rest) a b c ++ encode_loop rest
  end.

(** [None] when the text and its NUL do not fit. *)
Definition crypto_base64_encode (src : list Z) (dst_max : Z) : option cstring :=
  if dst_max <? 4 * ((blen src + 2) / 3) + 1 then None else Some (encode_loop src).

Definition b64_val (c : Z) : Z :=
  if (65 <=? c) && (c <=? 90) then c - 65
  else if (97 <=? c) && (c <=? 122) then c - 97 + 26
  else if (48 <=? c) && (c <=? 57) then c - 48 + 52
  else if (c =? 43) || (c =? 45) then 62
  else if (c =? 47) || (c =? 95) then 63
  else -1.

(** The characters passed over between sextets. *)
Definition b64_skip (c : Z) : bool := (c =? 32) || (c =? 13) || (c =? 10) || (c =? 45).

Fixpoint skip_blanks (s : cstring) : cstring :=
  match s with
  | c :: s' => if b64_skip c then skip_blanks s' else s
  | [] => []
  end.

(** The next sextet, -1 at the end of the text. *)
Definition next_sextet (s : cstring) : Z * cstring :=
  match skip_blanks s with
  | [] => (-1, [])
  | c :: s => (if c =? 61 then 0 else b64_val c, s)
  end.

(** A byte is dropped when the destination is full. *)
Definition put_byte (dst_max v : Z) (out : list Z) : list Z :=
  if blen out <? dst_max then out ++ [u8 v] else out.

(** The [while (i < len)] loop; each turn consumes a character, so the length of
    the text is fuel enough. *)
Fixpoint decode_loop (fuel : nat) (s : cstring) (dst_max : Z) (out : list Z) : list Z :=
  match fuel with
  | O => out
  | S fuel =>
      match skip_blanks s with
      | [] => out
      | s =>
          let '(b0, s) := next_sextet s in
          let '(b1, s) := next_sextet s in
          let '(b2, s) := next_sextet s in
          let '(b3, s) := next_sextet s in
          if (b0 <? 0) || (b1 <? 0) then out
          else
            let out := put_byte dst_max ((b0 .<< 2) .| (b1 .>> 4)) out in
            let out := if 0 <=? b2
                       then put_byte dst_max (((b1 .& 15) .<< 4) .| (b2 .>> 2)) out else out in
            let out := if 0 <=? b3
                       then put_byte dst_max (((b2 .& 3) .<< 6) .| b3) out else out in
            decode_loop fuel s dst_max out
      end
  end.

Definition crypto_base64_decode (src : cstring) (dst_max : Z) : list Z :=
  decode_loop (length src) src dst_max [].

(** ** Sextets *)

Definition group_sextets (a b c : Z) : list Z :=
  [a / 4; (a mod 4) * 16 + b / 16; (b mod 16) * 4 + c / 64; c mod 64].

Lemma b64_char_val v :
  0 <= v < 64 -> b64_val (b64_char v) = v /\ b64_skip (b64_char v) = false /\ (b64_char v =? 61) = false.
Proof.
  intros Hv. assert (H : forallb (fun k => (b64_val (b64_char k) =? k) && negb (b64_skip (b64_char k))
    && negb (b64_char k =? 61)) (seqZ 0 64) = true) by (vm_compute; reflexivity).
  rewrite forallb_forall in H. specialize (H v).
  assert (In v (seqZ 0 64)) as Hin by (apply list_elem_of_In, elem_of_seqZ; lia).
  specialize (H Hin). bool_hyps. split_and!; [done|done|by apply Z.eqb_neq].
Qed.

Lemma triple_val a b c :
  is_u8 a -> is_u8 b -> is_u8 c -> (a .<< 16) .| (b .<< 8) .| c = 65536 * a + 256 * b + c.
Proof.
  intros Ha Hb Hc. rewrite <- Z.lor_assoc. unfold is_u8 in *.
  rewrite (lor_shiftl b c 8) by lia. rewrite lor_shiftl by lia. lia.
Qed.

Lemma land_63 x : x .& 63 = x mod 64.
Proof. change 63 with (Z.ones 6). by rewrite Z.land_ones by lia. Qed.

Lemma encode_group_chars rem a b c :
  is_u8 a -> is_u8 b -> is_u8 c ->
  encode_group rem a b c
  = [b64_char (a / 4); b64_char ((a mod 4) * 16 + b / 16);
     if 1 <? rem then b64_char ((b mod 16) * 4 + c / 64) else 61;
     if 2 <? rem then b64_char (c mod 64) else 61].
Proof.
  intros Ha Hb Hc. unfold encode_group. cbv zeta. rewrite triple_val, !land_63 by done.
  rewrite !Z.shiftr_div_pow2 by lia. change (2 ^ 18) with 262144. change (2 ^ 12) with 4096. change (2 ^ 6) with 64.
  unfold is_u8 in *.
  assert ((65536 * a + 256 * b + c) / 262144 mod 64 = a / 4) as -> by lia.
  assert ((65536 * a + 256 * b + c) / 4096 mod 64 = a mod 4 * 16 + b / 16) as -> by lia.
  assert ((65536 * a + 256 * b + c) / 64 mod 64 = b mod 16 * 4 + c / 64) as -> by lia.
  assert ((65536 * a + 256 * b + c) mod 64 = c mod 64) as -> by lia. done.
Qed.

Lemma next_sextet_char v s : 0 <= v < 64 -> next_sextet (b64_char v :: s) = (v, s).
Proof.
  intros Hv. destruct (b64_char_val v Hv) as (H1 & H2 & H3). unfold next_sextet. cbn [skip_blanks].
  by rewrite H2, H3, H1.
Qed.
Lemma next_sextet_pad s : next_sextet (61 :: s) = (0, s).
Proof. reflexivity. Qed.

(** The bytes of a decoded group. *)
Lemma group_bytes a b c :
  is_u8 a -> is_u8 b -> is_u8 c ->
  let s1 := (a mod 4) * 16 + b / 16 in let s2 := (b mod 16) * 4 + c / 64 in
  u8 ((a / 4 .<< 2) .| (s1 .>> 4)) = a
  /\ u8 (((s1 .& 15) .<< 4) .| (s2 .>> 2)) = b
  /\ u8 (((s2 .& 3) .<< 6) .| (c mod 64)) = c.
Proof.
  intros Ha Hb Hc. cbv zeta. unfold is_u8 in *. rewrite !Z.shiftr_div_pow2 by lia.
  change 15 with (Z.ones 4). change 3 with (Z.ones 2). rewrite !Z.land_ones by lia.
  change (2 ^ 4) with 16. change (2 ^ 2) with 4.
  rewrite !lor_shiftl by lia. change (2 ^ 2) with 4. change (2 ^ 4) with 16. change (2 ^ 6) with 64.
  unfold u8. lia.
Qed.

(** One turn of the decoder on a group. *)
Lemma decode_group fuel rem a b c rest dst_max out :
  is_u8 a -> is_u8 b -> is_u8 c -> (1 < rem \/ b = 0) -> (2 < rem \/ c = 0) ->
  blen out + 3 <= dst_max ->
  decode_loop (S fuel) (encode_group rem a b c ++ rest) dst_max out
  = decode_loop fuel rest dst_max (out ++ [a; b; c]).
Proof.
  intros Ha Hb Hc Hr1 Hr2 Hd. rewrite encode_group_chars by done.
  set (s1 := a mod 4 * 16 + b / 16). set (s2 := b mod 16 * 4 + c / 64).
  assert (R0 : 0 <= a / 4 < 64) by (unfold is_u8 in *; lia).
  assert (R1 : 0 <= s1 < 64) by (unfold s1, is_u8 in *; lia).
  assert (R2 : 0 <= s2 < 64) by (unfold s2, is_u8 in *; lia).
  assert (R3 : 0 <= c mod 64 < 64) by lia.
  assert (N2 : forall s, next_sextet ((if 1 <? rem then b64_char s2 else 61) :: s)
                 = (if 1 <? rem then s2 else 0, s)).
  { intros s. destruct (1 <? rem); [by apply next_sextet_char|apply next_sextet_pad]. }
  assert (N3 : forall s, next_sextet ((if 2 <? rem then b64_char (c mod 64) else 61) :: s)
                 = (if 2 <? rem then c mod 64 else 0, s)).
  { intros s. destruct (2 <? rem); [by apply next_sextet_char|apply next_sextet_pad]. }
  assert (E2 : (if 1 <? rem then s2 else 0) = s2).
  { destruct (Z.ltb_spec 1 rem); [done|]. unfold s2, is_u8 in *. assert (c = 0) by lia. lia. }
  assert (E3 : (if 2 <? rem then c mod 64 else 0) = c mod 64).
  { destruct (Z.ltb_spec 2 rem); [done|]. assert (c = 0) by lia. lia. }
  destruct (group_bytes a b c Ha Hb Hc) as (G1 & G2 & G3). fold s1 s2 in G1, G2, G3.
  cbn [decode_loop app skip_blanks]. destruct (b64_char_val _ R0) as (_ & -> & _).
  rewrite next_sextet_char by done. rewrite next_sextet_char by done. rewrite N2, N3, E2, E3.
  destruct (Z.ltb_spec (a / 4) 0), (Z.ltb_spec s1 0); try lia. cbn [orb].
  destruct (Z.leb_spec 0 s2), (Z.leb_spec 0 (c mod 64)); try lia.
  unfold put_byte. rewrite G1, G2, G3.
  destruct (Z.ltb_spec (blen out) dst_max); [|lia].
  rewrite !length_app. cbn [length].
  destruct (Z.ltb_spec (Z.of_nat (length out + 1)) dst_max); [|lia].
  rewrite !length_app. cbn [length].
  destruct (Z.ltb_spec (Z.of_nat (length out + 1 + 1)) dst_max); [|lia].
  by rewrite <- !app_assoc.
Qed.

(** The zero bytes that stand for padding. *)
Definition padding (len : nat) : list Z := replicate ((3 - len mod 3) mod 3) 0.

Lemma decode_encode_loop n : forall src fuel dst_max out,
  (length src <= n)%nat -> bytes_ok src -> (length src <= fuel)%nat ->
  blen out + blen src + 2 <= dst_max ->
  decode_loop fuel (encode_loop src) dst_max out = out ++ src ++ padding (length src).
Proof.
  induction n as [|n IH]; intros src fuel dst_max out Hn Hb Hf Hd.
  { destruct src; [|cbn in Hn; lia]. cbn. destruct fuel; cbn; by rewrite app_nil_r. }
  assert (is_u8 0) as H0 by (unfold is_u8; lia).
  destruct src as [|a [|b [|c rest]]]; cbn [encode_loop].
  - cbn. destruct fuel; cbn; by rewrite app_nil_r.
  - apply Forall_cons in Hb as [Ha _]. destruct fuel as [|fuel]; [cbn in Hf; lia|].
    rewrite <- (app_nil_r (encode_group _ _ _ _)). rewrite decode_group by (done || cbn in *; lia || auto).
    by destruct fuel.
  - apply Forall_cons in Hb as [Ha [Hb _]%Forall_cons]. destruct fuel as [|fuel]; [cbn in Hf; lia|].
    rewrite <- (app_nil_r (encode_group _ _ _ _)). rewrite decode_group by (done || cbn in *; lia || auto).
    by destruct fuel.
  - apply Forall_cons in Hb as [Ha [Hb [Hc Hr]%Forall_cons]%Forall_cons].
    destruct fuel as [|fuel]; [cbn in Hf; lia|]. cbn [length] in *.
    rewrite decode_group by (done || (left; lia) || lia).
    rewrite IH; [|lia|done|lia|rewrite length_app; cbn; lia].
    rewrite <- app_assoc. unfold padding.
    replace (S (S (S (length rest)))) with (length rest + 1 * 3)%nat by lia.
    by rewrite Nat.Div0.mod_add.
Qed.

Lemma encode_loop_length n : forall src, (length src <= n)%nat -> (length src <= length (encode_loop src))%nat.
Proof.
  induction n as [|n IH]; intros src Hn.
  { destruct src; cbn in *; lia. }
  destruct src as [|a [|b [|c rest]]]; cbn [encode_loop]; try (cbn; lia).
  rewrite length_app. cbn [length] in *. specialize (IH rest). cbn. lia.
Qed.

(** Base64.  Decoding the encoding of any bytes gives them back, followed by
    one zero byte for each padding character: the decoder takes [=] for a sextet of
    zeros.  It is exact when the number of bytes is a multiple of three. *)
Theorem base64_roundtrip src dst_max :
  bytes_ok src -> blen src + 2 <= dst_max ->
  exists text, crypto_base64_encode src (4 * ((blen src + 2) / 3) + 1) = Some text
    /\ crypto_base64_decode text dst_max = src ++ padding (length src).
Proof.
  intros Hb Hd. unfold crypto_base64_encode. rewrite Z.ltb_irrefl. eexists. split; [done|].
  unfold crypto_base64_decode.
  apply (decode_encode_loop (length src)); [done|done|by eapply encode_loop_length|cbn; lia].
Qed.

Lemma base64_roundtrip_witness :
  exists text, crypto_base64_encode [70; 76; 73; 67] 9 = Some text
    /\ crypto_base64_decode text 512 = [70; 76; 73; 67; 0; 0].
Proof. apply (base64_roundtrip [70; 76; 73; 67] 512); [repeat constructor; by_eval|by_eval]. Defined.
