(* ===== verification/Sha2.v ===== *)
(** * SHA-256 and SHA-512 ([src/src/crypto_ed25519.c]: [crypto_sha256],
      [crypto_sha512])

    The two functions are one scheme at two word sizes, a section with the word
    size, the rotations and the constants as parameters: whole blocks first,
    then one or two blocks of padding.  The specification is the one of FIPS
    180-4: pad the whole message, then fold the compression over its blocks. *)

From S2P Require Import Prelude Fluxwan.

(** ** Parameters of the two functions *)

Record sha_params := ShaParams {
  sp_wbytes : nat;         (** bytes of a word: 4 or 8 *)
  sp_rounds : nat;
  sp_SIG0 : Z * Z * Z;     (** rotations *)
  sp_SIG1 : Z * Z * Z;
  sp_TH0 : Z * Z * Z;      (** two rotations and a shift *)
  sp_TH1 : Z * Z * Z;
  sp_K : list Z;
  sp_init : list Z
}.

Definition K256 : list Z :=
  [1116352408; 1899447441; 3049323471; 3921009573; 961987163; 1508970993;
   2453635748; 2870763221; 3624381080; 310598401; 607225278; 1426881987;
   1925078388; 2162078206; 2614888103; 3248222580; 3835390401; 4022224774;
   264347078; 604807628; 770255983; 1249150122; 1555081692; 1996064986;
   2554220882; 2821834349; 2952996808; 3210313671; 3336571891; 3584528711;
   113926993; 338241895; 666307205; 773529912; 1294757372; 1396182291;
   1695183700; 1986661051; 2177026350; 2456956037; 2730485921; 2820302411;
   3259730800; 3345764771; 3516065817; 3600352804; 4094571909; 275423344;
   430227734; 506948616; 659060556; 883997877; 958139571; 1322822218;
   1537002063; 1747873779; 1955562222; 2024104815; 2227730452; 2361852424;
   2428436474; 2756734187; 3204031479; 3329325298].

Definition K512 : list Z :=
  [4794697086780616226; 8158064640168781261; 13096744586834688815; 16840607885511220156;
   4131703408338449720; 6480981068601479193; 10538285296894168987; 12329834152419229976;
   15566598209576043074; 1334009975649890238; 2608012711638119052; 6128411473006802146;
   8268148722764581231; 9286055187155687089; 11230858885718282805; 13951009754708518548;
   16472876342353939154; 17275323862435702243; 1135362057144423861; 2597628984639134821;
   3308224258029322869; 5365058923640841347; 6679025012923562964; 8573033837759648693;
   10970295158949994411; 12119686244451234320; 12683024718118986047; 13788192230050041572;
   14330467153632333762; 15395433587784984357; 489312712824947311; 1452737877330783856;
   2861767655752347644; 3322285676063803686; 5560940570517711597; 5996557281743188959;
   7280758554555802590; 8532644243296465576; 9350256976987008742; 10552545826968843579;
   11727347734174303076; 12113106623233404929; 14000437183269869457; 14369950271660146224;
   15101387698204529176; 15463397548674623760; 17586052441742319658; 1182934255886127544;
   1847814050463011016; 2177327727835720531; 2830643537854262169; 3796741975233480872;
   4115178125766777443; 5681478168544905931; 6601373596472566643; 7507060721942968483;
   8399075790359081724; 8693463985226723168; 9568029438360202098; 10144078919501101548;
   10430055236837252648; 11840083180663258601; 13761210420658862357; 14299343276471374635;
   14566680578165727644; 15097957966210449927; 16922976911328602910; 17689382322260857208;
   500013540394364858; 748580250866718886; 1242879168328830382; 1977374033974150939;
   2944078676154940804; 3659926193048069267; 4368137639120453308; 4836135668995329356;
   5532061633213252278; 6448918945643986474; 6902733635092675308; 7801388544844847127].

Definition sha256_params : sha_params :=
  ShaParams 4 64 (2, 13, 22) (6, 11, 25) (7, 18, 3) (17, 19, 10) K256
    [1779033703; 3144134277; 1013904242; 2773480762;
   1359893119; 2600822924; 528734635; 1541459225].

Definition sha512_params : sha_params :=
  ShaParams 8 80 (28, 34, 39) (14, 18, 41) (1, 8, 7) (19, 61, 6) K512
    [7640891576956012808; 13503953896175478587; 4354685564936845355; 11912009170470909681;
   5840696475078001361; 11170449401992604703; 2270897969802886507; 6620516959819538809].

Section sha.
Context (P : sha_params).

Definition wbits : Z := 8 * Z.of_nat (sp_wbytes P).
Definition word (x : Z) : Z := x mod 2 ^ wbits.
Definition block_bytes : nat := 16 * sp_wbytes P.

Definition ROR (x n : Z) : Z := word ((x .>> n) .| (x .<< (wbits - n))).
Definition CH (x y z : Z) : Z := (x .& y) .^ (word (Z.lnot x) .& z).
Definition MAJ (x y z : Z) : Z := (x .& y) .^ (x .& z) .^ (y .& z).
Definition SIG (r : Z * Z * Z) (x : Z) : Z :=
  let '(a, b, c) := r in ROR x a .^ ROR x b .^ ROR x c.
Definition TH (r : Z * Z * Z) (x : Z) : Z :=
  let '(a, b, c) := r in ROR x a .^ ROR x b .^ (x .>> c).

(** A big-endian word. *)
Definition be_word (b : list Z) : Z := foldl (fun a x => (a .<< 8) .| x) 0 b.
Fixpoint chunks (n k : nat) (l : list Z) : list (list Z) :=
  match k with
  | O => []
  | S k => take n l :: chunks n k (drop n l)
  end.

(** The message schedule: [w] holds the words so far, newest first. *)
Fixpoint schedule (k : nat) (w : list Z) : list Z :=
  match k with
  | O => reverse w
  | S k =>
      let at_ i := default 0 (w !! (i - 1)%nat) in
      schedule k (word (TH (sp_TH1 P) (at_ 2%nat) + at_ 7%nat + TH (sp_TH0 P) (at_ 15%nat) + at_ 16%nat) :: w)
  end.

(** One round on the eight working variables. *)
Definition sha_round (s : list Z) (kw : Z * Z) : list Z :=
  match s with
  | [a; b; c; d; e; f; g; h] =>
      let t1 := word (h + SIG (sp_SIG1 P) e + CH e f g + kw.1 + kw.2) in
      let t2 := word (SIG (sp_SIG0 P) a + MAJ a b c) in
      [word (t1 + t2); a; b; c; word (d + t1); e; f; g]
  | _ => s
  end.

Definition compress (state block : list Z) : list Z :=
  let w := schedule (sp_rounds P - 16) (reverse (be_word <$> chunks (sp_wbytes P) 16 block)) in
  let s := foldl sha_round state (zip (sp_K P) w) in
  zip_with (fun a b => word (a + b)) state s.

(** ** The code *)

(** Whole blocks; returns the state and what is left. *)
Fixpoint whole_blocks (fuel : nat) (state data : list Z) : list Z * list Z :=
  match fuel with
  | O => (state, data)
  | S fuel =>
      if (block_bytes <=? length data)%nat
      then whole_blocks fuel (compress state (take block_bytes data)) (drop block_bytes data)
      else (state, data)
  end.

(** Big-endian bytes of the low [n] bytes of [x]. *)
Fixpoint be_bytes (n : nat) (x : Z) : list Z :=
  match n with
  | O => []
  | S n => ((x .>> (8 * Z.of_nat n)) mod 256) :: be_bytes n x
  end.

(** The length field starts two words before the end of the block; only its last
    eight bytes are used. *)
Definition len_at : nat := block_bytes - 2 * sp_wbytes P.
Definition length_field (total_bits : Z) : list Z :=
  replicate (2 * sp_wbytes P - 8) 0 ++ be_bytes 8 total_bits.

Definition sha (data : list Z) : list Z :=
  let total_bits := u64 (u64 (blen data) * 8) in
  let '(state, rest) := whole_blocks (length data) (sp_init P) data in
  let rest := rest ++ [128] in
  let '(state, rest) :=
    if (len_at <? length rest)%nat
    then (compress state (rest ++ replicate (block_bytes - length rest) 0), [])
    else (state, rest) in
  let block := rest ++ replicate (len_at - length rest) 0 ++ length_field total_bits in
  concat (be_bytes (sp_wbytes P) <$> compress state block).
End sha.

Definition crypto_sha256 (data : list Z) : list Z := sha sha256_params data.
Definition crypto_sha512 (data : list Z) : list Z := sha sha512_params data.

Lemma sha256_abc :
  crypto_sha256 (bytes_of_string "abc")
  = [186; 120; 22; 191; 143; 1; 207; 234; 65; 65; 64; 222; 93; 174; 34; 35;
     176; 3; 97; 163; 150; 23; 122; 156; 180; 16; 255; 97; 242; 0; 21; 173].
Proof. vm_compute. reflexivity. Qed.

Lemma sha512_abc :
  take 16 (crypto_sha512 (bytes_of_string "abc"))
  = [221; 175; 53; 161; 147; 97; 122; 186; 204; 65; 115; 73; 174; 32; 65; 49].
Proof. vm_compute. reflexivity. Qed.

(** ** The standard's description *)

Section spec.
Context (P : sha_params).

(** Zero bytes between the marker and the length: the least number that makes
    the padded message a whole number of blocks. *)
Definition pad_zeros (len : nat) : nat :=
  Z.to_nat ((Z.of_nat (len_at P) - Z.of_nat len - 1) mod Z.of_nat (block_bytes P)).

Definition pad (data : list Z) : list Z :=
  data ++ [128] ++ replicate (pad_zeros (length data)) 0
  ++ be_bytes (2 * sp_wbytes P) (8 * blen data).

Definition fips_sha (data : list Z) : list Z :=
  let m := pad data in
  concat (be_bytes (sp_wbytes P)
          <$> foldl (compress P) (sp_init P) (chunks (block_bytes P) (length m / block_bytes P) m)).

Hypothesis wbytes_ok : sp_wbytes P = 4%nat \/ sp_wbytes P = 8%nat.

Lemma block_pos : (0 < block_bytes P)%nat.
Proof. unfold block_bytes. lia. Qed.

Lemma chunks_app n k m (l1 l2 : list Z) :
  length l1 = (n * k)%nat -> chunks n (k + m) (l1 ++ l2) = chunks n k l1 ++ chunks n m l2.
Proof.
  revert l1. induction k as [|k IH]; intros l1 Hl.
  - destruct l1; [done | cbn in Hl; lia].
  - cbn [chunks plus app]. rewrite take_app_le, drop_app_le by lia.
    f_equal. apply IH. rewrite length_drop. lia.
Qed.

Lemma chunks_one n (l : list Z) : length l = n -> chunks n 1 l = [l].
Proof. intros <-. cbn. by rewrite firstn_all. Qed.

Lemma whole_blocks_spec fuel st (data : list Z) :
  (length data <= fuel)%nat ->
  let q := (length data / block_bytes P)%nat in
  whole_blocks P fuel st data
  = (foldl (compress P) st (chunks (block_bytes P) q (take (block_bytes P * q) data)),
     drop (block_bytes P * q) data).
Proof.
  pose proof block_pos as Hb. set (b := block_bytes P) in *.
  revert st data. induction fuel as [|fuel IH]; intros st data Hf q.
  - destruct data; [|cbn in Hf; lia]. subst q. cbn [length]. rewrite Nat.Div0.div_0_l.
    by rewrite Nat.mul_0_r.
  - cbn [whole_blocks]. fold b. destruct (Nat.leb_spec b (length data)) as [Hle | Hlt].
    + rewrite IH by (rewrite length_drop; lia). rewrite length_drop.
      assert (Hq : q = S ((length data - b) / b)).
      { subst q. replace (length data) with (length data - b + 1 * b)%nat at 1 by lia.
        rewrite Nat.div_add by lia. lia. }
      rewrite Hq, drop_drop. set (q' := ((length data - b) / b)%nat).
      cbn [chunks foldl]. rewrite take_take, skipn_firstn_comm.
      replace (b `min` (b * S q'))%nat with b by lia.
      replace (b * S q' - b)%nat with (b * q')%nat by lia.
      by replace (b + b * q')%nat with (b * S q')%nat by lia.
    + assert (q = 0%nat) as -> by (by apply Nat.div_small).
      by rewrite Nat.mul_0_r.
Qed.

Lemma length_be_bytes n x : length (be_bytes n x) = n.
Proof. induction n; cbn; congruence. Qed.

Lemma be_bytes_small n m x :
  0 <= x < 2 ^ (8 * Z.of_nat n) -> be_bytes (m + n) x = replicate m 0 ++ be_bytes n x.
Proof.
  intros Hx. induction m as [|m IH]; [done|]. cbn [be_bytes plus replicate app]. rewrite IH. f_equal.
  rewrite Z.shiftr_div_pow2 by lia. rewrite Z.div_small; [done|].
  split; [lia|]. eapply Z.lt_le_trans; [apply Hx|]. apply Z.pow_le_mono_r; lia.
Qed.

Lemma length_field_full (data : list Z) :
  8 * blen data < 2 ^ 64 ->
  length_field P (u64 (u64 (blen data) * 8)) = be_bytes (2 * sp_wbytes P) (8 * blen data).
Proof.
  intros Hl. unfold length_field. assert (0 <= blen data) by lia.
  rewrite (u64_small (blen data)), u64_small by (unfold is_u64; lia).
  replace (2 * sp_wbytes P)%nat with (2 * sp_wbytes P - 8 + 8)%nat at 2 by lia.
  rewrite be_bytes_small by lia. do 2 f_equal. lia.
Qed.

(** The padded message is the whole blocks, then one block or two. *)
Lemma pad_zeros_cases r q :
  (r < block_bytes P)%nat ->
  pad_zeros (block_bytes P * q + r)
  = (if (len_at P <? r + 1)%nat then block_bytes P - (r + 1) + len_at P else len_at P - (r + 1))%nat.
Proof.
  intros Hr. unfold pad_zeros.
  assert (Hla : (len_at P < block_bytes P)%nat) by (unfold len_at, block_bytes; lia).
  set (b := block_bytes P) in *. set (a := len_at P) in *.
  rewrite Nat2Z.inj_add, Nat2Z.inj_mul.
  replace (Z.of_nat a - (Z.of_nat b * Z.of_nat q + Z.of_nat r) - 1)
    with (Z.of_nat a - Z.of_nat r - 1 + (- Z.of_nat q) * Z.of_nat b) by lia.
  rewrite Z.mod_add by lia.
  destruct (Nat.ltb_spec a (r + 1)).
  - rewrite <- (Z.mod_unique (Z.of_nat a - Z.of_nat r - 1) (Z.of_nat b) (-1)
                  (Z.of_nat b + Z.of_nat a - Z.of_nat r - 1)); lia.
  - rewrite Z.mod_small; lia.
Qed.

(** The tail the code hashes after the whole blocks. *)
Lemma pad_split (data : list Z) :
  8 * blen data < 2 ^ 64 ->
  let b := block_bytes P in
  let q := (length data / b)%nat in
  let rest := drop (b * q) data ++ [128] in
  let field := length_field P (u64 (u64 (blen data) * 8)) in
  pad data = take (b * q) data
    ++ (if (len_at P <? length rest)%nat
        then (rest ++ replicate (b - length rest) 0) ++ (replicate (len_at P) 0 ++ field)
        else rest ++ replicate (len_at P - length rest) 0 ++ field).
Proof.
  intros Hl b q rest field. pose proof block_pos as Hb. fold b in Hb.
  assert (Hlen : length rest = (length data mod b + 1)%nat).
  { subst rest. rewrite length_app, length_drop. cbn [length].
    pose proof (Nat.div_mod_eq (length data) b). fold q in H. lia. }
  assert (Hz : pad_zeros (length data)
               = if (len_at P <? length rest)%nat then (b - length rest + len_at P)%nat
                 else (len_at P - length rest)%nat).
  { rewrite Hlen. subst b q. rewrite (Nat.div_mod_eq (length data) (block_bytes P)) at 1.
    apply pad_zeros_cases, Nat.mod_upper_bound. lia. }
  unfold pad. rewrite Hz. subst field. rewrite length_field_full by done.
  rewrite <- (take_drop (b * q) data) at 1. rewrite <- !(assoc_L (++)).
  f_equal. subst rest. destruct (_ <? _)%nat.
  - by rewrite replicate_add, <- !(assoc_L (++)).
  - by rewrite <- !(assoc_L (++)).
Qed.

Lemma fold_blocks st (l : list (list Z)) (k n : nat) (m : list Z) :
  m = concat l -> Forall (fun x => length x = n) l -> k = length l ->
  foldl (compress P) st (chunks n k m) = foldl (compress P) st l.
Proof.
  intros -> Hf ->. f_equal. induction Hf as [|x l Hx Hf IH]; [done|].
  cbn [length concat]. rewrite (chunks_app n 1) by lia. rewrite chunks_one by done.
  by rewrite IH.
Qed.

(** The whole blocks of a message, as a list. *)
Lemma chunks_lengths n k (l : list Z) :
  length l = (n * k)%nat -> concat (chunks n k l) = l /\ Forall (fun x => length x = n) (chunks n k l)
                          /\ length (chunks n k l) = k.
Proof.
  revert l. induction k as [|k IH]; intros l Hl.
  - destruct l; [done | cbn in Hl; lia].
  - destruct (IH (drop n l)) as (Hc & Hf & Hk); [rewrite length_drop; lia|].
    cbn [chunks concat length]. rewrite Hc, Hk. split_and!; [apply take_drop | | done].
    constructor; [rewrite length_take; lia | done].
Qed.

Lemma sha_is_fips (data : list Z) : 8 * blen data < 2 ^ 64 -> sha P data = fips_sha data.
Proof.
  intros Hl. pose proof block_pos as Hb. unfold sha, fips_sha.
  rewrite whole_blocks_spec by lia. rewrite (pad_split data) by done. cbv zeta.
  set (b := block_bytes P) in *. set (q := (length data / b)%nat).
  set (rest := drop (b * q) data ++ [128]).
  set (field := length_field P _).
  assert (Hq : (b * q <= length data)%nat) by (apply Nat.Div0.mul_div_le).
  assert (Hr : (1 <= length rest <= b)%nat).
  { subst rest. rewrite length_app, length_drop. cbn [length].
    pose proof (Nat.mod_upper_bound (length data) b). pose proof (Nat.div_mod_eq (length data) b).
    fold q in H0. lia. }
  assert (Hfl : length field = (2 * sp_wbytes P)%nat).
  { subst field. unfold length_field. rewrite length_app, length_replicate, length_be_bytes. lia. }
  assert (Hla : (len_at P + 2 * sp_wbytes P = b)%nat) by (subst b; unfold len_at, block_bytes; lia).
  destruct (chunks_lengths b q (take (b * q) data)) as (Hc & Hf & Hk); [rewrite length_take; lia|].
  set (front := chunks b q (take (b * q) data)) in *.
  assert (Hblk : forall tail, Forall (fun x => length x = b) tail ->
    foldl (compress P) (sp_init P)
      (chunks b (length (take (b * q) data ++ concat tail) / b) (take (b * q) data ++ concat tail))
    = foldl (compress P) (foldl (compress P) (sp_init P) front) tail).
  { intros tail Ht. rewrite <- foldl_app. apply fold_blocks.
    - by rewrite concat_app, Hc.
    - by apply Forall_app.
    - rewrite !length_app, Hk, length_take. replace (length (concat tail)) with (b * length tail)%nat.
      + replace ((b * q) `min` length data + b * length tail)%nat with ((q + length tail) * b)%nat by lia.
        by rewrite Nat.div_mul by lia.
      + clear -Ht. induction Ht as [|x t Hx Ht IH]; cbn [concat length]; [lia|].
        rewrite length_app. lia. }
  destruct (Nat.ltb_spec (len_at P) (length rest)).
  - specialize (Hblk [rest ++ replicate (b - length rest) 0; replicate (len_at P) 0 ++ field]).
    cbn [concat foldl] in Hblk. rewrite app_nil_r in Hblk. rewrite Hblk.
    + cbn [length app]. by rewrite Nat.sub_0_r.
    + repeat constructor; rewrite length_app, length_replicate; lia.
  - specialize (Hblk [rest ++ replicate (len_at P - length rest) 0 ++ field]).
    cbn [concat foldl] in Hblk. rewrite app_nil_r in Hblk. rewrite Hblk; [done|].
    repeat constructor. rewrite !length_app, length_replicate. lia.
Qed.
End spec.

(** ** The size of a digest *)

Lemma be_bytes_ok n x : bytes_ok (be_bytes n x).
Proof. induction n as [|n IH]; cbn; constructor; [cint|done]. Qed.

Lemma rounds_length P l st : length st = 8%nat -> length (foldl (sha_round P) st l) = 8%nat.
Proof.
  revert st. induction l as [|kw l IH]; intros st Hl; cbn [foldl]; [done|].
  apply IH. do 9 (destruct st as [|? st]; [try done|]); done.
Qed.

Lemma compress_length P st block : length st = 8%nat -> length (compress P st block) = 8%nat.
Proof.
  intros Hl. unfold compress. cbv zeta. rewrite length_zip_with, rounds_length by done. lia.
Qed.

Lemma whole_blocks_length P fuel st data : length st = 8%nat -> length (whole_blocks P fuel st data).1 = 8%nat.
Proof.
  revert st data. induction fuel as [|fuel IH]; intros st data Hl; cbn [whole_blocks]; [done|].
  destruct (_ <=? _)%nat; [|done]. by apply IH, compress_length.
Qed.

Lemma digest_length n (l : list Z) : length (concat (be_bytes n <$> l)) = (length l * n)%nat.
Proof. induction l as [|x l IH]; cbn; [done|]. cbn in IH. rewrite length_app, length_be_bytes, IH. lia. Qed.

Lemma digest_ok n (l : list Z) : bytes_ok (concat (be_bytes n <$> l)).
Proof. induction l as [|x l IH]; [constructor|]. cbn. apply Forall_app. split; [apply be_bytes_ok|exact IH]. Qed.

Lemma sha_output P data :
  length (sp_init P) = 8%nat ->
  length (sha P data) = (8 * sp_wbytes P)%nat /\ bytes_ok (sha P data).
Proof.
  intros Hl. unfold sha. cbv zeta. pose proof (whole_blocks_length P (length data) (sp_init P) data Hl) as Hs.
  destruct (whole_blocks P (length data) (sp_init P) data) as [st rest]. cbn [fst] in Hs.
  destruct (_ <? _)%nat; (split; [|apply digest_ok]);
    rewrite digest_length, compress_length; (done || by apply compress_length).
Qed.

(** C34.  The hash of the machine fingerprint and the hash of the signature check are
    the standard's: both functions pad as FIPS 180-4 prescribes and fold the compression over the
    blocks of the padded message, for every message whose length in bits fits
    64 bits. *)
Theorem sha2_is_fips (data : list Z) (Hlen : 8 * blen data < 2 ^ 64) :
  crypto_sha256 data = fips_sha sha256_params data
  /\ crypto_sha512 data = fips_sha sha512_params data.
Proof. split; apply sha_is_fips; cbn; auto. Qed.

Lemma sha2_is_fips_witness :
  8 * blen (replicate 60 7) < 2 ^ 64
  /\ crypto_sha256 (replicate 60 7) = fips_sha sha256_params (replicate 60 7).
Proof.
  assert (H : 8 * blen (replicate 60 7) < 2 ^ 64) by (vm_compute; reflexivity).
  split; [exact H | exact (proj1 (sha2_is_fips (replicate 60 7) H))].
Defined.
