(* ===== verification/Field25519.v ===== *)
(** * Arithmetic modulo 2^255 - 19 ([src/src/crypto_ed25519.c]: [car25519],
      [sel25519], [pack25519], [unpack25519], [A], [Z], [M])

    A field element of the code is sixteen signed 64-bit limbs of weight 2^16,
    neither reduced nor normalised.  Every addition, subtraction and product of the
    code is followed here by the wrap-around of [int64_t]; the theorems show that it
    never happens, and that the limbs represent what they should modulo the prime. *)

From S2P Require Import Prelude.

(** ** Limbs *)

Definition i64 (x : Z) : Z := (x + 9223372036854775808) mod 18446744073709551616 - 9223372036854775808.

Abbreviation gf := (list Z).

Definition lim (a : gf) (i : Z) : Z := default 0 (a !! Z.to_nat i).
Definition set_lim (a : gf) (i v : Z) : gf := <[Z.to_nat i := i64 v]> a.

Definition gf0 : gf := replicate 16 0.
Definition gf1 : gf := 1 :: replicate 15 0.

(** ** Operations *)

(** One turn of the loop of [car25519]. *)
Definition car_step (i : Z) (o : gf) : gf :=
  let o := set_lim o i (lim o i + (1 .<< 16)) in
  let c := lim o i .>> 16 in
  let j := (i + 1) * Z.b2z (i <? 15) in
  let o := set_lim o j (lim o j + i64 (c - 1 + 37 * (c - 1) * Z.b2z (i =? 15))) in
  set_lim o i (lim o i - (c .<< 16)).

Definition car25519 (o : gf) : gf := for_loop 16 0 car_step o.

(** Swaps the arguments when [b] is one. *)
Definition sel25519 (p q : gf) (b : Z) : gf * gf :=
  let c := Z.lnot (b - 1) in
  let t := zip_with (fun x y => c .& (x .^ y)) p q in
  (zip_with Z.lxor p t, zip_with Z.lxor q t).

(** [t - p] with the borrows of the code; the array [m] is written before it is read. *)
Definition sub_step (t : gf) (i : Z) (m : gf) : gf :=
  let m := set_lim m i (lim t i - 65535 - ((lim m (i - 1) .>> 16) .& 1)) in
  set_lim m (i - 1) (lim m (i - 1) .& 65535).

Definition pack_round (t : gf) : gf :=
  let m := set_lim gf0 0 (lim t 0 - 65517) in
  let m := for_loop 14 1 (sub_step t) m in
  let m := set_lim m 15 (lim t 15 - 32767 - ((lim m 14 .>> 16) .& 1)) in
  let b := (lim m 15 .>> 16) .& 1 in
  let m := set_lim m 14 (lim m 14 .& 65535) in
  fst (sel25519 t m (1 - b)).

Definition pack25519 (n : gf) : list Z :=
  let t := car25519 (car25519 (car25519 n)) in
  let t := pack_round (pack_round t) in
  concat ((fun x => [u8 (x .& 255); u8 (x .>> 8)]) <$> t).

(** The comparison in constant time: 0 when equal, -1 otherwise. *)
Definition crypto_verify_32 (x y : list Z) : Z :=
  let d := foldl (fun d xy => d .| (fst xy .^ snd xy)) 0 (zip x y) in
  (1 .& (u32 (d - 1) .>> 8)) - 1.

Definition neq25519 (a b : gf) : Z := crypto_verify_32 (pack25519 a) (pack25519 b).
Definition par25519 (a : gf) : Z := default 0 (pack25519 a !! 0%nat) .& 1.

Definition unpack25519 (n : list Z) : gf :=
  let o := (fun i => default 0 (n !! (2 * i)%nat) + (default 0 (n !! (2 * i + 1)%nat) .<< 8)) <$> seq 0 16 in
  set_lim o 15 (lim o 15 .& 32767).

Definition A (a b : gf) : gf := zip_with (fun x y => i64 (x + y)) a b.
(** [Z] in the source. *)
Definition Zs (a b : gf) : gf := zip_with (fun x y => i64 (x - y)) a b.

Definition mul_row (a b : gf) (i : Z) (t : list Z) : list Z :=
  for_loop 16 0 (fun j t => set_lim t (i + j) (lim t (i + j) + i64 (lim a i * lim b j))) t.

Definition fold_high (t : list Z) : list Z :=
  for_loop 15 0 (fun i t => set_lim t i (lim t i + i64 (38 * lim t (i + 16)))) t.

Definition M (a b : gf) : gf :=
  let t := for_loop 16 0 (mul_row a b) (replicate 31 0) in
  let o := take 16 (fold_high t) in
  car25519 (car25519 o).

(** [S] in the source. *)
Definition Sq (a : gf) : gf := M a a.

(** ** Values *)

Definition P25519 : Z := 2 ^ 255 - 19.

(** The number a list of limbs of weight [2^16] stands for. *)
Fixpoint val (l : gf) : Z :=
  match l with
  | [] => 0
  | x :: l => x + 65536 * val l
  end.

Definition bounded (B : Z) (l : gf) : Prop := Forall (fun x => Z.abs x <= B) l.

(** [rep k a x]: [a] stands for [x] modulo the prime, and its limbs are those of a sum
    of at most [k] products. *)
Record rep (k : Z) (a : gf) (x : Z) : Prop := {
  rep_length : length a = 16%nat;
  rep_bounded : bounded (k * 65573) a;
  rep_val : val a mod P25519 = x mod P25519
}.

(** ** No wrap-around *)

Lemma i64_small x : - 9223372036854775808 <= x < 9223372036854775808 -> i64 x = x.
Proof. unfold i64. lia. Qed.

Lemma lim_lookup (a : gf) i x : a !! Z.to_nat i = Some x -> lim a i = x.
Proof. unfold lim. by intros ->. Qed.

Lemma lim_app_r (l : gf) x r : lim (l ++ x :: r) (Z.of_nat (length l)) = x.
Proof. apply lim_lookup. rewrite Nat2Z.id. by apply list_lookup_middle. Qed.

Lemma set_lim_app (l : gf) x r v :
  set_lim (l ++ x :: r) (Z.of_nat (length l)) v = l ++ i64 v :: r.
Proof. unfold set_lim. rewrite Nat2Z.id. by rewrite insert_app_r_alt, Nat.sub_diag by lia. Qed.

Lemma set_lim_0 x (l : gf) v : set_lim (x :: l) 0 v = i64 v :: l.
Proof. done. Qed.

Lemma set_lim_length (a : gf) i v : length (set_lim a i v) = length a.
Proof. apply length_insert. Qed.

Lemma lim_set_eq (a : gf) i v : 0 <= i < Z.of_nat (length a) -> lim (set_lim a i v) i = i64 v.
Proof. intros Hi. apply lim_lookup, list_lookup_insert_eq. lia. Qed.

Lemma lim_set_ne (a : gf) i j v : 0 <= i -> 0 <= j -> i <> j -> lim (set_lim a i v) j = lim a j.
Proof. intros Hi Hj Hij. unfold lim, set_lim. rewrite list_lookup_insert_ne by lia. done. Qed.

Lemma bounded_lim B a i : 0 <= B -> bounded B a -> Z.abs (lim a i) <= B.
Proof.
  intros HB Ha. unfold lim. destruct (a !! Z.to_nat i) as [x|] eqn:E; [|cbn; lia].
  by apply (Forall_lookup_1 _ _ _ _ Ha E).
Qed.

Lemma bounded_mono B B' a : B <= B' -> bounded B a -> bounded B' a.
Proof. intros HB Ha. eapply Forall_impl; [exact Ha|]. cbn. lia. Qed.

Lemma val_app l1 l2 : val (l1 ++ l2) = val l1 + 65536 ^ Z.of_nat (length l1) * val l2.
Proof.
  induction l1 as [|x l1 IH]; cbn [app val length]; [lia|].
  rewrite IH, Nat2Z.inj_succ, Z.pow_succ_r by lia. lia.
Qed.

(** Storing a limb. *)
Lemma val_set_lim a i v :
  0 <= i < Z.of_nat (length a) -> - 9223372036854775808 <= v < 9223372036854775808 ->
  val (set_lim a i v) = val a + (v - lim a i) * 65536 ^ i.
Proof.
  intros Hi Hv. destruct (lookup_lt_is_Some_2 a (Z.to_nat i)) as [x Hx]; [lia|].
  rewrite (lim_lookup _ _ _ Hx). unfold set_lim. rewrite i64_small by done.
  rewrite <- (take_drop_middle a (Z.to_nat i) x Hx) at 2.
  rewrite insert_take_drop by lia. rewrite !val_app. cbn [val].
  rewrite length_take. replace (Z.of_nat (Z.to_nat i `min` length a)) with i by lia. lia.
Qed.

Lemma val_bound B l :
  bounded B l -> 0 <= B -> 65535 * Z.abs (val l) <= B * (65536 ^ Z.of_nat (length l) - 1).
Proof.
  intros Hl HB. induction Hl as [|x l Hx Hl IH]; cbn [val length]; [lia|].
  rewrite Nat2Z.inj_succ, Z.pow_succ_r by lia. set (q := 65536 ^ Z.of_nat (length l)) in *. lia.
Qed.

(** ** Digits

    The limbs in [0, 2^16) of a number. *)

Fixpoint digits (n : nat) (v : Z) : gf :=
  match n with
  | O => []
  | S n => v mod 65536 :: digits n (v / 65536)
  end.

Lemma digits_length n v : length (digits n v) = n.
Proof. revert v. induction n as [|n IH]; intros v; cbn; [done|]. by rewrite IH. Qed.

Lemma digits_range n v : Forall (fun x => 0 <= x < 65536) (digits n v).
Proof. revert v. induction n as [|n IH]; intros v; cbn; constructor; [lia|apply IH]. Qed.

Lemma val_digits n v : val (digits n v) = v mod 65536 ^ Z.of_nat n.
Proof.
  revert v. induction n as [|n IH]; intros v; cbn [digits val]; [by rewrite Z.mod_1_r|].
  rewrite IH, Nat2Z.inj_succ, Z.pow_succ_r by lia.
  rewrite Z.rem_mul_r by (assert (0 < 65536 ^ Z.of_nat n) by (apply Z.pow_pos_nonneg; lia); lia). lia.
Qed.

Lemma digits_snoc n v : digits (S n) v = digits n v ++ [v / 65536 ^ Z.of_nat n mod 65536].
Proof.
  revert v. induction n as [|n IH]; intros v; [cbn; by rewrite Z.div_1_r|].
  cbn [digits] in *. rewrite IH, Nat2Z.inj_succ, Z.pow_succ_r, <- Z.div_div by lia. done.
Qed.

Lemma digits_val l : Forall (fun x => 0 <= x < 65536) l -> digits (length l) (val l) = l.
Proof.
  induction 1 as [|x l Hx Hl IH]; cbn [length digits val]; [done|].
  f_equal; [lia|]. etrans; [|exact IH]. f_equal. lia.
Qed.

(** Carrying through a list of limbs: the digits of its value, and the carry out. *)
Lemma digits_carry l c x :
  digits (S (length l)) (val (x :: l) + c)
  = (x + c) mod 65536 :: digits (length l) (val l + (x + c) / 65536).
Proof. cbn [digits val]. f_equal; [lia|]. f_equal. lia. Qed.

(** ** Carrying *)

Definition limbs_i62 (l : gf) : Prop := bounded 4611686018427387904 l.

Lemma shiftr16 x : x .>> 16 = x / 65536.
Proof. by rewrite Z.shiftr_div_pow2 by lia. Qed.
Lemma shiftl16 x : x .<< 16 = x * 65536.
Proof. by rewrite Z.shiftl_mul_pow2 by lia. Qed.

Lemma app_snoc (pre : gf) x r : pre ++ x :: r = (pre ++ [x]) ++ r.
Proof. by rewrite <- app_assoc. Qed.

Lemma car_step_mid pre x y r :
  (length pre < 15)%nat -> Z.abs x <= 4611686018427387904 + 281474976710656 ->
  Z.abs y <= 4611686018427387904 ->
  car_step (Z.of_nat (length pre)) (pre ++ x :: y :: r)
  = pre ++ x mod 65536 :: (y + x / 65536) :: r.
Proof.
  intros Hl Hx Hy. unfold car_step. change (1 .<< 16) with 65536.
  rewrite lim_app_r, set_lim_app, lim_app_r, i64_small, shiftr16 by lia.
  replace (Z.of_nat (length pre) <? 15) with true by (symmetry; apply Z.ltb_lt; lia).
  replace (Z.of_nat (length pre) =? 15) with false by (symmetry; apply Z.eqb_neq; lia).
  cbn [Z.b2z]. rewrite Z.mul_1_r, Z.mul_0_r, Z.add_0_r.
  replace (Z.of_nat (length pre) + 1) with (Z.of_nat (length (pre ++ [x + 65536])))
    by (rewrite length_app; cbn; lia).
  rewrite (app_snoc pre (x + 65536)), lim_app_r, set_lim_app, <- app_snoc.
  rewrite lim_app_r, set_lim_app, shiftl16, (i64_small (_ - 1)), !i64_small by lia.
  f_equal. f_equal; [lia|]. f_equal. lia.
Qed.

Lemma car_step_last p0 pre x :
  length pre = 14%nat -> Z.abs x <= 4611686018427387904 + 281474976710656 ->
  0 <= p0 < 65536 ->
  car_step 15 (p0 :: pre ++ [x]) = p0 + 38 * (x / 65536) :: pre ++ [x mod 65536].
Proof.
  intros Hl Hx Hp. unfold car_step. change (1 .<< 16) with 65536.
  change (p0 :: pre ++ [x]) with ((p0 :: pre) ++ [x]).
  replace 15 with (Z.of_nat (length (p0 :: pre))) by (cbn [length]; lia).
  rewrite lim_app_r, set_lim_app, lim_app_r, i64_small, shiftr16 by lia.
  cbn [length]. rewrite Hl. change (Z.of_nat 15) with 15.
  change (15 <? 15) with false. change (15 =? 15) with true. cbn [Z.b2z]. rewrite Z.mul_0_r, Z.mul_1_r.
  cbn [app]. change (lim (p0 :: pre ++ [x + 65536]) 0) with p0. rewrite set_lim_0.
  rewrite (i64_small (_ - 1 + _)), (i64_small (p0 + _)) by lia.
  set (p0' := p0 + _). change (p0' :: pre ++ [x + 65536]) with ((p0' :: pre) ++ [x + 65536]).
  replace 15 with (Z.of_nat (length (p0' :: pre))) by (cbn [length]; lia).
  rewrite lim_app_r, set_lim_app, shiftl16, i64_small by lia. subst p0'. cbn [app].
  f_equal; [lia|]. do 2 f_equal. lia.
Qed.

Lemma car_loop n pre x r :
  length r = n -> (length pre + n = 15)%nat -> Z.abs x <= 4611686018427387904 + 281474976710656 ->
  limbs_i62 r ->
  for_loop n (Z.of_nat (length pre)) car_step (pre ++ x :: r)
  = pre ++ digits n (val (x :: r)) ++ [val (x :: r) / 65536 ^ Z.of_nat n].
Proof.
  revert pre x r. induction n as [|n IH]; intros pre x r Hr Hl Hx Hb.
  - destruct r; [|done]. cbn [for_loop digits app val]. do 2 f_equal. cbn. lia.
  - destruct r as [|y r]; [done|]. apply Forall_cons in Hb as [Hy Hb].
    cbn [for_loop length] in *. rewrite car_step_mid, (app_snoc pre) by lia.
    replace (Z.of_nat (length pre) + 1) with (Z.of_nat (length (pre ++ [x mod 65536])))
      by (rewrite length_app; cbn; lia).
    rewrite IH; [|lia|rewrite length_app; cbn; lia|lia|done].
    rewrite <- app_assoc. cbn [app digits val]. f_equal. f_equal; [lia|].
    assert (E : (x + 65536 * (y + 65536 * val r)) / 65536 = y + x / 65536 + 65536 * val r) by lia.
    f_equal; [by rewrite E|]. f_equal.
    rewrite Nat2Z.inj_succ, Z.pow_succ_r, <- Z.div_div, E by lia. done.
Qed.

(** One carry pass: the digits of the value, with 38 times the carry out added to
    the lowest limb, since 2^256 is 38 modulo the prime. *)
Definition carried (v : Z) : gf :=
  match digits 16 v with
  | d0 :: l => d0 + 38 * (v / 65536 ^ 16) :: l
  | [] => []
  end.

Lemma car25519_spec o : length o = 16%nat -> limbs_i62 o -> car25519 o = carried (val o).
Proof.
  intros Hl Hb. destruct o as [|x r]; [done|]. apply Forall_cons in Hb as Hxb.
  destruct Hxb as [Hx Hr]. assert (length r = 15%nat) as Hr15 by (cbn in Hl; lia).
  unfold car25519. rewrite (for_loop_snoc 15).
  pose proof (car_loop 15 [] x r Hr15 eq_refl) as E. cbn [app length] in E.
  change (Z.of_nat 0) with 0 in E.
  rewrite E; [|lia|done]. clear E. unfold carried. set (v := val (x :: r)).
  assert (Hv : Z.abs (v / 65536 ^ 15) <= 4611686018427387904 + 281474976710656).
  { pose proof (val_bound _ _ Hb ltac:(lia)) as H. rewrite Hl in H. fold v in H.
    change (65536 ^ Z.of_nat 16) with (65536 * 65536 ^ 15) in H.
    change (65536 ^ 15) with 1766847064778384329583297500742918515827483896875618958121606201292619776 in *. lia. }
  change (digits 15 v) with (v mod 65536 :: digits 14 (v / 65536)). cbn [app].
  rewrite car_step_last; [|by rewrite digits_length|done|lia].
  replace (digits 16 v) with (v mod 65536 :: digits 14 (v / 65536) ++ [v / 65536 ^ 15 mod 65536]).
  - f_equal. change (65536 ^ 16) with (65536 ^ 15 * 65536). rewrite <- Z.div_div by lia. done.
  - by rewrite (digits_snoc 15).
Qed.

(** 2^256, and its value modulo the prime. *)
Definition W256 : Z := 65536 ^ 16.

Lemma W256_mod v : (v mod W256 + 38 * (v / W256)) mod P25519 = v mod P25519.
Proof.
  assert (W256 = 38 + 2 * P25519) as HW by reflexivity.
  assert (0 < P25519) by reflexivity. assert (0 < W256) by reflexivity.
  rewrite (Z.div_mod v W256) at 3 by lia.
  replace (W256 * (v / W256) + v mod W256) with (v mod W256 + 38 * (v / W256) + (2 * (v / W256)) * P25519)
    by (rewrite HW; ring).
  by rewrite Z.mod_add by lia.
Qed.

Lemma val_carried v : val (carried v) = v mod W256 + 38 * (v / W256).
Proof.
  unfold carried, W256. pose proof (val_digits 16 v) as H. change (Z.of_nat 16) with 16 in H.
  destruct (digits 16 v) as [|d l] eqn:E; [done|]. cbn [val] in *. rewrite <- H. lia.
Qed.

Lemma carried_length v : length (carried v) = 16%nat.
Proof.
  unfold carried. pose proof (digits_length 16 v) as H. destruct (digits 16 v); [done|]. exact H.
Qed.

Lemma carried_bounded c v : 0 <= c -> Z.abs (v / W256) <= c -> bounded (65535 + 38 * c) (carried v).
Proof.
  intros Hc Hv. unfold carried, bounded. fold W256. pose proof (digits_range 16 v) as H.
  destruct (digits 16 v) as [|d l]; [constructor|]. apply Forall_cons in H as [Hd Hl].
  constructor; [lia|]. eapply Forall_impl; [exact Hl|]. cbn. lia.
Qed.

Lemma carry_out_bound o :
  length o = 16%nat -> limbs_i62 o -> Z.abs (val o / W256) <= 140737488355328.
Proof.
  intros Hl Hb. pose proof (val_bound _ _ Hb ltac:(lia)) as H. rewrite Hl in H.
  change (65536 ^ Z.of_nat 16) with W256 in H.
  change W256 with 115792089237316195423570985008687907853269984665640564039457584007913129639936 in *. lia.
Qed.

Lemma car_twice o :
  length o = 16%nat -> limbs_i62 o -> rep 1 (car25519 (car25519 o)) (val o).
Proof.
  intros Hl Hb. rewrite (car25519_spec o) by done. set (v := val o).
  assert (Hv : Z.abs (v / W256) <= 140737488355328) by (by apply carry_out_bound).
  assert (Hb' : limbs_i62 (carried v)).
  { eapply bounded_mono; [|by apply (carried_bounded 140737488355328)]. lia. }
  rewrite car25519_spec by (done || apply carried_length).
  set (w := val (carried v)). assert (Hw : w = v mod W256 + 38 * (v / W256)) by apply val_carried.
  split.
  - apply carried_length.
  - apply (carried_bounded 1); [lia|].
    change W256 with 115792089237316195423570985008687907853269984665640564039457584007913129639936 in *. lia.
  - rewrite val_carried, W256_mod, Hw. apply W256_mod.
Qed.

(** ** Products *)

Lemma val_take_S (b : gf) j :
  0 <= j < Z.of_nat (length b) ->
  val (take (Z.to_nat (j + 1)) b) = val (take (Z.to_nat j) b) + lim b j * 65536 ^ j.
Proof.
  intros Hj. destruct (lookup_lt_is_Some_2 b (Z.to_nat j)) as [x Hx]; [lia|].
  rewrite (lim_lookup _ _ _ Hx). replace (Z.to_nat (j + 1)) with (S (Z.to_nat j)) by lia.
  rewrite (take_S_r _ _ _ Hx), val_app, length_take. cbn [val].
  replace (Z.of_nat (Z.to_nat j `min` length b)) with j by lia. lia.
Qed.

Section product.
Context (B : Z) (HB : 0 <= B <= 67108864).

(** During row [i], before column [j]: what the accumulators may hold. *)
Definition acc_ok (i j : Z) (t : list Z) : Prop :=
  length t = 31%nat /\ forall k, 0 <= k -> Z.abs (lim t k) <= (if k <? i + j then i + 1 else i) * (B * B).

Lemma mul_row_spec a b i t :
  bounded B a -> bounded B b -> length b = 16%nat -> 0 <= i < 16 -> acc_ok i 0 t ->
  acc_ok i 16 (mul_row a b i t)
  /\ val (mul_row a b i t) = val t + lim a i * val b * 65536 ^ i.
Proof.
  intros Ha Hb Hlb Hi Ht. unfold mul_row.
  pose proof (for_loop_ind (fun j t' => acc_ok i j t'
    /\ val t' = val t + lim a i * val (take (Z.to_nat j) b) * 65536 ^ i)
    (fun j t => set_lim t (i + j) (lim t (i + j) + i64 (lim a i * lim b j))) 16 0 t) as H.
  cbn beta in H. change (0 + Z.of_nat 16) with 16 in H.
  rewrite (firstn_all2 (n := Z.to_nat 16) b) in H by lia. apply H; clear H.
  { split; [done|]. change (take (Z.to_nat 0) b) with (@nil Z). cbn [val]. ring. }
  intros j t' Hj [[Hl Hk] Hv].
  pose proof (bounded_lim B a i ltac:(lia) Ha) as Hai. pose proof (bounded_lim B b j ltac:(lia) Hb) as Hbj.
  assert (Hp : Z.abs (lim a i * lim b j) <= B * B) by (rewrite Z.abs_mul; nia).
  assert (HBB : 0 <= B * B <= 4503599627370496) by nia.
  pose proof (Hk (i + j) ltac:(lia)) as Hij. rewrite Z.ltb_irrefl in Hij.
  assert (Hs : Z.abs (lim t' (i + j) + lim a i * lim b j) <= (i + 1) * (B * B)) by lia.
  assert ((i + 1) * (B * B) <= 16 * 4503599627370496) by nia.
  rewrite i64_small by lia. split; [split|].
  - by rewrite set_lim_length.
  - intros k Hk0. destruct (Z.eqb_spec k (i + j)) as [-> | Hne].
    + rewrite lim_set_eq, i64_small by lia.
      replace (i + j <? i + (j + 1)) with true by (symmetry; apply Z.ltb_lt; lia). lia.
    + rewrite lim_set_ne by lia. etrans; [by apply Hk|].
      destruct (Z.ltb_spec k (i + j)), (Z.ltb_spec k (i + (j + 1))); nia.
  - rewrite val_set_lim, Hv, val_take_S by lia. rewrite Z.pow_add_r by lia. ring.
Qed.

Lemma mul_rows_spec a b :
  bounded B a -> bounded B b -> length a = 16%nat -> length b = 16%nat ->
  let t := for_loop 16 0 (mul_row a b) (replicate 31 0) in
  acc_ok 16 0 t /\ val t = val a * val b.
Proof.
  intros Ha Hb Hla Hlb.
  pose proof (for_loop_ind (fun i t => acc_ok i 0 t /\ val t = val (take (Z.to_nat i) a) * val b)
    (mul_row a b) 16 0 (replicate 31 0)) as H.
  cbn beta in H. change (0 + Z.of_nat 16) with 16 in H.
  rewrite (firstn_all2 (n := Z.to_nat 16) a) in H by lia. apply H; clear H.
  { split; [split|done]; [done|]. intros k Hk.
    pose proof (bounded_lim 0 (replicate 31 0) k ltac:(lia) ltac:(by repeat constructor)).
    destruct (_ <? _); nia. }
  intros i t Hi [Ht Hv]. destruct (mul_row_spec a b i t) as [[Hl Hk] Hv']; try done; try lia. split.
  - split; [done|]. intros k Hk0. etrans; [by apply Hk|]. destruct (_ <? _), (_ <? _); nia.
  - rewrite Hv', Hv, val_take_S by lia. ring.
Qed.
End product.

Lemma fold_high_spec C t :
  0 <= C <= 100000000000000000 -> length t = 31%nat -> bounded C t ->
  let o := take 16 (fold_high t) in
  length o = 16%nat /\ bounded (39 * C) o /\ val o mod P25519 = val t mod P25519.
Proof.
  intros HC Hl Hb. unfold fold_high. set (h := drop 16 t).
  assert (Hh : forall i, 0 <= i -> lim h i = lim t (i + 16)).
  { intros i Hi. unfold lim, h. rewrite lookup_drop. do 2 f_equal. lia. }
  pose proof (for_loop_ind (fun i t' => length t' = 31%nat /\ drop 16 t' = h
      /\ (forall k, i <= k -> lim t' k = lim t k) /\ (forall k, 0 <= k -> Z.abs (lim t' k) <= 39 * C)
      /\ val t' = val t + 38 * val (take (Z.to_nat i) h))
    (fun i t => set_lim t i (lim t i + i64 (38 * lim t (i + 16)))) 15 0 t) as H.
  cbn beta in H. change (0 + Z.of_nat 15) with 15 in H.
  rewrite (firstn_all2 (n := Z.to_nat 15) h) in H by (unfold h; rewrite length_drop; lia).
  destruct H as (Hl' & Hd & _ & Hb' & Hv).
  { split_and!; try done.
    - intros k Hk. pose proof (bounded_lim C t k ltac:(lia) Hb). lia.
    - change (take (Z.to_nat 0) h) with (@nil Z). cbn [val]. lia. }
  { intros i t' Hi (Hl' & Hd & Hsame & Hb' & Hv).
    pose proof (bounded_lim C t i ltac:(lia) Hb). pose proof (bounded_lim C t (i + 16) ltac:(lia) Hb).
    rewrite (Hsame i), (Hsame (i + 16)) by lia. rewrite i64_small by lia. split_and!.
    - by rewrite set_lim_length.
    - unfold set_lim. by rewrite drop_insert_lt by lia.
    - intros k Hk. rewrite lim_set_ne by lia. apply Hsame. lia.
    - intros k Hk. destruct (Z.eqb_spec k i) as [-> | Hne].
      + rewrite lim_set_eq, i64_small by lia. lia.
      + rewrite lim_set_ne by lia. by apply Hb'.
    - rewrite val_set_lim, Hv, (Hsame i) by lia.
      rewrite val_take_S, Hh by (unfold h; rewrite ?length_drop; lia). ring. }
  set (t' := for_loop _ _ _ _) in *. split_and!.
  - rewrite length_take. lia.
  - apply Forall_lookup_2. intros k x Hx. apply lookup_take_Some in Hx as [Hx _].
    specialize (Hb' (Z.of_nat k) ltac:(lia)). rewrite (lim_lookup t' (Z.of_nat k) x) in Hb'; [done|].
    by rewrite Nat2Z.id.
  - rewrite <- (take_drop 16 t'), Hd, val_app, length_take, Hl' in Hv.
    change (65536 ^ Z.of_nat (16 `min` 31)) with W256 in Hv.
    assert (W256 = 38 + 2 * P25519) as HW by reflexivity.
    replace (val (take 16 t')) with (val t + (- (2 * val h)) * P25519) by (rewrite HW in Hv; lia).
    by rewrite Z.mod_add by done.
Qed.

(** ** The field operations *)

Lemma M_rep k1 k2 a b x y :
  0 <= k1 <= 1000 -> 0 <= k2 <= 1000 -> rep k1 a x -> rep k2 b y -> rep 1 (M a b) (x * y).
Proof.
  intros Hk1 Hk2 [Hla Hba Hva] [Hlb Hbb Hvb]. unfold M.
  destruct (mul_rows_spec 65573000 ltac:(lia) a b) as [[Hl Hk] Hv];
    [eapply bounded_mono; [|exact Hba]; lia|eapply bounded_mono; [|exact Hbb]; lia|exact Hla|exact Hlb|].
  set (t := for_loop _ _ _ _) in *.
  destruct (fold_high_spec 73100000000000000 t) as (Hlo & Hbo & Hvo); [lia|done|..].
  { apply Forall_lookup_2. intros k v E. specialize (Hk (Z.of_nat k) ltac:(lia)).
    rewrite (lim_lookup t (Z.of_nat k) v) in Hk by (by rewrite Nat2Z.id).
    destruct (_ <? _); lia. }
  destruct (car_twice (take 16 (fold_high t))) as [Hlr Hbr Hvr]; [done| |].
  { eapply bounded_mono; [|done]. lia. }
  split; [done..|]. rewrite Hvr, Hvo, Hv, Z.mul_mod, Hva, Hvb, <- Z.mul_mod by done. done.
Qed.

Lemma zip_bounded f B1 B2 (a b : gf) :
  (forall x y, Z.abs x <= B1 -> Z.abs y <= B2 -> Z.abs (f x y) <= B1 + B2) ->
  bounded B1 a -> bounded B2 b -> bounded (B1 + B2) (zip_with f a b).
Proof.
  intros Hf Ha. revert b. induction Ha as [|x a Hx Ha IH]; intros [|y b] Hb; cbn; try constructor.
  - apply Hf; [done|]. by inversion Hb.
  - apply IH. by inversion Hb.
Qed.

Lemma zip_val (f : Z -> Z -> Z) c B1 B2 (a b : gf) :
  (forall x y, Z.abs x <= B1 -> Z.abs y <= B2 -> f x y = x + c * y) ->
  bounded B1 a -> bounded B2 b -> length a = length b -> val (zip_with f a b) = val a + c * val b.
Proof.
  intros Hf Ha. revert b. induction Ha as [|x a Hx Ha IH]; intros [|y b] Hb Hl; cbn; try done; [lia|].
  inversion Hb; subst. rewrite IH, Hf by (done || (cbn in Hl; lia)). lia.
Qed.

Lemma i64_limbs k1 k2 u v :
  0 <= k1 <= 1000 -> 0 <= k2 <= 1000 -> Z.abs u <= k1 * 65573 -> Z.abs v <= k2 * 65573 ->
  i64 (u + v) = u + v /\ i64 (u - v) = u - v.
Proof. intros. split; apply i64_small; lia. Qed.

Lemma A_rep k1 k2 a b x y :
  0 <= k1 <= 1000 -> 0 <= k2 <= 1000 -> rep k1 a x -> rep k2 b y -> rep (k1 + k2) (A a b) (x + y).
Proof.
  intros Hk1 Hk2 [Hla Hba Hva] [Hlb Hbb Hvb]. unfold A. split.
  - rewrite length_zip_with, Hla, Hlb. done.
  - rewrite Z.mul_add_distr_r. apply zip_bounded; [|done..]. intros u v Hu Hv. rewrite (proj1 (i64_limbs k1 k2 u v Hk1 Hk2 Hu Hv)). clear -Hu Hv. lia.
  - rewrite (zip_val _ 1 (k1 * 65573) (k2 * 65573)); [|intros u v Hu Hv; rewrite Z.mul_1_l; by apply (i64_limbs k1 k2)|done|done|congruence].
    by rewrite Z.mul_1_l, Z.add_mod, Hva, Hvb, <- Z.add_mod by done.
Qed.

Lemma Zs_rep k1 k2 a b x y :
  0 <= k1 <= 1000 -> 0 <= k2 <= 1000 -> rep k1 a x -> rep k2 b y -> rep (k1 + k2) (Zs a b) (x - y).
Proof.
  intros Hk1 Hk2 [Hla Hba Hva] [Hlb Hbb Hvb]. unfold Zs. split.
  - rewrite length_zip_with, Hla, Hlb. done.
  - rewrite Z.mul_add_distr_r. apply zip_bounded; [|done..]. intros u v Hu Hv. rewrite (proj2 (i64_limbs k1 k2 u v Hk1 Hk2 Hu Hv)). clear -Hu Hv. lia.
  - rewrite (zip_val _ (-1) (k1 * 65573) (k2 * 65573)); [|intros u v Hu Hv; rewrite (proj2 (i64_limbs k1 k2 u v Hk1 Hk2 Hu Hv)); clear; lia|done|done|congruence].
    replace (val a + -1 * val b) with (val a - val b) by (clear; lia).
    by rewrite Zminus_mod, Hva, Hvb, <- Zminus_mod.
Qed.

(** ** Selection and normal form *)

Lemma sel25519_spec p q b :
  length p = length q -> b = 0 \/ b = 1 -> sel25519 p q b = if b =? 0 then (p, q) else (q, p).
Proof.
  intros Hl Hb. unfold sel25519. revert q Hl. induction p as [|x p IH]; intros [|y q] Hl; try done.
  - by destruct Hb as [-> | ->].
  - cbn in Hl. specialize (IH q ltac:(lia)). cbn [zip_with].
    destruct Hb as [-> | ->]; cbn in IH |- *; injection IH as -> ->.
    + by rewrite !Z.lxor_0_r.
    + change (Z.lnot (1 - 1)) with (-1). rewrite Z.land_m1_l. f_equal; f_equal.
      * by rewrite <- Z.lxor_assoc, Z.lxor_nilpotent, Z.lxor_0_l.
      * by rewrite Z.lxor_comm, Z.lxor_assoc, Z.lxor_nilpotent, Z.lxor_0_r.
Qed.

Lemma list_snoc_inv (l : gf) : l = [] \/ exists r z, l = r ++ [z].
Proof. induction l using rev_ind; [by left|right; eauto]. Qed.

(** A borrow, and the digit it leaves. *)
Lemma borrow_bit x : -131072 < x < 65536 -> ((x .>> 16) .& 1) = - (x / 65536) \/ x <= -65537.
Proof.
  intros Hx. rewrite shiftr16. destruct (Z_le_gt_dec x (-65537)); [by right|left].
  assert (x / 65536 = 0 \/ x / 65536 = -1) as [-> | ->] by lia; done.
Qed.

Lemma mask16 x : x .& 65535 = x mod 65536.
Proof. change 65535 with (Z.ones 16). by rewrite Z.land_ones by lia. Qed.

Lemma sub_step_mid t pre x z y :
  -65536 <= x < 65536 -> lim t (Z.of_nat (length pre) + 1) = y -> 0 <= y < 65536 ->
  sub_step t (Z.of_nat (length pre) + 1) (pre ++ x :: 0 :: z)
  = pre ++ x mod 65536 :: (y - 65535 + x / 65536) :: z.
Proof.
  intros Hx <- Hy. unfold sub_step. set (y := lim t _) in *.
  replace (Z.of_nat (length pre) + 1 - 1) with (Z.of_nat (length pre)) by lia.
  rewrite lim_app_r. destruct (borrow_bit x) as [-> |]; [lia| |lia].
  rewrite (app_snoc pre x).
  replace (Z.of_nat (length pre) + 1) with (Z.of_nat (length (pre ++ [x])))
    by (rewrite length_app; cbn; lia).
  rewrite set_lim_app, <- app_snoc, lim_app_r, set_lim_app, mask16, !i64_small by lia.
  do 3 f_equal. lia.
Qed.

Lemma sub_loop t n pre x r :
  length r = n -> -65536 <= x < 65536 -> Forall (fun y => 0 <= y < 65536) r ->
  (forall k y, r !! k = Some y -> lim t (Z.of_nat (length pre) + 1 + Z.of_nat k) = y) ->
  let v := val (x :: ((fun y => y - 65535) <$> r)) in
  for_loop n (Z.of_nat (length pre) + 1) (sub_step t) (pre ++ x :: replicate (n + 1) 0)
  = pre ++ digits n v ++ [v / 65536 ^ Z.of_nat n; 0].
Proof.
  revert pre x r. induction n as [|n IH]; intros pre x r Hr Hx Hb Ht.
  - destruct r; [|done]. cbn. do 2 f_equal. cbn. lia.
  - destruct r as [|y r]; [done|]. apply Forall_cons in Hb as [Hy Hb]. cbn zeta.
    cbn [for_loop length plus replicate fmap list_fmap val] in *.
    pose proof (Ht 0%nat y eq_refl) as Hy0. rewrite Z.add_0_r in Hy0.
    rewrite (sub_step_mid t pre x _ y) by done. rewrite app_snoc.
    replace (Z.of_nat (length pre) + 1) with (Z.of_nat (length (pre ++ [x mod 65536])))
      by (rewrite length_app; cbn; lia).
    rewrite (IH _ _ r); [|lia|lia|done|].
    2: { intros k z Hk. rewrite <- (Ht (S k) z Hk). f_equal. rewrite length_app. cbn. lia. }
    rewrite <- app_snoc. cbn [digits val app].
    set (w := val (_ <$> r)).
    assert (E : (x + 65536 * (y - 65535 + 65536 * w)) / 65536 = y - 65535 + x / 65536 + 65536 * w) by lia.
    f_equal. f_equal; [lia|]. f_equal; [by rewrite E|]. f_equal.
    rewrite Nat2Z.inj_succ, Z.pow_succ_r, <- Z.div_div, E by lia. done.
Qed.

Lemma val_shift c (r : gf) :
  val ((fun y => y - c) <$> r) = val r - c * val (replicate (length r) 1).
Proof. induction r as [|x r IH]; cbn; [lia|]. cbn in IH. rewrite IH. lia. Qed.

Lemma digits_add n v q : digits n (v + 65536 ^ Z.of_nat n * q) = digits n v.
Proof.
  revert v q. induction n as [|n IH]; intros v q; [done|]. cbn [digits].
  rewrite Nat2Z.inj_succ, Z.pow_succ_r by lia. rewrite <- (IH (v / 65536) q). f_equal; [lia|]. f_equal. lia.
Qed.

(** The last limb of the difference, whose sign is the comparison with the prime. *)
Lemma pack_top (x : Z) (r : gf) z v :
  length r = 14%nat -> 0 <= z < 65536 -> Z.abs v < 65536 ^ 15 ->
  let m := digits 14 v ++ [v / 65536 ^ Z.of_nat 14; 0] in
  let t := x :: r ++ [z] in
  let m := set_lim m 15 (lim t 15 - 32767 - ((lim m 14 .>> 16) .& 1)) in
  let b := (lim m 15 .>> 16) .& 1 in
  let D := v + 65536 ^ 15 * (z - 32767) in
  set_lim m 14 (lim m 14 .& 65535) = digits 15 D ++ [D / 65536 ^ 15] /\ b = Z.b2z (D <? 0).
Proof.
  intros Hr Hz Hv m t m' b D. set (a := v / 65536 ^ Z.of_nat 14) in *.
  change (65536 ^ 15) with (65536 * 65536 ^ Z.of_nat 14) in *.
  set (Q := 65536 ^ Z.of_nat 14) in *. assert (0 < Q) by done.
  assert (Ha : -65536 <= a < 65536).
  { unfold a. split; [apply Z.div_le_lower_bound|apply Z.div_lt_upper_bound]; lia. }
  assert (Hz15 : lim t 15 = z).
  { unfold t. change (x :: r ++ [z]) with ((x :: r) ++ [z]).
    replace 15 with (Z.of_nat (length (x :: r))) by (cbn [length]; lia). apply lim_app_r. }
  assert (H14 : Z.of_nat (length (digits 14 v)) = 14) by (by rewrite digits_length).
  assert (Hm14 : lim m 14 = a) by (rewrite <- H14; apply lim_app_r).
  assert (Em : m' = digits 14 v ++ [a; z - 32767 + a / 65536]).
  { unfold m'. rewrite Hm14, Hz15. unfold m. rewrite app_snoc.
    replace 15 with (Z.of_nat (length (digits 14 v ++ [a]))) by (rewrite length_app, digits_length; done).
    rewrite set_lim_app, <- app_snoc. destruct (borrow_bit a) as [-> |]; [lia| |lia].
    rewrite i64_small by lia. do 3 f_equal. lia. }
  assert (HDv : D / (65536 * Q) = z - 32767 + a / 65536).
  { unfold D, a. rewrite Z.add_comm, Z.mul_comm, Z.div_add_l by lia. f_equal.
    rewrite Z.mul_comm, <- Z.div_div by lia. done. }
  split.
  - rewrite Em. replace (lim _ 14) with a by (rewrite <- H14; symmetry; apply lim_app_r).
    rewrite <- H14, set_lim_app, mask16, i64_small by lia.
    rewrite (digits_snoc 14). fold Q. rewrite <- app_assoc. cbn [app]. f_equal.
    + unfold D. replace (v + 65536 * Q * (z - 32767)) with (v + Q * (65536 * (z - 32767))) by ring.
      unfold Q. by rewrite digits_add.
    + f_equal; [|f_equal; by rewrite HDv].
      unfold D, a. replace (v + 65536 * Q * (z - 32767)) with (v + (65536 * (z - 32767)) * Q) by ring.
      rewrite Z.div_add by lia. lia.
  - unfold b. rewrite Em, app_snoc.
    replace 15 with (Z.of_nat (length (digits 14 v ++ [a]))) by (rewrite length_app, digits_length; done).
    rewrite lim_app_r, <- HDv. destruct (borrow_bit (D / (65536 * Q))) as [-> |]; [lia| |lia].
    destruct (Z.ltb_spec D 0).
    + assert (D / (65536 * Q) < 0) by (apply Z.div_lt_upper_bound; lia).
      rewrite HDv in *. cbn. lia.
    + assert (0 <= D / (65536 * Q)) by (apply Z.div_pos; lia). rewrite HDv in *. cbn. lia.
Qed.

Definition in_digits (l : gf) : Prop := Forall (fun x => 0 <= x < 65536) l.

Lemma val_range l : in_digits l -> 0 <= val l < 65536 ^ Z.of_nat (length l).
Proof.
  induction 1 as [|x l Hx Hl IH]; cbn [val length]; [lia|].
  rewrite Nat2Z.inj_succ, Z.pow_succ_r by lia. lia.
Qed.

Lemma pack_round_spec t :
  length t = 16%nat -> in_digits t ->
  pack_round t = digits 16 (if val t <? P25519 then val t else val t - P25519).
Proof.
  intros Hl Hd. destruct t as [|x l]; [done|]. unfold pack_round.
  assert (exists r z, l = r ++ [z] /\ length r = 14%nat) as (r & z & -> & Hr).
  { destruct (list_snoc_inv l) as [-> | (r & z & ->)]; [done|]. exists r, z. split; [done|].
    cbn in Hl. rewrite length_app in Hl. cbn in Hl. lia. }
  apply Forall_cons in Hd as Hd'. destruct Hd' as [Hx [Hrd [Hz _]%Forall_cons]%Forall_app].
  set (t := x :: r ++ [z]) in *.
  change (lim t 0) with x. change gf0 with (0 :: replicate 15 0). rewrite set_lim_0, i64_small by lia.
  pose proof (sub_loop t 14 [] (x - 65517) r Hr ltac:(lia) Hrd) as E. cbn [app length] in E.
  change (Z.of_nat 0 + 1) with 1 in E. change (14 + 1)%nat with 15%nat in E. cbn zeta in E.
  rewrite E; clear E.
  2: { intros k y Hk. unfold t, lim. replace (Z.to_nat (1 + Z.of_nat k)) with (S k) by lia.
       change ((x :: r ++ [z]) !! S k) with ((r ++ [z]) !! k).
       rewrite lookup_app_l by (apply lookup_lt_Some in Hk; lia). by rewrite Hk. }
  set (v := val _).
  assert (Hv : Z.abs v < 65536 ^ 15).
  { assert (bounded 65535 (x - 65517 :: ((fun y => y - 65535) <$> r))) as H.
    { constructor; [lia|]. apply Forall_fmap. eapply Forall_impl; [exact Hrd|]. cbn. lia. }
    apply val_bound in H; [|lia]. fold v in H. cbn [length] in H. rewrite length_fmap, Hr in H.
    change (65536 ^ Z.of_nat 15) with (65536 ^ 15) in H. set (Q := 65536 ^ 15) in *. lia. }
  assert (HD : val t - P25519 = v + 65536 ^ 15 * (z - 32767)).
  { unfold t, v. cbn [val]. rewrite val_app, val_shift, Hr. cbn [val].
    assert (P25519 = 65517 + 65536 * (65535 * val (replicate 14 1)) + 65536 ^ 15 * 32767) as -> by reflexivity.
    change (65536 ^ 15) with (65536 * 65536 ^ Z.of_nat 14). ring. }
  assert (Ht : 0 <= val t < 65536 ^ 16).
  { pose proof (val_range t Hd) as H. by rewrite Hl in H. }
  destruct (pack_top x r z v Hr Hz Hv) as [Em Eb]. fold t in Em, Eb. rewrite Em, Eb, <- HD.
  rewrite sel25519_spec; [|by rewrite length_app, digits_length, Hl|destruct (val t - P25519 <? 0); cbn; auto].
  destruct (Z.ltb_spec (val t - P25519) 0), (Z.ltb_spec (val t) P25519); try lia; cbn [Z.b2z fst].
  - by rewrite <- (digits_val t Hd) at 1; rewrite Hl.
  - change (1 - 0 =? 0) with false. cbn [fst]. rewrite (digits_snoc 15). do 2 f_equal.
    change (Z.of_nat 15) with 15. symmetry. apply Z.mod_small. split; [by apply Z.div_pos|].
    apply Z.div_lt_upper_bound; [done|]. change (65536 ^ 15 * 65536) with (65536 ^ 16).
    assert (0 < P25519) by done. lia.
Qed.

Lemma car_thrice o :
  length o = 16%nat -> limbs_i62 o ->
  exists u, 0 <= u < W256 /\ u mod P25519 = val o mod P25519
    /\ car25519 (car25519 (car25519 o)) = digits 16 u.
Proof.
  intros Hl Hb. destruct (car_twice o Hl Hb) as [Hl2 Hb2 Hv2].
  exists (val (car25519 (car25519 o))).
  assert (Hu : 0 <= val (car25519 (car25519 o)) < W256).
  { clear Hl2 Hb2 Hv2. rewrite (car25519_spec o) by done. set (v := val o).
    assert (Hv : Z.abs (v / W256) <= 140737488355328) by (by apply carry_out_bound).
    assert (Hb' : limbs_i62 (carried v)).
    { eapply bounded_mono; [|by apply (carried_bounded 140737488355328)]. lia. }
    rewrite car25519_spec, val_carried by (done || apply carried_length).
    rewrite val_carried. clear -Hv.
    change W256 with 115792089237316195423570985008687907853269984665640564039457584007913129639936 in *. lia. }
  split_and!; [lia|lia|done|].
  rewrite car25519_spec by (done || (eapply bounded_mono; [|exact Hb2]; lia)).
  unfold carried. fold W256. rewrite Z.div_small by done.
  set (l := digits 16 _). destruct l; [done|]. by rewrite Z.add_0_r.
Qed.

(** Little-endian bytes. *)
Lemma digits_bytes n v :
  concat ((fun x => [u8 (x .& 255); u8 (x .>> 8)]) <$> digits n v) = le_bytes (2 * n) v.
Proof.
  revert v. induction n as [|n IH]; intros v; [done|].
  replace (2 * S n)%nat with (S (S (2 * n))) by lia. cbn [digits fmap list_fmap concat app le_bytes].
  cbn in IH. rewrite IH. change 255 with (Z.ones 8). rewrite Z.land_ones, Z.shiftr_div_pow2 by lia.
  unfold u8. f_equal; [lia|]. f_equal; [lia|]. f_equal. lia.
Qed.

Lemma pack25519_spec k a x : 0 <= k <= 1000 -> rep k a x -> pack25519 a = le_bytes 32 (x mod P25519).
Proof.
  intros Hk [Hl Hb Hv]. unfold pack25519.
  destruct (car_thrice a Hl) as (u & Hu & Hm & ->).
  { eapply bounded_mono; [|exact Hb]. clear -Hk. lia. }
  rewrite (pack_round_spec (digits 16 u)) by (apply digits_length || apply digits_range).
  rewrite val_digits. change (65536 ^ Z.of_nat 16) with W256. rewrite (Z.mod_small u) by done.
  assert (HW : W256 = 38 + 2 * P25519) by reflexivity. assert (HP : 100 < P25519) by reflexivity.
  set (u' := if u <? P25519 then u else u - P25519).
  assert (Hu' : 0 <= u' < W256) by (unfold u'; destruct (Z.ltb_spec u P25519); lia).
  rewrite pack_round_spec by (apply digits_length || apply digits_range).
  rewrite val_digits. change (65536 ^ Z.of_nat 16) with W256. rewrite (Z.mod_small u') by done.
  replace (if u' <? P25519 then u' else u' - P25519) with (x mod P25519).
  - by rewrite digits_bytes.
  - rewrite <- Hv, <- Hm. unfold u' in *.
    destruct (Z.ltb_spec u P25519); [by rewrite Z.mod_small, (proj2 (Z.ltb_lt u _)) by lia|].
    rewrite <- (Z.mod_add u (-1)) by lia. destruct (Z.ltb_spec (u - P25519) P25519).
    + rewrite Z.mod_small; lia.
    + rewrite <- (Z.mod_add _ (-1)) by lia. rewrite Z.mod_small; lia.
Qed.

(** ** Bytes *)

(** The limbs of a list of byte pairs. *)
Fixpoint pair_limbs (n : nat) (l : list Z) : gf :=
  match n, l with
  | S n, x :: y :: l => x + (y .<< 8) :: pair_limbs n l
  | _, _ => []
  end.

Lemma seq_pairs n (l : list Z) :
  length l = (2 * n)%nat ->
  (fun i => default 0 (l !! (2 * i)%nat) + (default 0 (l !! (2 * i + 1)%nat) .<< 8)) <$> seq 0 n
  = pair_limbs n l.
Proof.
  revert l. induction n as [|n IH]; intros l Hl; [done|].
  destruct l as [|x [|y l]]; cbn [length] in Hl; [lia..|]. cbn [pair_limbs seq fmap list_fmap].
  f_equal. rewrite <- IH by lia. rewrite <- (fmap_S_seq 0 n), <- list_fmap_compose.
  apply list_fmap_ext. intros i j _. cbn [compose].
  replace (2 * S j)%nat with (S (S (2 * j))) by lia.
  by replace (S (S (2 * j)) + 1)%nat with (S (S (2 * j + 1))) by lia.
Qed.

Lemma pair_limbs_spec n (l : list Z) :
  length l = (2 * n)%nat -> bytes_ok l ->
  length (pair_limbs n l) = n /\ in_digits (pair_limbs n l) /\ val (pair_limbs n l) = le_val l.
Proof.
  revert l. induction n as [|n IH]; intros l Hl Hb.
  - destruct l; [|cbn in Hl; lia]. split_and!; [done|constructor|done].
  - destruct l as [|x [|y l]]; cbn [length] in Hl; [lia..|]. cbn [pair_limbs val le_val length].
    apply Forall_cons in Hb as [Hx [Hy Hb]%Forall_cons].
    destruct (IH l ltac:(lia) Hb) as (H1 & H2 & H3). rewrite Z.shiftl_mul_pow2 by lia.
    split_and!; [lia|constructor; [cint|done]|lia].
Qed.

Lemma unpack25519_spec n :
  length n = 32%nat -> bytes_ok n -> rep 1 (unpack25519 n) (le_val n mod 2 ^ 255).
Proof.
  intros Hl Hb. unfold unpack25519. rewrite (seq_pairs 16 n Hl).
  destruct (pair_limbs_spec 16 n Hl Hb) as (H1 & H2 & H3). set (o := pair_limbs 16 n) in *.
  destruct (list_snoc_inv o) as [E | (r & z & E)]; [by rewrite E in H1|].
  assert (Hr : length r = 15%nat) by (rewrite E, length_app in H1; cbn in H1; lia).
  rewrite E in H2, H3 |- *. apply Forall_app in H2 as [H2 [H2z _]%Forall_cons].
  replace 15 with (Z.of_nat (length r)) by lia. rewrite lim_app_r, set_lim_app.
  change 32767 with (Z.ones 15). rewrite Z.land_ones by lia. change (2 ^ 15) with 32768.
  rewrite i64_small by lia. split.
  - rewrite length_app, Hr. done.
  - apply Forall_app. split; [|constructor; [lia|constructor]]. eapply Forall_impl; [exact H2|]. cbn. lia.
  - rewrite <- H3, !val_app. cbn [val]. f_equal. rewrite !Z.mul_0_r, !Z.add_0_r.
    pose proof (val_range r H2) as H4. rewrite Hr in *. change (65536 ^ Z.of_nat 15) with (2 ^ 240) in *.
    change (2 ^ 255) with (32768 * 2 ^ 240). set (Q := 2 ^ 240) in *. assert (0 < Q) by done.
    apply (Z.mod_unique_pos _ _ (z / 32768)); nia.
Qed.

Lemma lor_all_zero d (l : list (Z * Z)) :
  0 <= d -> Forall (fun xy => is_u8 (fst xy) /\ is_u8 (snd xy)) l ->
  let r := foldl (fun d xy => d .| (fst xy .^ snd xy)) d l in
  0 <= r /\ (d < 256 -> r < 256) /\ (r = 0 <-> d = 0 /\ Forall (fun xy => fst xy = snd xy) l).
Proof.
  intros Hd Hl. revert d Hd. induction Hl as [|[x y] l [Hx Hy] Hl IH]; intros d Hd; cbn [foldl].
  { split_and!; [done..|]. split; [done|by intros [? _]]. }
  cbn [fst snd] in *. assert (Hxy : 0 <= x .^ y) by (apply Z.lxor_nonneg; cint).
  assert (Hxy' : x .^ y < 256).
  { destruct (Z.eqb_spec (x .^ y) 0) as [-> | Hne]; [done|].
    apply Z.log2_lt_pow2 with (b := 8); [lia|]. eapply Z.le_lt_trans; [apply Z.log2_lxor; cint|].
    apply Z.max_lub_lt; [destruct (Z.eqb_spec x 0)|destruct (Z.eqb_spec y 0)]; subst; try done;
      apply Z.log2_lt_pow2; cint. }
  destruct (IH (d .| (x .^ y))) as (H1 & H2 & H3); [by apply Z.lor_nonneg|]. split_and!; [done|..].
  - intros Hd'. apply H2. destruct (Z.eqb_spec (d .| (x .^ y)) 0) as [-> | Hne]; [done|].
    apply Z.log2_lt_pow2 with (b := 8); [pose proof (proj2 (Z.lor_nonneg d (x .^ y)) (conj Hd Hxy)); lia|].
    rewrite Z.log2_lor by done. apply Z.max_lub_lt;
      [destruct (Z.eqb_spec d 0)|destruct (Z.eqb_spec (x .^ y) 0)]; subst; try done;
      try (rewrite e; done); apply Z.log2_lt_pow2; lia.
  - rewrite H3, Z.lor_eq_0_iff, Z.lxor_eq_0_iff. rewrite Forall_cons. cbn. tauto.
Qed.

Lemma crypto_verify_32_spec x y :
  bytes_ok x -> bytes_ok y -> length x = length y ->
  crypto_verify_32 x y = if bool_decide (x = y) then 0 else -1.
Proof.
  intros Hx Hy Hl. unfold crypto_verify_32.
  destruct (lor_all_zero 0 (zip x y)) as (H1 & H2 & H3); [lia|..].
  { clear -Hx Hy. revert y Hy. induction Hx as [|a x Ha Hx IH]; intros [|b y] Hy; try constructor.
    - by inversion Hy.
    - apply IH. by inversion Hy. }
  set (d := foldl _ _ _) in *. specialize (H2 ltac:(lia)).
  assert (E : d = 0 <-> x = y).
  { rewrite H3. clear -Hl. revert y Hl. induction x as [|a x IH]; intros [|b y] Hl; try done.
    cbn in *. rewrite Forall_cons. specialize (IH y ltac:(lia)). cbn. split.
    - intros (_ & -> & H). f_equal. by apply IH.
    - intros [= -> ->]. tauto. }
  case_bool_decide as Hb.
  - apply E in Hb as ->. done.
  - assert (0 < d) by (destruct (decide (d = 0)); [tauto|lia]).
    rewrite u32_small by cint. rewrite Z.shiftr_div_pow2 by lia. rewrite Z.div_small by lia. done.
Qed.
