(* ===== verification/ModL.v ===== *)
(** * Reduction modulo the group order ([src/src/crypto_ed25519.c]: [L], [modL],
      [reduce])

    A 512-bit number as 64 signed bytes, reduced from the top byte down. *)

From S2P Require Import Prelude Field25519.

Definition L : list Z :=
  [237; 211; 245; 92; 26; 99; 18; 88; 214; 156; 247; 162; 222; 249; 222; 20;
   0; 0; 0; 0; 0; 0; 0; 0; 0; 0; 0; 0; 0; 0; 0; 16].

(** One byte of the subtraction of [16 * x[i] * L] at [i - 32]: the array and the
    carry. *)
Definition modL_byte (i : Z) (j : Z) (xc : list Z * Z) : list Z * Z :=
  let '(x, carry) := xc in
  let x := set_lim x j (lim x j + i64 (carry - 16 * lim x i * lim L (j - (i - 32)))) in
  let carry := (lim x j + 128) .>> 8 in
  (set_lim x j (lim x j - (carry .<< 8)), carry).

(** The turn [i] of the first loop, [n] counting up from 0. *)
Definition modL_top (n : Z) (x : list Z) : list Z :=
  let i := 63 - n in
  let '(x, carry) := for_loop 20 (i - 32) (modL_byte i) (x, 0) in
  let j := i - 12 in
  let x := set_lim x j (lim x j + carry) in
  set_lim x i 0.

Definition modL_low (j : Z) (xc : list Z * Z) : list Z * Z :=
  let '(x, carry) := xc in
  let x := set_lim x j (lim x j + i64 (carry - (lim x 31 .>> 4) * lim L j)) in
  (set_lim x j (lim x j .& 255), lim x j .>> 8).

Definition modL_out (i : Z) (xr : list Z * list Z) : list Z * list Z :=
  let '(x, r) := xr in
  let x := set_lim x (i + 1) (lim x (i + 1) + (lim x i .>> 8)) in
  (x, r ++ [u8 (lim x i .& 255)]).

Definition modL (x : list Z) : list Z :=
  let x := for_loop 32 0 modL_top x in
  let '(x, carry) := for_loop 32 0 modL_low (x, 0) in
  let x := for_loop 32 0 (fun j x => set_lim x j (lim x j - i64 (carry * lim L j))) x in
  snd (for_loop 32 0 modL_out (x, [])).

(** The result replaces the first 32 of the 64 bytes; the others become zero. *)
Definition reduce (r : list Z) : list Z := modL r ++ replicate 32 0.

(** ** Values *)

(** The order of the group of the base point. *)
Definition Lval : Z := 2 ^ 252 + 27742317777372353535851937790883648493.

Lemma le_val_set_lim a i v :
  0 <= i < Z.of_nat (length a) -> - 9223372036854775808 <= v < 9223372036854775808 ->
  le_val (set_lim a i v) = le_val a + (v - lim a i) * 256 ^ i.
Proof.
  intros Hi Hv. destruct (lookup_lt_is_Some_2 a (Z.to_nat i)) as [x Hx]; [lia|].
  rewrite (lim_lookup _ _ _ Hx). unfold set_lim. rewrite i64_small by done.
  rewrite <- (take_drop_middle a (Z.to_nat i) x Hx) at 2.
  rewrite insert_take_drop by lia. rewrite !le_val_app. cbn [le_val].
  rewrite length_take. replace (Z.of_nat (Z.to_nat i `min` length a)) with i by lia. lia.
Qed.

Lemma le_val_take_S (b : gf) j :
  0 <= j < Z.of_nat (length b) ->
  le_val (take (Z.to_nat (j + 1)) b) = le_val (take (Z.to_nat j) b) + lim b j * 256 ^ j.
Proof.
  intros Hj. destruct (lookup_lt_is_Some_2 b (Z.to_nat j)) as [x Hx]; [lia|].
  rewrite (lim_lookup _ _ _ Hx). replace (Z.to_nat (j + 1)) with (S (Z.to_nat j)) by lia.
  rewrite (take_S_r _ _ _ Hx), le_val_app, length_take. cbn [le_val].
  replace (Z.of_nat (Z.to_nat j `min` length b)) with j by lia. lia.
Qed.

Lemma le_val_bound B l :
  0 <= B -> Forall (fun x => Z.abs x <= B) l -> 255 * Z.abs (le_val l) <= B * (256 ^ Z.of_nat (length l) - 1).
Proof.
  intros HB Hl. induction Hl as [|x l Hx Hl IH]; cbn [le_val length]; [lia|].
  rewrite Nat2Z.inj_succ, Z.pow_succ_r by lia. set (q := 256 ^ Z.of_nat (length l)) in *. lia.
Qed.

Lemma lim_L_bound k : 0 <= lim L k <= 255.
Proof.
  unfold lim. destruct (L !! Z.to_nat k) as [x|] eqn:E; [|cbn; lia]. cbn.
  assert (Forall (fun x => 0 <= x <= 255) L) as H by (unfold L; repeat (constructor; [lia|]); constructor).
  exact (Forall_lookup_1 _ _ _ _ H E).
Qed.

Lemma lim_L_zero k : 16 <= k < 20 -> lim L k = 0.
Proof. intros Hk. assert (k = 16 \/ k = 17 \/ k = 18 \/ k = 19) as [-> | [-> | [-> | ->]]] by lia; done. Qed.

(** ** One byte position *)

(** Bound on the carry after [k] bytes. *)
Definition cb (k : Z) : Z := if k <=? 16 then 5000 else if k =? 17 then 22 else 2.

Lemma carry_next x carry y k :
  Z.abs x <= 300 -> Z.abs carry <= cb k -> Z.abs y <= 300 -> 0 <= k < 20 ->
  let s := x + (carry - 16 * y * lim L k) in
  Z.abs ((s + 128) / 256) <= cb (k + 1) /\ Z.abs s <= 1300000
  /\ -128 <= s - (s + 128) / 256 * 256 <= 127.
Proof.
  intros Hx Hc Hy Hk s.
  assert (Hs : Z.abs s <= 300 + cb k + (if k <? 16 then 16 * 300 * 255 else 0)).
  { unfold s. destruct (Z.ltb_spec k 16).
    - pose proof (lim_L_bound k). assert (Z.abs (y * lim L k) <= 300 * 255) by (rewrite Z.abs_mul; nia).
      replace (16 * y * lim L k) with (16 * (y * lim L k)) by ring. lia.
    - rewrite lim_L_zero by lia. lia. }
  clear Hx Hc Hy. clearbody s. revert Hs. destruct (Z.ltb_spec k 16); intros Hs.
  - unfold cb in *. rewrite (proj2 (Z.leb_le k 16)) in Hs by lia.
    rewrite (proj2 (Z.leb_le (k + 1) 16)) by lia. lia.
  - assert (k = 16 \/ k = 17 \/ k = 18 \/ k = 19) as [-> | [-> | [-> | ->]]] by lia.
    + change (cb 16) with 5000 in Hs. change (cb (16 + 1)) with 22. lia.
    + change (cb 17) with 22 in Hs. change (cb (17 + 1)) with 2. lia.
    + change (cb 18) with 2 in Hs. change (cb (18 + 1)) with 2. lia.
    + change (cb 19) with 2 in Hs. change (cb (19 + 1)) with 2. lia.
Qed.

Section top.
Context (i : Z) (Hi : 32 <= i <= 63) (x0 : list Z) (Hl0 : length x0 = 64%nat)
  (Hb0 : forall m, 0 <= m -> Z.abs (lim x0 m) <= 300).

(** After [k] bytes of turn [i]. *)
Definition top_inv (j : Z) (xc : list Z * Z) : Prop :=
  let '(x, carry) := xc in
  let k := j - (i - 32) in
  length x = 64%nat /\ Z.abs carry <= cb k
  /\ (forall m, 0 <= m -> m < i - 32 \/ j <= m -> lim x m = lim x0 m)
  /\ (forall m, i - 32 <= m < j -> -128 <= lim x m <= 127)
  /\ le_val x + carry * 256 ^ j
     = le_val x0 - 16 * lim x0 i * le_val (take (Z.to_nat k) L) * 256 ^ (i - 32).

Lemma modL_byte_inv j xc :
  i - 32 <= j < i - 12 -> top_inv j xc -> top_inv (j + 1) (modL_byte i j xc).
Proof.
  intros Hj. destruct xc as [x carry]. intros (Hl & Hc & Hsame & Hdone & Hv). unfold modL_byte.
  rewrite (Hsame i) by lia. rewrite (Hsame j) by lia.
  destruct (carry_next (lim x0 j) carry (lim x0 i) (j - (i - 32))) as (H1 & H2 & H3);
    [apply Hb0; lia|done|apply Hb0; lia|lia|].
  set (s := lim x0 j + (carry - 16 * lim x0 i * lim L (j - (i - 32)))) in *.
  pose proof (Hb0 j ltac:(lia)) as Hj0.
  rewrite (i64_small (carry - _)) by (unfold s in H2; lia). fold s.
  rewrite lim_set_eq by lia. rewrite (i64_small s) by lia.
  rewrite Z.shiftr_div_pow2, Z.shiftl_mul_pow2 by lia. change (2 ^ 8) with 256.
  set (c' := (s + 128) / 256) in *. unfold top_inv.
  replace (j + 1 - (i - 32)) with (j - (i - 32) + 1) by lia. split_and!.
  - by rewrite !set_lim_length.
  - done.
  - intros m Hm Hm'. rewrite !lim_set_ne by lia. apply Hsame; lia.
  - intros m Hm. destruct (Z.eqb_spec m j) as [-> | Hne].
    + rewrite lim_set_eq by (rewrite set_lim_length; lia). rewrite i64_small by lia. done.
    + rewrite !lim_set_ne by lia. apply Hdone. lia.
  - rewrite !le_val_set_lim by (rewrite ?set_lim_length; lia).
    rewrite lim_set_eq, i64_small, (Hsame j) by lia.
    rewrite le_val_take_S by (change (Z.of_nat (length L)) with 32; lia).
    rewrite Z.pow_add_r by lia. replace (256 ^ j) with (256 ^ (j - (i - 32)) * 256 ^ (i - 32)) in *
      by (rewrite <- Z.pow_add_r by lia; f_equal; lia).
    set (Q := 256 ^ (i - 32)) in *. set (R := 256 ^ (j - (i - 32))) in *. unfold s.
    replace (le_val x) with (le_val x0 - 16 * lim x0 i * le_val (take (Z.to_nat (j - (i - 32))) L) * Q
      - carry * (R * Q)) by lia. ring.
Qed.
End top.

(** ** The turns of the first loop *)

(** What byte [m] may hold before turn [i]. *)
Definition bnd (i m : Z) : Z :=
  if i <? m then 0 else if i =? 63 then 255 else if 51 <=? m then 300
  else if i - 12 <? m then 130 else if i - 32 <? m then 128 else 255.

Definition turn_inv (v n : Z) (x : list Z) : Prop :=
  length x = 64%nat /\ (forall m, 0 <= m -> Z.abs (lim x m) <= bnd (63 - n) m)
  /\ le_val x mod Lval = v mod Lval.

Lemma bnd_300 i m : bnd i m <= 300.
Proof. unfold bnd. repeat case_match; lia. Qed.

Ltac bnd_cases :=
  unfold bnd in *;
  repeat match goal with
  | H : context [?a <? ?b] |- _ => destruct (Z.ltb_spec a b)
  | H : context [?a <=? ?b] |- _ => destruct (Z.leb_spec a b)
  | H : context [?a =? ?b] |- _ => destruct (Z.eqb_spec a b)
  | |- context [?a <? ?b] => destruct (Z.ltb_spec a b)
  | |- context [?a <=? ?b] => destruct (Z.leb_spec a b)
  | |- context [?a =? ?b] => destruct (Z.eqb_spec a b)
  end; lia.

Lemma modL_top_inv v n x : 0 <= n < 32 -> turn_inv v n x -> turn_inv v (n + 1) (modL_top n x).
Proof.
  intros Hn (Hl & Hb & Hv). unfold modL_top. remember (63 - n) as i eqn:Ei.
  assert (Hi : 32 <= i <= 63) by lia.
  assert (Hb3 : forall m, 0 <= m -> Z.abs (lim x m) <= 300).
  { intros m Hm. etrans; [by apply Hb|apply bnd_300]. }
  pose proof (for_loop_ind (top_inv i x) (modL_byte i) 20 (i - 32) (x, 0)) as H.
  replace (i - 32 + Z.of_nat 20) with (i - 12) in H by lia.
  destruct (for_loop 20 (i - 32) (modL_byte i) (x, 0)) as [x' carry].
  destruct H as (Hl' & Hc & Hsame & Hdone & Hv').
  { split_and!; [done|by rewrite Z.sub_diag|done|lia|]. rewrite Z.sub_diag.
    change (take (Z.to_nat 0) L) with (@nil Z). cbn [le_val]. ring. }
  { intros j xc Hj. apply modL_byte_inv; [done..|lia]. }
  replace (i - 12 - (i - 32)) with 20 in * by lia. change (cb 20) with 2 in Hc.
  assert (Hx12 : Z.abs (lim x' (i - 12) + carry) <= 302).
  { rewrite (Hsame (i - 12)) by lia. pose proof (Hb3 (i - 12) ltac:(lia)). lia. }
  unfold turn_inv. replace (63 - (n + 1)) with (i - 1) by lia. split_and!.
  - by rewrite !set_lim_length.
  - intros m Hm. destruct (Z.eqb_spec m i) as [-> | Hmi].
    { rewrite lim_set_eq, i64_small by (rewrite ?set_lim_length; lia). clear -Hi. bnd_cases. }
    rewrite lim_set_ne by lia. destruct (Z.eqb_spec m (i - 12)) as [-> | Hm12].
    { rewrite lim_set_eq, i64_small by lia. rewrite (Hsame (i - 12)) by lia.
      specialize (Hb (i - 12) ltac:(lia)). clear -Hb Hi Hc. bnd_cases. }
    rewrite lim_set_ne by lia. destruct (Z_lt_dec m (i - 32)) as [H1|H1]; [|destruct (Z_lt_dec m (i - 12)) as [H2|H2]].
    + rewrite Hsame by lia. specialize (Hb m Hm). clear -Hb Hi Hm H1. bnd_cases.
    + specialize (Hdone m ltac:(lia)). clear -Hdone Hi Hm H1 H2. bnd_cases.
    + rewrite Hsame by lia. specialize (Hb m Hm). clear -Hb Hi Hm Hmi Hm12 H2. bnd_cases.
  - rewrite !le_val_set_lim by (rewrite ?set_lim_length; lia).
    rewrite lim_set_ne, (Hsame i) by lia. rewrite <- Hv.
    assert (HL : 16 * Lval = 16 * le_val (take (Z.to_nat 20) L) + 256 ^ 32) by reflexivity.
    replace (256 ^ i) with (256 ^ 32 * 256 ^ (i - 32)) by (rewrite <- Z.pow_add_r by lia; f_equal; lia).
    set (Q := 256 ^ (i - 32)) in *. set (R := 256 ^ (i - 12)) in *.
    replace (le_val x' + _ + _) with (le_val x + (- (16 * lim x i * Q)) * Lval) by (clear -Hv' HL; nia).
    by rewrite Z.mod_add.
Qed.

(** After the first loop: 32 small bytes. *)
Lemma modL_tops x :
  length x = 64%nat -> bytes_ok x ->
  exists y, for_loop 32 0 modL_top x = y ++ replicate 32 0 /\ length y = 32%nat
    /\ Forall (fun z => Z.abs z <= 130) y /\ le_val y mod Lval = le_val x mod Lval.
Proof.
  intros Hl Hb. pose proof (for_loop_ind (turn_inv (le_val x)) modL_top 32 0 x) as H.
  change (0 + Z.of_nat 32) with 32 in H. set (r := for_loop 32 0 modL_top x) in *.
  destruct H as (Hr & Hbr & Hv).
  { split_and!; [done| |done]. intros m Hm. unfold lim.
    destruct (x !! Z.to_nat m) as [z|] eqn:E.
    - pose proof (Forall_lookup_1 _ _ _ _ Hb E) as Hz. apply lookup_lt_Some in E.
      change (63 - 0) with 63. cbn [from_option id]. unfold bnd, is_u8 in *.
      destruct (Z.ltb_spec 63 m); [lia|]. cbn. lia.
    - change (Z.abs (default 0 None)) with 0. unfold bnd. repeat case_match; lia. }
  { intros n s Hn. apply modL_top_inv. lia. }
  assert (Hlook : forall k z, r !! k = Some z -> Z.abs z <= bnd 31 (Z.of_nat k)).
  { intros k z E. specialize (Hbr (Z.of_nat k) ltac:(lia)).
    by rewrite (lim_lookup r _ z) in Hbr by (by rewrite Nat2Z.id). }
  exists (take 32 r).
  assert (Hd : drop 32 r = replicate 32 0).
  { symmetry. apply replicate_as_Forall. split; [rewrite length_drop; lia|].
    apply Forall_lookup_2. intros k z E. rewrite lookup_drop in E. apply Hlook in E.
    revert E. unfold bnd. rewrite (proj2 (Z.ltb_lt 31 _)) by lia. lia. }
  split_and!.
  - by rewrite <- Hd, take_drop.
  - rewrite length_take. lia.
  - apply Forall_lookup_2. intros k z E. apply lookup_take_Some in E as [E Hk]. apply Hlook in E.
    clear -E Hk. bnd_cases.
  - rewrite <- Hv. f_equal. rewrite <- (take_drop 32 r) at 2. rewrite Hd, le_val_app.
    change (le_val (replicate 32 0)) with 0. lia.
Qed.

(** ** The remainder *)

Section low.
Context (x0 : list Z) (Hl0 : length x0 = 64%nat) (Hb0 : forall m, 0 <= m -> Z.abs (lim x0 m) <= 130).

Definition low_inv (j : Z) (xc : list Z * Z) : Prop :=
  let '(x, carry) := xc in
  length x = 64%nat /\ Z.abs carry <= 20
  /\ (forall m, j <= m -> lim x m = lim x0 m)
  /\ (forall m, 0 <= m < j -> 0 <= lim x m <= 255)
  /\ le_val x + carry * 256 ^ j = le_val x0 - lim x0 31 / 16 * le_val (take (Z.to_nat j) L).

Lemma modL_low_inv j xc : 0 <= j < 32 -> low_inv j xc -> low_inv (j + 1) (modL_low j xc).
Proof.
  intros Hj. destruct xc as [x carry]. intros (Hl & Hc & Hsame & Hdone & Hv). unfold modL_low.
  rewrite (Hsame 31), (Hsame j) by lia. rewrite !Z.shiftr_div_pow2 by lia.
  change (2 ^ 4) with 16. change (2 ^ 8) with 256.
  pose proof (Hb0 31 ltac:(lia)) as H31. pose proof (Hb0 j ltac:(lia)) as Hxj.
  pose proof (lim_L_bound j) as HLj. set (q := lim x0 31 / 16) in *.
  assert (Hq : Z.abs (q * lim L j) <= 9 * 255).
  { assert (Z.abs q <= 9) by (subst q; lia). rewrite Z.abs_mul. nia. }
  rewrite (i64_small (carry - _)) by lia.
  set (s := lim x0 j + (carry - q * lim L j)). assert (Hs : Z.abs s <= 2500) by (subst s; lia).
  rewrite lim_set_eq, i64_small by lia. change (s .& 255) with (s .& Z.ones 8).
  rewrite Z.land_ones by lia. change (2 ^ 8) with 256. split_and!.
  - by rewrite !set_lim_length.
  - clearbody s. lia.
  - intros m Hm. rewrite !lim_set_ne by lia. apply Hsame. lia.
  - intros m Hm. destruct (Z.eqb_spec m j) as [-> | Hne].
    + rewrite lim_set_eq by (rewrite set_lim_length; lia). rewrite i64_small; clearbody s; lia.
    + rewrite !lim_set_ne by lia. apply Hdone. lia.
  - rewrite !le_val_set_lim by (rewrite ?set_lim_length; clearbody s; lia).
    rewrite lim_set_eq, i64_small, (Hsame j) by lia.
    rewrite le_val_take_S by (change (Z.of_nat (length L)) with 32; lia).
    rewrite Z.pow_add_r by lia. change (256 ^ 1) with 256. set (R := 256 ^ j) in *.
    rewrite (Z.mod_eq s 256) by lia.
    replace (le_val x) with (le_val x0 - q * le_val (take (Z.to_nat j) L) - carry * R) by lia.
    fold q. set (t := s / 256). unfold s. ring.
Qed.

Lemma modL_lows :
  let '(x, carry) := for_loop 32 0 modL_low (x0, 0) in
  length x = 64%nat /\ (forall m, 0 <= m < 32 -> 0 <= lim x m <= 255)
  /\ (forall m, 32 <= m -> lim x m = lim x0 m)
  /\ le_val x + carry * 256 ^ 32 = le_val x0 - lim x0 31 / 16 * Lval.
Proof.
  pose proof (for_loop_ind low_inv modL_low 32 0 (x0, 0)) as H. change (0 + Z.of_nat 32) with 32 in H.
  destruct (for_loop 32 0 modL_low (x0, 0)) as [x carry].
  destruct H as (Hl & _ & Hsame & Hdone & Hv).
  { split_and!; [done|done|done|lia|]. change (take (Z.to_nat 0) L) with (@nil Z). cbn [le_val]. ring. }
  { intros j s Hj. apply modL_low_inv. lia. }
  split_and!; [done..|]. rewrite Hv. by change (le_val (take (Z.to_nat 32) L)) with Lval.
Qed.
End low.

(** Subtraction of [carry * L]. *)
Lemma modL_sub x carry :
  length x = 64%nat -> (forall m, 0 <= m < 32 -> 0 <= lim x m <= 255) -> carry = 0 \/ carry = -1 ->
  let x' := for_loop 32 0 (fun j x => set_lim x j (lim x j - i64 (carry * lim L j))) x in
  length x' = 64%nat /\ (forall m, 0 <= m < 32 -> 0 <= lim x' m <= 510)
  /\ (forall m, 32 <= m -> lim x' m = lim x m) /\ le_val x' = le_val x - carry * Lval.
Proof.
  intros Hl Hb Hc.
  pose proof (for_loop_ind (fun j x' => length x' = 64%nat
      /\ (forall m, 0 <= m < 32 -> 0 <= lim x' m <= 510) /\ (forall m, j <= m -> lim x' m = lim x m)
      /\ le_val x' = le_val x - carry * le_val (take (Z.to_nat j) L))
    (fun j x => set_lim x j (lim x j - i64 (carry * lim L j))) 32 0 x) as H.
  cbn beta in H. change (0 + Z.of_nat 32) with 32 in H.
  change (le_val (take (Z.to_nat 32) L)) with Lval in H. apply H; clear H.
  { split_and!; [done| |done|].
    - intros m Hm. specialize (Hb m Hm). lia.
    - change (take (Z.to_nat 0) L) with (@nil Z). cbn [le_val]. ring. }
  intros j x' Hj (Hl' & Hb' & Hsame & Hv). pose proof (lim_L_bound j) as HLj.
  specialize (Hb j ltac:(lia)). rewrite (Hsame j) by lia.
  assert (Hs : 0 <= lim x j - carry * lim L j <= 510) by (destruct Hc as [-> | ->]; lia).
  rewrite (i64_small (carry * _)) by lia. split_and!.
  - by rewrite set_lim_length.
  - intros m Hm. destruct (Z.eqb_spec m j) as [-> | Hne].
    + rewrite lim_set_eq, i64_small; lia.
    + rewrite lim_set_ne by lia. by apply Hb'.
  - intros m Hm. rewrite lim_set_ne by lia. apply Hsame. lia.
  - rewrite le_val_set_lim, Hv, (Hsame j), le_val_take_S by (change (Z.of_nat (length L)) with 32; lia). ring.
Qed.

Lemma le_bytes_snoc n v : le_bytes (S n) v = le_bytes n v ++ [v / 256 ^ Z.of_nat n mod 256].
Proof.
  revert v. induction n as [|n IH]; intros v; [cbn; by rewrite Z.div_1_r|].
  cbn [le_bytes] in *. rewrite IH, Nat2Z.inj_succ, Z.pow_succ_r, <- Z.div_div by lia. done.
Qed.

Lemma modL_outs x :
  length x = 64%nat -> (forall m, 0 <= m < 32 -> 0 <= lim x m <= 510) -> (forall m, 32 <= m -> lim x m = 0) ->
  snd (for_loop 32 0 modL_out (x, [])) = le_bytes 32 (le_val x).
Proof.
  intros Hl Hb H0. pose proof (for_loop_ind (fun i '(x', r) => length x' = 64%nat
      /\ 0 <= le_val (take (Z.to_nat i) x) / 256 ^ i <= 2
      /\ lim x' i = lim x i + le_val (take (Z.to_nat i) x) / 256 ^ i
      /\ (forall m, i < m -> lim x' m = lim x m) /\ r = le_bytes (Z.to_nat i) (le_val x))
    modL_out 32 0 (x, [])) as H.
  cbn beta in H. change (0 + Z.of_nat 32) with 32 in H.
  destruct (for_loop 32 0 modL_out (x, [])) as [x' r]. apply H; clear H x' r.
  { split_and!; try done. change (take (Z.to_nat 0) x) with (@nil Z). cbn [le_val]. rewrite Z.div_0_l by done. lia. }
  intros i [x' r] Hi (Hl' & Hc & Hxi & Hsame & ->). unfold modL_out. set (c := _ / 256 ^ i) in *.
  pose proof (Hb i ltac:(lia)) as Hbi.
  assert (Hnext : le_val (take (Z.to_nat (i + 1)) x) / 256 ^ (i + 1) = (lim x i + c) / 256).
  { rewrite le_val_take_S, Z.pow_add_r by lia. change (256 ^ 1) with 256.
    rewrite <- Z.div_div, Z.div_add by lia. subst c. f_equal. lia. }
  assert (Hbyte : le_val x / 256 ^ i mod 256 = (lim x i + c) mod 256).
  { rewrite <- (take_drop (Z.to_nat (i + 1)) x) at 1. rewrite le_val_app, le_val_take_S by lia.
    rewrite length_take. replace (Z.of_nat (Z.to_nat (i + 1) `min` length x)) with (i + 1) by lia.
    rewrite Z.pow_add_r by lia. change (256 ^ 1) with 256. set (w := le_val (drop _ _)).
    replace (_ + _ * 256 ^ i + _) with (le_val (take (Z.to_nat i) x) + (lim x i + 256 * w) * 256 ^ i) by ring.
    rewrite Z.div_add by lia. fold c. replace (c + (lim x i + 256 * w)) with (lim x i + c + w * 256) by ring.
    by rewrite Z.mod_add by lia. }
  assert (Hn1 : 0 <= lim x (i + 1) <= 510).
  { destruct (Z_lt_dec (i + 1) 32); [apply Hb; lia|rewrite H0 by lia; lia]. }
  rewrite (Hsame (i + 1)) by lia. rewrite Hxi, !Z.shiftr_div_pow2 by lia. change (2 ^ 8) with 256.
  rewrite (lim_set_ne _ (i + 1) i), Hxi by lia. rewrite Hnext. clearbody c. split_and!.
  - by rewrite set_lim_length.
  - lia.
  - lia.
  - rewrite lim_set_eq, i64_small by lia. done.
  - intros m Hm. rewrite lim_set_ne by lia. apply Hsame. lia.
  - replace (Z.to_nat (i + 1)) with (S (Z.to_nat i)) by lia. rewrite le_bytes_snoc. do 2 f_equal.
    replace (Z.of_nat (Z.to_nat i)) with i by lia. rewrite Hbyte.
    change 255 with (Z.ones 8). rewrite Z.land_ones by lia. unfold u8. lia.
Qed.

(** The quotient estimated from the top byte is off by at most one. *)
Lemma quotient_estimate y x31 low carry v :
  v = low + x31 * 256 ^ 31 -> 255 * Z.abs low <= 130 * (256 ^ 31 - 1) -> Z.abs x31 <= 130 ->
  0 <= y < 256 ^ 32 -> y + carry * 256 ^ 32 = v - x31 / 16 * Lval ->
  (carry = 0 \/ carry = -1) /\ (y - carry * Lval) mod 256 ^ 32 = v mod Lval.
Proof.
  intros Hv Hlow Hx Hy Hc. set (q := x31 / 16) in *.
  assert (HL : Lval = 16 * 256 ^ 31 + 27742317777372353535851937790883648493) by reflexivity.
  assert (HR : v - q * Lval = (x31 - 16 * q) * 256 ^ 31 + low - q * 27742317777372353535851937790883648493).
  { rewrite Hv, HL. ring. }
  assert (Hr : 0 <= x31 - 16 * q <= 15) by (subst q; lia).
  assert (Hq : Z.abs q <= 9) by (subst q; lia).
  assert (Hd : Z.abs (q * 27742317777372353535851937790883648493) <= 9 * 27742317777372353535851937790883648493) by lia.
  assert (HW : 256 ^ 32 = 256 * 256 ^ 31) by reflexivity.
  assert (HB : 1000000 * 27742317777372353535851937790883648493 < 256 ^ 31) by reflexivity.
  set (B := 256 ^ 31) in *. set (d := 27742317777372353535851937790883648493) in *.
  set (r := x31 - 16 * q) in *. assert (Hrb : 0 <= r * B <= 15 * B) by nia.
  assert (HB0 : 0 < B) by done. clearbody B d r. rewrite HW in *. clear HW.
  assert (Hrange : - B < v - q * Lval < 16 * B) by lia.
  assert (Hcarry : carry = 0 \/ carry = -1) by (rewrite <- Hc in Hrange; clear -Hrange Hy HB0; nia).
  split; [done|]. destruct Hcarry as [-> | ->].
  - rewrite Z.mul_0_l, Z.sub_0_r, Z.mod_small by lia.
    replace v with (v - q * Lval + q * Lval) by ring. rewrite Z.mod_add, Z.mod_small by lia. lia.
  - replace (y - -1 * Lval) with (v - q * Lval + Lval + 1 * (256 * B)) by lia.
    rewrite Z.mod_add by lia. replace v with (v - q * Lval + Lval + (q - 1) * Lval) at 2 by ring.
    rewrite Z.mod_add by lia. rewrite !Z.mod_small by lia. done.
Qed.

Lemma le_bytes_mod n v : le_bytes n (v mod 256 ^ Z.of_nat n) = le_bytes n v.
Proof.
  apply le_val_inj; [apply le_bytes_ok..|by rewrite !le_bytes_length|].
  rewrite !le_val_bytes. apply Z.mod_mod. lia.
Qed.

(** The 64-byte number is replaced by its remainder modulo the group order. *)
Lemma reduce_spec r :
  length r = 64%nat -> bytes_ok r -> reduce r = le_bytes 32 (le_val r mod Lval) ++ replicate 32 0.
Proof.
  intros Hl Hb. unfold reduce. f_equal. unfold modL.
  destruct (modL_tops r Hl Hb) as (y & -> & Hy & Hyb & Hv). set (x0 := y ++ replicate 32 0).
  assert (Hl0 : length x0 = 64%nat) by (unfold x0; rewrite length_app, Hy; done).
  assert (Hb0 : forall m, 0 <= m -> Z.abs (lim x0 m) <= 130).
  { intros m _. apply bounded_lim; [lia|]. apply Forall_app. split; [done|]. apply Forall_replicate. lia. }
  assert (Hz0 : forall m, 32 <= m -> lim x0 m = 0).
  { intros m Hm. unfold lim, x0. rewrite lookup_app_r by lia.
    destruct (replicate 32 0 !! (Z.to_nat m - length y)%nat) as [z|] eqn:E; [|done].
    by apply lookup_replicate_1 in E as [-> _]. }
  pose proof (modL_lows x0 Hl0 Hb0) as HL.
  destruct (for_loop 32 0 modL_low (x0, 0)) as [x carry]. destruct HL as (Hxl & Hxb & Hxs & Hxv).
  assert (Hx0 : le_val x0 = le_val (take 31 y) + lim x0 31 * 256 ^ 31).
  { pose proof (le_val_take_S y 31) as H. rewrite Hy in H. specialize (H ltac:(lia)).
    rewrite (firstn_all2 (n := Z.to_nat (31 + 1)) y) in H by lia. unfold x0 at 1. rewrite le_val_app.
    change (le_val (replicate 32 0)) with 0. rewrite Z.mul_0_r, Z.add_0_r, H. do 2 f_equal.
    unfold lim, x0. by rewrite lookup_app_l by lia. }
  assert (Hlow : 255 * Z.abs (le_val (take 31 y)) <= 130 * (256 ^ 31 - 1)).
  { pose proof (le_val_bound 130 (take 31 y) ltac:(lia) (Forall_take _ _ _ Hyb)) as H.
    rewrite length_take, Hy in H. exact H. }
  assert (Hrange : 0 <= le_val x < 256 ^ 32).
  { assert (Hd : drop 32 x = replicate 32 0).
    { symmetry. apply replicate_as_Forall. split; [rewrite length_drop; lia|].
      apply Forall_lookup_2. intros k z E. rewrite lookup_drop in E.
      rewrite <- (Hz0 (Z.of_nat (32 + k))), <- Hxs by lia. apply lim_lookup. by rewrite Nat2Z.id. }
    rewrite <- (take_drop 32 x), Hd, le_val_app. change (le_val (replicate 32 0)) with 0.
    assert (Hok : bytes_ok (take 32 x)).
    { apply Forall_lookup_2. intros k z E. apply lookup_take_Some in E as [E Hk].
      specialize (Hxb (Z.of_nat k) ltac:(lia)). rewrite (lim_lookup x _ z) in Hxb by (by rewrite Nat2Z.id).
      unfold is_u8. lia. }
    pose proof (le_val_range _ Hok) as H. rewrite length_take, Hxl in H.
    change (256 ^ Z.of_nat (32 `min` 64)) with (256 ^ 32) in H. lia. }
  destruct (quotient_estimate (le_val x) (lim x0 31) (le_val (take 31 y)) carry (le_val x0)) as [Hc Hm];
    [done..|apply Hb0; lia|done|done|].
  destruct (modL_sub x carry Hxl Hxb Hc) as (Hl2 & Hb2 & Hs2 & Hv2).
  rewrite modL_outs; [|done|done|intros m Hm'; rewrite Hs2, Hxs by lia; by apply Hz0].
  rewrite <- le_bytes_mod, Hv2. change (256 ^ Z.of_nat 32) with (256 ^ 32). rewrite Hm, <- Hv.
  do 2 f_equal. unfold x0. rewrite le_val_app. change (le_val (replicate 32 0)) with 0. lia.
Qed.
