(* ===== verification/Ed25519.v ===== *)
(** * Ed25519 and X25519 ([src/src/crypto_ed25519.c]: [unpackneg], [add],
      [scalarmult], [crypto_ed25519_verify], [crypto_scalarmult])

    The point arithmetic is written over an interface, [FieldOps]: the operations
    [A], [Z], [M] and the conversions that the code calls.  The code is the instance on
    limbs; the specification is the instance on numbers modulo the prime. *)

From S2P Require Import Prelude Sha2 Field25519 ModL.

(** ** The interface *)

Class FieldOps (F : Type) := {
  fA : F -> F -> F;
  fZ : F -> F -> F;
  fM : F -> F -> F;
  fsel : F -> F -> Z -> F * F;
  fpack : F -> list Z;
  funpack : list Z -> F;
  fconst : gf -> F
}.

(** The constants of the code. *)
Definition D : gf :=
  [30883; 4953; 19914; 30187; 55467; 16705; 2637; 112; 59544; 30585; 16505; 36039; 65139; 11119; 27886; 20995].
Definition D2 : gf :=
  [61785; 9906; 39828; 60374; 45398; 33411; 5274; 224; 53552; 61171; 33010; 6542; 64743; 22239; 55772; 9222].
Definition X : gf :=
  [54554; 36645; 11616; 51542; 42930; 38181; 51040; 26924; 56412; 64982; 57905; 49316; 21502; 52590; 14035; 8553].
Definition Y : gf :=
  [26200; 26214; 26214; 26214; 26214; 26214; 26214; 26214; 26214; 26214; 26214; 26214; 26214; 26214; 26214; 26214].
Definition I : gf :=
  [41136; 18958; 6951; 50414; 58488; 44335; 6150; 12099; 55207; 15867; 153; 11085; 57099; 20417; 9344; 11139].
Definition _121665 : gf := [56129; 1; 0; 0; 0; 0; 0; 0; 0; 0; 0; 0; 0; 0; 0; 0].

Section curve.
Context {F : Type} `{FieldOps F}.

Definition fS (a : F) : F := fM a a.

(** ** Powers *)

Definition inv25519 (i : F) : F :=
  for_loop 254 0 (fun n c =>
    let a := 253 - n in
    let c := fS c in
    if negb (a =? 2) && negb (a =? 4) then fM c i else c) i.

Definition pow2523 (i : F) : F :=
  for_loop 251 0 (fun n c =>
    let a := 250 - n in
    let c := fS c in
    if negb (a =? 1) then fM c i else c) i.

(** ** Points in extended coordinates *)

Record ge := Ge { gX : F; gY : F; gZ : F; gT : F }.

Definition fneq (a b : F) : Z := crypto_verify_32 (fpack a) (fpack b).
Definition fpar (a : F) : Z := default 0 (fpack a !! 0%nat) .& 1.

(** The candidate for the square root of [num / den]. *)
Definition root_candidate (num den : F) : F :=
  let den2 := fS den in
  let den4 := fS den2 in
  let den6 := fM den4 den2 in
  let t := fM den6 num in
  let t := fM t den in
  let t := pow2523 t in
  let t := fM t num in
  let t := fM t den in
  let t := fM t den in
  fM t den.

(** Decompression of the negated point. *)
Definition unpackneg (p : list Z) : option ge :=
  let r2 := fconst gf1 in
  let r1 := funpack p in
  let num := fS r1 in
  let den := fM num (fconst D) in
  let num := fZ num r2 in
  let den := fA r2 den in
  let r0 := root_candidate num den in
  let chk := fM (fS r0) den in
  let r0 := if negb (fneq chk num =? 0) then fM r0 (fconst I) else r0 in
  let chk := fM (fS r0) den in
  if negb (fneq chk num =? 0) then None
  else
    let r0 := if fpar r0 =? (default 0 (p !! 31%nat) .>> 7) then fZ (fconst gf0) r0 else r0 in
    Some (Ge r0 r1 r2 (fM r0 r1)).

Definition add (p q : ge) : ge :=
  let a := fM (fZ (gY p) (gX p)) (fZ (gY q) (gX q)) in
  let b := fM (fA (gX p) (gY p)) (fA (gX q) (gY q)) in
  let c := fM (fM (gT p) (gT q)) (fconst D2) in
  let d := fM (gZ p) (gZ q) in
  let d := fA d d in
  let e := fZ b a in
  let f := fZ d c in
  let g := fA d c in
  let h := fA b a in
  Ge (fM e f) (fM h g) (fM g f) (fM e h).

Definition cswap (p q : ge) (b : Z) : ge * ge :=
  let '(x1, x2) := fsel (gX p) (gX q) b in
  let '(y1, y2) := fsel (gY p) (gY q) b in
  let '(z1, z2) := fsel (gZ p) (gZ q) b in
  let '(t1, t2) := fsel (gT p) (gT q) b in
  (Ge x1 y1 z1 t1, Ge x2 y2 z2 t2).

Definition pack (p : ge) : list Z :=
  let zi := inv25519 (gZ p) in
  let tx := fM (gX p) zi in
  let ty := fM (gY p) zi in
  let r := fpack ty in
  <[31%nat := u8 (default 0 (r !! 31%nat) .^ (fpar tx .<< 7))]> r.

(** One turn of the ladder; [i] counts down from 255. *)
Definition ladder_step (s : list Z) (n : Z) (pq : ge * ge) : ge * ge :=
  let i := 255 - n in
  let b := (default 0 (s !! Z.to_nat (i / 8)) .>> (i mod 8)) .& 1 in
  let '(p, q) := cswap pq.1 pq.2 b in
  let q := add q p in
  let p := add p p in
  cswap p q b.

Definition scalarmult (q : ge) (s : list Z) : ge :=
  let p := Ge (fconst gf0) (fconst gf1) (fconst gf1) (fconst gf0) in
  fst (for_loop 256 0 (ladder_step s) (p, q)).

Definition scalarbase (s : list Z) : ge :=
  scalarmult (Ge (fconst X) (fconst Y) (fconst gf1) (fM (fconst X) (fconst Y))) s.

(** ** Signature verification; [mem] is whether the buffer for the hash could be
    allocated. *)
Definition crypto_ed25519_verify (mem : bool) (signature message public_key : list Z) : Z :=
  match unpackneg public_key with
  | None => 0
  | Some q =>
      if negb mem then 0
      else
        let h := crypto_sha512 (take 32 signature ++ public_key ++ message) in
        let h := reduce h in
        let p := scalarmult q h in
        let q := scalarbase (drop 32 signature) in
        let p := add p q in
        let t := pack p in
        if crypto_verify_32 (take 32 signature) t =? 0 then 1 else 0
  end.

(** ** X25519 *)

Record mont := Mont { ma : F; mb : F; mc : F; md : F }.

Definition mont_step (z : list Z) (x : F) (n : Z) (m : mont) : mont :=
  let i := 254 - n in
  let r := (default 0 (z !! Z.to_nat (i .>> 3)) .>> (i .& 7)) .& 1 in
  let '(a, b) := fsel (ma m) (mb m) r in
  let '(c, d) := fsel (mc m) (md m) r in
  let e := fA a c in
  let a := fZ a c in
  let c := fA b d in
  let b := fZ b d in
  let d := fS e in
  let f := fS a in
  let a := fM c a in
  let c := fM b e in
  let e := fA a c in
  let a := fZ a c in
  let b := fS a in
  let c := fZ d f in
  let a := fM c (fconst _121665) in
  let a := fA a d in
  let c := fM c a in
  let a := fM d f in
  let d := fM b x in
  let b := fS e in
  let '(a, b) := fsel a b r in
  let '(c, d) := fsel c d r in
  Mont a b c d.

Definition clamp (n : list Z) : list Z :=
  let z := take 31 n ++ [(default 0 (n !! 31%nat) .& 127) .| 64] in
  <[0%nat := default 0 (z !! 0%nat) .& 248]> z.

Definition crypto_scalarmult (n p : list Z) : list Z :=
  let z := clamp n in
  let x := funpack p in
  let m := for_loop 255 0 (mont_step z x) (Mont (fconst gf1) x (fconst gf0) (fconst gf1)) in
  let c := inv25519 (mc m) in
  fpack (fM (ma m) c).

Definition crypto_scalarmult_base (n : list Z) : list Z :=
  crypto_scalarmult n (9 :: replicate 31 0).
End curve.

Arguments ge : clear implicits.
Arguments mont : clear implicits.

(** ** The two instances *)

#[export] Instance gf_ops : FieldOps gf := {|
  fA := A; fZ := Zs; fM := M; fsel := sel25519;
  fpack := pack25519; funpack := unpack25519; fconst := id
|}.

(** Numbers modulo the prime. *)
Definition Fp : Type := Z.
#[export] Instance Fp_ops : FieldOps Fp := {|
  fA := fun x y => (x + y) mod P25519;
  fZ := fun x y => (x - y) mod P25519;
  fM := fun x y => (x * y) mod P25519;
  fsel := fun x y b => if b =? 0 then (x, y) else (y, x);
  fpack := fun x => le_bytes 32 (x mod P25519);
  funpack := fun n => (le_val n mod 2 ^ 255) mod P25519;
  fconst := fun c => val c mod P25519
|}.

(** ** The limbs implement the numbers *)

Lemma rep_mod k a x : rep k a x -> rep k a (x mod P25519).
Proof. intros [Hl Hb Hv]. split; [done..|]. by rewrite Z.mod_mod. Qed.

Lemma rep_mono k k' a x : k <= k' -> rep k a x -> rep k' a x.
Proof. intros Hk [Hl Hb Hv]. split; [done| |done]. eapply bounded_mono; [|exact Hb]. lia. Qed.

Lemma fM_rep k1 k2 (a b : gf) (x y : Fp) :
  rep k1 a x -> rep k2 b y -> 0 <= k1 <= 1000 -> 0 <= k2 <= 1000 -> rep 1 (fM a b) (fM x y).
Proof. intros Ha Hb H1 H2. apply rep_mod. by apply (M_rep k1 k2). Qed.

Lemma fA_rep k1 k2 (a b : gf) (x y : Fp) :
  rep k1 a x -> rep k2 b y -> 0 <= k1 <= 1000 -> 0 <= k2 <= 1000 -> rep (k1 + k2) (fA a b) (fA x y).
Proof. intros Ha Hb H1 H2. apply rep_mod. by apply A_rep. Qed.

Lemma fZ_rep k1 k2 (a b : gf) (x y : Fp) :
  rep k1 a x -> rep k2 b y -> 0 <= k1 <= 1000 -> 0 <= k2 <= 1000 -> rep (k1 + k2) (fZ a b) (fZ x y).
Proof. intros Ha Hb H1 H2. apply rep_mod. by apply Zs_rep. Qed.

Lemma fconst_rep c : length c = 16%nat -> in_digits c -> rep 1 (fconst (F := gf) c) (fconst (F := Fp) c).
Proof.
  intros Hl Hd. apply rep_mod. split; [done| |done]. eapply Forall_impl; [exact Hd|]. cbn. lia.
Qed.

Ltac const_rep :=
  apply fconst_rep; [reflexivity | repeat (constructor; [lia|]); constructor].

Lemma gf0_rep : rep 1 (fconst (F := gf) gf0) (fconst (F := Fp) gf0).
Proof. const_rep. Qed.
Lemma gf1_rep : rep 1 (fconst (F := gf) gf1) (fconst (F := Fp) gf1).
Proof. const_rep. Qed.
Lemma D_rep : rep 1 (fconst (F := gf) D) (fconst (F := Fp) D).
Proof. const_rep. Qed.
Lemma D2_rep : rep 1 (fconst (F := gf) D2) (fconst (F := Fp) D2).
Proof. const_rep. Qed.
Lemma X_rep : rep 1 (fconst (F := gf) X) (fconst (F := Fp) X).
Proof. const_rep. Qed.
Lemma Y_rep : rep 1 (fconst (F := gf) Y) (fconst (F := Fp) Y).
Proof. const_rep. Qed.
Lemma I_rep : rep 1 (fconst (F := gf) I) (fconst (F := Fp) I).
Proof. const_rep. Qed.
Lemma _121665_rep : rep 1 (fconst (F := gf) _121665) (fconst (F := Fp) _121665).
Proof. const_rep. Qed.

Create HintDb rep discriminated.
#[export] Hint Resolve gf0_rep gf1_rep D_rep D2_rep X_rep Y_rep I_rep _121665_rep : rep.

(** Follow the expression; the number of summands is found on the way. *)
Ltac rep_tac :=
  lazymatch goal with
  | |- rep _ (fM _ _) _ => eapply fM_rep; [rep_tac..|lia|lia]
  | |- rep _ (fS _) _ => eapply fM_rep; [rep_tac..|lia|lia]
  | |- rep _ (fA _ _) _ => eapply fA_rep; [rep_tac..|lia|lia]
  | |- rep _ (fZ _ _) _ => eapply fZ_rep; [rep_tac..|lia|lia]
  | |- rep _ (fconst _) _ => solve [auto with rep nocore]
  | |- rep _ _ _ => first [eassumption | solve [eauto with rep nocore]]
  end.

Lemma funpack_rep n :
  length n = 32%nat -> bytes_ok n -> rep 1 (funpack (F := gf) n) (funpack (F := Fp) n).
Proof. intros Hl Hb. apply rep_mod. by apply unpack25519_spec. Qed.

Lemma fpack_rep k (a : gf) (x : Fp) : rep k a x -> 0 <= k <= 1000 -> fpack a = fpack x.
Proof. intros Ha Hk. by apply (pack25519_spec k). Qed.

Lemma fsel_rep k (a b : gf) (x y : Fp) c :
  rep k a x -> rep k b y -> c = 0 \/ c = 1 ->
  rep k (fsel a b c).1 (fsel x y c).1 /\ rep k (fsel a b c).2 (fsel x y c).2.
Proof.
  intros Ha Hb Hc. cbn [fsel gf_ops Fp_ops].
  rewrite sel25519_spec; [|by rewrite (rep_length _ _ _ Ha), (rep_length _ _ _ Hb)|done].
  destruct Hc as [-> | ->]; done.
Qed.

Lemma for_loop_rel {S1 S2} (R : S1 -> S2 -> Prop) f1 f2 n i s1 s2 :
  R s1 s2 -> (forall j a b, R a b -> R (f1 j a) (f2 j b)) ->
  R (for_loop n i f1 s1) (for_loop n i f2 s2).
Proof. intros H0 Hf. apply for_loop_rel_in; [done|]. intros j a b _. apply Hf. Qed.

Lemma inv25519_rep (a : gf) (x : Fp) : rep 1 a x -> rep 1 (inv25519 a) (inv25519 x).
Proof.
  intros Ha. unfold inv25519. apply (for_loop_rel (rep 1)); [done|].
  intros j b y Hb. cbv zeta. destruct (_ && _); rep_tac.
Qed.

Lemma pow2523_rep (a : gf) (x : Fp) : rep 1 a x -> rep 1 (pow2523 a) (pow2523 x).
Proof.
  intros Ha. unfold pow2523. apply (for_loop_rel (rep 1)); [done|].
  intros j b y Hb. cbv zeta. destruct (negb _); rep_tac.
Qed.
#[export] Hint Resolve inv25519_rep pow2523_rep : rep.

Record ge_rep (p : ge gf) (q : ge Fp) : Prop := {
  ge_rep_X : rep 2 (gX p) (gX q);   (** a negated coordinate is a difference *)
  ge_rep_Y : rep 1 (gY p) (gY q);
  ge_rep_Z : rep 1 (gZ p) (gZ q);
  ge_rep_T : rep 1 (gT p) (gT q)
}.
#[export] Hint Resolve ge_rep_X ge_rep_Y ge_rep_Z ge_rep_T : rep.

Lemma add_rep p q p' q' : ge_rep p p' -> ge_rep q q' -> ge_rep (add p q) (add p' q').
Proof.
  intros [HX HY HZ HT] [HX' HY' HZ' HT']. unfold add. cbv zeta.
  assert (Ha : rep 1 (fM (fZ (gY p) (gX p)) (fZ (gY q) (gX q))) (fM (fZ (gY p') (gX p')) (fZ (gY q') (gX q')))) by rep_tac.
  assert (Hb : rep 1 (fM (fA (gX p) (gY p)) (fA (gX q) (gY q))) (fM (fA (gX p') (gY p')) (fA (gX q') (gY q')))) by rep_tac.
  assert (Hc : rep 1 (fM (fM (gT p) (gT q)) (fconst D2)) (fM (fM (gT p') (gT q')) (fconst D2))) by rep_tac.
  assert (Hd : rep 1 (fM (gZ p) (gZ q)) (fM (gZ p') (gZ q'))) by rep_tac.
  revert Ha Hb Hc Hd. set (a := fM (fZ _ _) _). set (a' := fM (fZ _ _) _). clearbody a a'.
  set (b := fM (fA _ _) _). set (b' := fM (fA _ _) _). clearbody b b'.
  set (c := fM _ (fconst D2)). set (c' := fM _ (fconst D2)). clearbody c c'.
  set (d := fM (gZ p) _). set (d' := fM (gZ p') _). clearbody d d'. clear.
  intros. split; cbn [gX gY gZ gT]; [apply (rep_mono 1); [done|]|..]; rep_tac.
Qed.

Definition opt_rep (p : option (ge gf)) (q : option (ge Fp)) : Prop :=
  match p, q with
  | Some p, Some q => ge_rep p q
  | None, None => True
  | _, _ => False
  end.

Lemma fneq_rep k1 k2 (a b : gf) (x y : Fp) :
  rep k1 a x -> rep k2 b y -> 0 <= k1 <= 1000 -> 0 <= k2 <= 1000 -> fneq a b = fneq x y.
Proof. intros Ha Hb H1 H2. unfold fneq. by rewrite (fpack_rep k1 a x), (fpack_rep k2 b y). Qed.

Lemma fpar_rep (a : gf) (x : Fp) : rep 1 a x -> fpar a = fpar x.
Proof. intros Ha. unfold fpar. by rewrite (fpack_rep 1 a x). Qed.

Lemma root_candidate_rep (num den : gf) (n d : Fp) :
  rep 2 num n -> rep 2 den d -> rep 1 (root_candidate num den) (root_candidate n d).
Proof.
  intros Hn Hd. unfold root_candidate. cbv zeta.
  assert (H2 : rep 1 (fS den) (fS d)) by rep_tac.
  assert (H4 : rep 1 (fS (fS den)) (fS (fS d))) by rep_tac.
  assert (Ht : rep 1 (fM (fM (fM (fS (fS den)) (fS den)) num) den) (fM (fM (fM (fS (fS d)) (fS d)) n) d))
    by rep_tac.
  pose proof (pow2523_rep _ _ Ht) as Hp. rep_tac.
Qed.

Lemma unpackneg_rep p :
  length p = 32%nat -> bytes_ok p -> opt_rep (unpackneg (F := gf) p) (unpackneg (F := Fp) p).
Proof.
  intros Hl Hb. unfold unpackneg. cbv zeta.
  pose proof (funpack_rep p Hl Hb) as Hy. set (y := funpack (F := gf) p) in *.
  set (y' := funpack (F := Fp) p) in *.
  assert (Hnum : rep 2 (fZ (fS y) (fconst gf1)) (fZ (fS y') (fconst gf1))).
  { change 2 with (1 + 1). rep_tac. }
  assert (Hden : rep 2 (fA (fconst gf1) (fM (fS y) (fconst D))) (fA (fconst gf1) (fM (fS y') (fconst D)))).
  { change 2 with (1 + 1). rep_tac. }
  revert Hnum Hden. set (num := fZ (fS y) _). set (num' := fZ (fS y') _).
  set (den := fA _ (fM (fS y) _)). set (den' := fA _ (fM (fS y') _)). clearbody num num' den den' y y'.
  intros Hnum Hden. pose proof (root_candidate_rep _ _ _ _ Hnum Hden) as Hr.
  set (r := root_candidate num den) in *. set (r' := root_candidate num' den') in *. clearbody r r'.
  rewrite (fneq_rep 1 2 (fM (fS r) den) num (fM (fS r') den') num') by (rep_tac || lia).
  set (s := if negb (fneq (fM (fS r') den') num' =? 0) then fM r (fconst I) else r).
  set (s' := if negb (fneq (fM (fS r') den') num' =? 0) then fM r' (fconst I) else r').
  assert (Hs : rep 1 s s').
  { subst s s'. destruct (negb _); rep_tac. }
  clearbody s s'.
  rewrite (fneq_rep 1 2 (fM (fS s) den) num (fM (fS s') den') num') by (rep_tac || lia).
  destruct (negb _); [exact Logic.I|]. cbn [opt_rep].
  rewrite (fpar_rep s s' Hs).
  set (x := if fpar s' =? _ then fZ _ s else s). set (x' := if fpar s' =? _ then fZ _ s' else s').
  assert (Hx : rep 2 x x').
  { subst x x'. destruct (_ =? _); [change 2 with (1 + 1); rep_tac|by apply (rep_mono 1)]. }
  split; cbn [gX gY gZ gT]; rep_tac.
Qed.

Lemma cswap_rep p q p' q' b :
  ge_rep p p' -> ge_rep q q' -> b = 0 \/ b = 1 ->
  ge_rep (cswap p q b).1 (cswap p' q' b).1 /\ ge_rep (cswap p q b).2 (cswap p' q' b).2.
Proof.
  intros [HX HY HZ HT] [HX' HY' HZ' HT'] Hb. unfold cswap.
  destruct (fsel_rep _ _ _ _ _ b HX HX' Hb), (fsel_rep _ _ _ _ _ b HY HY' Hb),
    (fsel_rep _ _ _ _ _ b HZ HZ' Hb), (fsel_rep _ _ _ _ _ b HT HT' Hb).
  do 8 (destruct (fsel _ _ b)). cbn [fst snd] in *. by split; split.
Qed.

Lemma bit_cases x n : (x .>> n) .& 1 = 0 \/ (x .>> n) .& 1 = 1.
Proof. pose proof (Z.land_ones (x .>> n) 1 ltac:(lia)) as H. change (Z.ones 1) with 1 in H. change (2 ^ 1) with 2 in H. lia. Qed.

Lemma scalarmult_rep q q' s : ge_rep q q' -> ge_rep (scalarmult q s) (scalarmult q' s).
Proof.
  intros Hq. unfold scalarmult. cbv zeta.
  assert (H0 : ge_rep (Ge (fconst gf0) (fconst gf1) (fconst gf1) (fconst gf0))
                 (Ge (fconst gf0) (fconst gf1) (fconst gf1) (fconst gf0))).
  { split; cbn [gX gY gZ gT]; [apply (rep_mono 1); [done|]|..]; rep_tac. }
  refine (proj1 (for_loop_rel (fun a b => ge_rep a.1 b.1 /\ ge_rep a.2 b.2) _ _ 256 0 (_, q) (_, q')
    (conj H0 Hq) _)).
  intros j [p1 q1] [p2 q2] [Hp Hq1]. cbn [fst snd] in *. unfold ladder_step. cbn [fst snd].
  set (b := _ .& 1). assert (Hb : b = 0 \/ b = 1) by apply bit_cases. clearbody b.
  destruct (cswap_rep _ _ _ _ b Hp Hq1 Hb) as [H1 H2].
  destruct (cswap p1 q1 b) as [p3 q3], (cswap p2 q2 b) as [p4 q4]. cbn [fst snd] in *.
  apply cswap_rep; [by apply add_rep..|done].
Qed.

Lemma scalarbase_rep s : ge_rep (scalarbase (F := gf) s) (scalarbase (F := Fp) s).
Proof.
  apply scalarmult_rep. split; cbn [gX gY gZ gT]; [apply (rep_mono 1); [done|]|..]; rep_tac.
Qed.

Lemma pack_rep p p' : ge_rep p p' -> pack p = pack p'.
Proof.
  intros [HX HY HZ HT]. unfold pack. cbv zeta. pose proof (inv25519_rep _ _ HZ) as Hi.
  rewrite (fpack_rep 1 (fM (gY p) _) (fM (gY p') (inv25519 (gZ p')))) by (rep_tac || lia).
  rewrite (fpar_rep (fM (gX p) _) (fM (gX p') (inv25519 (gZ p')))) by rep_tac. done.
Qed.
