(* ===== verification/Ed25519Spec.v ===== *)
(** * What the signature check computes

    The code of [Ed25519] against a description on numbers: powers modulo the prime
    for the inverse and the square root, a ladder over the bits of a number for the
    scalar multiplication, and the equation of the curve -x^2 + y^2 = 1 + d x^2 y^2. *)

From S2P Require Import Prelude Sha2 Field25519 ModL Ed25519.

(** ** Powers *)

Definition step_pow (sq : bool) (e : Z) : Z := if sq then 2 * e + 1 else 2 * e.

(** A loop of squarings, with a product by [x] where [f] says so, is a power. *)
Lemma pow_loop (f : Z -> bool) (x : Fp) n i c e :
  0 <= e -> c mod P25519 = x ^ e mod P25519 ->
  for_loop n i (fun n c => let c := fS c in if f n then fM c x else c) c mod P25519
  = x ^ for_loop n i (fun n e => step_pow (f n) e) e mod P25519.
Proof.
  revert i c e. induction n as [|n IH]; intros i c e He Hc; cbn [for_loop]; [done|].
  apply IH; [unfold step_pow; destruct (f i); lia|]. cbv zeta.
  assert (Hs : fS c mod P25519 = x ^ (2 * e) mod P25519).
  { unfold fS. cbn [fM Fp_ops]. rewrite Z.mod_mod, Z.mul_mod, Hc, <- Z.mul_mod by done.
    f_equal. rewrite <- Z.pow_add_r by (clear -He; lia). f_equal. clear. lia. }
  unfold step_pow. destruct (f i); [|done]. change (fM (fS c) x) with ((fS c * x) mod P25519).
  rewrite Z.mod_mod, Z.mul_mod, Hs, <- Z.mul_mod by done. f_equal.
  by rewrite Z.pow_add_r, Z.pow_1_r by (clear -He; lia).
Qed.

#[local] Opaque for_loop.

Lemma inv25519_pow (x : Fp) : inv25519 x mod P25519 = x ^ (P25519 - 2) mod P25519.
Proof.
  unfold inv25519.
  etrans; [apply (pow_loop (fun n => negb (253 - n =? 2) && negb (253 - n =? 4)) x 254 0 x 1)|].
  - lia.
  - by rewrite Z.pow_1_r.
  - match goal with |- _ ^ ?e mod _ = _ ^ ?e' mod _ => assert (e = e') as -> by (vm_compute; reflexivity) end.
    reflexivity.
Qed.

Lemma pow2523_pow (x : Fp) : pow2523 x mod P25519 = x ^ ((P25519 - 5) / 8) mod P25519.
Proof.
  unfold pow2523. etrans; [apply (pow_loop (fun n => negb (250 - n =? 1)) x 251 0 x 1)|].
  - lia.
  - by rewrite Z.pow_1_r.
  - match goal with |- _ ^ ?e mod _ = _ ^ ?e' mod _ => assert (e = e') as -> by (vm_compute; reflexivity) end.
    reflexivity.
Qed.

(** ** The ladder over a number *)

Definition ladder_bit (n : Z) (k : Z) (pq : ge Fp * ge Fp) : ge Fp * ge Fp :=
  if Z.testbit n (255 - k)
  then (add pq.1 pq.2, add pq.2 pq.2)
  else (add pq.1 pq.1, add pq.2 pq.1).

Definition ladder (n : Z) (q : ge Fp) : ge Fp :=
  fst (for_loop 256 0 (ladder_bit n) (Ge (fconst gf0) (fconst gf1) (fconst gf1) (fconst gf0), q)).

Lemma le_val_testbit l i :
  bytes_ok l -> 0 <= i ->
  Z.testbit (le_val l) i = Z.testbit (default 0 (l !! Z.to_nat (i / 8))) (i mod 8).
Proof.
  intros Hl. revert i. induction Hl as [|x l Hx Hl IH]; intros i Hi.
  { rewrite lookup_nil. cbn [le_val from_option]. by rewrite !Z.testbit_0_l. }
  cbn [le_val]. replace (x + 256 * le_val l) with ((le_val l .<< 8) .| x)
    by (rewrite lor_shiftl; cint).
  rewrite Z.lor_spec, Z.shiftl_spec by lia. destruct (Z_lt_dec i 8) as [H8 | H8].
  - rewrite Z.testbit_neg_r, Z.div_small, Z.mod_small by lia. done.
  - rewrite IH by lia.
    rewrite (Z.bits_above_log2 x i).
    + rewrite orb_false_r. replace (Z.to_nat (i / 8)) with (S (Z.to_nat ((i - 8) / 8))) by lia.
      cbn [lookup list_lookup]. f_equal. lia.
    + cint.
    + destruct (Z.eqb_spec x 0) as [-> |]; [cbn; lia|]. apply Z.log2_lt_pow2; [cint|].
      unfold is_u8 in Hx. assert (2 ^ 8 <= 2 ^ i) by (apply Z.pow_le_mono_r; lia). lia.
Qed.

Lemma bit_testbit x i : 0 <= i -> (x .>> i) .& 1 = Z.b2z (Z.testbit x i).
Proof.
  intros Hi. rewrite Z.testbit_spec' by done. rewrite <- Z.shiftr_div_pow2 by done.
  exact (Z.land_ones (x .>> i) 1 ltac:(lia)).
Qed.

Lemma cswap_swap (p q : ge Fp) (b : bool) : cswap p q (Z.b2z b) = if b then (q, p) else (p, q).
Proof. destruct p, q, b; done. Qed.

Lemma scalarmult_ladder (q : ge Fp) (s : list Z) :
  bytes_ok s -> scalarmult q s = ladder (le_val s) q.
Proof.
  intros Hs. unfold scalarmult, ladder. cbv zeta. f_equal.
  apply for_loop_ext. intros k pq Hk. unfold ladder_step, ladder_bit. rewrite bit_testbit, cswap_swap by lia.
  rewrite le_val_testbit by (done || lia). set (b := Z.testbit _ _). clearbody b.
  destruct b; by rewrite cswap_swap.
Qed.

(** ** The curve *)

Definition dval : Z := val D.

(** A point in extended coordinates: [T = XY/Z], and the equation of the curve. *)
Record on_curve (p : ge Fp) : Prop := {
  oc_T : eqm P25519 (gX p * gY p) (gZ p * gT p);
  oc_eq : eqm P25519 (gY p * gY p - gX p * gX p) (gZ p * gZ p + dval * gT p * gT p)
}.

Lemma eqm_divide a b : eqm P25519 a b <-> exists k, a - b = k * P25519.
Proof.
  unfold eqm. split.
    - intros H. exists (a / P25519 - b / P25519). rewrite (Z.div_mod a P25519), (Z.div_mod b P25519) at 1
     by done.
    rewrite H. ring.
  - intros [k H]. replace a with (b + k * P25519) by lia. by rewrite Z.mod_add.
Qed.

(** The addition formulas without the reductions. *)
Section formulas.
Context (X1 Y1 Z1 T1 X2 Y2 Z2 T2 d : Z).

Definition eE : Z := 2 * (X1 * Y2 + Y1 * X2).
Definition eF : Z := 2 * (Z1 * Z2 - d * T1 * T2).
Definition eG : Z := 2 * (Z1 * Z2 + d * T1 * T2).
Definition eH : Z := 2 * (Y1 * Y2 + X1 * X2).

(** The equation of the sum is a combination of the equations of the summands. *)
Lemma sum_equation :
  (eH * eG) * (eH * eG) - (eE * eF) * (eE * eF) - ((eG * eF) * (eG * eF) + d * (eE * eH) * (eE * eH))
  = 16 * (
    ((-2) * X1^2 * X2^3 * Y2 * d + (-2) * X1^2 * X2 * Y2^3 * d + (-1) * X1 * Y1 * X2^4 * d + (-6) * X1 *
     Y1 * X2^2 * Y2^2 * d + (-1) * X1 * Y1 * Y2^4 * d + (-2) * Y1^2 * X2^3 * Y2 * d + (-2) * Y1^2 * X2 *
     Y2^3 * d + (-1) * Z1 * T1 * X2^4 * d + (-6) * Z1 * T1 * X2^2 * Y2^2 * d + (8) * Z1 * T1 * X2 * Y2 *
     Z2 * T2 * d + (-1) * Z1 * T1 * Y2^4 * d) * (X1 * Y1 - Z1 * T1)
    + ((-4) * X1^2 * Z1 * T1 * X2^2 * d + (-4) * X1^2 * Z1 * T1 * Y2^2 * d + (-1) * Z1^4 * X2 * Y2 * d +
     (-1) * Z1^4 * Z2 * T2 * d + (-2) * Z1^3 * T1 * X2^2 * d + (-2) * Z1^3 * T1 * Y2^2 * d + (-2) * Z1^2 *
     T1^2 * X2 * Y2 * d^2 + (-8) * Z1^2 * T1^2 * X2 * Y2 * d + (-2) * Z1^2 * T1^2 * Z2 * T2 * d^2 + (-2) *
     Z1 * T1^3 * X2^2 * d^2 + (-2) * Z1 * T1^3 * Y2^2 * d^2 + (-1) * T1^4 * X2 * Y2 * d^3 + (-1) * T1^4 *
     Z2 * T2 * d^3) * (X2 * Y2 - Z2 * T2)
    + ((1) * X1^2 * X2^2 * Y2^2 * d + (-1) * Y1^2 * X2^2 * Y2^2 * d + (-1) * Z1^2 * X2^2 * Y2^2 * d + (-1)
     * Z1^2 * X2^2 * Z2^2 + (1) * Z1^2 * Y2^2 * Z2^2 + (-2) * Z1 * T1 * X2^3 * Y2 * d + (2) * Z1 * T1 *
     X2^2 * Z2 * T2 * d + (-2) * Z1 * T1 * X2 * Y2^3 * d + (2) * Z1 * T1 * Y2^2 * Z2 * T2 * d + (-1) *
     T1^2 * X2^2 * Y2^2 * d^2 + (-1) * T1^2 * X2^2 * T2^2 * d^2 + (1) * T1^2 * Y2^2 * T2^2 * d^2) * (Y1 *
     Y1 - X1 * X1 - (Z1 * Z1 + d * T1 * T1))
    + ((1) * Z1^4 * Z2^2 + (1) * Z1^2 * T1^2 * X2^2 * d + (-1) * Z1^2 * T1^2 * Y2^2 * d + (1) * T1^4 *
     T2^2 * d^3) * (Y2 * Y2 - X2 * X2 - (Z2 * Z2 + d * T2 * T2))).
Proof. unfold eE, eF, eG, eH. ring. Qed.
End formulas.

#[local] Existing Instances eqm_setoid Zplus_eqm Zminus_eqm Zmult_eqm Zopp_eqm.

Lemma D2_double : eqm P25519 (val D2) (2 * dval).
Proof. vm_compute. reflexivity. Qed.

Lemma fconst_eqm c : eqm P25519 (fconst (F := Fp) c) (val c).
Proof. apply Zmod_eqm. Qed.
Lemma fM_eqm (x y : Fp) : eqm P25519 (fM x y) (x * y).
Proof. apply Zmod_eqm. Qed.
Lemma fA_eqm (x y : Fp) : eqm P25519 (fA x y) (x + y).
Proof. apply Zmod_eqm. Qed.
Lemma fZ_eqm (x y : Fp) : eqm P25519 (fZ x y) (x - y).
Proof. apply Zmod_eqm. Qed.

Lemma add_eqm (p q : ge Fp) :
  let E := eE (gX p) (gY p) (gX q) (gY q) in
  let F := eF (gZ p) (gT p) (gZ q) (gT q) dval in
  let G := eG (gZ p) (gT p) (gZ q) (gT q) dval in
  let H := eH (gX p) (gY p) (gX q) (gY q) in
  eqm P25519 (gX (add p q)) (E * F) /\ eqm P25519 (gY (add p q)) (H * G)
  /\ eqm P25519 (gZ (add p q)) (G * F) /\ eqm P25519 (gT (add p q)) (E * H).
Proof.
  intros E F G H. unfold add. cbn [gX gY gZ gT].
  destruct p as [X1 Y1 Z1 T1], q as [X2 Y2 Z2 T2]. cbn [gX gY gZ gT] in *.
  set (a := fM (fZ Y1 X1) (fZ Y2 X2)). set (b := fM (fA X1 Y1) (fA X2 Y2)).
  set (c := fM (fM T1 T2) (fconst D2)). set (z := fM Z1 Z2).
  assert (Ha : eqm P25519 a ((Y1 - X1) * (Y2 - X2))) by (subst a; by rewrite fM_eqm, !fZ_eqm).
  assert (Hb : eqm P25519 b ((X1 + Y1) * (X2 + Y2))) by (subst b; by rewrite fM_eqm, !fA_eqm).
  assert (Hc : eqm P25519 c (T1 * T2 * (2 * dval))) by (subst c; by rewrite fM_eqm, fM_eqm, fconst_eqm, D2_double).
  assert (Hz : eqm P25519 z (Z1 * Z2)) by (subst z; by rewrite fM_eqm).
  clearbody a b c z.
  assert (HE : eqm P25519 (fZ b a) E) by (rewrite fZ_eqm, Ha, Hb; apply eqm_divide; exists 0; unfold E, eE; ring).
  assert (HF : eqm P25519 (fZ (fA z z) c) F)
    by (rewrite fZ_eqm, fA_eqm, Hc, Hz; apply eqm_divide; exists 0; unfold F, eF; ring).
  assert (HG : eqm P25519 (fA (fA z z) c) G)
    by (rewrite fA_eqm, fA_eqm, Hc, Hz; apply eqm_divide; exists 0; unfold G, eG; ring).
  assert (HH : eqm P25519 (fA b a) H) by (rewrite fA_eqm, Ha, Hb; apply eqm_divide; exists 0; unfold H, eH; ring).
  split_and!; rewrite fM_eqm, ?HE, ?HF, ?HG, ?HH; done.
Qed.

Lemma add_on_curve (p q : ge Fp) : on_curve p -> on_curve q -> on_curve (add p q).
Proof.
  intros [HT1 HC1] [HT2 HC2]. destruct (add_eqm p q) as (HX & HY & HZ & HT).
  apply eqm_divide in HT1 as [k1 HT1], HC1 as [l1 HC1], HT2 as [k2 HT2], HC2 as [l2 HC2].
  split.
  - rewrite HX, HY, HZ, HT. apply eqm_divide. exists 0. ring.
  - rewrite HX, HY, HZ, HT. apply eqm_divide. rewrite sum_equation, HT1, HC1, HT2, HC2.
    eexists. rewrite !Z.mul_assoc, <- !Z.mul_add_distr_r, !Z.mul_assoc. reflexivity.
Qed.

(** The sum of two points, in the form without divisions of the addition law
    x3 = (x1 y2 + y1 x2) / (1 + d x1 x2 y1 y2), y3 = (y1 y2 + x1 x2) / (1 - d x1 x2 y1 y2). *)
Lemma add_law (p q : ge Fp) :
  eqm P25519 (gX (add p q) * (gZ p * gZ q + dval * gT p * gT q))
    (gZ (add p q) * (gX p * gY q + gY p * gX q))
  /\ eqm P25519 (gY (add p q) * (gZ p * gZ q - dval * gT p * gT q))
       (gZ (add p q) * (gY p * gY q + gX p * gX q)).
Proof.
  destruct (add_eqm p q) as (HX & HY & HZ & _). rewrite HX, HY, HZ.
  split; apply eqm_divide; exists 0; unfold eE, eF, eG, eH; ring.
Qed.

Lemma ladder_on_curve n q : on_curve q -> on_curve (ladder n q).
Proof.
  intros Hq. unfold ladder.
  apply (for_loop_ind (fun _ pq => on_curve pq.1 /\ on_curve pq.2) (ladder_bit n) 256 0).
  - split; [|done]. split; vm_compute; reflexivity.
  - intros j [a b] _ [Ha Hb]. unfold ladder_bit. cbn [fst snd] in *.
    destruct (Z.testbit _ _); split; by apply add_on_curve.
Qed.

(** The base point. *)
Definition base : ge Fp := Ge (fconst X) (fconst Y) (fconst gf1) (fM (fconst X) (fconst Y)).

Lemma base_on_curve : on_curve base.
Proof. split; vm_compute; reflexivity. Qed.

(** ** Decompression *)

Lemma fpack_inj (x y : Fp) : fpack x = fpack y -> eqm P25519 x y.
Proof.
  intros E. assert (H : forall z, 0 <= z mod P25519 < 256 ^ Z.of_nat 32).
  { intros z. pose proof (Z.mod_pos_bound z P25519 ltac:(done)). assert (P25519 < 256 ^ Z.of_nat 32) by done. lia. }
  by apply le_bytes_inj in E.
Qed.

Lemma fneq_zero (x y : Fp) : fneq x y = 0 <-> eqm P25519 x y.
Proof.
  unfold fneq. rewrite crypto_verify_32_spec by (apply le_bytes_ok || apply eq_refl).
  case_bool_decide as H; split; try done.
  - intros _. by apply fpack_inj.
  - intros E. destruct H. cbn [fpack Fp_ops]. unfold eqm in E. by rewrite E.
Qed.

Lemma fpar_parity (x : Fp) : fpar x = (x mod P25519) mod 2.
Proof.
  unfold fpar. cbn [fpack Fp_ops le_bytes lookup list_lookup from_option id].
  set (v := x mod P25519). rewrite (Z.land_ones _ 1) by lia. change (2 ^ 1) with 2. lia.
Qed.

(** The sign is fixed and the point assembled once the root [s] has passed the check. *)
Lemma decode_point (y s : Fp) sgn :
  fneq (fM (fS s) (fA (fconst gf1) (fM (fS y) (fconst D)))) (fZ (fS y) (fconst gf1)) = 0 ->
  let x := if fpar s =? sgn then fZ (fconst gf0) s else s in
  on_curve (Ge x y (fconst gf1) (fM x y)) /\ (eqm P25519 x 0 \/ fpar x <> sgn).
Proof.
  intros E x.
  assert (Hsq : eqm P25519 (x * x * (1 + dval * (y * y))) (y * y - 1)).
  { apply fneq_zero in E.
    rewrite fM_eqm, fA_eqm, fM_eqm, fZ_eqm, !fconst_eqm in E. unfold fS in E. rewrite !fM_eqm in E.
    change (val gf1) with 1 in E. fold dval in E.
    assert (Hx : eqm P25519 (x * x) (s * s)).
    { unfold x. destruct (_ =? _); [|done]. rewrite fZ_eqm, fconst_eqm.
      apply eqm_divide. exists 0. change (val gf0) with 0. ring. }
    rewrite Hx. etrans; [|exact E]. apply eqm_divide. exists 0. ring. }
  split; [split; cbn [gX gY gZ gT]|].
  - rewrite fM_eqm, fconst_eqm. apply eqm_divide. exists 0. change (val gf1) with 1. ring.
  - rewrite !fM_eqm, fconst_eqm. change (val gf1) with 1.
    apply eqm_divide in Hsq as [k Hk]. apply eqm_divide. exists (- k). lia.
  - unfold x. destruct (Z.eqb_spec (fpar s) sgn) as [Hp | Hp]; [|by right].
    destruct (decide (s mod P25519 = 0)) as [H0 | H0].
    + left. rewrite fZ_eqm, fconst_eqm. change (val gf0) with 0. unfold eqm.
      rewrite Zminus_mod, H0. done.
    + right. rewrite <- Hp, !fpar_parity. change (fZ (fconst gf0) s) with ((0 - s) mod P25519).
      rewrite Z.mod_mod by done. rewrite Z.sub_0_l, Z.mod_opp_l_nz by done.
      pose proof (Z.mod_pos_bound s P25519 ltac:(done)) as Hb. set (v := s mod P25519) in *.
      assert (P25519 mod 2 = 1) by done. clearbody v. set (q := P25519) in *. clearbody q.
      clear -H Hb H0. lia.
Qed.

Lemma unpackneg_curve pk P :
  unpackneg (F := Fp) pk = Some P ->
  on_curve P /\ gY P = (le_val pk mod 2 ^ 255) mod P25519 /\ gZ P = 1
  /\ (eqm P25519 (gX P) 0 \/ fpar (gX P) <> default 0 (pk !! 31%nat) .>> 7).
Proof.
  unfold unpackneg. cbv zeta. generalize (root_candidate (F := Fp)). intros root.
  set (r := root _ _). set (s := if negb (fneq _ _ =? 0) then fM r _ else r). clearbody s. clear r root.
  destruct (Z.eqb_spec (fneq (fM (fS s) (fA (fconst gf1) (fM (fS (funpack pk)) (fconst D))))
    (fZ (fS (funpack pk)) (fconst gf1))) 0) as [E | _]; cbn [negb]; [|discriminate].
  destruct (decode_point (funpack pk) s (default 0 (pk !! 31%nat) .>> 7) E) as [Hc Hp].
  intros H. apply (inj Some) in H. rewrite <- H. cbn [gX gY gZ gT].
  split_and!; [exact Hc|reflexivity|reflexivity|exact Hp].
Qed.

(** ** The whole check *)

(** The description on numbers: [R] is the encoding of [s B - h A]. *)
Definition ed25519_spec (signature message public_key : list Z) : bool :=
  let R := take 32 signature in
  match unpackneg (F := Fp) public_key with
  | None => false
  | Some negA =>
      let h := le_val (crypto_sha512 (R ++ public_key ++ message)) mod Lval in
      let s := le_val (drop 32 signature) in
      bool_decide (pack (add (ladder h negA) (ladder s base)) = R)
  end.

Lemma crypto_sha512_output data : length (crypto_sha512 data) = 64%nat /\ bytes_ok (crypto_sha512 data).
Proof. apply sha_output. reflexivity. Qed.

Lemma le_val_zeros l n : le_val (l ++ replicate n 0) = le_val l.
Proof.
  rewrite le_val_app. replace (le_val (replicate n 0)) with 0; [lia|].
  induction n as [|n IH]; cbn; lia.
Qed.

Lemma pack_ok (p : ge Fp) : bytes_ok (pack p) /\ length (pack p) = 32%nat.
Proof.
  unfold pack. cbv zeta. set (ty := fM (gY p) _). set (w := default 0 _ .^ _). clearbody ty w. split.
  - apply Forall_insert; [apply le_bytes_ok|apply u8_range].
  - rewrite length_insert. apply le_bytes_length.
Qed.

Lemma verify_refines signature message public_key :
  length signature = 64%nat -> bytes_ok signature -> length public_key = 32%nat -> bytes_ok public_key ->
  crypto_ed25519_verify (F := gf) true signature message public_key
  = Z.b2z (ed25519_spec signature message public_key).
Proof.
  intros Hls Hbs Hlk Hbk. unfold crypto_ed25519_verify, ed25519_spec. cbv zeta.
  pose proof (unpackneg_rep public_key Hlk Hbk) as Hu.
  destruct (unpackneg (F := gf) public_key) as [q|], (unpackneg (F := Fp) public_key) as [q'|];
    try (by destruct Hu).
  cbn [opt_rep negb] in *. set (h := crypto_sha512 _).
  destruct (crypto_sha512_output (take 32 signature ++ public_key ++ message)) as [Hlh Hbh].
  fold h in Hlh, Hbh. clearbody h.
  assert (Hr : bytes_ok (reduce h) /\ le_val (reduce h) = le_val h mod Lval).
  { rewrite reduce_spec by done. split.
    - apply Forall_app. split; [apply le_bytes_ok|apply Forall_replicate; cint].
    - rewrite le_val_zeros, le_val_bytes. apply Z.mod_small.
      pose proof (Z.mod_pos_bound (le_val h) Lval ltac:(done)). assert (Lval < 256 ^ Z.of_nat 32) by done. lia. }
  destruct Hr as [Hrb Hrv].
  pose proof (add_rep _ _ _ _ (scalarmult_rep q q' (reduce h) Hu) (scalarbase_rep (drop 32 signature))) as Hadd.
  rewrite (pack_rep _ _ Hadd). clear Hadd.
  rewrite (scalarmult_ladder q') by done. unfold scalarbase. fold base.
  rewrite (scalarmult_ladder base) by (by apply Forall_drop). rewrite Hrv.
  set (t := pack _). destruct (pack_ok (add (ladder (le_val h mod Lval) q') (ladder (le_val (drop 32 signature)) base))) as [Hbt Hlt].
  fold t in Hbt, Hlt. clearbody t.
  assert (Hlr : length (take 32 signature) = length t) by (rewrite length_take, Hls, Hlt; reflexivity).
  rewrite (crypto_verify_32_spec (take 32 signature) t (Forall_take _ _ _ Hbs) Hbt Hlr).
  destruct (decide (t = take 32 signature)) as [-> | Hne].
  - by rewrite !bool_decide_true.
  - rewrite !bool_decide_false by congruence. done.
Qed.

(** ** Theorems *)

(** C5.  Signature verification on limbs is the check on numbers: it returns 1 exactly when the
    key decodes to a point [A], the hash buffer could be allocated, and the encoding of
    [s B - h A] modulo the prime is the first half of the signature, [h] being the SHA-512 hash
    reduced modulo the group order.  The 64-bit limbs never wrap around on the way. *)
Theorem ed25519_verify_refines mem signature message public_key
    (Hsl : length signature = 64%nat) (Hsb : bytes_ok signature)
    (Hkl : length public_key = 32%nat) (Hkb : bytes_ok public_key) :
  crypto_ed25519_verify (F := gf) mem signature message public_key
  = Z.b2z (mem && ed25519_spec signature message public_key).
Proof.
  destruct mem; [by apply verify_refines|].
  unfold crypto_ed25519_verify. by destruct (unpackneg public_key).
Qed.

(** The points of the check are points of the curve -x^2 + y^2 = 1 + d x^2 y^2: the decoded
    key, with the [y] of its bytes and the opposite of its sign, and every point the ladder and the
    addition make of it; the addition is the addition law of the curve. *)
Theorem ed25519_on_curve public_key negA h s
    (Hdec : unpackneg (F := Fp) public_key = Some negA) :
  let p := ladder h negA in
  let q := ladder s base in
  on_curve negA /\ on_curve p /\ on_curve q /\ on_curve (add p q)
  /\ gY negA = (le_val public_key mod 2 ^ 255) mod P25519
  /\ (eqm P25519 (gX negA) 0 \/ fpar (gX negA) <> default 0 (public_key !! 31%nat) .>> 7)
  /\ eqm P25519 (gX (add p q) * (gZ p * gZ q + dval * gT p * gT q))
       (gZ (add p q) * (gX p * gY q + gY p * gX q))
  /\ eqm P25519 (gY (add p q) * (gZ p * gZ q - dval * gT p * gT q))
       (gZ (add p q) * (gY p * gY q + gX p * gX q)).
Proof.
  intros p q. destruct (unpackneg_curve _ _ Hdec) as (Hc & Hy & _ & Hs).
  assert (Hp : on_curve p) by (by apply ladder_on_curve).
  assert (Hq : on_curve q) by (apply ladder_on_curve, base_on_curve).
  destruct (add_law p q) as [H1 H2].
  split_and!; [exact Hc|exact Hp|exact Hq|by apply add_on_curve|exact Hy|exact Hs|exact H1|exact H2].
Qed.

(** ** Witnesses *)

(** The first test vector of RFC 8032. *)
Definition rfc8032_key : list Z :=
  [215; 90; 152; 1; 130; 177; 10; 183; 213; 75; 254; 211; 201; 100; 7; 58;
   14; 225; 114; 243; 218; 166; 35; 37; 175; 2; 26; 104; 247; 7; 81; 26].
Definition rfc8032_signature : list Z :=
  [229; 86; 67; 0; 195; 96; 172; 114; 144; 134; 226; 204; 128; 110; 130; 138;
   132; 135; 127; 30; 184; 229; 217; 116; 216; 115; 224; 101; 34; 73; 1; 85;
   95; 184; 130; 21; 144; 163; 59; 172; 198; 30; 57; 112; 28; 249; 180; 107;
   210; 91; 245; 240; 89; 91; 190; 36; 101; 81; 65; 67; 142; 122; 16; 11].

Lemma ed25519_verify_refines_witness :
  length rfc8032_signature = 64%nat /\ length rfc8032_key = 32%nat
  /\ crypto_ed25519_verify (F := gf) true rfc8032_signature [] rfc8032_key
     = Z.b2z (true && ed25519_spec rfc8032_signature [] rfc8032_key).
Proof.
  assert (H1 : bytes_ok rfc8032_signature) by (unfold rfc8032_signature; repeat (constructor; [by_eval|]); constructor).
  assert (H2 : bytes_ok rfc8032_key) by (unfold rfc8032_key; repeat (constructor; [by_eval|]); constructor).
  split; [reflexivity|]. split; [reflexivity|].
  exact (ed25519_verify_refines true rfc8032_signature [] rfc8032_key eq_refl H1 eq_refl H2).
Defined.

(** The neutral point, whose [y] is one. *)
Definition neutral_key : list Z := 1 :: replicate 31 0.

Lemma ed25519_on_curve_witness :
  unpackneg (F := Fp) neutral_key = Some (Ge 0 1 1 0) /\ on_curve (ladder 5 (Ge 0 1 1 0)).
Proof.
  assert (H : unpackneg (F := Fp) neutral_key = Some (Ge 0 1 1 0)) by (vm_compute; reflexivity).
  split; [exact H|]. exact (proj1 (proj2 (ed25519_on_curve neutral_key (Ge 0 1 1 0) 5 7 H))).
Defined.
