(* ===== verification/X25519.v ===== *)
(** * X25519 is the function of RFC 7748

    [crypto_scalarmult] of [Ed25519], the key agreement of the VPN keys, against the
    ladder of the RFC on numbers modulo the prime. *)

From S2P Require Import Prelude Field25519 ModL Ed25519 Ed25519Spec.

(** ** The RFC's description *)

(** Scalars are clamped: a multiple of 8 between 2^254 and 2^255. *)
Definition decode_scalar (n : list Z) : Z :=
  let k := le_val n in
  2 ^ 254 + (k mod 2 ^ 254 - k mod 8).

(** One bit: (x2, z2, x3, z3). *)
Definition rfc_step (k u n : Z) (s : Z * Z * Z * Z) : Z * Z * Z * Z :=
  let bit := Z.testbit k (254 - n) in
  let '(x2, z2, x3, z3) := s in
  let '(x2, z2, x3, z3) := if bit then (x3, z3, x2, z2) else (x2, z2, x3, z3) in
  let A := x2 + z2 in
  let AA := A ^ 2 in
  let B := x2 - z2 in
  let BB := B ^ 2 in
  let E := AA - BB in
  let C := x3 + z3 in
  let D := x3 - z3 in
  let DA := D * A in
  let CB := C * B in
  let x3 := (DA + CB) ^ 2 mod P25519 in
  let z3 := (u * (DA - CB) ^ 2) mod P25519 in
  let x2 := (AA * BB) mod P25519 in
  let z2 := (E * (AA + 121665 * E)) mod P25519 in
  if bit then (x3, z3, x2, z2) else (x2, z2, x3, z3).

Definition x25519 (k u : Z) : Z :=
  let '(x2, z2, _, _) := for_loop 255 0 (rfc_step k u) (1, 0, u, 1) in
  (x2 * z2 ^ (P25519 - 2)) mod P25519.

(** ** Limbs and numbers *)

Record mont_rep (m : mont gf) (m' : mont Fp) : Prop := {
  mont_rep_a : rep 1 (ma m) (ma m');
  mont_rep_b : rep 1 (mb m) (mb m');
  mont_rep_c : rep 1 (mc m) (mc m');
  mont_rep_d : rep 1 (md m) (md m')
}.

(** The arithmetic of a step, between the two selections. *)
Section step.
Context {F : Type} `{FieldOps F}.
Definition mont_core (x a b c d : F) : mont F :=
  let e := fA a c in
  let a := fZ a c in
  let c := fA b d in
  let b := fZ b d in
  let d := fS e in
  let f := fS a in
  let a := fM c a in
  let c := fM b e in
  let e := fA a c in
  let a := fZ a c in
  let b := fS a in
  let c := fZ d f in
  let a := fM c (fconst _121665) in
  let a := fA a d in
  let c := fM c a in
  let a := fM d f in
  let d := fM b x in
  let b := fS e in
  Mont a b c d.

Lemma mont_step_core z x n m :
  mont_step z x n m
  = let i := 254 - n in
    let r := (default 0 (z !! Z.to_nat (i .>> 3)) .>> (i .& 7)) .& 1 in
    let '(a, b) := fsel (ma m) (mb m) r in
    let '(c, d) := fsel (mc m) (md m) r in
    let m := mont_core x a b c d in
    let '(a, b) := fsel (ma m) (mb m) r in
    let '(c, d) := fsel (mc m) (md m) r in
    Mont a b c d.
Proof. reflexivity. Qed.
End step.

Lemma mont_core_rep (x a b c d : gf) (x' a' b' c' d' : Fp) :
  rep 1 x x' -> rep 1 a a' -> rep 1 b b' -> rep 1 c c' -> rep 1 d d' ->
  mont_rep (mont_core x a b c d) (mont_core x' a' b' c' d').
Proof.
  intros Hx Ha Hb Hc Hd. unfold mont_core. cbv zeta.
  assert (H1 : rep 1 (fS (fA a c)) (fS (fA a' c'))) by rep_tac.
  assert (H2 : rep 1 (fS (fZ a c)) (fS (fZ a' c'))) by rep_tac.
  assert (H3 : rep 1 (fM (fA b d) (fZ a c)) (fM (fA b' d') (fZ a' c'))) by rep_tac.
  assert (H4 : rep 1 (fM (fZ b d) (fA a c)) (fM (fZ b' d') (fA a' c'))) by rep_tac.
  revert H1 H2 H3 H4. set (p := fS (fA a c)). set (p' := fS (fA a' c')). clearbody p p'.
  set (q := fS (fZ a c)). set (q' := fS (fZ a' c')). clearbody q q'.
  set (r := fM (fA b d) _). set (r' := fM (fA b' d') _). clearbody r r'.
  set (s := fM (fZ b d) _). set (s' := fM (fZ b' d') _). clearbody s s'. clear Ha Hb Hc Hd. intros.
  split; cbn [ma mb mc md]; rep_tac.
Qed.

Lemma mont_step_rep z (x : gf) (x' : Fp) n (m : mont gf) (m' : mont Fp) :
  rep 1 x x' -> mont_rep m m' -> mont_rep (mont_step z x n m) (mont_step z x' n m').
Proof.
  intros Hx [Ha Hb Hc Hd]. rewrite !mont_step_core. cbv zeta.
  set (r := _ .& 1). assert (Hr : r = 0 \/ r = 1) by apply bit_cases. clearbody r.
  destruct (fsel_rep _ _ _ _ _ r Ha Hb Hr) as [H1 H2], (fsel_rep _ _ _ _ _ r Hc Hd Hr) as [H3 H4].
  destruct (fsel (ma m) (mb m) r) as [a b], (fsel (ma m') (mb m') r) as [a' b'].
  destruct (fsel (mc m) (md m) r) as [c d], (fsel (mc m') (md m') r) as [c' d']. cbn [fst snd] in *.
  destruct (mont_core_rep x a b c d x' a' b' c' d') as [Ga Gb Gc Gd]; [done..|].
  set (k := mont_core x a b c d) in *. set (k' := mont_core x' a' b' c' d') in *. clearbody k k'.
  destruct (fsel_rep _ _ _ _ _ r Ga Gb Hr) as [I1 I2], (fsel_rep _ _ _ _ _ r Gc Gd Hr) as [I3 I4].
  destruct (fsel (ma k) (mb k) r), (fsel (ma k') (mb k') r).
  destruct (fsel (mc k) (md k) r), (fsel (mc k') (md k') r). by split.
Qed.

Lemma scalarmult_refines n u :
  length u = 32%nat -> bytes_ok u ->
  crypto_scalarmult (F := gf) n u = crypto_scalarmult (F := Fp) n u.
Proof.
  intros Hl Hb. unfold crypto_scalarmult. cbv zeta. set (z := clamp n).
  pose proof (funpack_rep u Hl Hb) as Hx.
  set (x := funpack (F := gf) u) in *. set (x' := funpack (F := Fp) u) in *. clearbody x x' z.
  pose proof (for_loop_rel mont_rep (mont_step z x) (mont_step z x') 255 0
    (Mont (fconst gf1) x (fconst gf0) (fconst gf1)) (Mont (fconst gf1) x' (fconst gf0) (fconst gf1))) as Hm.
  destruct Hm as [Ha Hb' Hc Hd].
  { split; cbn [ma mb mc md]; rep_tac. }
  { intros j m m' Hm. by apply mont_step_rep. }
  set (m := for_loop _ _ _ _) in *. set (m' := for_loop _ _ (mont_step z x') _) in *. clearbody m m'.
  pose proof (inv25519_rep _ _ Hc) as Hi. apply (fpack_rep 1); [rep_tac|lia].
Qed.

(** ** Numbers and the RFC *)

#[local] Existing Instances eqm_setoid Zplus_eqm Zminus_eqm Zmult_eqm Zopp_eqm.
#[local] Opaque for_loop.

#[local] Instance fM_proper : Proper (eqm P25519 ==> eqm P25519 ==> eqm P25519) (fM (F := Fp)).
Proof. intros a b H c d H'. by rewrite !fM_eqm, H, H'. Qed.
#[local] Instance fA_proper : Proper (eqm P25519 ==> eqm P25519 ==> eqm P25519) (fA (F := Fp)).
Proof. intros a b H c d H'. by rewrite !fA_eqm, H, H'. Qed.
#[local] Instance fZ_proper : Proper (eqm P25519 ==> eqm P25519 ==> eqm P25519) (fZ (F := Fp)).
Proof. intros a b H c d H'. by rewrite !fZ_eqm, H, H'. Qed.

Definition mont_eqm (m : mont Fp) (s : Z * Z * Z * Z) : Prop :=
  let '(x2, z2, x3, z3) := s in
  eqm P25519 (ma m) x2 /\ eqm P25519 (mc m) z2 /\ eqm P25519 (mb m) x3 /\ eqm P25519 (md m) z3.

Lemma core_eqm (u a b c d x2 z2 x3 z3 : Fp) :
  eqm P25519 a x2 -> eqm P25519 c z2 -> eqm P25519 b x3 -> eqm P25519 d z3 ->
  let A := x2 + z2 in let B := x2 - z2 in let E := A ^ 2 - B ^ 2 in
  let DA := (x3 - z3) * A in let CB := (x3 + z3) * B in
  mont_eqm (mont_core u a b c d)
    ((A ^ 2 * B ^ 2) mod P25519, (E * (A ^ 2 + 121665 * E)) mod P25519,
     (DA + CB) ^ 2 mod P25519, (u * (DA - CB) ^ 2) mod P25519).
Proof.
  intros Ha Hc Hb Hd A B E DA CB. unfold mont_core, mont_eqm. cbv zeta. cbn [ma mb mc md]. unfold fS.
  rewrite !Zmod_eqm. subst A B E DA CB.
  split_and!; repeat first [rewrite fM_eqm | rewrite fA_eqm | rewrite fZ_eqm | rewrite fconst_eqm];
    rewrite ?Ha, ?Hb, ?Hc, ?Hd; change (val _121665) with 121665; apply eqm_divide; exists 0; ring.
Qed.

Lemma clamp_value n :
  length n = 32%nat -> bytes_ok n -> bytes_ok (clamp n) /\ le_val (clamp n) = decode_scalar n.
Proof.
  intros Hl Hb. destruct n as [|n0 l]; [done|].
  destruct (list_snoc_inv l) as [-> | (mid & n31 & ->)]; [done|].
  assert (Hm : length mid = 30%nat) by (cbn in Hl; rewrite length_app in Hl; cbn in Hl; lia).
  apply Forall_cons in Hb as [H0 [Hmid [H31 _]%Forall_cons]%Forall_app].
  assert (E : clamp (n0 :: mid ++ [n31]) = (n0 .& 248) :: mid ++ [(n31 .& 127) .| 64]).
  { unfold clamp. change (n0 :: mid ++ [n31]) with ((n0 :: mid) ++ [n31]).
    assert (Hlast : ((n0 :: mid) ++ [n31]) !! 31%nat = Some n31)
      by (apply list_lookup_middle; cbn [length]; lia).
    rewrite Hlast, take_app_length' by (cbn [length]; lia). reflexivity. }
  assert (Hlow : (n0 .& 248 =? n0 - n0 mod 8) = true)
    by (revert n0 H0 Hl E; intros; apply (byte_cases (fun x => x .& 248 =? x - x mod 8)); [done|done]).
  assert (Htop : ((n31 .& 127) .| 64 =? 64 + n31 mod 64) = true)
    by (apply (byte_cases (fun x => (x .& 127) .| 64 =? 64 + x mod 64)); [done|done]).
  apply Z.eqb_eq in Hlow, Htop. rewrite E, Hlow, Htop. split.
  - constructor; [cint|]. apply Forall_app. split; [done|]. constructor; [cint|constructor].
  - unfold decode_scalar. cbn [le_val]. rewrite !le_val_app, Hm. cbn [le_val].
    pose proof (le_val_range mid Hmid) as Hr. rewrite Hm in Hr.
    assert (EW : 2 ^ 254 = 64 * (256 * 256 ^ Z.of_nat 30)) by reflexivity.
    assert (HW : 256 ^ Z.of_nat 30 = 8 * (32 * 256 ^ Z.of_nat 29)) by reflexivity.
    set (W := 256 ^ Z.of_nat 30) in *. set (v := le_val mid) in *.
    rewrite !Z.mul_0_r, !Z.add_0_r. rewrite EW.
    assert (Hmod : (n0 + 256 * (v + W * n31)) mod (64 * (256 * W)) = n0 + 256 * (v + W * (n31 mod 64))).
    { symmetry. apply (Z.mod_unique_pos _ _ (n31 / 64)); unfold is_u8 in *; nia. }
    rewrite Hmod. assert (H8 : (n0 + 256 * (v + W * n31)) mod 8 = n0 mod 8) by lia.
    rewrite H8. lia.
Qed.

Lemma rfc_bit z n :
  bytes_ok z -> 0 <= n < 255 ->
  let i := 254 - n in
  (default 0 (z !! Z.to_nat (i .>> 3)) .>> (i .& 7)) .& 1 = Z.b2z (Z.testbit (le_val z) (254 - n)).
Proof.
  intros Hz Hn i. change 7 with (Z.ones 3). rewrite (Z.land_ones i 3), (Z.shiftr_div_pow2 i 3) by lia.
  change (2 ^ 3) with 8. rewrite bit_testbit by lia. fold i. by rewrite le_val_testbit by (done || lia).
Qed.

Lemma fsel_bit (a b : Fp) (t : bool) : fsel a b (Z.b2z t) = if t then (b, a) else (a, b).
Proof. by destruct t. Qed.

Lemma mont_step_rfc z (u : Fp) n m s :
  bytes_ok z -> 0 <= n < 255 -> mont_eqm m s ->
  mont_eqm (mont_step z u n m) (rfc_step (le_val z) u n s).
Proof.
  intros Hz Hn. destruct s as [[[x2 z2] x3] z3]. intros (Ha & Hc & Hb & Hd).
  rewrite mont_step_core. cbv zeta. rewrite (rfc_bit z n Hz Hn). unfold rfc_step.
  set (t := Z.testbit _ _). clearbody t. rewrite !fsel_bit. destruct t.
  - pose proof (core_eqm u (mb m) (ma m) (md m) (mc m) x3 z3 x2 z2 Hb Hd Ha Hc) as H. cbv zeta in H.
    set (k := mont_core _ _ _ _ _) in *. clearbody k. destruct H as (H1 & H2 & H3 & H4). rewrite !fsel_bit.
    by split_and!.
  - pose proof (core_eqm u (ma m) (mb m) (mc m) (md m) x2 z2 x3 z3 Ha Hc Hb Hd) as H. cbv zeta in H.
    set (k := mont_core _ _ _ _ _) in *. clearbody k. destruct H as (H1 & H2 & H3 & H4). rewrite !fsel_bit.
    by split_and!.
Qed.

Lemma scalarmult_rfc n u :
  length n = 32%nat -> bytes_ok n -> length u = 32%nat -> bytes_ok u ->
  crypto_scalarmult (F := gf) n u
  = le_bytes 32 (x25519 (decode_scalar n) ((le_val u mod 2 ^ 255) mod P25519)).
Proof.
  intros Hln Hbn Hlu Hbu. rewrite scalarmult_refines by done. unfold crypto_scalarmult. cbv zeta.
  destruct (clamp_value n Hln Hbn) as [Hz Hv]. rewrite <- Hv. set (z := clamp n) in *. clearbody z.
  change (funpack (F := Fp) u) with ((le_val u mod 2 ^ 255) mod P25519).
  generalize ((le_val u mod 2 ^ 255) mod P25519). intros x. unfold x25519.
  pose proof (for_loop_rel_in mont_eqm (mont_step (F := Fp) z x) (rfc_step (le_val z) x) 255 0
    (Mont (F := Fp) (fconst gf1) x (fconst gf0) (fconst gf1)) (1, 0, x, 1)) as H.
  set (m := for_loop 255 0 (mont_step (F := Fp) z x) _) in *.
  destruct (for_loop 255 0 (rfc_step (le_val z) x) (1, 0, x, 1)) as [[[x2 z2] x3] z3].
  destruct H as (Ha & Hc & _ & _).
  { split_and!; try reflexivity. }
  { intros j a b Hj. apply mont_step_rfc; [done|lia]. }
  clearbody m. cbn [fpack Fp_ops]. f_equal.
  enough (eqm P25519 (fM (ma m) (inv25519 (mc m))) (x2 * z2 ^ (P25519 - 2))) as H by exact H.
  rewrite fM_eqm, Ha. pose proof (inv25519_pow (mc m)) as Hi. fold (eqm P25519 (inv25519 (mc m)) (mc m ^ (P25519 - 2))) in Hi.
  rewrite Hi. assert (Hp : eqm P25519 (mc m ^ (P25519 - 2)) (z2 ^ (P25519 - 2))).
  { unfold eqm in *. by rewrite <- Z.mod_pow_l, Hc, Z.mod_pow_l. }
  by rewrite Hp.
Qed.

(** ** Theorem *)

(** C33.  Key agreement on limbs is the function of RFC 7748: for any 32-byte scalar and
    u-coordinate, the result is the encoding of the number that the RFC's ladder gives for the clamped
    scalar and the coordinate with its top bit cleared. *)
Theorem scalarmult_is_x25519 n u
    (Hnl : length n = 32%nat) (Hnb : bytes_ok n) (Hul : length u = 32%nat) (Hub : bytes_ok u) :
  crypto_scalarmult (F := gf) n u
  = le_bytes 32 (x25519 (decode_scalar n) ((le_val u mod 2 ^ 255) mod P25519)).
Proof. by apply scalarmult_rfc. Qed.

(** The public key of a scalar: [crypto_scalarmult_base]. *)
Lemma scalarmult_is_x25519_witness :
  length (replicate 32 77) = 32%nat
  /\ crypto_scalarmult (F := gf) (replicate 32 77) (9 :: replicate 31 0)
     = le_bytes 32 (x25519 (decode_scalar (replicate 32 77))
         ((le_val (9 :: replicate 31 0) mod 2 ^ 255) mod P25519)).
Proof.
  assert (H1 : bytes_ok (replicate 32 77)) by (apply Forall_replicate; by_eval).
  assert (H2 : bytes_ok (9 :: replicate 31 0)) by (constructor; [by_eval|apply Forall_replicate; by_eval]).
  split; [reflexivity|].
  exact (scalarmult_is_x25519 (replicate 32 77) (9 :: replicate 31 0) eq_refl H1 eq_refl H2).
Defined.
