(* ===== verification/License.v ===== *)
(** * The licence manager ([src/src/license_manager.c], [src/include/license_manager.h])

    State: the cached licence information, the clock of the last tick, the cached hardware
    identifier, and the two files it keeps, the key and the watermark, as their bytes.
    The wall clock, the hardware files and whether the files can be written are
    arguments.  Signature checking is an interface, implemented by [Ed25519]. *)

From S2P Require Import Prelude Fluxwan Ipv4 CLib Base64 Sha2 Field25519 Ed25519.

(** ** Data *)

Inductive license_type_t := LICENSE_TYPE_UNLICENSED | LICENSE_TYPE_DAYS | LICENSE_TYPE_LIFETIME.
Inductive license_status_t :=
  | LICENSE_STATUS_UNLICENSED | LICENSE_STATUS_ACTIVE | LICENSE_STATUS_EXPIRED
  | LICENSE_STATUS_TAMPERED | LICENSE_STATUS_HW_MISMATCH | LICENSE_STATUS_GRACE.

#[export] Instance license_type_t_eq_dec : EqDecision license_type_t.
Proof. solve_decision. Defined.
#[export] Instance license_status_t_eq_dec : EqDecision license_status_t.
Proof. solve_decision. Defined.

Definition LICENSE_DEFAULT_GRACE_SEC : Z := 1800.

Record license_info_t := LicenseInfo {
  li_type : license_type_t;
  li_status : license_status_t;
  li_is_valid : bool;
  li_hwid : cstring;
  li_client_name : cstring;
  li_max_wans : Z;
  li_days_total : Z;
  li_days_remaining : Z;
  li_issued_at : Z;
  li_expires_at : Z;
  li_active_seconds_remaining : Z;
  li_grace_seconds_remaining : Z;
  li_status_str : cstring;
  li_type_str : cstring
}.

Record license_payload_t := LicensePayload {
  lp_magic : list Z;
  lp_version : Z;
  lp_type : Z;
  lp_max_wans : Z;
  lp_issued_at : Z;
  lp_expires_at : Z;
  lp_days_total : Z;
  lp_hwid : cstring;         (** the bytes before the first NUL of the array *)
  lp_client_name : cstring;
  lp_features : Z
}.

(** Assignments to the fields. *)
Definition set_li_state (st : license_status_t) (valid : bool) (str : cstring) (i : license_info_t) : license_info_t :=
  LicenseInfo (li_type i) st valid (li_hwid i) (li_client_name i) (li_max_wans i) (li_days_total i)
    (li_days_remaining i) (li_issued_at i) (li_expires_at i) (li_active_seconds_remaining i)
    (li_grace_seconds_remaining i) str (li_type_str i).
Definition set_li_type (t : license_type_t) (str : cstring) (i : license_info_t) : license_info_t :=
  LicenseInfo t (li_status i) (li_is_valid i) (li_hwid i) (li_client_name i) (li_max_wans i) (li_days_total i)
    (li_days_remaining i) (li_issued_at i) (li_expires_at i) (li_active_seconds_remaining i)
    (li_grace_seconds_remaining i) (li_status_str i) str.
Definition set_li_remaining (days secs : Z) (i : license_info_t) : license_info_t :=
  LicenseInfo (li_type i) (li_status i) (li_is_valid i) (li_hwid i) (li_client_name i) (li_max_wans i)
    (li_days_total i) days (li_issued_at i) (li_expires_at i) secs
    (li_grace_seconds_remaining i) (li_status_str i) (li_type_str i).
Definition set_li_grace (g : Z) (i : license_info_t) : license_info_t :=
  LicenseInfo (li_type i) (li_status i) (li_is_valid i) (li_hwid i) (li_client_name i) (li_max_wans i)
    (li_days_total i) (li_days_remaining i) (li_issued_at i) (li_expires_at i)
    (li_active_seconds_remaining i) g (li_status_str i) (li_type_str i).
Definition set_li_hwid (h : cstring) (i : license_info_t) : license_info_t :=
  LicenseInfo (li_type i) (li_status i) (li_is_valid i) h (li_client_name i) (li_max_wans i)
    (li_days_total i) (li_days_remaining i) (li_issued_at i) (li_expires_at i)
    (li_active_seconds_remaining i) (li_grace_seconds_remaining i) (li_status_str i) (li_type_str i).

(** ** State *)

Record lic_state := LicState {
  g_license_info : license_info_t;
  g_boot_timestamp : Z;
  g_last_tick_ms : Z;
  g_cached_hwid : cstring;
  key_file : option (list Z);
  watermark_file : option (list Z)
}.

Definition set_info (i : license_info_t) (s : lic_state) : lic_state :=
  LicState i (g_boot_timestamp s) (g_last_tick_ms s) (g_cached_hwid s) (key_file s) (watermark_file s).
Definition set_clocks (boot tick : Z) (s : lic_state) : lic_state :=
  LicState (g_license_info s) boot tick (g_cached_hwid s) (key_file s) (watermark_file s).
Definition set_hwid_cache (h : cstring) (s : lic_state) : lic_state :=
  LicState (g_license_info s) (g_boot_timestamp s) (g_last_tick_ms s) h (key_file s) (watermark_file s).
Definition set_key_file (f : option (list Z)) (s : lic_state) : lic_state :=
  LicState (g_license_info s) (g_boot_timestamp s) (g_last_tick_ms s) (g_cached_hwid s) f (watermark_file s).
Definition set_watermark_file (f : option (list Z)) (s : lic_state) : lic_state :=
  LicState (g_license_info s) (g_boot_timestamp s) (g_last_tick_ms s) (g_cached_hwid s) (key_file s) f.

(** The memory of a fresh process, with the files found on disk. *)
Definition initial_info : license_info_t :=
  LicenseInfo LICENSE_TYPE_UNLICENSED LICENSE_STATUS_GRACE false
    (bytes_of_string "FWID-UNINITIALIZED") (bytes_of_string "Unregistered System") 3 0 0 0 0 0
    LICENSE_DEFAULT_GRACE_SEC (bytes_of_string "GRACE_PERIOD") (bytes_of_string "UNLICENSED").
Definition fresh_process (key watermark : option (list Z)) : lic_state :=
  LicState initial_info 0 0 [] key watermark.

(** What the surroundings answer. *)
Record lic_env := LicEnv {
  lv_time : Z;                           (** [time(NULL)] *)
  lv_file : cstring -> option (list Z);  (** files under [/sys], [/etc] and [/proc] *)
  lv_key_writable : bool;                (** [fopen] for writing succeeds *)
  lv_watermark_writable : bool;
  lv_mem : bool
}.

(** ** The signature scheme *)

Class SignatureScheme := verify_signature : bool -> list Z -> list Z -> list Z -> Z.

#[export] Instance ed25519_scheme : SignatureScheme := crypto_ed25519_verify (F := gf).

Definition MASTER_PUBLIC_KEY : list Z :=
  [123; 67; 89; 198; 110; 234; 85; 220; 255; 161; 159; 148; 221; 144; 10; 237;
   154; 140; 134; 93; 227; 245; 210; 188; 236; 90; 215; 91; 248; 26; 64; 105].

Definition HWID_SALT : cstring :=
  Eval vm_compute in bytes_of_string "FLUXWAN-SECURE-HARDWARE-ROOT-2026-AHMED-ALDULAIMI".

(** ** Hardware fingerprint *)

Fixpoint drop_blanks (s : cstring) : cstring :=
  match s with
  | c :: s' => if (c =? 13) || (c =? 10) || (c =? 32) || (c =? 9) then drop_blanks s' else s
  | [] => []
  end.
Definition rtrim (s : cstring) : cstring := reverse (drop_blanks (reverse s)).

Definition read_file_trimmed (env : lic_env) (path : cstring) (max_len : Z) : cstring :=
  match lv_file env path with
  | None => []
  | Some f => match fgets max_len f with
              | None => []
              | Some (line, _) => rtrim (cstr line)
              end
  end.

(** The text after the colon of the first line that names the processor. *)
Fixpoint cpu_lines (fuel : nat) (f : list Z) : cstring :=
  match fuel with
  | O => []
  | S fuel =>
      match fgets 256 f with
      | None => []
      | Some (line, rest) =>
          let line := cstr line in
          if has_prefix (bytes_of_string "model name") line || has_prefix (bytes_of_string "Hardware") line
          then match strchr line 58 with
               | Some colon => str_trunc 256 (drop 1 colon)
               | None => cpu_lines fuel rest
               end
          else cpu_lines fuel rest
      end
  end.
Definition cpu_info (env : lic_env) : cstring :=
  match lv_file env (bytes_of_string "/proc/cpuinfo") with
  | None => []
  | Some f => cpu_lines (length f) f
  end.

Definition or_else (a b : cstring) : cstring := match a with [] => b | _ => a end.

(** The text that is hashed. *)
Definition fingerprint (env : lic_env) : cstring :=
  let rd path n := read_file_trimmed env (bytes_of_string path) n in
  let dmi_uuid := or_else (rd "/sys/class/dmi/id/product_uuid" 128)
                    (or_else (rd "/etc/machine-id" 128) (rd "/var/lib/dbus/machine-id" 128)) in
  let disk_serial := or_else (rd "/sys/block/sda/device/serial" 128)
                       (or_else (rd "/sys/block/nvme0n1/device/serial" 128)
                          (rd "/sys/block/vda/serial" 128)) in
  let cpu := cpu_info env in
  let mac_addr := or_else (rd "/sys/class/net/eth0/address" 64)
                    (rd "/sys/class/net/eth1/address" 64) in
  let dmi_uuid := or_else dmi_uuid (bytes_of_string "FLUXWAN-NODEVICE-UUID-DEFAULT") in
  let disk_serial := or_else disk_serial (bytes_of_string "FLUXWAN-DISK-DEFAULT-SN") in
  let cpu := or_else cpu (bytes_of_string "Generic-x86-Architecture") in
  let mac_addr := or_else mac_addr (bytes_of_string "00:00:00:00:00:00") in
  str_trunc 1024 (HWID_SALT ++ 124 :: dmi_uuid ++ 124 :: disk_serial ++ 124 :: cpu ++ 124 :: mac_addr).

(** [FWID-XXXX-XXXX-XXXX-XXXX], from the first eight bytes of the hash. *)
Definition hwid_text (hash : list Z) : cstring :=
  let h i := hex2 (default 0 (hash !! i)) in
  str_trunc 32 (bytes_of_string "FWID-" ++ h 0%nat ++ h 1%nat ++ 45 :: h 2%nat ++ h 3%nat
    ++ 45 :: h 4%nat ++ h 5%nat ++ 45 :: h 6%nat ++ h 7%nat).

(** The identifier, computed once; [None] when the buffer is too small. *)
Definition license_get_hardware_id (env : lic_env) (s : lic_state) (max_len : Z) : lic_state * option cstring :=
  if max_len <? 25 then (s, None)
  else match g_cached_hwid s with
       | [] => let h := hwid_text (crypto_sha256 (fingerprint env)) in
               (set_hwid_cache h s, Some (str_trunc max_len h))
       | h => (s, Some (str_trunc max_len h))
       end.

(** ** Watermark *)

Definition read_watermark (s : lic_state) : Z :=
  match watermark_file s with
  | None => 0
  | Some f => default 0 (scan_u64 f)
  end.

Definition update_watermark (env : lic_env) (current_ts : Z) (s : lic_state) : lic_state :=
  if (read_watermark s <? current_ts) && lv_watermark_writable env
  then set_watermark_file (Some (dec current_ts ++ [10])) s
  else s.

(** ** Keys *)

Fixpoint skip_key_blanks (s : cstring) : cstring :=
  match s with
  | c :: s' => if (c =? 32) || (c =? 9) || (c =? 13) || (c =? 10) then skip_key_blanks s' else s
  | [] => []
  end.

Definition payload_of (b : list Z) : license_payload_t :=
  let field i n := take n (drop i b) in
  LicensePayload (field 0 4)%nat (le_val (field 4 1)%nat) (le_val (field 5 1)%nat) (le_val (field 6 2)%nat)
    (le_val (field 8 8)%nat) (le_val (field 16 8)%nat) (le_val (field 24 4)%nat)
    (cstr (field 28 32)%nat) (cstr (field 60 64)%nat) (le_val (field 124 1)%nat).

Section manager.
Context `{!SignatureScheme}.

(** The payload, or the error code. *)
Definition parse_and_verify_license_key (env : lic_env) (key_str : cstring) : Z + license_payload_t :=
  let p := skip_key_blanks key_str in
  let p := default p (strip_prefix (bytes_of_string "FLUX-LIC-") p) in
  let blob := crypto_base64_decode p 512 in
  if negb (blen blob =? 140 + 64) then inl (-3)
  else
    let payload := take 140 blob in
    let signature := drop 140 blob in
    if negb (bool_decide (take 4 payload = bytes_of_string "FLIC")) then inl (-4)
    else if verify_signature (lv_mem env) signature payload MASTER_PUBLIC_KEY =? 0 then inl (-5)
    else inr (payload_of payload).

(** Status of a subscription in days, at the time of the environment. *)
Definition days_status (env : lic_env) (expires_at : Z) (i : license_info_t) : license_info_t :=
  if expires_at <=? lv_time env
  then set_li_remaining 0 0 (set_li_state LICENSE_STATUS_EXPIRED false (bytes_of_string "EXPIRED") i)
  else
    let rem_sec := expires_at - lv_time env in
    set_li_remaining (u32 (u64 (rem_sec + 86399) / 86400)) rem_sec
      (set_li_state LICENSE_STATUS_ACTIVE true (bytes_of_string "ACTIVE") i).

Definition rolled_back (env : lic_env) (s : lic_state) : bool :=
  (0 <? read_watermark s) && (u64 (lv_time env + 300) <? read_watermark s).

Definition update_license_status_from_payload (env : lic_env) (p : license_payload_t) (s : lic_state) : lic_state :=
  let '(s, hw) := license_get_hardware_id env s 32 in
  let local_hwid := default [] hw in
  let i := g_license_info s in
  let i := LicenseInfo (li_type i) (li_status i) (li_is_valid i) (str_trunc 32 (lp_hwid p))
    (str_trunc 64 (lp_client_name p)) (if 0 <? lp_max_wans p then lp_max_wans p else 256) (lp_days_total p)
    (li_days_remaining i) (lp_issued_at p) (lp_expires_at p) (li_active_seconds_remaining i)
    (li_grace_seconds_remaining i) (li_status_str i) (li_type_str i) in
  if negb (strcase_eq (lp_hwid p) local_hwid) then
    let i := set_li_state LICENSE_STATUS_HW_MISMATCH false (bytes_of_string "HW_MISMATCH") i in
    set_info (set_li_type (li_type i)
      (if lp_type p =? 2 then bytes_of_string "LIFETIME" else bytes_of_string "DAYS") i) s
  else if lp_type p =? 2 then
    let i := set_li_type LICENSE_TYPE_LIFETIME (bytes_of_string "LIFETIME") i in
    let i := set_li_state LICENSE_STATUS_ACTIVE true (bytes_of_string "ACTIVE") i in
    set_info (set_li_remaining 99999 4294967295 i) s
  else
    let i := set_li_type LICENSE_TYPE_DAYS (bytes_of_string "DAYS") i in
    if rolled_back env s then
      let i := set_li_state LICENSE_STATUS_TAMPERED false (bytes_of_string "CLOCK_TAMPERED") i in
      set_info (set_li_remaining 0 0 i) s
    else
      let s := update_watermark env (lv_time env) s in
      set_info (days_status env (lp_expires_at p) i) s.

(** ** Operations *)

Definition license_manager_init (env : lic_env) (s : lic_state) : lic_state * Z :=
  let s := set_clocks (lv_time env) 0 s in
  let '(s, hw) := license_get_hardware_id env s 32 in
  let s := set_info (set_li_hwid (default (li_hwid (g_license_info s)) hw) (g_license_info s)) s in
  let s :=
    match key_file s with
    | None => s
    | Some f =>
        match fgets 1024 f with
        | None => s
        | Some (line, _) =>
            match parse_and_verify_license_key env (cstr line) with
            | inr payload => update_license_status_from_payload env payload s
            | inl _ => s
            end
        end
    end in
  let i := g_license_info s in
  let s := if li_is_valid i then s
           else set_info (set_li_grace LICENSE_DEFAULT_GRACE_SEC
                  (set_li_state LICENSE_STATUS_GRACE (li_is_valid i) (bytes_of_string "GRACE_PERIOD") i)) s in
  (s, if li_is_valid (g_license_info s) then 0 else -1).

(** The seconds since the last tick, and the new mark. *)
Definition elapsed (last now_ms : Z) : Z * Z :=
  if (0 <? last) && (last <? now_ms) then
    let e := u32 ((now_ms - last) / 1000) in
    (e, if 0 <? e then now_ms else last)
  else (0, now_ms).

Definition grace_tick (elapsed_sec : Z) (i : license_info_t) : license_info_t :=
  if negb (li_is_valid i) && bool_decide (li_status i = LICENSE_STATUS_GRACE) && (0 <? elapsed_sec) then
    if elapsed_sec <? li_grace_seconds_remaining i
    then set_li_grace (li_grace_seconds_remaining i - elapsed_sec) i
    else set_li_state LICENSE_STATUS_UNLICENSED (li_is_valid i) (bytes_of_string "UNLICENSED") (set_li_grace 0 i)
  else i.

(** The tick of an active subscription; the status stays as it is while it runs. *)
Definition days_tick (env : lic_env) (s : lic_state) : lic_state :=
  let i := g_license_info s in
  if rolled_back env s
  then set_info (set_li_state LICENSE_STATUS_TAMPERED false (bytes_of_string "CLOCK_TAMPERED") i) s
  else
    let s := update_watermark env (lv_time env) s in
    if li_expires_at i <=? lv_time env
    then set_info (set_li_remaining 0 0 (set_li_state LICENSE_STATUS_EXPIRED false (bytes_of_string "EXPIRED") i)) s
    else
      let rem_sec := li_expires_at i - lv_time env in
      set_info (set_li_remaining (u32 (u64 (rem_sec + 86399) / 86400)) rem_sec i) s.

Definition license_manager_tick (env : lic_env) (now_ms : Z) (s : lic_state) : lic_state :=
  let '(elapsed_sec, last) := elapsed (g_last_tick_ms s) now_ms in
  let s := set_clocks (g_boot_timestamp s) last s in
  let s := set_info (grace_tick elapsed_sec (g_license_info s)) s in
  if li_is_valid (g_license_info s) && bool_decide (li_type (g_license_info s) = LICENSE_TYPE_DAYS)
  then days_tick env s else s.

(** Error codes of an activation, with their message. *)
Inductive activation :=
  | ActOk (type_str client_name : cstring)
  | ActEmpty
  | ActRejected (rc : Z)
  | ActMismatch (key_hwid local_hwid : cstring)
  | ActExpired.

Definition activation_rc (a : activation) : Z :=
  match a with
  | ActOk _ _ => 0 | ActEmpty => -1 | ActRejected _ => -1 | ActMismatch _ _ => -2 | ActExpired => -3
  end.

Definition license_manager_activate (env : lic_env) (license_key_str : option cstring) (s : lic_state)
    : lic_state * activation :=
  match license_key_str with
  | None | Some [] => (s, ActEmpty)
  | Some key =>
      match parse_and_verify_license_key env key with
      | inl rc => (s, ActRejected rc)
      | inr payload =>
          let '(s, hw) := license_get_hardware_id env s 32 in
          let local_hwid := default [] hw in
          if negb (strcase_eq (lp_hwid payload) local_hwid)
          then (s, ActMismatch (lp_hwid payload) local_hwid)
          else if (lp_type payload =? 1) && (lp_expires_at payload <=? lv_time env) then (s, ActExpired)
          else
            let s := if lv_key_writable env then set_key_file (Some (key ++ [10])) s else s in
            let s := update_watermark env (lv_time env) s in
            let s := update_license_status_from_payload env payload s in
            (s, ActOk (li_type_str (g_license_info s)) (li_client_name (g_license_info s)))
      end
  end.
End manager.

Definition license_get_info (s : lic_state) : license_info_t := g_license_info s.

Definition license_is_authorized (s : lic_state) : bool :=
  let i := g_license_info s in
  li_is_valid i
  || (bool_decide (li_status i = LICENSE_STATUS_GRACE) && (0 <? li_grace_seconds_remaining i)).

(** ** Runs

    The operations in any order, a restart being a fresh process that finds the
    files on disk. *)

Section runs.
Context `{!SignatureScheme}.

Inductive lic_step : lic_state -> lic_state -> Prop :=
  | step_tick env now_ms s : is_u64 (lv_time env) -> lic_step s (license_manager_tick env now_ms s)
  | step_activate env key s : is_u64 (lv_time env) -> lic_step s (license_manager_activate env key s).1
  | step_restart env s : is_u64 (lv_time env) ->
      lic_step s (license_manager_init env (fresh_process (key_file s) (watermark_file s))).1.

(** ** The watermark never goes back *)

Lemma update_watermark_spec env t s :
  is_u64 t -> let s' := update_watermark env t s in
  read_watermark s <= read_watermark s'
  /\ (lv_watermark_writable env = true -> t <= read_watermark s')
  /\ g_license_info s' = g_license_info s /\ g_cached_hwid s' = g_cached_hwid s /\ key_file s' = key_file s.
Proof.
  intros Ht. unfold update_watermark. destruct (Z.ltb_spec (read_watermark s) t) as [Hlt | Hge].
  - destruct (lv_watermark_writable env); cbn [andb]; [|split_and!; (done || lia)].
    assert (E : read_watermark (set_watermark_file (Some (dec t ++ [10])) s) = t).
    { unfold read_watermark. cbn [watermark_file set_watermark_file]. by rewrite scan_dec. }
    rewrite E. split_and!; (done || lia).
  - split_and!; (done || lia).
Qed.

Lemma watermark_grows env t s : is_u64 t -> read_watermark s <= read_watermark (update_watermark env t s).
Proof. intros Ht. apply (update_watermark_spec env t s Ht). Qed.

Lemma hardware_id_frame env s n :
  let s' := (license_get_hardware_id env s n).1 in
  g_license_info s' = g_license_info s /\ watermark_file s' = watermark_file s /\ key_file s' = key_file s.
Proof. unfold license_get_hardware_id. destruct (n <? 25); [done|]. by destruct (g_cached_hwid s). Qed.

Lemma read_watermark_eq s s' : watermark_file s' = watermark_file s -> read_watermark s' = read_watermark s.
Proof. unfold read_watermark. by intros ->. Qed.

Lemma update_status_watermark env p s :
  is_u64 (lv_time env) -> read_watermark s <= read_watermark (update_license_status_from_payload env p s).
Proof.
  intros Ht. unfold update_license_status_from_payload.
  pose proof (hardware_id_frame env s 32) as Hf. destruct (license_get_hardware_id env s 32) as [s1 hw].
  cbn [fst] in Hf. destruct Hf as (_ & Hw & _). rewrite <- (read_watermark_eq s s1 Hw).
  destruct (negb _); [done|]. destruct (_ =? 2); [done|]. destruct (rolled_back env s1); [done|].
  by apply (watermark_grows env (lv_time env) s1).
Qed.

Lemma lic_step_watermark s s' : lic_step s s' -> read_watermark s <= read_watermark s'.
Proof.
  intros Hs. destruct Hs as [env now_ms s Ht | env key s Ht | env s Ht].
  - unfold license_manager_tick. destruct (elapsed _ _) as [e last].
    destruct (li_is_valid _ && _); [|done]. unfold days_tick.
    destruct (rolled_back _ _); [done|].
    match goal with |- _ <= read_watermark (if _ then set_info _ ?u else set_info _ ?u) => set (w := u) end.
    assert (Hw : read_watermark s <= read_watermark w)
      by (by apply (watermark_grows env (lv_time env) (set_info _ (set_clocks _ _ s)))).
    by destruct (_ <=? _).
  - unfold license_manager_activate. destruct key as [[|c key]|]; [done| |done].
    destruct (parse_and_verify_license_key env (c :: key)) as [rc|p]; [done|].
    pose proof (hardware_id_frame env s 32) as Hf. destruct (license_get_hardware_id env s 32) as [s1 hw].
    cbn [fst] in Hf. destruct Hf as (_ & Hw & _). rewrite <- (read_watermark_eq s s1 Hw).
    destruct (negb _); [done|]. destruct (_ && _); [done|]. cbn [fst].
    etrans; [|by apply update_status_watermark].
    etrans; [|by apply watermark_grows]. by destruct (lv_key_writable env).
  - unfold license_manager_init. set (s0 := set_clocks _ _ _).
    pose proof (hardware_id_frame env s0 32) as Hf. destruct (license_get_hardware_id env s0 32) as [s1 hw].
    cbn [fst] in Hf. destruct Hf as (_ & Hw & Hk). set (s2 := set_info _ s1).
    assert (H2 : read_watermark s = read_watermark s2) by (symmetry; by apply read_watermark_eq).
    assert (H3 : forall x, read_watermark s <= read_watermark x ->
      read_watermark s <= read_watermark (if li_is_valid (g_license_info x) then x else
        set_info (set_li_grace LICENSE_DEFAULT_GRACE_SEC (set_li_state LICENSE_STATUS_GRACE
          (li_is_valid (g_license_info x)) (bytes_of_string "GRACE_PERIOD") (g_license_info x))) x))
      by (intros x Hx; by destruct (li_is_valid _)).
    cbn [fst]. apply H3. rewrite H2. repeat case_match; try done. by apply update_status_watermark.
Qed.

Lemma run_watermark s s' : rtc lic_step s s' -> read_watermark s <= read_watermark s'.
Proof. induction 1 as [|x y z Hxy _ IH]; [done|]. apply lic_step_watermark in Hxy. lia. Qed.

(** ** A valid licence is a signed one *)

(** A payload whose bytes carry a signature that the scheme accepts under the vendor's key. *)
Definition signed (p : license_payload_t) : Prop :=
  exists mem signature pay, length pay = 140%nat /\ take 4 pay = bytes_of_string "FLIC"
    /\ verify_signature mem signature pay MASTER_PUBLIC_KEY <> 0 /\ p = payload_of pay.

Definition backed_by (s : lic_state) (p : license_payload_t) : Prop :=
  signed p /\ strcase_eq (lp_hwid p) (g_cached_hwid s) = true
  /\ li_expires_at (g_license_info s) = lp_expires_at p
  /\ li_type (g_license_info s) = (if lp_type p =? 2 then LICENSE_TYPE_LIFETIME else LICENSE_TYPE_DAYS).

Record lic_inv (s : lic_state) : Prop := {
  inv_hwid : (length (g_cached_hwid s) <= 31)%nat;
  inv_backed : li_is_valid (g_license_info s) = true -> g_cached_hwid s <> [] /\ exists p, backed_by s p
}.

Lemma parse_signed env key p : parse_and_verify_license_key env key = inr p -> signed p.
Proof.
  unfold parse_and_verify_license_key. set (blob := crypto_base64_decode _ _).
  destruct (Z.eqb_spec (blen blob) (140 + 64)) as [Hl | _]; cbn [negb]; [|done].
  case_bool_decide as Hm; cbn [negb]; [|done].
  destruct (Z.eqb_spec (verify_signature (lv_mem env) (drop 140 blob) (take 140 blob) MASTER_PUBLIC_KEY) 0)
    as [_ | Hv]; [done|].
  intros [= <-]. exists (lv_mem env), (drop 140 blob), (take 140 blob).
  split_and!; [rewrite length_take; lia|done..].
Qed.

Lemma hardware_id_spec env s :
  (length (g_cached_hwid s) <= 31)%nat ->
  let r := license_get_hardware_id env s 32 in
  r.2 = Some (g_cached_hwid r.1) /\ g_cached_hwid r.1 <> [] /\ (length (g_cached_hwid r.1) <= 31)%nat
  /\ (g_cached_hwid s <> [] -> r.1 = s).
Proof.
  intros Hl. unfold license_get_hardware_id. change (32 <? 25) with false. cbv iota.
  destruct (g_cached_hwid s) as [|c h] eqn:E; cbn [fst snd].
  - set (t := hwid_text _). cbn [g_cached_hwid set_hwid_cache].
    assert (Ht : (length t <= 31)%nat) by (unfold t, hwid_text, str_trunc; rewrite length_take; lia).
    split_and!; [|done|done|done]. unfold str_trunc. by rewrite firstn_all2.
  - rewrite E. split_and!; [|done|done|done]. unfold str_trunc. by rewrite firstn_all2.
Qed.

Lemma backed_keep s s' p :
  g_cached_hwid s' = g_cached_hwid s ->
  li_expires_at (g_license_info s') = li_expires_at (g_license_info s) ->
  li_type (g_license_info s') = li_type (g_license_info s) -> backed_by s p -> backed_by s' p.
Proof. unfold backed_by. by intros -> -> ->. Qed.

Lemma update_status_inv env p s :
  is_u64 (lv_time env) -> (length (g_cached_hwid s) <= 31)%nat -> signed p ->
  lic_inv (update_license_status_from_payload env p s).
Proof.
  intros Ht Hl Hp. unfold update_license_status_from_payload.
  pose proof (hardware_id_spec env s Hl) as Hh.
  destruct (license_get_hardware_id env s 32) as [s1 hw]. cbn [fst snd] in Hh.
  destruct Hh as (-> & Hne & Hl1 & _). cbn [default from_option id].
  destruct (strcase_eq (lp_hwid p) (g_cached_hwid s1)) eqn:Ehw; cbn [negb]; [|by split].
  destruct (Z.eqb_spec (lp_type p) 2) as [E2 | E2].
  - split; [done|]. intros _. split; [done|]. exists p. split_and!; try done. by rewrite E2.
  - destruct (rolled_back env s1); [by split|].
    destruct (update_watermark_spec env (lv_time env) s1 Ht) as (_ & _ & _ & Hc & _).
    set (s2 := update_watermark env (lv_time env) s1) in *.
    split; cbn [g_cached_hwid set_info g_license_info]; rewrite Hc; [done|].
    intros _. split; [done|]. exists p. unfold backed_by. cbn [g_cached_hwid set_info g_license_info].
    rewrite Hc. unfold days_status. destruct (_ <=? _); (split_and!; [done|done|done|]);
      by rewrite (proj2 (Z.eqb_neq _ _) E2).
Qed.

Lemma tick_inv env now_ms s : is_u64 (lv_time env) -> lic_inv s -> lic_inv (license_manager_tick env now_ms s).
Proof.
  intros Ht [Hl Hb]. unfold license_manager_tick. destruct (elapsed _ _) as [e last].
  set (s1 := set_clocks _ _ s). set (s2 := set_info (grace_tick e (g_license_info s1)) s1).
  assert (Hg : li_is_valid (g_license_info s2) = li_is_valid (g_license_info s)
    /\ li_expires_at (g_license_info s2) = li_expires_at (g_license_info s)
    /\ li_type (g_license_info s2) = li_type (g_license_info s)).
  { subst s2 s1. cbn [g_license_info set_info set_clocks]. unfold grace_tick.
    destruct (_ && _ && _); [|done]. by destruct (_ <? _). }
  destruct Hg as (Hv & He & Hty).
  assert (H2 : lic_inv s2).
  { split; [done|]. rewrite Hv. intros Hval. destruct (Hb Hval) as [Hne [p Hp]]. split; [done|].
    exists p. by apply (backed_keep s). }
  destruct (li_is_valid (g_license_info s2) && _) eqn:E; [|done]. apply andb_true_iff in E as [Hval _].
  destruct (inv_backed _ H2 Hval) as [Hne [p Hp]]. unfold days_tick.
  destruct (rolled_back env s2); [by split|].
  destruct (update_watermark_spec env (lv_time env) s2 Ht) as (_ & _ & _ & Hc & _).
  set (s3 := update_watermark env (lv_time env) s2) in *.
  destruct (_ <=? _); (split; cbn [g_cached_hwid set_info g_license_info]; rewrite Hc; [done|]).
  - done.
  - intros _. split; [done|]. exists p. by apply (backed_keep s2).
Qed.

Lemma lic_step_inv s s' : lic_step s s' -> lic_inv s -> lic_inv s'.
Proof.
  intros Hs Hi. destruct Hs as [env now_ms s Ht | env key s Ht | env s Ht].
  - by apply tick_inv.
  - unfold license_manager_activate. destruct key as [[|c key]|]; [done| |done].
    destruct (parse_and_verify_license_key env (c :: key)) as [rc|p] eqn:Ep; [done|].
    apply parse_signed in Ep. pose proof (hardware_id_spec env s (inv_hwid _ Hi)) as Hh.
    pose proof (hardware_id_frame env s 32) as Hf.
    destruct (license_get_hardware_id env s 32) as [s1 hw]. cbn [fst snd] in Hh, Hf.
    destruct Hh as (_ & Hne & Hl1 & Hsame). destruct Hf as (Hinfo & _).
    assert (Hi1 : lic_inv s1).
    { split; [done|]. rewrite Hinfo. intros Hv. destruct (inv_backed _ Hi Hv) as [Hne0 Hp].
      rewrite (Hsame Hne0). by split. }
    destruct (negb _); [done|]. destruct (_ && _); [done|]. cbn [fst]. apply update_status_inv; [done| |done].
    destruct (update_watermark_spec env (lv_time env)
      (if lv_key_writable env then set_key_file (Some ((c :: key) ++ [10])) s1 else s1) Ht) as (_ & _ & _ & -> & _).
    by destruct (lv_key_writable env).
  - unfold license_manager_init. set (s0 := set_clocks _ _ _).
    pose proof (hardware_id_spec env s0 ltac:(cbn; lia)) as Hh. pose proof (hardware_id_frame env s0 32) as Hf.
    destruct (license_get_hardware_id env s0 32) as [s1 hw]. cbn [fst snd] in Hh, Hf.
    destruct Hh as (_ & Hne & Hl1 & _). destruct Hf as (Hinfo & _ & Hkey). set (s2 := set_info _ s1).
    assert (H2 : lic_inv s2) by (split; [done|]; unfold s2; cbn; rewrite Hinfo; done).
    assert (H3 : forall x, lic_inv x -> lic_inv (if li_is_valid (g_license_info x) then x else
        set_info (set_li_grace LICENSE_DEFAULT_GRACE_SEC (set_li_state LICENSE_STATUS_GRACE
          (li_is_valid (g_license_info x)) (bytes_of_string "GRACE_PERIOD") (g_license_info x))) x)).
    { intros x Hx. destruct (li_is_valid (g_license_info x)) eqn:E; [done|]. split; [apply Hx|done]. }
    cbn [fst]. apply H3. destruct (key_file s2) as [f|]; [|done]. destruct (fgets 1024 f) as [[l r]|]; [|done].
    destruct (parse_and_verify_license_key env (cstr l)) as [rc|p] eqn:Ep; [done|].
    apply update_status_inv; [done|done|by eapply parse_signed].
Qed.

Lemma run_inv s s' : rtc lic_step s s' -> lic_inv s -> lic_inv s'.
Proof. induction 1 as [|x y z Hxy _ IH]; [done|]. intros Hi. by apply IH, (lic_step_inv x). Qed.

Lemma fresh_inv k w : lic_inv (fresh_process k w).
Proof. split; [cbn; lia|done]. Qed.
End runs.

(** ** Grace *)

Section grace.
Context `{!SignatureScheme} (env : lic_env).

(** A process without a licence, ticked at the times of a list. *)
Definition ticks (ts : list Z) (s : lic_state) : lic_state :=
  foldl (fun s t => license_manager_tick env t s) s ts.

(** Times in milliseconds that do not go back, from [t] on. *)
Fixpoint increasing (t : Z) (ts : list Z) : Prop :=
  match ts with
  | [] => True
  | x :: ts => t <= x < 1000000000000 /\ increasing x ts
  end.
Definition last_time (t : Z) (ts : list Z) : Z := foldl (fun _ x => x) t ts.

Record in_grace (s : lic_state) : Prop := {
  ig_invalid : li_is_valid (g_license_info s) = false;
  ig_status : li_status (g_license_info s) = LICENSE_STATUS_GRACE;
}.

(** Between the first tick at [t0] and the last at [t]. *)
Definition grace_inv (G t0 t : Z) (s : lic_state) : Prop :=
  let i := g_license_info s in
  let m := g_last_tick_ms s in
  let r := li_grace_seconds_remaining i in
  li_is_valid i = false
  /\ ((li_status i = LICENSE_STATUS_GRACE /\ 1 <= r <= G /\ t0 <= m <= t /\ t - m < 1000
       /\ 1000 * (G - r) <= m - t0 <= 2000 * (G - r))
      \/ (li_status i = LICENSE_STATUS_UNLICENSED /\ r = 0 /\ 1000 * G <= t - t0)).

Lemma grace_tick_inv G t0 t t' s :
  0 < t0 <= t -> t <= t' < 1000000000000 -> grace_inv G t0 t s -> grace_inv G t0 t' (license_manager_tick env t' s).
Proof.
  intros Ht Ht' (Hv & Hcase). unfold license_manager_tick.
  destruct (elapsed (g_last_tick_ms s) t') as [e last] eqn:Ee.
  set (i := g_license_info s) in *.
  assert (Hi : g_license_info (set_info (grace_tick e i) (set_clocks (g_boot_timestamp s) last s)) = grace_tick e i) by done.
  cbn [g_license_info set_clocks]. fold i. rewrite Hi.
  assert (Hv' : li_is_valid (grace_tick e i) = false).
  { unfold grace_tick. destruct (_ && _ && _); [|done]. by destruct (_ <? _). }
  rewrite Hv'. cbn [andb]. split; [by rewrite Hi|]. rewrite Hi.
  change (g_last_tick_ms (set_info (grace_tick e i) (set_clocks (g_boot_timestamp s) last s))) with last.
  destruct Hcase as [(Hst & Hr & Hm & Hd & Hb) | (Hst & Hr & Hb)].
  - unfold elapsed in Ee. rewrite (proj2 (Z.ltb_lt 0 (g_last_tick_ms s))) in Ee by lia. cbn [andb] in Ee.
    unfold grace_tick. rewrite Hv, Hst, bool_decide_true by done. cbn [negb andb].
    destruct (Z.ltb_spec (g_last_tick_ms s) t') as [Hlt | Hge].
    + rewrite u32_small in Ee by cint.
      destruct (Z.ltb_spec 0 ((t' - g_last_tick_ms s) / 1000)) as [He | He];
        injection Ee as <- <-; rewrite ?(proj2 (Z.ltb_lt 0 _) He), ?(proj2 (Z.ltb_ge 0 _) He).
      * destruct (Z.ltb_spec ((t' - g_last_tick_ms s) / 1000) (li_grace_seconds_remaining i)).
        -- left. cbn. split_and!; (done || lia).
        -- right. cbn. split_and!; (done || lia).
      * left. split_and!; (done || lia).
    + injection Ee as <- <-. change (0 <? 0) with false. cbv iota. left. split_and!; (done || lia).
  - right. unfold grace_tick. rewrite Hst, bool_decide_false by done. rewrite andb_false_r. cbn [andb].
    split_and!; (done || lia).
Qed.

Lemma ticks_inv G t0 ts t s :
  0 < t0 <= t -> increasing t ts -> grace_inv G t0 t s -> grace_inv G t0 (last_time t ts) (ticks ts s).
Proof.
  revert t s. induction ts as [|t1 ts IH]; intros t s Ht Hs Hi; [done|]. destruct Hs as [H1 Hs].
  apply (IH t1); [lia|done|]. by apply (grace_tick_inv G t0 t).
Qed.

Lemma first_tick_inv t0 s :
  0 < t0 -> in_grace s -> g_last_tick_ms s = 0 -> 1 <= li_grace_seconds_remaining (g_license_info s) ->
  grace_inv (li_grace_seconds_remaining (g_license_info s)) t0 t0 (license_manager_tick env t0 s).
Proof.
  intros Ht [Hv Hst] Hl Hg. unfold license_manager_tick. rewrite Hl. unfold elapsed.
  change (0 <? 0) with false. cbn [andb].
  assert (E : grace_tick 0 (g_license_info s) = g_license_info s)
    by (unfold grace_tick; change (0 <? 0) with false; by rewrite andb_false_r).
  cbn [g_license_info set_clocks set_info g_boot_timestamp]. rewrite E, Hv. cbn [andb].
  split; [done|]. left. cbn. split_and!; (done || lia).
Qed.
End grace.

(** ** Theorems *)

Section theorems.
Context `{!SignatureScheme}.

Lemma tick_marks env now_ms s :
  is_u64 (lv_time env) -> lv_watermark_writable env = true ->
  let s' := license_manager_tick env now_ms s in
  li_is_valid (g_license_info s') = true -> li_type (g_license_info s') = LICENSE_TYPE_DAYS ->
  lv_time env <= read_watermark s' /\ lv_time env < li_expires_at (g_license_info s').
Proof.
  intros Ht Hw. unfold license_manager_tick. destruct (elapsed _ _) as [e last].
  set (s2 := set_info _ (set_clocks _ _ s)).
  destruct (li_is_valid (g_license_info s2)) eqn:Ev; cbn [andb]; [|intros E; by rewrite E in Ev].
  case_bool_decide as Hty; [|done]. unfold days_tick. destruct (rolled_back env s2); [done|].
  destruct (Z.leb_spec (li_expires_at (g_license_info s2)) (lv_time env)) as [Hx | Hx]; [done|].
  intros _ _. destruct (update_watermark_spec env (lv_time env) s2 Ht) as (_ & Hm & _). split; [by apply Hm|done].
Qed.

Lemma rolled_back_days env s w :
  is_u64 (lv_time env + 300) -> 0 < w -> w <= read_watermark s -> lv_time env + 300 < w -> rolled_back env s = true.
Proof.
  intros Hu Hw Hle Hlt. unfold rolled_back. rewrite u64_small by done.
  apply andb_true_iff. split; apply Z.ltb_lt; lia.
Qed.

Lemma tick_rolled_back env now_ms s :
  (forall x, watermark_file x = watermark_file s -> rolled_back env x = true) ->
  let s' := license_manager_tick env now_ms s in
  li_is_valid (g_license_info s') = true -> li_type (g_license_info s') <> LICENSE_TYPE_DAYS.
Proof.
  intros Hr. unfold license_manager_tick. destruct (elapsed _ _) as [e last].
  set (s2 := set_info _ (set_clocks _ _ s)).
  destruct (li_is_valid (g_license_info s2)) eqn:Ev; cbn [andb]; [|intros E; by rewrite E in Ev].
  case_bool_decide as Hty; [|done]. unfold days_tick. by rewrite (Hr s2).
Qed.

Lemma update_rolled_back env p s :
  (forall x, watermark_file x = watermark_file s -> rolled_back env x = true) ->
  let s' := update_license_status_from_payload env p s in
  li_is_valid (g_license_info s') = true -> li_type (g_license_info s') <> LICENSE_TYPE_DAYS.
Proof.
  intros Hr. unfold update_license_status_from_payload.
  pose proof (hardware_id_frame env s 32) as Hf. destruct (license_get_hardware_id env s 32) as [s1 hw].
  cbn [fst] in Hf. destruct Hf as (_ & Hw & _).
  destruct (negb _); [done|]. destruct (_ =? 2); [done|]. by rewrite (Hr s1).
Qed.

Definition local_hwid (env : lic_env) (s : lic_state) : cstring :=
  default [] (license_get_hardware_id env s 32).2.

(** What a payload makes of the state. *)
Lemma update_status_spec env p s :
  let s' := update_license_status_from_payload env p s in
  li_is_valid (g_license_info s')
    = strcase_eq (lp_hwid p) (local_hwid env s)
      && ((lp_type p =? 2) || (negb (rolled_back env s) && (lv_time env <? lp_expires_at p)))
  /\ li_expires_at (g_license_info s') = lp_expires_at p
  /\ li_client_name (g_license_info s') = str_trunc 64 (lp_client_name p)
  /\ (strcase_eq (lp_hwid p) (local_hwid env s) = true ->
      li_type (g_license_info s') = if lp_type p =? 2 then LICENSE_TYPE_LIFETIME else LICENSE_TYPE_DAYS)
  /\ key_file s' = key_file s.
Proof.
  unfold update_license_status_from_payload, local_hwid.
  pose proof (hardware_id_frame env s 32) as Hf. destruct (license_get_hardware_id env s 32) as [s1 hw].
  cbn [fst snd] in *. destruct Hf as (_ & Hw & Hk).
  destruct (strcase_eq (lp_hwid p) (default [] hw)) eqn:E; cbn [negb andb]; [|by split_and!].
  destruct (lp_type p =? 2); cbn [orb]; [by split_and!|].
  assert (Hr : rolled_back env s = rolled_back env s1) by (unfold rolled_back; by rewrite (read_watermark_eq s s1)).
  rewrite Hr. destruct (rolled_back env s1); cbn [negb andb]; [by split_and!|].
  unfold days_status. rewrite (Z.ltb_antisym (lp_expires_at p)).
  assert (Hk' : key_file (update_watermark env (lv_time env) s1) = key_file s)
    by (unfold update_watermark; by destruct (_ && _)).
  destruct (_ <=? _); by split_and!.
Qed.

(** A newline at the end of a key changes nothing. *)
Definition eol (s s' : cstring) : Prop := s' = s \/ s' = s ++ [10].

Lemma eol_skip_key s s' : eol s s' -> eol (skip_key_blanks s) (skip_key_blanks s').
Proof.
  intros [-> | ->]; [by left|]. induction s as [|c s IH]; cbn; [by left|].
  destruct (_ || _ || _ || _); [done|by right].
Qed.

Lemma eol_strip p s s' :
  Forall (fun c => c <> 10) p -> eol s s' -> eol (default s (strip_prefix p s)) (default s' (strip_prefix p s')).
Proof.
  intros Hp [-> | ->]; [by left|].
  assert (Hst : strip_prefix p (s ++ [10]) = (fun r => r ++ [10]) <$> strip_prefix p s).
  { revert s. induction Hp as [|a p Ha Hp IH]; intros s; [done|]. destruct s as [|b s]; cbn [strip_prefix app].
    - by rewrite (proj2 (Z.eqb_neq a 10)).
    - destruct (a =? b); [apply IH|done]. }
  rewrite Hst. destruct (strip_prefix p s); cbn; by right.
Qed.

Lemma eol_skip s s' :
  eol s s' -> (skip_blanks s = [] /\ skip_blanks s' = [])
    \/ exists c r r', skip_blanks s = c :: r /\ skip_blanks s' = c :: r' /\ eol r r'
         /\ (length r < length s)%nat /\ (length r' < length s')%nat.
Proof.
  intros He. induction s as [|c s IH] in s', He |- *; [by destruct He as [-> | ->]; left|].
  assert (Hs : exists t, s' = c :: t /\ eol s t)
    by (destruct He as [-> | ->]; [by exists s; split; [|left]|by exists (s ++ [10]); split; [|right]]).
  destruct Hs as (t & -> & Ht). cbn [skip_blanks length]. destruct (b64_skip c).
  - destruct (IH t Ht) as [Hn | (d & r & r' & H1 & H2 & H3 & H4 & H5)]; [by left|].
    right. exists d, r, r'. split_and!; (done || lia).
  - right. exists c, s, t. split_and!; (done || lia).
Qed.

Lemma skip_blanks_idem s : skip_blanks (skip_blanks s) = skip_blanks s.
Proof. induction s as [|c s IH]; cbn; [done|]. destruct (b64_skip c) eqn:E; [done|]. cbn. by rewrite E. Qed.

Lemma eol_sextet s s' :
  eol s s' -> (next_sextet s').1 = (next_sextet s).1 /\ eol (next_sextet s).2 (next_sextet s').2
    /\ (length (next_sextet s).2 <= length s)%nat /\ (length (next_sextet s').2 <= length s')%nat.
Proof.
  intros He. unfold next_sextet. destruct (eol_skip s s' He) as [[-> ->] | (c & r & r' & -> & -> & Hr & H1 & H2)].
  - split_and!; [done|by left|cbn; lia..].
  - split_and!; (done || cbn; lia).
Qed.

Lemma eol_decode n n' s s' m out :
  eol s s' -> (length s <= n)%nat -> (length s' <= n')%nat ->
  decode_loop n' s' m out = decode_loop n s m out.
Proof.
  revert n' s s' out. induction n as [|n IH]; intros n' s s' out He Hn Hn'.
  { assert (s = []) as -> by (destruct s; [done|cbn in Hn; lia]).
    destruct n' as [|n']; [done|]. by destruct He as [-> | ->]. }
  destruct (eol_skip s s' He) as [[H1 H2] | (c & r & r' & H1 & H2 & Hr & Hl & Hl')].
  - destruct n' as [|n']; cbn [decode_loop]; rewrite ?H1, ?H2; done.
  - destruct n' as [|n']; [lia|]. cbn [decode_loop]. rewrite H1, H2.
    assert (Hc : eol (c :: r) (c :: r')) by (destruct Hr as [-> | ->]; [by left|by right]).
    unfold next_sextet at 1 5. rewrite <- H1, <- H2. rewrite !skip_blanks_idem, H1, H2.
    destruct (eol_sextet r r' Hr) as (E1 & X1 & L1 & L1').
    destruct (next_sextet r) as [b1 t1], (next_sextet r') as [b1' t1']. cbn [fst snd] in *. subst b1'.
    destruct (eol_sextet t1 t1' X1) as (E2 & X2 & L2 & L2').
    destruct (next_sextet t1) as [b2 t2], (next_sextet t1') as [b2' t2']. cbn [fst snd] in *. subst b2'.
    destruct (eol_sextet t2 t2' X2) as (E3 & X3 & L3 & L3').
    destruct (next_sextet t2) as [b3 t3], (next_sextet t2') as [b3' t3']. cbn [fst snd] in *. subst b3'.
    destruct (_ || _); [done|]. apply IH; [done|lia|lia].
Qed.

Lemma parse_eol env env' key :
  lv_mem env' = lv_mem env ->
  parse_and_verify_license_key env' (key ++ [10]) = parse_and_verify_license_key env key.
Proof.
  intros Hm. unfold parse_and_verify_license_key. rewrite Hm.
  pose proof (eol_skip_key key (key ++ [10]) ltac:(by right)) as H1.
  apply (eol_strip (bytes_of_string "FLUX-LIC-")) in H1; [|vm_compute; repeat (constructor; [done|]); constructor].
  unfold crypto_base64_decode. by rewrite (eol_decode _ _ _ _ 512 [] H1 ltac:(reflexivity) ltac:(reflexivity)).
Qed.

Lemma fresh_hwid env k w :
  local_hwid env (set_clocks (lv_time env) 0 (fresh_process k w)) = hwid_text (crypto_sha256 (fingerprint env)).
Proof.
  unfold local_hwid, license_get_hardware_id. change (32 <? 25) with false. cbn.
  unfold hwid_text, str_trunc. rewrite take_take. done.
Qed.

(** Start-up, when the key file holds a key that verifies. *)
Lemma init_with_key env f line rest p w :
  fgets 1024 f = Some (line, rest) -> parse_and_verify_license_key env (cstr line) = inr p ->
  let s0 := set_clocks (lv_time env) 0 (fresh_process (Some f) w) in
  exists s1, local_hwid env s1 = hwid_text (crypto_sha256 (fingerprint env))
    /\ watermark_file s1 = w
    /\ let s2 := update_license_status_from_payload env p s1 in
       li_is_valid (g_license_info s2) = true ->
       (license_manager_init env (fresh_process (Some f) w)).1 = s2.
Proof.
  intros Hf Hp s0. unfold license_manager_init. fold s0.
  pose proof (fresh_hwid env (Some f) w) as Hh. fold s0 in Hh. unfold local_hwid in Hh.
  pose proof (hardware_id_spec env s0 ltac:(cbn; lia)) as Hs.
  pose proof (hardware_id_frame env s0 32) as Hfr.
  destruct (license_get_hardware_id env s0 32) as [s1 hw]. cbn [fst snd] in *.
  destruct Hs as (-> & Hne & Hl & _). destruct Hfr as (_ & Hw & Hk). cbn [from_option id] in Hh.
  set (s2 := set_info _ s1). exists s2. split_and!.
  - unfold local_hwid. pose proof (hardware_id_spec env s2 Hl) as (E & _ & _ & Hsame).
    rewrite E. cbn [from_option id]. rewrite (Hsame Hne). exact Hh.
  - exact Hw.
  - cbv zeta. intros Hv. assert (Hkf : key_file s2 = Some f) by exact Hk.
    rewrite Hkf, Hf, Hp. by rewrite Hv.
Qed.

(** A successful activation, with the payload it installs. *)
Lemma activate_ok env key s s' t c :
  license_manager_activate env (Some key) s = (s', ActOk t c) ->
  exists p s1, parse_and_verify_license_key env key = inr p
    /\ s' = update_license_status_from_payload env p (update_watermark env (lv_time env) s1)
    /\ (lv_key_writable env = true -> key_file s1 = Some (key ++ [10]))
    /\ strcase_eq (lp_hwid p) (local_hwid env s) = true.
Proof.
  unfold license_manager_activate, local_hwid. destruct key as [|k key]; [done|].
  destruct (parse_and_verify_license_key env (k :: key)) as [rc|p]; [done|].
  destruct (license_get_hardware_id env s 32) as [s1 hw]. cbn [snd].
  destruct (strcase_eq (lp_hwid p) (default [] hw)) eqn:E; cbn [negb]; [|done].
  destruct (_ && _); [done|]. intros [= <- _ _]. eexists p, _. split_and!; [done|done| |done].
  by intros ->.
Qed.

Lemma update_watermark_le env t s : is_u64 t -> read_watermark (update_watermark env t s) <= Z.max (read_watermark s) t.
Proof.
  intros Ht. unfold update_watermark. destruct (_ && _); [|lia].
  unfold read_watermark at 1. cbn [watermark_file set_watermark_file]. rewrite scan_dec by done. cbn. lia.
Qed.

Lemma update_status_watermark_le env p s :
  is_u64 (lv_time env) ->
  read_watermark (update_license_status_from_payload env p s) <= Z.max (read_watermark s) (lv_time env).
Proof.
  intros Ht. unfold update_license_status_from_payload.
  pose proof (hardware_id_frame env s 32) as Hf. destruct (license_get_hardware_id env s 32) as [s1 hw].
  cbn [fst] in Hf. destruct Hf as (_ & Hw & _). rewrite <- (read_watermark_eq s s1 Hw).
  destruct (negb _); [apply Z.le_max_l|]. destruct (_ =? 2); [apply Z.le_max_l|].
  destruct (rolled_back env s1); [apply Z.le_max_l|]. exact (update_watermark_le env (lv_time env) s1 Ht).
Qed.

Lemma known_hwid env s :
  g_cached_hwid s = [] \/ g_cached_hwid s = hwid_text (crypto_sha256 (fingerprint env)) ->
  local_hwid env s = hwid_text (crypto_sha256 (fingerprint env)).
Proof.
  intros Hc. set (h := hwid_text _) in *.
  assert (Hh : str_trunc 32 h = h) by (unfold h, hwid_text, str_trunc; by rewrite take_take).
  unfold local_hwid, license_get_hardware_id. change (32 <? 25) with false. cbv iota.
  destruct (g_cached_hwid s) as [|x l]; cbn [snd from_option id]; [exact Hh|].
  destruct Hc as [Hc | Hc]; [done|]. by rewrite Hc.
Qed.

Lemma not_rolled_back env env' s s' :
  0 <= lv_time env <= lv_time env' -> lv_time env' + 300 < 18446744073709551616 ->
  rolled_back env s = false -> read_watermark s' <= Z.max (read_watermark s) (lv_time env) ->
  rolled_back env' s' = false.
Proof.
  intros Ht Hb Hr Hle. unfold rolled_back in *. rewrite u64_small in * by cint.
  apply andb_false_iff. apply andb_false_iff in Hr. rewrite !Z.ltb_ge in *. lia.
Qed.

Lemma valid_payload env p s :
  let s' := update_license_status_from_payload env p s in
  li_is_valid (g_license_info s') = true ->
  strcase_eq (lp_hwid p) (local_hwid env s) = true
  /\ ((lp_type p =? 2) = true \/ ((lp_type p =? 2) = false /\ rolled_back env s = false)).
Proof.
  cbv zeta. destruct (update_status_spec env p s) as (-> & _).
  destruct (strcase_eq _ _); [|done]. destruct (lp_type p =? 2); [by split; [|left]|].
  destruct (rolled_back env s); [done|]. by split; [|right].
Qed.

(** C6.  A licence is valid only by a signature.  Whatever keys, ticks and restarts a machine goes
    through, if its licence is valid then there is a payload signed under the vendor's key, for this
    machine's hardware identifier, of the type and expiry that the manager enforces. *)
Theorem valid_licence_is_signed key watermark s
    (Hrun : rtc lic_step (fresh_process key watermark) s)
    (Hvalid : li_is_valid (g_license_info s) = true) :
  exists p, backed_by s p.
Proof. apply (run_inv _ _ Hrun (fresh_inv key watermark)) in Hvalid as [_ Hp]. exact Hp. Qed.

(** C35.  An activated licence survives a restart.  When a key without an inner newline is activated
    and stored, and the licence is valid after it, then a process started later on the same machine,
    before the subscription ends, finds the key on disk and has the same licence. *)
Theorem activation_survives_restart env env' key s s' t c
    (Hkey : Forall (fun c => c <> 0 /\ c <> 10) key) (Hlen : (length key <= 1022)%nat)
    (Hstored : lv_key_writable env = true)
    (Hmem : lv_mem env' = lv_mem env) (Hfp : fingerprint env' = fingerprint env)
    (Hcache : g_cached_hwid s = [] \/ g_cached_hwid s = hwid_text (crypto_sha256 (fingerprint env)))
    (Ht : 0 <= lv_time env <= lv_time env') (Hb : lv_time env' + 300 < 18446744073709551616)
    (Hact : license_manager_activate env (Some key) s = (s', ActOk t c))
    (Hvalid : li_is_valid (g_license_info s') = true)
    (Hlive : li_type (g_license_info s') = LICENSE_TYPE_LIFETIME
             \/ lv_time env' < li_expires_at (g_license_info s')) :
  let s'' := (license_manager_init env' (fresh_process (key_file s') (watermark_file s'))).1 in
  li_is_valid (g_license_info s'') = true
  /\ li_type (g_license_info s'') = li_type (g_license_info s')
  /\ li_expires_at (g_license_info s'') = li_expires_at (g_license_info s')
  /\ li_client_name (g_license_info s'') = li_client_name (g_license_info s').
Proof.
  apply activate_ok in Hact as (p & s1 & Hp & -> & Hk & Hhw). specialize (Hk Hstored).
  apply Forall_and in Hkey as [Hk0 Hk10].
  set (s2 := update_watermark env (lv_time env) s1) in *.
  assert (Hk2 : key_file s2 = Some (key ++ [10])) by (unfold s2, update_watermark; by destruct (_ && _)).
  destruct (update_status_spec env p s2) as (_ & Hex & Hcl & Hty & Hkf).
  destruct (valid_payload env p s2 Hvalid) as [Hh2 Hcase]. specialize (Hty Hh2).
  pose proof (update_status_watermark_le env p s2 ltac:(cint)) as Hwm.
  set (s3 := update_license_status_from_payload env p s2) in *. rewrite Hkf, Hk2.
  rewrite known_hwid in Hhw by done.
  destruct (init_with_key env' (key ++ [10]) (key ++ [10]) [] p (watermark_file s3)) as (s4 & Hh4 & Hw4 & Hinit).
  { unfold fgets. rewrite take_line_all by (done || lia). by destruct key. }
  { rewrite cstr_no_nul by (apply Forall_app; split; [done|by constructor]). by rewrite (parse_eol env env'). }
  rewrite Hfp in Hh4. destruct (update_status_spec env' p s4) as (Hv4 & Hex4 & Hcl4 & Hty4 & _).
  rewrite Hh4, Hhw in Hv4, Hty4. specialize (Hty4 eq_refl).
  assert (Hval : li_is_valid (g_license_info (update_license_status_from_payload env' p s4)) = true).
  { rewrite Hv4. destruct Hcase as [-> | [E2 Hr]]; [done|]. rewrite E2 in *.
    rewrite (not_rolled_back env env' s2 s4) by (done || by rewrite (read_watermark_eq s3 s4)).
    destruct Hlive as [Hl | Hl]; [by rewrite Hty in Hl|]. rewrite Hex in Hl. cbn. by apply Z.ltb_lt. }
  cbv zeta. rewrite (Hinit Hval). split_and!; [done|by rewrite Hty4, Hty|by rewrite Hex4, Hex|by rewrite Hcl4, Hcl].
Qed.

Lemma init_rolled_back env k w :
  (forall x, watermark_file x = w -> rolled_back env x = true) ->
  let s' := (license_manager_init env (fresh_process k w)).1 in
  li_is_valid (g_license_info s') = true -> li_type (g_license_info s') <> LICENSE_TYPE_DAYS.
Proof.
  intros Hr. unfold license_manager_init. set (s0 := set_clocks _ _ _).
  pose proof (hardware_id_frame env s0 32) as Hf. destruct (license_get_hardware_id env s0 32) as [s1 hw].
  cbn [fst] in *. destruct Hf as (Hi & Hw & _). set (s2 := set_info _ s1).
  assert (H2 : li_is_valid (g_license_info s2) = false) by (unfold s2; cbn; by rewrite Hi).
  assert (Hk : forall x, (li_is_valid (g_license_info x) = true -> li_type (g_license_info x) <> LICENSE_TYPE_DAYS) ->
    let y := if li_is_valid (g_license_info x) then x else set_info (set_li_grace LICENSE_DEFAULT_GRACE_SEC
      (set_li_state LICENSE_STATUS_GRACE (li_is_valid (g_license_info x)) (bytes_of_string "GRACE_PERIOD")
        (g_license_info x))) x in
    li_is_valid (g_license_info y) = true -> li_type (g_license_info y) <> LICENSE_TYPE_DAYS).
  { intros x Hx y. unfold y. destruct (li_is_valid (g_license_info x)) eqn:E; [|done]. intros _. by apply Hx. }
  apply Hk. assert (Hn : li_is_valid (g_license_info s2) = true -> li_type (g_license_info s2) <> LICENSE_TYPE_DAYS)
    by (by rewrite H2).
  destruct (key_file s2) as [f|]; [|done]. destruct (fgets 1024 f) as [[l r]|]; [|done].
  destruct (parse_and_verify_license_key env (cstr l)) as [rc|p]; [done|].
  apply update_rolled_back. intros x Hx. apply Hr. rewrite Hx. exact Hw.
Qed.

(** A clock turned back ends a subscription.  Once a subscription in days has been ticked at a
    time [T], whatever ticks, activations and restarts follow, a tick or a restart at a time more
    than five minutes before [T] leaves no valid subscription in days. *)
Theorem clock_rollback_detected env0 ms0 s0 s1 env ms
    (Hu0 : is_u64 (lv_time env0)) (Hw : lv_watermark_writable env0 = true)
    (Hv : li_is_valid (g_license_info (license_manager_tick env0 ms0 s0)) = true)
    (Hd : li_type (g_license_info (license_manager_tick env0 ms0 s0)) = LICENSE_TYPE_DAYS)
    (Hrun : rtc lic_step (license_manager_tick env0 ms0 s0) s1)
    (Hu : 0 <= lv_time env) (Hback : lv_time env + 300 < lv_time env0) :
  let bad s := li_is_valid (g_license_info s) = true /\ li_type (g_license_info s) = LICENSE_TYPE_DAYS in
  ~ bad (license_manager_tick env ms s1)
  /\ ~ bad (license_manager_init env (fresh_process (key_file s1) (watermark_file s1))).1.
Proof.
  destruct (tick_marks env0 ms0 s0 Hu0 Hw Hv Hd) as [Hm _]. apply run_watermark in Hrun.
  assert (Hr : forall x, watermark_file x = watermark_file s1 -> rolled_back env x = true).
  { intros x Hx. apply (rolled_back_days env x (lv_time env0)); [cint|lia| |done].
    rewrite (read_watermark_eq s1 x Hx). lia. }
  split; intros [Hv1 Hd1].
  - by apply (tick_rolled_back env ms s1 Hr).
  - by apply (init_rolled_back env (key_file s1) (watermark_file s1) Hr).
Qed.

(** A restart authorises for at least the grace period, whatever the files hold: a key that does
    not verify, has expired or was tampered with included. *)
Theorem restart_authorizes env s :
  let s' := (license_manager_init env s).1 in
  license_is_authorized s' = true
  /\ (li_is_valid (g_license_info s') = false ->
      li_status (g_license_info s') = LICENSE_STATUS_GRACE
      /\ li_grace_seconds_remaining (g_license_info s') = LICENSE_DEFAULT_GRACE_SEC).
Proof.
  unfold license_manager_init. destruct (license_get_hardware_id _ _ 32) as [s1 hw]. cbn [fst].
  match goal with |- context [if li_is_valid (g_license_info ?u) then ?u else _] => set (x := u) end.
  unfold license_is_authorized. destruct (li_is_valid (g_license_info x)) eqn:E.
  - by rewrite E.
  - cbn. done.
Qed.

Lemma init_without_key env w :
  let s := (license_manager_init env (fresh_process None w)).1 in
  in_grace s /\ g_last_tick_ms s = 0 /\ li_grace_seconds_remaining (g_license_info s) = LICENSE_DEFAULT_GRACE_SEC.
Proof.
  unfold license_manager_init. set (s0 := set_clocks _ _ _).
  assert (E : forall h, g_license_info (set_hwid_cache h s0) = initial_info) by done.
  unfold license_get_hardware_id. change (32 <? 25) with false. cbn. done.
Qed.

(** How long the grace period lasts.  A process without a key that is ticked at times that do not
    go back is authorised until half an hour has passed since the first tick, and no longer an hour
    after it.  Between the two it depends on the ticks, since the fraction of a second of each is lost. *)
Theorem grace_bounds env0 env w t0 ts (Ht0 : 0 < t0) (Hts : increasing t0 ts) :
  let s := ticks env (t0 :: ts) (license_manager_init env0 (fresh_process None w)).1 in
  (last_time t0 ts - t0 < 1800000 -> license_is_authorized s = true)
  /\ (3599000 <= last_time t0 ts - t0 -> license_is_authorized s = false).
Proof.
  destruct (init_without_key env0 w) as (Hg & Hl & Hr).
  set (s0 := (license_manager_init env0 (fresh_process None w)).1) in *.
  pose proof (first_tick_inv env t0 s0 Ht0 Hg Hl ltac:(rewrite Hr; done)) as Hi. rewrite Hr in Hi.
  pose proof (ticks_inv env LICENSE_DEFAULT_GRACE_SEC t0 ts t0 _ ltac:(lia) Hts Hi) as Hf.
  change (ticks env ts (license_manager_tick env t0 s0)) with (ticks env (t0 :: ts) s0) in Hf.
  unfold LICENSE_DEFAULT_GRACE_SEC in Hf. destruct Hf as (Hv & Hcase). unfold license_is_authorized. rewrite Hv. cbn [orb].
  destruct Hcase as [(-> & Hx & Hy & Hz & Hw) | (-> & -> & Hx)]; (split; intros Hlt; [|]);
    rewrite ?bool_decide_true, ?bool_decide_false by done; cbn [andb]; (done || lia).
Qed.
End theorems.

(** ** Witnesses

    A scheme that accepts every signature stands for the vendor's key pair, and the key is for the
    identifier of a machine that shows no hardware files. *)

Module Demo.
Definition accept_all : SignatureScheme := fun _ _ _ _ => 1.
#[local] Existing Instance accept_all | 0.

Definition env_at (t : Z) : lic_env := LicEnv t (fun _ => None) true true true.
Definition hwid : cstring := Eval vm_compute in hwid_text (crypto_sha256 (fingerprint (env_at 0))).
Definition payload (type expires : Z) : list Z :=
  bytes_of_string "FLIC" ++ [1; type; 8; 0] ++ replicate 8 0 ++ le_bytes 8 expires ++ [30; 0; 0; 0]
    ++ hwid ++ replicate (32 - length hwid) 0 ++ bytes_of_string "Demo" ++ replicate 60 0 ++ replicate 16 0.
Definition key (type expires : Z) : cstring :=
  bytes_of_string "FLUX-LIC-" ++ encode_loop (payload type expires ++ replicate 64 7).
Definition days_key : cstring := Eval vm_compute in key 1 3000000.

Definition fresh : lic_state := fresh_process None None.
Definition activated : lic_state := Eval vm_compute in (license_manager_activate (env_at 1000000) (Some days_key) fresh).1.

Lemma valid_licence_is_signed_witness :
  li_is_valid (g_license_info activated) = true /\ exists p, backed_by activated p.
Proof.
  split; [reflexivity|]. apply (valid_licence_is_signed None None activated); [|reflexivity].
  apply rtc_once. replace activated with (license_manager_activate (env_at 1000000) (Some days_key) fresh).1
    by (vm_compute; reflexivity).
  apply step_activate. cbn. cint.
Defined.

Lemma activation_survives_restart_witness :
  li_is_valid (g_license_info (license_manager_init (env_at 2000000)
    (fresh_process (key_file activated) (watermark_file activated))).1) = true.
Proof.
  refine (proj1 (activation_survives_restart (env_at 1000000) (env_at 2000000) days_key fresh activated
    (bytes_of_string "DAYS") (bytes_of_string "Demo") _ _ eq_refl eq_refl eq_refl _ _ _ _ _ _)).
  - vm_compute. repeat (constructor; [split; discriminate|]). constructor.
  - apply Nat.leb_le. vm_compute. reflexivity.
  - left. reflexivity.
  - cbn. lia.
  - cbn. lia.
  - vm_compute. reflexivity.
  - reflexivity.
  - right. reflexivity.
Defined.

Lemma clock_rollback_detected_witness :
  ~ (li_is_valid (g_license_info (license_manager_tick (env_at 1500000) 9 (license_manager_tick (env_at 2000000) 5 activated))) = true
     /\ li_type (g_license_info (license_manager_tick (env_at 1500000) 9 (license_manager_tick (env_at 2000000) 5 activated)))
        = LICENSE_TYPE_DAYS).
Proof.
  refine (proj1 (clock_rollback_detected (env_at 2000000) 5 activated (license_manager_tick (env_at 2000000) 5 activated)
    (env_at 1500000) 9 _ eq_refl _ _ _ _ _)).
  - cbn. cint.
  - vm_compute. reflexivity.
  - vm_compute. reflexivity.
  - apply rtc_refl.
  - cbn. lia.
  - cbn. lia.
Defined.

Lemma grace_bounds_witness :
  license_is_authorized (ticks (env_at 0) [1000; 1801000; 3700000] (license_manager_init (env_at 0) fresh).1) = false.
Proof.
  refine (proj2 (grace_bounds (env_at 0) (env_at 0) None 1000 [1801000; 3700000] _ _) _).
  - lia.
  - cbn. lia.
  - cbn. lia.
Defined.
End Demo.
