(* ===== verification/VpnManager.v ===== *)
(** * Virtual private networks

    src/src/vpn_manager.c: the WireGuard device with its peers, the ZeroTier networks and the
    Tailscale node.  The three programs are reached through commands of the shell and files, so the
    operations are programs of [System]; log lines are left out.  The tests on null pointers are
    those of the types, and [#if defined(__linux__)] is taken. *)

From S2P Require Import Prelude Fluxwan Ipv4 CLib ProxyUri System NetApply ConfigSave WebCore WebApi Base64 Field25519 ModL Ed25519 Ed25519Spec X25519.

(** ** Text *)

(** The text before the first [c], when there is one. *)
Fixpoint before (c : Z) (s : cstring) : cstring :=
  match s with
  | [] => []
  | d :: s => if d =? c then [] else d :: before c s
  end.
Definition chomp (s : cstring) : cstring := before 13 (before 10 s).
(** The line that one call of [fgets] reads. *)
Definition fgets1 (n : Z) (f : list Z) : option cstring := (fun r => cstr r.1) <$> fgets n f.

(** [sscanf] with [%<w>s] conversions: the words that are converted, and the text after them. *)
Fixpoint scan_words (ws : list nat) (s : cstring) : list cstring * cstring :=
  match ws with
  | [] => ([], s)
  | w :: ws =>
      let s := skip_spaces s in
      match take_word w s with
      | [] => ([], s)
      | x => let '(l, r) := scan_words ws (drop (length x) s) in (x :: l, r)
      end
  end.

(** [%llu], with the text after the number. *)
Fixpoint skip_digits (s : cstring) : cstring :=
  match s with
  | c :: s' => if isdigit c then skip_digits s' else s
  | [] => []
  end.
Definition scan_llu (s : cstring) : option (Z * cstring) :=
  let rest := match skip_spaces s with 45 :: r | 43 :: r => r | r => r end in
  (fun v => (v, skip_digits rest)) <$> scan_u64 s.

(** The first element that satisfies [p] is changed. *)
Fixpoint change_first {A} (p : A -> bool) (f : A -> A) (l : list A) : list A :=
  match l with
  | [] => []
  | x :: l => if p x then f x :: l else x :: change_first p f l
  end.

(** ** WireGuard *)

Section Keys.
(** [rand()] after [srand(seed)]: the numbers in their order; and what the array of the key holds
    before it is filled. *)
Context (rand : Z -> nat -> Z) (stack : list Z).

Definition key_text (s : cstring) : bool := (Z.of_nat (length s) =? 44) && bool_decide (s !! 43%nat = Some 61).

(** The keys of the [wg] program. *)
Definition wg_program_keys : sys (option (cstring * cstring)) :=
  out ← popen "wg genkey 2>/dev/null";
  match chomp <$> (out ≫= fgets1 128) with
  | Some priv =>
      if key_text priv then
        out ← popen (snprintf 256 "echo '%s' | wg pubkey 2>/dev/null" [FS priv]);
        mret (match chomp <$> (out ≫= fgets1 128) with
              | Some pub => if key_text pub then Some (priv, pub) else None
              | None => None
              end)
      else mret None
  | None => mret None
  end.

(** The 32 bytes of the private key before they are clamped. *)
Definition random_bytes : sys (list Z) :=
  f ← read_file "/dev/urandom";
  match f with
  | Some b => mret (take 32 (take 32 b ++ drop (length b) stack))
  | None =>
      now ← time_now;
      mret ((fun i => Z.land (rand (Z.lxor (u32 now) 1515870810) i) 255) <$> seq 0 32)
  end.
Definition clamp_key (b : list Z) : list Z :=
  let b := <[0%nat := default 0 (b !! 0%nat) .& 248]> b in
  let b := <[31%nat := default 0 (b !! 31%nat) .& 127]> b in
  <[31%nat := default 0 (b !! 31%nat) .| 64]> b.
Definition key_pair (b : list Z) (priv_sz pub_sz : Z) : cstring * cstring :=
  let priv := clamp_key b in
  (default [] (crypto_base64_encode priv priv_sz),
   default [] (crypto_base64_encode (crypto_scalarmult_base (F := gf) priv) pub_sz)).

(** [None] when the arrays are too small. *)
Definition vpn_manager_gen_wg_keypair (priv_sz pub_sz : Z) : sys (option (cstring * cstring)) :=
  if (priv_sz <? 45) || (pub_sz <? 45) then mret None
  else
    keys ← wg_program_keys;
    match keys with
    | Some (priv, pub) => mret (Some (str_trunc priv_sz priv, str_trunc pub_sz pub))
    | None => b ← random_bytes; mret (Some (key_pair b priv_sz pub_sz))
    end.
End Keys.

Definition wg_ifname (wg : wireguard_config_t) : cstring := or_text (wg_interface wg) "wg0".
Definition wg_addr (wg : wireguard_config_t) : cstring := or_text (wg_address wg) "10.250.0.1/24".
Definition wg_port (wg : wireguard_config_t) : Z := if 0 <? wg_listen_port wg then wg_listen_port wg else 51820.

Definition field_line (name : string) (v : cstring) : list cstring :=
  if empty v then [] else [bytes_of_string name ++ v].
Definition peer_lines (p : wireguard_peer_t) : list cstring :=
  if negb (wp_enabled p) || empty (wp_public_key p) then []
  else
    [bytes_of_string "[Peer]"] ++ field_line "# Name: " (wp_name p)
    ++ [bytes_of_string "PublicKey = " ++ wp_public_key p]
    ++ field_line "PresharedKey = " (wp_preshared_key p)
    ++ field_line "AllowedIPs = " (wp_allowed_ips p)
    ++ field_line "Endpoint = " (wp_endpoint p)
    ++ (if 0 <? wp_persistent_keepalive p then [bytes_of_string "PersistentKeepalive = " ++ dec (wp_persistent_keepalive p)] else [])
    ++ [[]].
Definition conf_lines (wg : wireguard_config_t) : list cstring :=
  [bytes_of_string "# Auto-generated by FluxWAN VPN Engine v" ++ FLUXWAN_VERSION;
   bytes_of_string "[Interface]";
   bytes_of_string "Address = " ++ wg_addr wg;
   bytes_of_string "ListenPort = " ++ dec (wg_port wg);
   bytes_of_string "PrivateKey = " ++ wg_private_key wg;
   []] ++ (wg_peers wg ≫= peer_lines).
Definition wg_conf_path (wg : wireguard_config_t) : cstring := snprintf 128 "/etc/wireguard/%s.conf" [FS (wg_ifname wg)].

(** A rule that is added when it is not there. *)
Definition once_rule (chain place rule : string) (dev : cstring) : cstring :=
  snprintf 512 (bytes_of_string "iptables -C " ++ chain ++ rule ++ " 2>/dev/null || iptables " ++ place ++ rule) [FS dev; FS dev].
Definition mgmt_rules (dev : cstring) : list cstring :=
  [once_rule "INPUT" "-I INPUT 1" " -i %s -p tcp --dport 8080 -j ACCEPT" dev;
   once_rule "INPUT" "-I INPUT 1" " -i %s -p tcp --dport 80 -j ACCEPT" dev;
   once_rule "INPUT" "-I INPUT 1" " -i %s -p tcp --dport 22 -j ACCEPT" dev;
   once_rule "INPUT" "-I INPUT 1" " -i %s -p icmp -j ACCEPT" dev;
   once_rule "FLUXWAN_WAN_SHIELD" "-I FLUXWAN_WAN_SHIELD 1" " -i %s -j ACCEPT" dev].
Definition forward_rules (dev : cstring) : list cstring :=
  [once_rule "FORWARD" "-A FORWARD" " -i %s -j ACCEPT" dev; once_rule "FORWARD" "-A FORWARD" " -o %s -j ACCEPT" dev].

(** The text from the last [c] on, with the text before it. *)
Fixpoint strrchr (s : cstring) (c : Z) : option (cstring * cstring) :=
  match s with
  | [] => None
  | d :: t =>
      match strrchr t c with
      | Some (a, b) => Some (d :: a, b)
      | None => if d =? c then Some ([], s) else None
      end
  end.
(** The network of the device: its last number is 0.  The source and the destination of this
    [snprintf] overlap, which C leaves undefined; here the text is the one before the call. *)
Definition masquerade_net (address : cstring) : cstring :=
  if empty address then "10.250.0.0/24"
  else
    let sub := str_trunc 64 address in
    match strrchr sub 46 with
    | Some (a, b) =>
        match strchr b 47 with
        | Some slash => a ++ str_trunc (64 - Z.of_nat (length a)) (bytes_of_string ".0" ++ slash)
        | None => sub
        end
    | None => sub
    end.

Definition run_all (cmds : list cstring) : sys unit := for_each (seq 0 (length cmds)) (fun i _ => safe_system (default [] (cmds !! i))) tt.

(** What is run once the file is written. *)
Definition wg_commands (wg : wireguard_config_t) : list cstring :=
  let dev := wg_ifname wg in let sub := masquerade_net (wg_address wg) in let port := u16 (wg_port wg) in
  [snprintf 512 "ip link add dev %s type wireguard 2>/dev/null" [FS dev];
   snprintf 512 "ip address replace %s dev %s 2>/dev/null" [FS (wg_addr wg); FS dev];
   snprintf 512 "wg setconf %s %s 2>/dev/null" [FS dev; FS (wg_conf_path wg)];
   snprintf 512 "ip link set up dev %s 2>/dev/null" [FS dev];
   snprintf 512 "iptables -C INPUT -p udp --dport %u -j ACCEPT 2>/dev/null || iptables -I INPUT -p udp --dport %u -j ACCEPT" [FN port; FN port]]
  ++ (if wg_allow_remote_mgmt wg then mgmt_rules dev else [])
  ++ forward_rules dev
  ++ [snprintf 512 "iptables -t nat -C POSTROUTING -s %s ! -d %s -j MASQUERADE 2>/dev/null || iptables -t nat -A POSTROUTING -s %s ! -d %s -j MASQUERADE"
        [FS sub; FS sub; FS sub; FS sub]].

Definition vpn_manager_apply_wireguard (wg : wireguard_config_t) : sys Z :=
  let dev := wg_ifname wg in
  if negb (wg_enabled wg) then
    safe_system (snprintf 256 "ip link delete dev %s 2>/dev/null || wg-quick down %s 2>/dev/null" [FS dev; FS dev]);;
    mret 0
  else
    safe_system "mkdir -p /etc/wireguard";;
    ok ← can_create (wg_conf_path wg);
    if negb ok then mret (-1)
    else
      do_call (WriteFile (wg_conf_path wg) (lines (conf_lines wg)));;
      do_call (Chmod (wg_conf_path wg) 384);;
      run_all (wg_commands wg);;
      mret 0.

Definition has_key (k : cstring) (p : wireguard_peer_t) : bool := str_eq (wp_public_key p) k.
Definition set_wg_peers (v : list wireguard_peer_t) (w : wireguard_config_t) : wireguard_config_t :=
  WireguardConfig (wg_enabled w) (wg_interface w) (wg_listen_port w) (wg_address w) (wg_private_key w) (wg_public_key w)
    (wg_allow_remote_mgmt w) v.

(** The device after the operation, and what it returns. *)
Definition vpn_manager_add_wg_peer (wg : wireguard_config_t) (peer : wireguard_peer_t) : sys (wireguard_config_t * Z) :=
  if empty (wp_public_key peer) then mret (wg, -1)
  else if existsb (has_key (wp_public_key peer)) (wg_peers wg) then
    let wg := set_wg_peers (change_first (has_key (wp_public_key peer)) (fun _ => peer) (wg_peers wg)) wg in
    r ← vpn_manager_apply_wireguard wg; mret (wg, r)
  else if MAX_WG_PEERS <=? Z.of_nat (length (wg_peers wg)) then mret (wg, -1)
  else
    let wg := set_wg_peers (wg_peers wg ++ [peer]) wg in
    r ← vpn_manager_apply_wireguard wg; mret (wg, r).

Definition vpn_manager_delete_wg_peer (wg : wireguard_config_t) (public_key : cstring) : sys (wireguard_config_t * Z) :=
  if empty public_key then mret (wg, -1)
  else
    match list_find (fun p => wp_public_key p = public_key) (wg_peers wg) with
    | None => mret (wg, -1)
    | Some (i, _) =>
        let wg := set_wg_peers (delete i (wg_peers wg)) wg in
        r ← vpn_manager_apply_wireguard wg; mret (wg, r)
    end.

(** The profile of a client; the flag is whether it fitted. *)
Definition client_profile : list string :=
  ["# FluxWAN WireGuard Client Profile"; "# Generated for: %s"; "[Interface]"; "PrivateKey = %s"; "Address = %s"; "DNS = 1.1.1.1, 8.8.8.8"; "";
   "[Peer]"; "PublicKey = %s"; "Endpoint = %s:%u"; "AllowedIPs = 0.0.0.0/0, ::/0"; "PersistentKeepalive = %u"].
Definition vpn_manager_generate_client_conf (rand : Z -> nat -> Z) (stack : list Z) (wg : wireguard_config_t) (peer : wireguard_peer_t)
    (client_priv server_endpoint : cstring) (max_len : Z) : sys (cstring * bool) :=
  if max_len <? 256 then mret ([], false)
  else
    priv ← (if negb (empty client_priv) then mret (str_trunc 64 client_priv)
            else if negb (empty (wp_client_private_key peer)) then mret (str_trunc 64 (wp_client_private_key peer))
            else keys ← vpn_manager_gen_wg_keypair rand stack 64 64;
                 mret (match keys with Some (priv, _) => priv | None => [] end));
    let text := sprintf (lines (bytes_of_string <$> client_profile))
      [FS (or_text (wp_name peer) "WireGuard Client"); FS (or_text priv "<INSERT_CLIENT_PRIVATE_KEY>");
       FS (or_text (wp_allowed_ips peer) "10.250.0.2/32"); FS (or_text (wg_public_key wg) "<SERVER_PUBLIC_KEY>");
       FS (or_text server_endpoint "YOUR_ROUTER_PUBLIC_IP"); FN (u16 (wg_port wg));
       FN (if 0 <? wp_persistent_keepalive peer then wp_persistent_keepalive peer else 25)] in
    mret (str_trunc max_len text, Z.of_nat (length text) <? max_len).

(** ** ZeroTier *)

(** The node with its array of networks: those of the configuration, and what the slots after them
    hold. *)
Record zt_node := ZtNode { zt_config : zerotier_config_t; zt_spare : list zerotier_network_t }.

Definition set_zt_node_id (v : cstring) (z : zerotier_config_t) : zerotier_config_t :=
  ZerotierConfig (zt_enabled z) v (zt_allow_remote_mgmt z) (zt_networks z).
Definition set_zt_networks (v : list zerotier_network_t) (z : zerotier_config_t) : zerotier_config_t :=
  ZerotierConfig (zt_enabled z) (zt_node_id z) (zt_allow_remote_mgmt z) v.
Definition zt_enable (z : zerotier_config_t) : zerotier_config_t :=
  ZerotierConfig true (zt_node_id z) (zt_allow_remote_mgmt z) (zt_networks z).

Definition identity_path : cstring := "/var/lib/zerotier-one/identity.public".
(** The identifier is the text before the first colon. *)
Definition identity_of (f : option (list Z)) (old : cstring) : cstring :=
  match f ≫= fgets1 64 with
  | Some line => if bool_decide (58 ∈ line) then str_trunc 32 (before 58 line) else old
  | None => old
  end.
Definition info_of (out : option cstring) (old : cstring) : cstring :=
  match out ≫= fgets1 256 with
  | Some line =>
      match (scan_words [31; 31; 63]%nat line).1 with
      | [code; _; nid] => if str_eq code "200" && (Z.of_nat (length nid) =? 10) then str_trunc 32 nid else old
      | _ => old
      end
  | None => old
  end.
Definition vpn_manager_zt_refresh_node_id (zt : zerotier_config_t) : sys zerotier_config_t :=
  out ← popen "zerotier-cli info 2>/dev/null || zerotier-cli status 2>/dev/null";
  let id := info_of out (zt_node_id zt) in
  id ← (if negb (empty id) then mret id else f ← read_file identity_path; mret (identity_of f id));
  id ← (if negb (empty id) then mret id
        else safe_system "mkdir -p /var/lib/zerotier-one 2>/dev/null && zerotier-idtool generate /var/lib/zerotier-one/identity.secret /var/lib/zerotier-one/identity.public 2>/dev/null";;
             f ← read_file identity_path; mret (identity_of f id));
  mret (set_zt_node_id id zt).

(** [for (retry = 0; retry < n; retry++)]: wait, and stop as soon as [ready] says so. *)
Fixpoint await (n : nat) (us : Z) (ready : sys bool) : sys unit :=
  match n with
  | O => mret tt
  | S n => do_call (Usleep us);; ok ← ready; if (ok : bool) then mret tt else await n us ready
  end.
(** Both commands fail; the second is run only after the first. *)
Definition both_fail (a b : cstring) : sys bool :=
  r ← system a; if r =? 0 then mret false else r ← system b; mret (negb (r =? 0)).

Definition join_network (net : zerotier_network_t) : sys unit :=
  if empty (zn_nwid net) then mret tt
  else if zn_enabled net then
    let cmd := snprintf 256 "zerotier-cli join %s" [FS (zn_nwid net)] in
    out ← popen cmd;
    match out with Some _ => mret tt | None => safe_system cmd end
  else safe_system (snprintf 256 "zerotier-cli leave %s 2>/dev/null" [FS (zn_nwid net)]).

Definition vpn_manager_apply_zerotier (zt : zerotier_config_t) : sys Z :=
  if negb (zt_enabled zt) then
    safe_system "systemctl stop zerotier-one 2>/dev/null || service zerotier-one stop 2>/dev/null || rc-service zerotier-one stop 2>/dev/null || killall zerotier-one 2>/dev/null";;
    mret 0
  else
    missing ← both_fail "which zerotier-cli >/dev/null 2>&1" "which zerotier-one >/dev/null 2>&1";
    if (missing : bool) then
      safe_system "(curl --connect-timeout 4 -m 15 -fsSL -o /tmp/zerotier-one.apk http://dl-cdn.alpinelinux.org/alpine/v3.17/community/x86_64/zerotier-one-1.10.2-r0.apk && apk add --allow-untrusted /tmp/zerotier-one.apk 2>/dev/null || apk add zerotier-one 2>/dev/null) >/dev/null 2>&1 &";;
      mret (-1)
    else
      running ← system "pgrep zerotier-one >/dev/null 2>&1";
      (if running =? 0 then mret tt
       else
         safe_system "systemctl enable --now zerotier-one 2>/dev/null || service zerotier-one start 2>/dev/null || rc-service zerotier-one start 2>/dev/null || (nohup zerotier-one -d </dev/null >/dev/null 2>&1 &)";;
         await 2 250000 (r ← system "zerotier-cli status >/dev/null 2>&1"; mret (r =? 0)));;
      for_each (seq 0 (length (zt_networks zt))) (fun i _ => match zt_networks zt !! i with Some net => join_network net | None => mret tt end) tt;;
      (if zt_allow_remote_mgmt zt then run_all (mgmt_rules "zt+") else mret tt);;
      run_all (forward_rules "zt+");;
      mret 0.

Definition same_network (nwid : cstring) (net : zerotier_network_t) : bool := strcase_eq (zn_nwid net) nwid.
Definition rejoin (name : cstring) (n : zerotier_network_t) : zerotier_network_t :=
  ZerotierNetwork (zn_nwid n) (if empty name then zn_name n else str_trunc 64 name) true (zn_status n) (zn_assigned_ips n)
    (zn_dev_name n) (zn_mac n) (zn_mtu n).

(** The node after the operation, and what it returns. *)
Definition vpn_manager_zt_join (node : zt_node) (nwid name : cstring) : sys (zt_node * Z) :=
  let clean := clean_nwid nwid in
  if empty nwid || negb (Z.of_nat (length clean) =? 16) then mret (node, -1)
  else
    let zt := zt_enable (zt_config node) in
    if existsb (same_network clean) (zt_networks zt) then
      let zt := set_zt_networks (change_first (same_network clean) (rejoin name) (zt_networks zt)) zt in
      r ← vpn_manager_apply_zerotier zt; mret (ZtNode zt (zt_spare node), r)
    else if MAX_ZT_NETWORKS <=? Z.of_nat (length (zt_networks zt)) then mret (ZtNode zt (zt_spare node), -1)
    else
      let net := ZerotierNetwork clean (str_trunc 64 (or_text name "ZeroTier Network")) true "REQUESTING" [] [] [] 0 in
      let zt := set_zt_networks (zt_networks zt ++ [net]) zt in
      r ← vpn_manager_apply_zerotier zt; mret (ZtNode zt (tail (zt_spare node)), r).

(** The networks after the one that is left move down; the last slot keeps what it held. *)
Definition vpn_manager_zt_leave (node : zt_node) (nwid : cstring) : sys (zt_node * Z) :=
  if empty nwid then mret (node, -1)
  else
    safe_system (snprintf 256 "zerotier-cli leave %s 2>/dev/null" [FS nwid]);;
    let zt := zt_config node in
    match list_find (fun net => same_network nwid net = true) (zt_networks zt) with
    | None => mret (node, -1)
    | Some (i, _) =>
        mret (ZtNode (set_zt_networks (delete i (zt_networks zt)) zt)
                (from_option (fun n => [n]) [] (last (zt_networks zt)) ++ zt_spare node), 0)
    end.

(** ** Tailscale *)

Definition json_blank (c : Z) : bool := (c =? 32) || (c =? 58) || (c =? 9) || (c =? 10) || (c =? 13).
Fixpoint skip_json_blanks (s : cstring) : cstring :=
  match s with
  | c :: s' => if json_blank c then skip_json_blanks s' else s
  | [] => []
  end.
Definition json_get_str (json : cstring) (key : string) (max_len : Z) : option cstring :=
  let pattern := snprintf 128 (dq "`%s`") [FS key] in
  match strstr json pattern with
  | None => None
  | Some p =>
      match skip_json_blanks (drop (length pattern) p) with
      | 34 :: p => if bool_decide (34 ∈ p) then Some (str_trunc max_len (before 34 p)) else None
      | _ => None
      end
  end.
Definition json_text (json : cstring) (key : string) (max_len : Z) : option cstring :=
  match json_get_str json key max_len with
  | Some [] | None => None
  | Some s => Some s
  end.

Definition set_ts_status (v : cstring) (t : tailscale_config_t) : tailscale_config_t :=
  TailscaleConfig (ts_enabled t) (ts_auth_key t) (ts_hostname t) (ts_login_server t) (ts_advertise_routes t) (ts_accept_routes t)
    (ts_is_exit_node t) (ts_allow_remote_mgmt t) (str_trunc 32 v) (ts_ipv4 t) (ts_ipv6 t) (ts_magic_dns_name t) (ts_login_url t).
Definition set_ts_ipv4 (v : cstring) (t : tailscale_config_t) : tailscale_config_t :=
  TailscaleConfig (ts_enabled t) (ts_auth_key t) (ts_hostname t) (ts_login_server t) (ts_advertise_routes t) (ts_accept_routes t)
    (ts_is_exit_node t) (ts_allow_remote_mgmt t) (ts_status t) (str_trunc 32 v) (ts_ipv6 t) (ts_magic_dns_name t) (ts_login_url t).
Definition set_ts_login_url (v : cstring) (t : tailscale_config_t) : tailscale_config_t :=
  TailscaleConfig (ts_enabled t) (ts_auth_key t) (ts_hostname t) (ts_login_server t) (ts_advertise_routes t) (ts_accept_routes t)
    (ts_is_exit_node t) (ts_allow_remote_mgmt t) (ts_status t) (ts_ipv4 t) (ts_ipv6 t) (ts_magic_dns_name t) (str_trunc 256 v).
Definition set_ts_magic_dns_name (v : cstring) (t : tailscale_config_t) : tailscale_config_t :=
  TailscaleConfig (ts_enabled t) (ts_auth_key t) (ts_hostname t) (ts_login_server t) (ts_advertise_routes t) (ts_accept_routes t)
    (ts_is_exit_node t) (ts_allow_remote_mgmt t) (ts_status t) (ts_ipv4 t) (ts_ipv6 t) (str_trunc 128 v) (ts_login_url t).
Definition set_ts_hostname (v : cstring) (t : tailscale_config_t) : tailscale_config_t :=
  TailscaleConfig (ts_enabled t) (ts_auth_key t) (str_trunc 64 v) (ts_login_server t) (ts_advertise_routes t) (ts_accept_routes t)
    (ts_is_exit_node t) (ts_allow_remote_mgmt t) (ts_status t) (ts_ipv4 t) (ts_ipv6 t) (ts_magic_dns_name t) (ts_login_url t).

(** Text without the spaces at its end. *)
Definition rstrip (s : cstring) : cstring := reverse (skip_spaces (reverse s)).
Definition read_ts_ip (out : option cstring) (ts : tailscale_config_t) : tailscale_config_t :=
  match (fun l => rstrip (chomp l)) <$> (out ≫= fgets1 64) with
  | Some ((c :: _) as ip) => if isdigit c then set_ts_ipv4 ip ts else ts
  | _ => ts
  end.
Definition drop_dot (s : cstring) : cstring := if bool_decide (last s = Some 46) then removelast s else s.
Definition read_ts_status (out : option cstring) (ts : tailscale_config_t) : tailscale_config_t :=
  match out with
  | None | Some [] => ts
  | Some out =>
      let json := cstr (take 4095 out) in
      let ts := match json_text json "BackendState" 64 with Some s => set_ts_status s ts | None => ts end in
      let ts := match json_text json "AuthURL" 256 with
                | Some u => set_ts_login_url u ts
                | None => if str_eq (ts_status ts) "Running" then set_ts_login_url [] ts else ts
                end in
      match strstr json (dq "`Self`") with
      | Some self => match json_text self "DNSName" 128 with Some d => set_ts_magic_dns_name (drop_dot d) ts | None => ts end
      | None => ts
      end
  end.

(** The daemon has no socket and no process. *)
Definition ts_stopped : sys bool :=
  sock ← file_exists "/run/tailscale/tailscaled.sock";
  if (sock : bool) then mret false else r ← system "pidof tailscaled >/dev/null 2>&1"; mret (negb (r =? 0)).
Definition vpn_manager_tailscale_sync_status (ts : tailscale_config_t) : sys tailscale_config_t :=
  down ← ts_stopped;
  if (down : bool) then mret (set_ts_status (if ts_enabled ts then "Starting" else "Stopped") ts)
  else
    out ← popen "tailscale --socket=/run/tailscale/tailscaled.sock ip -4 2>/dev/null";
    let ts := read_ts_ip out ts in
    out ← popen "tailscale --socket=/run/tailscale/tailscaled.sock status --json 2>/dev/null";
    mret (read_ts_status out ts).

Definition vpn_manager_apply_tailscale (ts : tailscale_config_t) : sys (tailscale_config_t * Z) :=
  if negb (ts_enabled ts) then
    safe_system "tailscale --socket=/run/tailscale/tailscaled.sock down 2>/dev/null; killall tailscaled 2>/dev/null || rc-service tailscale stop 2>/dev/null || true";;
    mret (set_ts_status "Stopped" ts, 0)
  else
    missing ← both_fail "which tailscaled >/dev/null 2>&1" "which tailscale >/dev/null 2>&1";
    if (missing : bool) then
      safe_system "(apk add tailscale 2>/dev/null || apk add --allow-untrusted tailscale 2>/dev/null) >/dev/null 2>&1 &";;
      mret (set_ts_status "Installing" ts, -1)
    else
      safe_system "mkdir -p /var/lib/tailscale /run/tailscale 2>/dev/null";;
      down ← ts_stopped;
      (if (down : bool) then
         safe_system "systemctl enable --now tailscale 2>/dev/null || rc-service tailscale start 2>/dev/null || (nohup tailscaled --state=/var/lib/tailscale/tailscaled.state --socket=/run/tailscale/tailscaled.sock --port=41641 </dev/null >/var/log/tailscaled.log 2>&1 &)";;
         await 3 200000 (file_exists "/run/tailscale/tailscaled.sock")
       else mret tt);;
      (if ts_allow_remote_mgmt ts then run_all (mgmt_rules "tailscale+") else mret tt);;
      run_all (forward_rules "tailscale+");;
      ts ← vpn_manager_tailscale_sync_status ts;
      mret (ts, 0).

(** The pieces of the command, each written after the last with what is left of the array; [None]
    when the size that is left has gone below zero, where the source's unsigned one wraps. *)
Fixpoint append_pieces (size : Z) (cmd : cstring) (off : Z) (pieces : list cstring) : option cstring :=
  match pieces with
  | [] => Some cmd
  | p :: pieces =>
      if size <? off then None
      else append_pieces size (take (Z.to_nat off) cmd ++ str_trunc (size - off) p) (off + Z.of_nat (length p)) pieces
  end.
Definition option_piece (name : string) (v : cstring) : list cstring :=
  if empty v then [] else [bytes_of_string name ++ v ++ "'"].
Definition ts_up_pieces (ts : tailscale_config_t) : list cstring :=
  [bytes_of_string "tailscale --socket=/run/tailscale/tailscaled.sock up --reset"]
  ++ option_piece " --authkey='" (ts_auth_key ts)
  ++ option_piece " --hostname='" (ts_hostname ts)
  ++ option_piece " --login-server='" (ts_login_server ts)
  ++ option_piece " --advertise-routes='" (ts_advertise_routes ts)
  ++ [bytes_of_string (if ts_accept_routes ts then " --accept-routes=true" else " --accept-routes=false")]
  ++ (if ts_is_exit_node ts then [bytes_of_string " --advertise-exit-node"] else [])
  ++ [bytes_of_string " 2>&1"].
Definition ts_up_cmd (ts : tailscale_config_t) : option cstring := append_pieces 1024 [] 0 (ts_up_pieces ts).

(** The address to log in at, when a line of the output has one. *)
Fixpoint take_nonspace (s : cstring) : cstring :=
  match s with
  | c :: s => if isspace c then [] else c :: take_nonspace s
  | [] => []
  end.
Definition read_up_line (ts : tailscale_config_t) (line : cstring) : tailscale_config_t :=
  match strstr (chomp line) "https://" with
  | Some url => set_ts_status "NeedsLogin" (set_ts_login_url (take_nonspace url) ts)
  | None => ts
  end.
Definition up_settings (auth_key hostname login_server adv_routes : cstring) (accept_routes is_exit_node : bool) (t : tailscale_config_t) : tailscale_config_t :=
  let keep n v old := if empty v then old else str_trunc n v in
  TailscaleConfig true (keep 128 auth_key (ts_auth_key t)) (keep 64 hostname (ts_hostname t)) (keep 128 login_server (ts_login_server t))
    (keep 128 adv_routes (ts_advertise_routes t)) accept_routes is_exit_node (ts_allow_remote_mgmt t) (ts_status t) (ts_ipv4 t) (ts_ipv6 t)
    (ts_magic_dns_name t) (ts_login_url t).
Definition vpn_manager_tailscale_up (auth_key hostname login_server adv_routes : cstring) (accept_routes is_exit_node : bool)
    (ts : tailscale_config_t) : sys tailscale_config_t :=
  let ts := up_settings auth_key hostname login_server adv_routes accept_routes is_exit_node ts in
  r ← vpn_manager_apply_tailscale ts;
  let ts := r.1 in
  out ← (match ts_up_cmd ts with Some cmd => popen cmd | None => mret None end);
  let ts := match out with Some out => foldl read_up_line ts (fgets_lines 512 out) | None => ts end in
  vpn_manager_tailscale_sync_status ts.

Definition vpn_manager_tailscale_down (t : tailscale_config_t) : sys tailscale_config_t :=
  safe_system "tailscale --socket=/run/tailscale/tailscaled.sock down 2>/dev/null";;
  mret (TailscaleConfig false (ts_auth_key t) (ts_hostname t) (ts_login_server t) (ts_advertise_routes t) (ts_accept_routes t)
          (ts_is_exit_node t) (ts_allow_remote_mgmt t) "Stopped" [] [] (ts_magic_dns_name t) []).

(** ** Status *)

(** A line of [wg show dump]: the key, the endpoint, the time of the handshake and the counters. *)
Definition scan_dump (line : cstring) : option (cstring * cstring * (Z * Z * Z)) :=
  match scan_words [63; 63; 127; 127]%nat line with
  | ([pub; _; ep; _], r) =>
      match scan_llu r with
      | Some (handshake, r) =>
          match scan_llu r with
          | Some (rx, r) => (fun t => (pub, ep, (handshake, rx, t.1))) <$> scan_llu r
          | None => None
          end
      | None => None
      end
  | _ => None
  end.
Definition seen_peer (ep : cstring) (handshake rx tx : Z) (p : wireguard_peer_t) : wireguard_peer_t :=
  WireguardPeer (wp_name p) (wp_public_key p) (wp_client_private_key p) (wp_preshared_key p) (wp_allowed_ips p) (wp_endpoint p)
    (wp_persistent_keepalive p) (wp_enabled p) handshake rx tx
    (if str_eq ep "(none)" then wp_last_endpoint p else str_trunc 128 ep).
Definition read_dump_line (peers : list wireguard_peer_t) (line : cstring) : list wireguard_peer_t :=
  match scan_dump line with
  | Some (pub, ep, (handshake, rx, tx)) => change_first (has_key pub) (seen_peer ep handshake rx tx) peers
  | None => peers
  end.
Definition sync_wireguard (wg : wireguard_config_t) : sys wireguard_config_t :=
  if negb (wg_enabled wg) then mret wg
  else
    out ← popen (snprintf 256 "wg show %s dump 2>/dev/null" [FS (wg_ifname wg)]);
    mret (match out with
          | Some out => set_wg_peers (foldl read_dump_line (wg_peers wg) (tail (fgets_lines 1024 out))) wg
          | None => wg
          end).

(** A line of [zerotier-cli listnetworks]: the words 200, listnetworks, the network and its name,
    MAC address, status, type, device and addresses; the last three may be missing. *)
Definition list_widths : list nat := [31; 31; 31; 63; 31; 31; 31; 31; 127]%nat.
Definition told (w : option cstring) (n : Z) (old : cstring) : cstring :=
  match w with
  | Some w => if str_eq w "-" then old else str_trunc n w
  | None => old
  end.
Definition seen_network (ws : list cstring) (n : zerotier_network_t) : zerotier_network_t :=
  ZerotierNetwork (zn_nwid n) (told (ws !! 3%nat) 64 (zn_name n)) (zn_enabled n) (str_trunc 32 (default [] (ws !! 5%nat)))
    (told (ws !! 8%nat) 128 (zn_assigned_ips n)) (told (ws !! 7%nat) 32 (zn_dev_name n)) (told (ws !! 4%nat) 32 (zn_mac n)) (zn_mtu n).
(** A network that is not in the table takes the next slot, over what the slot held. *)
Definition register_network (nwid : cstring) (ws : list cstring) (slot : zerotier_network_t) : zerotier_network_t :=
  let n := seen_network ws slot in
  ZerotierNetwork (str_trunc 32 nwid) (zn_name n) true (zn_status n) (zn_assigned_ips n) (zn_dev_name n) (zn_mac n) (zn_mtu n).
Definition zero_network : zerotier_network_t := ZerotierNetwork [] [] false [] [] [] [] 0.
Definition read_list_line (node : zt_node) (line : cstring) : zt_node :=
  let ws := (scan_words list_widths line).1 in
  match ws with
  | code :: _ :: nwid :: _ :: _ :: _ :: _ =>
      if negb (str_eq code "200") || bool_decide (head nwid = Some 60) then node
      else
        let zt := zt_config node in
        if existsb (same_network nwid) (zt_networks zt) then
          ZtNode (set_zt_networks (change_first (same_network nwid) (seen_network ws) (zt_networks zt)) zt) (zt_spare node)
        else if Z.of_nat (length (zt_networks zt)) <? 16 then
          let slot := default zero_network (head (zt_spare node)) in
          ZtNode (set_zt_networks (zt_networks zt ++ [register_network nwid ws slot]) zt) (tail (zt_spare node))
        else node
  | _ => node
  end.
Definition sync_zerotier (node : zt_node) : sys zt_node :=
  zt ← vpn_manager_zt_refresh_node_id (zt_config node);
  let node := ZtNode zt (zt_spare node) in
  if zt_enabled zt || negb (bool_decide (zt_networks zt = [])) then
    out ← popen "zerotier-cli listnetworks 2>/dev/null";
    mret (match out with Some out => foldl read_list_line node (fgets_lines 512 out) | None => node end)
  else mret node.

(** The configuration with the slots that it does not use. *)
Record vpn_state := VpnState { vs_wireguard : wireguard_config_t; vs_zerotier : zt_node; vs_tailscale : tailscale_config_t }.
Definition vpn_of (vpn : vpn_state) : vpn_config_t := VpnConfig (vs_wireguard vpn) (zt_config (vs_zerotier vpn)) (vs_tailscale vpn).

Definition vpn_manager_sync_status (vpn : vpn_state) : sys vpn_state :=
  wg ← sync_wireguard (vs_wireguard vpn);
  zt ← sync_zerotier (vs_zerotier vpn);
  ts ← vpn_manager_tailscale_sync_status (vs_tailscale vpn);
  mret (VpnState wg zt ts).

Definition vpn_manager_apply (vpn : vpn_state) : sys vpn_state :=
  vpn_manager_apply_wireguard (vs_wireguard vpn);;
  vpn_manager_apply_zerotier (zt_config (vs_zerotier vpn));;
  r ← vpn_manager_apply_tailscale (vs_tailscale vpn);
  mret (VpnState (vs_wireguard vpn) (vs_zerotier vpn) r.1).

Definition keys_invalid (wg : wireguard_config_t) : bool := negb (key_text (wg_public_key wg)) || negb (key_text (wg_private_key wg)).
Definition init_wireguard (rand : Z -> nat -> Z) (stack : list Z) (wg : wireguard_config_t) : sys wireguard_config_t :=
  keys ← (if keys_invalid wg then
            k ← vpn_manager_gen_wg_keypair rand stack 64 64;
            mret (default ([], []) k)
          else mret (wg_private_key wg, wg_public_key wg));
  mret (WireguardConfig (wg_enabled wg) (or_text (wg_interface wg) "wg0") (if wg_listen_port wg =? 0 then 51820 else wg_listen_port wg)
          (or_text (wg_address wg) "10.250.0.1/24") (str_trunc 64 keys.1) (str_trunc 64 keys.2) (wg_allow_remote_mgmt wg) (wg_peers wg)).
Definition vpn_manager_init (rand : Z -> nat -> Z) (stack : list Z) (vpn : vpn_state) : sys vpn_state :=
  safe_system "mkdir -p /etc/wireguard";;
  safe_system "mkdir -p /var/lib/zerotier-one";;
  safe_system "mkdir -p /var/lib/tailscale /run/tailscale";;
  wg ← init_wireguard rand stack (vs_wireguard vpn);
  zt ← vpn_manager_zt_refresh_node_id (zt_config (vs_zerotier vpn));
  let ts := vs_tailscale vpn in
  let ts := if empty (ts_hostname ts) then set_ts_hostname "FluxWAN" ts else ts in
  ts ← vpn_manager_tailscale_sync_status ts;
  mret (VpnState wg (ZtNode zt (zt_spare (vs_zerotier vpn))) ts).

(** ** The report *)

Definition yes (b : bool) : fmt_arg := FS (if b then "true" else "false").
(** All but the last object of an array end with a comma. *)
Definition comma (i n : nat) : fmt_arg := FS (if Nat.eqb (S i) n then [] else ",").
Definition report (fmt : list string) (args : list fmt_arg) : cstring := sprintf (lines (dq <$> fmt)) args.

Definition report_wireguard (w : wireguard_config_t) : cstring :=
  report ["{"; "  `status`: `ok`,"; "  `wireguard`: {"; "    `enabled`: %s,"; "    `interface`: `%s`,"; "    `listen_port`: %u,"; "    `address`: `%s`,";
          "    `public_key`: `%s`,"; "    `allow_remote_mgmt`: %s,"; "    `peer_count`: %u,"; "    `peers`: ["]
    [yes (wg_enabled w); FS (wg_ifname w); FN (wg_listen_port w); FS (wg_address w); FS (wg_public_key w); yes (wg_allow_remote_mgmt w);
     FN (Z.of_nat (length (wg_peers w)))].
Definition report_peer (n i : nat) (p : wireguard_peer_t) : cstring :=
  report ["      {"; "        `name`: `%s`,"; "        `public_key`: `%s`,"; "        `allowed_ips`: `%s`,"; "        `endpoint`: `%s`,";
          "        `last_endpoint`: `%s`,"; "        `persistent_keepalive`: %u,"; "        `latest_handshake`: %u,"; "        `rx_bytes`: %u,";
          "        `tx_bytes`: %u,"; "        `enabled`: %s"; "      }%s"]
    [FS (wp_name p); FS (wp_public_key p); FS (wp_allowed_ips p); FS (wp_endpoint p); FS (wp_last_endpoint p); FN (wp_persistent_keepalive p);
     FN (wp_latest_handshake p); FN (wp_rx_bytes p); FN (wp_tx_bytes p); yes (wp_enabled p); comma i n].
Definition report_zerotier (z : zerotier_config_t) : cstring :=
  report ["    ]"; "  },"; "  `zerotier`: {"; "    `enabled`: %s,"; "    `node_id`: `%s`,"; "    `allow_remote_mgmt`: %s,"; "    `network_count`: %u,";
          "    `networks`: ["]
    [yes (zt_enabled z); FS (zt_node_id z); yes (zt_allow_remote_mgmt z); FN (Z.of_nat (length (zt_networks z)))].
Definition report_network (n i : nat) (x : zerotier_network_t) : cstring :=
  report ["      {"; "        `nwid`: `%s`,"; "        `name`: `%s`,"; "        `status`: `%s`,"; "        `assigned_ips`: `%s`,"; "        `dev_name`: `%s`,";
          "        `mac`: `%s`,"; "        `enabled`: %s"; "      }%s"]
    [FS (zn_nwid x); FS (zn_name x); FS (or_text (zn_status x) "OFFLINE"); FS (zn_assigned_ips x); FS (zn_dev_name x); FS (zn_mac x);
     yes (zn_enabled x); comma i n].
Definition report_tailscale (t : tailscale_config_t) : cstring :=
  report ["    ]"; "  },"; "  `tailscale`: {"; "    `enabled`: %s,"; "    `status`: `%s`,"; "    `ipv4`: `%s`,"; "    `ipv6`: `%s`,"; "    `magic_dns_name`: `%s`,";
          "    `login_url`: `%s`,"; "    `hostname`: `%s`,"; "    `login_server`: `%s`,"; "    `advertise_routes`: `%s`,"; "    `accept_routes`: %s,";
          "    `is_exit_node`: %s,"; "    `allow_remote_mgmt`: %s"; "  }"; "}"]
    [yes (ts_enabled t); FS (or_text (ts_status t) (if ts_enabled t then "Starting" else "Stopped")); FS (ts_ipv4 t); FS (ts_ipv6 t);
     FS (ts_magic_dns_name t); FS (ts_login_url t); FS (ts_hostname t); FS (ts_login_server t); FS (ts_advertise_routes t);
     yes (ts_accept_routes t); yes (ts_is_exit_node t); yes (ts_allow_remote_mgmt t)].

(** The text is complete, or the report stops where it no longer fits. *)
Fixpoint write_pieces (max_len : Z) (out : cstring) (pieces : list cstring) : cstring * bool :=
  match pieces with
  | [] => (out, true)
  | p :: pieces =>
      let room := max_len - Z.of_nat (length out) in
      if room <=? Z.of_nat (length p) then (out ++ str_trunc room p, false) else write_pieces max_len (out ++ p) pieces
  end.
Definition status_pieces (vpn : vpn_config_t) : list cstring :=
  let w := vpn_wireguard vpn in let z := vpn_zerotier vpn in
  report_wireguard w :: imap (report_peer (length (wg_peers w))) (wg_peers w)
  ++ report_zerotier z :: imap (report_network (length (zt_networks z))) (zt_networks z)
  ++ [report_tailscale (vpn_tailscale vpn)].
Definition vpn_manager_build_json_status (vpn : vpn_config_t) (max_len : Z) : cstring * bool :=
  if max_len <? 512 then ([], false) else write_pieces max_len [] (status_pieces vpn).

(** ** The profile in the web interface *)

(** The text inside a JSON string; the loop stops four bytes before the end of the array. *)
Fixpoint escape_conf (s : cstring) (cidx : Z) : cstring :=
  match s with
  | [] => []
  | c :: s =>
      if cidx <? 4092 then
        if c =? 10 then 92 :: 110 :: escape_conf s (cidx + 2)
        else if c =? 13 then escape_conf s cidx
        else if c =? 34 then 92 :: 34 :: escape_conf s (cidx + 2)
        else c :: escape_conf s (cidx + 1)
      else []
  end.
Definition default_endpoint (c : fluxwan_config_t) : cstring :=
  match list_find (fun w => w_enabled w = true /\ w_ip_addr w <> 0) (c_wans c) with
  | Some (_, w) => ip_to_str (w_ip_addr w)
  | None => []
  end.
Definition handle_client_conf (rand : Z -> nat -> Z) (stack : list Z) (c : fluxwan_config_t) (body : option cstring) : sys response :=
  let endpoint := field body "endpoint" 128 in
  let endpoint := if empty endpoint then default_endpoint c else endpoint in
  let wg := vpn_wireguard (c_vpn c) in
  match list_find (fun p => wp_public_key p = field body "public_key" 64) (wg_peers wg) with
  | Some (_, peer) =>
      r ← vpn_manager_generate_client_conf rand stack wg peer (field body "client_private_key" 64) endpoint 2048;
      mret (Response 200 (snprintf 4500 (dq "{`status`:`ok`,`config`:`%s`}") [FS (escape_conf r.1 0)]))
  | None => mret (Response 404 (dq "{`status`:`error`,`message`:`Peer not found`}"))
  end.

(** ** The report fits *)

(** The most that a format prints, from the most that each argument prints. *)
Fixpoint fmt_len (fmt : cstring) (sizes : list nat) : nat :=
  match fmt with
  | [] => 0
  | 37 :: c :: fmt =>
      if c =? 37 then S (fmt_len fmt sizes)
      else match sizes with
           | n :: sizes => n + fmt_len fmt sizes
           | [] => fmt_len fmt []
           end
  | _ :: fmt => S (fmt_len fmt sizes)
  end.
Lemma fmt_len_plain c f sizes : c <> 37 -> fmt_len (c :: f) sizes = S (fmt_len f sizes).
Proof. intros Hc. cbn [fmt_len]. by repeat (case_match; try done). Qed.
Lemma sprintf_fmt_len fmt args sizes : Forall2 arg_fits args sizes -> (length (sprintf fmt args) <= fmt_len fmt sizes)%nat.
Proof.
  revert args sizes. induction fmt as [fmt IH] using (induction_ltof1 _ (@length Z)). unfold ltof in IH. intros args sizes Ha.
  destruct fmt as [|c [|d f]]; [cbn; lia|..].
  - assert (forall a, length (sprintf [c] a) = 1%nat) as -> by (intros; cbn; by repeat case_match). cbn. repeat case_match; lia.
  - destruct (decide (c = 37)) as [->|Hc].
    + cbn [sprintf fmt_len]. destruct (d =? 37); [cbn [length]; specialize (IH f ltac:(cbn; lia) args sizes Ha); lia|].
      destruct Ha as [|a n args sizes Hn Ha]; [apply (IH f ltac:(cbn; lia)); constructor|].
      rewrite length_app. specialize (IH f ltac:(cbn; lia) args sizes Ha). specialize (Hn d). lia.
    + rewrite sprintf_plain, fmt_len_plain by done. cbn [length]. specialize (IH (d :: f) ltac:(cbn; lia) args sizes Ha). lia.
Qed.
Lemma text_fits s n : (length s <= n)%nat -> arg_fits (FS s) n.
Proof. by intros H c. Qed.
Lemma number_fits_in v k : 0 <= v < 16 ^ Z.of_nat k -> v < 10 ^ Z.of_nat (S k) -> (1 <= k)%nat -> arg_fits (FN v) (S k).
Proof.
  intros Hv Hd Hk c. unfold convert. destruct (c =? 120); [|destruct (Z.ltb_spec v 0); [lia|]].
  - etransitivity; [apply (hex_digits_length 16 v [] k); lia|cbn; lia].
  - etransitivity; [apply (dec_digits_length 20 v [] (S k)); lia|cbn; lia].
Qed.
Lemma u16_fits v : is_u16 v -> arg_fits (FN v) 5.
Proof. intros Hv. apply (number_fits_in v 4); [cbn; cint|cbn; cint|lia]. Qed.
Lemma u64_fits v : is_u64 v -> arg_fits (FN v) 20.
Proof. intros Hv. apply (number_fits_in v 19); [cbn; cint|cbn; cint|lia]. Qed.
Lemma yes_fits b : arg_fits (yes b) 5.
Proof. intros c. destruct b; cbn; lia. Qed.
Lemma comma_fits i n : arg_fits (comma i n) 1.
Proof. intros c. unfold comma. by destruct (Nat.eqb _ _); cbn; lia. Qed.
Lemma bytes_of_string_length s : length (bytes_of_string s) = String.length s.
Proof. induction s as [|c s IH]; [done|]. cbn. by f_equal. Qed.
Lemma or_text_length s d n : (length s <= n)%nat -> (String.length d <= n)%nat -> (length (or_text s d) <= n)%nat.
Proof. unfold or_text. destruct (empty s); [|done]. intros _ H. by rewrite bytes_of_string_length. Qed.

(** The arrays of the structures. *)
Record peer_fits (p : wireguard_peer_t) : Prop := {
  pf_name : (length (wp_name p) <= 63)%nat;
  pf_key : (length (wp_public_key p) <= 63)%nat;
  pf_ips : (length (wp_allowed_ips p) <= 127)%nat;
  pf_endpoint : (length (wp_endpoint p) <= 127)%nat;
  pf_last : (length (wp_last_endpoint p) <= 127)%nat;
  pf_keepalive : is_u16 (wp_persistent_keepalive p);
  pf_handshake : is_u64 (wp_latest_handshake p);
  pf_rx : is_u64 (wp_rx_bytes p);
  pf_tx : is_u64 (wp_tx_bytes p)
}.
Record network_fits (n : zerotier_network_t) : Prop := {
  nf_nwid : (length (zn_nwid n) <= 31)%nat;
  nf_name : (length (zn_name n) <= 63)%nat;
  nf_status : (length (zn_status n) <= 31)%nat;
  nf_ips : (length (zn_assigned_ips n) <= 127)%nat;
  nf_dev : (length (zn_dev_name n) <= 31)%nat;
  nf_mac : (length (zn_mac n) <= 31)%nat
}.
Record wg_fits (w : wireguard_config_t) : Prop := {
  wf_interface : (length (wg_interface w) <= 31)%nat;
  wf_port : is_u16 (wg_listen_port w);
  wf_address : (length (wg_address w) <= 63)%nat;
  wf_key : (length (wg_public_key w) <= 63)%nat;
  wf_count : (length (wg_peers w) <= 64)%nat;
  wf_peers : Forall peer_fits (wg_peers w)
}.
Record zt_fits (z : zerotier_config_t) : Prop := {
  zf_node : (length (zt_node_id z) <= 31)%nat;
  zf_count : (length (zt_networks z) <= 16)%nat;
  zf_networks : Forall network_fits (zt_networks z)
}.
Record ts_fits (t : tailscale_config_t) : Prop := {
  tf_auth : (length (ts_auth_key t) <= 127)%nat;
  tf_hostname : (length (ts_hostname t) <= 63)%nat;
  tf_login_server : (length (ts_login_server t) <= 127)%nat;
  tf_routes : (length (ts_advertise_routes t) <= 127)%nat;
  tf_status : (length (ts_status t) <= 31)%nat;
  tf_ipv4 : (length (ts_ipv4 t) <= 31)%nat;
  tf_ipv6 : (length (ts_ipv6 t) <= 63)%nat;
  tf_dns : (length (ts_magic_dns_name t) <= 127)%nat;
  tf_url : (length (ts_login_url t) <= 255)%nat
}.
Definition vpn_fits (v : vpn_config_t) : Prop :=
  wg_fits (vpn_wireguard v) /\ zt_fits (vpn_zerotier v) /\ ts_fits (vpn_tailscale v).

Ltac fit_args :=
  repeat (constructor; [first [apply yes_fits|apply comma_fits|apply u16_fits; done|apply u64_fits; done
    |apply text_fits; first [assumption|apply or_text_length; [assumption|cbn; lia]]]|]); constructor.
(** [report fmt args] against the sizes of its arguments. *)
Ltac report_bound sizes :=
  unfold report; etransitivity; [apply (sprintf_fmt_len _ _ sizes); fit_args|apply Nat.leb_le; vm_compute; reflexivity].

Lemma report_peer_length n i p : peer_fits p -> (length (report_peer n i p) <= 848)%nat.
Proof. intros []. report_bound [63; 63; 127; 127; 127; 5; 20; 20; 20; 5; 1]%nat. Qed.
Lemma report_network_length n i x : network_fits x -> (length (report_network n i x) <= 489)%nat.
Proof. intros []. report_bound [31; 63; 31; 127; 31; 31; 5; 1]%nat. Qed.
Lemma report_wireguard_length w : wg_fits w -> (length (report_wireguard w) <= 500)%nat.
Proof.
  intros [? ? ? ? ? ?]. assert (is_u16 (Z.of_nat (length (wg_peers w)))) by cint.
  unfold report_wireguard, wg_ifname. report_bound [5; 31; 5; 63; 63; 5; 5]%nat.
Qed.
Lemma report_zerotier_length z : zt_fits z -> (length (report_zerotier z) <= 300)%nat.
Proof. intros [? ? ?]. assert (is_u16 (Z.of_nat (length (zt_networks z)))) by cint. report_bound [5; 31; 5; 5]%nat. Qed.
Lemma report_tailscale_length t : ts_fits t -> (length (report_tailscale t) <= 1250)%nat.
Proof.
  intros []. assert (String.length (if ts_enabled t then "Starting" else "Stopped") <= 31)%nat by (destruct (ts_enabled t); cbn; lia).
  assert (length (or_text (ts_status t) (if ts_enabled t then "Starting" else "Stopped")) <= 31)%nat by by apply or_text_length.
  report_bound [5; 31; 31; 63; 127; 255; 63; 127; 127; 5; 5; 5]%nat.
Qed.

Lemma write_pieces_fit max_len pieces : forall out,
  Z.of_nat (length out) + Z.of_nat (length (concat pieces)) < max_len -> write_pieces max_len out pieces = (out ++ concat pieces, true).
Proof.
  induction pieces as [|p pieces IH]; intros out H; cbn [write_pieces concat]; [by rewrite app_nil_r|].
  cbn [concat] in H. rewrite length_app in H. destruct (Z.leb_spec (max_len - Z.of_nat (length out)) (Z.of_nat (length p))); [lia|].
  rewrite IH by (rewrite length_app; lia). by rewrite app_assoc.
Qed.
Lemma concat_bound (l : list cstring) m : Forall (fun s => (length s <= m)%nat) l -> (length (concat l) <= m * length l)%nat.
Proof. induction 1; cbn [concat length]; [lia|]. rewrite length_app. lia. Qed.
Lemma imap_bound {A} (P : A -> Prop) (f : nat -> A -> cstring) m l :
  (forall i x, P x -> (length (f i x) <= m)%nat) -> Forall P l -> (length (concat (imap f l)) <= m * length l)%nat.
Proof.
  intros Hf Hl. rewrite <- (length_imap f l). apply concat_bound. apply Forall_lookup. intros i s Hs.
  rewrite list_lookup_imap in Hs. apply fmap_Some in Hs as (x & Hx & ->). apply Hf. by eapply Forall_lookup_1.
Qed.

(** Status report.  The buffer of 65536 bytes that the web server gives is always enough:
    for any configuration whose texts fit their arrays, with full tables of peers and networks
    included, the report is complete, and the call succeeds. *)
Theorem status_report_complete vpn :
  vpn_fits vpn -> vpn_manager_build_json_status vpn 65536 = (concat (status_pieces vpn), true).
Proof.
  intros (Hw & Hz & Ht). unfold vpn_manager_build_json_status. change (65536 <? 512) with false. cbv iota.
  rewrite write_pieces_fit; [done|]. unfold status_pieces. cbn [length].
  cbn [concat]. rewrite concat_app. cbn [concat]. rewrite concat_app. cbn [concat]. rewrite app_nil_r, !length_app.
  pose proof (report_wireguard_length _ Hw). pose proof (report_zerotier_length _ Hz). pose proof (report_tailscale_length _ Ht).
  pose proof (imap_bound peer_fits (report_peer (length (wg_peers (vpn_wireguard vpn)))) 848 _ (report_peer_length _) (wf_peers _ Hw)).
  pose proof (imap_bound network_fits (report_network (length (zt_networks (vpn_zerotier vpn)))) 489 _ (report_network_length _) (zf_networks _ Hz)).
  pose proof (wf_count _ Hw). pose proof (zf_count _ Hz). lia.
Qed.

(** ** The command that connects a node fits *)

Lemma append_pieces_fit size pieces : forall cmd,
  Z.of_nat (length cmd) + Z.of_nat (length (concat pieces)) < size ->
  append_pieces size cmd (Z.of_nat (length cmd)) pieces = Some (cmd ++ concat pieces).
Proof.
  induction pieces as [|p pieces IH]; intros cmd H; cbn [append_pieces concat]; [by rewrite app_nil_r|].
  cbn [concat] in H. rewrite length_app in H. destruct (Z.ltb_spec size (Z.of_nat (length cmd))); [lia|].
  unfold str_trunc. rewrite take_ge by lia. rewrite take_ge by lia.
  replace (Z.of_nat (length cmd) + Z.of_nat (length p)) with (Z.of_nat (length (cmd ++ p))) by (rewrite length_app; lia).
  rewrite IH by (rewrite length_app; lia). by rewrite app_assoc.
Qed.
Lemma option_piece_length name v : (length (concat (option_piece name v)) <= String.length name + length v + 1)%nat.
Proof.
  unfold option_piece. destruct (empty v); cbn [concat length]; [lia|]. rewrite app_nil_r, !length_app, bytes_of_string_length. cbn [length bytes_of_string]. lia.
Qed.

(** Connecting a node.  For a node whose texts fit their arrays the command of [tailscale up]
    is written whole: nothing is cut off at the end of its 1024 bytes, and the size that is left for
    each piece never wraps. *)
Theorem up_command_complete ts : ts_fits ts -> ts_up_cmd ts = Some (concat (ts_up_pieces ts)).
Proof.
  intros Ht. unfold ts_up_cmd. apply (append_pieces_fit 1024 (ts_up_pieces ts) []). unfold ts_up_pieces. rewrite !concat_app, !length_app.
  pose proof (option_piece_length " --authkey='" (ts_auth_key ts)). pose proof (option_piece_length " --hostname='" (ts_hostname ts)).
  pose proof (option_piece_length " --login-server='" (ts_login_server ts)). pose proof (option_piece_length " --advertise-routes='" (ts_advertise_routes ts)).
  destruct Ht. cbn [String.length] in *.
  assert (forall (b : bool) x y n, (length (bytes_of_string x) <= n)%nat -> (length (bytes_of_string y) <= n)%nat ->
    (length (concat [bytes_of_string (if b then x else y)]) <= n)%nat) as Hb by (intros [] x y n ? ?; cbn [concat]; by rewrite app_nil_r).
  pose proof (Hb (ts_accept_routes ts) " --accept-routes=true" " --accept-routes=false" 30%nat ltac:(cbn; lia) ltac:(cbn; lia)).
  assert (length (concat (if ts_is_exit_node ts then [bytes_of_string " --advertise-exit-node"] else [])) <= 30)%nat by (destruct (ts_is_exit_node ts); cbn; lia).
  change (length (concat [bytes_of_string "tailscale --socket=/run/tailscale/tailscaled.sock up --reset"])) with 60%nat.
  change (length (concat [bytes_of_string " 2>&1"])) with 5%nat. cbn [length]. lia.
Qed.

(** ** Keys *)

Lemma clamp_key_clamp b : length b = 32%nat -> clamp_key b = clamp b.
Proof.
  intros Hl. do 32 (destruct b as [|? b]; [done|]). destruct b; [|done]. reflexivity.
Qed.
Lemma clamp_length b : length b = 32%nat -> length (clamp b) = 32%nat.
Proof. intros Hl. unfold clamp. rewrite length_insert, length_app, length_take, Hl. reflexivity. Qed.
Lemma decode_scalar_clamp b : length b = 32%nat -> bytes_ok b -> decode_scalar (clamp b) = decode_scalar b.
Proof.
  intros Hl Hb. destruct (clamp_value b Hl Hb) as [_ Hv]. unfold decode_scalar at 1. rewrite Hv. unfold decode_scalar.
  set (k := le_val b). assert (E : 2 ^ 254 = 8 * 2 ^ 251) by reflexivity.
  assert (E8 : (k mod 2 ^ 254) mod 8 = k mod 8) by (rewrite E, Z.rem_mul_r by lia; by rewrite Z.add_mod, Z.mul_comm, Z.mod_mul, Z.add_0_r, !Z.mod_mod by lia).
  pose proof (Z.mod_pos_bound k (2 ^ 254) ltac:(lia)). pose proof (Z.mod_pos_bound k 8 ltac:(lia)).
  assert (Ed : (8 | k mod 2 ^ 254 - k mod 8)) by (apply Z.mod_divide; [lia|]; rewrite Zminus_mod, E8, Z.mod_mod by lia; by rewrite Z.sub_diag).
  assert (0 <= k mod 2 ^ 254 - k mod 8) by (rewrite <- E8; pose proof (Z.mod_le (k mod 2 ^ 254) 8); lia).
  replace (2 ^ 254 + (k mod 2 ^ 254 - k mod 8)) with ((k mod 2 ^ 254 - k mod 8) + 1 * 2 ^ 254) by lia.
  rewrite Z.mod_add, (Z.mod_small _ (2 ^ 254)) by lia.
  assert (((k mod 2 ^ 254 - k mod 8) + 1 * 2 ^ 254) mod 8 = 0) as ->; [|lia].
  apply Z.mod_divide; [lia|]. apply Z.divide_add_r; [done|]. rewrite E. exists (2 ^ 251). lia.
Qed.

(** The text of a key of 32 bytes: 44 characters that end with an equals sign, and that decode to
    the bytes. *)
Lemma key_text_encoded k :
  length k = 32%nat -> bytes_ok k ->
  exists s, crypto_base64_encode k 64 = Some s /\ key_text s = true /\ crypto_base64_decode s 64 = k ++ [0].
Proof.
  intros Hl Hb. exists (encode_loop k). split; [|split].
  - unfold crypto_base64_encode. by rewrite Hl.
  - clear Hb. do 32 (destruct k as [|? k]; [done|]). destruct k; [|done]. reflexivity.
  - unfold crypto_base64_decode. rewrite (decode_encode_loop 32 k _ 64 []); [|lia|done|by eapply encode_loop_length|rewrite Hl; cbn; lia].
    by rewrite Hl.
Qed.

Lemma key_pair_matches b :
  length b = 32%nat -> bytes_ok b ->
  exists d, let '(priv, pub) := key_pair b 64 64 in
    key_text priv = true /\ key_text pub = true /\ crypto_base64_decode priv 64 = d ++ [0]
    /\ le_val d = decode_scalar b /\ crypto_base64_decode pub 64 = le_bytes 32 (x25519 (decode_scalar b) 9) ++ [0].
Proof.
  intros Hl Hb. unfold key_pair. rewrite clamp_key_clamp by done. destruct (clamp_value b Hl Hb) as [Hc Hv]. pose proof (clamp_length b Hl) as Hcl.
  destruct (key_text_encoded (clamp b) Hcl Hc) as (s & -> & Hs1 & Hs2).
  unfold crypto_scalarmult_base. rewrite (scalarmult_rfc (clamp b) (9 :: replicate 31 0)) by first [done|by repeat constructor].
  rewrite decode_scalar_clamp by done. change ((le_val (9 :: replicate 31 0) mod 2 ^ 255) mod P25519) with 9.
  destruct (key_text_encoded (le_bytes 32 (x25519 (decode_scalar b) 9))) as (p & -> & Hp1 & Hp2); [apply le_bytes_length|apply le_bytes_ok|].
  exists (clamp b). by split_and!.
Qed.

Lemma random_bytes_urandom rand stack o t b :
  os_read o t "/dev/urandom" = Some b -> length b = 32%nat -> random_bytes rand stack o t = (b, t).
Proof.
  intros Hr Hl. unfold random_bytes, read_file. rewrite bind_ask, Hr. unfold mret, sys_ret. f_equal.
  rewrite (take_ge b) by lia. rewrite take_app_le by lia. by rewrite take_ge by lia.
Qed.

(** C19.  Keys made without the [wg] program.  With 32 bytes of /dev/urandom the two texts are keys of
    WireGuard, 44 characters ending in an equals sign; the private one decodes to the clamped scalar of
    RFC 7748, and the public one to what the RFC's function gives for that scalar and the base point. *)
Theorem generated_keys_match rand stack o t b :
  (wg_program_keys o t).1 = None ->
  (forall t, os_read o t "/dev/urandom" = Some b) -> length b = 32%nat -> bytes_ok b ->
  exists priv pub d, (vpn_manager_gen_wg_keypair rand stack 64 64 o t).1 = Some (priv, pub)
    /\ key_text priv = true /\ key_text pub = true
    /\ crypto_base64_decode priv 64 = d ++ [0] /\ le_val d = decode_scalar b
    /\ crypto_base64_decode pub 64 = le_bytes 32 (x25519 (decode_scalar b) 9) ++ [0].
Proof.
  intros Hw Hr Hl Hb. destruct (key_pair_matches b Hl Hb) as (d & Hk). destruct (key_pair b 64 64) as [priv pub] eqn:Ek.
  exists priv, pub, d. split; [|exact Hk].
  unfold vpn_manager_gen_wg_keypair. change ((64 <? 45) || (64 <? 45)) with false. cbv iota. unfold mbind at 1, sys_bind at 1.
  destruct (wg_program_keys o t) as [k t1]. cbn in Hw. subst k. cbv beta iota.
  unfold mbind, sys_bind. rewrite (random_bytes_urandom rand stack o t1 b) by done. unfold mret, sys_ret. cbn [fst]. by rewrite Ek.
Qed.

(** ** Peers *)

Definition peer_keys (wg : wireguard_config_t) : list cstring := wp_public_key <$> wg_peers wg.
Record peers_ok (wg : wireguard_config_t) : Prop := {
  po_unique : NoDup (peer_keys wg);
  po_named : [] ∉ peer_keys wg;
  po_room : Z.of_nat (length (wg_peers wg)) <= MAX_WG_PEERS
}.

Inductive wg_op := AddPeer (p : wireguard_peer_t) | DeletePeer (k : cstring) | SyncPeers.
Definition wg_perform (op : wg_op) (wg : wireguard_config_t) : sys wireguard_config_t :=
  match op with
  | AddPeer p => r ← vpn_manager_add_wg_peer wg p; mret r.1
  | DeletePeer k => r ← vpn_manager_delete_wg_peer wg k; mret r.1
  | SyncPeers => sync_wireguard wg
  end.
Fixpoint wg_run (ops : list wg_op) (wg : wireguard_config_t) : sys wireguard_config_t :=
  match ops with
  | [] => mret wg
  | op :: ops => wg ← wg_perform op wg; wg_run ops wg
  end.

(** Changing an element into one with the same image keeps the images. *)
Lemma change_first_fmap {A B} (g : A -> B) p f (l : list A) :
  (forall x, p x = true -> g (f x) = g x) -> g <$> change_first p f l = g <$> l.
Proof. intros H. induction l as [|x l IH]; [done|]. cbn [change_first]. destruct (p x) eqn:E; cbn; [by rewrite H|by rewrite <- IH]. Qed.
Lemma same_keys_ok wg peers : peers_ok wg -> wp_public_key <$> peers = peer_keys wg -> peers_ok (set_wg_peers peers wg).
Proof.
  intros [H1 H2 H3] E. assert (peer_keys (set_wg_peers peers wg) = peer_keys wg) as Ek by done.
  split; [by rewrite Ek|by rewrite Ek|]. cbn [set_wg_peers wg_peers].
  rewrite <- (length_fmap wp_public_key), E. unfold peer_keys. by rewrite length_fmap.
Qed.
Lemma has_key_keys k wg : existsb (has_key k) (wg_peers wg) = false -> k ∉ peer_keys wg.
Proof.
  intros H (p & -> & Hp)%list_elem_of_fmap. apply not_true_iff_false in H. apply H, existsb_exists. exists p. split; [by apply list_elem_of_In|].
  unfold has_key, str_eq. by apply bool_decide_eq_true.
Qed.
Lemma dump_lines_keys ls : forall peers, wp_public_key <$> foldl read_dump_line peers ls = wp_public_key <$> peers.
Proof.
  induction ls as [|l ls IH]; intros peers; [done|]. cbn [foldl]. rewrite IH. unfold read_dump_line.
  destruct (scan_dump l) as [[[pub ep] [[h rx] tx]]|]; [|done]. by apply change_first_fmap.
Qed.

(** The device that an operation leaves, whatever the system answers. *)
Definition gives (P : wireguard_config_t -> Prop) (m : sys wireguard_config_t) : Prop := forall o t, P (m o t).1.
Lemma result_apply wg wg' (P : wireguard_config_t -> Prop) o t :
  P wg -> P (((r ← (r ← vpn_manager_apply_wireguard wg'; mret (wg, r)); mret r.1) : sys wireguard_config_t) o t).1.
Proof. intros H. unfold mbind, sys_bind, mret, sys_ret. by destruct (vpn_manager_apply_wireguard wg' o t). Qed.

Lemma add_peer_ok wg p : peers_ok wg -> gives peers_ok (wg_perform (AddPeer p) wg).
Proof.
  intros H o t. cbn [wg_perform]. unfold vpn_manager_add_wg_peer, empty. case_bool_decide as He; [done|].
  destruct (existsb (has_key (wp_public_key p)) (wg_peers wg)) eqn:Ek.
  { apply result_apply. apply same_keys_ok; [done|]. apply change_first_fmap. intros x Hx. unfold has_key, str_eq in Hx. by apply bool_decide_eq_true in Hx. }
  destruct (Z.leb_spec MAX_WG_PEERS (Z.of_nat (length (wg_peers wg)))) as [|Hr]; [done|]. apply result_apply.
  apply has_key_keys in Ek. destruct H as [H1 H2 H3]. unfold peer_keys in *.
  split; unfold peer_keys; cbn [set_wg_peers wg_peers]; rewrite ?fmap_app.
  - apply NoDup_app. split_and!; [done| |apply NoDup_singleton]. intros x Hx. cbn. rewrite list_elem_of_singleton. congruence.
  - rewrite elem_of_app. intros [?|Hi]; [done|]. apply list_elem_of_singleton in Hi. congruence.
  - rewrite length_app. cbn [length]. lia.
Qed.
Lemma delete_peer_ok wg k : peers_ok wg -> gives peers_ok (wg_perform (DeletePeer k) wg).
Proof.
  intros H o t. cbn [wg_perform]. unfold vpn_manager_delete_wg_peer. destruct (empty k); [done|]. destruct (list_find _ _) as [[i p]|]; [|done].
  apply result_apply. destruct H as [H1 H2 H3].
  assert (Hs : peer_keys (set_wg_peers (delete i (wg_peers wg)) wg) `sublist_of` peer_keys wg) by (apply fmap_sublist, sublist_delete).
  split; [by eapply sublist_NoDup| |].
  - intros Hi. apply H2. by eapply elem_of_sublist.
  - apply sublist_length in Hs. unfold peer_keys in Hs. rewrite !length_fmap in Hs. lia.
Qed.
Lemma sync_peers_ok wg : peers_ok wg -> gives peers_ok (wg_perform SyncPeers wg).
Proof.
  intros H o t. cbn [wg_perform]. unfold sync_wireguard. destruct (negb _); [done|]. unfold popen, mbind, sys_bind, ask, do_call, mret, sys_ret.
  cbn [fst]. destruct (os_popen o t _); [|done]. apply same_keys_ok; [done|]. apply dump_lines_keys.
Qed.

(** Peers.  No sequence of saved, deleted and refreshed peers makes two peers share a public key,
    leaves a peer without one, or grows the table past its 64 slots, whatever the system answers. *)
Theorem peers_stay_ok ops wg o t : peers_ok wg -> peers_ok (wg_run ops wg o t).1.
Proof.
  revert wg t. induction ops as [|op ops IH]; intros wg t H; [done|]. cbn [wg_run]. unfold mbind, sys_bind.
  assert (Hop : peers_ok (wg_perform op wg o t).1) by (destruct op; [by apply add_peer_ok|by apply delete_peer_ok|by apply sync_peers_ok]).
  destruct (wg_perform op wg o t) as [wg' t']. by apply IH.
Qed.

(** ** A deleted peer is not written *)

Definition is_command (c : call) : Prop := match c with System _ => True | _ => False end.
Lemma run_all_commands o cmds : runs o is_command (fun _ => True) (run_all cmds).
Proof. apply (runs_for_each o is_command (fun _ => True)); [done|]. intros i s _ _. by run_step. Qed.

Lemma apply_writes wg o t :
  wg_enabled wg = true -> (forall t p, os_create o t p = true) ->
  exists v, vpn_manager_apply_wireguard wg o t
    = (0, t ++ [System "mkdir -p /etc/wireguard"; WriteFile (wg_conf_path wg) (lines (conf_lines wg)); Chmod (wg_conf_path wg) 384] ++ v)
    /\ Forall is_command v.
Proof.
  intros He Ho. unfold vpn_manager_apply_wireguard. rewrite He. cbn [negb].
  destruct (run_all_commands o (wg_commands wg) (t ++ [System "mkdir -p /etc/wireguard"; WriteFile (wg_conf_path wg) (lines (conf_lines wg)); Chmod (wg_conf_path wg) 384]))
    as (v & Ev & Hv & _).
  exists v. split; [|done]. unfold safe_system. rewrite bool_decide_false by done. unfold mbind, sys_bind, do_call, can_create, ask, mret, sys_ret.
  rewrite Ho. cbn [negb]. rewrite <- !app_assoc. cbn [app]. destruct (run_all _ o _) as [x t'] eqn:E. cbn [snd] in Ev. rewrite Ev. by rewrite <- app_assoc.
Qed.

Definition key_line (k : cstring) : cstring := bytes_of_string "PublicKey = " ++ k.
Lemma field_line_key name v k : take 2 (bytes_of_string name) <> [80; 117] -> (2 <= String.length name)%nat -> key_line k ∉ field_line name v.
Proof.
  intros Hn Hl. unfold field_line. destruct (empty v); [by intros ?%not_elem_of_nil|]. intros Hi%list_elem_of_singleton. apply Hn.
  apply (f_equal (take 2)) in Hi. rewrite take_app_le in Hi by (rewrite bytes_of_string_length; lia). symmetry. exact Hi.
Qed.
(** The only line of a peer that gives a public key is the one of its own. *)
Lemma peer_lines_key p k : key_line k ∈ peer_lines p -> wp_public_key p = k.
Proof.
  unfold peer_lines. destruct (_ || _); [by intros ?%not_elem_of_nil|]. rewrite !elem_of_app, !list_elem_of_singleton.
  intros [H|[H|[H|[H|[H|[H|[H|H]]]]]]]; try (by apply field_line_key in H; [|done|cbn; lia]); try done.
  - unfold key_line in H. by apply app_inv_head in H.
  - destruct (0 <? _); [|by apply not_elem_of_nil in H]. by apply list_elem_of_singleton in H.
Qed.
Lemma conf_lines_key wg k : key_line k ∈ conf_lines wg -> k ∈ peer_keys wg.
Proof.
  unfold conf_lines. intros [H|H]%elem_of_app.
  - repeat (apply elem_of_cons in H as [H|H]; [by apply (f_equal (take 2)) in H|]). by apply not_elem_of_nil in H.
  - apply list_elem_of_bind in H as (p & Hk & Hp). apply peer_lines_key in Hk. subst k. by apply list_elem_of_fmap_2.
Qed.
Lemma delete_unique i p peers : NoDup (wp_public_key <$> peers) -> peers !! i = Some p -> wp_public_key p ∉ wp_public_key <$> delete i peers.
Proof.
  intros Hn Hi. pose proof (list_elem_of_split_length peers i p Hi) as (l1 & l2 & -> & El).
  subst i. rewrite delete_middle. rewrite fmap_app, fmap_cons in Hn. apply NoDup_app in Hn as (_ & Hd & [Hc _]%NoDup_cons).
  rewrite fmap_app, elem_of_app. intros [Hx|Hx]; [|done]. apply (Hd _ Hx). left.
Qed.

(** C11.  Deleting a peer, when the device is on and its file can be written: the deletion succeeds;
    the peers that stay are the others, in their order; a new file is written, readable by its owner
    only, after the [mkdir -p] of its directory and before any other command is run, and no line of it gives the deleted
    key.  (With the device off the file is not written.) *)
Theorem deleted_peer_not_written wg k o t :
  peers_ok wg -> wg_enabled wg = true -> k ∈ peer_keys wg -> (forall t p, os_create o t p = true) ->
  exists wg' v, vpn_manager_delete_wg_peer wg k o t
      = ((wg', 0), t ++ [System "mkdir -p /etc/wireguard"; WriteFile (wg_conf_path wg') (lines (conf_lines wg')); Chmod (wg_conf_path wg') 384] ++ v)
    /\ Forall is_command v
    /\ (exists i p, wg_peers wg !! i = Some p /\ wp_public_key p = k /\ wg_peers wg' = delete i (wg_peers wg))
    /\ bytes_of_string "PublicKey = " ++ k ∉ conf_lines wg'.
Proof.
  intros [Hu Hn _] He (p & -> & Hp)%list_elem_of_fmap Ho. unfold vpn_manager_delete_wg_peer, empty.
  rewrite bool_decide_false by (intros E; apply Hn; rewrite <- E; by apply list_elem_of_fmap_2).
  destruct (list_find _ (wg_peers wg)) as [[i q]|] eqn:Ef; [|by eapply list_find_None, Forall_forall in Ef].
  apply list_find_Some in Ef as (Hi & Hk & _). set (wg' := set_wg_peers (delete i (wg_peers wg)) wg).
  destruct (apply_writes wg' o t He Ho) as (v & Ev & Hv). exists wg', v. unfold mbind, sys_bind. rewrite Ev. split_and!; [done|done| |].
  - by exists i, q.
  - intros H%conf_lines_key. rewrite <- Hk in H. by apply delete_unique in H.
Qed.

(** ** The file that [wg setconf] is given *)

Fixpoint split_lines (s : cstring) : list cstring :=
  match s with
  | [] => [[]]
  | c :: s =>
      if c =? 10 then [] :: split_lines s
      else match split_lines s with
           | l :: ls => (c :: l) :: ls
           | [] => [[c]]
           end
  end.
(** A line of the format of wg(8): blanks and the case of letters do not count, a number sign starts
    a comment, and the keys are those of the manual. *)
Definition wg_keys : list string :=
  ["privatekey="; "listenport="; "fwmark="; "publickey="; "presharedkey="; "allowedips="; "endpoint="; "persistentkeepalive="].
Definition squeezed (l : cstring) : cstring := tolower <$> filter (fun c => isspace c = false) (before 35 l).
Definition setconf_line (l : cstring) : bool :=
  let l := squeezed l in
  empty l || str_eq l "[interface]" || str_eq l "[peer]" || existsb (fun k => has_prefix (bytes_of_string k) l) wg_keys.

Lemma split_lines_cons a r : 10 ∉ a -> split_lines (a ++ 10 :: r) = a :: split_lines r.
Proof.
  induction a as [|c a IH]; intros H; [done|]. apply not_elem_of_cons in H as [Hc Ha]. cbn [app split_lines].
  rewrite (proj2 (Z.eqb_neq c 10)) by done. by rewrite IH.
Qed.
Lemma split_lines_prefix a r : 10 ∉ a -> exists l ls, split_lines (a ++ r) = (a ++ l) :: ls.
Proof.
  induction a as [|c a IH]; intros H.
  - cbn [app]. destruct r as [|c r]; cbn [split_lines]; [by eexists _, _|]. destruct (c =? 10); [by eexists _, _|]. destruct (split_lines r); by eexists _, _.
  - apply not_elem_of_cons in H as [Hc Ha]. destruct (IH Ha) as (l & ls & E). exists l, ls. cbn [app split_lines].
    rewrite (proj2 (Z.eqb_neq c 10)) by done. by rewrite E.
Qed.
Lemma conf_has_address wg : exists l, (bytes_of_string "Address = " ++ l) ∈ split_lines (lines (conf_lines wg)).
Proof.
  assert (Hc : forall a : cstring, bool_decide (10 ∈ a) = false -> 10 ∉ a) by (intros a; apply bool_decide_eq_false_1).
  unfold conf_lines, lines. cbn [app fmap list_fmap concat]. rewrite <- !app_assoc. cbn [app].
  rewrite (app_assoc _ FLUXWAN_VERSION), split_lines_cons by (apply Hc; vm_compute; reflexivity).
  rewrite split_lines_cons by (apply Hc; vm_compute; reflexivity).
  destruct (split_lines_prefix (bytes_of_string "Address = ") (wg_addr wg ++ 10 :: (bytes_of_string "ListenPort = " ++ dec (wg_port wg) ++ 10
    :: (bytes_of_string "PrivateKey = " ++ wg_private_key wg ++ 10 :: 10 :: concat ((fun s : cstring => s ++ [10]) <$> (wg_peers wg ≫= peer_lines))))))
    as (l & ls & E); [apply Hc; vm_compute; reflexivity|].
  exists l. right. right. rewrite E. left.
Qed.
Lemma address_line_refused l : setconf_line (bytes_of_string "Address = " ++ l) = false.
Proof.
  unfold setconf_line. assert (exists r, squeezed (bytes_of_string "Address = " ++ l) = bytes_of_string "address=" ++ r) as [r ->].
  { exists (squeezed l). reflexivity. }
  reflexivity.
Qed.

(** The file of the device.  [accepts] is what [wg setconf] takes: the manual allows only the lines
    of [setconf_line].  Every file that the manager writes and then gives to [wg setconf] is refused,
    because it has the [Address] line of wg-quick; the command's message is thrown away, and the
    operation returns 0. *)
Theorem setconf_always_refuses (accepts : cstring -> bool)
    (Hformat : forall text, accepts text = true -> Forall (fun l => setconf_line l = true) (split_lines text)) wg o t :
  exists u, (vpn_manager_apply_wireguard wg o t).2 = t ++ u
    /\ Forall (fun c => match c with WriteFile _ text => accepts text = false | _ => True end) u.
Proof.
  set (P := fun c => match c with WriteFile _ text => accepts text = false | _ => True end).
  assert (H : runs o P (fun _ => True) (vpn_manager_apply_wireguard wg)).
  { unfold vpn_manager_apply_wireguard. repeat (run_step; try done).
    - cbn. apply not_true_iff_false. intros Ha. destruct (conf_has_address wg) as [l Hl]. apply Hformat in Ha.
      rewrite Forall_forall in Ha. apply Ha in Hl. by rewrite address_line_refused in Hl.
    - eapply runs_weaken; [apply run_all_commands| |done]. by intros []. }
  destruct (H t) as (u & E & Hu & _). by exists u.
Qed.

(** ** Joining while children are reaped by the kernel *)

Lemma both_fail_ignored a b o t : (forall t c, os_status o t c = -1) -> both_fail a b o t = (true, t ++ [System a; System b]).
Proof.
  intros H. unfold both_fail, system. unfold mbind, sys_bind, ask, do_call, mret, sys_ret. rewrite H. cbn [Z.eqb]. rewrite H. cbn [Z.eqb negb].
  by rewrite <- app_assoc.
Qed.
Lemma apply_zerotier_ignored zt o t :
  zt_enabled zt = true -> (forall t c, os_status o t c = -1) ->
  exists c1 c2 c3, vpn_manager_apply_zerotier zt o t = (-1, t ++ [System c1; System c2; System c3])
    /\ Forall (fun c => has_prefix "zerotier-cli join" c = false) [c1; c2; c3].
Proof.
  intros He H. unfold vpn_manager_apply_zerotier. rewrite He. cbn [negb]. unfold mbind at 1, sys_bind at 1. rewrite both_fail_ignored by done.
  unfold safe_system. rewrite bool_decide_false by done. unfold mbind, sys_bind, do_call, mret, sys_ret. rewrite <- app_assoc. cbn [app].
  eexists _, _, _. split; [reflexivity|]. by repeat constructor.
Qed.

(** C39.  Joining a network.  The daemon ignores SIGCHLD, and then [system] returns -1 for every command
    (the hypothesis, from the manual of [waitpid]).  So the program is taken for missing: no join ever
    succeeds, for any identifier and any node, and none of the commands that are run is
    [zerotier-cli join]. *)
Theorem join_never_succeeds node nwid name o t :
  (forall t c, os_status o t c = -1) ->
  (vpn_manager_zt_join node nwid name o t).1.2 = -1
  /\ exists cmds, (vpn_manager_zt_join node nwid name o t).2 = t ++ (System <$> cmds)
    /\ Forall (fun c => has_prefix "zerotier-cli join" c = false) cmds.
Proof.
  intros H. unfold vpn_manager_zt_join.
  assert (Hnone : forall n : zt_node, (n, -1).2 = -1 /\ exists cmds, t = t ++ (System <$> cmds) /\ Forall (fun c => has_prefix "zerotier-cli join" c = false) cmds)
    by (intros n; split; [done|]; exists []; split; [by rewrite app_nil_r|constructor]).
  assert (Happ : forall zt n, zt_enabled zt = true -> let r := ((r ← vpn_manager_apply_zerotier zt; mret (n, r)) : sys (zt_node * Z)) o t in
    r.1.2 = -1 /\ exists cmds, r.2 = t ++ (System <$> cmds) /\ Forall (fun c => has_prefix "zerotier-cli join" c = false) cmds).
  { intros zt n He. destruct (apply_zerotier_ignored zt o t He H) as (c1 & c2 & c3 & E & Hc). unfold mbind, sys_bind. rewrite E. split; [done|].
    by exists [c1; c2; c3]. }
  destruct (_ || _); [apply Hnone|]. destruct (existsb _ _); [by apply Happ|]. destruct (_ <=? _); [apply Hnone|by apply Happ].
Qed.

(** ** Witnesses *)

Module VpnDemo.
Definition peer (name key : cstring) : wireguard_peer_t := WireguardPeer name key [] [] "10.250.0.2/32" [] 25 true 0 0 0 [].
Definition device : wireguard_config_t :=
  WireguardConfig true "wg0" 51820 "10.250.0.1/24" "private" "public" false [peer "phone" "A1="; peer "laptop" "B2="].
Definition node : tailscale_config_t := TailscaleConfig true "tskey" "FluxWAN" [] "192.168.90.0/24" true false false "Stopped" [] [] [] [].
Definition vpn : vpn_config_t :=
  VpnConfig device (ZerotierConfig true "a1b2c3d4e5" false [ZerotierNetwork "8056c2e21c000001" "earth" true "OK" [] [] [] 0]) node.
Definition random : list Z := Z.of_nat <$> seq 100 32.
(** Files can be written, /dev/urandom gives [random], and no program can be run. *)
Definition machine : os :=
  Os (fun _ p => if bool_decide (p = bytes_of_string "/dev/urandom") then Some random else None) (fun _ _ => true) (fun _ _ => true) (fun _ _ => 3)
    (fun _ _ => true) (fun _ _ => None) (fun _ => (100, 0)) (fun _ => 1000) (fun _ _ => None) (fun _ _ => []) (fun _ => true) (fun _ _ _ _ => false)
    (fun _ _ => None) (fun _ _ => []) (fun _ _ => None) (fun _ _ => None) (fun _ => true) (fun _ _ => -1) (fun _ _ => false) (fun _ => 4242) (fun _ _ => false).

Lemma device_ok : peers_ok device.
Proof. split; [apply (bool_decide_unpack _); vm_compute; exact Logic.I|apply (bool_decide_unpack _); vm_compute; exact Logic.I|by_eval]. Qed.
Lemma node_fits : ts_fits node.
Proof. split; apply Nat.leb_le; vm_compute; reflexivity. Qed.
Lemma vpn_fit : vpn_fits vpn.
Proof.
  split_and!; [split|split|exact node_fits]; try (apply Nat.leb_le; vm_compute; reflexivity); try by_eval;
    repeat constructor; try (apply Nat.leb_le; vm_compute; reflexivity); by_eval.
Qed.

Lemma status_report_complete_witness : vpn_manager_build_json_status vpn 65536 = (concat (status_pieces vpn), true).
Proof. exact (status_report_complete vpn vpn_fit). Defined.
Lemma up_command_complete_witness : ts_up_cmd node = Some (concat (ts_up_pieces node)).
Proof. exact (up_command_complete node node_fits). Defined.
Lemma generated_keys_match_witness :
  exists priv pub d, (vpn_manager_gen_wg_keypair (fun _ _ => 0) [] 64 64 machine []).1 = Some (priv, pub)
    /\ key_text priv = true /\ key_text pub = true
    /\ crypto_base64_decode priv 64 = d ++ [0] /\ le_val d = decode_scalar random
    /\ crypto_base64_decode pub 64 = le_bytes 32 (x25519 (decode_scalar random) 9) ++ [0].
Proof.
  assert (Hb : bytes_ok random) by (apply (bool_decide_unpack _); vm_compute; exact Logic.I).
  exact (generated_keys_match (fun _ _ => 0) [] machine [] random eq_refl (fun _ => eq_refl) eq_refl Hb).
Defined.
Lemma peers_stay_ok_witness :
  peers_ok (wg_run [AddPeer (peer "tablet" "C3="); DeletePeer "A1="; AddPeer (peer "desk" "B2="); SyncPeers] device machine []).1.
Proof. apply (peers_stay_ok [AddPeer (peer "tablet" "C3="); DeletePeer "A1="; AddPeer (peer "desk" "B2="); SyncPeers] device machine []). exact device_ok. Defined.
Lemma deleted_peer_not_written_witness :
  exists wg' v, vpn_manager_delete_wg_peer device "A1=" machine []
      = ((wg', 0), [] ++ [System "mkdir -p /etc/wireguard"; WriteFile (wg_conf_path wg') (lines (conf_lines wg')); Chmod (wg_conf_path wg') 384] ++ v)
    /\ Forall is_command v
    /\ (exists i p, wg_peers device !! i = Some p /\ wp_public_key p = bytes_of_string "A1=" /\ wg_peers wg' = delete i (wg_peers device))
    /\ bytes_of_string "PublicKey = " ++ "A1=" ∉ conf_lines wg'.
Proof. apply (deleted_peer_not_written device "A1=" machine []); [exact device_ok|reflexivity|left|reflexivity]. Defined.
Lemma setconf_always_refuses_witness :
  let accepts := fun text => forallb setconf_line (split_lines text) in
  accepts (lines [bytes_of_string "[Interface]"; bytes_of_string "ListenPort = 51820"]) = true
  /\ exists u, (vpn_manager_apply_wireguard device machine []).2 = [] ++ u
    /\ Forall (fun c => match c with WriteFile _ text => accepts text = false | _ => True end) u.
Proof.
  split; [vm_compute; reflexivity|].
  apply (setconf_always_refuses (fun text => forallb setconf_line (split_lines text))).
  intros text H. rewrite forallb_forall in H. apply Forall_forall. intros l Hl. by apply H, list_elem_of_In.
Defined.
Lemma join_never_succeeds_witness :
  let node := ZtNode (vpn_zerotier vpn) [] in
  (vpn_manager_zt_join node "8056c2e21c000001" "earth" machine []).1.2 = -1
  /\ exists cmds, (vpn_manager_zt_join node "8056c2e21c000001" "earth" machine []).2 = [] ++ (System <$> cmds)
    /\ Forall (fun c => has_prefix "zerotier-cli join" c = false) cmds.
Proof. exact (join_never_succeeds (ZtNode (vpn_zerotier vpn) []) "8056c2e21c000001" "earth" machine [] (fun _ _ => eq_refl)). Defined.
End VpnDemo.
