(* ===== verification/PppoeClient.v ===== *)
(** * PPPoE client sessions

    src/src/pppoe_manager.c: for each uplink of type PPPoE a session that dials with pppd, waits for
    an address, watches the process and redials with a growing delay.  A session is driven by
    [pppoe_manager_tick]; what the tick tells the WAN manager is the list of events that
    [WanManager.pppoe_callbacks] takes.  Log lines are left out, and [#if defined(__linux__)] is
    taken. *)

From S2P Require Import Prelude Fluxwan Ipv4 CLib ProxyUri System Samples WanManager VpnManager.

Inductive pppoe_state_t :=
  | PPPOE_STATE_IDLE | PPPOE_STATE_DIALING | PPPOE_STATE_AUTH | PPPOE_STATE_CONNECTED
  | PPPOE_STATE_DISCONNECTED | PPPOE_STATE_RECONNECTING | PPPOE_STATE_STOPPING.
#[export] Instance pppoe_state_t_eq_dec : EqDecision pppoe_state_t.
Proof. solve_decision. Defined.

(** The paths are functions of the index of the uplink. *)
Record pppoe_session_t := PppoeSession {
  se_state : pppoe_state_t;
  se_pppd_pid : Z;
  se_ppp_ifname : cstring;
  se_macvlan_ifname : cstring;
  se_virtual_mac : cstring;
  se_assigned_ip : Z;
  se_remote_ip : Z;
  se_assigned_ip_str : cstring;
  se_remote_ip_str : cstring;
  se_dial_start_ms : Z;
  se_connected_since_ms : Z;
  se_next_retry_ms : Z;
  se_last_check_ms : Z;
  se_backoff_s : Z;
  se_reconnect_attempts : Z;
  se_last_username : cstring;
  se_last_password : cstring
}.
Definition PPPOE_INITIAL_BACKOFF_S : Z := 15.
Definition PPPOE_MAX_BACKOFF_S : Z := 120.
Definition opts_path (i : nat) : cstring := snprintf 64 "/tmp/fluxwan_ppp%d.opts" [FN (Z.of_nat i)].
Definition ppp_pid_file (i : nat) : cstring := snprintf 64 "/tmp/fluxwan_ppp%d.pid" [FN (Z.of_nat i)].

Definition new_session : pppoe_session_t :=
  PppoeSession PPPOE_STATE_IDLE (-1) [] [] [] 0 0 [] [] 0 0 0 0 PPPOE_INITIAL_BACKOFF_S 0 [] [].
Definition pppoe_manager_init : list pppoe_session_t := replicate (Z.to_nat MAX_WANS) new_session.

Definition set_se_state (v : pppoe_state_t) (s : pppoe_session_t) : pppoe_session_t :=
  PppoeSession v (se_pppd_pid s) (se_ppp_ifname s) (se_macvlan_ifname s) (se_virtual_mac s) (se_assigned_ip s) (se_remote_ip s)
    (se_assigned_ip_str s) (se_remote_ip_str s) (se_dial_start_ms s) (se_connected_since_ms s) (se_next_retry_ms s) (se_last_check_ms s)
    (se_backoff_s s) (se_reconnect_attempts s) (se_last_username s) (se_last_password s).
Definition set_se_retry (v : pppoe_state_t) (next : Z) (s : pppoe_session_t) : pppoe_session_t :=
  PppoeSession v (se_pppd_pid s) (se_ppp_ifname s) (se_macvlan_ifname s) (se_virtual_mac s) (se_assigned_ip s) (se_remote_ip s)
    (se_assigned_ip_str s) (se_remote_ip_str s) (se_dial_start_ms s) (se_connected_since_ms s) next (se_last_check_ms s)
    (se_backoff_s s) (se_reconnect_attempts s) (se_last_username s) (se_last_password s).
Definition set_se_last_check (v : Z) (s : pppoe_session_t) : pppoe_session_t :=
  PppoeSession (se_state s) (se_pppd_pid s) (se_ppp_ifname s) (se_macvlan_ifname s) (se_virtual_mac s) (se_assigned_ip s) (se_remote_ip s)
    (se_assigned_ip_str s) (se_remote_ip_str s) (se_dial_start_ms s) (se_connected_since_ms s) (se_next_retry_ms s) v
    (se_backoff_s s) (se_reconnect_attempts s) (se_last_username s) (se_last_password s).

(** ** The address of a session *)

Definition first_line (out : option cstring) : cstring := match out ≫= fgets1 64 with Some l => before 10 l | None => [] end.
(** The address with its last number replaced by 1. *)
Definition peer_guess (ip : cstring) : cstring :=
  match strrchr ip 46 with
  | Some (a, _) => a ++ ".1"
  | None => ip
  end.
(** Address and gateway in host order, and their texts. *)
Definition get_ppp_interface_ip (ifname : cstring) : sys (option (Z * Z * cstring * cstring)) :=
  out ← popen (snprintf 256 "ip -4 -o addr show %s 2>/dev/null | awk '{print $4}' | cut -d/ -f1" [FS ifname]);
  let ip := first_line out in
  if empty ip then mret None
  else
    out ← popen (snprintf 256 "ip -4 -o addr show %s 2>/dev/null | awk '{print $6}' | cut -d/ -f1" [FS ifname]);
    let gw := first_line out in
    let gw := if empty gw then peer_guess ip else gw in
    mret (match inet_pton ip with
          | None => None
          | Some _ =>
              let a := ntohl (str_to_ip ip) in
              match inet_pton gw with
              | Some _ => Some (a, ntohl (str_to_ip gw), str_trunc 20 ip, str_trunc 20 gw)
              | None => Some (a, a, str_trunc 20 ip, str_trunc 20 ip)
              end
          end).

(** ** The hardware address *)

Definition CONSUMER_ROUTER_OUIS : list (Z * Z * Z) :=
  [(216, 7, 182); (80, 199, 191); (232, 72, 184); (176, 78, 38); (48, 222, 75); (236, 8, 107); (20, 235, 182); (96, 50, 177);
   (204, 45, 33); (80, 43, 115); (4, 149, 230); (200, 58, 53); (216, 50, 20);
   (20, 214, 77); (40, 16, 123); (0, 24, 231); (196, 168, 29); (32, 207, 48); (176, 197, 84)].

Definition mix_text (h0 m : Z) (s : cstring) : Z := foldl (fun h c => u32 (Z.lxor h (u8 c) * m)) h0 s.
Definition mac_mix (wan_index : Z) (parent_ifname username : cstring) : Z :=
  let h1 := mix_text 2166136261 16777619 parent_ifname in
  let h2 := mix_text 2654435769 2246822507 username in
  let w := u32 (wan_index + 1) in
  let mixed := Z.lxor (Z.lxor h1 (u32 (h2 * 31))) (u32 (w * 73244475)) in
  let mixed := Z.lxor mixed (mixed .>> 16) in
  let mixed := u32 (mixed * 73244475) in
  Z.lxor mixed (mixed .>> 16).
Definition mac_low (mixed w : Z) : Z :=
  let low := Z.lxor mixed (u32 (w * 668265261)) in
  let low := u32 (Z.lxor low (low .>> 15) * 2246822507) in
  let low := u32 (Z.lxor low (low .>> 13) * 3266489909) in
  Z.lxor low (low .>> 16).
Definition virtual_mac_bytes (wan_index : Z) (parent_ifname username : cstring) : list Z :=
  let mixed := mac_mix wan_index parent_ifname username in
  let w := u32 (wan_index + 1) in
  let n := Z.of_nat (length CONSUMER_ROUTER_OUIS) in
  let '(b1, b2, b3) := default (0, 0, 0) (CONSUMER_ROUTER_OUIS !! Z.to_nat ((u32 (w - 1) + mixed mod n) mod n)) in
  let low := mac_low mixed w in
  let b6 := u8 low in
  let b6 := if b6 =? 0 then 18 else b6 in
  [b1; b2; b3; u8 (low .>> 16); u8 (low .>> 8); if b6 =? 255 then 254 else b6].
(** ["%02x:%02x:%02x:%02x:%02x:%02x"]. *)
Definition colon_hex (l : list Z) : cstring :=
  match hex2_lower <$> l with
  | [] => []
  | x :: l => x ++ (l ≫= fun y => 58 :: y)
  end.
Definition generate_unique_virtual_mac (wan_index : Z) (parent_ifname username : cstring) : cstring :=
  str_trunc 18 (colon_hex (virtual_mac_bytes wan_index parent_ifname username)).

(** ** Starting and stopping *)

Definition pppoe_session_stop (i : nat) (s : pppoe_session_t) : sys pppoe_session_t :=
  (if 0 <? se_pppd_pid s then
     do_call (Kill (se_pppd_pid s) SIGTERM);; do_call (Usleep 50000);; do_call (Kill (se_pppd_pid s) SIGKILL)
   else mret tt);;
  (if negb (empty (se_macvlan_ifname s)) then safe_system (snprintf 256 "ip link delete %s 2>/dev/null || true" [FS (se_macvlan_ifname s)])
   else mret tt);;
  do_call (Unlink (opts_path i));;
  do_call (Unlink (ppp_pid_file i));;
  mret (PppoeSession PPPOE_STATE_IDLE (if 0 <? se_pppd_pid s then -1 else se_pppd_pid s) (se_ppp_ifname s) (se_macvlan_ifname s) (se_virtual_mac s)
          0 0 [] [] (se_dial_start_ms s) (se_connected_since_ms s) (se_next_retry_ms s) (se_last_check_ms s) (se_backoff_s s)
          (se_reconnect_attempts s) (se_last_username s) (se_last_password s)).

Definition plugin_line : cstring := "plugin /usr/lib/pppd/2.5.0/pppoe.so".
Definition secret_text (w : wan_config_t) : cstring :=
  sprintf (dq "`%s` * `%s` *") [FS (w_ppp_username w); FS (w_ppp_password w)] ++ [10].
Definition append_file (path : cstring) (text : list Z) (mode : option Z) : sys unit :=
  ok ← can_create path;
  if (ok : bool) then
    do_call (AppendFile path text);;
    match mode with Some m => do_call (Chmod path m) | None => mret tt end
  else mret tt.
Definition opts_lines (i : nat) (macvlan : cstring) (w : wan_config_t) : list cstring :=
  [plugin_line; bytes_of_string "nic-" ++ macvlan; sprintf (dq "user `%s`") [FS (w_ppp_username w)]; sprintf (dq "password `%s`") [FS (w_ppp_password w)];
   sprintf "unit %d" [FN (Z.of_nat i)]]
  ++ (bytes_of_string <$> ["noauth"; "nodefaultroute"; "usepeerdns"; "persist"; "maxfail 0"; "holdoff 5"; "mtu 1492"; "mru 1492"; "lcp-echo-interval 10";
      "lcp-echo-failure 3"])
  ++ [sprintf "linkname ppp%d" [FN (Z.of_nat i)]]
  ++ (bytes_of_string <$> ["hide-password"; "noaccomp"; "nopcomp"; "novj"; "nobsdcomp"; "nodeflate"; "noipx"; "nodetach"]).

(** The names, the address and the credentials that a start records. *)
Definition prepared (i : nat) (w : wan_config_t) (s : pppoe_session_t) : pppoe_session_t :=
  let mac := if 17 <=? Z.of_nat (length (w_custom_mac w)) then str_trunc 18 (w_custom_mac w)
             else generate_unique_virtual_mac (Z.of_nat i) (w_name w) (w_ppp_username w) in
  PppoeSession (se_state s) (se_pppd_pid s) (snprintf 16 "ppp%d" [FN (Z.of_nat i)]) (snprintf 16 "mv_wan%d" [FN (Z.of_nat i)]) mac
    (se_assigned_ip s) (se_remote_ip s) (se_assigned_ip_str s) (se_remote_ip_str s) (se_dial_start_ms s) (se_connected_since_ms s)
    (se_next_retry_ms s) (se_last_check_ms s) (se_backoff_s s) (se_reconnect_attempts s)
    (str_trunc 64 (w_ppp_username w)) (str_trunc 64 (w_ppp_password w)).
Definition dialing (pid now : Z) (s : pppoe_session_t) : pppoe_session_t :=
  PppoeSession PPPOE_STATE_DIALING pid (se_ppp_ifname s) (se_macvlan_ifname s) (se_virtual_mac s) (se_assigned_ip s) (se_remote_ip s)
    (se_assigned_ip_str s) (se_remote_ip_str s) now (se_connected_since_ms s) 0 (se_last_check_ms s)
    (se_backoff_s s) (se_reconnect_attempts s) (se_last_username s) (se_last_password s).
Definition is_active (s : pppoe_state_t) : bool := bool_decide (s = PPPOE_STATE_CONNECTED \/ s = PPPOE_STATE_DIALING).

Definition launch_pppd (i : nat) (s : pppoe_session_t) : sys (pppoe_session_t * Z) :=
  pid ← ask os_fork;
  if pid <? 0 then mret (s, -1)
  else
    do_call (Exec [bytes_of_string "pppd"; bytes_of_string "file"; opts_path i]);;
    now ← clock_gettime;
    ok ← can_create (ppp_pid_file i);
    (if (ok : bool) then do_call (WriteFile (ppp_pid_file i) (dec pid ++ [10])) else mret tt);;
    mret (dialing pid (clock_ms now) s, 0).
Definition make_link (w : wan_config_t) (s : pppoe_session_t) : sys unit :=
  safe_system (snprintf 256 "ip link delete %s 2>/dev/null || true" [FS (se_macvlan_ifname s)]);;
  safe_system (snprintf 256 "ip link add link %s name %s address %s type macvlan mode private 2>/dev/null"
                 [FS (w_name w); FS (se_macvlan_ifname s); FS (se_virtual_mac s)]);;
  safe_system (snprintf 256 "ip link set %s up 2>/dev/null" [FS (se_macvlan_ifname s)]).
Definition pppoe_session_start (i : nat) (w : wan_config_t) (s : pppoe_session_t) : sys (pppoe_session_t * Z) :=
  if is_active (se_state s) then mret (s, 0)
  else
    s ← pppoe_session_stop i s;
    let s := prepared i w s in
    make_link w s;;
    do_call (Mkdir "/etc/ppp");;
    append_file "/etc/ppp/options" (plugin_line ++ [10]) None;;
    append_file "/etc/ppp/pap-secrets" (secret_text w) (Some 384);;
    append_file "/etc/ppp/chap-secrets" (secret_text w) (Some 384);;
    ok ← can_create (opts_path i);
    if negb ok then mret (s, -1)
    else
      do_call (WriteFile (opts_path i) (lines (opts_lines i (se_macvlan_ifname s) w)));;
      launch_pppd i s.

(** ** The tick *)

(** The process has ended: the next dial is put off, and the delay doubles up to two minutes. *)
Definition exited (now : Z) (s : pppoe_session_t) : pppoe_session_t :=
  let doubled := u32 (se_backoff_s s * 2) in
  PppoeSession PPPOE_STATE_DISCONNECTED (-1) (se_ppp_ifname s) (se_macvlan_ifname s) (se_virtual_mac s) (se_assigned_ip s) (se_remote_ip s)
    (se_assigned_ip_str s) (se_remote_ip_str s) (se_dial_start_ms s) (se_connected_since_ms s) (u64 (now + se_backoff_s s * 1000)) (se_last_check_ms s)
    (if PPPOE_MAX_BACKOFF_S <? doubled then PPPOE_MAX_BACKOFF_S else doubled) (se_reconnect_attempts s + 1) (se_last_username s) (se_last_password s).
Definition connected (now ip gw : Z) (ip_str gw_str : cstring) (s : pppoe_session_t) : pppoe_session_t :=
  PppoeSession PPPOE_STATE_CONNECTED (se_pppd_pid s) (se_ppp_ifname s) (se_macvlan_ifname s) (se_virtual_mac s) ip gw
    (str_trunc 20 ip_str) (str_trunc 20 gw_str) (se_dial_start_ms s) now (se_next_retry_ms s) (se_last_check_ms s)
    PPPOE_INITIAL_BACKOFF_S 0 (se_last_username s) (se_last_password s).
Definition connected_wan (ip gw : Z) (gw_str : cstring) (w : wan_config_t) : wan_config_t :=
  let w := set_w_netmask (htonl 4294967295) (set_w_gateway (htonl gw) (set_w_ip_addr (htonl ip) w)) in
  if empty (w_probe_target w) || (w_probe_target_ip w =? 0)
  then set_w_probe_target_ip (htonl gw) (set_w_probe_target (str_trunc 64 gw_str) w) else w.

Definition tick_result : Type := pppoe_session_t * wan_config_t * list pppoe_event.

Definition check_credentials (i : nat) (w : wan_config_t) (s : pppoe_session_t) : sys pppoe_session_t :=
  if bool_decide (se_state s = PPPOE_STATE_CONNECTED \/ se_state s = PPPOE_STATE_DIALING \/ se_state s = PPPOE_STATE_AUTH)
     && negb (str_eq (se_last_username s) (w_ppp_username w) && str_eq (se_last_password s) (w_ppp_password w))
  then s ← pppoe_session_stop i s; mret (set_se_state PPPOE_STATE_IDLE s)
  else mret s.
Definition check_process (i : nat) (now : Z) (s : pppoe_session_t) : sys (pppoe_session_t * list pppoe_event) :=
  if 0 <? se_pppd_pid s then
    dead ← ask (fun o t => os_exited o t (se_pppd_pid s));
    mret (if (dead : bool) then let s := exited now s in (s, [PppoeDown (Z.of_nat i) (se_ppp_ifname s) (se_reconnect_attempts s)]) else (s, []))
  else mret (s, []).
Definition transition (i : nat) (now : Z) (w : wan_config_t) (s : pppoe_session_t) : sys tick_result :=
  match se_state s with
  | PPPOE_STATE_IDLE => r ← pppoe_session_start i w s; mret (r.1, w, [])
  | PPPOE_STATE_DIALING | PPPOE_STATE_AUTH =>
      a ← get_ppp_interface_ip (se_ppp_ifname s);
      match a with
      | Some (ip, gw, ip_str, gw_str) =>
          mret (connected now ip gw ip_str gw_str s, connected_wan ip gw gw_str w, [PppoeUp (Z.of_nat i) (se_ppp_ifname s) ip gw])
      | None =>
          if 45000 <? u64 (now - se_dial_start_ms s) then
            s ← pppoe_session_stop i s; mret (set_se_retry PPPOE_STATE_RECONNECTING (u64 (now + 5000)) s, w, [])
          else mret (s, w, [])
      end
  | PPPOE_STATE_CONNECTED =>
      if 5000 <=? u64 (now - se_last_check_ms s) then
        let s := set_se_last_check now s in
        a ← get_ppp_interface_ip (se_ppp_ifname s);
        match a with
        | Some _ => mret (s, w, [])
        | None =>
            mret (set_se_retry PPPOE_STATE_DISCONNECTED (u64 (now + 5000)) s, w, [PppoeDown (Z.of_nat i) (se_ppp_ifname s) (se_reconnect_attempts s)])
        end
      else mret (s, w, [])
  | PPPOE_STATE_DISCONNECTED | PPPOE_STATE_RECONNECTING =>
      if (se_next_retry_ms s <=? now) && w_enabled w then r ← pppoe_session_start i w s; mret (r.1, w, []) else mret (s, w, [])
  | PPPOE_STATE_STOPPING => s ← pppoe_session_stop i s; mret (s, w, [])
  end.

(** One turn of the loop, for the uplink at index [i]. *)
Definition tick_session (i : nat) (now : Z) (w : wan_config_t) (s : pppoe_session_t) : sys tick_result :=
  if negb (bool_decide (w_type w = WAN_TYPE_PPPOE)) then mret (s, w, [])
  else if negb (w_enabled w) then
    if bool_decide (se_state s <> PPPOE_STATE_IDLE /\ se_state s <> PPPOE_STATE_STOPPING) then s ← pppoe_session_stop i s; mret (s, w, [])
    else mret (s, w, [])
  else
    s ← check_credentials i w s;
    r ← check_process i now s;
    r2 ← transition i now w r.1;
    mret (r2.1.1, r2.1.2, r.2 ++ r2.2).

Fixpoint tick_from (i : nat) (now : Z) (wans : list wan_config_t) (ss : list pppoe_session_t)
    : sys (list pppoe_session_t * list wan_config_t * list pppoe_event) :=
  match wans, ss with
  | w :: wans, s :: ss =>
      r ← tick_session i now w s;
      rest ← tick_from (S i) now wans ss;
      mret (r.1.1 :: rest.1.1, r.1.2 :: rest.1.2, r.2 ++ rest.2)
  | _, _ => mret (ss, wans, [])
  end.
Definition pppoe_manager_tick (wans : list wan_config_t) (ss : list pppoe_session_t)
    : sys (list pppoe_session_t * list wan_config_t * list pppoe_event) :=
  now ← clock_gettime; tick_from 0 (clock_ms now) wans ss.

Fixpoint start_from (i : nat) (wans : list wan_config_t) (ss : list pppoe_session_t) : sys (list pppoe_session_t) :=
  match wans, ss with
  | w :: wans, s :: ss =>
      r ← (if bool_decide (w_type w = WAN_TYPE_PPPOE) && w_enabled w then pppoe_session_start i w s else mret (s, 0));
      rest ← start_from (S i) wans ss;
      mret (r.1 :: rest)
  | _, _ => mret ss
  end.
Definition pppoe_manager_start_all (wans : list wan_config_t) (ss : list pppoe_session_t) : sys (list pppoe_session_t) := start_from 0 wans ss.

Fixpoint stop_from (i : nat) (ss : list pppoe_session_t) : sys unit :=
  match ss with
  | [] => mret tt
  | s :: ss => pppoe_session_stop i s;; stop_from (S i) ss
  end.
Definition pppoe_manager_destroy (ss : list pppoe_session_t) : sys unit := stop_from 0 ss.

(** ** Reachable sessions *)

Record session_ok (s : pppoe_session_t) : Prop := {
  so_state : se_state s <> PPPOE_STATE_AUTH /\ se_state s <> PPPOE_STATE_STOPPING;
  so_pid : se_pppd_pid s = -1 \/ 0 < se_pppd_pid s;
  so_idle : se_state s = PPPOE_STATE_IDLE \/ se_state s = PPPOE_STATE_RECONNECTING -> se_pppd_pid s = -1;
  so_live : se_state s = PPPOE_STATE_DIALING \/ se_state s = PPPOE_STATE_CONNECTED -> 0 < se_pppd_pid s;
  so_backoff : se_backoff_s s ∈ [15; 30; 60; 120]
}.

(** Nothing is said of the calls. *)
Abbreviation results o Q m := (runs o (fun _ => True) Q m).

Lemma unit_results {A} o (m : sys unit) (k : unit -> sys A) Q : results o (fun _ => True) m -> results o Q (k tt) -> results o Q (m ≫= k).
Proof. intros Hm Hk. eapply runs_bind; [exact Hm|]. by intros [] _. Qed.
Lemma append_file_results o p c m : results o (fun _ => True) (append_file p c m).
Proof. unfold append_file. by repeat (run_step; try done). Qed.

Lemma make_link_results o w s : results o (fun _ => True) (make_link w s).
Proof. unfold make_link. by repeat (run_step; try done). Qed.
Lemma get_ip_results o dev : results o (fun _ => True) (get_ppp_interface_ip dev).
Proof.
  unfold get_ppp_interface_ip, popen. run_step; [by repeat (run_step; try done)|]. destruct (empty _); [by apply runs_ret|].
  run_step; [by repeat (run_step; try done)|]. by apply runs_ret.
Qed.

(** What a stop leaves. *)
Record stopped (s s' : pppoe_session_t) : Prop := {
  st_state : se_state s' = PPPOE_STATE_IDLE;
  st_pid : se_pppd_pid s' = if 0 <? se_pppd_pid s then -1 else se_pppd_pid s;
  st_backoff : se_backoff_s s' = se_backoff_s s;
  st_attempts : se_reconnect_attempts s' = se_reconnect_attempts s
}.
Lemma stop_results o i s : results o (stopped s) (pppoe_session_stop i s).
Proof.
  unfold pppoe_session_stop. apply unit_results; [by repeat (run_step; try done)|]. apply unit_results; [by repeat (run_step; try done)|].
  apply unit_results; [by run_step|]. apply unit_results; [by run_step|]. by apply runs_ret.
Qed.
Lemma stopped_pid s s' : se_pppd_pid s = -1 \/ 0 < se_pppd_pid s -> stopped s s' -> se_pppd_pid s' = -1.
Proof. intros H []. destruct (Z.ltb_spec 0 (se_pppd_pid s)); lia. Qed.
Lemma stopped_ok s s' : session_ok s -> stopped s s' -> session_ok s'.
Proof.
  intros Hs H. pose proof (stopped_pid s s' (so_pid _ Hs) H). destruct H as [E Ep Eb _].
  split; rewrite ?E, ?Eb; [done|by left|done|by intros [?|?]|apply Hs].
Qed.

(** What a start of a session that is not active leaves: it is dialling, or as a stop leaves it. *)
Record started (s s' : pppoe_session_t) : Prop := {
  sd_backoff : se_backoff_s s' = se_backoff_s s;
  sd_attempts : se_reconnect_attempts s' = se_reconnect_attempts s;
  sd_state : (se_state s' = PPPOE_STATE_DIALING /\ 0 <= se_pppd_pid s')
             \/ (se_state s' = PPPOE_STATE_IDLE /\ se_pppd_pid s' = if 0 <? se_pppd_pid s then -1 else se_pppd_pid s)
}.
Lemma launch_results o i s :
  results o (fun r => (exists pid now, 0 <= pid /\ (exists t, pid = os_fork o t) /\ r.1 = dialing pid now s) \/ r.1 = s) (launch_pppd i s).
Proof.
  unfold launch_pppd. eapply (runs_bind _ _ (fun pid => exists t, pid = os_fork o t)); [apply runs_ask; by eexists|]. intros pid Hp.
  destruct (Z.ltb_spec pid 0); [apply runs_ret; by right|]. apply unit_results; [by run_step|]. run_step; [by run_step|]. run_step; [by run_step|].
  apply unit_results; [by repeat (run_step; try done)|]. apply runs_ret. left. by eexists _, _.
Qed.
Lemma start_results o i w s :
  is_active (se_state s) = false ->
  results o (fun r => started s r.1 /\ (se_state r.1 = PPPOE_STATE_DIALING -> exists t, se_pppd_pid r.1 = os_fork o t)) (pppoe_session_start i w s).
Proof.
  intros Ha. unfold pppoe_session_start. rewrite Ha. eapply runs_bind; [apply stop_results|]. intros s1 [E1 E2 E3 E4].
  assert (Hp : started s (prepared i w s1)) by (split; [done|done|right; done]).
  apply unit_results; [apply make_link_results|]. apply unit_results; [by run_step|]. do 3 (apply unit_results; [apply append_file_results|]).
  run_step; [by run_step|]. destruct (negb _); [apply runs_ret; split; [done|]; cbn; by rewrite E1|].
  apply unit_results; [by run_step|]. eapply runs_weaken; [apply launch_results|done|]. intros [r c] [(pid & now & Hpid & Ht & ->)| ->]; cbn [fst].
  - split; [|done]. split; [done|done|]. by left.
  - split; [done|]. cbn. by rewrite E1.
Qed.
Lemma start_ok o i w s :
  (forall t, os_fork o t <> 0) -> session_ok s -> results o (fun r => session_ok r.1) (pppoe_session_start i w s).
Proof.
  intros Hf Hs. destruct (is_active (se_state s)) eqn:Ha; [unfold pppoe_session_start; rewrite Ha; by apply runs_ret|].
  eapply runs_weaken; [by apply start_results|done|]. intros [s' c] [[Eb Ea Hst] Hpid]; cbn [fst] in *.
  destruct Hst as [[E Hp]|[E Ep]].
  - destruct (Hpid E) as [t Et]. specialize (Hf t). split; rewrite ?E, ?Eb; [done|right; lia|by intros [?|?]|intros; lia|apply Hs].
  - assert (se_pppd_pid s' = -1) by (destruct (so_pid _ Hs), (Z.ltb_spec 0 (se_pppd_pid s)); lia).
    split; rewrite ?E, ?Eb; [done|by left|done|by intros [?|?]|apply Hs].
Qed.

Lemma exited_ok now s : session_ok s -> session_ok (exited now s).
Proof.
  intros Hs. split; cbn; [done|by left|by intros [?|?]|by intros [?|?]|].
  pose proof (so_backoff _ Hs) as Hb. unfold PPPOE_MAX_BACKOFF_S. repeat (apply elem_of_cons in Hb as [->|Hb]; [vm_compute; set_solver|]). by apply not_elem_of_nil in Hb.
Qed.

Lemma check_credentials_ok o i w s : session_ok s -> results o session_ok (check_credentials i w s).
Proof.
  intros Hs. unfold check_credentials. destruct (_ && _); [|by apply runs_ret]. eapply runs_bind; [apply stop_results|]. intros s1 H1.
  apply runs_ret. pose proof (stopped_ok s s1 Hs H1) as []. pose proof (stopped_pid s s1 (so_pid _ Hs) H1).
  split; cbn; [done|done|done|by intros [?|?]|done].
Qed.
Lemma check_process_ok o i now s : session_ok s -> results o (fun r => session_ok r.1) (check_process i now s).
Proof.
  intros Hs. unfold check_process. destruct (0 <? se_pppd_pid s); [|by apply runs_ret]. run_step; [by run_step|]. apply runs_ret.
  case_match; [by apply exited_ok|done].
Qed.
Lemma transition_ok o i now w s :
  (forall t, os_fork o t <> 0) -> session_ok s -> results o (fun r : tick_result => session_ok r.1.1) (transition i now w s).
Proof.
  intros Hf Hs. unfold transition. destruct (se_state s) eqn:E; try (by destruct (so_state _ Hs)).
  - eapply runs_bind; [by apply start_ok|]. intros r Hr. by apply runs_ret.
  - pose proof (so_live _ Hs (or_introl E)). run_step; [apply get_ip_results|].
    destruct x as [[[[ip gw] ip_str] gw_str]|].
    + apply runs_ret. split; cbn; [done|by right|by intros [?|?]|done|set_solver].
    + destruct (_ <? _); [|by apply runs_ret]. eapply runs_bind; [apply stop_results|]. intros s1 H1. apply runs_ret.
      pose proof (stopped_pid s s1 (so_pid _ Hs) H1). destruct H1 as [? ? Eb ?].
      split; cbn; rewrite ?Eb; [done|by left|done|by intros [?|?]|apply Hs].
  - pose proof (so_live _ Hs (or_intror E)). destruct (_ <=? _); [|by apply runs_ret]. run_step; [apply get_ip_results|].
    destruct x; apply runs_ret; split; cbn; rewrite ?E; first [done|by right|by intros [?|?]|apply Hs].
  - destruct (_ && _); [|by apply runs_ret]. eapply runs_bind; [by apply start_ok|]. intros r Hr. by apply runs_ret.
  - destruct (_ && _); [|by apply runs_ret]. eapply runs_bind; [by apply start_ok|]. intros r Hr. by apply runs_ret.
Qed.
Lemma tick_session_ok o i now w s :
  (forall t, os_fork o t <> 0) -> session_ok s -> results o (fun r : tick_result => session_ok r.1.1) (tick_session i now w s).
Proof.
  intros Hf Hs. unfold tick_session. destruct (negb _); [by apply runs_ret|]. destruct (negb _).
  { case_bool_decide; [|by apply runs_ret]. eapply runs_bind; [apply stop_results|]. intros s1 H1. apply runs_ret. by apply (stopped_ok s). }
  eapply runs_bind; [by apply check_credentials_ok|]. intros s1 H1. eapply runs_bind; [by apply check_process_ok|]. intros r2 H2.
  eapply runs_bind; [by apply transition_ok|]. intros r3 H3. by apply runs_ret.
Qed.
Lemma tick_from_ok o now wans : forall i ss,
  (forall t, os_fork o t <> 0) -> Forall session_ok ss -> results o (fun r => Forall session_ok r.1.1) (tick_from i now wans ss).
Proof.
  induction wans as [|w wans IH]; intros i ss Hf Hss; [by apply runs_ret|]. destruct Hss as [|s ss Hs Hss]; [by apply runs_ret; constructor|].
  cbn [tick_from]. eapply runs_bind; [by apply tick_session_ok|]. intros r Hr. eapply runs_bind; [by apply IH|]. intros rest Hrest.
  apply runs_ret. by constructor.
Qed.
Lemma start_from_ok o wans : forall i ss,
  (forall t, os_fork o t <> 0) -> Forall session_ok ss -> results o (Forall session_ok) (start_from i wans ss).
Proof.
  induction wans as [|w wans IH]; intros i ss Hf Hss; [by apply runs_ret|]. destruct Hss as [|s ss Hs Hss]; [by apply runs_ret; constructor|].
  cbn [start_from]. eapply (runs_bind _ _ (fun r : pppoe_session_t * Z => session_ok r.1)); [destruct (_ && _); [by apply start_ok|by apply runs_ret]|].
  intros r Hr. eapply runs_bind; [by apply IH|]. intros rest Hrest. apply runs_ret. by constructor.
Qed.

(** The steps of the manager: any answers of the system, any trace before, any configuration. *)
Inductive ppp_step : list pppoe_session_t -> list pppoe_session_t -> Prop :=
  | StepTick o t wans ss : (forall t, os_fork o t <> 0) -> ppp_step ss (pppoe_manager_tick wans ss o t).1.1.1
  | StepStartAll o t wans ss : (forall t, os_fork o t <> 0) -> ppp_step ss (pppoe_manager_start_all wans ss o t).1.
Lemma new_session_ok : session_ok new_session.
Proof. split; cbn; [done|by left|done|by intros [?|?]|set_solver]. Qed.

(** C12.  Sessions.  Whatever the system answers and however the configuration changes between ticks, each
    session of the manager keeps its shape: the process number is -1 or that of a process; an idle
    session and one that waits after a timeout have no process; one that dials or is connected has one;
    the delay is 15, 30, 60 or 120 seconds.  The states AUTH and STOPPING are never entered. *)
Theorem sessions_stay_ok ss : rtc ppp_step pppoe_manager_init ss -> Forall session_ok ss.
Proof.
  intros H. assert (Forall session_ok pppoe_manager_init) as Hi by (apply Forall_replicate, new_session_ok). revert Hi. induction H as [|x y z Hxy _ IH]; [done|].
  intros Hx. apply IH. destruct Hxy as [o t wans ss Hf|o t wans ss Hf].
  - unfold pppoe_manager_tick, clock_gettime. rewrite bind_ask. exact (runs_result o _ _ _ t (tick_from_ok o _ wans 0 ss Hf Hx)).
  - exact (runs_result o _ _ _ t (start_from_ok o wans 0 ss Hf Hx)).
Qed.

(** ** The delay between dials *)

Definition is_up (e : pppoe_event) : bool := match e with PppoeUp _ _ _ _ => true | PppoeDown _ _ _ => false end.
(** A session that has never been connected, after ticks that told of [n] losses. *)
Inductive dial_run (i : nat) : nat -> pppoe_session_t -> Prop :=
  | DialNew : dial_run i 0 new_session
  | DialTick n s o t now w s' w' evs t' :
      dial_run i n s -> tick_session i now w s o t = ((s', w', evs), t') -> forallb (fun e => negb (is_up e)) evs = true ->
      dial_run i (n + length evs) s'.

Record delayed (n : nat) (s : pppoe_session_t) : Prop := {
  de_state : se_state s <> PPPOE_STATE_CONNECTED;
  de_backoff : se_backoff_s s = Z.min 120 (15 * 2 ^ Z.of_nat n);
  de_attempts : se_reconnect_attempts s = Z.of_nat n
}.
Lemma stopped_delayed n s s' : delayed n s -> stopped s s' -> delayed n s'.
Proof. intros [H1 H2 H3] [E1 E2 E3 E4]. split; [by rewrite E1|by rewrite E3|by rewrite E4]. Qed.
Lemma start_delayed o i w n s : delayed n s -> results o (fun r => delayed n r.1) (pppoe_session_start i w s).
Proof.
  intros H. destruct (is_active (se_state s)) eqn:Ha; [unfold pppoe_session_start; rewrite Ha; by apply runs_ret|].
  eapply runs_weaken; [by apply start_results|done|]. intros [s' c] [[Eb Ea Hst] _]; cbn [fst] in *. destruct H as [H1 H2 H3].
  split; [destruct Hst as [[-> _]|[-> _]]; done|by rewrite Eb|by rewrite Ea].
Qed.
Lemma exited_delayed now n s : delayed n s -> delayed (n + 1) (exited now s).
Proof.
  intros [H1 H2 H3]. split; [done| |cbn; rewrite H3; lia]. cbn [exited se_backoff_s]. rewrite H2. unfold PPPOE_MAX_BACKOFF_S.
  replace (Z.of_nat (n + 1)) with (Z.succ (Z.of_nat n)) by lia. rewrite Z.pow_succ_r by lia. pose proof (Z.pow_pos_nonneg 2 (Z.of_nat n)).
  set (p := 2 ^ Z.of_nat n) in *. rewrite u32_small by (unfold is_u32; lia). destruct (Z.ltb_spec 120 (Z.min 120 (15 * p) * 2)); lia.
Qed.
Definition no_up_delayed (n : nat) (r : tick_result) : Prop := forallb (fun e => negb (is_up e)) r.2 = true -> delayed (n + length r.2) r.1.1.
Lemma no_events n s (w : wan_config_t) : delayed n s -> no_up_delayed n (s, w, []).
Proof. intros H _. by rewrite Nat.add_0_r. Qed.
Lemma transition_delayed o i now w n s : delayed n s -> results o (no_up_delayed n) (transition i now w s).
Proof.
  intros H. unfold transition.
  assert (Hstart : results o (no_up_delayed n) (r ← pppoe_session_start i w s; mret (r.1, w, [])))
    by (eapply runs_bind; [by apply start_delayed|]; intros r Hr; apply runs_ret; by apply no_events).
  assert (Hdial : results o (no_up_delayed n) (a ← get_ppp_interface_ip (se_ppp_ifname s);
      match a with
      | Some (ip, gw, ip_str, gw_str) =>
          mret (connected now ip gw ip_str gw_str s, connected_wan ip gw gw_str w, [PppoeUp (Z.of_nat i) (se_ppp_ifname s) ip gw])
      | None =>
          if 45000 <? u64 (now - se_dial_start_ms s) then
            s ← pppoe_session_stop i s; mret (set_se_retry PPPOE_STATE_RECONNECTING (u64 (now + 5000)) s, w, [])
          else mret (s, w, [])
      end)).
  { run_step; [apply get_ip_results|]. destruct x as [[[[ip gw] ip_str] gw_str]|]; [by apply runs_ret|]. destruct (_ <? _); [|apply runs_ret; by apply no_events].
    eapply runs_bind; [apply stop_results|]. intros s1 H1. apply runs_ret, no_events. by destruct (stopped_delayed n s s1 H H1). }
  destruct (se_state s) eqn:E; [done|done|done|by destruct (de_state _ _ H)| | |].
  - destruct (_ && _); [done|]. apply runs_ret. by apply no_events.
  - destruct (_ && _); [done|]. apply runs_ret. by apply no_events.
  - eapply runs_bind; [apply stop_results|]. intros s1 H1. apply runs_ret, no_events. by apply (stopped_delayed n s).
Qed.
Lemma tick_delayed o i now w n s : delayed n s -> results o (no_up_delayed n) (tick_session i now w s).
Proof.
  intros H. unfold tick_session. destruct (negb _); [apply runs_ret; by apply no_events|]. destruct (negb _).
  { case_bool_decide; [|apply runs_ret; by apply no_events]. eapply runs_bind; [apply stop_results|]. intros s1 H1. apply runs_ret, no_events. by apply (stopped_delayed n s). }
  eapply (runs_bind _ _ (delayed n)).
  { unfold check_credentials. destruct (_ && _); [|by apply runs_ret]. eapply runs_bind; [apply stop_results|]. intros s1 H1. apply runs_ret.
    by destruct (stopped_delayed n s s1 H H1). }
  intros s1 H1. eapply (runs_bind _ _ (fun r => delayed (n + length r.2) r.1 /\ forallb (fun e => negb (is_up e)) r.2 = true)).
  { unfold check_process. destruct (0 <? se_pppd_pid s1); [|apply runs_ret; by rewrite Nat.add_0_r]. run_step; [by run_step|]. apply runs_ret.
    case_match; cbn [fst snd length]; [split; [by apply exited_delayed|done]|by rewrite Nat.add_0_r]. }
  intros r2 [H2 Hu]. eapply runs_bind; [by apply transition_delayed|]. intros r3 H3. apply runs_ret. intros Hu3. cbn [fst snd] in *.
  rewrite forallb_app in Hu3. apply andb_true_iff in Hu3 as [_ Hu3]. rewrite length_app, Nat.add_assoc. by apply H3.
Qed.

(** Delays.  As long as a session has not been connected, the delay after its [n]-th loss doubles
    from 15 seconds to at most two minutes, and the number of attempts is the number of losses,
    however the uplink is switched off and on, and its credentials changed, in between. *)
Theorem backoff_doubles i n s :
  dial_run i n s -> se_backoff_s s = Z.min 120 (15 * 2 ^ Z.of_nat n) /\ se_reconnect_attempts s = Z.of_nat n.
Proof.
  intros H. enough (delayed n s) as [] by done. induction H as [|n s o t now w s' w' evs t' _ IH E Hu]; [by split|].
  pose proof (runs_result o _ _ _ t (tick_delayed o i now w n s IH)) as Hd. unfold no_up_delayed in Hd. rewrite E in Hd. by apply Hd.
Qed.

(** ** Dialling again *)

(** A tick of an uplink that is on and whose session waits for its time, or is idle. *)
Definition due (now : Z) (s : pppoe_session_t) : Prop :=
  se_state s = PPPOE_STATE_IDLE
  \/ ((se_state s = PPPOE_STATE_DISCONNECTED \/ se_state s = PPPOE_STATE_RECONNECTING) /\ se_next_retry_ms s <= now).
Lemma tick_due i now w s o t :
  w_type w = WAN_TYPE_PPPOE -> w_enabled w = true -> se_pppd_pid s = -1 -> due now s ->
  tick_session i now w s o t = (let '(r, t') := pppoe_session_start i w s o t in ((r.1, w, []), t')).
Proof.
  intros Ht He Hp Hd. unfold tick_session. rewrite bool_decide_true by done. rewrite He. cbn [negb].
  assert (Hn : ~ (se_state s = PPPOE_STATE_CONNECTED \/ se_state s = PPPOE_STATE_DIALING \/ se_state s = PPPOE_STATE_AUTH))
    by (destruct Hd as [->|[[-> | ->] _]]; by intros [?|[?|?]]).
  unfold check_credentials. rewrite bool_decide_false by done. cbn [andb]. unfold mbind, sys_bind, mret, sys_ret, check_process. rewrite Hp. change (0 <? -1) with false.
  unfold mret, sys_ret, transition. cbn [fst snd app].
  destruct Hd as [->|[[-> | ->] Hd]]; rewrite ?He, ?(proj2 (Z.leb_le _ _) Hd); cbn [andb];
    unfold mbind, sys_bind, mret, sys_ret; destruct (pppoe_session_start i w s o t) as [[s' c] t']; done.
Qed.

(** A program makes the call [c], and its result satisfies [R]. *)
Definition ends {A} (o : os) (R : A -> Prop) (c : call) (m : sys A) : Prop :=
  forall t, exists u, (m o t).2 = t ++ u /\ R (m o t).1 /\ c ∈ u.
Lemma ends_later {A B} o (Q : A -> Prop) (R : B -> Prop) c (m : sys A) (k : A -> sys B) :
  results o Q m -> (forall x, Q x -> ends o R c (k x)) -> ends o R c (m ≫= k).
Proof.
  intros Hm Hk t. destruct (Hm t) as (u & E & _ & HQ). unfold mbind, sys_bind. destruct (m o t) as [x t1]. cbn in E, HQ. subst t1.
  destruct (Hk x HQ (t ++ u)) as (v & Ev & HR & Hc). exists (u ++ v). rewrite Ev, app_assoc. split_and!; [done|done|]. apply elem_of_app. by right.
Qed.
Lemma ends_first {A B} o (Q : A -> Prop) (R : B -> Prop) c (m : sys A) (k : A -> sys B) :
  ends o Q c m -> (forall x, Q x -> results o R (k x)) -> ends o R c (m ≫= k).
Proof.
  intros Hm Hk t. destruct (Hm t) as (u & E & HQ & Hc). unfold mbind, sys_bind. destruct (m o t) as [x t1]. cbn in E, HQ. subst t1.
  destruct (Hk x HQ (t ++ u)) as (v & Ev & _ & HR). exists (u ++ v). rewrite Ev, app_assoc. split_and!; [done|done|]. apply elem_of_app. by left.
Qed.
Lemma ends_unit {A} o (R : A -> Prop) c (m : sys unit) k : results o (fun _ => True) m -> ends o R c (k tt) -> ends o R c (m ≫= k).
Proof. intros Hm Hk. eapply ends_later; [exact Hm|]. by intros [] _. Qed.
Lemma ends_call o c : ends o (fun _ => True) c (do_call c).
Proof. intros t. exists [c]. split_and!; [done|done|left]. Qed.
Lemma can_create_results o p (b : bool) : (forall t, os_create o t p = b) -> results o (fun ok => ok = b) (can_create p).
Proof. intros H. by apply runs_ask. Qed.

Definition pppd_call (i : nat) : call := Exec [bytes_of_string "pppd"; bytes_of_string "file"; opts_path i].
Lemma launch_dials o i s : (forall t, 0 < os_fork o t) -> ends o (fun r => se_state r.1 = PPPOE_STATE_DIALING) (pppd_call i) (launch_pppd i s).
Proof.
  intros Hf. unfold launch_pppd. eapply (ends_later _ (fun pid => 0 < pid)); [by apply runs_ask|]. intros pid Hp.
  destruct (Z.ltb_spec pid 0); [lia|]. eapply ends_first; [apply ends_call|]. intros [] _.
  run_step; [by run_step|]. run_step; [by run_step|]. apply unit_results; [by repeat (run_step; try done)|]. by apply runs_ret.
Qed.

(** C18.  Redialling.  An uplink that is on and has no process is dialled again by the first tick at which
    its session is idle or its waiting time is over: when the files can be written and a process can be
    made, the tick runs pppd with the options of the session, which is then dialling. *)
Theorem redials_when_due i now w s o t :
  w_type w = WAN_TYPE_PPPOE -> w_enabled w = true -> se_pppd_pid s = -1 -> due now s ->
  (forall t p, os_create o t p = true) -> (forall t, 0 < os_fork o t) ->
  se_state (tick_session i now w s o t).1.1.1 = PPPOE_STATE_DIALING
  /\ exists u, (tick_session i now w s o t).2 = t ++ u /\ Exec [bytes_of_string "pppd"; bytes_of_string "file"; opts_path i] ∈ u.
Proof.
  intros Ht He Hp Hd Hc Hf. rewrite tick_due by done.
  assert (Ha : is_active (se_state s) = false) by (apply bool_decide_eq_false; destruct Hd as [->|[[-> | ->] _]]; by intros [?|?]).
  assert (H : ends o (fun r => se_state r.1 = PPPOE_STATE_DIALING) (pppd_call i) (pppoe_session_start i w s)).
  { unfold pppoe_session_start. rewrite Ha. eapply ends_later; [apply stop_results|]. intros s1 _.
    apply ends_unit; [apply make_link_results|]. apply ends_unit; [by run_step|]. do 3 (apply ends_unit; [apply append_file_results|]).
    eapply ends_later; [by apply (can_create_results o _ true)|]. intros ? ->. cbn [negb]. apply ends_unit; [by run_step|]. by apply launch_dials. }
  destruct (H t) as (u & E & Hs & Hu). destruct (pppoe_session_start i w s o t) as [r t']. split; [done|]. by exists u.
Qed.

(** ** A uplink that is switched off *)

(** Switching off.  A tick of an uplink that has been switched off leaves its session idle and
    without a process, and kills the process it had. *)
Theorem disabled_stops i now w s o t :
  w_type w = WAN_TYPE_PPPOE -> w_enabled w = false -> session_ok s ->
  let r := tick_session i now w s o t in
  se_state r.1.1.1 = PPPOE_STATE_IDLE /\ se_pppd_pid r.1.1.1 = -1
  /\ (0 < se_pppd_pid s -> exists u, r.2 = t ++ u /\ Kill (se_pppd_pid s) SIGKILL ∈ u).
Proof.
  intros Ht He Hs. unfold tick_session. rewrite bool_decide_true by done. rewrite He. cbn [negb]. destruct (so_state _ Hs) as [_ Hn].
  case_bool_decide as Hd.
  - pose proof (runs_result o _ _ _ t (stop_results o i s)) as H. pose proof (stopped_pid _ _ (so_pid _ Hs) H) as Hp. destruct H as [Hi _ _ _].
    assert (Hk : 0 < se_pppd_pid s -> ends o (fun _ => True) (Kill (se_pppd_pid s) SIGKILL) (pppoe_session_stop i s)).
    { intros Hpos. unfold pppoe_session_stop. rewrite (proj2 (Z.ltb_lt _ _) Hpos). eapply ends_first.
      - apply ends_unit; [by run_step|]. apply ends_unit; [by run_step|]. apply ends_call.
      - intros [] _. repeat (run_step; try done). }
    unfold mbind, sys_bind, mret, sys_ret. destruct (pppoe_session_stop i s o t) as [s' t'] eqn:E. split_and!; [done|done|]. intros Hpos.
    destruct (Hk Hpos t) as (u & Eu & _ & Hu). rewrite E in Eu. by exists u.
  - assert (Hi : se_state s = PPPOE_STATE_IDLE) by (destruct (decide (se_state s = PPPOE_STATE_IDLE)); [done|by destruct Hd]).
    pose proof (so_idle _ Hs (or_introl Hi)). split_and!; [done|done|]. lia.
Qed.

(** ** The files of secrets *)

Definition secret_call (w : wan_config_t) : call := AppendFile "/etc/ppp/chap-secrets" (secret_text w).
Definition idle_again (s : pppoe_session_t) : Prop := se_state s = PPPOE_STATE_IDLE /\ se_pppd_pid s = -1.
(** [n] ticks in a row, at the times [now]. *)
Fixpoint ticks (i : nat) (now : list Z) (w : wan_config_t) (s : pppoe_session_t) : sys pppoe_session_t :=
  match now with
  | [] => mret s
  | n :: now => r ← tick_session i n w s; ticks i now w r.1.1
  end.
Lemma failed_start o i w s :
  se_pppd_pid s = -1 -> se_state s = PPPOE_STATE_IDLE ->
  (forall t, os_create o t (opts_path i) = false) -> (forall t, os_create o t "/etc/ppp/chap-secrets" = true) ->
  ends o (fun r => idle_again r.1) (secret_call w) (pppoe_session_start i w s).
Proof.
  intros Hp Hi Hc Hs. unfold pppoe_session_start. rewrite Hi. change (is_active PPPOE_STATE_IDLE) with false. cbv iota.
  eapply ends_later; [apply stop_results|]. intros s1 [E1 E2 _ _]. rewrite Hp in E2.
  apply ends_unit; [apply make_link_results|]. apply ends_unit; [by run_step|]. do 2 (apply ends_unit; [apply append_file_results|]).
  eapply (ends_first _ (fun _ => True)).
  - unfold append_file. eapply ends_later; [by apply (can_create_results o _ true)|]. intros ? ->. eapply ends_first; [apply ends_call|]. intros [] _. by run_step.
  - intros [] _. eapply runs_bind; [by apply (can_create_results o _ false)|]. intros ? ->. by apply runs_ret.
Qed.

(** A session that cannot start.  While the file of options cannot be written, the session stays idle
    and every tick starts it anew, with no delay: after [n] ticks the user name and password have been
    appended to the file of secrets at least [n] times. *)
Theorem failed_start_grows_secrets i now w s o t :
  w_type w = WAN_TYPE_PPPOE -> w_enabled w = true -> idle_again s ->
  (forall t, os_create o t (opts_path i) = false) -> (forall t, os_create o t "/etc/ppp/chap-secrets" = true) ->
  exists u, (ticks i now w s o t).2 = t ++ u /\ exists parts, u = concat parts /\ length parts = length now /\ Forall (fun p => secret_call w ∈ p) parts.
Proof.
  intros Ht He Hs Hc Ho. revert s t Hs. induction now as [|n now IH]; intros s t [Hi Hp].
  { exists []. cbn. rewrite app_nil_r. split; [done|]. by exists []. }
  cbn [ticks]. unfold mbind, sys_bind. rewrite tick_due by first [done|by left].
  destruct (failed_start o i w s Hp Hi Hc Ho t) as (u & Eu & Hr & Hu). destruct (pppoe_session_start i w s o t) as [[s' c] t1]. cbn [fst snd] in *. subst t1.
  destruct (IH s' (t ++ u) Hr) as (v & Ev & parts & -> & Hl & Hf). exists (u ++ concat parts). rewrite Ev, app_assoc. split; [done|].
  exists (u :: parts). split_and!; [done|cbn; by rewrite Hl|by constructor].
Qed.

(** ** Hardware addresses *)

Lemma colon_hex_fits a b c d e f : str_trunc 18 (colon_hex [a; b; c; d; e; f]) = colon_hex [a; b; c; d; e; f].
Proof. reflexivity. Qed.

(** The address made for a session: six bytes written as 17 characters, so that it fits its array; the
    first three are those of a listed maker; it is the address of a single device, and its last byte is
    neither 0 nor 255. *)
Theorem virtual_mac_valid i dev user :
  exists b1 b2 b3 b4 b5 b6,
    generate_unique_virtual_mac i dev user = colon_hex [b1; b2; b3; b4; b5; b6]
    /\ length (generate_unique_virtual_mac i dev user) = 17%nat
    /\ (b1, b2, b3) ∈ CONSUMER_ROUTER_OUIS /\ Z.testbit b1 0 = false
    /\ Forall is_u8 [b1; b2; b3; b4; b5; b6] /\ b6 <> 0 /\ b6 <> 255.
Proof.
  unfold generate_unique_virtual_mac, virtual_mac_bytes. set (mixed := mac_mix i dev user). set (low := mac_low mixed _). set (n := Z.of_nat (length _)).
  set (k := Z.to_nat _).
  assert (Hk : (k < length CONSUMER_ROUTER_OUIS)%nat) by (pose proof (Z.mod_pos_bound (u32 (u32 (i + 1) - 1) + mixed mod n) n ltac:(by_eval)); subst k n; cbn in *; lia).
  destruct (lookup_lt_is_Some_2 _ _ Hk) as [[[b1 b2] b3] Eb]. rewrite Eb. change (default (0, 0, 0) (Some (b1, b2, b3))) with (b1, b2, b3). cbv iota beta zeta.
  pose proof (list_elem_of_lookup_2 _ _ _ Eb) as Hin.
  assert (Hall : Forall (fun v : Z * Z * Z => let '(a, b, c) := v in Z.testbit a 0 = false /\ is_u8 a /\ is_u8 b /\ is_u8 c) CONSUMER_ROUTER_OUIS)
    by (repeat constructor; by_eval).
  rewrite Forall_forall in Hall. destruct (Hall _ Hin) as (Hb & H1 & H2 & H3).
  rewrite colon_hex_fits. eexists b1, b2, b3, _, _, _. split; [reflexivity|]. split; [reflexivity|]. pose proof (u8_range low). pose proof (u8_range (low .>> 16)). pose proof (u8_range (low .>> 8)).
  assert (Hb6 : let b := if u8 low =? 0 then 18 else u8 low in let b6 := if b =? 255 then 254 else b in is_u8 b6 /\ b6 <> 0 /\ b6 <> 255).
  { cbv zeta. destruct (Z.eqb_spec (u8 low) 0); [by_eval|]. destruct (Z.eqb_spec (u8 low) 255); [by_eval|]. done. }
  split_and!; [done|done| |apply Hb6|apply Hb6]. repeat (constructor; [done|]). constructor; [apply Hb6|constructor].
Qed.

(** ** Witnesses *)

Module ClientDemo.
Definition uplink (enabled : bool) : wan_config_t :=
  let x := sample_wan 1 "eth1" 50 WAN_STATE_DOWN in
  WanConfig 1 "eth1" "WAN1" WAN_TYPE_PPPOE 0 0 0 [] [] [] "user" "secret" 0 [] [] [] [] 0 0 [] 101 50 50 0 0 WAN_STATE_DOWN enabled [] 0
    (w_metrics x) 0 0 0 0 [] [] 1492 1492 [] (w_proxy x).
(** Commands print nothing; files can be written but for [closed]; a process has the number 77, and
    has ended when [dead]. *)
Definition machine (closed : option cstring) (dead : bool) : os :=
  Os (fun _ _ => None) (fun _ p => match closed with Some c => negb (bool_decide (p = c)) | None => true end) (fun _ _ => true) (fun _ _ => 3)
    (fun _ _ => true) (fun _ _ => None) (fun _ => (100, 0)) (fun _ => 1000) (fun _ _ => Some []) (fun _ _ => []) (fun _ => true) (fun _ _ _ _ => false)
    (fun _ _ => None) (fun _ _ => []) (fun _ _ => None) (fun _ _ => None) (fun _ => true) (fun _ _ => -1) (fun _ _ => false) (fun _ => 77) (fun _ _ => dead).
Definition dialled : pppoe_session_t := (pppoe_session_start 0 (uplink true) new_session (machine None false) []).1.1.
Definition lost : pppoe_session_t := (tick_session 0 200000 (uplink true) dialled (machine None true) []).1.1.1.

Lemma sessions_stay_ok_witness :
  Forall session_ok (pppoe_manager_tick [uplink true] (pppoe_manager_start_all [uplink true] pppoe_manager_init (machine None false) []).1 (machine None true) []).1.1.1.
Proof.
  apply (sessions_stay_ok _). eapply rtc_l; [apply (StepStartAll (machine None false) [] [uplink true]); done|].
  eapply rtc_once. apply (StepTick (machine None true) [] [uplink true]). done.
Defined.
Lemma backoff_doubles_witness : se_backoff_s lost = Z.min 120 (15 * 2 ^ Z.of_nat 1) /\ se_reconnect_attempts lost = Z.of_nat 1.
Proof.
  assert (H1 : dial_run 0 0 dialled).
  { apply (DialTick 0 0 new_session (machine None false) [] 0 (uplink true) dialled (uplink true) []
      (tick_session 0 0 (uplink true) new_session (machine None false) []).2 (DialNew 0)); vm_compute; reflexivity. }
  assert (H2 : dial_run 0 1 lost).
  { apply (DialTick 0 0 dialled (machine None true) [] 200000 (uplink true) lost (uplink true) [PppoeDown 0 "ppp0" 1]
      (tick_session 0 200000 (uplink true) dialled (machine None true) []).2 H1); vm_compute; reflexivity. }
  exact (backoff_doubles 0 1 lost H2).
Defined.
Lemma redials_when_due_witness :
  se_state (tick_session 0 300000 (uplink true) lost (machine None false) []).1.1.1 = PPPOE_STATE_DIALING
  /\ exists u, (tick_session 0 300000 (uplink true) lost (machine None false) []).2 = [] ++ u
     /\ Exec [bytes_of_string "pppd"; bytes_of_string "file"; opts_path 0] ∈ u.
Proof.
  assert (Hd : due 300000 lost) by (right; split; [left; vm_compute; reflexivity|vm_compute; discriminate]).
  exact (redials_when_due 0 300000 (uplink true) lost (machine None false) [] eq_refl eq_refl eq_refl Hd (fun _ _ => eq_refl) (fun _ => eq_refl)).
Defined.
Lemma disabled_stops_witness :
  let r := tick_session 0 300000 (uplink false) dialled (machine None false) [] in
  se_state r.1.1.1 = PPPOE_STATE_IDLE /\ se_pppd_pid r.1.1.1 = -1
  /\ (0 < se_pppd_pid dialled -> exists u, r.2 = [] ++ u /\ Kill (se_pppd_pid dialled) SIGKILL ∈ u).
Proof.
  assert (Hs : session_ok dialled) by (split; [split; discriminate|right; reflexivity|intros [?|?]; discriminate|done|left]).
  exact (disabled_stops 0 300000 (uplink false) dialled (machine None false) [] eq_refl eq_refl Hs).
Defined.
Lemma failed_start_grows_secrets_witness :
  exists u, (ticks 0 [100; 200; 300] (uplink true) new_session (machine (Some (opts_path 0)) false) []).2 = [] ++ u
    /\ exists parts, u = concat parts /\ length parts = length [100; 200; 300] /\ Forall (fun p => secret_call (uplink true) ∈ p) parts.
Proof.
  apply (failed_start_grows_secrets 0 [100; 200; 300] (uplink true) new_session (machine (Some (opts_path 0)) false) []);
    [reflexivity|reflexivity|split; reflexivity|intros t; vm_compute; reflexivity|intros t; vm_compute; reflexivity].
Defined.
End ClientDemo.
