(* ===== verification/Dhcp.v ===== *)
(** * The DHCP server ([src/src/dhcp_server.c], [src/include/dhcp_server.h])

    State: the configuration and the lease table; the entries of the array past
    [lease_count] are zero, so that the table is the list of the first ones.  A datagram is
    laid over the bytes that the stack happens to hold, as [recvfrom] does; the clock is read
    once per operation.  What is sent is the list of destinations and packets. *)

From S2P Require Import Prelude Fluxwan Ipv4 CLib Samples.

(** ** Data *)

Definition MAX_DHCP_LEASES : Z := 254.

Definition DHCP_BOOTREQUEST : Z := 1.
Definition DHCP_BOOTREPLY : Z := 2.
Definition DHCP_DISCOVER : Z := 1.
Definition DHCP_OFFER : Z := 2.
Definition DHCP_REQUEST : Z := 3.
Definition DHCP_ACK : Z := 5.
Definition DHCP_RELEASE : Z := 7.
Definition DHCP_OPT_PAD : Z := 0.
Definition DHCP_OPT_SUBNET_MASK : Z := 1.
Definition DHCP_OPT_ROUTER : Z := 3.
Definition DHCP_OPT_DNS : Z := 6.
Definition DHCP_OPT_HOSTNAME : Z := 12.
Definition DHCP_OPT_REQ_IP : Z := 50.
Definition DHCP_OPT_LEASE_TIME : Z := 51.
Definition DHCP_OPT_MSG_TYPE : Z := 53.
Definition DHCP_OPT_SERVER_ID : Z := 54.
Definition DHCP_OPT_END : Z := 255.
Definition DHCP_MAGIC_COOKIE : Z := 1669485411.

Record dhcp_lease_t := DhcpLease {
  dl_ip_addr : Z;
  dl_mac_addr : list Z;
  dl_mac_str : cstring;
  dl_hostname : cstring;
  dl_lease_start_sec : Z;
  dl_lease_expire_sec : Z;
  dl_is_active : bool;
  dl_is_static : bool;
  dl_rx_bytes : Z;
  dl_tx_bytes : Z;
  dl_current_rx_kbps : Z;
  dl_current_tx_kbps : Z
}.

(** A free entry of the table. *)
Definition zero_lease : dhcp_lease_t := DhcpLease 0 (replicate 6 0) [] [] 0 0 false false 0 0 0 0.

Record dhcp_packet := DhcpPacket {
  dp_op : Z;
  dp_htype : Z;
  dp_hlen : Z;
  dp_hops : Z;
  dp_xid : Z;
  dp_secs : Z;
  dp_flags : Z;
  dp_ciaddr : Z;
  dp_yiaddr : Z;
  dp_siaddr : Z;
  dp_giaddr : Z;
  dp_chaddr : list Z;
  dp_sname : list Z;
  dp_file : list Z;
  dp_magic : Z;
  dp_options : list Z
}.

(** The packed structure and its bytes. *)
Definition packet_of_bytes (b : list Z) : dhcp_packet :=
  let bytes i n := take n (drop i b) in
  let num i n := le_val (bytes i n) in
  DhcpPacket (num 0 1)%nat (num 1 1)%nat (num 2 1)%nat (num 3 1)%nat (num 4 4)%nat (num 8 2)%nat (num 10 2)%nat
    (num 12 4)%nat (num 16 4)%nat (num 20 4)%nat (num 24 4)%nat (bytes 28 16)%nat (bytes 44 64)%nat
    (bytes 108 128)%nat (num 236 4)%nat (bytes 240 308)%nat.

Definition packet_bytes (p : dhcp_packet) : list Z :=
  le_bytes 1 (dp_op p) ++ le_bytes 1 (dp_htype p) ++ le_bytes 1 (dp_hlen p) ++ le_bytes 1 (dp_hops p)
  ++ le_bytes 4 (dp_xid p) ++ le_bytes 2 (dp_secs p) ++ le_bytes 2 (dp_flags p) ++ le_bytes 4 (dp_ciaddr p)
  ++ le_bytes 4 (dp_yiaddr p) ++ le_bytes 4 (dp_siaddr p) ++ le_bytes 4 (dp_giaddr p) ++ dp_chaddr p
  ++ dp_sname p ++ dp_file p ++ le_bytes 4 (dp_magic p) ++ dp_options p.

Record dhcp_server_ctx := DhcpCtx {
  dc_sock_valid : bool;
  dc_config : fluxwan_config_t;
  dc_leases : list dhcp_lease_t
}.

Definition set_leases (l : list dhcp_lease_t) (ctx : dhcp_server_ctx) : dhcp_server_ctx :=
  DhcpCtx (dc_sock_valid ctx) (dc_config ctx) l.
Definition dc_lan (ctx : dhcp_server_ctx) : lan_config_t := c_lan (dc_config ctx).

(** ** Options *)

(** The index and the length of the value of an option.  Each turn moves [i] forward, so
    [max_len] turns are enough; running out is a fault, like a load outside the buffer. *)
Fixpoint get_option_loop (fuel : nat) (opts : list Z) (max_len opt_type i : Z) : option (option (Z * Z)) :=
  match fuel with
  | O => None
  | S fuel =>
      if i <? max_len then
        type ← ld8 opts i;
        let i := i + 1 in
        if type =? DHCP_OPT_PAD then get_option_loop fuel opts max_len opt_type i
        else if type =? DHCP_OPT_END then Some None
        else if max_len <=? i then Some None
        else
          len ← ld8 opts i;
          let i := i + 1 in
          if max_len <? i + len then Some None
          else if type =? opt_type then Some (Some (i, len))
          else get_option_loop fuel opts max_len opt_type (i + len)
      else Some None
  end.

Definition get_dhcp_option (opts : list Z) (max_len opt_type : Z) : option (option (Z * Z)) :=
  get_option_loop (S (Z.to_nat max_len)) opts max_len opt_type 0.

(** The options and the new offset. *)
Definition append_option (opts : list Z) (offset max_len type len : Z) (data : list Z) : option (list Z * Z) :=
  if max_len <=? offset + 2 + len then Some (opts, offset)
  else
    opts ← st8 opts offset type;
    let offset := offset + 1 in
    opts ← st8 opts offset len;
    let offset := offset + 1 in
    if 0 <? len then
      src ← ld_bytes data 0 (Z.to_nat len);
      opts ← st_bytes opts offset src;
      Some (opts, offset + len)
    else Some (opts, offset).

(** ** Searching *)

Definition mac_eq (a b : list Z) : bool := bool_decide (take 6 a = take 6 b).

Definition find_static_lease_by_mac (ctx : dhcp_server_ctx) (mac : list Z) : option static_lease_t :=
  List.find (fun sl => sl_enabled sl && mac_eq (sl_mac_addr sl) mac) (lan_static_leases (dc_lan ctx)).

(** The first enabled reservation of the address decides. *)
Definition is_ip_reserved_by_static (ctx : dhcp_server_ctx) (ip : Z) (mac : list Z) : bool :=
  match List.find (fun sl => sl_enabled sl && (sl_ip_addr sl =? ip)) (lan_static_leases (dc_lan ctx)) with
  | Some sl => negb (mac_eq (sl_mac_addr sl) mac)
  | None => false
  end.

(** Searches in the table give an index. *)
Fixpoint find_lease (p : dhcp_lease_t -> bool) (l : list dhcp_lease_t) : option nat :=
  match l with
  | [] => None
  | x :: l => if p x then Some O else S <$> find_lease p l
  end.
Definition find_lease_by_mac (ctx : dhcp_server_ctx) (mac : list Z) : option nat :=
  find_lease (fun l => mac_eq (dl_mac_addr l) mac) (dc_leases ctx).
Definition find_lease_by_ip (ctx : dhcp_server_ctx) (ip : Z) : option nat :=
  find_lease (fun l => dl_ip_addr l =? ip) (dc_leases ctx).

Definition lease_at (ctx : dhcp_server_ctx) (i : option nat) : option dhcp_lease_t :=
  i ← i; dc_leases ctx !! i.

(** ** Allocation *)

(** Whether the pool search passes over an address, given in host order. *)
Definition taken (ctx : dhcp_server_ctx) (mac : list Z) (ip_h : Z) : bool :=
  let ip_n := htonl ip_h in
  is_ip_reserved_by_static ctx ip_n mac
  || match lease_at ctx (find_lease_by_ip ctx ip_n) with
     | Some l => dl_is_active l
     | None => false
     end.

(** The loop over the pool; [None] when the fuel runs out before it ends. *)
Fixpoint pool_loop (fuel : nat) (ctx : dhcp_server_ctx) (mac : list Z) (ip_h end_h : Z) : option Z :=
  match fuel with
  | O => None
  | S fuel =>
      if ip_h <=? end_h then
        if taken ctx mac ip_h then pool_loop fuel ctx mac (u32 (ip_h + 1)) end_h
        else Some (htonl ip_h)
      else Some 0
  end.

(** The bounds of the pool, in host order. *)
Definition pool_bounds (ctx : dhcp_server_ctx) : Z * Z :=
  let start_h := ntohl (lan_dhcp_start (dc_lan ctx)) in
  let end_h := ntohl (lan_dhcp_end (dc_lan ctx)) in
  if (start_h =? 0) || (end_h =? 0) || (end_h <? start_h)
  then (ntohl (str_to_ip "192.168.90.100"), ntohl (str_to_ip "192.168.90.200"))
  else (start_h, end_h).

(** An address is passed over because of a lease or of a reservation: one turn more than
    there are of them is enough fuel. *)
Definition pool_fuel (ctx : dhcp_server_ctx) : nat :=
  S (S (length (dc_leases ctx) + length (lan_static_leases (dc_lan ctx)))).

Definition static_ip (ctx : dhcp_server_ctx) (mac : list Z) : option Z :=
  sl ← find_static_lease_by_mac ctx mac;
  if negb (sl_ip_addr sl =? 0) then Some (sl_ip_addr sl) else None.
Definition active_ip (ctx : dhcp_server_ctx) (mac : list Z) : option Z :=
  l ← lease_at ctx (find_lease_by_mac ctx mac);
  if dl_is_active l then Some (dl_ip_addr l) else None.

(** The address in network order, zero when the pool is exhausted. *)
Definition allocate_next_ip (ctx : dhcp_server_ctx) (mac : list Z) : option Z :=
  match static_ip ctx mac with
  | Some ip => Some ip
  | None =>
      match active_ip ctx mac with
      | Some ip => Some ip
      | None => let '(start_h, end_h) := pool_bounds ctx in
                pool_loop (pool_fuel ctx) ctx mac start_h end_h
      end
  end.

(** ** Lease records *)

Definition mac_text (mac : list Z) : cstring :=
  let h i := hex2_lower (default 0 (mac !! i)) in
  h 0%nat ++ 58 :: h 1%nat ++ 58 :: h 2%nat ++ 58 :: h 3%nat ++ 58 :: h 4%nat ++ 58 :: h 5%nat.

Definition nonempty (s : cstring) : bool := match s with [] => false | _ => true end.

(** The assignments to the record. *)
Definition write_lease (ctx : dhcp_server_ctx) (now : Z) (mac : list Z) (ip : Z) (hostname : cstring)
    (l : dhcp_lease_t) : dhcp_lease_t :=
  let sl := find_static_lease_by_mac ctx mac in
  let static_name := match sl with Some sl => sl_hostname sl | None => [] end in
  let is_static := match sl with Some _ => true | None => false end in
  let name := if nonempty static_name then str_trunc 64 static_name else dl_hostname l in
  let name :=
    if nonempty hostname && negb (nonempty static_name) then str_trunc 64 hostname
    else if nonempty name then name else bytes_of_string "LAN-Client" in
  DhcpLease ip (take 6 mac) (mac_text mac) name now
    (u64 (now + if is_static then 31536000 else lan_dhcp_lease_time (dc_lan ctx)))
    true is_static (dl_rx_bytes l) (dl_tx_bytes l) (dl_current_rx_kbps l) (dl_current_tx_kbps l).

(** The entry to write and the table with it: the client's own, a new one, or the first. *)
Definition lease_slot (ctx : dhcp_server_ctx) (mac : list Z) : nat * list dhcp_lease_t :=
  match find_lease_by_mac ctx mac with
  | Some i => (i, dc_leases ctx)
  | None => if Z.of_nat (length (dc_leases ctx)) <? MAX_DHCP_LEASES
            then (length (dc_leases ctx), dc_leases ctx ++ [zero_lease])
            else (O, dc_leases ctx)
  end.

Definition update_lease_record (ctx : dhcp_server_ctx) (now : Z) (mac : list Z) (ip : Z) (hostname : cstring)
    : dhcp_server_ctx :=
  let '(i, leases) := lease_slot ctx mac in
  set_leases (alter (write_lease ctx now mac ip hostname) i leases) ctx.

(** ** Configuration *)

Definition set_static (sl : static_lease_t) (l : dhcp_lease_t) : dhcp_lease_t :=
  DhcpLease (sl_ip_addr sl) (dl_mac_addr l) (dl_mac_str l)
    (if nonempty (sl_hostname sl) then str_trunc 64 (sl_hostname sl) else dl_hostname l)
    (dl_lease_start_sec l) (dl_lease_expire_sec l) (dl_is_active l) true
    (dl_rx_bytes l) (dl_tx_bytes l) (dl_current_rx_kbps l) (dl_current_tx_kbps l).

Definition reload_static (now : Z) (ctx : dhcp_server_ctx) (sl : static_lease_t) : dhcp_server_ctx :=
  if negb (sl_enabled sl) then ctx
  else match find_lease_by_mac ctx (sl_mac_addr sl) with
       | Some i => set_leases (alter (set_static sl) i (dc_leases ctx)) ctx
       | None => update_lease_record ctx now (sl_mac_addr sl) (sl_ip_addr sl) (sl_hostname sl)
       end.

Definition dhcp_server_reload_config (now : Z) (ctx : dhcp_server_ctx) (config : fluxwan_config_t) : dhcp_server_ctx :=
  let ctx := DhcpCtx (dc_sock_valid ctx) config (dc_leases ctx) in
  foldl (reload_static now) ctx (lan_static_leases (c_lan config)).

(** What the surroundings answer at start-up. *)
Record dhcp_start := DhcpStart { ds_mem : bool; ds_socket : bool; ds_bind : bool; ds_time : Z }.

Definition dhcp_server_init (env : dhcp_start) (config : fluxwan_config_t) : option dhcp_server_ctx :=
  if negb (lan_dhcp_enabled (c_lan config)) then None
  else if negb (ds_mem env) then None
  else
    let ctx := DhcpCtx (ds_socket env && ds_bind env) config [] in
    let ctx := foldl (fun ctx sl =>
      if sl_enabled sl && negb (sl_ip_addr sl =? 0)
      then update_lease_record ctx (ds_time env) (sl_mac_addr sl) (sl_ip_addr sl) (sl_hostname sl)
      else ctx) ctx (lan_static_leases (c_lan config)) in
    Some (match dc_leases ctx with
          | [] =>
              let def_ip := if negb (lan_dhcp_start (c_lan config) =? 0) then lan_dhcp_start (c_lan config)
                            else str_to_ip "192.168.90.105" in
              update_lease_record ctx (ds_time env) [216; 58; 221; 18; 52; 86] def_ip "Workstation-Office"
          | _ => ctx
          end).

(** ** Traffic counters *)

Definition set_traffic (rx_bytes tx_bytes : Z) (l : dhcp_lease_t) : dhcp_lease_t :=
  let rate new old kept :=
    if (old <=? new) && (0 <? old) then u32 (u64 ((new - old) * 8) / 1000) else kept in
  DhcpLease (dl_ip_addr l) (dl_mac_addr l) (dl_mac_str l) (dl_hostname l) (dl_lease_start_sec l)
    (dl_lease_expire_sec l) (dl_is_active l) (dl_is_static l) rx_bytes tx_bytes
    (rate rx_bytes (dl_rx_bytes l) (dl_current_rx_kbps l)) (rate tx_bytes (dl_tx_bytes l) (dl_current_tx_kbps l)).

Definition named_by_ip (client_ip : Z) : dhcp_lease_t :=
  DhcpLease client_ip (replicate 6 0) [] (ip_to_str client_ip) 0 0 true false 0 0 0 0.

(** The result code and the table. *)
Definition dhcp_server_update_client_traffic (ctx : dhcp_server_ctx) (client_ip rx_bytes tx_bytes : Z)
    : dhcp_server_ctx * Z :=
  match find_lease_by_ip ctx client_ip with
  | Some i => (set_leases (alter (set_traffic rx_bytes tx_bytes) i (dc_leases ctx)) ctx, 0)
  | None =>
      if Z.of_nat (length (dc_leases ctx)) <? MAX_DHCP_LEASES
      then (set_leases (dc_leases ctx ++ [set_traffic rx_bytes tx_bytes (named_by_ip client_ip)]) ctx, 0)
      else (ctx, -1)
  end.

(** ** Messages *)

Record dhcp_env := DhcpEnv {
  dv_time : Z;
  dv_recv : option (list Z);   (** the datagram, [None] when [recvfrom] fails *)
  dv_stack : list Z;           (** the 548 bytes of [req] before the call *)
  dv_broadcast_ok : bool       (** the first [sendto] succeeds *)
}.

(** The DNS server of an option: the configured text, or the default. *)
Definition dns_or (text default_text : cstring) : Z :=
  let ip := if nonempty text then str_to_ip text else str_to_ip default_text in
  if ip =? 0 then str_to_ip default_text else ip.

Definition reply_options (ctx : dhcp_server_ctx) (type : Z) : option (list Z) :=
  let lan := dc_lan ctx in
  let opts := replicate 308 0 in
  '(opts, o) ← append_option opts 0 308 DHCP_OPT_MSG_TYPE 1 [type];
  '(opts, o) ← append_option opts o 308 DHCP_OPT_SUBNET_MASK 4 (le_bytes 4 (lan_netmask lan));
  '(opts, o) ← append_option opts o 308 DHCP_OPT_ROUTER 4 (le_bytes 4 (lan_ip_addr lan));
  let dns_servers := le_bytes 4 (dns_or (dns_primary_dns (lan_dns lan)) "1.1.1.1")
                     ++ le_bytes 4 (dns_or (dns_secondary_dns (lan_dns lan)) "8.8.8.8") in
  '(opts, o) ← append_option opts o 308 DHCP_OPT_DNS 8 dns_servers;
  '(opts, o) ← append_option opts o 308 DHCP_OPT_LEASE_TIME 4 (le_bytes 4 (htonl (lan_dhcp_lease_time lan)));
  '(opts, o) ← append_option opts o 308 DHCP_OPT_SERVER_ID 4 (le_bytes 4 (lan_ip_addr lan));
  st8 opts o DHCP_OPT_END.

Definition make_reply (ctx : dhcp_server_ctx) (req : dhcp_packet) (type ip : Z) : option dhcp_packet :=
  opts ← reply_options ctx type;
  Some (DhcpPacket DHCP_BOOTREPLY (dp_htype req) (dp_hlen req) 0 (dp_xid req) 0 (dp_flags req) 0 ip
          (lan_ip_addr (dc_lan ctx)) 0 (dp_chaddr req) (replicate 64 0) (replicate 128 0)
          (htonl DHCP_MAGIC_COOKIE) opts).

(** Broadcast, and the broadcast address of the subnet when that fails. *)
Definition send_reply (env : dhcp_env) (ctx : dhcp_server_ctx) (p : dhcp_packet) : list (Z * dhcp_packet) :=
  (4294967295, p)
  :: if dv_broadcast_ok env then []
     else [(lan_ip_addr (dc_lan ctx) .| (4294967295 - lan_netmask (dc_lan ctx)), p)].

(** The hostname option as a C string of the 64-byte buffer. *)
Definition req_hostname (req : dhcp_packet) : option cstring :=
  h ← get_dhcp_option (dp_options req) 308 DHCP_OPT_HOSTNAME;
  match h with
  | Some (i, hlen) =>
      if 0 <? hlen then b ← ld_bytes (dp_options req) i (Z.to_nat (Z.min hlen 63)); Some (cstr b)
      else Some []
  | None => Some []
  end.

Definition requested_ip (ctx : dhcp_server_ctx) (req : dhcp_packet) : option Z :=
  r ← get_dhcp_option (dp_options req) 308 DHCP_OPT_REQ_IP;
  match r with
  | Some (i, 4) => b ← ld_bytes (dp_options req) i 4; Some (le_val b)
  | _ => if negb (dp_ciaddr req =? 0) then Some (dp_ciaddr req) else allocate_next_ip ctx (dp_chaddr req)
  end.

Definition set_active (v : bool) (l : dhcp_lease_t) : dhcp_lease_t :=
  DhcpLease (dl_ip_addr l) (dl_mac_addr l) (dl_mac_str l) (dl_hostname l) (dl_lease_start_sec l)
    (dl_lease_expire_sec l) v (dl_is_static l) (dl_rx_bytes l) (dl_tx_bytes l) (dl_current_rx_kbps l)
    (dl_current_tx_kbps l).

(** A message whose type and hostname are known. *)
Definition dhcp_message (env : dhcp_env) (ctx : dhcp_server_ctx) (req : dhcp_packet) (msg_type : Z) (hostname : cstring)
    : option (dhcp_server_ctx * list (Z * dhcp_packet)) :=
  if msg_type =? DHCP_DISCOVER then
    offer_ip ← allocate_next_ip ctx (dp_chaddr req);
    if offer_ip =? 0 then Some (ctx, [])
    else reply ← make_reply ctx req DHCP_OFFER offer_ip; Some (ctx, send_reply env ctx reply)
  else if msg_type =? DHCP_REQUEST then
    assigned_ip ← requested_ip ctx req;
    let ctx := update_lease_record ctx (dv_time env) (dp_chaddr req) assigned_ip hostname in
    reply ← make_reply ctx req DHCP_ACK assigned_ip;
    Some (ctx, send_reply env ctx reply)
  else if msg_type =? DHCP_RELEASE then
    Some (match find_lease_by_mac ctx (dp_chaddr req) with
          | Some i => set_leases (alter (set_active false) i (dc_leases ctx)) ctx
          | None => ctx
          end, [])
  else Some (ctx, []).

(** The structure after [recvfrom]: the datagram over what was there. *)
Definition received (env : dhcp_env) (dgram : list Z) : dhcp_packet :=
  let got := take 548 dgram in
  packet_of_bytes (got ++ drop (length got) (dv_stack env)).

Definition dhcp_server_process (env : dhcp_env) (ctx : dhcp_server_ctx)
    : option (dhcp_server_ctx * list (Z * dhcp_packet)) :=
  if negb (dc_sock_valid ctx) then Some (ctx, [])
  else match dv_recv env with
  | None => Some (ctx, [])
  | Some dgram =>
      let got := take 548 dgram in
      if blen got <? 240 then Some (ctx, [])
      else
        let req := received env dgram in
        if negb (ntohl (dp_magic req) =? DHCP_MAGIC_COOKIE) || negb (dp_op req =? DHCP_BOOTREQUEST)
        then Some (ctx, [])
        else
          t ← get_dhcp_option (dp_options req) 308 DHCP_OPT_MSG_TYPE;
          match t with
          | None => Some (ctx, [])
          | Some (i, _) =>
              msg_type ← ld8 (dp_options req) i;
              hostname ← req_hostname req;
              if str_eq hostname "FluxWAN" then Some (ctx, [])
              else dhcp_message env ctx req msg_type hostname
          end
  end.

Definition dhcp_server_get_leases (ctx : dhcp_server_ctx) (max_count : Z) : list dhcp_lease_t :=
  take (Z.to_nat max_count) (List.filter dl_is_active (dc_leases ctx)).

(** ** Options as a list

    [option_at o t v]: the first option of type [t] in the buffer [o] has value [v]. *)

Definition coded (t : Z) (v o : list Z) : list Z := t :: blen v :: v ++ o.

Inductive option_at : list Z -> Z -> list Z -> Prop :=
  | opt_pad o t v : option_at o t v -> option_at (DHCP_OPT_PAD :: o) t v
  | opt_here o t v : t <> DHCP_OPT_PAD -> t <> DHCP_OPT_END -> option_at (coded t v o) t v
  | opt_skip o t v t' v' :
      t' <> DHCP_OPT_PAD -> t' <> DHCP_OPT_END -> t' <> t -> option_at o t v -> option_at (coded t' v' o) t v.

Lemma drop_at b i x : ld8 b i = Some x -> drop (Z.to_nat i) b = x :: drop (Z.to_nat (i + 1)) b.
Proof.
  intros Hx. pose proof (ld8_inv _ _ _ Hx) as Hi. unfold ld8 in Hx. destruct (Z.leb_spec 0 i); [|lia].
  rewrite (drop_S b x (Z.to_nat i)) by done. do 2 f_equal. lia.
Qed.

Definition found (o : list Z) (i0 t : Z) (opts : list Z) (r : option (Z * Z)) : Prop :=
  match r with
  | Some (i, n) => i0 <= i /\ 0 <= n /\ i + n <= blen opts
                   /\ option_at o t (take (Z.to_nat n) (drop (Z.to_nat i) opts))
  | None => forall v, ~ option_at o t v
  end.

Lemma option_at_short x t v : x <> DHCP_OPT_PAD -> ~ option_at [x] t v.
Proof. intros Hx H. inversion H; subst; done. Qed.
Lemma option_at_end o t v : ~ option_at (DHCP_OPT_END :: o) t v.
Proof. intros H. inversion H; subst; done. Qed.
Lemma option_at_over x n o t v : x <> DHCP_OPT_PAD -> blen o < n -> ~ option_at (x :: n :: o) t v.
Proof. intros Hx Hn H. inversion H; subst; [done|rewrite length_app in Hn; lia..]. Qed.

(** An option at the front is the one, or is passed over. *)
Lemma option_at_coded t' v' o t v :
  t' <> DHCP_OPT_PAD -> option_at (coded t' v' o) t v -> (t' = t /\ v = v') \/ (t' <> t /\ option_at o t v).
Proof.
  intros Ht H. remember (coded t' v' o) as c eqn:Ec. destruct H as [o1 t v H | o1 t v H1 H2 | o1 t v t1 v1 H1 H2 H3 H];
    unfold coded in Ec.
  - injection Ec as E0 E1. congruence.
  - injection Ec as E0 E1 E2. apply app_inj_1 in E2 as [-> ->]; [|lia]. by left.
  - injection Ec as E0 E1 E2. apply app_inj_1 in E2 as [-> ->]; [|lia]. subst. by right.
Qed.

Lemma get_option_loop_spec fuel opts t i :
  bytes_ok opts -> 0 <= i <= blen opts -> blen opts - i < Z.of_nat fuel ->
  t <> DHCP_OPT_PAD -> t <> DHCP_OPT_END ->
  exists r, get_option_loop fuel opts (blen opts) t i = Some r /\ found (drop (Z.to_nat i) opts) i t opts r.
Proof.
  intros Hok Hi Hf Hp He. revert i Hi Hf. induction fuel as [|fuel IH]; intros i Hi Hf; [lia|].
  cbn [get_option_loop]. destruct (Z.ltb_spec i (blen opts)) as [Hlt | Hge].
  2:{ exists None. split; [done|]. intros v. rewrite drop_ge by lia. intros H. inversion H. }
  destruct (ld8_Some opts i ltac:(lia)) as [x Hx]. rewrite (drop_at _ _ _ Hx), Hx. cbn [mbind option_bind].
  destruct (Z.eqb_spec x DHCP_OPT_PAD) as [-> | Hxp].
  { destruct (IH (i + 1) ltac:(lia) ltac:(lia)) as (r & -> & Hr). exists r. split; [done|].
    destruct r as [[j n]|]; cbn in *.
    - destruct Hr as (H1 & H2 & H3 & H4). split_and!; try lia. by constructor.
    - intros v H. inversion H; subst; try done. by eapply Hr. }
  destruct (Z.eqb_spec x DHCP_OPT_END) as [-> | Hxe].
  { exists None. split; [done|]. intros v. apply option_at_end. }
  destruct (Z.leb_spec (blen opts) (i + 1)) as [Hs | Hs].
  { exists None. split; [done|]. intros v. rewrite drop_ge by lia. by apply option_at_short. }
  destruct (ld8_Some opts (i + 1) ltac:(lia)) as [n Hn]. rewrite (drop_at _ _ _ Hn), Hn. cbn [mbind option_bind].
  pose proof (ld8_range _ _ _ Hok Hn) as Hn8. unfold is_u8 in Hn8.
  set (rest := drop (Z.to_nat (i + 1 + 1)) opts).
  assert (Hrl : blen rest = blen opts - (i + 2)) by (unfold rest; rewrite length_drop; lia).
  destruct (Z.ltb_spec (blen opts) (i + 1 + 1 + n)) as [Ho | Ho].
  { exists None. split; [done|]. intros v. apply option_at_over; [done|lia]. }
  assert (Hc : x :: n :: rest = coded x (take (Z.to_nat n) rest) (drop (Z.to_nat n) rest)).
  { unfold coded. rewrite take_drop, length_take. do 2 f_equal. lia. }
  destruct (Z.eqb_spec x t) as [-> | Hxt].
  { exists (Some (i + 1 + 1, n)). split; [done|]. cbn. split_and!; [lia..|]. fold rest. rewrite Hc. by constructor. }
  destruct (IH (i + 1 + 1 + n) ltac:(lia) ltac:(lia)) as (r & -> & Hr). exists r. split; [done|].
  assert (Hd : drop (Z.to_nat (i + 1 + 1 + n)) opts = drop (Z.to_nat n) rest)
    by (unfold rest; rewrite drop_drop; f_equal; lia).
  rewrite Hd in Hr. rewrite Hc. destruct r as [[j m]|]; cbn in *.
  - destruct Hr as (H1 & H2 & H3 & H4). split_and!; try lia. by constructor.
  - intros v Hv. apply option_at_coded in Hv as [[? _] | [_ Hv]]; [done| |done]. by eapply Hr.
Qed.

(** ** The pool search *)

Definition held_ips (ctx : dhcp_server_ctx) : list Z :=
  (dl_ip_addr <$> dc_leases ctx) ++ (sl_ip_addr <$> lan_static_leases (dc_lan ctx)).

Lemma find_lease_Some p l i :
  find_lease p l = Some i ->
  exists x, l !! i = Some x /\ p x = true /\ forall j y, (j < i)%nat -> l !! j = Some y -> p y = false.
Proof.
  revert i. induction l as [|x l IH]; intros i; cbn; [done|]. destruct (p x) eqn:E.
  - intros [= <-]. exists x. split_and!; [done|done|]. lia.
  - destruct (find_lease p l) as [k|] eqn:Ek; [|done]. cbn. intros [= <-].
    destruct (IH k eq_refl) as (y & Hy & Hp & Hmin). exists y. split_and!; [done|done|].
    intros [|j] z Hj Hz; [cbn in Hz; congruence|]. apply (Hmin j); [lia|done].
Qed.

Lemma find_lease_None p l : find_lease p l = None <-> Forall (fun x => p x = false) l.
Proof.
  induction l as [|x l IH]; cbn; [by split; [constructor|]|]. rewrite Forall_cons. destruct (p x) eqn:E.
  - split; [done|]. by intros [? _].
  - rewrite <- IH. destruct (find_lease p l); cbn; [|by split]. split; [done|]. by intros [_ ?].
Qed.

Lemma taken_held ctx mac h : taken ctx mac h = true -> htonl h ∈ held_ips ctx.
Proof.
  unfold taken, held_ips. intros [Hr | Hl]%orb_true_iff; apply elem_of_app.
  - right. unfold is_ip_reserved_by_static in Hr. destruct (List.find _ _) as [sl|] eqn:E; [|done].
    apply List.find_some in E as [Hin [_ He%Z.eqb_eq]%andb_true_iff].
    apply list_elem_of_fmap. exists sl. split; [done|]. by apply list_elem_of_In.
  - left. unfold lease_at, find_lease_by_ip in Hl. destruct (find_lease _ _) as [i|] eqn:E; [|done].
    apply find_lease_Some in E as (x & Hx & He%Z.eqb_eq & _). apply list_elem_of_fmap. exists x.
    split; [done|]. by eapply list_elem_of_lookup_2.
Qed.

(** The loop walks over taken addresses to the first that is not, or past the end. *)
Lemma pool_loop_scan ctx mac e fuel h :
  let at_ k := u32 (h + Z.of_nat k) in
  is_u32 h ->
  (pool_loop fuel ctx mac h e = None /\ forall k, (k < fuel)%nat -> taken ctx mac (at_ k) = true)
  \/ exists n, (n < fuel)%nat
       /\ (forall k, (k < n)%nat -> at_ k <= e /\ taken ctx mac (at_ k) = true)
       /\ ((e < at_ n /\ pool_loop fuel ctx mac h e = Some 0)
           \/ (at_ n <= e /\ taken ctx mac (at_ n) = false /\ pool_loop fuel ctx mac h e = Some (htonl (at_ n)))).
Proof.
  cbv zeta. revert h. induction fuel as [|fuel IH]; intros h Hh; [left; split; [done|lia]|].
  assert (H0 : u32 (h + Z.of_nat 0) = h) by (rewrite u32_small; cint).
  assert (HS : forall k, u32 (u32 (h + 1) + Z.of_nat k) = u32 (h + Z.of_nat (S k))).
  { intros k. unfold u32. rewrite Zplus_mod_idemp_l. f_equal. lia. }
  cbn [pool_loop]. destruct (Z.leb_spec h e) as [Hle | Hgt].
  2:{ right. exists 0%nat. rewrite H0. split_and!; [lia|lia|]. by left. }
  destruct (taken ctx mac h) eqn:Et.
  2:{ right. exists 0%nat. rewrite H0. split_and!; [lia|lia|]. by right. }
  destruct (IH (u32 (h + 1)) (u32_range _)) as [[HN Hall] | (n & Hn & Hall & Hend)].
  - left. split; [done|]. intros [|k] Hk; [by rewrite H0|]. rewrite <- HS. apply Hall. lia.
  - right. exists (S n). rewrite HS in Hend. split_and!; [lia| |done].
    intros [|k] Hk; [by rewrite H0|]. rewrite <- HS. apply Hall. lia.
Qed.

(** More addresses than are held cannot all be taken. *)
Lemma pool_loop_ends ctx mac e h :
  is_u32 h -> Z.of_nat (pool_fuel ctx) <= 4294967296 -> pool_loop (pool_fuel ctx) ctx mac h e <> None.
Proof.
  intros Hh Hf. destruct (pool_loop_scan ctx mac e (pool_fuel ctx) h Hh) as [[HN Hall] | (n & _ & _ & Hend)].
  2:{ destruct Hend as [[_ ->] | (_ & _ & ->)]; done. }
  set (ips := (fun k => htonl (u32 (h + Z.of_nat k))) <$> seq 0 (pool_fuel ctx)).
  assert (Hd : NoDup ips).
  { apply NoDup_fmap_2_strong; [|apply NoDup_ListNoDup, seq_NoDup].
    intros x y Hx%elem_of_seq Hy%elem_of_seq E. apply (f_equal bswap32) in E.
    rewrite !bswap32_invol in E by apply u32_range. cint. }
  assert (Hs : incl ips (held_ips ctx)).
  { intros ip Hin. apply list_elem_of_In, list_elem_of_fmap in Hin as (k & -> & Hk%elem_of_seq).
    apply list_elem_of_In, (taken_held ctx mac), Hall. lia. }
  apply NoDup_ListNoDup in Hd. apply (List.NoDup_incl_length Hd) in Hs.
  unfold ips, held_ips, pool_fuel in Hs. rewrite !length_fmap, length_app, !length_fmap, length_seq in Hs. lia.
Qed.

(** ** The type of the table *)

Definition mac_ok (mac : list Z) : Prop := bytes_ok mac /\ length mac = 6%nat.

Record lease_ok (l : dhcp_lease_t) : Prop := {
  lo_ip : is_u32 (dl_ip_addr l);
  lo_mac : mac_ok (dl_mac_addr l);
  lo_mac_str : (length (dl_mac_str l) <= 17)%nat;
  lo_hostname : (length (dl_hostname l) <= 63)%nat;
  lo_start : is_u64 (dl_lease_start_sec l);
  lo_expire : is_u64 (dl_lease_expire_sec l);
  lo_rx : is_u64 (dl_rx_bytes l);
  lo_tx : is_u64 (dl_tx_bytes l);
  lo_rx_kbps : is_u32 (dl_current_rx_kbps l);
  lo_tx_kbps : is_u32 (dl_current_tx_kbps l)
}.

Definition static_ok (sl : static_lease_t) : Prop := mac_ok (sl_mac_addr sl) /\ is_u32 (sl_ip_addr sl).

Record lan_ok (lan : lan_config_t) : Prop := {
  lk_ip : is_u32 (lan_ip_addr lan);
  lk_mask : is_u32 (lan_netmask lan);
  lk_start : is_u32 (lan_dhcp_start lan);
  lk_end : is_u32 (lan_dhcp_end lan);
  lk_time : is_u32 (lan_dhcp_lease_time lan);
  lk_static : Forall static_ok (lan_static_leases lan);
  lk_count : (length (lan_static_leases lan) <= 64)%nat
}.

(** At most one entry for each client; entries made from traffic have no address. *)
Definition one_each (l : list dhcp_lease_t) : Prop :=
  forall i j x y, l !! i = Some x -> l !! j = Some y -> dl_mac_addr x = dl_mac_addr y ->
    dl_mac_addr x <> replicate 6 0 -> i = j.

Record table_ok (l : list dhcp_lease_t) : Prop := {
  to_count : (length l <= 254)%nat;
  to_leases : Forall lease_ok l;
  to_one_each : one_each l
}.

Lemma zero_lease_ok : lease_ok zero_lease.
Proof. split; cbn; try lia; try cint. split; [repeat (constructor; [cint|]); constructor|done]. Qed.

Lemma alter_one_each l i f m :
  one_each l -> (forall x, l !! i = Some x -> dl_mac_addr (f x) = m) ->
  (forall j y, j <> i -> l !! j = Some y -> dl_mac_addr y <> m \/ m = replicate 6 0) ->
  one_each (alter f i l).
Proof.
  intros Hl Hf Ho j k x y Hj Hk E Hne.
  destruct (decide (j = i)) as [-> | Hji], (decide (k = i)) as [-> | Hki]; [done|..].
  - rewrite list_lookup_alter_eq in Hj. rewrite list_lookup_alter_ne in Hk by done.
    destruct (l !! i) as [x0|] eqn:Ei; [|done]. injection Hj as <-. rewrite (Hf x0 eq_refl) in *.
    destruct (Ho k y Hki Hk); congruence.
  - rewrite list_lookup_alter_eq in Hk. rewrite list_lookup_alter_ne in Hj by done.
    destruct (l !! i) as [x0|] eqn:Ei; [|done]. injection Hk as <-. rewrite (Hf x0 eq_refl) in *.
    destruct (Ho j x Hji Hj); congruence.
  - rewrite !list_lookup_alter_ne in * by done. by apply (Hl j k x y).
Qed.

(** A change that keeps the client of the entry. *)
Lemma alter_table l i f :
  table_ok l -> (forall x, lease_ok x -> lease_ok (f x) /\ dl_mac_addr (f x) = dl_mac_addr x) ->
  table_ok (alter f i l).
Proof.
  intros [Hc Hl Hu] Hf. split.
  - by rewrite length_alter.
  - apply Forall_alter; [done|]. intros x Hx Hok. by apply Hf.
  - destruct (l !! i) as [x|] eqn:Ei.
    + apply (alter_one_each l i f (dl_mac_addr x) Hu).
      * intros y Hy. rewrite Hy in Ei. injection Ei as ->. apply Hf. by eapply Forall_lookup_1.
      * intros j y Hj Hy. destruct (decide (dl_mac_addr y = dl_mac_addr x)) as [E|]; [|by left].
        right. destruct (decide (dl_mac_addr x = replicate 6 0)) as [|Hn]; [done|].
        destruct Hj. eapply Hu; [done..|]. congruence.
    + apply (alter_one_each l i f [] Hu); [congruence|]. intros j y Hj Hy. left. intros E.
      apply (Forall_lookup_1 _ _ _ _ Hl) in Hy as [_ [_ Hm]]. by rewrite E in Hm.
Qed.

Lemma mac_text_length mac : length (mac_text mac) = 17%nat.
Proof. done. Qed.

Lemma str_trunc_length n s : (length (str_trunc n s) <= Z.to_nat (n - 1))%nat.
Proof. unfold str_trunc. rewrite length_take. lia. Qed.

Lemma write_lease_ok ctx now mac ip hostname l :
  lan_ok (dc_lan ctx) -> is_u64 now -> bytes_ok mac -> (6 <= length mac)%nat -> is_u32 ip -> lease_ok l ->
  lease_ok (write_lease ctx now mac ip hostname l).
Proof.
  intros Hc Hn Hm Hl Hi [? ? ? Hh ? ? ? ? ? ?]. unfold write_lease. split; cbn; try done.
  - split; [by apply Forall_take|]. rewrite length_take. lia.
  - pose proof (str_trunc_length 64 hostname). 
    set (name := match find_static_lease_by_mac ctx mac with Some sl => sl_hostname sl | None => [] end).
    pose proof (str_trunc_length 64 name). destruct (_ && _); [lia|].
    destruct (nonempty name); destruct (nonempty _); cbn; lia.
  - apply u64_range.
Qed.

Lemma snoc_zero_table l : table_ok l -> (length l < 254)%nat -> table_ok (l ++ [zero_lease]).
Proof.
  intros [Hc Hl Hu] Hlt. split.
  - rewrite length_app. cbn. lia.
  - apply Forall_app. split; [done|]. constructor; [apply zero_lease_ok|constructor].
  - intros j k x y Hj Hk E Hne.
    apply lookup_app_Some in Hj as [Hj | [_ Hj]]; [|by apply list_lookup_singleton_Some in Hj as [_ <-]].
    apply lookup_app_Some in Hk as [Hk | [_ Hk]]; [by apply (Hu j k x y)|].
    apply list_lookup_singleton_Some in Hk as [_ <-]. by rewrite E in Hne.
Qed.

Lemma found_mac ctx mac i :
  table_ok (dc_leases ctx) -> find_lease_by_mac ctx mac = Some i ->
  exists x, dc_leases ctx !! i = Some x /\ dl_mac_addr x = take 6 mac.
Proof.
  intros Ht Hi. apply find_lease_Some in Hi as (x & Hx & He%bool_decide_eq_true & _).
  exists x. split; [done|]. apply (Forall_lookup_1 _ _ _ _ (to_leases _ Ht)) in Hx as Hxo.
  destruct (lo_mac _ Hxo) as [_ Hx6]. by rewrite (take_ge (dl_mac_addr x)) in He by lia.
Qed.

Lemma no_mac ctx mac j y :
  find_lease_by_mac ctx mac = None -> dc_leases ctx !! j = Some y -> dl_mac_addr y <> take 6 mac.
Proof.
  intros Hn Hy E. apply find_lease_None in Hn. apply (Forall_lookup_1 _ _ _ _ Hn) in Hy as He.
  unfold mac_eq in He. apply bool_decide_eq_false in He. apply He. by rewrite E, take_take.
Qed.

Lemma lease_slot_table ctx mac :
  table_ok (dc_leases ctx) -> let '(i, l) := lease_slot ctx mac in
  table_ok l /\ forall j y, j <> i -> l !! j = Some y -> dl_mac_addr y <> take 6 mac \/ take 6 mac = replicate 6 0.
Proof.
  intros Ht. unfold lease_slot. destruct (find_lease_by_mac ctx mac) as [i|] eqn:Ei.
  - split; [done|]. intros j y Hj Hy. destruct (found_mac ctx mac i Ht Ei) as (x & Hx & Hm).
    destruct (decide (dl_mac_addr y = take 6 mac)) as [E|]; [|by left]. right.
    destruct (decide (take 6 mac = replicate 6 0)) as [|Hne]; [done|].
    destruct Hj. eapply (to_one_each _ Ht); [done..|congruence|congruence].
  - destruct (Z.ltb_spec (Z.of_nat (length (dc_leases ctx))) MAX_DHCP_LEASES) as [Hlt | Hge].
    + unfold MAX_DHCP_LEASES in Hlt. split; [apply snoc_zero_table; [done|lia]|].
      intros j y Hj [Hy | [Hj' Hy]]%lookup_app_Some; [left; by eapply no_mac|].
      apply list_lookup_singleton_Some in Hy as [Hy _]. lia.
    + split; [done|]. intros j y _ Hy. left. by eapply no_mac.
Qed.

Lemma update_record_table ctx now mac ip hostname :
  lan_ok (dc_lan ctx) -> is_u64 now -> bytes_ok mac -> (6 <= length mac)%nat -> is_u32 ip ->
  table_ok (dc_leases ctx) -> table_ok (dc_leases (update_lease_record ctx now mac ip hostname)).
Proof.
  intros Hc Hn Hm Hl Hi Ht. unfold update_lease_record. apply lease_slot_table with (mac := mac) in Ht.
  destruct (lease_slot ctx mac) as [i l]. destruct Ht as [[Hcnt Hok Hu] Ho]. cbn [set_leases dc_leases]. split.
  - by rewrite length_alter.
  - apply Forall_alter; [done|]. intros x _ Hx. by apply write_lease_ok.
  - by apply (alter_one_each _ i _ (take 6 mac) Hu).
Qed.

Lemma update_record_config ctx now mac ip hostname :
  dc_config (update_lease_record ctx now mac ip hostname) = dc_config ctx.
Proof. unfold update_lease_record. by destruct (lease_slot ctx mac). Qed.

Record ctx_ok (ctx : dhcp_server_ctx) : Prop := {
  co_lan : lan_ok (dc_lan ctx);
  co_table : table_ok (dc_leases ctx)
}.

Lemma update_record_ok ctx now mac ip hostname :
  is_u64 now -> bytes_ok mac -> (6 <= length mac)%nat -> is_u32 ip -> ctx_ok ctx ->
  ctx_ok (update_lease_record ctx now mac ip hostname).
Proof.
  intros Hn Hm Hl Hi [Hc Ht]. split.
  - unfold dc_lan. by rewrite update_record_config.
  - by apply update_record_table.
Qed.

Lemma alter_ctx_ok ctx i f :
  ctx_ok ctx -> (forall x, lease_ok x -> lease_ok (f x) /\ dl_mac_addr (f x) = dl_mac_addr x) ->
  ctx_ok (set_leases (alter f i (dc_leases ctx)) ctx).
Proof. intros [Hc Ht] Hf. split; [done|]. by apply alter_table. Qed.

Lemma set_static_ok sl l :
  static_ok sl -> lease_ok l -> lease_ok (set_static sl l) /\ dl_mac_addr (set_static sl l) = dl_mac_addr l.
Proof.
  intros [_ Hip] [? ? ? Hh ? ? ? ? ? ?]. split; [|done]. split; cbn; try done.
  pose proof (str_trunc_length 64 (sl_hostname sl)). destruct (nonempty _); lia.
Qed.

Lemma reload_static_ok now ctx sl : is_u64 now -> static_ok sl -> ctx_ok ctx -> ctx_ok (reload_static now ctx sl).
Proof.
  intros Hn Hs Hc. unfold reload_static. destruct (negb _); [done|].
  destruct (find_lease_by_mac _ _) as [i|].
  - apply alter_ctx_ok; [done|]. intros x. by apply set_static_ok.
  - destruct Hs as [[Hb Hl] Hip]. apply update_record_ok; (done || lia).
Qed.

Lemma foldl_ok {A} (P : dhcp_server_ctx -> Prop) (Q : A -> Prop) f l ctx :
  Forall Q l -> (forall ctx a, Q a -> P ctx -> P (f ctx a)) -> P ctx -> P (foldl f ctx l).
Proof. intros Hl Hf. revert ctx. induction Hl as [|a l Ha Hl IH]; intros ctx Hc; [done|]. apply IH. by apply Hf. Qed.

Lemma reload_ok now ctx config :
  is_u64 now -> lan_ok (c_lan config) -> ctx_ok ctx -> ctx_ok (dhcp_server_reload_config now ctx config).
Proof.
  intros Hn Hl [_ Ht]. unfold dhcp_server_reload_config.
  apply (foldl_ok ctx_ok static_ok); [apply Hl| |by split].
  intros c sl Hs Hc. by apply reload_static_ok.
Qed.

Lemma set_traffic_ok rx tx l :
  is_u64 rx -> is_u64 tx -> lease_ok l -> lease_ok (set_traffic rx tx l) /\ dl_mac_addr (set_traffic rx tx l) = dl_mac_addr l.
Proof.
  intros Hr Ht [? ? ? ? ? ? ? ? ? ?]. split; [|done].
  split; cbn; try done; (destruct (_ && _); [apply u32_range|done]).
Qed.

Lemma dec_byte_length x : (length (dec (x mod 256)) <= 3)%nat.
Proof.
  apply Nat.leb_le. apply (byte_cases (fun v => (length (dec v) <=? 3)%nat)); [vm_compute; reflexivity|].
  apply u8_range.
Qed.

Lemma ip_to_str_length ip : (length (ip_to_str ip) <= 15)%nat.
Proof.
  unfold ip_to_str. rewrite !length_app. cbn [length].
  pose proof (dec_byte_length ip). pose proof (dec_byte_length (ip / 256)).
  pose proof (dec_byte_length (ip / 65536)). pose proof (dec_byte_length (ip / 16777216)). lia.
Qed.

Lemma named_by_ip_ok ip : is_u32 ip -> lease_ok (named_by_ip ip).
Proof.
  intros Hi. destruct zero_lease_ok. split; cbn; try done.
  apply (Nat.le_trans _ 15); [apply ip_to_str_length|by apply Nat.leb_le].
Qed.

Lemma traffic_ok ctx ip rx tx :
  is_u32 ip -> is_u64 rx -> is_u64 tx -> ctx_ok ctx -> ctx_ok (dhcp_server_update_client_traffic ctx ip rx tx).1.
Proof.
  intros Hi Hr Ht Hc. unfold dhcp_server_update_client_traffic. destruct (find_lease_by_ip ctx ip) as [i|].
  - apply alter_ctx_ok; [done|]. intros x. by apply set_traffic_ok.
  - destruct (Z.ltb_spec (Z.of_nat (length (dc_leases ctx))) MAX_DHCP_LEASES) as [Hlt | _]; [|done].
    unfold MAX_DHCP_LEASES in Hlt. destruct Hc as [Hl Htab].
    destruct (set_traffic_ok rx tx _ Hr Ht (named_by_ip_ok ip Hi)) as [Hok Hm].
    split; [done|]. destruct (snoc_zero_table _ Htab ltac:(lia)) as [H1 H2 H3]. cbn [fst set_leases dc_leases]. split.
    + rewrite length_app. cbn [length]. lia.
    + apply Forall_app in H2 as [H2 _]. apply Forall_app. split; [done|]. by constructor.
    + intros j k x y Hj Hk E Hne.
      apply lookup_app_Some in Hj as [Hj | [_ Hj]]; [|by apply list_lookup_singleton_Some in Hj as [_ <-]].
      apply lookup_app_Some in Hk as [Hk | [_ Hk]]; [by apply (to_one_each _ Htab j k x y)|].
      apply list_lookup_singleton_Some in Hk as [_ <-]. by rewrite E in Hne.
Qed.

Lemma inet_range s : is_u32 (str_to_ip s).
Proof.
  unfold str_to_ip. assert (Ho : forall s v r, octet s = Some (v, r) -> is_u8 v).
  { intros s0 v r. unfold octet. destruct (octet_digits 3 s0 0) as [[w n] q] eqn:E.
    destruct (_ || _) eqn:Ec; [done|]. intros [= <- <-]. apply orb_false_iff in Ec as [_ Hw%Z.ltb_ge].
    assert (Hpos : forall j s0 v0 w n q, 0 <= v0 -> octet_digits j s0 v0 = (w, n, q) -> 0 <= w).
    { clear. intros j. induction j as [|j IH]; intros s0 v0 w n q Hv; cbn; [by intros [= <- _ _]|].
      destruct s0 as [|c s0]; [by intros [= <- _ _]|]. unfold isdigit.
      destruct (Z.leb_spec 48 c); cbn [andb]; [|by intros [= <- _ _]].
      destruct (c <=? 57); [|by intros [= <- _ _]].
      destruct (octet_digits j s0 _) as [[w1 n1] q1] eqn:E1. intros [= <- _ _]. eapply IH; [|exact E1]. lia. }
    apply Hpos in E; [|lia]. cint. }
  destruct (inet_pton s) as [[[[a b] c] d]|] eqn:E; [|cint]. unfold inet_pton in E.
  destruct (octet s) as [[a' s1]|] eqn:E1; [|done]. apply Ho in E1.
  repeat (case_match; try done; subst). simplify_eq.
  repeat match goal with H : octet _ = Some _ |- _ => apply Ho in H end. by apply le32_range.
Qed.

Lemma lease_at_ok ctx i l : ctx_ok ctx -> lease_at ctx i = Some l -> lease_ok l.
Proof.
  intros Hc. unfold lease_at. destruct i as [i|]; [|done]. cbn. intros Hl.
  by apply (Forall_lookup_1 _ _ _ _ (to_leases _ (co_table _ Hc)) Hl).
Qed.

Lemma static_ip_ok ctx mac ip : ctx_ok ctx -> static_ip ctx mac = Some ip -> is_u32 ip.
Proof.
  intros Hc. unfold static_ip, find_static_lease_by_mac. destruct (List.find _ _) as [sl|] eqn:E; [|done]. cbn.
  apply List.find_some in E as [Hin _]. apply list_elem_of_In in Hin.
  pose proof (proj1 (Forall_forall _ _) (lk_static _ (co_lan _ Hc)) sl Hin) as [_ Hip].
  destruct (negb _); [|done]. by intros [= <-].
Qed.

Lemma active_ip_ok ctx mac ip : ctx_ok ctx -> active_ip ctx mac = Some ip -> is_u32 ip.
Proof.
  intros Hc. unfold active_ip. destruct (lease_at _ _) as [l|] eqn:E; [|done]. cbn.
  apply lease_at_ok in E; [|done]. destruct (dl_is_active l); [|done]. intros [= <-]. apply E.
Qed.

Lemma pool_bounds_ok ctx : ctx_ok ctx -> is_u32 (pool_bounds ctx).1 /\ is_u32 (pool_bounds ctx).2 /\ (pool_bounds ctx).1 <= (pool_bounds ctx).2.
Proof.
  intros [Hl _]. unfold pool_bounds.
  pose proof (bswap32_range _ (lk_start _ Hl)). pose proof (bswap32_range _ (lk_end _ Hl)).
  destruct (_ || _ || _) eqn:E; cbn [fst snd].
  - split_and!; [apply bswap32_range, inet_range..|]. vm_compute. discriminate.
  - apply orb_false_iff in E as [_ E%Z.ltb_ge]. split_and!; done.
Qed.

Lemma pool_fuel_ok ctx : ctx_ok ctx -> Z.of_nat (pool_fuel ctx) <= 4294967296.
Proof.
  intros [Hl Ht]. unfold pool_fuel. pose proof (lk_count _ Hl). pose proof (to_count _ Ht). lia.
Qed.

(** What the search of the pool returns. *)
Lemma pool_search ctx mac :
  ctx_ok ctx -> let '(s, e) := pool_bounds ctx in
  exists ip, pool_loop (pool_fuel ctx) ctx mac s e = Some ip /\ is_u32 ip
    /\ (e < 4294967295 ->
        (ip = 0 /\ forall h, s <= h <= e -> taken ctx mac h = true)
        \/ (s <= ntohl ip <= e /\ taken ctx mac (ntohl ip) = false)).
Proof.
  intros Hc. pose proof (pool_bounds_ok ctx Hc) as Hb. destruct (pool_bounds ctx) as [s e]. cbn [fst snd] in Hb.
  destruct Hb as (Hs & He & Hse).
  pose proof (pool_loop_ends ctx mac e s Hs (pool_fuel_ok ctx Hc)) as Hn.
  destruct (pool_loop_scan ctx mac e (pool_fuel ctx) s Hs) as [[HN _] | (n & _ & Hall & Hend)]; [done|].
  assert (Hat : forall k, s + Z.of_nat k <= e -> u32 (s + Z.of_nat k) = s + Z.of_nat k) by (intros k Hk; rewrite u32_small; cint).
  assert (Hstep : e < 4294967295 -> forall k, (k <= n)%nat -> s + Z.of_nat k <= e + 1).
  { intros Hlt k. induction k as [|k IH]; intros Hk; [lia|]. specialize (IH ltac:(lia)).
    destruct (Z.eq_dec (s + Z.of_nat k) (e + 1)) as [E|]; [|lia].
    destruct (Hall k ltac:(lia)) as [Hle _]. rewrite E, u32_small in Hle by cint. lia. }
  destruct Hend as [[Hgt ->] | (Hle & Ht & ->)].
  - exists 0. split_and!; [done|cint|]. intros Hlt. left. split; [done|]. intros h Hh.
    specialize (Hstep Hlt n ltac:(lia)).
    assert (s + Z.of_nat n = e + 1).
    { destruct (Z.le_gt_cases (s + Z.of_nat n) e) as [Hx|]; [rewrite Hat in Hgt by done; lia|lia]. }
    destruct (Hall (Z.to_nat (h - s)) ltac:(lia)) as [_ Hk].
    replace (s + Z.of_nat (Z.to_nat (h - s))) with h in Hk by lia. by rewrite u32_small in Hk by cint.
  - exists (htonl (u32 (s + Z.of_nat n))). split_and!; [done|apply bswap32_range, u32_range|].
    intros Hlt. right. specialize (Hstep Hlt n ltac:(lia)). rewrite bswap32_invol by apply u32_range.
    split; [|done]. split; [|done]. rewrite u32_small by cint. lia.
Qed.

Lemma allocate_ok ctx mac : ctx_ok ctx -> exists ip, allocate_next_ip ctx mac = Some ip /\ is_u32 ip.
Proof.
  intros Hc. unfold allocate_next_ip. destruct (static_ip ctx mac) as [ip|] eqn:Es.
  { exists ip. split; [done|]. by eapply static_ip_ok. }
  destruct (active_ip ctx mac) as [ip|] eqn:Ea.
  { exists ip. split; [done|]. by eapply active_ip_ok. }
  pose proof (pool_search ctx mac Hc) as Hp. destruct (pool_bounds ctx) as [s e].
  destruct Hp as (ip & Hip & Hu & _). by exists ip.
Qed.

(** ** Building a reply *)

Lemma st8_app w x o v k : is_u8 v -> k = blen w -> st8 (w ++ x :: o) k v = Some (w ++ v :: o).
Proof.
  intros Hv ->. unfold st8. rewrite length_app. cbn [length].
  destruct (Z.leb_spec 0 (blen w)), (Z.ltb_spec (blen w) (Z.of_nat (length w + S (length o)))); try lia. cbn [andb].
  rewrite Nat2Z.id, insert_app_r_alt by lia. rewrite Nat.sub_diag. cbn [insert list_insert]. by rewrite u8_small.
Qed.

Lemma st_bytes_app w o d k :
  bytes_ok d -> k = blen w -> (length d <= length o)%nat ->
  st_bytes (w ++ o) k d = Some (w ++ d ++ drop (length d) o).
Proof.
  revert w o k. induction d as [|x d IH]; intros w o k Hd Hk Hl; [done|].
  apply Forall_cons in Hd as [Hx Hd]. destruct o as [|y o]; [cbn in Hl; lia|].
  cbn [st_bytes]. rewrite st8_app by done. cbn [mbind option_bind].
  change (w ++ x :: o) with (w ++ [x] ++ o). rewrite (app_assoc w [x] o).
  rewrite IH; [|done|rewrite length_app; cbn; lia|cbn in Hl; lia]. by rewrite <- !app_assoc.
Qed.

Lemma ld_bytes_all b : ld_bytes b 0 (length b) = Some b.
Proof.
  assert (H : forall w c, ld_bytes (w ++ c) (blen w) (length c) = Some c).
  { intros w c. revert w. induction c as [|x c IH]; intros w; [done|]. cbn [length ld_bytes].
    unfold ld8. destruct (Z.leb_spec 0 (blen w)); [|lia]. rewrite Nat2Z.id, lookup_app_r, Nat.sub_diag by lia. cbn.
    specialize (IH (w ++ [x])). rewrite <- app_assoc in IH. cbn in IH.
    replace (blen (w ++ [x])) with (blen w + 1) in IH by (rewrite length_app; cbn; lia). by rewrite IH. }
  exact (H [] b).
Qed.

Lemma append_option_spec w k t d :
  is_u8 t -> bytes_ok d -> (0 < length d < 256)%nat -> (length d + 2 <= k)%nat ->
  blen w + 2 + blen d < 308 ->
  append_option (w ++ replicate k 0) (blen w) 308 t (blen d) d
  = Some ((w ++ coded t d []) ++ replicate (k - (length d + 2)) 0, blen (w ++ coded t d [])).
Proof.
  intros Ht Hd Hl Hk Hm. unfold append_option.
  destruct (Z.leb_spec 308 (blen w + 2 + blen d)); [lia|].
  destruct k as [|[|k]]; [lia..|]. cbn [replicate]. rewrite st8_app by done. cbn [mbind option_bind].
  assert (H2 : st8 (w ++ t :: 0 :: replicate k 0) (blen w + 1) (blen d) = Some (w ++ t :: blen d :: replicate k 0)).
  { change (w ++ t :: 0 :: replicate k 0) with (w ++ [t] ++ 0 :: replicate k 0). rewrite app_assoc.
    rewrite st8_app by (cint || (rewrite length_app; cbn; lia)). by rewrite <- app_assoc. }
  rewrite H2. cbn [mbind option_bind]. destruct (Z.ltb_spec 0 (blen d)); [|lia].
  rewrite Nat2Z.id, ld_bytes_all. cbn [mbind option_bind].
  change (w ++ t :: blen d :: replicate k 0) with (w ++ [t; blen d] ++ replicate k 0). rewrite app_assoc.
  rewrite st_bytes_app; [|done|rewrite length_app; cbn; lia|rewrite length_replicate; lia].
  cbn [mbind option_bind]. f_equal. f_equal.
  - unfold coded. rewrite drop_replicate, <- !app_assoc. cbn [app]. do 3 f_equal. rewrite app_nil_r. do 2 f_equal. lia.
  - unfold coded. rewrite !length_app. cbn [length]. rewrite length_app. cbn. lia.
Qed.

(** The options of a reply, in order. *)
Definition reply_list (lan : lan_config_t) (type : Z) : list (Z * list Z) :=
  [(DHCP_OPT_MSG_TYPE, [type]);
   (DHCP_OPT_SUBNET_MASK, le_bytes 4 (lan_netmask lan));
   (DHCP_OPT_ROUTER, le_bytes 4 (lan_ip_addr lan));
   (DHCP_OPT_DNS, le_bytes 4 (dns_or (dns_primary_dns (lan_dns lan)) "1.1.1.1")
                  ++ le_bytes 4 (dns_or (dns_secondary_dns (lan_dns lan)) "8.8.8.8"));
   (DHCP_OPT_LEASE_TIME, le_bytes 4 (htonl (lan_dhcp_lease_time lan)));
   (DHCP_OPT_SERVER_ID, le_bytes 4 (lan_ip_addr lan))].

Definition encode_options (l : list (Z * list Z)) (o : list Z) : list Z :=
  foldr (fun tv o => coded tv.1 tv.2 o) o l.

Lemma append_next w k t d (K : list Z * Z -> option (list Z)) n :
  n = blen d -> is_u8 t -> bytes_ok d -> (0 < length d < 256)%nat -> (length d + 2 <= k)%nat ->
  blen w + 2 + blen d < 308 ->
  (append_option (w ++ replicate k 0) (blen w) 308 t n d ≫= K)
  = K ((w ++ coded t d []) ++ replicate (k - (length d + 2)) 0, blen (w ++ coded t d [])).
Proof. intros -> Ht Hd Hl Hk Hm. by rewrite append_option_spec. Qed.

Lemma reply_options_spec ctx type :
  is_u8 type ->
  reply_options ctx type
  = Some (encode_options (reply_list (dc_lan ctx) type) (DHCP_OPT_END :: replicate 270 0)).
Proof.
  intros Ht. unfold reply_options. set (lan := dc_lan ctx).
  assert (H4 : forall v, bytes_ok (le_bytes 4 v)) by (intros; apply le_bytes_ok).
  assert (H8 : forall v w, bytes_ok (le_bytes 4 v ++ le_bytes 4 w)) by (intros; apply Forall_app; split; apply le_bytes_ok).
  change (replicate 308 0) with ([] ++ replicate 308 0). change 0 with (blen (@nil Z)) at 2.
  rewrite append_next; [|done|by_eval|by constructor|cbn; lia..].
  do 5 (rewrite append_next; [|done|by_eval|done|cbn; lia|cbn; lia|cbn; lia]).
  match goal with |- st8 (?w ++ replicate ?k 0) _ _ = _ => change k with (S 270) end.
  cbn [replicate]. rewrite st8_app by (done || by_eval). reflexivity.
Qed.

(** ** Processing *)

Record env_ok (env : dhcp_env) : Prop := {
  eo_time : is_u64 (dv_time env);
  eo_recv : forall d, dv_recv env = Some d -> bytes_ok d;
  eo_stack : bytes_ok (dv_stack env);
  eo_stack_len : length (dv_stack env) = 548%nat
}.

Record req_ok (req : dhcp_packet) : Prop := {
  ro_htype : is_u8 (dp_htype req);
  ro_hlen : is_u8 (dp_hlen req);
  ro_xid : is_u32 (dp_xid req);
  ro_flags : is_u16 (dp_flags req);
  ro_ciaddr : is_u32 (dp_ciaddr req);
  ro_chaddr : bytes_ok (dp_chaddr req);
  ro_chaddr_len : length (dp_chaddr req) = 16%nat;
  ro_options : bytes_ok (dp_options req);
  ro_options_len : length (dp_options req) = 308%nat
}.

Lemma received_ok env d : env_ok env -> dv_recv env = Some d -> req_ok (received env d).
Proof.
  intros He Hd. unfold received. set (got := take 548 d).
  assert (Hg : (length got <= 548)%nat) by (unfold got; rewrite length_take; lia).
  set (b := got ++ drop (length got) (dv_stack env)).
  assert (Hb : bytes_ok b).
  { apply Forall_app. split; [apply Forall_take; by apply (eo_recv _ He)|apply Forall_drop, (eo_stack _ He)]. }
  assert (Hl : length b = 548%nat) by (unfold b; rewrite length_app, length_drop, (eo_stack_len _ He); lia).
  assert (Hs : forall i n, bytes_ok (take n (drop i b))) by (intros; by apply Forall_take, Forall_drop).
  assert (Hn : forall i n, (i + n <= 548)%nat -> length (take n (drop i b)) = n)
    by (intros; rewrite length_take, length_drop, Hl; lia).
  assert (Hv : forall i n, (i + n <= 548)%nat -> 0 <= le_val (take n (drop i b)) < 256 ^ Z.of_nat n).
  { intros i n Hi. pose proof (le_val_range _ (Hs i n)) as Hr. by rewrite Hn in Hr. }
  split; cbn [packet_of_bytes dp_htype dp_hlen dp_xid dp_flags dp_ciaddr dp_chaddr dp_options];
    first [apply Hs | apply Hn; lia | apply (Hv _ 1%nat); lia | apply (Hv _ 2%nat); lia | apply (Hv _ 4%nat); lia].
Qed.

Lemma get_option_total req t :
  req_ok req -> t <> DHCP_OPT_PAD -> t <> DHCP_OPT_END ->
  exists r, get_dhcp_option (dp_options req) 308 t = Some r /\ found (dp_options req) 0 t (dp_options req) r.
Proof.
  intros Hr H1 H2. pose proof (ro_options_len _ Hr) as Hl.
  destruct (get_option_loop_spec 309 (dp_options req) t 0) as (r & E & Hf); try done; [apply Hr|lia|lia|].
  exists r. split; [|done]. unfold get_dhcp_option. rewrite <- E. by rewrite Hl.
Qed.

Lemma ld_bytes_Some b i n : 0 <= i -> i + Z.of_nat n <= blen b -> ld_bytes b i n = Some (take n (drop (Z.to_nat i) b)).
Proof.
  revert i. induction n as [|n IH]; intros i Hi Hn; [done|]. cbn [ld_bytes].
  destruct (ld8_Some b i ltac:(lia)) as [v Hv]. rewrite Hv, (drop_at _ _ _ Hv). cbn [mbind option_bind].
  by rewrite IH by lia.
Qed.

Lemma req_hostname_total req : req_ok req -> exists h, req_hostname req = Some h.
Proof.
  intros Hr. unfold req_hostname. destruct (get_option_total req DHCP_OPT_HOSTNAME Hr) as (r & -> & Hf); [done..|].
  cbn. destruct r as [[i n]|]; [|by exists []]. destruct Hf as (H1 & H2 & H3 & _).
  destruct (0 <? n); [|by exists []]. rewrite ld_bytes_Some by lia. cbn. by eexists.
Qed.

Lemma requested_ip_total ctx req : ctx_ok ctx -> req_ok req -> exists ip, requested_ip ctx req = Some ip /\ is_u32 ip.
Proof.
  intros Hc Hr. unfold requested_ip. destruct (get_option_total req DHCP_OPT_REQ_IP Hr) as (r & -> & Hf); [done..|].
  cbn [mbind option_bind].
  assert (Hd : exists ip, (if negb (dp_ciaddr req =? 0) then Some (dp_ciaddr req)
                else allocate_next_ip ctx (dp_chaddr req)) = Some ip /\ is_u32 ip).
  { destruct (negb _); [|by apply allocate_ok]. exists (dp_ciaddr req). split; [done|apply Hr]. }
  destruct r as [[i n]|]; [|exact Hd]. destruct (Z.eq_dec n 4) as [-> | Hn].
  - destruct Hf as (H1 & H2 & H3 & _). rewrite ld_bytes_Some by lia. cbn [mbind option_bind]. eexists. split; [done|].
    pose proof (le_val_range (take 4 (drop (Z.to_nat i) (dp_options req)))) as Hv.
    rewrite length_take, length_drop in Hv. rewrite Nat.min_l in Hv by lia. apply Hv.
    by apply Forall_take, Forall_drop, Hr.
  - destruct n as [|p|p]; try exact Hd. destruct p as [p|p|]; try exact Hd. destruct p as [p|p|]; try exact Hd.
    destruct p; try exact Hd. done.
Qed.

Lemma make_reply_total ctx req type ip :
  is_u8 type -> exists p, make_reply ctx req type ip = Some p /\ dp_yiaddr p = ip /\ dp_xid p = dp_xid req
    /\ dp_chaddr p = dp_chaddr req
    /\ dp_options p = encode_options (reply_list (dc_lan ctx) type) (DHCP_OPT_END :: replicate 270 0).
Proof. intros Ht. unfold make_reply. rewrite reply_options_spec by done. cbn [mbind option_bind]. by eexists. Qed.

Lemma dhcp_message_ok env ctx req t h :
  is_u64 (dv_time env) -> ctx_ok ctx -> req_ok req ->
  exists ctx' out, dhcp_message env ctx req t h = Some (ctx', out) /\ ctx_ok ctx'.
Proof.
  intros He Hc Hr. unfold dhcp_message. destruct (t =? DHCP_DISCOVER).
  { destruct (allocate_ok ctx (dp_chaddr req) Hc) as (ip & -> & _). cbn [mbind option_bind].
    destruct (ip =? 0); [by eexists _, _|].
    destruct (make_reply_total ctx req DHCP_OFFER ip) as (p & -> & _); [by_eval|]. by eexists _, _. }
  destruct (t =? DHCP_REQUEST).
  { destruct (requested_ip_total ctx req Hc Hr) as (ip & -> & Hip). cbn [mbind option_bind].
    set (ctx1 := update_lease_record _ _ _ _ _).
    destruct (make_reply_total ctx1 req DHCP_ACK ip) as (p & -> & _); [by_eval|]. eexists _, _. split; [done|].
    apply update_record_ok; try done; [apply Hr|]. rewrite (ro_chaddr_len _ Hr). lia. }
  destruct (t =? DHCP_RELEASE); [|by eexists _, _]. eexists _, _. split; [done|].
  destruct (find_lease_by_mac _ _) as [i|]; [|done]. apply alter_ctx_ok; [done|].
  intros x [? ? ? ? ? ? ? ? ? ?]. by split.
Qed.

(** A datagram that is processed at all. *)
Definition accepted (env : dhcp_env) (d : list Z) : bool :=
  (240 <=? blen (take 548 d)) && (ntohl (dp_magic (received env d)) =? DHCP_MAGIC_COOKIE)
  && (dp_op (received env d) =? DHCP_BOOTREQUEST).

Lemma process_cases env ctx d :
  env_ok env -> ctx_ok ctx -> dc_sock_valid ctx = true -> dv_recv env = Some d ->
  let req := received env d in
  (accepted env d = true /\ get_dhcp_option (dp_options req) 308 DHCP_OPT_MSG_TYPE = Some (Some (308, 0))
   /\ dhcp_server_process env ctx = None)
  \/ ((accepted env d = true -> get_dhcp_option (dp_options req) 308 DHCP_OPT_MSG_TYPE <> Some (Some (308, 0)))
      /\ exists ctx' out, dhcp_server_process env ctx = Some (ctx', out) /\ ctx_ok ctx').
Proof.
  intros He Hc Hs Hd req. pose proof (received_ok env d He Hd) as Hr. fold req in Hr.
  unfold dhcp_server_process, accepted. rewrite Hs, Hd. cbn [negb]. fold req.
  rewrite Z.leb_antisym. destruct (_ <? 240); [right; split; [done|by eexists _, _]|].
  destruct (ntohl (dp_magic req) =? DHCP_MAGIC_COOKIE); [|right; split; [done|by eexists _, _]].
  destruct (dp_op req =? DHCP_BOOTREQUEST); [|right; split; [done|by eexists _, _]]. cbn [negb orb andb].
  destruct (get_option_total req DHCP_OPT_MSG_TYPE Hr) as (r & -> & Hf); [done..|]. cbn [mbind option_bind].
  destruct r as [[i n]|]; [|right; split; [done|by eexists _, _]].
  destruct Hf as (H1 & H2 & H3 & _). rewrite (ro_options_len _ Hr) in H3.
  destruct (Z.eq_dec i 308) as [-> | Hi].
  { left. replace n with 0 by lia. split_and!; [done|done|]. unfold ld8. change (0 <=? 308) with true. cbv iota.
    by rewrite lookup_ge_None_2 by (rewrite (ro_options_len _ Hr); lia). }
  right. split; [intros _ E; congruence|].
  destruct (ld8_Some (dp_options req) i) as [t ->]; [rewrite (ro_options_len _ Hr); lia|].
  destruct (req_hostname_total req Hr) as [h ->]. cbn [mbind option_bind].
  destruct (str_eq h _); [by eexists _, _|]. apply dhcp_message_ok; [apply He|done|done].
Qed.

Lemma process_ok env ctx ctx' out :
  env_ok env -> ctx_ok ctx -> dhcp_server_process env ctx = Some (ctx', out) -> ctx_ok ctx'.
Proof.
  intros He Hc. destruct (dc_sock_valid ctx) eqn:Es.
  - destruct (dv_recv env) as [d|] eqn:Ed.
    + destruct (process_cases env ctx d He Hc Es Ed) as [(_ & _ & ->) | (_ & c & o & -> & Ho)]; [done|].
      by intros [= <- _].
    + unfold dhcp_server_process. rewrite Es, Ed. by intros [= <- _].
  - unfold dhcp_server_process. rewrite Es. by intros [= <- _].
Qed.

Lemma init_ok env config ctx :
  lan_ok (c_lan config) -> is_u64 (ds_time env) -> dhcp_server_init env config = Some ctx -> ctx_ok ctx.
Proof.
  intros Hl Ht. unfold dhcp_server_init. destruct (negb (lan_dhcp_enabled _)); [done|].
  destruct (negb (ds_mem env)); [done|]. set (f := fun ctx sl => _). set (c0 := DhcpCtx _ _ _).
  assert (H0 : ctx_ok c0) by (split; [exact Hl|split; [cbn; lia|constructor|intros i j x y Hx; done]]).
  assert (H1 : ctx_ok (foldl f c0 (lan_static_leases (c_lan config)))).
  { apply (foldl_ok ctx_ok static_ok); [apply Hl| |done]. intros c sl [[Hb Hm] Hip] Hc. unfold f.
    destruct (sl_enabled sl && _); [|done]. apply update_record_ok; (done || lia). }
  set (c1 := foldl f c0 _) in *. destruct (dc_leases c1) eqn:E; intros [= <-]; [|done].
  apply update_record_ok; [done| | | |done].
  - repeat (constructor; [cint|]). constructor.
  - cbn. lia.
  - destruct (negb _); [apply Hl|apply inet_range].
Qed.

Inductive dhcp_step : dhcp_server_ctx -> dhcp_server_ctx -> Prop :=
  | step_message env ctx ctx' out :
      env_ok env -> dhcp_server_process env ctx = Some (ctx', out) -> dhcp_step ctx ctx'
  | step_reload now ctx config :
      is_u64 now -> lan_ok (c_lan config) -> dhcp_step ctx (dhcp_server_reload_config now ctx config)
  | step_traffic ctx ip rx tx :
      is_u32 ip -> is_u64 rx -> is_u64 tx -> dhcp_step ctx (dhcp_server_update_client_traffic ctx ip rx tx).1.

Lemma dhcp_step_ok ctx ctx' : dhcp_step ctx ctx' -> ctx_ok ctx -> ctx_ok ctx'.
Proof.
  destruct 1 as [env ctx ctx' out He Hp | now ctx config Hn Hl | ctx ip rx tx Hi Hr Ht]; intros Hc.
  - by eapply process_ok.
  - by apply reload_ok.
  - by apply traffic_ok.
Qed.

Lemma dhcp_run_ok ctx ctx' : rtc dhcp_step ctx ctx' -> ctx_ok ctx -> ctx_ok ctx'.
Proof. induction 1 as [|x y z Hxy _ IH]; [done|]. intros Hc. by apply IH, (dhcp_step_ok x). Qed.

(** ** Bindings *)

Lemma find_lease_first p l i x :
  l !! i = Some x -> p x = true -> (forall j y, (j < i)%nat -> l !! j = Some y -> p y = false) -> find_lease p l = Some i.
Proof.
  revert i. induction l as [|z l IH]; intros i Hx Hp Hmin; [done|]. cbn [find_lease]. destruct i as [|i].
  - cbn in Hx. injection Hx as ->. by rewrite Hp.
  - rewrite (Hmin 0%nat z) by (done || lia). rewrite (IH i); [done|done|done|].
    intros j y Hj Hy. apply (Hmin (S j)); [lia|done].
Qed.

(** The record of a client is the one that was written last. *)
Lemma update_record_lookup ctx now mac ip hostname :
  exists l, lease_at (update_lease_record ctx now mac ip hostname)
              (find_lease_by_mac (update_lease_record ctx now mac ip hostname) mac)
            = Some (write_lease ctx now mac ip hostname l).
Proof.
  unfold update_lease_record, lease_slot. set (f := write_lease ctx now mac ip hostname).
  assert (Hm : forall x, mac_eq (dl_mac_addr (f x)) mac = true)
    by (intros x; unfold mac_eq; apply bool_decide_eq_true; cbn; by rewrite take_take).
  assert (Hgo : forall i l x, l !! i = Some x ->
    (forall j y, (j < i)%nat -> l !! j = Some y -> mac_eq (dl_mac_addr y) mac = false) ->
    exists x, lease_at (set_leases (alter f i l) ctx) (find_lease_by_mac (set_leases (alter f i l) ctx) mac) = Some (f x)).
  { intros i l x Hx Hmin. exists x. unfold lease_at, find_lease_by_mac. cbn [set_leases dc_leases].
    assert (Hf : alter f i l !! i = Some (f x)) by (by rewrite list_lookup_alter_eq, Hx).
    rewrite (find_lease_first _ _ i (f x) Hf (Hm x)); [done|]. intros j y Hj Hy.
    rewrite list_lookup_alter_ne in Hy by lia. by eapply Hmin. }
  destruct (find_lease_by_mac ctx mac) as [i|] eqn:Ei.
  - apply find_lease_Some in Ei as (x & Hx & _ & Hmin). by apply (Hgo i _ x).
  - apply find_lease_None in Ei.
    assert (Hnone : forall j y, dc_leases ctx !! j = Some y -> mac_eq (dl_mac_addr y) mac = false)
      by (intros j y Hy; by apply (Forall_lookup_1 _ _ _ _ Ei Hy)).
    destruct (Z.ltb_spec (Z.of_nat (length (dc_leases ctx))) MAX_DHCP_LEASES) as [Hlt | Hge].
    + apply (Hgo _ _ zero_lease); [by rewrite lookup_app_r, Nat.sub_diag|].
      intros j y Hj Hy. rewrite lookup_app_l in Hy by lia. by eapply Hnone.
    + unfold MAX_DHCP_LEASES in Hge. destruct (lookup_lt_is_Some_2 (dc_leases ctx) 0) as [x Hx]; [lia|].
      apply (Hgo _ _ x Hx). lia.
Qed.

Lemma update_record_active ctx now mac ip hostname :
  active_ip (update_lease_record ctx now mac ip hostname) mac = Some ip.
Proof. unfold active_ip. destruct (update_record_lookup ctx now mac ip hostname) as [l ->]. done. Qed.

(** ** Packets and their bytes *)

Lemma slice_concat (fs : list (list Z)) k x i n :
  fs !! k = Some x -> length (concat (take k fs)) = i -> length x = n -> take n (drop i (concat fs)) = x.
Proof.
  intros Hx <- <-. rewrite <- (take_drop_middle fs k x Hx) at 2. rewrite concat_app. cbn [concat].
  rewrite drop_app_length. by rewrite take_app_length.
Qed.

Record packet_ok (p : dhcp_packet) : Prop := {
  po_op : is_u8 (dp_op p);
  po_htype : is_u8 (dp_htype p);
  po_hlen : is_u8 (dp_hlen p);
  po_hops : is_u8 (dp_hops p);
  po_xid : is_u32 (dp_xid p);
  po_secs : is_u16 (dp_secs p);
  po_flags : is_u16 (dp_flags p);
  po_ciaddr : is_u32 (dp_ciaddr p);
  po_yiaddr : is_u32 (dp_yiaddr p);
  po_siaddr : is_u32 (dp_siaddr p);
  po_giaddr : is_u32 (dp_giaddr p);
  po_chaddr : length (dp_chaddr p) = 16%nat;
  po_sname : length (dp_sname p) = 64%nat;
  po_file : length (dp_file p) = 128%nat;
  po_magic : is_u32 (dp_magic p);
  po_options : length (dp_options p) = 308%nat
}.

Lemma packet_roundtrip p : packet_ok p -> packet_of_bytes (packet_bytes p) = p.
Proof.
  intros [Ho Hh Hl Hp Hx Hs Hf Hci Hyi Hsi Hgi Hc Hn Hfi Hm Hop].
  set (fs := [le_bytes 1 (dp_op p); le_bytes 1 (dp_htype p); le_bytes 1 (dp_hlen p); le_bytes 1 (dp_hops p);
    le_bytes 4 (dp_xid p); le_bytes 2 (dp_secs p); le_bytes 2 (dp_flags p); le_bytes 4 (dp_ciaddr p);
    le_bytes 4 (dp_yiaddr p); le_bytes 4 (dp_siaddr p); le_bytes 4 (dp_giaddr p); dp_chaddr p; dp_sname p;
    dp_file p; le_bytes 4 (dp_magic p); dp_options p]).
  assert (Hb : packet_bytes p = concat fs) by (unfold packet_bytes, fs; cbn [concat]; by rewrite app_nil_r).
  assert (Hk : forall k x i n, fs !! k = Some x -> length (concat (take k fs)) = i -> length x = n ->
    take n (drop i (packet_bytes p)) = x) by (intros k x i n; rewrite Hb; apply slice_concat).
  assert (Hv : forall n v, 0 <= v < 256 ^ Z.of_nat n -> le_val (le_bytes n v) = v)
    by (intros n v Hr; by rewrite le_val_bytes, Z.mod_small).
  assert (HL : forall k, length (concat (take k fs))
    = foldr Nat.add 0%nat (take k [1; 1; 1; 1; 4; 2; 2; 4; 4; 4; 4; 16; 64; 128; 4; 308]%nat)).
  { intros k. transitivity (foldr Nat.add 0%nat (length <$> take k fs)).
    - generalize (take k fs). intros l. induction l as [|y l IH]; [done|]. cbn. by rewrite length_app, IH.
    - rewrite fmap_take. unfold fs. cbn [fmap list_fmap]. by rewrite Hc, Hn, Hfi, Hop, !le_bytes_length. }
  unfold packet_of_bytes.
  rewrite (Hk 0%nat _ 0%nat 1%nat eq_refl), (Hk 1%nat _ 1%nat 1%nat eq_refl), (Hk 2%nat _ 2%nat 1%nat eq_refl),
    (Hk 3%nat _ 3%nat 1%nat eq_refl), (Hk 4%nat _ 4%nat 4%nat eq_refl), (Hk 5%nat _ 8%nat 2%nat eq_refl),
    (Hk 6%nat _ 10%nat 2%nat eq_refl), (Hk 7%nat _ 12%nat 4%nat eq_refl), (Hk 8%nat _ 16%nat 4%nat eq_refl),
    (Hk 9%nat _ 20%nat 4%nat eq_refl), (Hk 10%nat _ 24%nat 4%nat eq_refl), (Hk 11%nat _ 28%nat 16%nat eq_refl),
    (Hk 12%nat _ 44%nat 64%nat eq_refl), (Hk 13%nat _ 108%nat 128%nat eq_refl),
    (Hk 14%nat _ 236%nat 4%nat eq_refl), (Hk 15%nat _ 240%nat 308%nat eq_refl)
    by (apply HL || apply le_bytes_length || done).
  rewrite !Hv by done. by destruct p.
Qed.

(** ** Theorems *)

Lemma pool_start_pos ctx : ctx_ok ctx -> 1 <= (pool_bounds ctx).1.
Proof.
  intros [Hl _]. unfold pool_bounds. pose proof (bswap32_range _ (lk_start _ Hl)) as Hs. unfold is_u32 in Hs.
  destruct (_ || _ || _) eqn:E; cbn [fst]; [vm_compute; discriminate|].
  apply orb_false_iff in E as [[E _]%orb_false_iff _]. apply Z.eqb_neq in E. lia.
Qed.

Lemma static_ip_nonzero ctx mac ip : static_ip ctx mac = Some ip -> ip <> 0.
Proof.
  unfold static_ip. destruct (find_static_lease_by_mac ctx mac) as [sl|]; [|done]. cbn.
  destruct (Z.eqb_spec (sl_ip_addr sl) 0); [done|]. by intros [= <-].
Qed.

(** A pool with more addresses than there are leases and reservations has one left. *)
Lemma pool_has_room ctx mac s e :
  s <= e -> 0 <= s -> e < 4294967296 ->
  Z.of_nat (length (held_ips ctx)) < e - s + 1 -> exists h, s <= h <= e /\ taken ctx mac h = false.
Proof.
  intros Hse Hs He Hroom. set (hs := (fun k => s + Z.of_nat k) <$> seq 0 (Z.to_nat (e - s + 1))).
  destruct (forallb (taken ctx mac) hs) eqn:E.
  - rewrite forallb_forall in E.
    assert (Hd : NoDup (bswap32 <$> hs)).
    { unfold hs. rewrite <- list_fmap_compose. apply NoDup_fmap_2_strong; [|apply NoDup_ListNoDup, seq_NoDup].
      intros x y Hx%elem_of_seq Hy%elem_of_seq Exy. cbn in Exy. apply (f_equal bswap32) in Exy.
      rewrite !bswap32_invol in Exy by cint. lia. }
    assert (Hi : incl (bswap32 <$> hs) (held_ips ctx)).
    { intros ip Hin. apply list_elem_of_In, list_elem_of_fmap in Hin as (h & -> & Hh).
      apply list_elem_of_In, (taken_held ctx mac), E. by apply list_elem_of_In. }
    apply NoDup_ListNoDup in Hd. apply (List.NoDup_incl_length Hd) in Hi.
    unfold hs in Hi. rewrite !length_fmap, length_seq in Hi. lia.
  - assert (Hex : exists h, h ∈ hs /\ taken ctx mac h = false).
    { clear -E. induction hs as [|h hs IH]; [done|]. cbn in E. destruct (taken ctx mac h) eqn:Eh.
      - destruct (IH E) as (h' & H1 & H2). exists h'. split; [by constructor|done].
      - exists h. split; [constructor|done]. }
    destruct Hex as (h & Hin & Ht). exists h. split; [|done].
    unfold hs in Hin. apply list_elem_of_fmap in Hin as (k & -> & Hk%elem_of_seq). lia.
Qed.

(** C24.  The search for an address always ends, whatever the pool, also when it reaches to the last
    address of all; and a client that has no address gets one as long as the pool has more
    addresses than there are leases and reservations. *)
Theorem allocation_terminates ctx mac (Hctx : ctx_ok ctx) :
  exists ip, allocate_next_ip ctx mac = Some ip
    /\ let '(s, e) := pool_bounds ctx in
       active_ip ctx mac = None -> e < 4294967295 ->
       Z.of_nat (length (dc_leases ctx) + length (lan_static_leases (dc_lan ctx))) < e - s + 1 -> ip <> 0.
Proof.
  unfold allocate_next_ip. pose proof (pool_start_pos ctx Hctx) as Hpos. pose proof (pool_bounds_ok ctx Hctx) as Hb.
  pose proof (pool_search ctx mac Hctx) as Hp.
  destruct (static_ip ctx mac) as [ip|] eqn:Es.
  { exists ip. split; [done|]. destruct (pool_bounds ctx). intros _ _ _. by eapply static_ip_nonzero. }
  destruct (active_ip ctx mac) as [ip|]; [exists ip; split; [done|]; by destruct (pool_bounds ctx)|].
  destruct (pool_bounds ctx) as [s e]. cbn [fst snd] in *. destruct Hp as (ip & Hip & Hu & Hcase).
  exists ip. split; [done|]. intros _ He Hroom.
  destruct (pool_has_room ctx mac s e) as (h & Hh & Ht); [lia|lia|lia|unfold held_ips; by rewrite length_app, !length_fmap|].
  destruct (Hcase He) as [[_ Hall] | [Hr _]]; [by rewrite (Hall h Hh) in Ht|].
  intros ->. change (ntohl 0) with 0 in Hr. lia.
Qed.

(** Who is offered what.  A DISCOVER changes nothing.  It offers the reserved address of the
    client, or the address of its active lease, or an address of the pool that is free; it stays
    without an answer only when every address of the pool is taken. *)
Theorem discover_offers env ctx req h ctx' out
    (Hctx : ctx_ok ctx) (Hend : (pool_bounds ctx).2 < 4294967295)
    (Hm : dhcp_message env ctx req DHCP_DISCOVER h = Some (ctx', out)) :
  let '(s, e) := pool_bounds ctx in
  let mac := dp_chaddr req in
  ctx' = ctx
  /\ ((out = [] /\ static_ip ctx mac = None
       /\ (active_ip ctx mac = Some 0 \/ forall a, s <= a <= e -> taken ctx mac a = true))
      \/ exists p more, out = (4294967295, p) :: more /\ dp_chaddr p = mac /\ dp_xid p = dp_xid req
           /\ let ip := dp_yiaddr p in
              (static_ip ctx mac = Some ip
               \/ (static_ip ctx mac = None /\ active_ip ctx mac = Some ip)
               \/ (s <= ntohl ip <= e /\ taken ctx mac (ntohl ip) = false))).
Proof.
  unfold dhcp_message in Hm. change (DHCP_DISCOVER =? DHCP_DISCOVER) with true in Hm. cbv iota in Hm.
  set (mac := dp_chaddr req) in *.
  pose proof (pool_search ctx mac Hctx) as Hp. pose proof (pool_start_pos ctx Hctx) as Hpos.
  unfold allocate_next_ip in Hm. destruct (pool_bounds ctx) as [s e]. cbn [fst snd] in *. destruct Hp as (ip0 & Hip & _ & Hcase).
  specialize (Hcase Hend).
  assert (Hreply : forall ip, ip <> 0 -> (if ip =? 0 then Some (ctx, [])
      else reply ← make_reply ctx req DHCP_OFFER ip; Some (ctx, send_reply env ctx reply)) = Some (ctx', out) ->
    ctx' = ctx /\ exists p more, out = (4294967295, p) :: more /\ dp_chaddr p = mac /\ dp_xid p = dp_xid req /\ dp_yiaddr p = ip).
  { intros ip Hne. rewrite (proj2 (Z.eqb_neq ip 0) Hne).
    destruct (make_reply_total ctx req DHCP_OFFER ip) as (p & -> & Hy & Hx & Hc & _); [by_eval|]. cbn.
    intros [= <- <-]. split; [done|]. by exists p, (if dv_broadcast_ok env then [] else
      [(lan_ip_addr (dc_lan ctx) .| (4294967295 - lan_netmask (dc_lan ctx)), p)]). }
  destruct (static_ip ctx mac) as [ip|] eqn:Es; cbn [mbind option_bind] in Hm.
  { apply Hreply in Hm as [-> (p & more & -> & Hc & Hx & Hy)].
    - split; [done|]. right. exists p, more. rewrite Hy. split_and!; [done..|]. by left.
    - by eapply static_ip_nonzero. }
  destruct (active_ip ctx mac) as [ip|] eqn:Ea; cbn [mbind option_bind] in Hm.
  { destruct (Z.eq_dec ip 0) as [-> | Hne]; [injection Hm as <- <-; split; [done|]; left; by split_and!; [..|left]|].
    apply Hreply in Hm as [-> (p & more & -> & Hc & Hx & Hy)]; [|done].
    split; [done|]. right. exists p, more. rewrite Hy. split_and!; [done..|]. by right; left. }
  rewrite Hip in Hm. cbn [mbind option_bind] in Hm. destruct Hcase as [[-> Hall] | [Hr Hf]].
  - injection Hm as <- <-. split; [done|]. left. split_and!; [done..|]. by right.
  - apply Hreply in Hm as [-> (p & more & -> & Hc & Hx & Hy)].
    + split; [done|]. right. exists p, more. rewrite Hy. split_and!; [done..|]. by right; right.
    + intros ->. change (ntohl 0) with 0 in Hr. lia.
Qed.

Lemma request_message env ctx req h ctx' out ip :
  requested_ip ctx req = Some ip -> dhcp_message env ctx req DHCP_REQUEST h = Some (ctx', out) ->
  ctx' = update_lease_record ctx (dv_time env) (dp_chaddr req) ip h
  /\ exists p more, out = (4294967295, p) :: more /\ make_reply ctx' req DHCP_ACK ip = Some p.
Proof.
  intros Hip. unfold dhcp_message. change (DHCP_REQUEST =? DHCP_DISCOVER) with false.
  change (DHCP_REQUEST =? DHCP_REQUEST) with true. cbv iota. rewrite Hip. cbn [mbind option_bind].
  set (c := update_lease_record _ _ _ _ _). destruct (make_reply c req DHCP_ACK ip) as [p|] eqn:E; [|done]. cbn.
  intros [= <- <-]. split; [done|]. eexists p, _. split; [reflexivity|exact E].
Qed.

Lemma encode_option_at l o t v :
  Forall (fun tv => tv.1 <> DHCP_OPT_PAD /\ tv.1 <> DHCP_OPT_END) l -> NoDup l.*1 -> (t, v) ∈ l ->
  option_at (encode_options l o) t v.
Proof.
  intros Hl. induction Hl as [|[t' v'] l [H1 H2] Hl IH]; intros Hd Hin; [by apply not_elem_of_nil in Hin|].
  cbn [fmap list_fmap fst] in Hd. apply NoDup_cons in Hd as [Hnot Hd]. cbn [encode_options foldr fst snd] in *.
  apply elem_of_cons in Hin as [[= -> ->] | Hin]; [by constructor|].
  constructor; [done|done| |by apply IH].
  intros <-. apply Hnot. apply list_elem_of_fmap. by exists (t', v).
Qed.

Lemma option_at_unique o t v v' : option_at o t v -> option_at o t v' -> t <> DHCP_OPT_PAD -> v = v'.
Proof.
  intros Hv. induction Hv as [o t v Hv IH | o t v H1 H2 | o t v t1 v1 H1 H2 H3 Hv IH]; intros Hv' Ht.
  - apply IH; [|done]. inversion Hv' as [? ? ? Hx | |]; subst; done.
  - apply option_at_coded in Hv' as [[_ ->] | [? _]]; done.
  - apply option_at_coded in Hv' as [[? _] | [_ Hx]]; [done|by apply IH|done].
Qed.

Lemma reply_list_ok lan type :
  is_u8 type ->
  Forall (fun tv => tv.1 <> DHCP_OPT_PAD /\ tv.1 <> DHCP_OPT_END /\ is_u8 tv.1 /\ bytes_ok tv.2 /\ (length tv.2 < 256)%nat)
    (reply_list lan type).
Proof.
  intros Ht. assert (H4 : forall v, bytes_ok (le_bytes 4 v)) by (intros; apply le_bytes_ok).
  assert (H8 : forall v w, bytes_ok (le_bytes 4 v ++ le_bytes 4 w)) by (intros; apply Forall_app; split; apply le_bytes_ok).
  unfold reply_list. repeat (apply List.Forall_cons;
    [split_and!; [done|done|by_eval|first [apply H4 | apply H8 | by constructor]|cbn; lia]|]). constructor.
Qed.

Lemma encode_options_ok l o :
  Forall (fun tv => tv.1 <> DHCP_OPT_PAD /\ tv.1 <> DHCP_OPT_END /\ is_u8 tv.1 /\ bytes_ok tv.2 /\ (length tv.2 < 256)%nat) l ->
  bytes_ok o -> bytes_ok (encode_options l o).
Proof.
  intros Hl Ho. induction Hl as [|[t v] l (_ & _ & Ht & Hv & Hn) Hl IH]; [done|]. cbn in *.
  constructor; [done|]. constructor; [cint|]. apply Forall_app. by split.
Qed.

(** C36.  What a client reads in a reply.  Parsed from its bytes, an offer or an acknowledgement is the
    packet that was built: it carries the address and the transaction of the client, and the option
    scanner finds in it the message type, netmask, router, name servers, lease time and server of
    the configuration. *)
Theorem reply_reads_back ctx req type ip p
    (Hctx : ctx_ok ctx) (Hreq : req_ok req) (Htype : is_u8 type) (Hip : is_u32 ip)
    (Hp : make_reply ctx req type ip = Some p) :
  packet_of_bytes (packet_bytes p) = p
  /\ dp_yiaddr p = ip /\ dp_xid p = dp_xid req /\ dp_chaddr p = dp_chaddr req
  /\ forall t v, (t, v) ∈ reply_list (dc_lan ctx) type ->
      exists i n, get_dhcp_option (dp_options p) 308 t = Some (Some (i, n))
        /\ take (Z.to_nat n) (drop (Z.to_nat i) (dp_options p)) = v.
Proof.
  destruct (make_reply_total ctx req type ip Htype) as (p' & E & Hy & Hx & Hc & Ho).
  rewrite Hp in E. injection E as <-.
  assert (Hok : packet_ok p).
  { unfold make_reply in Hp. rewrite reply_options_spec in Hp by done. injection Hp as <-.
    split; cbn [dp_op dp_htype dp_hlen dp_hops dp_xid dp_secs dp_flags dp_ciaddr dp_yiaddr dp_siaddr dp_giaddr
      dp_chaddr dp_sname dp_file dp_magic dp_options]; try apply Hreq; try apply (co_lan _ Hctx); try done; by_eval. }
  split_and!; [by apply packet_roundtrip|done..|]. intros t v Hin.
  pose proof (reply_list_ok (dc_lan ctx) type Htype) as Hall.
  assert (Hat : option_at (dp_options p) t v).
  { rewrite Ho. apply encode_option_at; [|by apply (bool_decide_unpack _)|done]. eapply Forall_impl; [exact Hall|]. intros [t1 v1] (H1 & H2 & _). by split. }
  destruct (proj1 (Forall_forall _ _) Hall (t, v) Hin) as (H1 & H2 & _).
  destruct (get_option_loop_spec 309 (dp_options p) t 0) as (r & Er & Hf); [|lia| |exact H1|exact H2|].
  - rewrite Ho. apply encode_options_ok; [exact Hall|]. constructor; [by_eval|]. apply Forall_replicate. by_eval.
  - rewrite (po_options _ Hok). lia.
  - rewrite (po_options _ Hok) in Er. destruct r as [[i n]|]; [|by destruct (Hf v)].
    exists i, n. split; [exact Er|]. destruct Hf as (_ & _ & _ & Hf). by eapply option_at_unique.
Qed.

(** C28.  The lease table is well typed after any run: at most 254 entries, each with six bytes of
    address, texts that fit their arrays and counters within their width, and no client with two
    entries. *)
Theorem dhcp_table_typed env config ctx0 ctx
    (Hlan : lan_ok (c_lan config)) (Htime : is_u64 (ds_time env))
    (Hinit : dhcp_server_init env config = Some ctx0) (Hrun : rtc dhcp_step ctx0 ctx) :
  table_ok (dc_leases ctx).
Proof. by apply (co_table _ (dhcp_run_ok _ _ Hrun (init_ok _ _ _ Hlan Htime Hinit))). Qed.

(** C37.  The one datagram that makes the server read outside its packet: a request whose message type
    option is empty and ends the option area.  Every other datagram is handled within it. *)
Theorem dhcp_fault_iff env ctx d
    (Henv : env_ok env) (Hctx : ctx_ok ctx) (Hsock : dc_sock_valid ctx = true) (Hrecv : dv_recv env = Some d) :
  dhcp_server_process env ctx = None
  <-> accepted env d = true
      /\ get_dhcp_option (dp_options (received env d)) 308 DHCP_OPT_MSG_TYPE = Some (Some (308, 0)).
Proof.
  destruct (process_cases env ctx d Henv Hctx Hsock Hrecv) as [(Ha & Hg & Hp) | (Hn & c & o & Hp & _)].
  - by split.
  - rewrite Hp. split; [done|]. intros [Ha Hg]. by destruct (Hn Ha).
Qed.

(** A REQUEST that is answered binds its address: the acknowledgement carries it, the client has an
    active lease on it, and until something else happens a DISCOVER of the client is offered the
    same address, unless another one is reserved for it. *)
Theorem request_binds env ctx req h ctx' out ip
    (Hip : requested_ip ctx req = Some ip)
    (Hm : dhcp_message env ctx req DHCP_REQUEST h = Some (ctx', out)) :
  (exists p more, out = (4294967295, p) :: more /\ dp_yiaddr p = ip /\ dp_chaddr p = dp_chaddr req
     /\ option_at (dp_options p) DHCP_OPT_MSG_TYPE [DHCP_ACK])
  /\ active_ip ctx' (dp_chaddr req) = Some ip
  /\ (static_ip ctx (dp_chaddr req) = None -> allocate_next_ip ctx' (dp_chaddr req) = Some ip).
Proof.
  destruct (request_message _ _ _ _ _ _ _ Hip Hm) as [Hc' (p & more & -> & Hp)].
  assert (Ha : active_ip ctx' (dp_chaddr req) = Some ip) by (rewrite Hc'; apply update_record_active).
  split_and!; [|done|].
  - destruct (make_reply_total ctx' req DHCP_ACK ip) as (p' & E & Hy & _ & Hc & Ho); [by_eval|].
    rewrite Hp in E. injection E as <-. exists p, more. split_and!; [done..|]. rewrite Ho. by constructor.
  - intros Hs. unfold allocate_next_ip.
    assert (E : static_ip ctx' (dp_chaddr req) = None).
    { unfold static_ip, find_static_lease_by_mac, dc_lan in *. by rewrite Hc', update_record_config. }
    by rewrite E, Ha.
Qed.

(** A new client's record is appended. *)
Lemma update_record_append ctx now mac ip hostname :
  find_lease_by_mac ctx mac = None -> (length (dc_leases ctx) < 254)%nat ->
  dc_leases (update_lease_record ctx now mac ip hostname)
  = dc_leases ctx ++ [write_lease ctx now mac ip hostname zero_lease].
Proof.
  intros Hn Hl. unfold update_lease_record, lease_slot. rewrite Hn.
  rewrite (proj2 (Z.ltb_lt _ _)) by (unfold MAX_DHCP_LEASES; lia). cbn [set_leases dc_leases].
  rewrite alter_app_r_alt by lia. by rewrite Nat.sub_diag.
Qed.

(** An address that was given back is given out twice.  When the client that held an address
    releases it and another is acknowledged the same address, the search of the pool still sees the
    released entry first: for every further client the address counts as free, while the second
    client's lease on it is active. *)
Theorem released_address_given_twice envA reqA hA envB reqB hB ctx ctx1 ctx2 outA outB i ip
    (Hu : is_u32 ip) (Hroom : (length (dc_leases ctx) < 254)%nat)
    (Hheld : find_lease_by_ip ctx ip = Some i) (Hown : find_lease_by_mac ctx (dp_chaddr reqA) = Some i)
    (Hnew : find_lease_by_mac ctx (dp_chaddr reqB) = None)
    (Hrel : dhcp_message envA ctx reqA DHCP_RELEASE hA = Some (ctx1, outA))
    (Hask : requested_ip ctx1 reqB = Some ip)
    (Hreq : dhcp_message envB ctx1 reqB DHCP_REQUEST hB = Some (ctx2, outB)) :
  active_ip ctx2 (dp_chaddr reqB) = Some ip
  /\ forall mac, is_ip_reserved_by_static ctx2 ip mac = false -> taken ctx2 mac (ntohl ip) = false.
Proof.
  unfold dhcp_message in Hrel. change (DHCP_RELEASE =? DHCP_DISCOVER) with false in Hrel.
  change (DHCP_RELEASE =? DHCP_REQUEST) with false in Hrel. change (DHCP_RELEASE =? DHCP_RELEASE) with true in Hrel.
  cbv iota in Hrel. rewrite Hown in Hrel. injection Hrel as Hc1 _.
  set (rel := set_active false) in *.
  destruct (request_message _ _ _ _ _ _ _ Hask Hreq) as [Hc2 _].
  apply find_lease_Some in Hheld as (x & Hx & Hxi & Hmin).
  assert (Hl1 : dc_leases ctx1 = alter rel i (dc_leases ctx)) by (by rewrite <- Hc1).
  assert (Hn1 : find_lease_by_mac ctx1 (dp_chaddr reqB) = None).
  { apply find_lease_None in Hnew. apply find_lease_None. rewrite Hl1. apply Forall_alter; [done|]. done. }
  assert (Hl2 : dc_leases ctx2 = alter rel i (dc_leases ctx)
    ++ [write_lease ctx1 (dv_time envB) (dp_chaddr reqB) ip hB zero_lease]).
  { rewrite Hc2, update_record_append, Hl1; [done|done|]. by rewrite Hl1, length_alter. }
  assert (Hi2 : dc_leases ctx2 !! i = Some (rel x)).
  { rewrite Hl2. apply lookup_app_l_Some. by rewrite list_lookup_alter_eq, Hx. }
  split; [rewrite Hc2; apply update_record_active|]. intros mac Hres.
  unfold taken. rewrite bswap32_invol by done. rewrite Hres. cbn [orb].
  unfold find_lease_by_ip. rewrite (find_lease_first _ _ i (rel x) Hi2 Hxi).
  - unfold lease_at. cbn [mbind option_bind]. by rewrite Hi2.
  - intros j y Hj Hy. apply lookup_lt_Some in Hx. rewrite Hl2, lookup_app_l in Hy by (rewrite length_alter; lia).
    rewrite list_lookup_alter_ne in Hy by lia. by apply (Hmin j).
Qed.

(** Any address asked for is granted: when a client asks for an address on which another one has an
    active lease, both have active leases on it afterwards. *)
Theorem request_ignores_other_leases env ctx req h ctx' out ip j l
    (Hroom : (length (dc_leases ctx) < 254)%nat)
    (Hj : dc_leases ctx !! j = Some l) (Hact : dl_is_active l = true) (Hl : dl_ip_addr l = ip)
    (Hother : mac_eq (dl_mac_addr l) (dp_chaddr req) = false)
    (Hip : requested_ip ctx req = Some ip)
    (Hm : dhcp_message env ctx req DHCP_REQUEST h = Some (ctx', out)) :
  dc_leases ctx' !! j = Some l /\ active_ip ctx' (dp_chaddr req) = Some ip.
Proof.
  destruct (request_message _ _ _ _ _ _ _ Hip Hm) as [-> _]. split; [|apply update_record_active].
  destruct (find_lease_by_mac ctx (dp_chaddr req)) as [i|] eqn:Ei.
  - unfold update_lease_record, lease_slot. rewrite Ei. cbn [set_leases dc_leases].
    apply find_lease_Some in Ei as (x & Hx & Hp & _).
    rewrite list_lookup_alter_ne; [done|]. intros ->. congruence.
  - rewrite update_record_append by done. by apply lookup_app_l_Some.
Qed.

(** ** Witnesses *)

Module DhcpDemo.
Definition lan : lan_config_t :=
  LanConfig "br0" (str_to_ip "192.168.1.1") (str_to_ip "255.255.255.0") true (str_to_ip "192.168.1.100")
    (str_to_ip "192.168.1.103") 3600 0 [] [StaticLease [] [2; 0; 0; 0; 0; 9] (str_to_ip "192.168.1.50") "nas" true] []
    (QosConfig false [] 0 0 false) (DnsFeatures false false "9.9.9.9" [] false).
Definition config : fluxwan_config_t :=
  let c := sample_config in
  set_c_lan lan c.
Definition start : dhcp_start := DhcpStart true true true 1000.
Definition ctx0 : dhcp_server_ctx := default (DhcpCtx false config []) (dhcp_server_init start config).

Definition options (o : list Z) : list Z := o ++ DHCP_OPT_END :: replicate (307 - length o) 0.
Definition message (mac : Z) (o : list Z) : dhcp_packet :=
  DhcpPacket 1 1 6 0 77 0 0 0 0 0 0 ([2; 0; 0; 0; 0; mac] ++ replicate 10 0) (replicate 64 0) (replicate 128 0)
    (htonl DHCP_MAGIC_COOKIE) (options o).
Definition discover (mac : Z) : dhcp_packet := message mac [53; 1; 1].
Definition request (mac : Z) : dhcp_packet := message mac [53; 1; 3; 50; 4; 192; 168; 1; 100].
Definition release (mac : Z) : dhcp_packet := message mac [53; 1; 7].
Definition env (d : list Z) : dhcp_env := DhcpEnv 2000 (Some d) (replicate 548 0) true.

Lemma lan_well_typed : lan_ok (c_lan config).
Proof.
  split; [by_eval..| |by apply Nat.leb_le]. constructor; [|constructor]. split; [split; [|reflexivity]|by_eval].
  repeat (constructor; [by_eval|]). constructor.
Qed.
Lemma ctx0_ok : ctx_ok ctx0.
Proof. apply (init_ok start config); [apply lan_well_typed|by_eval|vm_compute; reflexivity]. Qed.
Lemma message_ok mac o : is_u8 mac -> bytes_ok o -> (length o <= 307)%nat -> req_ok (message mac o).
Proof.
  intros Hm Ho Hl.
  assert (Hz : forall n, bytes_ok (replicate n 0)) by (intros n; apply Forall_replicate; by_eval).
  split; cbn [message dp_htype dp_hlen dp_xid dp_flags dp_ciaddr dp_chaddr dp_options]; try by_eval.
  - apply Forall_app. split; [|apply Hz]. repeat (constructor; [cint|]). by constructor.
  - apply Forall_app. split; [done|]. constructor; [by_eval|apply Hz].
  - unfold options. rewrite length_app. cbn [length]. rewrite length_replicate. lia.
Qed.
Lemma env_well_typed d : bytes_ok d -> env_ok (env d).
Proof.
  intros Hd. split; [by_eval|by intros ? [= <-]|apply Forall_replicate; by_eval|reflexivity].
Qed.

Definition after (env : dhcp_env) (req : dhcp_packet) (type : Z) (ctx : dhcp_server_ctx)
    : dhcp_server_ctx * list (Z * dhcp_packet) :=
  default (ctx, []) (dhcp_message env ctx req type []).

Lemma dhcp_table_typed_witness : table_ok (dc_leases (dhcp_server_update_client_traffic ctx0 5 10 20).1).
Proof.
  apply (dhcp_table_typed start config ctx0); [apply lan_well_typed|by_eval|vm_compute; reflexivity|].
  apply rtc_once, step_traffic; by_eval.
Defined.

(** A request of 548 bytes that ends with an empty message type option. *)
Definition bad_datagram : list Z :=
  take 240 (packet_bytes (discover 1)) ++ replicate 306 0 ++ [DHCP_OPT_MSG_TYPE; 0].

Lemma dhcp_fault_iff_witness : dhcp_server_process (env bad_datagram) ctx0 = None.
Proof.
  apply (dhcp_fault_iff (env bad_datagram) ctx0 bad_datagram).
  - apply env_well_typed. apply Forall_app. split; [|apply Forall_app; split].
    + vm_compute. repeat (constructor; [split; (discriminate || reflexivity)|]). constructor.
    + apply Forall_replicate. by_eval.
    + repeat (constructor; [by_eval|]). constructor.
  - apply ctx0_ok.
  - reflexivity.
  - reflexivity.
  - vm_compute. split; reflexivity.
Defined.

Lemma allocation_terminates_witness :
  exists ip, allocate_next_ip ctx0 [2; 0; 0; 0; 0; 1] = Some ip /\ ip = str_to_ip "192.168.1.100".
Proof.
  destruct (allocation_terminates ctx0 [2; 0; 0; 0; 0; 1] ctx0_ok) as [ip [Hip _]].
  exists ip. split; [exact Hip|]. vm_compute in Hip. injection Hip as <-. reflexivity.
Defined.

Lemma discover_offers_witness :
  exists p more, (after (env []) (discover 1) DHCP_DISCOVER ctx0).2 = (4294967295, p) :: more.
Proof.
  pose proof (discover_offers (env []) ctx0 (discover 1) []
    (after (env []) (discover 1) DHCP_DISCOVER ctx0).1 (after (env []) (discover 1) DHCP_DISCOVER ctx0).2
    ctx0_ok ltac:(vm_compute; reflexivity) ltac:(vm_compute; reflexivity)) as H.
  destruct (pool_bounds ctx0) as [s e]. destruct H as [_ [[H _] | (p & more & H & _)]]; [vm_compute in H; discriminate|].
  exists p, more. exact H.
Defined.

Lemma reply_reads_back_witness :
  exists p, make_reply ctx0 (discover 1) DHCP_OFFER 5 = Some p /\ packet_of_bytes (packet_bytes p) = p.
Proof.
  destruct (make_reply ctx0 (discover 1) DHCP_OFFER 5) as [p|] eqn:E; [|vm_compute in E; discriminate].
  exists p. split; [reflexivity|]. refine (proj1 (reply_reads_back ctx0 (discover 1) DHCP_OFFER 5 p ctx0_ok _ _ _ E)).
  - apply message_ok; [by_eval|repeat (constructor; [by_eval|]); constructor|cbn; lia].
  - by_eval.
  - by_eval.
Defined.

Lemma request_binds_witness :
  active_ip (after (env []) (request 1) DHCP_REQUEST ctx0).1 [2; 0; 0; 0; 0; 1] = Some (str_to_ip "192.168.1.100").
Proof.
  refine (proj1 (proj2 (request_binds (env []) ctx0 (request 1) [] (after (env []) (request 1) DHCP_REQUEST ctx0).1
    (after (env []) (request 1) DHCP_REQUEST ctx0).2 _ _ _))).
  - vm_compute. reflexivity.
  - vm_compute. reflexivity.
Defined.

(** Clients 1, 2 and 3: the first releases its address, the second gets it, and so does the third. *)
Definition ctx1 : dhcp_server_ctx := (after (env []) (request 1) DHCP_REQUEST ctx0).1.
Definition ctx2 : dhcp_server_ctx := (after (env []) (release 1) DHCP_RELEASE ctx1).1.
Definition ctx3 : dhcp_server_ctx := (after (env []) (request 2) DHCP_REQUEST ctx2).1.

Lemma released_address_given_twice_witness :
  active_ip ctx3 [2; 0; 0; 0; 0; 2] = Some (str_to_ip "192.168.1.100")
  /\ taken ctx3 [2; 0; 0; 0; 0; 3] (ntohl (str_to_ip "192.168.1.100")) = false
  /\ allocate_next_ip ctx3 [2; 0; 0; 0; 0; 3] = Some (str_to_ip "192.168.1.100").
Proof.
  destruct (released_address_given_twice (env []) (release 1) [] (env []) (request 2) [] ctx1 ctx2 ctx3 []
    (after (env []) (request 2) DHCP_REQUEST ctx2).2 1%nat (str_to_ip "192.168.1.100")) as [H1 H2].
  - by_eval.
  - apply Nat.ltb_lt. vm_compute. reflexivity.
  - vm_compute. reflexivity.
  - vm_compute. reflexivity.
  - vm_compute. reflexivity.
  - vm_compute. reflexivity.
  - vm_compute. reflexivity.
  - vm_compute. reflexivity.
  - split; [exact H1|]. split; [apply H2; vm_compute; reflexivity|vm_compute; reflexivity].
Defined.

Lemma request_ignores_other_leases_witness :
  active_ip (after (env []) (request 2) DHCP_REQUEST ctx1).1 [2; 0; 0; 0; 0; 2] = Some (str_to_ip "192.168.1.100")
  /\ active_ip (after (env []) (request 2) DHCP_REQUEST ctx1).1 [2; 0; 0; 0; 0; 1] = Some (str_to_ip "192.168.1.100").
Proof.
  destruct (dc_leases ctx1 !! 1%nat) as [l|] eqn:E; [|vm_compute in E; discriminate].
  destruct (request_ignores_other_leases (env []) ctx1 (request 2) []
    (after (env []) (request 2) DHCP_REQUEST ctx1).1 (after (env []) (request 2) DHCP_REQUEST ctx1).2
    (str_to_ip "192.168.1.100") 1%nat l) as [_ H].
  - apply Nat.ltb_lt. vm_compute. reflexivity.
  - exact E.
  - vm_compute in E. injection E as <-. reflexivity.
  - vm_compute in E. injection E as <-. reflexivity.
  - vm_compute in E. injection E as <-. vm_compute. reflexivity.
  - vm_compute. reflexivity.
  - vm_compute. reflexivity.
  - split; [exact H|vm_compute; reflexivity].
Defined.
End DhcpDemo.
